(* ===== verification/_CoqProject ===== *)
-Q . S2P
Prelude.v
Effects.v
GoNet.v
NetFacts.v
GoStrings.v
Json.v
GoUrl.v
GoSort.v
JsonPrint.v
WorkloadApi.v
GcpApi.v
Api.v
Sha256.v
Resources.v
Subnets.v
ClusterVpc.v
NetworkProvider.v
NetworkProps.v
AwsConfig.v
Metrics.v
AwsPostgres.v
AwsRedis.v
Strategies.v
ClientUtil.v
Controllers.v
OpenShift.v
GoFloat.v
CloudMetrics.v
Snapshots.v
BlobStorage.v
GcpConfig.v
GcpSql.v
GcpSnapshots.v
GcpNetwork.v
GcpRedis.v
GcpPostgres.v
GcpMetrics.v
GcpStrategies.v
Footprints.v
AwsPostgresProps.v
AwsRedisProps.v
ControllerProps.v
ControllerAws.v
GcpNetworkProps.v
GcpSqlProps.v
GcpRedisProps.v
GcpPostgresProps.v
OpenShiftProps.v
CloudMetricsProps.v
SnapshotProps.v
GcpSnapshotProps.v
GcpMetricsProps.v
AwsConfigProps.v
StrategyProps.v
GcpStrategyProps.v
BlobStorageProps.v
Sim.v
NetworkRuns.v
AwsRuns.v
AwsRedisRuns.v
ControllerRuns.v
SnapshotRuns.v
BlobStorageRuns.v
StrategyRuns.v
OpenShiftRuns.v
CloudMetricsRuns.v
ClientRuns.v
GcpRuns.v
GcpPostgresRuns.v
GcpMetricsRuns.v
GcpStrategyRuns.v
