(* ===== verification/Prelude.v ===== *)
(** * Verification of the cloud-resource-operator

    The operator (src/, Go) provisions Postgres, Redis and blob storage for an
    OpenShift cluster.  A controller fetches a custom resource, picks the provider
    its deployment type asks for and lets it create or delete the resource: in AWS
    (RDS, ElastiCache, S3), in Google Cloud (Cloud SQL, Memorystore), or in the cluster
    itself (deployments).  The cloud providers keep a network of their own beside the
    cluster.  Further controllers take snapshots and scrape metrics, and a client
    package that another operator calls asks for resources and sets their maintenance
    windows.  This development models the controllers, the providers and the client with
    everything they call in the packages of the operator, and proves what makes them
    safe: when instances, groups, networks, snapshots and finalizers are created,
    modified and removed, what is written in the status and in the secrets, which blocks
    of addresses are used, and which values end up in the gauges.

    ** The shape of the model

    Go functions are programs of [Effects]: free programs over the calls of [Api]
    (Kubernetes, AWS, Google Cloud, environment, clock, files, metrics), in a monad
    [M S E A] with a state [S] (the custom resource that Go changes through a pointer),
    errors [E] and panics.  The outcomes are [Val], [Err] and [Panic]; a nil
    dereference, an index out of range and [panic] are [Panic].  [runs m tr r] says that
    [m] can make exactly the calls of [tr], given the answers recorded there, and end
    with [r]; the answers are arbitrary, so a theorem about every run holds whatever the
    cloud and other clients do between two calls.  [defer], [try] (an inspected error),
    [onErr] (a wrapped one) are the constructs of the code.  [sat P R m] states which
    calls a program may make and how it may change the state; [go_sat] proves it
    by walking through the body.  Where the code starts goroutines
    ([GcpMetrics.getMetrics]) the call [Schedule] asks for the next step among those
    that are possible, and an inductive step relation describes the same machine.

    ** The files

    Prelude and Go:
    - [Prelude], [Effects]: errors, wrapping, lists, options; programs and runs.
    - [GoNet], [NetFacts], [GoStrings], [GoUrl], [GoFloat], [GoSort], [Json],
      [JsonPrint], [Sha256]: what is used of Go's net, strings, strconv, net/url,
      float64, sort, encoding/json and crypto/sha256; all but [GoSort], a class with
      what sort.Slice promises, are executable.
    - [WorkloadApi] (deployments, services, claims, pods), [GcpApi] (Google Cloud),
      [Api]: the objects and the calls.

    Shared packages:
    - [Resources] (pkg/resources, pkg/annotations), [Metrics]
      (custom_metrics.go, labels.go): tags, names, finalizers, phases, passwords,
      look-ups; the map of gauge vectors.

    AWS (pkg/providers/aws):
    - [Subnets]: the CIDR arithmetic of cluster_vpc.go and
      cluster_network_provider.go.  [ClusterVpc]: the bundled network.
      [NetworkProvider], [NetworkProps]: the standalone network.
    - [AwsConfig], [AwsConfigProps]: config.go, credentials.go,
      credentials_sts_manager.go, internal/k8sutil.
    - [AwsPostgres], [AwsPostgresProps]; [AwsRedis], [AwsRedisProps]:
      provider_postgres.go and provider_redis.go.  [Footprints]: which calls their
      parts make.  [BlobStorage], [BlobStorageProps]: provider_blobstorage.go.
    - [Snapshots], [SnapshotProps]: the snapshot providers and both snapshot
      controllers.
    - [CloudMetrics], [CloudMetricsProps]: the cloud metrics controller and the
      CloudWatch providers.

    Google Cloud (pkg/providers/gcp with gcpiface):
    - [GcpConfig]: config.go, credentials.go, tags.go.  [GcpNetwork],
      [GcpNetworkProps]: the address range, the service connection, the peering.
    - [GcpRedis], [GcpRedisProps]: Memorystore.  [GcpSql], [GcpSqlProps]: the
      description of a Cloud SQL instance and the message that is made of it.
      [GcpPostgres], [GcpPostgresProps]: Cloud SQL.  [GcpSnapshots],
      [GcpSnapshotProps]: its snapshots, and their schedule.
    - [GcpMetrics], [GcpMetricsProps]: the Cloud Monitoring providers.

    OpenShift (pkg/providers/openshift): [OpenShift], [OpenShiftProps].

    Controllers (controllers/): [Controllers], [ControllerProps], [ControllerAws]:
    the reconcile loops, providers/config.go and resources/provider.go, over a record
    of provider operations; [StatusFrame] is the class of what a controller relies on,
    with instances for the AWS, Google Cloud and OpenShift providers.

    The client (pkg/client): [ClientUtil] (util.go); [Strategies], [StrategyProps]
    (types/types.go, aws/strategies_aws.go); [GcpStrategies], [GcpStrategyProps]
    (gcp/strategies_gcp.go, strategies.go).

    Concrete runs: [Sim] is a small simulated cloud and cluster; [NetworkRuns],
    [AwsRuns], [AwsRedisRuns], [ControllerRuns], [SnapshotRuns], [BlobStorageRuns],
    [StrategyRuns], [OpenShiftRuns], [CloudMetricsRuns], [ClientRuns], [GcpRuns],
    [GcpPostgresRuns], [GcpMetricsRuns], [GcpStrategyRuns] use it only to show that the
    hypotheses of the theorems can hold.

    ** What the theorems show

    - Controllers: a successful reconcile refines an abstract description of its four
      outcomes; an object is complete only when its secret holds the details of an
      available instance; details survive the secret.
    - RDS, ElastiCache, S3, Cloud SQL, Memorystore: creation, modification and deletion
      happen only under the conditions the code is there to check; the modification
      that is asked for is the difference to the configuration, and one modification
      converges; the message that is made of a description sends what the description
      says; the finalizer goes last.
    - Networks: the blocks are well formed and disjoint from the cluster's; a
      peering is unique; deletion is in order.
    - Snapshots: created once, complete only when available; the schedule spares the
      newest complete snapshot and deletes only what has expired.
    - OpenShift: credentials are kept; nothing is written once all is as asked for.
    - Metrics: every resource is scraped and every value exposed; what the goroutines of
      Google Cloud's metrics may return under any schedule, that they never deadlock,
      and that they end.
    - Strategies: the windows that are written are read back by the providers, all else
      is kept, and the second time nothing is written.
    - Configuration and credentials: never empty.
    - Error theorems state what the code does where it does not do what it means to.

    ** Bounds and fuel

    Polling loops ([poll]) are programs over a clock call that decides when
    the time is over; the search for the default block recurs on the remaining
    number of candidates, which [Subnets.findDefaultCIDR_first_free] shows to be
    enough; the collector of the metrics recurs on [stepsLeft], an upper bound of the
    steps that are left ([GcpMetricsProps]).  Integers of Go are [Z]; conversions that
    can wrap are written out ([wrap64], [wrap32], bytes modulo 256).

    ** Parameters

    Third-party code is a class with what is used of it: [ThirdParty] (go-version, the
    codec of provider specs, the printer of zones), [K8sTypes] and [GcpTypes] (decoding
    of Kubernetes and Google messages, DeepEqual, durations, enumerations), [GoSort],
    [MessageCodec] with [MessageLaws] (messages written as JSON).  The runs instantiate
    them.

    ** Not modelled

    Logging.  The schemes and the registration of controllers (main.go, New,
    SetupWithManager): calls of third-party libraries only.  Test doubles (fake,
    *_moq.go, the Mock types of gcpiface) and generated deep copies.  Contexts, and
    concurrency between reconciles: one run is sequential, its environment is arbitrary;
    of the goroutines of [getMetrics] the calls of one are not interleaved with those of
    another, as they do not share anything but the channels.  Go maps are finite maps,
    so the order of iteration does not show. *)

From Stdlib Require Export ZArith Lia.
From Stdlib Require Import Ascii.
From stdpp Require Export base tactics list strings gmap.

#[global] Set Default Goal Selector "!".

Declare Scope go_scope.
Delimit Scope go_scope with go.

(** ** Errors

    A Go [error] as the operator produces and inspects them: an error of the
    AWS SDK ([awserr.Error], with its code and its text), an API error of the
    Kubernetes client (with its [StatusReason]), an error of a Google API (with the
    status of HTTP or the code of gRPC), a plain error, and an error
    wrapped by [github.com/pkg/errors] ([Wrap], [Wrapf]). *)
Inductive k8s_reason :=
  | NotFound
  | Conflict
  | OtherReason (r : string).

Inductive error :=
  | AwsErr (code text : string)
  | K8sErr (reason : k8s_reason) (text : string)
  | GoogleErr (code : Z) (text : string)
  | GrpcErr (code : Z) (text : string)
  | GoErr (text : string)
  | WrapErr (cause : error) (msg : string).

(** [err.Error()] *)
Fixpoint Error (e : error) : string :=
  match e with
  | AwsErr _ t => t
  | K8sErr _ t => t
  | GoogleErr _ t => t
  | GrpcErr _ t => t
  | GoErr t => t
  | WrapErr c m => m +:+ ": " +:+ Error c
  end.

(** The type assertion [err.(awserr.Error)] followed by [.Code()]: it looks at
    the error itself and not through the wrappers. *)
Definition aws_code (e : error) : option string :=
  match e with AwsErr c _ => Some c | _ => None end.

(** [k8s.io/apimachinery/pkg/api/errors.IsNotFound]: looks through wrappers. *)
Fixpoint IsNotFound (e : error) : bool :=
  match e with
  | K8sErr NotFound _ => true
  | WrapErr c _ => IsNotFound c
  | _ => false
  end.

(** What a fallible call of a library answers: a value or an error. *)
Inductive result (A : Type) :=
  | Ok (a : A)
  | Er (e : error).
Arguments Ok {A} a.
Arguments Er {A} e.

(** [aws.StringValue]: the pointed-to string, or the empty string for nil. *)
Definition StringValue (p : option string) : string :=
  match p with Some s => s | None => "" end.

(** ** List lemmas shared by the components *)

Lemma Forall_app_intro {A} (P : A → Prop) l k :
  Forall P l → Forall P k → Forall P (l ++ k).
Proof. intros; by apply Forall_app. Qed.

Lemma find_Some_In {A} (f : A → bool) l x :
  List.find f l = Some x → x ∈ l ∧ f x = true.
Proof.
  intros H. apply List.find_some in H as [H1 H2].
  split; [by apply list_elem_of_In | done].
Qed.

Lemma find_None_In {A} (f : A → bool) l x :
  List.find f l = None → x ∈ l → f x = false.
Proof. intros H Hx. eapply List.find_none; [done | by apply list_elem_of_In]. Qed.

Lemma existsb_In {A} (f : A → bool) l :
  existsb f l = true ↔ ∃ x, x ∈ l ∧ f x = true.
Proof.
  rewrite existsb_exists. split; intros (x & H & Hf); exists x; split; auto;
    by apply list_elem_of_In.
Qed.

Lemma existsb_false_In {A} (f : A → bool) l x :
  existsb f l = false → x ∈ l → f x = false.
Proof.
  intros H Hx. destruct (f x) eqn:E; [|done].
  assert (existsb f l = true) by (apply existsb_In; eauto). congruence.
Qed.

Lemma forallb_In {A} (f : A → bool) l :
  forallb f l = true ↔ ∀ x, x ∈ l → f x = true.
Proof.
  rewrite forallb_forall. split; intros H x Hx; apply H;
    by apply list_elem_of_In.
Qed.

(** ** Strings *)

Lemma string_app_nil_r (s : string) : s +:+ "" = s.
Proof. induction s as [|c s IH]; [done|]. change (String c (s +:+ "") = String c s). by rewrite IH. Qed.
Lemma string_app_assoc (s t u : string) : s +:+ (t +:+ u) = (s +:+ t) +:+ u.
Proof.
  induction s as [|c s IH]; [done|].
  change (String c (s +:+ (t +:+ u)) = String c ((s +:+ t) +:+ u)). by rewrite IH.
Qed.

(** ** Loops

    [whileN n step s] iterates [step] from [s] until it answers [inr], at most
    [2 ^ n] times; [inl] is the state it reached when it did not end.  The
    binary fuel keeps large bounds executable. *)
Fixpoint whileN {S A} (n : nat) (step : S → S + A) (s : S) : S + A :=
  match n with
  | O => step s
  | S n' => match whileN n' step s with
            | inl s' => whileN n' step s'
            | inr a => inr a
            end
  end.

Fixpoint steps {S A} (step : S → S + A) (n : nat) (s : S) : S + A :=
  match n with
  | O => inl s
  | S n' => match step s with inl s' => steps step n' s' | inr a => inr a end
  end.

Lemma steps_add {S A} (step : S → S + A) n m s :
  steps step (n + m) s =
  match steps step n s with inl s' => steps step m s' | inr a => inr a end.
Proof.
  revert s. induction n as [|n IH]; intros s; simpl; [done|].
  destruct (step s); [apply IH|done].
Qed.

Lemma whileN_steps {S A} (step : S → S + A) n s :
  whileN n step s = steps step (2 ^ n) s.
Proof.
  revert s. induction n as [|n IH]; intros s.
  - simpl. by destruct (step s).
  - simpl whileN. rewrite Nat.pow_succ_r'.
    replace (2 * 2 ^ n)%nat with (2 ^ n + 2 ^ n)%nat by lia.
    rewrite steps_add, IH. destruct (steps step (2 ^ n) s); [apply IH|done].
Qed.

Lemma whileN_of_steps {S A} (step : S → S + A) n m s a :
  steps step m s = inr a → (m ≤ 2 ^ n)%nat → whileN n step s = inr a.
Proof.
  intros H Hm. rewrite whileN_steps.
  replace (2 ^ n)%nat with (m + (2 ^ n - m))%nat by lia. by rewrite steps_add, H.
Qed.

(** The loop ends within [N] iterations and its result satisfies [Q], when an
    invariant indexed by the number of iterations says so. *)
Lemma whileN_inv {S A} (step : S → S + A) (P : nat → S → Prop) (Q : A → Prop) N n s :
  P 0%nat s →
  (∀ i s, P i s → match step s with inl s' => P (Datatypes.S i) s' | inr a => Q a end) →
  (∀ i s, P i s → (i ≤ N)%nat) →
  (N < 2 ^ n)%nat →
  ∃ a, whileN n step s = inr a ∧ Q a.
Proof.
  intros H0 Hs HN Hn. rewrite whileN_steps.
  assert (∀ m i s, P i s → match steps step m s with
                           | inl s' => P (i + m)%nat s' | inr a => Q a end) as L.
  { induction m as [|m IH]; intros i s' H; simpl; [by rewrite Nat.add_0_r|].
    specialize (Hs i s' H). destruct (step s') as [s1|a]; [|done].
    specialize (IH _ _ Hs). destruct (steps step m s1); [|done].
    by rewrite Nat.add_succ_r. }
  specialize (L (2 ^ n)%nat 0%nat s H0). destruct (steps step (2 ^ n) s) as [s'|a]; [|eauto].
  apply HN in L. lia.
Qed.

(** A loop whose step never answers [inr] on an invariant never ends. *)
Lemma whileN_diverges {S A} (step : S → S + A) (P : S → Prop) n s :
  P s → (∀ s, P s → ∃ s', step s = inl s' ∧ P s') → ∃ s', whileN n step s = inl s'.
Proof.
  intros H Hs. rewrite whileN_steps. generalize (2 ^ n)%nat as m. intros m.
  revert s H. induction m as [|m IH]; intros s H; simpl; [eauto|].
  destruct (Hs s H) as (s' & -> & H'). eauto.
Qed.

(** Deciding a closed proposition by evaluation. *)
Ltac decide_closed := apply (bool_decide_unpack _); vm_compute; exact I.
