(* ===== verification/Effects.v ===== *)
(** * Programs with effects

    The controllers and providers talk to the Kubernetes API, to the cloud
    APIs and to the process environment, and mutate the custom resource they
    were handed.  [prog] is the tree of the calls such a function makes, with
    a branch per answer; [M] adds the mutable object as an explicit state and
    the three ways a Go function ends: a value, an error, a run-time panic. *)
From S2P Require Import Prelude.

(** A signature of calls: each call fixes the type of its answer. *)
Class Sig := { call : Type; resp : call → Type }.

Section Prog.
Context {Σ : Sig}.

Inductive prog (A : Type) : Type :=
  | Ret (a : A)
  | Vis (c : call) (k : resp c → prog A).
Arguments Ret {A} a.
Arguments Vis {A} c k.

Fixpoint pbind {A B} (p : prog A) (f : A → prog B) : prog B :=
  match p with
  | Ret a => f a
  | Vis c k => Vis c (λ r, pbind (k r) f)
  end.

(** A call that was made together with its answer. *)
Inductive event := Ev (c : call) (r : resp c).
Definition ev_call (e : event) : call := let 'Ev c _ := e in c.

(** [runs p tr a]: against some environment, [p] makes exactly the calls of
    [tr], is given the answers recorded there, and ends with [a]. *)
Fixpoint runs {A} (p : prog A) (tr : list event) (a : A) : Prop :=
  match p with
  | Ret x => tr = [] ∧ a = x
  | Vis c k => ∃ r tr', tr = Ev c r :: tr' ∧ runs (k r) tr' a
  end.

(** Running a program against a simulated environment. *)
Fixpoint exec {W A} (h : ∀ c : call, W → resp c * W) (p : prog A) (w : W)
  : list event * A * W :=
  match p with
  | Ret a => ([], a, w)
  | Vis c k =>
      let '(r, w') := h c w in
      let '(tr, a, w'') := exec h (k r) w' in
      (Ev c r :: tr, a, w'')
  end.

Lemma exec_runs {W A} (h : ∀ c : call, W → resp c * W) (p : prog A) w :
  runs p (exec h p w).1.1 (exec h p w).1.2.
Proof.
  revert w. induction p as [a|c k IH]; intros w; simpl; [done|].
  destruct (h c w) as [r w'] eqn:E.
  specialize (IH r w').
  destruct (exec h (k r) w') as [[tr a] w''] eqn:E'; simpl in *. eauto.
Qed.

Lemma runs_pbind {A B} (p : prog A) (f : A → prog B) tr b :
  runs (pbind p f) tr b ↔
  ∃ t1 a t2, tr = t1 ++ t2 ∧ runs p t1 a ∧ runs (f a) t2 b.
Proof.
  split.
  - revert tr. induction p as [a|c k IH]; intros tr; simpl.
    + intros H. exists [], a, tr. done.
    + intros (r & tr' & -> & H). apply IH in H as (t1 & a & t2 & -> & H1 & H2).
      exists (Ev c r :: t1), a, t2. split; [done|]. split; [eauto|done].
  - intros (t1 & a & t2 & -> & H1 & H2). revert t1 H1.
    induction p as [x|c k IH]; intros t1; simpl.
    + intros [-> ->]. done.
    + intros (r & t' & -> & H). exists r, (t' ++ t2). eauto.
Qed.
End Prog.
Arguments prog {Σ} A.
Arguments Ret {Σ A} a.
Arguments Vis {Σ A} c k.

(** ** The Go monad *)

Inductive outcome (E A : Type) :=
  | Val (a : A)
  | Err (e : E)
  | Panic (why : string).
Arguments Val {E A} a.
Arguments Err {E A} e.
Arguments Panic {E A} why.

Definition nil_deref {E A} : outcome E A :=
  Panic "invalid memory address or nil pointer dereference".
Definition out_of_range {E A} : outcome E A := Panic "index out of range".

#[global] Instance outcome_ret {E} : MRet (outcome E) := λ A a, Val a.
#[global] Instance outcome_bind {E} : MBind (outcome E) := λ A B f o,
  match o with Val a => f a | Err e => Err e | Panic w => Panic w end.
(** Reading through a pointer: nil panics. *)
Definition load {E A} (p : option A) : outcome E A :=
  match p with Some a => Val a | None => nil_deref end.

(** Searching and filtering by a pointer field, which is dereferenced for each
    element visited. *)
Fixpoint findPtr {E A} (p : A → option string) (k : string) (l : list A)
  : outcome E (option A) :=
  match l with
  | [] => Val None
  | x :: l' => match p x with
               | None => nil_deref
               | Some v => if bool_decide (v = k) then Val (Some x) else findPtr p k l'
               end
  end.
Fixpoint filterPtr {E A} (p : A → option string) (k : option string) (l : list A)
  : outcome E (list A) :=
  match l with
  | [] => Val []
  | x :: l' => match p x, k with
               | Some v, Some k' =>
                   match filterPtr p k l' with
                   | Val r => Val (if bool_decide (v = k') then x :: r else r)
                   | o => o
                   end
               | _, _ => nil_deref
               end
  end.

(** The same search for a key that is a pointer itself, read for each element. *)
Definition findByPtr {E A} (p : A → option string) (k : option string) (l : list A)
  : outcome E (option A) :=
  match l with
  | [] => Val None
  | _ => match k with Some k' => findPtr p k' l | None => nil_deref end
  end.

Lemma findPtr_Some {E A} (p : A → option string) k l x :
  findPtr (E := E) p k l = Val (Some x) → x ∈ l ∧ p x = Some k.
Proof.
  induction l as [|y l IH]; simpl; [done|]. destruct (p y) as [v|] eqn:Ey; [|done].
  case_bool_decide as Hv.
  - intros [= ->]. subst. split; [constructor|done].
  - intros [? ?]%IH. split; [by constructor|done].
Qed.
Lemma findPtr_None {E A} (p : A → option string) k l x :
  findPtr (E := E) p k l = Val None → x ∈ l → p x ≠ Some k.
Proof.
  intros H Hx. revert H. induction Hx as [x l|x y l _ IH]; simpl.
  - destruct (p x); [|done]. case_bool_decide; [done|]. intros _ [= ->]. done.
  - destruct (p y); [|done]. case_bool_decide; [done|]. apply IH.
Qed.
Lemma filterPtr_spec {E A} (p : A → option string) k l r :
  filterPtr (E := E) p (Some k) l = Val r →
  r = List.filter (λ x, bool_decide (p x = Some k)) l.
Proof.
  revert r. induction l as [|y l IH]; intros r; simpl; [by intros [= <-]|].
  destruct (p y) as [v|]; [|done]. destruct (filterPtr p (Some k) l) as [r'| |]; [|done..].
  intros [= <-]. rewrite (IH r' eq_refl).
  rewrite (bool_decide_ext (Some v = Some k) (v = k)) by (split; [by intros [= ->]|by intros ->]).
  done.
Qed.

Lemma filterPtr_filter {E A} (p : A → option string) k l r :
  filterPtr (E := E) p k l = Val r → r = List.filter (λ x, bool_decide (p x = k)) l.
Proof.
  destruct k as [k|]; [apply filterPtr_spec|].
  destruct l as [|x l]; simpl; [by intros [= <-]|]. by destruct (p x).
Qed.

Definition M `{Sig} (S E A : Type) : Type := S → prog (outcome E A * S).

Section Monad.
Context {Σ : Sig} {S : Type}.

#[global] Instance M_ret {E} : MRet (M S E) := λ A a s, Ret (Val a, s).
#[global] Instance M_bind {E} : MBind (M S E) := λ A B f m s,
  pbind (m s) (λ '(o, s'), match o with
                           | Val a => f a s'
                           | Err e => Ret (Err e, s')
                           | Panic w => Ret (Panic w, s')
                           end).

Definition fail {E A} (e : E) : M S E A := λ s, Ret (Err e, s).
Definition panic {E A} (w : string) : M S E A := λ s, Ret (Panic w, s).
Definition get {E} : M S E S := λ s, Ret (Val s, s).
Definition put {E} (s : S) : M S E unit := λ _, Ret (Val tt, s).
Definition modify {E} (f : S → S) : M S E unit := λ s, Ret (Val tt, f s).

(** One call of the environment. *)
Definition invoke {E} (c : call) : M S E (resp c) :=
  λ s, Vis c (λ r, Ret (Val r, s)).

(** A result that is a value or an error, as in [v, err := f(); if err != nil]. *)
Definition ok {A} (m : M S error (result A)) : M S error A :=
  m ≫= λ r, match r with Ok a => mret a | Er e => fail e end.

(** [if err != nil { return f(err) }] after a call. *)
Definition onErr {E E' A} (f : E → E') (m : M S E A) : M S E' A := λ s,
  pbind (m s) (λ '(o, s'), Ret (match o with
                                | Val a => Val a
                                | Err e => Err (f e)
                                | Panic w => Panic w
                                end, s')).

(** The error of a call as a value, for code that inspects it. *)
Definition try {E E' A} (m : M S E A) : M S E' (A + E) := λ s,
  pbind (m s) (λ '(o, s'), Ret (match o with
                                | Val a => Val (inl a)
                                | Err e => Val (inr e)
                                | Panic w => Panic w
                                end, s')).

(** The outcome of code that makes no call. *)
Definition lift {E A} (o : outcome E A) : M S E A := λ s, Ret (o, s).

Definition liftR {A} (r : result A) : M S error A :=
  match r with Ok a => mret a | Er e => fail e end.

(** Reading through a pointer: nil panics. *)
Definition deref {E A} (p : option A) : M S E A :=
  match p with
  | Some a => mret a
  | None => panic "invalid memory address or nil pointer dereference"
  end.

(** [l[i]] on a slice. *)
Definition index {E A} (l : list A) (i : nat) : M S E A :=
  match l !! i with
  | Some a => mret a
  | None => panic "index out of range"
  end.

(** [for _, x := range l { body }] where the body may return an error. *)
Fixpoint forM {E A} (l : list A) (body : A → M S E unit) : M S E unit :=
  match l with
  | [] => mret tt
  | x :: l' => body x ≫= λ _, forM l' body
  end.

(** The same loop updating a local variable. *)
Fixpoint foldM {E A B} (body : B → A → M S E B) (b : B) (l : list A) : M S E B :=
  match l with
  | [] => mret b
  | x :: l' => body b x ≫= λ b', foldM body b' l'
  end.

(** [defer d]: [d] runs when the function ends, however it ends. *)
Definition defer {E E' A} (d : M S E' unit) (m : M S E A) : M S E A := λ s,
  pbind (m s) (λ '(o, s'),
    pbind (d s') (λ '(o', s''),
      Ret (match o' with Panic w => Panic w | _ => o end, s''))).
End Monad.

(** A computation over a part of the state, e.g. on an object while the
    caller's own state is left alone. *)
Definition withS {Σ : Sig} {S T E A} (t : T) (m : M T E A) : M S E (A * T) := λ s,
  pbind (m t) (λ '(o, t'), Ret (match o with
                                | Val a => Val (a, t')
                                | Err e => Err e
                                | Panic w => Panic w
                                end, s)).

Notation "m 'orWrap' msg" := (onErr (λ e, WrapErr e msg) m)
  (at level 15, left associativity, only parsing) : go_scope.
Notation "f 'onError' g" := (onErr g f)
  (at level 15, left associativity, only parsing) : go_scope.

(** ** Inversion of runs *)
Section Runs.
Context {Σ : Sig} {S : Type}.
Implicit Types (tr : list event).

Lemma runs_mret {E A} (a : A) (s s' : S) tr (o : outcome E A) :
  runs ((mret a : M S E A) s) tr (o, s') ↔ tr = [] ∧ o = Val a ∧ s' = s.
Proof. split; [intros [-> [= -> ->]]; done | intros (-> & -> & ->); done]. Qed.

Lemma runs_fail {E A} (e : E) (s s' : S) tr (o : outcome E A) :
  runs ((fail e : M S E A) s) tr (o, s') ↔ tr = [] ∧ o = Err e ∧ s' = s.
Proof. split; [intros [-> [= -> ->]]; done | intros (-> & -> & ->); done]. Qed.

Lemma runs_lift {E A} (x : outcome E A) (s s' : S) tr (o : outcome E A) :
  runs ((lift x : M S E A) s) tr (o, s') ↔ tr = [] ∧ o = x ∧ s' = s.
Proof. split; [intros [-> [= -> ->]]; done | intros (-> & -> & ->); done]. Qed.

Lemma runs_panic {E A} w (s s' : S) tr (o : outcome E A) :
  runs ((panic w : M S E A) s) tr (o, s') ↔ tr = [] ∧ o = Panic w ∧ s' = s.
Proof. split; [intros [-> [= -> ->]]; done | intros (-> & -> & ->); done]. Qed.

Lemma runs_invoke {E} c (s s' : S) tr (o : outcome E (resp c)) :
  runs ((invoke c : M S E _) s) tr (o, s') ↔
  ∃ r, tr = [Ev c r] ∧ o = Val r ∧ s' = s.
Proof.
  split.
  - intros (r & t & -> & -> & [= -> ->]). eauto.
  - intros (r & -> & -> & ->). exists r, []. done.
Qed.

Lemma runs_bind {E A B} (m : M S E A) (f : A → M S E B) (s s' : S) tr o :
  runs ((m ≫= f) s) tr (o, s') ↔
  (∃ t1 a s1 t2, tr = t1 ++ t2 ∧ runs (m s) t1 (Val a, s1) ∧
                 runs (f a s1) t2 (o, s')) ∨
  (∃ e, runs (m s) tr (Err e, s') ∧ o = Err e) ∨
  (∃ w, runs (m s) tr (Panic w, s') ∧ o = Panic w).
Proof.
  unfold mbind, M_bind. rewrite runs_pbind. split.
  - intros (t1 & [[a|e|w] s1] & t2 & -> & H1 & H2).
    + left. eauto 8.
    + destruct H2 as [-> [= -> ->]]. rewrite app_nil_r. right; left. eauto.
    + destruct H2 as [-> [= -> ->]]. rewrite app_nil_r. right; right. eauto.
  - intros [(t1 & a & s1 & t2 & -> & H1 & H2)|[(e & H & ->)|(w & H & ->)]].
    + exists t1, (Val a, s1), t2. eauto.
    + exists tr, (Err e, s'), []. rewrite app_nil_r. done.
    + exists tr, (Panic w, s'), []. rewrite app_nil_r. done.
Qed.

Lemma runs_onErr {E E' A} (f : E → E') (m : M S E A) (s s' : S) tr o :
  runs (onErr f m s) tr (o, s') ↔
  ∃ o', runs (m s) tr (o', s') ∧
        o = match o' with Val a => Val a | Err e => Err (f e) | Panic w => Panic w end.
Proof.
  unfold onErr. rewrite runs_pbind. split.
  - intros (t1 & [o' s1] & t2 & -> & H1 & [-> [= -> ->]]).
    rewrite app_nil_r. eauto.
  - intros (o' & H & ->). exists tr, (o', s'), []. rewrite app_nil_r. done.
Qed.

Lemma runs_try {E E' A} (m : M S E A) (s s' : S) tr (o : outcome E' (A + E)) :
  runs (try m s) tr (o, s') ↔
  ∃ o', runs (m s) tr (o', s') ∧
        o = match o' with
            | Val a => Val (inl a) | Err e => Val (inr e) | Panic w => Panic w
            end.
Proof.
  unfold try. rewrite runs_pbind. split.
  - intros (t1 & [o' s1] & t2 & -> & H1 & [-> [= -> ->]]).
    rewrite app_nil_r. eauto.
  - intros (o' & H & ->). exists tr, (o', s'), []. rewrite app_nil_r. done.
Qed.

Lemma runs_ok {A} (m : M S error (result A)) (s s' : S) tr o :
  runs (ok m s) tr (o, s') ↔
  (∃ a, runs (m s) tr (Val (Ok a), s') ∧ o = Val a) ∨
  (∃ e, runs (m s) tr (Val (Er e), s') ∧ o = Err e) ∨
  (∃ e, runs (m s) tr (Err e, s') ∧ o = Err e) ∨
  (∃ w, runs (m s) tr (Panic w, s') ∧ o = Panic w).
Proof.
  unfold ok. rewrite runs_bind. split.
  - intros [(t1 & [a|e] & s1 & t2 & -> & H1 & [-> [= -> ->]])|
            [(e & H & ->)|(w & H & ->)]];
      rewrite ?app_nil_r; [left|right; left|right; right; left|right; right; right];
      eauto.
  - intros [(a & H & ->)|[(e & H & ->)|[(e & H & ->)|(w & H & ->)]]].
    + left. exists tr, (Ok a), s', []. rewrite app_nil_r. done.
    + left. exists tr, (Er e), s', []. rewrite app_nil_r. done.
    + right; left; eauto.
    + right; right; eauto.
Qed.

End Runs.

(** ** Runs that succeed, and runs that make a given call *)
Section RunsVal.
Context {Σ : Sig} {S : Type}.
Implicit Types (tr : list event).

Lemma runs_bind_Val {E A B} (m : M S E A) (f : A → M S E B) (s s' : S) tr b :
  runs (mbind f m s) tr (Val b, s') →
  ∃ t1 a s1 t2, tr = t1 ++ t2 ∧ runs (m s) t1 (Val a, s1) ∧ runs (f a s1) t2 (Val b, s').
Proof. intros [?|[(? & _ & ?)|(? & _ & ?)]]%runs_bind; done. Qed.
Lemma runs_onErr_Val {E E' A} (f : E → E') (m : M S E A) (s s' : S) tr a :
  runs (onErr f m s) tr (Val a, s') → runs (m s) tr (Val a, s').
Proof. intros ([] & H & [= ->])%runs_onErr. done. Qed.
Lemma runs_ok_Val {A} (m : M S error (result A)) (s s' : S) tr a :
  runs (ok m s) tr (Val a, s') → runs (m s) tr (Val (Ok a), s').
Proof.
  intros [(? & H & [= ->])|[(? & _ & ?)|[(? & _ & ?)|(? & _ & ?)]]]%runs_ok; done.
Qed.
Lemma runs_try_Val {E E' A} (m : M S E A) (s s' : S) tr (r : A + E) :
  runs ((try m : M S E' _) s) tr (Val r, s') →
  match r with inl a => runs (m s) tr (Val a, s') | inr e => runs (m s) tr (Err e, s') end.
Proof. intros ([] & H & [= ->])%runs_try; done. Qed.
Lemma runs_invoke_Val {E} c (s s' : S) tr r :
  runs ((invoke c : M S E _) s) tr (Val r, s') → tr = [Ev c r] ∧ s' = s.
Proof. intros (r' & -> & [= ->] & ->)%runs_invoke. done. Qed.
Lemma runs_deref_Val {E A} (p : option A) (s s' : S) tr a :
  runs ((deref p : M S E A) s) tr (Val a, s') → tr = [] ∧ p = Some a ∧ s' = s.
Proof.
  destruct p; [intros (-> & [= ->] & ->)%runs_mret|intros (_ & ? & _)%runs_panic]; done.
Qed.
Lemma runs_liftR_Val {A} (r : result A) (s s' : S) tr a :
  runs ((liftR r : M S error A) s) tr (Val a, s') → tr = [] ∧ r = Ok a ∧ s' = s.
Proof.
  destruct r; [intros (-> & [= ->] & ->)%runs_mret|intros (_ & ? & _)%runs_fail]; done.
Qed.
Lemma runs_lift_Val {E A} (x : outcome E A) (s s' : S) tr a :
  runs ((lift x : M S E A) s) tr (Val a, s') → tr = [] ∧ x = Val a ∧ s' = s.
Proof. intros (-> & <- & ->)%runs_lift. done. Qed.
Lemma runs_mret_Val {E A} (x : A) (s s' : S) tr a :
  runs ((mret x : M S E A) s) tr (Val a, s') → tr = [] ∧ x = a ∧ s' = s.
Proof. intros (-> & [= ->] & ->)%runs_mret. done. Qed.
Lemma runs_fail_Val {E A} (e : E) (s s' : S) tr (a : A) :
  runs ((fail e : M S E A) s) tr (Val a, s') → False.
Proof. intros (_ & ? & _)%runs_fail. done. Qed.
Lemma runs_panic_Val {E A} w (s s' : S) tr (a : A) :
  runs ((panic w : M S E A) s) tr (Val a, s') → False.
Proof. intros (_ & ? & _)%runs_panic. done. Qed.

Lemma runs_get_Val {E} (s s' : S) tr a :
  runs ((get : M S E S) s) tr (Val a, s') → tr = [] ∧ s = a ∧ s' = s.
Proof. intros [-> [= -> ->]]. done. Qed.
Lemma runs_put_Val {E} (x s s' : S) tr u :
  runs ((put x : M S E unit) s) tr (Val u, s') → tr = [] ∧ s' = x.
Proof. intros [-> [= -> ->]]. done. Qed.
Lemma runs_bind_get {E A} (f : S → M S E A) (s : S) tr r :
  runs (mbind f get s) tr r ↔ runs (f s s) tr r.
Proof. done. Qed.
Lemma runs_bind_put {E A} (x : S) (f : unit → M S E A) (s : S) tr r :
  runs (mbind f (put x) s) tr r ↔ runs (f tt x) tr r.
Proof. done. Qed.
Lemma runs_bind_modify {E A} (g : S → S) (f : unit → M S E A) (s : S) tr r :
  runs (mbind f (modify g) s) tr r ↔ runs (f tt (g s)) tr r.
Proof. done. Qed.
Lemma runs_bind_mret {E A B} (a : A) (f : A → M S E B) (s : S) tr r :
  runs (mbind f (mret a) s) tr r ↔ runs (f a s) tr r.
Proof. done. Qed.

(** A deferred program runs after the body, whose outcome stays unless the
    deferred program panics. *)
Lemma runs_defer {E E' A} (d : M S E' unit) (m : M S E A) (s s' : S) tr o :
  runs (defer d m s) tr (o, s') →
  ∃ t1 o1 s1 t2 o2, tr = t1 ++ t2 ∧ runs (m s) t1 (o1, s1) ∧ runs (d s1) t2 (o2, s') ∧
    o = match o2 with Panic w => Panic w | _ => o1 end.
Proof.
  intros H. unfold defer in H.
  apply runs_pbind in H as (t1 & [o1 s1] & t2 & -> & H1 & H2).
  apply runs_pbind in H2 as (t3 & [o2 s2] & t4 & -> & H2 & [-> [= -> ->]]).
  rewrite app_nil_r. eauto 10.
Qed.
Lemma runs_defer_Val {E E' A} (d : M S E' unit) (m : M S E A) (s s' : S) tr a :
  runs (defer d m s) tr (Val a, s') → ∃ t s1, t ⊆ tr ∧ runs (m s) t (Val a, s1).
Proof.
  intros (t1 & o1 & s1 & t2 & o2 & -> & H1 & _ & Ho)%runs_defer.
  exists t1, s1. split; [intros e He; apply elem_of_app; by left|].
  destruct o2; [by rewrite Ho..|done].
Qed.

(** Each iteration of a loop that succeeds succeeds. *)
Lemma runs_forM_Val {E A} (l : list A) (body : A → M S E unit) (s s' : S) tr u :
  runs (forM l body s) tr (Val u, s') →
  ∀ x, x ∈ l → ∃ t s1 s2, t ⊆ tr ∧ runs (body x s1) t (Val tt, s2).
Proof.
  revert s tr. induction l as [|y l IH]; intros s tr H x Hx.
  { by apply not_elem_of_nil in Hx. }
  simpl in H. apply runs_bind_Val in H as (t1 & [] & s1 & t2 & -> & H1 & H2).
  apply elem_of_cons in Hx as [->|Hx].
  - exists t1, s, s1. split; [|done]. intros e He. apply elem_of_app. by left.
  - destruct (IH _ _ H2 x Hx) as (t & s2 & s3 & Ht & Hr). exists t, s2, s3.
    split; [|done]. intros e He. apply elem_of_app. right. by apply Ht.
Qed.
End RunsVal.

(** A fallible call followed by the rest of the function.  [inj] is the identity
    at the type of the answer. *)
Section RunsCall.
Context {Σ : Sig} {S A B : Type} (c : call) (inj : resp c → result A).
Definition invokeAs : M S error (result A) := λ s, Vis c (λ r, Ret (Val (inj r), s)).

Lemma runs_ok_call s tr o s' :
  runs (ok invokeAs s) tr (o, s') →
  ∃ r, tr = [Ev c r] ∧ s' = s ∧ o = match inj r with Ok a => Val a | Er e => Err e end.
Proof.
  intros H. unfold ok in H.
  assert (∃ r, tr = [Ev c r] ∧ runs ((match inj r with
    | Ok a => mret a | Er e => fail e end : M S error A) s) [] (o, s')) as (r & -> & Hr).
  { apply runs_bind in H as [(t1 & a & s1 & t2 & -> & H1 & H2)|[(e & H & _)|(w & H & _)]].
    - destruct H1 as (r & t & -> & -> & [= -> ->]). exists r. destruct (inj r).
      + apply runs_mret in H2 as (-> & -> & ->). done.
      + apply runs_fail in H2 as (-> & -> & ->). done.
    - by destruct H as (r & t & _ & _ & ?).
    - by destruct H as (r & t & _ & _ & ?). }
  exists r. split; [done|]. destruct (inj r).
  - apply runs_mret in Hr as (_ & -> & ->). done.
  - apply runs_fail in Hr as (_ & -> & ->). done.
Qed.

Lemma runs_bind_try_call {E} (f : A + error → M S E B) s tr o s' :
  runs (mbind f (try (ok invokeAs)) s) tr (o, s') →
  ∃ r t, tr = Ev c r :: t ∧
    runs (f (match inj r with Ok a => inl a | Er e => inr e end) s) t (o, s').
Proof.
  intros [(t1 & x & s1 & t2 & -> & H1 & H2)|[(e & H & _)|(w & H & _)]]%runs_bind.
  - apply runs_try in H1 as (o' & (r & -> & -> & ->)%runs_ok_call & Hx).
    exists r, t2. split; [done|]. destruct (inj r); injection Hx as ->; done.
  - apply runs_try in H as ([] & _ & Hx); done.
  - apply runs_try in H as (o' & (r & _ & _ & ->)%runs_ok_call & Hx). by destruct (inj r).
Qed.

Lemma runs_bind_call {E'} (g : error → E') (f : A → M S E' B) s tr o s' :
  runs (mbind f (onErr g (ok invokeAs)) s) tr (o, s') →
  ∃ r t, tr = Ev c r :: t ∧
    ((∃ e, inj r = Er e ∧ t = [] ∧ o = Err (g e) ∧ s' = s) ∨
     (∃ a, inj r = Ok a ∧ runs (f a s) t (o, s'))).
Proof.
  intros [(t1 & x & s1 & t2 & -> & H1 & H2)|[(e & H & ->)|(w & H & ->)]]%runs_bind.
  - apply runs_onErr_Val, runs_ok_call in H1 as (r & -> & -> & Hx).
    exists r, t2. split; [done|]. right. destruct (inj r); [|done]. injection Hx as ->. eauto.
  - apply runs_onErr in H as (o' & (r & -> & -> & ->)%runs_ok_call & Hx).
    exists r, []. split; [done|]. left. destruct (inj r); [done|]. injection Hx as ->. eauto.
  - apply runs_onErr in H as (o' & (r & _ & _ & ->)%runs_ok_call & Hx). by destruct (inj r).
Qed.

Lemma runs_onErr_call {E'} (g : error → E') s tr o s' :
  runs (onErr g (ok invokeAs) s) tr (o, s') →
  ∃ r, tr = [Ev c r] ∧ s' = s ∧
       o = match inj r with Ok a => Val a | Er e => Err (g e) end.
Proof.
  intros (o' & (r & -> & -> & ->)%runs_ok_call & ->)%runs_onErr.
  exists r. by destruct (inj r).
Qed.
End RunsCall.

Lemma runs_bind_invoke {Σ : Sig} {S E B} (c : call) (f : resp c → M S E B) s tr o s' :
  runs (mbind f (invoke c) s) tr (o, s') →
  ∃ r t, tr = Ev c r :: t ∧ runs (f r s) t (o, s').
Proof.
  intros [(t1 & x & s1 & t2 & -> & H1 & H2)|[(e & H & _)|(w & H & _)]]%runs_bind.
  - apply runs_invoke in H1 as (r & -> & [= ->] & ->). eauto.
  - by apply runs_invoke in H as (? & _ & ? & _).
  - by apply runs_invoke in H as (? & _ & ? & _).
Qed.

(** [inv_call H] inverts the call at the head of the run [H]. *)
Ltac inv_call H :=
  lazymatch type of H with
  | runs (mbind _ (try (ok (@invoke ?Σ _ _ ?c))) _) _ _ =>
      apply (@runs_bind_try_call Σ _ _ _ c (λ r, r)) in H
  | runs (mbind _ (onErr _ (ok (@invoke ?Σ _ _ ?c))) _) _ _ =>
      apply (@runs_bind_call Σ _ _ _ c (λ r, r) _) in H
  | runs (onErr _ (ok (@invoke ?Σ _ _ ?c)) _) _ _ =>
      apply (@runs_onErr_call Σ _ _ c (λ r, r) _) in H
  | runs (mbind _ (@invoke ?Σ _ _ ?c) _) _ _ =>
      apply (@runs_bind_invoke Σ _ _ _ c) in H
  | runs (ok (@invoke ?Σ _ _ ?c) _) _ _ => apply (@runs_ok_call Σ _ _ c (λ r, r)) in H
  end.

(** Membership of an event in the trace of a run. *)
Ltac ev_in :=
  lazymatch goal with
  | |- _ ∈ _ ++ _ => first [eassumption | apply elem_of_app; first [left; solve [ev_in] | right; solve [ev_in]]]
  | |- _ ∈ _ :: _ => apply elem_of_cons; first [left; reflexivity | right; solve [ev_in]]
  | |- _ => eassumption
  end.

Ltac subst_state Hs :=
  match type of Hs with ?a = ?a => clear Hs | ?a = _ => subst a end.

(** [run_val H] takes a successful run apart. *)
Ltac run_val H :=
  cbv beta iota in H;
  lazymatch type of H with
  | runs (mbind _ _ _) _ (Val _, _) =>
      let t1 := fresh "t" in let a := fresh "a" in let s1 := fresh "s" in
      let t2 := fresh "t" in let H1 := fresh "H" in let H2 := fresh "H" in
      apply runs_bind_Val in H as (t1 & a & s1 & t2 & -> & H1 & H2);
      cbv beta in H2; run_val H1; run_val H2
  | runs (onErr _ _ _) _ (Val _, _) => apply runs_onErr_Val in H; run_val H
  | runs (ok _ _) _ (Val _, _) => apply runs_ok_Val in H; run_val H
  | runs (@invoke ?Σ ?S ?E ?c _) _ (Val _, _) =>
      let Hs := fresh in
      apply (@runs_invoke_Val Σ S E c) in H as [-> Hs]; subst_state Hs
  | runs (deref _ _) _ (Val _, _) => let Hs := fresh in apply runs_deref_Val in H as (-> & H & Hs); subst_state Hs
  | runs (lift _ _) _ (Val _, _) => let Hs := fresh in apply runs_lift_Val in H as (-> & H & Hs); subst_state Hs
  | runs (liftR _ _) _ (Val _, _) => let Hs := fresh in apply runs_liftR_Val in H as (-> & H & Hs); subst_state Hs
  | runs (mret _ _) _ (Val _, _) => let Hs := fresh in apply runs_mret_Val in H as (-> & H & Hs); subst_state Hs
  | runs (get _) _ (Val _, _) =>
      let Hs := fresh in let Hg := fresh in
      apply runs_get_Val in H as (-> & Hg & Hs); subst_state Hs; try subst_state Hg
  | runs (put _ _) _ (Val _, _) =>
      let Hs := fresh in apply runs_put_Val in H as (-> & Hs); subst_state Hs
  | runs (fail _ _) _ (Val _, _) => exfalso; by apply runs_fail_Val in H
  | runs (panic _ _) _ (Val _, _) => exfalso; by apply runs_panic_Val in H
  | runs (match ?x with _ => _ end _) _ (Val _, _) =>
      let E := fresh "E" in destruct x eqn:E; run_val H
  | _ => idtac
  end.

(** ** Which calls a program may make and how it may change the object

    [sat P R m]: every call [m] makes satisfies [P], and the object after [m]
    is related to the object before by the preorder [R]. *)
Section Sat.
Context {Σ : Sig} {S : Type} (P : call → Prop) (R : S → S → Prop) `{!PreOrder R}.

Definition sat {E A} (m : M S E A) : Prop := ∀ s tr o s',
  runs (m s) tr (o, s') → Forall (λ e, P (ev_call e)) tr ∧ R s s'.

Lemma sat_mret {E A} (a : A) : sat (mret a : M S E A).
Proof. intros s tr o s' (-> & _ & ->)%runs_mret. done. Qed.
Lemma sat_fail {E A} (e : E) : sat (fail e : M S E A).
Proof. intros s tr o s' (-> & _ & ->)%runs_fail. done. Qed.
Lemma sat_panic {E A} w : sat (panic w : M S E A).
Proof. intros s tr o s' (-> & _ & ->)%runs_panic. done. Qed.
Lemma sat_get {E} : sat (get : M S E S).
Proof. intros s tr o s' [-> [= -> ->]]. done. Qed.
Lemma sat_modify {E} (f : S → S) :
  (∀ s, R s (f s)) → sat (modify f : M S E unit).
Proof. intros H s tr o s' [-> [= -> ->]]. done. Qed.
Lemma sat_put {E} (x : S) : (∀ s, R s x) → sat (put x : M S E unit).
Proof. intros H s tr o s' [-> [= -> ->]]. done. Qed.
Lemma sat_invoke {E} c : P c → sat (invoke c : M S E _).
Proof.
  intros H s tr o s' (r & -> & _ & ->)%runs_invoke. split; [by constructor|done].
Qed.

Lemma sat_bind {E A B} (m : M S E A) (f : A → M S E B) :
  sat m → (∀ a, sat (f a)) → sat (m ≫= f).
Proof.
  intros Hm Hf s tr o s' [(t1 & a & s1 & t2 & -> & H1 & H2)|
                          [(e & H & _)|(w & H & _)]]%runs_bind;
    [|by eapply Hm..].
  apply Hm in H1 as [? ?]. apply Hf in H2 as [? ?].
  split; [by apply Forall_app_intro|by etrans].
Qed.

Lemma sat_onErr {E E' A} (f : E → E') (m : M S E A) : sat m → sat (onErr f m).
Proof. intros Hm s tr o s' (o' & H & _)%runs_onErr. by eapply Hm. Qed.
Lemma sat_try {E E' A} (m : M S E A) : sat m → sat (try m : M S E' _).
Proof. intros Hm s tr o s' (o' & H & _)%runs_try. by eapply Hm. Qed.
Lemma sat_ok {A} (m : M S error (result A)) : sat m → sat (ok m).
Proof.
  intros Hm. apply sat_bind; [done|]. intros [a|e]; [apply sat_mret|apply sat_fail].
Qed.
Lemma sat_lift {E A} (o : outcome E A) : sat (lift o : M S E A).
Proof. intros s tr o' s' [-> [= -> ->]]. done. Qed.
Lemma sat_liftR {A} (r : result A) : sat (liftR r : M S error A).
Proof. destruct r; [apply sat_mret|apply sat_fail]. Qed.
Lemma sat_deref {E A} (p : option A) : sat (deref p : M S E A).
Proof. destruct p; [apply sat_mret|apply sat_panic]. Qed.
Lemma sat_index {E A} (l : list A) i : sat (index l i : M S E A).
Proof. unfold index. destruct (l !! i); [apply sat_mret|apply sat_panic]. Qed.

Lemma sat_forM {E A} (l : list A) (body : A → M S E unit) :
  (∀ x, x ∈ l → sat (body x)) → sat (forM l body).
Proof.
  induction l as [|x l IH]; intros H; simpl; [apply sat_mret|].
  apply sat_bind; [apply H; constructor|].
  intros _. apply IH. intros y Hy. apply H. by constructor.
Qed.
Lemma sat_foldM {E A B} (body : B → A → M S E B) b l :
  (∀ b x, x ∈ l → sat (body b x)) → sat (foldM body b l).
Proof.
  revert b. induction l as [|x l IH]; intros b H; simpl; [apply sat_mret|].
  apply sat_bind; [apply H; constructor|].
  intros b'. apply IH. intros b'' y Hy. apply H. by constructor.
Qed.
Lemma sat_defer {E E' A} (d : M S E' unit) (m : M S E A) :
  sat d → sat m → sat (defer d m).
Proof.
  intros Hd Hm s tr o s' H. unfold defer in H.
  apply runs_pbind in H as (t1 & [o1 s1] & t2 & -> & H1 & H2).
  apply runs_pbind in H2 as (t3 & [o2 s2] & t4 & -> & H2 & [-> [= -> ->]]).
  apply Hm in H1 as [? ?]. apply Hd in H2 as [? ?].
  rewrite app_nil_r. split; [by apply Forall_app_intro|by etrans].
Qed.
End Sat.

(** A call that [m] does not make is made by what follows [m]. *)
Lemma runs_bind_skip {Σ : Sig} {S E A B} (P : call → Prop) (R : S → S → Prop)
    (m : M S E A) (f : A → M S E B) s s' tr o e :
  runs (mbind f m s) tr (o, s') → e ∈ tr → sat P R m → ¬ P (ev_call e) →
  ∃ t1 a s1 t2, tr = t1 ++ t2 ∧ runs (m s) t1 (Val a, s1) ∧ R s s1 ∧
                runs (f a s1) t2 (o, s') ∧ e ∈ t2.
Proof.
  intros H He Hm Hn.
  assert (∀ t o' s1, runs (m s) t (o', s1) → e ∈ t → False) as Hno.
  { intros t o' s1 Hr Ht. apply Hm in Hr as [Hr _]. rewrite Forall_forall in Hr.
    by apply Hn, Hr. }
  apply runs_bind in H as [(t1 & a & s1 & t2 & -> & H1 & H2)|[(x & H & _)|(w & H & _)]];
    [|exfalso; eauto..].
  apply elem_of_app in He as [He|He]; [exfalso; eauto|].
  exists t1, a, s1, t2. destruct (Hm _ _ _ _ H1). eauto 7.
Qed.

(** The same, keeping which calls [m] made. *)
Lemma runs_bind_split {Σ : Sig} {S E A B} (P : call → Prop) (R : S → S → Prop)
    (m : M S E A) (f : A → M S E B) s s' tr o e :
  runs (mbind f m s) tr (o, s') → e ∈ tr → sat P R m → ¬ P (ev_call e) →
  ∃ t1 a s1 t2, tr = t1 ++ t2 ∧ Forall (λ x, P (ev_call x)) t1 ∧ R s s1 ∧
                runs (f a s1) t2 (o, s') ∧ e ∈ t2.
Proof.
  intros H He Hm Hn.
  destruct (runs_bind_skip P R m f s s' tr o e H He Hm Hn)
    as (t1 & a & s1 & t2 & -> & H1 & HR & H2 & Hin).
  exists t1, a, s1, t2. destruct (Hm _ _ _ _ H1). done.
Qed.

(** The first part of a run that succeeds, when it leaves the object alone. *)
Lemma runs_bind_same {Σ : Sig} {S E A B} (P : call → Prop)
    (m : M S E A) (f : A → M S E B) s s' tr b :
  runs (mbind f m s) tr (Val b, s') → sat P eq m →
  ∃ t1 a t2, tr = t1 ++ t2 ∧ runs (m s) t1 (Val a, s) ∧ runs (f a s) t2 (Val b, s').
Proof.
  intros (t1 & a & s1 & t2 & -> & H1 & H2)%runs_bind_Val Hm.
  destruct (Hm _ _ _ _ H1) as [_ <-]. eauto 6.
Qed.

Lemma sat_no_event {Σ : Sig} {S E A} (P : call → Prop) (R : S → S → Prop)
    (m : M S E A) s s' tr o e :
  runs (m s) tr (o, s') → e ∈ tr → sat P R m → P (ev_call e).
Proof. intros H He Hm. apply Hm in H as [H _]. rewrite Forall_forall in H. by apply H. Qed.

(** A call that is not made after [m] is made by [m]. *)
Lemma runs_bind_first {Σ : Sig} {S E A B} (P : call → Prop) (R : S → S → Prop)
    (m : M S E A) (f : A → M S E B) s s' tr o e :
  runs (mbind f m s) tr (o, s') → e ∈ tr → (∀ a, sat P R (f a)) → ¬ P (ev_call e) →
  ∃ t o1 s1, t ⊆ tr ∧ runs (m s) t (o1, s1) ∧ e ∈ t.
Proof.
  intros H He Hf Hn.
  apply runs_bind in H as [(t1 & a & s1 & t2 & -> & H1 & H2)|[(x & H & _)|(w & H & _)]];
    [|eexists _, _, _; split; [reflexivity|eauto]..].
  exists t1, (Val a), s1. split; [intros y Hy; apply elem_of_app; by left|]. split; [done|].
  apply elem_of_app in He as [He|He]; [done|]. exfalso. eapply Hn, sat_no_event; eauto.
Qed.

(** A program that leaves the object alone satisfies every preorder. *)
Lemma sat_eq {Σ : Sig} {S E A} (P : call → Prop) (R : S → S → Prop) `{!PreOrder R}
    (m : M S E A) : sat P eq m → sat P R m.
Proof. intros Hm s tr o s' Hr. apply Hm in Hr as [? ->]. done. Qed.

Lemma runs_defer_skip {Σ : Sig} {S E E' A} (P : call → Prop) (R : S → S → Prop)
    (d : M S E' unit) (m : M S E A) s s' tr o e :
  runs (defer d m s) tr (o, s') → e ∈ tr → sat P R d → ¬ P (ev_call e) →
  ∃ t o1 s1, t ⊆ tr ∧ runs (m s) t (o1, s1) ∧ e ∈ t.
Proof.
  intros (t1 & o1 & s1 & t2 & o2 & -> & H1 & H2 & _)%runs_defer He Hd Hn.
  exists t1, o1, s1. split; [intros x Hx; apply elem_of_app; by left|]. split; [done|].
  apply elem_of_app in He as [He|He]; [done|]. exfalso. eapply Hn, sat_no_event; eauto.
Qed.

Lemma sat_weaken {Σ : Sig} {S E A} (P Q : call → Prop) (R : S → S → Prop) (m : M S E A) :
  sat P R m → (∀ c, P c → Q c) → sat Q R m.
Proof.
  intros Hm H s tr o s' Hr. apply Hm in Hr as [? ?]. split; [|done].
  eapply Forall_impl; [done|]. intros e. apply H.
Qed.

Create HintDb sat.
#[export] Hint Resolve sat_mret sat_fail sat_panic sat_get sat_deref sat_index
  sat_invoke sat_ok sat_onErr sat_try : sat.

(** [go_sat] walks through the body of a program and proves [sat] from the
    [sat] lemmas of the functions it calls. *)
Ltac go_sat_step :=
  lazymatch goal with
  | |- sat _ _ (mbind _ _) => apply sat_bind; [apply _| |intros]
  | |- sat _ _ (mret _) => apply sat_mret
  | |- sat _ _ (fail _) => apply sat_fail
  | |- sat _ _ (panic _) => apply sat_panic
  | |- sat _ _ get => apply sat_get
  | |- sat _ _ (put _) => apply sat_put
  | |- sat _ _ (modify _) => apply sat_modify
  | |- @sat ?Σ ?S ?P ?R ?E _ (invoke ?c) =>
      apply (@sat_invoke Σ S P R _ E c); cbv beta; try reflexivity; try exact I
  | |- sat _ _ (deref _) => apply sat_deref
  | |- sat _ _ (liftR _) => apply sat_liftR
  | |- sat _ _ (lift _) => apply sat_lift
  | |- sat _ _ (index _ _) => apply sat_index
  | |- sat _ _ (onErr _ _) => apply sat_onErr
  | |- sat _ _ (try _) => apply sat_try
  | |- sat _ _ (ok _) => apply sat_ok
  | |- sat _ _ (forM _ _) => apply sat_forM; [apply _|intros]
  | |- sat _ _ (foldM _ _ _) => apply sat_foldM; [apply _|intros]
  | |- sat _ _ (defer _ _) => apply sat_defer
  | |- sat _ _ (match ?x with _ => _ end) => destruct x
  | |- sat _ _ (let _ := _ in _) => cbv zeta
  | |- PreOrder _ => apply _
  | |- sat _ _ _ => solve [eauto with sat typeclass_instances]
  | |- _ ∈ _ → _ => intros
  end.
Ltac go_sat := repeat (intros; go_sat_step); try done; eauto with sat.
