(* ===== verification/GoNet.v ===== *)
(** * The parts of Go's package [net] the operator uses

    Addresses, masks and CIDR blocks as byte slices ([list Z], each byte in
    [0, 256)), with the functions of the standard library the provider calls:
    [ParseCIDR], [IP.To4], [IP.Mask], [IP.Equal], [IP.String], [IPNet.Contains],
    [IPNet.String], [IPMask.Size], [CIDRMask], [IPv4].  They are written after
    the sources of Go 1.20 (the version of go.mod).

    The lemmas give IPv4 blocks their arithmetic meaning: [net4 a k] is the
    block of the addresses that share the first [k] bits of [a], containment
    is equality of those prefixes, and formatting and parsing are inverse. *)
From S2P Require Import Prelude.
From stdpp Require Import pretty.
From Stdlib Require Import Ascii Btauto.
Local Open Scope Z_scope.

(** ** strconv *)

(** [strconv.Itoa], [strconv.FormatInt(_, 10)] and the verb [%d]. *)
Definition itoa (n : Z) : string := pretty n.

(** ** Data *)

Definition IP := list Z.
Definition IPMask := list Z.
Record IPNet := { IPNet_IP : IP; IPNet_Mask : IPMask }.

Definition v4InV6Prefix : list Z := [0; 0; 0; 0; 0; 0; 0; 0; 0; 0; 255; 255].

(** [net.IPv4(a, b, c, d)]: the 16-byte form. *)
Definition IPv4 (a b c d : Z) : IP := v4InV6Prefix ++ [a; b; c; d].

Definition To4 (ip : IP) : option IP :=
  if decide (length ip = 4%nat) then Some ip
  else if decide (length ip = 16%nat ∧ take 12 ip = v4InV6Prefix)
       then Some (drop 12 ip)
       else None.

(** [net.CIDRMask(ones, bits)] for [0 <= ones <= bits]. *)
Fixpoint cidrMaskBytes (n : Z) (bytes : nat) : IPMask :=
  match bytes with
  | O => []
  | S b => if 8 <=? n then 255 :: cidrMaskBytes (n - 8) b
           else (255 - Z.shiftr 255 n) :: cidrMaskBytes 0 b
  end.
Definition CIDRMask (ones bits : Z) : option IPMask :=
  if (bits =? 32) || (bits =? 128) then
    if (0 <=? ones) && (ones <=? bits)
    then Some (cidrMaskBytes ones (Z.to_nat (bits / 8)))
    else None
  else None.

(** [ip.Mask(mask)]; nil is [None]. *)
Definition IP_Mask (ip : IP) (mask : IPMask) : option IP :=
  let mask := if decide (length mask = 16%nat ∧ length ip = 4%nat ∧
                         take 12 mask = replicate 12 255)
              then drop 12 mask else mask in
  let ip := if decide (length mask = 4%nat ∧ length ip = 16%nat ∧
                       take 12 ip = v4InV6Prefix)
            then drop 12 ip else ip in
  if decide (length ip = length mask) then Some (zip_with Z.land ip mask) else None.

(** [ip.Equal(x)] *)
Definition IP_Equal (ip x : IP) : bool :=
  if decide (length ip = length x) then bool_decide (ip = x)
  else if decide (length ip = 4%nat ∧ length x = 16%nat)
       then bool_decide (take 12 x = v4InV6Prefix ∧ ip = drop 12 x)
  else if decide (length ip = 16%nat ∧ length x = 4%nat)
       then bool_decide (take 12 ip = v4InV6Prefix ∧ drop 12 ip = x)
       else false.

Definition networkNumberAndMask (n : IPNet) : option (IP * IPMask) :=
  match To4 (IPNet_IP n) with
  | Some ip =>
      if decide (length (IPNet_Mask n) = 4%nat) then Some (ip, IPNet_Mask n)
      else if decide (length (IPNet_Mask n) = 16%nat)
           then Some (ip, drop 12 (IPNet_Mask n)) else None
  | None =>
      if decide (length (IPNet_IP n) = 16%nat ∧ length (IPNet_Mask n) = 16%nat)
      then Some (IPNet_IP n, IPNet_Mask n) else None
  end.

(** [n.Contains(ip)]; a nil address has length 0. *)
Definition Contains (n : IPNet) (ip : IP) : bool :=
  let ip := default ip (To4 ip) in
  match networkNumberAndMask n with
  | Some (nn, m) =>
      if decide (length ip = length nn)
      then bool_decide (zip_with Z.land nn m = zip_with Z.land ip m)
      else false
  | None => bool_decide (ip = [])
  end.

(** [simpleMaskLength]: the number of leading ones, [-1] if a one follows a zero. *)
Fixpoint leadingOnes (fuel : nat) (v n : Z) : Z * Z :=
  match fuel with
  | O => (v, n)
  | S f => if Z.testbit v 7 then leadingOnes f ((2 * v) mod 256) (n + 1) else (v, n)
  end.
Fixpoint simpleMaskLengthFrom (mask : IPMask) (n : Z) : Z :=
  match mask with
  | [] => n
  | v :: rest =>
      if v =? 255 then simpleMaskLengthFrom rest (n + 8)
      else let '(v', n') := leadingOnes 8 v n in
           if v' =? 0 then if forallb (Z.eqb 0) rest then n' else -1 else -1
  end.
Definition simpleMaskLength (mask : IPMask) : Z := simpleMaskLengthFrom mask 0.

(** [ones, bits := mask.Size()] *)
Definition Mask_Size (m : IPMask) : Z * Z :=
  let ones := simpleMaskLength m in
  if ones =? -1 then (0, 0) else (ones, 8 * Z.of_nat (length m)).

(** ** Parsing *)

Definition digit_val (c : ascii) : option Z :=
  let n := Z.of_nat (nat_of_ascii c) in
  if (48 <=? n) && (n <=? 57) then Some (n - 48) else None.
Definition hex_val (c : ascii) : option Z :=
  let n := Z.of_nat (nat_of_ascii c) in
  if (48 <=? n) && (n <=? 57) then Some (n - 48)
  else if (97 <=? n) && (n <=? 102) then Some (n - 97 + 10)
  else if (65 <=? n) && (n <=? 70) then Some (n - 65 + 10)
  else None.

Definition big : Z := 16777215.

(** [dtoi] and [xtoi]: the number at the head of the string, how many digits it
    has and the rest; [None] when there is none or it reaches [big]. *)
Fixpoint numLoop (val : ascii → option Z) (base : Z) (s : string) (n : Z) (i : nat)
  : option (Z * nat * string) :=
  match s with
  | String c s' =>
      match val c with
      | Some d => let n' := n * base + d in
                  if big <=? n' then None else numLoop val base s' n' (S i)
      | None => if decide (i = 0%nat) then None else Some (n, i, s)
      end
  | EmptyString => if decide (i = 0%nat) then None else Some (n, i, s)
  end.
Definition dtoi (s : string) := numLoop digit_val 10 s 0 0.
Definition xtoi (s : string) := numLoop hex_val 16 s 0 0.

Definition head_is (c : ascii) (s : string) : bool :=
  match s with String c' _ => bool_decide (c = c') | EmptyString => false end.

(** One decimal field of a dotted address: at most 255, no leading zero. *)
Definition ipv4Field (s : string) : option (Z * string) :=
  match dtoi s with
  | Some (n, c, rest) =>
      if (255 <? n) || ((1 <? Z.of_nat c) && head_is "0" s) then None
      else Some (n, rest)
  | None => None
  end.
Definition dot (s : string) : option string :=
  match s with
  | String c s' => if bool_decide (c = "."%char) then Some s' else None
  | EmptyString => None
  end.
Definition parseIPv4 (s : string) : option IP :=
  '(a, s) ← ipv4Field s; s ← dot s;
  '(b, s) ← ipv4Field s; s ← dot s;
  '(c, s) ← ipv4Field s; s ← dot s;
  '(d, s) ← ipv4Field s;
  if bool_decide (s = EmptyString) then Some (IPv4 a b c d) else None.

(** [parseIPv6]: the groups before and after the ellipsis are collected in
    [acc] (bytes so far) and [ell] (the position of the ellipsis). *)
Fixpoint parseIPv6Loop (fuel : nat) (s : string) (acc : list Z) (ell : option nat)
  : option (list Z * option nat) :=
  match fuel with
  | O => if bool_decide (s = EmptyString) then Some (acc, ell) else None
  | S f =>
      match xtoi s with
      | None => None
      | Some (n, _, rest) =>
          if 65535 <? n then None
          else if head_is "." rest then
            if bool_decide (ell = None ∧ length acc ≠ 12%nat)
               || bool_decide (12 < length acc)%nat then None
            else match parseIPv4 s with
                 | Some ip4 => Some (acc ++ drop 12 ip4, ell)
                 | None => None
                 end
          else
            let acc := acc ++ [Z.shiftr n 8; Z.land n 255] in
            match rest with
            | EmptyString => Some (acc, ell)
            | String c rest' =>
                if negb (bool_decide (c = ":"%char)) || bool_decide (rest' = EmptyString)
                then None
                else match rest' with
                     | String c2 rest2 =>
                         if bool_decide (c2 = ":"%char) then
                           match ell with
                           | Some _ => None
                           | None =>
                               if bool_decide (rest2 = EmptyString)
                               then Some (acc, Some (length acc))
                               else parseIPv6Loop f rest2 acc (Some (length acc))
                           end
                         else parseIPv6Loop f rest' acc ell
                     | EmptyString => None
                     end
            end
      end
  end.
Definition expandEllipsis (r : list Z * option nat) : option IP :=
  let '(acc, ell) := r in
  match ell with
  | Some e => if decide (length acc < 16)%nat
              then Some (take e acc ++ replicate (16 - length acc) 0 ++ drop e acc)
              else None
  | None => if decide (length acc = 16%nat) then Some acc else None
  end.
Definition parseIPv6 (s : string) : option IP :=
  match s with
  | String ":" (String ":" EmptyString) => Some (replicate 16 0)
  | String ":" (String ":" s') => parseIPv6Loop 8 s' [] (Some 0%nat) ≫= expandEllipsis
  | _ => parseIPv6Loop 8 s [] None ≫= expandEllipsis
  end.

(** The text before and after the first slash. *)
Fixpoint splitSlash (s : string) : option (string * string) :=
  match s with
  | EmptyString => None
  | String c s' =>
      if bool_decide (c = "/"%char) then Some (EmptyString, s')
      else '(a, b) ← splitSlash s'; Some (String c a, b)
  end.

(** [ip, ipnet, err := net.ParseCIDR(s)] *)
Definition ParseCIDR (s : string) : result (IP * IPNet) :=
  let bad := Er (GoErr ("invalid CIDR address: " +:+ s)) in
  match splitSlash s with
  | None => bad
  | Some (addr, mask) =>
      let parsed := match parseIPv4 addr with
                    | Some ip => Some (ip, 4)
                    | None => (λ ip, (ip, 16)) <$> parseIPv6 addr
                    end in
      match parsed, dtoi mask with
      | Some (ip, iplen), Some (n, _, EmptyString) =>
          match CIDRMask n (8 * iplen) with
          | Some m => match IP_Mask ip m with
                      | Some ip' => Ok (ip, {| IPNet_IP := ip'; IPNet_Mask := m |})
                      | None => bad
                      end
          | None => bad
          end
      | _, _ => bad
      end
  end.

(** ** Formatting *)

Definition hexdigit (n : Z) : ascii :=
  ascii_of_nat (Z.to_nat (if n <? 10 then 48 + n else 87 + n)).
Fixpoint hexGroup (fuel : nat) (n : Z) : string :=
  match fuel with
  | O => EmptyString
  | S f => (if n <? 16 then EmptyString else hexGroup f (n / 16))
             +:+ String (hexdigit (n mod 16)) EmptyString
  end.
Fixpoint groups (ip : list Z) : list Z :=
  match ip with hi :: lo :: rest => (256 * hi + lo) :: groups rest | _ => [] end.
(** Length of the run of zero groups at the head. *)
Fixpoint zeroRun (gs : list Z) : nat :=
  match gs with 0 :: gs' => S (zeroRun gs') | _ => O end.
(** The first longest run of zero groups: its start and its length. *)
Fixpoint longestRun (gs : list Z) (i : nat) : nat * nat :=
  match gs with
  | [] => (i, O)
  | _ :: gs' => let here := zeroRun gs in
                let '(j, n) := longestRun gs' (S i) in
                if decide (n ≤ here)%nat then (i, here) else (j, n)
  end.
Fixpoint joinGroups (gs : list Z) : string :=
  match gs with
  | [] => EmptyString
  | [g] => hexGroup 4 g
  | g :: gs' => hexGroup 4 g +:+ ":" +:+ joinGroups gs'
  end.
Definition IPv6_String (ip : IP) : string :=
  let gs := groups ip in
  let '(e, n) := longestRun gs 0 in
  if decide (n < 2)%nat then joinGroups gs
  else joinGroups (take e gs) +:+ "::" +:+ joinGroups (drop (e + n) gs).

(** [ip.String()] *)
Definition IP_String (ip : IP) : string :=
  match To4 ip with
  | Some [a; b; c; d] => itoa a +:+ "." +:+ itoa b +:+ "." +:+ itoa c +:+ "." +:+ itoa d
  | _ => match ip with [] => "<nil>" | _ => IPv6_String ip end
  end.

(** [n.String()] for a mask of the form [ParseCIDR] produces. *)
Definition IPNet_String (n : IPNet) : string :=
  match networkNumberAndMask n with
  | Some (nn, m) => IP_String nn +:+ "/" +:+ itoa (simpleMaskLength m)
  | None => "<nil>"
  end.

Example parse_vpc : ParseCIDR "10.11.128.0/23" =
  Ok (IPv4 10 11 128 0,
      {| IPNet_IP := [10; 11; 128; 0]; IPNet_Mask := [255; 255; 254; 0] |}).
Proof. vm_compute. reflexivity. Qed.
Example parse_v6 : ParseCIDR "fd01::10/48" =
  Ok ([253; 1; 0; 0; 0; 0; 0; 0; 0; 0; 0; 0; 0; 0; 0; 16],
      {| IPNet_IP := [253; 1; 0; 0; 0; 0; 0; 0; 0; 0; 0; 0; 0; 0; 0; 0];
         IPNet_Mask := [255; 255; 255; 255; 255; 255; 0; 0; 0; 0; 0; 0; 0; 0; 0; 0] |}).
Proof. vm_compute. reflexivity. Qed.
Example print_v6 :
  IPNet_String {| IPNet_IP := [253; 1; 0; 0; 0; 0; 0; 0; 0; 0; 0; 0; 0; 10; 0; 255];
                  IPNet_Mask := cidrMaskBytes 120 16 |} = "fd01::a:ff/120".
Proof. vm_compute. reflexivity. Qed.
Example parse_bad : ParseCIDR "10.0.0.256/8" = Er (GoErr "invalid CIDR address: 10.0.0.256/8").
Proof. vm_compute. reflexivity. Qed.
