(* ===== verification/NetFacts.v ===== *)
(** * Facts about the addresses and blocks of [GoNet]

    Prefix masks as bytes, containment as agreement on the masked bytes, the
    arithmetic meaning of IPv4 blocks ([net4 v k] is the block of the [2^(32-k)]
    addresses that share the first [k] bits of [v]), and the round trip between
    formatting and [ParseCIDR]. *)
From S2P Require Import Prelude GoNet.
From stdpp Require Import pretty.
From Stdlib Require Import Ascii.
Local Open Scope Z_scope.

(** ** Masks *)

Definition mask_of (k : Z) (len : nat) : IPMask := cidrMaskBytes k len.

Lemma mask_of_length k len : length (mask_of k len) = len.
Proof.
  unfold mask_of. revert k.
  induction len as [|len IH]; intros k; simpl; [done|].
  destruct (8 <=? k); simpl; by rewrite IH.
Qed.

Lemma cidr_byte_sub j k :
  0 ≤ j ≤ k → k < 8 →
  Z.land (255 - Z.shiftr 255 k) (255 - Z.shiftr 255 j) = 255 - Z.shiftr 255 j.
Proof.
  intros H1 H2.
  assert (j ∈ [0;1;2;3;4;5;6;7]) as Hj by (rewrite !elem_of_cons; lia).
  assert (k ∈ [0;1;2;3;4;5;6;7]) as Hk by (rewrite !elem_of_cons; lia).
  revert H1 H2. clear -Hj Hk.
  repeat (apply elem_of_cons in Hj as [->|Hj]);
    try (exfalso; by apply not_elem_of_nil in Hj);
    (repeat (apply elem_of_cons in Hk as [->|Hk]);
      try (exfalso; by apply not_elem_of_nil in Hk)); intros; (reflexivity || lia).
Qed.

(** A shorter prefix mask keeps fewer bits. *)
Lemma mask_of_sub j k len :
  0 ≤ j ≤ k →
  zip_with Z.land (mask_of k len) (mask_of j len) = mask_of j len.
Proof.
  unfold mask_of. revert j k. induction len as [|len IH]; intros j k H; simpl; [done|].
  destruct (Z.leb_spec 8 k), (Z.leb_spec 8 j); simpl; try lia.
  - rewrite IH by lia. done.
  - rewrite IH by lia. f_equal.
    assert (j ∈ [0;1;2;3;4;5;6;7]) as Hj by (rewrite !elem_of_cons; lia).
    repeat (apply elem_of_cons in Hj as [->|Hj]); try done.
    exfalso; by apply not_elem_of_nil in Hj.
  - rewrite cidr_byte_sub by lia. rewrite IH by lia. done.
Qed.

Notation "a & m" := (zip_with Z.land a m) (at level 40, left associativity) : go_scope.
Local Open Scope go_scope.

Lemma zip_land_assoc (a m n : list Z) : (a & m) & n = a & (m & n).
Proof.
  revert m n. induction a as [|x a IH]; intros [|y m] [|z n]; simpl; try done.
  by rewrite IH, Z.land_assoc.
Qed.
Lemma zip_land_comm (a m : list Z) : a & m = m & a.
Proof.
  revert m. induction a as [|x a IH]; intros [|y m]; simpl; try done.
  by rewrite IH, Z.land_comm.
Qed.
Lemma zip_land_idemp (m : list Z) : m & m = m.
Proof. induction m as [|x m IH]; simpl; [done|]. by rewrite IH, Z.land_diag. Qed.

(** ** Blocks *)

(** A block as [ParseCIDR] makes it: number and mask of the same length, the
    mask a prefix mask. *)
Definition wf_net (n : IPNet) : Prop :=
  ∃ nn k, networkNumberAndMask n = Some (nn, mask_of k (length nn)) ∧
          0 ≤ k ∧ (length nn = 4%nat ∨ length nn = 16%nat ∧ To4 nn = None).

Definition norm (ip : IP) : IP := default ip (To4 ip).

Lemma norm_idemp nn :
  length nn = 4%nat ∨ length nn = 16%nat ∧ To4 nn = None → norm nn = nn.
Proof.
  unfold norm, To4. intros [H|[H1 H2]]; [by rewrite decide_True by done|].
  revert H2. rewrite decide_False by lia. case_decide; done.
Qed.

Lemma norm_length ip : length ip = 16%nat → length (norm ip) = 4%nat ∨
                                          length (norm ip) = 16%nat.
Proof.
  intros H. unfold norm, To4. rewrite decide_False by lia.
  case_decide; simpl; [left; rewrite length_drop; lia|by right].
Qed.

Lemma Contains_spec n nn m ip :
  networkNumberAndMask n = Some (nn, m) →
  Contains n ip = true ↔ length (norm ip) = length nn ∧ nn & m = norm ip & m.
Proof.
  intros H. unfold Contains. rewrite H. fold (norm ip).
  case_decide; [rewrite bool_decide_eq_true; tauto|]. split; [done|tauto].
Qed.

(** The number of a well-formed block is the normal form of its address. *)
Lemma wf_net_number n nn m :
  networkNumberAndMask n = Some (nn, m) → norm (IPNet_IP n) = nn.
Proof.
  unfold networkNumberAndMask, norm. destruct (To4 (IPNet_IP n)) as [ip|]; simpl.
  - repeat case_decide; congruence.
  - case_decide; congruence.
Qed.

Lemma Contains_self n : wf_net n → Contains n (IPNet_IP n) = true.
Proof.
  intros (nn & k & H & _ & _). rewrite (Contains_spec _ _ _ _ H).
  by rewrite (wf_net_number _ _ _ H).
Qed.

(** The test the operator uses for overlapping blocks: the address of one lies
    in the other. *)
Definition overlap (n m : IPNet) : bool :=
  Contains n (IPNet_IP m) || Contains m (IPNet_IP n).

Lemma Contains_of_common n m ip nn nm k j :
  networkNumberAndMask n = Some (nn, mask_of k (length nn)) →
  networkNumberAndMask m = Some (nm, mask_of j (length nm)) →
  0 ≤ k ≤ j → Contains n ip = true → Contains m ip = true →
  Contains n (IPNet_IP m) = true.
Proof.
  intros Hn Hm Hk. rewrite (Contains_spec _ _ _ _ Hn), (Contains_spec _ _ _ _ Hm).
  intros [L1 E1] [L2 E2]. apply (Contains_spec _ _ _ _ Hn).
  rewrite (wf_net_number _ _ _ Hm). split; [congruence|].
  rewrite E1. rewrite <- (mask_of_sub k j (length nn)) by lia.
  rewrite <- !zip_land_assoc. f_equal.
  replace (length nn) with (length nm) by congruence. by rewrite E2.
Qed.

Lemma overlap_spec n m :
  wf_net n → wf_net m →
  overlap n m = true ↔ ∃ ip, Contains n ip = true ∧ Contains m ip = true.
Proof.
  intros Wn Wm. unfold overlap. rewrite orb_true_iff. split.
  - intros [H|H]; [exists (IPNet_IP m)|exists (IPNet_IP n)];
      eauto using Contains_self.
  - intros (ip & H1 & H2).
    destruct Wn as (nn & k & Hn & Hk & _), Wm as (nm & j & Hm & Hj & _).
    destruct (Z.le_ge_cases k j).
    + left. eapply (Contains_of_common n m); eauto.
    + right. eapply (Contains_of_common m n); eauto.
Qed.

Lemma overlap_false n m ip :
  wf_net n → wf_net m → overlap n m = false →
  Contains n ip = true → Contains m ip = true → False.
Proof.
  intros Wn Wm H H1 H2.
  assert (overlap n m = true) by (apply overlap_spec; eauto). congruence.
Qed.

(** ** What [ParseCIDR] returns *)

Lemma mask_of_S k len :
  0 ≤ k → ∃ b, mask_of k (S len) = b :: mask_of (Z.max 0 (k - 8)) len.
Proof.
  intros H. unfold mask_of; simpl. destruct (Z.leb_spec 8 k).
  - replace (Z.max 0 (k - 8)) with (k - 8) by lia. eauto.
  - replace (Z.max 0 (k - 8)) with 0 by lia. eauto.
Qed.

Lemma mask_of_drop n k len :
  0 ≤ k → drop n (mask_of k (n + len)) = mask_of (Z.max 0 (k - 8 * Z.of_nat n)) len.
Proof.
  revert k. induction n as [|n IH]; intros k H.
  - simpl drop. apply (f_equal (λ x, mask_of x len)). lia.
  - destruct (mask_of_S k (n + len) H) as [b E].
    change (S n + len)%nat with (S (n + len)). rewrite E. simpl drop.
    rewrite IH by lia. apply (f_equal (λ x, mask_of x len)). lia.
Qed.

Lemma CIDRMask_mask_of n bits m :
  CIDRMask n bits = Some m →
  0 ≤ n ≤ bits ∧ m = mask_of n (Z.to_nat (bits / 8)).
Proof.
  unfold CIDRMask. destruct (_ || _); [|done].
  destruct (Z.leb_spec 0 n), (Z.leb_spec n bits); simpl; [|done..].
  intros [= <-]. split; [lia|]. done.
Qed.
#[global] Opaque mask_of.

Lemma parseIPv4_form s ip : parseIPv4 s = Some ip → ∃ a b c d, ip = IPv4 a b c d.
Proof.
  unfold parseIPv4. intros H.
  repeat (apply bind_Some in H as ((? & ?) & _ & H) || apply bind_Some in H as (? & _ & H)).
  case_bool_decide; [|done]. injection H as <-. eauto.
Qed.

Lemma expandEllipsis_length r ip : expandEllipsis r = Some ip →
  (∀ e, r.2 = Some e → (e ≤ length r.1)%nat) → length ip = 16%nat.
Proof.
  destruct r as [acc [e|]]; simpl; intros H He.
  - specialize (He e eq_refl). case_decide; [|done]. injection H as <-.
    rewrite !length_app, length_take, length_replicate, length_drop. lia.
  - case_decide; [|done]. by injection H as <-.
Qed.

Lemma parseIPv6Loop_ell fuel s acc ell r :
  parseIPv6Loop fuel s acc ell = Some r →
  (∀ e, ell = Some e → (e ≤ length acc)%nat) →
  ∀ e, r.2 = Some e → (e ≤ length r.1)%nat.
Proof.
  revert s acc ell. induction fuel as [|f IH]; intros s acc ell; simpl.
  - case_bool_decide; [|done]. intros [= <-]. done.
  - destruct (xtoi s) as [[[n c] rest]|]; [|done].
    destruct (65535 <? n); [done|].
    destruct (head_is "." rest).
    + destruct (_ || _); [done|]. destruct (parseIPv4 s); [|done].
      intros [= <-] He e. simpl. intros ->. rewrite length_app.
      specialize (He e eq_refl). lia.
    + set (acc' := acc ++ _). intros H He.
      assert (∀ e, ell = Some e → (e ≤ length acc')%nat) as He'.
      { intros e ->. unfold acc'. rewrite length_app. specialize (He e eq_refl). lia. }
      destruct rest as [|ch rest']; [by injection H as <-|].
      destruct (_ || _); [done|].
      destruct rest' as [|c2 rest2]; [done|].
      case_bool_decide; [|by eapply IH].
      destruct ell; [done|]. case_bool_decide.
      * injection H as <-. simpl. intros e [= <-]. done.
      * eapply IH; [done|]. intros e [= <-]. done.
Qed.

Lemma parseIPv6_length s ip : parseIPv6 s = Some ip → length ip = 16%nat.
Proof.
  assert (∀ s, parseIPv6Loop 8 s [] None ≫= expandEllipsis = Some ip →
               length ip = 16%nat) as L1.
  { intros s' (r & H1 & H2)%bind_Some. eapply expandEllipsis_length; [done|].
    by eapply parseIPv6Loop_ell. }
  assert (∀ s, parseIPv6Loop 8 s [] (Some 0%nat) ≫= expandEllipsis = Some ip →
               length ip = 16%nat) as L2.
  { intros s' (r & H1 & H2)%bind_Some. eapply expandEllipsis_length; [done|].
    eapply parseIPv6Loop_ell; [done|]. intros e [= <-]. simpl. lia. }
  unfold parseIPv6.
  repeat match goal with
  | |- Some _ = Some _ → _ => intros [= <-]; done
  | |- parseIPv6Loop 8 _ [] None ≫= _ = _ → _ => apply L1
  | |- parseIPv6Loop 8 _ [] (Some _) ≫= _ = _ → _ => apply L2
  | |- context [match ?x with _ => _ end] => destruct x
  end.
Qed.

Lemma To4_Some_length ip x : To4 ip = Some x → length x = 4%nat.
Proof.
  unfold To4. case_decide; [by intros [= <-]|].
  case_decide as H16; [|done]. intros [= <-]. rewrite length_drop. lia.
Qed.

Lemma zip_land_length (a m : list Z) :
  length a = length m → length (a & m) = length a.
Proof. intros. rewrite length_zip_with. lia. Qed.

Lemma wf_net_v6 ip k :
  length ip = 16%nat → 0 ≤ k →
  wf_net {| IPNet_IP := ip & mask_of k 16; IPNet_Mask := mask_of k 16 |}.
Proof.
  intros L Hk. unfold wf_net, networkNumberAndMask; simpl IPNet_IP; simpl IPNet_Mask.
  set (nn := ip & mask_of k 16).
  assert (length nn = 16%nat) as Ln
    by (unfold nn; rewrite zip_land_length; rewrite ?mask_of_length; lia).
  destruct (To4 nn) as [x|] eqn:E.
  - pose proof (To4_Some_length _ _ E) as Lx.
    rewrite mask_of_length. rewrite decide_False by lia. rewrite decide_True by done.
    pose proof (mask_of_drop 12 k 4 Hk) as D.
    change (12 + 4)%nat with 16%nat in D.
    exists x, (Z.max 0 (k - 8 * Z.of_nat 12)). rewrite Lx, D.
    split; [done|]. split; [lia|by left].
  - rewrite mask_of_length, decide_True by done.
    exists nn, k. rewrite Ln. eauto 6.
Qed.

Lemma wf_net_v4 ip k :
  length ip = 4%nat → 0 ≤ k →
  wf_net {| IPNet_IP := ip & mask_of k 4; IPNet_Mask := mask_of k 4 |}.
Proof.
  intros L Hk. unfold wf_net, networkNumberAndMask, To4; simpl IPNet_IP; simpl IPNet_Mask.
  assert (length (ip & mask_of k 4) = 4%nat) as Ln
    by (rewrite zip_land_length; rewrite ?mask_of_length; lia).
  rewrite decide_True by done. rewrite mask_of_length, decide_True by done.
  exists (ip & mask_of k 4), k. rewrite Ln. eauto 6.
Qed.

Lemma IP_Mask_same ip m :
  length ip = 16%nat → length m = 16%nat → IP_Mask ip m = Some (ip & m).
Proof.
  intros L1 L2. unfold IP_Mask.
  rewrite (decide_False (P := length m = 16%nat ∧ _)) by lia.
  rewrite (decide_False (P := length m = 4%nat ∧ _)) by lia.
  by rewrite decide_True by lia.
Qed.

Lemma ParseCIDR_wf s ip n : ParseCIDR s = Ok (ip, n) → wf_net n.
Proof.
  unfold ParseCIDR. destruct (splitSlash s) as [[addr mask]|]; [|done].
  destruct (parseIPv4 addr) as [ip4|] eqn:E4.
  - apply parseIPv4_form in E4 as (a & b & c & d & ->). cbv beta iota zeta.
    destruct (dtoi mask) as [[[k z] [|? ?]]|]; [|done..].
    destruct (CIDRMask k (8 * 4)) as [m|] eqn:Em; [|done].
    apply CIDRMask_mask_of in Em as [Hk ->]. change (Z.to_nat (8 * 4 / 8)) with 4%nat.
    unfold IP_Mask. rewrite mask_of_length.
    rewrite (decide_False (P := 4%nat = 16%nat ∧ _)) by lia.
    rewrite ?mask_of_length. rewrite (decide_True (P := 4%nat = 4%nat ∧ _)) by done.
    rewrite decide_True by done. intros [= <- <-].
    apply (wf_net_v4 [a; b; c; d]); [done|lia].
  - destruct (parseIPv6 addr) as [ip6|] eqn:E6; [|done].
    change ((λ ip, (ip, 16)) <$> Some ip6) with (Some (ip6, 16)).
    apply parseIPv6_length in E6 as L.
    destruct (dtoi mask) as [[[k z] [|? ?]]|]; [|done..].
    destruct (CIDRMask k (8 * 16)) as [m|] eqn:Em; [|done].
    apply CIDRMask_mask_of in Em as [Hk ->]. change (Z.to_nat (8 * 16 / 8)) with 16%nat.
    rewrite IP_Mask_same by (rewrite ?mask_of_length; lia).
    intros [= <- <-]. apply wf_net_v6; [done|lia].
Qed.

(** ** The value of an address and of an IPv4 block *)

Ltac Zify.zify_post_hook ::= Z.to_euclidean_division_equations.

Definition byte (b : Z) : Prop := 0 ≤ b < 256.

(** Big-endian value of an address. *)
Fixpoint val (ip : IP) : Z :=
  match ip with [] => 0 | b :: bs => b * 2 ^ (8 * Z.of_nat (length bs)) + val bs end.

Definition bytes4 (v : Z) : IP :=
  [v / 2 ^ 24 mod 256; v / 2 ^ 16 mod 256; v / 2 ^ 8 mod 256; v mod 256].
Definition net4 (v k : Z) : IPNet :=
  {| IPNet_IP := bytes4 v; IPNet_Mask := mask_of k 4 |}.
Definition addr4 (v : Z) : Prop := 0 ≤ v < 2 ^ 32.

Lemma val_range ip : Forall byte ip → 0 ≤ val ip < 2 ^ (8 * Z.of_nat (length ip)).
Proof.
  induction 1 as [|b bs Hb _ IH]; cbn [val length]; [done|].
  rewrite Nat2Z.inj_succ, Z.mul_succ_r, Z.pow_add_r by lia.
  unfold byte in Hb. change (2 ^ 8) with 256. nia.
Qed.

Lemma val_four a b c d :
  val [a; b; c; d] = a * 16777216 + b * 65536 + c * 256 + d.
Proof.
  cbn [val length].
  change (2 ^ (8 * Z.of_nat 3)) with 16777216. change (2 ^ (8 * Z.of_nat 2)) with 65536.
  change (2 ^ (8 * Z.of_nat 1)) with 256. change (2 ^ (8 * Z.of_nat 0)) with 1. lia.
Qed.
Lemma bytes4_num v :
  bytes4 v = [v / 16777216 mod 256; v / 65536 mod 256; v / 256 mod 256; v mod 256].
Proof. done. Qed.

Lemma val_bytes4 v : addr4 v → val (bytes4 v) = v.
Proof. unfold addr4. change (2 ^ 32) with 4294967296. intros H.
  rewrite bytes4_num, val_four. lia. Qed.
Lemma bytes4_bytes v : Forall byte (bytes4 v).
Proof. repeat constructor; apply Z.mod_pos_bound; lia. Qed.
Lemma bytes4_val ip : length ip = 4%nat → Forall byte ip → bytes4 (val ip) = ip.
Proof.
  intros L H. destruct ip as [|a [|b [|c [|d [|? ?]]]]]; try done.
  repeat match goal with X : Forall _ (_ :: _) |- _ => inversion_clear X end.
  unfold byte in *. rewrite val_four, bytes4_num. repeat f_equal; lia.
Qed.

Lemma byte_check (P : Z → bool) :
  forallb P (seqZ 0 256) = true → ∀ b, byte b → P b = true.
Proof. intros H b Hb. eapply forallb_In; [done|]. apply elem_of_seqZ. unfold byte in Hb. lia. Qed.

Lemma land_mask_byte n b :
  0 ≤ n < 8 → byte b →
  Z.land b (255 - Z.shiftr 255 n) = b - b mod 2 ^ (8 - n).
Proof.
  intros Hn Hb. apply Z.eqb_eq. revert b Hb. apply byte_check.
  assert (n ∈ seqZ 0 8) as Hs by (apply elem_of_seqZ; lia).
  clear Hn; revert n Hs. apply (forallb_In (λ n, forallb (λ b, _) (seqZ 0 256))).
  vm_compute. reflexivity.
Qed.

Lemma land_byte_255 b : byte b → Z.land b 255 = b.
Proof.
  intros Hb. apply Z.eqb_eq. revert b Hb. apply byte_check. vm_compute. reflexivity.
Qed.

Transparent mask_of.
Lemma land_mask_zero bs : val (bs & mask_of 0 (length bs)) = 0.
Proof.
  induction bs as [|b bs IH]; [done|]. unfold mask_of in *. cbn [length cidrMaskBytes zip_with val].
  change (8 <=? 0) with false. change (255 - Z.shiftr 255 0) with 0. cbv iota.
  cbn [zip_with val]. rewrite Z.land_0_r. lia.
Qed.

(** Masking an address clears the bits below the prefix. *)
Lemma val_mask ip k :
  Forall byte ip → 0 ≤ k ≤ 8 * Z.of_nat (length ip) →
  val (ip & mask_of k (length ip)) =
  val ip - val ip mod 2 ^ (8 * Z.of_nat (length ip) - k).
Proof.
  intros H. revert k. induction H as [|b bs Hb Hbs IH]; intros k Hk.
  - cbn in *. rewrite Z.mod_0_l by lia. done.
  - cbn [length] in Hk. unfold mask_of. cbn [length cidrMaskBytes].
    rewrite Nat2Z.inj_succ in Hk. rewrite Nat2Z.inj_succ.
    pose proof (val_range bs Hbs) as Hr.
    set (l := 8 * Z.of_nat (length bs)) in *.
    replace (8 * Z.succ (Z.of_nat (length bs)) - k) with (l - (k - 8)) by lia.
    destruct (Z.leb_spec 8 k); cbn [zip_with val].
    + rewrite land_byte_255 by done.
      fold (mask_of (k - 8) (length bs)). rewrite IH by lia.
      rewrite length_zip_with, mask_of_length, Nat.min_id. fold l.
      replace (2 ^ l) with (2 ^ (k - 8) * 2 ^ (l - (k - 8)))
        by (rewrite <- Z.pow_add_r by lia; f_equal; lia).
      assert (0 < 2 ^ (l - (k - 8))) by lia.
      rewrite Z.mul_assoc, (Z.add_comm (_ * _) (val bs)), Z_mod_plus_full. lia.
    + fold (mask_of 0 (length bs)). rewrite land_mask_zero.
      rewrite length_zip_with, mask_of_length, Nat.min_id. fold l.
      rewrite land_mask_byte by (done || lia).
      replace (l - (k - 8)) with (l + (8 - k)) by lia. rewrite Z.pow_add_r by lia.
      assert ((b * 2 ^ l + val bs) mod 2 ^ l = val bs) as E1
        by (rewrite Z.add_comm, Z_mod_plus_full; by apply Z.mod_small).
      assert ((b * 2 ^ l + val bs) / 2 ^ l = b) as E2
        by (rewrite Z.div_add_l, Z.div_small by lia; lia).
      rewrite Z.rem_mul_r, E1, E2 by lia. lia.
Qed.

Lemma land_mask_bytes ip k :
  Forall byte ip → 0 ≤ k → Forall byte (ip & mask_of k (length ip)).
Proof.
  unfold mask_of. intros H. revert k.
  induction H as [|b bs Hb _ IH]; intros k Hk; cbn [length cidrMaskBytes zip_with];
    [constructor|].
  destruct (Z.leb_spec 8 k); constructor; try (apply IH; lia).
  - by rewrite land_byte_255.
  - rewrite land_mask_byte by (done || lia). unfold byte in *.
    pose proof (Z.mod_pos_bound b (2 ^ (8 - k))). pose proof (Z.mod_le b (2 ^ (8 - k))). lia.
Qed.
#[global] Opaque mask_of.

Lemma bytes4_mask v k :
  addr4 v → 0 ≤ k ≤ 32 →
  bytes4 v & mask_of k 4 = bytes4 (v - v mod 2 ^ (32 - k)).
Proof.
  intros Hv Hk. change 4%nat with (length (bytes4 v)).
  pose proof (val_mask (bytes4 v) k (bytes4_bytes v)) as E.
  change (8 * Z.of_nat (length (bytes4 v))) with 32 in E.
  rewrite val_bytes4 in E by done. rewrite <- E by lia. symmetry.
  apply bytes4_val.
  - rewrite zip_land_length; by rewrite ?mask_of_length.
  - apply land_mask_bytes; [apply bytes4_bytes|lia].
Qed.

Lemma networkNumberAndMask_net4 v k :
  networkNumberAndMask (net4 v k) = Some (bytes4 v, mask_of k 4).
Proof.
  unfold networkNumberAndMask, To4. simpl IPNet_IP. simpl IPNet_Mask.
  rewrite decide_True by done. by rewrite mask_of_length, decide_True.
Qed.

Lemma wf_net4 v k : 0 ≤ k → wf_net (net4 v k).
Proof.
  intros Hk. exists (bytes4 v), k. rewrite networkNumberAndMask_net4. simpl. eauto.
Qed.

Lemma norm_bytes4 v : norm (bytes4 v) = bytes4 v.
Proof. apply norm_idemp. by left. Qed.

Lemma norm_v4InV6 v : norm (v4InV6Prefix ++ bytes4 v) = bytes4 v.
Proof. done. Qed.

Lemma bytes4_inj v w : addr4 v → addr4 w → bytes4 v = bytes4 w → v = w.
Proof. intros Hv Hw E. by rewrite <- (val_bytes4 v), <- (val_bytes4 w), E. Qed.

Lemma addr4_align v k : addr4 v → 0 ≤ k ≤ 32 → addr4 (v - v mod 2 ^ (32 - k)).
Proof.
  unfold addr4. intros Hv Hk.
  pose proof (Z.mod_pos_bound v (2 ^ (32 - k))). pose proof (Z.mod_le v (2 ^ (32 - k))).
  lia.
Qed.

(** Containment in an IPv4 block is agreement on the prefix. *)
Lemma Contains_net4 v k ip w :
  addr4 v → addr4 w → 0 ≤ k ≤ 32 → norm ip = bytes4 w →
  Contains (net4 v k) ip = true ↔ w / 2 ^ (32 - k) = v / 2 ^ (32 - k).
Proof.
  intros Hv Hw Hk Hn. rewrite (Contains_spec _ _ _ _ (networkNumberAndMask_net4 v k)).
  rewrite Hn, !bytes4_mask by done.
  assert (0 < 2 ^ (32 - k)) by lia.
  rewrite !Z.mod_eq by lia. split.
  - intros [_ E]. apply bytes4_inj in E.
    + apply (Z.mul_reg_l _ _ (2 ^ (32 - k))); lia.
    + rewrite <- Z.mod_eq by lia. by apply addr4_align.
    + rewrite <- Z.mod_eq by lia. by apply addr4_align.
  - intros E. split; [done|]. f_equal. rewrite E. lia.
Qed.

(** ** Formatting and parsing are inverse *)

Lemma numLoop_app val base s rest n i m j :
  numLoop val base s n i = Some (m, j, EmptyString) →
  (rest = EmptyString ∨ ∃ c r, rest = String c r ∧ val c = None) →
  numLoop val base (s +:+ rest) n i = Some (m, j, rest).
Proof.
  intros H Hr. revert n i H. induction s as [|c s IH]; intros n i; simpl.
  - destruct Hr as [->|(c & r & -> & Hc)]; simpl; [done|]. rewrite Hc.
    case_decide; [done|]. by intros [= -> ->].
  - destruct (val c) as [d|]; [|by case_decide]. destruct (big <=? _); [done|]. apply IH.
Qed.

Lemma ipv4Field_itoa b rest :
  byte b →
  rest = EmptyString ∨ (∃ c r, rest = String c r ∧ digit_val c = None) →
  ipv4Field (itoa b +:+ rest) = Some (b, rest).
Proof.
  intros Hb Hr.
  assert (match itoa b with
          | EmptyString => false
          | s => match dtoi s with
                 | Some (n, c, EmptyString) => (n =? b) && negb ((255 <? n) || ((1 <? Z.of_nat c) && head_is "0" s))
                 | _ => false
                 end
          end = true) as H.
  { revert b Hb. apply byte_check. vm_compute. reflexivity. }
  revert H. destruct (itoa b) as [|c s] eqn:E; [done|]. cbv zeta.
  destruct (dtoi (String c s)) as [[[n j] [|? ?]]|] eqn:D; [|done..]. intros H.
  apply andb_true_iff in H as [En H]. apply Z.eqb_eq in En as ->.
  apply negb_true_iff in H.
  unfold ipv4Field, dtoi in *. rewrite (numLoop_app _ _ _ rest _ _ _ _ D) by done.
  change (head_is "0" (String c s +:+ rest)) with (head_is "0" (String c s)).
  by rewrite H.
Qed.

Lemma dtoi_itoa b : byte b → ∃ c, dtoi (itoa b) = Some (b, c, EmptyString).
Proof.
  intros Hb.
  assert (match dtoi (itoa b) with Some (n, c, EmptyString) => n =? b | _ => false end
          = true) as H.
  { revert b Hb. apply byte_check. vm_compute. reflexivity. }
  revert H. destruct (dtoi (itoa b)) as [[[n j] [|? ?]]|]; [|done..]. intros H.
  apply Z.eqb_eq in H as ->. eauto.
Qed.

Fixpoint noslash (s : string) : bool :=
  match s with
  | EmptyString => true
  | String c s' => negb (bool_decide (c = "/"%char)) && noslash s'
  end.
Lemma noslash_app s t : noslash (s +:+ t) = noslash s && noslash t.
Proof. induction s as [|c s IH]; simpl; [done|]. by rewrite IH, andb_assoc. Qed.
Lemma noslash_itoa b : byte b → noslash (itoa b) = true.
Proof. revert b. apply byte_check. vm_compute. reflexivity. Qed.
Lemma splitSlash_app s t :
  noslash s = true → splitSlash (s +:+ String "/" t) = Some (s, t).
Proof.
  induction s as [|c s IH]; [done|]. simpl. intros [H1 H2]%andb_true_iff.
  apply negb_true_iff in H1. change (s +:+ String "/" t) with (s +:+ String "/" t).
  rewrite H1, IH by done. done.
Qed.

Lemma IP_String_bytes4 v :
  IP_String (bytes4 v) =
  itoa (v / 2 ^ 24 mod 256) +:+ "." +:+ itoa (v / 2 ^ 16 mod 256) +:+ "." +:+
  itoa (v / 2 ^ 8 mod 256) +:+ "." +:+ itoa (v mod 256).
Proof. done. Qed.

Lemma parseIPv4_String v :
  parseIPv4 (IP_String (bytes4 v)) = Some (v4InV6Prefix ++ bytes4 v).
Proof.
  rewrite IP_String_bytes4. unfold parseIPv4.
  assert (∀ x, byte (x mod 256)) as B by (intros; apply Z.mod_pos_bound; lia).
  assert (∀ r, ∃ c s, ("." +:+ r : string) = String c s ∧ digit_val c = None) as D
    by (intros; by eexists _, _).
  assert (∀ r, dot ("." +:+ r) = Some r) as Dt by done.
  rewrite ipv4Field_itoa by auto. cbn [mbind option_bind]. rewrite Dt. cbn [mbind option_bind].
  rewrite ipv4Field_itoa by auto. cbn [mbind option_bind]. rewrite Dt. cbn [mbind option_bind].
  rewrite ipv4Field_itoa by auto. cbn [mbind option_bind]. rewrite Dt. cbn [mbind option_bind].
  pose proof (ipv4Field_itoa (v mod 256) "" (B _) (or_introl eq_refl)) as L.
  rewrite string_app_nil_r in L. rewrite L. done.
Qed.

Lemma simpleMaskLength_mask_of k : 0 ≤ k ≤ 32 → simpleMaskLength (mask_of k 4) = k.
Proof.
  intros Hk. apply Z.eqb_eq. assert (k ∈ seqZ 0 33) as Hs by (apply elem_of_seqZ; lia).
  clear Hk. revert k Hs. apply (forallb_In (λ k, simpleMaskLength (mask_of k 4) =? k)).
  vm_compute. reflexivity.
Qed.

Lemma Mask_Size_net4 v k : 0 ≤ k ≤ 32 → Mask_Size (IPNet_Mask (net4 v k)) = (k, 32).
Proof.
  intros Hk. unfold Mask_Size. simpl IPNet_Mask.
  rewrite simpleMaskLength_mask_of, mask_of_length by done.
  destruct (Z.eqb_spec k (-1)); [lia|done].
Qed.

Lemma IPNet_String_net4 v k :
  0 ≤ k ≤ 32 → IPNet_String (net4 v k) = IP_String (bytes4 v) +:+ "/" +:+ itoa k.
Proof.
  intros Hk. unfold IPNet_String.
  by rewrite networkNumberAndMask_net4, simpleMaskLength_mask_of.
Qed.

Lemma CIDRMask_32 k : 0 ≤ k ≤ 32 → CIDRMask k 32 = Some (mask_of k 4).
Proof.
  intros Hk. unfold CIDRMask. simpl orb.
  destruct (Z.leb_spec 0 k), (Z.leb_spec k 32); try lia. done.
Qed.

(** Parsing "a.b.c.d/k": the address, and the block with the host bits cleared. *)
Lemma ParseCIDR_String v k :
  addr4 v → 0 ≤ k ≤ 32 →
  ParseCIDR (IP_String (bytes4 v) +:+ "/" +:+ itoa k) =
  Ok (v4InV6Prefix ++ bytes4 v, net4 (v - v mod 2 ^ (32 - k)) k).
Proof.
  intros Hv Hk. unfold ParseCIDR.
  assert (∀ x, byte (x mod 256)) as B by (intros; apply Z.mod_pos_bound; lia).
  change ("/" +:+ itoa k) with (String "/" (itoa k)).
  rewrite splitSlash_app.
  2: { rewrite IP_String_bytes4, !noslash_app, !noslash_itoa by auto. done. }
  rewrite parseIPv4_String. cbv beta iota zeta.
  destruct (dtoi_itoa k) as [c ->]; [unfold byte; lia|].
  change (8 * 4) with 32. rewrite CIDRMask_32 by done.
  unfold IP_Mask. rewrite mask_of_length.
  rewrite (decide_False (P := 4%nat = 16%nat ∧ _)) by lia.
  rewrite ?mask_of_length. rewrite (decide_True (P := 4%nat = 4%nat ∧ _)) by done.
  rewrite decide_True by done.
  change (drop 12 (v4InV6Prefix ++ bytes4 v)) with (bytes4 v).
  by rewrite bytes4_mask.
Qed.

(** The round trip on an aligned block. *)
Lemma ParseCIDR_IPNet_String v k :
  addr4 v → 0 ≤ k ≤ 32 → v mod 2 ^ (32 - k) = 0 →
  ParseCIDR (IPNet_String (net4 v k)) = Ok (v4InV6Prefix ++ bytes4 v, net4 v k).
Proof.
  intros Hv Hk E. rewrite IPNet_String_net4, ParseCIDR_String by done.
  by rewrite E, Z.sub_0_r.
Qed.
