(* ===== verification/GoStrings.v ===== *)
(** * strings and strconv

    The functions of Go's packages strings and strconv that the operator uses,
    on ASCII strings. *)
From S2P Require Import Prelude GoNet.
From Stdlib Require Import Ascii.
From stdpp Require Import pretty.

(** ** Case *)

Definition isUpper (c : ascii) : bool :=
  let n := nat_of_ascii c in (65 <=? n)%nat && (n <=? 90)%nat.
Definition isAlphanum (c : ascii) : bool :=
  let n := nat_of_ascii c in
  ((48 <=? n)%nat && (n <=? 57)%nat) || isUpper c || ((97 <=? n)%nat && (n <=? 122)%nat).
Definition lowerAscii (c : ascii) : ascii :=
  if isUpper c then ascii_of_nat (nat_of_ascii c + 32) else c.
(** [strings.ToLower] on ASCII strings *)
Fixpoint ToLower (s : string) : string :=
  match s with EmptyString => EmptyString | String c s' => String (lowerAscii c) (ToLower s') end.

(** ** Numbers (strconv) *)

(** [strconv.ParseInt(s, 10, 64)]; [None] is an error. *)
Fixpoint parseDigits (s : string) (n : Z) : option Z :=
  match s with
  | EmptyString => Some n
  | String c s' => match digit_val c with
                   | Some d => parseDigits s' (10 * n + d)
                   | None => None
                   end
  end.
Definition ParseInt64 (s : string) : option Z :=
  let '(neg, body) := match s with
                      | String "-" s' => (true, s')
                      | String "+" s' => (false, s')
                      | _ => (false, s)
                      end in
  match body with
  | EmptyString => None
  | _ => n ← parseDigits body 0;
         let n := if neg : bool then (- n)%Z else n in
         if ((- 2 ^ 63 <=? n) && (n <? 2 ^ 63))%Z then Some n else None
  end.


(** ** Searching and replacing (strings) *)

Fixpoint isPrefix (p s : string) : bool :=
  match p, s with
  | EmptyString, _ => true
  | String c p', String d s' => (c =? d)%char && isPrefix p' s'
  | _, _ => false
  end.
(** [s[n:]] *)
Fixpoint dropChars (n : nat) (s : string) : string :=
  match n, s with
  | S n', String _ s' => dropChars n' s'
  | _, _ => s
  end.
Definition TrimPrefix (s p : string) : string :=
  if isPrefix p s then dropChars (String.length p) s else s.
(** [strings.Replace(s, p, "", 1)] for a non-empty [p] *)
Fixpoint removeFirst (p s : string) : string :=
  if isPrefix p s then dropChars (String.length p) s
  else match s with EmptyString => EmptyString | String c s' => String c (removeFirst p s') end.
(** [strings.ReplaceAll(s, c, d)] for one-byte strings *)
Fixpoint replaceChar (c d : ascii) (s : string) : string :=
  match s with
  | EmptyString => EmptyString
  | String x s' => String (if (x =? c)%char then d else x) (replaceChar c d s')
  end.
Fixpoint removeChar (c : ascii) (s : string) : string :=
  match s with
  | EmptyString => EmptyString
  | String x s' => if (x =? c)%char then removeChar c s' else String x (removeChar c s')
  end.
(** [s[:len(s)-1]]; [None] on the empty string, where it panics *)
Fixpoint dropLast (s : string) : option string :=
  match s with
  | EmptyString => None
  | String c EmptyString => Some EmptyString
  | String c s' => r ← dropLast s'; Some (String c r)
  end.
(** [strings.TrimSpace] *)
Definition isSpace (c : ascii) : bool :=
  let n := nat_of_ascii c in ((n =? 32) || ((9 <=? n) && (n <=? 13)))%nat.
Fixpoint trimLeft (s : string) : string :=
  match s with
  | String c s' => if isSpace c then trimLeft s' else s
  | EmptyString => s
  end.
Fixpoint trimRight (s : string) : string :=
  match s with
  | EmptyString => EmptyString
  | String c s' => match trimRight s' with
                   | EmptyString => if isSpace c then EmptyString else String c EmptyString
                   | r => String c r
                   end
  end.
Definition TrimSpace (s : string) : string := trimRight (trimLeft s).

(** ** Printing and parsing numbers *)

Lemma digit_val_char x : (x < 10)%N → digit_val (pretty_N_char x) = Some (Z.of_N x).
Proof.
  intros H. assert (x = 0 ∨ x = 1 ∨ x = 2 ∨ x = 3 ∨ x = 4 ∨ x = 5 ∨ x = 6 ∨ x = 7 ∨ x = 8 ∨ x = 9)%N
    as Hx by lia. destruct_or! Hx; subst x; reflexivity.
Qed.

Lemma parseDigits_go x s : parseDigits (pretty_N_go x s) 0 = parseDigits s (Z.of_N x).
Proof.
  revert s. induction (N.lt_wf_0 x) as [x _ IH]; intros s.
  destruct (decide (x = 0)%N) as [->|Hx]; [by rewrite pretty_N_go_0|].
  rewrite pretty_N_go_step, IH by (try apply N.div_lt; lia). cbn [parseDigits].
  rewrite digit_val_char by (apply N.mod_lt; lia). f_equal.
  rewrite N2Z.inj_div, N2Z.inj_mod. pose proof (Z.div_mod (Z.of_N x) 10). lia.
Qed.
Lemma parseDigits_pretty (n : N) : parseDigits (pretty n) 0 = Some (Z.of_N n).
Proof.
  unfold pretty, pretty_N. case_decide as H; [by subst|]. by rewrite parseDigits_go.
Qed.

Lemma pretty_go_head x s : (0 < x)%N →
  ∃ c s', pretty_N_go x s = String c s' ∧ is_Some (digit_val c).
Proof.
  assert (∀ x s, (∃ c s', s = String c s' ∧ is_Some (digit_val c)) →
    ∃ c s', pretty_N_go x s = String c s' ∧ is_Some (digit_val c)) as G.
  { clear x s. intros x. induction (N.lt_wf_0 x) as [x _ IH]; intros s Hs.
    destruct (decide (x = 0)%N) as [->|Hx]; [by rewrite pretty_N_go_0|].
    rewrite pretty_N_go_step by lia. apply IH; [apply N.div_lt; lia|].
    eexists _, _. split; [done|]. rewrite digit_val_char; [by eexists|apply N.mod_lt; lia]. }
  intros Hx. rewrite pretty_N_go_step by lia. apply G.
  eexists _, _. split; [done|]. rewrite digit_val_char; [by eexists|apply N.mod_lt; lia].
Qed.
Lemma pretty_N_head (n : N) : ∃ c s, pretty n = String c s ∧ is_Some (digit_val c).
Proof.
  unfold pretty, pretty_N. case_decide; [|apply pretty_go_head; lia].
  exists "0"%char, "". split; [done|by eexists].
Qed.

Lemma ParseInt64_pos (n : N) :
  ParseInt64 (pretty n) = if (Z.of_N n <? 2 ^ 63)%Z then Some (Z.of_N n) else None.
Proof.
  destruct (pretty_N_head n) as (c & s & E & Hc). pose proof (parseDigits_pretty n) as P.
  rewrite E in P |- *. unfold ParseInt64.
  assert (c ≠ "-"%char ∧ c ≠ "+"%char) as [H1 H2] by (split; intros ->; by destruct Hc).
  transitivity (match String c s with EmptyString => None | _ =>
    n ← parseDigits (String c s) 0;
    if ((- 2 ^ 63 <=? n) && (n <? 2 ^ 63))%Z then Some n else None end).
  { destruct c as [[] [] [] [] [] [] [] []]; try done. }
  rewrite P. cbn [mbind option_bind option_bind]. 
  replace (- 2 ^ 63 <=? Z.of_N n)%Z with true by (symmetry; apply Z.leb_le; lia). done.
Qed.
Lemma ParseInt64_neg (n : N) :
  ParseInt64 ("-" +:+ pretty n) = if (Z.of_N n <=? 2 ^ 63)%Z then Some (- Z.of_N n)%Z else None.
Proof.
  destruct (pretty_N_head n) as (c & s & E & _). pose proof (parseDigits_pretty n) as P.
  unfold ParseInt64. rewrite E in P |- *. cbn -[parseDigits Z.pow].
  change ("-" +:+ String c s) with (String "-" (String c s)). cbn -[parseDigits Z.pow Z.leb Z.ltb].   rewrite P. cbn [mbind option_bind].
  replace (- Z.of_N n <? 2 ^ 63)%Z with true by (symmetry; apply Z.ltb_lt; lia).
  rewrite andb_true_r.
  replace (- 2 ^ 63 <=? - Z.of_N n)%Z with (Z.of_N n <=? 2 ^ 63)%Z; [done|].
  apply eq_bool_prop_intro; rewrite !Is_true_true, !Z.leb_le. lia.
Qed.

(** A 64-bit integer is read back. *)
Lemma ParseInt64_itoa z : (- 2 ^ 63 ≤ z < 2 ^ 63)%Z → ParseInt64 (itoa z) = Some z.
Proof.
  intros Hz. unfold itoa. destruct z as [|p|p]; [done| |].
  - change (pretty (Zpos p)) with (pretty (Npos p)). rewrite ParseInt64_pos.
    rewrite (proj2 (Z.ltb_lt _ _)); [done|]. cbn. lia.
  - change (pretty (Zneg p)) with ("-" +:+ pretty (Npos p)). rewrite ParseInt64_neg.
    rewrite (proj2 (Z.leb_le _ _)); [done|]. cbn. lia.
Qed.

(** [%q] of a string: in double quotes, the characters of ASCII that are not printed
    are escaped; other characters stand for themselves. *)
Definition hexDigit (n : nat) : ascii :=
  ascii_of_nat (if (n <? 10)%nat then 48 + n else 87 + n).
Definition quoteChar (c : ascii) : string :=
  let n := nat_of_ascii c in
  if (n =? 34)%nat then String "\" (String c EmptyString)
  else if (n =? 92)%nat then String "\" (String c EmptyString)
  else if (n =? 7)%nat then "\a" else if (n =? 8)%nat then "\b"
  else if (n =? 9)%nat then "\t" else if (n =? 10)%nat then "\n"
  else if (n =? 11)%nat then "\v" else if (n =? 12)%nat then "\f"
  else if (n =? 13)%nat then "\r"
  else if (n <? 32)%nat || (n =? 127)%nat then
    "\x" +:+ String (hexDigit (n / 16)) (String (hexDigit (n mod 16)) EmptyString)
  else String c EmptyString.
Fixpoint quoteChars (s : string) : string :=
  match s with EmptyString => EmptyString | String c s' => quoteChar c +:+ quoteChars s' end.
Definition Quote (s : string) : string :=
  String "034" (quoteChars s +:+ String "034" EmptyString).
