(* ===== verification/Json.v ===== *)
(** * encoding/json

    What the operator uses of Go's JSON decoder: [json.Unmarshal] of the
    strategies of the config maps into structs, maps and slices.  [parse] reads
    the whole input, as [Unmarshal] does before it decodes; a [json.RawMessage]
    is kept as the value it denotes.  A number keeps its literal.  The texts of
    syntax and type errors are abbreviated, invalid UTF-8 inside a string is kept
    as it is, and keys are folded in ASCII only. *)
From S2P Require Import Prelude GoNet GoStrings.
From Stdlib Require Import Ascii.
Local Open Scope Z_scope.

#[warnings="-register-all"]
Inductive json :=
  | JNull
  | JBool (b : bool)
  | JNum (literal : string)
  | JStr (s : string)
  | JArr (l : list json)
  | JObj (members : list (string * json)).

(** Induction with the hypothesis for the elements. *)
Lemma json_induction (P : json → Prop) :
  P JNull → (∀ b, P (JBool b)) → (∀ l, P (JNum l)) → (∀ s, P (JStr s)) →
  (∀ l, Forall P l → P (JArr l)) → (∀ ms, Forall (λ m, P m.2) ms → P (JObj ms)) →
  ∀ v, P v.
Proof.
  intros Hn Hb Hi Hs Ha Ho. fix IH 1. intros [|b|l|s|l|ms]; [exact Hn|apply Hb|apply Hi|apply Hs| |].
  - apply Ha. induction l as [|v l IHl]; constructor; [apply IH|exact IHl].
  - apply Ho. induction ms as [|[k v] ms IHl]; constructor; [apply IH|exact IHl].
Qed.

(** Decidable equality, through the lists. *)
#[global] Instance json_eq_dec : EqDecision json.
Proof.
  unfold EqDecision, Decision. fix IH 1. intros [|b|l|s|l|ms] [|b'|l'|s'|l'|ms']; try (right; discriminate).
  - by left.
  - destruct (decide (b = b')); [left|right]; congruence.
  - destruct (decide (l = l')); [left|right]; congruence.
  - destruct (decide (s = s')); [left|right]; congruence.
  - assert ({l = l'} + {l ≠ l'}) as [->|]; [|left; congruence|right; congruence].
    revert l'. induction l as [|x l IHl]; intros [|y l']; try (right; discriminate); [by left|].
    destruct (IH x y) as [->|]; [|right; congruence].
    destruct (IHl l') as [->|]; [left|right]; congruence.
  - assert ({ms = ms'} + {ms ≠ ms'}) as [->|]; [|left; congruence|right; congruence].
    revert ms'. induction ms as [|[k x] ms IHl]; intros [|[k' y] ms']; try (right; discriminate);
      [by left|].
    destruct (decide (k = k')) as [->|]; [|right; congruence].
    destruct (IH x y) as [->|]; [|right; congruence].
    destruct (IHl ms') as [->|]; [left|right]; congruence.
Defined.

(** ** Lexing *)

Definition is_ws (c : ascii) : bool :=
  let n := nat_of_ascii c in
  ((n =? 32) || (n =? 9) || (n =? 10) || (n =? 13))%nat.
Fixpoint skipWs (s : string) : string :=
  match s with
  | String c s' => if is_ws c then skipWs s' else s
  | EmptyString => s
  end.

(** A character of a string literal: a byte, or the code unit of a \u escape. *)
Inductive unit_ := Byte (c : ascii) | Code (n : Z).

Definition quad (a b c d : ascii) : option Z :=
  x ← hex_val a; y ← hex_val b; z ← hex_val c; w ← hex_val d;
  Some (x * 4096 + y * 256 + z * 16 + w).
Definition byteOf (n : Z) : ascii := ascii_of_nat (Z.to_nat n).

(** The units up to the closing quote, and the rest of the input. *)
Fixpoint lexString (s : string) : option (list unit_ * string) :=
  match s with
  | EmptyString => None
  | String c s' =>
      if (c =? "034")%char then Some ([], s')
      else if (c =? "092")%char then
        match s' with
        | String "u" (String a (String b (String d (String e rest)))) =>
            n ← quad a b d e; '(us, r) ← lexString rest; Some (Code n :: us, r)
        | String "034" rest => '(us, r) ← lexString rest; Some (Byte "034" :: us, r)
        | String "092" rest => '(us, r) ← lexString rest; Some (Byte "092" :: us, r)
        | String "/" rest => '(us, r) ← lexString rest; Some (Byte "/" :: us, r)
        | String "b" rest => '(us, r) ← lexString rest; Some (Byte "008" :: us, r)
        | String "f" rest => '(us, r) ← lexString rest; Some (Byte "012" :: us, r)
        | String "n" rest => '(us, r) ← lexString rest; Some (Byte "010" :: us, r)
        | String "r" rest => '(us, r) ← lexString rest; Some (Byte "013" :: us, r)
        | String "t" rest => '(us, r) ← lexString rest; Some (Byte "009" :: us, r)
        | _ => None
        end
      else if (nat_of_ascii c <? 32)%nat then None
      else '(us, r) ← lexString s'; Some (Byte c :: us, r)
  end.

(** UTF-8 of a code point. *)
Definition utf8 (n : Z) : list ascii :=
  if n <? 128 then [byteOf n]
  else if n <? 2048 then [byteOf (192 + n / 64); byteOf (128 + n mod 64)]
  else if n <? 65536 then
    [byteOf (224 + n / 4096); byteOf (128 + n / 64 mod 64); byteOf (128 + n mod 64)]
  else [byteOf (240 + n / 262144); byteOf (128 + n / 4096 mod 64);
        byteOf (128 + n / 64 mod 64); byteOf (128 + n mod 64)].
Definition highSurrogate (n : Z) : bool := (55296 <=? n) && (n <? 56320).
Definition lowSurrogate (n : Z) : bool := (56320 <=? n) && (n <? 57344).
Definition replacement : Z := 65533.

(** Surrogate pairs are joined; a lone surrogate is replaced. *)
Fixpoint decodeUnits (us : list unit_) : list ascii :=
  match us with
  | [] => []
  | Byte c :: rest => c :: decodeUnits rest
  | Code n :: rest =>
      if highSurrogate n then
        match rest with
        | Code m :: rest' =>
            if lowSurrogate m
            then utf8 (65536 + (n - 55296) * 1024 + (m - 56320)) ++ decodeUnits rest'
            else utf8 replacement ++ decodeUnits rest
        | _ => utf8 replacement ++ decodeUnits rest
        end
      else if lowSurrogate n then utf8 replacement ++ decodeUnits rest
      else utf8 n ++ decodeUnits rest
  end.
Definition parseString (s : string) : option (string * string) :=
  '(us, r) ← lexString s; Some (String.string_of_list_ascii (decodeUnits us), r).

Definition is_digit (c : ascii) : bool :=
  match digit_val c with Some _ => true | None => false end.
Fixpoint digits (s : string) : string * string :=
  match s with
  | String c s' => if is_digit c then let '(d, r) := digits s' in (String c d, r) else (EmptyString, s)
  | EmptyString => (EmptyString, s)
  end.
(** At least one digit. *)
Definition digits1 (s : string) : option (string * string) :=
  match digits s with (EmptyString, _) => None | p => Some p end.

Definition lexInt (s : string) : option (string * string) :=
  match s with
  | String "0" s' => Some ("0", s')
  | _ => digits1 s
  end.
Definition lexFrac (s : string) : option (string * string) :=
  match s with
  | String "." s' => '(d, r) ← digits1 s'; Some (String "." d, r)
  | _ => Some (EmptyString, s)
  end.
Definition lexExp (s : string) : option (string * string) :=
  match s with
  | String c s' =>
      if (c =? "e")%char || (c =? "E")%char then
        match s' with
        | String sg s'' =>
            if (sg =? "+")%char || (sg =? "-")%char
            then '(d, r) ← digits1 s''; Some (String c (String sg d), r)
            else '(d, r) ← digits1 s'; Some (String c d, r)
        | EmptyString => None
        end
      else Some (EmptyString, s)
  | EmptyString => Some (EmptyString, s)
  end.
Definition parseNumber (s : string) : option (string * string) :=
  let '(sign, s) := match s with String "-" s' => ("-", s') | _ => (EmptyString, s) end in
  '(i, s) ← lexInt s; '(f, s) ← lexFrac s; '(e, s) ← lexExp s;
  Some (sign +:+ i +:+ f +:+ e, s).

(** ** Parsing *)

(** [fuel] bounds the nesting and the number of elements; the length of the
    input is enough, as every step consumes a byte. *)
Fixpoint pValue (fuel : nat) (s : string) : option (json * string) :=
  match fuel with
  | O => None
  | S f =>
      match skipWs s with
      | String "n" (String "u" (String "l" (String "l" r))) => Some (JNull, r)
      | String "t" (String "r" (String "u" (String "e" r))) => Some (JBool true, r)
      | String "f" (String "a" (String "l" (String "s" (String "e" r)))) =>
          Some (JBool false, r)
      | String "034" r => '(v, r) ← parseString r; Some (JStr v, r)
      | String "[" r =>
          match skipWs r with
          | String "]" r => Some (JArr [], r)
          | _ => '(l, r) ← pElements f r; Some (JArr l, r)
          end
      | String "{" r =>
          match skipWs r with
          | String "}" r => Some (JObj [], r)
          | _ => '(l, r) ← pMembers f r; Some (JObj l, r)
          end
      | s => '(n, r) ← parseNumber s; Some (JNum n, r)
      end
  end
with pElements (fuel : nat) (s : string) : option (list json * string) :=
  match fuel with
  | O => None
  | S f =>
      '(v, r) ← pValue f s;
      match skipWs r with
      | String "," r => '(l, r) ← pElements f r; Some (v :: l, r)
      | String "]" r => Some ([v], r)
      | _ => None
      end
  end
with pMembers (fuel : nat) (s : string) : option (list (string * json) * string) :=
  match fuel with
  | O => None
  | S f =>
      match skipWs s with
      | String "034" r =>
          '(k, r) ← parseString r;
          match skipWs r with
          | String ":" r =>
              '(v, r) ← pValue f r;
              match skipWs r with
              | String "," r => '(l, r) ← pMembers f r; Some ((k, v) :: l, r)
              | String "}" r => Some ([(k, v)], r)
              | _ => None
              end
          | _ => None
          end
      | _ => None
      end
  end.

Definition parse (s : string) : result json :=
  match skipWs s with
  | EmptyString => Er (GoErr "unexpected end of JSON input")
  | _ => match pValue (S (String.length s)) s with
         | Some (v, r) => match skipWs r with
                          | EmptyString => Ok v
                          | _ => Er (GoErr "invalid character after top-level value")
                          end
         | None => Er (GoErr "invalid JSON input")
         end
  end.

(** ** Decoding into structs

    The shape of a Go type: pointers to a bool, an int64 or a string, slices,
    maps with string keys and pointers to structs with the names of their fields. *)
#[warnings="-register-all"]
Inductive jkind :=
  | KBool
  | KInt64
  | KString
  | KSlice (elem : jkind)
  | KMap (elem : jkind)
  | KStruct (fields : list (string * jkind)).

(** A member of an object belongs to the field with its name, or else to the
    first field whose name is equal up to case; other members are ignored. *)
Definition fieldOf (fields : list string) (k : string) : option string :=
  match List.find (λ f, bool_decide (f = k)) fields with
  | Some f => Some f
  | None => List.find (λ f, bool_decide (ToLower f = ToLower k)) fields
  end.

(** [Unmarshal] meets no type error; [null] fits every type. *)
Fixpoint hasKind (k : jkind) (v : json) : bool :=
  match v with
  | JNull => true
  | JBool _ => match k with KBool => true | _ => false end
  | JNum l => match k with
              | KInt64 => match ParseInt64 l with Some _ => true | None => false end
              | _ => false
              end
  | JStr _ => match k with KString => true | _ => false end
  | JArr l => match k with KSlice elem => forallb (hasKind elem) l | _ => false end
  | JObj members =>
      match k with
      | KStruct fields =>
          forallb (λ m,
            match fieldOf (map fst fields) m.1 with
            | Some f =>
                (fix typeOf (fs : list (string * jkind)) : bool :=
                   match fs with
                   | [] => true
                   | (g, kg) :: fs' => if bool_decide (g = f) then hasKind kg m.2 else typeOf fs'
                   end) fields
            | None => true
            end) members
      | KMap elem => forallb (λ m, hasKind elem m.2) members
      | _ => false
      end
  end.

(** The value a field is left with: the last one it is given; [None] is nil. *)
Definition fieldValue (fields : list string) (members : list (string * json)) (f : string)
  : option json :=
  match last (List.filter (λ m, bool_decide (fieldOf fields m.1 = Some f)) members) with
  | Some (_, JNull) => None
  | Some (_, v) => Some v
  | None => None
  end.

Definition asBool (v : option json) : option bool :=
  match v with Some (JBool b) => Some b | _ => None end.
Definition asInt64 (v : option json) : option Z :=
  match v with Some (JNum l) => ParseInt64 l | _ => None end.
Definition asString (v : option json) : option string :=
  match v with Some (JStr s) => Some s | _ => None end.
(** A slice of pointers to strings: [None] is the nil slice. *)
Definition asStrings (v : option json) : option (list (option string)) :=
  match v with Some (JArr l) => Some (map (λ x, asString (Some x)) l) | _ => None end.

Definition typeError : error := GoErr "json: cannot unmarshal value into Go value".

(** [json.Unmarshal(raw, &input)] for a struct with fields [spec]: the members of
    the object, from which the fields are read; [null] leaves the zero value. *)
Definition unmarshalStruct (spec : list (string * jkind)) (raw : option json)
  : result (list (string * json)) :=
  match raw with
  | None => Er (GoErr "unexpected end of JSON input")
  | Some v => if hasKind (KStruct spec) v
              then Ok (match v with JObj members => members | _ => [] end)
              else Er typeError
  end.

(** [json.Unmarshal(raw, &l)] for a slice of strings; [null] elements leave the
    empty string. *)
Definition unmarshalStrings (raw : json) : result (list string) :=
  if hasKind (KSlice KString) raw
  then Ok (match raw with
           | JArr l => map (λ x, default EmptyString (asString (Some x))) l
           | _ => []
           end)
  else Er typeError.

(** A text written with a back quote for each double quote. *)
Fixpoint quoted (s : string) : string :=
  match s with
  | EmptyString => EmptyString
  | String c s' => String (if (c =? "`")%char then "034"%char else c) (quoted s')
  end.

Example parse_nested : parse (quoted " {`a`: [1, -2.5e+3, true, null], `b`:{}} ") =
  Ok (JObj [("a", JArr [JNum "1"; JNum "-2.5e+3"; JBool true; JNull]); ("b", JObj [])]).
Proof. vm_compute. reflexivity. Qed.
Example parse_escapes : parse (quoted "`a\u0041\n`") =
  Ok (JStr ("a" +:+ "A" +:+ String "010" EmptyString)).
Proof. vm_compute. reflexivity. Qed.
Example parse_trailing : parse "{} x" = Er (GoErr "invalid character after top-level value").
Proof. vm_compute. reflexivity. Qed.
Example parse_leading_zero : parse "01" = Er (GoErr "invalid character after top-level value").
Proof. vm_compute. reflexivity. Qed.
