(* ===== verification/GoUrl.v ===== *)
(** * net/url, and more of strings

    [url.Parse], of which the operator reads the path, and [strings.Split]. *)
From S2P Require Import Prelude GoNet GoStrings.
From Stdlib Require Import Ascii.

(** ** strings *)

(** [strings.Cut(s, c)] for a separator of one byte; [None] when it is not there. *)
Fixpoint cutChar (c : ascii) (s : string) : option (string * string) :=
  match s with
  | EmptyString => None
  | String x s' => if (x =? c)%char then Some (EmptyString, s')
                   else match cutChar c s' with
                        | Some (a, b) => Some (String x a, b)
                        | None => None
                        end
  end.
(** [strings.Split(s, c)] for a separator of one byte *)
Fixpoint splitChar (c : ascii) (s : string) : list string :=
  match s with
  | EmptyString => [EmptyString]
  | String x s' => if (x =? c)%char then EmptyString :: splitChar c s'
                   else match splitChar c s' with
                        | a :: l => String x a :: l
                        | [] => [String x EmptyString]
                        end
  end.
(** [strings.SplitN(s, sep, 2)] with a second part for a longer separator: what
    comes after the first one. *)
Fixpoint afterFirst (sep s : string) : option string :=
  if isPrefix sep s then Some (dropChars (String.length sep) s)
  else match s with EmptyString => None | String _ s' => afterFirst sep s' end.
(** What comes before the first [sep]. *)
Fixpoint beforeFirst (sep s : string) : string :=
  if isPrefix sep s then EmptyString
  else match s with EmptyString => EmptyString | String c s' => String c (beforeFirst sep s') end.
(** [strings.Split(s, sep)[1]]; [None] is an index out of range. *)
Definition splitSecond (sep s : string) : option string := beforeFirst sep <$> afterFirst sep s.

Fixpoint hasChar (c : ascii) (s : string) : bool :=
  match s with EmptyString => false | String x s' => (x =? c)%char || hasChar c s' end.
Fixpoint allChars (p : ascii → bool) (s : string) : bool :=
  match s with EmptyString => true | String c s' => p c && allChars p s' end.
(** The text before and after the last [c]. *)
Fixpoint cutLast (c : ascii) (s : string) : option (string * string) :=
  match s with
  | EmptyString => None
  | String x s' => match cutLast c s' with
                   | Some (a, b) => Some (String x a, b)
                   | None => if (x =? c)%char then Some (EmptyString, s') else None
                   end
  end.

(** ** url.Parse *)

Definition isLetter (c : ascii) : bool :=
  let n := nat_of_ascii c in
  isUpper c || ((97 <=? n)%nat && (n <=? 122)%nat).
Definition isDigit (c : ascii) : bool :=
  let n := nat_of_ascii c in ((48 <=? n) && (n <=? 57))%nat.
Definition oneOf (s : string) (c : ascii) : bool := hasChar c s.

(** [getScheme]: the scheme and the rest, when there is a scheme. *)
Fixpoint schemeLoop (first : bool) (s : string) : result (option (string * string)) :=
  match s with
  | EmptyString => Ok None
  | String c s' =>
      if isLetter c || (isDigit c || oneOf "+-." c) && negb first then
        match schemeLoop false s' with
        | Ok (Some (scheme, rest)) => Ok (Some (String c scheme, rest))
        | r => r
        end
      else if (c =? ":")%char then
        if first then Er (GoErr "missing protocol scheme") else Ok (Some (EmptyString, s'))
      else Ok None
  end.
Definition getScheme (s : string) : result (string * string) :=
  match schemeLoop true s with
  | Ok (Some r) => Ok r
  | Ok None => Ok (EmptyString, s)
  | Er e => Er e
  end.

(** [unescape(s, mode)]: a percent sign needs two hexadecimal digits; in a host
    it may only stand for a byte that is not ASCII or for itself, and some characters must have
    been escaped. *)
Fixpoint unescape (host : bool) (s : string) : result string :=
  match s with
  | EmptyString => Ok EmptyString
  | String "%" s' =>
      match s' with
      | String a (String b rest) =>
          match hex_val a, hex_val b with
          | Some x, Some y =>
              if host && (x <? 8)%Z && negb ((x =? 2) && (y =? 5))%Z then Er (GoErr "invalid URL escape")
              else match unescape host rest with
                   | Ok r => Ok (String (ascii_of_nat (Z.to_nat (16 * x + y))) r)
                   | e => e
                   end
          | _, _ => Er (GoErr "invalid URL escape")
          end
      | _ => Er (GoErr "invalid URL escape")
      end
  | String c s' =>
      if host && (nat_of_ascii c <? 128)%nat &&
         negb (isAlphanum c || oneOf "-_.~!$&'()*+,;=:[]<>" c || (c =? "034")%char)
      then Er (GoErr "invalid character in host name")
      else match unescape host s' with
           | Ok r => Ok (String c r)
           | e => e
           end
  end.

Definition bindR {A B} (r : result A) (f : A → result B) : result B :=
  match r with Ok a => f a | Er e => Er e end.

Definition validOptionalPort (s : string) : bool :=
  match s with
  | EmptyString => true
  | String c s' => (c =? ":")%char && allChars isDigit s'
  end.
(** [parseHost]; the zone of an IPv6 literal is unescaped like the rest of it. *)
Definition parseHost (host : string) : result string :=
  let port := match host with
              | String "[" _ => match cutLast "]" host with
                                | Some (_, p) => Some p
                                | None => None
                                end
              | _ => Some match cutLast ":" host with
                          | Some (_, p) => String ":" p
                          | None => EmptyString
                          end
              end in
  match port with
  | None => Er (GoErr "missing ']' in host")
  | Some p => if validOptionalPort p then unescape true host
              else Er (GoErr "invalid port after host")
  end.
Definition validUserinfo (s : string) : bool :=
  allChars (λ c, isAlphanum c || oneOf "-._:~!$&'()*+,;=%@" c) s.
(** [parseAuthority]: the host; the user is only checked. *)
Definition parseAuthority (authority : string) : result string :=
  match cutLast "@" authority with
  | None => parseHost authority
  | Some (user, host) =>
      bindR (parseHost host) (λ h,
        if validUserinfo user then bindR (unescape false user) (λ _, Ok h)
        else Er (GoErr "net/url: invalid userinfo"))
  end.

Definition isControl (c : ascii) : bool :=
  let n := nat_of_ascii c in ((n <? 32) || (n =? 127))%nat.
(** What comes before the first [c], or all. *)
Definition upTo (c : ascii) (s : string) : string :=
  match cutChar c s with Some (a, _) => a | None => s end.

(** [parse(rawURL, false)]: the path. *)
Definition parsePath (u : string) : result string :=
  if negb (allChars (λ c, negb (isControl c)) u)
  then Er (GoErr "net/url: invalid control character in URL")
  else if String.eqb u "*" then Ok "*"
  else bindR (getScheme u) (λ '(scheme, rest),
    let rest := upTo "?" rest in
    let hasScheme := negb (String.eqb scheme EmptyString) in
    if negb (isPrefix "/" rest) && hasScheme then Ok EmptyString
    else if negb (isPrefix "/" rest) && hasChar ":" (upTo "/" rest)
    then Er (GoErr "first path segment in URL cannot contain colon")
    else if (hasScheme || negb (isPrefix "///" rest)) && isPrefix "//" rest then
      let authority := dropChars 2 rest in
      let path := match cutChar "/" authority with
                  | Some (_, p) => String "/" p | None => EmptyString end in
      bindR (parseAuthority (upTo "/" authority)) (λ _, unescape false path)
    else unescape false rest).

(** [url.Parse(rawURL)], of which the path is read. *)
Definition urlPath (rawURL : string) : result string :=
  let parseErr e := WrapErr e ("parse " +:+ rawURL) in
  match parsePath (upTo "#" rawURL) with
  | Er e => Er (parseErr e)
  | Ok path => match cutChar "#" rawURL with
               | Some (_, frag) => match unescape false frag with
                                   | Ok _ => Ok path
                                   | Er e => Er (parseErr e)
                                   end
               | None => Ok path
               end
  end.

Example urlPath_subnet :
  urlPath "https://www.googleapis.com/compute/v1/projects/p/regions/r/subnetworks/s?x#y" =
  Ok "/compute/v1/projects/p/regions/r/subnetworks/s".
Proof. reflexivity. Qed.
Example urlPath_escaped : urlPath "//u:p@h:80/a%20b" = Ok "/a b".
Proof. reflexivity. Qed.
Example urlPath_bad : urlPath "http://h/%zz" =
  Er (WrapErr (GoErr "invalid URL escape") "parse http://h/%zz").
Proof. reflexivity. Qed.
Example splitSecond_network : splitSecond "v1/" "https://www.googleapis.com/compute/v1/projects/p" =
  Some "projects/p".
Proof. reflexivity. Qed.
