(* ===== verification/GoSort.v ===== *)
(** * sort.Slice

    The package sort promises that the slice is permuted, and sorted when the order is a
    strict weak one; the order of equal elements is left open.  The class states that
    promise, so that what uses it does not depend on the algorithm. *)
From S2P Require Import Prelude.
From stdpp Require Import sorting.

Record StrictWeak {A} (less : A → A → bool) : Prop := {
  sw_asym : ∀ x y, less x y = true → less y x = false;
  sw_trans : ∀ x y z, less y x = false → less z y = false → less z x = false
}.

Class GoSort := {
  sortSlice : ∀ {A}, (A → A → bool) → list A → list A;
  sortSlice_perm : ∀ A (less : A → A → bool) l, sortSlice less l ≡ₚ l;
  sortSlice_sorted : ∀ A (less : A → A → bool) l,
    StrictWeak less → StronglySorted (λ x y, less y x = false) (sortSlice less l)
}.

(** The elements by a key, the greatest first. *)
Definition after {A} (key : A → Z) (x y : A) : bool := (key y <? key x)%Z.
Lemma after_weak {A} (key : A → Z) : StrictWeak (after key).
Proof.
  unfold after. split.
  - intros x y H%Z.ltb_lt. apply Z.ltb_ge. lia.
  - intros x y z H1%Z.ltb_ge H2%Z.ltb_ge. apply Z.ltb_ge. lia.
Qed.
Lemma sortSlice_after `{GoSort} {A} (key : A → Z) l :
  StronglySorted (λ x y, (key y <= key x)%Z) (sortSlice (after key) l).
Proof.
  pose proof (sortSlice_sorted _ (after key) l (after_weak key)) as Hs.
  induction Hs as [|x l' _ IH Hx]; constructor; [done|].
  eapply Forall_impl; [exact Hx|]. intros y Hy. by apply Z.ltb_ge.
Qed.

(** Merge sort keeps the promise. *)
Definition notAfter {A} (less : A → A → bool) (x y : A) : Prop := less y x = false.
#[export] Instance notAfter_dec {A} (less : A → A → bool) x y : Decision (notAfter less x y).
Proof. unfold notAfter. apply _. Defined.
Lemma merge_sort_sorted {A} (less : A → A → bool) (l : list A) :
  StrictWeak less → StronglySorted (notAfter less) (merge_sort (notAfter less) l).
Proof.
  intros [Ha Ht]. apply StronglySorted_merge_sort.
  - intros x y z H1 H2. exact (Ht x y z H1 H2).
  - intros x y. destruct (less y x) eqn:E; [right; by apply Ha|by left].
Qed.
Definition mergeSort : GoSort := {|
  sortSlice A less l := merge_sort (notAfter less) l;
  sortSlice_perm A less l := merge_sort_Permutation (notAfter less) l;
  sortSlice_sorted A less l := merge_sort_sorted less l |}.
