(* ===== verification/JsonPrint.v ===== *)
(** * Printing JSON

    [json.Marshal] of a value, as Go 1.20 writes it: no white space, and in strings
    the characters that HTML or JavaScript read differently are escaped.  The text
    of invalid UTF-8 is kept as it is.  [parse] reads back every value that is
    printed. *)
From S2P Require Import Prelude GoNet GoStrings Json.
From Stdlib Require Import Ascii.
Local Open Scope nat_scope.

(** ** Strings *)

Definition hexDigit (n : nat) : ascii := ascii_of_nat (if n <? 10 then 48 + n else 87 + n).
(** The escape of a character below 256. *)
Definition uEscape (c : ascii) : string :=
  let n := nat_of_ascii c in
  String "092" (String "u" (String "0" (String "0"
    (String (hexDigit (n / 16)) (String (hexDigit (n mod 16)) EmptyString))))).
Definition escapeChar (c : ascii) : string :=
  if (c =? "034")%char || (c =? "092")%char then String "092" (String c EmptyString)
  else if (c =? "010")%char then String "092" "n"
  else if (c =? "013")%char then String "092" "r"
  else if (c =? "009")%char then String "092" "t"
  else if (nat_of_ascii c <? 32) || (c =? "<")%char || (c =? ">")%char || (c =? "&")%char
       then uEscape c
  else String c EmptyString.

(** The line separators U+2028 and U+2029. *)
Definition lineSeparator (c d e : ascii) : bool :=
  (c =? "226")%char && (d =? "128")%char && ((e =? "168")%char || (e =? "169")%char).
Fixpoint escape (s : string) : string :=
  match s with
  | EmptyString => EmptyString
  | String c r =>
      match r with
      | String d (String e r') =>
          if lineSeparator c d e
          then String "092" (String "u" (String "2" (String "0" (String "2"
                 (String (if (e =? "168")%char then "8" else "9")%char (escape r'))))))
          else escapeChar c +:+ escape r
      | _ => escapeChar c +:+ escape r
      end
  end.
Definition quoteString (s : string) : string :=
  String "034" (escape s +:+ String "034" EmptyString).

(** ** Values *)

Fixpoint commaSep (l : list string) : string :=
  match l with
  | [] => EmptyString
  | [s] => s
  | s :: l' => s +:+ String "," (commaSep l')
  end.
Fixpoint marshal (v : json) : string :=
  match v with
  | JNull => "null"
  | JBool true => "true"
  | JBool false => "false"
  | JNum l => l
  | JStr s => quoteString s
  | JArr l => String "[" (commaSep (map marshal l) +:+ String "]" EmptyString)
  | JObj members =>
      String "{" (commaSep (map (λ m, quoteString m.1 +:+ String ":" (marshal m.2)) members)
                  +:+ String "}" EmptyString)
  end.

(** Every number is a literal the parser reads in full. *)
Fixpoint printable (v : json) : bool :=
  match v with
  | JNum l => match parseNumber l with Some (l', EmptyString) => bool_decide (l' = l) | _ => false end
  | JArr l => forallb printable l
  | JObj members => forallb (λ m, printable m.2) members
  | _ => true
  end.

(** ** Reading a string back *)

Lemma append_assoc (a b c : string) : (a +:+ b) +:+ c = a +:+ b +:+ c.
Proof. induction a as [|x a IH]; [done|]. exact (f_equal (String x) IH). Qed.
Lemma length_append (a b : string) : String.length (a +:+ b) = String.length a + String.length b.
Proof. induction a as [|x a IH]; [done|]. exact (f_equal S IH). Qed.

Lemma lexString_escapeChar c t :
  ∃ u, lexString (escapeChar c +:+ t) =
         (match lexString t with Some (us, r) => Some (u :: us, r) | None => None end) ∧
       ∀ us, decodeUnits (u :: us) = c :: decodeUnits us.
Proof.
  destruct c as [[] [] [] [] [] [] [] []]; eexists; (split; [reflexivity|reflexivity]).
Qed.
Lemma lexString_lineSeparator c d e t :
  lineSeparator c d e = true →
  ∃ u, lexString (String "092" (String "u" (String "2" (String "0" (String "2"
         (String (if (e =? "168")%char then "8" else "9")%char t)))))) =
         (match lexString t with Some (us, r) => Some (u :: us, r) | None => None end) ∧
       ∀ us, decodeUnits (u :: us) = c :: d :: e :: decodeUnits us.
Proof.
  unfold lineSeparator. intros [[Hc Hd]%andb_true_iff He]%andb_true_iff.
  apply Ascii.eqb_eq in Hc, Hd. subst c d.
  apply orb_true_iff in He as [He|He]; apply Ascii.eqb_eq in He; subst e;
    eexists; (split; reflexivity).
Qed.

Lemma lexString_escape s r :
  ∃ us, lexString (escape s +:+ String "034" r) = Some (us, r) ∧
        decodeUnits us = String.list_ascii_of_string s.
Proof.
  remember (String.length s) as n eqn:En. revert s En.
  induction n as [n IH] using lt_wf_ind. intros s ->. destruct s as [|c t]; [by exists []|].
  assert (∃ us, lexString ((escapeChar c +:+ escape t) +:+ String "034" r) = Some (us, r) ∧
    decodeUnits us = c :: String.list_ascii_of_string t) as Hplain.
  { rewrite append_assoc. destruct (IH (String.length t) ltac:(cbn; lia) t eq_refl) as (us & E & D).
    destruct (lexString_escapeChar c (escape t +:+ String "034" r)) as (u & -> & Du).
    rewrite E. exists (u :: us). by rewrite Du, D. }
  destruct t as [|d [|e t']]; [exact Hplain..|]. cbn [escape].
  destruct (lineSeparator c d e) eqn:Es; [|exact Hplain].
  destruct (IH (String.length t') ltac:(cbn; lia) t' eq_refl) as (us & E & D).
  destruct (lexString_lineSeparator c d e (escape t' +:+ String "034" r) Es) as (u & Eu & Du).
  exists (u :: us). split; [|by rewrite Du, D]. refine (eq_trans Eu _). by rewrite E.
Qed.

Lemma parseString_quoteString s r :
  parseString (escape s +:+ String "034" r) = Some (s, r).
Proof.
  unfold parseString. destruct (lexString_escape s r) as (us & -> & D). cbn. rewrite D.
  by rewrite String.string_of_list_ascii_of_string.
Qed.

(** ** Reading a number back *)

#[local] Arguments is_digit : simpl never.
#[local] Arguments String.append !_ _ / : simpl nomatch.

(** The first character of what follows, if any, is not one of [P]. *)
Definition headNot (P : ascii → bool) (t : string) : Prop :=
  match t with EmptyString => True | String c _ => P c = false end.
Definition is_exp (c : ascii) : bool := (c =? "e")%char || (c =? "E")%char.
(** What may follow a number that is complete. *)
Definition in_number (c : ascii) : bool := is_digit c || (c =? ".")%char || is_exp c.
Definition stops : string → Prop := headNot in_number.

(** [f] reads its token [a] again when it is followed by anything that stops it. *)
Definition cuts (P : ascii → bool) (f : string → option (string * string)) : Prop :=
  ∀ s a rest t, f s = Some (a, rest) → headNot P t → f (a +:+ t) = Some (a, t).

Lemma digits_cut s d rest t :
  digits s = (d, rest) → headNot is_digit t → digits (d +:+ t) = (d, t).
Proof.
  revert d rest. induction s as [|c s IH]; intros d rest E Ht; cbn in E.
  - injection E as <- <-. destruct t as [|c t]; [done|]. cbn. by rewrite Ht.
  - destruct (is_digit c) eqn:Ec.
    + destruct (digits s) as [d' r'] eqn:Ed. injection E as <- <-. cbn. rewrite Ec.
      by rewrite (IH d' r' eq_refl Ht).
    + injection E as <- <-. destruct t as [|x t]; [done|]. cbn. by rewrite Ht.
Qed.
Lemma digits1_cuts : cuts is_digit digits1.
Proof.
  intros s a rest t E Ht. unfold digits1 in *. destruct (digits s) as [d r'] eqn:Ed.
  destruct d as [|c d]; [done|]. injection E as <- <-. by rewrite (digits_cut s _ _ t Ed Ht).
Qed.
(** The first character of a run of digits. *)
Lemma digits1_first c s a rest : digits1 (String c s) = Some (a, rest) →
  is_digit c = true ∧ ∃ a', a = String c a'.
Proof.
  unfold digits1. cbn. destruct (is_digit c); [|done]. destruct (digits s) as [d r].
  intros [= <- <-]. eauto.
Qed.
Lemma lexInt_other c t : c ≠ "0"%char → lexInt (String c t) = digits1 (String c t).
Proof. intros Hc. destruct c as [[] [] [] [] [] [] [] []]; try reflexivity. by destruct Hc. Qed.
Lemma lexFrac_other c t : (c =? ".")%char = false → lexFrac (String c t) = Some (EmptyString, String c t).
Proof. intros Hc. destruct c as [[] [] [] [] [] [] [] []]; try reflexivity. done. Qed.

Lemma lexInt_cuts : cuts is_digit lexInt.
Proof.
  intros s a rest t E Ht. destruct s as [|c s]; [done|].
  destruct (Ascii.eqb_spec c "0") as [->|Hc]; [by injection E as <- <-|].
  rewrite lexInt_other in E by done. destruct (digits1_first _ _ _ _ E) as [_ [a' ->]].
  change (String c a' +:+ t) with (String c (a' +:+ t)). rewrite lexInt_other by done.
  by apply (digits1_cuts (String c s) (String c a') rest).
Qed.
Lemma lexFrac_cuts : cuts (λ c, is_digit c || (c =? ".")%char) lexFrac.
Proof.
  intros s a rest t E Ht.
  assert (lexFrac t = Some (EmptyString, t)) as Hnil.
  { destruct t as [|c t]; [done|]. apply orb_false_iff in Ht as [_ Ht]. by apply lexFrac_other. }
  destruct s as [|c s]; [by injection E as <- <-|].
  destruct (c =? ".")%char eqn:Hc; [|rewrite lexFrac_other in E by done; by injection E as <- <-].
  apply Ascii.eqb_eq in Hc as ->. cbn in E. destruct (digits1 s) as [[d r']|] eqn:Ed; [|done].
  injection E as <- <-. cbn. rewrite (digits1_cuts s _ _ t Ed); [done|].
  destruct t as [|c t]; [done|]. by apply orb_false_iff in Ht as [? _].
Qed.
Lemma lexExp_cuts : cuts (λ c, is_digit c || is_exp c) lexExp.
Proof.
  intros s a rest t E Ht.
  assert (headNot is_digit t) as Hd by (destruct t; [done|by apply orb_false_iff in Ht as [? _]]).
  assert (lexExp t = Some (EmptyString, t)) as Hnil.
  { destruct t as [|c t]; [done|]. apply orb_false_iff in Ht as [_ Ht]. cbn.
    unfold is_exp in Ht. by rewrite Ht. }
  destruct s as [|c s]; [by injection E as <- <-|]. cbn in E.
  destruct ((c =? "e")%char || (c =? "E")%char) eqn:Hc; [|by injection E as <- <-].
  destruct s as [|sg s']; [done|].
  destruct ((sg =? "+")%char || (sg =? "-")%char) eqn:Hsg.
  - destruct (digits1 s') as [[d r']|] eqn:Ed; [|done]. injection E as <- <-. cbn.
    by rewrite Hc, Hsg, (digits1_cuts s' _ _ t Ed Hd).
  - destruct (digits1 (String sg s')) as [[d r']|] eqn:Ed; [|done]. injection E as <- <-. cbn.
    rewrite Hc. destruct (digits1_first _ _ _ _ Ed) as [_ [d' ->]].
    pose proof (digits1_cuts _ _ _ t Ed Hd) as Ed'. cbn in Ed' |- *. by rewrite Hsg, Ed'.
Qed.

Lemma append_nil_r (s : string) : s +:+ EmptyString = s.
Proof. induction s as [|c s IH]; [done|]. exact (f_equal (String c) IH). Qed.

(** Past the sign. *)
Definition parseUnsigned (s : string) : option (string * string) :=
  '(i, s) ← lexInt s; '(f, s) ← lexFrac s; '(e, s) ← lexExp s; Some (i +:+ f +:+ e, s).
Lemma lexFrac_head s f r : lexFrac s = Some (f, r) →
  (∃ f', f = String "." f') ∨ f = EmptyString.
Proof.
  destruct s as [|c s]; [intros [= <- <-]; by right|].
  destruct (c =? ".")%char eqn:Hc.
  - apply Ascii.eqb_eq in Hc as ->. cbn. destruct (digits1 s) as [[d r']|]; [|done].
    intros [= <- <-]. eauto.
  - rewrite lexFrac_other by done. intros [= <- <-]. by right.
Qed.
Lemma lexExp_head s e r : lexExp s = Some (e, r) →
  (∃ c e', e = String c e' ∧ is_exp c = true) ∨ e = EmptyString.
Proof.
  destruct s as [|c s]; [intros [= <- <-]; by right|]. cbn.
  destruct ((c =? "e")%char || (c =? "E")%char) eqn:Hc; [|intros [= <- <-]; by right].
  destruct s as [|sg s']; [done|]. intros He. left. exists c.
  destruct ((sg =? "+")%char || (sg =? "-")%char).
  - destruct (digits1 s') as [[d r']|]; [|done]. injection He as <- <-. eauto.
  - destruct (digits1 (String sg s')) as [[d r']|]; [|done]. injection He as <- <-. eauto.
Qed.
Lemma parseUnsigned_cuts : cuts in_number parseUnsigned.
Proof.
  intros s a rest t E Ht. unfold parseUnsigned in E.
  destruct (lexInt s) as [[i s1]|] eqn:E1; [|done]. cbn in E.
  destruct (lexFrac s1) as [[f s2]|] eqn:E2; [|done]. cbn in E.
  destruct (lexExp s2) as [[e s3]|] eqn:E3; [|done]. cbn in E. injection E as <- <-.
  assert (headNot (λ c, is_digit c || is_exp c) t ∧ headNot (λ c, is_digit c || (c =? ".")%char) t)
    as [Ht1 Ht2].
  { destruct t as [|c t]; [done|]. cbn in Ht |- *. unfold in_number in Ht.
    destruct (is_digit c), (c =? ".")%char, (is_exp c); done. }
  assert (headNot (λ c, is_digit c || (c =? ".")%char) (e +:+ t)) as He.
  { destruct (lexExp_head _ _ _ E3) as [(c & e' & -> & Hc)| ->]; [|exact Ht2]. cbn.
    destruct (is_digit c) eqn:Hd; [by destruct c as [[] [] [] [] [] [] [] []]|].
    destruct (Ascii.eqb_spec c ".") as [->|]; done. }
  assert (headNot is_digit (f +:+ e +:+ t)) as Hf.
  { destruct (lexFrac_head _ _ _ E2) as [[f' ->]| ->]; [done|]. cbn.
    destruct (e +:+ t) as [|c x]; [done|]. cbn in He |- *. by apply orb_false_iff in He as [? _]. }
  rewrite !append_assoc. unfold parseUnsigned. rewrite (lexInt_cuts _ _ _ _ E1 Hf). cbn.
  rewrite (lexFrac_cuts _ _ _ _ E2 He). cbn. by rewrite (lexExp_cuts _ _ _ t E3 Ht1).
Qed.
Lemma parseNumber_sign s : parseNumber s =
  match s with
  | String c s' => if (c =? "-")%char
                   then '(l, r) ← parseUnsigned s'; Some (String "-" l, r) else parseUnsigned s
  | EmptyString => None
  end.
Proof.
  destruct s as [|c s]; [done|]. destruct (Ascii.eqb_spec c "-") as [->|Hc].
  - unfold parseNumber, parseUnsigned. destruct (lexInt s) as [[i s1]|]; [|done]. cbn.
    destruct (lexFrac s1) as [[f s2]|]; [|done]. cbn. by destruct (lexExp s2) as [[e s3]|].
  - destruct c as [[] [] [] [] [] [] [] []]; try reflexivity. by destruct Hc.
Qed.
(** An unsigned number begins with a digit. *)
Lemma parseUnsigned_first s l r : parseUnsigned s = Some (l, r) →
  ∃ c s' l', s = String c s' ∧ l = String c l' ∧ is_digit c = true.
Proof.
  unfold parseUnsigned. destruct (lexInt s) as [[i s1]|] eqn:E1; [|done]. cbn.
  destruct (lexFrac s1) as [[f s2]|]; [|done]. cbn. destruct (lexExp s2) as [[e s3]|]; [|done].
  cbn. intros [= <- <-]. destruct s as [|c s]; [done|].
  destruct (Ascii.eqb_spec c "0") as [->|Hc].
  - injection E1 as <- <-. eexists _, _, _. split_and!; reflexivity.
  - rewrite lexInt_other in E1 by done. destruct (digits1_first _ _ _ _ E1) as [? [i' ->]].
    eexists _, _, _. split_and!; [reflexivity|reflexivity|done].
Qed.
Lemma parseNumber_cuts : cuts in_number parseNumber.
Proof.
  intros s a rest t E Ht. rewrite parseNumber_sign in E |- *. destruct s as [|c s]; [done|].
  destruct (c =? "-")%char eqn:Hc.
  - destruct (parseUnsigned s) as [[l r]|] eqn:El; [|done]. injection E as <- <-.
    change (String "-" l +:+ t) with (String "-" (l +:+ t)). cbn [Ascii.eqb].
    change ("-" =? "-")%char with true. cbv iota. by rewrite (parseUnsigned_cuts _ _ _ t El Ht).
  - destruct (parseUnsigned_first _ _ _ E) as (c' & s' & l' & [= <- <-] & -> & Hd).
    change (String c l' +:+ t) with (String c (l' +:+ t)). cbv iota beta. rewrite Hc.
    by apply (parseUnsigned_cuts (String c s) (String c l') rest t).
Qed.
(** A literal is read again. *)
Lemma parseNumber_literal s l r : parseNumber s = Some (l, r) → parseNumber l = Some (l, EmptyString).
Proof. intros E. pose proof (parseNumber_cuts s l r EmptyString E I) as H. by rewrite append_nil_r in H. Qed.
Lemma parseNumber_first c l r : parseNumber (String c l) = Some r → is_digit c = true ∨ c = "-"%char.
Proof.
  rewrite parseNumber_sign. destruct (Ascii.eqb_spec c "-") as [->|_]; [by right|]. intros H. left.
  destruct r as [l' r']. by destruct (parseUnsigned_first _ _ _ H) as (? & ? & ? & [= <- <-] & _ & ?).
Qed.

(** ** Reading a value back *)

Lemma skipWs_plain c s : is_ws c = false → skipWs (String c s) = String c s.
Proof. intros H. cbn. by rewrite H. Qed.
Lemma pValue_number f l r :
  parseNumber l = Some (l, EmptyString) → stops r → pValue (S f) (l +:+ r) = Some (JNum l, r).
Proof.
  intros E Hr. pose proof (parseNumber_cuts l l _ r E Hr) as E'.
  destruct l as [|c l]; [done|].
  assert (is_digit c = true ∨ c = "-"%char) as Hc by (by eapply parseNumber_first).
  change (String c l +:+ r) with (String c (l +:+ r)) in E' |- *.
  revert E'. generalize (l +:+ r). intros t E'.
  assert (pValue (S f) (String c t) = '(n, r) ← parseNumber (String c t); Some (JNum n, r)) as ->.
  { destruct Hc as [Hc| ->]; [|reflexivity].
    destruct c as [[] [] [] [] [] [] [] []]; try discriminate Hc; reflexivity. }
  by rewrite E'.
Qed.

Lemma marshal_first v : printable v = true →
  ∃ c t, marshal v = String c t ∧ is_ws c = false ∧ c ≠ "]"%char.
Proof.
  destruct v as [|[]|l|s|l|ms]; intros Hp; cbn; try by eexists _, _.
  cbn in Hp. destruct (parseNumber l) as [[l' [|]]|] eqn:E; [|done..].
  apply bool_decide_eq_true in Hp. subst l'. destruct l as [|c t]; [done|].
  exists c, t. split; [done|].
  destruct (parseNumber_first _ _ _ E) as [Hc| ->]; [|done].
  destruct c as [[] [] [] [] [] [] [] []]; try discriminate Hc; done.
Qed.

Definition readBack (v : json) : Prop := printable v = true →
  ∀ f r, String.length (marshal v) ≤ f → stops r → pValue f (marshal v +:+ r) = Some (v, r).

Lemma stops_punct c r : c = ","%char ∨ c = "]"%char ∨ c = "}"%char → stops (String c r).
Proof. by intros [->|[->| ->]]. Qed.

Lemma commaSep_cons s l : l ≠ [] → commaSep (s :: l) = s +:+ String "," (commaSep l).
Proof. by destruct l. Qed.

Lemma pElements_one f v t :
  pValue f (marshal v +:+ t) = Some (v, t) →
  pElements (S f) (marshal v +:+ t) =
    match skipWs t with
    | String "," r => '(l, r) ← pElements f r; Some (v :: l, r)
    | String "]" r => Some ([v], r)
    | _ => None
    end.
Proof. intros Hv. cbn [pElements]. by rewrite Hv. Qed.
Lemma pElements_read l : l ≠ [] → Forall readBack l → forallb printable l = true →
  ∀ f r, String.length (commaSep (map marshal l)) < f →
    pElements f (commaSep (map marshal l) +:+ String "]" r) = Some (l, r).
Proof.
  induction l as [|v l IH]; [done|]. intros _ [Hv Hl]%Forall_cons [Pv Pl]%andb_true_iff f r Hf.
  destruct f as [|f]; [lia|].
  destruct l as [|v' l'].
  - cbn [map commaSep] in Hf |- *.
    rewrite pElements_one; [done|]. apply (Hv Pv); [lia|by apply stops_punct; auto].
  - change (forallb printable (v' :: l') = true) in Pl.
    remember (v' :: l') as l eqn:El. assert (l ≠ []) as Hl0 by (by rewrite El). clear El.
    specialize (IH Hl0 Hl Pl). cbn [map] in Hf |- *.
    assert (map marshal l ≠ []) as Hne by (by destruct l).
    rewrite commaSep_cons, length_append in Hf by done. cbn [String.length] in Hf.
    rewrite commaSep_cons, append_assoc by done.
    change (String "," (commaSep (map marshal l)) +:+ String "]" r)
      with (String "," (commaSep (map marshal l) +:+ String "]" r)).
    rewrite pElements_one; [|apply (Hv Pv); [lia|by apply stops_punct; auto]].
    change (skipWs (String "," (commaSep (map marshal l) +:+ String "]" r)))
      with (String "," (commaSep (map marshal l) +:+ String "]" r)). cbv iota.
    rewrite IH; [done|lia].
Qed.

Definition printMember (m : string * json) : string := quoteString m.1 +:+ String ":" (marshal m.2).
(** One member, and what follows its value. *)
Lemma pMembers_one f k v t :
  pValue f (marshal v +:+ t) = Some (v, t) →
  pMembers (S f) (printMember (k, v) +:+ t) =
    match skipWs t with
    | String "," r => '(l, r) ← pMembers f r; Some ((k, v) :: l, r)
    | String "}" r => Some ([(k, v)], r)
    | _ => None
    end.
Proof.
  intros Hv.
  assert (printMember (k, v) +:+ t =
    String "034" (escape k +:+ String "034" (String ":" (marshal v +:+ t)))) as ->.
  { unfold printMember, quoteString. cbn [fst snd].
    change (String "034" (((escape k +:+ String "034" EmptyString) +:+ String ":" (marshal v)) +:+ t)
      = String "034" (escape k +:+ String "034" (String ":" (marshal v +:+ t)))).
    by rewrite !append_assoc. }
  cbn [pMembers].
  change (skipWs (String "034" (escape k +:+ String "034" (String ":" (marshal v +:+ t)))))
    with (String "034" (escape k +:+ String "034" (String ":" (marshal v +:+ t)))).
  cbv iota. rewrite parseString_quoteString. cbn [mbind option_bind].
  change (skipWs (String ":" (marshal v +:+ t))) with (String ":" (marshal v +:+ t)).
  cbv iota. by rewrite Hv.
Qed.
Lemma pMembers_read l : l ≠ [] → Forall (λ m, readBack m.2) l →
  forallb (λ m, printable m.2) l = true →
  ∀ f r, String.length (commaSep (map printMember l)) < f →
    pMembers f (commaSep (map printMember l) +:+ String "}" r) = Some (l, r).
Proof.
  induction l as [|[k v] l IH]; [done|]. intros _ [Hv Hl]%Forall_cons [Pv Pl]%andb_true_iff f r Hf.
  destruct f as [|f]; [lia|].
  assert (String.length (marshal v) ≤ String.length (printMember (k, v))) as Hlen.
  { unfold printMember. rewrite length_append. cbn. lia. }
  cbn [snd] in Hv, Pv.
  destruct l as [|v' l'].
  - cbn [map commaSep] in Hf |- *.
    rewrite pMembers_one; [done|]. apply (Hv Pv); [lia|by apply stops_punct; auto].
  - change (forallb (λ m, printable m.2) (v' :: l') = true) in Pl.
    remember (v' :: l') as l eqn:El. assert (l ≠ []) as Hl0 by (by rewrite El). clear El.
    specialize (IH Hl0 Hl Pl). cbn [map] in Hf |- *.
    assert (map printMember l ≠ []) as Hne by (by destruct l).
    rewrite commaSep_cons, length_append in Hf by done. cbn [String.length] in Hf.
    rewrite commaSep_cons, append_assoc by done.
    change (String "," (commaSep (map printMember l)) +:+ String "}" r)
      with (String "," (commaSep (map printMember l) +:+ String "}" r)).
    rewrite pMembers_one; [|apply (Hv Pv); [lia|by apply stops_punct; auto]].
    change (skipWs (String "," (commaSep (map printMember l) +:+ String "}" r)))
      with (String "," (commaSep (map printMember l) +:+ String "}" r)). cbv iota.
    rewrite IH; [done|lia].
Qed.

Lemma commaSep_first s l : ∃ t, commaSep (s :: l) = s +:+ t.
Proof. destruct l as [|s' l]; [exists EmptyString; by rewrite append_nil_r|by eexists]. Qed.
Lemma append_array s r :
  String "[" (s +:+ String "]" EmptyString) +:+ r = String "[" (s +:+ String "]" r).
Proof. exact (f_equal (String "[") (append_assoc s (String "]" EmptyString) r)). Qed.
Lemma append_object s r :
  String "{" (s +:+ String "}" EmptyString) +:+ r = String "{" (s +:+ String "}" r).
Proof. exact (f_equal (String "{") (append_assoc s (String "}" EmptyString) r)). Qed.
Lemma length_bracketed c d s :
  String.length (String c (s +:+ String d EmptyString)) = S (S (String.length s)).
Proof. cbn. rewrite length_append. cbn. lia. Qed.

Lemma pValue_read v : readBack v.
Proof.
  induction v as [|b|l|s|l IH|ms IH] using json_induction; intros Hp f r Hf Hs.
  - destruct f as [|f]; [cbn in Hf; lia|]. reflexivity.
  - destruct f as [|f]; [destruct b; cbn in Hf; lia|]. by destruct b.
  - cbn in Hp. destruct (parseNumber l) as [[l' [|]]|] eqn:E; [|done..].
    apply bool_decide_eq_true in Hp. subst l'.
    destruct f as [|f]; [destruct l; [done|cbn in Hf; lia]|]. by apply pValue_number.
  - destruct f as [|f]; [cbn in Hf; lia|].
    change (('(v, r) ← parseString ((escape s +:+ String "034" EmptyString) +:+ r); Some (JStr v, r))
      = Some (JStr s, r)).
    rewrite append_assoc. change (String "034" EmptyString +:+ r) with (String "034" r).
    by rewrite parseString_quoteString.
  - destruct f as [|f]; [cbn in Hf; lia|]. cbn [marshal]. rewrite append_array.
    cbn [marshal] in Hf. rewrite length_bracketed in Hf.
    destruct l as [|v l]; [reflexivity|].
    assert (∀ t, (∃ c t', t = String c t' ∧ is_ws c = false ∧ c ≠ "]"%char) →
      pValue (S f) (String "[" t) = '(l, r) ← pElements f t; Some (JArr l, r)) as G.
    { intros t (c & t' & -> & Hw & Hc). cbn [pValue].
      change (skipWs (String "[" (String c t'))) with (String "[" (String c t')). cbv iota.
      rewrite (skipWs_plain c t' Hw).
      destruct c as [[] [] [] [] [] [] [] []]; try reflexivity. by destruct Hc. }
    rewrite G.
    + rewrite pElements_read; [done|done|exact IH|exact Hp|lia].
    + cbn in Hp. apply andb_true_iff in Hp as [Pv _].
      destruct (marshal_first v Pv) as (c & t & E & Hw & Hc).
      destruct (commaSep_first (marshal v) (map marshal l)) as [t' Et]. cbn [map].
      rewrite Et, E. by exists c, ((t +:+ t') +:+ String "]" r).
  - destruct f as [|f]; [cbn in Hf; lia|]. cbn [marshal]. rewrite append_object.
    cbn [marshal] in Hf. rewrite length_bracketed in Hf.
    destruct ms as [|[k v] ms0]; [reflexivity|].
    set (ms := (k, v) :: ms0) in *. change (λ m, quoteString m.1 +:+ String ":" (marshal m.2)) with printMember in *.
    assert (∃ t, commaSep (map printMember ms) +:+ String "}" r = String "034" t) as [t Et].
    { unfold ms. cbn [map].
      destruct (commaSep_first (printMember (k, v)) (map printMember ms0)) as [t Et].
      rewrite Et. by eexists. }
    assert (pValue (S f) (String "{" (commaSep (map printMember ms) +:+ String "}" r)) =
      '(l, r) ← pMembers f (commaSep (map printMember ms) +:+ String "}" r); Some (JObj l, r)) as G
      by (by rewrite Et).
    refine (eq_trans G _). rewrite pMembers_read; [done|done|exact IH|exact Hp|lia].
Qed.

(** Every value that is printed is read back. *)
Lemma parse_marshal v : printable v = true → parse (marshal v) = Ok v.
Proof.
  intros Hp. destruct (marshal_first v Hp) as (c & t & E & Hw & _). unfold parse.
  rewrite E at 1. rewrite (skipWs_plain c t Hw). rewrite <- (append_nil_r (marshal v)) at 2.
  rewrite (pValue_read v Hp); [done|lia|done].
Qed.

(** ** What is parsed can be printed *)

Lemma printable_number s v r :
  ('(n, r) ← parseNumber s; Some (JNum n, r)) = Some (v, r) → printable v = true.
Proof.
  destruct (parseNumber s) as [[l r']|] eqn:E; [|done]. intros [= <- <-]. cbn.
  rewrite (parseNumber_literal _ _ _ E). by rewrite bool_decide_true.
Qed.

Definition parsedOk (f : nat) : Prop :=
  (∀ s v r, pValue f s = Some (v, r) → printable v = true) ∧
  (∀ s l r, pElements f s = Some (l, r) → forallb printable l = true) ∧
  (∀ s l r, pMembers f s = Some (l, r) → forallb (λ m, printable m.2) l = true).

Section Step.
Context (f : nat) (IH : parsedOk f).
Lemma pValue_printable s v r : pValue (S f) s = Some (v, r) → printable v = true.
Proof.
  destruct IH as (IHv & IHe & IHm). cbn [pValue]. destruct (skipWs s) as [|c t]; [done|].
  assert (∀ x, match skipWs x with
    | String "]" r => Some (JArr [], r)
    | _ => '(l, r) ← pElements f x; Some (JArr l, r) end = Some (v, r) → printable v = true) as Harr.
  { intros x. destruct (pElements f x) as [[l r']|] eqn:E.
    - specialize (IHe _ _ _ E). cbn [mbind option_bind]. intros H.
      repeat match type of H with match ?y with _ => _ end = _ => destruct y end;
        injection H as <- <-; done.
    - cbn [mbind option_bind]. intros H.
      repeat match type of H with match ?y with _ => _ end = _ => destruct y end; try done;
        injection H as <- <-; done. }
  assert (∀ x, match skipWs x with
    | String "}" r => Some (JObj [], r)
    | _ => '(l, r) ← pMembers f x; Some (JObj l, r) end = Some (v, r) → printable v = true) as Hobj.
  { intros x. destruct (pMembers f x) as [[l r']|] eqn:E.
    - specialize (IHm _ _ _ E). cbn [mbind option_bind]. intros H.
      repeat match type of H with match ?y with _ => _ end = _ => destruct y end;
        injection H as <- <-; done.
    - cbn [mbind option_bind]. intros H.
      repeat match type of H with match ?y with _ => _ end = _ => destruct y end; try done;
        injection H as <- <-; done. }
  assert (∀ x, ('(v, r) ← parseString x; Some (JStr v, r)) = Some (v, r) → printable v = true) as Hstr.
  { intros x. destruct (parseString x) as [[y r']|]; [|done]. by intros [= <- <-]. }
  pose proof (λ x, printable_number x v r) as Hnum. clear IHv IHe IHm.
  destruct c as [[] [] [] [] [] [] [] []];
    first [ exact (Hnum _) | exact (Harr _) | exact (Hobj _) | exact (Hstr _) | idtac ].
  all: intros H; repeat match type of H with match ?y with _ => _ end = _ => destruct y end;
    first [ exact (Hnum _ H) | by injection H as <- <- ].
Qed.
Lemma pElements_printable s l r : pElements (S f) s = Some (l, r) → forallb printable l = true.
Proof.
  destruct IH as (IHv & IHe & IHm). cbn [pElements]. destruct (pValue f s) as [[v r1]|] eqn:E; [|done].
  specialize (IHv _ _ _ E). cbn [mbind option_bind]. intros H.
  assert (∀ x, ('(l0, r0) ← pElements f x; Some (v :: l0, r0)) = Some (l, r) →
    forallb printable l = true) as Hmore.
  { intros x. destruct (pElements f x) as [[l0 r0]|] eqn:E0; [|done]. intros [= <- <-].
    cbn. rewrite IHv. by eapply IHe. }
  repeat match type of H with match ?y with _ => _ end = _ => destruct y end; try done;
    first [ exact (Hmore _ H) | injection H as <- <-; cbn; by rewrite IHv ].
Qed.
Lemma pMembers_printable s l r :
  pMembers (S f) s = Some (l, r) → forallb (λ m, printable m.2) l = true.
Proof.
  destruct IH as (IHv & IHe & IHm). cbn [pMembers]. intros H.
  assert (∀ x k, ('(v, r1) ← pValue f x;
    match skipWs r1 with
    | String "," r2 => '(l, r3) ← pMembers f r2; Some ((k, v) :: l, r3)
    | String "}" r2 => Some ([(k, v)], r2)
    | _ => None
    end) = Some (l, r) → forallb (λ m, printable m.2) l = true) as Hone.
  { clear H. intros x k. destruct (pValue f x) as [[v r1]|] eqn:E; [|done]. specialize (IHv _ _ _ E).
    cbn [mbind option_bind]. intros H.
    assert (∀ x, ('(l0, r0) ← pMembers f x; Some ((k, v) :: l0, r0)) = Some (l, r) →
      forallb (λ m, printable m.2) l = true) as Hmore.
    { intros y. destruct (pMembers f y) as [[l0 r0]|] eqn:E0; [|done]. intros [= <- <-].
      cbn. rewrite IHv. by eapply IHm. }
    repeat match type of H with match ?y with _ => _ end = _ => destruct y end; try done;
      first [ exact (Hmore _ H) | injection H as <- <-; cbn; by rewrite IHv ]. }
  assert (∀ x, ('(k, r1) ← parseString x;
    match skipWs r1 with
    | String ":" r2 => '(v, r3) ← pValue f r2;
        match skipWs r3 with
        | String "," r4 => '(l, r5) ← pMembers f r4; Some ((k, v) :: l, r5)
        | String "}" r4 => Some ([(k, v)], r4)
        | _ => None
        end
    | _ => None
    end) = Some (l, r) → forallb (λ m, printable m.2) l = true) as Hkey.
  { clear H. intros x. destruct (parseString x) as [[k r1]|]; [|done]. cbn [mbind option_bind].
    intros H. repeat match type of H with match ?y with _ => _ end = _ => destruct y end; try done;
      exact (Hone _ _ H). }
  repeat match type of H with match ?y with _ => _ end = _ => destruct y end; try done;
    exact (Hkey _ H).
Qed.
End Step.

Lemma parsed_printable f : parsedOk f.
Proof.
  induction f as [|f IH]; [done|]. split_and!.
  - by apply pValue_printable.
  - by apply pElements_printable.
  - by apply pMembers_printable.
Qed.
Lemma parse_printable s v : parse s = Ok v → printable v = true.
Proof.
  unfold parse. destruct (skipWs s); [done|].
  destruct (pValue _ s) as [[v' r]|] eqn:E; [|done]. destruct (skipWs r); [|done].
  intros [= <-]. by eapply (proj1 (parsed_printable _)).
Qed.
