(* ===== verification/WorkloadApi.v ===== *)
(** * Workloads on the cluster: apps/v1, core/v1, pods

    The objects the OpenShift providers deploy, with the fields the code builds or
    reads; what a specification has beyond them, at any depth, is kept in its
    [_Other] field.  Quantities are their canonical text. *)
From S2P Require Import Prelude Effects Json.

(** ** Pods *)

(** [EnvVar] with a value from a key of a secret. *)
Record EnvVar := { Env_Name : string; Env_Secret : string; Env_Key : string }.
Inductive VolumeSource :=
  | PersistentVolumeClaimSource (ClaimName : string)
  | ConfigMapSource (Name : string) (Items : list (string * string)).
Record Volume := { Volume_Name : string; Volume_Source : VolumeSource }.
Inductive ProbeHandler :=
  | TCPSocket (Port : Z)
  | ExecAction (Command : list string).
Record Probe := {
  Probe_Handler : ProbeHandler;
  Probe_InitialDelaySeconds : Z;
  Probe_PeriodSeconds : Z;
  Probe_TimeoutSeconds : Z
}.
Record ResourceRequirements := {
  Resources_Limits : gmap string string;
  Resources_Requests : gmap string string
}.
Record Container := {
  Container_Name : string;
  Container_Image : string;
  Container_Command : list string;
  Container_Args : list string;
  (** ports with their protocol *)
  Container_Ports : list (Z * string);
  Container_Env : list EnvVar;
  Container_Resources : ResourceRequirements;
  (** names and paths *)
  Container_VolumeMounts : list (string * string);
  Container_LivenessProbe : option Probe;
  Container_ReadinessProbe : option Probe;
  Container_ImagePullPolicy : string
}.
Record PodSecurityContext := {
  Security_FSGroup : option Z;
  Security_SupplementalGroups : list Z
}.
Record PodTemplate := {
  Template_Labels : gmap string string;
  Template_Volumes : list Volume;
  Template_Containers : list Container;
  Template_SecurityContext : option PodSecurityContext
}.

(** ** Objects *)

Record DeploymentSpec := {
  DS_Strategy : string;
  DS_Replicas : option Z;
  DS_MatchLabels : gmap string string;
  DS_Template : PodTemplate;
  DS_Other : list (string * json)
}.
(** A condition is its type and its status. *)
Record Deployment := {
  Depl_Name : string;
  Depl_Namespace : string;
  Depl_Spec : DeploymentSpec;
  Depl_Conditions : list (string * string)
}.
Record ServicePort := {
  SP_Name : string;
  SP_Protocol : string;
  SP_Port : Z;
  SP_TargetPort : Z
}.
Record ServiceSpec := {
  SS_Ports : list ServicePort;
  SS_Selector : gmap string string;
  SS_ClusterIP : string;
  SS_Other : list (string * json)
}.
Record Service := { Svc_Name : string; Svc_Namespace : string; Svc_Spec : ServiceSpec }.
Record PersistentVolumeClaimSpec := {
  PVCS_AccessModes : list string;
  PVCS_Requests : gmap string string;
  PVCS_Other : list (string * json)
}.
Record PersistentVolumeClaim := {
  PVC_Name : string;
  PVC_Namespace : string;
  PVC_Spec : PersistentVolumeClaimSpec;
  PVC_Phase : string
}.

#[global] Instance EnvVar_eq_dec : EqDecision EnvVar.
Proof. solve_decision. Defined.
#[global] Instance VolumeSource_eq_dec : EqDecision VolumeSource.
Proof. solve_decision. Defined.
#[global] Instance Volume_eq_dec : EqDecision Volume.
Proof. solve_decision. Defined.
#[global] Instance ProbeHandler_eq_dec : EqDecision ProbeHandler.
Proof. solve_decision. Defined.
#[global] Instance Probe_eq_dec : EqDecision Probe.
Proof. solve_decision. Defined.
#[global] Instance ResourceRequirements_eq_dec : EqDecision ResourceRequirements.
Proof. solve_decision. Defined.
#[global] Instance Container_eq_dec : EqDecision Container.
Proof. solve_decision. Defined.
#[global] Instance PodSecurityContext_eq_dec : EqDecision PodSecurityContext.
Proof. solve_decision. Defined.
#[global] Instance PodTemplate_eq_dec : EqDecision PodTemplate.
Proof. solve_decision. Defined.
#[global] Instance DeploymentSpec_eq_dec : EqDecision DeploymentSpec.
Proof. solve_decision. Defined.
#[global] Instance Deployment_eq_dec : EqDecision Deployment.
Proof. solve_decision. Defined.
#[global] Instance ServicePort_eq_dec : EqDecision ServicePort.
Proof. solve_decision. Defined.
#[global] Instance ServiceSpec_eq_dec : EqDecision ServiceSpec.
Proof. solve_decision. Defined.
#[global] Instance Service_eq_dec : EqDecision Service.
Proof. solve_decision. Defined.
#[global] Instance PersistentVolumeClaimSpec_eq_dec : EqDecision PersistentVolumeClaimSpec.
Proof. solve_decision. Defined.
#[global] Instance PersistentVolumeClaim_eq_dec : EqDecision PersistentVolumeClaim.
Proof. solve_decision. Defined.

(** ** Calls *)

Inductive workload_call :=
  | GetDeployment (name namespace : string)
  | CreateDeployment (d : Deployment)
  | UpdateDeployment (d : Deployment)
  | DeleteDeployment (name namespace : string)
  | GetService (name namespace : string)
  | CreateService (s : Service)
  | UpdateService (s : Service)
  | DeleteService (name namespace : string)
  | GetPVC (name namespace : string)
  | CreatePVC (c : PersistentVolumeClaim)
  | UpdatePVC (c : PersistentVolumeClaim)
  | DeletePVC (name namespace : string)
  | DeleteConfigMap (name namespace : string)
  (* the names of the pods, the list that comes with an error being empty; the
     text of the standard error and the error of a command that failed *)
  | ListPods (namespace labelSelector : string)
  | PodExec (pod namespace : string) (command : list string).
Definition workload_resp (c : workload_call) : Type :=
  match c with
  | GetDeployment _ _ | CreateDeployment _ | UpdateDeployment _ => result Deployment
  | GetService _ _ | CreateService _ | UpdateService _ => result Service
  | GetPVC _ _ | CreatePVC _ | UpdatePVC _ => result PersistentVolumeClaim
  | ListPods _ _ => list string
  | PodExec _ _ _ => option (string * error)
  | _ => result unit
  end.
Definition workload_reads (c : workload_call) : bool :=
  match c with
  | GetDeployment _ _ | GetService _ _ | GetPVC _ _ | ListPods _ _ => true
  | _ => false
  end.
