(* ===== verification/GcpApi.v ===== *)
(** * Google Cloud: objects and calls

    The messages of the compute, service networking, Memorystore, Cloud SQL and
    storage APIs with the fields the code reads or sets (a pointer is an [option]; a getter of a nil
    pointer answers the empty string), and the calls of pkg/providers/gcp/gcpiface. *)
From S2P Require Import Prelude Effects Json.
From Stdlib Require Import SpecFloat.

(** ** Networks *)

Record NetworkPeering := { GPeering_Name : option string }.
Record Network := {
  Network_Name : option string;
  Network_SelfLink : option string;
  Network_Subnetworks : list string;
  Network_Peerings : list NetworkPeering
}.
(** The [IpCidrRange] of a subnetwork. *)
Record Subnetwork := { Subnetwork_IpCidrRange : option string }.
Record Address := {
  Address_Name : option string;
  Address_Address : option string;
  Address_PrefixLength : option Z;
  Address_Status : option string;
  Address_Network : option string;
  Address_AddressType : option string;
  Address_IpVersion : option string;
  Address_Purpose : option string
}.
Record Connection := {
  Connection_Network : string;
  Connection_ReservedPeeringRanges : list string;
  Connection_Service : string
}.

(** ** Memorystore *)

(** Enumerations are their numbers.  The day, the start time (hours, minutes,
    seconds, nanos) and the duration (seconds, nanos) of a window; an element of a
    slice of messages can be nil. *)
Record WeeklyMaintenanceWindow := {
  WMW_Day : Z;
  WMW_StartTime : option (Z * Z * Z * Z);
  WMW_Duration : option (Z * Z)
}.
Record MaintenancePolicy := {
  MP_WeeklyMaintenanceWindow : option (list (option WeeklyMaintenanceWindow));
  MP_Other : list (string * json)
}.
Record RedisInstance := {
  RI_Name : string;
  RI_Labels : option (gmap string string);
  RI_Tier : Z;
  RI_ReadReplicasMode : Z;
  RI_MemorySizeGb : Z;
  RI_AuthorizedNetwork : string;
  RI_ConnectMode : Z;
  RI_ReservedIpRange : string;
  RI_RedisVersion : string;
  RI_RedisConfigs : option (gmap string string);
  RI_MaintenancePolicy : option MaintenancePolicy;
  RI_State : Z;
  RI_Host : string;
  RI_Port : Z;
  RI_Other : list (string * json)
}.
Record CreateRedisInstanceRequest := {
  CRI_Parent : string;
  CRI_InstanceId : string;
  CRI_Instance : option RedisInstance
}.

(** ** Cloud SQL

    The messages of sqladmin/v1beta4 with the fields the operator reads or sets.  A
    field that is false, zero or empty is left out of a request unless its name is in
    [ForceSendFields].  Messages that are only passed on are the JSON they were read
    from. *)

Record IpMapping := {
  IPM_IpAddress : string;
  IPM_TimeToRetire : string;
  IPM_Type : string
}.
Record SqlFailoverReplica := {
  SFR_Available : bool;
  SFR_Name : string;
  SFR_ForceSendFields : list string
}.
(** [gcpiface] has a type with the same two fields. *)
Record BackupRetentionSettings := {
  BRS_RetentionUnit : string;
  BRS_RetainedBackups : Z
}.
Record SqlBackupConfiguration := {
  SBC_BackupRetentionSettings : option BackupRetentionSettings;
  SBC_BinaryLogEnabled : bool;
  SBC_Enabled : bool;
  SBC_Kind : string;
  SBC_Location : string;
  SBC_PointInTimeRecoveryEnabled : bool;
  SBC_ReplicationLogArchivingEnabled : bool;
  SBC_StartTime : string;
  SBC_TransactionLogRetentionDays : Z;
  SBC_ForceSendFields : list string
}.
Record SqlIpConfiguration := {
  SIC_AllocatedIpRange : string;
  SIC_AuthorizedNetworks : option json;
  SIC_Ipv4Enabled : bool;
  SIC_PrivateNetwork : string;
  SIC_RequireSsl : bool;
  SIC_ForceSendFields : list string
}.
Record SqlMaintenanceWindow := {
  SMW_Day : Z;
  SMW_Hour : Z;
  SMW_Kind : string;
  SMW_UpdateTrack : string;
  SMW_ForceSendFields : list string
}.
Record SqlSettings := {
  SSet_ActivationPolicy : string;
  SSet_AvailabilityType : string;
  SSet_BackupConfiguration : option SqlBackupConfiguration;
  SSet_Collation : string;
  SSet_ConnectorEnforcement : string;
  SSet_CrashSafeReplicationEnabled : bool;
  SSet_DataDiskSizeGb : Z;
  SSet_DataDiskType : string;
  SSet_DatabaseFlags : option json;
  SSet_DatabaseReplicationEnabled : bool;
  SSet_DeletionProtectionEnabled : bool;
  SSet_DenyMaintenancePeriods : option json;
  SSet_InsightsConfig : option json;
  SSet_IpConfiguration : option SqlIpConfiguration;
  SSet_Kind : string;
  SSet_LocationPreference : option json;
  SSet_MaintenanceWindow : option SqlMaintenanceWindow;
  SSet_PasswordValidationPolicy : option json;
  SSet_PricingPlan : string;
  SSet_ReplicationType : string;
  SSet_SettingsVersion : Z;
  SSet_StorageAutoResize : option bool;
  SSet_StorageAutoResizeLimit : Z;
  SSet_Tier : string;
  SSet_UserLabels : option (gmap string string);
  SSet_ForceSendFields : list string
}.
Record SqlInstance := {
  SI_ConnectionName : string;
  SI_DatabaseVersion : string;
  SI_DiskEncryptionConfiguration : option json;
  SI_FailoverReplica : option SqlFailoverReplica;
  SI_GceZone : string;
  SI_InstanceType : string;
  SI_IpAddresses : option (list (option IpMapping));
  SI_Kind : string;
  SI_MaintenanceVersion : string;
  SI_MasterInstanceName : string;
  SI_MaxDiskSize : Z;
  SI_Name : string;
  SI_Project : string;
  SI_Region : string;
  SI_ReplicaNames : option (list string);
  SI_RootPassword : string;
  SI_SecondaryGceZone : string;
  SI_SelfLink : string;
  SI_ServerCaCert : option json;
  SI_ServiceAccountEmailAddress : string;
  SI_Settings : option SqlSettings;
  SI_State : string
}.

(** ** Cloud Storage

    A rule of a life cycle: its action and the age in days; the bindings of an IAM
    policy, each a role and its members. *)
Record LifecycleRule := { LR_ActionType : string; LR_AgeInDays : Z }.
Abbreviation Policy := (list (string * list string)).

(** ** Cloud Monitoring

    The request for time series: the aligner and the reducer of the aggregation, the
    period of the alignment and the ends of the interval in nanoseconds.  A point of a
    series is its value as a double. *)
Inductive Aggregation_Reducer := REDUCE_NONE | REDUCE_SUM.
Record ListTimeSeriesRequest := {
  TSR_Name : string;
  TSR_Filter : string;
  TSR_PerSeriesAligner : Z;
  TSR_AlignmentPeriod : Z;
  TSR_CrossSeriesReducer : Aggregation_Reducer;
  TSR_StartTime : Z;
  TSR_EndTime : Z
}.
Abbreviation TimeSeries := (list spec_float).

(** ** Third-party functions

    Decoders of messages by [encoding/json], and [reflect.DeepEqual] on
    slices of messages, which also compares what the runtime keeps in them. *)
Class GcpTypes := {
  decodeCreateRedisInstanceRequest : json → result CreateRedisInstanceRequest;
  windowsDeepEqual : option (list (option WeeklyMaintenanceWindow)) →
                     option (list (option WeeklyMaintenanceWindow)) → bool;
  (** the codec of the cloud-credential-operator: the encoded [GCPProviderSpec] of
      some roles, and the service account of an encoded [GCPProviderStatus] *)
  EncodeGCPProviderSpec : list string → result string;
  DecodeGCPProviderStatus : string → result string;
  decodeSqlInstance : json → result SqlInstance;
  (** github.com/xhit/go-str2duration, in nanoseconds *)
  ParseDuration : string → result Z;
  (** the numbers of the aligners in the generated [monitoringpb] *)
  Aggregation_Aligner_value : string → Z
}.

(** ** Calls *)

Inductive gcp_service := NetworksAPI | SubnetsAPI | ServicesAPI | AddressAPI | RedisAPI
  | SQLAdmin | StorageAPI | MetricAPI.
Inductive gcp_call :=
  | NewClient (service : gcp_service) (serviceAccountJson : string)
  (* the networks read so far and the error that ended the iteration, if it is not
     [iterator.Done] *)
  | ListNetworks (project filter : string)
  (* a long-running operation is started, and waited for *)
  | RemovePeering (project network name : string)
  | InsertGlobalAddress (project : string) (resource : Address)
  | DeleteGlobalAddress (project address : string)
  | OperationWait
  | GetGlobalAddress (address project : string)
  | GetSubnetwork (project subnetwork region : string)
  | ConnectionsList (network parent : string)
  | ConnectionsCreate (parent network : string) (reservedPeeringRanges : list string)
  (* whether the operation is done *)
  | ConnectionsDelete (name consumerNetwork : string)
  | GetRedisInstance (name : string)
  | CreateRedisInstance (req : CreateRedisInstanceRequest)
  | UpdateRedisInstance (instance : RedisInstance) (mask : list string)
  | UpgradeRedisInstance (name redisVersion : string)
  | DeleteRedisInstance (name : string)
  | GetSqlInstance (project name : string)
  | InsertSqlInstance (project : string) (instance : SqlInstance)
  | PatchSqlInstance (project name : string) (instance : SqlInstance)
  | DeleteSqlInstance (project name : string)
  | ExportSqlInstance (project name : string) (databases : list string) (fileType uri : string)
  (* a bucket has the rules of its life cycle; the name of an object *)
  | GetBucketAttrs (bucket : string)
  | CreateGcsBucket (bucket project location : string)
  | DeleteGcsBucket (bucket : string)
  | GetBucketPolicy (bucket : string)
  | SetPolicy (bucket : string) (policy : Policy)
  | UpdateBucketLifecycle (bucket : string) (rules : list LifecycleRule)
  | ListObjects (bucket : string)
  | GetObjectAttrs (bucket object : string)
  | DeleteObject (bucket object : string)
  (* the series read so far and the error that ended the iteration, if it is not
     [iterator.Done] *)
  | ListTimeSeries (req : ListTimeSeriesRequest).
Definition gcp_resp (c : gcp_call) : Type :=
  match c with
  | ListNetworks _ _ => list Network * option error
  | GetGlobalAddress _ _ => result Address
  | GetSubnetwork _ _ _ => result Subnetwork
  | ConnectionsList _ _ => result (list Connection)
  | ConnectionsDelete _ _ => result bool
  | GetRedisInstance _ => result RedisInstance
  | GetSqlInstance _ _ => result SqlInstance
  | GetBucketAttrs _ => result (list LifecycleRule)
  | GetBucketPolicy _ => result Policy
  | ListObjects _ => result (list string)
  | GetObjectAttrs _ _ => result string
  | ListTimeSeries _ => list TimeSeries * option error
  | _ => result unit
  end.
Definition gcp_reads (c : gcp_call) : bool :=
  match c with
  | NewClient _ _ | ListNetworks _ _ | GetGlobalAddress _ _ | GetSubnetwork _ _ _
  | ConnectionsList _ _ | GetRedisInstance _ | GetSqlInstance _ _ | GetBucketAttrs _
  | GetBucketPolicy _ | ListObjects _ | GetObjectAttrs _ _ | ListTimeSeries _ => true
  | _ => false
  end.
