(* ===== verification/Api.v ===== *)
(** * The calls the operator makes

    Records of the cloud and Kubernetes objects with the fields the code reads
    or writes (a pointer field is an [option], a slice a [list]; the elements of
    the slices the SDK answers are not nil), and one constructor of [call] per
    operation the code invokes, with the type of its answer. *)
From S2P Require Import Prelude Effects Json WorkloadApi GcpApi.
From Stdlib Require Export SpecFloat.

(** ** EC2 *)

(** [ec2.Tag], [rds.Tag] and [elasticache.Tag] have the same two fields. *)
Record AwsTag := { AwsTag_Key : option string; AwsTag_Value : option string }.
Record TagSpecification := {
  TagSpecification_ResourceType : option string;
  TagSpecification_Tags : list AwsTag
}.
Record Vpc := {
  Vpc_VpcId : option string;
  Vpc_CidrBlock : option string;
  Vpc_State : option string;
  Vpc_Tags : list AwsTag
}.
Record Subnet := {
  Subnet_SubnetId : option string;
  Subnet_VpcId : option string;
  Subnet_CidrBlock : option string;
  Subnet_AvailabilityZone : option string;
  Subnet_Tags : list AwsTag
}.
Record AvailabilityZone := {
  AZ_ZoneName : option string;
  AZ_State : option string
}.
Record Route := {
  Route_DestinationCidrBlock : option string;
  Route_VpcPeeringConnectionId : option string
}.
Record RouteTable := {
  RouteTable_RouteTableId : option string;
  RouteTable_VpcId : option string;
  RouteTable_Routes : list Route;
  RouteTable_Tags : list AwsTag
}.
Record IpRange := { IpRange_CidrIp : option string; IpRange_Description : option string }.
(** All the fields, nil slices kept apart from empty ones: the code compares
    permissions with [reflect.DeepEqual]. *)
Record IpPermission := {
  IpPermission_FromPort : option Z;
  IpPermission_IpProtocol : option string;
  IpPermission_IpRanges : option (list IpRange);
  IpPermission_Ipv6Ranges : option (list (option string * option string));
  IpPermission_PrefixListIds : option (list (option string * option string));
  IpPermission_ToPort : option Z;
  IpPermission_UserIdGroupPairs : option (list (list (option string)))
}.
Record SecurityGroup := {
  SG_GroupId : option string;
  SG_GroupName : option string;
  SG_VpcId : option string;
  SG_Tags : list AwsTag;
  SG_IpPermissions : list IpPermission
}.
Record PeeringStatus := { PS_Code : option string; PS_Message : option string }.
Record VpcPeeringConnection := {
  Peering_Id : option string;
  Peering_Status : option PeeringStatus;
  Peering_Tags : list AwsTag
}.
Record Filter := { Filter_Name : option string; Filter_Values : list (option string) }.

#[global] Instance IpRange_eq_dec : EqDecision IpRange.
Proof. solve_decision. Defined.
#[global] Instance IpPermission_eq_dec : EqDecision IpPermission.
Proof. solve_decision. Defined.

(** ** Subnet groups of RDS and ElastiCache *)

Record DBSubnetGroup := {
  DBSG_Name : option string;
  DBSG_Arn : option string;
  DBSG_Description : option string;
  DBSG_VpcId : option string;
  DBSG_Subnets : list (option string)
}.
Record CacheSubnetGroup := {
  CSG_Name : option string;
  CSG_Description : option string;
  CSG_Subnets : list (option string)
}.

(** ** RDS

    Times are nanoseconds since 1970; an input that is read from a strategy
    keeps the fields the code never looks at in [_Other]. *)

Record Endpoint := { Endpoint_Address : option string; Endpoint_Port : option Z }.
Record PendingModifiedValues := {
  PM_Port : option Z;
  PM_BackupRetentionPeriod : option Z;
  PM_DBInstanceClass : option string;
  PM_EngineVersion : option string;
  PM_MultiAZ : option bool
}.
Record DBInstance := {
  DB_DBInstanceIdentifier : option string;
  DB_DBInstanceArn : option string;
  DB_DBInstanceStatus : option string;
  DB_DBInstanceClass : option string;
  DB_DBName : option string;
  DB_MasterUsername : option string;
  DB_Endpoint : option Endpoint;
  DB_EngineVersion : option string;
  DB_CACertificateIdentifier : option string;
  DB_DeletionProtection : option bool;
  DB_BackupRetentionPeriod : option Z;
  DB_PubliclyAccessible : option bool;
  DB_AllocatedStorage : option Z;
  DB_MaxAllocatedStorage : option Z;
  DB_MultiAZ : option bool;
  DB_AutoMinorVersionUpgrade : option bool;
  DB_PreferredBackupWindow : option string;
  DB_PreferredMaintenanceWindow : option string;
  DB_PendingModifiedValues : option PendingModifiedValues
}.
Record CreateDBInstanceInput := {
  CI_AllocatedStorage : option Z;
  CI_AutoMinorVersionUpgrade : option bool;
  CI_AvailabilityZone : option string;
  CI_BackupRetentionPeriod : option Z;
  CI_CopyTagsToSnapshot : option bool;
  CI_DBInstanceClass : option string;
  CI_DBInstanceIdentifier : option string;
  CI_DBName : option string;
  CI_DBSubnetGroupName : option string;
  CI_DeletionProtection : option bool;
  CI_Engine : option string;
  CI_EngineVersion : option string;
  CI_MasterUserPassword : option string;
  CI_MasterUsername : option string;
  CI_MaxAllocatedStorage : option Z;
  CI_MultiAZ : option bool;
  CI_Port : option Z;
  CI_PreferredBackupWindow : option string;
  CI_PreferredMaintenanceWindow : option string;
  CI_PubliclyAccessible : option bool;
  CI_StorageEncrypted : option bool;
  CI_Tags : list AwsTag;
  CI_VpcSecurityGroupIds : option (list (option string));
  CI_Other : list (string * json)
}.
Record DeleteDBInstanceInput := {
  DI_DBInstanceIdentifier : option string;
  DI_DeleteAutomatedBackups : option bool;
  DI_FinalDBSnapshotIdentifier : option string;
  DI_SkipFinalSnapshot : option bool
}.
(** The fields that the operator sets. *)
Record ModifyDBInstanceInput := {
  MI_DBInstanceIdentifier : option string;
  MI_CACertificateIdentifier : option string;
  MI_DeletionProtection : option bool;
  MI_DBPortNumber : option Z;
  MI_BackupRetentionPeriod : option Z;
  MI_DBInstanceClass : option string;
  MI_PubliclyAccessible : option bool;
  MI_MaxAllocatedStorage : option Z;
  MI_MultiAZ : option bool;
  MI_AutoMinorVersionUpgrade : option bool;
  MI_PreferredBackupWindow : option string;
  MI_PreferredMaintenanceWindow : option string;
  MI_EngineVersion : option string;
  MI_AllowMajorVersionUpgrade : option bool;
  MI_ApplyImmediately : option bool
}.
Record DBSnapshot := {
  Snap_DBSnapshotIdentifier : option string;
  Snap_DBSnapshotArn : option string;
  Snap_Status : option string
}.
Record PendingMaintenanceAction := {
  PMA_Action : option string;
  PMA_AutoAppliedAfterDate : option Z;
  PMA_CurrentApplyDate : option Z;
  PMA_Description : option string
}.
Record ResourcePendingMaintenanceActions := {
  RPMA_ResourceIdentifier : option string;
  RPMA_Details : list PendingMaintenanceAction
}.

(** ** ElastiCache *)

Record NodeGroupMember := {
  NGM_CacheClusterId : option string;
  NGM_PreferredAvailabilityZone : option string;
  NGM_CurrentRole : option string
}.
Record NodeGroup := {
  NG_NodeGroupId : option string;
  NG_Status : option string;
  NG_PrimaryEndpoint : option Endpoint;
  NG_NodeGroupMembers : list NodeGroupMember
}.
(** [NodeGroups] is compared with nil. *)
Record ReplicationGroup := {
  RG_ReplicationGroupId : option string;
  RG_Status : option string;
  RG_CacheNodeType : option string;
  RG_SnapshotRetentionLimit : option Z;
  RG_NodeGroups : option (list NodeGroup);
  RG_MemberClusters : list (option string)
}.
Record CacheCluster := {
  CC_CacheClusterId : option string;
  CC_ReplicationGroupId : option string;
  CC_CacheClusterStatus : option string;
  CC_EngineVersion : option string;
  CC_PreferredAvailabilityZone : option string;
  CC_PreferredMaintenanceWindow : option string;
  CC_SnapshotWindow : option string
}.
Record CreateReplicationGroupInput := {
  CR_AtRestEncryptionEnabled : option bool;
  CR_AutomaticFailoverEnabled : option bool;
  CR_CacheNodeType : option string;
  CR_CacheSubnetGroupName : option string;
  CR_Engine : option string;
  CR_EngineVersion : option string;
  CR_NumCacheClusters : option Z;
  CR_PreferredMaintenanceWindow : option string;
  CR_ReplicationGroupDescription : option string;
  CR_ReplicationGroupId : option string;
  CR_SecurityGroupIds : option (list (option string));
  CR_SnapshotRetentionLimit : option Z;
  CR_SnapshotWindow : option string;
  CR_Tags : list AwsTag;
  CR_TransitEncryptionEnabled : option bool;
  CR_Other : list (string * json)
}.
Record DeleteReplicationGroupInput := {
  DR_FinalSnapshotIdentifier : option string;
  DR_ReplicationGroupId : option string;
  DR_RetainPrimaryCluster : option bool
}.
Record ModifyReplicationGroupInput := {
  MR_ReplicationGroupId : option string;
  MR_CacheNodeType : option string;
  MR_ApplyImmediately : option bool;
  MR_SnapshotRetentionLimit : option Z;
  MR_EngineVersion : option string;
  MR_PreferredMaintenanceWindow : option string;
  MR_SnapshotWindow : option string
}.
Record CacheSnapshot := {
  CS_SnapshotName : option string;
  CS_SnapshotStatus : option string
}.
Record UpdateAction := {
  UA_ReplicationGroupId : option string;
  UA_CacheClusterId : option string;
  UA_Engine : option string;
  UA_EstimatedUpdateTime : option string;
  UA_NodesUpdated : option string;
  UA_ServiceUpdateName : option string;
  UA_ServiceUpdateRecommendedApplyByDate : option Z;
  UA_ServiceUpdateReleaseDate : option Z;
  UA_ServiceUpdateSeverity : option string;
  UA_ServiceUpdateStatus : option string;
  UA_ServiceUpdateType : option string;
  UA_SlaMet : option string;
  UA_UpdateActionAvailableDate : option Z;
  UA_UpdateActionStatus : option string;
  UA_UpdateActionStatusModifiedDate : option Z
}.

(** ** Kubernetes and OpenShift *)

Record AWSPlatform := {
  AWSPlatform_Region : string;
  AWSPlatform_ResourceTags : list (string * string)
}.
Record GCPPlatform := { GCPPlatform_ProjectID : string; GCPPlatform_Region : string }.
Record PlatformStatus := {
  Platform_Type : string;
  Platform_AWS : option AWSPlatform;
  Platform_GCP : option GCPPlatform
}.
Record Infrastructure := {
  Infra_InfrastructureName : string;
  Infra_PlatformStatus : option PlatformStatus
}.
(** [configv1.Network]: the CIDR strings of [Spec.ClusterNetwork] and
    [Spec.ServiceNetwork]. *)
Record NetworkConf := {
  NetworkConf_ClusterNetwork : list string;
  NetworkConf_ServiceNetwork : list string
}.

(** [metav1.ObjectMeta]; times in seconds. *)
Record ObjectMeta := {
  Meta_Name : string;
  Meta_Namespace : string;
  Meta_Labels : gmap string string;
  Meta_Annotations : gmap string string;
  Meta_Finalizers : list string;
  Meta_CreationTimestamp : Z;
  Meta_DeletionTimestamp : option Z;
  Meta_UID : string
}.
Record SecretRef := { SecretRef_Name : string; SecretRef_Namespace : string }.
(** [croType.ResourceTypeSpec] and [croType.ResourceTypeStatus] *)
Record ResourceTypeSpec := {
  Spec_Type : string;
  Spec_Tier : string;
  Spec_SkipCreate : bool;
  Spec_ApplyImmediately : bool;
  Spec_MaintenanceWindow : bool;
  Spec_SecretRef : option SecretRef;
  Spec_Size : string;
  Spec_SnapshotFrequency : string;
  Spec_SnapshotRetention : string
}.
Record ResourceTypeStatus := {
  Status_Strategy : string;
  Status_Provider : string;
  Status_Version : string;
  Status_SecretRef : option SecretRef;
  Status_Phase : string;
  Status_Message : string
}.
(** The custom resources [Postgres], [Redis] and [BlobStorage]: one record, as
    the three Go types have the same fields. *)
Inductive kind := Postgres | Redis | BlobStorage.
Record CR := {
  CR_kind : kind;
  CR_Meta : ObjectMeta;
  CR_Spec : ResourceTypeSpec;
  CR_Status : ResourceTypeStatus
}.

(** The resources [PostgresSnapshot] and [RedisSnapshot], with the kind of what
    they are snapshots of, and [croType.ResourceTypeSnapshotStatus]. *)
Record ResourceTypeSnapshotStatus := {
  SS_SnapshotID : string;
  SS_Phase : string;
  SS_Message : string;
  SS_Strategy : string
}.
Record SnapshotCR := {
  Snapshot_kind : kind;
  Snapshot_Meta : ObjectMeta;
  Snapshot_ResourceName : string;
  Snapshot_SkipDelete : bool;
  Snapshot_Status : ResourceTypeSnapshotStatus
}.

#[global] Instance kind_eq_dec : EqDecision kind.
Proof. solve_decision. Defined.
#[global] Instance SecretRef_eq_dec : EqDecision SecretRef.
Proof. solve_decision. Defined.
#[global] Instance ObjectMeta_eq_dec : EqDecision ObjectMeta.
Proof. solve_decision. Defined.
#[global] Instance ResourceTypeSpec_eq_dec : EqDecision ResourceTypeSpec.
Proof. solve_decision. Defined.
#[global] Instance ResourceTypeStatus_eq_dec : EqDecision ResourceTypeStatus.
Proof. solve_decision. Defined.
#[global] Instance CR_eq_dec : EqDecision CR.
Proof. solve_decision. Defined.

(** [metav1.OwnerReference] with the fields that are compared or set. *)
Record OwnerReference := {
  Owner_Kind : string;
  Owner_Name : string;
  Owner_UID : string;
  Owner_Controller : bool
}.
Record Secret := {
  Secret_Name : string;
  Secret_Namespace : string;
  Secret_Owners : list OwnerReference;
  (** [None] is the nil map *)
  Secret_Data : option (gmap string string);
  Secret_StringData : gmap string string;
  Secret_Type : string
}.
(** [cloudcredential/v1]: a request for AWS credentials. *)
Record StatementEntry := {
  Stmt_Effect : string;
  Stmt_Action : list string;
  Stmt_Resource : string
}.
Record CredentialsRequest := {
  CReq_Name : string;
  CReq_Namespace : string;
  CReq_ProviderSpec : string;
  CReq_SecretRef : string * string;
  CReq_Provisioned : bool;
  CReq_ProviderStatus : string
}.
#[global] Instance OwnerReference_eq_dec : EqDecision OwnerReference.
Proof. solve_decision. Defined.
#[global] Instance Secret_eq_dec : EqDecision Secret.
Proof. solve_decision. Defined.
#[global] Instance CredentialsRequest_eq_dec : EqDecision CredentialsRequest.
Proof. solve_decision. Defined.

(** ** S3 *)

Record CreateBucketInput := {
  CB_Bucket : option string;
  CB_Other : list (string * json)
}.

(** ** CloudWatch

    A query: its identifier, the metric and its namespace, the name and the value of
    its dimension, the statistic and the period in seconds.  [None] is a nil slice. *)
Abbreviation float64 := spec_float.
Record MetricDataQuery := {
  MDQ_Id : string;
  MDQ_MetricName : string;
  MDQ_Namespace : string;
  MDQ_Dimension : string * string;
  MDQ_Stat : string;
  MDQ_Period : Z
}.
Record MetricDataResult := {
  MDR_Id : option string;
  MDR_StatusCode : option string;
  MDR_Values : list (option float64)
}.

(** ** Third-party functions

    Pure functions of code that is not part of the repository. *)
Class ThirdParty := {
  (** [awsutil.Prettify] on a slice of availability zones, as printed by [%s] *)
  prettifyAZs : list AvailabilityZone → string;
  (** github.com/hashicorp/go-version *)
  Version : Type;
  NewVersion : string → result Version;
  LessThan : Version → Version → bool;
  (** the codec of the cloud-credential-operator: the encoded
      [AWSProviderSpec] of some statements, and the user and the policy of an
      encoded [AWSProviderStatus] *)
  EncodeProviderSpec : list StatementEntry → result string;
  DecodeProviderStatus : string → result (string * string)
}.

(** How an AWS session gets its credentials. *)
Inductive session_credentials :=
  | DefaultChain
  | AssumeRole (roleArn : string)
  | WebIdentityRole (roleArn sessionName tokenFile : string)
  | StaticCredentials (accessKeyID secretAccessKey : string).
(** What [Stat] answers. *)
Inductive stat_answer := StatOk | StatNotExist | StatError.
Inductive read_answer := ReadOk (s : string) | ReadNotExist | ReadError (e : error).

(** ** Calls *)

Inductive api_call :=
  (* EC2 *)
  | DescribeVpcs (VpcIds : list (option string))
  | CreateVpc (CidrBlock : option string) (TagSpecifications : list TagSpecification)
  | WaitUntilVpcExists (VpcIds : list (option string))
  | DeleteVpc (VpcId : option string)
  | DescribeSubnets
  | CreateSubnet (AvailabilityZone CidrBlock VpcId : option string)
                 (TagSpecifications : list TagSpecification)
  | DeleteSubnet (SubnetId : option string)
  | CreateTags (Resources : list (option string)) (Tags : list AwsTag)
  | DescribeAvailabilityZones
  | DescribeInstanceTypeOfferings (Filters : list Filter) (LocationType : option string)
  | DescribeRouteTables (Filters : list Filter)
  | CreateRoute (VpcPeeringConnectionId DestinationCidrBlock RouteTableId : option string)
  | DeleteRoute (DestinationCidrBlock RouteTableId : option string)
  | DescribeSecurityGroups (GroupIds : list (option string))
  | CreateSecurityGroup (Description GroupName VpcId : option string)
                        (TagSpecifications : list TagSpecification)
  | DeleteSecurityGroup (GroupId : option string)
  | AuthorizeSecurityGroupIngress (GroupId : option string) (IpPermissions : list IpPermission)
  | DescribeVpcPeeringConnections (Ids : list (option string)) (Filters : list Filter)
  | CreateVpcPeeringConnection (PeerVpcId VpcId : option string)
                               (TagSpecifications : list TagSpecification)
  | AcceptVpcPeeringConnection (VpcPeeringConnectionId : option string)
  | DeleteVpcPeeringConnection (VpcPeeringConnectionId : option string)
  (* RDS subnet groups *)
  | DescribeDBSubnetGroups
  | CreateDBSubnetGroup (Description Name : option string) (SubnetIds : list (option string))
                        (Tags : list AwsTag)
  | ModifyDBSubnetGroup (Description Name : option string) (SubnetIds : list (option string))
  | DeleteDBSubnetGroup (Name : option string)
  | ListTagsForResource (ResourceName : option string)
  | RemoveTagsFromResource (ResourceName : option string) (TagKeys : list (option string))
  | RDS_AddTagsToResource (ResourceName : option string) (Tags : list AwsTag)
  (* ElastiCache subnet groups *)
  | DescribeCacheSubnetGroups
  | CreateCacheSubnetGroup (Description Name : option string)
                           (SubnetIds : list (option string)) (Tags : list AwsTag)
  | ModifyCacheSubnetGroup (Description Name : option string)
                           (SubnetIds : list (option string))
  | DeleteCacheSubnetGroup (Name : option string)
  (* RDS *)
  | DescribeDBInstances
  | CreateDBInstance (input : CreateDBInstanceInput)
  | DeleteDBInstance (input : DeleteDBInstanceInput)
  | ModifyDBInstance (input : ModifyDBInstanceInput)
  | DescribeDBSnapshots (DBInstanceIdentifier DBSnapshotIdentifier : option string)
  | DescribePendingMaintenanceActions (ResourceIdentifier : option string)
  | ApplyPendingMaintenanceAction (ApplyAction OptInType ResourceIdentifier : option string)
  | DescribeInstanceTypes (InstanceTypes : list (option string))
  (* ElastiCache *)
  | DescribeReplicationGroups
  | CreateReplicationGroup (input : CreateReplicationGroupInput)
  | DeleteReplicationGroup (input : DeleteReplicationGroupInput)
  | ModifyReplicationGroup (input : ModifyReplicationGroupInput)
  | DescribeCacheClusters (CacheClusterId : option string)
  | DescribeUpdateActions (ReplicationGroupIds ServiceUpdateStatus : list (option string))
  | BatchApplyUpdateAction (ReplicationGroupIds : list (option string))
                           (ServiceUpdateName : option string)
  | DescribeSnapshots (CacheClusterId SnapshotName : option string)
  | EC_AddTagsToResource (ResourceName : option string) (Tags : list AwsTag)
  (* snapshots; [DescribeReplicationGroup] answers the output and the error *)
  | CreateDBSnapshot (DBInstanceIdentifier DBSnapshotIdentifier : option string)
                     (Tags : list AwsTag)
  | DeleteDBSnapshot (DBSnapshotIdentifier : option string)
  | DescribeReplicationGroup (ReplicationGroupId : option string)
  | CreateSnapshot (CacheClusterId SnapshotName : option string) (Tags : list AwsTag)
  | DeleteSnapshot (SnapshotName : option string)
  (* S3: the names of the buckets, the keys of the objects; the batch delete of
     the s3manager package *)
  | ListBuckets
  | CreateBucket (input : CreateBucketInput)
  | DeleteBucket (Bucket : option string)
  | ListObjectsV2 (Bucket : option string)
  | BatchDelete (Bucket : option string)
  | PutPublicAccessBlock (Bucket : option string)
      (BlockPublicAcls BlockPublicPolicy IgnorePublicAcls RestrictPublicBuckets : option bool)
  | PutBucketEncryption (Bucket SSEAlgorithm : option string)
  | PutBucketTagging (Bucket : option string) (TagSet : list AwsTag)
  (* sessions and STS *)
  | NewSession (region : option string) (creds : session_credentials)
  | GetCallerIdentity
  (* Kubernetes *)
  | GetInfrastructure
  | GetNetworkConf
  | GetConfigMap (name namespace : string)
  | CreateConfigMap (name namespace : string) (data : gmap string string)
  | UpdateConfigMap (name namespace : string) (data : gmap string string)
  | GetCR (k : kind) (name namespace : string)
  | UpdateCR (o : CR)
  | StatusUpdateCR (o : CR)
  | ListCR (k : kind)
  | GetSecret (name namespace : string)
  | CreateSecret (sec : Secret)
  | UpdateSecret (sec : Secret)
  | DeleteSecret (name namespace : string)
  | GetCredentialsRequest (name namespace : string)
  | CreateCredentialsRequest (cr : CredentialsRequest)
  | UpdateCredentialsRequest (cr : CredentialsRequest)
  | DeleteCredentialsRequest (name namespace : string)
  | GetSnapshotCR (k : kind) (name namespace : string)
  | UpdateSnapshotCR (o : SnapshotCR)
  | StatusUpdateSnapshotCR (o : SnapshotCR)
  | ListSnapshotCR (k : kind) (namespace : string)
  | CreateSnapshotCR (k : kind) (generateName namespace resourceName : string)
  | DeleteSnapshotCR (o : SnapshotCR)
  | CreateCR (o : CR)
  (* the calls of [WorkloadApi] and [GcpApi] *)
  | Workload (c : workload_call)
  | Gcp (c : gcp_call)
  (* CloudWatch; times in nanoseconds *)
  | GetMetricData (queries : list MetricDataQuery) (StartTime EndTime : Z)
  (* process environment, clock (seconds, nanoseconds), metrics *)
  | LookupEnv (name : string)
  | UnixNow
  | TimeNow
  | PollTick
  (* the choice of the scheduler of Go among [n] steps *)
  | Schedule (n : nat)
  | StatFile (path : string)
  | ReadFile (path : string)
  | NewRandomUUID
  | TCPConnection (host : string) (port : Z)
  | SetMetric (name : string) (labels : gmap string string) (value : Z)
  | SetMetricCurrentTime (name : string) (labels : gmap string string)
  | ResetMetric (name : string)
  (* a gauge of the cloud metrics: the values of its labels in order *)
  | SetGauge (name : string) (labelValues : list string) (value : float64).

Definition api_resp (c : api_call) : Type :=
  match c with
  | DescribeVpcs _ => result (list Vpc)
  | CreateVpc _ _ => result Vpc
  | DescribeSubnets => result (list Subnet)
  | CreateSubnet _ _ _ _ => result Subnet
  | DescribeAvailabilityZones => result (list AvailabilityZone)
  | DescribeInstanceTypeOfferings _ _ => result (list (option string))
  | DescribeRouteTables _ => result (list RouteTable)
  | DescribeSecurityGroups _ => result (list SecurityGroup)
  | CreateSecurityGroup _ _ _ _ => result (option string)
  | DescribeVpcPeeringConnections _ _ => result (list VpcPeeringConnection)
  | CreateVpcPeeringConnection _ _ _ => result VpcPeeringConnection
  | DescribeDBSubnetGroups => result (list DBSubnetGroup)
  | ListTagsForResource _ => result (list AwsTag)
  | DescribeCacheSubnetGroups => result (list CacheSubnetGroup)
  | DescribeDBInstances => result (list DBInstance)
  | DescribeDBSnapshots _ _ => result (list DBSnapshot)
  | DescribePendingMaintenanceActions _ => result (list ResourcePendingMaintenanceActions)
  | DescribeInstanceTypes _ => result (list (option Z))
  | DescribeReplicationGroups => result (list ReplicationGroup)
  | DescribeCacheClusters _ => result (list CacheCluster)
  | DescribeUpdateActions _ _ => result (list UpdateAction)
  | BatchApplyUpdateAction _ _ => result (list (option string * option string))
  | DescribeSnapshots _ _ => result (list CacheSnapshot)
  | DescribeReplicationGroup _ => option (list ReplicationGroup) * option error
  | ListBuckets => result (list (option string))
  | ListObjectsV2 _ => result (list (option string))
  | GetCallerIdentity => result (option string)
  | GetInfrastructure => result Infrastructure
  | GetNetworkConf => result NetworkConf
  | GetConfigMap _ _ | CreateConfigMap _ _ _ | UpdateConfigMap _ _ _ =>
      result (gmap string string)
  | GetSnapshotCR _ _ _ | UpdateSnapshotCR _ | StatusUpdateSnapshotCR _ => result SnapshotCR
  | ListSnapshotCR _ _ => result (list SnapshotCR)
  | GetCR _ _ _ | UpdateCR _ | StatusUpdateCR _ | CreateCR _ => result CR
  | Workload c => workload_resp c
  | Gcp c => gcp_resp c
  | GetMetricData _ _ _ => result (option (list MetricDataResult))
  | ListCR _ => result (list CR)
  | GetSecret _ _ | CreateSecret _ | UpdateSecret _ => result Secret
  | GetCredentialsRequest _ _ | CreateCredentialsRequest _ | UpdateCredentialsRequest _ =>
      result CredentialsRequest
  | StatFile _ => stat_answer
  | ReadFile _ => read_answer
  | NewRandomUUID => result string
  | TCPConnection _ _ => bool
  | LookupEnv _ => option string
  | UnixNow | TimeNow => Z
  | PollTick => bool
  | Schedule _ => nat
  | SetMetric _ _ _ | SetMetricCurrentTime _ _ | ResetMetric _ | SetGauge _ _ _ => unit
  | _ => result unit
  end.

#[global] Instance api : Sig := {| call := api_call; resp := api_resp |}.

(** The calls that only read. *)
Definition reads (c : call) : bool :=
  match (c : api_call) with
  | DescribeVpcs _ | WaitUntilVpcExists _ | DescribeSubnets | DescribeAvailabilityZones
  | DescribeInstanceTypeOfferings _ _ | DescribeRouteTables _ | DescribeSecurityGroups _
  | DescribeVpcPeeringConnections _ _ | DescribeDBSubnetGroups | ListTagsForResource _
  | DescribeCacheSubnetGroups | GetInfrastructure | GetNetworkConf | LookupEnv _
  | GetConfigMap _ _ | GetCR _ _ _ | ListCR _ | UnixNow | TimeNow | PollTick
  | DescribeDBInstances | DescribeDBSnapshots _ _ | DescribePendingMaintenanceActions _
  | DescribeInstanceTypes _ | DescribeReplicationGroups | DescribeCacheClusters _
  | DescribeUpdateActions _ _ | DescribeSnapshots _ _ | DescribeReplicationGroup _
  | ListBuckets | ListObjectsV2 _ | GetSnapshotCR _ _ _ | NewSession _ _ | GetCallerIdentity
  | GetSecret _ _ | GetCredentialsRequest _ _ | StatFile _ | ReadFile _ | NewRandomUUID
  | TCPConnection _ _ | GetMetricData _ _ _ | ListSnapshotCR _ _
  | Schedule _ => true
  | Workload c => workload_reads c
  | Gcp c => gcp_reads c
  | _ => false
  end.

(** ** Read-only programs

    They make only reading calls and leave the object unchanged. *)
Abbreviation readonly := (sat (λ c, reads c = true) eq).

(** A property of calls that every reading call has. *)
Definition reads_ok (P : call → Prop) : Prop := ∀ c, reads c = true → P c.

Lemma readonly_sat {S E A} (P : call → Prop) (R : S → S → Prop) `{!PreOrder R}
    (m : M S E A) : reads_ok P → readonly m → sat P R m.
Proof.
  intros HP Hm s tr o s' H. apply Hm in H as [Ht ->]. split; [|done].
  eapply Forall_impl; [done|]. intros e He. by apply HP.
Qed.

#[export] Hint Extern 4 (sat _ _ _) =>
  lazymatch goal with
  | |- sat (λ c, reads c = true) _ _ => fail
  | |- sat _ _ _ => apply readonly_sat; [apply _|solve [eauto 2 with sat nocore]|]
  end : sat.
#[export] Hint Extern 1 (reads _ = true) => reflexivity : sat.

(** ** Polling

    [wait.PollUntilContextTimeout] every 5 seconds for 5 minutes, the first
    attempt at once: an attempt that answers [None] is not done, an error ends
    the loop, and [PollTick] tells whether the deadline leaves time for another
    attempt, of which there are at most 60. *)
Section Poll.
Context {S A : Type}.
Fixpoint poll (attempts : nat) (attempt : M S error (option A)) : M S error A :=
  done ← attempt;
  match done with
  | Some a => mret a
  | None =>
      match attempts with
      | O => fail (GoErr "context deadline exceeded")
      | Datatypes.S n =>
          again ← invoke PollTick;
          if (again : bool) then poll n attempt else fail (GoErr "context deadline exceeded")
      end
  end.

Lemma ro_poll n (m : M S error (option A)) : readonly m → readonly (poll n m).
Proof. intros Hm. induction n as [|n IH]; simpl; go_sat. Qed.

(** A poll that succeeds ends with an attempt that succeeds. *)
Lemma poll_Val n (m : M S error (option A)) s tr a s' :
  runs (poll n m s) tr (Val a, s') →
  ∃ t s1, t ⊆ tr ∧ runs (m s1) t (Val (Some a), s').
Proof.
  revert s tr. induction n as [|n IH]; intros s tr H; cbn [poll] in H;
    apply runs_bind_Val in H as (t1 & [x|] & s1 & t2 & -> & H1 & H2).
  1,3: apply runs_mret_Val in H2 as (-> & -> & ->); exists t1, s;
       split; [intros e He; rewrite app_nil_r; exact He|exact H1].
  - by apply runs_fail_Val in H2.
  - apply (@runs_bind_invoke api S error A PollTick) in H2 as (again & t & -> & H2).
    destruct again; [|by apply runs_fail_Val in H2].
    apply IH in H2 as (t' & s2 & Ht & H2). exists t', s2. split; [|exact H2].
    intros e He. apply elem_of_app. right. apply elem_of_cons. right. by apply Ht.
Qed.
End Poll.
#[export] Hint Resolve ro_poll : sat.

(** [skip_calls P H He v Hv]: the call of the event [He] is not made by the first
    part of the run [H], whose calls satisfy [P]; [H] becomes the rest of the run
    and [Hv] the run of the first part, with its value [v]. *)
Ltac skip_calls P H He v Hv :=
  let t1 := fresh "t" in let s1 := fresh "s" in let t2 := fresh "t" in
  let H2 := fresh "Hrest" in let He2 := fresh "Hin" in
  eapply (runs_bind_skip P eq) in H;
  [ destruct H as (t1 & v & s1 & t2 & -> & Hv & <- & H2 & He2);
    clear He; rename H2 into H; rename He2 into He; cbv beta in H
  | exact He | solve [go_sat] | cbn; discriminate || exact id ].
Ltac skip_reads H He v Hv := skip_calls (λ c : call, reads c = true) H He v Hv.
