(* ===== verification/Sha256.v ===== *)
(** * SHA-256 and base32 of the Go standard library

    [crypto/sha256] and [encoding/base32] (standard alphabet) as executable
    functions on bytes ([list Z]), with 32-bit words as [Z] modulo [2^32]; the
    only use the operator makes of them is the hash suffix of [ShortenString]. *)
From S2P Require Import Prelude.
From Stdlib Require Import Ascii.
Local Open Scope Z_scope.

Definition w32 (x : Z) : Z := Z.land x 4294967295.
Definition rotr (n x : Z) : Z := Z.lor (Z.shiftr x n) (w32 (Z.shiftl x (32 - n))).
Definition shr (n x : Z) : Z := Z.shiftr x n.
Definition not32 (x : Z) : Z := 4294967295 - x.

Definition K256 : list Z :=
  [1116352408; 1899447441; 3049323471; 3921009573; 961987163; 1508970993; 2453635748;
   2870763221; 3624381080; 310598401; 607225278; 1426881987; 1925078388; 2162078206;
   2614888103; 3248222580; 3835390401; 4022224774; 264347078; 604807628; 770255983;
   1249150122; 1555081692; 1996064986; 2554220882; 2821834349; 2952996808; 3210313671;
   3336571891; 3584528711; 113926993; 338241895; 666307205; 773529912; 1294757372;
   1396182291; 1695183700; 1986661051; 2177026350; 2456956037; 2730485921; 2820302411;
   3259730800; 3345764771; 3516065817; 3600352804; 4094571909; 275423344; 430227734;
   506948616; 659060556; 883997877; 958139571; 1322822218; 1537002063; 1747873779;
   1955562222; 2024104815; 2227730452; 2361852424; 2428436474; 2756734187; 3204031479;
   3329325298].
Definition H256 : list Z :=
  [1779033703; 3144134277; 1013904242; 2773480762; 1359893119; 2600822924; 528734635;
   1541459225].

(** Padding to a multiple of 64 bytes with the length in bits. *)
Definition be64 (n : Z) : list Z :=
  map (λ i, Z.land (Z.shiftr n (8 * i)) 255) [7; 6; 5; 4; 3; 2; 1; 0].
Definition pad (m : list Z) : list Z :=
  let len := Z.of_nat (length m) in
  m ++ [128] ++ replicate (Z.to_nat ((55 - len) mod 64)) 0 ++ be64 (8 * len).

Fixpoint words (bs : list Z) : list Z :=
  match bs with
  | a :: b :: c :: d :: rest => (16777216 * a + 65536 * b + 256 * c + d) :: words rest
  | _ => []
  end.

(** The message schedule, newest word first: [ws] is the last 16 words. *)
Definition sigma0 (x : Z) := Z.lxor (rotr 7 x) (Z.lxor (rotr 18 x) (shr 3 x)).
Definition sigma1 (x : Z) := Z.lxor (rotr 17 x) (Z.lxor (rotr 19 x) (shr 10 x)).
Fixpoint schedule (n : nat) (ws : list Z) : list Z :=
  match n with
  | O => ws
  | S n' =>
      let w := w32 (sigma1 (nth 1 ws 0) + nth 6 ws 0 + sigma0 (nth 14 ws 0) + nth 15 ws 0) in
      schedule n' (w :: ws)
  end.

Definition round (st : list Z) (kw : Z * Z) : list Z :=
  match st with
  | [a; b; c; d; e; f; g; h] =>
      let S1 := Z.lxor (rotr 6 e) (Z.lxor (rotr 11 e) (rotr 25 e)) in
      let ch := Z.lxor (Z.land e f) (Z.land (not32 e) g) in
      let t1 := h + S1 + ch + kw.1 + kw.2 in
      let S0 := Z.lxor (rotr 2 a) (Z.lxor (rotr 13 a) (rotr 22 a)) in
      let maj := Z.lxor (Z.land a b) (Z.lxor (Z.land a c) (Z.land b c)) in
      [w32 (t1 + S0 + maj); a; b; c; w32 (d + t1); e; f; g]
  | _ => st
  end.
Definition block (st : list Z) (ws : list Z) : list Z :=
  let sched := reverse (schedule 48 (reverse ws)) in
  zip_with (λ x y, w32 (x + y)) st (foldl round st (zip K256 sched)).
Fixpoint blocks (n : nat) (st : list Z) (ws : list Z) : list Z :=
  match n with
  | O => st
  | S n' => blocks n' (block st (take 16 ws)) (drop 16 ws)
  end.
Definition sha256 (m : list Z) : list Z :=
  let ws := words (pad m) in
  let st := blocks (length ws / 16) H256 ws in
  concat (map (λ w, [Z.land (Z.shiftr w 24) 255; Z.land (Z.shiftr w 16) 255;
                     Z.land (Z.shiftr w 8) 255; Z.land w 255]) st).

(** ** base32 *)

Definition b32digit (n : Z) : ascii :=
  ascii_of_nat (Z.to_nat (if n <? 26 then 65 + n else 24 + n)).
Definition b32group (bs : list Z) : list Z :=
  let n := foldl (λ acc b, 256 * acc + b) 0 (take 5 (bs ++ [0; 0; 0; 0; 0])) in
  map (λ i, Z.land (Z.shiftr n (5 * i)) 31) [7; 6; 5; 4; 3; 2; 1; 0].
Definition b32len (bytes : nat) : nat :=
  (match bytes with O => 0 | 1 => 2 | 2 => 4 | 3 => 5 | 4 => 7 | _ => 8 end)%nat.
Fixpoint b32string (fuel : nat) (bs : list Z) : string :=
  match fuel, bs with
  | S f, _ :: _ =>
      let n := b32len (length bs) in
      foldr (λ d s, String (b32digit d) s)
        (foldr (λ c s, String c s) (b32string f (drop 5 bs)) (replicate (8 - n) "="%char))
        (take n (b32group bs))
  | _, _ => EmptyString
  end.
(** [base32.StdEncoding.EncodeToString] *)
Definition EncodeToString (bs : list Z) : string := b32string (length bs) bs.

(** [[]byte(s)] *)
Fixpoint bytes_of (s : string) : list Z :=
  match s with
  | EmptyString => []
  | String c s' => Z.of_nat (nat_of_ascii c) :: bytes_of s'
  end.

Example base32_rfc : EncodeToString (bytes_of "foobar") = "MZXW6YTBOI======".
Proof. vm_compute. reflexivity. Qed.
Example sha256_abc : firstn 4 (sha256 (bytes_of "abc")) = [186; 120; 22; 191].
Proof. vm_compute. reflexivity. Qed.
Example sha256_two_blocks :
  firstn 4 (sha256 (bytes_of "abcdbcdecdefdefgefghfghighijhijkijkljklmklmnlmnomnopnopq")) =
  [36; 141; 106; 97].
Proof. vm_compute. reflexivity. Qed.

Lemma length_foldr_string (l : list Z) s :
  String.length (foldr (λ d s, String (b32digit d) s) s l) = (length l + String.length s)%nat.
Proof. induction l as [|x l IH]; simpl; [done|]. by rewrite IH. Qed.

Lemma length_schedule n ws : length (schedule n ws) = (n + length ws)%nat.
Proof. revert ws. induction n as [|n IH]; intros ws; simpl; [done|]. rewrite IH. simpl. lia. Qed.

Lemma length_round st kw : length (round st kw) = length st.
Proof.
  destruct st as [|? [|? [|? [|? [|? [|? [|? [|? [|? ?]]]]]]]]]; done.
Qed.
Lemma length_block st ws : length (block st ws) = length st.
Proof.
  unfold block. rewrite length_zip_with.
  assert (∀ l st', length (foldl round st' l) = length st') as ->.
  { induction l as [|x l IH]; intros st'; simpl; [done|]. by rewrite IH, length_round. }
  apply Nat.min_id.
Qed.
Lemma length_blocks n st ws : length (blocks n st ws) = length st.
Proof.
  revert st ws. induction n as [|n IH]; intros st ws; simpl; [done|].
  by rewrite IH, length_block.
Qed.

Lemma length_sha256 m : length (sha256 m) = 32%nat.
Proof.
  unfold sha256. set (st := blocks _ _ _).
  assert (length st = 8%nat) as E by (unfold st; by rewrite length_blocks).
  destruct st as [|? [|? [|? [|? [|? [|? [|? [|? [|? ?]]]]]]]]]; done.
Qed.

(** The encoding of a hash is long enough for the suffix. *)
Lemma length_hash m : (8 ≤ String.length (EncodeToString (sha256 m)))%nat.
Proof.
  unfold EncodeToString. rewrite length_sha256. pose proof (length_sha256 m) as L.
  destruct (sha256 m) as [|b bs]; [done|].
  change (b32string 32 (b :: bs)) with
    (let n := b32len (length (b :: bs)) in
      foldr (λ d s, String (b32digit d) s)
        (foldr (λ c s, String c s) (b32string 31 (drop 5 (b :: bs))) (replicate (8 - n) "="%char))
        (take n (b32group (b :: bs)))).
  rewrite L. cbv zeta. rewrite length_foldr_string, length_take. change (b32len 32) with 8%nat.
  unfold b32group. rewrite length_map. simpl length. lia.
Qed.
