(* ===== verification/Resources.v ===== *)
(** * pkg/resources: tags, names, finalizers, cluster look-ups

    The helpers shared by every provider and controller.  Pure helpers are
    plain functions; those that call the cluster are programs of [Effects]. *)
From S2P Require Import Prelude Effects GoNet GoStrings Json Api Sha256.
From stdpp Require Import pretty.
From Stdlib Require Import Ascii.
Local Open Scope go_scope.

(** ** Tags (tags.go) *)

Record Tag := { Tag_Key : string; Tag_Value : string }.
#[global] Instance Tag_eq_dec : EqDecision Tag.
Proof. solve_decision. Defined.

Definition TagDisplayName : string := "Name".
Definition TagManagedKey : string := "red-hat-managed".
Definition TagManagedVal : string := "true".

Definition Tag_Equal (a b : Tag) : bool :=
  bool_decide (Tag_Key a = Tag_Key b) && bool_decide (Tag_Value a = Tag_Value b).

Definition MergeTags (generalTags infraTags : list Tag) : list Tag :=
  let dupMap : gset string := list_to_set (map Tag_Key generalTags) in
  generalTags ++ List.filter (λ tag, negb (bool_decide (Tag_Key tag ∈ dupMap))) infraTags.

Definition TagsContains (tags : list Tag) (key value : string) : bool :=
  existsb (λ tag, bool_decide (Tag_Key tag = key) && bool_decide (Tag_Value tag = value)) tags.

Definition TagsContainsAll (as_ bs : list Tag) : bool :=
  forallb (λ a, existsb (λ b, Tag_Equal a b) bs) as_.

Definition BuildManagedTag : Tag := {| Tag_Key := TagManagedKey; Tag_Value := TagManagedVal |}.

(** pkg/providers/aws/tags.go *)
Definition ec2TagToGeneric (t : AwsTag) : Tag :=
  {| Tag_Key := StringValue (AwsTag_Key t); Tag_Value := StringValue (AwsTag_Value t) |}.
Definition ec2TagListToGenericList (ts : list AwsTag) : list Tag := map ec2TagToGeneric ts.
Definition rdsTagListToGenericList (ts : list AwsTag) : list Tag := map ec2TagToGeneric ts.
Definition genericToEc2Tag (t : Tag) : AwsTag :=
  {| AwsTag_Key := Some (Tag_Key t); AwsTag_Value := Some (Tag_Value t) |}.
Definition genericListToEc2TagList (ts : list Tag) : list AwsTag := map genericToEc2Tag ts.
Definition genericToRdsTags (ts : list Tag) : list AwsTag := map genericToEc2Tag ts.
Definition genericListToElasticacheTagList (ts : list Tag) : list AwsTag :=
  map genericToEc2Tag ts.

(** ** Strings (strings.go) *)

(** [anReg.ReplaceAllString(s, "")] for the expression of [buildAlphanumRegexp] *)
Fixpoint stripNonAlphanum (s : string) : string :=
  match s with
  | EmptyString => EmptyString
  | String c s' => if isAlphanum c then String c (stripNonAlphanum s') else stripNonAlphanum s'
  end.
(** [s[0:n]] for [n <= len(s)] *)
Fixpoint prefixOf (n : nat) (s : string) : string :=
  match n, s with
  | S n', String c s' => String c (prefixOf n' s')
  | _, _ => EmptyString
  end.

Definition hashLen : nat := 4.
Definition ShortenString (s : string) (n : Z) : string :=
  let s := stripNonAlphanum s in
  if (Z.of_nat (String.length s) <? n)%Z then s
  else
    let postfixLen := (Z.of_nat hashLen + 1)%Z in
    let cutSize := if (n <? Z.of_nat hashLen + 1)%Z then Z.of_nat (String.length s)
                   else (n - postfixLen)%Z in
    let cutStr := prefixOf (Z.to_nat cutSize) s in
    let hashedStr := EncodeToString (sha256 (bytes_of s)) in
    ToLower (cutStr +:+ "-" +:+ prefixOf hashLen hashedStr).

Definition StringOrDefault (str defaultTo : string) : string :=
  if bool_decide (str = "") then defaultTo else str.

(** ** Finalizers (finalizers.go) *)

Definition Contains_ (l : list string) (s : string) : bool :=
  existsb (λ v, bool_decide (v = s)) l.

(** [remove] on the slice of a Go [[]string]: [arr] is the backing array, which
    the [append] overwrites while the loop ranges over it, [len] the length of
    the variable [list].  [None] is the panic of [list[i+1:]] out of bounds. *)
Fixpoint removeLoop (fuel i : nat) (arr : list string) (len : nat) (s : string)
  : option (list string) :=
  match fuel with
  | O => Some (take len arr)
  | S f =>
      match arr !! i with
      | None => Some (take len arr)
      | Some v =>
          if bool_decide (v = s) then
            if decide (i + 1 ≤ len) then
              let tail := take (len - (i + 1)) (drop (i + 1) arr) in
              let list' := take i arr ++ tail in
              removeLoop f (S i) (list' ++ drop (length list') arr) (length list') s
            else None
          else removeLoop f (S i) arr len s
      end
  end.
Definition remove (list : list string) (s : string) : option (List.list string) :=
  removeLoop (length list) 0 list (length list) s.

Definition setFinalizers (om : ObjectMeta) (fs : list string) : ObjectMeta :=
  {| Meta_Name := Meta_Name om; Meta_Namespace := Meta_Namespace om;
     Meta_Labels := Meta_Labels om; Meta_Annotations := Meta_Annotations om;
     Meta_Finalizers := fs; Meta_CreationTimestamp := Meta_CreationTimestamp om;
     Meta_DeletionTimestamp := Meta_DeletionTimestamp om; Meta_UID := Meta_UID om |}.
Definition HasFinalizer (om : ObjectMeta) (finalizer : string) : bool :=
  Contains_ (Meta_Finalizers om) finalizer.
Definition addFinalizer (om : ObjectMeta) (finalizer : string) : ObjectMeta :=
  if negb (HasFinalizer om finalizer) then setFinalizers om [finalizer] else om.
Definition RemoveFinalizer (om : ObjectMeta) (finalizer : string) : option ObjectMeta :=
  setFinalizers om <$> remove (Meta_Finalizers om) finalizer.

Definition setMeta (o : CR) (om : ObjectMeta) : CR :=
  {| CR_kind := CR_kind o; CR_Meta := om; CR_Spec := CR_Spec o; CR_Status := CR_Status o |}.

Example shorten1 : ShortenString "my-super-long-test-name" 12 = "mysuper-nm7v".
Proof. vm_compute. reflexivity. Qed.
Example shorten2 : ShortenString "23" (-1) = "23-knp2".
Proof. vm_compute. reflexivity. Qed.
Example shorten3 : ShortenString "testtest" 12 = "testtest".
Proof. vm_compute. reflexivity. Qed.
Example shorten4 : ShortenString "dimitra-qvxxg-integreatly-operator-some-other-text" 40
  = "dimitraqvxxgintegreatlyoperatorsome-44q7".
Proof. vm_compute. reflexivity. Qed.

Definition EnvForceReconcileTimeout : string := "ENV_FORCE_RECONCILE_TIMEOUT".
Definition DefaultTagKeyPrefix : string := "integreatly.org/".

(** ** Look-ups (cluster.go, config.go, tags.go, provider.go, versions.go) *)

Section Lookups.
Context {S : Type}.

Definition GetForcedReconcileTimeOrDefault {E} (defaultTo : Z) : M S E Z :=
  recTime ← invoke (LookupEnv EnvForceReconcileTimeout);
  match recTime with
  | Some v => match ParseInt64 v with Some rt => mret rt | None => mret defaultTo end
  | None => mret defaultTo
  end.

(** [MetricsWatchDuration] and the environment of the metrics, in nanoseconds. *)
Definition EnvMetricsReconcileTimeout : string := "ENV_METRIC_RECONCILE_TIMEOUT".
Definition MetricsWatchDuration : Z := 300000000000.
Definition GetMetricReconcileTimeOrDefault {E} (defaultTo : Z) : M S E Z :=
  recTime ← invoke (LookupEnv EnvMetricsReconcileTimeout);
  match recTime with
  | Some v => match ParseInt64 v with Some rt => mret rt | None => mret defaultTo end
  | None => mret defaultTo
  end.

Definition GetClusterInfrastructure : M S error Infrastructure :=
  ok (invoke GetInfrastructure) orWrap "failed to retrieve cluster infrastructure".

Definition GetClusterID : M S error string :=
  infra ← GetClusterInfrastructure orWrap "failed to retrieve cluster infrastructure";
  mret (Infra_InfrastructureName infra).

Definition GetAWSRegion : M S error string :=
  infra ← GetClusterInfrastructure
    orWrap "failure happened while retrieving cluster infrastructure";
  match Infra_PlatformStatus infra with
  | Some ps =>
      if bool_decide (Platform_Type ps = "AWS")
      then aws ← deref (Platform_AWS ps); mret (AWSPlatform_Region aws)
      else fail (GoErr "infrastructure does not contain aws region")
  | None => fail (GoErr "infrastructure does not contain aws region")
  end.

Definition GetGCPPlatform (field : GCPPlatform → string) : M S error string :=
  infra ← GetClusterInfrastructure orWrap "failed to retrieve cluster infrastructure";
  match Infra_PlatformStatus infra with
  | Some ps =>
      if bool_decide (Platform_Type ps = "GCP")
      then gcp ← deref (Platform_GCP ps); mret (field gcp)
      else fail (GoErr "infrastructure does not contain gcp project")
  | None => fail (GoErr "infrastructure does not contain gcp project")
  end.
Definition GetGCPProject : M S error string := GetGCPPlatform GCPPlatform_ProjectID.
Definition GetGCPRegion : M S error string := GetGCPPlatform GCPPlatform_Region.

Definition GetPlatformType : M S error string :=
  infra ← GetClusterInfrastructure orWrap "failed to retrieve cluster platform type";
  ps ← deref (Infra_PlatformStatus infra);
  mret (Platform_Type ps).

Definition GetOrganizationTag {E} : M S E string :=
  organizationTag ← invoke (LookupEnv "TAG_KEY_PREFIX");
  mret (default DefaultTagKeyPrefix organizationTag).

Definition BuildInfraName (postfix : string) (n : Z) : M S error string :=
  clusterID ← GetClusterID orWrap "error getting clusterID";
  mret (ShortenString (clusterID +:+ "-" +:+ postfix) n).

Definition BuildInfraNameFromObject (om : ObjectMeta) (n : Z) : M S error string :=
  clusterID ← GetClusterID orWrap "failed to retrieve cluster identifier";
  mret (ShortenString (clusterID +:+ "-" +:+ Meta_Namespace om +:+ "-" +:+ Meta_Name om) n).

Definition BuildTimestampedInfraNameFromObject (om : ObjectMeta) (n : Z)
  : M S error string :=
  clusterID ← GetClusterID orWrap "failed to retrieve timestamped cluster identifier";
  curTime ← invoke UnixNow;
  mret (ShortenString (clusterID +:+ "-" +:+ Meta_Namespace om +:+ "-" +:+ Meta_Name om
                         +:+ "-" +:+ itoa curTime) n).

Definition BuildTimestampedInfraNameFromObjectCreation (om : ObjectMeta) (n : Z)
  : M S error string :=
  clusterID ← GetClusterID orWrap "failed to retrieve timestamped cluster identifier";
  mret (ShortenString (clusterID +:+ "-" +:+ Meta_Namespace om +:+ "-" +:+ Meta_Name om
                         +:+ "-" +:+ itoa (Meta_CreationTimestamp om)) n).

(** Only the first ten hyphens would be removed; a UUID has four. *)
Definition GeneratePassword : M S error string :=
  generatedPassword ← ok (invoke NewRandomUUID) orWrap "error generating password";
  mret (removeChar "-" generatedPassword).

Definition GetUserInfraTags : M S error (list Tag) :=
  infra ← GetClusterInfrastructure orWrap "failed to get cluster infrastructure";
  match Infra_PlatformStatus infra with
  | Some ps =>
      match Platform_AWS ps with
      | Some aws => mret (map (λ t, {| Tag_Key := t.1; Tag_Value := t.2 |})
                              (AWSPlatform_ResourceTags aws))
      | None => mret []
      end
  | None => mret []
  end.

Definition GetDefaultResourceTags (specType name prodName : string)
  : M S error (list Tag * string) :=
  defaultOrganizationTag ← GetOrganizationTag;
  clusterID ← GetClusterID orWrap "Failed to get cluster id";
  let tags := [{| Tag_Key := defaultOrganizationTag +:+ "clusterID"; Tag_Value := clusterID |};
               {| Tag_Key := defaultOrganizationTag +:+ "resource-type";
                  Tag_Value := specType |};
               {| Tag_Key := defaultOrganizationTag +:+ "resource-name"; Tag_Value := name |};
               BuildManagedTag] in
  let tags := if bool_decide (prodName = "") then tags
              else tags ++ [{| Tag_Key := defaultOrganizationTag +:+ "product-name";
                               Tag_Value := prodName |}] in
  infraTags ← GetUserInfraTags orWrap "Failed to get user infrastructure tags";
  let tags := match infraTags with [] => tags | _ => MergeTags infraTags tags end in
  mret (tags, clusterID).

Definition IsLastResource : M S error bool :=
  postgresList ← ok (invoke (ListCR Postgres)) orWrap "failed to retrieve postgres cr(s)";
  if (1 <? length postgresList)%nat then mret false
  else
    redisList ← ok (invoke (ListCR Redis)) orWrap "failed to retrieve redis cr(s)";
    mret (length postgresList + length redisList =? 1)%nat.

Definition VerifyPostgresMaintenanceWindow (namespace name : string) : M S error bool :=
  postgres ← ok (invoke (GetCR Postgres name namespace));
  mret (Spec_MaintenanceWindow (CR_Spec postgres)).
Definition VerifyRedisMaintenanceWindow (namespace name : string) : M S error bool :=
  redis ← ok (invoke (GetCR Redis name namespace));
  mret (Spec_MaintenanceWindow (CR_Spec redis)).

Definition GetConfigMapOrDefault (name namespace : string) (def : gmap string string)
  : M S error (gmap string string) :=
  r ← try (ok (invoke (GetConfigMap name namespace)));
  match r with
  | inl cm => mret cm
  | inr err => if IsNotFound err then mret def
               else fail (WrapErr err "failed to get config map, not returning default")
  end.

Definition SetVpcAction {E} (action status err : string) (code : Z) : M S E unit :=
  invoke (SetMetric "cro_vpc_action"
            {[ "action" := action; "status" := status; "error" := err ]} code).
Definition ResetVpcAction {E} : M S E unit := invoke (ResetMetric "cro_vpc_action").
End Lookups.

(** [IsNotFoundError] and [IsConflictError] (errors.go), through the wrappers. *)
Fixpoint IsNotFoundError (e : error) : bool :=
  match e with
  | GoogleErr code _ => (code =? 404)%Z
  | GrpcErr code _ => (code =? 5)%Z
  | K8sErr NotFound _ => true
  | WrapErr c _ => IsNotFoundError c
  | _ => false
  end.

Fixpoint IsConflictError (e : error) : bool :=
  match e with
  | GoogleErr code _ => (code =? 409)%Z
  | GrpcErr code _ => (code =? 6)%Z
  | K8sErr Conflict _ => true
  | K8sErr (OtherReason r) _ => bool_decide (r = "AlreadyExists")
  | WrapErr c _ => IsConflictError c
  | _ => false
  end.

(** ** [controllerutil.CreateOrUpdate]

    The object is created when it does not exist, and updated when [mutate] changes
    it; on its way it was read with [get]. *)
Definition CreateOrUpdate {S A} `{EqDecision A} (get : M S error A) (create update : A → M S error A)
    (obj : A) (mutate : A → outcome error A) : M S error unit :=
  got ← try get;
  match got with
  | inr err =>
      if IsNotFound err then
        obj ← lift (mutate obj);
        _ ← create obj; mret tt
      else fail err
  | inl existing =>
      obj ← lift (mutate existing);
      if bool_decide (obj = existing) then mret tt
      else _ ← update obj; mret tt
  end.
Lemma CreateOrUpdate_Val {S A} `{EqDecision A} (get : M S error A) create update (obj : A) mutate
    (s : S) tr s' :
  runs (CreateOrUpdate get create update obj mutate s) tr (Val tt, s') →
  ∃ t1 s1 t2 new, tr = t1 ++ t2 ∧
    ((∃ e written, runs (get s) t1 (Err e, s1) ∧ IsNotFound e = true ∧ mutate obj = Val new ∧
        runs (create new s1) t2 (Val written, s')) ∨
     (∃ existing, runs (get s) t1 (Val existing, s1) ∧ mutate existing = Val new ∧
        ((new = existing ∧ t2 = [] ∧ s' = s1) ∨
         (new ≠ existing ∧ ∃ written, runs (update new s1) t2 (Val written, s'))))).
Proof.
  intros Hr. unfold CreateOrUpdate in Hr.
  apply runs_bind_Val in Hr as (t1 & got & s1 & t2 & -> & H1 & Hr). apply runs_try_Val in H1.
  destruct got as [existing|e].
  - apply runs_bind_Val in Hr as (t3 & new & s3 & t4 & -> & H2 & Hr).
    apply runs_lift_Val in H2 as (-> & Hm & ->). exists t1, s1, t4, new. split; [done|].
    right. exists existing. split_and!; [done|done|]. case_bool_decide as E.
    + apply runs_mret_Val in Hr as (-> & _ & ->). by left.
    + apply runs_bind_Val in Hr as (t5 & w & s5 & t6 & -> & H3 & Hr).
      apply runs_mret_Val in Hr as (-> & _ & ->). rewrite app_nil_r. right. by eauto.
  - destruct (IsNotFound e) eqn:En; [|by apply runs_fail_Val in Hr].
    apply runs_bind_Val in Hr as (t3 & new & s3 & t4 & -> & H2 & Hr).
    apply runs_lift_Val in H2 as (-> & Hm & ->). exists t1, s1, t4, new. split; [done|]. left.
    apply runs_bind_Val in Hr as (t5 & w & s5 & t6 & -> & H3 & Hr).
    apply runs_mret_Val in Hr as (-> & _ & ->). rewrite app_nil_r. eauto 8.
Qed.

(** The same on a config map, of which only the data is looked at. *)
Definition CreateOrUpdateConfigMap {S} (name namespace : string) (data : gmap string string)
    (mutate : gmap string string → outcome error (gmap string string)) : M S error unit :=
  CreateOrUpdate (ok (invoke (GetConfigMap name namespace)))
    (λ data, ok (invoke (CreateConfigMap name namespace data)))
    (λ data, ok (invoke (UpdateConfigMap name namespace data))) data mutate.

(** ** Secrets *)

(** [controllerutil.CreateOrUpdate]: the object is created when it does not exist,
    and updated when [mutate] changes it. *)
Definition CreateOrUpdateSecret {S} (sec : Secret) (mutate : Secret → M S error Secret)
  : M S error Secret :=
  got ← try (ok (invoke (GetSecret (Secret_Name sec) (Secret_Namespace sec))));
  match got with
  | inr err =>
      if IsNotFound err then
        obj ← mutate sec;
        ok (invoke (CreateSecret obj))
      else fail err
  | inl existing =>
      obj ← mutate existing;
      if bool_decide (obj = existing) then mret existing
      else ok (invoke (UpdateSecret obj))
  end.

(** ** Finalizers and phases on the API *)

(** [CreateFinalizer]: the finalizer is set on the object and the object
    updated, unless it is being deleted.  The object is the state. *)
Definition CreateFinalizer (df : string) : M CR error unit :=
  inst ← get;
  match Meta_DeletionTimestamp (CR_Meta inst) with
  | Some _ => mret tt
  | None =>
      let inst' := setMeta inst (addFinalizer (CR_Meta inst) df) in
      _ ← put inst';
      updated ← ok (invoke (UpdateCR inst')) orWrap "failed to add finalizer to instance";
      put updated
  end.

Definition PhaseInProgress : string := "in progress".
Definition PhaseDeleteInProgress : string := "deletion in progress".
Definition PhaseComplete : string := "complete".
Definition PhasePaused : string := "paused".
Definition PhaseFailed : string := "failed".
Definition StatusUnsupportedType : string := "unsupported deployment type".
Definition StatusDeploymentConfigNotFound : string := "deployment configuration not found".
Definition StatusSkipCreate : string := "skipping create or update for maintenance".
(** [StatusMessage.WrapError] *)
Definition WrapError (sm : string) (err : error) : string := sm +:+ ": " +:+ Error err.

(** ** Annotations (pkg/annotations) *)

Definition annotations_Add (om : ObjectMeta) (key value : string) : ObjectMeta :=
  {| Meta_Name := Meta_Name om; Meta_Namespace := Meta_Namespace om;
     Meta_Labels := Meta_Labels om; Meta_Annotations := <[key := value]> (Meta_Annotations om);
     Meta_Finalizers := Meta_Finalizers om; Meta_CreationTimestamp := Meta_CreationTimestamp om;
     Meta_DeletionTimestamp := Meta_DeletionTimestamp om; Meta_UID := Meta_UID om |}.
Definition annotations_Has (om : ObjectMeta) (key : string) : bool :=
  match Meta_Annotations om !! key with Some _ => true | None => false end.
Definition annotations_Get (om : ObjectMeta) (key : string) : string :=
  default "" (Meta_Annotations om !! key).

(** [UpdatePhase] (phase.go) on [Postgres], [Redis] and [BlobStorage]. *)
Definition setPhase (phase msg : string) (o : CR) : CR :=
  {| CR_kind := CR_kind o; CR_Meta := CR_Meta o; CR_Spec := CR_Spec o;
     CR_Status := {| Status_Strategy := Status_Strategy (CR_Status o);
                     Status_Provider := Status_Provider (CR_Status o);
                     Status_Version := Status_Version (CR_Status o);
                     Status_SecretRef := Status_SecretRef (CR_Status o);
                     Status_Phase := phase; Status_Message := msg |} |}.
Definition UpdatePhase (phase msg : string) : M CR error unit :=
  if bool_decide (msg = "") then mret tt
  else
    inst ← get;
    let inst' := setPhase phase msg inst in
    _ ← put inst';
    updated ← ok (invoke (StatusUpdateCR inst'))
      orWrap "failed to update resource status phase and message";
    put updated.

(** * Properties *)

Section Readonly.
Context {S : Type}.

Lemma ro_GetClusterInfrastructure : readonly (GetClusterInfrastructure (S := S)).
Proof. unfold GetClusterInfrastructure. go_sat. Qed.
#[local] Hint Resolve ro_GetClusterInfrastructure : sat.
Lemma ro_GetClusterID : readonly (GetClusterID (S := S)).
Proof. unfold GetClusterID. go_sat. Qed.
#[local] Hint Resolve ro_GetClusterID : sat.
Lemma ro_GetAWSRegion : readonly (GetAWSRegion (S := S)).
Proof. unfold GetAWSRegion. go_sat. Qed.
Lemma ro_GetOrganizationTag {E} : readonly (GetOrganizationTag (S := S) (E := E)).
Proof. unfold GetOrganizationTag. go_sat. Qed.
Lemma ro_BuildInfraName p n : readonly (BuildInfraName (S := S) p n).
Proof. unfold BuildInfraName. go_sat. Qed.
Lemma ro_BuildInfraNameFromObject om n :
  readonly (BuildInfraNameFromObject (S := S) om n).
Proof. unfold BuildInfraNameFromObject. go_sat. Qed.
Lemma ro_BuildTimestampedInfraNameFromObject om n :
  readonly (BuildTimestampedInfraNameFromObject (S := S) om n).
Proof. unfold BuildTimestampedInfraNameFromObject. go_sat. Qed.
Lemma ro_GetUserInfraTags : readonly (GetUserInfraTags (S := S)).
Proof. unfold GetUserInfraTags. go_sat. Qed.
#[local] Hint Resolve ro_GetOrganizationTag ro_GetUserInfraTags : sat.
Lemma ro_GetDefaultResourceTags a b c : readonly (GetDefaultResourceTags (S := S) a b c).
Proof. unfold GetDefaultResourceTags. go_sat. Qed.
Lemma ro_IsLastResource : readonly (IsLastResource (S := S)).
Proof. unfold IsLastResource. go_sat. Qed.
Lemma ro_VerifyPostgresMaintenanceWindow a b :
  readonly (VerifyPostgresMaintenanceWindow (S := S) a b).
Proof. unfold VerifyPostgresMaintenanceWindow. go_sat. Qed.
Lemma ro_VerifyRedisMaintenanceWindow a b :
  readonly (VerifyRedisMaintenanceWindow (S := S) a b).
Proof. unfold VerifyRedisMaintenanceWindow. go_sat. Qed.
Lemma ro_GetConfigMapOrDefault a b c : readonly (GetConfigMapOrDefault (S := S) a b c).
Proof. unfold GetConfigMapOrDefault. go_sat. Qed.
End Readonly.
#[export] Hint Resolve ro_GetClusterInfrastructure ro_GetClusterID ro_GetAWSRegion
  ro_GetOrganizationTag ro_BuildInfraName ro_BuildInfraNameFromObject
  ro_BuildTimestampedInfraNameFromObject ro_GetUserInfraTags ro_GetDefaultResourceTags
  ro_IsLastResource ro_VerifyPostgresMaintenanceWindow ro_VerifyRedisMaintenanceWindow
  ro_GetConfigMapOrDefault : sat.

(** ** Tags *)

Lemma filter_filter_false {A} (f g : A → bool) l :
  (∀ x, x ∈ l → f x = true → g x = false) → List.filter f (List.filter g l) = [].
Proof.
  intros H. induction l as [|x l IH]; simpl; [done|].
  assert (List.filter f (List.filter g l) = []) as IH'.
  { apply IH. intros y Hy. apply H. by constructor. }
  destruct (g x) eqn:Eg; [|done]. simpl. destruct (f x) eqn:Ef; [|done].
  rewrite (H x) in Eg; [done|constructor|done].
Qed.
Lemma filter_filter_true {A} (f g : A → bool) l :
  (∀ x, x ∈ l → f x = true → g x = true) →
  List.filter f (List.filter g l) = List.filter f l.
Proof.
  intros H. induction l as [|x l IH]; simpl; [done|].
  assert (List.filter f (List.filter g l) = List.filter f l) as IH'.
  { apply IH. intros y Hy. apply H. by constructor. }
  destruct (f x) eqn:Ef.
  - rewrite (H x) by (done || constructor). simpl. by rewrite Ef, IH'.
  - destruct (g x); simpl; by rewrite ?Ef, IH'.
Qed.

(** The tags of a list that have a given key, in order. *)
Definition tagsFor (k : string) (ts : list Tag) : list Tag :=
  List.filter (λ t, bool_decide (Tag_Key t = k)) ts.

(** for every key, the merged list has the tags of the first list
    when the first list has the key, and the tags of the second list otherwise;
    no tag of the first list is lost. *)
Theorem MergeTags_precedence (general infra : list Tag) (k : string) :
  tagsFor k (MergeTags general infra) =
  if bool_decide (k ∈ map Tag_Key general) then tagsFor k general else tagsFor k infra.
Proof.
  unfold tagsFor, MergeTags. cbv zeta. rewrite List.filter_app.
  case_bool_decide as Hk.
  - rewrite filter_filter_false; [apply app_nil_r|].
    intros x _ ->%bool_decide_eq_true. apply negb_false_iff, bool_decide_eq_true.
    by apply elem_of_list_to_set.
  - rewrite filter_filter_true.
    + replace (List.filter (λ t, bool_decide (Tag_Key t = k)) general) with (@nil Tag); [done|].
      induction general as [|x l IH]; simpl; [done|].
      rewrite map_cons, elem_of_cons in Hk. rewrite bool_decide_false by naive_solver.
      apply IH. naive_solver.
    + intros x _ ->%bool_decide_eq_true. apply negb_true_iff, bool_decide_eq_false.
      by rewrite elem_of_list_to_set.
Qed.

Lemma Tag_Equal_true a b : Tag_Equal a b = true ↔ a = b.
Proof.
  unfold Tag_Equal. destruct a as [k v], b as [k' v']; simpl.
  rewrite andb_true_iff, !bool_decide_eq_true.
  split; [intros [-> ->]|intros [= -> ->]]; done.
Qed.

(** the test the providers make before tagging is inclusion. *)
Theorem TagsContainsAll_inclusion (as_ bs : list Tag) :
  TagsContainsAll as_ bs = true ↔ as_ ⊆ bs.
Proof.
  unfold TagsContainsAll. rewrite forallb_In. split.
  - intros H t Ht. apply H, existsb_In in Ht as (b & Hb & ->%Tag_Equal_true). done.
  - intros H t Ht. apply existsb_In. exists t. split; [by apply H|]. by apply Tag_Equal_true.
Qed.

Lemma generic_ec2_round_trip ts :
  ec2TagListToGenericList (genericListToEc2TagList ts) = ts.
Proof. induction ts as [|[k v] ts IH]; simpl; [done|]. by rewrite IH. Qed.

(** ** Names *)

Lemma length_prefixOf n s : String.length (prefixOf n s) = (n `min` String.length s)%nat.
Proof. revert s. induction n as [|n IH]; intros [|c s]; simpl; try done. by rewrite IH. Qed.
Lemma length_ToLower s : String.length (ToLower s) = String.length s.
Proof. induction s as [|c s IH]; simpl; [done|]. by rewrite IH. Qed.
Lemma length_app_string s t : String.length (s +:+ t) = (String.length s + String.length t)%nat.
Proof.
  induction s as [|c s IH]; [done|].
  change (S (String.length (s +:+ t)) = S (String.length s + String.length t)). by rewrite IH.
Qed.

(** with room for the hash suffix ([n >= 5]) the result has at
    most [n] characters, and exactly [n] as soon as the alphanumeric part of the
    input has [n]; with less room the bound is not kept: the whole input is
    returned with the suffix. *)
Theorem ShortenString_length (s : string) (n : Z) :
  let len := Z.of_nat (String.length (stripNonAlphanum s)) in
  Z.of_nat (String.length (ShortenString s n)) =
  if (len <? n)%Z then len else if (n <? 5)%Z then (len + 5)%Z else n.
Proof.
  cbv zeta. unfold ShortenString. set (t := stripNonAlphanum s).
  pose proof (length_hash (bytes_of t)) as Hh. change (Z.of_nat hashLen + 1)%Z with 5%Z.
  destruct (Z.ltb_spec (Z.of_nat (String.length t)) n); [done|].
  rewrite length_ToLower, !length_app_string, !length_prefixOf.
  change (String.length "-") with 1%nat. unfold hashLen. rewrite (Nat.min_l 4) by lia.
  destruct (Z.ltb_spec n 5); lia.
Qed.

Fixpoint all_chars (f : ascii → bool) (s : string) : bool :=
  match s with EmptyString => true | String c s' => f c && all_chars f s' end.
Lemma all_chars_app f s t : all_chars f (s +:+ t) = all_chars f s && all_chars f t.
Proof.
  induction s as [|c s IH]; [done|].
  change (f c && all_chars f (s +:+ t) = f c && all_chars f s && all_chars f t).
  by rewrite IH, andb_assoc.
Qed.
Lemma stripNonAlphanum_id s : all_chars isAlphanum s = true → stripNonAlphanum s = s.
Proof.
  induction s as [|c s IH]; simpl; [done|]. intros [-> H]%andb_true_iff. by rewrite IH.
Qed.
Lemma all_chars_strip s : all_chars isAlphanum (stripNonAlphanum s) = true.
Proof.
  induction s as [|c s IH]; simpl; [done|]. destruct (isAlphanum c) eqn:E; [|done].
  simpl. by rewrite E.
Qed.

(** ** Finalizers *)

Lemma removeLoop_notin fuel i arr len s :
  (∀ j v, i ≤ j → arr !! j = Some v → v ≠ s) →
  removeLoop fuel i arr len s = Some (take len arr).
Proof.
  revert i. induction fuel as [|f IH]; intros i H; simpl; [done|].
  destruct (arr !! i) as [v|] eqn:E; [|done].
  rewrite bool_decide_false by (eapply (H i); eauto).
  apply IH. intros j w Hj. apply H. lia.
Qed.

Lemma removeLoop_once fuel pre post s :
  s ∉ pre → s ∉ post → (length post < fuel)%nat →
  removeLoop fuel (length pre) (pre ++ s :: post) (length (pre ++ s :: post)) s
  = Some (pre ++ post).
Proof.
  intros Hpre Hpost Hf. destruct fuel as [|f]; [lia|]. simpl.
  rewrite list_lookup_middle by done. rewrite bool_decide_true by done.
  rewrite length_app. simpl length.
  rewrite decide_True by lia.
  rewrite take_app_length.
  replace (drop (length pre + 1) (pre ++ s :: post)) with post.
  2: { rewrite drop_app_add. done. }
  rewrite take_ge by lia. rewrite removeLoop_notin.
  - by rewrite take_app_length.
  - intros j v Hj. rewrite lookup_app_Some, length_app.
    intros [Hin|[Hj' Hin]].
    + rewrite lookup_app_r in Hin by lia. intros ->. by apply list_elem_of_lookup_2 in Hin.
    + rewrite lookup_drop, lookup_app_r in Hin by lia.
      replace (length pre + length post + (j - (length pre + length post)) - length pre)%nat
        with (j - length pre)%nat in Hin by lia.
      destruct (j - length pre)%nat as [|k] eqn:Ek; [lia|]. simpl in Hin.
      intros ->. by apply list_elem_of_lookup_2 in Hin.
Qed.

Lemma removeLoop_prefix fuel i arr len s :
  (∀ v, arr !! i = Some v → v ≠ s) → (i < length arr)%nat →
  removeLoop (S fuel) i arr len s = removeLoop fuel (S i) arr len s.
Proof.
  intros H Hi. simpl. destruct (lookup_lt_is_Some_2 arr i Hi) as [v Hv].
  rewrite Hv. rewrite bool_decide_false; eauto.
Qed.

(** a finalizer that occurs once is removed and the others stay, in
    their order, despite the loop ranging over the slice it overwrites. *)
Theorem RemoveFinalizer_once (om : ObjectMeta) (pre post : list string) (s : string) :
  Meta_Finalizers om = pre ++ s :: post → s ∉ pre → s ∉ post →
  RemoveFinalizer om s = Some (setFinalizers om (pre ++ post)).
Proof.
  intros E Hpre Hpost. unfold RemoveFinalizer, remove. rewrite E.
  assert (∀ k i fuel, length pre = (i + k)%nat → (k + length post < fuel)%nat →
    removeLoop fuel i (pre ++ s :: post) (length (pre ++ s :: post)) s
    = Some (pre ++ post)) as L.
  { induction k as [|k IH]; intros i fuel Hi Hf.
    - replace i with (length pre) by lia. apply removeLoop_once; [done..|lia].
    - destruct fuel as [|f]; [lia|]. rewrite removeLoop_prefix.
      + apply IH; lia.
      + intros v. rewrite lookup_app_l by lia. intros Hv ->.
        by apply list_elem_of_lookup_2 in Hv.
      + rewrite length_app. lia. }
  rewrite (L (length pre) 0%nat); [done|lia|]. rewrite length_app. simpl. lia.
Qed.
Lemma RemoveFinalizer_once_witness :
  RemoveFinalizer (setFinalizers (Build_ObjectMeta "a" "b" ∅ ∅ [] 0 None "uid") ["x"; "f"; "y"]) "f"
  = Some (setFinalizers (Build_ObjectMeta "a" "b" ∅ ∅ [] 0 None "uid") ["x"; "y"]).
Proof.
  apply (RemoveFinalizer_once
    (setFinalizers (Build_ObjectMeta "a" "b" ∅ ∅ [] 0 None "uid") ["x"; "f"; "y"]) ["x"] ["y"] "f"); [reflexivity|decide_closed..].
Defined.

(** a finalizer present twice makes the removal panic, and
    adding a finalizer drops those of other controllers. *)
Theorem finalizers_of_others (om : ObjectMeta) (s : string) (fs : list string) :
  RemoveFinalizer (setFinalizers om [s; s]) s = None ∧
  (s ∉ fs → Meta_Finalizers (addFinalizer (setFinalizers om fs) s) = [s]).
Proof.
  split.
  - unfold RemoveFinalizer, remove; simpl.
    repeat (rewrite (bool_decide_true (s = s)) by done; simpl). done.
  - intros Hs. unfold addFinalizer, HasFinalizer, Contains_; simpl.
    destruct (existsb _ fs) eqn:E; simpl; [|done].
    apply existsb_In in E as (x & Hx & ->%bool_decide_eq_true). done.
Qed.
Lemma finalizers_of_others_witness :
  Meta_Finalizers (addFinalizer (setFinalizers (Build_ObjectMeta "a" "b" ∅ ∅ [] 0 None "uid")
    ["foregroundDeletion"]) "cro") = ["cro"].
Proof.
  apply (finalizers_of_others (Build_ObjectMeta "a" "b" ∅ ∅ [] 0 None "uid") "cro"
           ["foregroundDeletion"]).
  decide_closed.
Defined.
