(* ===== verification/Subnets.v ===== *)
(** * CIDR arithmetic of the network provider

    The pure parts of pkg/providers/aws/cluster_vpc.go (the candidate subnets of
    the cluster VPC) and pkg/providers/aws/cluster_network_provider.go (the two
    halves of the standalone VPC, the default CIDR block, the validation of a
    block), with their specifications. *)
From S2P Require Import Prelude Effects Api GoNet NetFacts.
From Stdlib Require Import Ascii.
Local Open Scope Z_scope.
Local Open Scope go_scope.

Definition defaultSubnetMask : Z := 27.
Definition defaultNumberOfExpectedSubnets : nat := 2.
Definition defaultCIDRMask : string := "26".

(** A loop that did not end within its bound. *)
Definition no_end {E A} : outcome E A := Panic "the loop does not end".

(** ** Subnets of a block (cluster_vpc.go) *)

(** [None]: the address has no IPv4 form and [ipv4[0]] panics. *)
Definition incrementIP (ip : IP) (inc : Z) : option IP :=
  match To4 ip with
  | Some [a; b; c; d] =>
      let joinedBytes := (Z.shiftl a 24 + Z.shiftl b 16 + Z.shiftl c 8 + d) mod 2 ^ 64 in
      let joinedBytes := (joinedBytes + inc) mod 2 ^ 64 in
      let byte3 := Z.land joinedBytes 255 in
      let byte2 := Z.land (Z.shiftr joinedBytes 8) 255 in
      let byte1 := Z.land (Z.shiftr joinedBytes 16) 255 in
      let byte0 := Z.land (Z.shiftr joinedBytes 24) 255 in
      Some (IPv4 byte0 byte1 byte2 byte3)
  | _ => None
  end.

Definition containsNetwork (networks : list IPNet) (toFind : IP) : bool :=
  existsb (λ n, IP_Equal (IPNet_IP n) toFind) networks.

(** One iteration of the loop, from the counter and the networks so far. *)
Definition generateStep {E} (fromCIDR toCIDR : IPNet) (toIPv4 : IP) (st : Z * list IPNet)
  : (Z * list IPNet) + outcome E (list IPNet) :=
  let '(i, networks) := st in
  match incrementIP toIPv4 i with
  | None => inr out_of_range
  | Some nextFoundNetwork =>
      if Contains fromCIDR nextFoundNetwork then
        let nextFoundNetworkMasked :=
          default [] (IP_Mask nextFoundNetwork (IPNet_Mask toCIDR)) in
        if containsNetwork networks nextFoundNetworkMasked
        then inl (i + 1, networks)
        else inl (i + 1, networks ++ [{| IPNet_IP := nextFoundNetworkMasked;
                                         IPNet_Mask := IPNet_Mask toCIDR |}])
      else inr (Val networks)
  end.
(** The loop visits the addresses of [fromCIDR] above [toCIDR]: at most [2^31]
    of them unless [fromCIDR] is the whole address space. *)
Definition generateAvailableSubnets {E} (fromCIDR toCIDR : IPNet) : outcome E (list IPNet) :=
  let toIPv4 := default [] (To4 (IPNet_IP toCIDR)) in
  let networks := [{| IPNet_IP := toIPv4; IPNet_Mask := IPNet_Mask toCIDR |}] in
  match whileN 32 (generateStep fromCIDR toCIDR toIPv4) (0, networks) with
  | inr o => o
  | inl _ => no_end
  end.

Definition buildSubnetAddress (vpc : Vpc) : outcome error (list IPNet) :=
  match Vpc_CidrBlock vpc with
  | None => nil_deref
  | Some block =>
      if bool_decide (block = "") then Err (GoErr "vpc cidr block can't be empty")
      else
        match ParseCIDR block with
        | Er err => Err (WrapErr err ("failed to parse vpc cidr block " +:+ block))
        | Ok (_, awsCIDR) =>
            let '(maskSize, _) := Mask_Size (IPNet_Mask awsCIDR) in
            if defaultSubnetMask <=? maskSize then
              Err (GoErr ("vpc cidr block " +:+ block +:+
                          " cannot contain generated subnet mask /" +:+
                          itoa defaultSubnetMask))
            else
              let croCIDRStr := IP_String (IPNet_IP awsCIDR) +:+ "/" +:+ itoa defaultSubnetMask in
              match ParseCIDR croCIDRStr with
              | Er err => Err (WrapErr err ("failed to parse cro cidr block " +:+ croCIDRStr))
              | Ok (_, croCIDR) =>
                  match generateAvailableSubnets awsCIDR croCIDR with
                  | Val networks => Val (reverse networks)
                  | o => o
                  end
              end
        end
  end.

(** ** The halves of the standalone VPC (cluster_network_provider.go) *)

Definition byteHex (b : Z) : string :=
  String (hexdigit (b / 16)) (String (hexdigit (b mod 16)) EmptyString).
(** The verb [%s] on a [[]net.IPNet]. *)
Definition showNets (ns : list IPNet) : string :=
  "[" +:+ String.concat " "
    (map (λ n, "{" +:+ IP_String (IPNet_IP n) +:+ " " +:+
               String.concat "" (map byteHex (IPNet_Mask n)) +:+ "}") ns) +:+ "]".

(** The beginning of [reconcileStandaloneVPCSubnets]: the two subnet ranges. *)
Definition halveVpcCidr (vpc : Vpc) : outcome error (list IPNet) :=
  match Vpc_CidrBlock vpc with
  | None => nil_deref
  | Some block =>
      if bool_decide (block = "") then Err (GoErr "standalone vpc cidr block can't be empty")
      else
        match ParseCIDR block with
        | Er err => Err (WrapErr err ("failed to parse vpc cidr block " +:+ block))
        | Ok (_, awsCIDR) =>
            let '(maskSize, _) := Mask_Size (IPNet_Mask awsCIDR) in
            if defaultSubnetMask <=? maskSize then
              Err (GoErr ("vpc cidr block " +:+ block +:+
                          " cannot contain generated subnet mask /" +:+
                          itoa defaultSubnetMask))
            else
              let halfMaskStr := IP_String (IPNet_IP awsCIDR) +:+ "/" +:+ itoa (maskSize + 1) in
              match ParseCIDR halfMaskStr with
              | Er err => Err (WrapErr err ("failed to parse half mask cidr block " +:+ halfMaskStr))
              | Ok (_, halfMaskCidr) =>
                  match generateAvailableSubnets awsCIDR halfMaskCidr with
                  | Val validSubnets =>
                      if decide (length validSubnets = defaultNumberOfExpectedSubnets)
                      then Val validSubnets
                      else Err (GoErr ("expected at least two subnet ranges, found " +:+
                                       showNets validSubnets))
                  | o => o
                  end
              end
        end
  end.

(** ** Validation of a block *)

Definition isValidCIDRRange (CIDR : IPNet) : bool :=
  let '(mask, _) := Mask_Size (IPNet_Mask CIDR) in
  (15 <? mask) && (mask <? 27).

Definition validateStandaloneCidrBlock (validateCIDR clusterCIDR : IPNet) : option error :=
  if negb (isValidCIDRRange validateCIDR) then
    Some (GoErr (IPNet_String validateCIDR +:+
      " is out of range, block sizes must be between `/16` and `/26`, please update `_network` strategy"))
  else if Contains clusterCIDR (IPNet_IP validateCIDR)
          || Contains validateCIDR (IPNet_IP clusterCIDR) then
    Some (GoErr ("standalone vpc creation failed: standalone cidr block " +:+
      IPNet_String validateCIDR +:+ " overlaps with cluster vpc cidr block " +:+
      IP_String (IPNet_IP clusterCIDR) +:+ ", update _network strategy to continue vpc creation"))
  else None.

(** ** The default block *)

(** The bytes are those of the 4-byte form of [ip], which Go updates in place. *)
Definition incrementIPForDefaultCIDR (ip : IP) : option IP :=
  match To4 ip with
  | Some [a; b; c; d] =>
      if b <? 255 then Some [a; (b + 1) mod 256; c; d]
      else Some [(a + 1) mod 256; 0; c; d]
  | _ => None
  end.

(** [getPodCIDR] and [getServiceCIDR]: the block of the last entry. *)
Fixpoint lastCIDR (msg : string) (entries : list string) (net : option IPNet)
  : outcome error (option IPNet) :=
  match entries with
  | [] => Val net
  | entry :: rest =>
      match ParseCIDR entry with
      | Er err => Err (WrapErr err msg)
      | Ok (_, n) => lastCIDR msg rest (Some n)
      end
  end.
Definition getPodCIDR (networkConf : NetworkConf) : outcome error (option IPNet) :=
  lastCIDR "error parsing pod cidr" (NetworkConf_ClusterNetwork networkConf) None.
Definition getServiceCIDR (networkConf : NetworkConf) : outcome error (option IPNet) :=
  lastCIDR "error parsing service cidr" (NetworkConf_ServiceNetwork networkConf) None.

(** One iteration of the loop over the candidates of a range: [inr None] when
    the range is exhausted. *)
Definition defaultCIDRStep {E} (clusterNet : IPNet) (podCIDR serviceCIDR : option IPNet)
    (cidrRangeNet : IPNet) (potentialDefaultIP : IP) : IP + outcome E (option IPNet) :=
  if Contains cidrRangeNet potentialDefaultIP then
    match ParseCIDR (IP_String potentialDefaultIP +:+ "/26") with
    | Er _ => inl potentialDefaultIP
    | Ok (_, defaultNet) =>
        match incrementIPForDefaultCIDR potentialDefaultIP with
        | None => inr out_of_range
        | Some potentialDefaultIP' =>
            if Contains clusterNet (IPNet_IP defaultNet)
               || Contains defaultNet (IPNet_IP clusterNet)
            then inl potentialDefaultIP'
            else if match podCIDR with
                    | Some p => Contains p (IPNet_IP defaultNet)
                                || Contains defaultNet (IPNet_IP p)
                    | None => false end
            then inl potentialDefaultIP'
            else if match serviceCIDR with
                    | Some p => Contains p (IPNet_IP defaultNet)
                                || Contains defaultNet (IPNet_IP p)
                    | None => false end
            then inl potentialDefaultIP'
            else inr (Val (Some defaultNet))
        end
    end
  else inr (Val None).

Definition cidrRanges : list (string * string) :=
  [("10.255.255.255/8", "10.0.0.0/" +:+ defaultCIDRMask);
   ("172.31.255.255/12", "172.16.0.0/" +:+ defaultCIDRMask)].

(** The loop over the ranges at the end of [getNonOverlappingDefaultCIDR].  A
    range has at most 256 candidates. *)
Fixpoint searchRanges (clusterNet : IPNet) (podCIDR serviceCIDR : option IPNet)
    (ranges : list (string * string)) : outcome error IPNet :=
  match ranges with
  | [] => Err (GoErr "could not find a default cidr block")
  | (cidr, defaultVal) :: rest =>
      match ParseCIDR cidr, ParseCIDR defaultVal with
      | Ok (_, cidrRangeNet), Ok (potentialDefaultIP, _) =>
          match whileN 9 (defaultCIDRStep clusterNet podCIDR serviceCIDR cidrRangeNet)
                       potentialDefaultIP with
          | inr (Val (Some defaultNet)) => Val defaultNet
          | inr (Val None) => searchRanges clusterNet podCIDR serviceCIDR rest
          | inr (Err e) => Err e
          | inr (Panic w) => Panic w
          | inl _ => no_end
          end
      | _, _ => nil_deref
      end
  end.
Definition findDefaultCIDR (clusterNet : IPNet) (podCIDR serviceCIDR : option IPNet)
  : outcome error IPNet :=
  searchRanges clusterNet podCIDR serviceCIDR cidrRanges.

Example build1 : buildSubnetAddress
  {| Vpc_VpcId := None; Vpc_CidrBlock := Some "10.11.128.0/25"; Vpc_State := None; Vpc_Tags := [] |}
  = Val [net4 168525920 27; net4 168525888 27; net4 168525856 27; net4 168525824 27].
Proof. vm_compute. reflexivity. Qed.

(** * Properties *)

Ltac Zify.zify_post_hook ::= Z.to_euclidean_division_equations.

Lemma land_255 x : Z.land x 255 = x mod 256.
Proof. change 255 with (Z.ones 8). by rewrite Z.land_ones by lia. Qed.

Lemma bytes4_wrap v : bytes4 (v mod 2 ^ 32) = bytes4 v.
Proof.
  rewrite !bytes4_num. change (2 ^ 32) with 4294967296.
  repeat (refine (f_equal2 cons _ _); [lia|]). done.
Qed.

(** The carry arithmetic of [incrementIP] is addition modulo [2^32]. *)
Lemma incrementIP_bytes4 v i :
  addr4 v → 0 ≤ i < 2 ^ 33 →
  incrementIP (bytes4 v) i = Some (v4InV6Prefix ++ bytes4 ((v + i) mod 2 ^ 32)).
Proof.
  intros Hv Hi. rewrite bytes4_wrap. unfold incrementIP.
  change (To4 (bytes4 v)) with (Some (bytes4 v)). rewrite (bytes4_num v). cbv iota zeta beta.
  rewrite !land_255, !Z.shiftr_div_pow2, !Z.shiftl_mul_pow2 by lia.
  rewrite bytes4_num. unfold addr4 in Hv.
  change (2 ^ 32) with 4294967296 in *. change (2 ^ 33) with 8589934592 in *.
  change (2 ^ 24) with 16777216. change (2 ^ 16) with 65536. change (2 ^ 8) with 256.
  change (2 ^ 64) with 18446744073709551616.
  replace (v / 16777216 mod 256 * 16777216 + v / 65536 mod 256 * 65536 +
           v / 256 mod 256 * 256 + v mod 256) with v by lia.
  rewrite (Z.mod_small v) by lia. rewrite (Z.mod_small (v + i)) by lia. done.
Qed.

Lemma IP_Mask_v4 v k :
  addr4 v → 0 ≤ k ≤ 32 →
  IP_Mask (v4InV6Prefix ++ bytes4 v) (mask_of k 4) = Some (bytes4 (v - v mod 2 ^ (32 - k))).
Proof.
  intros Hv Hk. unfold IP_Mask.
  rewrite (decide_False (P := length (mask_of k 4) = 16%nat ∧ _))
    by (rewrite mask_of_length; lia).
  rewrite (decide_True (P := length (mask_of k 4) = 4%nat ∧ _))
    by (by rewrite mask_of_length).
  change (drop 12 (v4InV6Prefix ++ bytes4 v)) with (bytes4 v).
  rewrite decide_True by (by rewrite mask_of_length). by rewrite bytes4_mask.
Qed.

Lemma IP_Equal_bytes4 v w :
  addr4 v → addr4 w → IP_Equal (bytes4 v) (bytes4 w) = bool_decide (v = w).
Proof.
  intros Hv Hw. unfold IP_Equal. rewrite decide_True by done.
  apply bool_decide_ext. split; [by apply bytes4_inj|by intros ->].
Qed.

(** The [2^(k-m)] blocks of mask [k] that start at [v], in order. *)
Definition subnets (v k : Z) (n : Z) : list IPNet :=
  map (λ j, net4 (v + j * 2 ^ (32 - k)) k) (seqZ 0 n).

Lemma subnets_snoc v k n :
  0 ≤ n → subnets v k n ++ [net4 (v + n * 2 ^ (32 - k)) k] = subnets v k (n + 1).
Proof.
  intros Hn. unfold subnets. rewrite seqZ_app by lia. rewrite map_app.
  change (seqZ (0 + n) 1) with [0 + n]. done.
Qed.

(** Arithmetic of the walk: [b] addresses per subnet, [i] addresses visited,
    [count b i] networks found. *)
Definition count (b i : Z) : Z := Z.max 1 ((i + b - 1) / b).

Lemma count_bound b i : 0 < b → 0 ≤ i → 1 ≤ count b i ∧ count b i * b < i + b + b.
Proof. unfold count. intros Hb Hi. pose proof (Z.mul_div_le (i + b - 1) b Hb). nia. Qed.

Lemma containsNetwork_subnets v k n j :
  (∀ x, 0 ≤ x ≤ Z.max j (n - 1) → addr4 (v + x * 2 ^ (32 - k))) → 0 ≤ j → 0 ≤ n → k ≤ 32 →
  containsNetwork (subnets v k n) (bytes4 (v + j * 2 ^ (32 - k))) = (j <? n).
Proof.
  intros Ha Hj Hn Hk. unfold containsNetwork, subnets.
  destruct (Z.ltb_spec j n) as [Hlt|Hge].
  - apply existsb_In. exists (net4 (v + j * 2 ^ (32 - k)) k). split.
    + apply list_elem_of_In, in_map_iff. exists j. split; [done|].
      apply list_elem_of_In, elem_of_seqZ. lia.
    + simpl IPNet_IP. rewrite IP_Equal_bytes4 by (apply Ha; lia). by apply bool_decide_eq_true.
  - apply not_true_is_false. intros (x & Hx & He)%existsb_In.
    apply list_elem_of_In, in_map_iff in Hx as (y & <- & Hy).
    apply list_elem_of_In, elem_of_seqZ in Hy. simpl IPNet_IP in He.
    rewrite IP_Equal_bytes4 in He by (apply Ha; lia). apply bool_decide_eq_true in He.
    assert (0 < 2 ^ (32 - k)) by lia. nia.
Qed.

Lemma ceil_div b q r : 0 < b → 0 ≤ r < b → (q * b + r + b - 1) / b = q + (if r =? 0 then 0 else 1).
Proof.
  intros Hb Hr. replace (q * b + r + b - 1) with (r + b - 1 + q * b) by lia.
  rewrite Z.div_add by lia. destruct (Z.eqb_spec r 0) as [->|].
  - rewrite Z.div_small by lia. lia.
  - replace (r + b - 1) with (r - 1 + 1 * b) by lia.
    rewrite Z.div_add, Z.div_small by lia. lia.
Qed.

Lemma count_step b i :
  0 < b → 0 ≤ i →
  if i / b <? count b i then count b (i + 1) = count b i
  else count b i = i / b ∧ count b (i + 1) = i / b + 1.
Proof.
  intros Hb Hi. unfold count.
  pose proof (Z.div_mod i b ltac:(lia)) as Ei. pose proof (Z.mod_pos_bound i b Hb) as Hr.
  assert (0 ≤ i / b) as Hq by (apply Z.div_pos; lia).
  set (q := i / b) in *. set (r := i mod b) in *.
  replace (i + 1 + b - 1) with (i + 1 * b) by lia. rewrite Z.div_add by lia. fold q.
  replace (i + b - 1) with (q * b + r + b - 1) by lia. rewrite ceil_div by lia.
  destruct (Z.eqb_spec r 0), (Z.ltb_spec q (Z.max 1 (q + 0))),
    (Z.ltb_spec q (Z.max 1 (q + 1))); simpl; try lia;
    destruct (Z.ltb_spec q (Z.max 1 (q + 0))), (Z.ltb_spec q (Z.max 1 (q + 1))); lia.
Qed.

Lemma count_le b i : 0 < b → 0 ≤ i → count b i ≤ i / b + 1.
Proof.
  intros Hb Hi. unfold count. assert (0 ≤ i / b) by (apply Z.div_pos; lia).
  assert ((i + b - 1) / b ≤ (i + 1 * b) / b) by (apply Z.div_le_mono; lia).
  rewrite Z.div_add in * by lia. lia.
Qed.

Lemma count_multiple b n : 0 < b → 1 ≤ n → count b (b * n) = n.
Proof.
  intros Hb Hn. unfold count. replace (b * n + b - 1) with (n * b + 0 + b - 1) by lia.
  rewrite ceil_div by lia. simpl. lia.
Qed.

Section Generate.
Context (v m k : Z).
Hypotheses (Hv : addr4 v) (Hm : 1 ≤ m) (Hmk : m ≤ k) (Hk : k ≤ 32)
           (Ha : v mod 2 ^ (32 - m) = 0).
Local Abbreviation b := (2 ^ (32 - k)).
Local Abbreviation N := (2 ^ (32 - m)).

Lemma gen_b_pos : 0 < b.
Proof. lia. Qed.
Lemma gen_N_b : N = b * 2 ^ (k - m).
Proof. rewrite <- Z.pow_add_r by lia. f_equal. lia. Qed.
Lemma gen_N_pos : 0 < N.
Proof. lia. Qed.
Lemma gen_v_N : v = v / N * N.
Proof. pose proof (Z.div_mod v N). pose proof gen_N_pos. lia. Qed.
Lemma gen_v_b : v mod b = 0.
Proof.
  rewrite gen_v_N, gen_N_b. pose proof gen_b_pos.
  replace (v / (b * 2 ^ (k - m)) * (b * 2 ^ (k - m)))
    with (v / (b * 2 ^ (k - m)) * 2 ^ (k - m) * b) by lia.
  apply Z.mod_mul. lia.
Qed.
Lemma gen_full : 2 ^ 32 = N * 2 ^ m.
Proof. rewrite <- Z.pow_add_r by lia. f_equal. lia. Qed.
Lemma gen_top : v + N ≤ 2 ^ 32.
Proof.
  pose proof gen_v_N as Ev. pose proof gen_full as Ef. pose proof gen_N_pos.
  destruct Hv as [H1 H2]. rewrite Ef in *. set (q := v / N) in *. set (M := 2 ^ m) in *.
  assert (q < M) by (apply (Z.mul_lt_mono_pos_r N); lia). nia.
Qed.
Lemma gen_addr i : 0 ≤ i < N → addr4 (v + i).
Proof. pose proof gen_top. unfold addr4 in *. lia. Qed.

Lemma gen_contains_in i :
  0 ≤ i < N → Contains (net4 v m) (v4InV6Prefix ++ bytes4 (v + i)) = true.
Proof.
  intros Hi. apply (Contains_net4 v m _ (v + i)); [done|by apply gen_addr|lia|done|].
  pose proof gen_N_pos. rewrite gen_v_N at 1.
  rewrite Z.add_comm, Z.div_add, Z.div_small by lia. done.
Qed.

(** The address after the last one, wrapped, is outside: the loop ends. *)
Lemma gen_contains_out :
  Contains (net4 v m) (v4InV6Prefix ++ bytes4 ((v + N) mod 2 ^ 32)) = false.
Proof.
  pose proof gen_N_pos. pose proof gen_top. pose proof gen_v_N as Ev.
  assert (0 ≤ v) by (unfold addr4 in Hv; lia).
  apply not_true_is_false. intros C.
  apply (Contains_net4 v m _ ((v + N) mod 2 ^ 32)) in C;
    [|done|unfold addr4; apply Z.mod_pos_bound; lia|lia|done].
  destruct (Z.eq_dec (v + N) (2 ^ 32)) as [E|E].
  - rewrite E, Z.mod_same in C by lia. rewrite Z.div_0_l in C by lia.
    pose proof gen_full. assert (2 ≤ 2 ^ m) by (change 2 with (2 ^ 1); apply Z.pow_le_mono_r; lia).
    nia.
  - rewrite Z.mod_small in C by lia.
    rewrite <- (Z.mul_1_l N) in C at 1. rewrite Z.div_add in C by lia. lia.
Qed.

Lemma gen_step {E} i :
  0 ≤ i ≤ N →
  generateStep (E := E) (net4 v m) (net4 v k) (bytes4 v) (i, subnets v k (count b i)) =
  if i <? N then inl (i + 1, subnets v k (count b (i + 1)))
  else inr (Val (subnets v k (2 ^ (k - m)))).
Proof.
  intros Hi. pose proof gen_b_pos as Hb. pose proof gen_top as Ht. pose proof gen_N_b as EN.
  assert (N ≤ 2 ^ 31) as HN by (apply Z.pow_le_mono_r; lia).
  unfold generateStep. rewrite incrementIP_bytes4 by (done || lia).
  destruct (Z.ltb_spec i N) as [Hlt|Hge].
  - rewrite (Z.mod_small (v + i)) by (unfold addr4 in Hv; lia).
    rewrite gen_contains_in by lia. simpl IPNet_Mask.
    rewrite IP_Mask_v4 by (lia || (apply gen_addr; lia)). cbv zeta. cbn [from_option id].
    replace (v + i - (v + i) mod b) with (v + i / b * b).
    2: { pose proof gen_v_b as Eb. rewrite <- Z.add_mod_idemp_l, Eb by lia.
         rewrite Z.add_0_l, (Z.mod_eq i b) by lia. ring. }
    pose proof (count_step b i Hb (proj1 Hi)) as Hc.
    pose proof (count_bound b i Hb (proj1 Hi)) as [Hc1 Hc2].
    pose proof (Z.mul_div_le i b Hb).
    rewrite containsNetwork_subnets.
    + destruct (Z.ltb_spec (i / b) (count b i)); [by rewrite Hc|].
      destruct Hc as [-> ->]. rewrite <- subnets_snoc by (apply Z.div_pos; lia). done.
    + intros x Hx. apply gen_addr.
      assert (x < 2 ^ (k - m)) as Hx'.
      { destruct Hx as [_ Hx]. apply Z.le_lt_trans with (Z.max (i / b) (count b i - 1)); [lia|].
        assert (i / b < 2 ^ (k - m)) by (apply Z.div_lt_upper_bound; lia).
        assert ((count b i - 1) * b < i + b) by lia.
        assert (count b i - 1 ≤ i / b) by (pose proof (count_le b i Hb (proj1 Hi)); lia). lia. }
      nia.
    + apply Z.div_pos; lia.
    + lia.
    + done.
  - replace i with N by lia. rewrite gen_contains_out. rewrite EN, count_multiple; [done|lia|].
    assert (0 < 2 ^ (k - m)) by lia. lia.
Qed.
End Generate.

(** the walk over the addresses of a block ends, and its result is
    the list of all the sub-blocks of the finer mask, each once, in order. *)
Theorem generateAvailableSubnets_spec (v m k : Z) :
  addr4 v → 1 ≤ m → m ≤ k → k ≤ 32 → v mod 2 ^ (32 - m) = 0 →
  generateAvailableSubnets (E := error) (net4 v m) (net4 v k) =
  Val (map (λ j, net4 (v + j * 2 ^ (32 - k)) k) (seqZ 0 (2 ^ (k - m)))).
Proof.
  intros Hv Hm Hmk Hk Ha. unfold generateAvailableSubnets.
  change (To4 (IPNet_IP (net4 v k))) with (Some (bytes4 v)). cbn [from_option id]. cbv zeta.
  pose proof (gen_step v m k Hv Hm Hmk Hk Ha (E := error)) as St.
  assert (0 < 2 ^ (32 - m) ≤ 2 ^ 31) as HN by (split; [lia|apply Z.pow_le_mono_r; lia]).
  set (P := λ (j : nat) (st : Z * list IPNet),
    st.1 = Z.of_nat j ∧ st.1 ≤ 2 ^ (32 - m) ∧ st.2 = subnets v k (count (2 ^ (32 - k)) st.1)).
  destruct (whileN_inv (generateStep (E := error) (net4 v m) (net4 v k) (bytes4 v)) P
    (λ o, o = Val (subnets v k (2 ^ (k - m)))) (Z.to_nat (2 ^ (32 - m))) 32
    (0, [{| IPNet_IP := bytes4 v; IPNet_Mask := IPNet_Mask (net4 v k) |}]))
    as (o & Ho & ->); [| | | |by rewrite Ho].
  - split; [done|]. split; [simpl; lia|]. simpl. unfold count.
    rewrite (Z.div_small (0 + 2 ^ (32 - k) - 1)) by lia. change (Z.max 1 0) with 1.
    unfold subnets. change (seqZ 0 1) with [0]. simpl. by rewrite Z.add_0_r.
  - intros j [i ns] (Hj & Hi & Hns). simpl in *. subst ns. rewrite St by lia.
    destruct (Z.ltb_spec i (2 ^ (32 - m))); [|done]. unfold P; simpl. repeat split; lia.
  - intros j [i ns] (Hj & Hi & Hns). simpl in *. lia.
  - apply Nat2Z.inj_lt. rewrite Z2Nat.id, Nat2Z.inj_pow by lia.
    change (Z.of_nat 2 ^ Z.of_nat 32) with (2 ^ 32). change (2 ^ 32) with (2 * 2 ^ 31). lia.
Qed.
Lemma generateAvailableSubnets_spec_witness :
  generateAvailableSubnets (E := error) (net4 168525824 23) (net4 168525824 25) =
  Val [net4 168525824 25; net4 168525952 25; net4 168526080 25; net4 168526208 25].
Proof.
  rewrite (generateAvailableSubnets_spec 168525824 23 25);
    [reflexivity|split; [lia|reflexivity]|lia|lia|lia|reflexivity].
Defined.

(** On the whole address space the walk wraps around and never ends. *)
Theorem generateAvailableSubnets_whole_space (k : Z) :
  0 ≤ k ≤ 32 → generateAvailableSubnets (E := error) (net4 0 0) (net4 0 k) = no_end.
Proof.
  intros Hk. unfold generateAvailableSubnets.
  change (To4 (IPNet_IP (net4 0 k))) with (Some (bytes4 0)). cbn [from_option id]. cbv zeta.
  set (st := generateStep (E := error) (net4 0 0) (net4 0 k) (bytes4 0)).
  assert (∀ n i ns, 0 ≤ i → i + Z.of_nat n ≤ 2 ^ 33 →
    ∃ ns', steps st n (i, ns) = inl (i + Z.of_nat n, ns')) as L.
  { induction n as [|n IH]; intros i ns Hi Hn.
    - exists ns. simpl. by rewrite Z.add_0_r.
    - cbn [steps]. assert (∃ ns', st (i, ns) = inl (i + 1, ns')) as (ns' & ->).
      { unfold st, generateStep. rewrite incrementIP_bytes4 by (unfold addr4; lia).
        replace (Contains _ _) with true; [destruct (containsNetwork _ _); eauto|].
        symmetry. eapply Contains_net4 with (w := (0 + i) mod 2 ^ 32);
          [unfold addr4; lia|apply Z.mod_pos_bound; lia|lia|done|].
        change (2 ^ (32 - 0)) with (2 ^ 32).
        rewrite Z.div_small by (apply Z.mod_pos_bound; lia). done. }
      destruct (IH (i + 1) ns') as [ns2 E]; [lia|lia|]. exists ns2. rewrite E.
      do 2 f_equal. lia. }
  rewrite whileN_steps.
  assert (Z.of_nat (2 ^ 32) = 2 ^ 32) as E32 by (rewrite Nat2Z.inj_pow; reflexivity).
  revert E32. generalize (2 ^ 32)%nat as n. intros n En.
  destruct (L n 0 [{| IPNet_IP := bytes4 0; IPNet_Mask := IPNet_Mask (net4 0 k) |}])
    as [ns E]; [lia|lia|].
  by rewrite E.
Qed.

(** ** The blocks of a VPC *)

Lemma block_not_empty v m :
  addr4 v → 0 ≤ m ≤ 32 →
  bool_decide (IP_String (bytes4 v) +:+ "/" +:+ itoa m = "") = false.
Proof.
  intros Hv Hm. apply bool_decide_eq_false. intros E.
  pose proof (ParseCIDR_String v m Hv Hm) as P. rewrite E in P. discriminate P.
Qed.

Lemma align_mod v m k :
  0 ≤ m → m ≤ k → k ≤ 32 → (v - v mod 2 ^ (32 - m)) mod 2 ^ (32 - k) = 0.
Proof.
  intros H1 H2 H3.
  assert (2 ^ (32 - m) = 2 ^ (32 - k) * 2 ^ (k - m)) as E
    by (rewrite <- Z.pow_add_r by lia; f_equal; lia).
  assert (0 < 2 ^ (32 - k)) by lia. assert (0 < 2 ^ (k - m)) by lia.
  pose proof (Z.div_mod v (2 ^ (32 - m)) ltac:(lia)) as D.
  replace (v - v mod 2 ^ (32 - m)) with (v / 2 ^ (32 - m) * 2 ^ (k - m) * 2 ^ (32 - k)).
  2: { rewrite <- Z.mul_assoc, (Z.mul_comm (2 ^ (k - m))), <- E.
       rewrite Z.mul_comm. clear E. revert D. generalize (v mod 2 ^ (32 - m)).
       generalize (2 ^ (32 - m) * (v / 2 ^ (32 - m))). intros x y ?. lia. }
  apply Z.mod_mul. lia.
Qed.

Lemma ParseCIDR_aligned v m k :
  addr4 v → 0 ≤ m ≤ k → k ≤ 32 →
  let base := v - v mod 2 ^ (32 - m) in
  ParseCIDR (IP_String (bytes4 base) +:+ "/" +:+ itoa k) =
  Ok (v4InV6Prefix ++ bytes4 base, net4 base k).
Proof.
  intros Hv Hm Hk base. rewrite ParseCIDR_String by (try apply addr4_align; done || lia).
  unfold base. rewrite align_mod by lia. by rewrite Z.sub_0_r.
Qed.

(** for a VPC block "a.b.c.d/m", the candidate subnets are all its /27
    blocks, last first; a block of /27 or finer is refused. *)
Theorem buildSubnetAddress_spec (vpc : Vpc) (v m : Z) :
  addr4 v → 1 ≤ m ≤ 32 →
  Vpc_CidrBlock vpc = Some (IP_String (bytes4 v) +:+ "/" +:+ itoa m) →
  buildSubnetAddress vpc =
  if 27 <=? m then
    Err (GoErr ("vpc cidr block " +:+ (IP_String (bytes4 v) +:+ "/" +:+ itoa m) +:+
                " cannot contain generated subnet mask /27"))
  else Val (reverse (map (λ j, net4 (v - v mod 2 ^ (32 - m) + j * 2 ^ 5) 27)
                         (seqZ 0 (2 ^ (27 - m))))).
Proof.
  intros Hv Hm E. unfold buildSubnetAddress. rewrite E.
  rewrite block_not_empty, ParseCIDR_String by (done || lia).
  rewrite Mask_Size_net4 by lia. change defaultSubnetMask with 27.
  destruct (Z.leb_spec 27 m); [done|].
  change (IPNet_IP (net4 (v - v mod 2 ^ (32 - m)) m)) with (bytes4 (v - v mod 2 ^ (32 - m))).
  rewrite ParseCIDR_aligned by (done || lia).
  rewrite generateAvailableSubnets_spec; [done|apply addr4_align; [done|lia]|lia..|].
  apply align_mod; lia.
Qed.
Lemma buildSubnetAddress_spec_witness :
  buildSubnetAddress {| Vpc_VpcId := Some "vpc"; Vpc_CidrBlock := Some "10.11.128.0/25";
                        Vpc_State := None; Vpc_Tags := [] |} =
  Val [net4 168525920 27; net4 168525888 27; net4 168525856 27; net4 168525824 27].
Proof.
  rewrite (buildSubnetAddress_spec _ 168525824 25);
    [reflexivity|split; [lia|reflexivity]|lia|reflexivity].
Defined.

Lemma halve_list base m :
  m < 32 → 0 ≤ m →
  map (λ j, net4 (base + j * 2 ^ (32 - (m + 1))) (m + 1)) (seqZ 0 (2 ^ (m + 1 - m))) =
  [net4 base (m + 1); net4 (base + 2 ^ (31 - m)) (m + 1)].
Proof.
  intros. replace (m + 1 - m) with 1 by lia. change (seqZ 0 (2 ^ 1)) with [0; 1]. simpl map.
  rewrite Z.add_0_r. replace (32 - (m + 1)) with (31 - m) by lia.
  by rewrite Z.mul_1_l.
Qed.

Lemma halveVpcCidr_length vpc l : halveVpcCidr vpc = Val l → length l = 2%nat.
Proof.
  unfold halveVpcCidr. repeat case_match; try done. by intros [= <-].
Qed.

(** a standalone VPC block "a.b.c.d/m" is split in exactly two subnet
    ranges; every address of the block is in one of them and none in both. *)
Theorem halveVpcCidr_spec (vpc : Vpc) (v m : Z) :
  addr4 v → 1 ≤ m < 27 →
  Vpc_CidrBlock vpc = Some (IP_String (bytes4 v) +:+ "/" +:+ itoa m) →
  ∃ n1 n2, halveVpcCidr vpc = Val [n1; n2] ∧
    (∀ w, addr4 w →
       Contains (net4 (v - v mod 2 ^ (32 - m)) m) (bytes4 w) = true ↔
       Contains n1 (bytes4 w) = true ∨ Contains n2 (bytes4 w) = true) ∧
    (∀ w, addr4 w → ¬ (Contains n1 (bytes4 w) = true ∧ Contains n2 (bytes4 w) = true)).
Proof.
  intros Hv Hm E. set (base := v - v mod 2 ^ (32 - m)).
  assert (addr4 base) as Hbase by (apply addr4_align; [done|lia]).
  assert (base mod 2 ^ (32 - m) = 0) as Hal by (apply align_mod; lia).
  exists (net4 base (m + 1)), (net4 (base + 2 ^ (31 - m)) (m + 1)). split.
  - unfold halveVpcCidr. rewrite E, block_not_empty, ParseCIDR_String by (done || lia).
    rewrite Mask_Size_net4 by lia. change defaultSubnetMask with 27.
    destruct (Z.leb_spec 27 m); [lia|]. fold base.
    change (IPNet_IP (net4 base m)) with (bytes4 base).
    pose proof (ParseCIDR_aligned v m (m + 1) Hv ltac:(lia) ltac:(lia)) as P.
    cbv zeta in P. fold base in P. rewrite P.
    rewrite generateAvailableSubnets_spec by (done || lia).
    rewrite halve_list by lia. done.
  - assert (2 ^ (32 - m) = 2 * 2 ^ (31 - m)) as Ep
      by (rewrite <- Z.pow_succ_r by lia; f_equal; lia).
    assert (0 < 2 ^ (31 - m)) as Hp by lia.
    pose proof (gen_top base m m Hbase ltac:(lia) ltac:(lia) ltac:(lia) Hal) as Ht.
    assert (addr4 (base + 2 ^ (31 - m))) as Hb2 by (unfold addr4 in *; lia).
    assert (base = base / 2 ^ (32 - m) * 2 ^ (32 - m)) as Eb
      by (pose proof (Z.div_mod base (2 ^ (32 - m))); lia).
    set (q := base / 2 ^ (32 - m)) in *. set (p := 2 ^ (31 - m)) in *.
    assert (base / p = 2 * q) as E1 by (rewrite Eb, Ep; symmetry; apply Z.div_unique_exact; lia).
    assert ((base + p) / p = 2 * q + 1) as E2
      by (rewrite <- (Z.mul_1_l p) at 1; rewrite Z.div_add, E1; lia).
    assert (∀ w, w / (2 * p) = w / p / 2) as Ed
      by (intros w; rewrite Z.mul_comm, Z.div_div; lia).
    split.
    + intros w Hw. rewrite (Contains_net4 base m _ w), (Contains_net4 base (m + 1) _ w),
        (Contains_net4 (base + p) (m + 1) _ w) by (done || lia || apply norm_bytes4).
      replace (32 - (m + 1)) with (31 - m) by lia. fold p. rewrite E1, E2.
      fold q. rewrite Ep, Ed. generalize (w / p). intros x. lia.
    + intros w Hw. rewrite (Contains_net4 base (m + 1) _ w),
        (Contains_net4 (base + p) (m + 1) _ w) by (done || lia || apply norm_bytes4).
      replace (32 - (m + 1)) with (31 - m) by lia. fold p. rewrite E1, E2. lia.
Qed.
Lemma halveVpcCidr_spec_witness :
  ∃ n1 n2, halveVpcCidr {| Vpc_VpcId := Some "vpc"; Vpc_CidrBlock := Some "10.1.0.0/26";
                           Vpc_State := None; Vpc_Tags := [] |} = Val [n1; n2].
Proof.
  destruct (halveVpcCidr_spec
    {| Vpc_VpcId := Some "vpc"; Vpc_CidrBlock := Some "10.1.0.0/26";
       Vpc_State := None; Vpc_Tags := [] |} 167837696 26) as (n1 & n2 & E & _);
    [split; [lia|reflexivity]|lia|reflexivity|].
  exists n1, n2. exact E.
Defined.

(** ** The default block *)

(** Whether a candidate touches the cluster VPC, the pod or the service network. *)
Definition taken (clusterNet : IPNet) (podCIDR serviceCIDR : option IPNet) (n : IPNet) : bool :=
  overlap clusterNet n
  || match podCIDR with Some p => overlap p n | None => false end
  || match serviceCIDR with Some p => overlap p n | None => false end.

(** [n] candidates of mask /26 that start at [w], one per /16. *)
Definition candidates (w : Z) (n : Z) : list IPNet :=
  map (λ j, net4 (w + j * 65536) 26) (seqZ 0 n).
(** 10.0.0.0/26, 10.1.0.0/26 ... and 172.16.0.0/26 ... 172.31.0.0/26 *)
Definition defaultCandidates : list IPNet :=
  candidates (10 * 2 ^ 24) 256 ++ candidates (172 * 2 ^ 24 + 16 * 2 ^ 16) 16.

Lemma candidates_S w n :
  0 ≤ n → candidates w (n + 1) = net4 w 26 :: candidates (w + 65536) n.
Proof.
  intros Hn. unfold candidates. rewrite seqZ_cons by lia. cbn [map].
  replace (w + 0 * 65536) with w by lia. f_equal.
  replace (Z.pred (n + 1)) with n by lia. change (Z.succ 0) with (1 + 0).
  rewrite <- fmap_add_seqZ.
  change (Z.add 1 <$> seqZ 0 n) with (map (Z.add 1) (seqZ 0 n)). rewrite map_map.
  apply map_ext. intros j. f_equal. lia.
Qed.

Lemma increment_default w ip :
  To4 ip = Some (bytes4 w) → addr4 w → w mod 65536 = 0 → w + 65536 < 2 ^ 32 →
  incrementIPForDefaultCIDR ip = Some (bytes4 (w + 65536)).
Proof.
  intros E Hw Ha Hm. unfold incrementIPForDefaultCIDR. rewrite E, (bytes4_num w). cbv iota.
  unfold addr4 in Hw. change (2 ^ 32) with 4294967296 in *.
  rewrite bytes4_num. destruct (Z.ltb_spec (w / 65536 mod 256) 255); f_equal;
    repeat (refine (f_equal2 cons _ _); [lia|]); done.
Qed.

Lemma To4_norm ip w : To4 ip = Some (bytes4 w) → norm ip = bytes4 w.
Proof. unfold norm. by intros ->. Qed.
Lemma IP_String_To4 ip w : To4 ip = Some (bytes4 w) → IP_String ip = IP_String (bytes4 w).
Proof. unfold IP_String. intros ->. done. Qed.

Section Search.
Context (clusterNet : IPNet) (podCIDR serviceCIDR : option IPNet).
Local Abbreviation step range :=
  (defaultCIDRStep (E := error) clusterNet podCIDR serviceCIDR range).

Lemma step_in range ip w :
  To4 ip = Some (bytes4 w) → addr4 w → w mod 65536 = 0 → w + 65536 < 2 ^ 32 →
  Contains range ip = true →
  step range ip = if taken clusterNet podCIDR serviceCIDR (net4 w 26)
                  then inl (bytes4 (w + 65536)) else inr (Val (Some (net4 w 26))).
Proof.
  intros E Hw Ha Hm Hc. unfold defaultCIDRStep. rewrite Hc, (IP_String_To4 _ _ E).
  change "/26" with ("/" +:+ itoa 26). rewrite ParseCIDR_String by (done || lia).
  replace (w - w mod 2 ^ (32 - 26)) with w by (change (2 ^ (32 - 26)) with 64; lia).
  rewrite (increment_default w) by done. unfold taken, overlap.
  destruct (_ || _); [done|]. simpl orb. destruct podCIDR as [p|]; simpl orb;
    [destruct (_ || _); [done|]; simpl orb|];
    (destruct serviceCIDR as [q|]; [destruct (_ || _); done|done]).
Qed.

(** Walking [n] candidates finds the first free one. *)
Lemma walk range n : ∀ ip w,
  To4 ip = Some (bytes4 w) → addr4 w → w mod 65536 = 0 →
  w + Z.of_nat n * 65536 < 2 ^ 32 →
  (∀ j, 0 ≤ j < Z.of_nat n → ∀ ip, To4 ip = Some (bytes4 (w + j * 65536)) →
        Contains range ip = true) →
  Contains range (bytes4 (w + Z.of_nat n * 65536)) = false → (0 < n)%nat →
  steps (step range) (S n) ip =
  inr (Val (List.find (λ c, negb (taken clusterNet podCIDR serviceCIDR c))
                      (candidates w (Z.of_nat n)))).
Proof.
  induction n as [|n IH]; intros ip w E Hw Ha Hm Hin Hout Hn; [lia|].
  rewrite Nat2Z.inj_succ, <- Z.add_1_r, candidates_S by lia. cbn [List.find].
  change (steps (step range) (S (S n)) ip) with
    (match step range ip with inl s' => steps (step range) (S n) s' | inr a => inr a end).
  rewrite (step_in range ip w); [|done|done|done|lia|].
  2: { apply (Hin 0); [lia|]. by rewrite Z.mul_0_l, Z.add_0_r. }
  destruct (taken _ _ _ _); [|done]. cbn [negb].
  destruct n as [|n].
  - simpl steps. unfold defaultCIDRStep.
    replace (w + 65536) with (w + Z.of_nat 1 * 65536) by lia. by rewrite Hout.
  - apply IH; [done|unfold addr4 in *; lia|lia|lia| | |lia].
    + intros j Hj ip' E'. apply (Hin (j + 1)); [lia|].
      rewrite E'. do 2 f_equal. lia.
    + replace (w + 65536 + Z.of_nat (S n) * 65536) with (w + Z.of_nat (S (S n)) * 65536) by lia.
      done.
Qed.

Lemma walk_range r k n ip :
  To4 ip = Some (bytes4 r) → addr4 r → r mod 65536 = 0 → 0 ≤ k ≤ 16 →
  r mod 2 ^ (32 - k) = 0 → Z.of_nat n * 65536 = 2 ^ (32 - k) → r + 2 ^ (32 - k) < 2 ^ 32 →
  (0 < n < 512)%nat →
  whileN 9 (step (net4 r k)) ip =
  inr (Val (List.find (λ c, negb (taken clusterNet podCIDR serviceCIDR c))
                      (candidates r (Z.of_nat n)))).
Proof.
  intros E Hr Ha Hk Hal Hn Hm Hlt. apply whileN_of_steps with (S n).
  2: { change (2 ^ 9)%nat with 512%nat. lia. }
  assert (0 < 2 ^ (32 - k)) by lia.
  assert (r = r / 2 ^ (32 - k) * 2 ^ (32 - k)) as Er
    by (pose proof (Z.div_mod r (2 ^ (32 - k))); lia).
  apply walk; [done|done|done|lia| | |lia].
  - intros j Hj ip' E'. assert (j * 65536 < 2 ^ (32 - k)) by nia.
    eapply (Contains_net4 r k _ (r + j * 65536));
      [done|unfold addr4 in *; lia|lia|by apply To4_norm|].
    rewrite Er at 1. rewrite Z.add_comm, Z.div_add, Z.div_small by lia. done.
  - apply not_true_is_false. intros C. rewrite Hn in C.
    apply (Contains_net4 r k _ (r + 2 ^ (32 - k))) in C;
      [|done|unfold addr4 in *; lia|lia|apply norm_bytes4].
    rewrite <- (Z.mul_1_l (2 ^ (32 - k))) in C at 1. rewrite Z.div_add in C by lia. lia.
Qed.

Lemma findDefaultCIDR_find :
  findDefaultCIDR clusterNet podCIDR serviceCIDR =
  match List.find (λ c, negb (taken clusterNet podCIDR serviceCIDR c)) defaultCandidates with
  | Some n => Val n
  | None => Err (GoErr "could not find a default cidr block")
  end.
Proof.
  unfold findDefaultCIDR, cidrRanges, defaultCandidates.
  assert (∀ (f : IPNet → bool) l1 l2, List.find f (l1 ++ l2) =
    match List.find f l1 with Some x => Some x | None => List.find f l2 end) as find_app.
  { intros f l1 l2. induction l1 as [|x l IH]; simpl; [done|]. by destruct (f x). }
  rewrite find_app.
  change (searchRanges clusterNet podCIDR serviceCIDR
            [("10.255.255.255/8", "10.0.0.0/" +:+ defaultCIDRMask);
             ("172.31.255.255/12", "172.16.0.0/" +:+ defaultCIDRMask)]) with
    (match whileN 9 (step (net4 (10 * 2 ^ 24) 8)) (IPv4 10 0 0 0) with
     | inr (Val (Some n)) => Val n
     | inr (Val None) =>
         match whileN 9 (step (net4 (172 * 2 ^ 24 + 16 * 2 ^ 16) 12)) (IPv4 172 16 0 0) with
         | inr (Val (Some n)) => Val n
         | inr (Val None) => Err (GoErr "could not find a default cidr block")
         | inr (Err e) => Err e
         | inr (Panic w) => Panic w
         | inl _ => no_end
         end
     | inr (Err e) => Err e
     | inr (Panic w) => Panic w
     | inl _ => no_end
     end : outcome error IPNet).
  rewrite (walk_range _ 8 256), (walk_range _ 12 16);
    try (reflexivity || (unfold addr4; lia) || lia).
  change (Z.of_nat 256) with 256. change (Z.of_nat 16) with 16.
  destruct (List.find _ (candidates (10 * 2 ^ 24) 256)); [done|].
  by destruct (List.find _ (candidates (172 * 2 ^ 24 + 16 * 2 ^ 16) 16)).
Qed.

(** C26: the search over the two ranges ends and answers the first of
    the 272 candidates that is free, or the error when there is none. *)
Theorem findDefaultCIDR_first_free :
  findDefaultCIDR clusterNet podCIDR serviceCIDR =
  match List.find (λ c, negb (taken clusterNet podCIDR serviceCIDR c)) defaultCandidates with
  | Some n => Val n
  | None => Err (GoErr "could not find a default cidr block")
  end.
Proof. exact findDefaultCIDR_find. Qed.
End Search.

Lemma defaultCandidates_wf n : n ∈ defaultCandidates → wf_net n.
Proof.
  intros [H|H]%list_elem_of_In%in_app_or; apply in_map_iff in H as (j & <- & _); by apply wf_net4.
Qed.

(** the default block shares no address with the cluster VPC, nor
    with the pod and service networks the search is given; and it is one of the
    /26 candidates of 10.0.0.0/8 and 172.16.0.0/12. *)
Theorem findDefaultCIDR_disjoint (c : IPNet) (p s : option IPNet) (n : IPNet) :
  wf_net c → (∀ x, p = Some x → wf_net x) → (∀ x, s = Some x → wf_net x) →
  findDefaultCIDR c p s = Val n →
  n ∈ defaultCandidates ∧
  ∀ ip, Contains n ip = true →
    Contains c ip = false ∧
    (∀ x, p = Some x → Contains x ip = false) ∧ (∀ x, s = Some x → Contains x ip = false).
Proof.
  intros Wc Wp Ws. rewrite findDefaultCIDR_find.
  destruct (List.find _ _) as [n'|] eqn:F; [|done]. intros [= ->].
  apply find_Some_In in F as [Hin Hf]. split; [done|].
  pose proof (defaultCandidates_wf n Hin) as Wn.
  apply negb_true_iff in Hf. unfold taken in Hf. rewrite !orb_false_iff in Hf.
  destruct Hf as [[Hc Hp] Hs]. intros ip Hip.
  split; [|split].
  - apply not_true_is_false. intros H. by apply (overlap_false c n ip).
  - intros x ->. apply not_true_is_false. intros H. apply (overlap_false x n ip); auto.
  - intros x ->. apply not_true_is_false. intros H. apply (overlap_false x n ip); auto.
Qed.
Lemma findDefaultCIDR_disjoint_witness :
  ∀ ip, Contains (net4 167837696 26) ip = true → Contains (net4 167772160 16) ip = false.
Proof.
  intros ip H.
  refine (proj1 (proj2 (findDefaultCIDR_disjoint (net4 167772160 16) None None
    (net4 167837696 26) _ _ _ _) ip H)); [by apply wf_net4|done|done|].
  vm_compute. reflexivity.
Defined.

Lemma lastCIDR_wf msg entries n0 n :
  lastCIDR msg entries n0 = Val (Some n) → (∀ x, n0 = Some x → wf_net x) → wf_net n.
Proof.
  revert n0. induction entries as [|e rest IH]; intros n0; simpl.
  - intros [= ->]. eauto.
  - destruct (ParseCIDR e) as [[ip x]|] eqn:E; [|done]. intros H _.
    apply (IH _ H). intros y [= <-]. by eapply ParseCIDR_wf.
Qed.

(** with two pod networks configured the first is forgotten, and the
    default block may lie inside it. *)
Theorem default_overlaps_first_pod_network :
  let conf := {| NetworkConf_ClusterNetwork := ["10.0.0.0/14"; "10.132.0.0/14"];
                 NetworkConf_ServiceNetwork := ["172.30.0.0/16"] |} in
  ∃ pod svc n,
    getPodCIDR conf = Val pod ∧ getServiceCIDR conf = Val svc ∧
    findDefaultCIDR (net4 (11 * 2 ^ 24) 16) pod svc = Val n ∧
    overlap (net4 (10 * 2 ^ 24) 14) n = true.
Proof. do 3 eexists. repeat split; vm_compute; reflexivity. Qed.

(** a block is accepted exactly when its mask is between /16 and /26
    and it shares no address with the cluster VPC. *)
Theorem validateStandaloneCidrBlock_spec (v c : IPNet) :
  wf_net v → wf_net c →
  validateStandaloneCidrBlock v c = None ↔
  (16 ≤ (Mask_Size (IPNet_Mask v)).1 ≤ 26) ∧
  ¬ ∃ ip, Contains v ip = true ∧ Contains c ip = true.
Proof.
  intros Wv Wc. unfold validateStandaloneCidrBlock, isValidCIDRRange.
  pose proof (overlap_spec c v Wc Wv) as O. unfold overlap in O.
  destruct (Mask_Size (IPNet_Mask v)) as [ones bits]. simpl fst.
  destruct (Z.ltb_spec 15 ones), (Z.ltb_spec ones 27); simpl negb; cbv iota;
    try (split; [done|lia]).
  destruct (_ || _).
  - split; [done|]. intros [_ N]. exfalso. apply N.
    destruct (proj1 O eq_refl) as (ip & ? & ?). eauto.
  - split; [|done]. intros _. split; [lia|].
    intros (ip & H1 & H2). assert (false = true) by (apply O; eauto). done.
Qed.
Lemma validateStandaloneCidrBlock_spec_witness :
  ¬ ∃ ip, Contains (net4 167837696 26) ip = true ∧ Contains (net4 167772160 16) ip = true.
Proof.
  refine (proj2 (proj1 (validateStandaloneCidrBlock_spec (net4 167837696 26)
    (net4 167772160 16) _ _) _)); [by apply wf_net4|by apply wf_net4|].
  vm_compute. reflexivity.
Defined.
