(* ===== verification/ClusterVpc.v ===== *)
(** * pkg/providers/aws/cluster_vpc.go

    The bundled networking: looking up the cluster VPC and its subnets, creating
    the private subnets that are missing, the security group of the cluster.
    Log statements are left out, except for the pointers they read. *)
From S2P Require Import Prelude Effects Api GoNet Resources Subnets.
Local Open Scope go_scope.

Definition defaultAWSPrivateSubnetTagKey : string := "kubernetes.io/role/internal-elb".
Definition defaultSecurityGroupPostfix : string := "security-group".
Definition defaultSubnetGroupDesc : string :=
  "Subnet group created and managed by the Cloud Resource Operator".
Definition defaultSubnetPostfix : string := "subnet-group".
Definition defaultAwsIdentifierLength : Z := 40.
Definition defaultSubnetNameTagValue : string := "Cloud Resource Subnet".
Definition clusterOwnedTagKeyPrefix : string := "kubernetes.io/cluster/".

Definition getOSDClusterTagKey (clusterID : string) : string :=
  clusterOwnedTagKeyPrefix +:+ clusterID.

(** The nested loops of [getVPCIDByClusterSubnets]: the VPC of the first subnet
    with a cluster tag. *)
Fixpoint hasClusterTag {E} (key : string) (tags : list AwsTag) : outcome E bool :=
  match tags with
  | [] => Val false
  | tag :: rest =>
      match AwsTag_Value tag with
      | None => nil_deref
      | Some v =>
          if bool_decide (v = "owned") || bool_decide (v = "shared") then
            match AwsTag_Key tag with
            | None => nil_deref
            | Some k => if bool_decide (k = key) then Val true else hasClusterTag key rest
            end
          else hasClusterTag key rest
      end
  end.
Fixpoint findClusterSubnet {E} (key : string) (subs : list Subnet)
  : outcome E (option string) :=
  match subs with
  | [] => Val None
  | sub :: rest =>
      match hasClusterTag key (Subnet_Tags sub) with
      | Val true => match Subnet_VpcId sub with Some id => Val (Some id) | None => nil_deref end
      | Val false => findClusterSubnet key rest
      | Err e => Err e
      | Panic w => Panic w
      end
  end.

Fixpoint privateSubnetExists {E} (privSubs : list Subnet) (zone : AvailabilityZone)
  : outcome E bool :=
  match privSubs with
  | [] => Val false
  | subnet :: rest =>
      match Subnet_AvailabilityZone subnet, AZ_ZoneName zone with
      | Some a, Some z =>
          if bool_decide (a = z) then
            match AZ_State zone with
            | Some st => if bool_decide (st = "available") then Val true
                         else privateSubnetExists rest zone
            | None => nil_deref
            end
          else privateSubnetExists rest zone
      | _, _ => nil_deref
      end
  end.

(** The subnets with the private tag, once per such tag. *)
Fixpoint privateTagged {E} (tags : list AwsTag) (sub : Subnet) : outcome E (list Subnet) :=
  match tags with
  | [] => Val []
  | tag :: rest =>
      match AwsTag_Key tag with
      | None => nil_deref
      | Some k =>
          match privateTagged rest sub with
          | Val r => Val (if bool_decide (k = defaultAWSPrivateSubnetTagKey) then sub :: r else r)
          | o => o
          end
      end
  end.
Fixpoint privateSubnets {E} (subs : list Subnet) : outcome E (list Subnet) :=
  match subs with
  | [] => Val []
  | sub :: rest =>
      match privateTagged (Subnet_Tags sub) sub with
      | Val l => match privateSubnets rest with Val r => Val (l ++ r) | o => o end
      | o => o
      end
  end.

(** The permission [{IpProtocol: "-1", IpRanges: [{CidrIp: cidr}]}]. *)
Definition allTrafficFrom (cidr : option string) : IpPermission :=
  {| IpPermission_FromPort := None; IpPermission_IpProtocol := Some "-1";
     IpPermission_IpRanges := Some [{| IpRange_CidrIp := cidr; IpRange_Description := None |}];
     IpPermission_Ipv6Ranges := None; IpPermission_PrefixListIds := None;
     IpPermission_ToPort := None; IpPermission_UserIdGroupPairs := None |}.

Section ClusterVpc.
Context {S : Type}.

Definition getSubnets : M S error (list Subnet) :=
  poll 60 (listOutput ← invoke DescribeSubnets;
           mret (match listOutput with Ok subs => Some subs | Er _ => None end)).

Definition getAZs : M S error (list AvailabilityZone) :=
  ok (invoke DescribeAvailabilityZones) orWrap "error getting availability zones".

Definition getVPCIDByClusterSubnets (clusterID : string) : M S error string :=
  listOutput ← ok (invoke DescribeSubnets);
  found ← lift (findClusterSubnet (getOSDClusterTagKey clusterID) listOutput);
  match found with
  | Some id => mret id
  | None => fail (GoErr ("failed to get cluster vpc id, no vpc found with osd cluster tag: could not find cluster associated subnets with clusterID " +:+ clusterID))
  end.

Definition getClusterVpc : M S error Vpc :=
  clusterID ← GetClusterID orWrap "error getting clusterID";
  vpcId ← getVPCIDByClusterSubnets clusterID
    orWrap "error getting vpc id from associated subnets";
  vpcs ← ok (invoke (DescribeVpcs [Some vpcId]))
    orWrap ("error getting vpc with id " +:+ vpcId);
  match vpcs with
  | [] => fail (GoErr "error, no vpc found")
  | [vpc] => _ ← deref (Vpc_VpcId vpc); mret vpc
  | _ => fail (GoErr "error, more than one vpc found associated with cluster subnets")
  end.

Definition getSecurityGroup (secName : string) : M S error (option SecurityGroup) :=
  secGroups ← ok (invoke (DescribeSecurityGroups []))
    orWrap "failed to return information about security groups";
  lift (findPtr SG_GroupName secName secGroups).

Definition GetCidr : M S error (string * string) :=
  foundVPC ← getClusterVpc orWrap "error getting vpcs";
  id ← deref (Vpc_VpcId foundVPC);
  cidr ← deref (Vpc_CidrBlock foundVPC);
  mret (id, cidr).

(** The vpc is a pointer; the nil case answers a nil error, since wrapping a
    nil error gives nil. *)
Definition GetVPCSubnets (vpc : option Vpc) : M S error (list Subnet) :=
  subs ← getSubnets orWrap "error getting subnets";
  match vpc with
  | None => mret []
  | Some v =>
      associatedSubs ← lift (filterPtr Subnet_VpcId (Vpc_VpcId v) subs);
      match associatedSubs with
      | [] => fail (GoErr "error, unable to find subnets associated with cluster vpc")
      | _ => mret associatedSubs
      end
  end.

Definition getDefaultSubnetTags : M S error (list AwsTag) :=
  clusterID ← GetClusterID orWrap "error getting clusterID";
  organizationTag ← GetOrganizationTag;
  let tags := [{| Tag_Key := defaultAWSPrivateSubnetTagKey; Tag_Value := "1" |};
               {| Tag_Key := organizationTag +:+ "clusterID"; Tag_Value := clusterID |};
               {| Tag_Key := TagDisplayName; Tag_Value := defaultSubnetNameTagValue |};
               BuildManagedTag] in
  infraTags ← GetUserInfraTags orWrap "Failed to get user infrastructure tags";
  let tags := match infraTags with [] => tags | _ => MergeTags tags infraTags end in
  mret (genericListToEc2TagList tags).

Definition tagPrivateSubnet (sub : Subnet) : M S error unit :=
  id ← deref (Subnet_SubnetId sub);
  tags ← getDefaultSubnetTags;
  ok (invoke (CreateTags [Some id] tags)) orWrap "failed to tag subnet".

(** The loop of [createPrivateSubnet] over the candidate blocks. *)
Fixpoint createFirstFree (vpcId zone : string) (subs : list IPNet) : M S error Subnet :=
  match subs with
  | [] => fail (GoErr "failed to create subnet")
  | ip :: rest =>
      createOutput ← invoke (CreateSubnet (Some zone) (Some (IPNet_String ip)) (Some vpcId) []);
      match createOutput with
      | Er err =>
          if bool_decide (aws_code err = Some "InvalidSubnet.Conflict")
          then createFirstFree vpcId zone rest
          else fail (WrapErr err "error creating new subnet")
      | Ok subnet => _ ← tagPrivateSubnet subnet; mret subnet
      end
  end.
Definition createPrivateSubnet (vpc : Vpc) (zone : string) : M S error Subnet :=
  vpcId ← deref (Vpc_VpcId vpc);
  subs ← lift (buildSubnetAddress vpc) orWrap "failed to build subnets";
  createFirstFree vpcId zone subs.

Definition GetPrivateSubnetIDS : M S error (list (option string)) :=
  foundVPC ← getClusterVpc orWrap "error getting vpcs";
  subs ← GetVPCSubnets (Some foundVPC) orWrap "error getting vpc subnets";
  azs ← getAZs orWrap "error getting availability zones";
  privSubs ← lift (privateSubnets subs);
  privSubs ← foldM (λ privSubs az,
    zoneName ← deref (AZ_ZoneName az);
    exists_ ← lift (privateSubnetExists privSubs az);
    if exists_ : bool then mret privSubs
    else
      subnet ← createPrivateSubnet foundVPC zoneName
        orWrap "failed to created private subnet";
      mret (privSubs ++ [subnet])) privSubs azs;
  match privSubs with
  | [] => fail (GoErr "failed to get list of private subnet ids")
  | _ => mret (map Subnet_SubnetId privSubs)
  end.

Definition configureSecurityGroup : M S error unit :=
  clusterID ← GetClusterID orWrap "error getting cluster id";
  secName ← BuildInfraName defaultSecurityGroupPostfix defaultAwsIdentifierLength
    orWrap "error building subnet group name";
  vpcCidr ← GetCidr orWrap "error finding cidr block";
  let '(vpcID, cidr) := vpcCidr in
  foundSecGroup ← getSecurityGroup secName orWrap "error get security group";
  match foundSecGroup with
  | None =>
      _ ← ok (invoke (CreateSecurityGroup (Some ("security group for cluster " +:+ clusterID))
                        (Some secName) (Some vpcID) []))
        orWrap "error creating security group";
      mret tt
  | Some g =>
      groupId ← deref (SG_GroupId g);
      let ipPermission := allTrafficFrom (Some cidr) in
      if existsb (λ perm, bool_decide (perm = ipPermission)) (SG_IpPermissions g)
      then mret tt
      else
        ok (invoke (AuthorizeSecurityGroupIngress (Some groupId) [ipPermission]))
          orWrap "error authorizing security group ingress"
  end.
End ClusterVpc.

(** * Properties *)

Section Readonly.
Context {S : Type}.

Lemma ro_getSubnets : readonly (getSubnets (S := S)).
Proof. unfold getSubnets. apply ro_poll. go_sat. Qed.
Lemma ro_getAZs : readonly (getAZs (S := S)).
Proof. unfold getAZs. go_sat. Qed.
Lemma ro_getVPCIDByClusterSubnets c : readonly (getVPCIDByClusterSubnets (S := S) c).
Proof. unfold getVPCIDByClusterSubnets. go_sat. Qed.
#[local] Hint Resolve ro_getSubnets ro_getVPCIDByClusterSubnets : sat.
Lemma ro_getClusterVpc : readonly (getClusterVpc (S := S)).
Proof. unfold getClusterVpc. go_sat. Qed.
#[local] Hint Resolve ro_getClusterVpc : sat.
Lemma ro_getSecurityGroup n : readonly (getSecurityGroup (S := S) n).
Proof. unfold getSecurityGroup. go_sat. Qed.
Lemma ro_GetCidr : readonly (GetCidr (S := S)).
Proof. unfold GetCidr. go_sat. Qed.
Lemma ro_GetVPCSubnets v : readonly (GetVPCSubnets (S := S) v).
Proof. unfold GetVPCSubnets. go_sat. Qed.
Lemma ro_getDefaultSubnetTags : readonly (getDefaultSubnetTags (S := S)).
Proof. unfold getDefaultSubnetTags. go_sat. Qed.
End Readonly.
#[export] Hint Resolve ro_getSubnets ro_getAZs ro_getVPCIDByClusterSubnets ro_getClusterVpc
  ro_getSecurityGroup ro_GetCidr ro_GetVPCSubnets ro_getDefaultSubnetTags : sat.
