(* ===== verification/NetworkProvider.v ===== *)
(** * pkg/providers/aws/cluster_network_provider.go

    The standalone network: a VPC with two subnets and the subnet groups of RDS
    and ElastiCache, its security group, the peering with the cluster VPC and the
    routes.  Every method of [NetworkProvider] is a program; [IsSTSCluster] is
    the field of the provider, and the object of the caller is left alone, so the
    programs are polymorphic in the state. *)
From S2P Require Import Prelude Effects Api GoNet Resources Subnets ClusterVpc.
Local Open Scope go_scope.

Definition defaultRouteTableNameTagValue : string := "Cloud Resource Route Table".
Definition defaultSecurityGroupNameTagValue : string := "Cloud Resource Security Group".
Definition defaultVpcNameTagValue : string := "Cloud Resource VPC".
Definition defaultVpcPeeringConnectionNameTagValue : string :=
  "Cloud Resource VPC Peering Connection".
Definition filterVpcPeeringAccepterId : string := "accepter-vpc-info.vpc-id".
Definition filterVpcPeeringRequesterId : string := "requester-vpc-info.vpc-id".

(** States of a peering connection (constants of the EC2 SDK). *)
Definition StateActive : string := "active".
Definition StateDeleted : string := "deleted".
Definition StateDeleting : string := "deleting".
Definition StatePendingAcceptance : string := "pending-acceptance".
Definition StateProvisioning : string := "provisioning".
Definition StateInitiatingRequest : string := "initiating-request".

Record Network := { Network_Vpc : option Vpc; Network_Subnets : list Subnet }.
Record NetworkPeering := { NP_PeeringConnection : option VpcPeeringConnection }.
Record NetworkConnection := { NC_StandaloneSecurityGroup : SecurityGroup }.

(** ** Pure helpers *)

(** [aws.StringValue(p.Status.Code)]; a nil status panics. *)
Definition peeringCode {E} (p : VpcPeeringConnection) : outcome E string :=
  match Peering_Status p with Some st => Val (StringValue (PS_Code st)) | None => nil_deref end.

Definition IsReady (np : NetworkPeering) : outcome error bool :=
  match NP_PeeringConnection np with
  | Some p => match peeringCode p with
              | Val code => Val (bool_decide (code = StateActive))
              | Err e => Err e
              | Panic w => Panic w
              end
  | None => nil_deref
  end.

Definition routeExists (routes : list Route) (checkRoute : Route) : bool :=
  existsb (λ route,
    match Route_DestinationCidrBlock route, Route_VpcPeeringConnectionId route with
    | Some d, Some p =>
        bool_decide (d = StringValue (Route_DestinationCidrBlock checkRoute)) &&
        bool_decide (p = StringValue (Route_VpcPeeringConnectionId checkRoute))
    | _, _ => false
    end) routes.

Definition contains (strs : list (option string)) (str : option string) : bool :=
  existsb (λ s, bool_decide (StringValue str = StringValue s)) strs.

Definition subnetExists {E} (subnets : list Subnet) (cidr : string) : outcome E bool :=
  match findPtr Subnet_CidrBlock cidr subnets with
  | Val (Some _) => Val true
  | Val None => Val false
  | Err e => Err e
  | Panic w => Panic w
  end.

(** The loops of [getStandaloneVpc]: the last VPC with the owner tag. *)
Fixpoint hasTag {E} (tag : Tag) (tags : list AwsTag) : outcome E bool :=
  match tags with
  | [] => Val false
  | t :: rest =>
      match AwsTag_Key t with
      | None => nil_deref
      | Some k =>
          if bool_decide (k = Tag_Key tag) then
            match AwsTag_Value t with
            | None => nil_deref
            | Some v => match hasTag tag rest with
                        | Val b => Val (bool_decide (v = Tag_Value tag) || b)
                        | o => o
                        end
            end
          else hasTag tag rest
      end
  end.
Fixpoint lastOwned {E} (tag : Tag) (vpcs : list Vpc) (found : option Vpc)
  : outcome E (option Vpc) :=
  match vpcs with
  | [] => Val found
  | vpc :: rest =>
      match hasTag tag (Vpc_Tags vpc) with
      | Val true => match Vpc_VpcId vpc with
                    | Some _ => lastOwned tag rest (Some vpc)
                    | None => nil_deref
                    end
      | Val false => lastOwned tag rest found
      | Err e => Err e
      | Panic w => Panic w
      end
  end.

(** The first connection that is neither deleted nor being deleted. *)
Fixpoint livePeering {E} (ps : list VpcPeeringConnection)
  : outcome E (option VpcPeeringConnection) :=
  match ps with
  | [] => Val None
  | p :: rest =>
      match peeringCode p with
      | Val code => if bool_decide (code ≠ StateDeleted) && bool_decide (code ≠ StateDeleting)
                    then Val (Some p) else livePeering rest
      | Err e => Err e
      | Panic w => Panic w
      end
  end.

(** [sort.Sort(azByZoneName(azs))] (sort.go).  Go sorts up to 12 elements by
    insertion. *)
Fixpoint insertAz (az : AvailabilityZone) (azs : list AvailabilityZone)
  : list AvailabilityZone :=
  match azs with
  | [] => [az]
  | x :: rest => if String.ltb (StringValue (AZ_ZoneName az)) (StringValue (AZ_ZoneName x))
                 then az :: azs else x :: insertAz az rest
  end.
Definition sortAzs {E} (azs : list AvailabilityZone) : outcome E (list AvailabilityZone) :=
  if (1 <? length azs)%nat && existsb (λ az, bool_decide (AZ_ZoneName az = None)) azs
  then nil_deref
  else Val (foldl (λ sorted az, insertAz az sorted) [] azs).

(** ** Tags *)

Section Tags.
Context {S : Type}.

Definition getCloudResourceOperatorOwnerTag : M S error Tag :=
  clusterID ← GetClusterID orWrap "error getting clusterID";
  organizationTag ← GetOrganizationTag;
  mret (ec2TagToGeneric {| AwsTag_Key := Some (organizationTag +:+ "clusterID");
                           AwsTag_Value := Some clusterID |}).

Definition getDefaultNetworkTags (customTag : option Tag) : M S error (list Tag) :=
  croTag ← getCloudResourceOperatorOwnerTag orWrap "failed to build default tags";
  let tags := [croTag; BuildManagedTag] in
  let tags := match customTag with Some t => tags ++ [t] | None => tags end in
  infraTags ← GetUserInfraTags orWrap "Failed to get user infrastructure tags";
  mret (match infraTags with [] => tags | _ => MergeTags tags infraTags end).

Definition getDefaultTagSpec (customTag : option Tag) (resourceType : string)
  : M S error (list TagSpecification) :=
  tags ← getDefaultNetworkTags customTag;
  mret [{| TagSpecification_ResourceType := Some resourceType;
           TagSpecification_Tags := genericListToEc2TagList tags |}].

Definition nameTag (v : string) : option Tag :=
  Some {| Tag_Key := TagDisplayName; Tag_Value := v |}.

(** [CreateTags] on one resource unless it has all the expected tags. *)
Definition ensureTags (defaultTags : list Tag) (found : list AwsTag)
    (resource : option string) (msg : string) : M S error unit :=
  if negb (TagsContainsAll defaultTags (ec2TagListToGenericList found))
  then ok (invoke (CreateTags [resource] (genericListToEc2TagList defaultTags))) orWrap msg
  else mret tt.
End Tags.

(** ** Look-ups *)

Section Getters.
Context {S : Type}.

Definition getStandaloneVpc : M S error (option Vpc) :=
  vpcs ← ok (invoke (DescribeVpcs [])) orWrap "error getting vpcs";
  croOwnerTag ← getCloudResourceOperatorOwnerTag orWrap "failed to build cro owner tag";
  lift (lastOwned croOwnerTag vpcs None).

(** A nil vpc answers a nil error: wrapping a nil error gives nil. *)
Definition getVPCAssociatedSubnets (vpc : option Vpc) : M S error (list Subnet) :=
  subs ← getSubnets orWrap "error getting subnets";
  match vpc with
  | None => mret []
  | Some v =>
      associatedSubs ← lift (filterPtr Subnet_VpcId (Vpc_VpcId v) subs);
      _ ← forM associatedSubs (λ sub, _ ← deref (Subnet_SubnetId sub); mret tt);
      mret associatedSubs
  end.

Definition getRDSSubnetGroup (subnetGroupName : string) : M S error (option DBSubnetGroup) :=
  groups ← ok (invoke DescribeDBSubnetGroups) orWrap "error describing subnet groups";
  lift (findPtr DBSG_Name subnetGroupName groups).

Definition getElasticacheSubnetByGroup (subnetGroupName : string)
  : M S error (option CacheSubnetGroup) :=
  groups ← ok (invoke DescribeCacheSubnetGroups) orWrap "error describing subnet groups";
  lift (findPtr CSG_Name subnetGroupName groups).

Definition getClusterRouteTables : M S error (list RouteTable) :=
  routeTables ← ok (invoke (DescribeRouteTables [])) orWrap "failed to get route tables";
  clusterVPC ← getClusterVpc orWrap "failed to get cluster vpc";
  foundRouteTables ← lift (filterPtr RouteTable_VpcId (Vpc_VpcId clusterVPC) routeTables);
  match foundRouteTables with
  | [] => fail (GoErr ("could not find any route table with the associated vpc id " +:+
                       StringValue (Vpc_VpcId clusterVPC)))
  | _ => mret foundRouteTables
  end.

Definition getCRORouteTables : M S error (list RouteTable) :=
  croOwnerTag ← getCloudResourceOperatorOwnerTag
    orWrap "error generating cloud resource owner tag";
  routeTables ← ok (invoke (DescribeRouteTables [])) orWrap "failed to get route tables";
  let foundRouteTables := List.filter (λ routeTable,
    TagsContains (ec2TagListToGenericList (RouteTable_Tags routeTable))
                 (Tag_Key croOwnerTag) (Tag_Value croOwnerTag)) routeTables in
  match foundRouteTables with
  | [] => fail (GoErr ("could not find any route table with the tag key: " +:+
                       Tag_Key croOwnerTag +:+ " and value: " +:+ Tag_Value croOwnerTag))
  | _ => mret foundRouteTables
  end.

Definition getNetworkPeering (network : Network) : M S error (option VpcPeeringConnection) :=
  clusterVpc ← getClusterVpc orWrap "failed to get cluster vpc";
  vpc ← deref (Network_Vpc network);
  describeVpcPeerOutput ← ok (invoke (DescribeVpcPeeringConnections []
      [{| Filter_Name := Some filterVpcPeeringRequesterId;
          Filter_Values := [Vpc_VpcId vpc] |};
       {| Filter_Name := Some filterVpcPeeringAccepterId;
          Filter_Values := [Vpc_VpcId clusterVpc] |}]))
    orWrap "failed to describe peering connections";
  lift (livePeering describeVpcPeerOutput).

Definition GetClusterNetworkPeering : M S error NetworkPeering :=
  vpc ← getStandaloneVpc orWrap "failed to get standalone vpc";
  networkPeering ← getNetworkPeering {| Network_Vpc := vpc; Network_Subnets := [] |}
    orWrap "failed to get network peering";
  mret {| NP_PeeringConnection := networkPeering |}.

(** The subnets of the cluster VPC tagged with the cluster id. *)
Definition bundledSubnets {E} (key clusterID : string) (subs : list Subnet)
  : M S E (list Subnet) :=
  foldM (λ valid subnet,
    foldM (λ valid tag,
      if bool_decide (StringValue (AwsTag_Key tag) = key) &&
         bool_decide (StringValue (AwsTag_Value tag) = clusterID)
      then
        _ ← deref (Subnet_SubnetId subnet);
        _ ← deref (Subnet_VpcId subnet);
        mret (valid ++ [subnet])
      else mret valid) valid (Subnet_Tags subnet)) [] subs.

Definition IsEnabled : M S error bool :=
  foundVpc ← getClusterVpc orWrap "unable to get vpc";
  clusterID ← GetClusterID orWrap "unable to get cluster id";
  vpcSubnets ← GetVPCSubnets (Some foundVpc)
    orWrap "error happened while returning vpc subnets";
  organizationTag ← GetOrganizationTag;
  validBundledVPCSubnets ← bundledSubnets (organizationTag +:+ "clusterID") clusterID vpcSubnets;
  mret (bool_decide (length validBundledVPCSubnets = 0%nat)).

Definition getNonOverlappingDefaultCIDR : M S error IPNet :=
  clusterVpc ← getClusterVpc orWrap "failed to get cluster vpc for cidr block";
  parsed ← liftR (ParseCIDR (StringValue (Vpc_CidrBlock clusterVpc)))
    orWrap "error parsing cluster cidr block";
  networkConf ← ok (invoke GetNetworkConf) orWrap "failed to get network kind";
  podCIDR ← lift (getPodCIDR networkConf) orWrap "failed to get pod CIDR";
  serviceCIDR ← lift (getServiceCIDR networkConf) orWrap "failed to get service CIDR";
  lift (findDefaultCIDR parsed.2 podCIDR serviceCIDR).
End Getters.

(** ** The network *)

Section Reconcile.
Context {S : Type} `{ThirdParty} (IsSTSCluster : bool).

(** [CreateSubnet] for an expected subnet that does not exist yet; the subnets
    found or created so far are the loop's variable. *)
Definition createExpectedSubnet (vpc : Vpc) (tagSpec : TagSpecification)
    (subs : list Subnet) (expected : IPNet * AvailabilityZone) : M S error (list Subnet) :=
  exists_ ← lift (subnetExists subs (IPNet_String expected.1));
  if exists_ : bool then mret subs
  else
    vpcId ← deref (Vpc_VpcId vpc);
    zoneName ← deref (AZ_ZoneName expected.2);
    createOutput ← ok (invoke (CreateSubnet (Some zoneName) (Some (IPNet_String expected.1))
                                 (Some vpcId) (if IsSTSCluster then [tagSpec] else [])))
      orWrap "error creating new subnet";
    _ ← (if IsSTSCluster then mret tt else tagPrivateSubnet createOutput);
    mret (subs ++ [createOutput]).

Definition reconcileStandaloneVPCSubnets (vpc : Vpc) : M S error (list Subnet) :=
  validSubnets ← lift (halveVpcCidr vpc);
  azs ← ok (invoke DescribeAvailabilityZones) orWrap "error getting availability zones";
  offerings ← ok (invoke (DescribeInstanceTypeOfferings
      [{| Filter_Name := Some "instance-type";
          Filter_Values := [Some "t3.micro"; Some "t3.small"] |}]
      (Some "availability-zone"))) orWrap "failed to list ";
  let supportedAzs := List.filter (λ az,
    existsb (λ location, bool_decide (StringValue location = StringValue (AZ_ZoneName az)))
            offerings) azs in
  sorted ← lift (sortAzs supportedAzs);
  let validAzs := take 2 sorted in
  if negb (length validAzs =? defaultNumberOfExpectedSubnets)%nat then
    fail (GoErr ("expected 2 availability zones, found " +:+ prettifyAZs validAzs))
  else
    subs ← getVPCAssociatedSubnets (Some vpc) orWrap "error getting vpc subnets";
    tagSpec ← (if IsSTSCluster then
                 subnetTags ← getDefaultSubnetTags
                   orWrap "failed to get default tags for subnet";
                 mret {| TagSpecification_ResourceType := Some "subnet";
                         TagSpecification_Tags := subnetTags |}
               else mret {| TagSpecification_ResourceType := None;
                            TagSpecification_Tags := [] |});
    subs ← foldM (createExpectedSubnet vpc tagSpec) subs (zip validSubnets validAzs);
    if IsSTSCluster then mret subs
    else
      subnetTags ← getDefaultSubnetTags orWrap "failed to get default tags for subnet";
      _ ← forM subs (λ sub,
        _ ← deref (Subnet_SubnetId sub);
        if negb (TagsContainsAll (ec2TagListToGenericList subnetTags)
                                 (ec2TagListToGenericList (Subnet_Tags sub)))
        then tagPrivateSubnet sub orWrap "failed to tag subnet"
        else mret tt);
      mret subs.

Definition reconcileStandaloneRouteTableTags (vpc : Vpc) : M S error unit :=
  routeTables ← ok (invoke (DescribeRouteTables
      [{| Filter_Name := Some "vpc-id"; Filter_Values := [Vpc_VpcId vpc] |}]))
    orWrap "unexpected error on getting route tables";
  match routeTables with
  | [] => (* the code prints the address of the pointer after this text *)
          fail (GoErr "did not find any route associated with vpc %")
  | _ =>
      defaultTags ← getDefaultNetworkTags (nameTag defaultRouteTableNameTagValue)
        orWrap "failed to get default tags for route table";
      forM routeTables (λ routeTable,
        if negb (TagsContainsAll defaultTags
                   (ec2TagListToGenericList (RouteTable_Tags routeTable)))
        then
          id ← deref (RouteTable_RouteTableId routeTable);
          ok (invoke (CreateTags [Some id] (genericListToEc2TagList defaultTags)))
            orWrap "unable to tag route table"
        else mret tt)
  end.

Definition reconcileVPCTags (vpc : Vpc) : M S error unit :=
  defaultTags ← getDefaultNetworkTags (nameTag defaultVpcNameTagValue)
    orWrap "failed to get default tags for vpc";
  if negb (TagsContainsAll defaultTags (ec2TagListToGenericList (Vpc_Tags vpc))) then
    id ← deref (Vpc_VpcId vpc);
    tagged ← try (ok (invoke (CreateTags [Some id] (genericListToEc2TagList defaultTags))));
    state ← deref (Vpc_State vpc);
    match tagged with
    | inl _ => mret tt
    | inr err => fail (WrapErr err ("unable to tag vpc " +:+ id +:+ " with state " +:+ state))
    end
  else mret tt.

Definition updateRdsSubnetGroupTags (foundSubnet : DBSubnetGroup) (rdsTags : list AwsTag)
  : M S error unit :=
  _ ← ok (invoke (RemoveTagsFromResource (DBSG_Arn foundSubnet) (map AwsTag_Key rdsTags)))
    orWrap "error updating db subnet group tags";
  ok (invoke (RDS_AddTagsToResource (DBSG_Arn foundSubnet) rdsTags))
    orWrap "error updating db subnet group tags".

Definition reconcileRDSVpcConfiguration (privateVPCSubnets : list Subnet) : M S error unit :=
  subnetGroupName ← BuildInfraName defaultSubnetPostfix defaultAwsIdentifierLength
    orWrap "error building subnet group name";
  let subnetIds := map Subnet_SubnetId privateVPCSubnets in
  if (length privateVPCSubnets =? 0)%nat then
    fail (GoErr "no private subnets found, can not create subnet group for rds")
  else
    defaultTags ← getDefaultNetworkTags None
      orWrap "failed to get default tags for rds subnet group";
    foundSubnetGroup ← getRDSSubnetGroup subnetGroupName
      orWrap "failed getting rds subnet group";
    match foundSubnetGroup with
    | Some g =>
        let allIn := forallb (contains subnetIds) (DBSG_Subnets g) in
        _ ← (if negb allIn || bool_decide (StringValue (DBSG_Description g) ≠ defaultSubnetGroupDesc)
             then ok (invoke (ModifyDBSubnetGroup (Some defaultSubnetGroupDesc)
                                (DBSG_Name g) subnetIds))
                    orWrap "error updating db subnet group description"
             else mret tt);
        if IsSTSCluster then mret tt
        else
          tags ← ok (invoke (ListTagsForResource (DBSG_Arn g)))
            orWrap "error getting subnet group tags";
          if negb (TagsContainsAll defaultTags (rdsTagListToGenericList tags))
          then updateRdsSubnetGroupTags g (genericToRdsTags defaultTags)
                 orWrap "error updating subnet group tags"
          else mret tt
    | None =>
        ok (invoke (CreateDBSubnetGroup (Some defaultSubnetGroupDesc) (Some subnetGroupName)
                      subnetIds (genericToRdsTags defaultTags)))
          orWrap "unable to create db subnet group"
    end.

Definition reconcileElasticacheVPCConfiguration (privateVPCSubnets : list Subnet)
  : M S error unit :=
  subnetGroupName ← BuildInfraName defaultSubnetPostfix defaultAwsIdentifierLength
    orWrap "error building subnet group name";
  let subnetIDs := map Subnet_SubnetId privateVPCSubnets in
  foundSubnetGroup ← getElasticacheSubnetByGroup subnetGroupName
    orWrap "error getting elasticache subnet group on reconcile";
  match foundSubnetGroup with
  | Some g =>
      let allIn := forallb (contains subnetIDs) (CSG_Subnets g) in
      if negb allIn || bool_decide (StringValue (CSG_Description g) ≠ defaultSubnetGroupDesc)
      then ok (invoke (ModifyCacheSubnetGroup (Some defaultSubnetGroupDesc)
                         (CSG_Name g) subnetIDs))
             orWrap "error updating elasticache subnet group description"
      else mret tt
  | None =>
      if (length privateVPCSubnets =? 0)%nat then
        fail (GoErr "no private subnets found, can not create subnet group for rds")
      else
        defaultTags ← getDefaultNetworkTags None
          orWrap "failed to get default tags for elasticache subnet group";
        ok (invoke (CreateCacheSubnetGroup (Some defaultSubnetGroupDesc)
                      (Some subnetGroupName) subnetIDs
                      (genericListToElasticacheTagList defaultTags)))
          orWrap "unable to create cache subnet group"
  end.

(** What [CreateNetwork] does with the answer of [CreateVpc]. *)
Definition createVpcFailed (block : string) (err : error) : M S error Network :=
  _ ← (match aws_code err with
       | Some code =>
           _ ← SetVpcAction "create" "failed" code 1;
           if bool_decide (code = "InvalidVpcRange") then
             fail (GoErr (block +:+ " is out of range, block sizes must be between `/16` and `/26`, please update `_network` strategy"))
           else if bool_decide (code = "VpcLimitExceeded") then
             fail (GoErr "cannot create vpc - vpc limit exceeded")
           else mret tt
       | None => mret tt
       end);
  fail (WrapErr err "unexpected error creating vpc").

Definition waitForVpc (vpc : Vpc) : M S error Network :=
  id ← deref (Vpc_VpcId vpc);
  waitVpcErr ← try (ok (invoke (WaitUntilVpcExists [Some id])));
  _ ← deref (Vpc_State vpc);
  match waitVpcErr with
  | inr _ =>
      _ ← invoke (DeleteVpc (Some id));
      mret {| Network_Vpc := None; Network_Subnets := [] |}
  | inl _ =>
      _ ← ResetVpcAction;
      mret {| Network_Vpc := Some vpc; Network_Subnets := [] |}
  end.

(** The branch of [CreateNetwork] without a standalone VPC. *)
Definition createStandaloneVpc (vpcCidrBlock : IPNet) : M S error Network :=
  clusterVPC ← getClusterVpc orWrap "failed to get cluster vpc";
  block ← deref (Vpc_CidrBlock clusterVPC);
  clusterVPCCidr ← liftR (ParseCIDR block) orWrap "failed to parse cluster vpc cidr block";
  match validateStandaloneCidrBlock vpcCidrBlock clusterVPCCidr.2 with
  | Some err => fail (WrapErr err "vpc validation failure")
  | None =>
      tagSpec ← getDefaultTagSpec (nameTag defaultVpcNameTagValue) "vpc"
        orWrap "failed to get default tag spec";
      createVpcOutput ← try (ok (invoke (CreateVpc (Some (IPNet_String vpcCidrBlock)) tagSpec)));
      match createVpcOutput with
      | inr err => createVpcFailed (IPNet_String vpcCidrBlock) err
      | inl vpc => waitForVpc vpc
      end
  end.

Definition CreateNetwork (vpcCidrBlock : IPNet) : M S error Network :=
  foundVpc ← getStandaloneVpc orWrap "unable to get vpc";
  match foundVpc with
  | None => createStandaloneVpc vpcCidrBlock
  | Some vpc =>
      _ ← reconcileStandaloneRouteTableTags vpc
        orWrap "unexpected error tagging standalone vpc route table";
      privateSubnets ← reconcileStandaloneVPCSubnets vpc
        orWrap "unexpected error creating vpc subnets";
      _ ← reconcileRDSVpcConfiguration privateSubnets
        orWrap "unexpected error reconciling standalone rds vpc networking";
      _ ← reconcileElasticacheVPCConfiguration privateSubnets
        orWrap "unexpected error reconciling standalone elasticache vpc networking";
      _ ← (if IsSTSCluster then mret tt
           else reconcileVPCTags vpc orWrap "unexpected error while reconciling vpc tags");
      mret {| Network_Vpc := Some vpc; Network_Subnets := privateSubnets |}
  end.

Definition DeleteNetwork : M S error unit :=
  foundVpc ← getStandaloneVpc orWrap "unable to get vpc";
  match foundVpc with
  | None => mret tt
  | Some vpc =>
      vpcSubs ← getVPCAssociatedSubnets (Some vpc)
        orWrap "failed to get standalone vpc subnets";
      _ ← forM vpcSubs (λ subnet,
        id ← deref (Subnet_SubnetId subnet);
        ok (invoke (DeleteSubnet (Some id)))
          orWrap ("failed to delete subnet with id: " +:+ id));
      subnetGroupName ← BuildInfraName defaultSubnetPostfix defaultAwsIdentifierLength
        orWrap "error building subnet group name";
      rdsSubnetGroup ← getRDSSubnetGroup subnetGroupName
        orWrap "error getting subnet group on delete";
      _ ← (match rdsSubnetGroup with
           | Some g =>
               _ ← deref (DBSG_VpcId g);
               ok (invoke (DeleteDBSubnetGroup (DBSG_Name g)))
                 orWrap "error deleting subnet group"
           | None => mret tt
           end);
      elasticacheSubnetGroup ← getElasticacheSubnetByGroup subnetGroupName
        orWrap "error getting subnet group on delete";
      _ ← (match elasticacheSubnetGroup with
           | Some g => ok (invoke (DeleteCacheSubnetGroup (CSG_Name g)))
                         orWrap "error deleting subnet group"
           | None => mret tt
           end);
      id ← deref (Vpc_VpcId vpc);
      ok (invoke (DeleteVpc (Some id))) orWrap "unable to delete vpc"
  end.
End Reconcile.

(** ** Peering and connection *)

Section Connect.
Context {S : Type} (IsSTSCluster : bool).

Definition CreateNetworkPeering (network : Network) : M S error NetworkPeering :=
  clusterVpc ← getClusterVpc orWrap "failed to get cluster vpc, no vpc found";
  found ← getNetworkPeering network orWrap "failed to get peering connection";
  peeringConnection ← (match found with
    | Some p => mret p
    | None =>
        vpc ← deref (Network_Vpc network);
        tagSpec ← (if IsSTSCluster
                   then getDefaultTagSpec (nameTag defaultVpcPeeringConnectionNameTagValue)
                          "vpc-peering-connection" orWrap "failed to get default tag spec"
                   else mret []);
        ok (invoke (CreateVpcPeeringConnection (Vpc_VpcId clusterVpc) (Vpc_VpcId vpc) tagSpec))
          orWrap "failed to create vpc peering connection"
    end);
  _ ← (if IsSTSCluster then mret tt
       else
         defaultTags ← getDefaultNetworkTags (nameTag defaultVpcPeeringConnectionNameTagValue)
           orWrap "failed to get default tags for peering connection";
         ensureTags defaultTags (Peering_Tags peeringConnection)
           (Peering_Id peeringConnection) "failed to tag peering connection");
  status ← deref (Peering_Status peeringConnection);
  let code := StringValue (PS_Code status) in
  if bool_decide (code = StatePendingAcceptance) then
    _ ← ok (invoke (AcceptVpcPeeringConnection (Peering_Id peeringConnection)))
      orWrap "failed to accept vpc peering connection";
    mret {| NP_PeeringConnection := Some peeringConnection |}
  else if bool_decide (code = StateActive) || bool_decide (code = StateProvisioning)
          || bool_decide (code = StateInitiatingRequest) then
    mret {| NP_PeeringConnection := Some peeringConnection |}
  else
    fail (GoErr ("vpc peering connection " +:+ StringValue (Peering_Id peeringConnection) +:+
      " is in an invalid state '" +:+ code +:+ "' with message '" +:+
      StringValue (PS_Message status) +:+ "'")).

Definition DeleteNetworkPeering (peering : NetworkPeering) : M S error unit :=
  match NP_PeeringConnection peering with
  | None => mret tt
  | Some p =>
      describePeeringOutput ← ok (invoke (DescribeVpcPeeringConnections [Peering_Id p] []))
        orWrap "failed to get vpc";
      match describePeeringOutput with
      | [] => mret tt
      | toDelete :: _ =>
          code ← lift (peeringCode toDelete);
          if bool_decide (code = StateDeleting) || bool_decide (code = StateDeleted)
          then mret tt
          else ok (invoke (DeleteVpcPeeringConnection (Peering_Id toDelete)))
                 orWrap "failed to delete vpc peering connection"
      end
  end.

Definition reconcileStandaloneSecurityGroup : M S error SecurityGroup :=
  name ← BuildInfraName defaultSecurityGroupPostfix defaultAwsIdentifierLength
    orWrap "error building subnet group name";
  found ← getSecurityGroup name orWrap "failed to find standalone security group";
  standaloneVpc ← getStandaloneVpc orWrap "failed to get standalone vpc";
  match standaloneVpc with
  | None => fail (GoErr "standalone vpc can not be nil")
  | Some vpc =>
      clusterVpc ← getClusterVpc orWrap "failed to get cluster vpc";
      standaloneSecGroup ← (match found with
        | Some g => mret g
        | None =>
            tagSpec ← (if IsSTSCluster
                       then getDefaultTagSpec (nameTag defaultSecurityGroupNameTagValue)
                              "security-group" orWrap "failed to get default tag spec"
                       else mret []);
            createdId ← ok (invoke (CreateSecurityGroup
                (Some "rhmi cro security group for cro standalone vpc") (Some name)
                (Vpc_VpcId vpc) tagSpec))
              orWrap "error creating security group";
            secGroup ← ok (invoke (DescribeSecurityGroups [createdId]))
              orWrap "error getting created security group";
            match secGroup with
            | [] => fail (GoErr ("expected to find created security group " +:+ name))
            | g :: _ => mret g
            end
        end);
      groupId ← deref (SG_GroupId standaloneSecGroup);
      _ ← (if IsSTSCluster then mret tt
           else
             defaultTags ← getDefaultNetworkTags (nameTag defaultSecurityGroupNameTagValue)
               orWrap "failed to get default tags for security group";
             if negb (TagsContainsAll defaultTags
                        (ec2TagListToGenericList (SG_Tags standaloneSecGroup)))
             then
               _ ← ok (invoke (CreateTags [SG_GroupId standaloneSecGroup]
                                 (genericListToEc2TagList defaultTags)))
                 orWrap "unable to tag security group";
               _ ← deref (SG_VpcId standaloneSecGroup);
               mret tt
             else mret tt);
      let ipPermission := allTrafficFrom (Vpc_CidrBlock clusterVpc) in
      if existsb (λ perm, bool_decide (perm = ipPermission)) (SG_IpPermissions standaloneSecGroup)
      then
        _ ← deref (SG_GroupName standaloneSecGroup);
        mret standaloneSecGroup
      else
        _ ← ok (invoke (AuthorizeSecurityGroupIngress (Some groupId) [ipPermission]))
          orWrap "error authorizing security group ingress";
        _ ← deref (SG_GroupName standaloneSecGroup);
        mret standaloneSecGroup
  end.

(** The route of one cluster route table; a table that does not support the
    route is skipped. *)
Definition addClusterRoute (clusterVpcRoute : Route) (routeTable : RouteTable)
  : M S error unit :=
  if routeExists (RouteTable_Routes routeTable) clusterVpcRoute then mret tt
  else
    created ← try (ok (invoke (CreateRoute (Route_VpcPeeringConnectionId clusterVpcRoute)
                                 (Route_DestinationCidrBlock clusterVpcRoute)
                                 (RouteTable_RouteTableId routeTable))));
    match created with
    | inl _ => mret tt
    | inr err =>
        if bool_decide (aws_code err = Some "RouteNotSupported") then mret tt
        else fail (WrapErr err "failure while adding route to route table")
    end.

Definition CreateNetworkConnection (network : Network) : M S error NetworkConnection :=
  securityGroup ← reconcileStandaloneSecurityGroup
    orWrap "failure while reconciling standalone security group";
  clusterVpcRouteTables ← getClusterRouteTables
    orWrap "failure while getting vpc route tables";
  found ← getNetworkPeering network orWrap "failure while getting peering connection";
  match found with
  | None => fail (GoErr "active peering connection expected and not found, can't create routes")
  | Some peeringConnection =>
      vpc ← deref (Network_Vpc network);
      let clusterVpcRoute :=
        {| Route_DestinationCidrBlock := Vpc_CidrBlock vpc;
           Route_VpcPeeringConnectionId := Peering_Id peeringConnection |} in
      _ ← forM clusterVpcRouteTables (addClusterRoute clusterVpcRoute);
      standAloneVpcRouteTables ← getCRORouteTables
        orWrap "error getting standalone vpc route tables";
      clusterVpc ← getClusterVpc orWrap "error getting standalone vpc route tables";
      let standaloneVpcRoute :=
        {| Route_DestinationCidrBlock := Vpc_CidrBlock clusterVpc;
           Route_VpcPeeringConnectionId := Peering_Id peeringConnection |} in
      _ ← forM standAloneVpcRouteTables (λ routeTable,
        if routeExists (RouteTable_Routes routeTable) standaloneVpcRoute then mret tt
        else ok (invoke (CreateRoute (Route_VpcPeeringConnectionId standaloneVpcRoute)
                           (Route_DestinationCidrBlock standaloneVpcRoute)
                           (RouteTable_RouteTableId routeTable)))
               orWrap "failure while adding route to route table");
      mret {| NC_StandaloneSecurityGroup := securityGroup |}
  end.

Definition DeleteNetworkConnection (networkPeering : NetworkPeering) : M S error unit :=
  name ← BuildInfraName defaultSecurityGroupPostfix defaultAwsIdentifierLength
    orWrap "error building subnet group name";
  standaloneSecGroup ← getSecurityGroup name
    orWrap "failed to find standalone security group";
  _ ← (match standaloneSecGroup with
       | Some g => ok (invoke (DeleteSecurityGroup (SG_GroupId g)))
                     orWrap "failed to delete standalone security group"
       | None => mret tt
       end);
  clusterVpcRouteTables ← getClusterRouteTables
    orWrap "failure while getting vpc route table";
  standaloneVpc ← getStandaloneVpc orWrap "could not find standalone vpc";
  match NP_PeeringConnection networkPeering with
  | None =>
      fail (GoErr "peering connection expected and not found, can't delete routes")
  | Some p =>
      forM clusterVpcRouteTables (λ routeTable,
        vpc ← deref standaloneVpc;
        if routeExists (RouteTable_Routes routeTable)
             {| Route_DestinationCidrBlock := Vpc_CidrBlock vpc;
                Route_VpcPeeringConnectionId := Peering_Id p |}
        then ok (invoke (DeleteRoute (Vpc_CidrBlock vpc) (RouteTable_RouteTableId routeTable)))
               orWrap "failure while deleting route from route table"
        else mret tt)
  end.

(** A deletion that ignores the AWS error [notFound] and every error that is
    not an AWS error. *)
Definition deleteIgnoring (m : M S error unit) (notFound msg : string) : M S error unit :=
  r ← try m;
  match r with
  | inl _ => mret tt
  | inr err =>
      match aws_code err with
      | Some code => if bool_decide (code ≠ notFound) then fail (WrapErr err msg) else mret tt
      | None => mret tt
      end
  end.

Definition DeleteBundledCloudResources : M S error unit :=
  subnetGroupName ← BuildInfraName "subnetgroup" defaultAwsIdentifierLength
    orWrap "error building bundle subnet group resource name on deletion";
  _ ← deleteIgnoring (ok (invoke (DeleteCacheSubnetGroup (Some subnetGroupName))))
        "CacheSubnetGroupNotFoundFault" "error deleting elasticache subnet group";
  _ ← deleteIgnoring (ok (invoke (DeleteDBSubnetGroup (Some subnetGroupName))))
        "DBSubnetGroupNotFoundFault" "error deleting rds subnet group";
  securityGroupName ← BuildInfraName "securitygroup" defaultAwsIdentifierLength
    orWrap "error building bundle security group resource name on deletion";
  securityGroup ← getSecurityGroup securityGroupName orWrap "error getting ec2 security group";
  match securityGroup with
  | None => mret tt
  | Some g =>
      vpc ← getClusterVpc orWrap "error getting cluster vpc";
      match SG_VpcId g, Vpc_VpcId vpc with
      | Some a, Some b =>
          if bool_decide (a = b) then
            ok (invoke (DeleteSecurityGroup (SG_GroupId g)))
              orWrap "error deleting bundled security group"
          else mret tt
      | _, _ => mret tt
      end
  end.
End Connect.
