(* ===== verification/NetworkProps.v ===== *)
(** * Properties of the network provider

    Every theorem quantifies over all environments: over every run of a method,
    whatever the cloud and the cluster answer. *)
From S2P Require Import Prelude Effects Api GoNet NetFacts.
From S2P Require Import Resources Subnets ClusterVpc NetworkProvider.
Local Open Scope go_scope.

(** ** Read-only methods *)

Section Readonly.
Context {S : Type}.
Lemma ro_ownerTag : readonly (getCloudResourceOperatorOwnerTag (S := S)).
Proof. unfold getCloudResourceOperatorOwnerTag. go_sat. Qed.
#[local] Hint Resolve ro_ownerTag : sat.
Lemma ro_getDefaultNetworkTags t : readonly (getDefaultNetworkTags (S := S) t).
Proof. unfold getDefaultNetworkTags. go_sat. Qed.
#[local] Hint Resolve ro_getDefaultNetworkTags : sat.
Lemma ro_getDefaultTagSpec t r : readonly (getDefaultTagSpec (S := S) t r).
Proof. unfold getDefaultTagSpec. go_sat. Qed.
Lemma ro_getStandaloneVpc : readonly (getStandaloneVpc (S := S)).
Proof. unfold getStandaloneVpc. go_sat. Qed.
#[local] Hint Resolve ro_getStandaloneVpc : sat.
Lemma ro_getVPCAssociatedSubnets v : readonly (getVPCAssociatedSubnets (S := S) v).
Proof. unfold getVPCAssociatedSubnets. go_sat. Qed.
Lemma ro_getRDSSubnetGroup n : readonly (getRDSSubnetGroup (S := S) n).
Proof. unfold getRDSSubnetGroup. go_sat. Qed.
Lemma ro_getElasticacheSubnetByGroup n : readonly (getElasticacheSubnetByGroup (S := S) n).
Proof. unfold getElasticacheSubnetByGroup. go_sat. Qed.
Lemma ro_getClusterRouteTables : readonly (getClusterRouteTables (S := S)).
Proof. unfold getClusterRouteTables. go_sat. Qed.
Lemma ro_getCRORouteTables : readonly (getCRORouteTables (S := S)).
Proof. unfold getCRORouteTables. go_sat. Qed.
Lemma ro_getNetworkPeering n : readonly (getNetworkPeering (S := S) n).
Proof. unfold getNetworkPeering. go_sat. Qed.
#[local] Hint Resolve ro_getNetworkPeering : sat.
Lemma ro_GetClusterNetworkPeering : readonly (GetClusterNetworkPeering (S := S)).
Proof. unfold GetClusterNetworkPeering. go_sat. Qed.
Lemma ro_bundledSubnets {E} k c subs : readonly (bundledSubnets (S := S) (E := E) k c subs).
Proof. unfold bundledSubnets. go_sat. Qed.
#[local] Hint Resolve ro_bundledSubnets : sat.
Lemma ro_IsEnabled : readonly (IsEnabled (S := S)).
Proof. unfold IsEnabled. go_sat. Qed.
Lemma ro_getNonOverlappingDefaultCIDR : readonly (getNonOverlappingDefaultCIDR (S := S)).
Proof. unfold getNonOverlappingDefaultCIDR. go_sat. Qed.
End Readonly.
#[export] Hint Resolve ro_ownerTag ro_getDefaultNetworkTags ro_getDefaultTagSpec
  ro_getStandaloneVpc ro_getVPCAssociatedSubnets ro_getRDSSubnetGroup
  ro_getElasticacheSubnetByGroup ro_getClusterRouteTables ro_getCRORouteTables
  ro_getNetworkPeering ro_GetClusterNetworkPeering ro_IsEnabled
  ro_getNonOverlappingDefaultCIDR : sat.

(** ** What reconciling an existing network may call *)

(** The mutating calls of the reconciliation: it tags, adds subnets and keeps
    the subnet groups; it neither creates nor deletes a VPC, and deletes nothing
    but tags it adds again. *)
Definition reconcileCall (c : call) : Prop :=
  reads c = true ∨
  match (c : api_call) with
  | CreateTags _ _ | CreateSubnet _ _ _ _ | CreateDBSubnetGroup _ _ _ _
  | ModifyDBSubnetGroup _ _ _ | RemoveTagsFromResource _ _ | RDS_AddTagsToResource _ _
  | CreateCacheSubnetGroup _ _ _ _ | ModifyCacheSubnetGroup _ _ _ => True
  | _ => False
  end.
Lemma reconcileCall_reads : reads_ok reconcileCall.
Proof. intros c H. by left. Qed.
#[export] Hint Resolve reconcileCall_reads : sat.
#[export] Hint Extern 1 (reconcileCall _) => right; exact I : sat.

Section Reconcile.
Context {S : Type} `{ThirdParty} (sts : bool).

Lemma rc_tagPrivateSubnet sub : sat reconcileCall eq (tagPrivateSubnet (S := S) sub).
Proof. unfold tagPrivateSubnet. go_sat. Qed.
#[local] Hint Resolve rc_tagPrivateSubnet : sat.
Lemma rc_routeTableTags v :
  sat reconcileCall eq (reconcileStandaloneRouteTableTags (S := S) v).
Proof. unfold reconcileStandaloneRouteTableTags. go_sat. Qed.
Lemma rc_createExpectedSubnet v t subs x :
  sat reconcileCall eq (createExpectedSubnet (S := S) sts v t subs x).
Proof. unfold createExpectedSubnet. go_sat. Qed.
#[local] Hint Resolve rc_createExpectedSubnet : sat.
Lemma rc_subnets v : sat reconcileCall eq (reconcileStandaloneVPCSubnets (S := S) sts v).
Proof. unfold reconcileStandaloneVPCSubnets. go_sat. Qed.
Lemma rc_vpcTags v : sat reconcileCall eq (reconcileVPCTags (S := S) v).
Proof. unfold reconcileVPCTags. go_sat. Qed.
Lemma rc_rds subs : sat reconcileCall eq (reconcileRDSVpcConfiguration (S := S) sts subs).
Proof. unfold reconcileRDSVpcConfiguration, updateRdsSubnetGroupTags. go_sat. Qed.
Lemma rc_elasticache subs :
  sat reconcileCall eq (reconcileElasticacheVPCConfiguration (S := S) subs).
Proof. unfold reconcileElasticacheVPCConfiguration. go_sat. Qed.
End Reconcile.
#[export] Hint Resolve rc_tagPrivateSubnet rc_routeTableTags rc_subnets rc_vpcTags rc_rds
  rc_elasticache : sat.

(** ** What the look-ups answer *)

Section Getters.
Context {S : Type}.
Implicit Types (s : S).

Lemma getClusterVpc_Val s tr v s' :
  runs (getClusterVpc s) tr (Val v, s') →
  s' = s ∧ ∃ id, Ev (DescribeVpcs [Some id]) (Ok [v]) ∈ tr.
Proof.
  intros H. split; [by apply ro_getClusterVpc in H as [_ ->]|].
  unfold getClusterVpc in H. run_val H. subst.
  eexists. rewrite !elem_of_app. right. right. left. by apply list_elem_of_singleton.
Qed.

(** [getStandaloneVpc] found [v]: the last VPC AWS lists that carries the tag of
    the operator for this cluster. *)
Definition standaloneSeen (tr : list event) (v : option Vpc) : Prop :=
  ∃ vpcs infra env, Ev (DescribeVpcs []) (Ok vpcs) ∈ tr ∧
    Ev GetInfrastructure (Ok infra) ∈ tr ∧ Ev (LookupEnv "TAG_KEY_PREFIX") env ∈ tr ∧
    lastOwned (E := error)
      {| Tag_Key := default DefaultTagKeyPrefix env +:+ "clusterID";
         Tag_Value := Infra_InfrastructureName infra |} vpcs None = Val v.

Lemma ownerTag_Val s tr t s' :
  runs (getCloudResourceOperatorOwnerTag s) tr (Val t, s') →
  ∃ infra env, Ev GetInfrastructure (Ok infra) ∈ tr ∧
    Ev (LookupEnv "TAG_KEY_PREFIX") env ∈ tr ∧
    t = {| Tag_Key := default DefaultTagKeyPrefix env +:+ "clusterID";
           Tag_Value := Infra_InfrastructureName infra |}.
Proof.
  intros H. unfold getCloudResourceOperatorOwnerTag, GetClusterID, GetClusterInfrastructure,
    GetOrganizationTag in H.
  run_val H. subst. eexists _, _. split; [|split; [|done]]; ev_in.
Qed.

Lemma standaloneSeen_incl t tr v : standaloneSeen t v → t ⊆ tr → standaloneSeen tr v.
Proof.
  intros (vpcs & infra & env & H1 & H2 & H3 & H4) H. exists vpcs, infra, env. auto.
Qed.

Lemma getStandaloneVpc_Val s tr v s' :
  runs (getStandaloneVpc s) tr (Val v, s') → s' = s ∧ standaloneSeen tr v.
Proof.
  intros H. split; [by apply ro_getStandaloneVpc in H as [_ ->]|].
  unfold getStandaloneVpc in H. run_val H.
  match goal with X : runs (getCloudResourceOperatorOwnerTag _) _ _ |- _ =>
    apply ownerTag_Val in X as (infra & env & Hi & He & ->) end.
  eexists _, infra, env. split; [ev_in|]. split; [ev_in|]. split; [ev_in|eassumption].
Qed.
End Getters.

(** ** CreateNetwork *)

(** Not a creation or deletion of a VPC. *)
Definition noVpcCall (c : call) : Prop :=
  match (c : api_call) with CreateVpc _ _ | DeleteVpc _ => False | _ => True end.
Lemma noVpcCall_reads : reads_ok noVpcCall.
Proof. by intros []. Qed.
Lemma noVpcCall_reconcile c : reconcileCall c → noVpcCall c.
Proof. intros [H|H]; [by apply noVpcCall_reads|by destruct c]. Qed.
#[export] Hint Resolve noVpcCall_reads : sat.

Section CreateNetwork.
Context {S : Type} `{ThirdParty} (sts : bool).
Implicit Types (s : S).

(** The branch of an existing network only reconciles. *)
Lemma existing_network_reconciles vpc :
  sat (S := S) reconcileCall eq
    (_ ← reconcileStandaloneRouteTableTags vpc
        orWrap "unexpected error tagging standalone vpc route table";
      privateSubnets ← reconcileStandaloneVPCSubnets sts vpc
        orWrap "unexpected error creating vpc subnets";
      _ ← reconcileRDSVpcConfiguration sts privateSubnets
        orWrap "unexpected error reconciling standalone rds vpc networking";
      _ ← reconcileElasticacheVPCConfiguration privateSubnets
        orWrap "unexpected error reconciling standalone elasticache vpc networking";
      _ ← (if sts then mret tt
           else reconcileVPCTags vpc orWrap "unexpected error while reconciling vpc tags");
      mret {| Network_Vpc := Some vpc; Network_Subnets := privateSubnets |}).
Proof. go_sat. Qed.

(** C11: [CreateNetwork] asks for a VPC only when the account holds no
    standalone VPC, with the block it was given, and only if the mask of that
    block is between /16 and /26 and the block shares no address with the
    block of the cluster VPC. *)
Theorem CreateNetwork_creates_disjoint block s tr o s' b ts r :
  wf_net block →
  runs (CreateNetwork sts block s) tr (o, s') → Ev (CreateVpc b ts) r ∈ tr →
  b = Some (IPNet_String block) ∧
  (16 ≤ (Mask_Size (IPNet_Mask block)).1 ≤ 26)%Z ∧
  standaloneSeen tr None ∧
  ∃ id vpc cidr ip clusterNet,
    Ev (DescribeVpcs [Some id]) (Ok [vpc]) ∈ tr ∧ Vpc_CidrBlock vpc = Some cidr ∧
    ParseCIDR cidr = Ok (ip, clusterNet) ∧
    ¬ ∃ a, Contains block a = true ∧ Contains clusterNet a = true.
Proof.
  intros Wb Hr He. unfold CreateNetwork in Hr.
  skip_reads Hr He found H1.
  apply runs_onErr_Val, getStandaloneVpc_Val in H1 as (_ & Hseen).
  destruct found as [vpc|].
  { exfalso. apply (noVpcCall_reconcile (CreateVpc b ts)).
    exact (sat_no_event _ _ _ _ _ _ _ _ Hr He (existing_network_reconciles vpc)). }
  unfold createStandaloneVpc in Hr.
  skip_reads Hr He cvpc H2.
  apply runs_onErr_Val, getClusterVpc_Val in H2 as (_ & id & Hid).
  skip_reads Hr He block' H3. apply runs_deref_Val in H3 as (-> & Hcidr & _).
  skip_reads Hr He pc H4. apply runs_onErr_Val, runs_liftR_Val in H4 as (-> & Hparse & _).
  destruct pc as [ip cn].
  destruct (validateStandaloneCidrBlock block cn) as [err|] eqn:Ev; simpl in Hr; rewrite Ev in Hr.
  { apply runs_fail in Hr as (-> & _). by apply not_elem_of_nil in He. }
  apply validateStandaloneCidrBlock_spec in Ev as [Hmask Hdis];
    [|done|by eapply ParseCIDR_wf].
  skip_reads Hr He spec H5. clear H5.
  assert (b = Some (IPNet_String block)) as ->.
  { inv_call Hr. destruct Hr as (r' & t' & -> & Hr).
    apply elem_of_cons in He as [He|He].
    - apply (f_equal ev_call) in He. by injection He.
    - exfalso. refine (sat_no_event (λ c, match (c : api_call) with
        | CreateVpc _ _ => False | _ => True end) eq _ _ _ _ _ _ Hr He _).
      destruct r'; unfold waitForVpc, createVpcFailed, SetVpcAction, ResetVpcAction; go_sat. }
  split; [done|]. split; [done|]. split.
  - eapply standaloneSeen_incl; [exact Hseen|]. intros x Hx. ev_in.
  - exists id, cvpc, block', ip, cn. split; [ev_in|done].
Qed.

(** the only VPC [CreateNetwork] deletes is one it has just
    created and whose existence could not be confirmed; it then answers a
    network without a VPC, and no error. *)
Theorem CreateNetwork_deletes_own block s tr o s' id r :
  runs (CreateNetwork sts block s) tr (o, s') → Ev (DeleteVpc id) r ∈ tr →
  ∃ b ts vpc e,
    Ev (CreateVpc b ts) (Ok vpc) ∈ tr ∧ Vpc_VpcId vpc = id ∧
    Ev (WaitUntilVpcExists [id]) (Er e) ∈ tr ∧
    o = Val {| Network_Vpc := None; Network_Subnets := [] |}.
Proof.
  intros Hr He. unfold CreateNetwork in Hr.
  skip_reads Hr He found H1. clear H1. destruct found as [vpc|].
  { exfalso. apply (noVpcCall_reconcile (DeleteVpc id)).
    exact (sat_no_event _ _ _ _ _ _ _ _ Hr He (existing_network_reconciles vpc)). }
  unfold createStandaloneVpc in Hr.
  skip_reads Hr He cvpc H2. skip_reads Hr He block' H3. skip_reads Hr He pc H4.
  destruct (validateStandaloneCidrBlock block pc.2) as [err|].
  { apply runs_fail in Hr as (-> & _). by apply not_elem_of_nil in He. }
  skip_reads Hr He spec H5.
  inv_call Hr. destruct Hr as (r' & t' & -> & Hr).
  apply elem_of_cons in He as [He|He]; [by apply (f_equal ev_call) in He|].
  destruct r' as [vpc|err].
  2: { exfalso. refine (sat_no_event (λ c, match (c : api_call) with
        | DeleteVpc _ => False | _ => True end) eq _ _ _ _ _ _ Hr He _).
       unfold createVpcFailed, SetVpcAction; go_sat. }
  unfold waitForVpc in Hr. skip_reads Hr He i H6.
  apply runs_deref_Val in H6 as (-> & Hi & _).
  inv_call Hr. destruct Hr as (r' & t'' & -> & Hr).
  apply elem_of_cons in He as [He|He]; [by apply (f_equal ev_call) in He|].
  skip_reads Hr He st H7. destruct r' as [[]|err].
  { exfalso. refine (sat_no_event (λ c, match (c : api_call) with
        | DeleteVpc _ => False | _ => True end) eq _ _ _ _ _ _ Hr He _).
    unfold ResetVpcAction; go_sat. }
  inv_call Hr. destruct Hr as (d & t9 & -> & Hr).
  apply runs_mret in Hr as (-> & -> & ->).
  apply list_elem_of_singleton, (f_equal ev_call) in He. injection He as ->.
  exists (Some (IPNet_String block)), spec, vpc, err.
  split; [ev_in|]. split; [done|]. split; [ev_in|done].
Qed.
End CreateNetwork.

(** ** DeleteNetwork *)

Lemma lastOwned_Some {E} tag vpcs found v :
  lastOwned (E := E) tag vpcs found = Val (Some v) →
  found = Some v ∨ (v ∈ vpcs ∧ ∃ id, Vpc_VpcId v = Some id).
Proof.
  revert found. induction vpcs as [|x l IH]; intros found; simpl.
  - intros [= ->]. by left.
  - destruct (hasTag tag (Vpc_Tags x)) as [[]| |]; [| |done..].
    + destruct (Vpc_VpcId x) as [id|] eqn:Ex; [|done].
      intros [[= <-]|[? ?]]%IH; right; split; eauto; by constructor.
    + intros [?|[? ?]]%IH; [by left|right]. split; [by constructor|done].
Qed.

Section DeleteNetwork.
Context {S : Type}.
Implicit Types (s : S).

Lemma standaloneSeen_Some tr v : standaloneSeen tr (Some v) → is_Some (Vpc_VpcId v).
Proof. by intros (? & ? & ? & _ & _ & _ & [?|[_ ?]]%lastOwned_Some). Qed.

Lemma BuildInfraName_Val postfix n s tr name s' :
  runs (BuildInfraName postfix n s) tr (Val name, s') →
  ∃ infra, Ev GetInfrastructure (Ok infra) ∈ tr ∧
           name = ShortenString (Infra_InfrastructureName infra +:+ "-" +:+ postfix) n.
Proof.
  intros H. unfold BuildInfraName, GetClusterID, GetClusterInfrastructure in H.
  run_val H. subst. eexists. split; [ev_in|done].
Qed.

Lemma getSubnets_Val s tr subs s' :
  runs (getSubnets s) tr (Val subs, s') → Ev DescribeSubnets (Ok subs) ∈ tr.
Proof.
  intros (t & s1 & Ht & H)%poll_Val. apply Ht. clear Ht. inv_call H.
  destruct H as (r & t2 & -> & (-> & E & _)%runs_mret_Val).
  destruct r; [|done]. injection E as <-. ev_in.
Qed.

Lemma getVPCAssociatedSubnets_Val v id s tr l s' :
  Vpc_VpcId v = Some id →
  runs (getVPCAssociatedSubnets (Some v) s) tr (Val l, s') →
  ∃ subs, Ev DescribeSubnets (Ok subs) ∈ tr ∧
          l = List.filter (λ x, bool_decide (Subnet_VpcId x = Some id)) subs.
Proof.
  intros Hid H. unfold getVPCAssociatedSubnets in H. run_val H.
  apply getSubnets_Val in H0. rewrite Hid in H. apply filterPtr_spec in H. subst.
  eexists. split; [ev_in|done].
Qed.

Lemma getRDSSubnetGroup_Val name s tr g s' :
  runs (getRDSSubnetGroup name s) tr (Val g, s') →
  ∃ groups, Ev DescribeDBSubnetGroups (Ok groups) ∈ tr ∧
            findPtr (E := error) DBSG_Name name groups = Val g.
Proof.
  intros H. unfold getRDSSubnetGroup in H. run_val H. eexists. split; [ev_in|done].
Qed.
Lemma getElasticacheSubnetByGroup_Val name s tr g s' :
  runs (getElasticacheSubnetByGroup name s) tr (Val g, s') →
  ∃ groups, Ev DescribeCacheSubnetGroups (Ok groups) ∈ tr ∧
            findPtr (E := error) CSG_Name name groups = Val g.
Proof.
  intros H. unfold getElasticacheSubnetByGroup in H. run_val H.
  eexists. split; [ev_in|done].
Qed.

Definition noDeleteVpc (c : call) : Prop :=
  match (c : api_call) with DeleteVpc _ => False | _ => True end.
Lemma noDeleteVpc_reads : reads_ok noDeleteVpc.
Proof. by intros []. Qed.
#[local] Hint Resolve noDeleteVpc_reads : sat.

(** C12: [DeleteNetwork] deletes a VPC in its last call, and only the
    standalone VPC it found; before that, every subnet of that VPC has been
    deleted successfully, and so have both subnet groups if they exist. *)
Theorem DeleteNetwork_order s tr o s' id r :
  runs (DeleteNetwork s) tr (o, s') → Ev (DeleteVpc id) r ∈ tr →
  ∃ t1, tr = t1 ++ [Ev (DeleteVpc id) r] ∧
    (∃ vpc, standaloneSeen t1 (Some vpc) ∧ Vpc_VpcId vpc = id) ∧
    (∃ subs, Ev DescribeSubnets (Ok subs) ∈ t1 ∧
       ∀ sub, sub ∈ subs → Subnet_VpcId sub = id →
         Ev (DeleteSubnet (Subnet_SubnetId sub)) (Ok tt) ∈ t1) ∧
    (∃ infra dbGroups cacheGroups, let name := ShortenString
         (Infra_InfrastructureName infra +:+ "-" +:+ defaultSubnetPostfix)
         defaultAwsIdentifierLength in
       Ev GetInfrastructure (Ok infra) ∈ t1 ∧
       Ev DescribeDBSubnetGroups (Ok dbGroups) ∈ t1 ∧
       Ev DescribeCacheSubnetGroups (Ok cacheGroups) ∈ t1 ∧
       (∀ g, findPtr (E := error) DBSG_Name name dbGroups = Val (Some g) →
          Ev (DeleteDBSubnetGroup (DBSG_Name g)) (Ok tt) ∈ t1) ∧
       (∀ g, findPtr (E := error) CSG_Name name cacheGroups = Val (Some g) →
          Ev (DeleteCacheSubnetGroup (CSG_Name g)) (Ok tt) ∈ t1)).
Proof.
  intros Hr He. unfold DeleteNetwork in Hr.
  skip_calls noDeleteVpc Hr He found H1.
  apply runs_onErr_Val, getStandaloneVpc_Val in H1 as (_ & Hseen).
  destruct found as [vpc|].
  2: { apply runs_mret in Hr as (-> & _). by apply not_elem_of_nil in He. }
  destruct (standaloneSeen_Some _ _ Hseen) as [i Hi].
  skip_calls noDeleteVpc Hr He subs H2.
  apply runs_onErr_Val, (getVPCAssociatedSubnets_Val _ i) in H2 as (all & Hall & ->); [|done].
  skip_calls noDeleteVpc Hr He u H3.
  pose proof (runs_forM_Val _ _ _ _ _ _ H3) as Hsubs.
  skip_calls noDeleteVpc Hr He name H4.
  apply runs_onErr_Val, BuildInfraName_Val in H4 as (infra & Hinfra & ->).
  skip_calls noDeleteVpc Hr He dbg H5.
  apply runs_onErr_Val, getRDSSubnetGroup_Val in H5 as (dbs & Hdb & Hdbf).
  skip_calls noDeleteVpc Hr He u2 H6.
  skip_calls noDeleteVpc Hr He cg H7.
  apply runs_onErr_Val, getElasticacheSubnetByGroup_Val in H7 as (cgs & Hcg & Hcgf).
  skip_calls noDeleteVpc Hr He u3 H8.
  skip_calls noDeleteVpc Hr He i' H9. apply runs_deref_Val in H9 as (-> & Hi' & _).
  rewrite Hi in Hi'. injection Hi' as <-.
  inv_call Hr. destruct Hr as (r' & -> & -> & _).
  apply list_elem_of_singleton in He. rewrite <- He.
  apply (f_equal ev_call) in He. injection He as ->.
  match goal with |- ∃ t1, ?a ++ ?b ++ ?c ++ ?d ++ ?e ++ ?f ++ ?g ++ ?h ++ [] ++ _ = _ ∧ _ =>
    exists (a ++ b ++ c ++ d ++ e ++ f ++ g ++ h) end.
  split; [by rewrite !app_nil_l, <- !app_assoc|]. split; [|split].
  - exists vpc. split; [|exact Hi].
    eapply standaloneSeen_incl; [exact Hseen|]. intros x Hx. ev_in.
  - exists all. split; [ev_in|]. intros sub Hsub Hid.
    destruct (Hsubs sub) as (t' & sa & sb & Ht' & Hrun).
    { apply list_elem_of_In, filter_In. split; [by apply list_elem_of_In|].
      by apply bool_decide_eq_true. }
    run_val Hrun.
    rewrite H.
    match type of Ht' with _ ⊆ ?t0 =>
      assert (Ev (DeleteSubnet (Some a)) (Ok tt) ∈ t0) by (apply Ht'; ev_in) end.
    ev_in.
  - exists infra, dbs, cgs. cbv zeta. split; [ev_in|]. split; [ev_in|]. split; [ev_in|]. split.
    + intros g Hg. rewrite Hdbf in Hg. injection Hg as ->. destruct u2. run_val H6. ev_in.
    + intros g Hg. rewrite Hcgf in Hg. injection Hg as ->. destruct u3. run_val H8. ev_in.
Qed.

(** The standalone VPC was looked for and is not there, or its deletion was
    accepted. *)
Definition networkGone (tr : list event) : Prop :=
  standaloneSeen tr None ∨ ∃ id, Ev (DeleteVpc id) (Ok tt) ∈ tr.
Lemma networkGone_incl t tr : networkGone t → t ⊆ tr → networkGone tr.
Proof.
  intros [?|[id Hid]] Hs; [left; by eapply standaloneSeen_incl|right; eauto].
Qed.
Lemma noDeleteVpc_DeleteNetworkConnection np :
  sat noDeleteVpc eq (DeleteNetworkConnection (S := S) np).
Proof. unfold DeleteNetworkConnection. go_sat. Qed.
Lemma noDeleteVpc_DeleteNetworkPeering np : sat noDeleteVpc eq (DeleteNetworkPeering (S := S) np).
Proof. unfold DeleteNetworkPeering. go_sat. Qed.
Lemma noDeleteVpc_DeleteBundledCloudResources :
  sat noDeleteVpc eq (DeleteBundledCloudResources (S := S)).
Proof. unfold DeleteBundledCloudResources, deleteIgnoring. go_sat. Qed.

(** The VPC that is deleted is the standalone VPC that was found. *)
Lemma DeleteNetwork_vpc s tr o s' id r :
  runs (DeleteNetwork s) tr (o, s') → Ev (DeleteVpc id) r ∈ tr →
  ∃ vpc, standaloneSeen tr (Some vpc) ∧ Vpc_VpcId vpc = id.
Proof.
  intros Hr He. unfold DeleteNetwork in Hr.
  skip_calls noDeleteVpc Hr He found H1.
  apply runs_onErr_Val, getStandaloneVpc_Val in H1 as (_ & Hseen).
  destruct found as [vpc|].
  2: { apply runs_mret in Hr as (-> & _). by apply not_elem_of_nil in He. }
  exists vpc. split; [eapply standaloneSeen_incl; [exact Hseen|]; intros x Hx; ev_in|].
  do 7 (let u := fresh "u" in let X := fresh in skip_calls noDeleteVpc Hr He u X; clear X).
  skip_calls noDeleteVpc Hr He i H2. apply runs_deref_Val in H2 as (-> & Hi & _).
  inv_call Hr. destruct Hr as (r' & -> & -> & _).
  apply list_elem_of_singleton, (f_equal ev_call) in He. injection He as ->. done.
Qed.

Lemma DeleteNetwork_Val s tr u s' : runs (DeleteNetwork s) tr (Val u, s') → networkGone tr.
Proof.
  intros Hr. unfold DeleteNetwork in Hr.
  apply runs_bind_Val in Hr as (t1 & found & s1 & t2 & -> & H1 & Hr).
  apply runs_onErr_Val, getStandaloneVpc_Val in H1 as (_ & Hseen).
  destruct found as [vpc|].
  2: { left. eapply standaloneSeen_incl; [exact Hseen|]. intros x Hx. ev_in. }
  clear Hseen. right. repeat (apply runs_bind_Val in Hr as (? & ? & ? & ? & -> & _ & Hr)).
  destruct u. run_val Hr. eexists. ev_in.
Qed.
End DeleteNetwork.
#[export] Hint Resolve noDeleteVpc_reads noDeleteVpc_DeleteNetworkConnection
  noDeleteVpc_DeleteNetworkPeering noDeleteVpc_DeleteBundledCloudResources : sat.

(** ** Connection *)

Lemma filterPtr_incl {E A} (p : A → option string) k (l r : list A) x :
  filterPtr (E := E) p k l = Val r → x ∈ l → p x = k → x ∈ r.
Proof.
  intros H Hx Hk. destruct k as [k|].
  - apply filterPtr_spec in H as ->. apply list_elem_of_In, filter_In.
    split; [by apply list_elem_of_In|]. by apply bool_decide_eq_true.
  - destruct Hx as [x l|x y l Hx]; simpl in H.
    + by rewrite Hk in H.
    + by destruct (p y).
Qed.

Section Connection.
Context {S : Type} (sts : bool).
Implicit Types (s : S).

Lemma getNetworkPeering_Val network s tr found s' :
  runs (getNetworkPeering network s) tr (Val found, s') →
  ∃ vpc filters ps, Network_Vpc network = Some vpc ∧
    Ev (DescribeVpcPeeringConnections [] filters) (Ok ps) ∈ tr ∧
    livePeering (E := error) ps = Val found.
Proof.
  intros H. unfold getNetworkPeering in H. run_val H. eexists _, _, _.
  split; [eassumption|]. split; [ev_in|done].
Qed.

Lemma getClusterRouteTables_Val s tr tables s' :
  runs (getClusterRouteTables s) tr (Val tables, s') →
  ∃ all id vpc, Ev (DescribeRouteTables []) (Ok all) ∈ tr ∧
    Ev (DescribeVpcs [Some id]) (Ok [vpc]) ∈ tr ∧
    ∀ t, t ∈ all → RouteTable_VpcId t = Vpc_VpcId vpc → t ∈ tables.
Proof.
  intros H. unfold getClusterRouteTables in H. run_val H. subst.
  apply getClusterVpc_Val in H as (_ & id & Hid).
  eexists _, id, _. split; [ev_in|]. split; [ev_in|]. eauto using filterPtr_incl.
Qed.

(** A table that has the route, or for which it was asked. *)
Lemma addClusterRoute_Val route table s tr u s' :
  runs (addClusterRoute route table s) tr (Val u, s') →
  routeExists (RouteTable_Routes table) route = true ∨
  ∃ r, Ev (CreateRoute (Route_VpcPeeringConnectionId route)
                       (Route_DestinationCidrBlock route)
                       (RouteTable_RouteTableId table)) r ∈ tr ∧
       (r = Ok tt ∨ ∃ e, r = Er e ∧ aws_code e = Some "RouteNotSupported").
Proof.
  intros H. unfold addClusterRoute in H.
  destruct (routeExists _ _); [by left|]. right. inv_call H.
  destruct H as (r & t & -> & H). exists r. split; [ev_in|].
  destruct r as [[]|e]; [by left|]. right. exists e. split; [done|].
  case_bool_decide; [done|]. by apply runs_fail_Val in H.
Qed.

(** when [CreateNetworkConnection] succeeds, there is a live peering
    and every route table of the cluster VPC has a route to the standalone VPC
    through it, or such a route was created, or AWS answered that the table
    does not support it. *)
Theorem CreateNetworkConnection_routes network s tr c s' :
  runs (CreateNetworkConnection sts network s) tr (Val c, s') →
  ∃ vpc filters ps peering all id clusterVpc,
    Network_Vpc network = Some vpc ∧
    Ev (DescribeVpcPeeringConnections [] filters) (Ok ps) ∈ tr ∧
    livePeering (E := error) ps = Val (Some peering) ∧
    Ev (DescribeRouteTables []) (Ok all) ∈ tr ∧
    Ev (DescribeVpcs [Some id]) (Ok [clusterVpc]) ∈ tr ∧
    ∀ t, t ∈ all → RouteTable_VpcId t = Vpc_VpcId clusterVpc →
      routeExists (RouteTable_Routes t)
        {| Route_DestinationCidrBlock := Vpc_CidrBlock vpc;
           Route_VpcPeeringConnectionId := Peering_Id peering |} = true ∨
      ∃ r, Ev (CreateRoute (Peering_Id peering) (Vpc_CidrBlock vpc)
                           (RouteTable_RouteTableId t)) r ∈ tr ∧
           (r = Ok tt ∨ ∃ e, r = Er e ∧ aws_code e = Some "RouteNotSupported").
Proof.
  intros H. unfold CreateNetworkConnection in H.
  apply runs_bind_Val in H as (t1 & sg & s1 & t2 & -> & _ & H).
  apply runs_bind_Val in H as (t3 & tables & s2 & t4 & -> & Ht & H).
  apply runs_onErr_Val, getClusterRouteTables_Val in Ht as (all & id & cv & Ha & Hc & Hin).
  apply runs_bind_Val in H as (t5 & found & s3 & t6 & -> & Hp & H).
  apply runs_onErr_Val, getNetworkPeering_Val in Hp as (vpc & fs & ps & Hv & Hps & Hl).
  destruct found as [peering|]; [|by apply runs_fail_Val in H].
  apply runs_bind_Val in H as (t7 & vpc' & s4 & t8 & -> & Hd & H).
  apply runs_deref_Val in Hd as (-> & Hv' & ->). rewrite Hv in Hv'. injection Hv' as <-.
  apply runs_bind_Val in H as (t9 & u & s5 & t10 & -> & Hf & _).
  exists vpc, fs, ps, peering, all, id, cv.
  split; [done|]. split; [ev_in|]. split; [done|]. split; [ev_in|]. split; [ev_in|].
  intros t Htall Hid. destruct (runs_forM_Val _ _ _ _ _ _ Hf t) as (t' & sa & sb & Ht' & Hr);
    [by apply Hin|].
  apply addClusterRoute_Val in Hr as [Hr|(r & He & Hr)]; [by left|right].
  exists r. split; [apply Ht' in He; ev_in|done].
Qed.

(** without a peering connection the deletion of the network
    connection never succeeds, whatever the environment answers. *)
Theorem DeleteNetworkConnection_needs_peering s tr o s' u :
  runs (DeleteNetworkConnection {| NP_PeeringConnection := None |} s) tr (o, s') → o ≠ Val u.
Proof.
  intros H ->. unfold DeleteNetworkConnection in H. cbn [NP_PeeringConnection] in H.
  repeat (apply runs_bind_Val in H as (? & ? & ? & ? & -> & _ & H)).
  by apply runs_fail_Val in H.
Qed.

(** ** Peering *)

Lemma livePeering_None {E} ps p :
  livePeering (E := E) ps = Val None → p ∈ ps →
  peeringCode (E := E) p = Val StateDeleted ∨ peeringCode (E := E) p = Val StateDeleting.
Proof.
  intros H Hp. revert H. induction Hp as [p l|p q l _ IH]; simpl.
  - destruct (peeringCode p) as [code| |]; [|done..].
    destruct (bool_decide_reflect (code ≠ StateDeleted)) as [?|N1]; simpl.
    + destruct (bool_decide_reflect (code ≠ StateDeleting)) as [?|N2]; [done|].
      intros _. right. f_equal. by apply dec_stable.
    + intros _. left. f_equal. by apply dec_stable.
  - destruct (peeringCode q) as [code| |]; [|done..]. by destruct (_ && _).
Qed.

Definition noPeeringCall (c : call) : Prop :=
  match (c : api_call) with
  | CreateVpcPeeringConnection _ _ _ | AcceptVpcPeeringConnection _ => False
  | _ => True
  end.
Lemma noPeeringCall_reads : reads_ok noPeeringCall.
Proof. by intros []. Qed.
#[local] Hint Resolve noPeeringCall_reads : sat.

(** a peering connection is only asked for when every connection
    AWS reports between the two VPCs is deleted or being deleted; and what is
    accepted is a connection in state pending-acceptance. *)
Theorem CreateNetworkPeering_once network s tr o s' :
  runs (CreateNetworkPeering sts network s) tr (o, s') →
  (∀ a b ts r, Ev (CreateVpcPeeringConnection a b ts) r ∈ tr →
     ∃ filters ps, Ev (DescribeVpcPeeringConnections [] filters) (Ok ps) ∈ tr ∧
       ∀ p, p ∈ ps → peeringCode (E := error) p = Val StateDeleted ∨
                     peeringCode (E := error) p = Val StateDeleting) ∧
  (∀ id r, Ev (AcceptVpcPeeringConnection id) r ∈ tr →
     ∃ p, Peering_Id p = id ∧ peeringCode (E := error) p = Val StatePendingAcceptance).
Proof.
  intros Hr. split.
  - intros a b ts r He. unfold CreateNetworkPeering in Hr.
    skip_reads Hr He cv H1. skip_reads Hr He found H2.
    apply runs_onErr_Val, getNetworkPeering_Val in H2 as (vpc & fs & ps & Hv & Hps & Hl).
    destruct found as [peering|].
    + exfalso. refine (sat_no_event (λ c, match (c : api_call) with
        | CreateVpcPeeringConnection _ _ _ => False | _ => True end) eq _ _ _ _ _ _ Hr He _).
      assert (reads_ok (λ c, match (c : api_call) with
        | CreateVpcPeeringConnection _ _ _ => False | _ => True end)) by (by intros []).
      unfold ensureTags. go_sat.
    + exists fs, ps. split; [ev_in|]. intros p. by apply livePeering_None.
  - intros id r He. unfold CreateNetworkPeering in Hr.
    assert (reads_ok (λ c, match (c : api_call) with
      | AcceptVpcPeeringConnection _ => False | _ => True end)) by (by intros []).
    skip_reads Hr He cv H1. skip_reads Hr He found H2.
    skip_calls (λ c : call, match (c : api_call) with
      | AcceptVpcPeeringConnection _ => False | _ => True end) Hr He p H3.
    unfold ensureTags in Hr.
    skip_calls (λ c : call, match (c : api_call) with
      | AcceptVpcPeeringConnection _ => False | _ => True end) Hr He u H4.
    skip_reads Hr He st H5. apply runs_deref_Val in H5 as (-> & Hst & _).
    cbv zeta in Hr. case_bool_decide as Hcode.
    + inv_call Hr. destruct Hr as (r' & t6 & -> & Hr).
      apply elem_of_cons in He as [He|He].
      * apply (f_equal ev_call) in He. injection He as ->. exists p. split; [done|].
        unfold peeringCode. by rewrite Hst, Hcode.
      * exfalso. destruct Hr as [(e & _ & -> & _)|(x & _ & Hr)];
          [by apply not_elem_of_nil in He|].
        apply runs_mret in Hr as (-> & _). by apply not_elem_of_nil in He.
    + exfalso. destruct (_ || _).
      * apply runs_mret in Hr as (-> & _). by apply not_elem_of_nil in He.
      * apply runs_fail in Hr as (-> & _). by apply not_elem_of_nil in He.
Qed.
End Connection.

(** ** IsEnabled *)

Section IsEnabled.
Context {S : Type}.
Implicit Types (s : S).

Definition taggedWith (key value : string) (sub : Subnet) : bool :=
  existsb (λ t, bool_decide (StringValue (AwsTag_Key t) = key) &&
                bool_decide (StringValue (AwsTag_Value t) = value)) (Subnet_Tags sub).

Lemma taggedLoop_Val {E} key value sub tags acc s tr (l : list Subnet) s' :
  runs (foldM (E := E) (λ valid t,
      if bool_decide (StringValue (AwsTag_Key t) = key) &&
         bool_decide (StringValue (AwsTag_Value t) = value)
      then
        _ ← deref (Subnet_SubnetId sub);
        _ ← deref (Subnet_VpcId sub);
        mret (valid ++ [sub])
      else mret valid) acc tags s) tr (Val l, s') →
  l = [] ↔ acc = [] ∧
    existsb (λ t, bool_decide (StringValue (AwsTag_Key t) = key) &&
                  bool_decide (StringValue (AwsTag_Value t) = value)) tags = false.
Proof.
  revert acc s tr. induction tags as [|t tags IH]; intros acc s tr H; cbn [foldM existsb] in *.
  - apply runs_mret_Val in H as (_ & -> & _). tauto.
  - apply runs_bind_Val in H as (t1 & acc' & s1 & t2 & -> & H1 & H2). rewrite (IH _ _ _ H2).
    destruct (_ && _).
    + run_val H1. subst. split; [intros [Hn _]|intros [_ Hn]]; [|done].
      by apply app_nil in Hn as [_ ?].
    + run_val H1. by subst.
Qed.

Lemma bundledSubnets_Val {E} key value subs acc s tr (l : list Subnet) s' :
  runs (foldM (E := E) (λ valid subnet,
    foldM (λ valid t,
      if bool_decide (StringValue (AwsTag_Key t) = key) &&
         bool_decide (StringValue (AwsTag_Value t) = value)
      then
        _ ← deref (Subnet_SubnetId subnet);
        _ ← deref (Subnet_VpcId subnet);
        mret (valid ++ [subnet])
      else mret valid) valid (Subnet_Tags subnet)) acc subs s) tr (Val l, s') →
  l = [] ↔ acc = [] ∧ existsb (taggedWith key value) subs = false.
Proof.
  revert acc s tr. induction subs as [|x subs IH]; intros acc s tr H; cbn [foldM existsb] in *.
  - apply runs_mret_Val in H as (_ & -> & _). tauto.
  - apply runs_bind_Val in H as (t1 & acc' & s1 & t2 & -> & H1 & H2). rewrite (IH _ _ _ H2).
    apply taggedLoop_Val in H1. rewrite H1, orb_false_iff. unfold taggedWith. tauto.
Qed.

Lemma GetVPCSubnets_Val v s tr l s' :
  runs (GetVPCSubnets (Some v) s) tr (Val l, s') →
  l ≠ [] ∧ ∃ subs, Ev DescribeSubnets (Ok subs) ∈ tr ∧
    l = List.filter (λ x, bool_decide (Subnet_VpcId x = Vpc_VpcId v)) subs.
Proof.
  intros H. unfold GetVPCSubnets in H. cbv iota in H. run_val H. subst.
  match goal with X : runs (getSubnets _) _ _ |- _ => apply getSubnets_Val in X end.
  split; [done|]. eexists. split; [ev_in|]. by eapply filterPtr_filter.
Qed.

(** [IsEnabled] answers true exactly when no subnet of the cluster
    VPC carries the tag that names this cluster. *)
Theorem IsEnabled_iff s tr b s' :
  runs (IsEnabled s) tr (Val b, s') →
  ∃ id vpc subs infra env,
    Ev (DescribeVpcs [Some id]) (Ok [vpc]) ∈ tr ∧
    Ev DescribeSubnets (Ok subs) ∈ tr ∧
    Ev GetInfrastructure (Ok infra) ∈ tr ∧ Ev (LookupEnv "TAG_KEY_PREFIX") env ∈ tr ∧
    (b = true ↔ ¬ ∃ sub, sub ∈ subs ∧ Subnet_VpcId sub = Vpc_VpcId vpc ∧
       taggedWith (default DefaultTagKeyPrefix env +:+ "clusterID")
                  (Infra_InfrastructureName infra) sub = true).
Proof.
  intros H. unfold IsEnabled, GetClusterID, GetClusterInfrastructure, GetOrganizationTag in H.
  run_val H. apply getClusterVpc_Val in H0 as (_ & id & Hid).
  apply GetVPCSubnets_Val in H as (_ & subs & Hs & ->).
  apply bundledSubnets_Val in H1. subst.
  eexists id, _, subs, _, _. split; [ev_in|]. split; [ev_in|]. split; [ev_in|].
  split; [ev_in|]. rewrite bool_decide_eq_true, length_zero_iff_nil, H1.
  split.
  - intros [_ H] (sub & Hin & Hv & Ht).
    eapply existsb_false_In in H; [by rewrite Ht in H|].
    apply list_elem_of_In, filter_In. split; [by apply list_elem_of_In|].
    by apply bool_decide_eq_true.
  - intros H. split; [done|]. apply not_true_is_false. intros (sub & Hin & Ht)%existsb_In.
    apply list_elem_of_In, filter_In in Hin as [Hin Hv%bool_decide_eq_true].
    apply H. exists sub. split; [by apply list_elem_of_In|]. done.
Qed.
End IsEnabled.

(** ** The default block, from the cluster *)

Section DefaultCIDR.
Context {S : Type}.
Implicit Types (s : S).

(** The default block the provider answers is a candidate that
    shares no address with the block of the cluster VPC, nor with the last pod
    and service networks of the cluster's network configuration. *)
Theorem getNonOverlappingDefaultCIDR_disjoint s tr n s' :
  runs (getNonOverlappingDefaultCIDR s) tr (Val n, s') →
  n ∈ defaultCandidates ∧
  ∃ id vpc ip clusterNet conf pod svc,
    Ev (DescribeVpcs [Some id]) (Ok [vpc]) ∈ tr ∧
    ParseCIDR (StringValue (Vpc_CidrBlock vpc)) = Ok (ip, clusterNet) ∧
    Ev GetNetworkConf (Ok conf) ∈ tr ∧
    getPodCIDR conf = Val pod ∧ getServiceCIDR conf = Val svc ∧
    ∀ a, Contains n a = true →
      Contains clusterNet a = false ∧
      (∀ x, pod = Some x → Contains x a = false) ∧
      (∀ x, svc = Some x → Contains x a = false).
Proof.
  intros H. unfold getNonOverlappingDefaultCIDR in H. run_val H.
  apply getClusterVpc_Val in H0 as (_ & id & Hid).
  match goal with X : ParseCIDR _ = Ok ?p |- _ => destruct p as [ip cn]; rename X into Hp end.
  match goal with X : findDefaultCIDR _ _ _ = _ |- _ => rename X into Hf end.
  pose proof (ParseCIDR_wf _ _ _ Hp) as Wc.
  destruct (findDefaultCIDR_disjoint cn a2 a3 n) as [Hc Hd]; [done| | |exact Hf|].
  - intros x ->. eapply lastCIDR_wf; [eassumption|done].
  - intros x ->. eapply lastCIDR_wf; [eassumption|done].
  - split; [done|]. exists id, a, ip, cn, a1, a2, a3. split; [ev_in|]. split; [done|].
    split; [ev_in|]. done.
Qed.
End DefaultCIDR.

(** ** Subnets of the standalone VPC *)

Definition noCreateSubnet (c : call) : Prop :=
  match (c : api_call) with CreateSubnet _ _ _ _ => False | _ => True end.
Lemma noCreateSubnet_reads : reads_ok noCreateSubnet.
Proof. by intros []. Qed.
#[export] Hint Resolve noCreateSubnet_reads : sat.

Section Subnets.
Context {S : Type} `{ThirdParty} (sts : bool).
Implicit Types (s : S).

Lemma sortAzs_In {E} azs sorted az :
  sortAzs (E := E) azs = Val sorted → az ∈ sorted → az ∈ azs.
Proof.
  unfold sortAzs. destruct (_ && _); [done|]. intros [= <-].
  assert (∀ x l, az ∈ insertAz x l → az = x ∨ az ∈ l) as Hins.
  { intros x l. induction l as [|y l IH]; simpl.
    - by intros ->%list_elem_of_singleton; left.
    - destruct (String.ltb _ _); rewrite !elem_of_cons; tauto. }
  assert (∀ l acc, az ∈ foldl (λ sorted az, insertAz az sorted) acc l → az ∈ acc ∨ az ∈ l) as L.
  { induction l as [|x l IH]; intros acc; simpl; [by left|].
    intros [Ha|Ha]%IH; [|right; by constructor].
    apply Hins in Ha as [->|Ha]; [right; constructor|by left]. }
  intros Ha. apply L in Ha as [Ha|Ha]; [by apply not_elem_of_nil in Ha|done].
Qed.

(** A call of a loop is a call of one of its iterations. *)
Lemma foldM_event {E A B} (P : call → Prop) (body : B → A → M S E B) l b0 s tr o s' e :
  runs (foldM body b0 l s) tr (o, s') → e ∈ tr → ¬ P (ev_call e) →
  ∃ b x s1 t o1 s2, x ∈ l ∧ runs (body b x s1) t (o1, s2) ∧ e ∈ t.
Proof.
  revert b0 s tr. induction l as [|x l IH]; intros b0 s tr Hr He Hn; cbn [foldM] in Hr.
  - apply runs_mret in Hr as (-> & _). by apply not_elem_of_nil in He.
  - apply runs_bind in Hr as [(t1 & b1 & s1 & t2 & -> & H1 & H2)|[(x' & H1 & _)|(w & H1 & _)]].
    + apply elem_of_app in He as [He|He].
      * exists b0, x, s, t1, (Val b1), s1. split; [constructor|done].
      * destruct (IH _ _ _ H2 He Hn) as (b & y & sa & t & o1 & sb & Hy & ?).
        exists b, y, sa, t, o1, sb. split; [by constructor|done].
    + exists b0, x, s, tr, (Err x'), s'. split; [constructor|done].
    + exists b0, x, s, tr, (Panic w), s'. split; [constructor|done].
Qed.

Lemma createExpectedSubnet_event vpc spec subs x s tr o s' az cidr v ts r :
  runs (createExpectedSubnet sts vpc spec subs x s) tr (o, s') →
  Ev (CreateSubnet az cidr v ts) r ∈ tr →
  az = AZ_ZoneName x.2 ∧ cidr = Some (IPNet_String x.1) ∧ v = Vpc_VpcId vpc.
Proof.
  intros Hr He. unfold createExpectedSubnet in Hr.
  skip_reads Hr He present H1. destruct present.
  { apply runs_mret in Hr as (-> & _). by apply not_elem_of_nil in He. }
  skip_reads Hr He vid H2. apply runs_deref_Val in H2 as (-> & Hv & _).
  skip_reads Hr He zn H3. apply runs_deref_Val in H3 as (-> & Hz & _).
  inv_call Hr. destruct Hr as (r' & t' & -> & Hr). apply elem_of_cons in He as [He|He].
  - apply (f_equal ev_call) in He. injection He as -> -> -> _. by rewrite Hz, Hv.
  - exfalso. destruct Hr as [(e & _ & -> & _)|(x' & _ & Hr)];
      [by apply not_elem_of_nil in He|].
    refine (sat_no_event noCreateSubnet eq _ _ _ _ _ _ Hr He _).
    unfold tagPrivateSubnet. go_sat.
Qed.

(** the subnets created for a standalone VPC are its two halves, in
    an availability zone that AWS listed and that offers the instance types. *)
Theorem reconcileStandaloneVPCSubnets_creates_halves vpc s tr o s' az cidr v ts r :
  runs (reconcileStandaloneVPCSubnets sts vpc s) tr (o, s') →
  Ev (CreateSubnet az cidr v ts) r ∈ tr →
  v = Vpc_VpcId vpc ∧
  (∃ n1 n2, halveVpcCidr vpc = Val [n1; n2] ∧
     (cidr = Some (IPNet_String n1) ∨ cidr = Some (IPNet_String n2))) ∧
  (∃ azs fs lt offerings zone,
     Ev DescribeAvailabilityZones (Ok azs) ∈ tr ∧
     Ev (DescribeInstanceTypeOfferings fs lt) (Ok offerings) ∈ tr ∧
     zone ∈ azs ∧ AZ_ZoneName zone = az ∧
     ∃ location, location ∈ offerings ∧ StringValue location = StringValue az).
Proof.
  intros Hr He. unfold reconcileStandaloneVPCSubnets in Hr.
  skip_reads Hr He halves H1. apply runs_lift_Val in H1 as (-> & Hh & _).
  skip_reads Hr He azs H2. run_val H2. skip_reads Hr He offs H3. run_val H3. cbv zeta in Hr.
  skip_reads Hr He sorted H4. apply runs_lift_Val in H4 as (-> & Hsort & _).
  destruct (negb _) eqn:Hlen.
  { apply runs_fail in Hr as (-> & _). by apply not_elem_of_nil in He. }
  skip_reads Hr He subs H5. clear H5.
  skip_reads Hr He spec H6. clear H6.
  assert (∃ x (sa : S) t oa (sb : S) sbs, x ∈ zip halves (take 2 sorted) ∧
    runs (createExpectedSubnet sts vpc spec sbs x sa) t (oa, sb) ∧
    Ev (CreateSubnet az cidr v ts) r ∈ t) as (x & sa & tx & oa & sb & sbs & Hx & Hrun & Hev).
  { assert (∀ t oa (sa sb : S) l, runs (foldM (createExpectedSubnet sts vpc spec) subs l sa) t (oa, sb) →
       Ev (CreateSubnet az cidr v ts) r ∈ t → ∃ x (s1 : S) t' o1 (s2 : S) sbs, x ∈ l ∧
       runs (createExpectedSubnet sts vpc spec sbs x s1) t' (o1, s2) ∧
       Ev (CreateSubnet az cidr v ts) r ∈ t') as L.
    { intros ty oa sa sb l Hf Hin.
      destruct (foldM_event noCreateSubnet _ _ _ _ _ _ _ _ Hf Hin) as (b & x & s1 & t' & o1 & s2 & ?);
        [exact id|]. eauto 10. }
    apply runs_bind in Hr as [(t8 & sub2 & s1 & t9 & -> & Hf & Hr)|[(e & Hf & _)|(w & Hf & _)]];
      [|exact (L _ _ _ _ _ Hf He)..].
    apply elem_of_app in He as [He|He]; [exact (L _ _ _ _ _ Hf He)|]. exfalso.
    refine (sat_no_event noCreateSubnet eq _ _ _ _ _ _ Hr He _).
    unfold tagPrivateSubnet. go_sat. }
  destruct x as [n zone].
  pose proof (createExpectedSubnet_event _ _ _ _ _ _ _ _ _ _ _ _ _ Hrun Hev) as (-> & -> & ->).
  pose proof (elem_of_zip_l _ _ _ _ Hx) as Hn. pose proof (elem_of_zip_r _ _ _ _ Hx) as Hz.
  apply elem_of_take in Hz as (i & Hz & _). apply list_elem_of_lookup_2 in Hz.
  eapply sortAzs_In in Hz; [|done].
  apply list_elem_of_In, filter_In in Hz as [Hz Hoff].
  apply existsb_In in Hoff as (loc & Hloc & Heq%bool_decide_eq_true).
  split; [done|]. split.
  - assert (∃ n1 n2, halves = [n1; n2]) as (n1 & n2 & ->).
    { apply halveVpcCidr_length in Hh. destruct halves as [|n1 [|n2 [|? ?]]]; try done. eauto. }
    exists n1, n2. split; [done|]. simpl.
    rewrite !elem_of_cons in Hn. destruct Hn as [->|[->|Hn]]; [by left|by right|].
    by apply not_elem_of_nil in Hn.
  - eexists azs, _, _, offs, zone. split; [ev_in|]. split; [ev_in|].
    split; [by apply list_elem_of_In|]. split; [done|]. exists loc. done.
Qed.
End Subnets.
