(* ===== verification/AwsConfig.v ===== *)
(** * pkg/providers/aws: config.go, credentials.go, credentials_sts_manager.go

    The strategies of the config map, the region, the credentials and the session
    of a provider, and the two functions of cluster_network_provider.go that need
    them.  The credential manager is chosen once, when a provider is created. *)
From S2P Require Import Prelude Effects GoNet GoStrings Json Api Resources NetworkProvider.
From Stdlib Require Import Ascii.
Local Open Scope go_scope.

(** ** Strategies (config.go) *)

Definition DefaultConfigMapName : string := "cloud-resources-aws-strategies".
Definition DefaultFinalizer : string := "cloud-resources-operator.integreatly.org/finalizers".
Definition second : Z := 1000000000.
Definition defaultReconcileTime : Z := 30 * second.
Definition ResourceIdentifierAnnotation : string := "resourceIdentifier".

(** A [json.RawMessage] is the value it denotes; [None] is the nil message. *)
Record StrategyConfig := {
  Strategy_Region : string;
  Strategy_CreateStrategy : option json;
  Strategy_DeleteStrategy : option json;
  Strategy_ServiceUpdates : option json
}.
Record ConfigMapConfigManager := {
  CM_configMapName : string;
  CM_configMapNamespace : string
}.

Definition strategyFields : list string :=
  ["region"; "createStrategy"; "deleteStrategy"; "serviceUpdates"].
(** A plain string field, which [null] leaves as it is; [None] is a type error. *)
Definition plainString (fields : list string) (members : list (string * json)) (f : string)
  : option string :=
  let values := map snd (List.filter (λ m,
    bool_decide (fieldOf fields m.1 = Some f)) members) in
  if forallb (hasKind KString) values
  then Some (default "" (last (omap (λ v, asString (Some v)) values)))
  else None.
(** A raw message takes any value, [null] included. *)
Definition rawFieldOf (fields : list string) (members : list (string * json)) (f : string)
  : option json :=
  snd <$> last (List.filter (λ m, bool_decide (fieldOf fields m.1 = Some f)) members).
Abbreviation rawField := (rawFieldOf strategyFields).
Definition decodeStrategyConfig (v : json) : option (option StrategyConfig) :=
  match v with
  | JNull => Some None
  | JObj members =>
      region ← plainString strategyFields members "region";
      Some (Some {| Strategy_Region := region;
                    Strategy_CreateStrategy := rawField members "createStrategy";
                    Strategy_DeleteStrategy := rawField members "deleteStrategy";
                    Strategy_ServiceUpdates := rawField members "serviceUpdates" |})
  | _ => None
  end.
(** The members of a [map[string]*StrategyConfig], from what decodes one. *)
Fixpoint decodeMappingOf {A} (decode : json → option (option A)) (members : list (string * json))
  : option (list (string * option A)) :=
  match members with
  | [] => Some []
  | (k, v) :: rest =>
      s ← decode v; r ← decodeMappingOf decode rest; Some ((k, s) :: r)
  end.
Definition unmarshalMappingOf {A} (decode : json → option (option A)) (raw : string)
  : result (list (string * option A)) :=
  match parse raw with
  | Er e => Er e
  | Ok JNull => Ok []
  | Ok (JObj members) => match decodeMappingOf decode members with
                         | Some l => Ok l
                         | None => Er typeError
                         end
  | Ok _ => Er typeError
  end.
Abbreviation decodeMapping := (decodeMappingOf decodeStrategyConfig).
Abbreviation unmarshalMapping := (unmarshalMappingOf decodeStrategyConfig).
(** [strategyMapping[tier]]: the last entry with the key. *)
Definition lookupTier {A} (tier : string) (mapping : list (string * option A)) : option A :=
  match last (List.filter (λ p, bool_decide (p.1 = tier)) mapping) with
  | Some (_, s) => s
  | None => None
  end.

(** [DefaultConfigMapNamespace] is read from the environment when the program
    starts, and is an argument here. *)
Definition NewConfigMapConfigManager (DefaultConfigMapNamespace cm namespace : string)
  : ConfigMapConfigManager :=
  {| CM_configMapName := if bool_decide (cm = "") then DefaultConfigMapName else cm;
     CM_configMapNamespace :=
       if bool_decide (namespace = "") then DefaultConfigMapNamespace else namespace |}.
Definition NewDefaultConfigMapConfigManager (DefaultConfigMapNamespace : string)
  : ConfigMapConfigManager :=
  NewConfigMapConfigManager DefaultConfigMapNamespace DefaultConfigMapName
    DefaultConfigMapNamespace.

Definition BuildDefaultConfigMap : gmap string string := {[
  "blobstorage" := quoted "{`development`: { `region`: ``, `_network`: ``, `createStrategy`: {}, `deleteStrategy`: {} }, `production`: { `region`: ``, `_network`: ``, `createStrategy`: {}, `deleteStrategy`: {} }}";
  "redis" := quoted "{`development`: { `region`: ``, `_network`: ``, `createStrategy`: {}, `deleteStrategy`: {} }, `production`: { `region`: ``, `_network`: ``,`createStrategy`: {}, `deleteStrategy`: {} }}";
  "postgres" := quoted "{`development`: { `region`: ``, `_network`: ``, `createStrategy`: {}, `deleteStrategy`: {} }, `production`: { `region`: ``, `_network`: ``,`createStrategy`: {}, `deleteStrategy`: {} }}";
  "_network" := quoted "{`development`: { `region`: ``, `_network`: ``, `createStrategy`: {}, `deleteStrategy`: {} }, `production`: { `region`: ``, `_network`: ``,`createStrategy`: {}, `deleteStrategy`: {} }}"
]}.

(** ** Credentials *)

Definition defaultProviderCredentialName : string := "cloud-resources-aws-credentials".
Definition defaultCredentialsKeyIDName : string := "aws_access_key_id".
Definition defaultCredentialsSecretKeyName : string := "aws_secret_access_key".
Definition defaultSTSCredentialSecretName : string := "sts-credentials".
Definition defaultRoleARNKeyName : string := "role_arn".
Definition defaultTokenPath : string := "/var/run/secrets/openshift/serviceaccount/token".

Definition operatorEntries : list StatementEntry :=
  [{| Stmt_Effect := "Allow";
      Stmt_Action := [
      "s3:CreateBucket"; "s3:DeleteBucket"; "s3:ListBucket"; "s3:ListAllMyBuckets";
      "s3:GetObject"; "s3:DeleteObject"; "s3:PutBucketTagging";
      "s3:PutBucketPublicAccessBlock"; "s3:PutEncryptionConfiguration";
      "ec2:DescribeVpcs"; "ec2:DescribeSubnets"; "ec2:DescribeSecurityGroups";
      "ec2:DescribeInstanceTypes"; "ec2:CreateSecurityGroup"; "ec2:DeleteSecurityGroup";
      "ec2:AuthorizeSecurityGroupIngress"; "ec2:AuthorizeSecurityGroupEgress";
      "ec2:DescribeAvailabilityZones"; "ec2:CreateSubnet"; "ec2:CreateTags";
      "ec2:CreateVpc"; "ec2:DeleteVpc"; "ec2:DeleteSubnet";
      "ec2:CreateVpcPeeringConnection"; "ec2:DescribeVpcPeeringConnections";
      "ec2:AcceptVpcPeeringConnection"; "ec2:DeleteVpcPeeringConnection";
      "ec2:DescribeRouteTables"; "ec2:CreateRoute"; "ec2:DeleteRoute";
      "ec2:DescribeInstanceTypeOfferings"; "elasticache:CreateReplicationGroup";
      "elasticache:DeleteReplicationGroup"; "elasticache:DescribeReplicationGroups";
      "elasticache:DescribeUpdateActions"; "elasticache:BatchApplyUpdateAction";
      "elasticache:AddTagsToResource"; "elasticache:DescribeSnapshots";
      "elasticache:CreateSnapshot"; "elasticache:DeleteSnapshot";
      "elasticache:DescribeCacheClusters"; "elasticache:DescribeCacheSubnetGroups";
      "elasticache:CreateCacheSubnetGroup"; "elasticache:ModifyCacheSubnetGroup";
      "elasticache:DeleteCacheSubnetGroup"; "elasticache:ModifyReplicationGroup";
      "rds:DescribeDBInstances"; "rds:CreateDBInstance"; "rds:DeleteDBInstance";
      "rds:ModifyDBInstance"; "rds:AddTagsToResource"; "rds:DescribeDBSnapshots";
      "rds:CreateDBSnapshot"; "rds:DeleteDBSnapshot";
      "rds:DescribePendingMaintenanceActions"; "rds:CreateDBSubnetGroup";
      "rds:DescribeDBSubnetGroups"; "rds:DeleteDBSubnetGroup";
      "rds:ModifyDBSubnetGroup"; "rds:ListTagsForResource";
      "rds:RemoveTagsFromResource"; "rds:ApplyPendingMaintenanceAction";
      "iam:CreateServiceLinkedRole"; "cloudwatch:ListMetrics";
      "cloudwatch:GetMetricData"];
      Stmt_Resource := "*" |}].
Definition buildPutBucketObjectEntries (bucket : string) : list StatementEntry :=
  [{| Stmt_Effect := "Allow"; Stmt_Action := ["s3:*"];
      Stmt_Resource := "arn:aws:s3:::" +:+ bucket |};
   {| Stmt_Effect := "Allow"; Stmt_Action := ["s3:*"];
      Stmt_Resource := "arn:aws:s3:::" +:+ bucket +:+ "/*" |}].

Record Credentials := {
  Creds_Username : string;
  Creds_PolicyName : string;
  Creds_AccessKeyID : string;
  Creds_SecretAccessKey : string;
  Creds_RoleArn : string;
  Creds_TokenFilePath : string
}.
(** The two implementations of the interface [CredentialManager]. *)
Inductive CredentialManager :=
  | CredentialMinterCredentialManager (ProviderCredentialName : string)
  | STSCredentialManager (OperatorNamespace : string).
(** The type assertion of the credential manager to the STS one. *)
Definition isSTSManager (m : CredentialManager) : bool :=
  match m with STSCredentialManager _ => true | _ => false end.

(** [string(secret.Data[key])] *)
Definition secretData (sec : Secret) (key : string) : string :=
  default "" (default ∅ (Secret_Data sec) !! key).

Section AwsConfig.
Context {S : Type}.

(** The part of [getTierStrategyForProvider] that reads the config map. *)
Definition tierStrategy (cm : gmap string string) (rt tier : string) : M S error StrategyConfig :=
  let rawStrategyMapping := default "" (cm !! rt) in
  if bool_decide (rawStrategyMapping = "") then
    fail (GoErr ("aws strategy for resource type " +:+ rt +:+ " is not defined"))
  else
    strategyMapping ← liftR (unmarshalMapping rawStrategyMapping)
      orWrap ("failed to unmarshal strategy mapping for resource type " +:+ rt);
    match lookupTier tier strategyMapping with
    | Some s => mret s
    | None => fail (GoErr ("no strategy found for deployment type " +:+ rt +:+
                           " and deployment tier " +:+ tier))
    end.
Definition getTierStrategyForProvider (m : ConfigMapConfigManager) (rt tier : string)
  : M S error StrategyConfig :=
  cm ← GetConfigMapOrDefault (CM_configMapName m) (CM_configMapNamespace m) BuildDefaultConfigMap
    orWrap ("failed to get aws strategy config map " +:+ CM_configMapName m +:+
            " in namespace " +:+ CM_configMapNamespace m);
  tierStrategy cm rt tier.

Definition ReadStorageStrategy (m : ConfigMapConfigManager) (rt tier : string)
  : M S error StrategyConfig :=
  getTierStrategyForProvider m rt tier
    orWrap ("failed to get tier to strategy mapping for resource type " +:+ rt).

Definition getDefaultRegion : M S error string :=
  region ← GetAWSRegion orWrap "failed to retrieve region from cluster";
  if bool_decide (region = "")
  then fail (GoErr "failed to retrieve region from cluster, region is not defined")
  else mret region.

Definition GetRegionFromStrategyOrDefault (strategy : StrategyConfig) : M S error string :=
  defaultRegion ← getDefaultRegion orWrap "failed to get default region";
  mret (if bool_decide (Strategy_Region strategy = "") then defaultRegion
        else Strategy_Region strategy).

(** ** k8sutil *)

Definition GetWatchNamespace : M S error string :=
  found ← invoke (LookupEnv "WATCH_NAMESPACE");
  match found with
  | Some ns => mret ns
  | None => fail (GoErr "WATCH_NAMESPACE must be set")
  end.

Definition IsRunModeLocal {E} : M S E bool :=
  stat ← invoke (StatFile "/var/run/secrets/kubernetes.io/serviceaccount");
  mret (match (stat : stat_answer) with StatNotExist => true | _ => false end).

Definition GetOperatorNamespace : M S error string :=
  local_ ← IsRunModeLocal;
  if local_ : bool then GetWatchNamespace
  else
    nsBytes ← invoke (ReadFile "/var/run/secrets/kubernetes.io/serviceaccount/namespace");
    match (nsBytes : read_answer) with
    | ReadOk s => mret (TrimSpace s)
    | ReadNotExist => fail (GoErr "namespace not found for current environment")
    | ReadError e => fail e
    end.

(** ** Credential managers *)

Definition getSTSCredentialsSecret (ns : string) : M S error Secret :=
  ok (invoke (GetSecret defaultSTSCredentialSecretName ns)).

Definition SetSTSCredentialsSecretMetric {E} (ns : string) (err : error) : M S E unit :=
  invoke (SetMetric "cro_sts_credentials_secret"
            {[ "namespace" := ns; "error" := Error err ]} 1).
Definition ResetSTSCredentialsSecretMetric {E} : M S E unit :=
  invoke (ResetMetric "cro_sts_credentials_secret").

Definition NewCredentialManager : M S error CredentialManager :=
  ns ← GetOperatorNamespace;
  r ← try (getSTSCredentialsSecret ns);
  match r with
  | inr err =>
      if IsNotFound err
      then mret (CredentialMinterCredentialManager defaultProviderCredentialName)
      else
        _ ← SetSTSCredentialsSecretMetric ns err;
        fail err
  | inl secret =>
      _ ← ResetSTSCredentialsSecretMetric;
      match Secret_Data secret with
      | Some _ => mret (STSCredentialManager ns)
      | None => fail (GoErr "could not instantiate aws credential manager")
      end
  end.

Definition isSTSCluster {E} : M S E bool :=
  r ← try GetOperatorNamespace;
  match r with
  | inr _ => mret false
  | inl ns =>
      sec ← try (getSTSCredentialsSecret ns);
      mret (match sec with inl _ => true | inr _ => false end)
  end.

(** [controllerutil.CreateOrUpdate] on a request: an object that exists is only
    updated when it changes. *)
Definition applyCredentialRequest (name ns providerSpec : string) : M S error CredentialsRequest :=
  let mutate cr := {| CReq_Name := CReq_Name cr; CReq_Namespace := CReq_Namespace cr;
                      CReq_ProviderSpec := providerSpec; CReq_SecretRef := (name, ns);
                      CReq_Provisioned := CReq_Provisioned cr;
                      CReq_ProviderStatus := CReq_ProviderStatus cr |} in
  existing ← try (ok (invoke (GetCredentialsRequest name ns)));
  match existing with
  | inr err =>
      if IsNotFound err then
        ok (invoke (CreateCredentialsRequest (mutate
          {| CReq_Name := name; CReq_Namespace := ns; CReq_ProviderSpec := "";
             CReq_SecretRef := ("", ""); CReq_Provisioned := false;
             CReq_ProviderStatus := "" |})))
      else fail err
  | inl cr =>
      if bool_decide (mutate cr = cr) then mret cr
      else ok (invoke (UpdateCredentialsRequest (mutate cr)))
  end.
(** Waiting for the request to be provisioned. *)
Definition awaitCredentialRequest (cr : CredentialsRequest) : M S error CredentialsRequest :=
  poll 60
    (r ← try (ok (invoke (GetCredentialsRequest (CReq_Name cr) (CReq_Namespace cr))));
     match r with
     | inl cr' => mret (if CReq_Provisioned cr' then Some cr' else None)
     | inr err => if IsNotFound err then mret None else fail err
     end).

Context `{ThirdParty}.

Definition reconcileCredentialRequest (name ns : string) (entries : list StatementEntry)
  : M S error CredentialsRequest :=
  providerSpec ← liftR (EncodeProviderSpec entries) orWrap "failed to encode provider spec";
  applyCredentialRequest name ns providerSpec
    orWrap ("failed to reconcile credential request " +:+ name +:+ " in namespace " +:+ ns).

Definition reconcileAWSCredentials (cr : CredentialsRequest) : M S error (string * string) :=
  sec ← ok (invoke (GetSecret (CReq_SecretRef cr).1 (CReq_SecretRef cr).2))
    orWrap ("failed to get aws credentials secret " +:+ (CReq_SecretRef cr).1);
  let awsAccessKeyID := secretData sec defaultCredentialsKeyIDName in
  let awsSecretAccessKey := secretData sec defaultCredentialsSecretKeyName in
  if bool_decide (awsAccessKeyID = "") then
    fail (GoErr ("aws access key id is undefined in secret " +:+ Secret_Name sec))
  else if bool_decide (awsSecretAccessKey = "") then
    fail (GoErr ("aws secret access key is undefined in secret " +:+ Secret_Name sec))
  else mret (awsAccessKeyID, awsSecretAccessKey).

Definition reconcileCredentials (name ns : string) (entries : list StatementEntry)
  : M S error Credentials :=
  cr ← reconcileCredentialRequest name ns entries
    orWrap ("failed to reconcile aws credential request " +:+ name);
  cr ← awaitCredentialRequest cr orWrap "timed out waiting for credential request to provision";
  awsProvStatus ← liftR (DecodeProviderStatus (CReq_ProviderStatus cr))
    orWrap ("failed to decode credentials request " +:+ CReq_Name cr);
  keys ← reconcileAWSCredentials cr
    orWrap ("failed to reconcile aws credentials from credential request " +:+ CReq_Name cr);
  mret {| Creds_Username := awsProvStatus.1; Creds_PolicyName := awsProvStatus.2;
          Creds_AccessKeyID := keys.1; Creds_SecretAccessKey := keys.2;
          Creds_RoleArn := ""; Creds_TokenFilePath := "" |}.

(** [STSCredentialManager.ReconcileProviderCredentials] *)
Definition STS_ReconcileProviderCredentials (operatorNamespace : string) : M S error Credentials :=
  secret ← getSTSCredentialsSecret operatorNamespace
    orWrap ("failed to get aws sts credentials secret " +:+ defaultSTSCredentialSecretName);
  let roleArn := secretData secret defaultRoleARNKeyName in
  if bool_decide (roleArn = "") then
    fail (GoErr (defaultRoleARNKeyName +:+ " key is undefined in secret " +:+ Secret_Name secret))
  else mret {| Creds_Username := ""; Creds_PolicyName := "";
               Creds_AccessKeyID := ""; Creds_SecretAccessKey := "";
               Creds_RoleArn := roleArn; Creds_TokenFilePath := defaultTokenPath |}.
(** The method of the interface: that of the implementation at hand. *)
Definition ReconcileProviderCredentials (m : CredentialManager) (ns : string)
  : M S error Credentials :=
  match m with
  | CredentialMinterCredentialManager name => reconcileCredentials name ns operatorEntries
  | STSCredentialManager operatorNamespace => STS_ReconcileProviderCredentials operatorNamespace
  end.

(** [None] is the nil pointer that the STS manager answers. *)
Definition ReconcileBucketOwnerCredentials (m : CredentialManager) (name ns bucket : string)
  : M S error (option Credentials) :=
  match m with
  | CredentialMinterCredentialManager _ =>
      creds ← reconcileCredentials name ns (buildPutBucketObjectEntries bucket);
      mret (Some creds)
  | STSCredentialManager _ => mret None
  end.

(** ** Sessions *)

(** [session.Must(session.NewSession(config))] *)
Definition mustSession (region : string) (creds : session_credentials) : M S error unit :=
  r ← invoke (NewSession (Some region) creds);
  match (r : result unit) with Ok _ => mret tt | Er e => panic (Error e) end.

Definition CreateSessionFromStrategy (credentials : Credentials) (strategy : StrategyConfig)
  : M S error unit :=
  region ← GetRegionFromStrategyOrDefault strategy
    orWrap "failed to get region from strategy while creating aws session";
  if bool_decide (Creds_RoleArn credentials = "") then
    mustSession region (StaticCredentials (Creds_AccessKeyID credentials)
                                          (Creds_SecretAccessKey credentials))
  else
    local_ ← IsRunModeLocal;
    _ ← mustSession region DefaultChain;
    if local_ : bool
    then mustSession region (AssumeRole (Creds_RoleArn credentials))
    else mustSession region (WebIdentityRole (Creds_RoleArn credentials)
           "Red-Hat-cloud-resources-operator" (Creds_TokenFilePath credentials)).

(** ** The block of the standalone network (cluster_network_provider.go) *)

(** [ec2.CreateVpcInput] *)
Definition CreateVpcInputFields : list (string * jkind) :=
  [("AmazonProvidedIpv6CidrBlock", KBool); ("CidrBlock", KString); ("DryRun", KBool);
   ("InstanceTenancy", KString); ("Ipv4IpamPoolId", KString); ("Ipv4NetmaskLength", KInt64);
   ("Ipv6CidrBlock", KString); ("Ipv6CidrBlockNetworkBorderGroup", KString);
   ("Ipv6IpamPoolId", KString); ("Ipv6NetmaskLength", KInt64); ("Ipv6Pool", KString);
   ("TagSpecifications", KSlice (KStruct
      [("ResourceType", KString);
       ("Tags", KSlice (KStruct [("Key", KString); ("Value", KString)]))]))].

Definition ReconcileNetworkProviderConfig (configManager : ConfigMapConfigManager) (tier : string)
  : M S error IPNet :=
  stratCfg ← ReadStorageStrategy configManager "_network" tier
    orWrap "failed to read _network strategy config";
  members ← liftR (unmarshalStruct CreateVpcInputFields (Strategy_CreateStrategy stratCfg))
    orWrap "failed to unmarshal aws vpc create config";
  let cidrBlock :=
    StringValue (asString (fieldValue (map fst CreateVpcInputFields) members "CidrBlock")) in
  if bool_decide (cidrBlock = "") then
    getNonOverlappingDefaultCIDR orWrap "failed to generate default CIDR"
  else
    vpcCidr ← liftR (ParseCIDR cidrBlock)
      orWrap "failed to parse cidr block from _network strategy";
    mret vpcCidr.2.
End AwsConfig.

Example default_strategy :
  match unmarshalMapping (default "" (BuildDefaultConfigMap !! "postgres")) with
  | Ok m => lookupTier "production" m
  | Er _ => None
  end = Some {| Strategy_Region := ""; Strategy_CreateStrategy := Some (JObj []);
                Strategy_DeleteStrategy := Some (JObj []); Strategy_ServiceUpdates := None |}.
Proof. vm_compute. reflexivity. Qed.
