(* ===== verification/Metrics.v ===== *)
(** * pkg/resources: labels.go, custom_metrics.go

    The labels of the metrics, and the map of gauge vectors behind [SetMetric].
    The providers see the latter only through the calls [SetMetric],
    [SetMetricCurrentTime] and [ResetMetric]. *)
From S2P Require Import Prelude Effects Api.

(** ** Labels *)

Definition labelOf (om : ObjectMeta) (key : string) : string := default "" (Meta_Labels om !! key).

Definition BuildGenericMetricLabels (om : ObjectMeta) (clusterID instanceID providerName : string)
  : gmap string string :=
  {[ "clusterID" := clusterID; "resourceID" := Meta_Name om; "namespace" := Meta_Namespace om;
     "instanceID" := instanceID; "productName" := labelOf om "productName";
     "strategy" := providerName ]}.
Definition BuildInfoMetricLabels (r : ObjectMeta) (status clusterID cacheName providerName : string)
  : gmap string string :=
  <["status" := if bool_decide (status = "") then "nil" else status]>
    (BuildGenericMetricLabels r clusterID cacheName providerName).
Definition BuildStatusMetricsLabels (r : ObjectMeta)
    (clusterID cacheName providerName phase : string) : gmap string string :=
  <["statusPhase" := phase]> (BuildGenericMetricLabels r clusterID cacheName providerName).
Definition Btof64 (b : bool) : Z := if b then 1 else 0.

(** ** Gauge vectors

    A vector of Prometheus has the names of its labels and a value for each
    combination of label values that was set. *)
Record GaugeVec := {
  GV_keys : gset string;
  GV_values : gmap (gmap string string) Z
}.
Abbreviation MetricVecs := (gmap string GaugeVec).

(** [gv.With(labels)] panics when the label names are not those of the vector. *)
Definition vectorSet {E} (gv : GaugeVec) (labels : gmap string string) (value : Z)
  : outcome E GaugeVec :=
  if decide (dom labels = GV_keys gv)
  then Val {| GV_keys := GV_keys gv; GV_values := <[labels := value]> (GV_values gv) |}
  else Panic "inconsistent label cardinality or names".
Definition vectorReset (gv : GaugeVec) : GaugeVec :=
  {| GV_keys := GV_keys gv; GV_values := ∅ |}.

Definition SetMetric_ {E} (vecs : MetricVecs) (name : string) (labels : gmap string string)
    (value : Z) : outcome E MetricVecs :=
  match vecs !! name with
  | Some gv => match vectorSet gv labels value with
               | Val gv' => Val (<[name := gv']> vecs)
               | Err e => Err e
               | Panic w => Panic w
               end
  | None => Val (<[name := {| GV_keys := dom labels; GV_values := ∅ |}]> vecs)
  end.
Definition ResetMetric_ (vecs : MetricVecs) (name : string) : MetricVecs :=
  alter vectorReset name vecs.
(** One turn of the loop of [StartGaugeVector]. *)
Definition resetAll (vecs : MetricVecs) : MetricVecs := vectorReset <$> vecs.

(** The value that is exported for some labels. *)
Definition exported (vecs : MetricVecs) (name : string) (labels : gmap string string) : option Z :=
  gv ← vecs !! name; GV_values gv !! labels.

(** The first value of a metric is lost: the call that creates the vector
    exports nothing, and only the next one sets the value it is given.  A value
    is set for its labels only, and never under another name. *)
Theorem SetMetric_first_value_lost {E} (vecs : MetricVecs) (name : string)
    (l1 l2 : gmap string string) (v1 v2 : Z) :
  vecs !! name = None → dom l2 = dom l1 →
  ∃ vecs1 vecs2,
    SetMetric_ (E := E) vecs name l1 v1 = Val vecs1 ∧
    SetMetric_ (E := E) vecs1 name l2 v2 = Val vecs2 ∧
    (∀ l, exported vecs1 name l = None) ∧
    (∀ l, exported vecs2 name l = if decide (l = l2) then Some v2 else None) ∧
    (∀ n l, n ≠ name → exported vecs2 n l = exported vecs n l).
Proof.
  intros Hn Hd. unfold SetMetric_, exported, vectorSet. rewrite Hn. eexists. eexists. split; [done|].
  rewrite lookup_insert. cbn. destruct (decide (name = name)) as [_|]; [|done]. cbn.
  rewrite decide_True by done. split; [done|]. split; [|split].
  - intros l. apply lookup_empty.
  - intros l. rewrite lookup_insert_eq. cbn. rewrite lookup_insert, lookup_empty.
    destruct (decide (l2 = l)), (decide (l = l2)); congruence.
  - intros n l Hne. by rewrite !lookup_insert_ne.
Qed.

Lemma SetMetric_first_value_lost_witness :
  ∃ vecs1 vecs2 : MetricVecs,
    SetMetric_ (E := error) ∅ "cro_vpc_action" {[ "action" := "create" ]} 1 = Val vecs1 ∧
    SetMetric_ (E := error) vecs1 "cro_vpc_action" {[ "action" := "delete" ]} 1 = Val vecs2 ∧
    exported vecs1 "cro_vpc_action" {[ "action" := "create" ]} = None.
Proof.
  destruct (SetMetric_first_value_lost (E := error) ∅ "cro_vpc_action"
    {[ "action" := "create" ]} {[ "action" := "delete" ]} 1 1) as (a & b & H1 & H2 & H3 & _).
  - reflexivity.
  - vm_compute. reflexivity.
  - exists a, b. split; [exact H1|split; [exact H2|apply H3]].
Defined.
