(* ===== verification/AwsPostgres.v ===== *)
(** * pkg/providers/aws/provider_postgres.go

    The RDS provider: the configuration of an instance, its creation, update,
    tagging and deletion, and its metrics.  The custom resource is the state of
    the programs.  A method that answers a status message next to its error fails
    with the pair of both; log statements are left out, except for the pointers
    they read. *)
From S2P Require Import Prelude Effects GoNet GoStrings Json Api Resources Metrics.
From S2P Require Import Subnets ClusterVpc NetworkProvider AwsConfig.
Local Open Scope go_scope.

(** ** Constants *)

Definition defaultAwsAllocatedStorage : Z := 20.
Definition defaultAwsBackupRetentionPeriod : Z := 31.
Definition defaultAwsCopyTagsToSnapshot : bool := true.
Definition defaultAwsDBInstanceClass : string := "db.t3.small".
Definition defaultAwsDeleteAutomatedBackups : bool := true.
Definition defaultAwsEngine : string := "postgres".
Definition defaultAwsEngineVersion : string := "13.13".
Definition defaultAwsMaxAllocatedStorage : Z := 100.
Definition defaultAwsMultiAZ : bool := true.
Definition defaultAwsPostgresDatabase : string := "postgres".
Definition defaultAwsPostgresDeletionProtection : bool := true.
Definition defaultAwsPostgresPort : Z := 5432.
Definition defaultAwsPostgresUser : string := "postgres".
Definition defaultAwsPubliclyAccessible : bool := false.
Definition defaultAwsSkipFinalSnapshot : bool := false.
Definition defaultCredSecSuffix : string := "-aws-rds-credentials".
Definition defaultPostgresPasswordKey : string := "password".
Definition defaultPostgresUserKey : string := "user".
Definition defaultStorageEncrypted : bool := true.
Definition postgresProviderName : string := "aws-rds".
Definition existingCert : string := "rds-ca-2019".
Definition newCert : string := "rds-ca-rsa2048-g1".
Definition defaultSupportedEngineVersions : list string := ["13.13"; "13.12"; "13.11"].
Definition healthyAWSDBInstanceStatuses : list string :=
  ["backtracking"; "available"; "backing-up"; "configuring-enhanced-monitoring";
   "configuring-iam-database-auth"; "configuring-log-exports"; "converting-to-vpc"; "creating";
   "deleting"; "maintenance"; "modifying"; "moving-to-vpc"; "renaming";
   "resetting-master-credentials"; "starting"; "storage-optimization"; "upgrading"].

(** ** The configuration in the strategies *)

Definition CreateDBInstanceInputFields : list (string * jkind) :=
  [("AllocatedStorage", KInt64); ("AutoMinorVersionUpgrade", KBool);
   ("AvailabilityZone", KString); ("BackupRetentionPeriod", KInt64); ("BackupTarget", KString);
   ("CACertificateIdentifier", KString); ("CharacterSetName", KString);
   ("CopyTagsToSnapshot", KBool); ("CustomIamInstanceProfile", KString);
   ("DBClusterIdentifier", KString); ("DBInstanceClass", KString);
   ("DBInstanceIdentifier", KString); ("DBName", KString); ("DBParameterGroupName", KString);
   ("DBSecurityGroups", KSlice KString); ("DBSubnetGroupName", KString);
   ("DBSystemId", KString); ("DedicatedLogVolume", KBool); ("DeletionProtection", KBool);
   ("Domain", KString); ("DomainAuthSecretArn", KString); ("DomainDnsIps", KSlice KString);
   ("DomainFqdn", KString); ("DomainIAMRoleName", KString); ("DomainOu", KString);
   ("EnableCloudwatchLogsExports", KSlice KString); ("EnableCustomerOwnedIp", KBool);
   ("EnableIAMDatabaseAuthentication", KBool); ("EnablePerformanceInsights", KBool);
   ("Engine", KString); ("EngineVersion", KString); ("Iops", KInt64); ("KmsKeyId", KString);
   ("LicenseModel", KString); ("ManageMasterUserPassword", KBool);
   ("MasterUserPassword", KString); ("MasterUserSecretKmsKeyId", KString);
   ("MasterUsername", KString); ("MaxAllocatedStorage", KInt64);
   ("MonitoringInterval", KInt64); ("MonitoringRoleArn", KString); ("MultiAZ", KBool);
   ("MultiTenant", KBool); ("NcharCharacterSetName", KString); ("NetworkType", KString);
   ("OptionGroupName", KString); ("PerformanceInsightsKMSKeyId", KString);
   ("PerformanceInsightsRetentionPeriod", KInt64); ("Port", KInt64);
   ("PreferredBackupWindow", KString); ("PreferredMaintenanceWindow", KString);
   ("ProcessorFeatures", KSlice (KStruct [("Name", KString); ("Value", KString)]));
   ("PromotionTier", KInt64); ("PubliclyAccessible", KBool); ("StorageEncrypted", KBool);
   ("StorageThroughput", KInt64); ("StorageType", KString);
   ("Tags", KSlice (KStruct [("Key", KString); ("Value", KString)]));
   ("TdeCredentialArn", KString); ("TdeCredentialPassword", KString); ("Timezone", KString);
   ("VpcSecurityGroupIds", KSlice KString)].
(** The fields that the operator reads or sets. *)
Definition CreateDBInstanceInputUsed : list string :=
  ["AllocatedStorage"; "AutoMinorVersionUpgrade"; "AvailabilityZone"; "BackupRetentionPeriod";
   "CopyTagsToSnapshot"; "DBInstanceClass"; "DBInstanceIdentifier"; "DBName";
   "DBSubnetGroupName"; "DeletionProtection"; "Engine"; "EngineVersion"; "MasterUserPassword";
   "MasterUsername"; "MaxAllocatedStorage"; "MultiAZ"; "Port"; "PreferredBackupWindow";
   "PreferredMaintenanceWindow"; "PubliclyAccessible"; "StorageEncrypted"; "Tags";
   "VpcSecurityGroupIds"].

(** A slice of tags; the elements of a strategy that are null are dropped. *)
Definition asTags (v : option json) : list AwsTag :=
  match v with
  | Some (JArr l) => omap (λ t, match t with
      | JObj ms => Some {| AwsTag_Key := asString (fieldValue ["Key"; "Value"] ms "Key");
                           AwsTag_Value := asString (fieldValue ["Key"; "Value"] ms "Value") |}
      | _ => None
      end) l
  | _ => []
  end.

(** The fields given in an object that the operator does not look at. *)
Definition otherFields (fields used : list string) (members : list (string * json))
  : list (string * json) :=
  omap (λ f, if bool_decide (f ∈ used) then None else (λ v, (f, v)) <$> fieldValue fields members f)
       fields.

Definition decodeCreateDBInstanceInput (members : list (string * json)) : CreateDBInstanceInput :=
  let fields := map fst CreateDBInstanceInputFields in
  let v := fieldValue fields members in
  {| CI_AllocatedStorage := asInt64 (v "AllocatedStorage");
     CI_AutoMinorVersionUpgrade := asBool (v "AutoMinorVersionUpgrade");
     CI_AvailabilityZone := asString (v "AvailabilityZone");
     CI_BackupRetentionPeriod := asInt64 (v "BackupRetentionPeriod");
     CI_CopyTagsToSnapshot := asBool (v "CopyTagsToSnapshot");
     CI_DBInstanceClass := asString (v "DBInstanceClass");
     CI_DBInstanceIdentifier := asString (v "DBInstanceIdentifier");
     CI_DBName := asString (v "DBName");
     CI_DBSubnetGroupName := asString (v "DBSubnetGroupName");
     CI_DeletionProtection := asBool (v "DeletionProtection");
     CI_Engine := asString (v "Engine");
     CI_EngineVersion := asString (v "EngineVersion");
     CI_MasterUserPassword := asString (v "MasterUserPassword");
     CI_MasterUsername := asString (v "MasterUsername");
     CI_MaxAllocatedStorage := asInt64 (v "MaxAllocatedStorage");
     CI_MultiAZ := asBool (v "MultiAZ");
     CI_Port := asInt64 (v "Port");
     CI_PreferredBackupWindow := asString (v "PreferredBackupWindow");
     CI_PreferredMaintenanceWindow := asString (v "PreferredMaintenanceWindow");
     CI_PubliclyAccessible := asBool (v "PubliclyAccessible");
     CI_StorageEncrypted := asBool (v "StorageEncrypted");
     CI_Tags := asTags (v "Tags");
     CI_VpcSecurityGroupIds := asStrings (v "VpcSecurityGroupIds");
     CI_Other := otherFields fields CreateDBInstanceInputUsed members |}.

Definition DeleteDBInstanceInputFields : list (string * jkind) :=
  [("DBInstanceIdentifier", KString); ("DeleteAutomatedBackups", KBool);
   ("FinalDBSnapshotIdentifier", KString); ("SkipFinalSnapshot", KBool)].
Definition decodeDeleteDBInstanceInput (members : list (string * json)) : DeleteDBInstanceInput :=
  let v := fieldValue (map fst DeleteDBInstanceInputFields) members in
  {| DI_DBInstanceIdentifier := asString (v "DBInstanceIdentifier");
     DI_DeleteAutomatedBackups := asBool (v "DeleteAutomatedBackups");
     DI_FinalDBSnapshotIdentifier := asString (v "FinalDBSnapshotIdentifier");
     DI_SkipFinalSnapshot := asBool (v "SkipFinalSnapshot") |}.

(** ** Comparing an instance with its configuration *)

(** [if *want != *found { mi.Field = want }] *)
Definition differs {A} `{EqDecision A} (want found : option A) : outcome error (option A) :=
  w ← load want; f ← load found; mret (if bool_decide (w ≠ f) then Some w else None).
(** The same for a field that may be left out of the strategy. *)
Definition differsIfSet {A} `{EqDecision A} (want found : option A)
  : outcome error (option A) :=
  match want with Some _ => differs want found | None => mret None end.

(** [a != nil && b != nil && *a == *b] *)
Definition samePtr {A} `{EqDecision A} (a b : option A) : bool :=
  match a, b with Some x, Some y => bool_decide (x = y) | _, _ => false end.

(** True when no modification of the input is pending. *)
Definition verifyPendingModification (mi : ModifyDBInstanceInput)
    (pm : option PendingModifiedValues) : bool :=
  match pm with
  | None => true
  | Some pm =>
      negb (samePtr (MI_DBPortNumber mi) (PM_Port pm) ||
            samePtr (MI_BackupRetentionPeriod mi) (PM_BackupRetentionPeriod pm) ||
            samePtr (MI_DBInstanceClass mi) (PM_DBInstanceClass pm) ||
            samePtr (MI_EngineVersion mi) (PM_EngineVersion pm) ||
            samePtr (MI_MultiAZ mi) (PM_MultiAZ pm))
  end.

Definition isSet {A} (p : option A) : bool := match p with Some _ => true | None => false end.

Definition VerifyVersionUpgradeNeeded `{ThirdParty} (currentVersion desiredVersion : string)
  : outcome error bool :=
  match NewVersion currentVersion with
  | Er err => Err (WrapErr err "failed to parse current version")
  | Ok current =>
      match NewVersion desiredVersion with
      | Er err => Err (WrapErr err "failed to parse desired version")
      | Ok desired => Val (LessThan current desired)
      end
  end.

(** The engine version to set, when an upgrade is needed. *)
Definition engineUpgrade `{ThirdParty} (rdsConfig : CreateDBInstanceInput)
    (foundConfig : DBInstance) : outcome error (option string) :=
  match CI_EngineVersion rdsConfig with
  | None => mret None
  | Some desired =>
      current ← load (DB_EngineVersion foundConfig);
      match VerifyVersionUpgradeNeeded current desired with
      | Val needed => mret (if needed : bool then Some desired else None)
      | Err err => Err (WrapErr err "invalid postgres version")
      | Panic w => Panic w
      end
  end.

Definition buildRDSUpdateStrategy `{ThirdParty} (rdsConfig : CreateDBInstanceInput)
    (foundConfig : DBInstance) (cr : CR) : outcome error (option ModifyDBInstanceInput) :=
  _ ← load (DB_DBInstanceIdentifier foundConfig);
  cert ← load (DB_CACertificateIdentifier foundConfig);
  let cACertificateIdentifier :=
    if bool_decide (cert = existingCert) then Some newCert else None in
  deletionProtection ← differs (CI_DeletionProtection rdsConfig) (DB_DeletionProtection foundConfig);
  port ← match DB_Endpoint foundConfig with
         | Some ep => differs (CI_Port rdsConfig) (Endpoint_Port ep)
         | None => mret None
         end;
  backupRetentionPeriod ← differs (CI_BackupRetentionPeriod rdsConfig)
                                  (DB_BackupRetentionPeriod foundConfig);
  dBInstanceClass ← differs (CI_DBInstanceClass rdsConfig) (DB_DBInstanceClass foundConfig);
  publiclyAccessible ← differs (CI_PubliclyAccessible rdsConfig)
                               (DB_PubliclyAccessible foundConfig);
  maxAllocatedStorage ← differs (CI_MaxAllocatedStorage rdsConfig)
                                (DB_MaxAllocatedStorage foundConfig);
  multiAZ ← differs (CI_MultiAZ rdsConfig) (DB_MultiAZ foundConfig);
  autoMinorVersionUpgrade ← differsIfSet (CI_AutoMinorVersionUpgrade rdsConfig)
                                         (DB_AutoMinorVersionUpgrade foundConfig);
  preferredBackupWindow ← differsIfSet (CI_PreferredBackupWindow rdsConfig)
                                       (DB_PreferredBackupWindow foundConfig);
  preferredMaintenanceWindow ← differsIfSet (CI_PreferredMaintenanceWindow rdsConfig)
                                            (DB_PreferredMaintenanceWindow foundConfig);
  engineVersion ← engineUpgrade rdsConfig foundConfig;
  let mi := {|
    MI_DBInstanceIdentifier := DB_DBInstanceIdentifier foundConfig;
    MI_CACertificateIdentifier := cACertificateIdentifier;
    MI_DeletionProtection := deletionProtection;
    MI_DBPortNumber := port;
    MI_BackupRetentionPeriod := backupRetentionPeriod;
    MI_DBInstanceClass := dBInstanceClass;
    MI_PubliclyAccessible := publiclyAccessible;
    MI_MaxAllocatedStorage := maxAllocatedStorage;
    MI_MultiAZ := multiAZ;
    MI_AutoMinorVersionUpgrade := autoMinorVersionUpgrade;
    MI_PreferredBackupWindow := preferredBackupWindow;
    MI_PreferredMaintenanceWindow := preferredMaintenanceWindow;
    MI_EngineVersion := engineVersion;
    MI_AllowMajorVersionUpgrade := if isSet engineVersion then Some true else None;
    MI_ApplyImmediately :=
      if isSet engineVersion && Spec_ApplyImmediately (CR_Spec cr) then Some true else None |} in
  let updateFound :=
    isSet cACertificateIdentifier || isSet deletionProtection || isSet port ||
    isSet backupRetentionPeriod || isSet dBInstanceClass || isSet publiclyAccessible ||
    isSet maxAllocatedStorage || isSet multiAZ || isSet autoMinorVersionUpgrade ||
    isSet preferredBackupWindow || isSet preferredMaintenanceWindow || isSet engineVersion in
  if (negb updateFound ||
      negb (verifyPendingModification mi (DB_PendingModifiedValues foundConfig))) &&
     negb (default false (MI_ApplyImmediately mi))
  then mret None
  else mret (Some mi).

Definition rdsInstanceStatusIsHealthy (instance : DBInstance) : outcome error bool :=
  status ← load (DB_DBInstanceStatus instance);
  mret (Contains_ healthyAWSDBInstanceStatuses status).

Definition getFoundInstance {E} (pi : list DBInstance) (config : CreateDBInstanceInput)
  : outcome E (option DBInstance) :=
  findByPtr DB_DBInstanceIdentifier (CI_DBInstanceIdentifier config) pi.

(** ** Programs *)

Record PostgresProvider := {
  P_CredentialManager : CredentialManager;
  P_ConfigManager : ConfigMapConfigManager
}.
Record PostgresDeploymentDetails := {
  PDD_Username : string;
  PDD_Password : string;
  PDD_Host : string;
  PDD_Database : string;
  PDD_Port : Z
}.
(** [PostgresDeploymentDetails.Data] (types.go) *)
Definition PostgresData (d : PostgresDeploymentDetails) : gmap string string :=
  {[ "username" := PDD_Username d; "password" := PDD_Password d; "host" := PDD_Host d;
     "database" := PDD_Database d; "port" := itoa (PDD_Port d) ]}.

(** [return msg, errorUtil.Wrap(err, msg)] and [return msg, err] *)
Definition wrapBoth (msg : string) (err : error) : string * error := (msg, WrapErr err msg).
Definition withMsg (msg : string) (err : error) : string * error := (msg, err).

Definition SupportsStrategy (d : string) : bool := bool_decide (d = "aws").
Definition GetReconcileTime {S E} (pg : CR) : M S E Z :=
  if bool_decide (Status_Phase (CR_Status pg) ≠ PhaseComplete) then mret (60 * second)%Z
  else GetForcedReconcileTimeOrDefault defaultReconcileTime.

Section Postgres.
Context {S : Type}.

Definition getRDSInstances : M S error (list DBInstance) :=
  poll 60 (listOutput ← invoke DescribeDBInstances;
           mret (match listOutput with Ok l => Some l | Er _ => None end)).

(** The create, delete and service update configurations and the strategy they
    are read from. *)
Definition getRDSConfig (p : PostgresProvider) (r : CR)
  : M S error (CreateDBInstanceInput * DeleteDBInstanceInput * list string * StrategyConfig) :=
  stratCfg ← ReadStorageStrategy (P_ConfigManager p) "postgres" (Spec_Tier (CR_Spec r))
    orWrap "failed to read aws strategy config";
  defRegion ← GetRegionFromStrategyOrDefault stratCfg orWrap "failed to get default region";
  let stratCfg := if bool_decide (Strategy_Region stratCfg = "")
                  then {| Strategy_Region := defRegion;
                          Strategy_CreateStrategy := Strategy_CreateStrategy stratCfg;
                          Strategy_DeleteStrategy := Strategy_DeleteStrategy stratCfg;
                          Strategy_ServiceUpdates := Strategy_ServiceUpdates stratCfg |}
                  else stratCfg in
  create ← liftR (unmarshalStruct CreateDBInstanceInputFields (Strategy_CreateStrategy stratCfg))
    orWrap "failed to unmarshal aws rds cluster configuration";
  delete ← liftR (unmarshalStruct DeleteDBInstanceInputFields (Strategy_DeleteStrategy stratCfg))
    orWrap "failed to unmarshal aws rds cluster configuration";
  updates ← (match Strategy_ServiceUpdates stratCfg with
             | Some raw => liftR (unmarshalStrings raw)
                 orWrap "failed to unmarshal aws rds cluster configuration (serviceUpdates field)"
             | None => mret []
             end);
  mret (decodeCreateDBInstanceInput create, decodeDeleteDBInstanceInput delete, updates, stratCfg).

Definition getDefaultRdsTags (cr : CR) : M S error (list AwsTag) :=
  tags ← GetDefaultResourceTags (Spec_Type (CR_Spec cr)) (Meta_Name (CR_Meta cr))
           (labelOf (CR_Meta cr) "productName") orWrap "Failed to get default RDS tags";
  mret (genericToRdsTags tags.1).

Definition buildInstanceName (pg : CR) : M S error string :=
  BuildInfraNameFromObject (CR_Meta pg) defaultAwsIdentifierLength
    onError (λ err, GoErr ("error occurred building instance name: " +:+ Error err)).

Definition buildRDSCreateStrategy (pg : CR) (cfg : CreateDBInstanceInput)
    (postgresPassword : string) : M S error CreateDBInstanceInput :=
  let engineVersion := default defaultAwsEngineVersion (CI_EngineVersion cfg) in
  let engineVersion := if negb (Contains_ defaultSupportedEngineVersions engineVersion)
                       then defaultAwsEngineVersion else engineVersion in
  instanceName ← buildInstanceName pg orWrap "failed to retrieve rds config";
  let multiAZ := default defaultAwsMultiAZ (CI_MultiAZ cfg) in
  subGroup ← BuildInfraName defaultSubnetPostfix defaultAwsIdentifierLength
    orWrap "failed to build subnet group name";
  secName ← BuildInfraName defaultSecurityGroupPostfix defaultAwsIdentifierLength
    orWrap "error building subnet group name";
  foundSecGroup ← getSecurityGroup secName orWrap "";
  vpcSecurityGroupIds ← (match foundSecGroup, CI_VpcSecurityGroupIds cfg with
    | Some g, None => id ← deref (SG_GroupId g); mret (Some [Some id])
    | _, ids => mret ids
    end);
  mret {|
    CI_AllocatedStorage := Some (default defaultAwsAllocatedStorage (CI_AllocatedStorage cfg));
    CI_AutoMinorVersionUpgrade := Some (default false (CI_AutoMinorVersionUpgrade cfg));
    CI_AvailabilityZone := if multiAZ then None else CI_AvailabilityZone cfg;
    CI_BackupRetentionPeriod :=
      Some (default defaultAwsBackupRetentionPeriod (CI_BackupRetentionPeriod cfg));
    CI_CopyTagsToSnapshot :=
      Some (default defaultAwsCopyTagsToSnapshot (CI_CopyTagsToSnapshot cfg));
    CI_DBInstanceClass := Some (default defaultAwsDBInstanceClass (CI_DBInstanceClass cfg));
    CI_DBInstanceIdentifier := Some (default instanceName (CI_DBInstanceIdentifier cfg));
    CI_DBName := Some (default defaultAwsPostgresDatabase (CI_DBName cfg));
    CI_DBSubnetGroupName := Some (default subGroup (CI_DBSubnetGroupName cfg));
    CI_DeletionProtection :=
      Some (default defaultAwsPostgresDeletionProtection (CI_DeletionProtection cfg));
    CI_Engine := Some defaultAwsEngine;
    CI_EngineVersion := Some engineVersion;
    CI_MasterUserPassword := Some (default postgresPassword (CI_MasterUserPassword cfg));
    CI_MasterUsername := Some (default defaultAwsPostgresUser (CI_MasterUsername cfg));
    CI_MaxAllocatedStorage :=
      Some (default defaultAwsMaxAllocatedStorage (CI_MaxAllocatedStorage cfg));
    CI_MultiAZ := Some multiAZ;
    CI_Port := Some (default defaultAwsPostgresPort (CI_Port cfg));
    CI_PreferredBackupWindow := CI_PreferredBackupWindow cfg;
    CI_PreferredMaintenanceWindow := CI_PreferredMaintenanceWindow cfg;
    CI_PubliclyAccessible :=
      Some (default defaultAwsPubliclyAccessible (CI_PubliclyAccessible cfg));
    CI_StorageEncrypted := Some (default defaultStorageEncrypted (CI_StorageEncrypted cfg));
    CI_Tags := CI_Tags cfg;
    CI_VpcSecurityGroupIds := vpcSecurityGroupIds;
    CI_Other := CI_Other cfg |}.

(** The delete configuration; the identifier of the create configuration is its
    default. *)
Definition buildRDSDeleteConfig (pg : CR) (create : CreateDBInstanceInput)
    (delete : DeleteDBInstanceInput) : M S error DeleteDBInstanceInput :=
  instanceIdentifier ← BuildInfraNameFromObject (CR_Meta pg) defaultAwsIdentifierLength
    orWrap "failed to retrieve rds config";
  let identifier := match DI_DBInstanceIdentifier delete with
                    | Some id => id
                    | None => default instanceIdentifier (CI_DBInstanceIdentifier create)
                    end in
  let skipFinalSnapshot := default defaultAwsSkipFinalSnapshot (DI_SkipFinalSnapshot delete) in
  snapshotIdentifier ← BuildTimestampedInfraNameFromObject (CR_Meta pg) defaultAwsIdentifierLength
    orWrap "failed to retrieve timestamped rds config";
  mret {|
    DI_DBInstanceIdentifier := Some identifier;
    DI_DeleteAutomatedBackups :=
      Some (default defaultAwsDeleteAutomatedBackups (DI_DeleteAutomatedBackups delete));
    DI_FinalDBSnapshotIdentifier :=
      match DI_FinalDBSnapshotIdentifier delete with
      | None => if negb skipFinalSnapshot then Some snapshotIdentifier else None
      | Some f => Some f
      end;
    DI_SkipFinalSnapshot := Some skipFinalSnapshot |}.

(** ** Tags, secret and network of the cluster VPC *)

Definition buildDefaultRDSSecret (ps : CR) : M S error Secret :=
  password ← try GeneratePassword;
  match password with
  | inl password =>
      mret {| Secret_Name := Meta_Name (CR_Meta ps) +:+ defaultCredSecSuffix;
              Secret_Namespace := Meta_Namespace (CR_Meta ps);
              Secret_Owners := []; Secret_Data := None;
              Secret_StringData := {[ defaultPostgresUserKey := defaultAwsPostgresUser;
                                      defaultPostgresPasswordKey := password ]};
              Secret_Type := "Opaque" |}
  | inr _ => (* the nil secret is read by the caller *) lift nil_deref
  end.

(** The tags of the create input of an STS cluster. *)
Definition buildRDSTagCreateStrategy (cr : CR) (cfg : CreateDBInstanceInput)
  : M S (string * error) CreateDBInstanceInput :=
  rdsTags ← getDefaultRdsTags cr onError (wrapBoth "Failed to build default tags");
  let addonName := labelOf (CR_Meta cr) "addonName" in
  let rdsTags := if bool_decide (addonName = "") then rdsTags
                 else rdsTags ++ [{| AwsTag_Key := Some "add-on-name";
                                     AwsTag_Value := Some addonName |}] in
  mret {|
    CI_AllocatedStorage := CI_AllocatedStorage cfg;
    CI_AutoMinorVersionUpgrade := CI_AutoMinorVersionUpgrade cfg;
    CI_AvailabilityZone := CI_AvailabilityZone cfg;
    CI_BackupRetentionPeriod := CI_BackupRetentionPeriod cfg;
    CI_CopyTagsToSnapshot := Some true;
    CI_DBInstanceClass := CI_DBInstanceClass cfg;
    CI_DBInstanceIdentifier := CI_DBInstanceIdentifier cfg;
    CI_DBName := CI_DBName cfg;
    CI_DBSubnetGroupName := CI_DBSubnetGroupName cfg;
    CI_DeletionProtection := CI_DeletionProtection cfg;
    CI_Engine := CI_Engine cfg;
    CI_EngineVersion := CI_EngineVersion cfg;
    CI_MasterUserPassword := CI_MasterUserPassword cfg;
    CI_MasterUsername := CI_MasterUsername cfg;
    CI_MaxAllocatedStorage := CI_MaxAllocatedStorage cfg;
    CI_MultiAZ := CI_MultiAZ cfg;
    CI_Port := CI_Port cfg;
    CI_PreferredBackupWindow := CI_PreferredBackupWindow cfg;
    CI_PreferredMaintenanceWindow := CI_PreferredMaintenanceWindow cfg;
    CI_PubliclyAccessible := CI_PubliclyAccessible cfg;
    CI_StorageEncrypted := CI_StorageEncrypted cfg;
    CI_Tags := rdsTags;
    CI_VpcSecurityGroupIds := CI_VpcSecurityGroupIds cfg;
    CI_Other := CI_Other cfg |}.

Definition TagRDSPostgres (cr : CR) (foundInstance : DBInstance) : M S (string * error) string :=
  identifier ← deref (DB_DBInstanceIdentifier foundInstance);
  rdsTag ← getDefaultRdsTags cr onError (wrapBoth "Failed to build default tags");
  arn ← deref (DB_DBInstanceArn foundInstance);
  _ ← ok (invoke (RDS_AddTagsToResource (Some arn) rdsTag))
    onError (wrapBoth "Failed to add Tags to RDS instance");
  rdsSnapshotList ← ok (invoke (DescribeDBSnapshots (Some identifier) None))
    onError (wrapBoth "Can't get Snapshot info");
  _ ← forM rdsSnapshotList (λ snapshot,
    snapshotArn ← deref (Snap_DBSnapshotArn snapshot);
    ok (invoke (RDS_AddTagsToResource (Some snapshotArn) rdsTag))
      onError (wrapBoth "Failed to add Tags to RDS Snapshot"));
  mret "successfully created and tagged".

Definition configureRDSVpc `{ThirdParty} : M S error unit :=
  sgID ← BuildInfraName defaultSubnetPostfix defaultAwsIdentifierLength
    orWrap "error building subnet group name";
  groups ← ok (invoke DescribeDBSubnetGroups) orWrap "error describing subnet groups";
  foundSubnet ← lift (findPtr DBSG_Name sgID groups);
  match foundSubnet with
  | Some _ => mret tt
  | None =>
      defaultOrganizationTag ← GetOrganizationTag;
      clusterID ← GetClusterID orWrap "error getting cluster id";
      subIDs ← GetPrivateSubnetIDS orWrap "error getting vpc subnets";
      ok (invoke (CreateDBSubnetGroup (Some defaultSubnetGroupDesc) (Some sgID) subIDs
                    [{| AwsTag_Key := Some (defaultOrganizationTag +:+ "clusterID");
                        AwsTag_Value := Some clusterID |}]))
        orWrap "unable to create db subnet group"
  end.

(** ** Metrics *)

(** The name of the instance, empty when it cannot be built. *)
Definition instanceNameOrEmpty {E} (cr : CR) : M S E string :=
  r ← try (buildInstanceName cr);
  mret (match r with inl name => name | inr _ => "" end).

Definition setPostgresMaxMemoryMetric {E} (instanceTypes : list (option Z))
    (genericLabels : gmap string string) : M S E unit :=
  match instanceTypes with
  | Some sizeInMiB :: _ =>
      invoke (SetMetric "cro_postgres_max_memory" genericLabels (sizeInMiB * (1024 * 1024)))
  | _ => mret tt
  end.

Definition statusPhases : list string :=
  [PhaseFailed; PhaseDeleteInProgress; PhasePaused; PhaseComplete; PhaseInProgress].

Definition exposePostgresMetrics {E} (cr : CR) (instance : option DBInstance) : M S E unit :=
  instanceName ← instanceNameOrEmpty cr;
  r ← try GetClusterID;
  match r with
  | inr _ => mret tt
  | inl clusterID =>
      let status := match instance with
                    | Some i => StringValue (DB_DBInstanceStatus i) | None => "" end in
      let infoLabels := BuildInfoMetricLabels (CR_Meta cr) status clusterID instanceName
                          postgresProviderName in
      let genericLabels := BuildGenericMetricLabels (CR_Meta cr) clusterID instanceName
                             postgresProviderName in
      _ ← invoke (SetMetricCurrentTime "cro_postgres_info" infoLabels);
      _ ← forM statusPhases (λ phase,
        invoke (SetMetric "cro_postgres_status_phase"
          (BuildStatusMetricsLabels (CR_Meta cr) clusterID instanceName postgresProviderName phase)
          (Btof64 (bool_decide (Status_Phase (CR_Status cr) = phase)))));
      healthy ← (match instance with
                 | None => mret false
                 | Some i => status ← deref (DB_DBInstanceStatus i);
                             mret (Contains_ healthyAWSDBInstanceStatuses status)
                 end);
      _ ← invoke (SetMetric "cro_postgres_available" genericLabels (Btof64 healthy));
      match instance with
      | None => mret tt
      | Some i =>
          _ ← (match DB_AllocatedStorage i with
               | Some gib => invoke (SetMetric "cro_postgres_current_allocated_storage"
                                       genericLabels (gib * 1073741824)%Z)
               | None => mret tt
               end);
          class ← deref (DB_DBInstanceClass i);
          result ← try (ok (invoke (DescribeInstanceTypes [Some (TrimPrefix class "db.")])));
          match result with
          | inr _ => mret tt
          | inl types => setPostgresMaxMemoryMetric types genericLabels
          end
      end
  end.

(** The zero time, in seconds. *)
Definition zeroTime : Z := (-62135596800)%Z.

Definition setPostgresDeletionTimestampMetric {E} (cr : CR) : M S E unit :=
  match Meta_DeletionTimestamp (CR_Meta cr) with
  | Some t =>
      if bool_decide (t = zeroTime) then mret tt
      else
        instanceName ← instanceNameOrEmpty cr;
        r ← try GetClusterID;
        match r with
        | inr _ => mret tt
        | inl clusterID =>
            invoke (SetMetric "cro_postgres_deletion_timestamp"
              (BuildStatusMetricsLabels (CR_Meta cr) clusterID instanceName postgresProviderName
                 (Status_Phase (CR_Status cr))) t)
        end
  | None => mret tt
  end.

(** The seconds of a time that is set and not zero. *)
Definition setTime (t : option Z) : option Z :=
  match t with
  | Some ns => let s := (ns / 1000000000)%Z in
               if bool_decide (ns = zeroTime * 1000000000)%Z then None else Some s
  | None => None
  end.

Definition setPostgresServiceMaintenanceMetric {E} (instance : option DBInstance) : M S E unit :=
  match instance with
  | None => mret tt
  | Some i =>
      r ← try GetClusterID;
      match r with
      | inr _ => _ ← deref (DB_DBInstanceIdentifier i); mret tt
      | inl clusterID =>
          output ← try (ok (invoke (DescribePendingMaintenanceActions None)));
          match output with
          | inr _ => _ ← deref (DB_DBInstanceIdentifier i); mret tt
          | inl actions =>
              forM actions (λ su,
                identifier ← deref (RPMA_ResourceIdentifier su);
                forM (RPMA_Details su) (λ pma,
                  now ← invoke UnixNow;
                  let auto := setTime (PMA_AutoAppliedAfterDate pma) in
                  let current := setTime (PMA_CurrentApplyDate pma) in
                  description ← deref (PMA_Description pma);
                  invoke (SetMetric "cro_postgres_service_maintenance"
                    {[ "clusterID" := clusterID; "ResourceIdentifier" := identifier;
                       "AutoAppliedAfterDate" := match auto with Some s => itoa s | None => "" end;
                       "CurrentApplyDate" := match current with Some s => itoa s | None => "" end;
                       "Description" := description ]}
                    (match current, auto with
                     | Some s, _ => s | None, Some s => s | None, None => now end))))
          end
      end
  end.

Definition createRDSConnectionMetric {E} (cr : CR) (instance : option DBInstance) : M S E unit :=
  instanceName ← instanceNameOrEmpty cr;
  r ← try GetClusterID;
  let clusterID := match r with inl id => id | inr _ => "" end in
  let genericLabels := BuildGenericMetricLabels (CR_Meta cr) clusterID instanceName
                         postgresProviderName in
  let set v := invoke (SetMetric "cro_postgres_connection" genericLabels v) in
  match instance with
  | None => set 0%Z
  | Some i =>
      match DB_Endpoint i with
      | None => _ ← deref (DB_DBInstanceIdentifier i); set 0%Z
      | Some ep =>
          host ← deref (Endpoint_Address ep);
          port ← deref (Endpoint_Port ep);
          conn ← invoke (TCPConnection host port);
          set (Btof64 conn)
      end
  end.

(** ** Service updates *)

(** [t.Before(time.Unix(x, 0))]: the seconds since year 1 wrap around. *)
Definition wrap64 (z : Z) : Z := ((z + 2 ^ 63) mod 2 ^ 64 - 2 ^ 63)%Z.
Definition Before (t x : Z) : bool := (t / 1000000000 - zeroTime <? wrap64 (x - zeroTime))%Z.

(** Whether an action is due before one of the given times. *)
Fixpoint dueBefore (updates : list string) (due : option Z) (update : bool) : result bool :=
  match updates with
  | [] => Ok update
  | specified :: rest =>
      match ParseInt64 specified with
      | None => Er (GoErr ("strconv.ParseInt: parsing " +:+ specified))
      | Some x => dueBefore rest due
                    (update || match due with Some t => Before t x | None => false end)
      end
  end.

Definition rdsApplyServiceUpdates (updates : list string) (foundInstance : DBInstance)
  : M S (string * error) (bool * string) :=
  r ← try (ok (invoke (DescribePendingMaintenanceActions (DB_DBInstanceArn foundInstance))));
  match r with
  | inr err =>
      identifier ← deref (DB_DBInstanceIdentifier foundInstance);
      fail (wrapBoth ("failed to get pending maintenance information for RDS with identifier : "
                      +:+ identifier) err)
  | inl actions =>
      upgrading ← foldM (λ upgrading rpma,
        foldM (λ upgrading pmac,
          update ← liftR (dueBefore updates (PMA_AutoAppliedAfterDate pmac) false)
            onError (withMsg "epoc timestamp requires string");
          if negb update then mret upgrading
          else
            action ← deref (PMA_Action pmac);
            identifier ← deref (RPMA_ResourceIdentifier rpma);
            _ ← ok (invoke (ApplyPendingMaintenanceAction (Some action) (Some "immediate")
                              (Some identifier)))
              onError (wrapBoth "failed to apply service update");
            mret true) upgrading (RPMA_Details rpma)) false actions;
      mret (upgrading, "completed check for service updates")
  end.
End Postgres.

(** ** Reconciling an instance *)

Section Reconcile.
Context `{ThirdParty} (p : PostgresProvider).

(** [addAnnotation]: the annotation is set on the object before the update. *)
Definition addAnnotation (rdsDBInstanceIdentifier : string) : M CR (string * error) unit :=
  cr ← get;
  let cr' := setMeta cr (annotations_Add (CR_Meta cr) ResourceIdentifierAnnotation
                           rdsDBInstanceIdentifier) in
  _ ← put cr';
  updated ← ok (invoke (UpdateCR cr')) onError (withMsg "failed to add annotation");
  put updated.

Definition setVersion (version : string) (o : CR) : CR :=
  {| CR_kind := CR_kind o; CR_Meta := CR_Meta o; CR_Spec := CR_Spec o;
     CR_Status := {| Status_Strategy := Status_Strategy (CR_Status o);
                     Status_Provider := Status_Provider (CR_Status o);
                     Status_Version := version;
                     Status_SecretRef := Status_SecretRef (CR_Status o);
                     Status_Phase := Status_Phase (CR_Status o);
                     Status_Message := Status_Message (CR_Status o) |} |}.

(** The branch for an instance that exists. *)
Definition reconcileFoundInstance (rdsCfg : CreateDBInstanceInput) (postgresPass : string)
    (maintenanceWindow : bool) (foundInstance : DBInstance)
  : M CR (string * error) (option PostgresDeploymentDetails * string) :=
  identifier ← deref (DB_DBInstanceIdentifier foundInstance);
  status ← deref (DB_DBInstanceStatus foundInstance);
  let msg := "found instance " +:+ identifier +:+ " current status " +:+ status in
  cr ← get;
  _ ← (match DB_EngineVersion foundInstance with
       | Some v => if bool_decide (Status_Version (CR_Status cr) ≠ v)
                   then put (setVersion v cr) else mret tt
       | None => mret tt
       end);
  if bool_decide (status = "failed") then fail (withMsg msg (GoErr msg))
  else if bool_decide (status ≠ "available") then
    mret (None, "reconcileRDSInstance() in progress, current aws rds resource status is "
                +:+ status)
  else
    cr ← get;
    mi ← (if maintenanceWindow then
            lift (buildRDSUpdateStrategy rdsCfg foundInstance cr)
              onError (wrapBoth ("error building update config for rds instance: " +:+ identifier))
          else mret None);
    match mi with
    | Some input =>
        _ ← ok (invoke (ModifyDBInstance input))
          onError (wrapBoth ("error experienced trying to modify db instance: " +:+ identifier));
        mret (None, "set pending modifications for rds instance: " +:+ identifier)
    | None =>
        _ ← (if isSTSManager (P_CredentialManager p) then mret ""
             else TagRDSPostgres cr foundInstance
               onError (λ '(croStatus, err),
                          wrapBoth ("failed to add tags to rds: " +:+ croStatus) err));
        let msg := "rds instance " +:+ identifier +:+ " is as expected" in
        username ← deref (DB_MasterUsername foundInstance);
        endpoint ← deref (DB_Endpoint foundInstance);
        host ← deref (Endpoint_Address endpoint);
        database ← deref (DB_DBName foundInstance);
        port ← deref (Endpoint_Port endpoint);
        let pdd := {| PDD_Username := username; PDD_Password := postgresPass; PDD_Host := host;
                      PDD_Database := database; PDD_Port := port |} in
        _ ← (if negb (annotations_Has (CR_Meta cr) ResourceIdentifierAnnotation) then
               id ← deref (CI_DBInstanceIdentifier rdsCfg); addAnnotation id
             else mret tt);
        mret (Some pdd, msg +:+ ", aws rds status is " +:+ status)
    end.

(** The branch for an instance that does not exist. *)
Definition createRDSInstance (rdsCfg : CreateDBInstanceInput)
  : M CR (string * error) (option PostgresDeploymentDetails * string) :=
  cr ← get;
  if annotations_Has (CR_Meta cr) ResourceIdentifierAnnotation then
    let errMsg := "Postgres CR " +:+ Meta_Name (CR_Meta cr) +:+ " in " +:+
      Meta_Namespace (CR_Meta cr) +:+ " namespace has " +:+ ResourceIdentifierAnnotation +:+
      " annotation with value " +:+ annotations_Get (CR_Meta cr) ResourceIdentifierAnnotation +:+
      ", but no corresponding RDS instance was found" in
    fail (withMsg errMsg (GoErr errMsg))
  else
    rdsCfg ← (if isSTSManager (P_CredentialManager p)
              then buildRDSTagCreateStrategy cr rdsCfg
                     onError (λ '(msg, err),
                                wrapBoth ("failed to add tags to rds: " +:+ msg) err)
              else mret rdsCfg);
    _ ← ok (invoke (CreateDBInstance rdsCfg))
      onError (λ err, withMsg ("error creating rds instance " +:+ Error err) err);
    id ← deref (CI_DBInstanceIdentifier rdsCfg);
    _ ← addAnnotation id;
    mret (None, "started rds provision").

(** The input as completed by [buildRDSCreateStrategy] is answered too: the
    caller looks its identifier up. *)
Definition reconcileRDSInstance (rdsCfg : CreateDBInstanceInput)
    (standaloneNetworkExists maintenanceWindow : bool)
  : M CR (string * error) (option PostgresDeploymentDetails * string * CreateDBInstanceInput) :=
  pi ← getRDSInstances onError (withMsg "error getting replication groups");
  _ ← (if standaloneNetworkExists then mret tt
       else
         _ ← configureRDSVpc onError (wrapBoth "error setting up resource vpc");
         configureSecurityGroup onError (wrapBoth "error setting up security group"));
  cr ← get;
  credSec ← ok (invoke (GetSecret (Meta_Name (CR_Meta cr) +:+ defaultCredSecSuffix)
                          (Meta_Namespace (CR_Meta cr))))
    onError (wrapBoth "failed to retrieve rds credential secret");
  let postgresPass := secretData credSec defaultPostgresPasswordKey in
  if bool_decide (postgresPass = "") then
    fail (withMsg "unable to retrieve rds password" (GoErr "unable to retrieve rds password"))
  else
    rdsCfg ← buildRDSCreateStrategy cr rdsCfg postgresPass
      onError (wrapBoth "failed to build and verify aws rds instance configuration");
    foundInstance ← lift (getFoundInstance pi rdsCfg);
    defer (setPostgresServiceMaintenanceMetric (E := error) foundInstance)
      (defer (cr ← get; exposePostgresMetrics (E := error) cr foundInstance)
        (defer (cr ← get; createRDSConnectionMetric (E := error) cr foundInstance)
          (r ← (match foundInstance with
                | Some i => reconcileFoundInstance rdsCfg postgresPass maintenanceWindow i
                | None => createRDSInstance rdsCfg
                end);
           mret (r, rdsCfg)))).

Definition setMaintenanceWindow (b : bool) (o : CR) : CR :=
  {| CR_kind := CR_kind o; CR_Meta := CR_Meta o;
     CR_Spec := {| Spec_Type := Spec_Type (CR_Spec o); Spec_Tier := Spec_Tier (CR_Spec o);
                   Spec_SkipCreate := Spec_SkipCreate (CR_Spec o);
                   Spec_ApplyImmediately := Spec_ApplyImmediately (CR_Spec o);
                   Spec_MaintenanceWindow := b; Spec_SecretRef := Spec_SecretRef (CR_Spec o);
                   Spec_Size := Spec_Size (CR_Spec o);
                   Spec_SnapshotFrequency := Spec_SnapshotFrequency (CR_Spec o);
                   Spec_SnapshotRetention := Spec_SnapshotRetention (CR_Spec o) |};
     CR_Status := CR_Status o |}.

(** The standalone network of a cluster without bundled subnets. *)
Definition reconcileNetwork (sts : bool) (tier cfgMsg : string) : M CR (string * error) unit :=
  vpcCidrBlock ← ReconcileNetworkProviderConfig (P_ConfigManager p) tier
    onError (wrapBoth cfgMsg);
  standaloneNetwork ← CreateNetwork sts vpcCidrBlock
    onError (wrapBoth "failed to create resource network");
  _ ← deref (Network_Vpc standaloneNetwork);
  networkPeering ← CreateNetworkPeering sts standaloneNetwork
    onError (wrapBoth "failed to peer standalone network");
  _ ← deref (NP_PeeringConnection networkPeering);
  _ ← CreateNetworkConnection sts standaloneNetwork
    onError (wrapBoth "failed to create standalone network");
  mret tt.

(** What [ReconcilePostgres] does in the maintenance window once the instance is
    as expected: [Some msg] when a service update was started. *)
Definition applyUpdatesInWindow (serviceUpdates : list string) (rdsCfg : CreateDBInstanceInput)
  : M CR (string * error) (option string) :=
  updating ← (match serviceUpdates with
    | [] => mret None
    | _ =>
        pi ← getRDSInstances onError (withMsg "error getting replication groups");
        found ← lift (getFoundInstance pi rdsCfg);
        foundInstance ← deref found;
        r ← rdsApplyServiceUpdates serviceUpdates foundInstance
          onError (λ '(_, err), withMsg "failed to service update rds instance" err);
        mret (if (r.1 : bool) then Some r.2 else None)
    end);
  match updating with
  | Some message => mret (Some message)
  | None =>
      pg ← get;
      let pg' := setMaintenanceWindow false pg in
      _ ← put pg';
      updated ← ok (invoke (UpdateCR pg'))
        onError (withMsg "failed to set postgres maintenanceWindow to false");
      _ ← put updated;
      mret None
  end.

Definition ReconcilePostgres : M CR (string * error) (option PostgresDeploymentDetails * string) :=
  _ ← CreateFinalizer DefaultFinalizer onError (withMsg "failed to set finalizer");
  pg ← get;
  '(rdsCfg, _, serviceUpdates, strategyConfig) ← getRDSConfig p pg
    onError (wrapBoth "failed to retrieve aws rds cluster config for instance");
  providerCreds ← ReconcileProviderCredentials (P_CredentialManager p) (Meta_Namespace (CR_Meta pg))
    onError (wrapBoth "failed to reconcile rds credentials");
  maintenanceWindow ← VerifyPostgresMaintenanceWindow (Meta_Namespace (CR_Meta pg))
                        (Meta_Name (CR_Meta pg))
    onError (wrapBoth "failed to verify if postgres updates are allowed");
  sec ← buildDefaultRDSSecret pg onError (withMsg "");
  _ ← CreateOrUpdateSecret sec mret
    onError (wrapBoth ("failed to create or update secret " +:+ Secret_Name sec +:+
                       ", action was unchanged"));
  _ ← CreateSessionFromStrategy providerCreds strategyConfig
    onError (wrapBoth "failed to create aws session to create rds db instance");
  sts ← isSTSCluster;
  isEnabled ← IsEnabled onError (wrapBoth "failed to check cluster vpc subnets");
  _ ← (if isEnabled : bool
       then reconcileNetwork sts (Spec_Tier (CR_Spec pg))
              "failed to reconcile network provider config"
       else mret tt);
  r ← reconcileRDSInstance rdsCfg isEnabled maintenanceWindow
    onError (λ '(reconcileStatus, err),
               (reconcileStatus, WrapErr err "failed to reconcile rds instance"));
  let '(postgres, reconcileStatus, rdsCfg) := r in
  match postgres with
  | None => mret (None, reconcileStatus)
  | Some details =>
      updating ← (if maintenanceWindow : bool then applyUpdatesInWindow serviceUpdates rdsCfg
                  else mret None);
      match updating with
      | Some message => mret (None, message)
      | None => mret (Some details, reconcileStatus)
      end
  end.

(** ** Deleting an instance *)

(** Removing the finalizer of the operator; the loop of [remove] may run out of
    its slice. *)
Definition dropFinalizer (msg : string) : M CR (string * error) unit :=
  o ← get;
  match RemoveFinalizer (CR_Meta o) DefaultFinalizer with
  | None => lift out_of_range
  | Some om =>
      let o' := setMeta o om in
      _ ← put o';
      updated ← ok (invoke (UpdateCR o')) onError (wrapBoth msg);
      put updated
  end.

(** The clean-up of the network after the last resource, shared by the providers
    of RDS and ElastiCache, which contain the same statements. *)
Definition deleteLastNetwork (sts isEnabled isLastResource : bool) : M CR (string * error) unit :=
  _ ← (if isEnabled && isLastResource then
         saVPC ← getStandaloneVpc onError (wrapBoth "failed to get standalone VPC");
         match saVPC with
         | None => mret tt
         | Some _ =>
             networkPeering ← GetClusterNetworkPeering
               onError (wrapBoth "failed to get cluster network peering");
             _ ← DeleteNetworkConnection networkPeering
               onError (wrapBoth "failed to delete network connection");
             _ ← DeleteNetworkPeering networkPeering
               onError (wrapBoth "failed to delete cluster network peering");
             DeleteNetwork onError (wrapBoth "failed to delete aws networking")
         end
       else mret tt);
  if negb isEnabled && isLastResource
  then DeleteBundledCloudResources
         onError (wrapBoth "failed to delete bundled networking resources")
  else mret tt.

(** The branch of [deleteRDSInstance] for an instance that exists. *)
Definition deleteFoundInstance (rdsDeleteConfig : DeleteDBInstanceInput)
    (foundInstance : DBInstance) : M CR (string * error) string :=
  pg ← get;
  _ ← exposePostgresMetrics pg (Some foundInstance);
  status ← deref (DB_DBInstanceStatus foundInstance);
  if bool_decide (status ≠ "available") then
    mret ("delete detected, deleteDBInstance() in progress, current aws rds status is " +:+ status)
  else
    protected ← deref (DB_DeletionProtection foundInstance);
    if negb protected then
      r ← try (ok (invoke (DeleteDBInstance rdsDeleteConfig)));
      match r with
      | inr err =>
          if bool_decide (aws_code err ≠ Some "DBInstanceNotFound")
          then fail (wrapBoth ("failed to delete rds instance : " +:+ Error err) err)
          else mret "delete detected, deleteDBInstance() started"
      | inl _ => mret "delete detected, deleteDBInstance() started"
      end
    else
      _ ← ok (invoke (ModifyDBInstance {|
              MI_DBInstanceIdentifier := DI_DBInstanceIdentifier rdsDeleteConfig;
              MI_CACertificateIdentifier := None; MI_DeletionProtection := Some false;
              MI_DBPortNumber := None; MI_BackupRetentionPeriod := None;
              MI_DBInstanceClass := None; MI_PubliclyAccessible := None;
              MI_MaxAllocatedStorage := None; MI_MultiAZ := None;
              MI_AutoMinorVersionUpgrade := None; MI_PreferredBackupWindow := None;
              MI_PreferredMaintenanceWindow := None; MI_EngineVersion := None;
              MI_AllowMajorVersionUpgrade := None; MI_ApplyImmediately := None |}))
        onError (wrapBoth "failed to remove deletion protection");
      mret ("deletion protection detected, modifyDBInstance() in progress, current aws rds status is "
            +:+ status).

(** The branch for an instance that is gone. *)
Definition deleteAbsentInstance (sts isEnabled isLastResource : bool)
  : M CR (string * error) string :=
  _ ← deleteLastNetwork sts isEnabled isLastResource;
  pg ← get;
  deleted ← try (ok (invoke (DeleteSecret (Meta_Name (CR_Meta pg) +:+ defaultCredSecSuffix)
                               (Meta_Namespace (CR_Meta pg)))));
  _ ← (match deleted with
       | inl _ => mret tt
       | inr err => if IsNotFound err then mret tt
                    else fail (wrapBoth "failed to deleted rds secrets" err)
       end);
  _ ← dropFinalizer "failed to update instance as part of finalizer reconcile";
  mret "".

Definition deleteRDSInstance (sts : bool) (rdsCreateConfig : CreateDBInstanceInput)
    (rdsDeleteConfig : DeleteDBInstanceInput) (isEnabled isLastResource : bool)
  : M CR (string * error) string :=
  pgs ← getRDSInstances onError (withMsg "error getting aws rds instances");
  pg ← get;
  rdsDeleteConfig ← buildRDSDeleteConfig pg rdsCreateConfig rdsDeleteConfig
    onError (wrapBoth "failed to verify aws rds instance configuration");
  foundInstance ← lift (findByPtr DB_DBInstanceIdentifier
                          (DI_DBInstanceIdentifier rdsDeleteConfig) pgs);
  match foundInstance with
  | Some i => deleteFoundInstance rdsDeleteConfig i
  | None => deleteAbsentInstance sts isEnabled isLastResource
  end.

Definition DeletePostgres : M CR (string * error) string :=
  r ← get;
  _ ← setPostgresDeletionTimestampMetric r;
  '(rdsCreateConfig, rdsDeleteConfig, _, stratCfg) ← getRDSConfig p r
    onError (withMsg "failed to retrieve aws rds config");
  providerCreds ← ReconcileProviderCredentials (P_CredentialManager p) (Meta_Namespace (CR_Meta r))
    onError (wrapBoth "failed to reconcile aws provider credentials");
  _ ← CreateSessionFromStrategy providerCreds stratCfg
    onError (wrapBoth "failed to create aws session to delete rds db instance");
  sts ← isSTSCluster;
  isEnabled ← IsEnabled onError (wrapBoth "failed to check cluster vpc subnets");
  isLastResource ← IsLastResource
    onError (wrapBoth "failed to check if this cr is the last cr of type postgres and redis");
  deleteRDSInstance sts rdsCreateConfig rdsDeleteConfig isEnabled isLastResource.
End Reconcile.
