(* ===== verification/AwsRedis.v ===== *)
(** * pkg/providers/aws/provider_redis.go

    The ElastiCache provider: the configuration of a replication group, its
    creation, update, tagging, service updates and deletion, and its metrics.  It
    has the shape of the RDS provider and shares its conventions: the custom
    resource is the state, a method that answers a status message next to its
    error fails with the pair of both, and log statements are left out except for
    the pointers they read. *)
From S2P Require Import Prelude Effects GoNet GoStrings Json Api Resources Metrics.
From S2P Require Import Subnets ClusterVpc NetworkProvider AwsConfig AwsPostgres.
From Stdlib Require Import Ascii.
Local Open Scope go_scope.

(** ** Constants *)

Definition defaultAtRestEncryption : bool := true.
Definition defaultCacheNodeType : string := "cache.t3.micro".
Definition defaultDescription : string := "A Redis replication group".
Definition defaultEngineVersion : string := "7.1".
Definition defaultInTransitEncryption : bool := false.
Definition defaultNumCacheClusters : Z := 2.
Definition defaultSnapshotRetention : Z := 31.
Definition redisProviderName : string := "aws-elasticache".
Definition healthyAWSReplicationGroupStatuses : list string :=
  ["creating"; "available"; "modifying"; "deleting"; "snapshotting"].

(** ** The configuration in the strategies *)

Definition tagKind : jkind := KStruct [("Key", KString); ("Value", KString)].
Definition logDeliveryKind : jkind :=
  KStruct [("DestinationDetails",
            KStruct [("CloudWatchLogsDetails", KStruct [("LogGroup", KString)]);
                     ("KinesisFirehoseDetails", KStruct [("DeliveryStream", KString)])]);
           ("DestinationType", KString); ("Enabled", KBool); ("LogFormat", KString);
           ("LogType", KString)].
Definition nodeGroupKind : jkind :=
  KStruct [("NodeGroupId", KString); ("PrimaryAvailabilityZone", KString);
           ("PrimaryOutpostArn", KString); ("ReplicaAvailabilityZones", KSlice KString);
           ("ReplicaCount", KInt64); ("ReplicaOutpostArns", KSlice KString);
           ("Slots", KString)].
Definition CreateReplicationGroupInputFields : list (string * jkind) :=
  [("AtRestEncryptionEnabled", KBool); ("AuthToken", KString);
   ("AutoMinorVersionUpgrade", KBool); ("AutomaticFailoverEnabled", KBool);
   ("CacheNodeType", KString); ("CacheParameterGroupName", KString);
   ("CacheSecurityGroupNames", KSlice KString); ("CacheSubnetGroupName", KString);
   ("ClusterMode", KString); ("DataTieringEnabled", KBool); ("Engine", KString);
   ("EngineVersion", KString); ("GlobalReplicationGroupId", KString);
   ("IpDiscovery", KString); ("KmsKeyId", KString);
   ("LogDeliveryConfigurations", KSlice logDeliveryKind); ("MultiAZEnabled", KBool);
   ("NetworkType", KString); ("NodeGroupConfiguration", KSlice nodeGroupKind);
   ("NotificationTopicArn", KString); ("NumCacheClusters", KInt64);
   ("NumNodeGroups", KInt64); ("Port", KInt64);
   ("PreferredCacheClusterAZs", KSlice KString); ("PreferredMaintenanceWindow", KString);
   ("PrimaryClusterId", KString); ("ReplicasPerNodeGroup", KInt64);
   ("ReplicationGroupDescription", KString); ("ReplicationGroupId", KString);
   ("SecurityGroupIds", KSlice KString); ("ServerlessCacheSnapshotName", KString);
   ("SnapshotArns", KSlice KString); ("SnapshotName", KString);
   ("SnapshotRetentionLimit", KInt64); ("SnapshotWindow", KString);
   ("Tags", KSlice tagKind); ("TransitEncryptionEnabled", KBool);
   ("TransitEncryptionMode", KString); ("UserGroupIds", KSlice KString)].
(** The fields that the operator reads or sets. *)
Definition CreateReplicationGroupInputUsed : list string :=
  ["AtRestEncryptionEnabled"; "AutomaticFailoverEnabled"; "CacheNodeType";
   "CacheSubnetGroupName"; "Engine"; "EngineVersion"; "NumCacheClusters";
   "PreferredMaintenanceWindow"; "ReplicationGroupDescription"; "ReplicationGroupId";
   "SecurityGroupIds"; "SnapshotRetentionLimit"; "SnapshotWindow"; "Tags";
   "TransitEncryptionEnabled"].

Definition decodeCreateReplicationGroupInput (members : list (string * json))
  : CreateReplicationGroupInput :=
  let fields := map fst CreateReplicationGroupInputFields in
  let v := fieldValue fields members in
  {| CR_AtRestEncryptionEnabled := asBool (v "AtRestEncryptionEnabled");
     CR_AutomaticFailoverEnabled := asBool (v "AutomaticFailoverEnabled");
     CR_CacheNodeType := asString (v "CacheNodeType");
     CR_CacheSubnetGroupName := asString (v "CacheSubnetGroupName");
     CR_Engine := asString (v "Engine");
     CR_EngineVersion := asString (v "EngineVersion");
     CR_NumCacheClusters := asInt64 (v "NumCacheClusters");
     CR_PreferredMaintenanceWindow := asString (v "PreferredMaintenanceWindow");
     CR_ReplicationGroupDescription := asString (v "ReplicationGroupDescription");
     CR_ReplicationGroupId := asString (v "ReplicationGroupId");
     CR_SecurityGroupIds := asStrings (v "SecurityGroupIds");
     CR_SnapshotRetentionLimit := asInt64 (v "SnapshotRetentionLimit");
     CR_SnapshotWindow := asString (v "SnapshotWindow");
     CR_Tags := asTags (v "Tags");
     CR_TransitEncryptionEnabled := asBool (v "TransitEncryptionEnabled");
     CR_Other := otherFields fields CreateReplicationGroupInputUsed members |}.

Definition DeleteReplicationGroupInputFields : list (string * jkind) :=
  [("FinalSnapshotIdentifier", KString); ("ReplicationGroupId", KString);
   ("RetainPrimaryCluster", KBool)].
Definition decodeDeleteReplicationGroupInput (members : list (string * json))
  : DeleteReplicationGroupInput :=
  let v := fieldValue (map fst DeleteReplicationGroupInputFields) members in
  {| DR_FinalSnapshotIdentifier := asString (v "FinalSnapshotIdentifier");
     DR_ReplicationGroupId := asString (v "ReplicationGroupId");
     DR_RetainPrimaryCluster := asBool (v "RetainPrimaryCluster") |}.

(** [elasticacheConfig.CacheNodeType = aws.String(size)] *)
Definition setNodeType (size : string) (cfg : CreateReplicationGroupInput)
  : CreateReplicationGroupInput :=
  {| CR_AtRestEncryptionEnabled := CR_AtRestEncryptionEnabled cfg;
     CR_AutomaticFailoverEnabled := CR_AutomaticFailoverEnabled cfg;
     CR_CacheNodeType := Some size;
     CR_CacheSubnetGroupName := CR_CacheSubnetGroupName cfg;
     CR_Engine := CR_Engine cfg;
     CR_EngineVersion := CR_EngineVersion cfg;
     CR_NumCacheClusters := CR_NumCacheClusters cfg;
     CR_PreferredMaintenanceWindow := CR_PreferredMaintenanceWindow cfg;
     CR_ReplicationGroupDescription := CR_ReplicationGroupDescription cfg;
     CR_ReplicationGroupId := CR_ReplicationGroupId cfg;
     CR_SecurityGroupIds := CR_SecurityGroupIds cfg;
     CR_SnapshotRetentionLimit := CR_SnapshotRetentionLimit cfg;
     CR_SnapshotWindow := CR_SnapshotWindow cfg;
     CR_Tags := CR_Tags cfg;
     CR_TransitEncryptionEnabled := CR_TransitEncryptionEnabled cfg;
     CR_Other := CR_Other cfg |}.

(** ** Programs *)

Record RedisProvider := {
  R_CredentialManager : CredentialManager;
  R_ConfigManager : ConfigMapConfigManager
}.
Record RedisDeploymentDetails := { RDD_URI : string; RDD_Port : Z }.
(** [RedisDeploymentDetails.Data] (types.go) *)
Definition RedisData (d : RedisDeploymentDetails) : gmap string string :=
  {[ "uri" := RDD_URI d; "port" := itoa (RDD_Port d) ]}.

Definition Redis_SupportsStrategy (d : string) : bool := bool_decide (d = "aws").
Definition Redis_GetReconcileTime {S E} (r : CR) : M S E Z :=
  if bool_decide (Status_Phase (CR_Status r) ≠ PhaseComplete) then mret (60 * second)%Z
  else GetForcedReconcileTimeOrDefault defaultReconcileTime.

Definition replicationGroupStatusIsHealthy {E} (cache : ReplicationGroup) : outcome E bool :=
  status ← load (RG_Status cache);
  mret (Contains_ healthyAWSReplicationGroupStatuses status).

Definition validServiceUpdateStates (status : string) : bool :=
  bool_decide (status ∈ ["not-applied"; "stopping"; "stopped"; "scheduling"]).

Definition getMetricName (redisName : string) : string :=
  "cro_redis_snapshot_not_found" +:+ "_" +:+ ToLower (replaceChar "-" "_" redisName).

Definition buildCacheSnapshotNotFoundLabels (clusterID arn : string)
    (snapshotName cacheClusterID : option string) (cacheArn : string) : gmap string string :=
  {[ "clusterID" := clusterID; "arn" := arn; "cacheClusterId" := StringValue cacheClusterID;
     "snapshotName" := StringValue snapshotName; "cacheArn" := cacheArn ]}.

Section Redis.
Context {S : Type}.

Definition getReplicationGroups : M S error (list ReplicationGroup) :=
  poll 60 (listOutput ← invoke DescribeReplicationGroups;
           mret (match listOutput with Ok l => Some l | Er _ => None end)).

(** The create, delete and service update configurations and the strategy they
    are read from. *)
Definition getElasticacheConfig (p : RedisProvider) (r : CR)
  : M S error (CreateReplicationGroupInput * DeleteReplicationGroupInput *
               list string * StrategyConfig) :=
  stratCfg ← ReadStorageStrategy (R_ConfigManager p) "redis" (Spec_Tier (CR_Spec r))
    orWrap "failed to read aws strategy config";
  defRegion ← GetRegionFromStrategyOrDefault stratCfg orWrap "failed to get default region";
  let stratCfg := if bool_decide (Strategy_Region stratCfg = "")
                  then {| Strategy_Region := defRegion;
                          Strategy_CreateStrategy := Strategy_CreateStrategy stratCfg;
                          Strategy_DeleteStrategy := Strategy_DeleteStrategy stratCfg;
                          Strategy_ServiceUpdates := Strategy_ServiceUpdates stratCfg |}
                  else stratCfg in
  create ← liftR (unmarshalStruct CreateReplicationGroupInputFields
                    (Strategy_CreateStrategy stratCfg))
    orWrap "failed to unmarshal aws elasticache cluster configuration";
  let create := decodeCreateReplicationGroupInput create in
  let create := if bool_decide (Spec_Size (CR_Spec r) ≠ "")
                then setNodeType (Spec_Size (CR_Spec r)) create else create in
  delete ← liftR (unmarshalStruct DeleteReplicationGroupInputFields
                    (Strategy_DeleteStrategy stratCfg))
    orWrap "failed to unmarshal aws elasticache cluster configuration";
  updates ← (match Strategy_ServiceUpdates stratCfg with
             | Some raw => liftR (unmarshalStrings raw)
                 orWrap ("failed to unmarshal aws elasticache cluster configuration "
                         +:+ "(serviceUpdates field)")
             | None => mret []
             end);
  mret (create, decodeDeleteReplicationGroupInput delete, updates, stratCfg).

Definition getDefaultElasticacheTags (cr : CR) : M S error (list AwsTag * string) :=
  r ← GetDefaultResourceTags (Spec_Type (CR_Spec cr)) (Meta_Name (CR_Meta cr))
        (labelOf (CR_Meta cr) "productName") orWrap "Failed to get default redis tags";
  mret (genericListToElasticacheTagList r.1, r.2).

Definition buildCacheName (rd : CR) : M S error string :=
  BuildInfraNameFromObject (CR_Meta rd) defaultAwsIdentifierLength
    onError (λ err, GoErr ("error occurred building cache name: " +:+ Error err)).

(** The configuration completed with its defaults. *)
Definition buildElasticacheCreateStrategy (r : CR) (cfg : CreateReplicationGroupInput)
  : M S error CreateReplicationGroupInput :=
  cacheName ← BuildInfraNameFromObject (CR_Meta r) defaultAwsIdentifierLength
    orWrap "failed to retrieve elasticache config";
  subGroup ← BuildInfraName defaultSubnetPostfix defaultAwsIdentifierLength
    orWrap "failed to build subnet group name";
  secName ← BuildInfraName defaultSecurityGroupPostfix defaultAwsIdentifierLength
    orWrap "error building subnet group name";
  foundSecGroup ← getSecurityGroup secName orWrap "";
  securityGroupIds ← (match foundSecGroup, CR_SecurityGroupIds cfg with
    | Some g, None => id ← deref (SG_GroupId g); mret (Some [Some id])
    | _, ids => mret ids
    end);
  mret {|
    CR_AtRestEncryptionEnabled :=
      Some (default defaultAtRestEncryption (CR_AtRestEncryptionEnabled cfg));
    CR_AutomaticFailoverEnabled := Some true;
    CR_CacheNodeType := Some (default defaultCacheNodeType (CR_CacheNodeType cfg));
    CR_CacheSubnetGroupName := Some (default subGroup (CR_CacheSubnetGroupName cfg));
    CR_Engine := Some "redis";
    CR_EngineVersion := Some (default defaultEngineVersion (CR_EngineVersion cfg));
    CR_NumCacheClusters := Some (default defaultNumCacheClusters (CR_NumCacheClusters cfg));
    CR_PreferredMaintenanceWindow := CR_PreferredMaintenanceWindow cfg;
    CR_ReplicationGroupDescription :=
      Some (default defaultDescription (CR_ReplicationGroupDescription cfg));
    CR_ReplicationGroupId := Some (default cacheName (CR_ReplicationGroupId cfg));
    CR_SecurityGroupIds := securityGroupIds;
    CR_SnapshotRetentionLimit :=
      Some (default defaultSnapshotRetention (CR_SnapshotRetentionLimit cfg));
    CR_SnapshotWindow := CR_SnapshotWindow cfg;
    CR_Tags := CR_Tags cfg;
    CR_TransitEncryptionEnabled :=
      Some (default defaultInTransitEncryption (CR_TransitEncryptionEnabled cfg));
    CR_Other := CR_Other cfg |}.

(** The identifier of the create configuration and the delete configuration.  The
    former is only set when the latter has none of its own. *)
Definition buildElasticacheDeleteConfig (r : CR) (create : CreateReplicationGroupInput)
    (delete : DeleteReplicationGroupInput)
  : M S error (option string * DeleteReplicationGroupInput) :=
  cacheName ← BuildInfraNameFromObject (CR_Meta r) defaultAwsIdentifierLength
    orWrap "failed to retrieve elasticache config";
  let '(createId, deleteId) :=
    match DR_ReplicationGroupId delete with
    | Some id => (CR_ReplicationGroupId create, Some id)
    | None => let id := Some (default cacheName (CR_ReplicationGroupId create)) in (id, id)
    end in
  snapshotIdentifier ← BuildTimestampedInfraNameFromObject (CR_Meta r) defaultAwsIdentifierLength
    orWrap "failed to retrieve rds config";
  mret (createId, {|
    DR_FinalSnapshotIdentifier :=
      Some (default snapshotIdentifier (DR_FinalSnapshotIdentifier delete));
    DR_ReplicationGroupId := deleteId;
    DR_RetainPrimaryCluster := Some (default false (DR_RetainPrimaryCluster delete)) |}).

(** ** Comparing a replication group with its configuration *)

(** Whether a type is offered in every availability zone of the clusters. *)
Definition instanceTypeSupported (offerings : list (option string)) (clusters : list CacheCluster)
  : bool :=
  forallb (λ zone, Contains_ (map StringValue offerings) zone)
          (map (λ c, StringValue (CC_PreferredAvailabilityZone c)) clusters).

(** The node type to change to, when the used zones offer it. *)
Definition nodeTypeChange (cfg : CreateReplicationGroupInput) (found : ReplicationGroup)
    (clusters : list CacheCluster) : M S error (option string) :=
  match RG_CacheNodeType found, CR_CacheNodeType cfg with
  | Some current, Some want =>
      if bool_decide (want ≠ current) then
        offerings ← ok (invoke (DescribeInstanceTypeOfferings
            [{| Filter_Name := Some "instance-type";
                Filter_Values := [Some (removeFirst "cache." want)] |}]
            (Some "availability-zone")))
          orWrap ("failed to get instance type offerings for type " +:+ current);
        mret (if instanceTypeSupported offerings clusters then Some want else None)
      else mret None
  | _, _ => mret None
  end.

(** What one cache cluster adds to the modification; the flag is [updateFound]. *)
Definition updateForCluster `{ThirdParty} (cfg : CreateReplicationGroupInput)
    (acc : ModifyReplicationGroupInput * bool) (cluster : CacheCluster)
  : outcome error (ModifyReplicationGroupInput * bool) :=
  let '(mi, updateFound) := acc in
  upgrade ← (match CR_EngineVersion cfg with
    | Some desired =>
        current ← load (CC_EngineVersion cluster);
        match VerifyVersionUpgradeNeeded current desired with
        | Val needed => mret needed
        | Err err => Err (WrapErr err "invalid redis version")
        | Panic w => Panic w
        end
    | None => mret false
    end);
  maintenance ← differsIfSet (CR_PreferredMaintenanceWindow cfg)
                             (CC_PreferredMaintenanceWindow cluster);
  snapshot ← differsIfSet (CR_SnapshotWindow cfg) (CC_SnapshotWindow cluster);
  mret ({| MR_ReplicationGroupId := MR_ReplicationGroupId mi;
           MR_CacheNodeType := MR_CacheNodeType mi;
           MR_ApplyImmediately := if (upgrade : bool) then Some true else MR_ApplyImmediately mi;
           MR_SnapshotRetentionLimit := MR_SnapshotRetentionLimit mi;
           MR_EngineVersion := if (upgrade : bool) then CR_EngineVersion cfg else MR_EngineVersion mi;
           MR_PreferredMaintenanceWindow :=
             if isSet maintenance then maintenance else MR_PreferredMaintenanceWindow mi;
           MR_SnapshotWindow := if isSet snapshot then snapshot else MR_SnapshotWindow mi |},
        updateFound || upgrade || isSet maintenance || isSet snapshot).
Fixpoint updateForClusters `{ThirdParty} (cfg : CreateReplicationGroupInput)
    (acc : ModifyReplicationGroupInput * bool) (clusters : list CacheCluster)
  : outcome error (ModifyReplicationGroupInput * bool) :=
  match clusters with
  | [] => mret acc
  | c :: rest => acc ← updateForCluster cfg acc c; updateForClusters cfg acc rest
  end.

Definition buildElasticacheUpdateStrategy `{ThirdParty} (cfg : CreateReplicationGroupInput)
    (found : ReplicationGroup) (clusters : list CacheCluster) (r : CR)
  : M S error (option ModifyReplicationGroupInput) :=
  nodeType ← nodeTypeChange cfg found clusters;
  retention ← lift (match RG_SnapshotRetentionLimit found with
                    | Some _ => differs (CR_SnapshotRetentionLimit cfg)
                                        (RG_SnapshotRetentionLimit found)
                    | None => mret None
                    end);
  acc ← lift (updateForClusters cfg
    ({| MR_ReplicationGroupId := RG_ReplicationGroupId found;
        MR_CacheNodeType := nodeType;
        MR_ApplyImmediately :=
          if isSet nodeType then Some (Spec_ApplyImmediately (CR_Spec r)) else None;
        MR_SnapshotRetentionLimit := retention;
        MR_EngineVersion := None;
        MR_PreferredMaintenanceWindow := None;
        MR_SnapshotWindow := None |}, isSet nodeType || isSet retention) clusters);
  mret (if acc.2 : bool then Some acc.1 else None).

(** ** Tags and network of the cluster VPC *)

(** The tags of the create input of an STS cluster. *)
Definition buildRedisTagCreateStrategy (cr : CR) (cfg : CreateReplicationGroupInput)
  : M S (string * error) CreateReplicationGroupInput :=
  r ← getDefaultElasticacheTags cr onError (wrapBoth "Failed to build default tags");
  let addonName := labelOf (CR_Meta cr) "addonName" in
  let redisTags := if bool_decide (addonName = "") then r.1
                   else r.1 ++ [{| AwsTag_Key := Some "add-on-name";
                                   AwsTag_Value := Some addonName |}] in
  mret {|
    CR_AtRestEncryptionEnabled := CR_AtRestEncryptionEnabled cfg;
    CR_AutomaticFailoverEnabled := CR_AutomaticFailoverEnabled cfg;
    CR_CacheNodeType := CR_CacheNodeType cfg;
    CR_CacheSubnetGroupName := CR_CacheSubnetGroupName cfg;
    CR_Engine := CR_Engine cfg;
    CR_EngineVersion := CR_EngineVersion cfg;
    CR_NumCacheClusters := CR_NumCacheClusters cfg;
    CR_PreferredMaintenanceWindow := CR_PreferredMaintenanceWindow cfg;
    CR_ReplicationGroupDescription := CR_ReplicationGroupDescription cfg;
    CR_ReplicationGroupId := CR_ReplicationGroupId cfg;
    CR_SecurityGroupIds := CR_SecurityGroupIds cfg;
    CR_SnapshotRetentionLimit := CR_SnapshotRetentionLimit cfg;
    CR_SnapshotWindow := CR_SnapshotWindow cfg;
    CR_Tags := redisTags;
    CR_TransitEncryptionEnabled := CR_TransitEncryptionEnabled cfg;
    CR_Other := CR_Other cfg |}.

(** The tags of one snapshot: a snapshot that AWS does not find is only counted. *)
Definition tagCacheSnapshot (metricName clusterID prefix arn : string)
    (cacheClusterId : option string) (cacheTags : list AwsTag) (snapshot : CacheSnapshot)
  : M S (string * error) unit :=
  name ← deref (CS_SnapshotName snapshot);
  let snapshotArn := prefix +:+ ":snapshot:" +:+ name in
  let labels := buildCacheSnapshotNotFoundLabels clusterID snapshotArn
                  (CS_SnapshotName snapshot) cacheClusterId arn in
  tagged ← try (ok (invoke (EC_AddTagsToResource (Some snapshotArn) cacheTags)));
  match tagged with
  | inl _ => invoke (SetMetric metricName labels 0)
  | inr err =>
      if bool_decide (aws_code err = Some "SnapshotNotFoundFault")
      then invoke (SetMetric metricName labels 1)
      else fail (withMsg "failed to add tags to aws elasticache snapshot" err)
  end.

(** A node that is not available is left alone, with no error: [errorUtil.Wrap]
    of a nil error is nil.  The error of [DescribeSnapshots] is dropped; the output
    the SDK answers with it holds no snapshots. *)
Definition TagElasticacheNode (r : CR) (cache : NodeGroupMember)
  : M S (string * error) string :=
  clusters ← ok (invoke (DescribeCacheClusters (NGM_CacheClusterId cache)))
    onError (wrapBoth "failed to get cache cluster output");
  cluster ← index clusters 0;
  clusterStatus ← deref (CC_CacheClusterStatus cluster);
  if bool_decide (clusterStatus ≠ "available") then
    id ← deref (NGM_CacheClusterId cache);
    mret (id +:+ " status is " +:+ clusterStatus +:+ ", skipping adding tags")
  else
    account ← ok (invoke GetCallerIdentity)
      onError (wrapBoth "failed to get account identity");
    zone ← deref (NGM_PreferredAvailabilityZone cache);
    region ← (match dropLast zone with
              | Some region => mret region
              | None => panic "slice bounds out of range"
              end);
    account ← deref account;
    id ← deref (NGM_CacheClusterId cache);
    let prefix := "arn:aws:elasticache:" +:+ region +:+ ":" +:+ account in
    let arn := prefix +:+ ":cluster:" +:+ id in
    '(cacheTags, clusterID) ← getDefaultElasticacheTags r
      onError (wrapBoth "Failed to build default tags");
    _ ← ok (invoke (EC_AddTagsToResource (Some arn) cacheTags))
      onError (withMsg "failed to add tags to aws elasticache :");
    snapshotList ← try (ok (invoke (DescribeSnapshots (Some id) None)));
    _ ← (match snapshotList with
         | inr _ | inl [] => mret tt
         | inl snapshots =>
             let metricName := getMetricName (Meta_Name (CR_Meta r)) in
             _ ← invoke (ResetMetric metricName);
             forM snapshots (tagCacheSnapshot metricName clusterID prefix arn
                               (NGM_CacheClusterId cache) cacheTags)
         end);
    mret "successfully created and tagged".

Definition configureElasticacheVpc `{ThirdParty} : M S error unit :=
  sgName ← BuildInfraName defaultSubnetPostfix defaultAwsIdentifierLength
    orWrap "error building subnet group name";
  groups ← ok (invoke DescribeCacheSubnetGroups) orWrap "error describing subnet groups";
  foundSubnet ← lift (findPtr CSG_Name sgName groups);
  match foundSubnet with
  | Some _ => mret tt
  | None =>
      subIDs ← GetPrivateSubnetIDS orWrap "error getting vpc subnets";
      ok (invoke (CreateCacheSubnetGroup
                    (Some "Subnet group created by the cloud resource operator")
                    (Some sgName) subIDs []))
        orWrap "unable to create cache subnet group"
  end.

(** ** Metrics *)

(** The name of the cache, empty when it cannot be built. *)
Definition cacheNameOrEmpty {E} (cr : CR) : M S E string :=
  r ← try (buildCacheName cr);
  mret (match r with inl name => name | inr _ => "" end).

Definition exposeRedisMetrics {E} (cr : CR) (instance : option ReplicationGroup) : M S E unit :=
  cacheName ← cacheNameOrEmpty cr;
  r ← try GetClusterID;
  match r with
  | inr _ => mret tt
  | inl clusterID =>
      let status := match instance with
                    | Some i => StringValue (RG_Status i) | None => "" end in
      let infoLabels := BuildInfoMetricLabels (CR_Meta cr) status clusterID cacheName
                          redisProviderName in
      let genericLabels := BuildGenericMetricLabels (CR_Meta cr) clusterID cacheName
                             redisProviderName in
      _ ← invoke (SetMetricCurrentTime "cro_redis_info" infoLabels);
      _ ← forM statusPhases (λ phase,
        invoke (SetMetric "cro_redis_status_phase"
          (BuildStatusMetricsLabels (CR_Meta cr) clusterID cacheName redisProviderName phase)
          (Btof64 (bool_decide (Status_Phase (CR_Status cr) = phase)))));
      healthy ← (match instance with
                 | None => mret false
                 | Some i => lift (replicationGroupStatusIsHealthy i)
                 end);
      invoke (SetMetric "cro_redis_available" genericLabels (Btof64 healthy))
  end.

Definition setRedisDeletionTimestampMetric {E} (cr : CR) : M S E unit :=
  match Meta_DeletionTimestamp (CR_Meta cr) with
  | Some t =>
      if bool_decide (t = zeroTime) then mret tt
      else
        cacheName ← cacheNameOrEmpty cr;
        r ← try GetClusterID;
        match r with
        | inr _ => mret tt
        | inl clusterID =>
            invoke (SetMetric "cro_redis_deletion_timestamp"
              (BuildStatusMetricsLabels (CR_Meta cr) clusterID cacheName redisProviderName
                 (Status_Phase (CR_Status cr))) t)
        end
  | None => mret tt
  end.

(** [resources.SafeTimeDereference(t).Unix()] *)
Definition unixOf (t : option Z) : Z :=
  match t with Some ns => (ns / 1000000000)%Z | None => zeroTime end.

Definition updateActionLabels (clusterID : string) (ua : UpdateAction) : gmap string string :=
  {[ "clusterID" := clusterID;
     "ReplicationGroupId" := StringValue (UA_ReplicationGroupId ua);
     "CacheClusterId" := StringValue (UA_CacheClusterId ua);
     "Engine" := StringValue (UA_Engine ua);
     "EstimatedUpdateTime" := StringValue (UA_EstimatedUpdateTime ua);
     "NodesUpdated" := StringValue (UA_NodesUpdated ua);
     "ServiceUpdateName" := StringValue (UA_ServiceUpdateName ua);
     "ServiceUpdateRecommendedApplyByDate" :=
       itoa (unixOf (UA_ServiceUpdateRecommendedApplyByDate ua));
     "ServiceUpdateReleaseDate" := itoa (unixOf (UA_ServiceUpdateReleaseDate ua));
     "ServiceUpdateSeverity" := StringValue (UA_ServiceUpdateSeverity ua);
     "ServiceUpdateStatus" := StringValue (UA_ServiceUpdateStatus ua);
     "ServiceUpdateType" := StringValue (UA_ServiceUpdateType ua);
     "SlaMet" := StringValue (UA_SlaMet ua) ]}
  ∪ {[ "UpdateActionAvailableDate" := itoa (unixOf (UA_UpdateActionAvailableDate ua));
       "UpdateActionStatus" := StringValue (UA_UpdateActionStatus ua);
       "UpdateActionStatusModifiedDate" := itoa (unixOf (UA_UpdateActionStatusModifiedDate ua)) ]}.

Definition setRedisServiceMaintenanceMetric {E} (instance : option ReplicationGroup)
  : M S E unit :=
  match instance with
  | None => mret tt
  | Some i =>
      r ← try GetClusterID;
      match r with
      | inr _ => _ ← deref (RG_ReplicationGroupId i); mret tt
      | inl clusterID =>
          output ← try (ok (invoke (DescribeUpdateActions [RG_ReplicationGroupId i] [])));
          match output with
          | inr _ => _ ← deref (RG_ReplicationGroupId i); mret tt
          | inl actions =>
              forM actions (λ ua,
                invoke (SetMetric "cro_redis_service_maintenance"
                          (updateActionLabels clusterID ua)
                          (unixOf (UA_ServiceUpdateRecommendedApplyByDate ua))))
          end
      end
  end.

Definition createElasticacheConnectionMetric {E} (cr : CR) (cache : option ReplicationGroup)
  : M S E unit :=
  cacheName ← cacheNameOrEmpty cr;
  r ← try GetClusterID;
  let clusterID := match r with inl id => id | inr _ => "" end in
  let genericLabels := BuildGenericMetricLabels (CR_Meta cr) clusterID cacheName
                         redisProviderName in
  let set v := invoke (SetMetric "cro_redis_connection" genericLabels v) in
  match cache ≫= RG_NodeGroups with
  | None => set 0%Z
  | Some nodeGroups =>
      node ← index nodeGroups 0;
      endpoint ← deref (NG_PrimaryEndpoint node);
      host ← deref (Endpoint_Address endpoint);
      port ← deref (Endpoint_Port endpoint);
      conn ← invoke (TCPConnection host port);
      set (Btof64 conn)
  end.

(** ** Service updates *)

Definition applyServiceUpdate (replicationGroupId serviceUpdateName : option string)
  : M S error unit :=
  unprocessed ← ok (invoke (BatchApplyUpdateAction [replicationGroupId] serviceUpdateName));
  match unprocessed with
  | [] => mret tt
  | _ => fail (GoErr ("encountered unprocessedupdateaction while applying '" +:+
                      StringValue serviceUpdateName +:+ "'"))
  end.

(** The loop over the specified updates for one update action; true when it
    stopped at an error. *)
Fixpoint applyUpdate (groupId : option string) (update : UpdateAction) (specified : list string)
  : M S error bool :=
  match specified with
  | [] => mret false
  | specifiedUpdate :: rest =>
      name ← deref (UA_ServiceUpdateName update);
      if bool_decide (specifiedUpdate ≠ name) then applyUpdate groupId update rest
      else
        status ← deref (UA_ServiceUpdateStatus update);
        if bool_decide (status = "available") &&
           validServiceUpdateStates (StringValue (UA_UpdateActionStatus update))
        then
          _ ← deref groupId;
          applied ← try (applyServiceUpdate groupId (UA_ServiceUpdateName update));
          match applied with
          | inr _ => mret true
          | inl _ =>
              severity ← deref (UA_ServiceUpdateSeverity update);
              critical ← (if bool_decide (severity = "critical")
                          then t ← deref (UA_ServiceUpdateType update);
                               mret (bool_decide (t = "security-update"))
                          else mret false);
              if critical : bool then
                modified ← try (ok (invoke (ModifyReplicationGroup {|
                    MR_ReplicationGroupId := groupId; MR_CacheNodeType := None;
                    MR_ApplyImmediately := Some true; MR_SnapshotRetentionLimit := None;
                    MR_EngineVersion := None; MR_PreferredMaintenanceWindow := None;
                    MR_SnapshotWindow := None |})));
                match modified with
                | inr _ => mret true
                | inl _ => applyUpdate groupId update rest
                end
              else applyUpdate groupId update rest
          end
        else applyUpdate groupId update rest
  end.

Definition applySpecifiedSecurityUpdates (group : ReplicationGroup) (specified : list string)
  : M S error unit :=
  updateActions ← ok (invoke (DescribeUpdateActions [RG_ReplicationGroupId group]
                                [Some "available"]));
  encounteredError ← foldM (λ failed update,
    e ← applyUpdate (RG_ReplicationGroupId group) update specified; mret (failed || e))
    false updateActions;
  if encounteredError : bool
  then fail (GoErr "encountered an error - check the logs for error messages")
  else mret tt.
End Redis.

(** ** Reconciling a replication group *)

Section Reconcile.
Context `{ThirdParty} (p : RedisProvider).

(** The cache clusters of a replication group; the engine versions they report
    are recorded in the status of the custom resource, the last one stays. *)
Fixpoint groupClusters (groupId : string) (clusters : list CacheCluster)
  : M CR (string * error) (list CacheCluster) :=
  match clusters with
  | [] => mret []
  | c :: rest =>
      if bool_decide (StringValue (CC_ReplicationGroupId c) = groupId) then
        r ← get;
        _ ← (match CC_EngineVersion c with
             | Some v => if bool_decide (Status_Version (CR_Status r) ≠ v)
                         then put (setVersion v r) else mret tt
             | None => mret tt
             end);
        found ← groupClusters groupId rest;
        mret (c :: found)
      else groupClusters groupId rest
  end.

(** The tags of the nodes of the first node group; [Some msg] when it is not
    available. *)
Definition tagNodes (found : ReplicationGroup) : M CR (string * error) (option string) :=
  cacheInstance ← index (default [] (RG_NodeGroups found)) 0;
  nodeStatus ← deref (NG_Status cacheInstance);
  if bool_decide (nodeStatus ≠ "available") then
    _ ← deref (NG_NodeGroupId cacheInstance);
    status ← deref (RG_Status found);
    mret (Some ("cache node status not available, current status:  " +:+ status))
  else
    r ← get;
    _ ← forM (NG_NodeGroupMembers cacheInstance) (λ cache,
      _ ← TagElasticacheNode r cache
        onError (λ '(msg, err), wrapBoth ("failed to add tags to elasticache: " +:+ msg) err);
      mret tt);
    mret None.

(** The modification that brings the group up to date with the strategy. *)
Definition modifyGroup (cfg : CreateReplicationGroupInput) (found : ReplicationGroup)
    (clusters : list CacheCluster) : M CR (string * error) unit :=
  r ← get;
  mi ← buildElasticacheUpdateStrategy cfg found clusters r
    onError (wrapBoth "failed to build elasticache modify strategy");
  match mi with
  | Some input => ok (invoke (ModifyReplicationGroup input))
      onError (wrapBoth "failed to modify elasticache cluster")
  | None => mret tt
  end.

(** The branch for a replication group that exists. *)
Definition reconcileFoundCache (cfg : CreateReplicationGroupInput) (serviceUpdates : list string)
    (maintenanceWindow : bool) (found : ReplicationGroup)
  : M CR (string * error) (option RedisDeploymentDetails * string) :=
  groupId ← deref (RG_ReplicationGroupId found);
  allClusters ← ok (invoke (DescribeCacheClusters None))
    onError (wrapBoth "failed to describe clusters");
  clusters ← groupClusters groupId allClusters;
  status ← deref (RG_Status found);
  if bool_decide (status ≠ "available") then
    mret (None, "createReplicationGroup() in progress, current aws elasticache status is "
                +:+ status)
  else
    _ ← (if maintenanceWindow then modifyGroup cfg found clusters else mret tt);
    _ ← (match serviceUpdates with
         | [] => mret tt
         | _ => applySpecifiedSecurityUpdates found serviceUpdates
             onError (wrapBoth "there was an error applying critical security updates")
         end);
    notReady ← (if isSTSManager (R_CredentialManager p) then mret None else tagNodes found);
    match notReady with
    | Some msg => mret (None, msg)
    | None =>
        node ← index (default [] (RG_NodeGroups found)) 0;
        primaryEndpoint ← deref (NG_PrimaryEndpoint node);
        uri ← deref (Endpoint_Address primaryEndpoint);
        port ← deref (Endpoint_Port primaryEndpoint);
        mret (Some {| RDD_URI := uri; RDD_Port := port |},
              "successfully created and tagged, aws elasticache status is " +:+ status)
    end.

(** The branch for a replication group that does not exist. *)
Definition createCache (cfg : CreateReplicationGroupInput)
  : M CR (string * error) (option RedisDeploymentDetails * string) :=
  r ← get;
  if annotations_Has (CR_Meta r) ResourceIdentifierAnnotation then
    let errMsg := "Redis CR " +:+ Meta_Name (CR_Meta r) +:+ " in " +:+
      Meta_Namespace (CR_Meta r) +:+ " namespace has " +:+ ResourceIdentifierAnnotation +:+
      " annotation with value " +:+ annotations_Get (CR_Meta r) ResourceIdentifierAnnotation +:+
      ", but no corresponding Elasticache cluster was found" in
    fail (withMsg errMsg (GoErr errMsg))
  else
    cfg ← (if isSTSManager (R_CredentialManager p)
           then buildRedisTagCreateStrategy r cfg
                  onError (λ '(msg, err), wrapBoth ("failed to add tags to rds: " +:+ msg) err)
           else mret cfg);
    _ ← ok (invoke (CreateReplicationGroup cfg))
      onError (λ err, wrapBoth ("error creating elasticache cluster " +:+ Error err) err);
    id ← deref (CR_ReplicationGroupId cfg);
    _ ← addAnnotation id;
    mret (None, "started elasticache provision").

Definition createElasticacheCluster (cfg : CreateReplicationGroupInput)
    (serviceUpdates : list string) (standaloneNetworkExists maintenanceWindow : bool)
  : M CR (string * error) (option RedisDeploymentDetails * string) :=
  rgs ← getReplicationGroups onError (wrapBoth "error getting replication groups");
  _ ← (if standaloneNetworkExists then mret tt
       else
         _ ← configureElasticacheVpc onError (wrapBoth "error setting up resource vpc");
         configureSecurityGroup onError (wrapBoth "error setting up security group"));
  r ← get;
  cfg ← buildElasticacheCreateStrategy r cfg
    onError (wrapBoth "failed to build and verify aws elasticache create strategy");
  foundCache ← lift (findByPtr RG_ReplicationGroupId (CR_ReplicationGroupId cfg) rgs);
  defer (setRedisServiceMaintenanceMetric (E := error) foundCache)
    (defer (r ← get; exposeRedisMetrics (E := error) r foundCache)
      (defer (r ← get; createElasticacheConnectionMetric (E := error) r foundCache)
        (match foundCache with
         | Some found => reconcileFoundCache cfg serviceUpdates maintenanceWindow found
         | None => createCache cfg
         end))).

(** The standalone network of a cluster without bundled subnets. *)
Definition reconcileRedisNetwork (sts : bool) (tier : string) : M CR (string * error) unit :=
  vpcCidrBlock ← ReconcileNetworkProviderConfig (R_ConfigManager p) tier
    onError (wrapBoth "failed to get _network strategy config");
  standaloneNetwork ← CreateNetwork sts vpcCidrBlock
    onError (wrapBoth "failed to create resource network");
  networkPeering ← CreateNetworkPeering sts standaloneNetwork
    onError (wrapBoth "failed to peer standalone network");
  _ ← deref (NP_PeeringConnection networkPeering);
  _ ← CreateNetworkConnection sts standaloneNetwork
    onError (wrapBoth "failed to create standalone network");
  mret tt.

(** Closing the maintenance window on the stored object. *)
Definition closeWindow (msg : string) : M CR (string * error) unit :=
  r ← get;
  let r' := setMaintenanceWindow false r in
  _ ← put r';
  updated ← ok (invoke (UpdateCR r')) onError (withMsg msg);
  put updated.

Definition CreateRedis : M CR (string * error) (option RedisDeploymentDetails * string) :=
  _ ← CreateFinalizer DefaultFinalizer onError (withMsg "failed to set finalizer");
  r ← get;
  '(elasticacheCreateConfig, _, serviceUpdates, stratCfg) ← getElasticacheConfig p r
    onError (wrapBoth ("failed to retrieve aws elasticache cluster config "
                       +:+ Meta_Name (CR_Meta r)));
  providerCreds ← ReconcileProviderCredentials (R_CredentialManager p) (Meta_Namespace (CR_Meta r))
    onError (wrapBoth "failed to reconcile elasticache credentials");
  _ ← CreateSessionFromStrategy providerCreds stratCfg
    onError (wrapBoth "failed to create aws session to create elasticache replication group");
  maintenanceWindow ← VerifyRedisMaintenanceWindow (Meta_Namespace (CR_Meta r))
                        (Meta_Name (CR_Meta r))
    onError (wrapBoth "failed to verify if redis updates are allowed");
  sts ← isSTSCluster;
  isEnabled ← IsEnabled onError (wrapBoth "failed to check cluster vpc subnets");
  _ ← (if isEnabled : bool then reconcileRedisNetwork sts (Spec_Tier (CR_Spec r))
       else mret tt);
  answer ← createElasticacheCluster elasticacheCreateConfig serviceUpdates isEnabled
             maintenanceWindow
    onError (λ '(reconcileStatus, err),
               (reconcileStatus, WrapErr err "failed to reconcile redis instance"));
  match answer.1 with
  | None => mret (None, answer.2)
  | Some details =>
      _ ← (if maintenanceWindow : bool
           then closeWindow "failed to set redis allowUpdates to false" else mret tt);
      mret (Some details, answer.2)
  end.

(** ** Deleting a replication group *)

(** The branch for a replication group that exists. *)
Definition deleteFoundCache (deleteConfig : DeleteReplicationGroupInput)
    (found : ReplicationGroup) : M CR (string * error) string :=
  r ← get;
  _ ← exposeRedisMetrics r (Some found);
  status ← deref (RG_Status found);
  if bool_decide (status ≠ "available") then
    mret ("delete detected, deleteReplicationGroup() in progress, current aws elasticache "
          +:+ "status is " +:+ status)
  else
    deleted ← try (ok (invoke (DeleteReplicationGroup deleteConfig)));
    match deleted with
    | inr err =>
        if bool_decide (aws_code err ≠ Some "ReplicationGroupNotFoundFault")
        then fail (wrapBoth ("failed to delete elasticache cluster : " +:+ Error err) err)
        else mret "delete detected, deleteReplicationGroup started"
    | inl _ => mret "delete detected, deleteReplicationGroup started"
    end.

(** The branch for a replication group that is gone. *)
Definition deleteAbsentCache (sts isEnabled isLastResource : bool)
  : M CR (string * error) string :=
  _ ← deleteLastNetwork sts isEnabled isLastResource;
  _ ← dropFinalizer "failed to update instance as part of finalizer reconcile";
  mret "".

Definition deleteElasticacheCluster (sts : bool) (createConfig : CreateReplicationGroupInput)
    (deleteConfig : DeleteReplicationGroupInput) (isEnabled isLastResource : bool)
  : M CR (string * error) string :=
  rgs ← getReplicationGroups onError (withMsg "error getting replication groups");
  r ← get;
  '(createId, deleteConfig) ← buildElasticacheDeleteConfig r createConfig deleteConfig
    onError (wrapBoth "failed to verify aws rds instance configuration");
  foundCache ← lift (findByPtr RG_ReplicationGroupId createId rgs);
  match foundCache with
  | Some found => deleteFoundCache deleteConfig found
  | None => deleteAbsentCache sts isEnabled isLastResource
  end.

Definition DeleteRedis : M CR (string * error) string :=
  r ← get;
  _ ← setRedisDeletionTimestampMetric r;
  '(createConfig, deleteConfig, _, stratCfg) ← getElasticacheConfig p r
    onError (wrapBoth ("failed to retrieve aws elasticache config for instance "
                       +:+ Meta_Name (CR_Meta r)));
  providerCreds ← ReconcileProviderCredentials (R_CredentialManager p) (Meta_Namespace (CR_Meta r))
    onError (wrapBoth "failed to reconcile aws provider credentials");
  _ ← CreateSessionFromStrategy providerCreds stratCfg
    onError (wrapBoth "failed to create aws session to delete elasticache replication group");
  sts ← isSTSCluster;
  isEnabled ← IsEnabled onError (wrapBoth "failed to check cluster vpc subnets");
  isLastResource ← IsLastResource
    onError (wrapBoth "failed to check if this cr is the last cr of type postgres and redis");
  deleteElasticacheCluster sts createConfig deleteConfig isEnabled isLastResource.
End Reconcile.
