(* ===== verification/Strategies.v ===== *)
(** * pkg/client: types/types.go and aws/strategies_aws.go

    The strategy client: it turns the start times of the backup and maintenance
    windows into the strategies of the AWS config map, which the providers read.  A
    [time.Time] is its Unix time in UTC.  The text of a [json.RawMessage] is that of
    the value it denotes. *)
From S2P Require Import Prelude Effects GoNet GoStrings Json JsonPrint Api Resources AwsConfig.
From S2P Require Import AwsPostgres AwsRedis.
From Stdlib Require Import Ascii.
Local Open Scope Z_scope.
Local Open Scope go_scope.

(** ** Times (types.go) *)

Definition PostgresStratKey : string := "postgres".
Definition RedisStratKey : string := "redis".

(** [time.Weekday], an integer. *)
Definition Sunday : Z := 0.
Definition Saturday : Z := 6.
Definition longDayNames : list string :=
  ["Sunday"; "Monday"; "Tuesday"; "Wednesday"; "Thursday"; "Friday"; "Saturday"].
Definition Weekday_String (d : Z) : string :=
  if (Sunday <=? d) && (d <=? Saturday) then default "" (longDayNames !! Z.to_nat d)
  else "%!Weekday(" +:+ itoa (d mod 2 ^ 64) +:+ ")".

Record StartTime := { Time : Z; Day : Z }.
Record StrategyTimeConfig := { BackupStartTime : StartTime; MaintenanceStartTime : StartTime }.

(** [time.Date(0, time.January, 1, hour, minute, 0, 0, time.UTC)] *)
Definition newYear0 : Z := -62167219200.
Definition clockTime (hour minute : Z) : Z := newYear0 + hour * 3600 + minute * 60.
Definition NewStrategyTimeConfig (backupHour backupMinute maintenanceDay maintenanceHour
    maintenanceMinute : Z) : StrategyTimeConfig :=
  {| BackupStartTime := {| Time := clockTime backupHour backupMinute; Day := Sunday |};
     MaintenanceStartTime := {| Time := clockTime maintenanceHour maintenanceMinute;
                                Day := maintenanceDay |} |}.

Definition Time_Hour (t : Z) : Z := t mod 86400 / 3600.
Definition Time_Minute (t : Z) : Z := t mod 3600 / 60.

(** ** Windows (strategies_aws.go) *)

(** [%02d] of a number that is not negative. *)
Definition pad2 (n : Z) : string := if n <? 10 then "0" +:+ itoa n else itoa n.
Definition take3 (s : string) : string := String.substring 0 3 s.

Definition timeBlockOverlaps (startA endA startB endB : Z) : bool :=
  (startA <=? endB) && (startB <=? endA).

(** [hh:mm] *)
Definition clock (t : Z) : string := pad2 (Time_Hour t) +:+ ":" +:+ pad2 (Time_Minute t).
Definition dayName (d : Z) : string := ToLower (take3 (Weekday_String d)).
Definition awsMaintenanceString (maintenance : StartTime) : string :=
  let maintenanceDayTo :=
    if Time_Hour (Time maintenance) =? 23
    then if Day maintenance =? Saturday then Sunday else Day maintenance + 1
    else Day maintenance in
  dayName (Day maintenance) +:+ ":" +:+ clock (Time maintenance) +:+ "-" +:+
  dayName maintenanceDayTo +:+ ":" +:+ clock (Time maintenance + 3600).
Definition awsBackupString (backup : StartTime) : string :=
  clock (Time backup) +:+ "-" +:+ clock (Time backup + 3600).

Definition buildAWSWindows (timeConfig : StrategyTimeConfig) : result (string * string) :=
  let maintenance := MaintenanceStartTime timeConfig in
  let backup := BackupStartTime timeConfig in
  if timeBlockOverlaps (Time backup) (Time backup + 3600)
       (Time maintenance) (Time maintenance + 3600)
  then Er (GoErr ("backup and maintenance windows can not overlap, we require a minumum of 1 hour windows, current backup window : "
                  +:+ awsBackupString backup +:+ ", current maintenance window : "
                  +:+ awsMaintenanceString maintenance +:+ " "))
  else Ok (awsBackupString backup, awsMaintenanceString maintenance).

Example windows_sunday : buildAWSWindows (NewStrategyTimeConfig 1 5 0 23 30) =
  Ok ("01:05-02:05", "sun:23:30-mon:00:30").
Proof. vm_compute. reflexivity. Qed.

(** ** Structs of the SDK as JSON *)

(** The keys of a map are sorted; the last entry of a key counts. *)
Fixpoint insertKey {A} (k : string) (v : A) (l : list (string * A)) : list (string * A) :=
  match l with
  | [] => [(k, v)]
  | p :: rest => if String.ltb k p.1 then (k, v) :: l else p :: insertKey k v rest
  end.
Definition withoutKey {A} (k : string) (l : list (string * A)) : list (string * A) :=
  List.filter (λ p, negb (bool_decide (p.1 = k))) l.
Definition sortedMap {A} (l : list (string * A)) : list (string * A) :=
  foldl (λ acc p, insertKey p.1 p.2 (withoutKey p.1 acc)) [] l.

(** [json.Marshal] of a value that was decoded with kind [k]: every field of a
    struct, nil ones as null. *)
Fixpoint marshalAs (k : jkind) (v : json) : json :=
  match k with
  | KBool | KString => v
  | KInt64 => match v with
              | JNum l => match ParseInt64 l with Some z => JNum (itoa z) | None => JNull end
              | v => v
              end
  | KSlice elem => match v with JArr l => JArr (map (marshalAs elem) l) | v => v end
  | KMap elem =>
      match v with
      | JObj members => JObj (sortedMap (map (λ m, (m.1, marshalAs elem m.2)) members))
      | v => v
      end
  | KStruct fields =>
      match v with
      | JObj members =>
          JObj (map (λ f, (f.1, marshalAs f.2 (default JNull
                                  (fieldValue (map fst fields) members f.1)))) fields)
      | v => v
      end
  end.

(** A decoded struct as its fields in order. *)
Definition structFields (spec : list (string * jkind)) (members : list (string * json))
  : list (string * json) :=
  map (λ f, (f.1, marshalAs f.2 (default JNull (fieldValue (map fst spec) members f.1)))) spec.
Definition getField (fields : list (string * json)) (f : string) : option json :=
  snd <$> List.find (λ p, bool_decide (p.1 = f)) fields.
Definition setField (f : string) (v : json) (fields : list (string * json))
  : list (string * json) :=
  map (λ p, if bool_decide (p.1 = f) then (f, v) else p) fields.
(** [if cfg.F == nil || *cfg.F != v { cfg.F = aws.String(v) }] *)
Definition setWindow (f v : string) (fields : list (string * json)) : list (string * json) :=
  if bool_decide (asString (getField fields f) = Some v) then fields
  else setField f (JStr v) fields.

(** ** The mapping of tiers *)

(** [json.Marshal] of a strategy and of the mapping. *)
Definition marshalStrategy (s : option StrategyConfig) : json :=
  match s with
  | None => JNull
  | Some s => JObj [("region", JStr (Strategy_Region s));
                    ("createStrategy", default JNull (Strategy_CreateStrategy s));
                    ("deleteStrategy", default JNull (Strategy_DeleteStrategy s));
                    ("serviceUpdates", default JNull (Strategy_ServiceUpdates s))]
  end.
Definition marshalMapping (mapping : list (string * option StrategyConfig)) : string :=
  marshal (JObj (map (λ p, (p.1, marshalStrategy p.2)) (sortedMap mapping))).

(** [rawStrategy[tier].CreateStrategy = raw] through the pointer of the map. *)
Definition setCreateStrategy (raw : json) (s : StrategyConfig) : StrategyConfig :=
  {| Strategy_Region := Strategy_Region s; Strategy_CreateStrategy := Some raw;
     Strategy_DeleteStrategy := Strategy_DeleteStrategy s;
     Strategy_ServiceUpdates := Strategy_ServiceUpdates s |}.

(** The body that both functions share: [spec] and the fields of the windows differ. *)
Definition reconcileStrategy (spec : list (string * jkind)) (backupField maintenanceField kind
    cluster : string) (tier config backupWindow maintenanceWindow : string) : outcome error string :=
  match unmarshalMapping config with
  | Er e => Err (WrapErr e ("failed to unmarshal strategy mapping for " +:+ kind +:+ " resource"))
  | Ok rawStrategy =>
      match lookupTier tier rawStrategy with
      | None => nil_deref
      | Some s =>
          match unmarshalStruct spec (Strategy_CreateStrategy s) with
          | Er e => Err (WrapErr e ("failed to unmarshal aws " +:+ cluster +:+ " cluster config"))
          | Ok members =>
              let createConfig := setWindow maintenanceField maintenanceWindow
                (setWindow backupField backupWindow (structFields spec members)) in
              Val (marshalMapping
                     (rawStrategy ++ [(tier, Some (setCreateStrategy (JObj createConfig) s))]))
          end
      end
  end.
Definition reconcilePostgresStrategy : string → string → string → string → outcome error string :=
  reconcileStrategy CreateDBInstanceInputFields "PreferredBackupWindow" "PreferredMaintenanceWindow"
    "postgres" "rds".
Definition reconcileRedisStrategy : string → string → string → string → outcome error string :=
  reconcileStrategy CreateReplicationGroupInputFields "SnapshotWindow" "PreferredMaintenanceWindow"
    "redis" "redis".

(** ** The config map *)

Record StrategyProvider := { StrategyProvider_Tier : string; StrategyProvider_Namespace : string }.

Definition defaultAwsStratValue : string :=
  quoted "{`development`: { `region`: ``, `createStrategy`: {}, `deleteStrategy`: {} }, `production`: { `region`: ``, `createStrategy`: {}, `deleteStrategy`: {} }}".

(** The mutation of the data; data that is nil is empty. *)
Definition ensureKey (key value : string) (data : gmap string string) : gmap string string :=
  match data !! key with None => <[key := value]> data | Some _ => data end.
Definition withDefaults (data : gmap string string) : gmap string string :=
  let data := if bool_decide (data = ∅) then BuildDefaultConfigMap else data in
  ensureKey RedisStratKey defaultAwsStratValue (ensureKey PostgresStratKey defaultAwsStratValue data).
Definition mutateStrategies (tier backupWindow maintenanceWindow : string)
    (data : gmap string string) : outcome error (gmap string string) :=
  let data := withDefaults data in
  match reconcilePostgresStrategy tier (default "" (data !! PostgresStratKey))
          backupWindow maintenanceWindow with
  | Err e => Err (WrapErr e "failed to reconcile postgres strategy")
  | Panic w => Panic w
  | Val postgresStrategy =>
      match reconcileRedisStrategy tier (default "" (data !! RedisStratKey))
              backupWindow maintenanceWindow with
      | Err e => Err (WrapErr e "failed to reconcile redis strategy")
      | Panic w => Panic w
      | Val redisStrategy =>
          Val (<[RedisStratKey := redisStrategy]> (<[PostgresStratKey := postgresStrategy]> data))
      end
  end.

Definition ReconcileStrategyMap {S} (p : StrategyProvider) (timeConfig : StrategyTimeConfig)
  : M S error unit :=
  '(backupWindow, maintenanceWindow) ← liftR (buildAWSWindows timeConfig)
    orWrap "failed to build aws windows";
  CreateOrUpdateConfigMap DefaultConfigMapName (StrategyProvider_Namespace p) ∅
    (mutateStrategies (StrategyProvider_Tier p) backupWindow maintenanceWindow)
    onError (λ err, GoErr ("failed to update aws strategy config map : " +:+ Error err)).

Example postgres_twice :
  match reconcilePostgresStrategy "production" defaultAwsStratValue "01:05-02:05" "sun:23:30-mon:00:30" with
  | Val out => reconcilePostgresStrategy "production" out "01:05-02:05" "sun:23:30-mon:00:30" = Val out
  | _ => False
  end.
Proof. vm_compute. reflexivity. Qed.
