(* ===== verification/ClientUtil.v ===== *)
(** * pkg/client/util.go

    What another operator calls to ask for a resource: the custom resource is created or
    updated.  The function that modifies the object before is the caller's, a
    parameter; nil is [None]. *)
From S2P Require Import Prelude Effects Api Resources.
Local Open Scope go_scope.

(** [controllerutil.CreateOrUpdate] on a custom resource, which ends up in the object. *)
Definition CreateOrUpdateCR {S} (obj : CR) (mutate : CR → CR) : M S error CR :=
  got ← try (ok (invoke (GetCR (CR_kind obj) (Meta_Name (CR_Meta obj)) (Meta_Namespace (CR_Meta obj)))));
  match got with
  | inr err => if IsNotFound err then ok (invoke (CreateCR (mutate obj))) else fail err
  | inl existing =>
      let updated := mutate existing in
      if bool_decide (updated = existing) then mret existing else ok (invoke (UpdateCR updated))
  end.

(** The object that the three functions start from. *)
Definition requested (k : kind) (name ns : string) (labels : gmap string string) : CR :=
  {| CR_kind := k;
     CR_Meta := {| Meta_Name := name; Meta_Namespace := ns; Meta_Labels := labels;
                   Meta_Annotations := ∅; Meta_Finalizers := []; Meta_CreationTimestamp := 0;
                   Meta_DeletionTimestamp := None; Meta_UID := "" |};
     CR_Spec := {| Spec_Type := ""; Spec_Tier := ""; Spec_SkipCreate := false;
                   Spec_ApplyImmediately := false; Spec_MaintenanceWindow := false;
                   Spec_SecretRef := None; Spec_Size := ""; Spec_SnapshotFrequency := "";
                   Spec_SnapshotRetention := "" |};
     CR_Status := {| Status_Strategy := ""; Status_Provider := ""; Status_Version := "";
                     Status_SecretRef := None; Status_Phase := ""; Status_Message := "" |} |}.
Definition setSpec (f : ResourceTypeSpec → ResourceTypeSpec) (o : CR) : CR :=
  {| CR_kind := CR_kind o; CR_Meta := CR_Meta o; CR_Spec := f (CR_Spec o);
     CR_Status := CR_Status o |}.
Definition setLabels (labels : gmap string string) (o : CR) : CR :=
  setMeta o {| Meta_Name := Meta_Name (CR_Meta o); Meta_Namespace := Meta_Namespace (CR_Meta o);
               Meta_Labels := labels; Meta_Annotations := Meta_Annotations (CR_Meta o);
               Meta_Finalizers := Meta_Finalizers (CR_Meta o);
               Meta_CreationTimestamp := Meta_CreationTimestamp (CR_Meta o);
               Meta_DeletionTimestamp := Meta_DeletionTimestamp (CR_Meta o);
               Meta_UID := Meta_UID (CR_Meta o) |}.

(** [modifyResourceFunc], which sees the metadata. *)
Definition modifyResourceFunc : Type := CR → outcome error CR.

(** The body that the three functions share. *)
Definition reconcileRequest {S} (what name : string) (obj : CR) (modifyFunc : option modifyResourceFunc)
    (mutate : CR → CR) : M S error CR :=
  obj ← (match modifyFunc with
         | Some f => lift (f obj)
             orWrap ("failed to execute modification function on resource " +:+ name)
         | None => mret obj
         end);
  CreateOrUpdateCR obj mutate orWrap ("failed to reconcile " +:+ what +:+ " request for " +:+ name).

Section Requests.
Context {S : Type} (productName deploymentType tier name ns secretName secretNs : string).
Definition secretRefTo : SecretRef :=
  {| SecretRef_Name := secretName; SecretRef_Namespace := secretNs |}.

Definition client_ReconcileBlobStorage (modifyFunc : option modifyResourceFunc) : M S error CR :=
  reconcileRequest "blob storage" name
    (requested BlobStorage name ns {[ "productName" := productName ]}) modifyFunc
    (setSpec (λ s,
       {| Spec_Type := deploymentType; Spec_Tier := tier; Spec_SkipCreate := Spec_SkipCreate s;
          Spec_ApplyImmediately := Spec_ApplyImmediately s;
          Spec_MaintenanceWindow := Spec_MaintenanceWindow s; Spec_SecretRef := Some secretRefTo;
          Spec_Size := Spec_Size s; Spec_SnapshotFrequency := Spec_SnapshotFrequency s;
          Spec_SnapshotRetention := Spec_SnapshotRetention s |})).

Definition client_ReconcilePostgres (applyImmediately : bool)
    (snapshotFrequency snapshotRetention : string) (modifyFunc : option modifyResourceFunc)
  : M S error CR :=
  reconcileRequest "postgres" name (requested Postgres name ns ∅) modifyFunc
    (λ o, setSpec (λ s,
       {| Spec_Type := deploymentType; Spec_Tier := tier; Spec_SkipCreate := Spec_SkipCreate s;
          Spec_ApplyImmediately := applyImmediately;
          Spec_MaintenanceWindow := Spec_MaintenanceWindow s; Spec_SecretRef := Some secretRefTo;
          Spec_Size := Spec_Size s; Spec_SnapshotFrequency := snapshotFrequency;
          Spec_SnapshotRetention := snapshotRetention |})
       (setLabels {[ "productName" := productName ]} o)).

Definition client_ReconcileRedis (size : string) (applyImmediately maintenanceWindow : bool)
    (modifyFunc : option modifyResourceFunc) : M S error CR :=
  reconcileRequest "redis" name
    (requested Redis name ns {[ "productName" := productName ]}) modifyFunc
    (setSpec (λ s,
       {| Spec_Type := deploymentType; Spec_Tier := tier; Spec_SkipCreate := Spec_SkipCreate s;
          Spec_ApplyImmediately := applyImmediately; Spec_MaintenanceWindow := maintenanceWindow;
          Spec_SecretRef := Some secretRefTo; Spec_Size := size;
          Spec_SnapshotFrequency := Spec_SnapshotFrequency s;
          Spec_SnapshotRetention := Spec_SnapshotRetention s |})).
End Requests.

(** ** Properties *)

(** What a request that succeeds found or wrote. *)
Lemma CreateOrUpdateCR_Val {S} obj mutate (s : S) tr o s' :
  runs (CreateOrUpdateCR obj mutate s) tr (Val o, s') →
  Ev (CreateCR (mutate obj)) (Ok o) ∈ tr ∨
  ∃ old, Ev (GetCR (CR_kind obj) (Meta_Name (CR_Meta obj)) (Meta_Namespace (CR_Meta obj))) (Ok old)
           ∈ tr ∧
    (mutate old = old ∧ o = old ∨ Ev (UpdateCR (mutate old)) (Ok o) ∈ tr).
Proof.
  intros Hr. unfold CreateOrUpdateCR in Hr. inv_call Hr. destruct Hr as (r & t & -> & Hr).
  destruct r as [old|e].
  - right. exists old. split; [ev_in|]. cbv zeta in Hr. case_bool_decide.
    + apply runs_mret_Val in Hr as (_ & -> & _). by left.
    + run_val Hr. right. ev_in.
  - destruct (IsNotFound e); [|by run_val Hr]. run_val Hr. left. ev_in.
Qed.

(** The object that the API has for a request: it was written or found, and it is what
    the request asks for, since asking again would not change it. *)
Definition satisfied (mutate : CR → CR) (o : CR) (tr : list event) : Prop :=
  ∃ w, mutate w = w ∧
    (Ev (CreateCR w) (Ok o) ∈ tr ∨ Ev (UpdateCR w) (Ok o) ∈ tr ∨
     o = w ∧ ∃ k name ns, Ev (GetCR k name ns) (Ok w) ∈ tr).
Lemma reconcileRequest_Val {S} what name obj f mutate (s : S) tr o s' :
  (∀ o, mutate (mutate o) = mutate o) →
  runs (reconcileRequest what name obj f mutate s) tr (Val o, s') → satisfied mutate o tr.
Proof.
  intros Hm Hr. unfold reconcileRequest in Hr.
  apply runs_bind_Val in Hr as (t1 & obj' & s1 & t2 & -> & _ & Hr).
  apply runs_onErr_Val, CreateOrUpdateCR_Val in Hr as [Hc|(old & Hg & [[Ho ->]|Hu])].
  - exists (mutate obj'). split; [done|]. left. ev_in.
  - exists old. split; [done|]. right. right. split; [done|]. eexists _, _, _. ev_in.
  - exists (mutate old). split; [done|]. right. left. ev_in.
Qed.

Section Requests.
Context {S : Type} (productName deploymentType tier name ns secretName secretNs : string).
Notation ref := (secretRefTo secretName secretNs).

(** What the specification of a request has in common. *)
Definition asked (o : CR) : Prop :=
  Spec_Type (CR_Spec o) = deploymentType ∧ Spec_Tier (CR_Spec o) = tier ∧
  Spec_SecretRef (CR_Spec o) = Some ref.

Lemma satisfied_found mutate o tr (P : CR → Prop) :
  satisfied mutate o tr → (∀ w, P (mutate w)) →
  ∃ w, P w ∧ (Ev (CreateCR w) (Ok o) ∈ tr ∨ Ev (UpdateCR w) (Ok o) ∈ tr ∨
              o = w ∧ ∃ k name ns, Ev (GetCR k name ns) (Ok w) ∈ tr).
Proof. intros (w & <- & Hw) HP. eexists. split; [apply HP|exact Hw]. Qed.

(** a request that succeeds leaves a resource of the wanted type, tier and secret in
    the API, by creating it, by updating it or because it is so already; with the
    snapshot frequency and retention of a Postgres and the size and the flags of a
    Redis. *)
Theorem client_requests_met (s s' : S) tr o :
  (∀ f, runs (client_ReconcileBlobStorage productName deploymentType tier name ns secretName secretNs
                f s) tr (Val o, s') →
     ∃ w, asked w ∧ (Ev (CreateCR w) (Ok o) ∈ tr ∨ Ev (UpdateCR w) (Ok o) ∈ tr ∨
                     o = w ∧ ∃ k name ns, Ev (GetCR k name ns) (Ok w) ∈ tr)) ∧
  (∀ now freq ret f, runs (client_ReconcilePostgres productName deploymentType tier name ns secretName
                             secretNs now freq ret f s) tr (Val o, s') →
     ∃ w, (asked w ∧ Spec_ApplyImmediately (CR_Spec w) = now ∧
           Spec_SnapshotFrequency (CR_Spec w) = freq ∧ Spec_SnapshotRetention (CR_Spec w) = ret ∧
           Meta_Labels (CR_Meta w) = {[ "productName" := productName ]}) ∧
       (Ev (CreateCR w) (Ok o) ∈ tr ∨ Ev (UpdateCR w) (Ok o) ∈ tr ∨
        o = w ∧ ∃ k name ns, Ev (GetCR k name ns) (Ok w) ∈ tr)) ∧
  (∀ size now window f, runs (client_ReconcileRedis productName deploymentType tier name ns secretName
                                secretNs size now window f s) tr (Val o, s') →
     ∃ w, (asked w ∧ Spec_Size (CR_Spec w) = size ∧ Spec_ApplyImmediately (CR_Spec w) = now ∧
           Spec_MaintenanceWindow (CR_Spec w) = window) ∧
       (Ev (CreateCR w) (Ok o) ∈ tr ∨ Ev (UpdateCR w) (Ok o) ∈ tr ∨
        o = w ∧ ∃ k name ns, Ev (GetCR k name ns) (Ok w) ∈ tr)).
Proof.
  split_and!; intros *; intros Hr; apply reconcileRequest_Val in Hr; try done;
    (eapply (satisfied_found _ _ _ _ Hr)); done.
Qed.

(** an update of an existing Redis or blob storage never changes its metadata, so a
    resource that was made without the label of its product never gets it; one of a
    Postgres replaces all its labels by that label. *)
Theorem client_labels (s s' : S) tr out x a :
  Ev (UpdateCR x) a ∈ tr →
  (∀ f, runs (client_ReconcileBlobStorage productName deploymentType tier name ns secretName secretNs
                f s) tr (out, s') →
     ∃ k n m old, Ev (GetCR k n m) (Ok old) ∈ tr ∧ CR_Meta x = CR_Meta old) ∧
  (∀ size now window f, runs (client_ReconcileRedis productName deploymentType tier name ns secretName
                                secretNs size now window f s) tr (out, s') →
     ∃ k n m old, Ev (GetCR k n m) (Ok old) ∈ tr ∧ CR_Meta x = CR_Meta old) ∧
  (∀ now freq ret f, runs (client_ReconcilePostgres productName deploymentType tier name ns secretName
                             secretNs now freq ret f s) tr (out, s') →
     Meta_Labels (CR_Meta x) = {[ "productName" := productName ]}).
Proof.
  intros He.
  assert (∀ what nm obj f mutate, runs (reconcileRequest what nm obj f mutate s) tr (out, s') →
    ∃ k n m old, Ev (GetCR k n m) (Ok old) ∈ tr ∧ x = mutate old) as L.
  { intros what nm obj f mutate Hr. unfold reconcileRequest in Hr.
    assert (¬ (λ c : call, match (c : api_call) with UpdateCR _ => False | _ => True end) (UpdateCR x))
      as Hn by exact id.
    eapply (runs_bind_skip _ eq) in Hr as (t1 & obj' & s1 & t2 & -> & _ & <- & Hr & Hin);
      [|exact He| |exact Hn]; [|destruct f; go_sat].
    apply runs_onErr in Hr as (o1 & Hr & _). unfold CreateOrUpdateCR in Hr. inv_call Hr.
    destruct Hr as (r & t & -> & Hr). apply elem_of_cons in Hin as [Hin|Hin];
      [by apply (f_equal ev_call) in Hin|].
    destruct r as [old|e].
    - cbv zeta in Hr. case_bool_decide.
      { apply runs_mret in Hr as (-> & _). by apply not_elem_of_nil in Hin. }
      inv_call Hr. destruct Hr as (b & -> & _). apply list_elem_of_singleton in Hin.
      apply (f_equal ev_call) in Hin. injection Hin as ->.
      eexists _, _, _, old. split; [ev_in|done].
    - destruct (IsNotFound e).
      + inv_call Hr. destruct Hr as (b & -> & _). apply list_elem_of_singleton in Hin.
        by apply (f_equal ev_call) in Hin.
      + apply runs_fail in Hr as (-> & _). by apply not_elem_of_nil in Hin. }
  split_and!; intros *; intros Hr; apply L in Hr as (k & n & m & old & Hg & ->);
    [exists k, n, m, old; done..|done].
Qed.
End Requests.
