(* ===== verification/Controllers.v ===== *)
(** * controllers/{postgres,redis,blobstorage}, pkg/providers/config.go,
      pkg/resources/provider.go

    The reconcile loops.  The three controllers are copies of one function; the
    model has it once, with a record for the places where the copies differ.  The
    providers are an interface: a record of operations, with a class for what a
    controller relies on.  The state is the object that was fetched. *)
From S2P Require Import Prelude Effects GoNet GoStrings Json Api Resources Metrics.
From S2P Require Import Subnets ClusterVpc NetworkProvider AwsConfig AwsPostgres AwsRedis.
Local Open Scope go_scope.

(** ** The strategies of a deployment type (providers/config.go) *)

Definition DefaultProviderConfigMapName : string := "cloud-resource-config".
Record DeploymentStrategyMapping := {
  DSM_BlobStorage : string;
  DSM_Redis : string;
  DSM_Postgres : string
}.
Definition mappingFields : list (string * jkind) :=
  [("blobstorage", KString); ("redis", KString); ("postgres", KString)].
(** A plain string field: [null] leaves the value it has. *)
Definition stringField (members : list (string * json)) (f : string) : string :=
  default "" (last (omap (λ m, if bool_decide (fieldOf (map fst mappingFields) m.1 = Some f)
                               then asString (Some m.2) else None) members)).
Definition unmarshalStrategyMapping (raw : string) : result DeploymentStrategyMapping :=
  match parse raw with
  | Er e => Er e
  | Ok v =>
      match unmarshalStruct mappingFields (Some v) with
      | Er e => Er e
      | Ok members => Ok {| DSM_BlobStorage := stringField members "blobstorage";
                            DSM_Redis := stringField members "redis";
                            DSM_Postgres := stringField members "postgres" |}
      end
  end.
Definition buildDefaultConfigMap : gmap string string := {[
  "openshift" :=
    quoted "{`blobstorage`:`openshift`, `redis`:`openshift`, `postgres`:`openshift`}";
  "aws" := quoted "{`blobstorage`:`aws`, `redis`:`aws`, `postgres`:`aws`}";
  "gcp" := quoted "{`blobstorage`:`gcp`, `redis`:`gcp`, `postgres`:`gcp`}" ]}.

(** [NewConfigManager(DefaultProviderConfigMapName, namespace, client)]; the watched
    namespace stands in for an empty one. *)
Definition GetStrategyMappingForDeploymentType {S} (watchNamespace namespace t : string)
  : M S error DeploymentStrategyMapping :=
  let ns := if bool_decide (namespace = "") then watchNamespace else namespace in
  cm ← GetConfigMapOrDefault DefaultProviderConfigMapName ns buildDefaultConfigMap
    orWrap ("failed to read provider config from configmap " +:+ DefaultProviderConfigMapName +:+
            " in namespace " +:+ ns);
  liftR (unmarshalStrategyMapping (default "" (cm !! t)))
    orWrap ("failed to unmarshal config for deployment type " +:+ t).

(** ** The result secret (resources/provider.go) *)

Definition kindName (k : kind) : string :=
  match k with Postgres => "Postgres" | Redis => "Redis" | BlobStorage => "BlobStorage" end.

(** [controllerutil.SetControllerReference] for a namespaced owner whose kind is
    registered; an owner is the same object when kind and name agree. *)
Definition sameOwner (a b : OwnerReference) : bool :=
  bool_decide (Owner_Kind a = Owner_Kind b) && bool_decide (Owner_Name a = Owner_Name b).
Fixpoint upsertOwnerRef (ref : OwnerReference) (owners : list OwnerReference)
  : list OwnerReference :=
  match owners with
  | [] => [ref]
  | o :: rest => if sameOwner o ref then ref :: rest else o :: upsertOwnerRef ref rest
  end.
Definition SetControllerReference (owner : CR) (sec : Secret) : result Secret :=
  let ownerNs := Meta_Namespace (CR_Meta owner) in
  if bool_decide (ownerNs ≠ "") && bool_decide (Secret_Namespace sec = "") then
    Er (GoErr ("cluster-scoped resource must not have a namespace-scoped owner, owner's namespace "
               +:+ ownerNs))
  else if bool_decide (ownerNs ≠ "") && bool_decide (ownerNs ≠ Secret_Namespace sec) then
    Er (GoErr ("cross-namespace owner references are disallowed, owner's namespace " +:+ ownerNs
               +:+ ", obj's namespace " +:+ Secret_Namespace sec))
  else
    let ref := {| Owner_Kind := kindName (CR_kind owner); Owner_Name := Meta_Name (CR_Meta owner);
                  Owner_UID := Meta_UID (CR_Meta owner); Owner_Controller := true |} in
    match List.find Owner_Controller (Secret_Owners sec) with
    | Some existing =>
        if negb (sameOwner existing ref)
        then Er (GoErr ("Object " +:+ Secret_Namespace sec +:+ "/" +:+ Secret_Name sec +:+
                        " is already owned by another " +:+ Owner_Kind existing +:+ " controller "
                        +:+ Owner_Name existing))
        else Ok {| Secret_Name := Secret_Name sec; Secret_Namespace := Secret_Namespace sec;
                   Secret_Owners := upsertOwnerRef ref (Secret_Owners sec);
                   Secret_Data := Secret_Data sec; Secret_StringData := Secret_StringData sec;
                   Secret_Type := Secret_Type sec |}
    | None => Ok {| Secret_Name := Secret_Name sec; Secret_Namespace := Secret_Namespace sec;
                    Secret_Owners := upsertOwnerRef ref (Secret_Owners sec);
                    Secret_Data := Secret_Data sec; Secret_StringData := Secret_StringData sec;
                    Secret_Type := Secret_Type sec |}
    end.

(** The secret with the data to hand out. *)
Definition setData (d : gmap string string) (sec : Secret) : Secret :=
  {| Secret_Name := Secret_Name sec; Secret_Namespace := Secret_Namespace sec;
     Secret_Owners := Secret_Owners sec; Secret_Data := Some d;
     Secret_StringData := Secret_StringData sec; Secret_Type := "Opaque" |}.

Definition mutateResultSecret (d : gmap string string) (sec : Secret) : M CR error Secret :=
  obj ← get;
  match SetControllerReference obj sec with
  | Er ownerRefErr =>
      _ ← UpdatePhase PhaseFailed "setting secret data";
      fail (WrapErr ownerRefErr ("failed to set owner on secret " +:+ Secret_Name sec))
  | Ok sec => mret (setData d sec)
  end.

Definition ReconcileResultSecret (d : gmap string string) : M CR error unit :=
  o ← get;
  ref ← deref (Spec_SecretRef (CR_Spec o));
  let secNs := if bool_decide (SecretRef_Namespace ref ≠ "") then SecretRef_Namespace ref
               else Meta_Namespace (CR_Meta o) in
  let sec := {| Secret_Name := SecretRef_Name ref; Secret_Namespace := secNs;
                Secret_Owners := []; Secret_Data := None; Secret_StringData := ∅;
                Secret_Type := "" |} in
  r ← try (CreateOrUpdateSecret sec (mutateResultSecret d));
  match r with
  | inl _ => mret tt
  | inr err =>
      _ ← UpdatePhase PhaseFailed "failed to reconcile instance secret";
      fail (WrapErr err ("failed to reconcile smtp credential set instance secret "
                         +:+ SecretRef_Name ref))
  end.

(** ** Providers *)

(** The interfaces [PostgresProvider], [RedisProvider] and [BlobStorageProvider]
    of types.go; a [DeploymentDetails] is the map its [Data] answers. *)
Record ResourceProvider := {
  RP_GetName : string;
  RP_SupportsStrategy : string → bool;
  RP_GetReconcileTime : CR → M CR error Z;
  RP_Create : M CR (string * error) (option (gmap string string) * string);
  RP_Delete : M CR (string * error) string
}.

Definition awsPostgres `{ThirdParty} (p : PostgresProvider) : ResourceProvider := {|
  RP_GetName := postgresProviderName;
  RP_SupportsStrategy := SupportsStrategy;
  RP_GetReconcileTime := GetReconcileTime;
  RP_Create := r ← ReconcilePostgres p; mret (PostgresData <$> r.1, r.2);
  RP_Delete := DeletePostgres p |}.
Definition awsRedis `{ThirdParty} (p : RedisProvider) : ResourceProvider := {|
  RP_GetName := redisProviderName;
  RP_SupportsStrategy := Redis_SupportsStrategy;
  RP_GetReconcileTime := Redis_GetReconcileTime;
  RP_Create := r ← CreateRedis p; mret (RedisData <$> r.1, r.2);
  RP_Delete := DeleteRedis p |}.

(** ** Reconcile *)

(** [ctrl.Result]; times in nanoseconds. *)
Record ctrl_Result := { Requeue : bool; RequeueAfter : Z }.
Definition noRequeue : ctrl_Result := {| Requeue := false; RequeueAfter := 0 |}.

(** Where the three controllers differ. *)
Record Reconciler := {
  R_kind : kind;
  R_strategy : DeploymentStrategyMapping → string;
  R_configError : string → error → error;
  R_deleteError : string;
  (** whether [Spec.SkipCreate] is looked at *)
  R_skips : bool;
  R_unsupportedPhase : string;
  R_providerList : list ResourceProvider
}.
Definition wrapConfigError (t : string) (err : error) : error :=
  WrapErr err ("failed to read deployment type config for deployment " +:+ t).
Definition PostgresReconciler (ps : list ResourceProvider) : Reconciler := {|
  R_kind := Postgres; R_strategy := DSM_Postgres; R_configError := wrapConfigError;
  R_deleteError := "failed to perform provider-specific storage deletion"; R_skips := true;
  R_unsupportedPhase := PhaseFailed; R_providerList := ps |}.
Definition RedisReconciler (ps : list ResourceProvider) : Reconciler := {|
  R_kind := Redis; R_strategy := DSM_Redis; R_configError := wrapConfigError;
  R_deleteError := "failed to perform provider specific cluster deletion"; R_skips := true;
  R_unsupportedPhase := PhaseInProgress; R_providerList := ps |}.
Definition BlobStorageReconciler (ps : list ResourceProvider) : Reconciler := {|
  R_kind := BlobStorage; R_strategy := DSM_BlobStorage; R_configError := λ _ err, err;
  R_deleteError := "failed to perform provider-specific storage deletion"; R_skips := false;
  R_unsupportedPhase := PhaseFailed; R_providerList := ps |}.

(** Assignments to the status. *)
Definition setStrategy (strategy provider : string) (o : CR) : CR :=
  {| CR_kind := CR_kind o; CR_Meta := CR_Meta o; CR_Spec := CR_Spec o;
     CR_Status := {| Status_Strategy := strategy; Status_Provider := provider;
                     Status_Version := Status_Version (CR_Status o);
                     Status_SecretRef := Status_SecretRef (CR_Status o);
                     Status_Phase := Status_Phase (CR_Status o);
                     Status_Message := Status_Message (CR_Status o) |} |}.
Definition setSecretRef (ref : option SecretRef) (o : CR) : CR :=
  {| CR_kind := CR_kind o; CR_Meta := CR_Meta o; CR_Spec := CR_Spec o;
     CR_Status := {| Status_Strategy := Status_Strategy (CR_Status o);
                     Status_Provider := Status_Provider (CR_Status o);
                     Status_Version := Status_Version (CR_Status o);
                     Status_SecretRef := ref;
                     Status_Phase := Status_Phase (CR_Status o);
                     Status_Message := Status_Message (CR_Status o) |} |}.
Definition noSecretRef : option SecretRef :=
  Some {| SecretRef_Name := ""; SecretRef_Namespace := "" |}.
(** The status of an object that is complete. *)
Definition completed (strategy provider msg : string) (o : CR) : CR :=
  setStrategy strategy provider (setSecretRef (Spec_SecretRef (CR_Spec o))
    (setPhase PhaseComplete msg o)).

Section Reconcile.
Context (R : Reconciler).

(** [return ctrl.Result{Requeue: true, RequeueAfter: p.GetReconcileTime(instance)}] *)
Definition requeue (p : ResourceProvider) : M CR error ctrl_Result :=
  instance ← get;
  t ← RP_GetReconcileTime p instance;
  mret {| Requeue := true; RequeueAfter := t |}.

Definition statusUpdate : M CR error unit :=
  instance ← get;
  updated ← ok (invoke (StatusUpdateCR instance))
    orWrap ("failed to update instance " +:+ Meta_Name (CR_Meta instance) +:+ " in namespace "
            +:+ Meta_Namespace (CR_Meta instance));
  put updated.

(** The deletion of an object. *)
Definition reconcileDelete (p : ResourceProvider) : M CR error ctrl_Result :=
  r ← try (RP_Delete p);
  match r with
  | inr (msg, err) =>
      _ ← UpdatePhase PhaseFailed (WrapError msg err);
      fail (WrapErr err (R_deleteError R))
  | inl msg =>
      _ ← UpdatePhase PhaseDeleteInProgress msg;
      requeue p
  end.

(** Its creation. *)
Definition reconcileCreate (strategyToUse : string) (p : ResourceProvider)
  : M CR error ctrl_Result :=
  r ← try (RP_Create p);
  match r with
  | inr (msg, err) =>
      _ ← modify (setSecretRef noSecretRef);
      _ ← UpdatePhase PhaseFailed (WrapError msg err);
      fail err
  | inl (None, msg) =>
      _ ← modify (setSecretRef noSecretRef);
      _ ← UpdatePhase PhaseInProgress msg;
      requeue p
  | inl (Some data, msg) =>
      _ ← ReconcileResultSecret data orWrap "failed to reconcile secret";
      _ ← modify (completed strategyToUse (RP_GetName p) msg);
      _ ← statusUpdate;
      requeue p
  end.

(** The body of the loop over the providers, for one that supports the strategy. *)
Definition reconcileWith (strategyToUse : string) (p : ResourceProvider)
  : M CR error ctrl_Result :=
  _ ← modify (setStrategy strategyToUse (RP_GetName p));
  instance ← get;
  _ ← (if bool_decide (Status_Strategy (CR_Status instance) ≠ strategyToUse) ||
          bool_decide (Status_Provider (CR_Status instance) ≠ RP_GetName p)
       then statusUpdate else mret tt);
  match Meta_DeletionTimestamp (CR_Meta instance) with
  | Some _ => reconcileDelete p
  | None =>
      if R_skips R && Spec_SkipCreate (CR_Spec instance) then
        _ ← UpdatePhase PhasePaused StatusSkipCreate;
        requeue p
      else reconcileCreate strategyToUse p
  end.

Definition Reconcile (watchNamespace name namespace : string) : M CR error ctrl_Result :=
  got ← try (ok (invoke (GetCR (R_kind R) name namespace)));
  match got with
  | inr err => if IsNotFound err then mret noRequeue else fail err
  | inl instance =>
      _ ← put instance;
      let t := Spec_Type (CR_Spec instance) in
      mapping ← try (GetStrategyMappingForDeploymentType watchNamespace namespace t);
      match mapping with
      | inr err =>
          _ ← UpdatePhase PhaseFailed (WrapError StatusDeploymentConfigNotFound err);
          fail (R_configError R t err)
      | inl stratMap =>
          let strategyToUse := if bool_decide (Status_Strategy (CR_Status instance) ≠ "")
                               then Status_Strategy (CR_Status instance)
                               else R_strategy R stratMap in
          match List.find (λ p, RP_SupportsStrategy p strategyToUse) (R_providerList R) with
          | Some p => reconcileWith strategyToUse p
          | None =>
              _ ← UpdatePhase (R_unsupportedPhase R) StatusUnsupportedType;
              fail (GoErr ("unsupported deployment strategy " +:+ R_strategy R stratMap))
          end
      end
  end.
End Reconcile.

(** The three controllers. *)
Definition Postgres_Reconcile (ps : list ResourceProvider) := Reconcile (PostgresReconciler ps).
Definition Redis_Reconcile (ps : list ResourceProvider) := Reconcile (RedisReconciler ps).
Definition BlobStorage_Reconcile (ps : list ResourceProvider) :=
  Reconcile (BlobStorageReconciler ps).

Example unmarshal_default :
  unmarshalStrategyMapping (default "" (buildDefaultConfigMap !! "aws")) =
  Ok {| DSM_BlobStorage := "aws"; DSM_Redis := "aws"; DSM_Postgres := "aws" |}.
Proof. vm_compute. reflexivity. Qed.
