(* ===== verification/OpenShift.v ===== *)
(** * pkg/providers/openshift and the pod commander of pkg/resources/cluster.go

    Postgres and Redis as deployments of the cluster itself, and the placeholder for
    blob storage.  What the two providers have as copies of one function is here
    once, with the specification of the strategy as an argument. *)
From S2P Require Import Prelude Effects GoNet GoStrings Json WorkloadApi Api Resources.
From S2P Require Import AwsConfig AwsPostgres AwsRedis Controllers.
From Stdlib Require Import Ascii.
Local Open Scope go_scope.

(** ** Strategies (config.go) *)

Definition openshift_DefaultConfigMapName : string := "cloud-resources-openshift-strategies".
Definition openshift_DefaultFinalizer : string :=
  "cloud-resources-operator.integreatly.org/finalizers".
Definition NamespacePrefixOpenShift : string := "openshift-".

(** [StrategyConfig]: its raw message. *)
Definition RawStrategy : Type := option json.
Definition decodeRawStrategy (v : json) : option (option RawStrategy) :=
  match v with
  | JNull => Some None
  | JObj members =>
      Some (Some (snd <$> last (List.filter (λ m,
        bool_decide (fieldOf ["strategy"] m.1 = Some "strategy")) members)))
  | _ => None
  end.
Fixpoint decodeStrategies (members : list (string * json))
  : option (list (string * option RawStrategy)) :=
  match members with
  | [] => Some []
  | (k, v) :: rest =>
      s ← decodeRawStrategy v; r ← decodeStrategies rest; Some ((k, s) :: r)
  end.
Definition unmarshalStrategies (raw : string) : result (list (string * option RawStrategy)) :=
  match parse raw with
  | Er e => Er e
  | Ok JNull => Ok []
  | Ok (JObj members) =>
      match decodeStrategies members with Some l => Ok l | None => Er typeError end
  | Ok _ => Er typeError
  end.
(** [strategies[tier]], nil when there is no entry. *)
Definition strategyOf (tier : string) (l : list (string * option RawStrategy)) : option RawStrategy :=
  p ← last (List.filter (λ p, bool_decide (p.1 = tier)) l); p.2.

Definition openshift_NewConfigMapConfigManager (DefaultConfigMapNamespace cm namespace : string)
  : ConfigMapConfigManager :=
  {| CM_configMapName := if bool_decide (cm = "") then openshift_DefaultConfigMapName else cm;
     CM_configMapNamespace :=
       if bool_decide (namespace = "") then DefaultConfigMapNamespace else namespace |}.
Definition openshift_buildDefaultConfigMap : gmap string string :=
  let strategies :=
    quoted "{`development`: { `strategy`: {} }, `production`: { `strategy`: {} } }" in
  {[ "postgres" := strategies; "redis" := strategies; "blobstorage" := strategies ]}.

Definition openshift_ReadStorageStrategy {S} (m : ConfigMapConfigManager) (rt tier : string)
  : M S error RawStrategy :=
  cm ← GetConfigMapOrDefault (CM_configMapName m) (CM_configMapNamespace m)
         openshift_buildDefaultConfigMap
    orWrap ("failed to get openshift strategy config map " +:+ CM_configMapName m +:+
            " in namespace " +:+ CM_configMapNamespace m);
  let rawStrategyCfg := default "" (cm !! rt) in
  if bool_decide (rawStrategyCfg = "") then
    fail (GoErr ("openshift strategy for resource type " +:+ rt +:+ " is not defined"))
  else
    strategies ← liftR (unmarshalStrategies rawStrategyCfg)
      orWrap ("failed to unmarshal strategy mapping for resource type " +:+ rt);
    match strategyOf tier strategies with
    | Some s => mret s
    | None => fail (GoErr ("no strategy found for deployment type " +:+ rt +:+
                           " and deployment tier " +:+ tier))
    end.

(** ** The specifications of a strategy

    The decoders of the Kubernetes types are third-party code. *)
Class K8sTypes := {
  decodeDeploymentSpec : json → result DeploymentSpec;
  decodeServiceSpec : json → result ServiceSpec;
  decodePersistentVolumeClaimSpec : json → result PersistentVolumeClaimSpec
}.

(** A field that is a pointer, nil when it is missing or null. *)
Definition decodePtr {A} (decode : json → result A) (v : option json) : result (option A) :=
  match v with
  | None => Ok None
  | Some v => match decode v with Ok a => Ok (Some a) | Er e => Er e end
  end.
(** A [map[string]string]; null leaves the empty string. *)
Fixpoint decodeStringMembers (members : list (string * json)) : result (gmap string string) :=
  match members with
  | [] => Ok ∅
  | (k, v) :: rest =>
      match v with
      | JStr _ | JNull =>
          match decodeStringMembers rest with
          | Ok r => Ok (match r !! k with
                        | Some _ => r
                        | None => <[k := StringValue (asString (Some v))]> r
                        end)
          | Er e => Er e
          end
      | _ => Er typeError
      end
  end.
Definition decodeStringMap (v : json) : result (gmap string string) :=
  match v with JObj members => decodeStringMembers members | _ => Er typeError end.

Record PostgresStrat := {
  PostgresDeploymentSpec : option DeploymentSpec;
  PostgresServiceSpec : option ServiceSpec;
  PostgresPVCSpec : option PersistentVolumeClaimSpec;
  PostgresSecretData : option (gmap string string)
}.
Record RedisStrat := {
  RedisDeploymentSpec : option DeploymentSpec;
  RedisServiceSpec : option ServiceSpec;
  RedisPVCSpec : option PersistentVolumeClaimSpec;
  RedisConfigMapData : option (gmap string string)
}.

Section Strategies.
Context `{K8sTypes}.

(** The four fields of either struct, the last named [f]. *)
Definition unmarshalSpecs (f : string) (raw : RawStrategy)
  : result (option DeploymentSpec * option ServiceSpec * option PersistentVolumeClaimSpec *
            option (gmap string string)) :=
  match raw with
  | None => Er (GoErr "unexpected end of JSON input")
  | Some JNull => Ok (None, None, None, None)
  | Some (JObj members) =>
      let v := fieldValue ["deploymentSpec"; "serviceSpec"; "pvcSpec"; f] members in
      match decodePtr decodeDeploymentSpec (v "deploymentSpec"),
            decodePtr decodeServiceSpec (v "serviceSpec"),
            decodePtr decodePersistentVolumeClaimSpec (v "pvcSpec"),
            decodePtr decodeStringMap (v f) with
      | Ok d, Ok s, Ok c, Ok m => Ok (d, s, c, m)
      | Er e, _, _, _ | Ok _, Er e, _, _ | Ok _, Ok _, Er e, _ | Ok _, Ok _, Ok _, Er e => Er e
      end
  | Some _ => Er typeError
  end.
Definition unmarshalPostgresStrat (raw : RawStrategy) : result PostgresStrat :=
  match unmarshalSpecs "secretData" raw with
  | Ok (d, s, c, m) => Ok {| PostgresDeploymentSpec := d; PostgresServiceSpec := s;
                             PostgresPVCSpec := c; PostgresSecretData := m |}
  | Er e => Er e
  end.
Definition unmarshalRedisStrat (raw : RawStrategy) : result RedisStrat :=
  match unmarshalSpecs "configMapData" raw with
  | Ok (d, s, c, m) => Ok {| RedisDeploymentSpec := d; RedisServiceSpec := s;
                             RedisPVCSpec := c; RedisConfigMapData := m |}
  | Er e => Er e
  end.

Definition getPostgresConfig {S} (p : ConfigMapConfigManager) (ps : CR)
  : M S error (PostgresStrat * RawStrategy) :=
  stratCfg ← openshift_ReadStorageStrategy p "postgres" (Spec_Tier (CR_Spec ps))
    orWrap "failed to read openshift strategy config";
  postgresCfg ← liftR (unmarshalPostgresStrat stratCfg)
    orWrap "failed to unmarshal openshift postgres configuration";
  mret (postgresCfg, stratCfg).
Definition getRedisConfig {S} (p : ConfigMapConfigManager) (r : CR)
  : M S error (RedisStrat * RawStrategy) :=
  stratCfg ← openshift_ReadStorageStrategy p "redis" (Spec_Tier (CR_Spec r))
    orWrap "failed to read openshift strategy config";
  redisConfig ← liftR (unmarshalRedisStrat stratCfg)
    orWrap "failed to unmarshal openshift redis cluster configuration";
  mret (redisConfig, stratCfg).
End Strategies.

(** ** Default objects *)

Definition nameOf (o : CR) : string := Meta_Name (CR_Meta o).
Definition namespaceOf (o : CR) : string := Meta_Namespace (CR_Meta o).

(** [strings.HasPrefix] *)
Fixpoint HasPrefix (s prefix : string) : bool :=
  match prefix, s with
  | EmptyString, _ => true
  | String c p, String d s' => (c =? d)%char && HasPrefix s' p
  | _, _ => false
  end.
(** The security context that a restricted namespace requires. *)
Definition restrictedContext (o : CR) (userGroupId : Z) : option PodSecurityContext :=
  if HasPrefix (namespaceOf o) NamespacePrefixOpenShift
  then Some {| Security_FSGroup := Some userGroupId; Security_SupplementalGroups := [userGroupId] |}
  else None.
Definition defaultDeployment (o : CR) (volumes : list Volume) (containers : list Container)
    (userGroupId : Z) : Deployment :=
  {| Depl_Name := nameOf o; Depl_Namespace := namespaceOf o;
     Depl_Spec := {|
       DS_Strategy := "Recreate"; DS_Replicas := Some 1%Z;
       DS_MatchLabels := {[ "deployment" := nameOf o ]};
       DS_Template := {| Template_Labels := {[ "deployment" := nameOf o ]};
                         Template_Volumes := volumes; Template_Containers := containers;
                         Template_SecurityContext := restrictedContext o userGroupId |};
       DS_Other := [] |};
     Depl_Conditions := [] |}.
Definition defaultPVC (o : CR) : PersistentVolumeClaim :=
  {| PVC_Name := nameOf o; PVC_Namespace := namespaceOf o;
     PVC_Spec := {| PVCS_AccessModes := ["ReadWriteOnce"];
                    PVCS_Requests := {[ "storage" := "1Gi" ]}; PVCS_Other := [] |};
     PVC_Phase := "" |}.
Definition claimVolume (o : CR) : Volume :=
  {| Volume_Name := nameOf o; Volume_Source := PersistentVolumeClaimSource (nameOf o) |}.

(** *** Postgres *)

Definition openshift_postgresProviderName : string := "openshift-postgres-template".
Definition defaultPostgresPort : Z := 5432.
Definition openshift_defaultPostgresUser : string := "postgresuser".
Definition defaultPostgresPassword : string := "password".
Definition openshift_defaultPostgresUserKey : string := "user".
Definition openshift_defaultPostgresPasswordKey : string := "password".
Definition defaultPostgresDatabaseKey : string := "database".
Definition defaultCredentialsSec : string := "postgres-credentials".

Definition credentialsSecOf (ps : CR) : string := nameOf ps +:+ "-" +:+ defaultCredentialsSec.

Definition envVarFromSecret (envVarName secretName secretKey : string) : EnvVar :=
  {| Env_Name := envVarName; Env_Secret := secretName; Env_Key := secretKey |}.
Definition buildDefaultPostgresPodContainers (ps : CR) : list Container :=
  let credentialsSec := credentialsSecOf ps in
  [{| Container_Name := nameOf ps;
      Container_Image := "registry.redhat.io/rhscl/postgresql-13-rhel7";
      Container_Command := []; Container_Args := [];
      Container_Ports := [(defaultPostgresPort, "TCP")];
      Container_Env :=
        [envVarFromSecret "POSTGRESQL_USER" credentialsSec openshift_defaultPostgresUserKey;
         envVarFromSecret "POSTGRESQL_PASSWORD" credentialsSec openshift_defaultPostgresPasswordKey;
         envVarFromSecret "POSTGRESQL_DATABASE" credentialsSec defaultPostgresDatabaseKey];
      Container_Resources := {|
        Resources_Limits := {[ "cpu" := "250m"; "memory" := "2Gi" ]};
        Resources_Requests := {[ "cpu" := "50m"; "memory" := "512Mi" ]} |};
      Container_VolumeMounts := [(nameOf ps, "/var/lib/pgsql/data")];
      Container_LivenessProbe := Some {|
        Probe_Handler := TCPSocket defaultPostgresPort; Probe_InitialDelaySeconds := 30;
        Probe_PeriodSeconds := 10; Probe_TimeoutSeconds := 0 |};
      Container_ReadinessProbe := Some {|
        Probe_Handler := ExecAction ["/bin/sh"; "-i"; "-c";
          "psql -h 127.0.0.1 -U $POSTGRESQL_USER -q -d $POSTGRESQL_DATABASE -c 'SELECT 1'"];
        Probe_InitialDelaySeconds := 10; Probe_PeriodSeconds := 30; Probe_TimeoutSeconds := 5 |};
      Container_ImagePullPolicy := "IfNotPresent" |}].
Definition buildDefaultPostgresDeployment (ps : CR) : Deployment :=
  defaultDeployment ps [claimVolume ps] (buildDefaultPostgresPodContainers ps) 26.
Definition buildDefaultPostgresService (ps : CR) : Service :=
  {| Svc_Name := nameOf ps; Svc_Namespace := namespaceOf ps;
     Svc_Spec := {|
       SS_Ports := [{| SP_Name := "postgresql"; SP_Protocol := "TCP"; SP_Port := defaultPostgresPort;
                       SP_TargetPort := defaultPostgresPort |}];
       SS_Selector := {[ "deployment" := nameOf ps ]}; SS_ClusterIP := ""; SS_Other := [] |} |}.
Definition buildDefaultPostgresPVC (ps : CR) : PersistentVolumeClaim := defaultPVC ps.
Definition buildDefaultPostgresSecret (ps : CR) (password : string) : Secret :=
  let password := if bool_decide (password = "") then defaultPostgresPassword else password in
  {| Secret_Name := credentialsSecOf ps; Secret_Namespace := namespaceOf ps; Secret_Owners := [];
     Secret_Data := Some {[ "user" := openshift_defaultPostgresUser; "password" := password;
                            "database" := nameOf ps ]};
     Secret_StringData := ∅; Secret_Type := "Opaque" |}.

(** *** Redis *)

Definition openshift_redisProviderName : string := "openshift-redis-template".
Definition redisConfigVolumeName : string := "redis-config".
Definition redisConfigMapName : string := "redis-config".
Definition redisConfigMapKey : string := "redis.conf".
Definition redisContainerName : string := "redis".
Definition redisPort : Z := 6379.
Definition redisContainerCommand : string := "/usr/bin/redis-server".

Definition buildDefaultRedisPodContainers (r : CR) : list Container :=
  [{| Container_Name := redisContainerName;
      Container_Image := "registry.redhat.io/rhel9/redis-7";
      Container_Command := [redisContainerCommand];
      Container_Args := ["/etc/redis.d/redis.conf"; "--daemonize"; "no"];
      Container_Ports := []; Container_Env := [];
      Container_Resources := {|
        Resources_Limits := {[ "cpu" := "500m"; "memory" := "6Gi" ]};
        Resources_Requests := {[ "cpu" := "150m"; "memory" := "256Mi" ]} |};
      Container_VolumeMounts := [(nameOf r, "/var/lib/redis/data");
                                 (redisConfigVolumeName, "/etc/redis.d/")];
      Container_LivenessProbe := Some {|
        Probe_Handler := TCPSocket 6379; Probe_InitialDelaySeconds := 10;
        Probe_PeriodSeconds := 10; Probe_TimeoutSeconds := 0 |};
      Container_ReadinessProbe := Some {|
        Probe_Handler := ExecAction ["container-entrypoint"; "bash"; "-c";
          "redis-cli set liveness-probe " +:+ String "034" "`date`" +:+ String "034" " | grep OK"];
        Probe_InitialDelaySeconds := 10; Probe_PeriodSeconds := 30; Probe_TimeoutSeconds := 1 |};
      Container_ImagePullPolicy := "IfNotPresent" |}].
Definition buildDefaultRedisPodVolumes (r : CR) : list Volume :=
  [claimVolume r;
   {| Volume_Name := redisConfigVolumeName;
      Volume_Source := ConfigMapSource redisConfigMapName [(redisConfigMapKey, redisConfigMapKey)] |}].
Definition buildDefaultRedisDeployment (r : CR) : Deployment :=
  defaultDeployment r (buildDefaultRedisPodVolumes r) (buildDefaultRedisPodContainers r) 1001.
Definition buildDefaultRedisService (r : CR) : Service :=
  {| Svc_Name := nameOf r; Svc_Namespace := namespaceOf r;
     Svc_Spec := {|
       SS_Ports := [{| SP_Name := ""; SP_Protocol := "TCP"; SP_Port := 6379; SP_TargetPort := 6379 |}];
       SS_Selector := {[ "deployment" := nameOf r ]}; SS_ClusterIP := ""; SS_Other := [] |} |}.
Definition redisConfLines : list string :=
  ["protected-mode no"; "port 6379"; "timeout 0"; "tcp-keepalive 300"; "daemonize no";
   "supervised no"; "loglevel notice"; "databases 16"; "save 900 1"; "save 300 10";
   "save 60 10000"; "stop-writes-on-bgsave-error yes"; "rdbcompression yes"; "rdbchecksum yes";
   "dbfilename dump.rdb"; "slave-serve-stale-data yes"; "slave-read-only yes";
   "repl-diskless-sync no"; "repl-disable-tcp-nodelay no";
   quoted "appendfilename `appendonly.aof`"; "appendfsync everysec";
   "no-appendfsync-on-rewrite no"; "auto-aof-rewrite-percentage 100";
   "auto-aof-rewrite-min-size 64mb"; "aof-load-truncated yes"; "lua-time-limit 5000";
   "activerehashing no"; "aof-rewrite-incremental-fsync yes"; "dir /var/lib/redis/data"].
Definition getRedisConfData : string :=
  foldr (λ line rest, line +:+ String "010" rest) "" redisConfLines.
Definition buildDefaultRedisConfigMap : gmap string string := {[ "redis.conf" := getRedisConfData ]}.
Definition buildDefaultRedisPVC (r : CR) : PersistentVolumeClaim := defaultPVC r.

(** ** Creating or updating the objects

    [immutableCreateOrUpdate]: what is written starts from a copy of the object when
    there is none yet, so that the object that is passed stays as it is. *)

Section Operations.
Context {S : Type}.

Definition immutableDeployment (d : Deployment) (mutate : Deployment → outcome error Deployment)
  : M S error unit :=
  CreateOrUpdate (ok (invoke (Workload (GetDeployment (Depl_Name d) (Depl_Namespace d)))))
    (λ d, ok (invoke (Workload (CreateDeployment d))))
    (λ d, ok (invoke (Workload (UpdateDeployment d)))) d mutate.
Definition immutableService (s : Service) (mutate : Service → outcome error Service)
  : M S error unit :=
  CreateOrUpdate (ok (invoke (Workload (GetService (Svc_Name s) (Svc_Namespace s)))))
    (λ s, ok (invoke (Workload (CreateService s))))
    (λ s, ok (invoke (Workload (UpdateService s)))) s mutate.
Definition immutablePVC (c : PersistentVolumeClaim)
    (mutate : PersistentVolumeClaim → outcome error PersistentVolumeClaim) : M S error unit :=
  CreateOrUpdate (ok (invoke (Workload (GetPVC (PVC_Name c) (PVC_Namespace c)))))
    (λ c, ok (invoke (Workload (CreatePVC c))))
    (λ c, ok (invoke (Workload (UpdatePVC c)))) c mutate.

Definition immutableSecret (s : Secret) (mutate : Secret → outcome error Secret)
  : M S error unit :=
  CreateOrUpdate (ok (invoke (GetSecret (Secret_Name s) (Secret_Namespace s))))
    (λ s, ok (invoke (CreateSecret s))) (λ s, ok (invoke (UpdateSecret s))) s mutate.

(** On an error the action is always [OperationResultNone]. *)
Definition actionError (what name : string) (err : error) : error :=
  WrapErr err ("failed to create or update " +:+ what +:+ " " +:+ name +:+
               ", action was unchanged").

Definition setDeploymentSpec (spec : DeploymentSpec) (e : Deployment) : Deployment :=
  {| Depl_Name := Depl_Name e; Depl_Namespace := Depl_Namespace e; Depl_Spec := spec;
     Depl_Conditions := Depl_Conditions e |}.
Definition applyDeployment (d : Deployment) (spec : option DeploymentSpec) : M S error unit :=
  immutableDeployment d (λ e, Val (setDeploymentSpec (default (Depl_Spec d) spec) e))
    onError (actionError "deployment" (Depl_Name d)).

Definition setServiceSpec (spec : ServiceSpec) (e : Service) : Service :=
  {| Svc_Name := Svc_Name e; Svc_Namespace := Svc_Namespace e; Svc_Spec := spec |}.
Definition setClusterIP (ip : string) (spec : ServiceSpec) : ServiceSpec :=
  {| SS_Ports := SS_Ports spec; SS_Selector := SS_Selector spec; SS_ClusterIP := ip;
     SS_Other := SS_Other spec |}.
Definition applyService (s : Service) (spec : option ServiceSpec) : M S error unit :=
  immutableService s (λ e, Val (setServiceSpec
      (match spec with
       | None => setClusterIP (SS_ClusterIP (Svc_Spec e)) (Svc_Spec s)
       | Some spec => spec
       end) e))
    onError (actionError "service" (Svc_Name s)).

Definition setRequests (requests : gmap string string) (e : PersistentVolumeClaim)
  : PersistentVolumeClaim :=
  {| PVC_Name := PVC_Name e; PVC_Namespace := PVC_Namespace e;
     PVC_Spec := {| PVCS_AccessModes := PVCS_AccessModes (PVC_Spec e); PVCS_Requests := requests;
                    PVCS_Other := PVCS_Other (PVC_Spec e) |};
     PVC_Phase := PVC_Phase e |}.
Definition applyPVC (pvc : PersistentVolumeClaim) (spec : option PersistentVolumeClaimSpec)
  : M S error unit :=
  immutablePVC pvc (λ e,
      if bool_decide (ToLower (PVC_Phase e) ≠ "bound") then Val e
      else Val (setRequests (PVCS_Requests (default (PVC_Spec pvc) spec)) e))
    onError (actionError "persistent volume claim" (PVC_Name pvc)).

(** Writing to a nil map panics. *)
Definition assign {E} (m : option (gmap string string)) (k v : string)
  : outcome E (option (gmap string string)) :=
  match m with Some m => Val (Some (<[k := v]> m)) | None => Panic "assignment to entry in nil map" end.
Definition setSecretData (d : option (gmap string string)) (e : Secret) : Secret :=
  {| Secret_Name := Secret_Name e; Secret_Namespace := Secret_Namespace e;
     Secret_Owners := Secret_Owners e; Secret_Data := d; Secret_StringData := Secret_StringData e;
     Secret_Type := Secret_Type e |}.
Definition setStringData (d : gmap string string) (e : Secret) : Secret :=
  {| Secret_Name := Secret_Name e; Secret_Namespace := Secret_Namespace e;
     Secret_Owners := Secret_Owners e; Secret_Data := Secret_Data e; Secret_StringData := d;
     Secret_Type := Secret_Type e |}.
Definition mutateCredentials (s : Secret) (cfg : option (gmap string string)) (e : Secret)
  : outcome error Secret :=
  match cfg with
  | Some stringData => Val (setStringData stringData e)
  | None =>
      let d := Secret_Data e in
      d ← (if bool_decide (secretData e "password" = "")
           then assign d "password" (secretData s "password") else mret d);
      d ← (if bool_decide (secretData e "user" = "")
           then assign d "user" (secretData s "user") else mret d);
      d ← assign d "database" (secretData s "database");
      mret (setSecretData d e)
  end.
Definition applySecret (s : Secret) (cfg : option (gmap string string)) : M S error unit :=
  immutableSecret s (mutateCredentials s cfg)
    onError (actionError "secret" (Secret_Name s)).

(** The four operations of the Postgres provider, those of the Redis provider. *)
Definition Postgres_CreateDeployment (d : Deployment) (cfg : PostgresStrat) : M S error unit :=
  applyDeployment d (PostgresDeploymentSpec cfg).
Definition Postgres_CreateService (s : Service) (cfg : PostgresStrat) : M S error unit :=
  applyService s (PostgresServiceSpec cfg).
Definition Postgres_CreateSecret (s : Secret) (cfg : PostgresStrat) : M S error unit :=
  applySecret s (PostgresSecretData cfg).
Definition Postgres_CreatePVC (c : PersistentVolumeClaim) (cfg : PostgresStrat) : M S error unit :=
  applyPVC c (PostgresPVCSpec cfg).
Definition Redis_CreateDeployment (d : Deployment) (cfg : RedisStrat) : M S error unit :=
  applyDeployment d (RedisDeploymentSpec cfg).
Definition Redis_CreateService (s : Service) (cfg : RedisStrat) : M S error unit :=
  applyService s (RedisServiceSpec cfg).
Definition Redis_CreateConfigMap (namespace : string) (cm : gmap string string) (cfg : RedisStrat)
  : M S error unit :=
  CreateOrUpdateConfigMap redisConfigMapName namespace cm
      (λ _, Val (default cm (RedisConfigMapData cfg)))
    onError (actionError "config map" redisConfigMapName).
Definition Redis_CreatePVC (c : PersistentVolumeClaim) (cfg : RedisStrat) : M S error unit :=
  applyPVC c (RedisPVCSpec cfg).

(** *** Pods (pkg/resources/cluster.go) *)

(** The first pod of the deployment, the empty name when there is none. *)
Definition getDeploymentPod {E} (dpl : Deployment) : M S E string :=
  podListItems ← invoke (Workload (ListPods (Depl_Namespace dpl) ("deployment=" +:+ Depl_Name dpl)));
  mret (match podListItems with [] => "" | podName :: _ => podName end).
Definition ExecIntoPod (dpl : Deployment) (cmd : string) : M S error unit :=
  podName ← getDeploymentPod dpl;
  r ← invoke (Workload (PodExec podName (Depl_Namespace dpl) ["/bin/bash"; "-c"; cmd]));
  match r with
  | None => mret tt
  | Some (stderr, err) => fail (WrapErr err ("failed to exec, " +:+ stderr))
  end.
Definition superuserCommand (u : string) : string :=
  quoted "psql -c `ALTER USER \`" +:+ u +:+ quoted "\` WITH SUPERUSER;`".
Definition ReconcileDatabaseUserRoles (d : Deployment) (u : string) : M S error unit :=
  ExecIntoPod d (superuserCommand u) orWrap "failed to perform exec on database pod".

(** [err != nil && !k8serr.IsNotFound(err)] after a deletion *)
Definition deleteIgnoringNotFound (del : M S error unit) : M S error unit :=
  r ← try del;
  match r with
  | inl _ => mret tt
  | inr err => if IsNotFound err then mret tt else fail err
  end.
End Operations.

Definition available (d : Deployment) : bool :=
  existsb (λ s, bool_decide (s.1 = "Available") && bool_decide (s.2 = "True")) (Depl_Conditions d).
Definition clusterHost (o : CR) : string :=
  nameOf o +:+ "." +:+ namespaceOf o +:+ ".svc.cluster.local".

(** The end of both deletions: the finalizer. *)
Definition finishDelete (what : string) : M CR (string * error) string :=
  o ← get;
  match RemoveFinalizer (CR_Meta o) openshift_DefaultFinalizer with
  | None => lift out_of_range
  | Some om =>
      let o' := setMeta o om in
      _ ← put o';
      updated ← ok (invoke (UpdateCR o'))
        onError (wrapBoth ("failed to update instance as part of " +:+ what +:+ "finalizer reconcile"));
      _ ← put updated;
      mret "deletion in progress"
  end.

(** ** Postgres *)

Section Providers.
Context `{K8sTypes} (p : ConfigMapConfigManager).

Definition openshift_ReconcilePostgres
  : M CR (string * error) (option PostgresDeploymentDetails * string) :=
  _ ← CreateFinalizer openshift_DefaultFinalizer onError (wrapBoth "failed to set finalizer");
  ps ← get;
  let name := nameOf ps in
  '(postgresCfg, _) ← getPostgresConfig p ps
    onError (wrapBoth ("failed to retrieve openshift postgres config for instance " +:+ name));
  _ ← Postgres_CreatePVC (buildDefaultPostgresPVC ps) postgresCfg
    onError (wrapBoth ("failed to create or update postgres PVC for instance " +:+ name));
  password ← GeneratePassword onError (wrapBoth "failed to generate potential postgres password");
  _ ← Postgres_CreateSecret (buildDefaultPostgresSecret ps password) postgresCfg
    onError (wrapBoth ("failed to create or update postgres secret for instance " +:+ name));
  _ ← Postgres_CreateDeployment (buildDefaultPostgresDeployment ps) postgresCfg
    onError (wrapBoth ("failed to create or update postgres deployment for instance " +:+ name));
  _ ← Postgres_CreateService (buildDefaultPostgresService ps) postgresCfg
    onError (wrapBoth ("failed to create or update postgres service for instance " +:+ name));
  dpl ← ok (invoke (Workload (GetDeployment name (namespaceOf ps))))
    onError (wrapBoth "failed to get postgres deployment");
  sec ← ok (invoke (GetSecret (credentialsSecOf ps) (namespaceOf ps)))
    onError (wrapBoth "failed to get postgres creds");
  if negb (available dpl) then mret (None, "creation in progress")
  else
    let dbUser := secretData sec "user" in
    _ ← ReconcileDatabaseUserRoles dpl dbUser
      onError (wrapBoth "failed to reconcile database roles for user");
    mret (Some {| PDD_Username := dbUser; PDD_Password := secretData sec "password";
                  PDD_Host := clusterHost ps; PDD_Database := secretData sec "database";
                  PDD_Port := defaultPostgresPort |}, "creation successful").

Definition openshift_DeletePostgres : M CR (string * error) string :=
  ps ← get;
  let ns := namespaceOf ps in
  _ ← deleteIgnoringNotFound (ok (invoke (Workload (DeleteService (nameOf ps) ns))))
    onError (wrapBoth "failed to delete postgres service");
  _ ← deleteIgnoringNotFound (ok (invoke (Workload (DeletePVC (nameOf ps) ns))))
    onError (wrapBoth "failed to delete postgres persistent volume claim");
  _ ← deleteIgnoringNotFound (ok (invoke (DeleteSecret defaultCredentialsSec ns)))
    onError (wrapBoth "failed to deleted postgres secrets");
  _ ← deleteIgnoringNotFound (ok (invoke (Workload (DeleteDeployment (nameOf ps) ns))))
    onError (wrapBoth "failed to delete postgres deployment");
  finishDelete "the postgres ".

(** ** Redis *)

Definition openshift_CreateRedis
  : M CR (string * error) (option RedisDeploymentDetails * string) :=
  _ ← CreateFinalizer openshift_DefaultFinalizer onError (withMsg "failed to set finalizer");
  r ← get;
  '(redisConfig, _) ← getRedisConfig p r
    onError (wrapBoth ("failed to retrieve openshift redis cluster config for instance "
                       +:+ nameOf r));
  _ ← Redis_CreatePVC (buildDefaultRedisPVC r) redisConfig
    onError (wrapBoth "failed to create or update redis PVC");
  _ ← Redis_CreateConfigMap (namespaceOf r) buildDefaultRedisConfigMap redisConfig
    onError (wrapBoth "failed to create or update redis config map");
  _ ← Redis_CreateDeployment (buildDefaultRedisDeployment r) redisConfig
    onError (wrapBoth "failed to create or update redis deployment");
  _ ← Redis_CreateService (buildDefaultRedisService r) redisConfig
    onError (wrapBoth "failed to create or update redis service");
  dpl ← ok (invoke (Workload (GetDeployment (nameOf r) (namespaceOf r))))
    onError (wrapBoth "failed to get redis deployment");
  if available dpl
  then mret (Some {| RDD_URI := clusterHost r; RDD_Port := redisPort |},
             "redis deployment available")
  else mret (None, "creation in progress").

Definition openshift_DeleteRedis : M CR (string * error) string :=
  r ← get;
  let ns := namespaceOf r in
  _ ← deleteIgnoringNotFound (ok (invoke (Workload (DeleteService (nameOf r) ns))))
    onError (wrapBoth "failed to delete service");
  _ ← deleteIgnoringNotFound (ok (invoke (Workload (DeletePVC (nameOf r) ns))))
    onError (wrapBoth "failed to delete persistent volume claim");
  _ ← deleteIgnoringNotFound (ok (invoke (Workload (DeleteConfigMap redisConfigMapName ns))))
    onError (wrapBoth "failed to delete configmap");
  _ ← deleteIgnoringNotFound (ok (invoke (Workload (DeleteDeployment (nameOf r) ns))))
    onError (wrapBoth "failed to delete deployment");
  finishDelete "".
End Providers.

(** ** Blob storage *)

Definition varPlaceholder : string := "REPLACE_ME".
Definition placeholders : gmap string string :=
  {[ "bucketName" := varPlaceholder; "credentialSecretKey" := varPlaceholder;
     "credentialKeyID" := varPlaceholder; "bucketRegion" := varPlaceholder ]}.
Definition setSpecSecretRef (ref : SecretRef) (o : CR) : CR :=
  {| CR_kind := CR_kind o; CR_Meta := CR_Meta o;
     CR_Spec := {| Spec_Type := Spec_Type (CR_Spec o); Spec_Tier := Spec_Tier (CR_Spec o);
                   Spec_SkipCreate := Spec_SkipCreate (CR_Spec o);
                   Spec_ApplyImmediately := Spec_ApplyImmediately (CR_Spec o);
                   Spec_MaintenanceWindow := Spec_MaintenanceWindow (CR_Spec o);
                   Spec_SecretRef := Some ref; Spec_Size := Spec_Size (CR_Spec o);
                   Spec_SnapshotFrequency := Spec_SnapshotFrequency (CR_Spec o);
                   Spec_SnapshotRetention := Spec_SnapshotRetention (CR_Spec o) |};
     CR_Status := CR_Status o |}.
(** The field of the reference in the status, when it is set. *)
Definition statusOr (f : SecretRef → string) (o : CR) (v : string) : string :=
  match Status_SecretRef (CR_Status o) with
  | Some ref => if bool_decide (f ref ≠ "") then f ref else v
  | None => v
  end.
Definition openshift_CreateStorage : M CR (string * error) (option (gmap string string) * string) :=
  bs ← get;
  ref ← deref (Spec_SecretRef (CR_Spec bs));
  let ref := if bool_decide (SecretRef_Namespace ref = "")
             then {| SecretRef_Name := SecretRef_Name ref; SecretRef_Namespace := namespaceOf bs |}
             else ref in
  _ ← put (setSpecSecretRef ref bs);
  let secName := statusOr SecretRef_Name bs (SecretRef_Name ref) in
  let secNamespace := statusOr SecretRef_Namespace bs (SecretRef_Namespace ref) in
  got ← try (ok (invoke (GetSecret secName secNamespace)));
  match got with
  | inl sec => mret (Some (default ∅ (Secret_Data sec) ∪ placeholders), "reconcile complete")
  | inr err => if IsNotFound err then mret (Some placeholders, "reconcile complete")
               else fail ("failed to reconcile", err)
  end.
Definition openshift_DeleteStorage : M CR (string * error) string := mret "deletion complete".

(** ** The providers as the controllers see them *)

Definition openshift_SupportsStrategy (d : string) : bool := bool_decide (d = "openshift").
Definition openshift_GetReconcileTime {S E} (o : CR) : M S E Z :=
  if bool_decide (Status_Phase (CR_Status o) ≠ PhaseComplete) then mret (10 * second)%Z
  else GetForcedReconcileTimeOrDefault defaultReconcileTime.

Definition openshiftPostgres `{K8sTypes} (p : ConfigMapConfigManager) : ResourceProvider := {|
  RP_GetName := openshift_postgresProviderName;
  RP_SupportsStrategy := openshift_SupportsStrategy;
  RP_GetReconcileTime := openshift_GetReconcileTime;
  RP_Create := r ← openshift_ReconcilePostgres p; mret (PostgresData <$> r.1, r.2);
  RP_Delete := openshift_DeletePostgres |}.
Definition openshiftRedis `{K8sTypes} (p : ConfigMapConfigManager) : ResourceProvider := {|
  RP_GetName := openshift_redisProviderName;
  RP_SupportsStrategy := openshift_SupportsStrategy;
  RP_GetReconcileTime := openshift_GetReconcileTime;
  RP_Create := r ← openshift_CreateRedis p; mret (RedisData <$> r.1, r.2);
  RP_Delete := openshift_DeleteRedis |}.
Definition openshiftBlobStorage : ResourceProvider := {|
  RP_GetName := "openshift-blobstorage";
  RP_SupportsStrategy := openshift_SupportsStrategy;
  RP_GetReconcileTime := λ _, mret (10 * second)%Z;
  RP_Create := openshift_CreateStorage;
  RP_Delete := openshift_DeleteStorage |}.
