(* ===== verification/GoFloat.v ===== *)
(** * Go's float64

    IEEE double precision on [spec_float], with the operations of Go that the metrics
    use: arithmetic, comparison, conversion from and to integers, [math.Round], and
    [Duration.Seconds]. *)
From S2P Require Import Prelude Effects Api.
Local Open Scope Z_scope.

Definition prec : Z := 53.
Definition emax : Z := 1024.
Definition float_of_Z (z : Z) : float64 := binary_normalize prec emax z 0 false.
Definition fadd : float64 → float64 → float64 := SFadd prec emax.
Definition fsub : float64 → float64 → float64 := SFsub prec emax.
Definition fmul : float64 → float64 → float64 := SFmul prec emax.
Definition fdiv : float64 → float64 → float64 := SFdiv prec emax.
Definition flt (x y : float64) : bool := SFltb x y.
Definition fzero : float64 := S754_zero false.

(** [int64(x)] of a number in range: towards zero. *)
Definition int64_of_float (x : float64) : Z :=
  match x with
  | S754_finite s m e =>
      let a := if 0 <=? e then Zpos m * 2 ^ e else Zpos m / 2 ^ (- e) in
      if s then - a else a
  | _ => 0
  end.
(** [math.Round]: half away from zero; the sign of zero stays. *)
Definition math_Round (x : float64) : float64 :=
  match x with
  | S754_finite s m e =>
      if 0 <=? e then x
      else let n := (Zpos m + 2 ^ (- e - 1)) / 2 ^ (- e) in
           if n =? 0 then S754_zero s else binary_normalize prec emax (if s then - n else n) 0 s
  | _ => x
  end.
(** [Duration.Seconds] *)
Definition Duration_Seconds (d : Z) : float64 :=
  fadd (float_of_Z (Z.quot d 1000000000))
       (fdiv (float_of_Z (Z.rem d 1000000000)) (float_of_Z 1000000000)).

(** [Duration.Hours] *)
Definition Duration_Hours (d : Z) : float64 :=
  fadd (float_of_Z (Z.quot d 3600000000000))
       (fdiv (float_of_Z (Z.rem d 3600000000000)) (float_of_Z 3600000000000)).
(** [math.Ceil] *)
Definition math_Ceil (x : float64) : float64 :=
  match x with
  | S754_finite s m e =>
      if 0 <=? e then x
      else let n := - ((if s then Zpos m else Zneg m) / 2 ^ (- e)) in
           if n =? 0 then S754_zero s else binary_normalize prec emax n 0 s
  | _ => x
  end.

Example ceil_days :
  int64_of_float (math_Ceil (fdiv (Duration_Hours 90000000000000) (float_of_Z 24))) = 2 ∧
  int64_of_float (math_Ceil (fdiv (Duration_Hours 86400000000000) (float_of_Z 24))) = 1.
Proof. vm_compute. done. Qed.
Example seconds_5min : int64_of_float (Duration_Seconds 300000000000) = 300.
Proof. vm_compute. reflexivity. Qed.
Example round_half :
  math_Round (fdiv (float_of_Z (-5)) (float_of_Z 2)) = float_of_Z (-3) ∧
  math_Round (fdiv (float_of_Z 1) (float_of_Z 4)) = fzero.
Proof. vm_compute. done. Qed.
