(* ===== verification/CloudMetrics.v ===== *)
(** * controllers/cloudmetrics and the AWS metrics providers

    The controller that scrapes metrics of every Postgres and Redis from the clouds
    and sets the gauges that Prometheus reads; provider_postgres_metrics.go and
    provider_redis_metrics.go of pkg/providers/aws, which ask CloudWatch. *)
From S2P Require Import Prelude Effects GoFloat GoStrings Json Api Resources Metrics.
From S2P Require Import ClusterVpc AwsConfig AwsPostgres AwsRedis Controllers.
Local Open Scope go_scope.

(** ** Metrics (pkg/providers/types.go) *)

Record GenericCloudMetric := {
  GCM_Name : string;
  GCM_Labels : gmap string string;
  GCM_Value : float64
}.
Record CloudProviderMetricType := {
  MT_PrometheusMetricName : string;
  MT_ProviderMetricName : string;
  MT_Statistic : string
}.
(** [ScrapeMetricsData], pointers of which may be nil. *)
Definition ScrapeMetricsData : Type := list (option GenericCloudMetric).
Record MetricsProvider (S : Type) := {
  MP_SupportsStrategy : string → bool;
  MP_Scrape : CR → list CloudProviderMetricType → M S error ScrapeMetricsData
}.
Arguments MP_SupportsStrategy {S}.
Arguments MP_Scrape {S}.

(** ** The gauges *)

Record CroGaugeMetric := {
  Gauge_Name : string;
  Gauge_ProviderType : gmap string CloudProviderMetricType
}.
Definition AWSDeploymentStrategy : string := "aws".
Definition GCPDeploymentStrategy : string := "gcp".
Definition StatisticAverage : string := "Average".
Definition ALIGN_MEAN : string := "ALIGN_MEAN".

Definition metricType (name provider statistic : string) : CloudProviderMetricType :=
  {| MT_PrometheusMetricName := name; MT_ProviderMetricName := provider;
     MT_Statistic := statistic |}.
(** A gauge that both clouds provide, and one that only GCP does. *)
Definition gaugeOf (name aws gcp : string) : CroGaugeMetric :=
  {| Gauge_Name := name;
     Gauge_ProviderType := {[ AWSDeploymentStrategy := metricType name aws StatisticAverage;
                              GCPDeploymentStrategy := metricType name gcp ALIGN_MEAN ]} |}.
Definition gaugeOfGcp (name gcp : string) : CroGaugeMetric :=
  {| Gauge_Name := name;
     Gauge_ProviderType := {[ GCPDeploymentStrategy := metricType name gcp ALIGN_MEAN ]} |}.

Definition PostgresFreeStorageAverageMetricName : string := "cro_postgres_free_storage_average".
Definition PostgresCPUUtilizationAverageMetricName : string := "cro_postgres_cpu_utilization_average".
Definition PostgresFreeableMemoryAverageMetricName : string := "cro_postgres_freeable_memory_average".
Definition PostgresMaxMemoryMetricName : string := "cro_postgres_max_memory".
Definition PostgresAllocatedStorageMetricName : string := "cro_postgres_current_allocated_storage".
Definition RedisMemoryUsagePercentageAverageMetricName : string :=
  "cro_redis_memory_usage_percentage_average".
Definition RedisFreeableMemoryAverageMetricName : string := "cro_redis_freeable_memory_average".
Definition RedisCPUUtilizationAverageMetricName : string := "cro_redis_cpu_utilization_average".
Definition RedisEngineCPUUtilizationAverageMetricName : string :=
  "cro_redis_engine_cpu_utilization_average".

Definition postgresGaugeMetrics : list CroGaugeMetric :=
  [gaugeOf PostgresFreeStorageAverageMetricName "FreeStorageSpace"
     "cloudsql.googleapis.com/database/disk/quota-cloudsql.googleapis.com/database/disk/bytes_used";
   gaugeOf PostgresCPUUtilizationAverageMetricName "CPUUtilization"
     "cloudsql.googleapis.com/database/cpu/utilization";
   gaugeOf PostgresFreeableMemoryAverageMetricName "FreeableMemory"
     "cloudsql.googleapis.com/database/memory/quota-cloudsql.googleapis.com/database/memory/total_usage";
   gaugeOfGcp PostgresMaxMemoryMetricName "cloudsql.googleapis.com/database/memory/quota";
   gaugeOfGcp PostgresAllocatedStorageMetricName "cloudsql.googleapis.com/database/disk/bytes_used"].
Definition redisGaugeMetrics : list CroGaugeMetric :=
  [gaugeOf RedisMemoryUsagePercentageAverageMetricName "DatabaseMemoryUsagePercentage"
     "redis.googleapis.com/stats/memory/usage_ratio";
   gaugeOf RedisFreeableMemoryAverageMetricName "FreeableMemory"
     "redis.googleapis.com/stats/memory/maxmemory-redis.googleapis.com/stats/memory/usage";
   gaugeOf RedisCPUUtilizationAverageMetricName "CPUUtilization"
     "redis.googleapis.com/stats/cpu_utilization";
   gaugeOf RedisEngineCPUUtilizationAverageMetricName "EngineCPUUtilization"
     "redis.googleapis.com/stats/cpu_utilization_main_thread"].

(** ** The controller *)

Section Controller.
Context {S : Type}.

(** The metrics of a strategy, among those of the gauges. *)
Definition metricTypesOf (gauges : list CroGaugeMetric) (strategy : string)
  : list CloudProviderMetricType := omap (λ g, Gauge_ProviderType g !! strategy) gauges.

Definition genericMetricLabelNames : list string :=
  ["clusterID"; "resourceID"; "namespace"; "instanceID"; "productName"; "strategy"].
Definition setGaugeMetrics {E} (gauges : list CroGaugeMetric) (scraped : ScrapeMetricsData)
  : M S E unit :=
  forM scraped (λ m,
    forM gauges (λ g,
      m ← deref m;
      if bool_decide (GCM_Name m = Gauge_Name g)
      then invoke (SetGauge (Gauge_Name g)
             (map (λ l, default "" (GCM_Labels m !! l)) genericMetricLabelNames) (GCM_Value m))
      else mret tt)).

(** The metrics of the resource [cr] from the provider [p] when it supports the
    strategy of the resource, appended to [acc]; an error is logged. *)
Definition scrapeOne {E} (gauges : list CroGaugeMetric) (cr : CR) (acc : ScrapeMetricsData)
    (p : MetricsProvider S) : M S E ScrapeMetricsData :=
  let strategy := Status_Strategy (CR_Status cr) in
  if negb (MP_SupportsStrategy p strategy) then mret acc
  else
    r ← try (MP_Scrape p cr (metricTypesOf gauges strategy));
    match r with
    | inl metrics => mret (acc ++ metrics)
    | inr _ => mret acc
    end.
Definition scrapeAll {E} (gauges : list CroGaugeMetric) (ps : list (MetricsProvider S))
    (acc : ScrapeMetricsData) (crs : list CR) : M S E ScrapeMetricsData :=
  foldM (λ acc cr, foldM (scrapeOne gauges cr) acc ps) acc crs.

Definition CloudMetrics_Reconcile (redisProviderList postgresProviderList : list (MetricsProvider S))
  : M S error ctrl_Result :=
  redisInstances ← ok (invoke (ListCR Redis));
  scraped ← scrapeAll redisGaugeMetrics redisProviderList [] redisInstances;
  _ ← setGaugeMetrics redisGaugeMetrics scraped;
  listed ← try (ok (invoke (ListCR Postgres)));
  let postgresInstances := match listed with inl l => l | inr _ => [] end in
  scraped ← scrapeAll postgresGaugeMetrics postgresProviderList scraped postgresInstances;
  _ ← setGaugeMetrics postgresGaugeMetrics scraped;
  d ← GetMetricReconcileTimeOrDefault MetricsWatchDuration;
  mret {| Requeue := false; RequeueAfter := d |}.

(** ** CloudWatch *)

Definition cloudWatchElastiCacheDimension : string := "CacheClusterId".
Definition cloudWatchRDSDBDimension : string := "DBInstanceIdentifier".
Definition StatusCodeComplete : string := "Complete".

(** [buildRDSMetricDataQuery] and [buildRedisMetricDataQuery], which differ in the
    namespace and the dimension. *)
Definition buildMetricDataQuery {E} (namespace dimension : string)
    (id : string) (metricTypes : list CloudProviderMetricType) : M S E (list MetricDataQuery) :=
  foldM (λ queries t,
    d ← GetMetricReconcileTimeOrDefault MetricsWatchDuration;
    mret (queries ++ [{| MDQ_Id := MT_PrometheusMetricName t;
                         MDQ_MetricName := MT_ProviderMetricName t;
                         MDQ_Namespace := namespace; MDQ_Dimension := (dimension, id);
                         MDQ_Stat := MT_Statistic t;
                         MDQ_Period := int64_of_float (Duration_Seconds d) |}])) [] metricTypes.
Definition buildRDSMetricDataQuery {E} (metricTypes : list CloudProviderMetricType)
    (resourceID : string) : M S E (list MetricDataQuery) :=
  buildMetricDataQuery "AWS/RDS" cloudWatchRDSDBDimension resourceID metricTypes.
Definition buildRedisMetricDataQuery {E} (cacheClusterId : string)
    (metricTypes : list CloudProviderMetricType) : M S E (list MetricDataQuery) :=
  buildMetricDataQuery "AWS/ElastiCache" cloudWatchElastiCacheDimension cacheClusterId metricTypes.

(** The call, for the last interval. *)
Definition getMetricData (queries : list MetricDataQuery) : M S error (option (list MetricDataResult)) :=
  now ← invoke TimeNow;
  d ← GetMetricReconcileTimeOrDefault MetricsWatchDuration;
  now' ← invoke TimeNow;
  ok (invoke (GetMetricData queries (now - d)%Z now')).

(** The values of the results that are complete, appended to [acc]. *)
Definition collectMetrics {E} (labels : gmap string string) (acc : ScrapeMetricsData)
    (results : list MetricDataResult) : M S E ScrapeMetricsData :=
  foldM (λ acc r,
    status ← deref (MDR_StatusCode r);
    if bool_decide (status ≠ StatusCodeComplete) then mret acc
    else
      foldM (λ acc value,
        name ← deref (MDR_Id r);
        value ← deref value;
        mret (acc ++ [Some {| GCM_Name := name; GCM_Labels := labels; GCM_Value := value |}]))
        acc (MDR_Values r)) acc results.

Context `{ThirdParty}.

Definition scrapeRDSCloudWatchMetricData (postgres : CR) (metricTypes : list CloudProviderMetricType)
  : M S error ScrapeMetricsData :=
  let om := CR_Meta postgres in
  resourceID ← BuildInfraNameFromObject om defaultAwsIdentifierLength
    onError (λ e, GoErr ("error occurred building instance name: " +:+ Error e));
  queries ← buildRDSMetricDataQuery metricTypes resourceID;
  results ← getMetricData queries orWrap "error getting metric for rds";
  clusterID ← GetClusterID orWrap "error getting clusterID";
  match results with
  | None | Some [] => fail (GoErr "no metric data returned from rds cloudwatch")
  | Some results =>
      collectMetrics (BuildGenericMetricLabels om clusterID resourceID postgresProviderName) [] results
  end.
Definition ScrapePostgresMetrics (p : PostgresProvider) (postgres : CR)
    (metricTypes : list CloudProviderMetricType) : M S error ScrapeMetricsData :=
  strategyConfig ← ReadStorageStrategy (P_ConfigManager p) "postgres" (Spec_Tier (CR_Spec postgres))
    orWrap "failed to read postgres aws strategy config";
  providerCreds ← ReconcileProviderCredentials (P_CredentialManager p)
                    (Meta_Namespace (CR_Meta postgres))
    orWrap "failed to reconcile rds credentials";
  _ ← CreateSessionFromStrategy providerCreds strategyConfig
    orWrap "failed to create aws session to scrape rds cloud watch metrics";
  scrapeRDSCloudWatchMetricData postgres metricTypes
    orWrap "failed to scrape rds cloud watch metrics".

(** The metrics of one node; errors are logged. *)
Definition scrapeNode {E} (clusterID : string) (redis : CR) (metricTypes : list CloudProviderMetricType)
    (acc : ScrapeMetricsData) (cacheClusterId : option string) : M S E ScrapeMetricsData :=
  id ← deref cacheClusterId;
  queries ← buildRedisMetricDataQuery id metricTypes;
  results ← try (getMetricData queries);
  match results with
  | inr _ | inl None => mret acc
  | inl (Some results) =>
      collectMetrics (BuildGenericMetricLabels (CR_Meta redis) clusterID id redisProviderName)
        acc results
  end.
Definition scrapeRedisCloudWatchMetricData (redis : CR) (metricTypes : list CloudProviderMetricType)
  : M S error ScrapeMetricsData :=
  resourceID ← BuildInfraNameFromObject (CR_Meta redis) defaultAwsIdentifierLength
    onError (λ e, GoErr ("error occurred building instance name: " +:+ Error e));
  clusterID ← GetClusterID orWrap "error getting clusterID";
  replicationGroups ← ok (invoke DescribeReplicationGroups)
    orWrap "failed redis metrics to describe replicationGroups";
  foundCache ← lift (findPtr RG_ReplicationGroupId resourceID replicationGroups);
  match foundCache with
  | None => fail (GoErr "redis metrics failed to find cache in replication group")
  | Some cache => foldM (scrapeNode clusterID redis metricTypes) [] (RG_MemberClusters cache)
  end.
Definition ScrapeRedisMetrics (p : RedisProvider) (redis : CR)
    (metricTypes : list CloudProviderMetricType) : M S error ScrapeMetricsData :=
  strategyConfig ← ReadStorageStrategy (R_ConfigManager p) "redis" (Spec_Tier (CR_Spec redis))
    orWrap "failed to read redis aws strategy config";
  providerCreds ← ReconcileProviderCredentials (R_CredentialManager p)
                    (Meta_Namespace (CR_Meta redis))
    orWrap "failed to reconcile elasticache credentials";
  _ ← CreateSessionFromStrategy providerCreds strategyConfig
    orWrap "failed to create aws session to scrape elasticache cloud watch metrics";
  scrapeRedisCloudWatchMetricData redis metricTypes
    orWrap "failed to scrape elasticache cloud watch metrics".

Definition Metrics_SupportsStrategy (strategy : string) : bool :=
  bool_decide (strategy = AWSDeploymentStrategy).
Definition awsPostgresMetrics (p : PostgresProvider) : MetricsProvider S :=
  {| MP_SupportsStrategy := Metrics_SupportsStrategy; MP_Scrape := ScrapePostgresMetrics p |}.
Definition awsRedisMetrics (p : RedisProvider) : MetricsProvider S :=
  {| MP_SupportsStrategy := Metrics_SupportsStrategy; MP_Scrape := ScrapeRedisMetrics p |}.
End Controller.
