(* ===== verification/Snapshots.v ===== *)
(** * pkg/providers/aws/provider_{postgres,redis}snapshot.go,
      controllers/{postgressnapshot,redissnapshot}

    Snapshots of RDS instances and of ElastiCache clusters: the providers, which
    create a snapshot once and report its state, and the reconcile loops.  The
    snapshot resource is the state of the programs; the resource it is taken of is
    only read. *)
From S2P Require Import Prelude Effects GoNet GoStrings Json Api Resources Metrics.
From S2P Require Import Subnets ClusterVpc NetworkProvider AwsConfig AwsPostgres AwsRedis.
From S2P Require Import Controllers.
Local Open Scope go_scope.

(** ** The snapshot object *)

Definition setSnapshotMeta (o : SnapshotCR) (om : ObjectMeta) : SnapshotCR :=
  {| Snapshot_kind := Snapshot_kind o; Snapshot_Meta := om;
     Snapshot_ResourceName := Snapshot_ResourceName o;
     Snapshot_SkipDelete := Snapshot_SkipDelete o; Snapshot_Status := Snapshot_Status o |}.
Definition setSnapshotStatus (f : ResourceTypeSnapshotStatus → ResourceTypeSnapshotStatus)
    (o : SnapshotCR) : SnapshotCR :=
  {| Snapshot_kind := Snapshot_kind o; Snapshot_Meta := Snapshot_Meta o;
     Snapshot_ResourceName := Snapshot_ResourceName o;
     Snapshot_SkipDelete := Snapshot_SkipDelete o; Snapshot_Status := f (Snapshot_Status o) |}.
Definition setSnapshotID (id : string) : SnapshotCR → SnapshotCR :=
  setSnapshotStatus (λ s, {| SS_SnapshotID := id; SS_Phase := SS_Phase s;
                             SS_Message := SS_Message s; SS_Strategy := SS_Strategy s |}).
Definition setSnapshotStrategy (strategy : string) : SnapshotCR → SnapshotCR :=
  setSnapshotStatus (λ s, {| SS_SnapshotID := SS_SnapshotID s; SS_Phase := SS_Phase s;
                             SS_Message := SS_Message s; SS_Strategy := strategy |}).
Definition setSnapshotMessage (msg : string) : SnapshotCR → SnapshotCR :=
  setSnapshotStatus (λ s, {| SS_SnapshotID := SS_SnapshotID s; SS_Phase := SS_Phase s;
                             SS_Message := msg; SS_Strategy := SS_Strategy s |}).
Definition setSnapshotPhase (phase msg : string) : SnapshotCR → SnapshotCR :=
  setSnapshotStatus (λ s, {| SS_SnapshotID := SS_SnapshotID s; SS_Phase := phase;
                             SS_Message := msg; SS_Strategy := SS_Strategy s |}).

(** [CreateFinalizer] on a snapshot. *)
Definition CreateSnapshotFinalizer (df : string) : M SnapshotCR error unit :=
  inst ← get;
  match Meta_DeletionTimestamp (Snapshot_Meta inst) with
  | Some _ => mret tt
  | None =>
      let inst' := setSnapshotMeta inst (addFinalizer (Snapshot_Meta inst) df) in
      _ ← put inst';
      updated ← ok (invoke (UpdateSnapshotCR inst')) orWrap "failed to add finalizer to instance";
      put updated
  end.

Definition UpdateSnapshotPhase (phase msg : string) : M SnapshotCR error unit :=
  if bool_decide (msg = "") then mret tt
  else
    _ ← modify (setSnapshotPhase phase msg);
    inst ← get;
    updated ← ok (invoke (StatusUpdateSnapshotCR inst))
      orWrap "failed to update resource status phase and message";
    put updated.

(** [UpdatePhase] on a snapshot, whose status is of another type than the one the
    function reads it into. *)
Definition UpdatePhaseOfSnapshot (phase msg : string) : M SnapshotCR error unit :=
  if bool_decide (msg = "") then mret tt
  else fail (WrapErr (GoErr ("couldn't assign/convert types.ResourceTypeSnapshotStatus to "
                             +:+ "types.ResourceTypeStatus"))
               "failed to retrieve status block from object").

(** ** The providers *)

(** [PostgresSnapshotProvider] and [RedisSnapshotProvider]. *)
Record SnapshotProvider := {
  SP_CredentialManager : CredentialManager;
  SP_ConfigManager : ConfigMapConfigManager
}.
Definition postgresSnapshotProviderName : string := "aws-rds-snapshots".
Definition redisSnapshotProviderName : string := "aws-redis-snapshots".

Definition Snapshot_GetReconcileTime {S E} (snapshot : SnapshotCR) : M S E Z :=
  if bool_decide (SS_Phase (Snapshot_Status snapshot) ≠ PhaseComplete)
  then mret (60 * second)%Z
  else GetForcedReconcileTimeOrDefault defaultReconcileTime.

Section Providers.
Context `{ThirdParty} (p : SnapshotProvider).

(** Both files have the same function. *)
Definition createSessionForResource {S} (namespace resourceType tier : string) : M S error unit :=
  providerCreds ← ReconcileProviderCredentials (SP_CredentialManager p) namespace
    orWrap "failed to reconcile aws credentials";
  stratCfg ← ReadStorageStrategy (SP_ConfigManager p) resourceType tier;
  CreateSessionFromStrategy providerCreds stratCfg.

(** Recording the name of the snapshot, which both providers do first. *)
Definition recordSnapshotName : M SnapshotCR (string * error) string :=
  snapshot ← get;
  snapshotName ← BuildTimestampedInfraNameFromObjectCreation (Snapshot_Meta snapshot)
                   defaultAwsIdentifierLength
    onError (wrapBoth "failed to generate snapshot name");
  _ ← modify (setSnapshotID snapshotName);
  snapshot ← get;
  updated ← ok (invoke (StatusUpdateSnapshotCR snapshot))
    onError (wrapBoth ("failed to update instance " +:+ Meta_Name (Snapshot_Meta snapshot)
                       +:+ " in namespace " +:+ Meta_Namespace (Snapshot_Meta snapshot)));
  _ ← put updated;
  mret snapshotName.

(** Removing the finalizer, which both providers do last. *)
Definition dropSnapshotFinalizer : M SnapshotCR (string * error) string :=
  o ← get;
  match RemoveFinalizer (Snapshot_Meta o) DefaultFinalizer with
  | None => lift out_of_range
  | Some om =>
      let o' := setSnapshotMeta o om in
      _ ← put o';
      updated ← ok (invoke (UpdateSnapshotCR o'))
        onError (wrapBoth "failed to update instance as part of finalizer reconcile");
      _ ← put updated;
      mret "snapshot deleted"
  end.

(** *** RDS *)

Definition findPostgresSnapshot {S} (snapshotName : string) : M S error (option DBSnapshot) :=
  r ← try (ok (invoke (DescribeDBSnapshots None (Some snapshotName))));
  match r with
  | inr err => if bool_decide (aws_code err = Some "DBSnapshotNotFound")
               then mret None else fail err
  | inl snapshots => lift (findPtr Snap_DBSnapshotIdentifier snapshotName snapshots)
  end.

Definition createPostgresSnapshot (postgres : CR)
  : M SnapshotCR (string * error) (option string * string) :=
  snapshotName ← recordSnapshotName;
  instanceName ← BuildInfraNameFromObject (CR_Meta postgres) defaultAwsIdentifierLength
    onError (wrapBoth "failed to get cluster name");
  foundSnapshot ← findPostgresSnapshot snapshotName
    onError (wrapBoth "failed to describe snaphots in AWS");
  match foundSnapshot with
  | None =>
      if bool_decide (Status_Phase (CR_Status postgres) = PhaseInProgress) then
        mret (None, "waiting for postgres instance to be available")
      else if bool_decide (Status_Phase (CR_Status postgres) = PhaseDeleteInProgress) then
        let errMsg := "cannot create snapshot when instance deletion is in progress" in
        fail (errMsg, GoErr errMsg)
      else
        tags ← GetDefaultResourceTags (Spec_Type (CR_Spec postgres)) snapshotName
                 (labelOf (CR_Meta postgres) "productName")
          onError (λ err, ("", WrapErr err "failed to get default postgres tags"));
        _ ← ok (invoke (CreateDBSnapshot (Some instanceName) (Some snapshotName)
                          (genericToRdsTags tags.1)))
          onError (wrapBoth "error creating rds snapshot");
        mret (None, "snapshot started")
  | Some found =>
      status ← deref (Snap_Status found);
      if bool_decide (status = "available") then
        name ← deref (Snap_DBSnapshotIdentifier found);
        mret (Some name, "snapshot created")
      else mret (None, "current snapshot status : " +:+ status)
  end.

Definition CreatePostgresSnapshot (postgres : CR)
  : M SnapshotCR (string * error) (option string * string) :=
  snapshot ← get;
  _ ← CreateSnapshotFinalizer DefaultFinalizer
    onError (wrapBoth ("failed to set finalizer for snapshot "
                       +:+ Meta_Name (Snapshot_Meta snapshot)));
  _ ← createSessionForResource (Meta_Namespace (CR_Meta postgres)) "postgres"
        (Spec_Tier (CR_Spec postgres))
    onError (wrapBoth "failed to create AWS session");
  createPostgresSnapshot postgres.

Definition deletePostgresSnapshot : M SnapshotCR (string * error) string :=
  snapshot ← get;
  let snapshotName := SS_SnapshotID (Snapshot_Status snapshot) in
  foundSnapshot ← findPostgresSnapshot snapshotName
    onError (wrapBoth "failed to describe snaphots in AWS");
  match foundSnapshot with
  | None => dropSnapshotFinalizer
  | Some found =>
      _ ← ok (invoke (DeleteDBSnapshot (Snap_DBSnapshotIdentifier found)))
        onError (wrapBoth ("failed to delete snapshot " +:+ snapshotName +:+ " in aws"));
      mret "snapshot deletion started"
  end.

Definition DeletePostgresSnapshot (postgres : CR) : M SnapshotCR (string * error) string :=
  _ ← createSessionForResource (Meta_Namespace (CR_Meta postgres)) "postgres"
        (Spec_Tier (CR_Spec postgres))
    onError (wrapBoth "failed to create AWS session");
  deletePostgresSnapshot.

(** *** ElastiCache *)

Definition findRedisSnapshot {S} (snapshotName : string) : M S error (option CacheSnapshot) :=
  r ← try (ok (invoke (DescribeSnapshots None (Some snapshotName))));
  match r with
  | inr err => if bool_decide (aws_code err = Some "SnapshotNotFound")
               then mret None else fail err
  | inl snapshots => lift (findPtr CS_SnapshotName snapshotName snapshots)
  end.

(** The loop that looks for the primary node. *)
Fixpoint primaryNode {E} (members : list NodeGroupMember) : outcome E string :=
  match members with
  | [] => Val ""
  | i :: rest =>
      match NGM_CurrentRole i with
      | None => nil_deref
      | Some role => if bool_decide (role = "primary") then load (NGM_CacheClusterId i)
                     else primaryNode rest
      end
  end.

Definition createRedisSnapshot (redis : CR)
  : M SnapshotCR (string * error) (option string * string) :=
  snapshotName ← recordSnapshotName;
  clusterName ← BuildInfraNameFromObject (CR_Meta redis) defaultAwsIdentifierLength
    onError (wrapBoth "failed to get cluster name");
  foundSnapshot ← findRedisSnapshot snapshotName
    onError (wrapBoth "failed to describe snaphots in AWS");
  '(cacheOutput, err) ← invoke (DescribeReplicationGroup (Some clusterName));
  match cacheOutput with
  | None =>
      let errMsg := "snapshot failed, no replication group found" in
      fail (errMsg, GoErr errMsg)
  | Some groups =>
      group ← index groups 0;
      groupStatus ← deref (RG_Status group);
      if bool_decide (groupStatus ≠ "available") then
        let errMsg := "current replication group status is " +:+ groupStatus in
        match err with
        | Some e => fail (wrapBoth errMsg e)
        | None => mret (None, errMsg)
        end
      else
        nodeGroup ← index (default [] (RG_NodeGroups group)) 0;
        cacheName ← lift (primaryNode (NG_NodeGroupMembers nodeGroup));
        match foundSnapshot with
        | None =>
            tags ← GetDefaultResourceTags (Spec_Type (CR_Spec redis)) snapshotName
                     (labelOf (CR_Meta redis) "productName")
              onError (λ err, ("", WrapErr err "failed to get default redis tags"));
            _ ← ok (invoke (CreateSnapshot (Some cacheName) (Some snapshotName)
                              (genericListToElasticacheTagList tags.1)))
              onError (wrapBoth "error creating elasticache snapshot");
            mret (None, "snapshot started")
        | Some found =>
            status ← deref (CS_SnapshotStatus found);
            if bool_decide (status = "available") then
              name ← deref (CS_SnapshotName found);
              mret (Some name, "snapshot created")
            else mret (None, "current snapshot status : " +:+ status)
        end
  end.

Definition CreateRedisSnapshot (redis : CR)
  : M SnapshotCR (string * error) (option string * string) :=
  snapshot ← get;
  _ ← CreateSnapshotFinalizer DefaultFinalizer
    onError (wrapBoth ("failed to set finalizer for snapshot "
                       +:+ Meta_Name (Snapshot_Meta snapshot)));
  _ ← createSessionForResource (Meta_Namespace (CR_Meta redis)) "redis"
        (Spec_Tier (CR_Spec redis))
    onError (wrapBoth "failed to create AWS session");
  createRedisSnapshot redis.

Definition deleteRedisSnapshot : M SnapshotCR (string * error) string :=
  snapshot ← get;
  let snapshotName := SS_SnapshotID (Snapshot_Status snapshot) in
  foundSnapshot ← findRedisSnapshot snapshotName
    onError (wrapBoth "failed to describe snaphots in AWS");
  match foundSnapshot with
  | None => dropSnapshotFinalizer
  | Some _ =>
      _ ← ok (invoke (DeleteSnapshot (Some snapshotName)))
        onError (wrapBoth ("failed to delete snapshot " +:+ snapshotName +:+ " in aws"));
      mret "snapshot deletion started"
  end.

Definition DeleteRedisSnapshot (redis : CR) : M SnapshotCR (string * error) string :=
  _ ← createSessionForResource (Meta_Namespace (CR_Meta redis)) "redis"
        (Spec_Tier (CR_Spec redis))
    onError (wrapBoth "failed to create AWS session");
  deleteRedisSnapshot.
End Providers.

(** ** Metrics *)

Definition buildPostgresSnapshotStatusMetricLabels (cr : SnapshotCR)
    (clusterID snapshotName phase : string) : gmap string string :=
  {[ "clusterID" := clusterID; "resourceID" := Meta_Name (Snapshot_Meta cr);
     "namespace" := Meta_Namespace (Snapshot_Meta cr); "instanceID" := snapshotName;
     "productName" := labelOf (Snapshot_Meta cr) "productName";
     "strategy" := postgresProviderName; "statusPhase" := phase ]}.
Definition buildRedisSnapshotStatusMetricLabels (cr : SnapshotCR)
    (clusterID snapshotName phase : string) : gmap string string :=
  {[ "clusterID" := clusterID; "resourceID" := Meta_Name (Snapshot_Meta cr);
     "namespace" := Meta_Namespace (Snapshot_Meta cr); "instanceID" := snapshotName;
     "productName" := labelOf (Snapshot_Meta cr) "productName";
     "strategy" := redisProviderName; "statusPhase" := phase ]}.

(** One metric for each phase; nothing when the cluster is unknown. *)
Definition exposeSnapshotMetrics {S E} (metric : string)
    (labels : SnapshotCR → string → string → string → gmap string string) (cr : SnapshotCR)
  : M S E unit :=
  clusterID ← try GetClusterID;
  match clusterID with
  | inr _ => mret tt
  | inl clusterID =>
      forM statusPhases (λ phase,
        invoke (SetMetric metric
          (labels cr clusterID (SS_SnapshotID (Snapshot_Status cr)) phase)
          (Btof64 (bool_decide (SS_Phase (Snapshot_Status cr) = phase)))))
  end.
Definition exposePostgresSnapshotMetrics {S E} : SnapshotCR → M S E unit :=
  exposeSnapshotMetrics "cro_postgres_snapshot_status_phase"
    buildPostgresSnapshotStatusMetricLabels.
Definition exposeRedisSnapshotMetrics {S E} : SnapshotCR → M S E unit :=
  exposeSnapshotMetrics "cro_redis_snapshot_status_phase" buildRedisSnapshotStatusMetricLabels.

(** ** The controllers *)

(** The interfaces [PostgresSnapshotProvider] and [RedisSnapshotProvider] of
    types.go; an instance is the name of the snapshot. *)
Record SnapshotResourceProvider := {
  SRP_GetName : string;
  SRP_SupportsStrategy : string → bool;
  SRP_GetReconcileTime : SnapshotCR → M SnapshotCR error Z;
  SRP_Create : CR → M SnapshotCR (string * error) (option string * string);
  SRP_Delete : CR → M SnapshotCR (string * error) string
}.
Definition awsPostgresSnapshots `{ThirdParty} (p : SnapshotProvider) : SnapshotResourceProvider := {|
  SRP_GetName := postgresSnapshotProviderName;
  SRP_SupportsStrategy := SupportsStrategy;
  SRP_GetReconcileTime := Snapshot_GetReconcileTime;
  SRP_Create := CreatePostgresSnapshot p;
  SRP_Delete := DeletePostgresSnapshot p |}.
Definition awsRedisSnapshots `{ThirdParty} (p : SnapshotProvider) : SnapshotResourceProvider := {|
  SRP_GetName := redisSnapshotProviderName;
  SRP_SupportsStrategy := Redis_SupportsStrategy;
  SRP_GetReconcileTime := Snapshot_GetReconcileTime;
  SRP_Create := CreateRedisSnapshot p;
  SRP_Delete := DeleteRedisSnapshot p |}.

Definition requeueSnapshot (p : SnapshotResourceProvider) : M SnapshotCR error ctrl_Result :=
  instance ← get;
  t ← SRP_GetReconcileTime p instance;
  mret {| Requeue := true; RequeueAfter := t |}.

(** What both controllers do with an object that is being deleted ... *)
Definition reconcileSnapshotDelete (p : SnapshotResourceProvider) (cr : CR) (errMsg : string)
  : M SnapshotCR error ctrl_Result :=
  r ← try (SRP_Delete p cr);
  match r with
  | inr (msg, err) =>
      _ ← UpdateSnapshotPhase PhaseFailed (WrapError msg err);
      fail (WrapErr err errMsg)
  | inl msg =>
      _ ← UpdateSnapshotPhase PhaseDeleteInProgress msg;
      requeueSnapshot p
  end.
(** ... and with one that is not; [assign] is the assignment to the message that
    only the controller of Postgres snapshots makes. *)
Definition reconcileSnapshotCreate (p : SnapshotResourceProvider) (cr : CR)
    (assign : string → SnapshotCR → SnapshotCR) : M SnapshotCR error ctrl_Result :=
  r ← try (SRP_Create p cr);
  match r with
  | inr (msg, err) =>
      _ ← UpdateSnapshotPhase PhaseFailed msg;
      fail err
  | inl (None, msg) =>
      _ ← UpdateSnapshotPhase PhaseInProgress msg;
      requeueSnapshot p
  | inl (Some _, msg) =>
      _ ← modify (assign msg);
      _ ← UpdateSnapshotPhase PhaseComplete msg;
      requeueSnapshot p
  end.

(** The body of the loop over the providers of Postgres snapshots. *)
Definition reconcilePostgresSnapshotWith (strategyToUse : string) (p : SnapshotResourceProvider)
    (postgresCr : CR) : M SnapshotCR error ctrl_Result :=
  instance ← get;
  _ ← (if bool_decide (SS_Strategy (Snapshot_Status instance) ≠ strategyToUse) then
         _ ← modify (setSnapshotStrategy strategyToUse);
         instance ← get;
         updated ← ok (invoke (StatusUpdateSnapshotCR instance))
           orWrap ("failed to update instance " +:+ Meta_Name (Snapshot_Meta instance)
                   +:+ " in namespace " +:+ Meta_Namespace (Snapshot_Meta instance));
         put updated
       else mret tt);
  instance ← get;
  match Meta_DeletionTimestamp (Snapshot_Meta instance) with
  | Some _ => reconcileSnapshotDelete p postgresCr "failed to delete postgres snapshot"
  | None => reconcileSnapshotCreate p postgresCr setSnapshotMessage
  end.

Definition reconcilePostgresSnapshot (providerList : list SnapshotResourceProvider)
    (watchNamespace namespace : string) : M SnapshotCR error ctrl_Result :=
  instance ← get;
  got ← try (ok (invoke (GetCR Postgres (Snapshot_ResourceName instance)
                           (Meta_Namespace (Snapshot_Meta instance)))));
  match got with
  | inr err =>
      let errMsg := "failed to get postgres resource: " +:+ Error err in
      _ ← UpdateSnapshotPhase PhaseFailed errMsg;
      fail (GoErr errMsg)
  | inl postgresCr =>
      let t := Spec_Type (CR_Spec postgresCr) in
      mapping ← try (GetStrategyMappingForDeploymentType watchNamespace namespace t);
      match mapping with
      | inr err =>
          _ ← UpdatePhaseOfSnapshot PhaseFailed (WrapError StatusDeploymentConfigNotFound err);
          fail (WrapErr err ("failed to read deployment type config for deployment " +:+ t))
      | inl stratMap =>
          let strategyToUse :=
            if bool_decide (SS_Strategy (Snapshot_Status instance) ≠ "")
            then SS_Strategy (Snapshot_Status instance) else DSM_Postgres stratMap in
          match List.find (λ p, SRP_SupportsStrategy p strategyToUse) providerList with
          | Some p => reconcilePostgresSnapshotWith strategyToUse p postgresCr
          | None =>
              _ ← UpdatePhaseOfSnapshot PhaseFailed StatusUnsupportedType;
              fail (GoErr ("unsupported deployment strategy " +:+ DSM_Postgres stratMap))
          end
      end
  end.

Definition reconcileRedisSnapshot (provider : SnapshotResourceProvider)
  : M SnapshotCR error ctrl_Result :=
  instance ← get;
  got ← try (ok (invoke (GetCR Redis (Snapshot_ResourceName instance)
                           (Meta_Namespace (Snapshot_Meta instance)))));
  match got with
  | inr err =>
      let errMsg := "failed to get redis cr : " +:+ Error err in
      _ ← UpdateSnapshotPhase PhaseFailed errMsg;
      fail (GoErr errMsg)
  | inl redisCr =>
      if negb (SRP_SupportsStrategy provider (Status_Strategy (CR_Status redisCr))) then
        let errMsg := "the resource " +:+ Snapshot_ResourceName instance
          +:+ " uses an unsupported provider strategy " +:+ Status_Strategy (CR_Status redisCr)
          +:+ ", only resources using the aws provider are valid" in
        _ ← UpdateSnapshotPhase PhaseFailed errMsg;
        fail (GoErr errMsg)
      else
        match Meta_DeletionTimestamp (Snapshot_Meta instance) with
        | Some _ => reconcileSnapshotDelete provider redisCr "failed to delete redis snapshot"
        | None =>
            if bool_decide (SS_Phase (Snapshot_Status instance) = PhaseComplete)
            then requeueSnapshot provider
            else reconcileSnapshotCreate provider redisCr (λ _ o, o)
        end
  end.

(** The object is fetched, and the metrics are set at the end of every path. *)
Definition reconcileFetched (k : kind) (metrics : SnapshotCR → M SnapshotCR error unit)
    (body : M SnapshotCR error ctrl_Result) (name namespace : string)
  : M SnapshotCR error ctrl_Result :=
  got ← try (ok (invoke (GetSnapshotCR k name namespace)));
  match got with
  | inr err => if IsNotFound err then mret noRequeue else fail err
  | inl instance =>
      _ ← put instance;
      defer (instance ← get; metrics instance) body
  end.
Definition PostgresSnapshot_Reconcile (providerList : list SnapshotResourceProvider)
    (watchNamespace name namespace : string) : M SnapshotCR error ctrl_Result :=
  reconcileFetched Postgres exposePostgresSnapshotMetrics
    (reconcilePostgresSnapshot providerList watchNamespace namespace) name namespace.
Definition RedisSnapshot_Reconcile (provider : SnapshotResourceProvider)
    (name namespace : string) : M SnapshotCR error ctrl_Result :=
  reconcileFetched Redis exposeRedisSnapshotMetrics (reconcileRedisSnapshot provider)
    name namespace.
