(* ===== verification/BlobStorage.v ===== *)
(** * pkg/providers/aws/provider_blobstorage.go

    The S3 provider: the bucket of a blob storage resource, its settings, tags and
    credentials, and its deletion.  The custom resource is the state of the
    programs. *)
From S2P Require Import Prelude Effects GoNet GoStrings Json Api Resources Metrics.
From S2P Require Import Subnets ClusterVpc NetworkProvider AwsConfig AwsPostgres Controllers.
From Stdlib Require Import Ascii.
Local Open Scope go_scope.

(** ** Constants *)

Definition blobstorageProviderName : string := "aws-s3".
Definition defaultAwsBucketNameLength : Z := 40.
Definition defaultForceBucketDeletion : bool := false.
Definition defaultBlockPublicAcls : bool := true.
Definition defaultBlockPublicPolicy : bool := true.
Definition defaultIgnorePublicAcls : bool := true.
Definition defaultRestrictPublicBuckets : bool := true.
Definition defaultEncryptionSSEAlgorithm : string := "AES256".

(** ** The configuration in the strategies *)

Definition bucketConfigurationKind : jkind :=
  KStruct [("Bucket", KStruct [("DataRedundancy", KString); ("Type", KString)]);
           ("Location", KStruct [("Name", KString); ("Type", KString)]);
           ("LocationConstraint", KString)].
Definition CreateBucketInputFields : list (string * jkind) :=
  [("ACL", KString); ("Bucket", KString); ("CreateBucketConfiguration", bucketConfigurationKind);
   ("GrantFullControl", KString); ("GrantRead", KString); ("GrantReadACP", KString);
   ("GrantWrite", KString); ("GrantWriteACP", KString); ("ObjectLockEnabledForBucket", KBool);
   ("ObjectOwnership", KString)].
Definition decodeCreateBucketInput (members : list (string * json)) : CreateBucketInput :=
  let fields := map fst CreateBucketInputFields in
  {| CB_Bucket := asString (fieldValue fields members "Bucket");
     CB_Other := otherFields fields ["Bucket"] members |}.

(** [S3DeleteStrat] *)
Record S3DeleteStrat := { ForceBucketDeletion : option bool }.
Definition S3DeleteStratFields : list (string * jkind) := [("forceBucketDeletion", KBool)].
Definition decodeS3DeleteStrat (members : list (string * json)) : S3DeleteStrat :=
  {| ForceBucketDeletion :=
       asBool (fieldValue (map fst S3DeleteStratFields) members "forceBucketDeletion") |}.

Definition genericToS3Tags (ts : list Tag) : list AwsTag := map genericToEc2Tag ts.

(** ** Programs *)

Record BlobStorageProvider := {
  B_CredentialManager : CredentialManager;
  B_ConfigManager : ConfigMapConfigManager
}.
Record BlobStorageDeploymentDetails := {
  BucketName : string;
  BucketRegion : string;
  CredentialKeyID : string;
  CredentialSecretKey : string
}.
Definition BlobStorageData (d : BlobStorageDeploymentDetails) : gmap string string :=
  {[ "bucketName" := BucketName d; "bucketRegion" := BucketRegion d;
     "credentialKeyID" := CredentialKeyID d; "credentialSecretKey" := CredentialSecretKey d ]}.

Definition BlobStorage_SupportsStrategy (d : string) : bool := bool_decide (d = "aws").
Definition BlobStorage_GetReconcileTime {S E} (bs : CR) : M S E Z :=
  if bool_decide (Status_Phase (CR_Status bs) ≠ PhaseComplete) then mret (60 * second)%Z
  else GetForcedReconcileTimeOrDefault defaultReconcileTime.

Definition buildEndUserCredentialsNameFromBucket (b : string) : string :=
  "cro-aws-s3-" +:+ b +:+ "-creds".
(** [%q] of a name *)
Definition quote (s : string) : string := String "034" EmptyString +:+ s +:+ String "034" EmptyString.

Section BlobStorage.
Context {S : Type}.

(** The configurations of the bucket, and the strategy with its region. *)
Definition getS3BucketConfig (p : BlobStorageProvider) (bs : CR)
  : M S error (CreateBucketInput * S3DeleteStrat * StrategyConfig) :=
  stratCfg ← ReadStorageStrategy (B_ConfigManager p) "blobstorage" (Spec_Tier (CR_Spec bs))
    orWrap "failed to read aws strategy config";
  defRegion ← GetRegionFromStrategyOrDefault stratCfg orWrap "failed to get default region";
  let stratCfg := if bool_decide (Strategy_Region stratCfg = "")
                  then {| Strategy_Region := defRegion;
                          Strategy_CreateStrategy := Strategy_CreateStrategy stratCfg;
                          Strategy_DeleteStrategy := Strategy_DeleteStrategy stratCfg;
                          Strategy_ServiceUpdates := Strategy_ServiceUpdates stratCfg |}
                  else stratCfg in
  create ← liftR (unmarshalStruct CreateBucketInputFields (Strategy_CreateStrategy stratCfg))
    orWrap "failed to unmarshal aws s3 create strat configuration";
  delete ← liftR (unmarshalStruct S3DeleteStratFields (Strategy_DeleteStrategy stratCfg))
    orWrap "failed to unmarshal aws s3 delete strat configuration";
  mret (decodeCreateBucketInput create, decodeS3DeleteStrat delete, stratCfg).

Definition buildS3BucketConfig (p : BlobStorageProvider) (bs : CR)
  : M S error (CreateBucketInput * S3DeleteStrat * StrategyConfig) :=
  let errMsg := "failed to retrieve aws s3 bucket config for blob storage instance "
                +:+ Meta_Name (CR_Meta bs) in
  '(bucketCreateCfg, bucketDeleteCfg, stratCfg) ← getS3BucketConfig p bs orWrap errMsg;
  bucketName ← BuildInfraNameFromObject (CR_Meta bs) defaultAwsBucketNameLength orWrap errMsg;
  let create := match CB_Bucket bucketCreateCfg with
                | Some _ => bucketCreateCfg
                | None => {| CB_Bucket := Some bucketName; CB_Other := CB_Other bucketCreateCfg |}
                end in
  let delete := match ForceBucketDeletion bucketDeleteCfg with
                | Some _ => bucketDeleteCfg
                | None => {| ForceBucketDeletion := Some defaultForceBucketDeletion |}
                end in
  mret (create, delete, stratCfg).

Definition getS3buckets : M S error (list (option string)) :=
  poll 60 (listOutput ← invoke ListBuckets;
           mret (match listOutput with Ok l => Some l | Er _ => None end))
    orWrap "timed out waiting to list s3 buckets".

Definition reconcileS3BucketSettings (bucket : string) : M S error unit :=
  _ ← ok (invoke (PutPublicAccessBlock (Some bucket) (Some defaultBlockPublicAcls)
            (Some defaultBlockPublicPolicy) (Some defaultIgnorePublicAcls)
            (Some defaultRestrictPublicBuckets)))
    orWrap ("failed to set client access settings on bucket " +:+ bucket);
  ok (invoke (PutBucketEncryption (Some bucket) (Some defaultEncryptionSSEAlgorithm)))
    orWrap ("failed to set encryption settings on bucket " +:+ bucket).

Definition getDefaultS3Tags (cr : CR) : M S error (list AwsTag) :=
  tags ← GetDefaultResourceTags (Spec_Type (CR_Spec cr)) (Meta_Name (CR_Meta cr))
           (labelOf (CR_Meta cr) "productName")
    orWrap "Failed to get default s3 tags";
  mret (genericToS3Tags tags.1).

Definition TagBlobStorage (bucketName : string) (bs : CR) : M S (string * error) string :=
  bucketTags ← getDefaultS3Tags bs onError (wrapBoth "Failed to build default tags");
  _ ← ok (invoke (PutBucketTagging (Some bucketName) bucketTags))
    onError (λ err, wrapBoth ("failed to add tags to S3 bucket: " +:+ Error err) err);
  mret "successfully created and tagged".

Definition buildBlobStorageStatusMetricLabels (cr : CR) (clusterID bucketName phase : string)
  : gmap string string :=
  {[ "clusterID" := clusterID; "resourceID" := Meta_Name (CR_Meta cr);
     "namespace" := Meta_Namespace (CR_Meta cr); "instanceID" := bucketName;
     "productName" := labelOf (CR_Meta cr) "productName";
     "strategy" := blobstorageProviderName; "statusPhase" := phase ]}.
Definition exposeBlobStorageMetrics {E} (cr : CR) : M S E unit :=
  r ← try (BuildInfraNameFromObject (CR_Meta cr) defaultAwsBucketNameLength);
  let bucketName := match r with inl name => name | inr _ => "" end in
  r ← try GetClusterID;
  match r with
  | inr _ => mret tt
  | inl clusterID =>
      forM statusPhases (λ phase,
        invoke (SetMetric "cro_blobstorage_status_phase"
          (buildBlobStorageStatusMetricLabels cr clusterID bucketName phase)
          (Btof64 (bool_decide (Status_Phase (CR_Status cr) = phase)))))
  end.

(** *** The content of a bucket *)

(** The length of the one page that is listed. *)
Definition getBucketSize (bucketCfg : CreateBucketInput) : M S error nat :=
  bucket ← deref (CB_Bucket bucketCfg);
  contents ← ok (invoke (ListObjectsV2 (Some bucket)))
    orWrap ("unable to list items in bucket " +:+ quote bucket);
  mret (length contents).

Definition emptyBucket (bucketCfg : CreateBucketInput) : M S error unit :=
  size ← getBucketSize bucketCfg;
  if bool_decide (size = 0)%nat then mret tt
  else
    bucket ← deref (CB_Bucket bucketCfg);
    ok (invoke (BatchDelete (Some bucket))) orWrap "unable to delete objects from bucket".

Definition deleteBucket (bucketCfg : CreateBucketInput) : M S error unit :=
  r ← try (ok (invoke (DeleteBucket (CB_Bucket bucketCfg))));
  match r with
  | inl _ => mret tt
  | inr err => if bool_decide (aws_code err = Some "NoSuchBucket") then mret tt
               else fail (WrapErr err ("failed to delete s3 bucket: " +:+ Error err))
  end.
End BlobStorage.

(** ** Creating and deleting *)

Section Reconcile.
Context `{ThirdParty} (p : BlobStorageProvider).

(** The annotation is set on the object before the update. *)
Definition addBucketAnnotation (bucket : string) : M CR (string * error) unit :=
  bs ← get;
  let bs' := setMeta bs (annotations_Add (CR_Meta bs) ResourceIdentifierAnnotation bucket) in
  _ ← put bs';
  updated ← ok (invoke (UpdateCR bs')) onError (wrapBoth "failed to add annotation");
  put updated.

(** The part of [reconcileBucketCreate] for a bucket that is not there. *)
Definition createBucket (bucketCfg : CreateBucketInput) (bucket : string)
  : M CR (string * error) string :=
  bs ← get;
  if annotations_Has (CR_Meta bs) ResourceIdentifierAnnotation then
    let errMsg := "BlobStorage CR " +:+ Meta_Name (CR_Meta bs) +:+ " in "
      +:+ Meta_Namespace (CR_Meta bs) +:+ " namespace has " +:+ ResourceIdentifierAnnotation
      +:+ " annotation with value " +:+ annotations_Get (CR_Meta bs) ResourceIdentifierAnnotation
      +:+ ", but no corresponding S3 Bucket was found" in
    fail (errMsg, GoErr errMsg)
  else
    _ ← ok (invoke (CreateBucket bucketCfg))
      onError (wrapBoth ("failed to create s3 bucket " +:+ bucket));
    _ ← addBucketAnnotation bucket;
    _ ← reconcileS3BucketSettings bucket
      onError (wrapBoth ("failed to set s3 bucket settings on bucket creation " +:+ bucket));
    mret "successfully reconciled".

Definition reconcileBucketCreate (bucketCfg : CreateBucketInput) : M CR (string * error) string :=
  buckets ← getS3buckets
    onError (wrapBoth "failed to list existing aws s3 buckets, credentials could be reconciling");
  bucket ← deref (CB_Bucket bucketCfg);
  foundBucket ← lift (findPtr id bucket buckets);
  defer (bs ← get; exposeBlobStorageMetrics (E := error) bs)
    (match foundBucket with
     | Some name =>
         _ ← reconcileS3BucketSettings (StringValue name)
           onError (wrapBoth ("failed to set s3 bucket settings " +:+ bucket));
         mret ("using bucket " +:+ bucket)
     | None => createBucket bucketCfg bucket
     end).

Definition CreateStorage : M CR (string * error) (option BlobStorageDeploymentDetails * string) :=
  _ ← CreateFinalizer DefaultFinalizer onError (withMsg "failed to set finalizer");
  bs ← get;
  '(bucketCreateCfg, _, stratCfg) ← buildS3BucketConfig p bs
    onError (wrapBoth "failed to build s3 bucket config");
  providerCreds ← ReconcileProviderCredentials (B_CredentialManager p) (Meta_Namespace (CR_Meta bs))
    onError (wrapBoth ("failed to reconcile aws blob storage provider credentials for blob "
                       +:+ "storage instance " +:+ Meta_Name (CR_Meta bs)));
  _ ← CreateSessionFromStrategy providerCreds stratCfg
    onError (wrapBoth "failed to create aws session to create s3 bucket");
  bucket ← deref (CB_Bucket bucketCreateCfg);
  _ ← reconcileBucketCreate bucketCreateCfg
    onError (λ '(msg, err), (msg, WrapErr err msg));
  bs ← get;
  let endUserCredsName := buildEndUserCredentialsNameFromBucket bucket in
  endUserCreds ← ReconcileBucketOwnerCredentials (B_CredentialManager p) endUserCredsName
                   (Meta_Namespace (CR_Meta bs)) bucket
    onError (wrapBoth ("failed to reconcile s3 end-user credentials for blob storage instance "
                       +:+ Meta_Name (CR_Meta bs)));
  bsi ← (match B_CredentialManager p with
         | STSCredentialManager _ =>
             mret {| BucketName := bucket; BucketRegion := Strategy_Region stratCfg;
                     CredentialKeyID := ""; CredentialSecretKey := "" |}
         | CredentialMinterCredentialManager _ =>
             creds ← deref endUserCreds;
             mret {| BucketName := bucket; BucketRegion := Strategy_Region stratCfg;
                     CredentialKeyID := Creds_AccessKeyID creds;
                     CredentialSecretKey := Creds_SecretAccessKey creds |}
         end);
  msg ← TagBlobStorage bucket bs
    onError (λ '(msg, err), wrapBoth ("failed to add tags to bucket: " +:+ msg) err);
  mret (Some bsi, msg).

Definition removeCredsAndFinalizer (bucket : string) : M CR error unit :=
  bs ← get;
  let endUserCredsName := buildEndUserCredentialsNameFromBucket bucket in
  deleted ← try (ok (invoke (DeleteCredentialsRequest endUserCredsName
                               (Meta_Namespace (CR_Meta bs)))));
  _ ← (match deleted with
       | inl _ => mret tt
       | inr err => if IsNotFound err then mret tt
                    else fail (WrapErr err ("failed to delete credential request "
                                            +:+ endUserCredsName))
       end);
  match RemoveFinalizer (CR_Meta bs) DefaultFinalizer with
  | None => lift out_of_range
  | Some om =>
      let bs' := setMeta bs om in
      _ ← put bs';
      updated ← ok (invoke (UpdateCR bs'))
        orWrap "failed to update blob storage cr as part of finalizer reconcile";
      _ ← put updated;
      exposeBlobStorageMetrics updated
  end.

(** Emptying and deleting the bucket, when it is empty or that is forced. *)
Definition reconcileBucketContent (bucketCfg : CreateBucketInput)
    (bucketDeleteCfg : S3DeleteStrat) (bucket : string) : M CR (string * error) unit :=
  bucketSize ← getBucketSize bucketCfg
    onError (wrapBoth ("unable to get bucket size : " +:+ bucket));
  force ← deref (ForceBucketDeletion bucketDeleteCfg);
  if force || bool_decide (bucketSize = 0)%nat then
    _ ← emptyBucket bucketCfg onError (wrapBoth ("unable to empty bucket : " +:+ quote bucket));
    deleteBucket bucketCfg onError (wrapBoth ("unable to delete bucket : " +:+ bucket))
  else mret tt.

(** A bucket that is gone does not end the function. *)
Definition reconcileBucketDelete (bucketCfg : CreateBucketInput)
    (bucketDeleteCfg : S3DeleteStrat) : M CR (string * error) string :=
  buckets ← getS3buckets onError (withMsg "error getting s3 buckets");
  bucket ← deref (CB_Bucket bucketCfg);
  let removeAll := removeCredsAndFinalizer bucket
    onError (wrapBoth ("unable to remove credential secrets and finalizer for " +:+ bucket)) in
  foundBucket ← lift (findPtr id bucket buckets);
  _ ← (match foundBucket with None => removeAll | Some _ => mret tt end);
  _ ← reconcileBucketContent bucketCfg bucketDeleteCfg bucket;
  _ ← removeAll;
  mret "".

Definition DeleteStorage : M CR (string * error) string :=
  bs ← get;
  '(bucketCreateCfg, bucketDeleteCfg, stratCfg) ← buildS3BucketConfig p bs
    onError (wrapBoth "failed to build s3 bucket config");
  providerCreds ← ReconcileProviderCredentials (B_CredentialManager p) (Meta_Namespace (CR_Meta bs))
    onError (wrapBoth ("failed to reconcile aws provider credentials for blob storage instance "
                       +:+ Meta_Name (CR_Meta bs)));
  _ ← CreateSessionFromStrategy providerCreds stratCfg
    onError (wrapBoth "failed to create aws session to delete s3 bucket");
  reconcileBucketDelete bucketCreateCfg bucketDeleteCfg.
End Reconcile.

(** The provider as the controller sees it. *)
Definition awsBlobStorage `{ThirdParty} (p : BlobStorageProvider) : ResourceProvider := {|
  RP_GetName := blobstorageProviderName;
  RP_SupportsStrategy := BlobStorage_SupportsStrategy;
  RP_GetReconcileTime := BlobStorage_GetReconcileTime;
  RP_Create := r ← CreateStorage p; mret (BlobStorageData <$> r.1, r.2);
  RP_Delete := DeleteStorage p |}.
