(* ===== verification/GcpConfig.v ===== *)
(** * pkg/providers/gcp: config.go, credentials.go, tags.go

    The strategies of the config map with the project and the region of the
    cluster, the credentials of a service account, and the labels of instances.
    [StrategyConfig], [ReadStorageStrategy] and the like are those of Google Cloud
    here; the names of AWS keep their file as a prefix. *)
From S2P Require Import Prelude Effects GoNet GoStrings Json GcpApi Api Resources Metrics AwsConfig.
From Stdlib Require Import Ascii.
Local Open Scope go_scope.

(** ** Strategies (config.go) *)

Definition DefaultConfigMapName : string := "cloud-resources-gcp-strategies".
Definition defaultGcpIdentifierLength : Z := 40.

Record StrategyConfig := {
  Strategy_Region : string;
  Strategy_ProjectID : string;
  Strategy_CreateStrategy : option json;
  Strategy_DeleteStrategy : option json
}.
Definition strategyFields : list string :=
  ["region"; "projectID"; "createStrategy"; "deleteStrategy"].
Definition decodeStrategyConfig (v : json) : option (option StrategyConfig) :=
  match v with
  | JNull => Some None
  | JObj members =>
      region ← plainString strategyFields members "region";
      project ← plainString strategyFields members "projectID";
      Some (Some {| Strategy_Region := region; Strategy_ProjectID := project;
                    Strategy_CreateStrategy := rawFieldOf strategyFields members "createStrategy";
                    Strategy_DeleteStrategy := rawFieldOf strategyFields members "deleteStrategy" |})
  | _ => None
  end.

(** [DefaultConfigMapNamespace] is read from the environment when the program
    starts, and is an argument here. *)
Definition NewConfigMapConfigManager (DefaultConfigMapNamespace cm namespace : string)
  : ConfigMapConfigManager :=
  {| CM_configMapName := if bool_decide (cm = "") then DefaultConfigMapName else cm;
     CM_configMapNamespace :=
       if bool_decide (namespace = "") then DefaultConfigMapNamespace else namespace |}.
Definition NewDefaultConfigManager (DefaultConfigMapNamespace : string) : ConfigMapConfigManager :=
  NewConfigMapConfigManager DefaultConfigMapNamespace DefaultConfigMapName
    DefaultConfigMapNamespace.

Definition defaultStrategyText : string := quoted "{`development`: { `region`: ``, `projectID`: ``, `createStrategy`: {}, `deleteStrategy`: {} }, `production`: { `region`: ``, `projectID`: ``, `createStrategy`: {}, `deleteStrategy`: {} }}".
Definition BuildDefaultConfigMap : gmap string string := {[
  "blobstorage" := defaultStrategyText; "redis" := defaultStrategyText;
  "postgres" := defaultStrategyText; "_network" := defaultStrategyText ]}.

(** ** Credentials (credentials.go) *)

Definition defaultCredentialsServiceAccount : string := "service_account.json".
Definition defaultProviderCredentialName : string := "cloud-resource-gcp-credentials".
Definition operatorRoles : list string :=
  ["roles/compute.networkAdmin"; "roles/storage.admin"; "roles/redis.admin";
   "roles/cloudsql.admin"; "roles/servicenetworking.networksAdmin";
   "roles/monitoring.viewer"].

Record Credentials := {
  Creds_ServiceAccountID : string;
  Creds_ServiceAccountJson : string
}.
(** [CredentialMinterCredentialManager], the only one: the name of its request. *)
Record CredentialManager := { ProviderCredentialName : string }.
Definition NewCredentialMinterCredentialManager : CredentialManager :=
  {| ProviderCredentialName := defaultProviderCredentialName |}.

Section GcpConfig.
Context {S : Type}.

Definition getDefaultRegion : M S error string :=
  region ← GetGCPRegion orWrap "failed to retrieve region from cluster";
  if bool_decide (region = "")
  then fail (GoErr "failed to retrieve region from cluster, region is not defined")
  else mret region.
Definition GetRegionFromStrategyOrDefault (strategy : StrategyConfig) : M S error string :=
  defaultRegion ← getDefaultRegion orWrap "failed to get default region";
  mret (if bool_decide (Strategy_Region strategy = "") then defaultRegion
        else Strategy_Region strategy).
Definition getDefaultProject : M S error string :=
  defaultProject ← GetGCPProject orWrap "failed to retrieve project from cluster";
  if bool_decide (defaultProject = "")
  then fail (GoErr "failed to retrieve project from cluster, project ID is not defined")
  else mret defaultProject.
Definition GetProjectFromStrategyOrDefault (strategy : StrategyConfig) : M S error string :=
  defaultProject ← getDefaultProject orWrap "failed to get default project";
  mret (if bool_decide (Strategy_ProjectID strategy = "") then defaultProject
        else Strategy_ProjectID strategy).

(** The end of [getTierStrategyForProvider]: an empty project or region is that
    of the cluster. *)
Definition fillProject (strategyConfig : StrategyConfig) : M S error StrategyConfig :=
  if bool_decide (Strategy_ProjectID strategyConfig = "") then
    defaultProject ← GetProjectFromStrategyOrDefault strategyConfig
      orWrap "failed to get default gcp project";
    mret {| Strategy_Region := Strategy_Region strategyConfig;
            Strategy_ProjectID := defaultProject;
            Strategy_CreateStrategy := Strategy_CreateStrategy strategyConfig;
            Strategy_DeleteStrategy := Strategy_DeleteStrategy strategyConfig |}
  else mret strategyConfig.
Definition fillRegion (strategyConfig : StrategyConfig) : M S error StrategyConfig :=
  if bool_decide (Strategy_Region strategyConfig = "") then
    defaultRegion ← GetRegionFromStrategyOrDefault strategyConfig
      orWrap "failed to get default gcp region";
    mret {| Strategy_Region := defaultRegion;
            Strategy_ProjectID := Strategy_ProjectID strategyConfig;
            Strategy_CreateStrategy := Strategy_CreateStrategy strategyConfig;
            Strategy_DeleteStrategy := Strategy_DeleteStrategy strategyConfig |}
  else mret strategyConfig.

Definition getTierStrategyForProvider (m : ConfigMapConfigManager) (rt tier : string)
  : M S error StrategyConfig :=
  cm ← GetConfigMapOrDefault (CM_configMapName m) (CM_configMapNamespace m) BuildDefaultConfigMap
    orWrap ("failed to get gcp strategy config map " +:+ CM_configMapName m +:+
            " in namespace " +:+ CM_configMapNamespace m);
  let rawStrategyMapping := default "" (cm !! rt) in
  if bool_decide (rawStrategyMapping = "") then
    fail (GoErr ("gcp strategy for resource type " +:+ rt +:+ " is not defined"))
  else
    strategyMapping ← liftR (unmarshalMappingOf decodeStrategyConfig rawStrategyMapping)
      orWrap ("failed to unmarshal strategy mapping for resource type " +:+ rt);
    match lookupTier tier strategyMapping with
    | None => fail (GoErr ("no strategy found for deployment type " +:+ rt +:+
                           " and deployment tier " +:+ tier))
    | Some strategyConfig =>
        strategyConfig ← fillProject strategyConfig;
        fillRegion strategyConfig
    end.

Definition ReadStorageStrategy (m : ConfigMapConfigManager) (rt tier : string)
  : M S error StrategyConfig :=
  getTierStrategyForProvider m rt tier
    orWrap ("failed to get tier to strategy mapping for resource type " +:+ rt).

Context `{GcpTypes}.

(** [controllerutil.CreateOrUpdate] on the request. *)
Definition reconcileCredentialRequest (name ns : string) (roles : list string)
  : M S error CredentialsRequest :=
  providerSpec ← liftR (EncodeGCPProviderSpec roles) orWrap "failed to encode provider spec";
  applyCredentialRequest name ns providerSpec
    orWrap ("failed to reconcile credential request " +:+ name +:+ " in namespace " +:+ ns).

Definition reconcileGCPCredentials (cr : CredentialsRequest) : M S error string :=
  sec ← ok (invoke (GetSecret (CReq_SecretRef cr).1 (CReq_SecretRef cr).2))
    orWrap ("failed to get gcp credentials secret " +:+ (CReq_SecretRef cr).1);
  let gcpServiceAccount := secretData sec defaultCredentialsServiceAccount in
  if bool_decide (gcpServiceAccount = "") then
    fail (GoErr ("gcp service account is undefined in secret " +:+ Secret_Name sec))
  else mret gcpServiceAccount.

Definition ReconcileCredentials (name ns : string) (roles : list string)
  : M S error (CredentialsRequest * Credentials) :=
  cr ← reconcileCredentialRequest name ns roles
    orWrap ("failed to reconcile gcp credential request " +:+ name);
  cr ← awaitCredentialRequest cr
    orWrap "timed out waiting for credential request to become provisioned";
  gcpProvStatus ← liftR (DecodeGCPProviderStatus (CReq_ProviderStatus cr))
    orWrap ("failed to decode credentials request " +:+ CReq_Name cr);
  gcpServiceAccountJson ← reconcileGCPCredentials cr
    orWrap ("failed to reconcile gcp credentials from credential request " +:+ CReq_Name cr);
  mret (cr, {| Creds_ServiceAccountID := gcpProvStatus;
               Creds_ServiceAccountJson := gcpServiceAccountJson |}).

Definition ReconcileProviderCredentials (m : CredentialManager) (ns : string)
  : M S error Credentials :=
  r ← ReconcileCredentials (ProviderCredentialName m) ns operatorRoles; mret r.2.

(** ** Labels (tags.go)

    The default tags with dots and slashes replaced, in lower case; a key that
    occurs twice has its last value. *)
Definition gcpLabelText (s : string) : string :=
  ToLower (replaceChar "/" "_" (replaceChar "." "-" s)).
Definition gcpLabels (defaultTags : list Tag) : gmap string string :=
  fold_left (λ m t, <[gcpLabelText (Tag_Key t) := gcpLabelText (Tag_Value t)]> m) defaultTags ∅.
Definition buildDefaultRedisTags (r : CR) : M S error (gmap string string) :=
  defaultTags ← GetDefaultResourceTags (Spec_Type (CR_Spec r)) (Meta_Name (CR_Meta r))
                  (labelOf (CR_Meta r) "productName")
    orWrap "failed to get default redis tags";
  mret (gcpLabels defaultTags.1).
Definition buildDefaultPostgresTags (pg : CR) : M S error (gmap string string) :=
  defaultTags ← GetDefaultResourceTags (Spec_Type (CR_Spec pg)) (Meta_Name (CR_Meta pg))
                  (labelOf (CR_Meta pg) "productName")
    orWrap "failed to get default postgres tags";
  mret (gcpLabels defaultTags.1).
End GcpConfig.
