(* ===== verification/GcpSql.v ===== *)
(** * pkg/providers/gcp/gcpiface/database_types.go

    The description of a Cloud SQL instance as a strategy writes it, where a flag that
    is absent is told from one that is false, its decoding, and the message of the API
    that is made of it. *)
From S2P Require Import Prelude Effects GoStrings Json GcpApi AwsConfig.
Local Open Scope go_scope.

(** ** The types *)

Record DatabaseInstanceFailoverReplica := {
  FR_Available : option bool;
  FR_Name : string
}.
Record BackupConfiguration := {
  BC_BackupRetentionSettings : option BackupRetentionSettings;
  BC_BinaryLogEnabled : option bool;
  BC_Enabled : option bool;
  BC_Kind : string;
  BC_Location : string;
  BC_PointInTimeRecoveryEnabled : option bool;
  BC_ReplicationLogArchivingEnabled : option bool;
  BC_StartTime : string;
  BC_TransactionLogRetentionDays : Z
}.
Record IpConfiguration := {
  IC_AllocatedIpRange : string;
  IC_AuthorizedNetworks : option json;
  IC_Ipv4Enabled : option bool;
  IC_PrivateNetwork : string;
  IC_RequireSsl : option bool
}.
Record MaintenanceWindow := {
  MW_Day : option Z;
  MW_Hour : option Z;
  MW_Kind : string;
  MW_UpdateTrack : string
}.
Record Settings := {
  ST_ActivationPolicy : string;
  ST_AvailabilityType : string;
  ST_BackupConfiguration : option BackupConfiguration;
  ST_Collation : string;
  ST_ConnectorEnforcement : string;
  ST_CrashSafeReplicationEnabled : option bool;
  ST_DataDiskSizeGb : Z;
  ST_DataDiskType : string;
  ST_DatabaseFlags : option json;
  ST_DatabaseReplicationEnabled : option bool;
  ST_DeletionProtectionEnabled : option bool;
  ST_DenyMaintenancePeriods : option json;
  ST_InsightsConfig : option json;
  ST_IpConfiguration : option IpConfiguration;
  ST_Kind : string;
  ST_LocationPreference : option json;
  ST_MaintenanceWindow : option MaintenanceWindow;
  ST_PasswordValidationPolicy : option json;
  ST_PricingPlan : string;
  ST_ReplicationType : string;
  ST_SettingsVersion : Z;
  ST_StorageAutoResize : option bool;
  ST_StorageAutoResizeLimit : Z;
  ST_Tier : string;
  ST_UserLabels : option (gmap string string)
}.
Record DatabaseInstance := {
  DBI_ConnectionName : string;
  DBI_DatabaseVersion : string;
  DBI_DiskEncryptionConfiguration : option json;
  DBI_FailoverReplica : option DatabaseInstanceFailoverReplica;
  DBI_GceZone : string;
  DBI_InstanceType : string;
  DBI_IpAddresses : option (list (option IpMapping));
  DBI_Kind : string;
  DBI_MaintenanceVersion : string;
  DBI_MasterInstanceName : string;
  DBI_MaxDiskSize : Z;
  DBI_Name : string;
  DBI_Project : string;
  DBI_Region : string;
  DBI_ReplicaNames : option (list string);
  DBI_RootPassword : string;
  DBI_SecondaryGceZone : string;
  DBI_SelfLink : string;
  DBI_ServerCaCert : option json;
  DBI_Settings : option Settings
}.

(** ** The names in JSON *)

Definition strings (names : list string) : list (string * jkind) := map (λ f, (f, KString)) names.
Definition FailoverReplicaFields : list (string * jkind) := [("available", KBool); ("name", KString)].
Definition BackupRetentionFields : list (string * jkind) :=
  [("retentionUnit", KString); ("retainedBackups", KInt64)].
Definition BackupConfigurationFields : list (string * jkind) :=
  [("backupRetentionSettings", KStruct BackupRetentionFields); ("binaryLogEnabled", KBool);
   ("enabled", KBool); ("kind", KString); ("location", KString);
   ("pointInTimeRecoveryEnabled", KBool); ("replicationLogArchivingEnabled", KBool);
   ("startTime", KString); ("transactionLogRetentionDays", KInt64)].
Definition IpConfigurationFields : list (string * jkind) :=
  [("allocatedIpRange", KString);
   ("authorizedNetworks",
    KSlice (KStruct (strings ["expirationTime"; "kind"; "name"; "value"])));
   ("ipv4Enabled", KBool); ("privateNetwork", KString); ("requireSsl", KBool)].
Definition MaintenanceWindowFields : list (string * jkind) :=
  [("day", KInt64); ("hour", KInt64); ("kind", KString); ("updateTrack", KString)].
Definition SettingsFields : list (string * jkind) :=
  [("activationPolicy", KString); ("availabilityType", KString);
   ("backupConfiguration", KStruct BackupConfigurationFields); ("collation", KString);
   ("connectorEnforcement", KString); ("crashSafeReplicationEnabled", KBool);
   ("dataDiskSizeGb", KInt64); ("dataDiskType", KString);
   ("databaseFlags", KSlice (KStruct (strings ["name"; "value"])));
   ("databaseReplicationEnabled", KBool); ("deletionProtectionEnabled", KBool);
   ("denyMaintenancePeriods", KSlice (KStruct (strings ["endDate"; "startDate"; "time"])));
   ("insightsConfig",
    KStruct [("queryInsightsEnabled", KBool); ("queryPlansPerMinute", KInt64);
             ("queryStringLength", KInt64); ("recordApplicationTags", KBool);
             ("recordClientAddress", KBool)]);
   ("ipConfiguration", KStruct IpConfigurationFields); ("kind", KString);
   ("locationPreference",
    KStruct (strings ["followGaeApplication"; "kind"; "secondaryZone"; "zone"]));
   ("maintenanceWindow", KStruct MaintenanceWindowFields);
   ("passwordValidationPolicy",
    KStruct [("complexity", KString); ("disallowCompromisedCredentials", KBool);
             ("disallowUsernameSubstring", KBool); ("enablePasswordPolicy", KBool);
             ("minLength", KInt64); ("passwordChangeInterval", KString);
             ("reuseInterval", KInt64)]);
   ("pricingPlan", KString); ("replicationType", KString); ("settingsVersion", KInt64);
   ("storageAutoResize", KBool); ("storageAutoResizeLimit", KInt64); ("tier", KString);
   ("userLabels", KMap KString)].
Definition DatabaseInstanceFields : list (string * jkind) :=
  [("connectionName", KString); ("databaseVersion", KString);
   ("diskEncryptionConfiguration", KStruct (strings ["kind"; "kmsKeyName"]));
   ("failoverReplica", KStruct FailoverReplicaFields); ("gceZone", KString);
   ("instanceType", KString);
   ("ipAddresses", KSlice (KStruct (strings ["ipAddress"; "timeToRetire"; "type"])));
   ("kind", KString); ("maintenanceVersion", KString); ("masterInstanceName", KString);
   ("maxDiskSize", KInt64); ("name", KString); ("project", KString); ("region", KString);
   ("replicaNames", KSlice KString); ("rootPassword", KString); ("secondaryGceZone", KString);
   ("selfLink", KString);
   ("serverCaCert",
    KStruct (strings ["cert"; "certSerialNumber"; "commonName"; "createTime"; "expirationTime";
                      "instance"; "kind"; "selfLink"; "sha1Fingerprint"]));
   ("settings", KStruct SettingsFields)].

(** ** Decoding

    The fields of an object whose members have the kinds of the type.  An object that
    is given twice is read into the same struct; of slices and messages that are only
    passed on the last one counts. *)
Section Decode.
Context (fields : list (string * jkind)) (members : list (string * json)).
Let names := map fst fields.
Definition membersOf (f : string) : list json :=
  map snd (List.filter (λ m, bool_decide (fieldOf names m.1 = Some f)) members).
(** A string or a number that is not a pointer: null leaves it. *)
Definition stringField (f : string) : string := default "" (plainString names members f).
Definition intField (f : string) : Z :=
  default 0%Z (last (omap (λ v, asInt64 (Some v)) (membersOf f))).
(** A pointer to a struct, or a map: null sets it to nil. *)
Definition mergeObject (acc : option (list (string * json))) (v : json)
  : option (list (string * json)) :=
  match v with
  | JObj ms => Some (default [] acc ++ ms)
  | JNull => None
  | _ => acc
  end.
Definition objectFieldFrom (init : option (list (string * json))) (f : string)
  : option (list (string * json)) := fold_left mergeObject (membersOf f) init.
Definition objectField (f : string) : option (list (string * json)) := objectFieldFrom None f.
Definition boolField (f : string) : option bool := asBool (fieldValue names members f).
Definition intPtrField (f : string) : option Z := asInt64 (fieldValue names members f).
Definition jsonField (f : string) : option json := fieldValue names members f.
Definition listField (f : string) : option (list json) :=
  match fieldValue names members f with Some (JArr l) => Some l | _ => None end.
End Decode.

(** [map[string]string]: the last entry of a key counts, null is the empty string. *)
Definition stringMap (members : list (string * json)) : gmap string string :=
  foldl (λ m p, <[p.1 := default "" (asString (Some p.2))]> m) ∅ members.

Definition decodeFailoverReplica (ms : list (string * json)) : DatabaseInstanceFailoverReplica :=
  let F := FailoverReplicaFields in
  {| FR_Available := boolField F ms "available"; FR_Name := stringField F ms "name" |}.
Definition decodeBackupRetention (ms : list (string * json)) : BackupRetentionSettings :=
  let F := BackupRetentionFields in
  {| BRS_RetentionUnit := stringField F ms "retentionUnit";
     BRS_RetainedBackups := intField F ms "retainedBackups" |}.
Definition decodeBackupConfiguration (ms : list (string * json)) : BackupConfiguration :=
  let F := BackupConfigurationFields in
  {| BC_BackupRetentionSettings := decodeBackupRetention <$> objectField F ms "backupRetentionSettings";
     BC_BinaryLogEnabled := boolField F ms "binaryLogEnabled";
     BC_Enabled := boolField F ms "enabled";
     BC_Kind := stringField F ms "kind";
     BC_Location := stringField F ms "location";
     BC_PointInTimeRecoveryEnabled := boolField F ms "pointInTimeRecoveryEnabled";
     BC_ReplicationLogArchivingEnabled := boolField F ms "replicationLogArchivingEnabled";
     BC_StartTime := stringField F ms "startTime";
     BC_TransactionLogRetentionDays := intField F ms "transactionLogRetentionDays" |}.
Definition decodeIpConfiguration (ms : list (string * json)) : IpConfiguration :=
  let F := IpConfigurationFields in
  {| IC_AllocatedIpRange := stringField F ms "allocatedIpRange";
     IC_AuthorizedNetworks := jsonField F ms "authorizedNetworks";
     IC_Ipv4Enabled := boolField F ms "ipv4Enabled";
     IC_PrivateNetwork := stringField F ms "privateNetwork";
     IC_RequireSsl := boolField F ms "requireSsl" |}.
Definition decodeMaintenanceWindow (ms : list (string * json)) : MaintenanceWindow :=
  let F := MaintenanceWindowFields in
  {| MW_Day := intPtrField F ms "day"; MW_Hour := intPtrField F ms "hour";
     MW_Kind := stringField F ms "kind"; MW_UpdateTrack := stringField F ms "updateTrack" |}.
Definition decodeSettings (ms : list (string * json)) : Settings :=
  let F := SettingsFields in
  {| ST_ActivationPolicy := stringField F ms "activationPolicy";
     ST_AvailabilityType := stringField F ms "availabilityType";
     ST_BackupConfiguration := decodeBackupConfiguration <$> objectField F ms "backupConfiguration";
     ST_Collation := stringField F ms "collation";
     ST_ConnectorEnforcement := stringField F ms "connectorEnforcement";
     ST_CrashSafeReplicationEnabled := boolField F ms "crashSafeReplicationEnabled";
     ST_DataDiskSizeGb := intField F ms "dataDiskSizeGb";
     ST_DataDiskType := stringField F ms "dataDiskType";
     ST_DatabaseFlags := jsonField F ms "databaseFlags";
     ST_DatabaseReplicationEnabled := boolField F ms "databaseReplicationEnabled";
     ST_DeletionProtectionEnabled := boolField F ms "deletionProtectionEnabled";
     ST_DenyMaintenancePeriods := jsonField F ms "denyMaintenancePeriods";
     ST_InsightsConfig := jsonField F ms "insightsConfig";
     ST_IpConfiguration := decodeIpConfiguration <$> objectField F ms "ipConfiguration";
     ST_Kind := stringField F ms "kind";
     ST_LocationPreference := jsonField F ms "locationPreference";
     ST_MaintenanceWindow := decodeMaintenanceWindow <$> objectField F ms "maintenanceWindow";
     ST_PasswordValidationPolicy := jsonField F ms "passwordValidationPolicy";
     ST_PricingPlan := stringField F ms "pricingPlan";
     ST_ReplicationType := stringField F ms "replicationType";
     ST_SettingsVersion := intField F ms "settingsVersion";
     ST_StorageAutoResize := boolField F ms "storageAutoResize";
     ST_StorageAutoResizeLimit := intField F ms "storageAutoResizeLimit";
     ST_Tier := stringField F ms "tier";
     ST_UserLabels := stringMap <$> objectField F ms "userLabels" |}.
Definition decodeIpMapping (v : json) : option IpMapping :=
  match v with
  | JObj ms =>
      let F := strings ["ipAddress"; "timeToRetire"; "type"] in
      Some {| IPM_IpAddress := stringField F ms "ipAddress";
              IPM_TimeToRetire := stringField F ms "timeToRetire";
              IPM_Type := stringField F ms "type" |}
  | _ => None
  end.
Definition decodeDatabaseInstance (ms : list (string * json)) : DatabaseInstance :=
  let F := DatabaseInstanceFields in
  {| DBI_ConnectionName := stringField F ms "connectionName";
     DBI_DatabaseVersion := stringField F ms "databaseVersion";
     DBI_DiskEncryptionConfiguration := jsonField F ms "diskEncryptionConfiguration";
     DBI_FailoverReplica := decodeFailoverReplica <$> objectField F ms "failoverReplica";
     DBI_GceZone := stringField F ms "gceZone";
     DBI_InstanceType := stringField F ms "instanceType";
     DBI_IpAddresses := map decodeIpMapping <$> listField F ms "ipAddresses";
     DBI_Kind := stringField F ms "kind";
     DBI_MaintenanceVersion := stringField F ms "maintenanceVersion";
     DBI_MasterInstanceName := stringField F ms "masterInstanceName";
     DBI_MaxDiskSize := intField F ms "maxDiskSize";
     DBI_Name := stringField F ms "name";
     DBI_Project := stringField F ms "project";
     DBI_Region := stringField F ms "region";
     DBI_ReplicaNames := map (λ v, default "" (asString (Some v))) <$> listField F ms "replicaNames";
     DBI_RootPassword := stringField F ms "rootPassword";
     DBI_SecondaryGceZone := stringField F ms "secondaryGceZone";
     DBI_SelfLink := stringField F ms "selfLink";
     DBI_ServerCaCert := jsonField F ms "serverCaCert";
     DBI_Settings := decodeSettings <$> objectField F ms "settings" |}.

(** [CreateInstanceRequest] (provider_postgres.go): the members of the instance, which
    are read over [init]. *)
Definition CreateInstanceRequestFields : list (string * jkind) :=
  [("instance", KStruct DatabaseInstanceFields)].
Definition decodeCreateInstanceRequest (init : option (list (string * json)))
    (ms : list (string * json)) : option DatabaseInstance :=
  decodeDatabaseInstance <$> objectFieldFrom CreateInstanceRequestFields ms init "instance".

(** ** The message of the API *)

(** The flag of a pointer, and its name when it is there and false. *)
Definition flag (p : option bool) : bool := default false p.
Definition forced (name : string) (p : option bool) : list string :=
  match p with Some false => [name] | _ => [] end.

Definition mapFailoverReplica (r : DatabaseInstanceFailoverReplica) : SqlFailoverReplica :=
  {| SFR_Available := flag (FR_Available r); SFR_Name := FR_Name r;
     SFR_ForceSendFields := forced "Available" (FR_Available r) |}.
Definition mapBackupConfiguration (b : BackupConfiguration) : SqlBackupConfiguration :=
  {| SBC_BackupRetentionSettings := BC_BackupRetentionSettings b;
     SBC_BinaryLogEnabled := flag (BC_BinaryLogEnabled b);
     SBC_Enabled := flag (BC_Enabled b);
     SBC_Kind := BC_Kind b;
     SBC_Location := BC_Location b;
     SBC_PointInTimeRecoveryEnabled := flag (BC_PointInTimeRecoveryEnabled b);
     SBC_ReplicationLogArchivingEnabled := flag (BC_ReplicationLogArchivingEnabled b);
     SBC_StartTime := BC_StartTime b;
     SBC_TransactionLogRetentionDays := BC_TransactionLogRetentionDays b;
     SBC_ForceSendFields :=
       forced "BinaryLogEnabled" (BC_BinaryLogEnabled b) ++ forced "Enabled" (BC_Enabled b) ++
       forced "PointInTimeRecoveryEnabled" (BC_PointInTimeRecoveryEnabled b) ++
       forced "ReplicationLogArchivingEnabled" (BC_ReplicationLogArchivingEnabled b) |}.
Definition mapIpConfiguration (i : IpConfiguration) : SqlIpConfiguration :=
  {| SIC_AllocatedIpRange := IC_AllocatedIpRange i;
     SIC_AuthorizedNetworks := IC_AuthorizedNetworks i;
     SIC_Ipv4Enabled := flag (IC_Ipv4Enabled i);
     SIC_PrivateNetwork := IC_PrivateNetwork i;
     SIC_RequireSsl := flag (IC_RequireSsl i);
     SIC_ForceSendFields := forced "Ipv4Enabled" (IC_Ipv4Enabled i) ++
                            forced "RequireSsl" (IC_RequireSsl i) |}.
(** The kind is not passed on. *)
Definition mapMaintenanceWindow (w : MaintenanceWindow) : SqlMaintenanceWindow :=
  {| SMW_Day := default 0%Z (MW_Day w);
     SMW_Hour := default 0%Z (MW_Hour w);
     SMW_Kind := "";
     SMW_UpdateTrack := MW_UpdateTrack w;
     SMW_ForceSendFields := if bool_decide (MW_Hour w = Some 0%Z) then ["Hour"] else [] |}.
Definition mapSettings (s : Settings) : SqlSettings :=
  {| SSet_ActivationPolicy := ST_ActivationPolicy s;
     SSet_AvailabilityType := ST_AvailabilityType s;
     SSet_BackupConfiguration := mapBackupConfiguration <$> ST_BackupConfiguration s;
     SSet_Collation := ST_Collation s;
     SSet_ConnectorEnforcement := ST_ConnectorEnforcement s;
     SSet_CrashSafeReplicationEnabled := flag (ST_CrashSafeReplicationEnabled s);
     SSet_DataDiskSizeGb := ST_DataDiskSizeGb s;
     SSet_DataDiskType := ST_DataDiskType s;
     SSet_DatabaseFlags := ST_DatabaseFlags s;
     SSet_DatabaseReplicationEnabled := flag (ST_DatabaseReplicationEnabled s);
     SSet_DeletionProtectionEnabled := flag (ST_DeletionProtectionEnabled s);
     SSet_DenyMaintenancePeriods := ST_DenyMaintenancePeriods s;
     SSet_InsightsConfig := ST_InsightsConfig s;
     SSet_IpConfiguration := mapIpConfiguration <$> ST_IpConfiguration s;
     SSet_Kind := ST_Kind s;
     SSet_LocationPreference := ST_LocationPreference s;
     SSet_MaintenanceWindow := mapMaintenanceWindow <$> ST_MaintenanceWindow s;
     SSet_PasswordValidationPolicy := ST_PasswordValidationPolicy s;
     SSet_PricingPlan := ST_PricingPlan s;
     SSet_ReplicationType := ST_ReplicationType s;
     SSet_SettingsVersion := ST_SettingsVersion s;
     SSet_StorageAutoResize := ST_StorageAutoResize s;
     SSet_StorageAutoResizeLimit := ST_StorageAutoResizeLimit s;
     SSet_Tier := ST_Tier s;
     SSet_UserLabels := ST_UserLabels s;
     SSet_ForceSendFields :=
       forced "CrashSafeReplicationEnabled" (ST_CrashSafeReplicationEnabled s) ++
       forced "DatabaseReplicationEnabled" (ST_DatabaseReplicationEnabled s) ++
       forced "DeletionProtectionEnabled" (ST_DeletionProtectionEnabled s) |}.
(** A field that is not empty is copied into the empty message; the secondary zone goes
    to the field of the zone. *)
Definition MapToGcpDatabaseInstance (dbi : DatabaseInstance) : SqlInstance :=
  {| SI_ConnectionName := DBI_ConnectionName dbi;
     SI_DatabaseVersion := DBI_DatabaseVersion dbi;
     SI_DiskEncryptionConfiguration := DBI_DiskEncryptionConfiguration dbi;
     SI_FailoverReplica := mapFailoverReplica <$> DBI_FailoverReplica dbi;
     SI_GceZone := if bool_decide (DBI_SecondaryGceZone dbi ≠ "") then DBI_SecondaryGceZone dbi
                   else DBI_GceZone dbi;
     SI_InstanceType := DBI_InstanceType dbi;
     SI_IpAddresses := DBI_IpAddresses dbi;
     SI_Kind := DBI_Kind dbi;
     SI_MaintenanceVersion := DBI_MaintenanceVersion dbi;
     SI_MasterInstanceName := DBI_MasterInstanceName dbi;
     SI_MaxDiskSize := DBI_MaxDiskSize dbi;
     SI_Name := DBI_Name dbi;
     SI_Project := DBI_Project dbi;
     SI_Region := DBI_Region dbi;
     SI_ReplicaNames := DBI_ReplicaNames dbi;
     SI_RootPassword := DBI_RootPassword dbi;
     SI_SecondaryGceZone := "";
     SI_SelfLink := DBI_SelfLink dbi;
     SI_ServerCaCert := DBI_ServerCaCert dbi;
     SI_ServiceAccountEmailAddress := "";
     SI_Settings := mapSettings <$> DBI_Settings dbi;
     SI_State := "" |}.

Example decode_merged :
  match parse (quoted "{`instance`: {`name`: `a`, `Settings`: {`tier`: `x`}, `settings`: {`deletionProtectionEnabled`: false, `userLabels`: {`k`: `v`}}, `name`: null}}") with
  | Ok (JObj ms) =>
      match decodeCreateInstanceRequest (Some []) ms with
      | Some i => DBI_Name i = "a" ∧
          (ST_Tier <$> DBI_Settings i) = Some "x" ∧
          (SSet_ForceSendFields <$> SI_Settings (MapToGcpDatabaseInstance i)) =
            Some ["DeletionProtectionEnabled"]
      | None => False
      end
  | _ => False
  end.
Proof. vm_compute. done. Qed.
