(* ===== verification/GcpSnapshots.v ===== *)
(** * pkg/providers/gcp: provider_postgressnapshot.go, gcpiface/storage_api.go

    Snapshots of a Cloud SQL instance: the database is exported to an object of a
    bucket named after the instance, the newest complete snapshot is kept from being
    deleted, and old objects expire.  The snapshot resource is the state of the
    programs; the postgres resource is only read. *)
From S2P Require Import Prelude Effects GoStrings GoSort GoFloat Json GcpApi Api Resources.
From S2P Require Import AwsConfig AwsPostgres Snapshots GcpConfig.
Local Open Scope go_scope.

(** ** Buckets (storage_api.go, and the policies of cloud.google.com/go/iam) *)

Definition ErrBucketNotExist : string := "storage: bucket doesn't exist".
Definition ErrObjectNotExist : string := "storage: object doesn't exist".
(** [err == sentinel] for an error made by [errors.New] with that text. *)
Definition isSentinel (text : string) (err : error) : bool :=
  match err with GoErr t => bool_decide (t = text) | _ => false end.

(** [Policy.HasRole] and [Policy.Add]: the first binding of the role counts. *)
Definition Policy_HasRole (p : Policy) (member role : string) : bool :=
  match List.find (λ b, bool_decide (b.1 = role)) p with
  | Some b => bool_decide (member ∈ b.2)
  | None => false
  end.
Fixpoint Policy_Add (p : Policy) (member role : string) : Policy :=
  match p with
  | [] => [(role, [member])]
  | (r, members) :: p' =>
      if bool_decide (r = role)
      then (r, if bool_decide (member ∈ members) then members else members ++ [member]) :: p'
      else (r, members) :: Policy_Add p' member role
  end.

Section Storage.
Context {S : Type}.

Definition HasBucketPolicy (bucket identity role : string) : M S error bool :=
  policy ← ok (invoke (Gcp (GetBucketPolicy bucket)));
  mret (Policy_HasRole policy identity role).
Definition SetBucketPolicy (bucket identity role : string) : M S error unit :=
  policy ← ok (invoke (Gcp (GetBucketPolicy bucket)));
  ok (invoke (Gcp (SetPolicy bucket (Policy_Add policy identity role)))).
Definition SetBucketLifecycle (bucket : string) (days : Z) : M S error unit :=
  ok (invoke (Gcp (UpdateBucketLifecycle bucket
                     [{| LR_ActionType := "Delete"; LR_AgeInDays := days |}]))).
Definition HasBucketLifecycle (bucket : string) (days : Z) : M S error bool :=
  rules ← ok (invoke (Gcp (GetBucketAttrs bucket)));
  mret (existsb (λ r, bool_decide (LR_ActionType r = "Delete") &&
                      bool_decide (LR_AgeInDays r = days)) rules).

(** ** The snapshots of an instance *)

Definition getAllSnapshotsForInstance (resourceName namespace : string)
  : M S error (list SnapshotCR) :=
  allSnapshots ← ok (invoke (ListSnapshotCR Postgres namespace));
  mret (List.filter (λ s, bool_decide (Snapshot_ResourceName s = resourceName)) allSnapshots).

Definition createdAt (s : SnapshotCR) : Z := Meta_CreationTimestamp (Snapshot_Meta s).
Definition isComplete (s : SnapshotCR) : bool :=
  bool_decide (SS_Phase (Snapshot_Status s) = PhaseComplete).
(** The newest first; the first complete one is the latest. *)
Definition getLatestPostgresSnapshot `{GoSort} (resourceName namespace : string)
  : M S error (option SnapshotCR) :=
  snapshots ← getAllSnapshotsForInstance resourceName namespace;
  mret (List.find isComplete (sortSlice (after createdAt) snapshots)).
End Storage.

Definition setSkipDelete (b : bool) (o : SnapshotCR) : SnapshotCR :=
  {| Snapshot_kind := Snapshot_kind o; Snapshot_Meta := Snapshot_Meta o;
     Snapshot_ResourceName := Snapshot_ResourceName o; Snapshot_SkipDelete := b;
     Snapshot_Status := Snapshot_Status o |}.
Definition snapshotName (s : SnapshotCR) : string := Meta_Name (Snapshot_Meta s).

(** ** The provider *)

Definition postgresProviderName : string := "gcp-cloudsql".
Definition postgresSnapshotProviderName : string := postgresProviderName +:+ "-snapshots".
Definition bucketPolicy : string := "roles/storage.objectAdmin".
Definition lifecycleAdditionalDays : Z := 10.

Record PostgresSnapshotProvider := {
  PSP_CredentialManager : CredentialManager;
  PSP_ConfigManager : ConfigMapConfigManager
}.
Definition NewGCPPostgresSnapshotProvider (DefaultConfigMapNamespace : string)
  : PostgresSnapshotProvider :=
  {| PSP_CredentialManager := NewCredentialMinterCredentialManager;
     PSP_ConfigManager := NewDefaultConfigManager DefaultConfigMapNamespace |}.
Definition SupportsStrategy (d : string) : bool := bool_decide (d = "gcp").

(** [int64(math.Ceil(retention.Hours()/24) + lifecycleAdditionalDays)] *)
Definition lifecycleDays (retention : Z) : Z :=
  int64_of_float (fadd (math_Ceil (fdiv (Duration_Hours retention) (float_of_Z 24)))
                       (float_of_Z lifecycleAdditionalDays)).

(** What is absent is told from other errors by the sentinel. *)
Definition ifExists {S A} (sentinel msg : string) (m : M S error A)
  : M S (string * error) (option A) :=
  r ← try m;
  match r with
  | inl a => mret (Some a)
  | inr err => if isSentinel sentinel err then mret None else fail (wrapBoth msg err)
  end.

Section Provider.
Context `{GoSort} `{GcpTypes} (p : PostgresSnapshotProvider).

(** [if err != nil && !resources.IsConflictError(err)] *)
Definition unlessConflict {S} (msg : string) (m : M S error unit) : M S (string * error) unit :=
  r ← try m;
  match r with
  | inl _ => mret tt
  | inr err => if IsConflictError err then mret tt else fail (wrapBoth msg err)
  end.

Definition createPostgresSnapshot (pg : CR) (config : StrategyConfig)
  : M SnapshotCR (string * error) string :=
  let instanceName := annotations_Get (CR_Meta pg) ResourceIdentifierAnnotation in
  let project := Strategy_ProjectID config in
  if bool_decide (Status_Phase (CR_Status pg) ≠ PhaseComplete) then
    let errMsg := "waiting for postgres instance " +:+ instanceName +:+
                  " to be complete, status " +:+ Status_Phase (CR_Status pg) in
    fail (errMsg, GoErr errMsg)
  else
    bucketAttrs ← ifExists ErrBucketNotExist
      ("failed to retrieve bucket metadata for bucket " +:+ instanceName)
      (ok (invoke (Gcp (GetBucketAttrs instanceName))));
    _ ← (match bucketAttrs with
         | None => unlessConflict ("failed to create bucket with name " +:+ instanceName)
             (ok (invoke (Gcp (CreateGcsBucket instanceName project (Strategy_Region config)))))
         | Some _ => mret tt
         end);
    instance ← ok (invoke (Gcp (GetSqlInstance project instanceName)))
      onError (wrapBoth ("failed to find postgres instance with name " +:+ instanceName));
    let serviceAccount := "serviceAccount:" +:+ SI_ServiceAccountEmailAddress instance in
    hasPolicy ← HasBucketPolicy instanceName serviceAccount bucketPolicy
      onError (wrapBoth ("failed to check bucket policy for " +:+ instanceName));
    _ ← (if hasPolicy : bool then mret tt
         else SetBucketPolicy instanceName serviceAccount bucketPolicy
                onError (wrapBoth ("failed to set policy on bucket " +:+ instanceName)));
    snap ← get;
    _ ← unlessConflict ("failed to export database from postgres instance " +:+ instanceName)
      (ok (invoke (Gcp (ExportSqlInstance project instanceName ["postgres"] "SQL"
             ("gs://" +:+ instanceName +:+ "/" +:+ SS_SnapshotID (Snapshot_Status snap))))));
    mret ("snapshot creation started for " +:+ snapshotName snap).

(** The other snapshots of the instance lose the mark. *)
Definition unmarkOthers (latestSnapshot : SnapshotCR) (snapshots : list SnapshotCR)
  : M SnapshotCR (string * error) unit :=
  forM snapshots (λ s,
    if bool_decide (snapshotName s = snapshotName latestSnapshot) then mret tt
    else _ ← ok (invoke (UpdateSnapshotCR (setSkipDelete false s)))
           onError (wrapBoth "failed to remove skipDelete from postgres snapshot cr");
         mret tt).

Definition reconcileSkipDelete : M SnapshotCR (string * error) string :=
  snap ← get;
  let resourceName := Snapshot_ResourceName snap in
  latestSnapshot ← getLatestPostgresSnapshot resourceName (Meta_Namespace (Snapshot_Meta snap))
    onError (wrapBoth ("failed to determine latest snapshot for " +:+ resourceName));
  match latestSnapshot with
  | None => mret ("no complete snapshots found for " +:+ resourceName)
  | Some latestSnapshot =>
      _ ← (if bool_decide (snapshotName snap = snapshotName latestSnapshot) then
             _ ← put (setSkipDelete true snap);
             updated ← ok (invoke (UpdateSnapshotCR (setSkipDelete true snap)))
               onError (wrapBoth ("failed to update postgres snapshot " +:+ snapshotName snap));
             put updated
           else mret tt);
      snap ← get;
      _ ← (if Snapshot_SkipDelete latestSnapshot then
             snapshots ← getAllSnapshotsForInstance (Snapshot_ResourceName snap)
                           (Meta_Namespace (Snapshot_Meta snap))
               onError (wrapBoth "failed to list postgres snapshots");
             unmarkOthers latestSnapshot snapshots
           else mret tt);
      mret ("snapshot " +:+ snapshotName snap +:+ " successfully reconciled")
  end.

(** The snapshot is there: its bucket gets a life cycle. *)
Definition reconcileLifecycle (pg : CR) : M SnapshotCR (string * error) unit :=
  let instanceName := annotations_Get (CR_Meta pg) ResourceIdentifierAnnotation in
  let retention := Spec_SnapshotRetention (CR_Spec pg) in
  snapshotRetention ← liftR (ParseDuration retention)
    onError (wrapBoth ("failed to parse " +:+ Quote retention +:+ " into go duration"));
  hasLifecycle ← HasBucketLifecycle instanceName (lifecycleDays snapshotRetention)
    onError (wrapBoth ("failed to check object lifecycle for bucket " +:+ instanceName));
  if hasLifecycle : bool then mret tt
  else SetBucketLifecycle instanceName (lifecycleDays snapshotRetention)
         onError (wrapBoth ("failed to set object lifecycle for bucket " +:+ instanceName)).

Definition reconcilePostgresSnapshot (pg : CR) (config : StrategyConfig)
  : M SnapshotCR (string * error) (option string * string) :=
  let instanceName := annotations_Get (CR_Meta pg) ResourceIdentifierAnnotation in
  if bool_decide (instanceName = "") then
    let errMsg := "failed to find " +:+ ResourceIdentifierAnnotation +:+
                  " annotation for postgres cr " +:+ Meta_Name (CR_Meta pg) in
    fail (errMsg, GoErr errMsg)
  else
    snap ← get;
    let snapshotID := snapshotName snap in
    _ ← put (setSnapshotID snapshotID snap);
    updated ← ok (invoke (StatusUpdateSnapshotCR (setSnapshotID snapshotID snap)))
      onError (wrapBoth ("failed to update snapshot " +:+ snapshotID +:+ " in namespace " +:+
                         Meta_Namespace (Snapshot_Meta snap)));
    _ ← put updated;
    objectMeta ← ifExists ErrObjectNotExist
      ("failed to retrieve object metadata for bucket " +:+ instanceName +:+ " and object " +:+
       snapshotID) (ok (invoke (Gcp (GetObjectAttrs instanceName snapshotID))));
    match objectMeta with
    | None => msg ← createPostgresSnapshot pg config; mret (None, msg)
    | Some name =>
        _ ← reconcileLifecycle pg;
        msg ← reconcileSkipDelete;
        mret (Some name, msg)
    end.

(** Unless it is marked, the object goes, and its bucket when nothing else is in it; the
    answer is whether the object is still there. *)
Definition removeObject (pg : CR) (snap : SnapshotCR) : M SnapshotCR (string * error) bool :=
  let instanceName := annotations_Get (CR_Meta pg) ResourceIdentifierAnnotation in
  let name := snapshotName snap in
  if Snapshot_SkipDelete snap then mret false
  else
    _ ← ok (invoke (Gcp (DeleteObject instanceName name)))
      onError (withMsg ("failed to delete snapshot " +:+ name +:+ " from bucket " +:+
                        instanceName));
    objects ← ok (invoke (Gcp (ListObjects instanceName)))
      onError (withMsg ("failed to list objects from bucket " +:+ instanceName));
    if bool_decide (name ∈ objects) then mret true
    else
      _ ← (if bool_decide (objects = []) then
             ok (invoke (Gcp (DeleteGcsBucket instanceName)))
               onError (withMsg ("failed to delete bucket " +:+ instanceName))
           else mret tt);
      mret false.

Definition deletePostgresSnapshot (pg : CR) : M SnapshotCR (string * error) string :=
  snap ← get;
  let name := snapshotName snap in
  remaining ← removeObject pg snap;
  if remaining : bool then mret ("object " +:+ name +:+ " deletion in progress")
  else
    match RemoveFinalizer (Snapshot_Meta snap) DefaultFinalizer with
    | None => lift out_of_range
    | Some om =>
        _ ← put (setSnapshotMeta snap om);
        updated ← ok (invoke (UpdateSnapshotCR (setSnapshotMeta snap om)))
          onError (wrapBoth "failed to update snapshot as part of finalizer reconcile");
        _ ← put updated;
        mret ("snapshot " +:+ snapshotName updated +:+ " deleted")
    end.

Definition snapshotCredentials (pg : CR) : M SnapshotCR (string * error) Credentials :=
  ReconcileProviderCredentials (PSP_CredentialManager p) (Meta_Namespace (CR_Meta pg))
    onError (wrapBoth ("failed to reconcile gcp provider credentials for postgres instance " +:+
                       Meta_Name (CR_Meta pg))).

Definition CreatePostgresSnapshot (pg : CR)
  : M SnapshotCR (string * error) (option string * string) :=
  _ ← CreateSnapshotFinalizer DefaultFinalizer onError (wrapBoth "failed to set finalizer");
  strategyConfig ← ReadStorageStrategy (PSP_ConfigManager p) "postgres" (Spec_Tier (CR_Spec pg))
    onError (wrapBoth "failed to retrieve postgres strategy config");
  creds ← snapshotCredentials pg;
  _ ← ok (invoke (Gcp (NewClient StorageAPI (Creds_ServiceAccountJson creds))))
    onError (wrapBoth "could not initialise storage client");
  _ ← ok (invoke (Gcp (NewClient SQLAdmin (Creds_ServiceAccountJson creds))))
    onError (wrapBoth "could not initialise sql admin service");
  reconcilePostgresSnapshot pg strategyConfig.

Definition DeletePostgresSnapshot (pg : CR) : M SnapshotCR (string * error) string :=
  creds ← snapshotCredentials pg;
  _ ← ok (invoke (Gcp (NewClient StorageAPI (Creds_ServiceAccountJson creds))))
    onError (wrapBoth "could not initialise storage client");
  deletePostgresSnapshot pg.

(** The provider as the controller of snapshots sees it. *)
Definition gcpPostgresSnapshots : SnapshotResourceProvider := {|
  SRP_GetName := postgresSnapshotProviderName;
  SRP_SupportsStrategy := SupportsStrategy;
  SRP_GetReconcileTime := Snapshot_GetReconcileTime;
  SRP_Create := CreatePostgresSnapshot;
  SRP_Delete := DeletePostgresSnapshot |}.
End Provider.
