(* ===== verification/GcpNetwork.v ===== *)
(** * pkg/providers/gcp: cluster_vpc.go, cluster_network_provider.go, and the
      clients of gcpiface it calls

    The address range, the service connection and the peering that give the managed
    services of Google Cloud an address in the network of the cluster. *)
From S2P Require Import Prelude Effects GoNet NetFacts GoStrings GoUrl Json GcpApi Api Resources.
From S2P Require Import Subnets AwsConfig AwsPostgres GcpConfig.
From Stdlib Require Import Ascii.
Local Open Scope go_scope.

(** ** Constants *)

Definition defaultServiceConnectionName : string := "servicenetworking-googleapis-com".
Definition defaultServiceConnectionURI : string := "servicenetworking.googleapis.com".
Definition defaultIpRangePostfix : string := "ip-range".
Definition defaultIpRangeCIDRMask : Z := 22.
Definition defaultNumberOfExpectedSubnets : nat := 2.
Definition servicesParent : string := "services/" +:+ defaultServiceConnectionURI.
Definition serviceConnection : string :=
  servicesParent +:+ "/connections/" +:+ defaultServiceConnectionName.
Definition networkPath (project network : string) : string :=
  "projects/" +:+ project +:+ "/global/networks/" +:+ network.

Definition StatusNetworkCreateError : string := "failed to create network service".
Definition StatusNetworkIPRangePendingCreation : string := "ip address range is pending creation".
Definition StatusNetworkIPRangeNotExistOrPendingCreation : string :=
  "ip address range does not exist or is pending creation".
Definition StatusNetworkServiceConnectionPendingCreation : string :=
  "service connection is pending creation".

(** ** Pure parts *)

Definition isValidCIDRRange (validateCIDR : IPNet) : bool :=
  let '(mask, _) := Mask_Size (IPNet_Mask validateCIDR) in (mask <=? defaultIpRangeCIDRMask)%Z.

Fixpoint checkSubnets (validateCIDR : IPNet) (subnets : list Subnetwork) : option error :=
  match subnets with
  | [] => None
  | s :: rest =>
      match ParseCIDR (StringValue (Subnetwork_IpCidrRange s)) with
      | Er _ => Some (GoErr "failed to parse cluster subnet into cidr")
      | Ok (_, clusterCIDR) =>
          if Contains clusterCIDR (IPNet_IP validateCIDR)
             || Contains validateCIDR (IPNet_IP clusterCIDR) then
            Some (GoErr ("ip range creation failed: cidr block " +:+ IPNet_String validateCIDR +:+
                         " overlaps with cluster vpc subnet block " +:+ IPNet_String clusterCIDR +:+
                         ", update _network strategy to continue ip range creation"))
          else checkSubnets validateCIDR rest
      end
  end.
Definition validateCidrBlock (validateCIDR : IPNet) (subnets : list Subnetwork) : option error :=
  if negb (isValidCIDRRange validateCIDR) then
    Some (GoErr (IPNet_String validateCIDR +:+
      " is out of range, block sizes must be `/22` or lower, please update `_network` strategy"))
  else checkSubnets validateCIDR subnets.

(** The segments of the path of a subnetwork: the one after "regions" and the one
    after "subnetworks", where the loop ends. *)
Fixpoint scanSegments {E} (path : list string) (region : string) : outcome E (string * string) :=
  match path with
  | [] => Val ("", region)
  | segment :: rest =>
      region ← (if bool_decide (segment = "regions")
                then match rest with next :: _ => Val next | [] => out_of_range end
                else Val region);
      if bool_decide (segment = "subnetworks")
      then match rest with next :: _ => Val (next, region) | [] => out_of_range end
      else scanSegments rest region
  end.
Definition parseSubnetUrl (subnetUrl : string) : outcome error (string * string) :=
  match urlPath subnetUrl with
  | Er err => Err (WrapErr err ("failed to parse subnet url " +:+ subnetUrl))
  | Ok path =>
      match scanSegments (splitChar "/" path) "" with
      | Val (name, region) =>
          if bool_decide (name = "") || bool_decide (region = "")
          then Err (GoErr "failed to retrieve subnetwork name from URL")
          else Val (name, region)
      | o => o
      end
  end.

Definition getPeeringConnection (clusterVpc : Network) : option GcpApi.NetworkPeering :=
  List.find (λ p, bool_decide (StringValue (GPeering_Name p) = defaultServiceConnectionName))
    (Network_Peerings clusterVpc).

(** [errors.As(err, &apierror.APIError)]: an error of HTTP or gRPC. *)
Fixpoint isAPIError (e : error) : bool :=
  match e with
  | GoogleErr _ _ | GrpcErr _ _ => true
  | WrapErr c _ => isAPIError c
  | _ => false
  end.

(** ** Clients (gcpiface) *)

Section Clients.
Context {S : Type}.

(** [networksClient.List]: the networks read when the iterator ended, which any
    error but one of the API does too. *)
Definition networksClient_List (project filter : string) : M S error (list Network) :=
  '(networks, err) ← invoke (Gcp (ListNetworks project filter));
  match (err : option error) with
  | Some e => if isAPIError e then fail e else mret networks
  | None => mret networks
  end.
Definition networksClient_RemovePeering (project network name : string) : M S error unit :=
  _ ← ok (invoke (Gcp (RemovePeering project network name)));
  ok (invoke (Gcp OperationWait)).
Definition addressClient_Insert (project : string) (resource : Address) : M S error unit :=
  _ ← ok (invoke (Gcp (InsertGlobalAddress project resource)));
  ok (invoke (Gcp OperationWait)).
Definition addressClient_Delete (project address : string) : M S error unit :=
  _ ← ok (invoke (Gcp (DeleteGlobalAddress project address)));
  ok (invoke (Gcp OperationWait)).
Definition servicesClient_ConnectionsList (clusterVpc : Network) (projectID parent : string)
  : M S error (list Connection) :=
  ok (invoke (Gcp (ConnectionsList
    (networkPath projectID (StringValue (Network_Name clusterVpc))) parent))).
End Clients.

(** ** The cluster's network (cluster_vpc.go) *)

Definition networkFilter (clusterID : string) : string :=
  "name = " +:+ String "034" (clusterID +:+ "-*" +:+ String "034" EmptyString).

Definition getClusterVpc {S} (projectID : string) : M S error Network :=
  clusterID ← GetClusterID orWrap "error getting clusterID";
  networks ← networksClient_List projectID (networkFilter clusterID)
    orWrap "error getting networks from gcp";
  match networks with
  | [network] =>
      if (length (Network_Subnetworks network) <? defaultNumberOfExpectedSubnets)%nat then
        fail (GoErr ("found cluster vpc has only " +:+
                     itoa (Z.of_nat (length (Network_Subnetworks network))) +:+
                     " subnetworks, expected at least 2"))
      else
        (* the name is read for the log *)
        _ ← deref (Network_Name network);
        mret network
  | _ => fail (GoErr ("cannot determine cluster vpc. matching networks found " +:+
                      itoa (Z.of_nat (length networks))))
  end.

(** ** The network provider *)

(** [NetworkProvider], as far as it is not a client. *)
Record NetworkProvider := { ProjectID : string }.

Section GcpNetwork.
Context {S : Type}.

Definition NewNetworkManager (projectID serviceAccountJson : string) : M S error NetworkProvider :=
  _ ← ok (invoke (Gcp (NewClient NetworksAPI serviceAccountJson)))
    orWrap "Failed to initialise network client";
  _ ← ok (invoke (Gcp (NewClient SubnetsAPI serviceAccountJson)))
    orWrap "Failed to initialise subnetworks client";
  _ ← ok (invoke (Gcp (NewClient ServicesAPI serviceAccountJson)))
    orWrap "Failed to initialise servicenetworking client";
  _ ← ok (invoke (Gcp (NewClient AddressAPI serviceAccountJson)))
    orWrap "Failed to initialise addresses client";
  mret {| ProjectID := projectID |}.

Context (n : NetworkProvider).

(** No address and no error when it is not found. *)
Definition getAddressRange (ipRange : string) : M S error (option Address) :=
  r ← try (ok (invoke (Gcp (GetGlobalAddress ipRange (ProjectID n)))));
  match r with
  | inl address => mret (Some address)
  | inr err => if IsNotFoundError err then mret None
               else fail (WrapErr err "unexpected error getting addresses from gcp")
  end.

Definition getServiceConnection (clusterVpc : Network) : M S error (option Connection) :=
  connections ← servicesClient_ConnectionsList clusterVpc (ProjectID n) servicesParent;
  mret (head connections).

Definition createServiceConnection (clusterVpc : Network) (ipRange : string) : M S error unit :=
  ok (invoke (Gcp (ConnectionsCreate servicesParent
    (networkPath (ProjectID n) (StringValue (Network_Name clusterVpc))) [ipRange]))).

Definition deleteServiceConnection (service : Connection) : M S error unit :=
  done ← ok (invoke (Gcp (ConnectionsDelete serviceConnection (Connection_Network service))));
  if done : bool then mret tt else fail (GoErr "service connection deletion in progress").

(** The address is left to the cloud when the block has none. *)
Definition addressResource (clusterVpc : Network) (name : string) (cidrRange : IPNet) : Address :=
  {| Address_Name := Some name;
     Address_Address := match IPNet_IP cidrRange with
                        | [] => None
                        | ip => Some (IP_String ip)
                        end;
     Address_PrefixLength := Some (Mask_Size (IPNet_Mask cidrRange)).1;
     Address_Status := None;
     Address_Network := Network_SelfLink clusterVpc;
     Address_AddressType := Some "INTERNAL";
     Address_IpVersion := Some "IPV4";
     Address_Purpose := Some "VPC_PEERING" |}.
Definition createAddressRange (clusterVpc : Network) (name : string) (cidrRange : IPNet)
  : M S error unit :=
  addressClient_Insert (ProjectID n) (addressResource clusterVpc name cidrRange).
Definition deleteAddressRange (ipRange : string) : M S error unit :=
  addressClient_Delete (ProjectID n) ipRange.
Definition deletePeeringConnection (clusterVpc : Network) : M S error unit :=
  networksClient_RemovePeering (ProjectID n) (StringValue (Network_Name clusterVpc))
    defaultServiceConnectionName.

Definition getClusterSubnets (clusterVpc : Network) : M S error (list Subnetwork) :=
  foldM (λ subnets url,
      '(name, region) ← lift (parseSubnetUrl url);
      subnet ← ok (invoke (Gcp (GetSubnetwork (ProjectID n) name region)))
        orWrap "failed to retrieve cluster subnet <nil>";
      mret (subnets ++ [subnet]))
    [] (Network_Subnetworks clusterVpc).

Definition createErr (msg : string) (err : error) : string * error :=
  (StatusNetworkCreateError, WrapErr err msg).
Definition ipRangeName : M S error string :=
  BuildInfraName defaultIpRangePostfix defaultGcpIdentifierLength.

Definition CreateNetworkIpRange (cidrRange : IPNet)
  : M S (string * error) (option Address * string) :=
  name ← ipRangeName onError (createErr "failed to build ip address range infra name");
  address ← getAddressRange name onError (createErr "failed to retrieve ip address range");
  match address with
  | Some a => mret (Some a, "")
  | None =>
      clusterVpc ← getClusterVpc (ProjectID n) onError (createErr "failed to get cluster vpc");
      subnets ← getClusterSubnets clusterVpc
        onError (createErr "failed to get cluster subnetworks");
      _ ← (match validateCidrBlock cidrRange subnets with
           | Some err => fail err | None => mret tt end)
        onError (createErr "ip range validation failure");
      _ ← createAddressRange clusterVpc name cidrRange
        onError (createErr "failed to create ip address range");
      mret (None, StatusNetworkIPRangePendingCreation)
  end.

(** What follows when there is no service connection. *)
Definition createMissingService (clusterVpc : Network)
  : M S (string * error) (option Connection * string) :=
  ipRange ← ipRangeName onError (createErr "failed to build ip address range infra name");
  address ← getAddressRange ipRange onError (createErr "failed to retrieve ip address range");
  match address with
  | None => mret (None, StatusNetworkIPRangeNotExistOrPendingCreation)
  | Some a =>
      let status := StringValue (Address_Status a) in
      if bool_decide (status = "RESERVING") then
        mret (None, StatusNetworkIPRangeNotExistOrPendingCreation)
      else if bool_decide (status = "RESERVED") then
        _ ← createServiceConnection clusterVpc ipRange
          onError (createErr "failed to create service connection");
        mret (None, StatusNetworkServiceConnectionPendingCreation)
      else mret (None, "")
  end.
Definition CreateNetworkService : M S (string * error) (option Connection * string) :=
  clusterVpc ← getClusterVpc (ProjectID n) onError (createErr "failed to get cluster vpc");
  service ← getServiceConnection clusterVpc
    onError (createErr "failed to retrieve service connection");
  match service with
  | Some s => mret (Some s, "")
  | None => createMissingService clusterVpc
  end.

Definition DeleteNetworkPeering : M S error unit :=
  clusterVpc ← getClusterVpc (ProjectID n) orWrap "failed to get cluster vpc";
  match getPeeringConnection clusterVpc with
  | Some _ => deletePeeringConnection clusterVpc orWrap "failed to delete peering connection"
  | None => mret tt
  end.

Definition DeleteNetworkService : M S error unit :=
  clusterVpc ← getClusterVpc (ProjectID n) orWrap "failed to get cluster vpc";
  service ← getServiceConnection clusterVpc;
  match service with Some s => deleteServiceConnection s | None => mret tt end.

Definition DeleteNetworkIpRange : M S error unit :=
  ipRange ← ipRangeName orWrap "failed to build ip address range infra name";
  address ← getAddressRange ipRange orWrap "failed to retrieve ip address range";
  match address with
  | None => mret tt
  | Some a =>
      clusterVpc ← getClusterVpc (ProjectID n) orWrap "failed to get cluster vpc";
      service ← getServiceConnection clusterVpc;
      inUse ← (match service with
               | None => mret false
               | Some s => range ← index (Connection_ReservedPeeringRanges s) 0;
                           mret (bool_decide (range = StringValue (Address_Name a)))
               end);
      if inUse : bool then
        fail (GoErr "failed to delete ip address range, service connection still present")
      else deleteAddressRange ipRange orWrap "failed to delete ip address range"
  end.

Definition ComponentsExist : M S error bool :=
  clusterVpc ← getClusterVpc (ProjectID n) orWrap "failed to get cluster vpc";
  ipRange ← ipRangeName orWrap "failed to build ip address range infra name";
  address ← getAddressRange ipRange orWrap "failed to retrieve ip address range";
  match address with
  | Some _ => mret true
  | None =>
      service ← getServiceConnection clusterVpc;
      mret (bool_decide (is_Some service))
  end.

(** [CreateVpcInput] *)
Definition CreateVpcInputFields : list (string * jkind) := [("CidrBlock", KString)].

(** The block of the strategy, or a size without an address. *)
Definition ReconcileNetworkProviderConfig (configManager : ConfigMapConfigManager) (tier : string)
  : M S error IPNet :=
  stratCfg ← ReadStorageStrategy configManager "_network" tier
    orWrap "failed to read _network strategy config";
  members ← liftR (unmarshalStruct CreateVpcInputFields (Strategy_CreateStrategy stratCfg))
    orWrap "failed to unmarshal gcp vpc create config";
  let cidrBlock := default "" (plainString (map fst CreateVpcInputFields) members "CidrBlock") in
  if bool_decide (cidrBlock = "") then
    mret {| IPNet_IP := []; IPNet_Mask := default [] (CIDRMask defaultIpRangeCIDRMask 32) |}
  else
    vpcCidr ← liftR (ParseCIDR cidrBlock)
      orWrap "failed to parse cidr block from _network strategy";
    mret vpcCidr.2.
End GcpNetwork.
