(* ===== verification/GcpRedis.v ===== *)
(** * pkg/providers/gcp: provider_redis.go, provider_blobstorage.go, gcpiface/redis_api.go

    The Memorystore provider: its configuration, what it asks for, creating,
    updating and deleting an instance, and the blob storage provider, which only
    reconciles credentials.  The custom resource is the state of the programs. *)
From S2P Require Import Prelude Effects GoNet GoStrings GoUrl Json GcpApi Api Resources Metrics.
From S2P Require Import AwsConfig AwsPostgres AwsRedis Controllers GcpConfig GcpNetwork.
Local Open Scope go_scope.

(** ** Constants *)

Definition redisMemorySizeGB : Z := 1.
Definition redisProviderName : string := "gcp-memorystore".
Definition redisVersion : string := "REDIS_6_X".
Definition redisInstanceName (project region id : string) : string :=
  "projects/" +:+ project +:+ "/locations/" +:+ region +:+ "/instances/" +:+ id.
Definition redisParent (project region : string) : string :=
  "projects/" +:+ project +:+ "/locations/" +:+ region.

(** The enumerations of the API. *)
Definition Instance_STANDARD_HA : Z := 3.
Definition Instance_READ_REPLICAS_DISABLED : Z := 1.
Definition Instance_PRIVATE_SERVICE_ACCESS : Z := 2.
Definition Instance_READY : Z := 2.
Definition Instance_DELETING : Z := 4.
(** [State.String()] *)
Definition stateString (n : Z) : string :=
  match n with
  | 0 => "STATE_UNSPECIFIED" | 1 => "CREATING" | 2 => "READY" | 3 => "UPDATING"
  | 4 => "DELETING" | 5 => "REPAIRING" | 6 => "MAINTENANCE" | 8 => "IMPORTING"
  | 9 => "FAILING_OVER" | n => itoa n
  end%Z.
Definition healthyRedisInstanceStates : list string :=
  ["CREATING"; "READY"; "UPDATING"; "DELETING"].

(** The conversion [int32(n)] *)
Definition wrap32 (n : Z) : Z := ((n + 2 ^ 31) mod 2 ^ 32 - 2 ^ 31)%Z.

(** ** Building requests *)

Definition orString (x def : string) : string := if bool_decide (x = "") then def else x.
Definition orZero (x def : Z) : Z := if bool_decide (x = 0)%Z then def else x.
(** The instance of the strategy completed by the default one, and labelled with
    the tags. *)
Definition completeInstance (tags : gmap string string) (def i : RedisInstance) : RedisInstance := {|
  RI_Name := orString (RI_Name i) (RI_Name def);
  RI_Labels := Some (tags ∪ default ∅ (RI_Labels i));
  RI_Tier := orZero (RI_Tier i) (RI_Tier def);
  RI_ReadReplicasMode := orZero (RI_ReadReplicasMode i) (RI_ReadReplicasMode def);
  RI_MemorySizeGb := orZero (RI_MemorySizeGb i) (RI_MemorySizeGb def);
  RI_AuthorizedNetwork := orString (RI_AuthorizedNetwork i) (RI_AuthorizedNetwork def);
  RI_ConnectMode := orZero (RI_ConnectMode i) (RI_ConnectMode def);
  RI_ReservedIpRange := orString (RI_ReservedIpRange i) (RI_ReservedIpRange def);
  RI_RedisVersion := orString (RI_RedisVersion i) (RI_RedisVersion def);
  RI_RedisConfigs := RI_RedisConfigs i;
  RI_MaintenancePolicy := RI_MaintenancePolicy i;
  RI_State := RI_State i; RI_Host := RI_Host i; RI_Port := RI_Port i; RI_Other := RI_Other i |}.

(** The instance when the strategy has none. *)
Definition defaultInstance (name network range : string) (size : Z) (tags : gmap string string)
  : RedisInstance := {|
  RI_Name := name; RI_Labels := Some tags; RI_Tier := Instance_STANDARD_HA;
  RI_ReadReplicasMode := Instance_READ_REPLICAS_DISABLED; RI_MemorySizeGb := size;
  RI_AuthorizedNetwork := network; RI_ConnectMode := Instance_PRIVATE_SERVICE_ACCESS;
  RI_ReservedIpRange := range; RI_RedisVersion := redisVersion; RI_RedisConfigs := None;
  RI_MaintenancePolicy := None; RI_State := 0; RI_Host := ""; RI_Port := 0; RI_Other := [] |}.

(** The size of the custom resource, in an [int32]. *)
Definition specSize (size : string) : result Z :=
  if bool_decide (size = "") then Ok redisMemorySizeGB
  else match ParseInt64 size with
       | Some n => Ok (wrap32 n)
       | None => Er (GoErr "strconv.ParseInt: invalid syntax")
       end.

(** Windows without their output-only duration; a nil window is dereferenced. *)
Fixpoint clearDurations {E} (ws : list (option WeeklyMaintenanceWindow))
  : outcome E (list (option WeeklyMaintenanceWindow)) :=
  match ws with
  | [] => Val []
  | None :: _ => nil_deref
  | Some w :: ws' =>
      r ← clearDurations ws';
      Val (Some {| WMW_Day := WMW_Day w; WMW_StartTime := WMW_StartTime w;
                   WMW_Duration := None |} :: r)
  end.
Definition clearPolicy {E} (p : MaintenancePolicy) : outcome E MaintenancePolicy :=
  match MP_WeeklyMaintenanceWindow p with
  | None => Val p
  | Some ws => ws' ← clearDurations ws;
               Val {| MP_WeeklyMaintenanceWindow := Some ws'; MP_Other := MP_Other p |}
  end.

Section Requests.
Context `{GcpTypes}.

(** Whether the policies differ, and the second one as the comparison leaves it. *)
Definition isMaintenancePolicyOutdated {E} (a b : option MaintenancePolicy)
  : outcome E (bool * option MaintenancePolicy) :=
  match a, b with
  | None, None => Val (false, None)
  | Some a, Some b =>
      a' ← clearPolicy a;
      b' ← clearPolicy b;
      Val (negb (windowsDeepEqual (MP_WeeklyMaintenanceWindow a') (MP_WeeklyMaintenanceWindow b')),
           Some b')
  | _, b => Val (true, b)
  end.

(** The fields that change, and their names. *)
Definition buildUpdateInstanceRequest {E} (instanceConfig instance : RedisInstance)
  : outcome E (option (RedisInstance * list string)) :=
  let size := bool_decide (RI_MemorySizeGb instance ≠ RI_MemorySizeGb instanceConfig) in
  let labels := bool_decide (RI_Labels instance ≠ RI_Labels instanceConfig) in
  let configs := bool_decide (RI_RedisConfigs instance ≠ RI_RedisConfigs instanceConfig) in
  '(policy, policy') ← isMaintenancePolicyOutdated (RI_MaintenancePolicy instance)
                         (RI_MaintenancePolicy instanceConfig);
  let mask := (if size then ["memory_size_gb"] else []) ++ (if labels then ["labels"] else []) ++
              (if configs then ["redis_configs"] else []) ++
              (if policy : bool then ["maintenance_policy"] else []) in
  Val (match mask with
       | [] => None
       | _ => Some ({|
           RI_Name := RI_Name instance;
           RI_Labels := if labels then RI_Labels instanceConfig else None;
           RI_Tier := 0; RI_ReadReplicasMode := 0;
           RI_MemorySizeGb := if size then RI_MemorySizeGb instanceConfig else 0;
           RI_AuthorizedNetwork := ""; RI_ConnectMode := 0; RI_ReservedIpRange := "";
           RI_RedisVersion := "";
           RI_RedisConfigs := if configs then RI_RedisConfigs instanceConfig else None;
           RI_MaintenancePolicy := if policy then policy' else None;
           RI_State := 0; RI_Host := ""; RI_Port := 0; RI_Other := [] |}, mask)
       end).

Definition buildUpgradeInstanceRequest (instanceConfig instance : RedisInstance)
  : option (string * string) :=
  if bool_decide (RI_RedisVersion instance ≠ RI_RedisVersion instanceConfig)
  then Some (RI_Name instance, RI_RedisVersion instanceConfig) else None.

Definition buildCreateInstanceRequest {S} (r : CR) (strategyConfig : StrategyConfig)
    (address : option Address) : M S error CreateRedisInstanceRequest :=
  req ← liftR (match Strategy_CreateStrategy strategyConfig with
               | None => Er (GoErr "unexpected end of JSON input")
               | Some raw => decodeCreateRedisInstanceRequest raw
               end) orWrap "failed to unmarshal gcp redis create strategy";
  let parent := orString (CRI_Parent req)
    (redisParent (Strategy_ProjectID strategyConfig) (Strategy_Region strategyConfig)) in
  id ← (if bool_decide (CRI_InstanceId req = "")
        then BuildInfraNameFromObject (CR_Meta r) defaultGcpIdentifierLength
               orWrap "failed to build gcp redis instance id from object"
        else mret (CRI_InstanceId req));
  tags ← buildDefaultRedisTags r orWrap "failed to build gcp redis instance tags";
  network ← lift (match splitSecond "v1/" (StringValue (address ≫= Address_Network)) with
                  | Some network => Val network | None => out_of_range end);
  size ← liftR (specSize (Spec_Size (CR_Spec r))) orWrap "failed to parse redis spec size";
  let def := defaultInstance
    (redisInstanceName (Strategy_ProjectID strategyConfig) (Strategy_Region strategyConfig) id)
    network (StringValue (address ≫= Address_Name)) size tags in
  mret {| CRI_Parent := parent; CRI_InstanceId := id;
          CRI_Instance := Some (match CRI_Instance req with
                                | None => def
                                | Some i => completeInstance tags def i
                                end) |}.
End Requests.

(** [redispb.DeleteInstanceRequest] *)
Definition DeleteInstanceRequestFields : list (string * jkind) := [("name", KString)].
(** The name of the instance to delete. *)
Definition buildDeleteInstanceRequest (r : CR) (strategyConfig : StrategyConfig) : result string :=
  match unmarshalStruct DeleteInstanceRequestFields (Strategy_DeleteStrategy strategyConfig) with
  | Er err => Er (WrapErr err "failed to unmarshal gcp redis delete strategy")
  | Ok members =>
      let name := default "" (plainString (map fst DeleteInstanceRequestFields) members "name") in
      if bool_decide (name = "") then
        let resourceID := annotations_Get (CR_Meta r) ResourceIdentifierAnnotation in
        if bool_decide (resourceID = "")
        then Er (GoErr "failed to find gcp redis instance name from annotations")
        else Ok (redisInstanceName (Strategy_ProjectID strategyConfig)
                   (Strategy_Region strategyConfig) resourceID)
      else Ok name
  end.

(** ** Metrics *)

Section Metrics.
Context {S : Type}.

Definition exposeRedisInstanceMetrics {E} (r : CR) (instance : option RedisInstance) : M S E unit :=
  match instance with
  | None => mret tt
  | Some i =>
      let instanceName := annotations_Get (CR_Meta r) ResourceIdentifierAnnotation in
      c ← try GetClusterID;
      match c with
      | inr _ => mret tt
      | inl clusterID =>
          let genericLabels := BuildGenericMetricLabels (CR_Meta r) clusterID instanceName
                                 redisProviderName in
          let instanceState := stateString (RI_State i) in
          _ ← invoke (SetMetricCurrentTime "cro_redis_info"
                (BuildInfoMetricLabels (CR_Meta r) instanceState clusterID instanceName
                   redisProviderName));
          _ ← forM statusPhases (λ phase,
            invoke (SetMetric "cro_redis_status_phase"
              (BuildStatusMetricsLabels (CR_Meta r) clusterID instanceName redisProviderName phase)
              (Btof64 (bool_decide (Status_Phase (CR_Status r) = phase)))));
          let healthy := Contains_ healthyRedisInstanceStates instanceState in
          connectable ← (if healthy then invoke (TCPConnection (RI_Host i) (RI_Port i))
                         else mret false);
          _ ← invoke (SetMetric "cro_redis_available" genericLabels (Btof64 healthy));
          invoke (SetMetric "cro_redis_connection" genericLabels (Btof64 connectable))
      end
  end.

Definition setRedisDeletionTimestampMetric {E} (r : CR) : M S E unit :=
  match Meta_DeletionTimestamp (CR_Meta r) with
  | Some t =>
      let instanceName := annotations_Get (CR_Meta r) ResourceIdentifierAnnotation in
      if bool_decide (t = zeroTime) || bool_decide (instanceName = "") then mret tt
      else
        c ← try GetClusterID;
        match c with
        | inr _ => mret tt
        | inl clusterID =>
            invoke (SetMetric "cro_redis_deletion_timestamp"
              (BuildStatusMetricsLabels (CR_Meta r) clusterID instanceName redisProviderName
                 (Status_Phase (CR_Status r))) t)
        end
  | None => mret tt
  end.
End Metrics.

(** ** The provider *)

Record RedisProvider := {
  R_CredentialManager : CredentialManager;
  R_ConfigManager : ConfigMapConfigManager
}.
Definition NewGCPRedisProvider (DefaultConfigMapNamespace : string) : RedisProvider :=
  {| R_CredentialManager := NewCredentialMinterCredentialManager;
     R_ConfigManager := NewDefaultConfigManager DefaultConfigMapNamespace |}.
Definition Redis_SupportsStrategy (d : string) : bool := bool_decide (d = "gcp").
Definition Redis_GetReconcileTime {S E} (r : CR) : M S E Z :=
  if bool_decide (Status_Phase (CR_Status r) ≠ PhaseComplete) then mret (60 * second)%Z
  else GetForcedReconcileTimeOrDefault defaultReconcileTime.

(** The instance, or nothing when it is not found. *)
Definition getInstance {S} (msg name : string) : M S (string * error) (option RedisInstance) :=
  found ← try (ok (invoke (Gcp (GetRedisInstance name))));
  match found with
  | inl i => mret (Some i)
  | inr err => if IsNotFoundError err then mret None
               else fail (wrapBoth (msg +:+ name) err)
  end.

(** The annotation is set on the object before the update. *)
Definition annotate (id : string) (r : CR) : CR :=
  setMeta r (annotations_Add (CR_Meta r) ResourceIdentifierAnnotation id).
Definition annotateFound (id : string) : M CR (string * error) unit :=
  r ← get;
  if annotations_Has (CR_Meta r) ResourceIdentifierAnnotation then mret tt
  else
    _ ← put (annotate id r);
    updated ← ok (invoke (UpdateCR (annotate id r)))
      onError (wrapBoth "failed to add annotation to redis cr");
    put updated.
(** [controllerutil.CreateOrUpdate] reads the object over the one at hand. *)
Definition annotateCreated (id : string) : M CR (string * error) unit :=
  (r ← get;
   got ← try (ok (invoke (GetCR (CR_kind r) (Meta_Name (CR_Meta r)) (Meta_Namespace (CR_Meta r)))));
   match got with
   | inr err =>
       if IsNotFound err then
         _ ← put (annotate id r);
         created ← ok (invoke (CreateCR (annotate id r)));
         put created
       else fail err
   | inl existing =>
       _ ← put (annotate id existing);
       if bool_decide (annotate id existing = existing) then mret tt
       else
         updated ← ok (invoke (UpdateCR (annotate id existing)));
         put updated
   end) onError (wrapBoth "failed to add annotation to redis cr").

Section Reconcile.
Context `{GcpTypes} (p : RedisProvider) (n : GcpNetwork.NetworkProvider).

(** The branch for an instance that is there and ready. *)
Definition reconcileReadyInstance (config found : RedisInstance)
  : M CR (string * error) (option RedisDeploymentDetails * string) :=
  update ← lift (buildUpdateInstanceRequest config found);
  _ ← (match update with
       | Some (instance, mask) =>
           ok (invoke (Gcp (UpdateRedisInstance instance mask)))
             onError (wrapBoth ("failed to update gcp redis instance " +:+ RI_Name config))
       | None => mret tt
       end);
  _ ← (match buildUpgradeInstanceRequest config found with
       | Some (name, version) =>
           ok (invoke (Gcp (UpgradeRedisInstance name version)))
             onError (wrapBoth ("failed to upgrade gcp redis instance " +:+ RI_Name config))
       | None => mret tt
       end);
  mret (Some {| RDD_URI := RI_Host found; RDD_Port := RI_Port found |},
        "successfully reconciled gcp redis instance " +:+ RI_Name config).

(** What follows the request for the instance. *)
Definition reconcileInstance (req : CreateRedisInstanceRequest) (config : RedisInstance)
    (foundInstance : option RedisInstance)
  : M CR (string * error) (option RedisDeploymentDetails * string) :=
  match foundInstance with
  | Some found =>
      _ ← annotateFound (CRI_InstanceId req);
      r ← get;
      _ ← (if bool_decide (RI_RedisVersion found ≠ "") &&
              bool_decide (Status_Version (CR_Status r) ≠ RI_RedisVersion found)
           then put (setVersion (RI_RedisVersion found) r) else mret tt);
      if bool_decide (RI_State found ≠ Instance_READY) then
        mret (None, "gcp redis instance " +:+ RI_Name config +:+
                    " is not ready yet, current state is " +:+ stateString (RI_State found))
      else reconcileReadyInstance config found
  | None =>
      _ ← ok (invoke (Gcp (CreateRedisInstance req)))
        onError (wrapBoth ("failed to create gcp redis instance " +:+ RI_Name config));
      _ ← annotateCreated (CRI_InstanceId req);
      mret (None, "started creation of gcp redis instance " +:+ RI_Name config)
  end.

(** The network is ready: there is an address range, and the service connection
    was not asked for just now. *)
Definition ensureInstance (strategyConfig : StrategyConfig) (address : option Address)
  : M CR (string * error) (option RedisDeploymentDetails * string) :=
  r ← get;
  req ← buildCreateInstanceRequest r strategyConfig address
    onError (wrapBoth "failed to build gcp create redis instance request");
  config ← deref (CRI_Instance req);
  foundInstance ← getInstance "failed to fetch gcp redis instance " (RI_Name config);
  defer (r ← get; exposeRedisInstanceMetrics (E := error) r foundInstance)
    (reconcileInstance req config foundInstance).

Definition createRedisInstance (strategyConfig : StrategyConfig)
  : M CR (string * error) (option RedisDeploymentDetails * string) :=
  r ← get;
  ipRangeCidr ← ReconcileNetworkProviderConfig (R_ConfigManager p) (Spec_Tier (CR_Spec r))
    onError (wrapBoth "failed to reconcile network provider config");
  '(address, msg) ← CreateNetworkIpRange n ipRangeCidr;
  if bool_decide (msg ≠ "") then mret (None, msg)
  else
    '(_, msg) ← CreateNetworkService n;
    if bool_decide (msg ≠ "") then mret (None, msg)
    else ensureInstance strategyConfig address.

(** The network components go in order after the last resource. *)
Definition deleteLastComponents : M CR (string * error) (option string) :=
  _ ← DeleteNetworkPeering n onError (wrapBoth "failed to delete cluster network peering");
  _ ← DeleteNetworkService n onError (wrapBoth "failed to delete network service");
  _ ← DeleteNetworkIpRange n onError (wrapBoth "failed to delete network ip range");
  exist ← ComponentsExist n onError (wrapBoth "failed to check if components exist");
  mret (if exist : bool then Some "network component deletion in progress" else None).

Definition deleteRedisInstance (strategyConfig : StrategyConfig) (isLastResource : bool)
  : M CR (string * error) string :=
  r ← get;
  name ← liftR (buildDeleteInstanceRequest r strategyConfig)
    onError (wrapBoth "failed to build delete gcp redis instance request");
  foundInstance ← getInstance "failed to fetch gcp redis instance " name;
  match foundInstance with
  | Some found =>
      _ ← exposeRedisInstanceMetrics r (Some found);
      if bool_decide (RI_State found = Instance_DELETING) then
        mret ("deletion in progress for gcp redis instance " +:+ name)
      else
        _ ← ok (invoke (Gcp (DeleteRedisInstance name)))
          onError (wrapBoth ("failed to delete gcp redis instance " +:+ name));
        mret ("delete detected, gcp redis instance " +:+ name +:+ " deletion started")
  | None =>
      remaining ← (if isLastResource then deleteLastComponents else mret None);
      match remaining with
      | Some msg => mret msg
      | None =>
          _ ← dropFinalizer ("failed to update instance " +:+ Meta_Name (CR_Meta r) +:+
                             " as part of finalizer reconcile");
          mret ("successfully deleted gcp redis instance " +:+ name)
      end
  end.
End Reconcile.

Section Provider.
Context `{GcpTypes} (p : RedisProvider).

Definition credentialsErr (r : CR) : error → string * error :=
  wrapBoth ("failed to reconcile gcp redis provider credentials for redis instance " +:+
            Meta_Name (CR_Meta r)).

Definition CreateRedis : M CR (string * error) (option RedisDeploymentDetails * string) :=
  r ← get;
  strategyConfig ← ReadStorageStrategy (R_ConfigManager p) "redis" (Spec_Tier (CR_Spec r))
    onError (wrapBoth "failed to retrieve redis strategy config");
  _ ← CreateFinalizer DefaultFinalizer onError (wrapBoth "failed to set finalizer");
  r ← get;
  creds ← ReconcileProviderCredentials (R_CredentialManager p) (Meta_Namespace (CR_Meta r))
    onError (credentialsErr r);
  networkManager ← NewNetworkManager (Strategy_ProjectID strategyConfig)
                     (Creds_ServiceAccountJson creds)
    onError (wrapBoth "failed to initialise network manager");
  _ ← ok (invoke (Gcp (NewClient RedisAPI (Creds_ServiceAccountJson creds))))
    onError (wrapBoth "could not initialise redis client");
  createRedisInstance p networkManager strategyConfig.

Definition DeleteRedis : M CR (string * error) string :=
  r ← get;
  _ ← setRedisDeletionTimestampMetric r;
  strategyConfig ← ReadStorageStrategy (R_ConfigManager p) "redis" (Spec_Tier (CR_Spec r))
    onError (wrapBoth "failed to retrieve redis strategy config");
  creds ← ReconcileProviderCredentials (R_CredentialManager p) (Meta_Namespace (CR_Meta r))
    onError (credentialsErr r);
  isLastResource ← IsLastResource
    onError (wrapBoth "failed to check if this cr is the last cr of type postgres and redis");
  networkManager ← NewNetworkManager (Strategy_ProjectID strategyConfig)
                     (Creds_ServiceAccountJson creds)
    onError (wrapBoth "failed to initialise network manager");
  _ ← ok (invoke (Gcp (NewClient RedisAPI (Creds_ServiceAccountJson creds))))
    onError (wrapBoth "could not initialise redis client");
  deleteRedisInstance networkManager strategyConfig isLastResource.

(** The provider as the controller sees it. *)
Definition gcpRedis : ResourceProvider := {|
  RP_GetName := redisProviderName;
  RP_SupportsStrategy := Redis_SupportsStrategy;
  RP_GetReconcileTime := Redis_GetReconcileTime;
  RP_Create := r ← CreateRedis; mret (RedisData <$> r.1, r.2);
  RP_Delete := DeleteRedis |}.
End Provider.

(** ** Blob storage (provider_blobstorage.go) *)

Definition blobstorageProviderName : string := "gcp-storage".
Record BlobStorageProvider := { B_CredentialManager : CredentialManager }.
Definition NewGCPBlobStorageProvider : BlobStorageProvider :=
  {| B_CredentialManager := NewCredentialMinterCredentialManager |}.
Definition Blob_SupportsStrategy (d : string) : bool := bool_decide (d = "gcp").
Definition Blob_GetReconcileTime {S E} (bs : CR) : M S E Z :=
  if bool_decide (Status_Phase (CR_Status bs) ≠ PhaseComplete) then mret (60 * second)%Z
  else GetForcedReconcileTimeOrDefault defaultReconcileTime.

Section BlobStorage.
Context `{GcpTypes} (p : BlobStorageProvider).
Definition blobStorageCredentials : M CR (string * error) unit :=
  bs ← get;
  _ ← ReconcileProviderCredentials (B_CredentialManager p) (Meta_Namespace (CR_Meta bs))
    onError (wrapBoth ("failed to reconcile gcp blob storage provider credentials for blob "
                       +:+ "storage instance " +:+ Meta_Name (CR_Meta bs)));
  mret tt.
Definition CreateStorage : M CR (string * error) (option (gmap string string) * string) :=
  _ ← blobStorageCredentials; mret (None, "").
Definition DeleteStorage : M CR (string * error) string :=
  _ ← blobStorageCredentials; mret "".
Definition gcpBlobStorage : ResourceProvider := {|
  RP_GetName := blobstorageProviderName;
  RP_SupportsStrategy := Blob_SupportsStrategy;
  RP_GetReconcileTime := Blob_GetReconcileTime;
  RP_Create := CreateStorage;
  RP_Delete := DeleteStorage |}.
End BlobStorage.
