(* ===== verification/GcpPostgres.v ===== *)
(** * pkg/providers/gcp: provider_postgres.go, gcpiface/sqladmin_api.go

    The Cloud SQL provider: what it asks for, the update of an instance, creating,
    updating and deleting it, the schedule of its snapshots.  The custom resource is the
    state of the programs. *)
From S2P Require Import Prelude Effects GoNet GoStrings GoSort Json GcpApi Api Resources Metrics.
From S2P Require Import AwsConfig AwsPostgres Controllers Snapshots.
From S2P Require Import GcpConfig GcpSql GcpSnapshots GcpNetwork GcpRedis.
Local Open Scope go_scope.

(** ** Constants *)

Definition defaultCredSecSuffix : string := "-gcp-sql-credentials".
Definition defaultGCPCLoudSQLDatabaseVersion : string := "POSTGRES_13".
Definition defaultGCPPostgresUser : string := "postgres".
Definition defaultPostgresPasswordKey : string := "password".
Definition defaultPostgresUserKey : string := "user".
Definition defaultTier : string := "db-custom-2-3840".
Definition defaultAvailabilityType : string := "REGIONAL".
Definition defaultStorageAutoResizeLimit : Z := 100.
Definition defaultBackupConfigEnabled : bool := true.
Definition defaultPointInTimeRecoveryEnabled : bool := true.
Definition defaultRetentionUnit : string := "COUNT".
Definition defaultRetainedBackups : Z := 30.
Definition defaultDataDiskSizeGb : Z := 20.
Definition defaultDeleteProtectionEnabled : bool := true.
Definition defaultIPConfigIPV4Enabled : bool := false.
Definition defaultGCPPostgresPort : Z := 5432.
Definition defaultDeploymentDatabase : string := "postgres".
Definition healthyPostgresInstanceStates : list string :=
  ["PENDING_CREATE"; "RUNNABLE"; "PENDING_DELETE"].

(** ** The configuration *)

Definition orSome {A} (p : option A) (def : A) : option A := Some (default def p).
Definition completeRetention (r : BackupRetentionSettings) : BackupRetentionSettings :=
  {| BRS_RetentionUnit := orString (BRS_RetentionUnit r) defaultRetentionUnit;
     BRS_RetainedBackups := orZero (BRS_RetainedBackups r) defaultRetainedBackups |}.
Definition completeBackup (b : BackupConfiguration) : BackupConfiguration :=
  {| BC_BackupRetentionSettings := Some (completeRetention
       (default {| BRS_RetentionUnit := ""; BRS_RetainedBackups := 0 |}
          (BC_BackupRetentionSettings b)));
     BC_BinaryLogEnabled := BC_BinaryLogEnabled b;
     BC_Enabled := orSome (BC_Enabled b) defaultBackupConfigEnabled;
     BC_Kind := BC_Kind b; BC_Location := BC_Location b;
     BC_PointInTimeRecoveryEnabled :=
       orSome (BC_PointInTimeRecoveryEnabled b) defaultPointInTimeRecoveryEnabled;
     BC_ReplicationLogArchivingEnabled := BC_ReplicationLogArchivingEnabled b;
     BC_StartTime := BC_StartTime b;
     BC_TransactionLogRetentionDays := BC_TransactionLogRetentionDays b |}.
Definition completeIpConfiguration (address : option Address) (i : IpConfiguration)
  : IpConfiguration :=
  {| IC_AllocatedIpRange := orString (IC_AllocatedIpRange i)
                              (StringValue (address ≫= Address_Name));
     IC_AuthorizedNetworks := IC_AuthorizedNetworks i;
     IC_Ipv4Enabled := orSome (IC_Ipv4Enabled i) defaultIPConfigIPV4Enabled;
     IC_PrivateNetwork := orString (IC_PrivateNetwork i)
                            (StringValue (address ≫= Address_Network));
     IC_RequireSsl := IC_RequireSsl i |}.
Definition emptyBackup : BackupConfiguration :=
  {| BC_BackupRetentionSettings := None; BC_BinaryLogEnabled := None; BC_Enabled := None;
     BC_Kind := ""; BC_Location := ""; BC_PointInTimeRecoveryEnabled := None;
     BC_ReplicationLogArchivingEnabled := None; BC_StartTime := "";
     BC_TransactionLogRetentionDays := 0 |}.
Definition emptyIpConfiguration : IpConfiguration :=
  {| IC_AllocatedIpRange := ""; IC_AuthorizedNetworks := None; IC_Ipv4Enabled := None;
     IC_PrivateNetwork := ""; IC_RequireSsl := None |}.
(** The settings when the strategy has none. *)
Definition emptySettings : Settings := decodeSettings [].
Definition completeSettings (tags : gmap string string) (address : option Address) (s : Settings)
  : Settings :=
  {| ST_ActivationPolicy := ST_ActivationPolicy s;
     ST_AvailabilityType := orString (ST_AvailabilityType s) defaultAvailabilityType;
     ST_BackupConfiguration :=
       Some (completeBackup (default emptyBackup (ST_BackupConfiguration s)));
     ST_Collation := ST_Collation s;
     ST_ConnectorEnforcement := ST_ConnectorEnforcement s;
     ST_CrashSafeReplicationEnabled := ST_CrashSafeReplicationEnabled s;
     ST_DataDiskSizeGb := orZero (ST_DataDiskSizeGb s) defaultDataDiskSizeGb;
     ST_DataDiskType := ST_DataDiskType s;
     ST_DatabaseFlags := ST_DatabaseFlags s;
     ST_DatabaseReplicationEnabled := ST_DatabaseReplicationEnabled s;
     ST_DeletionProtectionEnabled :=
       orSome (ST_DeletionProtectionEnabled s) defaultDeleteProtectionEnabled;
     ST_DenyMaintenancePeriods := ST_DenyMaintenancePeriods s;
     ST_InsightsConfig := ST_InsightsConfig s;
     ST_IpConfiguration := Some (completeIpConfiguration address
                             (default emptyIpConfiguration (ST_IpConfiguration s)));
     ST_Kind := ST_Kind s;
     ST_LocationPreference := ST_LocationPreference s;
     ST_MaintenanceWindow := ST_MaintenanceWindow s;
     ST_PasswordValidationPolicy := ST_PasswordValidationPolicy s;
     ST_PricingPlan := ST_PricingPlan s;
     ST_ReplicationType := ST_ReplicationType s;
     ST_SettingsVersion := ST_SettingsVersion s;
     ST_StorageAutoResize := ST_StorageAutoResize s;
     ST_StorageAutoResizeLimit := orZero (ST_StorageAutoResizeLimit s) defaultStorageAutoResizeLimit;
     ST_Tier := orString (ST_Tier s) defaultTier;
     ST_UserLabels := Some (tags ∪ default ∅ (ST_UserLabels s)) |}.
Definition completeDatabaseInstance (id region password : string) (settings : Settings)
    (i : DatabaseInstance) : DatabaseInstance :=
  {| DBI_ConnectionName := DBI_ConnectionName i;
     DBI_DatabaseVersion := orString (DBI_DatabaseVersion i) defaultGCPCLoudSQLDatabaseVersion;
     DBI_DiskEncryptionConfiguration := DBI_DiskEncryptionConfiguration i;
     DBI_FailoverReplica := DBI_FailoverReplica i;
     DBI_GceZone := DBI_GceZone i;
     DBI_InstanceType := DBI_InstanceType i;
     DBI_IpAddresses := DBI_IpAddresses i;
     DBI_Kind := DBI_Kind i;
     DBI_MaintenanceVersion := DBI_MaintenanceVersion i;
     DBI_MasterInstanceName := DBI_MasterInstanceName i;
     DBI_MaxDiskSize := DBI_MaxDiskSize i;
     DBI_Name := id;
     DBI_Project := DBI_Project i;
     DBI_Region := orString (DBI_Region i) region;
     DBI_ReplicaNames := DBI_ReplicaNames i;
     DBI_RootPassword := orString (DBI_RootPassword i) password;
     DBI_SecondaryGceZone := DBI_SecondaryGceZone i;
     DBI_SelfLink := DBI_SelfLink i;
     DBI_ServerCaCert := DBI_ServerCaCert i;
     DBI_Settings := Some settings |}.

(** The create strategy: a text that is null leaves no request to read the instance
    of, an instance that is null is read through a nil pointer. *)
Definition unmarshalCreateInstanceRequest (raw : option json) : outcome error DatabaseInstance :=
  match raw with
  | None => Err (GoErr "unexpected end of JSON input")
  | Some JNull => nil_deref
  | Some v =>
      match unmarshalStruct CreateInstanceRequestFields (Some v) with
      | Er e => Err e
      | Ok members => load (decodeCreateInstanceRequest (Some []) members)
      end
  end.

Definition buildCloudSQLCreateStrategy {S} (pg : CR) (strategyConfig : StrategyConfig)
    (sec : Secret) (address : option Address) : M S error DatabaseInstance :=
  instance ← lift (unmarshalCreateInstanceRequest (Strategy_CreateStrategy strategyConfig))
    orWrap "failed to unmarshal gcp postgres create request";
  id ← (if bool_decide (DBI_Name instance = "")
        then BuildInfraNameFromObject (CR_Meta pg) defaultGcpIdentifierLength
               orWrap "failed to build gcp postgres instance id from object"
        else mret (DBI_Name instance));
  tags ← buildDefaultPostgresTags pg orWrap "failed to build gcp postgres instance tags";
  mret (completeDatabaseInstance id (Strategy_Region strategyConfig)
          (secretData sec defaultPostgresPasswordKey)
          (completeSettings tags address (default emptySettings (DBI_Settings instance)))
          instance).

Definition buildCloudSQLDeleteStrategy `{GcpTypes} {S} (pg : CR) (strategyConfig : StrategyConfig)
  : M S error string :=
  deleteStrategy ← liftR (match Strategy_DeleteStrategy strategyConfig with
                          | None => Er (GoErr "unexpected end of JSON input")
                          | Some raw => decodeSqlInstance raw
                          end) orWrap "failed to unmarshal gcp postgres delete request";
  if bool_decide (SI_Name deleteStrategy = "")
  then BuildInfraNameFromObject (CR_Meta pg) defaultGcpIdentifierLength
         orWrap "failed to build gcp postgres instance id from object"
  else mret (SI_Name deleteStrategy).

(** ** The update

    A flag that is asked for and differs; each part of the message with whether it
    changes anything. *)
Definition differs {A} `{EqDecision A} (c : option A) (f : A) : bool :=
  match c with Some v => bool_decide (v ≠ f) | None => false end.
Definition set {A} (changed : bool) (v zero : A) : A := if changed then v else zero.

Definition updateRetention (c f : BackupRetentionSettings) : BackupRetentionSettings * bool :=
  let unit := bool_decide (BRS_RetentionUnit c ≠ BRS_RetentionUnit f) in
  let count := bool_decide (BRS_RetainedBackups c ≠ BRS_RetainedBackups f) in
  ({| BRS_RetentionUnit := set unit (BRS_RetentionUnit c) "";
      BRS_RetainedBackups := set count (BRS_RetainedBackups c) 0%Z |}, unit || count).
Definition updateBackup (c : BackupConfiguration) (f : SqlBackupConfiguration)
  : SqlBackupConfiguration * bool :=
  let enabled := differs (BC_Enabled c) (SBC_Enabled f) in
  let recovery := differs (BC_PointInTimeRecoveryEnabled c) (SBC_PointInTimeRecoveryEnabled f) in
  let retention := match BC_BackupRetentionSettings c, SBC_BackupRetentionSettings f with
                   | Some cr, Some fr => Some (updateRetention cr fr)
                   | _, _ => None
                   end in
  ({| SBC_BackupRetentionSettings := fst <$> retention;
      SBC_BinaryLogEnabled := false;
      SBC_Enabled := set enabled (flag (BC_Enabled c)) false;
      SBC_Kind := ""; SBC_Location := "";
      SBC_PointInTimeRecoveryEnabled := set recovery (flag (BC_PointInTimeRecoveryEnabled c)) false;
      SBC_ReplicationLogArchivingEnabled := false; SBC_StartTime := "";
      SBC_TransactionLogRetentionDays := 0;
      SBC_ForceSendFields := (if enabled then ["Enabled"] else []) ++
                             (if recovery then ["PointInTimeRecoveryEnabled"] else []) |},
   enabled || recovery || default false (snd <$> retention)).
Definition updateIpConfiguration (c : IpConfiguration) (f : SqlIpConfiguration)
  : SqlIpConfiguration * bool :=
  let ipv4 := differs (IC_Ipv4Enabled c) (SIC_Ipv4Enabled f) in
  ({| SIC_AllocatedIpRange := ""; SIC_AuthorizedNetworks := None;
      SIC_Ipv4Enabled := set ipv4 (flag (IC_Ipv4Enabled c)) false;
      SIC_PrivateNetwork := ""; SIC_RequireSsl := false;
      SIC_ForceSendFields := if ipv4 then ["Ipv4Enabled"] else [] |}, ipv4).
Definition updateMaintenanceWindow (c : MaintenanceWindow) (f : SqlMaintenanceWindow)
  : SqlMaintenanceWindow * bool :=
  let day := differs (MW_Day c) (SMW_Day f) in
  let hour := differs (MW_Hour c) (SMW_Hour f) in
  ({| SMW_Day := set day (default 0%Z (MW_Day c)) 0%Z;
      SMW_Hour := set hour (default 0%Z (MW_Hour c)) 0%Z;
      SMW_Kind := ""; SMW_UpdateTrack := "";
      SMW_ForceSendFields := if hour then ["Hour"] else [] |}, day || hour).

(** The parts of the settings that both sides have. *)
Definition both {A B C} (f : A → B → C * bool) (a : option A) (b : option B) : option (C * bool) :=
  match a, b with Some a, Some b => Some (f a b) | _, _ => None end.
Definition updateSettings (c : Settings) (f : SqlSettings) : SqlSettings * bool :=
  let protection := differs (ST_DeletionProtectionEnabled c) (SSet_DeletionProtectionEnabled f) in
  let resize := differs (ST_StorageAutoResize c) (flag (SSet_StorageAutoResize f)) in
  let tier := bool_decide (ST_Tier c ≠ SSet_Tier f) in
  let availability := bool_decide (ST_AvailabilityType c ≠ SSet_AvailabilityType f) in
  let limit := bool_decide (ST_StorageAutoResizeLimit c ≠ SSet_StorageAutoResizeLimit f) in
  let disk := bool_decide (ST_DataDiskSizeGb c ≠ SSet_DataDiskSizeGb f) in
  let labels := bool_decide (ST_UserLabels c ≠ SSet_UserLabels f) in
  let backup := both updateBackup (ST_BackupConfiguration c) (SSet_BackupConfiguration f) in
  let ip := both updateIpConfiguration (ST_IpConfiguration c) (SSet_IpConfiguration f) in
  let window := both updateMaintenanceWindow (ST_MaintenanceWindow c) (SSet_MaintenanceWindow f) in
  ({| SSet_ActivationPolicy := "";
      SSet_AvailabilityType := set availability (ST_AvailabilityType c) "";
      SSet_BackupConfiguration := fst <$> backup;
      SSet_Collation := ""; SSet_ConnectorEnforcement := "";
      SSet_CrashSafeReplicationEnabled := false;
      SSet_DataDiskSizeGb := set disk (ST_DataDiskSizeGb c) 0%Z;
      SSet_DataDiskType := ""; SSet_DatabaseFlags := None;
      SSet_DatabaseReplicationEnabled := false;
      SSet_DeletionProtectionEnabled := set protection (flag (ST_DeletionProtectionEnabled c)) false;
      SSet_DenyMaintenancePeriods := None; SSet_InsightsConfig := None;
      SSet_IpConfiguration := fst <$> ip;
      SSet_Kind := ""; SSet_LocationPreference := None;
      SSet_MaintenanceWindow := fst <$> window;
      SSet_PasswordValidationPolicy := None; SSet_PricingPlan := ""; SSet_ReplicationType := "";
      SSet_SettingsVersion := 0;
      SSet_StorageAutoResize := set resize (ST_StorageAutoResize c) None;
      SSet_StorageAutoResizeLimit := set limit (ST_StorageAutoResizeLimit c) 0%Z;
      SSet_Tier := set tier (ST_Tier c) "";
      SSet_UserLabels := set labels (ST_UserLabels c) None;
      SSet_ForceSendFields := (if protection then ["DeletionProtectionEnabled"] else []) ++
                              (if resize then ["StorageAutoResize"] else []) |},
   protection || resize || tier || availability || limit || disk || labels ||
   default false (snd <$> backup) || default false (snd <$> ip) ||
   default false (snd <$> window)).

(** Pointers that are read without being tested: both settings, the backups of the
    configuration, the flag that is compared, the backups found when retention is
    configured. *)
Definition updateDereferences (c : option Settings) (f : option SqlSettings) : bool :=
  match c, f with
  | Some c, Some f =>
      match ST_BackupConfiguration c with
      | None => true
      | Some b => match BC_BackupRetentionSettings b, SSet_BackupConfiguration f with
                  | Some _, None => true | _, _ => false end
      end ||
      match ST_StorageAutoResize c, SSet_StorageAutoResize f with
      | Some _, None => true | _, _ => false end
  | _, _ => true
  end.
Definition updateMessage (settings : SqlSettings) (version : string) : SqlInstance :=
  {| SI_ConnectionName := ""; SI_DatabaseVersion := version;
     SI_DiskEncryptionConfiguration := None; SI_FailoverReplica := None; SI_GceZone := "";
     SI_InstanceType := ""; SI_IpAddresses := None; SI_Kind := ""; SI_MaintenanceVersion := "";
     SI_MasterInstanceName := ""; SI_MaxDiskSize := 0; SI_Name := ""; SI_Project := "";
     SI_Region := ""; SI_ReplicaNames := None; SI_RootPassword := ""; SI_SecondaryGceZone := "";
     SI_SelfLink := ""; SI_ServerCaCert := None; SI_ServiceAccountEmailAddress := "";
     SI_Settings := Some settings; SI_State := "" |}.
Definition buildCloudSQLUpdateStrategy {E} (cloudSQLConfig : DatabaseInstance)
    (foundInstance : SqlInstance) : outcome E (option SqlInstance) :=
  if updateDereferences (DBI_Settings cloudSQLConfig) (SI_Settings foundInstance) then nil_deref
  else
    match DBI_Settings cloudSQLConfig, SI_Settings foundInstance with
    | Some c, Some f =>
        let '(settings, changed) := updateSettings c f in
        let version := bool_decide (DBI_DatabaseVersion cloudSQLConfig
                                    ≠ SI_DatabaseVersion foundInstance) in
        Val (if changed || version
             then Some (updateMessage settings (set version (DBI_DatabaseVersion cloudSQLConfig) ""))
             else None)
    | _, _ => nil_deref
    end.

(** ** Metrics *)

Definition buildPostgresGenericMetricLabels (pg : CR) (clusterID instanceName : string)
  : gmap string string :=
  {[ "clusterID" := clusterID; "resourceID" := Meta_Name (CR_Meta pg);
     "namespace" := Meta_Namespace (CR_Meta pg); "instanceID" := instanceName;
     "productName" := labelOf (CR_Meta pg) "productName"; "strategy" := postgresProviderName ]}.
Definition buildPostgresStatusMetricsLabels (cr : CR) (clusterID instanceName phase : string)
  : gmap string string :=
  <["statusPhase" := phase]> (buildPostgresGenericMetricLabels cr clusterID instanceName).

(** The private address: that of the last mapping of the type; a nil mapping is read. *)
Fixpoint privateHost {E} (l : list (option IpMapping)) (host : string) : outcome E string :=
  match l with
  | [] => Val host
  | None :: _ => nil_deref
  | Some m :: l' =>
      privateHost l' (if bool_decide (IPM_Type m = "PRIVATE") then IPM_IpAddress m else host)
  end.

Section Metrics.
Context {S : Type}.

Definition exposePostgresInstanceMetrics {E} (pg : CR) (instance : option SqlInstance)
  : M S E unit :=
  match instance with
  | None => mret tt
  | Some i =>
      c ← try GetClusterID;
      match c with
      | inr _ => mret tt
      | inl clusterID =>
          let genericLabels := BuildGenericMetricLabels (CR_Meta pg) clusterID (SI_Name i)
                                 postgresProviderName in
          _ ← invoke (SetMetricCurrentTime "cro_postgres_info"
                (BuildInfoMetricLabels (CR_Meta pg) (SI_State i) clusterID (SI_Name i)
                   postgresProviderName));
          _ ← forM statusPhases (λ phase,
            invoke (SetMetric "cro_postgres_status_phase"
              (BuildStatusMetricsLabels (CR_Meta pg) clusterID (SI_Name i) postgresProviderName phase)
              (Btof64 (bool_decide (Status_Phase (CR_Status pg) = phase)))));
          let healthy := Contains_ healthyPostgresInstanceStates (SI_State i) in
          let addresses := default [] (SI_IpAddresses i) in
          connectable ← (if healthy && negb (bool_decide (addresses = [])) then
                           host ← lift (privateHost addresses "");
                           invoke (TCPConnection host defaultGCPPostgresPort)
                         else mret false);
          _ ← invoke (SetMetric "cro_postgres_available" genericLabels (Btof64 healthy));
          invoke (SetMetric "cro_postgres_connection" genericLabels (Btof64 connectable))
      end
  end.

Definition setPostgresDeletionTimestampMetric {E} (pg : CR) : M S E unit :=
  match Meta_DeletionTimestamp (CR_Meta pg) with
  | Some t =>
      if bool_decide (t = zeroTime) then mret tt
      else
        n ← try (BuildInfraNameFromObject (CR_Meta pg) defaultGcpIdentifierLength);
        match n with
        | inr _ | inl "" => mret tt
        | inl instanceName =>
            c ← try GetClusterID;
            match c with
            | inr _ => mret tt
            | inl clusterID =>
                invoke (SetMetric "cro_postgres_deletion_timestamp"
                  (buildPostgresStatusMetricsLabels pg clusterID instanceName
                     (Status_Phase (CR_Status pg))) t)
            end
        end
  | None => mret tt
  end.

Definition buildDefaultCloudSQLSecret (pg : CR) : M S error Secret :=
  password ← GeneratePassword orWrap "failed to generate password";
  mret {| Secret_Name := Meta_Name (CR_Meta pg) +:+ defaultCredSecSuffix;
          Secret_Namespace := Meta_Namespace (CR_Meta pg);
          Secret_Owners := []; Secret_Data := None;
          Secret_StringData := {[ defaultPostgresUserKey := defaultGCPPostgresUser;
                                  defaultPostgresPasswordKey := password ]};
          Secret_Type := "Opaque" |}.

(** An instance, or nothing when it is not found. *)
Definition getSqlInstance (project name : string) : M S (string * error) (option SqlInstance) :=
  found ← try (ok (invoke (Gcp (GetSqlInstance project name))));
  match found with
  | inl i => mret (Some i)
  | inr err => if IsNotFoundError err then mret None
               else fail (wrapBoth "cannot retrieve sql instance from gcp" err)
  end.
End Metrics.

(** ** Snapshots of the instance *)

Definition createSnapshot {S} (pg : CR) : M S error unit :=
  ok (invoke (CreateSnapshotCR Postgres (Meta_Name (CR_Meta pg)) (Meta_Namespace (CR_Meta pg))
                (Meta_Name (CR_Meta pg)))).

(** The time a snapshot is kept until, or followed by another: nanoseconds. *)
Definition createdPlus (s : SnapshotCR) (d : Z) : Z := (createdAt s * second + d)%Z.

(** Expired snapshots go, but not the latest one. *)
Definition deleteExpired {S} (retention : Z) (latestSnapshot : SnapshotCR)
    (snapshots : list SnapshotCR) : M S (string * error) unit :=
  forM snapshots (λ s,
    if bool_decide (snapshotName s = snapshotName latestSnapshot) then mret tt
    else
      now ← invoke TimeNow;
      if (createdPlus s retention <? now)%Z then
        ok (invoke (DeleteSnapshotCR s))
          onError (wrapBoth ("failed to delete postgres snapshot " +:+ snapshotName s))
      else mret tt).

Definition parseDuration `{GcpTypes} {S} (d : string) : M S (string * error) Z :=
  liftR (ParseDuration d)
    onError (wrapBoth ("failed to parse " +:+ Quote d +:+ " into go duration")).

Definition reconcileCloudSqlInstanceSnapshots `{GoSort} `{GcpTypes} {S} (pg : CR)
  : M S (string * error) string :=
  let name := Meta_Name (CR_Meta pg) in
  let namespace := Meta_Namespace (CR_Meta pg) in
  let createFailed := wrapBoth ("failed to create postgres snapshot for " +:+ name) in
  snapshotRetention ← parseDuration (Spec_SnapshotRetention (CR_Spec pg));
  snapshots ← getAllSnapshotsForInstance name namespace
    onError (wrapBoth ("failed to fetch all snapshots associated with postgres instance " +:+ name));
  match snapshots with
  | [] => _ ← createSnapshot pg onError createFailed;
          mret ("created postgres snapshot CR for instance " +:+ name)
  | _ =>
      latestSnapshot ← getLatestPostgresSnapshot name namespace
        onError (wrapBoth ("failed to determine latest snapshot id for instance " +:+ name));
      match latestSnapshot with
      | None => mret ("latest snapshot creation in progress for instance " +:+ name)
      | Some latestSnapshot =>
          _ ← deleteExpired snapshotRetention latestSnapshot snapshots;
          snapshotFrequency ← parseDuration (Spec_SnapshotFrequency (CR_Spec pg));
          newest ← index (sortSlice (after createdAt) snapshots) 0;
          now ← invoke TimeNow;
          _ ← (if (createdPlus newest snapshotFrequency <? now)%Z
               then createSnapshot pg onError createFailed else mret tt);
          mret ("successfully reconciled postgres instance " +:+ name +:+ " snapshots")
      end
  end.

(** ** The provider *)

Record PostgresProvider := {
  P_CredentialManager : CredentialManager;
  P_ConfigManager : ConfigMapConfigManager
}.
Definition NewGCPPostgresProvider (DefaultConfigMapNamespace : string) : PostgresProvider :=
  {| P_CredentialManager := NewCredentialMinterCredentialManager;
     P_ConfigManager := NewDefaultConfigManager DefaultConfigMapNamespace |}.
Definition Postgres_SupportsStrategy (d : string) : bool := bool_decide (d = "gcp").
Definition Postgres_GetReconcileTime {S E} (pg : CR) : M S E Z :=
  if bool_decide (Status_Phase (CR_Status pg) ≠ PhaseComplete) then mret (60 * second)%Z
  else GetForcedReconcileTimeOrDefault defaultReconcileTime.

Definition updateAnnotated (msg id : string) : M CR (string * error) unit :=
  r ← get;
  _ ← put (annotate id r);
  updated ← ok (invoke (UpdateCR (annotate id r))) onError (wrapBoth msg);
  put updated.

Section Reconcile.
Context `{GoSort} `{GcpTypes} (p : PostgresProvider) (n : GcpNetwork.NetworkProvider).

(** The branch for an instance that has been created. *)
Definition reconcileCreatedInstance (project : string) (config : DatabaseInstance) (sec : Secret)
    (found : SqlInstance) : M CR (string * error) (option PostgresDeploymentDetails * string) :=
  modifiedInstance ← lift (buildCloudSQLUpdateStrategy config found);
  _ ← (match modifiedInstance with
       | Some modified =>
           unlessConflict ("failed to modify cloudsql instance: " +:+ SI_Name found)
             (ok (invoke (Gcp (PatchSqlInstance project (SI_Name found) modified))))
       | None => mret tt
       end);
  host ← lift (privateHost (default [] (SI_IpAddresses found)) "");
  mret (Some {| PDD_Username := secretData sec defaultPostgresUserKey;
                PDD_Password := secretData sec defaultPostgresPasswordKey;
                PDD_Host := host; PDD_Database := defaultDeploymentDatabase;
                PDD_Port := defaultGCPPostgresPort |},
        "successfully reconciled cloudsql instance " +:+ SI_Name found).

(** What follows the request for the instance. *)
Definition reconcileSqlInstance (project : string) (config : DatabaseInstance) (sec : Secret)
    (foundInstance : option SqlInstance)
  : M CR (string * error) (option PostgresDeploymentDetails * string) :=
  match foundInstance with
  | None =>
      created ← try (ok (invoke (Gcp (InsertSqlInstance project
                                        (MapToGcpDatabaseInstance config)))));
      _ ← (match created with
           | inl _ => mret tt
           | inr err => if IsNotFoundError err then mret tt
                        else fail (wrapBoth "failed to create cloudSQL instance" err)
           end);
      _ ← updateAnnotated "failed to add annotation" (DBI_Name config);
      mret (None, "started cloudSQL provision")
  | Some found =>
      pg ← get;
      _ ← (if annotations_Has (CR_Meta pg) ResourceIdentifierAnnotation then mret tt
           else updateAnnotated "failed to add annotation to postgres cr" (SI_Name found));
      pg ← get;
      _ ← (if bool_decide (SI_DatabaseVersion found ≠ "") &&
              bool_decide (Status_Version (CR_Status pg) ≠ SI_DatabaseVersion found)
           then put (setVersion (SI_DatabaseVersion found) pg) else mret tt);
      if bool_decide (SI_State found = "PENDING_CREATE") then
        mret (None, "creation of " +:+ SI_Name found +:+ " cloudSQL instance in progress")
      else reconcileCreatedInstance project config sec found
  end.

Definition reconcileCloudSQLInstance (strategyConfig : StrategyConfig) (address : option Address)
  : M CR (string * error) (option PostgresDeploymentDetails * string) :=
  pg ← get;
  sec ← buildDefaultCloudSQLSecret pg
    onError (wrapBoth "failed to build default cloudSQL secret");
  sec ← CreateOrUpdateSecret sec mret
    onError (wrapBoth ("failed to create or update secret " +:+ Secret_Name sec +:+
                       ", action was unchanged"));
  config ← buildCloudSQLCreateStrategy pg strategyConfig sec address
    onError (wrapBoth "failed to build and verify gcp cloudSQL instance configuration");
  foundInstance ← getSqlInstance (Strategy_ProjectID strategyConfig) (DBI_Name config);
  defer (pg ← get; exposePostgresInstanceMetrics (E := error) pg foundInstance)
    (reconcileSqlInstance (Strategy_ProjectID strategyConfig) config sec foundInstance).

(** The network is ready: there is an address range, and the service connection was
    not asked for just now. *)
Definition ensureNetwork (tier : string) : M CR (string * error) (option Address * string) :=
  ipRangeCidr ← ReconcileNetworkProviderConfig (P_ConfigManager p) tier
    onError (wrapBoth "failed to reconcile network provider config");
  '(address, msg) ← CreateNetworkIpRange n ipRangeCidr;
  if bool_decide (msg ≠ "") then mret (address, msg)
  else '(_, msg) ← CreateNetworkService n; mret (address, msg).

(** The schedule of the snapshots needs both fields. *)
Definition scheduleSnapshots (statusMessage : string) : M CR (string * error) string :=
  pg ← get;
  if bool_decide (Spec_SnapshotFrequency (CR_Spec pg) ≠ "") &&
     bool_decide (Spec_SnapshotRetention (CR_Spec pg) ≠ "")
  then reconcileCloudSqlInstanceSnapshots pg
  else mret statusMessage.

Definition reconcileWithNetwork (strategyConfig : StrategyConfig)
  : M CR (string * error) (option PostgresDeploymentDetails * string) :=
  pg ← get;
  '(address, msg) ← ensureNetwork (Spec_Tier (CR_Spec pg));
  if bool_decide (msg ≠ "") then mret (None, msg)
  else
    '(instance, statusMessage) ← reconcileCloudSQLInstance strategyConfig address;
    match instance with
    | None => mret (None, statusMessage)
    | Some details => statusMessage ← scheduleSnapshots statusMessage;
                      mret (Some details, statusMessage)
    end.

(** The network components go in order after the last resource. *)
Definition deleteLastSqlComponents : M CR (string * error) (option string) :=
  _ ← DeleteNetworkPeering n onError (wrapBoth "failed to delete cluster network peering");
  _ ← DeleteNetworkService n onError (wrapBoth "failed to delete cluster network service");
  _ ← DeleteNetworkIpRange n onError (wrapBoth "failed to delete network IP range");
  exist ← ComponentsExist n onError (wrapBoth "failed to check if components exist");
  mret (if exist : bool then Some "network component deletion in progress" else None).

(** The instance is there: it is not deleted before its protection is gone. *)
Definition disableProtection : SqlInstance :=
  updateMessage {|
    SSet_ActivationPolicy := ""; SSet_AvailabilityType := ""; SSet_BackupConfiguration := None;
    SSet_Collation := ""; SSet_ConnectorEnforcement := "";
    SSet_CrashSafeReplicationEnabled := false; SSet_DataDiskSizeGb := 0; SSet_DataDiskType := "";
    SSet_DatabaseFlags := None; SSet_DatabaseReplicationEnabled := false;
    SSet_DeletionProtectionEnabled := false; SSet_DenyMaintenancePeriods := None;
    SSet_InsightsConfig := None; SSet_IpConfiguration := None; SSet_Kind := "";
    SSet_LocationPreference := None; SSet_MaintenanceWindow := None;
    SSet_PasswordValidationPolicy := None; SSet_PricingPlan := ""; SSet_ReplicationType := "";
    SSet_SettingsVersion := 0; SSet_StorageAutoResize := None; SSet_StorageAutoResizeLimit := 0;
    SSet_Tier := ""; SSet_UserLabels := None;
    SSet_ForceSendFields := ["DeletionProtectionEnabled"] |} "".
Definition deleteFoundSqlInstance (project name : string) (found : SqlInstance)
  : M CR (string * error) string :=
  pg ← get;
  _ ← exposePostgresInstanceMetrics pg (Some found);
  if bool_decide (SI_State found = "PENDING_DELETE") then
    mret ("postgres instance " +:+ name +:+ " is already deleting")
  else
    settings ← deref (SI_Settings found);
    if SSet_DeletionProtectionEnabled settings then
      _ ← unlessConflict ("failed to disable deletion protection for cloudsql instance: " +:+
                          SI_Name found)
        (ok (invoke (Gcp (PatchSqlInstance project (SI_Name found) disableProtection))));
      mret ("disabling deletion protection for cloudsql instance " +:+ SI_Name found)
    else
      _ ← unlessConflict ("failed to delete cloudsql instance: " +:+ SI_Name found)
        (ok (invoke (Gcp (DeleteSqlInstance project (SI_Name found)))));
      mret ("deletion in progress for cloudsql instance " +:+ SI_Name found).

(** The instance is gone: its secret, the network after the last resource, and the
    finalizer. *)
Definition deleteAbsentSqlInstance (name : string) (isLastResource : bool)
  : M CR (string * error) string :=
  pg ← get;
  deleted ← try (ok (invoke (DeleteSecret (Meta_Name (CR_Meta pg) +:+ defaultCredSecSuffix)
                               (Meta_Namespace (CR_Meta pg)))));
  _ ← (match deleted with
       | inl _ => mret tt
       | inr err => if IsNotFound err then mret tt
                    else fail (wrapBoth "failed to delete cloudSQL secrets" err)
       end);
  remaining ← (if isLastResource then deleteLastSqlComponents else mret None);
  match remaining with
  | Some msg => mret msg
  | None =>
      _ ← dropFinalizer "failed to update instance as part of finalizer reconcile";
      mret ("successfully deleted gcp postgres instance " +:+ name)
  end.

Definition deleteCloudSQLInstance (strategyConfig : StrategyConfig) (isLastResource : bool)
  : M CR (string * error) string :=
  pg ← get;
  name ← buildCloudSQLDeleteStrategy pg strategyConfig
    onError (wrapBoth "failed to retrieve postgres strategy config");
  foundInstance ← getSqlInstance (Strategy_ProjectID strategyConfig) name;
  match foundInstance with
  | Some found =>
      if bool_decide (SI_Name found ≠ "")
      then deleteFoundSqlInstance (Strategy_ProjectID strategyConfig) name found
      else deleteAbsentSqlInstance name isLastResource
  | None => deleteAbsentSqlInstance name isLastResource
  end.
End Reconcile.

Section Provider.
Context `{GoSort} `{GcpTypes} (p : PostgresProvider).

Definition postgresCredentials (pg : CR) : M CR (string * error) Credentials :=
  ReconcileProviderCredentials (P_CredentialManager p) (Meta_Namespace (CR_Meta pg))
    onError (wrapBoth ("failed to reconcile gcp postgres provider credentials for postgres instance "
                       +:+ Meta_Name (CR_Meta pg))).
Definition newSqlClient (creds : Credentials) : M CR (string * error) unit :=
  ok (invoke (Gcp (NewClient SQLAdmin (Creds_ServiceAccountJson creds))))
    onError (wrapBoth "could not initialise new SQL Admin Service").

Definition ReconcilePostgres
  : M CR (string * error) (option PostgresDeploymentDetails * string) :=
  _ ← CreateFinalizer DefaultFinalizer onError (withMsg "failed to set finalizer");
  pg ← get;
  strategyConfig ← ReadStorageStrategy (P_ConfigManager p) "postgres" (Spec_Tier (CR_Spec pg))
    onError (wrapBoth "failed to retrieve postgres strategy config");
  creds ← postgresCredentials pg;
  _ ← newSqlClient creds;
  networkManager ← NewNetworkManager (Strategy_ProjectID strategyConfig)
                     (Creds_ServiceAccountJson creds)
    onError (wrapBoth "failed to initialise network manager");
  reconcileWithNetwork p networkManager strategyConfig.

Definition DeletePostgres : M CR (string * error) string :=
  pg ← get;
  _ ← setPostgresDeletionTimestampMetric pg;
  strategyConfig ← ReadStorageStrategy (P_ConfigManager p) "postgres" (Spec_Tier (CR_Spec pg))
    onError (wrapBoth "failed to retrieve postgres strategy config");
  creds ← postgresCredentials pg;
  _ ← newSqlClient creds;
  isLastResource ← IsLastResource
    onError (wrapBoth "failed to check if this cr is the last cr of type postgres and redis");
  networkManager ← NewNetworkManager (Strategy_ProjectID strategyConfig)
                     (Creds_ServiceAccountJson creds)
    onError (wrapBoth "failed to initialise network manager");
  deleteCloudSQLInstance networkManager strategyConfig isLastResource.

(** The provider as the controller sees it. *)
Definition gcpPostgres : ResourceProvider := {|
  RP_GetName := postgresProviderName;
  RP_SupportsStrategy := Postgres_SupportsStrategy;
  RP_GetReconcileTime := Postgres_GetReconcileTime;
  RP_Create := r ← ReconcilePostgres; mret (PostgresData <$> r.1, r.2);
  RP_Delete := DeletePostgres |}.
End Provider.
