(* ===== verification/GcpMetrics.v ===== *)
(** * pkg/providers/gcp: provider_redis_metrics.go, provider_postgres_metrics.go

    The metrics of Memorystore and Cloud SQL instances, read from Cloud Monitoring.
    [getMetrics] asks for them in goroutines and collects what they send with a
    [select]: it is a state machine of workers, channels and the loop, and the program
    lets the scheduler choose the next step among those that are possible.  The calls
    of one worker come without those of another in between. *)
From S2P Require Import Prelude Effects GoFloat GoStrings GoUrl Json GcpApi Api Resources Metrics.
From S2P Require Import AwsConfig CloudMetrics GcpConfig GcpSnapshots GcpNetwork GcpRedis.
Local Open Scope go_scope.

(** ** Values *)

Definition IsCompoundMetric (metric : string) : bool :=
  bool_decide (metric ∈ [RedisFreeableMemoryAverageMetricName;
                         PostgresFreeStorageAverageMetricName;
                         PostgresFreeableMemoryAverageMetricName]).
Definition IsComputedCpuMetric (metric : string) : bool :=
  bool_decide (metric ∈ [RedisCPUUtilizationAverageMetricName;
                         RedisEngineCPUUtilizationAverageMetricName]).

(** The average of no points is 0/0. *)
Definition calculatePointsAverage (points : TimeSeries) : float64 :=
  fdiv (foldl fadd fzero points) (float_of_Z (Z.of_nat (length points))).
Definition roundFloat (val : float64) (precision : Z) : float64 :=
  let ratio := float_of_Z (10 ^ precision) in
  fdiv (math_Round (fmul val ratio)) ratio.

(** ** One metric *)

Record getMetricsOpts := {
  O_metricsToQuery : list CloudProviderMetricType;
  O_filter : string → string;
  O_projectID : string;
  O_defaultLabels : gmap string string
}.
(** The templates of the filters, filled in but for the type of the metric. *)
Definition redisFilter (instanceID metric : string) : string :=
  "resource.type=" +:+ Quote "redis_instance" +:+ " resource.labels.instance_id=" +:+
  Quote instanceID +:+ " metric.type=" +:+ Quote metric +:+ " metric.label.role=primary".
Definition postgresFilter (instanceID metric : string) : string :=
  "resource.type=" +:+ Quote "cloudsql_database" +:+ " resource.labels.database_id=" +:+
  Quote instanceID +:+ " metric.type=" +:+ Quote metric.

Section Metric.
Context `{GcpTypes} {S : Type}.

(** metric_api.go: an iteration that fails or answers nothing is an error. *)
Definition listTimeSeries (req : ListTimeSeriesRequest) : M S error (list TimeSeries) :=
  '(series, err) ← invoke (Gcp (ListTimeSeries req));
  match err with
  | Some e => fail e
  | None => if bool_decide (series = []) then fail (GoErr "could not find any time series")
            else mret series
  end.

(** [fmt.Errorf] with [%w]. *)
Definition getMetricData (opts : getMetricsOpts) (metric : CloudProviderMetricType)
    (reducer : Aggregation_Reducer) (interval : Z * Z) : M S error GenericCloudMetric :=
  timeSeries ← listTimeSeries {|
      TSR_Name := O_projectID opts;
      TSR_Filter := O_filter opts (MT_ProviderMetricName metric);
      TSR_PerSeriesAligner := Aggregation_Aligner_value (MT_Statistic metric);
      TSR_AlignmentPeriod := MetricsWatchDuration;
      TSR_CrossSeriesReducer := reducer;
      TSR_StartTime := interval.1; TSR_EndTime := interval.2 |}
    orWrap "error listing time series";
  first ← index timeSeries 0;
  mret {| GCM_Name := MT_PrometheusMetricName metric; GCM_Labels := O_defaultLabels opts;
          GCM_Value := calculatePointsAverage first |}.

(** The interval that ends now. *)
Definition lastInterval {E} : M S E (Z * Z) :=
  now ← invoke TimeNow;
  d ← GetMetricReconcileTimeOrDefault MetricsWatchDuration;
  now' ← invoke TimeNow;
  mret ((now - d)%Z, now').

(** [strings.Split(name, "-")], of which the first two are used. *)
Definition metricPair {E} (name : string) : M S E (string * string) :=
  lift (match splitSecond "-" name with
        | Some second => Val (beforeFirst "-" name, second)
        | None => out_of_range
        end).
Definition queryOf (name statistic : string) : CloudProviderMetricType :=
  {| MT_PrometheusMetricName := ""; MT_ProviderMetricName := name; MT_Statistic := statistic |}.
Definition calculateAvailableMemory (compoundMetric : CloudProviderMetricType) (opts : getMetricsOpts)
  : M S error GenericCloudMetric :=
  '(maxMemory, usedMemory) ← metricPair (MT_ProviderMetricName compoundMetric);
  interval ← lastInterval;
  maxMemoryMetric ← getMetricData opts (queryOf maxMemory (MT_Statistic compoundMetric))
                      REDUCE_NONE interval;
  usedMemoryMetric ← getMetricData opts (queryOf usedMemory (MT_Statistic compoundMetric))
                       REDUCE_NONE interval;
  mret {| GCM_Name := MT_PrometheusMetricName compoundMetric; GCM_Labels := O_defaultLabels opts;
          GCM_Value := roundFloat (fsub (GCM_Value maxMemoryMetric) (GCM_Value usedMemoryMetric)) 2 |}.

(** [MetricsWatchDuration / time.Second] *)
Definition sampleDuration : Z := MetricsWatchDuration / second.
Definition calculateCpuUtilization (metric : CloudProviderMetricType) (opts : getMetricsOpts)
  : M S error GenericCloudMetric :=
  now ← invoke TimeNow;
  d ← GetMetricReconcileTimeOrDefault MetricsWatchDuration;
  d' ← GetMetricReconcileTimeOrDefault (MetricsWatchDuration * 2);
  let minutesAgo := (now - d)%Z in
  let minutesAgoDoubled := (now - d')%Z in
  currentSampleCpuSecs ← getMetricData opts metric REDUCE_SUM (minutesAgo, now);
  previousSampleCpuSecs ← getMetricData opts metric REDUCE_SUM (minutesAgoDoubled, minutesAgo);
  let cpuUsagePercentage :=
    fdiv (fsub (GCM_Value currentSampleCpuSecs) (GCM_Value previousSampleCpuSecs))
         (float_of_Z sampleDuration) in
  let cpuUsagePercentage := if flt cpuUsagePercentage fzero then fzero else cpuUsagePercentage in
  mret {| GCM_Name := MT_PrometheusMetricName metric; GCM_Labels := O_defaultLabels opts;
          GCM_Value := roundFloat cpuUsagePercentage 2 |}.
End Metric.

(** ** The goroutines of getMetrics

    A worker waits for its answer, has an error to send, has a metric to send ([None] is
    the nil pointer that it sends after an error), or is done. *)
Inductive worker :=
  | Waiting (metric : CloudProviderMetricType)
  | Failed (err : error)
  | Answered (metricData : option GenericCloudMetric)
  | Done.
(** The loop collects, or it has returned. *)
Inductive loop :=
  | Collecting (metrics : ScrapeMetricsData)
  | Returned (r : result ScrapeMetricsData).
Record collector := {
  C_workers : list worker;
  C_metricChan : ScrapeMetricsData;
  C_errChan : list error;
  C_doneChan : bool;
  C_loop : loop
}.
Definition newCollector (metricsToQuery : list CloudProviderMetricType) : collector :=
  {| C_workers := map Waiting metricsToQuery; C_metricChan := []; C_errChan := [];
     C_doneChan := false; C_loop := Collecting [] |}.
Definition isDone (w : worker) : bool := match w with Done => true | _ => false end.

Definition setWorker (i : nat) (w : worker) (c : collector) : collector :=
  {| C_workers := <[i := w]> (C_workers c); C_metricChan := C_metricChan c;
     C_errChan := C_errChan c; C_doneChan := C_doneChan c; C_loop := C_loop c |}.
Definition setMetricChan (q : ScrapeMetricsData) (c : collector) : collector :=
  {| C_workers := C_workers c; C_metricChan := q; C_errChan := C_errChan c;
     C_doneChan := C_doneChan c; C_loop := C_loop c |}.
Definition setErrChan (q : list error) (c : collector) : collector :=
  {| C_workers := C_workers c; C_metricChan := C_metricChan c; C_errChan := q;
     C_doneChan := C_doneChan c; C_loop := C_loop c |}.
Definition closeDone (c : collector) : collector :=
  {| C_workers := C_workers c; C_metricChan := C_metricChan c; C_errChan := C_errChan c;
     C_doneChan := true; C_loop := C_loop c |}.
Definition setLoop (l : loop) (c : collector) : collector :=
  {| C_workers := C_workers c; C_metricChan := C_metricChan c; C_errChan := C_errChan c;
     C_doneChan := C_doneChan c; C_loop := l |}.

(** The steps, for the answers that a query may have.  The buffer of the errors holds
    one, that of the metrics one of each worker. *)
Inductive step (answers : CloudProviderMetricType → result GenericCloudMetric → Prop)
    (c : collector) : collector → Prop :=
  | step_query i m r :
      C_workers c !! i = Some (Waiting m) → answers m r →
      step answers c
        (setWorker i (match r with Ok v => Answered (Some v) | Er e => Failed e end) c)
  | step_sendError i e :
      C_workers c !! i = Some (Failed e) → C_errChan c = [] →
      step answers c (setErrChan [e] (setWorker i (Answered None) c))
  | step_sendMetric i v :
      C_workers c !! i = Some (Answered v) → length (C_metricChan c) < length (C_workers c) →
      step answers c (setMetricChan (C_metricChan c ++ [v]) (setWorker i Done c))
  | step_close :
      forallb isDone (C_workers c) = true → C_doneChan c = false → step answers c (closeDone c)
  | step_takeMetric acc v q :
      C_loop c = Collecting acc → C_metricChan c = v :: q →
      step answers c (setMetricChan q (setLoop (Collecting (acc ++ [v])) c))
  | step_takeError acc e q :
      C_loop c = Collecting acc → C_errChan c = e :: q →
      step answers c (setErrChan q (setLoop (Returned (Er e)) c))
  | step_takeDone acc :
      C_loop c = Collecting acc → C_doneChan c = true →
      step answers c (setLoop (Returned (Ok acc)) c).

(** The same as choices: which steps are possible, and what they do. *)
Inductive move :=
  | Work (i : nat) | Close | TakeDone | TakeMetric | TakeError.
Definition canWork (c : collector) (w : worker) : bool :=
  match w with
  | Waiting _ => true
  | Failed _ => bool_decide (C_errChan c = [])
  | Answered _ => bool_decide (length (C_metricChan c) < length (C_workers c))
  | Done => false
  end.
Definition possible (c : collector) : list move :=
  omap (λ i, w ← C_workers c !! i; if canWork c w then Some (Work i) else None)%stdpp
    (seq 0 (length (C_workers c))) ++
  (if forallb isDone (C_workers c) && negb (C_doneChan c) then [Close] else []) ++
  (if C_doneChan c then [TakeDone] else []) ++
  (if bool_decide (C_metricChan c = []) then [] else [TakeMetric]) ++
  (if bool_decide (C_errChan c = []) then [] else [TakeError]).

Section Collect.
Context {S : Type}.
Variable query : CloudProviderMetricType → M S error GenericCloudMetric.

Definition perform {E} (acc : ScrapeMetricsData) (c : collector) (mv : move) : M S E collector :=
  match mv with
  | Work i =>
      match C_workers c !! i with
      | Some (Waiting m) =>
          r ← try (query m);
          mret (setWorker i (match r with inl v => Answered (Some v) | inr e => Failed e end) c)
      | Some (Failed e) => mret (setErrChan [e] (setWorker i (Answered None) c))
      | Some (Answered v) => mret (setMetricChan (C_metricChan c ++ [v]) (setWorker i Done c))
      | _ => mret c
      end
  | Close => mret (closeDone c)
  | TakeDone => mret (setLoop (Returned (Ok acc)) c)
  | TakeMetric =>
      match C_metricChan c with
      | v :: q => mret (setMetricChan q (setLoop (Collecting (acc ++ [v])) c))
      | [] => mret c
      end
  | TakeError =>
      match C_errChan c with
      | e :: q => mret (setErrChan q (setLoop (Returned (Er e)) c))
      | [] => mret c
      end
  end.
(** Until the loop returns; a deadlock or too little fuel would be a panic. *)
Fixpoint collect (fuel : nat) (c : collector) : M S error ScrapeMetricsData :=
  match C_loop c with
  | Returned r => liftR r
  | Collecting acc =>
      match fuel with
      | O => lift (Panic "deadlock")
      | Datatypes.S fuel =>
          k ← invoke (Schedule (length (possible c)));
          match possible c !! (k mod length (possible c)) with
          | Some mv => c' ← perform acc c mv; collect fuel c'
          | None => lift (Panic "deadlock")
          end
      end
  end.
End Collect.

(** The steps that can be taken, at most. *)
Definition workLeft (w : worker) : nat :=
  match w with Waiting _ => 6 | Failed _ => 4 | Answered _ => 2 | Done => 0 end.
Definition stepsLeft (c : collector) : nat :=
  sum_list (map workLeft (C_workers c)) + length (C_metricChan c) + length (C_errChan c) +
  (if C_doneChan c then 0 else 1) + match C_loop c with Collecting _ => 1 | Returned _ => 0 end.

Section Scrape.
Context `{GcpTypes} {S : Type}.

(** What a goroutine asks for. *)
Definition queryMetric (opts : getMetricsOpts) (metric : CloudProviderMetricType)
  : M S error GenericCloudMetric :=
  interval ← lastInterval;
  getMetricData opts metric REDUCE_NONE interval.
Definition getMetrics (opts : getMetricsOpts) : M S error ScrapeMetricsData :=
  let c := newCollector (O_metricsToQuery opts) in
  collect (queryMetric opts) (stepsLeft c) c.

(** The metrics that are computed, and those that are left to be asked for. *)
Definition computeMetrics (what : string) (cpu : bool) (opts : getMetricsOpts)
    (metricTypes : list CloudProviderMetricType)
  : M S error (ScrapeMetricsData * list CloudProviderMetricType) :=
  foldM (λ '(allMetrics, metricsToQuery) metric,
    if IsCompoundMetric (MT_PrometheusMetricName metric) then
      resultMetric ← calculateAvailableMemory metric opts
        orWrap ("failed to calculate " +:+ what +:+ " compound metric " +:+
                MT_PrometheusMetricName metric);
      mret (allMetrics ++ [Some resultMetric], metricsToQuery)
    else if cpu && IsComputedCpuMetric (MT_PrometheusMetricName metric) then
      resultMetric ← calculateCpuUtilization metric opts
        orWrap ("failed to calculate " +:+ what +:+ " cpu utilization metric " +:+
                MT_ProviderMetricName metric);
      mret (allMetrics ++ [Some resultMetric], metricsToQuery)
    else mret (allMetrics, metricsToQuery ++ [metric])) ([], []) metricTypes.
Definition withQueries (metrics : list CloudProviderMetricType) (opts : getMetricsOpts)
  : getMetricsOpts :=
  {| O_metricsToQuery := metrics; O_filter := O_filter opts; O_projectID := O_projectID opts;
     O_defaultLabels := O_defaultLabels opts |}.

(** What both providers do: [what] is the resource, [filterOf] fills in its template. *)
Definition scrapeMetrics (manager : CredentialManager) (config : ConfigMapConfigManager)
    (what provider : string) (cpu : bool)
    (filterOf : StrategyConfig → string → string → string) (cr : CR)
    (metricTypes : list CloudProviderMetricType) : M S error ScrapeMetricsData :=
  strategyConfig ← ReadStorageStrategy config what (Spec_Tier (CR_Spec cr))
    orWrap ("failed to retrieve " +:+ what +:+ " strategy config");
  creds ← ReconcileProviderCredentials manager (Meta_Namespace (CR_Meta cr))
    orWrap ("failed to reconcile " +:+ what +:+ " provider credentials");
  _ ← ok (invoke (Gcp (NewClient MetricAPI (Creds_ServiceAccountJson creds))))
    orWrap "failed to initialise metric client";
  clusterID ← GetClusterID orWrap "error getting cluster id";
  instanceID ← BuildInfraNameFromObject (CR_Meta cr) defaultGcpIdentifierLength
    orWrap "error building instance id";
  let opts := {|
    O_metricsToQuery := [];
    O_filter := filterOf strategyConfig instanceID;
    O_projectID := "projects/" +:+ Strategy_ProjectID strategyConfig;
    O_defaultLabels := BuildGenericMetricLabels (CR_Meta cr) clusterID instanceID provider |} in
  '(allMetrics, metricsToQuery) ← computeMetrics what cpu opts metricTypes;
  remainingMetrics ← getMetrics (withQueries metricsToQuery opts)
    orWrap ("failed to get " +:+ what +:+ " metrics data");
  mret (allMetrics ++ remainingMetrics).

Definition redisFilterOf (strategyConfig : StrategyConfig) (instanceID : string) : string → string :=
  redisFilter (redisInstanceName (Strategy_ProjectID strategyConfig)
                 (Strategy_Region strategyConfig) instanceID).
Definition postgresFilterOf (strategyConfig : StrategyConfig) (instanceID : string)
  : string → string :=
  postgresFilter (Strategy_ProjectID strategyConfig +:+ ":" +:+ instanceID).

Record MetricsProviderConfig := {
  MPC_CredentialManager : CredentialManager;
  MPC_ConfigManager : ConfigMapConfigManager
}.
Definition NewGCPMetricsProvider (DefaultConfigMapNamespace : string) : MetricsProviderConfig :=
  {| MPC_CredentialManager := NewCredentialMinterCredentialManager;
     MPC_ConfigManager := NewDefaultConfigManager DefaultConfigMapNamespace |}.
Definition ScrapeRedisMetrics (p : MetricsProviderConfig)
  : CR → list CloudProviderMetricType → M S error ScrapeMetricsData :=
  scrapeMetrics (MPC_CredentialManager p) (MPC_ConfigManager p) "redis" redisProviderName true
    redisFilterOf.
Definition ScrapePostgresMetrics (p : MetricsProviderConfig)
  : CR → list CloudProviderMetricType → M S error ScrapeMetricsData :=
  scrapeMetrics (MPC_CredentialManager p) (MPC_ConfigManager p) "postgres" postgresProviderName
    false postgresFilterOf.

Definition gcpRedisMetrics (p : MetricsProviderConfig) : MetricsProvider S :=
  {| MP_SupportsStrategy := λ strategy, bool_decide (strategy = GCPDeploymentStrategy);
     MP_Scrape := ScrapeRedisMetrics p |}.
Definition gcpPostgresMetrics (p : MetricsProviderConfig) : MetricsProvider S :=
  {| MP_SupportsStrategy := λ strategy, bool_decide (strategy = GCPDeploymentStrategy);
     MP_Scrape := ScrapePostgresMetrics p |}.
End Scrape.
