(* ===== verification/GcpStrategies.v ===== *)
(** * pkg/client: gcp/strategies_gcp.go and strategies.go

    The strategy client on Google Cloud: the maintenance window and the start of the
    backups of the strategies in the config map, and the choice of the client by the
    platform of the cluster.  What the types of [gcpiface] are as JSON is defined here;
    how messages of third-party packages are written is a parameter. *)
From S2P Require Import Prelude Effects GoNet GoStrings Json JsonPrint GcpApi Api Resources.
From S2P Require Import AwsConfig Strategies GcpConfig GcpSql GcpPostgres.
Local Open Scope go_scope.

(** ** Third-party messages as JSON

    A message of sqladmin read from some JSON and written again, an address, and the
    request of Memorystore. *)
Class MessageCodec := {
  remarshal : json → json;
  marshalIpMapping : IpMapping → json;
  marshalCreateRedisInstanceRequest : CreateRedisInstanceRequest → json
}.

Section Encode.
Context `{MessageCodec}.

(** The fields that [omitempty] leaves, in order. *)
Definition present (table : list (string * option json)) : list (string * json) :=
  omap (λ p, (λ v, (p.1, v)) <$> p.2) table.
Definition stringMember (s : string) : option json :=
  if bool_decide (s = "") then None else Some (JStr s).
Definition intMember (z : Z) : option json :=
  if bool_decide (z = 0%Z) then None else Some (JNum (itoa z)).
Definition boolPtrMember (p : option bool) : option json := JBool <$> p.
Definition intPtrMember (p : option Z) : option json := (λ z, JNum (itoa z)) <$> p.
Definition objectMember (p : option (list (string * json))) : option json := JObj <$> p.
Definition listMember (l : option (list json)) : option json :=
  match l with None | Some [] => None | Some l => Some (JArr l) end.
(** The keys of a map are sorted. *)
Definition mapMember (m : option (gmap string string)) : option json :=
  match map_to_list <$> m with
  | None | Some [] => None
  | Some l => Some (JObj (map (λ p, (p.1, JStr p.2)) (sortedMap l)))
  end%stdpp.
(** A nil element of a slice of pointers is null. *)
Definition nullOr {A} (f : A → json) (p : option A) : json := match p with Some a => f a | None => JNull end.
Definition messageElement (v : json) : json :=
  nullOr remarshal (match v with JNull => None | v => Some v end).
Definition messageMember (v : option json) : option json :=
  match v with
  | None | Some (JArr []) => None
  | Some (JArr l) => Some (JArr (map messageElement l))
  | Some v => Some (remarshal v)
  end.

Definition encodeFailoverReplica (r : DatabaseInstanceFailoverReplica) : list (string * json) :=
  present [("available", boolPtrMember (FR_Available r)); ("name", stringMember (FR_Name r))].
Definition encodeBackupRetention (b : BackupRetentionSettings) : list (string * json) :=
  present [("retentionUnit", stringMember (BRS_RetentionUnit b));
           ("retainedBackups", intMember (BRS_RetainedBackups b))].
Definition encodeBackupConfiguration (b : BackupConfiguration) : list (string * json) :=
  present [
    ("backupRetentionSettings", objectMember (encodeBackupRetention <$> BC_BackupRetentionSettings b)%stdpp);
    ("binaryLogEnabled", boolPtrMember (BC_BinaryLogEnabled b));
    ("enabled", boolPtrMember (BC_Enabled b)); ("kind", stringMember (BC_Kind b));
    ("location", stringMember (BC_Location b));
    ("pointInTimeRecoveryEnabled", boolPtrMember (BC_PointInTimeRecoveryEnabled b));
    ("replicationLogArchivingEnabled", boolPtrMember (BC_ReplicationLogArchivingEnabled b));
    ("startTime", stringMember (BC_StartTime b));
    ("transactionLogRetentionDays", intMember (BC_TransactionLogRetentionDays b))].
Definition encodeIpConfiguration (i : IpConfiguration) : list (string * json) :=
  present [("allocatedIpRange", stringMember (IC_AllocatedIpRange i));
           ("authorizedNetworks", messageMember (IC_AuthorizedNetworks i));
           ("ipv4Enabled", boolPtrMember (IC_Ipv4Enabled i));
           ("privateNetwork", stringMember (IC_PrivateNetwork i));
           ("requireSsl", boolPtrMember (IC_RequireSsl i))].
Definition encodeMaintenanceWindow (w : MaintenanceWindow) : list (string * json) :=
  present [("day", intPtrMember (MW_Day w)); ("hour", intPtrMember (MW_Hour w));
           ("kind", stringMember (MW_Kind w)); ("updateTrack", stringMember (MW_UpdateTrack w))].
Definition encodeSettings (s : Settings) : list (string * json) :=
  present [
    ("activationPolicy", stringMember (ST_ActivationPolicy s));
    ("availabilityType", stringMember (ST_AvailabilityType s));
    ("backupConfiguration", objectMember (encodeBackupConfiguration <$> ST_BackupConfiguration s)%stdpp);
    ("collation", stringMember (ST_Collation s));
    ("connectorEnforcement", stringMember (ST_ConnectorEnforcement s));
    ("crashSafeReplicationEnabled", boolPtrMember (ST_CrashSafeReplicationEnabled s));
    ("dataDiskSizeGb", intMember (ST_DataDiskSizeGb s));
    ("dataDiskType", stringMember (ST_DataDiskType s));
    ("databaseFlags", messageMember (ST_DatabaseFlags s));
    ("databaseReplicationEnabled", boolPtrMember (ST_DatabaseReplicationEnabled s));
    ("deletionProtectionEnabled", boolPtrMember (ST_DeletionProtectionEnabled s));
    ("denyMaintenancePeriods", messageMember (ST_DenyMaintenancePeriods s));
    ("insightsConfig", messageMember (ST_InsightsConfig s));
    ("ipConfiguration", objectMember (encodeIpConfiguration <$> ST_IpConfiguration s)%stdpp);
    ("kind", stringMember (ST_Kind s));
    ("locationPreference", messageMember (ST_LocationPreference s));
    ("maintenanceWindow", objectMember (encodeMaintenanceWindow <$> ST_MaintenanceWindow s)%stdpp);
    ("passwordValidationPolicy", messageMember (ST_PasswordValidationPolicy s));
    ("pricingPlan", stringMember (ST_PricingPlan s));
    ("replicationType", stringMember (ST_ReplicationType s));
    ("settingsVersion", intMember (ST_SettingsVersion s));
    ("storageAutoResize", boolPtrMember (ST_StorageAutoResize s));
    ("storageAutoResizeLimit", intMember (ST_StorageAutoResizeLimit s));
    ("tier", stringMember (ST_Tier s)); ("userLabels", mapMember (ST_UserLabels s))].
Definition encodeDatabaseInstance (d : DatabaseInstance) : list (string * json) :=
  present [
    ("connectionName", stringMember (DBI_ConnectionName d));
    ("databaseVersion", stringMember (DBI_DatabaseVersion d));
    ("diskEncryptionConfiguration", messageMember (DBI_DiskEncryptionConfiguration d));
    ("failoverReplica", objectMember (encodeFailoverReplica <$> DBI_FailoverReplica d)%stdpp);
    ("gceZone", stringMember (DBI_GceZone d)); ("instanceType", stringMember (DBI_InstanceType d));
    ("ipAddresses", listMember (map (nullOr marshalIpMapping) <$> DBI_IpAddresses d)%stdpp);
    ("kind", stringMember (DBI_Kind d));
    ("maintenanceVersion", stringMember (DBI_MaintenanceVersion d));
    ("masterInstanceName", stringMember (DBI_MasterInstanceName d));
    ("maxDiskSize", intMember (DBI_MaxDiskSize d)); ("name", stringMember (DBI_Name d));
    ("project", stringMember (DBI_Project d)); ("region", stringMember (DBI_Region d));
    ("replicaNames", listMember (map JStr <$> DBI_ReplicaNames d)%stdpp);
    ("rootPassword", stringMember (DBI_RootPassword d));
    ("secondaryGceZone", stringMember (DBI_SecondaryGceZone d));
    ("selfLink", stringMember (DBI_SelfLink d));
    ("serverCaCert", messageMember (DBI_ServerCaCert d));
    ("settings", objectMember (encodeSettings <$> DBI_Settings d)%stdpp)].
Definition encodeCreateInstanceRequest (instance : option DatabaseInstance) : json :=
  JObj (present [("instance", objectMember (encodeDatabaseInstance <$> instance)%stdpp)]).
End Encode.

(** ** The windows *)

(** Sunday is 7; the other days are those of Go. *)
Definition gcpDay (timeConfig : StrategyTimeConfig) : Z :=
  if bool_decide (Day (MaintenanceStartTime timeConfig) ≠ Sunday)
  then Day (MaintenanceStartTime timeConfig) else 7.
Definition backupStart (timeConfig : StrategyTimeConfig) : string :=
  clock (Time (BackupStartTime timeConfig)).

(** A window that is not the one asked for is replaced, and so is a configuration of the
    backups with another start. *)
Definition newMaintenanceWindow (day hour : Z) : MaintenanceWindow :=
  {| MW_Day := Some day; MW_Hour := Some hour; MW_Kind := ""; MW_UpdateTrack := "" |}.
Definition reconcileWindow (day hour : Z) (w : option MaintenanceWindow) : option MaintenanceWindow :=
  match w with
  | Some w' => if bool_decide (default (-1)%Z (MW_Day w') ≠ day) ||
                  bool_decide (default (-1)%Z (MW_Hour w') ≠ hour)
               then Some (newMaintenanceWindow day hour) else w
  | None => Some (newMaintenanceWindow day hour)
  end.
Definition newBackupConfiguration (startTime : string) : BackupConfiguration :=
  {| BC_BackupRetentionSettings := None; BC_BinaryLogEnabled := None; BC_Enabled := None;
     BC_Kind := ""; BC_Location := ""; BC_PointInTimeRecoveryEnabled := None;
     BC_ReplicationLogArchivingEnabled := None; BC_StartTime := startTime;
     BC_TransactionLogRetentionDays := 0 |}.
Definition reconcileBackup (startTime : string) (b : option BackupConfiguration)
  : option BackupConfiguration :=
  match b with
  | Some b' => if bool_decide (BC_StartTime b' ≠ startTime)
               then Some (newBackupConfiguration startTime) else b
  | None => Some (newBackupConfiguration startTime)
  end.

Definition setSettingsWindows (w : option MaintenanceWindow) (b : option BackupConfiguration)
    (s : Settings) : Settings :=
  {| ST_ActivationPolicy := ST_ActivationPolicy s; ST_AvailabilityType := ST_AvailabilityType s;
     ST_BackupConfiguration := b; ST_Collation := ST_Collation s;
     ST_ConnectorEnforcement := ST_ConnectorEnforcement s;
     ST_CrashSafeReplicationEnabled := ST_CrashSafeReplicationEnabled s;
     ST_DataDiskSizeGb := ST_DataDiskSizeGb s; ST_DataDiskType := ST_DataDiskType s;
     ST_DatabaseFlags := ST_DatabaseFlags s;
     ST_DatabaseReplicationEnabled := ST_DatabaseReplicationEnabled s;
     ST_DeletionProtectionEnabled := ST_DeletionProtectionEnabled s;
     ST_DenyMaintenancePeriods := ST_DenyMaintenancePeriods s;
     ST_InsightsConfig := ST_InsightsConfig s; ST_IpConfiguration := ST_IpConfiguration s;
     ST_Kind := ST_Kind s; ST_LocationPreference := ST_LocationPreference s;
     ST_MaintenanceWindow := w; ST_PasswordValidationPolicy := ST_PasswordValidationPolicy s;
     ST_PricingPlan := ST_PricingPlan s; ST_ReplicationType := ST_ReplicationType s;
     ST_SettingsVersion := ST_SettingsVersion s; ST_StorageAutoResize := ST_StorageAutoResize s;
     ST_StorageAutoResizeLimit := ST_StorageAutoResizeLimit s; ST_Tier := ST_Tier s;
     ST_UserLabels := ST_UserLabels s |}.
Definition setInstanceSettings (s : Settings) (d : DatabaseInstance) : DatabaseInstance :=
  {| DBI_ConnectionName := DBI_ConnectionName d; DBI_DatabaseVersion := DBI_DatabaseVersion d;
     DBI_DiskEncryptionConfiguration := DBI_DiskEncryptionConfiguration d;
     DBI_FailoverReplica := DBI_FailoverReplica d; DBI_GceZone := DBI_GceZone d;
     DBI_InstanceType := DBI_InstanceType d; DBI_IpAddresses := DBI_IpAddresses d;
     DBI_Kind := DBI_Kind d; DBI_MaintenanceVersion := DBI_MaintenanceVersion d;
     DBI_MasterInstanceName := DBI_MasterInstanceName d; DBI_MaxDiskSize := DBI_MaxDiskSize d;
     DBI_Name := DBI_Name d; DBI_Project := DBI_Project d; DBI_Region := DBI_Region d;
     DBI_ReplicaNames := DBI_ReplicaNames d; DBI_RootPassword := DBI_RootPassword d;
     DBI_SecondaryGceZone := DBI_SecondaryGceZone d; DBI_SelfLink := DBI_SelfLink d;
     DBI_ServerCaCert := DBI_ServerCaCert d; DBI_Settings := Some s |}.
Definition emptyInstance : DatabaseInstance := decodeDatabaseInstance [].
Definition postgresWindows (timeConfig : StrategyTimeConfig) (instance : option DatabaseInstance)
  : DatabaseInstance :=
  let instance := default emptyInstance instance in
  let settings := default emptySettings (DBI_Settings instance) in
  let hour := Time_Hour (Time (MaintenanceStartTime timeConfig)) in
  setInstanceSettings
    (setSettingsWindows (reconcileWindow (gcpDay timeConfig) hour (ST_MaintenanceWindow settings))
       (reconcileBackup (backupStart timeConfig) (ST_BackupConfiguration settings)) settings)
    instance.

(** The first weekly window is always replaced, as its start is compared with the new
    one by address; a slice that is not nil may have no element. *)
Definition setRedisPolicy (p : option MaintenancePolicy) (i : RedisInstance) : RedisInstance :=
  {| RI_Name := RI_Name i; RI_Labels := RI_Labels i; RI_Tier := RI_Tier i;
     RI_ReadReplicasMode := RI_ReadReplicasMode i; RI_MemorySizeGb := RI_MemorySizeGb i;
     RI_AuthorizedNetwork := RI_AuthorizedNetwork i; RI_ConnectMode := RI_ConnectMode i;
     RI_ReservedIpRange := RI_ReservedIpRange i; RI_RedisVersion := RI_RedisVersion i;
     RI_RedisConfigs := RI_RedisConfigs i; RI_MaintenancePolicy := p; RI_State := RI_State i;
     RI_Host := RI_Host i; RI_Port := RI_Port i; RI_Other := RI_Other i |}.
Definition emptyRedisInstance : RedisInstance :=
  {| RI_Name := ""; RI_Labels := None; RI_Tier := 0; RI_ReadReplicasMode := 0;
     RI_MemorySizeGb := 0; RI_AuthorizedNetwork := ""; RI_ConnectMode := 0;
     RI_ReservedIpRange := ""; RI_RedisVersion := ""; RI_RedisConfigs := None;
     RI_MaintenancePolicy := None; RI_State := 0; RI_Host := ""; RI_Port := 0; RI_Other := [] |}.
Definition newRedisPolicy : MaintenancePolicy :=
  {| MP_WeeklyMaintenanceWindow := Some [None]; MP_Other := [] |}.
Definition redisWindows (timeConfig : StrategyTimeConfig) (req : CreateRedisInstanceRequest)
  : outcome error CreateRedisInstanceRequest :=
  let instance := default emptyRedisInstance (CRI_Instance req) in
  let policy := match RI_MaintenancePolicy instance with
                | Some p => match MP_WeeklyMaintenanceWindow p with
                            | Some _ => p | None => newRedisPolicy end
                | None => newRedisPolicy
                end in
  let start := Time (MaintenanceStartTime timeConfig) in
  match MP_WeeklyMaintenanceWindow policy with
  | Some (_ :: rest) =>
      let window := {| WMW_Day := gcpDay timeConfig;
                       WMW_StartTime := Some (Time_Hour start, Time_Minute start, 0, 0)%Z;
                       WMW_Duration := None |} in
      Val {| CRI_Parent := CRI_Parent req; CRI_InstanceId := CRI_InstanceId req;
             CRI_Instance := Some (setRedisPolicy
               (Some {| MP_WeeklyMaintenanceWindow := Some (Some window :: rest);
                        MP_Other := MP_Other policy |}) instance) |}
  | _ => out_of_range
  end.

(** ** The mapping of tiers *)

Definition marshalStrategy (s : option StrategyConfig) : json :=
  match s with
  | None => JNull
  | Some s => JObj [("region", JStr (Strategy_Region s)); ("projectID", JStr (Strategy_ProjectID s));
                    ("createStrategy", default JNull (Strategy_CreateStrategy s));
                    ("deleteStrategy", default JNull (Strategy_DeleteStrategy s))]
  end.
Definition marshalMapping (mapping : list (string * option StrategyConfig)) : string :=
  marshal (JObj (map (λ p, (p.1, marshalStrategy p.2)) (sortedMap mapping))).
Definition setCreateStrategy (raw : json) (s : StrategyConfig) : StrategyConfig :=
  {| Strategy_Region := Strategy_Region s; Strategy_ProjectID := Strategy_ProjectID s;
     Strategy_CreateStrategy := Some raw; Strategy_DeleteStrategy := Strategy_DeleteStrategy s |}.

(** The body that both functions share; [update] reads the create strategy of the tier
    and writes it again. *)
Definition reconcileStrategy (kind tier config : string)
    (update : option json → outcome error json) : outcome error string :=
  match unmarshalMappingOf decodeStrategyConfig config with
  | Er e => Err (WrapErr e ("failed to unmarshal strategy mapping for " +:+ kind +:+ " resource"))
  | Ok rawStrategy =>
      s ← load (lookupTier tier rawStrategy);
      raw ← match update (Strategy_CreateStrategy s) with
            | Err e => Err (WrapErr e ("failed to unmarshal gcp " +:+ kind +:+ " cluster config"))
            | o => o
            end;
      Val (marshalMapping (rawStrategy ++ [(tier, Some (setCreateStrategy raw s))]))
  end%stdpp.

Section Reconcile.
Context `{GcpTypes} `{MessageCodec}.

Definition updatePostgres (timeConfig : StrategyTimeConfig) (raw : option json) : outcome error json :=
  match unmarshalStruct CreateInstanceRequestFields raw with
  | Er e => Err e
  | Ok members => Val (encodeCreateInstanceRequest
                         (Some (postgresWindows timeConfig (decodeCreateInstanceRequest None members))))
  end.
Definition reconcilePostgresStrategy (tier config : string) (timeConfig : StrategyTimeConfig)
  : outcome error string :=
  reconcileStrategy "postgres" tier config (updatePostgres timeConfig).

Definition updateRedis (timeConfig : StrategyTimeConfig) (raw : option json) : outcome error json :=
  match raw with
  | None => Err (GoErr "unexpected end of JSON input")
  | Some raw => match decodeCreateRedisInstanceRequest raw with
                | Er e => Err e
                | Ok req => req' ← redisWindows timeConfig req;
                            Val (marshalCreateRedisInstanceRequest req')
                end
  end%stdpp.
Definition reconcileRedisStrategy (tier config : string) (timeConfig : StrategyTimeConfig)
  : outcome error string :=
  reconcileStrategy "redis" tier config (updateRedis timeConfig).

(** ** The config map *)

Definition defaultGcpStratValue : string := quoted "{`development`: { `region`: ``, `projectID`: ``, `createStrategy`: {}, `deleteStrategy`: {} }, `production`: { `region`: ``, `projectID`: ``, `createStrategy`: {}, `deleteStrategy`: {} }}".
Definition withDefaults (data : gmap string string) : gmap string string :=
  let data := if bool_decide (data = ∅) then BuildDefaultConfigMap else data in
  ensureKey RedisStratKey defaultGcpStratValue (ensureKey PostgresStratKey defaultGcpStratValue data).
Definition mutateStrategies (tier : string) (timeConfig : StrategyTimeConfig)
    (data : gmap string string) : outcome error (gmap string string) :=
  let data := withDefaults data in
  match reconcilePostgresStrategy tier (default "" (data !! PostgresStratKey)) timeConfig with
  | Err e => Err (WrapErr e "failed to reconcile postgres strategy")
  | Panic w => Panic w
  | Val postgresStrategy =>
      match reconcileRedisStrategy tier (default "" (data !! RedisStratKey)) timeConfig with
      | Err e => Err (WrapErr e "failed to reconcile redis strategy")
      | Panic w => Panic w
      | Val redisStrategy =>
          Val (<[RedisStratKey := redisStrategy]> (<[PostgresStratKey := postgresStrategy]> data))
      end
  end.
Definition ReconcileStrategyMap {S} (p : StrategyProvider) (timeConfig : StrategyTimeConfig)
  : M S error unit :=
  CreateOrUpdateConfigMap DefaultConfigMapName (StrategyProvider_Namespace p) ∅
    (mutateStrategies (StrategyProvider_Tier p) timeConfig)
    onError (λ err, GoErr ("failed to update gcp strategy config map : " +:+ Error err)).

(** strategies.go *)
Definition ReconcileStrategyMaps {S} (timeConfig : StrategyTimeConfig) (tier namespace : string)
  : M S error unit :=
  platformType ← GetPlatformType;
  let p := {| StrategyProvider_Tier := tier; StrategyProvider_Namespace := namespace |} in
  reconcile ← (if bool_decide (platformType = "AWS")
               then mret (Strategies.ReconcileStrategyMap (S := S) p)
               else if bool_decide (platformType = "GCP")
               then mret (ReconcileStrategyMap (S := S) p)
               else fail (GoErr "Unsupported platform type"));
  reconcile timeConfig orWrap ("failed to reconcile " +:+ platformType +:+ " strategy map").
End Reconcile.
