(* ===== verification/Footprints.v ===== *)
(** * Which calls the parts of a provider make

    The network provider, the credentials and the metrics never touch the
    instances, and most helpers only read.  These lemmas let the theorems about a
    provider skip the parts that do not make the call they are about. *)
From S2P Require Import Prelude Effects Json Api Resources Metrics.
From S2P Require Import Subnets ClusterVpc NetworkProvider NetworkProps AwsConfig AwsPostgres AwsRedis.
Local Open Scope go_scope.

(** The relation that says nothing about the object. *)
Definition anyCR : CR → CR → Prop := λ _ _, True.
#[export] Instance anyCR_preorder : PreOrder anyCR.
Proof. done. Qed.

(** ** Reading *)

Section Config.
Context {S : Type}.
Lemma ro_ReadStorageStrategy m rt tier : readonly (ReadStorageStrategy (S := S) m rt tier).
Proof. unfold ReadStorageStrategy, getTierStrategyForProvider, tierStrategy. go_sat. Qed.
Lemma ro_GetRegionFromStrategyOrDefault c :
  readonly (GetRegionFromStrategyOrDefault (S := S) c).
Proof. unfold GetRegionFromStrategyOrDefault, getDefaultRegion. go_sat. Qed.
#[local] Hint Resolve ro_GetRegionFromStrategyOrDefault ro_ReadStorageStrategy : sat.
Lemma ro_IsRunModeLocal {E} : readonly (IsRunModeLocal (S := S) (E := E)).
Proof. unfold IsRunModeLocal. go_sat. Qed.
#[local] Hint Resolve ro_IsRunModeLocal : sat.
Lemma ro_GetOperatorNamespace : readonly (GetOperatorNamespace (S := S)).
Proof. unfold GetOperatorNamespace, GetWatchNamespace. go_sat. Qed.
#[local] Hint Resolve ro_GetOperatorNamespace : sat.
Lemma ro_getSTSCredentialsSecret ns : readonly (getSTSCredentialsSecret (S := S) ns).
Proof. unfold getSTSCredentialsSecret. go_sat. Qed.
#[local] Hint Resolve ro_getSTSCredentialsSecret : sat.
Lemma ro_isSTSCluster {E} : readonly (isSTSCluster (S := S) (E := E)).
Proof. unfold isSTSCluster. go_sat. Qed.
Lemma ro_mustSession r c : readonly (mustSession (S := S) r c).
Proof. unfold mustSession. go_sat. Qed.
#[local] Hint Resolve ro_mustSession : sat.
Lemma ro_CreateSessionFromStrategy c st : readonly (CreateSessionFromStrategy (S := S) c st).
Proof. unfold CreateSessionFromStrategy. go_sat. Qed.
Lemma ro_ReconcileNetworkProviderConfig m tier :
  readonly (ReconcileNetworkProviderConfig (S := S) m tier).
Proof. unfold ReconcileNetworkProviderConfig. go_sat. Qed.
Lemma ro_BuildTimestampedCreation om n :
  readonly (BuildTimestampedInfraNameFromObjectCreation (S := S) om n).
Proof. unfold BuildTimestampedInfraNameFromObjectCreation. go_sat. Qed.
Lemma ro_GeneratePassword : readonly (GeneratePassword (S := S)).
Proof. unfold GeneratePassword. go_sat. Qed.
End Config.
#[export] Hint Resolve ro_ReadStorageStrategy ro_GetRegionFromStrategyOrDefault ro_IsRunModeLocal
  ro_GetOperatorNamespace ro_getSTSCredentialsSecret ro_isSTSCluster
  ro_CreateSessionFromStrategy ro_ReconcileNetworkProviderConfig ro_BuildTimestampedCreation
  ro_GeneratePassword : sat.

Section Postgres.
Context {S : Type}.
Lemma ro_getRDSInstances : readonly (getRDSInstances (S := S)).
Proof. unfold getRDSInstances. apply ro_poll. go_sat. Qed.
Lemma ro_getRDSConfig p r : readonly (getRDSConfig (S := S) p r).
Proof. unfold getRDSConfig. go_sat. Qed.
Lemma ro_getDefaultRdsTags cr : readonly (getDefaultRdsTags (S := S) cr).
Proof. unfold getDefaultRdsTags. go_sat. Qed.
Lemma ro_buildInstanceName pg : readonly (buildInstanceName (S := S) pg).
Proof. unfold buildInstanceName. go_sat. Qed.
#[local] Hint Resolve ro_getDefaultRdsTags ro_buildInstanceName : sat.
Lemma ro_buildRDSCreateStrategy pg cfg w : readonly (buildRDSCreateStrategy (S := S) pg cfg w).
Proof. unfold buildRDSCreateStrategy. go_sat. Qed.
Lemma ro_buildRDSDeleteConfig pg c d : readonly (buildRDSDeleteConfig (S := S) pg c d).
Proof. unfold buildRDSDeleteConfig. go_sat. Qed.
Lemma ro_buildDefaultRDSSecret pg : readonly (buildDefaultRDSSecret (S := S) pg).
Proof. unfold buildDefaultRDSSecret. go_sat. Qed.
Lemma ro_buildRDSTagCreateStrategy cr cfg :
  readonly (buildRDSTagCreateStrategy (S := S) cr cfg).
Proof. unfold buildRDSTagCreateStrategy. go_sat. Qed.
Lemma ro_instanceNameOrEmpty {E} cr : readonly (instanceNameOrEmpty (S := S) (E := E) cr).
Proof. unfold instanceNameOrEmpty. go_sat. Qed.
End Postgres.
#[export] Hint Resolve ro_getRDSInstances ro_getRDSConfig ro_getDefaultRdsTags
  ro_buildInstanceName ro_buildRDSCreateStrategy ro_buildRDSDeleteConfig
  ro_buildDefaultRDSSecret ro_buildRDSTagCreateStrategy ro_instanceNameOrEmpty : sat.

Section Redis.
Context {S : Type}.
Lemma ro_getReplicationGroups : readonly (getReplicationGroups (S := S)).
Proof. unfold getReplicationGroups. apply ro_poll. go_sat. Qed.
Lemma ro_getElasticacheConfig p r : readonly (getElasticacheConfig (S := S) p r).
Proof. unfold getElasticacheConfig. go_sat. Qed.
Lemma ro_getDefaultElasticacheTags cr : readonly (getDefaultElasticacheTags (S := S) cr).
Proof. unfold getDefaultElasticacheTags. go_sat. Qed.
Lemma ro_buildCacheName r : readonly (buildCacheName (S := S) r).
Proof. unfold buildCacheName. go_sat. Qed.
#[local] Hint Resolve ro_getDefaultElasticacheTags ro_buildCacheName : sat.
Lemma ro_buildElasticacheCreateStrategy r cfg :
  readonly (buildElasticacheCreateStrategy (S := S) r cfg).
Proof. unfold buildElasticacheCreateStrategy. go_sat. Qed.
Lemma ro_buildElasticacheDeleteConfig r c d :
  readonly (buildElasticacheDeleteConfig (S := S) r c d).
Proof. unfold buildElasticacheDeleteConfig. go_sat. Qed.
Lemma ro_buildElasticacheUpdateStrategy `{ThirdParty} cfg g cs r :
  readonly (buildElasticacheUpdateStrategy (S := S) cfg g cs r).
Proof. unfold buildElasticacheUpdateStrategy, nodeTypeChange. go_sat. Qed.
Lemma ro_buildRedisTagCreateStrategy cr cfg :
  readonly (buildRedisTagCreateStrategy (S := S) cr cfg).
Proof. unfold buildRedisTagCreateStrategy. go_sat. Qed.
Lemma ro_cacheNameOrEmpty {E} cr : readonly (cacheNameOrEmpty (S := S) (E := E) cr).
Proof. unfold cacheNameOrEmpty. go_sat. Qed.
End Redis.
#[export] Hint Resolve ro_getReplicationGroups ro_getElasticacheConfig
  ro_getDefaultElasticacheTags ro_buildCacheName ro_buildElasticacheCreateStrategy
  ro_buildElasticacheDeleteConfig ro_buildElasticacheUpdateStrategy
  ro_buildRedisTagCreateStrategy ro_cacheNameOrEmpty : sat.

(** ** Metrics *)

(** Reading calls and calls that set a metric. *)
Definition metricCall (c : call) : Prop :=
  reads c = true ∨
  match (c : api_call) with
  | SetMetric _ _ _ | SetMetricCurrentTime _ _ => True
  | _ => False
  end.
Lemma metricCall_reads : reads_ok metricCall.
Proof. intros c H. by left. Qed.
#[export] Hint Resolve metricCall_reads : sat.
#[export] Hint Extern 1 (metricCall _) => right; exact I : sat.

Section Metrics.
Context {S E : Type}.
Lemma mc_setPostgresMaxMemoryMetric l g :
  sat metricCall eq (setPostgresMaxMemoryMetric (S := S) (E := E) l g).
Proof. unfold setPostgresMaxMemoryMetric. go_sat. Qed.
#[local] Hint Resolve mc_setPostgresMaxMemoryMetric : sat.
Lemma mc_exposePostgresMetrics cr i :
  sat metricCall eq (exposePostgresMetrics (S := S) (E := E) cr i).
Proof. unfold exposePostgresMetrics. go_sat. Qed.
Lemma mc_setPostgresDeletionTimestampMetric cr :
  sat metricCall eq (setPostgresDeletionTimestampMetric (S := S) (E := E) cr).
Proof. unfold setPostgresDeletionTimestampMetric. go_sat. Qed.
Lemma mc_setPostgresServiceMaintenanceMetric i :
  sat metricCall eq (setPostgresServiceMaintenanceMetric (S := S) (E := E) i).
Proof. unfold setPostgresServiceMaintenanceMetric. go_sat. Qed.
Lemma mc_createRDSConnectionMetric cr i :
  sat metricCall eq (createRDSConnectionMetric (S := S) (E := E) cr i).
Proof. unfold createRDSConnectionMetric. go_sat. Qed.
Lemma mc_exposeRedisMetrics cr i :
  sat metricCall eq (exposeRedisMetrics (S := S) (E := E) cr i).
Proof. unfold exposeRedisMetrics. go_sat. Qed.
Lemma mc_setRedisDeletionTimestampMetric cr :
  sat metricCall eq (setRedisDeletionTimestampMetric (S := S) (E := E) cr).
Proof. unfold setRedisDeletionTimestampMetric. go_sat. Qed.
Lemma mc_setRedisServiceMaintenanceMetric i :
  sat metricCall eq (setRedisServiceMaintenanceMetric (S := S) (E := E) i).
Proof. unfold setRedisServiceMaintenanceMetric. go_sat. Qed.
Lemma mc_createElasticacheConnectionMetric cr i :
  sat metricCall eq (createElasticacheConnectionMetric (S := S) (E := E) cr i).
Proof. unfold createElasticacheConnectionMetric. go_sat. Qed.
End Metrics.
#[export] Hint Resolve mc_exposeRedisMetrics mc_setRedisDeletionTimestampMetric
  mc_setRedisServiceMaintenanceMetric mc_createElasticacheConnectionMetric : sat.
#[export] Hint Resolve mc_exposePostgresMetrics mc_setPostgresDeletionTimestampMetric
  mc_setPostgresServiceMaintenanceMetric mc_createRDSConnectionMetric : sat.

(** ** The network *)

(** Everything but the calls on instances, replication groups, custom resources,
    secrets and credentials requests. *)
Definition networkCall (c : call) : Prop :=
  match (c : api_call) with
  | CreateDBInstance _ | DeleteDBInstance _ | ModifyDBInstance _
  | ApplyPendingMaintenanceAction _ _ _
  | CreateReplicationGroup _ | DeleteReplicationGroup _ | ModifyReplicationGroup _
  | BatchApplyUpdateAction _ _ | EC_AddTagsToResource _ _
  | UpdateCR _ | StatusUpdateCR _ | CreateSecret _ | UpdateSecret _ | DeleteSecret _ _
  | CreateCredentialsRequest _ | UpdateCredentialsRequest _ | DeleteCredentialsRequest _ _
  | CreateDBSnapshot _ _ _ | DeleteDBSnapshot _ | CreateSnapshot _ _ _ | DeleteSnapshot _
  | CreateBucket _ | DeleteBucket _ | BatchDelete _ | PutPublicAccessBlock _ _ _ _ _
  | PutBucketEncryption _ _ | PutBucketTagging _ _ | UpdateSnapshotCR _
  | StatusUpdateSnapshotCR _ | CreateSnapshotCR _ _ _ _ | DeleteSnapshotCR _
  | CreateConfigMap _ _ _ | UpdateConfigMap _ _ _ => False
  | _ => True
  end.
Lemma networkCall_reads : reads_ok networkCall.
Proof. intros c. by destruct c. Qed.
#[export] Hint Resolve networkCall_reads : sat.
#[export] Hint Extern 1 (networkCall _) => exact I : sat.
Lemma reconcileCall_network c : reconcileCall c → networkCall c.
Proof. by destruct c; intros []. Qed.

Section Network.
Context {S : Type} `{ThirdParty} (sts : bool).

Lemma nc_CreateNetwork block : sat networkCall eq (CreateNetwork (S := S) sts block).
Proof.
  unfold CreateNetwork.
  assert (∀ A (m : M S error A), sat reconcileCall eq m → sat networkCall eq m) as W
    by (intros A m Hm; eapply sat_weaken; [exact Hm|apply reconcileCall_network]).
  unfold createStandaloneVpc, createVpcFailed, waitForVpc, SetVpcAction, ResetVpcAction.
  go_sat; apply W; go_sat.
Qed.
Lemma nc_CreateNetworkPeering n : sat networkCall eq (CreateNetworkPeering (S := S) sts n).
Proof. unfold CreateNetworkPeering, ensureTags. go_sat. Qed.
Lemma nc_reconcileStandaloneSecurityGroup :
  sat networkCall eq (reconcileStandaloneSecurityGroup (S := S) sts).
Proof. unfold reconcileStandaloneSecurityGroup. go_sat. Qed.
#[local] Hint Resolve nc_reconcileStandaloneSecurityGroup : sat.
Lemma nc_CreateNetworkConnection n : sat networkCall eq (CreateNetworkConnection (S := S) sts n).
Proof. unfold CreateNetworkConnection, addClusterRoute. go_sat. Qed.
Lemma nc_DeleteNetworkConnection np : sat networkCall eq (DeleteNetworkConnection (S := S) np).
Proof. unfold DeleteNetworkConnection. go_sat. Qed.
Lemma nc_DeleteNetworkPeering np : sat networkCall eq (DeleteNetworkPeering (S := S) np).
Proof. unfold DeleteNetworkPeering. go_sat. Qed.
Lemma nc_DeleteNetwork : sat networkCall eq (DeleteNetwork (S := S)).
Proof. unfold DeleteNetwork. go_sat. Qed.
Lemma nc_DeleteBundledCloudResources : sat networkCall eq (DeleteBundledCloudResources (S := S)).
Proof. unfold DeleteBundledCloudResources, deleteIgnoring. go_sat. Qed.
Lemma nc_createFirstFree vpcId zone subs :
  sat networkCall eq (createFirstFree (S := S) vpcId zone subs).
Proof. induction subs as [|ip subs IH]; simpl; unfold tagPrivateSubnet; go_sat. Qed.
#[local] Hint Resolve nc_createFirstFree : sat.
Lemma nc_GetPrivateSubnetIDS : sat networkCall eq (GetPrivateSubnetIDS (S := S)).
Proof. unfold GetPrivateSubnetIDS, createPrivateSubnet. go_sat. Qed.
#[local] Hint Resolve nc_GetPrivateSubnetIDS : sat.
Lemma nc_configureSecurityGroup : sat networkCall eq (configureSecurityGroup (S := S)).
Proof. unfold configureSecurityGroup. go_sat. Qed.
Lemma nc_configureRDSVpc : sat networkCall eq (configureRDSVpc (S := S)).
Proof. unfold configureRDSVpc. go_sat. Qed.
Lemma nc_configureElasticacheVpc : sat networkCall eq (configureElasticacheVpc (S := S)).
Proof. unfold configureElasticacheVpc. go_sat. Qed.
End Network.
#[export] Hint Resolve nc_CreateNetwork nc_CreateNetworkPeering nc_CreateNetworkConnection
  nc_DeleteNetworkConnection nc_DeleteNetworkPeering nc_DeleteNetwork
  nc_DeleteBundledCloudResources nc_GetPrivateSubnetIDS nc_configureSecurityGroup
  nc_configureRDSVpc nc_configureElasticacheVpc : sat.

(** ** Credentials and secrets *)

Definition credentialCall (c : call) : Prop :=
  match (c : api_call) with
  | CreateSecret _ | UpdateSecret _
  | CreateCredentialsRequest _ | UpdateCredentialsRequest _ => True
  | _ => reads c = true
  end.
Lemma credentialCall_reads : reads_ok credentialCall.
Proof. intros c. by destruct c. Qed.
#[export] Hint Resolve credentialCall_reads : sat.

Section Credentials.
Context {S : Type}.
Lemma cc_applyCredentialRequest name ns spec :
  sat credentialCall eq (applyCredentialRequest (S := S) name ns spec).
Proof. unfold applyCredentialRequest. go_sat. Qed.
Lemma ro_awaitCredentialRequest cr : readonly (awaitCredentialRequest (S := S) cr).
Proof. apply ro_poll. go_sat. Qed.
#[local] Hint Resolve cc_applyCredentialRequest : sat.
Context `{ThirdParty}.
Lemma cc_reconcileCredentialRequest name ns entries :
  sat credentialCall eq (reconcileCredentialRequest (S := S) name ns entries).
Proof. unfold reconcileCredentialRequest. go_sat. Qed.
#[local] Hint Resolve cc_reconcileCredentialRequest : sat.
Lemma ro_reconcileAWSCredentials cr : readonly (reconcileAWSCredentials (S := S) cr).
Proof. unfold reconcileAWSCredentials. go_sat. Qed.
#[local] Hint Resolve ro_reconcileAWSCredentials : sat.
Lemma cc_reconcileCredentials name ns entries :
  sat credentialCall eq (reconcileCredentials (S := S) name ns entries).
Proof.
  unfold reconcileCredentials. go_sat.
  eapply sat_weaken; [apply ro_awaitCredentialRequest|apply credentialCall_reads].
Qed.
#[local] Hint Resolve cc_reconcileCredentials : sat.
Lemma cc_ReconcileProviderCredentials m ns :
  sat credentialCall eq (ReconcileProviderCredentials (S := S) m ns).
Proof. unfold ReconcileProviderCredentials, STS_ReconcileProviderCredentials. go_sat. Qed.
Lemma cc_CreateOrUpdateSecret sec :
  sat credentialCall eq (CreateOrUpdateSecret (S := S) sec mret).
Proof. unfold CreateOrUpdateSecret. go_sat. Qed.
End Credentials.
#[export] Hint Resolve cc_ReconcileProviderCredentials cc_CreateOrUpdateSecret : sat.

(** Everything but writing the resource. *)
Definition keepsCR (c : call) : Prop :=
  match (c : api_call) with UpdateCR _ => False | _ => True end.
Lemma keepsCR_reads : reads_ok keepsCR.
Proof. intros c. by destruct c. Qed.
#[export] Hint Resolve keepsCR_reads : sat.
#[export] Hint Extern 1 (keepsCR _) => exact I : sat.

(** ** Taking runs apart *)

Lemma sat_bind_assoc {S E A B C} (P : call → Prop) (R : S → S → Prop)
    (m : M S E A) (f : A → M S E B) (g : B → M S E C) :
  sat P R (mbind (λ a, mbind g (f a)) m) → sat P R (mbind g (mbind f m)).
Proof.
  intros Hf s tr o s' Hr. apply (Hf s tr o s'). clear Hf.
  unfold mbind, M_bind in *. apply runs_pbind in Hr as (t & [o1 s1] & t3 & -> & H1 & H3).
  apply runs_pbind in H1 as (t1 & [o0 s0] & t2 & -> & H1 & H2).
  apply runs_pbind. exists t1, (o0, s0), (t2 ++ t3). rewrite app_assoc. split_and!; [done|done|].
  destruct o0 as [a|e|w].
  - apply runs_pbind. by exists t2, (o1, s1), t3.
  - destruct H2 as [-> [= -> ->]]. exact H3.
  - destruct H2 as [-> [= -> ->]]. exact H3.
Qed.

(** Past a dereference the pointer is known not to be nil; [sat_bind_mret] does
    the same for a value. *)
Lemma sat_bind_mret {S E A B} (P : call → Prop) (R : S → S → Prop)
    (a : A) (f : A → M S E B) : sat P R (f a) → sat P R (mbind f (mret a)).
Proof. intros Hf s tr o s' Hr. rewrite runs_bind_mret in Hr. by eapply Hf. Qed.
Lemma sat_bind_deref {S E A B} (P : call → Prop) (R : S → S → Prop) `{!PreOrder R}
    (q : option A) (f : A → M S E B) :
  (∀ a, q = Some a → sat P R (f a)) → sat P R (mbind f (deref q)).
Proof.
  intros Hf. destruct q as [a|]; cbn [deref]; [by apply sat_bind_mret, Hf|].
  intros s tr o s' [(t1 & a & s1 & t2 & -> & H1 & H2)|[(e & H1 & _)|(w & H1 & _)]]%runs_bind;
    apply runs_panic in H1 as (-> & ? & ->); done.
Qed.

Lemma findByPtr_None {E A} (q : A → option string) k l x :
  findByPtr (E := E) q k l = Val None → x ∈ l → q x ≠ k.
Proof.
  intros Hf Hx. destruct l as [|y l]; [by apply not_elem_of_nil in Hx|].
  destruct k as [k|]; [|done]. by eapply findPtr_None.
Qed.
Lemma findByPtr_Some {E A} (q : A → option string) k l x :
  findByPtr (E := E) q k l = Val (Some x) → x ∈ l ∧ q x = k.
Proof.
  intros Hf. destruct l as [|y l]; [done|]. destruct k as [k|]; [|done].
  by apply findPtr_Some in Hf.
Qed.

(** What was done before the call of an event: the whole first part, when it does
    not make the call. *)
Lemma runs_bind_before {S E A B} (P : call → Prop) (R : S → S → Prop)
    (m : M S E A) (f : A → M S E B) s s' t1 e t2 o :
  runs (mbind f m s) (t1 ++ e :: t2) (o, s') → sat P R m → ¬ P (ev_call e) →
  ∃ ta a s1 t, t1 = ta ++ t ∧ runs (m s) ta (Val a, s1) ∧ R s s1 ∧
               runs (f a s1) (t ++ e :: t2) (o, s').
Proof.
  intros Hr Hm Hn.
  assert (∀ ta tb o1 s1, runs (m s) ta (o1, s1) → t1 ++ e :: t2 = ta ++ tb →
            ∃ t, t1 = ta ++ t ∧ tb = t ++ e :: t2) as Hsplit.
  { intros ta tb o1 s1 Hta Heq. destruct (Hm _ _ _ _ Hta) as [Hall _].
    apply app_eq_inv in Heq as [(k & -> & ->)|(k & -> & Heq)]; [eauto|].
    destruct k as [|x k]; cbn in Heq.
    - exists []. by rewrite !app_nil_r.
    - exfalso. injection Heq as <- ->. apply Forall_app in Hall as [_ Hall].
      by apply Forall_cons in Hall as [? _]. }
  apply runs_bind in Hr as [(ta & a & s1 & tb & Heq & H1 & H2)|[(x & H & _)|(w & H & _)]].
  - destruct (Hsplit _ _ _ _ H1 Heq) as (t & -> & ->). destruct (Hm _ _ _ _ H1) as [_ HR].
    by exists ta, a, s1, t.
  - destruct (Hsplit _ [] _ _ H) as (t & _ & Hnil); [by rewrite app_nil_r|]. by destruct t.
  - destruct (Hsplit _ [] _ _ H) as (t & _ & Hnil); [by rewrite app_nil_r|]. by destruct t.
Qed.

(** What comes before a call that only the first part makes. *)
Lemma runs_bind_before_first {S E A B} (P : call → Prop) (R : S → S → Prop)
    (m : M S E A) (f : A → M S E B) s s' t1 e t2 o :
  runs (mbind f m s) (t1 ++ e :: t2) (o, s') → (∀ a, sat P R (f a)) → ¬ P (ev_call e) →
  ∃ o1 s1 t3, t3 ⊆ t2 ∧ runs (m s) (t1 ++ e :: t3) (o1, s1).
Proof.
  intros Hr Hf Hn.
  apply runs_bind in Hr as [(ta & a & s1 & tb & Heq & H1 & H2)|[(x & H & _)|(w & H & _)]];
    [|by eexists _, _, t2|by eexists _, _, t2].
  apply Hf in H2 as [Hall _].
  assert (e ∉ tb) as He.
  { intros He. rewrite Forall_forall in Hall. by apply Hn, Hall. }
  apply app_eq_inv in Heq as [(k & -> & ->)|(k & -> & Heq)].
  - exfalso. apply He. ev_in.
  - destruct k as [|x k]; cbn in Heq; [exfalso; apply He; rewrite <- Heq; constructor|].
    injection Heq as <- ->. eexists _, _, k. split; [|exact H1]. intros y Hy. ev_in.
Qed.

(** A call is made by the first part of a run or by the rest. *)
Lemma runs_bind_or {S E A B} (P : call → Prop) (m : M S E A) (f : A → M S E B) s s' tr o e :
  runs (mbind f m s) tr (o, s') → e ∈ tr → sat P eq m →
  (∃ t o1, t ⊆ tr ∧ runs (m s) t (o1, s) ∧ e ∈ t) ∨
  (∃ t1 a t2, tr = t1 ++ t2 ∧ runs (m s) t1 (Val a, s) ∧ runs (f a s) t2 (o, s') ∧ e ∈ t2).
Proof.
  intros [(t1 & a & s1 & t2 & -> & H1 & H2)|[(x & H & _)|(w & H & _)]]%runs_bind He Hm.
  - destruct (Hm _ _ _ _ H1) as [_ <-]. apply elem_of_app in He as [He|He].
    + left. exists t1, (Val a). split_and!; [|done..]. intros y Hy. ev_in.
    + right. by exists t1, a, t2.
  - left. destruct (Hm _ _ _ _ H) as [_ <-]. by exists tr, (Err x).
  - left. destruct (Hm _ _ _ _ H) as [_ <-]. by exists tr, (Panic w).
Qed.

(** [skip_calls] when the call does not satisfy [P] by the hypothesis [Hn]. *)
Ltac skip_calls_not P H He Hn v Hv :=
  let t1 := fresh "t" in let s1 := fresh "s" in let t2 := fresh "t" in
  let H2 := fresh "Hrest" in let He2 := fresh "Hin" in
  eapply (runs_bind_skip P eq) in H;
  [ destruct H as (t1 & v & s1 & t2 & -> & Hv & <- & H2 & He2);
    clear He; rename H2 into H; rename He2 into He; cbv beta in H
  | exact He | solve [go_sat] | exact Hn ].

(** The first part of the run [H] comes before the call of the event. *)
Ltac before P H Hn v Hv :=
  let t1 := fresh "t" in let s1 := fresh "s" in let t2 := fresh "t" in
  let H2 := fresh "Hrest" in
  eapply (runs_bind_before P eq) in H;
  [ destruct H as (t1 & v & s1 & t2 & -> & Hv & <- & H2); rename H2 into H; cbv beta in H
  | solve [go_sat] | exact Hn ].

(** The deferred metrics do not make the call of the event [He]. *)
Ltac skip_deferred H He Hm :=
  let t := fresh "t" in let o := fresh "o" in let s := fresh "s" in
  let Hsub := fresh "Hsub" in let H2 := fresh "Hrest" in let He2 := fresh "Hin" in
  eapply (runs_defer_skip metricCall eq) in H;
  [ destruct H as (t & o & s & Hsub & H2 & He2);
    clear He; rename H2 into H; rename He2 into He
  | exact He | solve [go_sat] | exact Hm ].

(** [skip_calls_not] that keeps which calls the first part made. *)
Ltac split_calls P H He Hn v Hall :=
  let t1 := fresh "t" in let s1 := fresh "s" in let t2 := fresh "t" in
  let H2 := fresh "Hrest" in let He2 := fresh "Hin" in
  eapply (runs_bind_split P eq) in H;
  [ destruct H as (t1 & v & s1 & t2 & -> & Hall & <- & H2 & He2);
    clear He; rename H2 into H; rename He2 into He; cbv beta in H
  | exact He | solve [go_sat] | exact Hn ].

(** [val_call P H v Hv]: the first part of the run [H] that succeeds. *)
Ltac val_call P H v Hv :=
  let t1 := fresh "t" in let s1 := fresh "s" in let t2 := fresh "t" in
  let H2 := fresh "Hrest" in
  eapply (runs_bind_same P) in H;
  [ destruct H as (t1 & v & t2 & -> & Hv & H2);
    rename H2 into H; cbv beta in H
  | solve [go_sat] ].
