(* ===== verification/AwsPostgresProps.v ===== *)
(** * Properties of the RDS provider

    The decision to modify an instance; the creation, the modification and the
    deletion of an instance in every environment. *)
From S2P Require Import Prelude Effects GoNet Json Api Resources Metrics.
From S2P Require Import Subnets ClusterVpc NetworkProvider NetworkProps AwsConfig AwsPostgres.
From S2P Require Import Footprints.
Local Open Scope go_scope.

(** ** The decision to modify an instance *)

(** The fields of a completed configuration, and of an instance that AWS reports,
    that are read without a check. *)
Definition complete (cfg : CreateDBInstanceInput) : Prop :=
  is_Some (CI_DBInstanceIdentifier cfg) ∧ is_Some (CI_DeletionProtection cfg) ∧
  is_Some (CI_Port cfg) ∧ is_Some (CI_BackupRetentionPeriod cfg) ∧
  is_Some (CI_DBInstanceClass cfg) ∧ is_Some (CI_PubliclyAccessible cfg) ∧
  is_Some (CI_MaxAllocatedStorage cfg) ∧ is_Some (CI_MultiAZ cfg) ∧
  is_Some (CI_EngineVersion cfg).
Definition reported (i : DBInstance) : Prop :=
  is_Some (DB_DBInstanceIdentifier i) ∧ is_Some (DB_CACertificateIdentifier i) ∧
  is_Some (DB_DeletionProtection i) ∧
  (∀ ep, DB_Endpoint i = Some ep → is_Some (Endpoint_Port ep)) ∧
  is_Some (DB_BackupRetentionPeriod i) ∧ is_Some (DB_DBInstanceClass i) ∧
  is_Some (DB_PubliclyAccessible i) ∧ is_Some (DB_MaxAllocatedStorage i) ∧
  is_Some (DB_MultiAZ i) ∧ is_Some (DB_AutoMinorVersionUpgrade i) ∧
  is_Some (DB_PreferredBackupWindow i) ∧ is_Some (DB_PreferredMaintenanceWindow i) ∧
  is_Some (DB_EngineVersion i).

(** [want] is nil or the same as [found]. *)
Definition agrees {A} (want found : option A) : Prop := ∀ v, want = Some v → found = Some v.

(** The instance is as the configuration asks. *)
Definition conforms `{ThirdParty} (cfg : CreateDBInstanceInput) (i : DBInstance) : Prop :=
  DB_CACertificateIdentifier i ≠ Some existingCert ∧
  CI_DeletionProtection cfg = DB_DeletionProtection i ∧
  (∀ ep, DB_Endpoint i = Some ep → CI_Port cfg = Endpoint_Port ep) ∧
  CI_BackupRetentionPeriod cfg = DB_BackupRetentionPeriod i ∧
  CI_DBInstanceClass cfg = DB_DBInstanceClass i ∧
  CI_PubliclyAccessible cfg = DB_PubliclyAccessible i ∧
  CI_MaxAllocatedStorage cfg = DB_MaxAllocatedStorage i ∧
  CI_MultiAZ cfg = DB_MultiAZ i ∧
  agrees (CI_AutoMinorVersionUpgrade cfg) (DB_AutoMinorVersionUpgrade i) ∧
  agrees (CI_PreferredBackupWindow cfg) (DB_PreferredBackupWindow i) ∧
  agrees (CI_PreferredMaintenanceWindow cfg) (DB_PreferredMaintenanceWindow i) ∧
  engineUpgrade cfg i = Val None.

(** The value of a field in the modify input. *)
Definition change {A} `{EqDecision A} (want found : option A) : option A :=
  match want, found with
  | Some w, Some f => if bool_decide (w ≠ f) then Some w else None
  | _, _ => None
  end.

Lemma differs_change {A} `{EqDecision A} (want found : option A) :
  is_Some want → is_Some found → differs want found = Val (change want found).
Proof. by intros [w ->] [f ->]. Qed.
Lemma differsIfSet_change {A} `{EqDecision A} (want found : option A) :
  is_Some found → differsIfSet want found = Val (change want found).
Proof. intros [f ->]. by destruct want. Qed.
Lemma change_set {A} `{EqDecision A} (want found : option A) :
  is_Some found → (isSet (change want found) = false ↔ agrees want found).
Proof.
  intros [f ->]. unfold agrees. destruct want as [w|]; simpl; [|naive_solver].
  case_bool_decide; simpl; naive_solver.
Qed.
Lemma agrees_eq {A} (want found : option A) : is_Some want → (agrees want found ↔ want = found).
Proof. intros [w ->]. unfold agrees. naive_solver. Qed.

(** The modify input for a complete configuration and a reported instance. *)
Definition modifyInput (cfg : CreateDBInstanceInput) (i : DBInstance) (cr : CR)
    (engineVersion : option string) : ModifyDBInstanceInput := {|
  MI_DBInstanceIdentifier := DB_DBInstanceIdentifier i;
  MI_CACertificateIdentifier :=
    if bool_decide (DB_CACertificateIdentifier i = Some existingCert) then Some newCert else None;
  MI_DeletionProtection := change (CI_DeletionProtection cfg) (DB_DeletionProtection i);
  MI_DBPortNumber := change (CI_Port cfg) (ep ← DB_Endpoint i; Endpoint_Port ep);
  MI_BackupRetentionPeriod := change (CI_BackupRetentionPeriod cfg) (DB_BackupRetentionPeriod i);
  MI_DBInstanceClass := change (CI_DBInstanceClass cfg) (DB_DBInstanceClass i);
  MI_PubliclyAccessible := change (CI_PubliclyAccessible cfg) (DB_PubliclyAccessible i);
  MI_MaxAllocatedStorage := change (CI_MaxAllocatedStorage cfg) (DB_MaxAllocatedStorage i);
  MI_MultiAZ := change (CI_MultiAZ cfg) (DB_MultiAZ i);
  MI_AutoMinorVersionUpgrade :=
    change (CI_AutoMinorVersionUpgrade cfg) (DB_AutoMinorVersionUpgrade i);
  MI_PreferredBackupWindow := change (CI_PreferredBackupWindow cfg) (DB_PreferredBackupWindow i);
  MI_PreferredMaintenanceWindow :=
    change (CI_PreferredMaintenanceWindow cfg) (DB_PreferredMaintenanceWindow i);
  MI_EngineVersion := engineVersion;
  MI_AllowMajorVersionUpgrade := if isSet engineVersion then Some true else None;
  MI_ApplyImmediately :=
    if isSet engineVersion && Spec_ApplyImmediately (CR_Spec cr) then Some true else None |}.
Definition anyChange (mi : ModifyDBInstanceInput) : bool :=
  isSet (MI_CACertificateIdentifier mi) || isSet (MI_DeletionProtection mi) ||
  isSet (MI_DBPortNumber mi) || isSet (MI_BackupRetentionPeriod mi) ||
  isSet (MI_DBInstanceClass mi) || isSet (MI_PubliclyAccessible mi) ||
  isSet (MI_MaxAllocatedStorage mi) || isSet (MI_MultiAZ mi) ||
  isSet (MI_AutoMinorVersionUpgrade mi) || isSet (MI_PreferredBackupWindow mi) ||
  isSet (MI_PreferredMaintenanceWindow mi) || isSet (MI_EngineVersion mi).

Section Update.
Context `{ThirdParty}.
Implicit Types (cfg : CreateDBInstanceInput) (i : DBInstance) (cr : CR).

Lemma buildRDSUpdateStrategy_eq cfg i cr :
  complete cfg → reported i →
  buildRDSUpdateStrategy cfg i cr =
  match engineUpgrade cfg i with
  | Val ev =>
      let mi := modifyInput cfg i cr ev in
      Val (if (negb (anyChange mi) ||
               negb (verifyPendingModification mi (DB_PendingModifiedValues i))) &&
              negb (default false (MI_ApplyImmediately mi))
           then None else Some mi)
  | Err e => Err e
  | Panic w => Panic w
  end.
Proof.
  intros (Cid & Cdp & Cp & Cb & Cc & Cpa & Cm & Cmz & _)
         (Rid & [cert Rca] & Rdp & Rep & Rb & Rc & Rpa & Rm & Rmz & Ra & Rpb & Rpm & _).
  unfold buildRDSUpdateStrategy. destruct Rid as [id Eid]. rewrite Eid, Rca.
  rewrite !differs_change, !differsIfSet_change by done.
  assert ((match DB_Endpoint i with
           | Some ep => differs (CI_Port cfg) (Endpoint_Port ep)
           | None => mret None
           end : outcome error (option Z)) =
          Val (change (CI_Port cfg) (ep ← DB_Endpoint i; Endpoint_Port ep))) as ->.
  { destruct (DB_Endpoint i) as [ep|]; simpl.
    - by apply differs_change, Rep.
    - by destruct (CI_Port cfg). }
  cbn -[engineUpgrade change verifyPendingModification].
  destruct (engineUpgrade cfg i) as [ev| |]; [|done..].
  cbn -[change verifyPendingModification]. unfold modifyInput, anyChange. cbn -[change verifyPendingModification].
  rewrite Eid, Rca.
  rewrite (bool_decide_ext (Some cert = Some existingCert) (cert = existingCert))
    by (split; [by intros [= ->]|by intros ->]).
  by destruct (_ && _).
Qed.

Lemma anyChange_conforms cfg i cr :
  complete cfg → reported i →
  (anyChange (modifyInput cfg i cr None) = false ∧ engineUpgrade cfg i = Val None
   ↔ conforms cfg i).
Proof.
  intros (_ & Cdp & Cp & Cb & Cc & Cpa & Cm & Cmz & _)
         (_ & [cert Rca] & Rdp & Rep & Rb & Rc & Rpa & Rm & Rmz & Ra & Rpb & Rpm & _).
  unfold anyChange, modifyInput, conforms. cbn -[change engineUpgrade].
  rewrite !orb_false_iff.
  assert (isSet (change (CI_Port cfg) (ep ← DB_Endpoint i; Endpoint_Port ep)) = false ↔
          ∀ ep, DB_Endpoint i = Some ep → CI_Port cfg = Endpoint_Port ep) as ->.
  { destruct (DB_Endpoint i) as [ep|] eqn:Ee; simpl.
    - rewrite change_set by (by apply Rep). rewrite agrees_eq by done. naive_solver.
    - split; [done|]. by destruct (CI_Port cfg). }
  rewrite !change_set by done.
  rewrite (agrees_eq (CI_DeletionProtection cfg)), (agrees_eq (CI_BackupRetentionPeriod cfg)),
    (agrees_eq (CI_DBInstanceClass cfg)), (agrees_eq (CI_PubliclyAccessible cfg)),
    (agrees_eq (CI_MaxAllocatedStorage cfg)), (agrees_eq (CI_MultiAZ cfg)) by done.
  assert (isSet (if bool_decide (DB_CACertificateIdentifier i = Some existingCert)
                 then Some newCert else None) = false ↔
          DB_CACertificateIdentifier i ≠ Some existingCert) as -> by (by case_bool_decide).
  tauto.
Qed.

Lemma conforms_no_update cfg i cr :
  complete cfg → reported i → DB_PendingModifiedValues i = None →
  conforms cfg i → buildRDSUpdateStrategy cfg i cr = Val None.
Proof.
  intros C R P [Hc He]%(anyChange_conforms cfg i cr C R).
  rewrite buildRDSUpdateStrategy_eq, P, He by done. cbv zeta. rewrite Hc. done.
Qed.

(** C8: for a completed configuration and an instance without pending
    modifications, no modification is asked for exactly when the instance
    conforms to the configuration. *)
Theorem buildRDSUpdateStrategy_conforms cfg i cr :
  complete cfg → reported i → DB_PendingModifiedValues i = None →
  buildRDSUpdateStrategy cfg i cr = Val None ↔ conforms cfg i.
Proof.
  intros C R P. split; [|by apply conforms_no_update].
  rewrite buildRDSUpdateStrategy_eq, P by done. cbn [verifyPendingModification].
  rewrite <- (anyChange_conforms cfg i cr C R).
  destruct (engineUpgrade cfg i) as [[v|]| |]; [| |done..]; cbv zeta.
  - assert (anyChange (modifyInput cfg i cr (Some v)) = true) as ->; [|done].
    unfold anyChange. cbn -[change]. by rewrite !orb_true_r.
  - change (default false _) with false. rewrite orb_false_r, andb_true_r.
    by destruct (anyChange _).
Qed.

(** The instance once AWS has applied a modification. *)
Definition orElse {A} (new old : option A) : option A :=
  match new with Some v => Some v | None => old end.
Definition applyModification (mi : ModifyDBInstanceInput) (i : DBInstance) : DBInstance := {|
  DB_DBInstanceIdentifier := DB_DBInstanceIdentifier i;
  DB_DBInstanceArn := DB_DBInstanceArn i;
  DB_DBInstanceStatus := DB_DBInstanceStatus i;
  DB_DBInstanceClass := orElse (MI_DBInstanceClass mi) (DB_DBInstanceClass i);
  DB_DBName := DB_DBName i;
  DB_MasterUsername := DB_MasterUsername i;
  DB_Endpoint := (λ ep, {| Endpoint_Address := Endpoint_Address ep;
                           Endpoint_Port := orElse (MI_DBPortNumber mi) (Endpoint_Port ep) |})
                 <$> DB_Endpoint i;
  DB_EngineVersion := orElse (MI_EngineVersion mi) (DB_EngineVersion i);
  DB_CACertificateIdentifier := orElse (MI_CACertificateIdentifier mi)
                                       (DB_CACertificateIdentifier i);
  DB_DeletionProtection := orElse (MI_DeletionProtection mi) (DB_DeletionProtection i);
  DB_BackupRetentionPeriod := orElse (MI_BackupRetentionPeriod mi) (DB_BackupRetentionPeriod i);
  DB_PubliclyAccessible := orElse (MI_PubliclyAccessible mi) (DB_PubliclyAccessible i);
  DB_AllocatedStorage := DB_AllocatedStorage i;
  DB_MaxAllocatedStorage := orElse (MI_MaxAllocatedStorage mi) (DB_MaxAllocatedStorage i);
  DB_MultiAZ := orElse (MI_MultiAZ mi) (DB_MultiAZ i);
  DB_AutoMinorVersionUpgrade := orElse (MI_AutoMinorVersionUpgrade mi)
                                       (DB_AutoMinorVersionUpgrade i);
  DB_PreferredBackupWindow := orElse (MI_PreferredBackupWindow mi) (DB_PreferredBackupWindow i);
  DB_PreferredMaintenanceWindow := orElse (MI_PreferredMaintenanceWindow mi)
                                          (DB_PreferredMaintenanceWindow i);
  DB_PendingModifiedValues := None |}.

Lemma orElse_set {A} (new old : option A) : is_Some old → is_Some (orElse new old).
Proof. by destruct new. Qed.
Lemma orElse_change {A} `{EqDecision A} (want found : option A) :
  is_Some found → agrees want (orElse (change want found) found).
Proof.
  intros [f ->] v ->. simpl. case_bool_decide as E; simpl; congruence.
Qed.
Lemma orElse_change_eq {A} `{EqDecision A} (want found : option A) :
  is_Some want → is_Some found → want = orElse (change want found) found.
Proof. intros [w ->] F. symmetry. by apply orElse_change. Qed.

Lemma applyModification_reported cfg i cr ev :
  reported i → reported (applyModification (modifyInput cfg i cr ev) i).
Proof.
  intros (Rid & Rca & Rdp & Rep & Rb & Rc & Rpa & Rm & Rmz & Ra & Rpb & Rpm & Rv).
  unfold reported, applyModification. cbn -[change]. split_and!; try done;
    try (by apply orElse_set).
  intros ep. destruct (DB_Endpoint i) as [ep0|] eqn:Ee; [|done]. intros [= <-].
  cbn -[change]. by apply orElse_set, Rep.
Qed.

Lemma engineUpgrade_Some cfg i v :
  engineUpgrade cfg i = Val (Some v) → CI_EngineVersion cfg = Some v ∧
  ∃ x, NewVersion v = Ok x.
Proof.
  unfold engineUpgrade, VerifyVersionUpgradeNeeded. destruct (CI_EngineVersion cfg) as [d|]; [|done].
  destruct (DB_EngineVersion i) as [c|]; [|done]. cbn.
  destruct (NewVersion c); [|done]. destruct (NewVersion d) eqn:E; [|done].
  destruct (LessThan _ _); [|done]. intros [= <-]. eauto.
Qed.

(** C9: an upgrade of a version to itself is never needed, so once the
    modification that was asked for is applied, no further one is: a single
    modification brings the instance to its configuration. *)
Theorem buildRDSUpdateStrategy_converges cfg i cr mi :
  (∀ s v, NewVersion s = Ok v → LessThan v v = false) →
  complete cfg → reported i →
  buildRDSUpdateStrategy cfg i cr = Val (Some mi) →
  buildRDSUpdateStrategy cfg (applyModification mi i) cr = Val None.
Proof.
  intros Irr C R. rewrite buildRDSUpdateStrategy_eq by done.
  destruct (engineUpgrade cfg i) as [ev| |] eqn:Eev; [|done..]. cbv zeta.
  destruct (_ && _); [done|]. intros [= <-].
  apply conforms_no_update; [done|by apply applyModification_reported|done|].
  pose proof C as (_ & Cdp & Cp & Cb & Cc & Cpa & Cm & Cmz & _).
  destruct R as (_ & [cert Rca] & Rdp & Rep & Rb & Rc & Rpa & Rm & Rmz & Ra & Rpb & Rpm & Rv).
  unfold conforms. cbn -[change engineUpgrade]. split_and!;
    try (by apply orElse_change_eq); try (by apply orElse_change).
  - rewrite Rca. by case_bool_decide; simpl.
  - intros ep. destruct (DB_Endpoint i) as [ep0|] eqn:Ee; [|done]. intros [= <-].
    cbn -[change]. by apply orElse_change_eq; [|apply Rep].
  - destruct ev as [v|].
    + apply engineUpgrade_Some in Eev as [Ev [x Ex]].
      unfold engineUpgrade, VerifyVersionUpgradeNeeded. rewrite Ev. cbn -[NewVersion LessThan].
      by rewrite Ex, (Irr v x Ex).
    + exact Eev.
Qed.

(** a pending change of the instance class hides every other difference
    between the instance and its configuration, as long as the change is not to
    be applied at once: no modification is asked for. *)
Theorem buildRDSUpdateStrategy_masked cfg i cr pm class :
  complete cfg → reported i →
  DB_PendingModifiedValues i = Some pm → PM_DBInstanceClass pm = Some class →
  CI_DBInstanceClass cfg = Some class → DB_DBInstanceClass i ≠ Some class →
  Spec_ApplyImmediately (CR_Spec cr) = false →
  ∀ mi, buildRDSUpdateStrategy cfg i cr ≠ Val (Some mi).
Proof.
  intros C R P Pc Cc Dc Ai mi. rewrite buildRDSUpdateStrategy_eq by done.
  destruct (engineUpgrade cfg i) as [ev| |]; [|done..]. cbv zeta.
  assert (verifyPendingModification (modifyInput cfg i cr ev) (DB_PendingModifiedValues i) = false)
    as ->.
  { rewrite P. unfold verifyPendingModification, modifyInput. cbn -[change]. rewrite Pc, Cc.
    destruct R as (_ & _ & _ & _ & _ & [c Ec] & _). rewrite Ec in *. simpl.
    rewrite (bool_decide_true (class ≠ c)) by congruence. simpl.
    by rewrite bool_decide_true, !orb_true_r. }
  cbn -[modifyInput]. rewrite orb_true_r. unfold modifyInput. cbn. rewrite Ai, andb_false_r. done.
Qed.
End Update.

(** ** The configuration *)

Section Config.
Context {S : Type} `{ThirdParty}.
Implicit Types (cfg : CreateDBInstanceInput) (s : S).

Lemma supported_version v :
  let e := default defaultAwsEngineVersion v in
  let e := if negb (Contains_ defaultSupportedEngineVersions e)
           then defaultAwsEngineVersion else e in
  Contains_ defaultSupportedEngineVersions e = true ∧
  (∀ u, v = Some u → Contains_ defaultSupportedEngineVersions u = true → e = u).
Proof.
  cbv zeta. split.
  - destruct (Contains_ _ (default _ v)) eqn:E; [exact E|reflexivity].
  - intros u -> Hu. change (default _ (Some u)) with u. by rewrite Hu.
Qed.

Lemma buildRDSCreateStrategy_complete pg cfg pass s tr cfg' s' :
  runs (buildRDSCreateStrategy pg cfg pass s) tr (Val cfg', s') → complete cfg'.
Proof. intros Hr. unfold buildRDSCreateStrategy in Hr. run_val Hr; subst; by repeat split; eexists. Qed.

Lemma update_total cfg i cr w :
  complete cfg → reported i → buildRDSUpdateStrategy cfg i cr ≠ Panic w.
Proof.
  intros C R. rewrite buildRDSUpdateStrategy_eq by done.
  destruct R as (_ & _ & _ & _ & _ & _ & _ & _ & _ & _ & _ & _ & [v Ev]).
  unfold engineUpgrade, VerifyVersionUpgradeNeeded. rewrite Ev.
  destruct (CI_EngineVersion cfg) as [d|]; [|done]. cbn -[modifyInput].
  destruct (NewVersion v); [|done]. by destruct (NewVersion d).
Qed.

(** completing a configuration sets every field that the provider
    reads without a check, so that comparing it with an instance AWS reports
    never panics; the identifier is the configured one or is built from the
    cluster id, the namespace and the name; what the strategy configures is kept,
    except for the engine, an engine version that is not supported, and the
    availability zone of an instance in several zones. *)
Theorem buildRDSCreateStrategy_completes pg cfg pass s tr cfg' s' :
  runs (buildRDSCreateStrategy pg cfg pass s) tr (Val cfg', s') →
  complete cfg' ∧
  (∀ i cr w, reported i → buildRDSUpdateStrategy cfg' i cr ≠ Panic w) ∧
  (∃ infra, Ev GetInfrastructure (Ok infra) ∈ tr ∧
     CI_DBInstanceIdentifier cfg' = Some (default (ShortenString
       (Infra_InfrastructureName infra +:+ "-" +:+ Meta_Namespace (CR_Meta pg) +:+ "-" +:+
        Meta_Name (CR_Meta pg)) 40) (CI_DBInstanceIdentifier cfg))) ∧
  (agrees (CI_DeletionProtection cfg) (CI_DeletionProtection cfg') ∧
   agrees (CI_Port cfg) (CI_Port cfg') ∧
   agrees (CI_DBInstanceClass cfg) (CI_DBInstanceClass cfg') ∧
   agrees (CI_BackupRetentionPeriod cfg) (CI_BackupRetentionPeriod cfg') ∧
   agrees (CI_PubliclyAccessible cfg) (CI_PubliclyAccessible cfg') ∧
   agrees (CI_MaxAllocatedStorage cfg) (CI_MaxAllocatedStorage cfg') ∧
   agrees (CI_MultiAZ cfg) (CI_MultiAZ cfg') ∧
   agrees (CI_MasterUserPassword cfg) (CI_MasterUserPassword cfg') ∧
   agrees (CI_VpcSecurityGroupIds cfg) (CI_VpcSecurityGroupIds cfg') ∧
   CI_Other cfg' = CI_Other cfg) ∧
  CI_Engine cfg' = Some "postgres" ∧
  (∃ v, CI_EngineVersion cfg' = Some v ∧
        Contains_ defaultSupportedEngineVersions v = true ∧
        (∀ u, CI_EngineVersion cfg = Some u →
              Contains_ defaultSupportedEngineVersions u = true → v = u)) ∧
  (CI_MultiAZ cfg' = Some true → CI_AvailabilityZone cfg' = None).
Proof.
  intros Hr. pose proof (buildRDSCreateStrategy_complete _ _ _ _ _ _ _ Hr) as C.
  split; [done|]. split; [intros; by apply update_total|].
  unfold buildRDSCreateStrategy, buildInstanceName, BuildInfraNameFromObject, GetClusterID,
    GetClusterInfrastructure in Hr.
  pose proof (supported_version (CI_EngineVersion cfg)) as [V1 V2].
  run_val Hr; subst; (split; [eexists; split; [|reflexivity]; ev_in|]);
    (split; [unfold agrees; cbn; repeat split; intros; simplify_eq; try done;
             match goal with X : _ = Some _ |- _ => by rewrite X end|]);
    (split; [done|]); (split; [eauto|]); cbn; by intros [= ->].
Qed.
End Config.

(** ** Reconciling an instance *)

Lemma getRDSInstances_Val {S} (s : S) tr l s' :
  runs (getRDSInstances s) tr (Val l, s') → Ev DescribeDBInstances (Ok l) ∈ tr.
Proof.
  unfold getRDSInstances. intros (t & s1 & Ht & Hr)%poll_Val. apply Ht. run_val Hr.
  destruct a; simplify_eq. ev_in.
Qed.

(** What [ReconcilePostgres] and the deletion do to the calls other than those of
    the metrics. *)
Definition instanceCall (c : call) : Prop :=
  match (c : api_call) with
  | CreateDBInstance _ | DeleteDBInstance _ | ModifyDBInstance _ | UpdateCR _ => True
  | _ => False
  end.
Lemma instanceCall_network c : instanceCall c → ¬ networkCall c.
Proof. by destruct c; intros [] []. Qed.
Lemma instanceCall_metric c : instanceCall c → ¬ metricCall c.
Proof. by destruct c; intros [] [[=]|[]]. Qed.
Lemma instanceCall_reads c : instanceCall c → reads c ≠ true.
Proof. by destruct c; intros []. Qed.

Section Provider.
Context `{ThirdParty} (p : PostgresProvider).
Implicit Types (cfg : CreateDBInstanceInput) (cr : CR).

(** The part of [reconcileRDSInstance] that touches the instance. *)
Definition instanceBranch cfg pass window (found : option DBInstance)
  : M CR (string * error) (option PostgresDeploymentDetails * string) :=
  match found with
  | Some i => reconcileFoundInstance p cfg pass window i
  | None => createRDSInstance p cfg
  end.

(** What is known when that part is reached: the instances AWS listed, the
    password, the completed configuration and the instance it names. *)
Definition branchReached cfg cr tr (cfg' : CreateDBInstanceInput) (pass : string)
    (found : option DBInstance) : Prop :=
  (∃ pi, Ev DescribeDBInstances (Ok pi) ∈ tr ∧ getFoundInstance (E := string * error) pi cfg' = Val found) ∧
  (∃ sec, Ev (GetSecret (Meta_Name (CR_Meta cr) +:+ defaultCredSecSuffix)
                (Meta_Namespace (CR_Meta cr))) (Ok sec) ∈ tr ∧
          pass = secretData sec defaultPostgresPasswordKey) ∧
  pass ≠ "" ∧
  ∃ tb, tb ⊆ tr ∧ runs (buildRDSCreateStrategy cr cfg pass cr) tb (Val cfg', cr).

Lemma reconcileRDSInstance_calls cfg standalone window cr tr o cr' c r :
  runs (reconcileRDSInstance p cfg standalone window cr) tr (o, cr') →
  Ev c r ∈ tr → instanceCall c →
  ∃ cfg' pass found t o1 cr1, branchReached cfg cr tr cfg' pass found ∧
    t ⊆ tr ∧ runs (instanceBranch cfg' pass window found cr) t (o1, cr1) ∧ Ev c r ∈ t.
Proof.
  intros Hr He Hc. pose proof (instanceCall_network c Hc) as Hn.
  pose proof (instanceCall_metric c Hc) as Hm.
  pose proof (instanceCall_reads c Hc) as Hrd. unfold reconcileRDSInstance in Hr.
  skip_calls_not networkCall Hr He Hn pi H1. apply runs_onErr_Val, getRDSInstances_Val in H1.
  skip_calls_not networkCall Hr He Hn u H2. clear H2. apply runs_bind_get in Hr.
  skip_calls_not networkCall Hr He Hn sec H3. run_val H3.
  case_bool_decide as Hp; [by apply runs_fail in Hr as (-> & _); apply not_elem_of_nil in He|].
  skip_calls_not networkCall Hr He Hn cfg' H4. apply runs_onErr_Val in H4.
  skip_calls_not networkCall Hr He Hn found H5. apply runs_lift_Val in H5 as (-> & Hf & _).
  do 3 skip_deferred Hr He Hm. unfold branchReached.
  eapply (runs_bind_first (λ _, False) eq) in Hr as (t' & ob & sb & Hs & Hr & Hin);
    [|exact He|intros; go_sat|exact id].
  exists cfg', (secretData sec defaultPostgresPasswordKey), found, t', ob, sb. split; [split_and!; [| |exact Hp|]|].
  - exists pi. split; [ev_in|exact Hf].
  - exists sec. split; [ev_in|done].
  - eexists. split; [|exact H4]. intros x Hx. ev_in.
  - split; [|done]. intros x Hx%Hs%Hsub1%Hsub0%Hsub. ev_in.
Qed.

Lemma buildRDSTagCreateStrategy_Val {S} cr cfg (s : S) tr cfg' s' :
  runs (buildRDSTagCreateStrategy cr cfg s) tr (Val cfg', s') →
  s' = s ∧ CI_DBInstanceIdentifier cfg' = CI_DBInstanceIdentifier cfg ∧
  CI_MasterUserPassword cfg' = CI_MasterUserPassword cfg ∧ (complete cfg → complete cfg').
Proof.
  intros Hr. pose proof (ro_buildRDSTagCreateStrategy cr cfg _ _ _ _ Hr) as [_ <-].
  unfold buildRDSTagCreateStrategy in Hr. run_val Hr; by subst.
Qed.

Lemma addAnnotation_updates {A} id (k : M CR (string * error) A) cr tr r :
  runs (mbind (λ _, k) (addAnnotation id) cr) tr r →
  ∃ ans t, tr = Ev (UpdateCR (setMeta cr (annotations_Add (CR_Meta cr)
                                            ResourceIdentifierAnnotation id))) ans :: t.
Proof.
  destruct r as [o cr']. unfold addAnnotation.
  intros [(t1 & a & s1 & t2 & -> & H1 & _)|[(e & H1 & _)|(w & H1 & _)]]%runs_bind;
    apply runs_bind_get, runs_bind_put in H1; inv_call H1;
    destruct H1 as (ans & t & -> & _); eexists _, _; reflexivity.
Qed.

(** The answer of the call of an event, if it creates an instance. *)
Definition createAnswer (e : event) : option (result unit) :=
  let 'Ev c r := e in
  match c as c' return @resp api c' → option (result unit) with
  | CreateDBInstance _ => Some
  | _ => λ _, None
  end r.

Lemma createRDSInstance_creates cfg cr tr o cr' input r :
  runs (createRDSInstance p cfg cr) tr (o, cr') → Ev (CreateDBInstance input) r ∈ tr →
  annotations_Has (CR_Meta cr) ResourceIdentifierAnnotation = false ∧
  CI_DBInstanceIdentifier input = CI_DBInstanceIdentifier cfg ∧
  CI_MasterUserPassword input = CI_MasterUserPassword cfg ∧
  (complete cfg → complete input) ∧
  (r = Ok tt → ∀ id, CI_DBInstanceIdentifier cfg = Some id → ∃ ans,
     Ev (UpdateCR (setMeta cr (annotations_Add (CR_Meta cr) ResourceIdentifierAnnotation id)))
        ans ∈ tr).
Proof.
  intros Hr He. unfold createRDSInstance in Hr. apply runs_bind_get in Hr.
  destruct (annotations_Has _ _) eqn:Ea.
  { apply runs_fail in Hr as (-> & _). by apply not_elem_of_nil in He. }
  split; [done|]. skip_reads Hr He cfg' H1.
  assert (CI_DBInstanceIdentifier cfg' = CI_DBInstanceIdentifier cfg ∧
    CI_MasterUserPassword cfg' = CI_MasterUserPassword cfg ∧ (complete cfg → complete cfg'))
    as (Eid & Epw & Ec).
  { destruct (isSTSManager _).
    - by apply runs_onErr_Val, buildRDSTagCreateStrategy_Val in H1 as (_ & ?).
    - apply runs_mret_Val in H1 as (_ & -> & _). done. }
  assert (sat (λ c : call, match (c : api_call) with UpdateCR _ => True | _ => False end)
    (λ _ _, True) (id ← deref (CI_DBInstanceIdentifier cfg'); _ ← addAnnotation id;
                   mret (M := M CR (string * error)) (@None PostgresDeploymentDetails, "started rds provision"))) as Hrest.
  { unfold addAnnotation. go_sat. }
  inv_call Hr. destruct Hr as (r' & t' & -> & [(err & E & -> & _)|([] & E & Hr)]); cbv beta in E.
  - apply list_elem_of_singleton in He.
    pose proof (f_equal ev_call He) as [= ->]. pose proof (f_equal createAnswer He) as [= ->].
    split_and!; try done. intros ->. done.
  - apply elem_of_cons in He as [He|He]; [|by destruct (sat_no_event _ _ _ _ _ _ _ _ Hr He Hrest)].
    pose proof (f_equal ev_call He) as [= ->]. split_and!; try done. intros _ id Hid.
    rewrite <- Eid in Hid. rewrite Hid in Hr. cbn [deref] in Hr. rewrite runs_bind_mret in Hr.
    apply addAnnotation_updates in Hr as (ans & t2 & ->). exists ans. ev_in.
Qed.

Lemma buildRDSCreateStrategy_password {S} pg cfg pass (s : S) tr cfg' s' :
  runs (buildRDSCreateStrategy pg cfg pass s) tr (Val cfg', s') →
  CI_MasterUserPassword cfg' = Some (default pass (CI_MasterUserPassword cfg)).
Proof. intros Hr. unfold buildRDSCreateStrategy in Hr. run_val Hr; by subst. Qed.

(** The calls that tag the instance and record its identifier. *)
Definition taggingCall (c : call) : Prop :=
  match (c : api_call) with
  | RDS_AddTagsToResource _ _ | UpdateCR _ => True
  | _ => reads c = true
  end.
Lemma taggingCall_reads : reads_ok taggingCall.
Proof. intros c. by destruct c. Qed.
#[local] Hint Resolve taggingCall_reads : sat.
Lemma taggingCall_instance c : instanceCall c → taggingCall c → ∃ cr, c = UpdateCR cr.
Proof. destruct c; intros []; try done. eauto. Qed.

Lemma reconcileFoundInstance_calls cfg pass window i cr tr o cr' c r :
  runs (reconcileFoundInstance p cfg pass window i cr) tr (o, cr') →
  Ev c r ∈ tr → instanceCall c →
  (∃ mi, c = ModifyDBInstance mi ∧ window = true ∧ DB_DBInstanceStatus i = Some "available" ∧
         buildRDSUpdateStrategy cfg i cr = Val (Some mi)) ∨
  (∃ cr1, c = UpdateCR cr1).
Proof.
  intros Hr He Hc. unfold reconcileFoundInstance in Hr.
  pose proof (instanceCall_reads c Hc) as Hrd.
  skip_calls_not (λ c : call, reads c = true) Hr He Hrd name H1. clear H1.
  skip_calls_not (λ c : call, reads c = true) Hr He Hrd st H2.
  apply runs_deref_Val in H2 as (_ & Est & _). apply runs_bind_get in Hr.
  eapply (runs_bind_skip (λ c : call, reads c = true) anyCR) in Hr
    as (ta & u & cr1 & tb & -> & H3 & _ & Hr & Hin);
    [|exact He|destruct (DB_EngineVersion i); [case_bool_decide|]; go_sat|exact Hrd].
  assert (buildRDSUpdateStrategy cfg i cr1 = buildRDSUpdateStrategy cfg i cr) as Hspec.
  { by run_val H3; subst. }
  clear He H3. rename Hin into He.
  case_bool_decide; [by apply runs_fail in Hr as (-> & _); apply not_elem_of_nil in He|].
  case_bool_decide as Hav; [by apply runs_mret in Hr as (-> & _); apply not_elem_of_nil in He|].
  subst st. apply runs_bind_get in Hr.
  skip_calls_not (λ c : call, reads c = true) Hr He Hrd mi H4.
  destruct mi as [mi|].
  - left. exists mi. destruct window; [|by apply runs_mret_Val in H4 as (_ & ? & _)].
    apply runs_onErr_Val, runs_lift_Val in H4 as (_ & H4 & _). rewrite Hspec in H4.
    split_and!; try done.
    eapply (runs_bind_first (λ _, False) eq) in Hr as (t' & ob & sb & _ & Hr & Hin);
      [|exact He|intros; go_sat|exact id].
    inv_call Hr. destruct Hr as (r' & -> & _). apply list_elem_of_singleton in Hin.
    by apply (f_equal ev_call) in Hin.
  - right. eapply sat_no_event with (P := taggingCall) (R := anyCR) in Hr; [|exact He|].
    + by apply taggingCall_instance in Hr.
    + unfold TagRDSPostgres, addAnnotation. go_sat.
Qed.

(** an instance is created only when no instance that AWS lists has
    its identifier and the custom resource carries no annotation of an earlier
    one; the configuration is complete, its password is the configured one or
    that of the credential secret, never an empty one; and once AWS accepts it
    the next call records the identifier in the annotation. *)
Theorem reconcileRDSInstance_creates cfg standalone window cr tr o cr' input r :
  runs (reconcileRDSInstance p cfg standalone window cr) tr (o, cr') →
  Ev (CreateDBInstance input) r ∈ tr →
  (∃ pi, Ev DescribeDBInstances (Ok pi) ∈ tr ∧
     ∀ i, i ∈ pi → DB_DBInstanceIdentifier i ≠ CI_DBInstanceIdentifier input) ∧
  annotations_Has (CR_Meta cr) ResourceIdentifierAnnotation = false ∧
  complete input ∧
  (∃ sec, Ev (GetSecret (Meta_Name (CR_Meta cr) +:+ defaultCredSecSuffix)
                (Meta_Namespace (CR_Meta cr))) (Ok sec) ∈ tr ∧
     secretData sec defaultPostgresPasswordKey ≠ "" ∧
     CI_MasterUserPassword input =
       Some (default (secretData sec defaultPostgresPasswordKey) (CI_MasterUserPassword cfg))) ∧
  (r = Ok tt → ∃ id ans,
     CI_DBInstanceIdentifier input = Some id ∧
     Ev (UpdateCR (setMeta cr (annotations_Add (CR_Meta cr) ResourceIdentifierAnnotation id)))
        ans ∈ tr).
Proof.
  intros Hr He.
  destruct (reconcileRDSInstance_calls _ _ _ _ _ _ _ _ _ Hr He I)
    as (cfg' & pass & found & t & o1 & cr1 & (Hpi & Hsec & Hpass & Hb) & Hsub & Hbr & Hin).
  clear Hr He. destruct found as [i|]; cbn [instanceBranch] in Hbr.
  { by destruct (reconcileFoundInstance_calls _ _ _ _ _ _ _ _ _ _ Hbr Hin I) as [(? & ? & _)|(? & ?)]. }
  destruct (createRDSInstance_creates _ _ _ _ _ _ _ Hbr Hin) as (Ha & Eid & Epw & Ec & Hann).
  destruct Hb as (tb & _ & Hb).
  pose proof (buildRDSCreateStrategy_complete _ _ _ _ _ _ _ Hb) as Hc.
  destruct Hpi as (pi & Hpi & Hf). destruct Hsec as (sec & Hsec & ->).
  split_and!; [|exact Ha|by apply Ec| |].
  - exists pi. split; [exact Hpi|]. rewrite Eid. intros i Hi. by eapply findByPtr_None.
  - exists sec. split_and!; [exact Hsec|exact Hpass|].
    rewrite Epw. by eapply buildRDSCreateStrategy_password.
  - intros Hok. pose proof Hc as ([id Hid] & _). exists id.
    destruct (Hann Hok id Hid) as [ans Hans]. exists ans. rewrite Eid. auto.
Qed.

Definition creatingCall (c : call) : Prop :=
  match (c : api_call) with
  | CreateDBInstance _ | UpdateCR _ => True
  | _ => reads c = true
  end.
Lemma creatingCall_reads : reads_ok creatingCall.
Proof. intros c. by destruct c. Qed.
#[local] Hint Resolve creatingCall_reads : sat.

(** C6: an instance is modified only in its maintenance window, when AWS
    lists it as available under the identifier of the completed configuration,
    and with the modification that [buildRDSUpdateStrategy] asks for. *)
Theorem reconcileRDSInstance_modifies cfg standalone window cr tr o cr' input r :
  runs (reconcileRDSInstance p cfg standalone window cr) tr (o, cr') →
  Ev (ModifyDBInstance input) r ∈ tr →
  window = true ∧
  ∃ pi i cfg', Ev DescribeDBInstances (Ok pi) ∈ tr ∧ i ∈ pi ∧
    complete cfg' ∧ DB_DBInstanceIdentifier i = CI_DBInstanceIdentifier cfg' ∧
    DB_DBInstanceStatus i = Some "available" ∧
    buildRDSUpdateStrategy cfg' i cr = Val (Some input).
Proof.
  intros Hr He.
  destruct (reconcileRDSInstance_calls _ _ _ _ _ _ _ _ _ Hr He I)
    as (cfg' & pass & found & t & o1 & cr1 & ((pi & Hpi & Hf) & _ & _ & (tb & _ & Hb))
        & _ & Hbr & Hin).
  destruct found as [i|]; cbn [instanceBranch] in Hbr.
  - destruct (reconcileFoundInstance_calls _ _ _ _ _ _ _ _ _ _ Hbr Hin I)
      as [(mi & [= <-] & Hw & Hst & Hmi)|(? & ?)]; [|done].
    split; [exact Hw|]. apply findByPtr_Some in Hf as [Hi Hid].
    exists pi, i, cfg'. split_and!; try done. by eapply buildRDSCreateStrategy_complete.
  - exfalso. refine (Bool.diff_false_true (sat_no_event creatingCall anyCR _ _ _ _ _ _ Hbr Hin _)).
    unfold createRDSInstance, addAnnotation. go_sat.
Qed.

(** A run of [reconcileRDSInstance] that succeeds went through the part that
    touches the instance. *)
Lemma reconcileRDSInstance_Val cfg standalone window cr tr res cfg' cr' :
  runs (reconcileRDSInstance p cfg standalone window cr) tr (Val (res, cfg'), cr') →
  ∃ pass found t cr1, branchReached cfg cr tr cfg' pass found ∧
    t ⊆ tr ∧ runs (instanceBranch cfg' pass window found cr) t (Val res, cr1).
Proof.
  intros Hr. unfold reconcileRDSInstance in Hr.
  val_call networkCall Hr pi H1. apply runs_onErr_Val, getRDSInstances_Val in H1.
  val_call networkCall Hr u H2. clear H2. apply runs_bind_get in Hr.
  val_call networkCall Hr sec H3. run_val H3.
  case_bool_decide as Hp; [by apply runs_fail_Val in Hr|].
  val_call networkCall Hr cfg1 H4. apply runs_onErr_Val in H4.
  val_call networkCall Hr found H5. apply runs_lift_Val in H5 as (-> & Hf & _).
  apply runs_defer_Val in Hr as (t2 & s2 & Hs2 & Hr).
  apply runs_defer_Val in Hr as (t3 & s3 & Hs3 & Hr).
  apply runs_defer_Val in Hr as (t5 & s5 & Hs5 & Hr).
  apply runs_bind_Val in Hr as (t6 & res' & s6 & t7 & -> & Hr & Hm).
  apply runs_mret_Val in Hm as (-> & [= -> ->] & ->).
  exists (secretData sec defaultPostgresPasswordKey), found, t6, s6.
  split; [split_and!; [| |exact Hp|]|].
  - exists pi. split; [ev_in|exact Hf].
  - exists sec. split; [ev_in|done].
  - eexists. split; [|exact H4]. intros x Hx. ev_in.
  - split; [|done]. intros x Hx. rewrite app_nil_r in Hs5. apply Hs5, Hs3, Hs2 in Hx. ev_in.
Qed.

Lemma reconcileFoundInstance_deployed cfg pass window i cr tr pdd msg cr' :
  runs (reconcileFoundInstance p cfg pass window i cr) tr (Val (Some pdd, msg), cr') →
  DB_DBInstanceStatus i = Some "available" ∧ PDD_Password pdd = pass ∧
  (∃ ep, DB_Endpoint i = Some ep ∧ Endpoint_Address ep = Some (PDD_Host pdd) ∧
         Endpoint_Port ep = Some (PDD_Port pdd)) ∧
  DB_MasterUsername i = Some (PDD_Username pdd) ∧ DB_DBName i = Some (PDD_Database pdd) ∧
  (window = true → buildRDSUpdateStrategy cfg i cr = Val None).
Proof.
  intros Hr. unfold reconcileFoundInstance in Hr.
  val_call (λ _ : @call api, True) Hr name H1. clear H1.
  val_call (λ _ : @call api, True) Hr st H2. apply runs_deref_Val in H2 as (_ & Est & _).
  apply runs_bind_get in Hr.
  apply runs_bind_Val in Hr as (ta & u & cr1 & tb & -> & H3 & Hr).
  assert (buildRDSUpdateStrategy cfg i cr1 = buildRDSUpdateStrategy cfg i cr) as Hspec.
  { by run_val H3; subst. }
  clear H3. case_bool_decide; [by apply runs_fail_Val in Hr|].
  case_bool_decide as Hav; [by apply runs_mret_Val in Hr as (_ & ? & _)|].
  subst st. apply runs_bind_get in Hr.
  val_call (λ _ : @call api, True) Hr mi H4.
  destruct mi as [mi|]; [by run_val Hr|].
  assert (window = true → buildRDSUpdateStrategy cfg i cr1 = Val None) as Hw.
  { intros ->. by apply runs_onErr_Val, runs_lift_Val in H4 as (_ & H4 & _). }
  rewrite Hspec in Hw. clear H4.
  apply runs_bind_Val in Hr as (tc & u1 & cr2 & td & -> & _ & Hr).
  run_val Hr; simplify_eq; eauto 10.
Qed.

(** ** Deleting an instance *)

Lemma buildRDSDeleteConfig_Val {S} pg create delete (s : S) tr d s' :
  runs (buildRDSDeleteConfig pg create delete s) tr (Val d, s') →
  is_Some (DI_DBInstanceIdentifier d) ∧
  (∀ id, DI_DBInstanceIdentifier delete = Some id → DI_DBInstanceIdentifier d = Some id) ∧
  (∀ id, DI_DBInstanceIdentifier delete = None → CI_DBInstanceIdentifier create = Some id →
         DI_DBInstanceIdentifier d = Some id) ∧
  DI_SkipFinalSnapshot d = Some (default false (DI_SkipFinalSnapshot delete)) ∧
  (DI_SkipFinalSnapshot d = Some false → is_Some (DI_FinalDBSnapshotIdentifier d)).
Proof.
  intros Hr. unfold buildRDSDeleteConfig in Hr. run_val Hr; subst; cbn.
  split_and!; [by eexists|by intros ? ->|by intros ? -> ->|done|].
  intros [= ->]. destruct (DI_FinalDBSnapshotIdentifier delete); simpl; by eexists.
Qed.

Lemma deleteFoundInstance_deletes d i cr tr o cr' input r :
  runs (deleteFoundInstance d i cr) tr (o, cr') →
  Ev (DeleteDBInstance input) r ∈ tr →
  input = d ∧ DB_DBInstanceStatus i = Some "available" ∧ DB_DeletionProtection i = Some false ∧
  cr' = cr.
Proof.
  intros Hr He. unfold deleteFoundInstance in Hr. apply runs_bind_get in Hr.
  pose proof (instanceCall_metric (DeleteDBInstance input) I) as Hm.
  skip_calls_not metricCall Hr He Hm u H1. clear H1.
  skip_calls_not metricCall Hr He Hm st H2. apply runs_deref_Val in H2 as (_ & Hst & _).
  case_bool_decide; [by apply runs_mret in Hr as (-> & _); apply not_elem_of_nil in He|].
  skip_calls_not metricCall Hr He Hm prot H3. apply runs_deref_Val in H3 as (_ & Hpr & _).
  destruct prot; cbn [negb] in Hr.
  - inv_call Hr. destruct Hr as (r' & t' & -> & [(e & _ & -> & _)|(u' & _ & Hr)]).
    + by apply list_elem_of_singleton, (f_equal ev_call) in He.
    + apply runs_mret in Hr as (-> & _). by apply list_elem_of_singleton, (f_equal ev_call) in He.
  - inv_call Hr. destruct Hr as (r' & t' & -> & Hr).
    assert (t' = [] ∧ cr' = cr) as [-> ->].
    { destruct r' as [|err]; [by apply runs_mret in Hr as (-> & _ & ->)|].
      case_bool_decide; [by apply runs_fail in Hr as (-> & _ & ->)|].
      by apply runs_mret in Hr as (-> & _ & ->). }
    apply list_elem_of_singleton, (f_equal ev_call) in He. injection He as ->.
    assert (st = "available") as -> by (by destruct (decide (st = "available"))).
    done.
Qed.

(** The calls made when the instance is gone. *)
Definition absentCall (c : call) : Prop :=
  match (c : api_call) with
  | DeleteSecret _ _ | UpdateCR _ => True
  | _ => networkCall c
  end.
Lemma absentCall_network c : networkCall c → absentCall c.
Proof. by destruct c. Qed.
Lemma deleteLastNetwork_sat b1 b2 b3 : sat networkCall eq (deleteLastNetwork b1 b2 b3).
Proof. unfold deleteLastNetwork. go_sat. Qed.
Lemma deleteAbsentInstance_sat b1 b2 b3 : sat absentCall anyCR (deleteAbsentInstance b1 b2 b3).
Proof.
  assert (reads_ok absentCall) by (intros []; done).
  assert (sat absentCall anyCR (deleteLastNetwork b1 b2 b3)).
  { apply sat_eq; [apply _|].
    eapply sat_weaken; [apply deleteLastNetwork_sat|apply absentCall_network]. }
  unfold deleteAbsentInstance, dropFinalizer. go_sat.
Qed.

Lemma deleteLastNetwork_Val sts enabled last cr tr u cr' :
  runs (deleteLastNetwork sts enabled last cr) tr (Val u, cr') →
  enabled && last = true → networkGone tr.
Proof.
  intros Hr Hl. unfold deleteLastNetwork in Hr. rewrite Hl in Hr.
  apply runs_bind_Val in Hr as (t1 & [] & s1 & t2 & -> & Hr & _).
  apply (networkGone_incl t1); [|intros y Hy; ev_in]. clear t2.
  apply runs_bind_Val in Hr as (t2 & found & s2 & t3 & -> & H1 & Hr).
  apply runs_onErr_Val, getStandaloneVpc_Val in H1 as (_ & Hseen).
  destruct found as [vpc|].
  - repeat (apply runs_bind_Val in Hr as (? & ? & ? & ? & -> & _ & Hr)).
    apply runs_onErr_Val, DeleteNetwork_Val in Hr.
    eapply networkGone_incl; [exact Hr|]. intros y Hy. ev_in.
  - left. eapply standaloneSeen_incl; [exact Hseen|]. intros y Hy. ev_in.
Qed.

Lemma dropFinalizer_updates msg cr tr o cr' c ans :
  runs (dropFinalizer msg cr) tr (o, cr') → Ev c ans ∈ tr →
  ∃ om, RemoveFinalizer (CR_Meta cr) DefaultFinalizer = Some om ∧ c = UpdateCR (setMeta cr om).
Proof.
  intros Hr Hin. unfold dropFinalizer in Hr. apply runs_bind_get in Hr.
  destruct (RemoveFinalizer _ _) as [om|] eqn:Eom.
  2: { apply runs_lift in Hr as (-> & _). by apply not_elem_of_nil in Hin. }
  apply runs_bind_put in Hr. exists om. split; [done|].
  inv_call Hr. destruct Hr as (r' & t5 & -> & Hr).
  apply elem_of_cons in Hin as [Hin|Hin]; [by apply (f_equal ev_call) in Hin|].
  destruct Hr as [(e & _ & -> & _)|(a & _ & Hr)]; [by apply not_elem_of_nil in Hin|].
  destruct Hr as [-> _]. by apply not_elem_of_nil in Hin.
Qed.

Lemma deleteAbsentInstance_finalizer sts enabled last cr tr o cr' x ans :
  runs (deleteAbsentInstance sts enabled last cr) tr (o, cr') →
  Ev (UpdateCR x) ans ∈ tr →
  (∃ r, Ev (DeleteSecret (Meta_Name (CR_Meta cr) +:+ defaultCredSecSuffix)
              (Meta_Namespace (CR_Meta cr))) r ∈ tr ∧
        match r with Ok _ => True | Er e => IsNotFound e = true end) ∧
  (enabled && last = true → networkGone tr) ∧
  (∃ om, RemoveFinalizer (CR_Meta cr) DefaultFinalizer = Some om ∧ x = setMeta cr om).
Proof.
  intros Hr He. unfold deleteAbsentInstance in Hr.
  pose proof (instanceCall_network (UpdateCR x) I) as Hn.
  pose proof (deleteLastNetwork_sat sts enabled last) as Hsat.
  skip_calls_not networkCall Hr He Hn u H1.
  pose proof (deleteLastNetwork_Val _ _ _ _ _ _ _ H1) as Hgone. apply runs_bind_get in Hr.
  inv_call Hr. destruct Hr as (r & t' & -> & Hr).
  apply elem_of_cons in He as [He|He]; [by apply (f_equal ev_call) in He|].
  skip_calls_not networkCall Hr He Hn u' H2.
  assert (match r with Ok _ => True | Er e => IsNotFound e = true end) as Hok.
  { destruct r as [|e]; [done|]. destruct (IsNotFound e); [done|]. by apply runs_fail_Val in H2. }
  clear H2.
  split; [exists r; split; [ev_in|exact Hok]|]. split.
  { intros Hl. eapply networkGone_incl; [by apply Hgone|]. intros y Hy. ev_in. }
  eapply (runs_bind_first (λ _, False) eq) in Hr as (t4 & ob & sb & _ & Hr & Hin);
    [|exact He|intros; go_sat|exact id].
  destruct (dropFinalizer_updates _ _ _ _ _ _ _ Hr Hin) as (om & Hom & [= ->]). by exists om.
Qed.

(** The calls made on an instance that is being deleted. *)
Definition deletingCall (c : call) : Prop :=
  match (c : api_call) with
  | DeleteDBInstance _ | ModifyDBInstance _ => True
  | _ => metricCall c
  end.
Lemma deletingCall_metric c : metricCall c → deletingCall c.
Proof. by destruct c. Qed.
Lemma deleteFoundInstance_sat d i : sat deletingCall eq (deleteFoundInstance d i).
Proof.
  assert (reads_ok deletingCall) by (intros c Hc; by apply deletingCall_metric; left).
  assert (∀ cr, sat deletingCall eq
    (exposePostgresMetrics (S := CR) (E := string * error) cr (Some i))).
  { intros cr. eapply sat_weaken; [go_sat|apply deletingCall_metric]. }
  unfold deleteFoundInstance. go_sat.
Qed.

Section DeleteRun.
Variables (sts : bool) (create : CreateDBInstanceInput) (delete : DeleteDBInstanceInput)
  (enabled last : bool).

(** What is known once [deleteRDSInstance] has looked for the instance. *)
Definition deletionReached cr tr (d : DeleteDBInstanceInput) (found : option DBInstance) : Prop :=
  (∃ pi, Ev DescribeDBInstances (Ok pi) ∈ tr ∧
         findByPtr (E := string * error) DB_DBInstanceIdentifier (DI_DBInstanceIdentifier d) pi
         = Val found) ∧
  ∃ tb, tb ⊆ tr ∧ runs (buildRDSDeleteConfig cr create delete cr) tb (Val d, cr).

Lemma deleteRDSInstance_calls cr tr o cr' c r :
  runs (deleteRDSInstance sts create delete enabled last cr) tr (o, cr') →
  Ev c r ∈ tr → reads c ≠ true →
  ∃ d found t0 t, deletionReached cr tr d found ∧ tr = t0 ++ t ∧
    Forall (λ e, reads (ev_call e) = true) t0 ∧ Ev c r ∈ t ∧
    runs ((match found with
           | Some i => deleteFoundInstance d i
           | None => deleteAbsentInstance sts enabled last
           end : M CR (string * error) string) cr) t (o, cr').
Proof.
  intros Hr He Hrd. unfold deleteRDSInstance in Hr.
  skip_calls_not (λ c : call, reads c = true) Hr He Hrd pi H1.
  apply runs_onErr_Val in H1. pose proof (proj1 (ro_getRDSInstances _ _ _ _ H1)) as F1.
  apply getRDSInstances_Val in H1. apply runs_bind_get in Hr.
  skip_calls_not (λ c : call, reads c = true) Hr He Hrd d H2. apply runs_onErr_Val in H2.
  pose proof (proj1 (ro_buildRDSDeleteConfig _ _ _ _ _ _ _ H2)) as F2.
  skip_calls_not (λ c : call, reads c = true) Hr He Hrd found H3.
  apply runs_lift_Val in H3 as (-> & Hf & _).
  exists d, found, (t ++ t1), t3.
  split; [split|split_and!; [by rewrite <- app_assoc|by apply Forall_app_intro|done..]].
  - exists pi. split; [ev_in|done].
  - eexists. split; [|exact H2]. intros x Hx. ev_in.
Qed.

(** an instance is deleted only when AWS lists it, under the identifier
    that is asked for, as available and not protected from deletion; unless the
    configuration skips the final snapshot one is asked for; and the finalizer of
    the custom resource stays. *)
Theorem deleteRDSInstance_deletes cr tr o cr' input r :
  runs (deleteRDSInstance sts create delete enabled last cr) tr (o, cr') →
  Ev (DeleteDBInstance input) r ∈ tr →
  (∃ pi i, Ev DescribeDBInstances (Ok pi) ∈ tr ∧ i ∈ pi ∧
     DB_DBInstanceIdentifier i = DI_DBInstanceIdentifier input ∧
     DB_DBInstanceStatus i = Some "available" ∧ DB_DeletionProtection i = Some false) ∧
  (∀ id, DI_DBInstanceIdentifier delete = Some id → DI_DBInstanceIdentifier input = Some id) ∧
  (∀ id, DI_DBInstanceIdentifier delete = None → CI_DBInstanceIdentifier create = Some id →
         DI_DBInstanceIdentifier input = Some id) ∧
  DI_SkipFinalSnapshot input = Some (default false (DI_SkipFinalSnapshot delete)) ∧
  (DI_SkipFinalSnapshot input = Some false → is_Some (DI_FinalDBSnapshotIdentifier input)) ∧
  (∀ x ans, Ev (UpdateCR x) ans ∉ tr) ∧ cr' = cr.
Proof.
  intros Hr He.
  destruct (deleteRDSInstance_calls _ _ _ _ _ _ Hr He) as
    (d & found & t0 & t & ((pi & Hpi & Hf) & (tb & _ & Hb)) & -> & Hro & Hin & Hbr); [done|].
  destruct found as [i|].
  - apply findByPtr_Some in Hf as [Hi Hid].
    destruct (deleteFoundInstance_deletes _ _ _ _ _ _ _ _ Hbr Hin) as (-> & Hst & Hpr & ->).
    apply buildRDSDeleteConfig_Val in Hb as (_ & Hid1 & Hid2 & Hskip & Hsnap).
    split_and!; try done; [by exists pi, i|]. intros x ans [Hx|Hx]%elem_of_app.
    + rewrite Forall_forall in Hro. by apply Hro in Hx.
    + by destruct (sat_no_event _ _ _ _ _ _ _ _ Hbr Hx (deleteFoundInstance_sat d i)).
  - by destruct (sat_no_event _ _ _ _ _ _ _ _ Hbr Hin (deleteAbsentInstance_sat _ _ _)).
Qed.

(** C7: the finalizer leaves the custom resource only when no instance
    that AWS lists has the identifier, the credential secret is deleted or gone
    already, and, if the resource is the last one of a cluster without bundled
    subnets, the standalone network is gone; the object is otherwise unchanged. *)
Theorem deleteRDSInstance_finalizer cr tr o cr' x ans :
  runs (deleteRDSInstance sts create delete enabled last cr) tr (o, cr') →
  Ev (UpdateCR x) ans ∈ tr →
  (∃ pi d tb, Ev DescribeDBInstances (Ok pi) ∈ tr ∧ tb ⊆ tr ∧
     runs (buildRDSDeleteConfig cr create delete cr) tb (Val d, cr) ∧
     ∀ i, i ∈ pi → DB_DBInstanceIdentifier i ≠ DI_DBInstanceIdentifier d) ∧
  (∃ r, Ev (DeleteSecret (Meta_Name (CR_Meta cr) +:+ defaultCredSecSuffix)
              (Meta_Namespace (CR_Meta cr))) r ∈ tr ∧
        match r with Ok _ => True | Er e => IsNotFound e = true end) ∧
  (enabled && last = true → networkGone tr) ∧
  (∃ om, RemoveFinalizer (CR_Meta cr) DefaultFinalizer = Some om ∧ x = setMeta cr om).
Proof.
  intros Hr He.
  destruct (deleteRDSInstance_calls _ _ _ _ _ _ Hr He) as
    (d & found & t0 & t & ((pi & Hpi & Hf) & (tb & Htb & Hb)) & -> & _ & Hin & Hbr); [done|].
  destruct found as [i|].
  { by destruct (sat_no_event _ _ _ _ _ _ _ _ Hbr Hin (deleteFoundInstance_sat d i)). }
  destruct (deleteAbsentInstance_finalizer _ _ _ _ _ _ _ _ _ Hbr Hin) as ((r & Hs & Hok) & Hg & Hom).
  split; [|split; [|split; [|exact Hom]]].
  - exists pi, d, tb. split_and!; try done. intros i Hi. by eapply findByPtr_None.
  - exists r. split; [ev_in|exact Hok].
  - intros Hl. eapply networkGone_incl; [by apply Hg|]. intros y Hy. ev_in.
Qed.
End DeleteRun.

(** ** The operations of the provider *)

Lemma IsLastResource_true {S} (s : S) tr s' :
  runs (IsLastResource s) tr (Val true, s') →
  ∃ postgres redis, Ev (ListCR Postgres) (Ok postgres) ∈ tr ∧ Ev (ListCR Redis) (Ok redis) ∈ tr ∧
    (length postgres + length redis = 1)%nat.
Proof.
  intros Hr. unfold IsLastResource in Hr. run_val Hr; [done|].
  eexists _, _. split; [ev_in|]. split; [ev_in|]. by apply Nat.eqb_eq.
Qed.

Definition absentRest (c : call) : Prop :=
  match (c : api_call) with
  | DeleteSecret _ _ | UpdateCR _ => True
  | _ => reads c = true
  end.
Lemma absentRest_reads : reads_ok absentRest.
Proof. intros c. by destruct c. Qed.
#[local] Hint Resolve absentRest_reads : sat.

Lemma deleteLastNetwork_vpc sts enabled lastOne cr tr o cr' id r :
  runs (deleteLastNetwork sts enabled lastOne cr) tr (o, cr') → Ev (DeleteVpc id) r ∈ tr →
  enabled && lastOne = true ∧ ∃ vpc, standaloneSeen tr (Some vpc) ∧ Vpc_VpcId vpc = id.
Proof.
  intros Hr He. unfold deleteLastNetwork in Hr. assert (¬ noDeleteVpc (DeleteVpc id)) as Hn by (intros []).
  eapply (runs_bind_first noDeleteVpc eq) in Hr as (t1 & o1 & s1 & Hs & Hr & Hin);
    [|exact He|intros; unfold DeleteBundledCloudResources, deleteIgnoring; go_sat|exact Hn].
  destruct (enabled && lastOne); [|by apply runs_mret in Hr as (-> & _); apply not_elem_of_nil in Hin].
  split; [done|]. clear He.
  skip_calls_not noDeleteVpc Hr Hin Hn saVpc H1. clear H1.
  destruct saVpc; [|by apply runs_mret in Hr as (-> & _); apply not_elem_of_nil in Hin].
  skip_calls_not noDeleteVpc Hr Hin Hn np H1. clear H1.
  skip_calls_not noDeleteVpc Hr Hin Hn u1 H1. clear H1.
  skip_calls_not noDeleteVpc Hr Hin Hn u2 H1. clear H1.
  apply runs_onErr in Hr as (o2 & Hr & _).
  destruct (DeleteNetwork_vpc _ _ _ _ _ _ Hr Hin) as (vpc & Hseen & Hid).
  exists vpc. split; [|done]. eapply standaloneSeen_incl; [exact Hseen|].
  intros x Hx. apply Hs. ev_in.
Qed.

(** deleting a Postgres resource deletes a VPC only when it is the
    last Postgres or Redis resource of the cluster and no instance that AWS lists
    has the identifier of its configuration; the VPC is the standalone one. *)
Theorem DeletePostgres_deletes_vpc cr tr o cr' id r :
  runs (DeletePostgres p cr) tr (o, cr') → Ev (DeleteVpc id) r ∈ tr →
  (∃ postgres redis, Ev (ListCR Postgres) (Ok postgres) ∈ tr ∧
     Ev (ListCR Redis) (Ok redis) ∈ tr ∧ (length postgres + length redis = 1)%nat) ∧
  (∃ pi d, Ev DescribeDBInstances (Ok pi) ∈ tr ∧ is_Some (DI_DBInstanceIdentifier d) ∧
     ∀ i, i ∈ pi → DB_DBInstanceIdentifier i ≠ DI_DBInstanceIdentifier d) ∧
  (∃ vpc, standaloneSeen tr (Some vpc) ∧ Vpc_VpcId vpc = id).
Proof.
  intros Hr He. unfold DeletePostgres in Hr. apply runs_bind_get in Hr.
  assert (¬ metricCall (DeleteVpc id)) as Hm by (by intros [[=]|[]]).
  assert (¬ credentialCall (DeleteVpc id)) as Hc by (intros [=]).
  skip_calls_not metricCall Hr He Hm u H1. clear H1.
  skip_calls_not credentialCall Hr He Hc cfg H1. clear H1. destruct cfg as [[[create delete] upd] strat].
  skip_calls_not credentialCall Hr He Hc creds H1. clear H1.
  skip_calls_not credentialCall Hr He Hc u' H1. clear H1.
  skip_calls_not credentialCall Hr He Hc sts H1. clear H1.
  skip_calls_not credentialCall Hr He Hc enabled H1. clear H1.
  skip_calls_not credentialCall Hr He Hc lastOne H1. apply runs_onErr_Val in H1.
  destruct (deleteRDSInstance_calls _ _ _ _ _ _ _ _ _ _ _ Hr He) as
    (d & found & t0' & t' & ((pi & Hpi & Hf) & (tb & Htb & Hb)) & -> & _ & Hin & Hbr); [done|].
  destruct found as [i|].
  { destruct (sat_no_event _ _ _ _ _ _ _ _ Hbr Hin (deleteFoundInstance_sat d i)) as [[=]|[]]. }
  unfold deleteAbsentInstance in Hbr.
  eapply (runs_bind_first absentRest anyCR) in Hbr as (t'' & o1 & s1 & Hs & Hbr & Hin');
    [|exact Hin|unfold dropFinalizer; intros; go_sat|by intros [=]].
  apply (deleteLastNetwork_vpc _ _ _ _ _ _ _ _ _ Hbr) in Hin' as (Hlast & vpc & Hseen & Hid).
  apply andb_true_iff in Hlast as [_ ->].
  apply IsLastResource_true in H1 as (ps & rs & Hps & Hrs & Hsum).
  split_and!.
  - exists ps, rs. split; [ev_in|]. split; [ev_in|done].
  - exists pi, d. split; [ev_in|]. split; [by apply buildRDSDeleteConfig_Val in Hb as (? & _)|].
    intros i Hi. by eapply findByPtr_None.
  - exists vpc. split; [|done]. eapply standaloneSeen_incl; [exact Hseen|].
    intros x Hx%Hs. ev_in.
Qed.

(** [CreateFinalizer] either leaves an object that is being deleted alone or
    answers the object that the API stored with the finalizer. *)
Lemma CreateFinalizer_Val df cr tr u cr' :
  runs (CreateFinalizer df cr) tr (Val u, cr') →
  (is_Some (Meta_DeletionTimestamp (CR_Meta cr)) ∧ cr' = cr) ∨
  (Meta_DeletionTimestamp (CR_Meta cr) = None ∧
   Ev (UpdateCR (setMeta cr (addFinalizer (CR_Meta cr) df))) (Ok cr') ∈ tr).
Proof.
  intros Hr. unfold CreateFinalizer in Hr. apply runs_bind_get in Hr.
  destruct (Meta_DeletionTimestamp (CR_Meta cr)) as [t|] eqn:Et.
  - left. apply runs_mret_Val in Hr as (_ & _ & ->). by eexists.
  - right. split; [done|]. apply runs_bind_put in Hr. run_val Hr. ev_in.
Qed.

(** The secret is there: it was found or it has been created. *)
Lemma CreateOrUpdateSecret_Val {S} sec (s : S) tr sec' s' :
  runs (CreateOrUpdateSecret sec mret s) tr (Val sec', s') →
  Ev (GetSecret (Secret_Name sec) (Secret_Namespace sec)) (Ok sec') ∈ tr ∨
  Ev (CreateSecret sec) (Ok sec') ∈ tr.
Proof.
  intros Hr. unfold CreateOrUpdateSecret in Hr. inv_call Hr.
  destruct Hr as (r & t & -> & Hr). destruct r as [existing|e].
  - rewrite runs_bind_mret, bool_decide_true in Hr by done.
    apply runs_mret_Val in Hr as (-> & -> & ->). left. ev_in.
  - destruct (IsNotFound e); [|by apply runs_fail_Val in Hr].
    rewrite runs_bind_mret in Hr. run_val Hr. right. ev_in.
Qed.

Lemma buildDefaultRDSSecret_Val {S} pg (s : S) tr sec s' :
  runs (buildDefaultRDSSecret pg s) tr (Val sec, s') →
  Secret_Name sec = Meta_Name (CR_Meta pg) +:+ defaultCredSecSuffix ∧
  Secret_Namespace sec = Meta_Namespace (CR_Meta pg).
Proof.
  intros Hr. unfold buildDefaultRDSSecret in Hr.
  apply runs_bind_Val in Hr as (t1 & [w|e] & s1 & t2 & -> & _ & Hr); run_val Hr; by subst.
Qed.

Definition finalizerCall (c : call) : Prop :=
  match (c : api_call) with UpdateCR _ => True | _ => reads c = true end.
Lemma finalizerCall_reads : reads_ok finalizerCall.
Proof. intros c. by destruct c. Qed.
#[local] Hint Resolve finalizerCall_reads : sat.

Lemma nc_reconcileNetwork sts tier msg : sat networkCall eq (reconcileNetwork p sts tier msg).
Proof. unfold reconcileNetwork. go_sat. Qed.
#[local] Hint Resolve nc_reconcileNetwork : sat.

(** What [ReconcilePostgres] has done when it makes its first call on the
    instance: [cr1] is the object it goes on with. *)
Definition reconcilePrepared cr (cr1 : CR) (tr : list event) : Prop :=
  ((is_Some (Meta_DeletionTimestamp (CR_Meta cr)) ∧ cr1 = cr) ∨
   (Meta_DeletionTimestamp (CR_Meta cr) = None ∧
    Ev (UpdateCR (setMeta cr (addFinalizer (CR_Meta cr) DefaultFinalizer))) (Ok cr1) ∈ tr)) ∧
  (∃ sec sec', Secret_Name sec = Meta_Name (CR_Meta cr1) +:+ defaultCredSecSuffix ∧
     Secret_Namespace sec = Meta_Namespace (CR_Meta cr1) ∧
     (Ev (GetSecret (Secret_Name sec) (Secret_Namespace sec)) (Ok sec') ∈ tr ∨
      Ev (CreateSecret sec) (Ok sec') ∈ tr)).

(** C5: an instance is created only after the finalizer has been stored on
    the custom resource, unless it is being deleted, and the credential secret
    exists; so an instance that AWS starts is never forgotten. *)
Theorem ReconcilePostgres_creates cr tr o cr' input r :
  runs (ReconcilePostgres p cr) tr (o, cr') → Ev (CreateDBInstance input) r ∈ tr →
  ∃ cr1 t1 t2, tr = t1 ++ t2 ∧ Ev (CreateDBInstance input) r ∈ t2 ∧
    (∀ input' r', Ev (CreateDBInstance input') r' ∉ t1) ∧ reconcilePrepared cr cr1 t1.
Proof.
  intros Hr He. unfold ReconcilePostgres in Hr.
  set (c := CreateDBInstance input) in *.
  assert (¬ credentialCall c) as Hc by (intros [=]). assert (¬ networkCall c) as Hn by (intros []).
  eapply (runs_bind_skip finalizerCall anyCR) in Hr as (t1 & u & cr1 & t2 & -> & H1 & _ & Hr & Hin);
    [|exact He|unfold CreateFinalizer; go_sat|by intros [=]].
  clear He. rename Hin into He. apply runs_onErr_Val in H1.
  assert (sat finalizerCall anyCR (CreateFinalizer DefaultFinalizer)) as F1
    by (unfold CreateFinalizer; go_sat).
  apply F1 in H1 as Hall1. destruct Hall1 as [Hall1 _]. apply CreateFinalizer_Val in H1.
  apply runs_bind_get in Hr.
  split_calls credentialCall Hr He Hc cfg A2. destruct cfg as [[[cfg dcfg] upd] strat].
  split_calls credentialCall Hr He Hc creds A3.
  split_calls credentialCall Hr He Hc window A4.
  skip_calls_not credentialCall Hr He Hc sec H5. apply runs_onErr_Val in H5.
  pose proof (proj1 (ro_buildDefaultRDSSecret _ _ _ _ _ H5)) as A5.
  apply buildDefaultRDSSecret_Val in H5 as [Hname Hns].
  skip_calls_not credentialCall Hr He Hc sec' H6. apply runs_onErr_Val in H6.
  pose proof (proj1 (cc_CreateOrUpdateSecret _ _ _ _ _ H6)) as A6.
  apply CreateOrUpdateSecret_Val in H6.
  split_calls credentialCall Hr He Hc u7 A7. split_calls credentialCall Hr He Hc sts A8.
  split_calls credentialCall Hr He Hc enabled A9.
  split_calls networkCall Hr He Hn u10 A10.
  exists cr1, (t1 ++ t ++ t2 ++ t0 ++ t3 ++ t4 ++ t5 ++ t6 ++ t7 ++ t8), t10.
  split; [by rewrite <- !app_assoc|]. split; [exact He|]. split.
  - intros input' r' Hx.
    repeat match goal with
    | X : _ ∈ _ ++ _ |- _ => apply elem_of_app in X as [X|X]
    end;
    match goal with
    | X : _ ∈ ?l, F : Forall _ ?l |- _ => rewrite Forall_forall in F; specialize (F _ X); first [discriminate F | destruct F]
    end.
  - split; [destruct H1 as [?|[? ?]]; [by left|right; split; [done|ev_in]]|].
    exists sec, sec'. split; [done|]. split; [done|]. destruct H6; [left|right]; ev_in.
Qed.

Lemma applyUpdatesInWindow_None upd cfg cr tr cr' :
  runs (applyUpdatesInWindow upd cfg cr) tr (Val None, cr') →
  ∃ before, Ev (UpdateCR (setMaintenanceWindow false before)) (Ok cr') ∈ tr.
Proof.
  intros Hr. unfold applyUpdatesInWindow in Hr.
  apply runs_bind_Val in Hr as (t1 & updating & cr1 & t2 & -> & _ & Hr).
  destruct updating; [by apply runs_mret_Val in Hr as (_ & ? & _)|].
  run_val Hr. eexists. ev_in.
Qed.

Lemma ReconcilePostgres_Some cr tr pdd msg cr' :
  runs (ReconcilePostgres p cr) tr (Val (Some pdd, msg), cr') →
  ∃ cr1 window pi i ep cfg sec,
    ((is_Some (Meta_DeletionTimestamp (CR_Meta cr)) ∧ cr1 = cr) ∨
     Ev (UpdateCR (setMeta cr (addFinalizer (CR_Meta cr) DefaultFinalizer))) (Ok cr1) ∈ tr) ∧
    Ev (GetCR Postgres (Meta_Name (CR_Meta cr1)) (Meta_Namespace (CR_Meta cr1))) (Ok window) ∈ tr ∧
    Ev DescribeDBInstances (Ok pi) ∈ tr ∧ i ∈ pi ∧ complete cfg ∧
    DB_DBInstanceIdentifier i = CI_DBInstanceIdentifier cfg ∧
    DB_DBInstanceStatus i = Some "available" ∧ DB_Endpoint i = Some ep ∧
    Endpoint_Address ep = Some (PDD_Host pdd) ∧ Endpoint_Port ep = Some (PDD_Port pdd) ∧
    DB_MasterUsername i = Some (PDD_Username pdd) ∧ DB_DBName i = Some (PDD_Database pdd) ∧
    Ev (GetSecret (Meta_Name (CR_Meta cr1) +:+ defaultCredSecSuffix)
          (Meta_Namespace (CR_Meta cr1))) (Ok sec) ∈ tr ∧
    PDD_Password pdd = secretData sec defaultPostgresPasswordKey ∧ PDD_Password pdd ≠ "" ∧
    (Spec_MaintenanceWindow (CR_Spec window) = true →
       buildRDSUpdateStrategy cfg i cr1 = Val None ∧
       ∃ before, Ev (UpdateCR (setMaintenanceWindow false before)) (Ok cr') ∈ tr).
Proof.
  intros Hr. unfold ReconcilePostgres in Hr.
  apply runs_bind_Val in Hr as (t1 & u & cr1 & t2 & -> & Hfin & Hr).
  apply runs_onErr_Val, CreateFinalizer_Val in Hfin.
  apply runs_bind_get in Hr.
  val_call credentialCall Hr cfg H2. clear H2. destruct cfg as [[[cfg dcfg] upd] strat].
  val_call credentialCall Hr creds H3. clear H3.
  val_call credentialCall Hr window H4. unfold VerifyPostgresMaintenanceWindow in H4. run_val H4.
  val_call credentialCall Hr sec H5. clear H5. val_call credentialCall Hr sec' H6. clear H6.
  val_call credentialCall Hr u7 H7. clear H7. val_call credentialCall Hr sts H8. clear H8.
  val_call credentialCall Hr enabled H9. clear H9. val_call networkCall Hr u10 H10. clear H10.
  apply runs_bind_Val in Hr as (t11 & [[res st] cfg'] & cr2 & t12 & -> & H11 & Hr).
  apply runs_onErr_Val, reconcileRDSInstance_Val in H11
    as (pass & found & tb & cr3 & ((pi & Hpi & Hf) & (sec2 & Hsec & ->) & Hp & (tc & _ & Hb)) & _ & Hbr).
  destruct res as [details|]; [|by apply runs_mret_Val in Hr as (_ & ? & _)].
  destruct found as [i|]; cbn [instanceBranch] in Hbr.
  2: { unfold createRDSInstance in Hbr. run_val Hbr; simplify_eq. }
  apply reconcileFoundInstance_deployed in Hbr as (Hst & Hpw & (ep & ? & ? & ?) & ? & ? & Hw).
  apply findByPtr_Some in Hf as [Hi Hid].
  apply runs_bind_Val in Hr as (t13 & updating & cr4 & t14 & -> & Hup & Hr).
  destruct updating; [by apply runs_mret_Val in Hr as (_ & ? & _)|].
  apply runs_mret_Val in Hr as (-> & [= -> ->] & ->).
  exists cr1, a, pi, i, ep, cfg', sec2. split_and!; try done; try ev_in.
  - destruct Hfin as [?|[_ ?]]; [by left|right; ev_in].
  - by eapply buildRDSCreateStrategy_complete.
  - by rewrite Hpw.
  - intros Ea. rewrite Ea in H1. subst window. split; [by apply Hw|].
    apply applyUpdatesInWindow_None in Hup as [before Hb4]. exists before. ev_in.
Qed.

End Provider.
