(* ===== verification/AwsRedisProps.v ===== *)
(** * Properties of the ElastiCache provider

    The decision to modify a replication group; its creation, modification,
    service updates and deletion in every environment. *)
From S2P Require Import Prelude Effects GoNet Json Api Resources Metrics.
From S2P Require Import Subnets ClusterVpc NetworkProvider NetworkProps AwsConfig AwsPostgres.
From S2P Require Import AwsRedis Footprints AwsPostgresProps.
Local Open Scope go_scope.

(** ** The decision to modify a replication group *)

Section Update.
Context `{ThirdParty}.
Implicit Types (cfg : CreateReplicationGroupInput) (g : ReplicationGroup) (c : CacheCluster).

(** A cache cluster is as the configuration asks. *)
Definition clusterConforms cfg c : Prop :=
  (∀ want, CR_EngineVersion cfg = Some want → ∃ v, CC_EngineVersion c = Some v ∧
     VerifyVersionUpgradeNeeded v want = Val false) ∧
  agrees (CR_PreferredMaintenanceWindow cfg) (CC_PreferredMaintenanceWindow c) ∧
  agrees (CR_SnapshotWindow cfg) (CC_SnapshotWindow c).
(** A field of the modification is the wanted one, and [P] tells why. *)
Definition changedTo {A} (field want : option A) (P : A → Prop) : Prop :=
  ∀ v, field = Some v → want = Some v ∧ P v.

Definition upgradeOf cfg c (v : string) : Prop :=
  ∃ old, CC_EngineVersion c = Some old ∧ VerifyVersionUpgradeNeeded old v = Val true.

Lemma changedTo_impl {A} (field want : option A) (P Q : A → Prop) :
  changedTo field want P → (∀ v, P v → Q v) → changedTo field want Q.
Proof. intros Hp Hpq v [? ?]%Hp. auto. Qed.

Lemma differsIfSet_Val {A} `{EqDecision A} (want found d : option A) :
  differsIfSet want found = Val d →
  (isSet d = false ↔ agrees want found) ∧ changedTo d want (λ v, found ≠ Some v).
Proof.
  unfold differsIfSet, changedTo, agrees. destruct want as [w|]; [|intros [= <-]; simpl; by intuition].
  cbn.
  destruct found as [f|]; [|done]. cbn. case_bool_decide; intros [= <-]; simpl; naive_solver.
Qed.

Lemma updateForCluster_Val cfg mi b c mi' b' :
  updateForCluster cfg (mi, b) c = Val (mi', b') →
  MR_ReplicationGroupId mi' = MR_ReplicationGroupId mi ∧
  MR_CacheNodeType mi' = MR_CacheNodeType mi ∧
  MR_SnapshotRetentionLimit mi' = MR_SnapshotRetentionLimit mi ∧
  (b' = false ↔ b = false ∧ clusterConforms cfg c) ∧
  (MR_EngineVersion mi' = MR_EngineVersion mi ∧ MR_ApplyImmediately mi' = MR_ApplyImmediately mi ∨
   ∃ v, CR_EngineVersion cfg = Some v ∧ upgradeOf cfg c v ∧ MR_EngineVersion mi' = Some v ∧
        MR_ApplyImmediately mi' = Some true) ∧
  (MR_PreferredMaintenanceWindow mi' = MR_PreferredMaintenanceWindow mi ∨
   changedTo (MR_PreferredMaintenanceWindow mi') (CR_PreferredMaintenanceWindow cfg)
     (λ v, CC_PreferredMaintenanceWindow c ≠ Some v)) ∧
  (MR_SnapshotWindow mi' = MR_SnapshotWindow mi ∨
   changedTo (MR_SnapshotWindow mi') (CR_SnapshotWindow cfg)
     (λ v, CC_SnapshotWindow c ≠ Some v)).
Proof.
  unfold updateForCluster.
  set (up := match CR_EngineVersion cfg with Some _ => _ | None => _ end : outcome error bool).
  assert (∀ u, up = Val u → (u = false ↔ ∀ want, CR_EngineVersion cfg = Some want →
      ∃ v, CC_EngineVersion c = Some v ∧ VerifyVersionUpgradeNeeded v want = Val false) ∧
    (u = true → ∃ v, CR_EngineVersion cfg = Some v ∧ upgradeOf cfg c v)) as Hup.
  { unfold up, upgradeOf. intros u. destruct (CR_EngineVersion cfg) as [want|]; [|by intros [= <-]].
    destruct (CC_EngineVersion c) as [v|]; [|done]. simpl.
    destruct (VerifyVersionUpgradeNeeded v want) as [n| |] eqn:E; [|done..]. intros [= <-].
    split; [split|].
    - intros -> w [= <-]. eauto.
    - intros Hf. destruct (Hf want eq_refl) as (v' & [= <-] & Hv). congruence.
    - intros ->. eauto. }
  clearbody up. destruct up as [u| |]; [|done..]. specialize (Hup u eq_refl) as [Hu1 Hu2]. cbn.
  destruct (differsIfSet (CR_PreferredMaintenanceWindow cfg) _) as [m| |] eqn:Em; [|done..].
  destruct (differsIfSet (CR_SnapshotWindow cfg) _) as [w| |] eqn:Ew; [|done..]. cbn.
  intros [= <- <-]. apply differsIfSet_Val in Em as [Em1 Em2], Ew as [Ew1 Ew2]. cbn.
  split_and!; try done.
  - rewrite !orb_false_iff. unfold clusterConforms. rewrite Hu1, Em1, Ew1. tauto.
  - destruct u; [right|by left]. destruct (Hu2 eq_refl) as (v & Ev & Hv). exists v. by rewrite Ev.
  - destruct m; [by right|by left].
  - destruct w; [by right|by left].
Qed.

Lemma updateForClusters_Val cfg cs mi b mi' b' :
  updateForClusters cfg (mi, b) cs = Val (mi', b') →
  MR_ReplicationGroupId mi' = MR_ReplicationGroupId mi ∧
  MR_CacheNodeType mi' = MR_CacheNodeType mi ∧
  MR_SnapshotRetentionLimit mi' = MR_SnapshotRetentionLimit mi ∧
  (b' = false ↔ b = false ∧ ∀ c, c ∈ cs → clusterConforms cfg c) ∧
  (MR_EngineVersion mi' = MR_EngineVersion mi ∧ MR_ApplyImmediately mi' = MR_ApplyImmediately mi ∨
   ∃ v c, CR_EngineVersion cfg = Some v ∧ c ∈ cs ∧ upgradeOf cfg c v ∧
          MR_EngineVersion mi' = Some v ∧ MR_ApplyImmediately mi' = Some true) ∧
  (MR_PreferredMaintenanceWindow mi' = MR_PreferredMaintenanceWindow mi ∨
   changedTo (MR_PreferredMaintenanceWindow mi') (CR_PreferredMaintenanceWindow cfg)
     (λ v, ∃ c, c ∈ cs ∧ CC_PreferredMaintenanceWindow c ≠ Some v)) ∧
  (MR_SnapshotWindow mi' = MR_SnapshotWindow mi ∨
   changedTo (MR_SnapshotWindow mi') (CR_SnapshotWindow cfg)
     (λ v, ∃ c, c ∈ cs ∧ CC_SnapshotWindow c ≠ Some v)).
Proof.
  revert mi b. induction cs as [|c cs IH]; intros mi b; cbn [updateForClusters].
  { intros [= <- <-]. split_and!; try done; [|by left..].
    split; [|tauto]. split; [done|]. intros c Hc. by apply not_elem_of_nil in Hc. }
  destruct (updateForCluster cfg (mi, b) c) as [[m1 b1]| |] eqn:E1; [|done..].
  intros E2. apply (IH m1 b1) in E2.
  apply updateForCluster_Val in E1 as (A1 & A2 & A3 & A4 & A5 & A6 & A7).
  destruct E2 as (B1 & B2 & B3 & B4 & B5 & B6 & B7).
  assert (∀ (x y z w : option string) (P : CacheCluster → string → Prop),
    (y = x ∨ changedTo y w (P c)) → (z = y ∨ changedTo z w (λ v, ∃ c', c' ∈ cs ∧ P c' v)) →
    z = x ∨ changedTo z w (λ v, ∃ c', c' ∈ c :: cs ∧ P c' v)) as Hch.
  { unfold changedTo. intros x y z w P H1 [->|H2].
    - destruct H1 as [?|H1]; [by left|right]. intros v [? ?]%H1. split; [done|].
      exists c. split; [constructor|done].
    - right. intros v (? & c' & ? & ?)%H2. split; [done|]. exists c'. split; [by constructor|done]. }
  split_and!; try congruence.
  - rewrite B4, A4. split.
    + intros [[? ?] Hc]. split; [done|]. intros c' [->|?]%elem_of_cons; auto.
    + intros [? Hc]. split; [split; [done|]|]; intros; apply Hc; by constructor.
  - destruct B5 as [[Bv Ba]|(v & c' & ? & ? & ? & ? & ?)].
    + destruct A5 as [[? ?]|(v & ? & ? & ? & ?)]; [left; split; congruence|right].
      exists v, c. split_and!; try done; [constructor|congruence|congruence].
    + right. exists v, c'. split_and!; try done. by constructor.
  - by eapply (Hch _ _ _ _ (λ c v, CC_PreferredMaintenanceWindow c ≠ Some v)).
  - by eapply (Hch _ _ _ _ (λ c v, CC_SnapshotWindow c ≠ Some v)).
Qed.

Lemma instanceTypeSupported_zones offerings clusters :
  instanceTypeSupported offerings clusters = true ↔
  ∀ c, c ∈ clusters → StringValue (CC_PreferredAvailabilityZone c) ∈ map StringValue offerings.
Proof.
  unfold instanceTypeSupported, Contains_. rewrite forallb_In. split.
  - intros Hf c Hc.
    destruct (proj1 (existsb_In _ _) (Hf (StringValue (CC_PreferredAvailabilityZone c))
      ltac:(apply list_elem_of_fmap; by exists c))) as (x & Hx & ->%bool_decide_eq_true). done.
  - intros Hf z Hz. apply list_elem_of_fmap in Hz as (c & -> & Hc). apply existsb_In.
    eexists. split; [by apply Hf|]. by apply bool_decide_eq_true.
Qed.
Lemma instanceTypeSupported_missing offerings clusters :
  instanceTypeSupported offerings clusters = false →
  ∃ c, c ∈ clusters ∧ StringValue (CC_PreferredAvailabilityZone c) ∉ map StringValue offerings.
Proof.
  intros Hf. apply not_true_iff_false in Hf. rewrite instanceTypeSupported_zones in Hf.
  induction clusters as [|c cs IH]; [by destruct Hf; intros ? ?%not_elem_of_nil|].
  destruct (decide (StringValue (CC_PreferredAvailabilityZone c) ∈ map StringValue offerings)) as [Hc|Hc].
  - destruct IH as (c' & ? & ?); [|exists c'; split; [by constructor|done]].
    intros Hcs. apply Hf. intros c' [->|?]%elem_of_cons; auto.
  - exists c. split; [constructor|done].
Qed.

(** The question whether a node type is offered, and its answer. *)
Definition offered (nodeType : string) (offerings : list (option string)) : event :=
  Ev (DescribeInstanceTypeOfferings
        [{| Filter_Name := Some "instance-type";
            Filter_Values := [Some (GoStrings.removeFirst "cache." nodeType)] |}]
        (Some "availability-zone")) (Ok offerings).

Definition offeringsOf (e : event) : option (result (list (option string))) :=
  let 'Ev c r := e in
  match c as c' return @resp api c' → option (result (list (option string))) with
  | DescribeInstanceTypeOfferings _ _ => Some
  | _ => λ _, None
  end r.

Lemma nodeTypeChange_Val {S} cfg g cs (s : S) tr d s' :
  runs (nodeTypeChange cfg g cs s) tr (Val d, s') →
  changedTo d (CR_CacheNodeType cfg) (λ t, RG_CacheNodeType g ≠ Some t ∧ is_Some (RG_CacheNodeType g) ∧
    ∃ offerings, offered t offerings ∈ tr ∧ ∀ c, c ∈ cs →
      StringValue (CC_PreferredAvailabilityZone c) ∈ map StringValue offerings) ∧
  (d = None → ∀ want current, CR_CacheNodeType cfg = Some want →
     RG_CacheNodeType g = Some current → want ≠ current →
     ∃ offerings c, offered want offerings ∈ tr ∧ c ∈ cs ∧
       StringValue (CC_PreferredAvailabilityZone c) ∉ map StringValue offerings) ∧
  (∀ t1 o1 t2 o2, offered t1 o1 ∈ tr → offered t2 o2 ∈ tr → o1 = o2).
Proof.
  unfold nodeTypeChange, changedTo. intros Hr.
  destruct (RG_CacheNodeType g) as [current|], (CR_CacheNodeType cfg) as [want|];
    [|apply runs_mret_Val in Hr as (-> & <- & _);
      split_and!; [done|naive_solver|intros ? ? ? ? []%not_elem_of_nil]..].
  case_bool_decide as Hw.
  2: { apply runs_mret_Val in Hr as (-> & <- & _). split_and!; [done|naive_solver|].
       intros ? ? ? ? []%not_elem_of_nil. }
  run_val Hr. unfold offered. split_and!.
  3: { intros t1 o1 t2 o2 F1%list_elem_of_singleton F2%list_elem_of_singleton.
       apply (f_equal offeringsOf) in F1, F2. cbn in F1, F2. congruence. }
  - intros t Ht. destruct (instanceTypeSupported a cs) eqn:E; [|by simplify_eq]. simplify_eq.
    split; [done|]. split; [congruence|]. split; [by eexists|].
    eexists. split; [ev_in|]. by apply instanceTypeSupported_zones.
  - intros -> w c0 [= <-] [= <-] _. destruct (instanceTypeSupported a cs) eqn:E; [done|].
    destruct (instanceTypeSupported_missing _ _ E) as (c & ? & ?).
    eexists _, c. split; [ev_in|done].
Qed.

(** The replication group is as the configuration asks, as far as the offered
    node types allow: [tr] holds the answer that tells which are. *)
Definition groupConforms cfg g (cs : list CacheCluster) (tr : list event) : Prop :=
  (∀ want current, CR_CacheNodeType cfg = Some want → RG_CacheNodeType g = Some current →
     want ≠ current → ∃ offerings c, offered want offerings ∈ tr ∧ c ∈ cs ∧
       StringValue (CC_PreferredAvailabilityZone c) ∉ map StringValue offerings) ∧
  (∀ n, RG_SnapshotRetentionLimit g = Some n → CR_SnapshotRetentionLimit cfg = Some n) ∧
  (∀ c, c ∈ cs → clusterConforms cfg c).

Lemma retention_Val (want found d : option Z) :
  match found with Some _ => differs want found | None => mret None end = Val d →
  (isSet d = false ↔ ∀ m, found = Some m → want = Some m) ∧
  changedTo d want (λ n, ∃ m, found = Some m ∧ m ≠ n).
Proof.
  unfold changedTo. destruct found as [m|]; [|by intros [= <-]].
  unfold differs. destruct want as [w|]; [|done]. cbn.
  case_bool_decide as E; intros [= <-]; cbn; (split; [split|]); try done.
  - intros Hm. specialize (Hm m eq_refl). congruence.
  - intros v [= <-]. split; [done|]. exists m. split; congruence.
  - intros _ m' [= <-]. congruence.
Qed.

(** no modification is asked for only when the group and its clusters are as
    the configuration asks, except for a node type that some used zone does not
    offer; a modification names the group, changes a field only to the configured
    value and only where the group or one of its clusters differs, and an engine
    upgrade is applied at once. *)
Theorem buildElasticacheUpdateStrategy_spec {S} cfg g cs r (s : S) tr res s' :
  runs (buildElasticacheUpdateStrategy cfg g cs r s) tr (Val res, s') →
  (res = None → groupConforms cfg g cs tr) ∧
  (∀ mi, res = Some mi →
     MR_ReplicationGroupId mi = RG_ReplicationGroupId g ∧
     changedTo (MR_CacheNodeType mi) (CR_CacheNodeType cfg) (λ t, RG_CacheNodeType g ≠ Some t ∧
       ∃ offerings, offered t offerings ∈ tr ∧ ∀ c, c ∈ cs →
         StringValue (CC_PreferredAvailabilityZone c) ∈ map StringValue offerings) ∧
     changedTo (MR_SnapshotRetentionLimit mi) (CR_SnapshotRetentionLimit cfg)
       (λ n, ∃ m, RG_SnapshotRetentionLimit g = Some m ∧ m ≠ n) ∧
     changedTo (MR_EngineVersion mi) (CR_EngineVersion cfg)
       (λ v, (∃ c, c ∈ cs ∧ upgradeOf cfg c v) ∧ MR_ApplyImmediately mi = Some true) ∧
     changedTo (MR_PreferredMaintenanceWindow mi) (CR_PreferredMaintenanceWindow cfg)
       (λ v, ∃ c, c ∈ cs ∧ CC_PreferredMaintenanceWindow c ≠ Some v) ∧
     changedTo (MR_SnapshotWindow mi) (CR_SnapshotWindow cfg)
       (λ v, ∃ c, c ∈ cs ∧ CC_SnapshotWindow c ≠ Some v) ∧
     ¬ groupConforms cfg g cs tr).
Proof.
  intros Hr. unfold buildElasticacheUpdateStrategy in Hr.
  apply runs_bind_Val in Hr as (t1 & d & s1 & t2 & -> & H1 & Hr).
  apply nodeTypeChange_Val in H1 as (N1 & N2 & N3).
  apply runs_bind_Val in Hr as (t3 & n & s2 & t4 & -> & H2 & Hr).
  apply runs_lift_Val in H2 as (-> & H2 & ->).
  apply runs_bind_Val in Hr as (t5 & [mi b] & s3 & t6 & -> & H3 & Hr).
  apply runs_lift_Val in H3 as (-> & H3 & ->).
  apply updateForClusters_Val in H3 as (A1 & A2 & A3 & A4 & A5 & A6 & A7).
  apply runs_mret_Val in Hr as (-> & <- & ->). cbn in A1, A2, A3, A5, A6, A7.
  apply retention_Val in H2 as [R1 R2].
  rewrite app_nil_r. cbn [app] in *. split.
  - destruct b; [done|]. intros _. destruct (proj1 A4 eq_refl) as [[Hd Hn]%orb_false_iff Hc].
    split_and!; [|by apply R1|exact Hc]. apply N2. by destruct d.
  - destruct b; [|done]. intros mi' [= <-]. cbn [fst]. rewrite A2, A3. split_and!; try done.
    + eapply changedTo_impl; [exact N1|]. by intros v (? & _ & ?).
    + destruct A5 as [[-> _]|(v & c & E & ? & ? & -> & Ha)]; [done|].
      intros v' [= <-]. split; [done|]. split; [|done]. by exists c.
    + destruct A6 as [->|A6]; [done|exact A6].
    + destruct A7 as [->|A7]; [done|exact A7].
    + intros (G1 & G2 & G3). apply Bool.diff_true_false, A4. split; [|exact G3].
      apply orb_false_iff. split; [|by apply R1].
      destruct d as [t|]; [|done]. exfalso.
      destruct (N1 t eq_refl) as (Ew & Hne & [cur Ec] & offs & Ho & Hz).
      destruct (G1 t cur Ew Ec ltac:(congruence)) as (offs' & c & Ho' & Hc & Hn).
      rewrite (N3 _ _ _ _ Ho' Ho) in Hn. auto.
Qed.
End Update.

(** ** Reconciling a replication group *)

Lemma getReplicationGroups_Val {S} (s : S) tr l s' :
  runs (getReplicationGroups s) tr (Val l, s') → Ev DescribeReplicationGroups (Ok l) ∈ tr.
Proof.
  unfold getReplicationGroups. intros (t & s1 & Ht & Hr)%poll_Val. apply Ht. run_val Hr.
  destruct a; simplify_eq. ev_in.
Qed.

(** A configuration with the fields that the provider sets itself. *)
Definition completeGroup (cfg : CreateReplicationGroupInput) : Prop :=
  is_Some (CR_ReplicationGroupId cfg) ∧ is_Some (CR_CacheNodeType cfg) ∧
  is_Some (CR_EngineVersion cfg) ∧ is_Some (CR_NumCacheClusters cfg) ∧
  is_Some (CR_SnapshotRetentionLimit cfg) ∧ is_Some (CR_CacheSubnetGroupName cfg) ∧
  is_Some (CR_AtRestEncryptionEnabled cfg) ∧ is_Some (CR_TransitEncryptionEnabled cfg) ∧
  CR_Engine cfg = Some "redis" ∧ CR_AutomaticFailoverEnabled cfg = Some true.
(** [cfg'] keeps what [cfg] sets. *)
Definition keeps (cfg cfg' : CreateReplicationGroupInput) : Prop :=
  agrees (CR_ReplicationGroupId cfg) (CR_ReplicationGroupId cfg') ∧
  agrees (CR_CacheNodeType cfg) (CR_CacheNodeType cfg') ∧
  agrees (CR_EngineVersion cfg) (CR_EngineVersion cfg') ∧
  agrees (CR_NumCacheClusters cfg) (CR_NumCacheClusters cfg') ∧
  agrees (CR_SnapshotRetentionLimit cfg) (CR_SnapshotRetentionLimit cfg') ∧
  agrees (CR_AtRestEncryptionEnabled cfg) (CR_AtRestEncryptionEnabled cfg') ∧
  agrees (CR_TransitEncryptionEnabled cfg) (CR_TransitEncryptionEnabled cfg') ∧
  agrees (CR_SecurityGroupIds cfg) (CR_SecurityGroupIds cfg') ∧
  CR_PreferredMaintenanceWindow cfg' = CR_PreferredMaintenanceWindow cfg ∧
  CR_SnapshotWindow cfg' = CR_SnapshotWindow cfg ∧ CR_Other cfg' = CR_Other cfg.

Lemma buildElasticacheCreateStrategy_Val {S} r cfg (s : S) tr cfg' s' :
  runs (buildElasticacheCreateStrategy r cfg s) tr (Val cfg', s') →
  completeGroup cfg' ∧ keeps cfg cfg'.
Proof.
  intros Hr. unfold buildElasticacheCreateStrategy in Hr.
  run_val Hr; subst; (split; [by repeat split; eexists|]); unfold keeps, agrees; cbn;
    repeat split; intros; simplify_eq; try done; match goal with X : _ = Some _ |- _ => by rewrite X end.
Qed.

Lemma buildRedisTagCreateStrategy_Val {S} cr cfg (s : S) tr cfg' s' :
  runs (buildRedisTagCreateStrategy cr cfg s) tr (Val cfg', s') →
  CR_ReplicationGroupId cfg' = CR_ReplicationGroupId cfg ∧
  (completeGroup cfg → completeGroup cfg') ∧ (∀ cfg0, keeps cfg0 cfg → keeps cfg0 cfg').
Proof. intros Hr. unfold buildRedisTagCreateStrategy in Hr. run_val Hr; by subst. Qed.

(** The calls on the replication group and on the custom resource. *)
Definition groupCall (c : call) : Prop :=
  match (c : api_call) with
  | CreateReplicationGroup _ | DeleteReplicationGroup _ | ModifyReplicationGroup _
  | BatchApplyUpdateAction _ _ | UpdateCR _ => True
  | _ => False
  end.
Lemma groupCall_network c : groupCall c → ¬ networkCall c.
Proof. by destruct c; intros [] []. Qed.
Lemma groupCall_metric c : groupCall c → ¬ metricCall c.
Proof. by destruct c; intros [] [[=]|[]]. Qed.
Lemma groupCall_reads c : groupCall c → reads c ≠ true.
Proof. by destruct c; intros []. Qed.

Section Provider.
Context `{ThirdParty} (p : RedisProvider).
Implicit Types (cfg : CreateReplicationGroupInput) (r : CR) (g : ReplicationGroup).

(** The part of [createElasticacheCluster] that touches the replication group. *)
Definition groupBranch cfg updates window (found : option ReplicationGroup)
  : M CR (string * error) (option RedisDeploymentDetails * string) :=
  match found with
  | Some g => reconcileFoundCache p cfg updates window g
  | None => createCache p cfg
  end.

(** What is known when that part is reached. *)
Definition groupReached cfg r tr (cfg' : CreateReplicationGroupInput)
    (found : option ReplicationGroup) : Prop :=
  (∃ rgs, Ev DescribeReplicationGroups (Ok rgs) ∈ tr ∧
     findByPtr (E := string * error) RG_ReplicationGroupId (CR_ReplicationGroupId cfg') rgs
     = Val found) ∧
  ∃ tb, tb ⊆ tr ∧ runs (buildElasticacheCreateStrategy r cfg r) tb (Val cfg', r).

Lemma createElasticacheCluster_calls cfg updates standalone window r tr o r' c ans :
  runs (createElasticacheCluster p cfg updates standalone window r) tr (o, r') →
  Ev c ans ∈ tr → groupCall c →
  ∃ cfg' found t o1 r1, groupReached cfg r tr cfg' found ∧ t ⊆ tr ∧
    runs (groupBranch cfg' updates window found r) t (o1, r1) ∧ Ev c ans ∈ t.
Proof.
  intros Hr He Hc. pose proof (groupCall_network c Hc) as Hn.
  pose proof (groupCall_metric c Hc) as Hm. unfold createElasticacheCluster in Hr.
  skip_calls_not networkCall Hr He Hn rgs H1. apply runs_onErr_Val, getReplicationGroups_Val in H1.
  skip_calls_not networkCall Hr He Hn u H2. clear H2. apply runs_bind_get in Hr.
  skip_calls_not networkCall Hr He Hn cfg' H3. apply runs_onErr_Val in H3.
  skip_calls_not networkCall Hr He Hn found H4. apply runs_lift_Val in H4 as (-> & Hf & _).
  do 3 skip_deferred Hr He Hm.
  exists cfg', found. eexists _, _, _. split; [split|split; [|split; [exact Hr|exact He]]].
  - exists rgs. split; [ev_in|exact Hf].
  - eexists. split; [|exact H3]. intros x Hx. ev_in.
  - intros x Hx%Hsub1%Hsub0%Hsub. ev_in.
Qed.

(** The same for a run that succeeds. *)
Lemma createElasticacheCluster_Val cfg updates standalone window r tr res r' :
  runs (createElasticacheCluster p cfg updates standalone window r) tr (Val res, r') →
  ∃ cfg' found t r1, groupReached cfg r tr cfg' found ∧ t ⊆ tr ∧
    runs (groupBranch cfg' updates window found r) t (Val res, r1).
Proof.
  intros Hr. unfold createElasticacheCluster in Hr.
  val_call networkCall Hr rgs H1. apply runs_onErr_Val, getReplicationGroups_Val in H1.
  val_call networkCall Hr u H2. clear H2. apply runs_bind_get in Hr.
  val_call networkCall Hr cfg' H3. apply runs_onErr_Val in H3.
  val_call networkCall Hr found H4. apply runs_lift_Val in H4 as (-> & Hf & _).
  apply runs_defer_Val in Hr as (t2' & s2 & Hs2 & Hr).
  apply runs_defer_Val in Hr as (t3' & s3 & Hs3 & Hr).
  apply runs_defer_Val in Hr as (t4' & s4 & Hs4 & Hr).
  exists cfg', found. eexists _, _. split; [split|split; [|exact Hr]].
  - exists rgs. split; [ev_in|exact Hf].
  - eexists. split; [|exact H3]. intros x Hx. ev_in.
  - intros x Hx%Hs4%Hs3%Hs2. ev_in.
Qed.

(** The answer of the call of an event, if it creates a replication group. *)
Definition createGroupAnswer (e : event) : option (result unit) :=
  let 'Ev c r := e in
  match c as c' return @resp api c' → option (result unit) with
  | CreateReplicationGroup _ => Some
  | _ => λ _, None
  end r.

Lemma createCache_creates cfg r tr o r' input ans :
  runs (createCache p cfg r) tr (o, r') → Ev (CreateReplicationGroup input) ans ∈ tr →
  annotations_Has (CR_Meta r) ResourceIdentifierAnnotation = false ∧
  CR_ReplicationGroupId input = CR_ReplicationGroupId cfg ∧
  (completeGroup cfg → completeGroup input) ∧ (∀ cfg0, keeps cfg0 cfg → keeps cfg0 input) ∧
  (ans = Ok tt → ∀ id, CR_ReplicationGroupId cfg = Some id → ∃ ans,
     Ev (UpdateCR (setMeta r (annotations_Add (CR_Meta r) ResourceIdentifierAnnotation id)))
        ans ∈ tr).
Proof.
  intros Hr He. unfold createCache in Hr. apply runs_bind_get in Hr.
  destruct (annotations_Has _ _) eqn:Ea.
  { apply runs_fail in Hr as (-> & _). by apply not_elem_of_nil in He. }
  split; [done|]. skip_reads Hr He cfg' H1.
  assert (CR_ReplicationGroupId cfg' = CR_ReplicationGroupId cfg ∧
    (completeGroup cfg → completeGroup cfg') ∧ (∀ cfg0, keeps cfg0 cfg → keeps cfg0 cfg'))
    as (Eid & Ec & Ek).
  { destruct (isSTSManager _).
    - by apply runs_onErr_Val, buildRedisTagCreateStrategy_Val in H1.
    - apply runs_mret_Val in H1 as (_ & -> & _). done. }
  inv_call Hr. destruct Hr as (r2 & t' & -> & [(err & E & -> & _)|([] & E & Hr)]); cbv beta in E.
  - apply list_elem_of_singleton in He.
    pose proof (f_equal ev_call He) as [= ->]. pose proof (f_equal createGroupAnswer He) as [= ->].
    split_and!; try done. intros ->. done.
  - assert (sat (λ c : call, match (c : api_call) with UpdateCR _ => True | _ => False end)
      (λ _ _, True) (id ← deref (CR_ReplicationGroupId cfg'); _ ← addAnnotation id;
        mret (M := M CR (string * error)) (@None RedisDeploymentDetails, "started elasticache provision")))
      as Hrest by (unfold addAnnotation; go_sat).
    apply elem_of_cons in He as [He|He]; [|by destruct (sat_no_event _ _ _ _ _ _ _ _ Hr He Hrest)].
    pose proof (f_equal ev_call He) as [= ->]. split_and!; try done. intros _ id Hid.
    rewrite <- Eid in Hid. rewrite Hid in Hr. cbn [deref] in Hr. rewrite runs_bind_mret in Hr.
    apply addAnnotation_updates in Hr as (ans' & t2 & ->). exists ans'. ev_in.
Qed.

(** [groupClusters] only records versions. *)
Definition onlyVersion r r' : Prop :=
  CR_kind r' = CR_kind r ∧ CR_Meta r' = CR_Meta r ∧ CR_Spec r' = CR_Spec r.
#[local] Instance onlyVersion_preorder : PreOrder onlyVersion.
Proof. unfold onlyVersion. split; [done|]. intros x y z (? & ? & ?) (? & ? & ?). split_and!; congruence. Qed.
Definition clustersOf (groupId : string) (all : list CacheCluster) : list CacheCluster :=
  List.filter (λ c, bool_decide (StringValue (CC_ReplicationGroupId c) = groupId)) all.

Lemma groupClusters_runs gid all r tr o r' :
  runs (groupClusters gid all r) tr (o, r') →
  tr = [] ∧ o = Val (clustersOf gid all) ∧ onlyVersion r r'.
Proof.
  revert r tr o r'. induction all as [|c all IH]; intros r tr o r' Hr; cbn [groupClusters] in Hr.
  { by apply runs_mret in Hr as (-> & -> & ->). }
  unfold clustersOf. cbn [List.filter]. case_bool_decide; [|by apply IH in Hr].
  apply runs_bind_get in Hr.
  assert (∀ v, onlyVersion r (setVersion v r)) as Hv by done.
  assert (∃ r1, onlyVersion r r1 ∧ runs ((found ← groupClusters gid all; mret (c :: found)) r1) tr (o, r'))
    as (r1 & H1 & Hr1).
  { destruct (CC_EngineVersion c) as [v|]; [case_bool_decide|];
      [rewrite runs_bind_put in Hr; by eauto|rewrite runs_bind_mret in Hr; by exists r..]. }
  apply runs_bind in Hr1 as [(t1 & a & s1 & t2 & -> & H2 & H3)|[(e & H2 & _)|(w & H2 & _)]];
    apply IH in H2 as (-> & [= ->] & ?).
  apply runs_mret in H3 as (-> & -> & ->). split_and!; try done. by etrans.
Qed.

(** ** Service updates *)

Definition applyNow (groupId : option string) : ModifyReplicationGroupInput :=
  {| MR_ReplicationGroupId := groupId; MR_CacheNodeType := None;
     MR_ApplyImmediately := Some true; MR_SnapshotRetentionLimit := None;
     MR_EngineVersion := None; MR_PreferredMaintenanceWindow := None; MR_SnapshotWindow := None |}.

(** An update that is available, can be started and is named in the strategy. *)
Definition specifiedUpdate (specified : list string) (actions : list UpdateAction)
    (ua : UpdateAction) : Prop :=
  ua ∈ actions ∧ (∃ n, UA_ServiceUpdateName ua = Some n ∧ n ∈ specified) ∧
  UA_ServiceUpdateStatus ua = Some "available" ∧
  validServiceUpdateStates (StringValue (UA_UpdateActionStatus ua)) = true.
(** The calls that the service updates make besides reading. *)
Definition serviceCall (groupId : option string) (specified : list string)
    (actions : list UpdateAction) (c : call) : Prop :=
  match (c : api_call) with
  | BatchApplyUpdateAction ids name =>
      ids = [groupId] ∧ ∃ ua, specifiedUpdate specified actions ua ∧ name = UA_ServiceUpdateName ua
  | ModifyReplicationGroup mi =>
      mi = applyNow groupId ∧ ∃ ua, specifiedUpdate specified actions ua ∧
        UA_ServiceUpdateSeverity ua = Some "critical" ∧
        UA_ServiceUpdateType ua = Some "security-update"
  | _ => reads c = true
  end.
Lemma serviceCall_reads gid sp acts : reads_ok (serviceCall gid sp acts).
Proof. intros c. by destruct c. Qed.
#[local] Hint Resolve serviceCall_reads : sat.

Lemma applyUpdate_sat {S} gid sp acts ua sp' :
  ua ∈ acts → sp' ⊆ sp → sat (serviceCall gid sp acts) eq (applyUpdate (S := S) gid ua sp').
Proof.
  intros Hua. induction sp' as [|u sp' IH]; intros Hsp; cbn [applyUpdate]; [by go_sat|].
  assert (sat (serviceCall gid sp acts) eq (applyUpdate (S := S) gid ua sp')) as Hrest
    by (apply IH; set_solver).
  apply sat_bind_deref; [apply _|]; intros name En. case_bool_decide as Hname; [done|].
  apply sat_bind_deref; [apply _|]; intros status Es.
  destruct (_ && _) eqn:Ev; [|done]. apply andb_true_iff in Ev as [->%bool_decide_eq_true Ev].
  apply sat_bind_deref; [apply _|]; intros gid' _.
  assert (specifiedUpdate sp acts ua) as Hspec.
  { subst u. split_and!; try done. exists name. set_solver. }
  apply sat_bind; [apply _| |].
  { apply sat_try. unfold applyServiceUpdate. go_sat. cbn. rewrite En. eauto. }
  intros [_|e]; [|by go_sat].
  apply sat_bind_deref; [apply _|]; intros sev Esev.
  assert (∀ b : bool, (b = true → UA_ServiceUpdateSeverity ua = Some "critical" ∧
      UA_ServiceUpdateType ua = Some "security-update") →
    sat (serviceCall gid sp acts) eq (if b then
      modified ← try (ok (invoke (ModifyReplicationGroup (applyNow gid))));
      match modified with inr _ => mret true | inl _ => applyUpdate gid ua sp' end
      else applyUpdate (S := S) gid ua sp')) as Hpush.
  { intros [] Hb; [|done]. destruct (Hb eq_refl) as [? ?]. apply sat_bind; [apply _| |].
    - apply sat_try. go_sat. split; [done|]. by exists ua.
    - intros [_|_]; [done|by go_sat]. }
  case_bool_decide as Hsev; [|by apply sat_bind_mret, (Hpush false)].
  apply sat_bind_assoc, sat_bind_deref; [apply _|]. intros t Et. apply sat_bind_mret, (Hpush (bool_decide _)).
  intros ->%bool_decide_eq_true. subst sev. done.
Qed.

Lemma applySpecifiedSecurityUpdates_calls {S} g sp (s : S) tr o s' c ans :
  runs (applySpecifiedSecurityUpdates g sp s) tr (o, s') → Ev c ans ∈ tr → reads c ≠ true →
  ∃ actions,
    Ev (DescribeUpdateActions [RG_ReplicationGroupId g] [Some "available"]) (Ok actions) ∈ tr ∧
    serviceCall (RG_ReplicationGroupId g) sp actions c.
Proof.
  intros Hr He Hrd. unfold applySpecifiedSecurityUpdates in Hr.
  skip_calls_not (λ c : call, reads c = true) Hr He Hrd actions H1. run_val H1.
  exists actions. split; [ev_in|].
  eapply (sat_no_event (serviceCall (RG_ReplicationGroupId g) sp actions) eq _ _ _ _ _
            (Ev c ans)) in Hr; [exact Hr|exact He|].
  apply sat_bind; [apply _| |intros []; go_sat].
  apply sat_foldM; [apply _|]. intros b ua Hua. apply sat_bind; [apply _| |intros; go_sat].
  by apply applyUpdate_sat.
Qed.

(** Tagging a node and its snapshots. *)
Definition tagCall (c : call) : Prop :=
  metricCall c ∨ match (c : api_call) with
                 | EC_AddTagsToResource _ _ | ResetMetric _ => True | _ => False end.
Lemma tagCall_reads : reads_ok tagCall.
Proof. intros c Hc. left. by left. Qed.
#[local] Hint Resolve tagCall_reads : sat.
#[local] Hint Extern 1 (tagCall _) => first [right; exact I|left; right; exact I] : sat.
Lemma tagCall_group c : groupCall c → ¬ tagCall c.
Proof. intros Hg [Hm|Hc]; [by eapply groupCall_metric|by destruct c]. Qed.
Lemma tagNodes_sat g : sat tagCall eq (tagNodes g).
Proof. unfold tagNodes, TagElasticacheNode, tagCacheSnapshot. go_sat. Qed.
#[local] Hint Resolve tagNodes_sat : sat.

(** The modification that the maintenance window asks for. *)
Definition windowUpdate cfg g r (tr : list event) (mi : ModifyReplicationGroupInput) : Prop :=
  ∃ gid all r1 t, RG_ReplicationGroupId g = Some gid ∧
    Ev (DescribeCacheClusters None) (Ok all) ∈ tr ∧ t ⊆ tr ∧ CR_Spec r1 = CR_Spec r ∧
    runs (buildElasticacheUpdateStrategy cfg g (clustersOf gid all) r1 r1) t (Val (Some mi), r1).

(** The modification of the replication group. *)
Definition modifyCall (c : call) : Prop :=
  match (c : api_call) with ModifyReplicationGroup _ => True | _ => reads c = true end.
Lemma modifyCall_reads : reads_ok modifyCall.
Proof. intros c. by destruct c. Qed.
#[local] Hint Resolve modifyCall_reads : sat.
Lemma modifyGroup_sat cfg g cs : sat modifyCall eq (modifyGroup cfg g cs).
Proof. unfold modifyGroup. go_sat. Qed.
#[local] Hint Resolve modifyGroup_sat : sat.
Lemma modifyGroup_calls cfg g cs r tr o r' c ans :
  runs (modifyGroup cfg g cs r) tr (o, r') → Ev c ans ∈ tr → reads c ≠ true →
  ∃ mi t, c = ModifyReplicationGroup mi ∧ t ⊆ tr ∧
    runs (buildElasticacheUpdateStrategy cfg g cs r r) t (Val (Some mi), r).
Proof.
  intros Hr He Hrd. unfold modifyGroup in Hr. apply runs_bind_get in Hr.
  skip_calls_not (λ c : call, reads c = true) Hr He Hrd mi H1. apply runs_onErr_Val in H1.
  destruct mi as [mi|]; [|by apply runs_mret in Hr as (-> & _); apply not_elem_of_nil in He].
  inv_call Hr. destruct Hr as (a & -> & _). apply list_elem_of_singleton, (f_equal ev_call) in He.
  exists mi. eexists. split; [exact He|]. split; [|exact H1]. intros x Hx. ev_in.
Qed.

Lemma reconcileFoundCache_calls cfg updates window g r tr o r' c ans :
  runs (reconcileFoundCache p cfg updates window g r) tr (o, r') → Ev c ans ∈ tr → groupCall c →
  RG_Status g = Some "available" ∧
  ((∃ mi, c = ModifyReplicationGroup mi ∧ window = true ∧ windowUpdate cfg g r tr mi) ∨
   ∃ actions,
     Ev (DescribeUpdateActions [RG_ReplicationGroupId g] [Some "available"]) (Ok actions) ∈ tr ∧
     serviceCall (RG_ReplicationGroupId g) updates actions c).
Proof.
  intros Hr He Hc. pose proof (groupCall_reads c Hc) as Hrd. unfold reconcileFoundCache in Hr.
  skip_calls_not (λ c : call, reads c = true) Hr He Hrd gid H1.
  apply runs_deref_Val in H1 as (-> & Egid & _).
  skip_calls_not (λ c : call, reads c = true) Hr He Hrd cls H2. run_val H2.
  apply runs_bind in Hr as [(t3 & cs & r1 & t4 & -> & H3 & Hr)|[(e & H3 & _)|(w & H3 & _)]];
    apply groupClusters_runs in H3 as (-> & Ecs & Hv); [|discriminate Ecs..].
  injection Ecs as ->. destruct Hv as (_ & _ & Hspec). cbn [app] in *.
  skip_calls_not (λ c : call, reads c = true) Hr He Hrd st H4.
  apply runs_deref_Val in H4 as (-> & Est & _). cbn [app] in *.
  case_bool_decide; [by apply runs_mret in Hr as (-> & _); apply not_elem_of_nil in He|].
  subst st. split; [done|].
  eapply (runs_bind_or modifyCall) in Hr; [|exact He|destruct window; go_sat].
  destruct Hr as [(t & o1 & Ht & Hr & Hin)|(t & u & t' & -> & _ & Hr & Hin)].
  - left. destruct window; [|by apply runs_mret in Hr as (-> & _); apply not_elem_of_nil in Hin].
    destruct (modifyGroup_calls _ _ _ _ _ _ _ _ _ Hr Hin Hrd) as (mi & t' & -> & Ht' & Hb).
    exists mi. split_and!; try done. exists gid, cls, r1, t'.
    split_and!; try done; [ev_in|]. intros x Hx%Ht'%Ht. ev_in.
  - right. clear He.
    eapply (runs_bind_first tagCall eq) in Hr as (tb & o1 & s1 & Hs & Hr & Hin');
      [|exact Hin|intros; go_sat|by apply tagCall_group].
    destruct updates as [|up updates];
      [by apply runs_mret in Hr as (-> & _); apply not_elem_of_nil in Hin'|].
    apply runs_onErr in Hr as (o2 & Hr & _).
    destruct (applySpecifiedSecurityUpdates_calls _ _ _ _ _ _ _ _ Hr Hin' Hrd) as (acts & Hacts & Hc').
    exists acts. split; [|done]. apply Hs in Hacts. ev_in.
Qed.

(** a replication group is created only when no group that AWS lists has its
    identifier and the custom resource carries no annotation of an earlier one;
    the configuration is complete, with automatic failover, and keeps what the
    strategy configures; and once AWS accepts it the next call records the
    identifier in the annotation. *)
Theorem createElasticacheCluster_creates cfg updates standalone window r tr o r' input ans :
  runs (createElasticacheCluster p cfg updates standalone window r) tr (o, r') →
  Ev (CreateReplicationGroup input) ans ∈ tr →
  (∃ rgs, Ev DescribeReplicationGroups (Ok rgs) ∈ tr ∧
     ∀ g, g ∈ rgs → RG_ReplicationGroupId g ≠ CR_ReplicationGroupId input) ∧
  annotations_Has (CR_Meta r) ResourceIdentifierAnnotation = false ∧
  completeGroup input ∧ keeps cfg input ∧
  (ans = Ok tt → ∃ id ans, CR_ReplicationGroupId input = Some id ∧
     Ev (UpdateCR (setMeta r (annotations_Add (CR_Meta r) ResourceIdentifierAnnotation id)))
        ans ∈ tr).
Proof.
  intros Hr He.
  destruct (createElasticacheCluster_calls _ _ _ _ _ _ _ _ _ _ Hr He I)
    as (cfg' & found & t & o1 & r1 & ((rgs & Hrgs & Hf) & (tb & _ & Hb)) & Hsub & Hbr & Hin).
  destruct found as [g|]; cbn [groupBranch] in Hbr.
  { destruct (reconcileFoundCache_calls _ _ _ _ _ _ _ _ _ _ Hbr Hin I)
      as (_ & [(mi & [=] & _)|(acts & _ & [=])]). }
  destruct (createCache_creates _ _ _ _ _ _ _ Hbr Hin) as (Ha & Eid & Ec & Ek & Hann).
  apply buildElasticacheCreateStrategy_Val in Hb as [Hc Hk].
  split_and!; [|exact Ha|by apply Ec|by apply Ek|].
  - exists rgs. split; [exact Hrgs|]. rewrite Eid. intros g Hg. by eapply findByPtr_None.
  - intros Hok. pose proof Hc as ([id Hid] & _). exists id.
    destruct (Hann Hok id Hid) as [ans' Hans]. exists ans'. rewrite Eid. auto.
Qed.

Definition creatingGroupCall (c : call) : Prop :=
  match (c : api_call) with
  | CreateReplicationGroup _ | UpdateCR _ => True
  | _ => reads c = true
  end.
Lemma creatingGroupCall_reads : reads_ok creatingGroupCall.
Proof. intros c. by destruct c. Qed.
#[local] Hint Resolve creatingGroupCall_reads : sat.

(** a replication group is modified, or a service update is started, only
    when AWS lists the group as available under the identifier of the completed
    configuration; the input is the one that [buildElasticacheUpdateStrategy] asks
    for in the maintenance window, or only asks to apply changes at once, for a
    critical security update that is available and that the strategy names; a
    service update is started only under its name in the strategy. *)
Theorem createElasticacheCluster_modifies cfg updates standalone window r tr o r' c ans :
  runs (createElasticacheCluster p cfg updates standalone window r) tr (o, r') →
  Ev c ans ∈ tr →
  match (c : api_call) with
  | ModifyReplicationGroup _ | BatchApplyUpdateAction _ _ => True | _ => False end →
  ∃ cfg' rgs g, completeGroup cfg' ∧ keeps cfg cfg' ∧
    Ev DescribeReplicationGroups (Ok rgs) ∈ tr ∧ g ∈ rgs ∧
    RG_ReplicationGroupId g = CR_ReplicationGroupId cfg' ∧ RG_Status g = Some "available" ∧
    ((∃ mi, c = ModifyReplicationGroup mi ∧ window = true ∧ windowUpdate cfg' g r tr mi) ∨
     ∃ actions,
       Ev (DescribeUpdateActions [RG_ReplicationGroupId g] [Some "available"]) (Ok actions) ∈ tr ∧
       serviceCall (RG_ReplicationGroupId g) updates actions c).
Proof.
  intros Hr He Hm. assert (groupCall c) as Hc by (by destruct c).
  destruct (createElasticacheCluster_calls _ _ _ _ _ _ _ _ _ _ Hr He Hc)
    as (cfg' & found & t & o1 & r1 & ((rgs & Hrgs & Hf) & (tb & _ & Hb)) & Hsub & Hbr & Hin).
  apply buildElasticacheCreateStrategy_Val in Hb as [Hcomp Hk].
  destruct found as [g|]; cbn [groupBranch] in Hbr.
  - apply findByPtr_Some in Hf as [Hg Hid]. exists cfg', rgs, g.
    destruct (reconcileFoundCache_calls _ _ _ _ _ _ _ _ _ _ Hbr Hin Hc) as (Hst & Hcase).
    split_and!; try done. destruct Hcase as [(mi & -> & Hw & gid & cls & r2 & t2 & Eg & Hcls & Ht2 & Es & Hb)|Hcase].
    + left. exists mi. split_and!; [done..|]. exists gid, cls, r2, t2. split_and!; try done; [by apply Hsub|].
      intros x Hx%Ht2. by apply Hsub.
    + right. destruct Hcase as (acts & Hacts & Hcase). exists acts. split; [by apply Hsub|done].
  - exfalso. eapply (sat_no_event creatingGroupCall anyCR _ _ _ _ _ (Ev c ans)) in Hbr;
      [by destruct c|exact Hin|]. unfold createCache, addAnnotation. go_sat.
Qed.

(** Details are only answered for a group that is available; without STS its
    first node group is available too. *)
Lemma reconcileFoundCache_deployed cfg updates window g r tr rdd msg r' :
  runs (reconcileFoundCache p cfg updates window g r) tr (Val (Some rdd, msg), r') →
  RG_Status g = Some "available" ∧
  (∃ ng ngs ep, RG_NodeGroups g = Some (ng :: ngs) ∧ NG_PrimaryEndpoint ng = Some ep ∧
     Endpoint_Address ep = Some (RDD_URI rdd) ∧ Endpoint_Port ep = Some (RDD_Port rdd) ∧
     (isSTSManager (R_CredentialManager p) = false → NG_Status ng = Some "available")).
Proof.
  intros Hr. unfold reconcileFoundCache in Hr.
  val_call (λ _ : @call api, True) Hr gid H1. clear H1.
  val_call (λ _ : @call api, True) Hr cls H2. clear H2.
  apply runs_bind_Val in Hr as (t3 & cs & r1 & t4 & -> & _ & Hr).
  val_call (λ _ : @call api, True) Hr st H4. apply runs_deref_Val in H4 as (_ & Est & _).
  case_bool_decide; [by apply runs_mret_Val in Hr as (_ & ? & _)|]. subst st. split; [done|].
  apply runs_bind_Val in Hr as (t5 & u5 & r5 & t6 & -> & _ & Hr).
  apply runs_bind_Val in Hr as (t7 & u7 & r7 & t8 & -> & _ & Hr).
  apply runs_bind_Val in Hr as (t9 & nr & r9 & t10 & -> & H9 & Hr).
  destruct nr; [by apply runs_mret_Val in Hr as (_ & ? & _)|].
  destruct (default [] (RG_NodeGroups g)) as [|ng ngs] eqn:Eng.
  { apply runs_bind_Val in Hr as (t11 & ng' & r11 & t12 & _ & H11 & _). by apply runs_panic_Val in H11. }
  assert (RG_NodeGroups g = Some (ng :: ngs)) as Engs by (destruct (RG_NodeGroups g); [by f_equal|done]).
  apply runs_bind_Val in Hr as (t11 & ng' & r11 & t12 & -> & H11 & Hr).
  apply runs_mret_Val in H11 as (_ & <- & _). run_val Hr. simplify_eq.
  exists ng, ngs. eexists. split_and!; try done.
  intros Hsts. rewrite Hsts in H9. unfold tagNodes in H9. rewrite Eng in H9.
  apply runs_bind_Val in H9 as (t13 & ng' & r13 & t14 & -> & H13 & H9).
  apply runs_mret_Val in H13 as (_ & <- & _). run_val H9; simplify_eq.
  apply bool_decide_eq_false, dec_stable in E. by subst.
Qed.

Lemma closeWindow_Val msg r tr u r' :
  runs (closeWindow msg r) tr (Val u, r') →
  Ev (UpdateCR (setMaintenanceWindow false r)) (Ok r') ∈ tr.
Proof.
  intros Hr. unfold closeWindow in Hr. apply runs_bind_get, runs_bind_put in Hr.
  run_val Hr. ev_in.
Qed.
Lemma nc_reconcileRedisNetwork sts tier : sat networkCall eq (reconcileRedisNetwork p sts tier).
Proof. unfold reconcileRedisNetwork. go_sat. Qed.
#[local] Hint Resolve nc_reconcileRedisNetwork : sat.

End Provider.

(** ** Deleting a replication group *)

Lemma buildElasticacheDeleteConfig_Val {S} r create delete (s : S) tr id d s' :
  runs (buildElasticacheDeleteConfig r create delete s) tr (Val (id, d), s') →
  (∀ x, DR_ReplicationGroupId delete = Some x →
     id = CR_ReplicationGroupId create ∧ DR_ReplicationGroupId d = Some x) ∧
  (DR_ReplicationGroupId delete = None →
     is_Some id ∧ id = DR_ReplicationGroupId d ∧
     ∀ x, CR_ReplicationGroupId create = Some x → id = Some x) ∧
  is_Some (DR_FinalSnapshotIdentifier d) ∧
  agrees (DR_FinalSnapshotIdentifier delete) (DR_FinalSnapshotIdentifier d) ∧
  DR_RetainPrimaryCluster d = Some (default false (DR_RetainPrimaryCluster delete)).
Proof.
  intros Hr. unfold buildElasticacheDeleteConfig in Hr.
  destruct (DR_ReplicationGroupId delete) as [x|]; run_val Hr; simplify_eq; cbn; split_and!;
    try done; try by eexists.
  all: try (by intros ? ->); try (by intros ? [= ->]).
  intros _. split; [by eexists|]. split; [done|]. by intros x ->.
Qed.

(** The calls that delete a group, and those made once it is gone. *)
Definition deletingGroupCall (c : call) : Prop :=
  match (c : api_call) with DeleteReplicationGroup _ => True | _ => metricCall c end.
Lemma deletingGroupCall_metric c : metricCall c → deletingGroupCall c.
Proof. by destruct c. Qed.
Lemma deleteFoundCache_sat d g : sat deletingGroupCall eq (deleteFoundCache d g).
Proof.
  assert (reads_ok deletingGroupCall) by (intros c Hc; by apply deletingGroupCall_metric; left).
  assert (∀ r, sat deletingGroupCall eq
    (exposeRedisMetrics (S := CR) (E := string * error) r (Some g))).
  { intros r. eapply sat_weaken; [go_sat|apply deletingGroupCall_metric]. }
  unfold deleteFoundCache. go_sat.
Qed.

Lemma deleteFoundCache_deletes d g r tr o r' input ans :
  runs (deleteFoundCache d g r) tr (o, r') → Ev (DeleteReplicationGroup input) ans ∈ tr →
  input = d ∧ RG_Status g = Some "available" ∧ r' = r.
Proof.
  intros Hr He. destruct (deleteFoundCache_sat _ _ _ _ _ _ Hr) as [_ <-].
  unfold deleteFoundCache in Hr. apply runs_bind_get in Hr.
  pose proof (groupCall_metric (DeleteReplicationGroup input) I) as Hm.
  skip_calls_not metricCall Hr He Hm u H1. clear H1.
  skip_calls_not metricCall Hr He Hm st H2. apply runs_deref_Val in H2 as (_ & Hst & _).
  case_bool_decide; [by apply runs_mret in Hr as (-> & _); apply not_elem_of_nil in He|]. subst st.
  inv_call Hr. destruct Hr as (a & t' & -> & Hr).
  assert (t' = []) as ->.
  { destruct a as [|err]; [by apply runs_mret in Hr as (-> & _)|].
    case_bool_decide; [by apply runs_fail in Hr as (-> & _)|by apply runs_mret in Hr as (-> & _)]. }
  apply list_elem_of_singleton, (f_equal ev_call) in He. by injection He as ->.
Qed.

Section DeleteRun.
Context `{ThirdParty}.
Variables (sts : bool) (create : CreateReplicationGroupInput)
  (delete : DeleteReplicationGroupInput) (enabled last : bool).

Lemma deleteAbsentCache_sat b1 b2 b3 : sat absentCall anyCR (deleteAbsentCache b1 b2 b3).
Proof.
  assert (reads_ok absentCall) by (intros []; done).
  assert (sat absentCall anyCR (deleteLastNetwork b1 b2 b3)).
  { apply sat_eq; [apply _|].
    eapply sat_weaken; [apply deleteLastNetwork_sat|apply absentCall_network]. }
  unfold deleteAbsentCache, dropFinalizer. go_sat.
Qed.

(** What is known once [deleteElasticacheCluster] has looked for the group. *)
Definition groupDeletion r tr (id : option string) (d : DeleteReplicationGroupInput)
    (found : option ReplicationGroup) : Prop :=
  (∃ rgs, Ev DescribeReplicationGroups (Ok rgs) ∈ tr ∧
     findByPtr (E := string * error) RG_ReplicationGroupId id rgs = Val found) ∧
  ∃ tb, tb ⊆ tr ∧ runs (buildElasticacheDeleteConfig r create delete r) tb (Val (id, d), r).

Lemma deleteElasticacheCluster_calls r tr o r' c ans :
  runs (deleteElasticacheCluster sts create delete enabled last r) tr (o, r') →
  Ev c ans ∈ tr → reads c ≠ true →
  ∃ id d found t0 t, groupDeletion r tr id d found ∧ tr = t0 ++ t ∧
    Forall (λ e, reads (ev_call e) = true) t0 ∧ Ev c ans ∈ t ∧
    runs ((match found with
           | Some g => deleteFoundCache d g
           | None => deleteAbsentCache sts enabled last
           end : M CR (string * error) string) r) t (o, r').
Proof.
  intros Hr He Hrd. unfold deleteElasticacheCluster in Hr.
  skip_calls_not (λ c : call, reads c = true) Hr He Hrd rgs H1.
  apply runs_onErr_Val in H1. pose proof (proj1 (ro_getReplicationGroups _ _ _ _ H1)) as F1.
  apply getReplicationGroups_Val in H1. apply runs_bind_get in Hr.
  skip_calls_not (λ c : call, reads c = true) Hr He Hrd d H2. apply runs_onErr_Val in H2.
  destruct d as [id d].
  pose proof (proj1 (ro_buildElasticacheDeleteConfig _ _ _ _ _ _ _ H2)) as F2.
  skip_calls_not (λ c : call, reads c = true) Hr He Hrd found H3.
  apply runs_lift_Val in H3 as (-> & Hf & _).
  exists id, d, found, (t ++ t1), t3.
  split; [split|split_and!; [by rewrite <- app_assoc|by apply Forall_app_intro|done..]].
  - exists rgs. split; [ev_in|done].
  - eexists. split; [|exact H2]. intros x Hx. ev_in.
Qed.

(** a replication group is deleted only when AWS lists a group as available
    under the identifier of the create configuration, which is also the one asked
    for when the delete strategy has none of its own; a final snapshot is always
    asked for; and the finalizer of the custom resource stays. *)
Theorem deleteElasticacheCluster_deletes r tr o r' input ans :
  runs (deleteElasticacheCluster sts create delete enabled last r) tr (o, r') →
  Ev (DeleteReplicationGroup input) ans ∈ tr →
  (∃ rgs g id, Ev DescribeReplicationGroups (Ok rgs) ∈ tr ∧ g ∈ rgs ∧
     RG_ReplicationGroupId g = id ∧ RG_Status g = Some "available" ∧
     (∀ x, CR_ReplicationGroupId create = Some x → id = Some x) ∧
     (DR_ReplicationGroupId delete = None → DR_ReplicationGroupId input = id)) ∧
  agrees (DR_ReplicationGroupId delete) (DR_ReplicationGroupId input) ∧
  is_Some (DR_FinalSnapshotIdentifier input) ∧
  (∀ x a, Ev (UpdateCR x) a ∉ tr) ∧ r' = r.
Proof.
  intros Hr He.
  destruct (deleteElasticacheCluster_calls _ _ _ _ _ _ Hr He) as
    (id & d & found & t0 & t & ((rgs & Hrgs & Hf) & (tb & _ & Hb)) & -> & Hro & Hin & Hbr); [done|].
  destruct found as [g|].
  - apply findByPtr_Some in Hf as [Hg Hid].
    destruct (deleteFoundCache_deletes _ _ _ _ _ _ _ _ Hbr Hin) as (-> & Hst & ->).
    apply buildElasticacheDeleteConfig_Val in Hb as (Hid1 & Hid2 & Hsnap & _).
    split_and!; try done.
    + exists rgs, g, id. split_and!; try done.
      * intros x Hx. destruct (DR_ReplicationGroupId delete) as [y|];
          [destruct (Hid1 y eq_refl) as [-> _]; done|by apply Hid2].
      * intros Hd. by destruct (Hid2 Hd) as (_ & -> & _).
    + intros x Hx. by apply Hid1 in Hx as [_ ?].
    + intros x a [Hx|Hx]%elem_of_app.
      * rewrite Forall_forall in Hro. by apply Hro in Hx.
      * by destruct (sat_no_event _ _ _ _ _ _ _ _ Hbr Hx (deleteFoundCache_sat d g)) as [[=]|[]].
  - by destruct (sat_no_event _ _ _ _ _ _ _ _ Hbr Hin (deleteAbsentCache_sat _ _ _)).
Qed.

(** the finalizer leaves the custom resource only when no group that AWS
    lists has the identifier of the create configuration and, if the resource is
    the last one of a cluster without bundled subnets, the standalone network is
    gone; the object is otherwise unchanged. *)
Theorem deleteElasticacheCluster_finalizer r tr o r' x ans :
  runs (deleteElasticacheCluster sts create delete enabled last r) tr (o, r') →
  Ev (UpdateCR x) ans ∈ tr →
  (∃ rgs id, Ev DescribeReplicationGroups (Ok rgs) ∈ tr ∧
     (∀ g, g ∈ rgs → RG_ReplicationGroupId g ≠ id) ∧
     (∀ y, CR_ReplicationGroupId create = Some y → id = Some y)) ∧
  (enabled && last = true → networkGone tr) ∧
  (∃ om, RemoveFinalizer (CR_Meta r) DefaultFinalizer = Some om ∧ x = setMeta r om).
Proof.
  intros Hr He.
  destruct (deleteElasticacheCluster_calls _ _ _ _ _ _ Hr He) as
    (id & d & found & t0 & t & ((rgs & Hrgs & Hf) & (tb & _ & Hb)) & -> & _ & Hin & Hbr); [done|].
  destruct found as [g|].
  { by destruct (sat_no_event _ _ _ _ _ _ _ _ Hbr Hin (deleteFoundCache_sat d g)) as [[=]|[]]. }
  apply buildElasticacheDeleteConfig_Val in Hb as (Hid1 & Hid2 & _).
  unfold deleteAbsentCache in Hbr. pose proof (groupCall_network (UpdateCR x) I) as Hn.
  pose proof (deleteLastNetwork_sat sts enabled last) as Hsat.
  skip_calls_not networkCall Hbr Hin Hn u H1.
  pose proof (deleteLastNetwork_Val _ _ _ _ _ _ _ H1) as Hgone.
  eapply (runs_bind_first (λ _, False) eq) in Hbr as (t4 & ob & sb & _ & Hbr & Hin');
    [|exact Hin|intros; go_sat|by intros []].
  destruct (dropFinalizer_updates _ _ _ _ _ _ _ Hbr Hin') as (om & Hom & [= ->]).
  split_and!; [|intros Hl; eapply networkGone_incl; [by apply Hgone|]; intros y Hy; ev_in|by exists om].
  exists rgs, id. split_and!; try done; [intros g Hg; by eapply findByPtr_None|].
  intros y Hy. destruct (DR_ReplicationGroupId delete) as [z|];
    [destruct (Hid1 z eq_refl) as [-> _]; done|by apply Hid2].
Qed.

End DeleteRun.
