(* ===== verification/ControllerProps.v ===== *)
(** * Properties of the reconcile loops

    What the controllers do with the answer of any provider that leaves the
    status alone, an interface that the AWS providers implement. *)
From S2P Require Import Prelude Effects GoNet GoStrings Json Api Resources Metrics.
From S2P Require Import Subnets ClusterVpc NetworkProvider NetworkProps AwsConfig AwsPostgres.
From S2P Require Import AwsRedis Footprints AwsPostgresProps AwsRedisProps Controllers.
From Stdlib Require Import Ascii.
Local Open Scope go_scope.

(** ** The interface of a provider *)

(** Everything but writing the status. *)
Definition noStatus (c : call) : Prop :=
  match (c : api_call) with StatusUpdateCR _ => False | _ => True end.
Lemma noStatus_reads : reads_ok noStatus.
Proof. intros c. by destruct c. Qed.
#[export] Hint Resolve noStatus_reads : sat.
#[export] Hint Extern 1 (noStatus _) => exact I : sat.

(** A controller relies on its provider never writing the status and on the
    reconcile time being found without an error. *)
Class StatusFrame (p : ResourceProvider) : Prop := {
  create_frame : sat noStatus anyCR (RP_Create p);
  delete_frame : sat noStatus anyCR (RP_Delete p);
  time_frame : ∀ o, sat noStatus eq (RP_GetReconcileTime p o);
  time_total : ∀ o s tr e s', ¬ runs (RP_GetReconcileTime p o s) tr (Err e, s')
}.

(** The status writes of a run. *)
Definition statusWrites (tr : list event) : list CR :=
  omap (λ e, match (ev_call e : api_call) with StatusUpdateCR o => Some o | _ => None end) tr.
Lemma statusWrites_app t1 t2 : statusWrites (t1 ++ t2) = statusWrites t1 ++ statusWrites t2.
Proof. apply omap_app. Qed.
Lemma statusWrites_none tr : Forall (λ e, noStatus (ev_call e)) tr → statusWrites tr = [].
Proof.
  induction 1 as [|e tr He _ IH]; [done|]. cbn. unfold statusWrites in IH. rewrite IH.
  by destruct (ev_call e).
Qed.
Lemma statusWrites_sat {S E A} (R : S → S → Prop) (m : M S E A) s tr o s' :
  runs (m s) tr (o, s') → sat noStatus R m → statusWrites tr = [].
Proof. intros Hr Hm. by apply statusWrites_none, (Hm _ _ _ _ Hr). Qed.
Lemma statusWrites_in x a tr : Ev (StatusUpdateCR x) a ∈ tr → x ∈ statusWrites tr.
Proof. intros Hx. apply list_elem_of_omap. eexists. by split; [exact Hx|]. Qed.

(** ** Phases *)

(** What [UpdatePhase] writes. *)
Definition phaseWrite (phase msg : string) (o : CR) : list CR :=
  if bool_decide (msg = "") then [] else [setPhase phase msg o].

Lemma UpdatePhase_runs phase msg o tr r o' :
  runs (UpdatePhase phase msg o) tr (r, o') → statusWrites tr = phaseWrite phase msg o.
Proof.
  unfold UpdatePhase, phaseWrite. intros Hr. case_bool_decide.
  { by apply runs_mret in Hr as (-> & _). }
  apply runs_bind_get, runs_bind_put in Hr. inv_call Hr.
  destruct Hr as (a & t & -> & [(e & _ & -> & _)|(b & _ & Hr)]); [done|].
  by destruct Hr as [-> _].
Qed.
Lemma phaseWrite_phase phase msg o x : x ∈ phaseWrite phase msg o →
  Status_Phase (CR_Status x) = phase.
Proof.
  unfold phaseWrite. case_bool_decide; [by intros ?%not_elem_of_nil|].
  by intros ->%list_elem_of_singleton.
Qed.

(** ** The result secret *)

Lemma SetControllerReference_Ok o sec sec' :
  SetControllerReference o sec = Ok sec' →
  Secret_Name sec' = Secret_Name sec ∧ Secret_Namespace sec' = Secret_Namespace sec ∧
  (Meta_Namespace (CR_Meta o) = "" ∨ Meta_Namespace (CR_Meta o) = Secret_Namespace sec).
Proof.
  unfold SetControllerReference. intros Ho.
  destruct (bool_decide (_ ≠ "") && bool_decide (Secret_Namespace sec = "")); [done|].
  destruct (bool_decide (_ ≠ "") && bool_decide (_ ≠ Secret_Namespace sec)) eqn:E; [done|].
  assert (Meta_Namespace (CR_Meta o) = "" ∨ Meta_Namespace (CR_Meta o) = Secret_Namespace sec) as Hns.
  { apply andb_false_iff in E as [E|E]; apply bool_decide_eq_false, dec_stable in E; auto. }
  destruct (List.find _ _); [destruct (sameOwner _ _); [|done]|]; by injection Ho as <-.
Qed.

Lemma mutateResultSecret_runs d sec o tr r o' :
  runs (mutateResultSecret d sec o) tr (r, o') →
  (∃ sec0, r = Val (setData d sec0) ∧ tr = [] ∧ o' = o ∧ SetControllerReference o sec = Ok sec0) ∨
  (∃ e, (r = Err e ∧ ∀ x, x ∈ statusWrites tr → Status_Phase (CR_Status x) = PhaseFailed)).
Proof.
  intros Hr. unfold mutateResultSecret in Hr. apply runs_bind_get in Hr.
  destruct (SetControllerReference o sec) as [sec0|e] eqn:E.
  - apply runs_mret in Hr as (-> & -> & ->). left. by exists sec0.
  - right. apply runs_bind in Hr as [(t1 & u & s1 & t2 & -> & H1 & H2)|[(e' & H1 & ->)|(w & H1 & ->)]];
      apply UpdatePhase_runs in H1 as Hw.
    + apply runs_fail in H2 as (-> & -> & _). rewrite app_nil_r.
      eexists. split; [done|]. intros x. rewrite Hw. apply phaseWrite_phase.
    + exists e'. split; [done|]. intros x. rewrite Hw. apply phaseWrite_phase.
    + exfalso. unfold UpdatePhase in H1. case_bool_decide; [by apply runs_mret in H1 as (_ & ? & _)|].
      apply runs_bind_get, runs_bind_put in H1. inv_call H1.
      destruct H1 as (a & t & _ & [(? & _ & _ & ? & _)|(b & _ & [_ ?])]); done.
Qed.

(** The secret [name]/[ns] holds the data, as far as the API told. *)
Definition secretStored (name ns : string) (d : gmap string string) (tr : list event) : Prop :=
  (∃ sec sec', Ev (CreateSecret sec) (Ok sec') ∈ tr ∧ Secret_Data sec = Some d ∧
     Secret_Name sec = name ∧ Secret_Namespace sec = ns) ∨
  (∃ old sec sec', Ev (GetSecret name ns) (Ok old) ∈ tr ∧ Ev (UpdateSecret sec) (Ok sec') ∈ tr ∧
     Secret_Data sec = Some d ∧ Secret_Name sec = Secret_Name old ∧
     Secret_Namespace sec = Secret_Namespace old) ∨
  (∃ sec, Ev (GetSecret name ns) (Ok sec) ∈ tr ∧ Secret_Data sec = Some d).
(** The secret of an object. *)
Definition resultSecret (o : CR) (d : gmap string string) (tr : list event) : Prop :=
  ∃ ref, Spec_SecretRef (CR_Spec o) = Some ref ∧
    secretStored (SecretRef_Name ref)
      (if bool_decide (SecretRef_Namespace ref ≠ "") then SecretRef_Namespace ref
       else Meta_Namespace (CR_Meta o)) d tr.

Lemma secretStored_incl name ns d t t' :
  secretStored name ns d t → t ⊆ t' → secretStored name ns d t'.
Proof.
  intros [(a & b & ? & H)|[(a & b & c & ? & ? & H)|(a & ? & H)]] Hs; [left|right; left|right; right].
  - exists a, b. auto.
  - exists a, b, c. auto.
  - exists a. auto.
Qed.
Lemma resultSecret_incl o d t t' : resultSecret o d t → t ⊆ t' → resultSecret o d t'.
Proof. intros (ref & ? & ?) Hs. exists ref. split; [done|]. by eapply secretStored_incl. Qed.

Lemma CreateOrUpdateSecret_stored sec d o tr sec' o' :
  runs (CreateOrUpdateSecret sec (mutateResultSecret d) o) tr (Val sec', o') →
  o' = o ∧ statusWrites tr = [] ∧
  secretStored (Secret_Name sec) (Secret_Namespace sec) d tr.
Proof.
  intros Hr. unfold CreateOrUpdateSecret in Hr. inv_call Hr. destruct Hr as (r & t & -> & Hr).
  destruct r as [old|e].
  - apply runs_bind_Val in Hr as (t1 & new & s1 & t2 & -> & H1 & Hr).
    apply mutateResultSecret_runs in H1 as [(sec0 & [= ->] & -> & -> & H1)|(e & ? & _)]; [|done].
    apply SetControllerReference_Ok in H1 as (Hn & Hns & _).
    case_bool_decide as Heq.
    + apply runs_mret_Val in Hr as (-> & <- & ->). split_and!; try done.
      right. right. exists old. split; [ev_in|]. by rewrite <- Heq.
    + run_val Hr. split_and!; try done. right. left. exists old. eexists _, _.
      split; [ev_in|]. split; [ev_in|]. done.
  - destruct (IsNotFound e); [|by apply runs_fail_Val in Hr].
    apply runs_bind_Val in Hr as (t1 & new & s1 & t2 & -> & H1 & Hr).
    apply mutateResultSecret_runs in H1 as [(sec0 & [= ->] & -> & -> & H1)|(e' & ? & _)]; [|done].
    apply SetControllerReference_Ok in H1 as (Hn & Hns & _). run_val Hr. split_and!; try done.
    left. eexists _, _. split; [ev_in|]. done.
Qed.

Lemma ReconcileResultSecret_Val d o tr u o' :
  runs (ReconcileResultSecret d o) tr (Val u, o') →
  o' = o ∧ statusWrites tr = [] ∧ resultSecret o d tr.
Proof.
  intros Hr. unfold ReconcileResultSecret in Hr. apply runs_bind_get in Hr.
  destruct (Spec_SecretRef (CR_Spec o)) as [ref|] eqn:Eref; [|by run_val Hr].
  cbn [deref] in Hr. rewrite runs_bind_mret in Hr. cbv zeta in Hr.
  apply runs_bind_Val in Hr as (t1 & r & s1 & t2 & -> & H1 & Hr).
  apply runs_try_Val in H1. destruct r as [sec|e]; [|by run_val Hr].
  apply CreateOrUpdateSecret_stored in H1 as (-> & Hw & Hst).
  apply runs_mret_Val in Hr as (-> & _ & ->). rewrite app_nil_r.
  split_and!; [done|done|]. by exists ref.
Qed.

(** ** Reconcile *)

Section Reconcile.
Context (R : Reconciler).

(** The specification of a reconcile that succeeds, for the object [o] whose
    status names the strategy and the provider: what the provider was asked and
    answered, and the status that is written. *)
Inductive handled (strategy : string) (p : ResourceProvider) (o : CR) (tr : list event)
  : list CR → Prop :=
  | handled_deleting t msg o' :
      is_Some (Meta_DeletionTimestamp (CR_Meta o)) →
      t ⊆ tr → runs (RP_Delete p o) t (Val msg, o') →
      handled strategy p o tr (phaseWrite PhaseDeleteInProgress msg o')
  | handled_paused :
      Meta_DeletionTimestamp (CR_Meta o) = None →
      R_skips R = true → Spec_SkipCreate (CR_Spec o) = true →
      handled strategy p o tr [setPhase PhasePaused StatusSkipCreate o]
  | handled_progress t msg o' :
      Meta_DeletionTimestamp (CR_Meta o) = None →
      R_skips R && Spec_SkipCreate (CR_Spec o) = false →
      t ⊆ tr → runs (RP_Create p o) t (Val (None, msg), o') →
      handled strategy p o tr (phaseWrite PhaseInProgress msg (setSecretRef noSecretRef o'))
  | handled_complete t data msg o' :
      Meta_DeletionTimestamp (CR_Meta o) = None →
      R_skips R && Spec_SkipCreate (CR_Spec o) = false →
      t ⊆ tr → runs (RP_Create p o) t (Val (Some data, msg), o') →
      resultSecret o' data tr →
      handled strategy p o tr [completed strategy (RP_GetName p) msg o'].

Lemma handled_incl strategy p o tr tr' w :
  handled strategy p o tr w → tr ⊆ tr' → handled strategy p o tr' w.
Proof.
  intros Hh Hs. destruct Hh as [t msg o' H1 H2 H3|H1 H2 H3|t msg o' H1 H2 H3 H4|t d msg o' H1 H2 H3 H4 H5].
  - eapply handled_deleting; [done| |exact H3]. set_solver.
  - by apply handled_paused.
  - eapply handled_progress; [done..| |exact H4]. set_solver.
  - eapply handled_complete; [done..| |exact H4|by eapply resultSecret_incl]. set_solver.
Qed.

Section With.
Context (p : ResourceProvider) `{!StatusFrame p}.

Lemma requeue_Val o tr res o' :
  runs (requeue p o) tr (Val res, o') → statusWrites tr = [] ∧ Requeue res = true.
Proof.
  intros Hr. unfold requeue in Hr. apply runs_bind_get in Hr.
  apply runs_bind_Val in Hr as (t1 & n & s1 & t2 & -> & H1 & Hr).
  apply runs_mret_Val in Hr as (-> & <- & _). rewrite app_nil_r.
  split; [|done]. by eapply statusWrites_sat, time_frame.
Qed.
Lemma requeue_runs o tr r o' : runs (requeue p o) tr (r, o') →
  statusWrites tr = [] ∧ ∀ e, r ≠ Err e.
Proof.
  intros Hr. unfold requeue in Hr. apply runs_bind_get in Hr.
  apply runs_bind in Hr as [(t1 & n & s1 & t2 & -> & H1 & Hr)|[(e & H1 & _)|(w & H1 & ->)]].
  - apply runs_mret in Hr as (-> & -> & _). rewrite app_nil_r. split; [|done].
    by eapply statusWrites_sat, time_frame.
  - by apply time_total in H1.
  - split; [|done]. by eapply statusWrites_sat, time_frame.
Qed.

Lemma statusUpdate_Val o tr u o' :
  runs (statusUpdate o) tr (Val u, o') → statusWrites tr = [o].
Proof. intros Hr. unfold statusUpdate in Hr. apply runs_bind_get in Hr. by run_val Hr. Qed.

Lemma reconcileDelete_handled strategy o tr res o' :
  is_Some (Meta_DeletionTimestamp (CR_Meta o)) →
  runs (reconcileDelete R p o) tr (Val res, o') →
  handled strategy p o tr (statusWrites tr) ∧ Requeue res = true.
Proof.
  intros Hd Hr. unfold reconcileDelete in Hr.
  apply runs_bind_Val in Hr as (t1 & r & s1 & t2 & -> & H1 & Hr). apply runs_try_Val in H1.
  destruct r as [msg|[msg err]]; [|by run_val Hr].
  apply runs_bind_Val in Hr as (t3 & u & s3 & t4 & -> & H3 & Hr).
  apply requeue_Val in Hr as [Hw ?]. apply UpdatePhase_runs in H3.
  split; [|done]. rewrite !statusWrites_app, Hw, H3, app_nil_r.
  rewrite (statusWrites_sat _ _ _ _ _ _ H1 delete_frame).
  eapply handled_deleting; [done| |exact H1]. intros x Hx. ev_in.
Qed.

Lemma reconcileCreate_handled strategy o tr res o' :
  Meta_DeletionTimestamp (CR_Meta o) = None →
  R_skips R && Spec_SkipCreate (CR_Spec o) = false →
  runs (reconcileCreate strategy p o) tr (Val res, o') →
  handled strategy p o tr (statusWrites tr) ∧ Requeue res = true.
Proof.
  intros Hd Hk Hr. unfold reconcileCreate in Hr.
  apply runs_bind_Val in Hr as (t1 & r & s1 & t2 & -> & H1 & Hr). apply runs_try_Val in H1.
  destruct r as [[[data|] msg]|[msg err]]; [| |by run_val Hr].
  - apply runs_bind_Val in Hr as (t3 & u & s3 & t4 & -> & H3 & Hr).
    apply runs_onErr_Val, ReconcileResultSecret_Val in H3 as (-> & H3 & Hsec).
    rewrite runs_bind_modify in Hr.
    apply runs_bind_Val in Hr as (t5 & u5 & s5 & t6 & -> & H5 & Hr).
    apply requeue_Val in Hr as [Hw ?]. apply statusUpdate_Val in H5.
    split; [|done]. rewrite !statusWrites_app, Hw, H3, H5, app_nil_r.
    rewrite (statusWrites_sat _ _ _ _ _ _ H1 create_frame).
    eapply handled_complete; [done..| |exact H1|]; [intros x Hx; ev_in|].
    eapply resultSecret_incl; [exact Hsec|]. intros x Hx. ev_in.
  - rewrite runs_bind_modify in Hr.
    apply runs_bind_Val in Hr as (t3 & u & s3 & t4 & -> & H3 & Hr).
    apply requeue_Val in Hr as [Hw ?]. apply UpdatePhase_runs in H3.
    split; [|done]. rewrite !statusWrites_app, Hw, H3, app_nil_r.
    rewrite (statusWrites_sat _ _ _ _ _ _ H1 create_frame).
    eapply handled_progress; [done..| |exact H1]. intros x Hx. ev_in.
Qed.

(** The update that follows the assignment of the strategy is never made. *)
Lemma reconcileWith_eq strategy o tr r :
  runs (reconcileWith R strategy p o) tr r ↔
  runs ((match Meta_DeletionTimestamp (CR_Meta o) with
         | Some _ => reconcileDelete R p
         | None =>
             if R_skips R && Spec_SkipCreate (CR_Spec o)
             then _ ← UpdatePhase PhasePaused StatusSkipCreate; requeue p
             else reconcileCreate strategy p
         end : M CR error ctrl_Result) (setStrategy strategy (RP_GetName p) o)) tr r.
Proof.
  unfold reconcileWith. rewrite runs_bind_modify, runs_bind_get. cbn.
  rewrite !bool_decide_false by (intros X; exact (X eq_refl)). cbn [orb].
  by rewrite runs_bind_mret.
Qed.

Lemma reconcileWith_handled strategy o tr res o' :
  runs (reconcileWith R strategy p o) tr (Val res, o') →
  handled strategy p (setStrategy strategy (RP_GetName p) o) tr (statusWrites tr) ∧
  Requeue res = true.
Proof.
  rewrite reconcileWith_eq. destruct (Meta_DeletionTimestamp (CR_Meta o)) as [t|] eqn:Ed.
  { apply reconcileDelete_handled. cbn. rewrite Ed. by eexists. }
  destruct (R_skips R && Spec_SkipCreate (CR_Spec o)) eqn:Ek.
  - intros Hr. apply runs_bind_Val in Hr as (t1 & u & s1 & t2 & -> & H1 & Hr).
    apply requeue_Val in Hr as [Hw ?]. apply UpdatePhase_runs in H1.
    split; [|done]. rewrite statusWrites_app, Hw, H1, app_nil_r.
    apply andb_true_iff in Ek as [? ?]. by apply handled_paused.
  - by apply reconcileCreate_handled.
Qed.
End With.

(** The strategy of an object: the one in its status, once there is one. *)
Definition strategyOf (dsm : DeploymentStrategyMapping) (o : CR) : string :=
  if bool_decide (Status_Strategy (CR_Status o) ≠ "") then Status_Strategy (CR_Status o)
  else R_strategy R dsm.

Context (frames : ∀ p, p ∈ R_providerList R → StatusFrame p).

Lemma ro_GetStrategyMapping {S} w ns t :
  readonly (GetStrategyMappingForDeploymentType (S := S) w ns t).
Proof. unfold GetStrategyMappingForDeploymentType. go_sat. Qed.

(** C3: a reconcile that succeeds either finds no object, makes no other call and
    does not come back, or fetched the object, read the strategies of its type and
    asked the first provider of the list that supports the strategy of the object
    (the one in its status when there is one); then it writes the status exactly
    as the specification [handled] says, once or (for an empty message) not at
    all, and comes back. *)
Theorem Reconcile_refines watchNs name ns o0 tr res o' :
  runs (Reconcile R watchNs name ns o0) tr (Val res, o') →
  (∃ e, tr = [Ev (GetCR (R_kind R) name ns) (Er e)] ∧ IsNotFound e = true ∧ res = noRequeue) ∨
  (∃ o dsm t p,
     Ev (GetCR (R_kind R) name ns) (Ok o) ∈ tr ∧
     t ⊆ tr ∧ runs (GetStrategyMappingForDeploymentType watchNs ns (Spec_Type (CR_Spec o)) o) t
                (Val dsm, o) ∧
     List.find (λ p, RP_SupportsStrategy p (strategyOf dsm o)) (R_providerList R) = Some p ∧
     handled (strategyOf dsm o) p (setStrategy (strategyOf dsm o) (RP_GetName p) o) tr
       (statusWrites tr) ∧
     Requeue res = true).
Proof.
  intros Hr. unfold Reconcile in Hr. inv_call Hr. destruct Hr as (r & t & -> & Hr).
  destruct r as [o|e].
  2: { left. exists e. destruct (IsNotFound e); [|by apply runs_fail_Val in Hr].
       by apply runs_mret_Val in Hr as (-> & <- & _). }
  right. apply runs_bind_put in Hr. cbv zeta in Hr.
  apply runs_bind_Val in Hr as (t1 & m & s1 & t2 & -> & H1 & Hr).
  apply runs_try_Val in H1.
  destruct m as [dsm|e]; [|by run_val Hr].
  destruct (ro_GetStrategyMapping _ _ _ _ _ _ _ H1) as [Hro <-].
  fold (strategyOf dsm o) in Hr.
  destruct (List.find _ _) as [p|] eqn:Ep; [|by run_val Hr].
  assert (p ∈ R_providerList R) as Hp by (by apply find_Some_In in Ep as [? _]).
  pose proof (frames p Hp) as Hframe.
  apply reconcileWith_handled in Hr as [Hh Hq]; [|exact Hframe].
  exists o, dsm, t1, p. split_and!; try done; [ev_in|intros x Hx; ev_in|].
  rewrite (app_comm_cons t1 t2), statusWrites_app.
  rewrite (statusWrites_none (_ :: t1)).
  2: { constructor; [exact I|]. eapply Forall_impl; [exact Hro|].
       intros x. apply noStatus_reads. }
  eapply handled_incl; [exact Hh|]. intros x Hx. ev_in.
Qed.
End Reconcile.

(** ** When an object is complete *)

(** Everything but writing that an object is complete. *)
Definition notComplete (c : call) : Prop :=
  match (c : api_call) with
  | StatusUpdateCR x => Status_Phase (CR_Status x) ≠ PhaseComplete
  | _ => True
  end.
Lemma notComplete_reads : reads_ok notComplete.
Proof. intros c. by destruct c. Qed.
Lemma noStatus_notComplete c : noStatus c → notComplete c.
Proof. by destruct c. Qed.
#[local] Hint Resolve notComplete_reads : sat.
#[local] Hint Extern 1 (notComplete _) => exact I : sat.

Lemma UpdatePhase_notComplete phase msg :
  phase ≠ PhaseComplete → sat notComplete anyCR (UpdatePhase phase msg).
Proof. intros Hp. unfold UpdatePhase. go_sat. Qed.
#[local] Hint Extern 2 (sat notComplete anyCR (UpdatePhase _ _)) =>
  apply UpdatePhase_notComplete; first [done|assumption] : sat.
Lemma ReconcileResultSecret_notComplete d : sat notComplete anyCR (ReconcileResultSecret d).
Proof. unfold ReconcileResultSecret, CreateOrUpdateSecret, mutateResultSecret. go_sat. Qed.
#[local] Hint Resolve ReconcileResultSecret_notComplete : sat.

(** The run [H], whose event is [He], makes no call like that. *)
Ltac not_here Hn H He :=
  exfalso; refine (Hn (sat_no_event notComplete anyCR _ _ _ _ _ _ H He _)).

Section Complete.
Context (R : Reconciler) (frames : ∀ p, p ∈ R_providerList R → StatusFrame p).

Section With.
Context (p : ResourceProvider) `{!StatusFrame p}.
Lemma requeue_noStatus : sat noStatus anyCR (requeue p).
Proof.
  unfold requeue. apply sat_bind; [apply _|go_sat|intros o]. apply sat_bind; [apply _| |intros; go_sat].
  apply sat_eq; [apply _|apply time_frame].
Qed.
Lemma requeue_notComplete : sat notComplete anyCR (requeue p).
Proof. eapply sat_weaken; [apply requeue_noStatus|apply noStatus_notComplete]. Qed.
#[local] Hint Resolve requeue_notComplete : sat.
Lemma delete_notComplete : sat notComplete anyCR (RP_Delete p).
Proof. eapply sat_weaken; [apply delete_frame|apply noStatus_notComplete]. Qed.
#[local] Hint Resolve delete_notComplete : sat.
Lemma reconcileDelete_notComplete : sat notComplete anyCR (reconcileDelete R p).
Proof. unfold reconcileDelete. go_sat. Qed.

(** What is known when a complete object is written. *)
Definition completing strategy (o x : CR) (tr : list event) : Prop :=
  Meta_DeletionTimestamp (CR_Meta o) = None ∧ R_skips R && Spec_SkipCreate (CR_Spec o) = false ∧
  ∃ t data msg o1, t ⊆ tr ∧
    runs (RP_Create p (setStrategy strategy (RP_GetName p) o)) t (Val (Some data, msg), o1) ∧
    resultSecret o1 data tr ∧ x = completed strategy (RP_GetName p) msg o1.

Lemma reconcileCreate_complete strategy o tr out o' x ans :
  runs (reconcileCreate strategy p o) tr (out, o') →
  Ev (StatusUpdateCR x) ans ∈ tr → Status_Phase (CR_Status x) = PhaseComplete →
  ∃ t data msg o1, t ⊆ tr ∧ runs (RP_Create p o) t (Val (Some data, msg), o1) ∧
    resultSecret o1 data tr ∧ x = completed strategy (RP_GetName p) msg o1.
Proof.
  intros Hr He Hx. unfold reconcileCreate in Hr.
  assert (¬ notComplete (StatusUpdateCR x)) as Hn by (intros X; exact (X Hx)).
  eapply (runs_bind_skip noStatus anyCR) in Hr as (t1 & r & o1 & t2 & -> & H1 & _ & Hr & Hin);
    [|exact He|apply sat_try, create_frame|exact id].
  clear He. apply runs_try_Val in H1. destruct r as [[[data|] msg]|[msg err]].
  2, 3: rewrite runs_bind_modify in Hr;
    not_here Hn Hr Hin; go_sat.
  eapply (runs_bind_skip notComplete anyCR) in Hr as (t3 & u & o3 & t4 & -> & H3 & _ & Hr & Hin3);
    [|exact Hin|go_sat|exact Hn].
  apply runs_onErr_Val, ReconcileResultSecret_Val in H3 as (-> & _ & Hsec).
  rewrite runs_bind_modify in Hr.
  eapply (runs_bind_first noStatus anyCR) in Hr as (t5 & o5 & s5 & _ & Hr & Hin5);
    [|exact Hin3|intros; apply requeue_noStatus|exact id].
  unfold statusUpdate in Hr. apply runs_bind_get in Hr. inv_call Hr.
  destruct Hr as (a & t & -> & [(e & _ & -> & _)|(b & _ & [-> _])]);
    apply list_elem_of_singleton, (f_equal ev_call) in Hin5; injection Hin5 as ->;
    (exists t1, data, msg, o1; split_and!; [intros y Hy; ev_in|exact H1| |done];
     eapply resultSecret_incl; [exact Hsec|]; intros y Hy; ev_in).
Qed.

Lemma reconcileWith_complete strategy o tr out o' x ans :
  runs (reconcileWith R strategy p o) tr (out, o') →
  Ev (StatusUpdateCR x) ans ∈ tr → Status_Phase (CR_Status x) = PhaseComplete →
  completing strategy o x tr.
Proof.
  rewrite reconcileWith_eq. intros Hr He Hx.
  assert (¬ notComplete (StatusUpdateCR x)) as Hn by (intros X; exact (X Hx)).
  unfold completing. destruct (Meta_DeletionTimestamp (CR_Meta o)) as [d|].
  { not_here Hn Hr He; apply reconcileDelete_notComplete. }
  destruct (R_skips R && Spec_SkipCreate (CR_Spec o)).
  { not_here Hn Hr He; go_sat. }
  split; [done|]. split; [done|]. by eapply reconcileCreate_complete.
Qed.
End With.

Lemma Reconcile_complete_run watchNs name ns o0 tr out o' x ans :
  R_unsupportedPhase R ≠ PhaseComplete →
  runs (Reconcile R watchNs name ns o0) tr (out, o') →
  Ev (StatusUpdateCR x) ans ∈ tr → Status_Phase (CR_Status x) = PhaseComplete →
  ∃ o dsm p, Ev (GetCR (R_kind R) name ns) (Ok o) ∈ tr ∧
    List.find (λ p, RP_SupportsStrategy p (strategyOf R dsm o)) (R_providerList R) = Some p ∧
    completing p (strategyOf R dsm o) o x tr.
Proof.
  intros Hu Hr He Hx. unfold Reconcile in Hr.
  assert (¬ notComplete (StatusUpdateCR x)) as Hn by (intros X; exact (X Hx)).
  inv_call Hr. destruct Hr as (r & t & -> & Hr).
  apply elem_of_cons in He as [He|He]; [by apply (f_equal ev_call) in He|].
  destruct r as [o|e].
  2: { not_here Hn Hr He; go_sat. }
  apply runs_bind_put in Hr. cbv zeta in Hr.
  eapply (runs_bind_skip (λ c : call, reads c = true) eq) in Hr
    as (t1 & m & s1 & t2 & -> & H1 & <- & Hr & Hin);
    [|exact He|apply sat_try, ro_GetStrategyMapping|by intros [=]].
  destruct m as [dsm|e].
  2: { not_here Hn Hr Hin; go_sat. }
  fold (strategyOf R dsm o) in Hr. destruct (List.find _ _) as [p|] eqn:Ep.
  2: { not_here Hn Hr Hin.
       apply sat_bind; [apply _|by apply UpdatePhase_notComplete|intros; go_sat]. }
  assert (p ∈ R_providerList R) as Hp by (by apply find_Some_In in Ep as [? _]).
  pose proof (frames p Hp) as Hframe.
  apply (reconcileWith_complete p _ _ _ _ _ _ _ Hr Hin) in Hx
    as (Hd & Hk & t' & data & msg & o1 & Ht & Hc & Hsec & ->).
  exists o, dsm, p. split; [ev_in|]. split; [exact Ep|]. split_and!; [done|done|].
  exists t', data, msg, o1. split_and!; [intros y Hy%Ht; ev_in|done| |done].
  eapply resultSecret_incl; [exact Hsec|]. intros y Hy. ev_in.
Qed.

(** The same when only one provider has the name that is written. *)
Lemma Reconcile_complete_by q0 watchNs name ns o0 tr out o' x ans :
  R_unsupportedPhase R ≠ PhaseComplete →
  (∀ q, q ∈ R_providerList R → RP_GetName q = RP_GetName q0 → q = q0) →
  runs (Reconcile R watchNs name ns o0) tr (out, o') →
  Ev (StatusUpdateCR x) ans ∈ tr → Status_Phase (CR_Status x) = PhaseComplete →
  Status_Provider (CR_Status x) = RP_GetName q0 →
  ∃ o strategy t data msg o1, t ⊆ tr ∧ runs (RP_Create q0 o) t (Val (Some data, msg), o1) ∧
    resultSecret x data tr ∧ x = completed strategy (RP_GetName q0) msg o1.
Proof.
  intros Hu Hone Hr He Hx Hp.
  eapply Reconcile_complete_run in Hr as (o & dsm & q & _ & Hq & Hc); [|done..].
  destruct Hc as (_ & _ & t & data & msg & o1 & Ht & Hc & Hsec & ->).
  apply find_Some_In in Hq as [Hq _]. apply Hone in Hq as ->; [|exact Hp].
  exists (setStrategy (strategyOf R dsm o) (RP_GetName q0) o), (strategyOf R dsm o), t, data, msg, o1. done.
Qed.

(** C4: in every run, also one that fails or panics, an object is only ever
    written as complete after the provider was asked to create it (it is neither
    being deleted nor skipped), answered connection details, and the secret that
    the object names holds them. *)
Theorem Reconcile_complete watchNs name ns o0 tr out o' x ans :
  R_unsupportedPhase R ≠ PhaseComplete →
  runs (Reconcile R watchNs name ns o0) tr (out, o') →
  Ev (StatusUpdateCR x) ans ∈ tr → Status_Phase (CR_Status x) = PhaseComplete →
  ∃ o dsm p, Ev (GetCR (R_kind R) name ns) (Ok o) ∈ tr ∧
    List.find (λ p, RP_SupportsStrategy p (strategyOf R dsm o)) (R_providerList R) = Some p ∧
    completing p (strategyOf R dsm o) o x tr.
Proof. apply Reconcile_complete_run. Qed.
End Complete.
