(* ===== verification/ControllerAws.v ===== *)
(** * The controllers with the AWS providers

    The RDS and ElastiCache providers implement the interface the controllers rely
    on, so the theorems about the reconcile loops hold of them; the connection
    details survive the way through the result secret. *)
From S2P Require Import Prelude Effects GoNet GoStrings Json Api Resources Metrics.
From S2P Require Import Subnets ClusterVpc NetworkProvider NetworkProps AwsConfig AwsPostgres.
From S2P Require Import AwsRedis Controllers Footprints AwsPostgresProps AwsRedisProps ControllerProps.
Local Open Scope go_scope.

(** ** The interface, implemented *)

(** What each part of a provider may call leaves the status alone. *)
Lemma networkCall_noStatus c : networkCall c → noStatus c.
Proof. by destruct c. Qed.
Lemma metricCall_noStatus c : metricCall c → noStatus c.
Proof. destruct c; try done. intros []; done. Qed.
Lemma credentialCall_noStatus c : credentialCall c → noStatus c.
Proof. by destruct c. Qed.

Section NoStatus.
Context {E A : Type} (m : M CR E A).
Lemma noStatus_network : sat networkCall eq m → sat noStatus anyCR m.
Proof. intros H. apply sat_eq; [apply _|]. by eapply sat_weaken, networkCall_noStatus. Qed.
Lemma noStatus_metric : sat metricCall eq m → sat noStatus anyCR m.
Proof. intros H. apply sat_eq; [apply _|]. by eapply sat_weaken, metricCall_noStatus. Qed.
Lemma noStatus_credential : sat credentialCall eq m → sat noStatus anyCR m.
Proof. intros H. apply sat_eq; [apply _|]. by eapply sat_weaken, credentialCall_noStatus. Qed.
End NoStatus.
#[local] Hint Extern 5 (sat noStatus anyCR _) =>
  first [ apply noStatus_network; solve [eauto with sat]
        | apply noStatus_metric; solve [eauto with sat]
        | apply noStatus_credential; solve [eauto with sat] ] : sat.

Section Providers.
Context `{ThirdParty}.

Lemma ns_deleteLastNetwork sts isEnabled isLast :
  sat noStatus anyCR (deleteLastNetwork sts isEnabled isLast).
Proof. unfold deleteLastNetwork. go_sat. Qed.
Lemma ns_dropFinalizer msg : sat noStatus anyCR (dropFinalizer msg).
Proof. unfold dropFinalizer. go_sat. Qed.
Lemma ns_CreateFinalizer f : sat noStatus anyCR (CreateFinalizer f).
Proof. unfold CreateFinalizer. go_sat. Qed.
#[local] Hint Resolve ns_deleteLastNetwork ns_dropFinalizer ns_CreateFinalizer : sat.

Lemma ns_reconcileNetwork p sts tier msg : sat noStatus anyCR (reconcileNetwork p sts tier msg).
Proof. unfold reconcileNetwork. go_sat. Qed.
Lemma ns_reconcileRDSInstance p cfg b w : sat noStatus anyCR (reconcileRDSInstance p cfg b w).
Proof.
  unfold reconcileRDSInstance, reconcileFoundInstance, createRDSInstance, addAnnotation,
    getFoundInstance, TagRDSPostgres. go_sat.
Qed.
Lemma ns_applyUpdatesInWindow u cfg : sat noStatus anyCR (applyUpdatesInWindow u cfg).
Proof. unfold applyUpdatesInWindow, rdsApplyServiceUpdates. go_sat. Qed.
#[local] Hint Resolve ns_reconcileNetwork ns_reconcileRDSInstance ns_applyUpdatesInWindow : sat.
Lemma ns_ReconcilePostgres p : sat noStatus anyCR (ReconcilePostgres p).
Proof. unfold ReconcilePostgres. go_sat. Qed.
Lemma ns_DeletePostgres p : sat noStatus anyCR (DeletePostgres p).
Proof.
  unfold DeletePostgres, deleteRDSInstance, deleteFoundInstance, deleteAbsentInstance. go_sat.
Qed.

Lemma ns_reconcileRedisNetwork p sts tier : sat noStatus anyCR (reconcileRedisNetwork p sts tier).
Proof. unfold reconcileRedisNetwork. go_sat. Qed.
Lemma ns_applyUpdate g u l : sat noStatus anyCR (applyUpdate g u l).
Proof. induction l; simpl; unfold applyServiceUpdate; go_sat. Qed.
Lemma ns_groupClusters id l : sat noStatus anyCR (groupClusters id l).
Proof. induction l; simpl; go_sat. Qed.
#[local] Hint Resolve ns_reconcileRedisNetwork ns_applyUpdate ns_groupClusters : sat.
Lemma ns_createElasticacheCluster p cfg u b w :
  sat noStatus anyCR (createElasticacheCluster p cfg u b w).
Proof.
  unfold createElasticacheCluster, reconcileFoundCache, createCache, modifyGroup, tagNodes,
    TagElasticacheNode, tagCacheSnapshot, applySpecifiedSecurityUpdates, addAnnotation. go_sat.
Qed.
#[local] Hint Resolve ns_createElasticacheCluster : sat.
Lemma ns_CreateRedis p : sat noStatus anyCR (CreateRedis p).
Proof. unfold CreateRedis, closeWindow. go_sat. Qed.
Lemma ns_DeleteRedis p : sat noStatus anyCR (DeleteRedis p).
Proof.
  unfold DeleteRedis, deleteElasticacheCluster, deleteFoundCache, deleteAbsentCache. go_sat.
Qed.
#[local] Hint Resolve ns_ReconcilePostgres ns_DeletePostgres ns_CreateRedis ns_DeleteRedis : sat.

Lemma forcedTime_total {S E} t (s : S) tr (e : E) s' :
  ¬ runs (GetForcedReconcileTimeOrDefault t s) tr (Err e, s').
Proof.
  unfold GetForcedReconcileTimeOrDefault. intros Hr. apply runs_bind_invoke in Hr as ([v|] & t' & -> & Hr).
  - by destruct (ParseInt64 v); apply runs_mret in Hr as (_ & ? & _).
  - by apply runs_mret in Hr as (_ & ? & _).
Qed.
Lemma ro_forcedTime {S E} t : sat noStatus eq (GetForcedReconcileTimeOrDefault (S := S) (E := E) t).
Proof. unfold GetForcedReconcileTimeOrDefault. go_sat. Qed.
#[local] Hint Resolve ro_forcedTime : sat.

#[export] Instance awsPostgres_frame p : StatusFrame (awsPostgres p).
Proof.
  split; cbn; [go_sat|go_sat| |]; intros o; unfold GetReconcileTime; [by go_sat|].
  intros s tr e s' Hr. case_bool_decide; [by apply runs_mret in Hr as (_ & ? & _)|].
  by apply forcedTime_total in Hr.
Qed.
#[export] Instance awsRedis_frame p : StatusFrame (awsRedis p).
Proof.
  split; cbn; [go_sat|go_sat| |]; intros o; unfold Redis_GetReconcileTime; [by go_sat|].
  intros s tr e s' Hr. case_bool_decide; [by apply runs_mret in Hr as (_ & ? & _)|].
  by apply forcedTime_total in Hr.
Qed.
End Providers.

(** ** What a client of the operator reads *)

(** Reading the connection details back from the data of a secret. *)
Definition readPostgresDetails (m : gmap string string) : option PostgresDeploymentDetails :=
  user ← m !! "username"; password ← m !! "password"; host ← m !! "host";
  database ← m !! "database"; port ← m !! "port" ≫= ParseInt64;
  Some {| PDD_Username := user; PDD_Password := password; PDD_Host := host;
          PDD_Database := database; PDD_Port := port |}.
Definition readRedisDetails (m : gmap string string) : option RedisDeploymentDetails :=
  uri ← m !! "uri"; port ← m !! "port" ≫= ParseInt64;
  Some {| RDD_URI := uri; RDD_Port := port |}.
(** A 64-bit port; Go's [int] and [int64]. *)
Definition int64 (z : Z) : Prop := (- 2 ^ 63 ≤ z < 2 ^ 63)%Z.

Lemma readPostgresDetails_Data d : int64 (PDD_Port d) → readPostgresDetails (PostgresData d) = Some d.
Proof.
  intros Hp. unfold readPostgresDetails, PostgresData. simplify_map_eq.
  rewrite ParseInt64_itoa by done. by destruct d.
Qed.
Lemma readRedisDetails_Data d : int64 (RDD_Port d) → readRedisDetails (RedisData d) = Some d.
Proof.
  intros Hp. unfold readRedisDetails, RedisData. simplify_map_eq.
  rewrite ParseInt64_itoa by done. by destruct d.
Qed.

(** C36: the connection details of both kinds are determined by the data of the
    secret: what was put in is read back, for every port of 64 bits. *)
Theorem Data_roundtrip pdd rdd :
  int64 (PDD_Port pdd) → int64 (RDD_Port rdd) →
  readPostgresDetails (PostgresData pdd) = Some pdd ∧
  readRedisDetails (RedisData rdd) = Some rdd.
Proof. intros. split; [by apply readPostgresDetails_Data|by apply readRedisDetails_Data]. Qed.

(** ** The controllers of the operator *)

Section Controllers.
Context `{ThirdParty} (ps : list ResourceProvider) (frames : ∀ q, q ∈ ps → StatusFrame q).

(** C2: with the RDS provider among providers of other names, an object that is
    written as complete with the name of the RDS provider points to the secret of
    its specification, which holds details that a client reads back as those of an
    instance listed as available, with a password that is not empty. *)
Theorem PostgresController_complete p watchNs name ns o0 tr out o' x ans :
  (∀ q, q ∈ ps → RP_GetName q = postgresProviderName → q = awsPostgres p) →
  runs (Postgres_Reconcile ps watchNs name ns o0) tr (out, o') →
  Ev (StatusUpdateCR x) ans ∈ tr → Status_Phase (CR_Status x) = PhaseComplete →
  Status_Provider (CR_Status x) = postgresProviderName →
  ∃ pdd pi i ep,
    Status_SecretRef (CR_Status x) = Spec_SecretRef (CR_Spec x) ∧
    resultSecret x (PostgresData pdd) tr ∧
    Ev DescribeDBInstances (Ok pi) ∈ tr ∧ i ∈ pi ∧
    DB_DBInstanceStatus i = Some "available" ∧ DB_Endpoint i = Some ep ∧
    Endpoint_Address ep = Some (PDD_Host pdd) ∧ Endpoint_Port ep = Some (PDD_Port pdd) ∧
    DB_MasterUsername i = Some (PDD_Username pdd) ∧ DB_DBName i = Some (PDD_Database pdd) ∧
    PDD_Password pdd ≠ "" ∧
    (int64 (PDD_Port pdd) → readPostgresDetails (PostgresData pdd) = Some pdd).
Proof.
  intros Hone Hr He Hx Hp.
  unfold Postgres_Reconcile in Hr. 
  eapply (Reconcile_complete_by (PostgresReconciler ps) frames (awsPostgres p)) in Hr
    as (o & st & t & data & msg & o1 & Ht & Hc & Hsec & ?); [|done..].
  subst x.
  cbn in Hc. apply runs_bind_Val in Hc as (t1 & [d m] & s & t2 & -> & Hc & Hr).
  apply runs_mret_Val in Hr as (-> & Hd & ->).
  destruct d as [pdd|]; [|done]. injection Hd as <- <-.
  apply ReconcilePostgres_Some in Hc
    as (cr1 & w & pi & i & ep & cfg & sec & _ & _ & Hpi & Hi & _ & _ & Hst & Hep & Ha & Hpo &
        Hu & Hdb & _ & _ & Hpass & _).
  exists pdd, pi, i, ep. split_and!; try done.
  - apply Ht. rewrite app_nil_r. exact Hpi.
  - apply readPostgresDetails_Data.
Qed.
End Controllers.
