(* ===== verification/GcpNetworkProps.v ===== *)
(** * The network of Google Cloud: properties

    The URLs of subnetworks, the network of the cluster, and when the address
    range, the service connection and the peering are created and removed. *)
From S2P Require Import Prelude Effects GoNet NetFacts GoStrings GoUrl Json GcpApi Api Resources.
From S2P Require Import Subnets NetworkProps AwsConfig AwsPostgres GcpConfig GcpNetwork Footprints.
From Stdlib Require Import Ascii.
Local Open Scope go_scope.

(** ** What the parts read *)

Section Reads.
Context {S : Type}.
Implicit Types (n : GcpNetwork.NetworkProvider).

Lemma ro_getDefaultProject : readonly (getDefaultProject (S := S)).
Proof. unfold getDefaultProject, GetGCPProject, GetGCPPlatform. go_sat. Qed.
Lemma ro_getDefaultRegion : readonly (getDefaultRegion (S := S)).
Proof. unfold getDefaultRegion, GetGCPRegion, GetGCPPlatform. go_sat. Qed.
#[local] Hint Resolve ro_getDefaultProject ro_getDefaultRegion : sat.
Lemma ro_gcp_ReadStorageStrategy m rt tier : readonly (ReadStorageStrategy (S := S) m rt tier).
Proof.
  unfold ReadStorageStrategy, getTierStrategyForProvider, GetConfigMapOrDefault, fillProject,
    fillRegion, GetProjectFromStrategyOrDefault, GetRegionFromStrategyOrDefault. go_sat.
Qed.
#[local] Hint Resolve ro_gcp_ReadStorageStrategy : sat.
Lemma ro_gcp_ReconcileNetworkProviderConfig m tier :
  readonly (ReconcileNetworkProviderConfig (S := S) m tier).
Proof. unfold ReconcileNetworkProviderConfig. go_sat. Qed.
Lemma ro_networksClient_List p f : readonly (networksClient_List (S := S) p f).
Proof. unfold networksClient_List. go_sat. Qed.
#[local] Hint Resolve ro_networksClient_List : sat.
Lemma ro_gcp_getClusterVpc p : readonly (getClusterVpc (S := S) p).
Proof. unfold getClusterVpc. go_sat. Qed.
Lemma ro_NewNetworkManager p j : readonly (NewNetworkManager (S := S) p j).
Proof. unfold NewNetworkManager. go_sat. Qed.
Lemma ro_getAddressRange n r : readonly (getAddressRange (S := S) n r).
Proof. unfold getAddressRange. go_sat. Qed.
Lemma ro_getServiceConnection n v : readonly (getServiceConnection (S := S) n v).
Proof. unfold getServiceConnection, servicesClient_ConnectionsList. go_sat. Qed.
Lemma ro_getClusterSubnets n v : readonly (getClusterSubnets (S := S) n v).
Proof. unfold getClusterSubnets. go_sat. Qed.
Lemma ro_ipRangeName : readonly (ipRangeName (S := S)).
Proof. unfold ipRangeName, BuildInfraName. go_sat. Qed.
#[local] Hint Resolve ro_gcp_getClusterVpc ro_ipRangeName ro_getAddressRange
  ro_getServiceConnection : sat.
Lemma ro_ComponentsExist n : readonly (ComponentsExist (S := S) n).
Proof. unfold ComponentsExist. go_sat. Qed.
End Reads.
#[export] Hint Resolve ro_gcp_ReadStorageStrategy ro_gcp_ReconcileNetworkProviderConfig ro_gcp_getClusterVpc
  ro_NewNetworkManager ro_getAddressRange ro_getServiceConnection ro_getClusterSubnets
  ro_ipRangeName ro_ComponentsExist : sat.

(** ** URLs of subnetworks *)

Definition noChar (c : ascii) (s : string) : bool := negb (hasChar c s).

Lemma splitChar_app c s t :
  noChar c s = true → splitChar c (s +:+ String c t) = s :: splitChar c t.
Proof.
  unfold noChar. induction s as [|x s IH]; intros H.
  - change (splitChar c (String c t) = "" :: splitChar c t). cbn [splitChar].
    by rewrite Ascii.eqb_refl.
  - change (splitChar c (String x (s +:+ String c t)) = String x s :: splitChar c t).
    cbn [splitChar hasChar] in *. destruct (x =? c)%char; [done|]. by rewrite IH.
Qed.
Lemma splitChar_none c s : noChar c s = true → splitChar c s = [s].
Proof.
  unfold noChar. induction s as [|x s IH]; intros H; [done|].
  cbn [splitChar hasChar] in *. destruct (x =? c)%char; [done|]. by rewrite IH.
Qed.

(** The segments of a list of names that are neither "regions" nor "subnetworks"
    change nothing. *)
Lemma scanSegments_skip {E} (l rest : list string) region :
  Forall (λ s, s ≠ "regions" ∧ s ≠ "subnetworks") l →
  scanSegments (E := E) (l ++ rest) region = scanSegments rest region.
Proof.
  induction 1 as [|s l [H1 H2] _ IH]; [done|]. cbn [app scanSegments].
  by rewrite !bool_decide_false.
Qed.
Lemma scanSegments_region {E} r (rest : list string) region :
  r ≠ "regions" → r ≠ "subnetworks" →
  scanSegments (E := E) ("regions" :: r :: rest) region = scanSegments rest r.
Proof.
  intros H1 H2. cbn [scanSegments]. rewrite (bool_decide_true ("regions" = "regions")) by done.
  cbn [mbind outcome_bind]. rewrite (bool_decide_false ("regions" = "subnetworks")) by done.
  rewrite (bool_decide_false (r = _)) by done. by rewrite (bool_decide_false (r = _)) by done.
Qed.
Lemma scanSegments_name {E} name (rest : list string) region :
  scanSegments (E := E) ("subnetworks" :: name :: rest) region = Val (name, region).
Proof. done. Qed.

(** The characters of a segment of a URL that stand for themselves. *)
Definition plainChar (c : ascii) : bool := isAlphanum c || oneOf "-._~" c.
Definition plain (s : string) : bool := allChars plainChar s.

Definition subnetPrefix : string := "https://www.googleapis.com/compute/v1/projects/".
Definition pathChar (c : ascii) : bool := plainChar c || (c =? "/")%char.

Lemma string_app_cons c s t : String c s +:+ t = String c (s +:+ t).
Proof. done. Qed.
Lemma allChars_app p s t : allChars p (s +:+ t) = allChars p s && allChars p t.
Proof.
  induction s as [|c s IH]; [done|]. rewrite string_app_cons. cbn [allChars].
  by rewrite IH, andb_assoc.
Qed.
Lemma allChars_impl (p q : ascii → bool) s :
  (∀ c, p c = true → q c = true) → allChars p s = true → allChars q s = true.
Proof.
  intros Hpq. induction s as [|c s IH]; [done|]. cbn [allChars].
  rewrite !andb_true_iff. intros [H1 H2]. auto.
Qed.
Lemma allChars_noChar (p : ascii → bool) c s :
  p c = false → allChars p s = true → noChar c s = true.
Proof.
  unfold noChar. intros Hp. induction s as [|x s IH]; [done|]. cbn [allChars hasChar].
  intros [H1 H2]%andb_true_iff. destruct (x =? c)%char eqn:E; [apply Ascii.eqb_eq in E; congruence|]. auto.
Qed.
Lemma noChar_app c s t : noChar c (s +:+ t) = noChar c s && noChar c t.
Proof.
  unfold noChar. induction s as [|x s IH]; [done|]. rewrite string_app_cons. cbn [hasChar].
  destruct (x =? c)%char; [done|]. exact IH.
Qed.
Lemma cutChar_none c s : noChar c s = true → cutChar c s = None.
Proof.
  unfold noChar. induction s as [|x s IH]; [done|]. cbn [cutChar hasChar].
  destruct (x =? c)%char; [done|]. intros H. by rewrite IH.
Qed.
Lemma upTo_none c s : noChar c s = true → upTo c s = s.
Proof. intros H. unfold upTo. by rewrite cutChar_none. Qed.
Lemma unescape_plain s : noChar "%" s = true → unescape false s = Ok s.
Proof.
  unfold noChar. induction s as [|c s IH]; [done|]. cbn [hasChar].
  intros H. assert ((c =? "%")%char = false ∧ hasChar "%" s = false) as [Hc Hs].
  { destruct (c =? "%")%char; [done|]. by destruct (hasChar "%" s). }
  rewrite Hs in IH. specialize (IH eq_refl).
  destruct c as [[] [] [] [] [] [] [] []]; try discriminate; cbn [unescape andb]; by rewrite IH.
Qed.

Lemma urlPath_subnetPrefix p :
  allChars pathChar p = true → urlPath (subnetPrefix +:+ p) = Ok ("/compute/v1/projects/" +:+ p).
Proof.
  intros Hp.
  assert (noChar "#" (subnetPrefix +:+ p) = true) as Hhash.
  { rewrite noChar_app. apply andb_true_iff. split; [done|]. by apply (allChars_noChar pathChar). }
  assert (noChar "?" p = true) as Hq by (by apply (allChars_noChar pathChar)).
  assert (noChar "%" p = true) as Hpc by (by apply (allChars_noChar pathChar)).
  unfold urlPath. rewrite upTo_none, cutChar_none by done.
  assert (parsePath (subnetPrefix +:+ p) = Ok ("/compute/v1/projects/" +:+ p)) as ->; [|done].
  unfold parsePath.
  assert (allChars (λ c, negb (isControl c)) (subnetPrefix +:+ p) = true) as ->.
  { rewrite allChars_app. apply andb_true_iff. split; [done|].
    eapply allChars_impl; [|exact Hp]. intros [[] [] [] [] [] [] [] []]; vm_compute; congruence. }
  cbn [negb].
  change (getScheme (subnetPrefix +:+ p)) with
    (@Ok (string * string) ("https", "//www.googleapis.com/compute/v1/projects/" +:+ p)).
  change (String.eqb (subnetPrefix +:+ p) "*") with false. cbn [bindR].
  rewrite upTo_none by (rewrite noChar_app; by apply andb_true_iff).
  assert (unescape false ("/compute/v1/projects/" +:+ p) = Ok ("/compute/v1/projects/" +:+ p)) as U.
  { apply unescape_plain. rewrite noChar_app. by apply andb_true_iff. }
  exact U.
Qed.

(** the name and the region of a subnetwork are read back from its URL. *)
Theorem parseSubnetUrl_reads project region name :
  plain project = true → plain region = true → plain name = true →
  region ≠ "" → name ≠ "" →
  region ∉ ["regions"; "subnetworks"] → project ∉ ["regions"; "subnetworks"] →
  parseSubnetUrl (subnetPrefix +:+ (project +:+ "/regions/" +:+ region
                                     +:+ "/subnetworks/" +:+ name)) = Val (name, region).
Proof.
  intros Hp Hr Hn Hre Hne Hr' Hp'.
  assert (∀ s, plain s = true → allChars pathChar s = true ∧ noChar "/" s = true) as Hplain.
  { intros s Hs. split; [|by apply (allChars_noChar plainChar)].
    eapply allChars_impl; [|exact Hs]. intros c Hc. unfold pathChar. by rewrite Hc. }
  destruct (Hplain _ Hp) as [P1 P2], (Hplain _ Hr) as [R1 R2], (Hplain _ Hn) as [N1 N2].
  unfold parseSubnetUrl. rewrite urlPath_subnetPrefix.
  2: { rewrite !allChars_app, P1, R1, N1. done. }
  assert (splitChar "/" ("/compute/v1/projects/" +:+ (project +:+ "/regions/" +:+ region
      +:+ "/subnetworks/" +:+ name)) =
    ["" ; "compute"; "v1"; "projects"; project] ++ ["regions"; region; "subnetworks"; name]) as ->.
  { change ("/compute/v1/projects/" +:+ ?x) with
      (String "/" ("compute" +:+ String "/" ("v1" +:+ String "/" ("projects" +:+ String "/" x)))).
    cbn [splitChar]. rewrite Ascii.eqb_refl. rewrite !splitChar_app by done.
    change ("/regions/" +:+ ?x) with (String "/" ("regions" +:+ String "/" x)).
    change ("/subnetworks/" +:+ ?x) with (String "/" ("subnetworks" +:+ String "/" x)).
    rewrite !splitChar_app by done. rewrite (splitChar_none "/" name) by done. done. }
  rewrite scanSegments_skip.
  2: { repeat constructor; try done; intros ->; apply Hp'; set_solver. }
  rewrite scanSegments_region by (intros ->; apply Hr'; set_solver).
  rewrite scanSegments_name. by rewrite !bool_decide_false.
Qed.

(** a URL that ends where the region or the name should follow ends the
    function with an index out of range. *)
Theorem parseSubnetUrl_panics project :
  plain project = true → project ∉ ["regions"; "subnetworks"] →
  parseSubnetUrl (subnetPrefix +:+ (project +:+ "/regions")) = out_of_range.
Proof.
  intros Hp Hp'. unfold parseSubnetUrl. rewrite urlPath_subnetPrefix.
  2: { rewrite allChars_app. apply andb_true_iff. split; [|done].
       eapply allChars_impl; [|exact Hp]. intros c Hc. unfold pathChar. by rewrite Hc. }
  assert (splitChar "/" ("/compute/v1/projects/" +:+ (project +:+ "/regions")) =
    ["" ; "compute"; "v1"; "projects"; project] ++ ["regions"]) as ->.
  { change ("/compute/v1/projects/" +:+ ?x) with
      (String "/" ("compute" +:+ String "/" ("v1" +:+ String "/" ("projects" +:+ String "/" x)))).
    cbn [splitChar]. rewrite Ascii.eqb_refl. rewrite !splitChar_app by done.
    change ("/regions") with (String "/" "regions").
    rewrite splitChar_app by (by apply (allChars_noChar plainChar)). done. }
  rewrite scanSegments_skip; [done|].
  repeat constructor; try done; intros ->; apply Hp'; set_solver.
Qed.

(** ** What the getters answer *)

Section Getters.
Context {S : Type}.
Implicit Types (n : GcpNetwork.NetworkProvider) (s : S) (e : error).

(** The event of a listing that answered one network, which has two subnetworks. *)
Definition clusterNetworkSeen (project : string) (v : Network) (tr : list event) : Prop :=
  ∃ infra err,
    Ev GetInfrastructure (Ok infra) ∈ tr ∧
    Ev (Gcp (ListNetworks project (networkFilter (Infra_InfrastructureName infra)))) ([v], err) ∈ tr ∧
    (∀ e, err = Some e → isAPIError e = false) ∧
    (2 ≤ length (Network_Subnetworks v))%nat.

Lemma gcp_getClusterVpc_Val p s tr v s' :
  runs (getClusterVpc p s) tr (Val v, s') → clusterNetworkSeen p v tr.
Proof.
  intros Hr. unfold getClusterVpc in Hr.
  apply runs_bind_Val in Hr as (t1 & id & s1 & t2 & -> & H1 & Hr).
  apply runs_onErr_Val in H1. unfold GetClusterID, GetClusterInfrastructure in H1.
  run_val H1. rename a into infra. subst id.
  apply runs_bind_Val in Hr as (t5 & l & s2 & t6 & -> & H2 & Hr).
  apply runs_onErr_Val in H2. unfold networksClient_List in H2.
  apply (@runs_bind_invoke api S error) in H2 as ([networks err] & t & -> & H2).
  assert (networks = l ∧ ∀ e, err = Some e → isAPIError e = false) as [-> Herr].
  { destruct err as [e|].
    - destruct (isAPIError e) eqn:Ee; [by apply runs_fail_Val in H2|].
      apply runs_mret_Val in H2 as (_ & -> & _). split; [done|]. by intros ? [= <-].
    - apply runs_mret_Val in H2 as (_ & -> & _). done. }
  destruct l as [|v' [|]]; try (by apply runs_fail_Val in Hr).
  destruct (_ <? _)%nat eqn:El; [by apply runs_fail_Val in Hr|].
  apply Nat.ltb_ge in El. run_val Hr. subst v'.
  exists infra, err. split_and!; [ev_in|ev_in|done|done].
Qed.

Lemma ipRangeName_Val s tr name s' :
  runs (ipRangeName s) tr (Val name, s') →
  ∃ infra, Ev GetInfrastructure (Ok infra) ∈ tr ∧
    name = ShortenString (Infra_InfrastructureName infra +:+ "-" +:+ defaultIpRangePostfix)
             defaultGcpIdentifierLength.
Proof. apply BuildInfraName_Val. Qed.

Definition addressSeen n (name : string) (a : option Address) (tr : list event) : Prop :=
  match a with
  | Some a => Ev (Gcp (GetGlobalAddress name (ProjectID n))) (Ok a) ∈ tr
  | None => ∃ e, Ev (Gcp (GetGlobalAddress name (ProjectID n))) (Er e) ∈ tr ∧
                 IsNotFoundError e = true
  end.
Lemma getAddressRange_Val n name s tr a s' :
  runs (getAddressRange n name s) tr (Val a, s') → addressSeen n name a tr.
Proof.
  intros Hr. unfold getAddressRange in Hr. inv_call Hr. destruct Hr as (r & t & -> & Hr).
  destruct r as [x|e]; [apply runs_mret_Val in Hr as (_ & <- & _); cbn; ev_in|].
  destruct (IsNotFoundError e) eqn:Ee; [|by apply runs_fail_Val in Hr].
  apply runs_mret_Val in Hr as (_ & <- & _). exists e. split; [ev_in|done].
Qed.

Definition connectionsSeen n (v : Network) (c : option Connection) (tr : list event) : Prop :=
  ∃ l, Ev (Gcp (ConnectionsList (networkPath (ProjectID n) (StringValue (Network_Name v)))
             servicesParent)) (Ok l) ∈ tr ∧ c = head l.
Lemma getServiceConnection_Val n v s tr c s' :
  runs (getServiceConnection n v s) tr (Val c, s') → connectionsSeen n v c tr.
Proof.
  intros Hr. unfold getServiceConnection, servicesClient_ConnectionsList in Hr. run_val Hr.
  eexists. split; [ev_in|done].
Qed.

(** Each subnetwork of the network was read. *)
Lemma getClusterSubnets_Val n v s tr l s' :
  runs (getClusterSubnets n v s) tr (Val l, s') →
  Forall2 (λ url subnet, ∃ name region, parseSubnetUrl url = Val (name, region) ∧
             Ev (Gcp (GetSubnetwork (ProjectID n) name region)) (Ok subnet) ∈ tr)
    (Network_Subnetworks v) l.
Proof.
  unfold getClusterSubnets. intros Hr.
  assert (∀ urls acc tr l s s',
    runs (foldM (λ subnets url,
      '(name, region) ← lift (parseSubnetUrl url);
      subnet ← ok (invoke (Gcp (GetSubnetwork (ProjectID n) name region)))
        orWrap "failed to retrieve cluster subnet <nil>";
      mret (subnets ++ [subnet])) acc urls s) tr (Val l, s') →
    ∃ l', l = acc ++ l' ∧
    Forall2 (λ url subnet, ∃ name region, parseSubnetUrl url = Val (name, region) ∧
             Ev (Gcp (GetSubnetwork (ProjectID n) name region)) (Ok subnet) ∈ tr) urls l') as G.
  2: { apply G in Hr as (l' & -> & H). exact H. }
  clear. induction urls as [|url urls IH]; intros acc tr l s s' Hr; cbn [foldM] in Hr.
  - apply runs_mret_Val in Hr as (_ & <- & _). exists []. by rewrite app_nil_r.
  - apply runs_bind_Val in Hr as (t1 & acc' & s1 & t2 & -> & H1 & Hr).
    apply runs_bind_Val in H1 as (t3 & [name region] & s2 & t4 & -> & H2 & H1).
    apply runs_lift_Val in H2 as (-> & Hp & ->). run_val H1. subst acc'.
    apply IH in Hr as (l' & -> & HF). eexists (_ :: l'). split; [by rewrite <- app_assoc|].
    constructor; [exists name, region; split; [done|ev_in]|].
    eapply Forall2_impl; [exact HF|]. intros u sn (nm & rg & H1 & H2).
    exists nm, rg. split; [done|]. ev_in.
Qed.
End Getters.

(** ** The block of the address range *)

(** A block of the strategy, or a size without an address. *)
Definition rangeBlock (block : IPNet) : Prop := wf_net block ∨ IPNet_IP block = [].
Definition disjoint (a b : IPNet) : Prop := ¬ ∃ ip, Contains a ip = true ∧ Contains b ip = true.
(** The block of a subnetwork. *)
Definition outside (block : IPNet) (subnet : Subnetwork) : Prop :=
  ∃ ip net, ParseCIDR (StringValue (Subnetwork_IpCidrRange subnet)) = Ok (ip, net) ∧
            disjoint block net.

Lemma Contains_nil block ip :
  IPNet_IP block = [] → Contains block ip = true → norm ip = [].
Proof.
  intros Hb. unfold Contains, networkNumberAndMask. rewrite Hb. cbn. rewrite decide_False by naive_solver.
  intros Hi%bool_decide_eq_true. exact Hi.
Qed.
Lemma wf_Contains_nonnil net ip : wf_net net → Contains net ip = true → norm ip ≠ [].
Proof.
  intros (nn & k & Hn & Hk & Hl) Hc Hi. apply (Contains_spec _ _ _ _ Hn) in Hc as [Hlen _].
  rewrite Hi in Hlen. cbn in Hlen. destruct Hl as [Hl|[Hl _]]; lia.
Qed.

Lemma checkSubnets_spec block subnets :
  rangeBlock block → checkSubnets block subnets = None → Forall (outside block) subnets.
Proof.
  intros Hb. induction subnets as [|sn rest IH]; [by constructor|]. cbn [checkSubnets].
  destruct (ParseCIDR _) as [[ip net]|e] eqn:Ep; [|done].
  destruct (Contains net _ || Contains block _) eqn:Eo; [done|]. intros Hr.
  constructor; [|by apply IH]. exists ip, net. split; [done|].
  pose proof (ParseCIDR_wf _ _ _ Ep) as Wn. intros (a & H1 & H2). destruct Hb as [Wb|Hnil].
  - by eapply (overlap_false net block a).
  - apply Contains_nil in H1; [|done]. by eapply wf_Contains_nonnil.
Qed.
(** What passes the validation is at least a /22 and shares no address with the
    subnetworks. *)
Lemma validateCidrBlock_None block subnets :
  rangeBlock block → validateCidrBlock block subnets = None →
  ((Mask_Size (IPNet_Mask block)).1 ≤ 22)%Z ∧ Forall (outside block) subnets.
Proof.
  intros Hb. unfold validateCidrBlock, isValidCIDRRange.
  destruct (Mask_Size _) as [ones bits]. destruct (Z.leb_spec ones defaultIpRangeCIDRMask); [|done].
  intros Hc. split; [done|]. by apply checkSubnets_spec.
Qed.

Lemma gcp_network_config_block {S} m tier (s : S) tr block s' :
  runs (ReconcileNetworkProviderConfig m tier s) tr (Val block, s') → rangeBlock block.
Proof.
  intros Hr. unfold ReconcileNetworkProviderConfig in Hr.
  apply runs_bind_Val in Hr as (t1 & st & s1 & t2 & -> & _ & Hr).
  apply runs_bind_Val in Hr as (t3 & ms & s2 & t4 & -> & _ & Hr).
  case_bool_decide; [apply runs_mret_Val in Hr as (_ & <- & _); by right|].
  apply runs_bind_Val in Hr as (t5 & [ip net] & s3 & t6 & -> & H1 & Hr).
  apply runs_mret_Val in Hr as (_ & <- & _). left.
  apply runs_onErr_Val, runs_liftR_Val in H1 as (_ & Hp & _). by eapply ParseCIDR_wf.
Qed.

(** ** Creating and removing the components *)

(** Not a call of Google Cloud that [f] picks. *)
Definition except (f : gcp_call → bool) (c : call) : Prop :=
  match (c : api_call) with Gcp g => f g = false | _ => True end.
Lemma except_reads f : (∀ g, gcp_reads g = true → f g = false) → reads_ok (except f).
Proof. intros Hf c. destruct c; try done. apply Hf. Qed.
(** One of the calls [gs]. *)
Definition only (gs : list gcp_call) (c : call) : Prop :=
  match (c : api_call) with Gcp g => g ∈ gs | _ => False end.
#[export] Hint Extern 1 (only _ _) => cbn; set_solver : sat.
(** Kinds of calls that change something. *)
Definition isInsert (g : gcp_call) : bool :=
  match g with InsertGlobalAddress _ _ => true | _ => false end.
Definition isConnect (g : gcp_call) : bool :=
  match g with ConnectionsCreate _ _ _ => true | _ => false end.
Definition isRemovePeering (g : gcp_call) : bool :=
  match g with RemovePeering _ _ _ => true | _ => false end.
Definition isDisconnect (g : gcp_call) : bool :=
  match g with ConnectionsDelete _ _ => true | _ => false end.
Definition isDeleteAddress (g : gcp_call) : bool :=
  match g with DeleteGlobalAddress _ _ => true | _ => false end.
#[export] Hint Extern 2 (reads_ok (except _)) => apply except_reads; intros []; done : sat.

Definition rangeName (infra : Infrastructure) : string :=
  ShortenString (Infra_InfrastructureName infra +:+ "-" +:+ defaultIpRangePostfix)
    defaultGcpIdentifierLength.

Section Create.
Context {S : Type} (n : GcpNetwork.NetworkProvider).
Implicit Types (s : S).

(** An address range is asked for when there is none, with the block and the name
    it was given, in the network of the cluster, whose subnetworks were all read
    and share no address with the block. *)
Definition rangeAsked (block : IPNet) (project : string) (a : Address) (tr : list event) : Prop :=
  ∃ infra v subnets,
    Ev GetInfrastructure (Ok infra) ∈ tr ∧ addressSeen n (rangeName infra) None tr ∧
    clusterNetworkSeen (ProjectID n) v tr ∧
    project = ProjectID n ∧ a = addressResource v (rangeName infra) block ∧
    ((Mask_Size (IPNet_Mask block)).1 ≤ 22)%Z ∧
    Forall2 (λ url subnet, ∃ name region, parseSubnetUrl url = Val (name, region) ∧
               Ev (Gcp (GetSubnetwork (ProjectID n) name region)) (Ok subnet) ∈ tr)
      (Network_Subnetworks v) subnets ∧
    Forall (outside block) subnets.

Lemma addressSeen_incl name a t tr : addressSeen n name a t → t ⊆ tr → addressSeen n name a tr.
Proof.
  intros Ha Ht. destruct a; [by apply Ht|]. destruct Ha as (e & H1 & H2). exists e. auto.
Qed.
Lemma clusterNetworkSeen_incl p v t tr :
  clusterNetworkSeen p v t → t ⊆ tr → clusterNetworkSeen p v tr.
Proof. intros (i & e & H1 & H2 & H3) Ht. exists i, e. split_and!; [by apply Ht..|apply H3|apply H3]. Qed.
Lemma connectionsSeen_incl v c t tr :
  connectionsSeen n v c t → t ⊆ tr → connectionsSeen n v c tr.
Proof. intros (l & H1 & H2) Ht. exists l. split; [by apply Ht|done]. Qed.

Lemma rangeAsked_incl block project a t tr :
  rangeAsked block project a t → t ⊆ tr → rangeAsked block project a tr.
Proof.
  intros (infra & v & sns & H1 & H2 & H3 & H4 & H5 & H6 & H7 & H8) Ht.
  exists infra, v, sns. split_and!; try done; [by apply Ht|by eapply addressSeen_incl|
    by eapply clusterNetworkSeen_incl|].
  eapply Forall2_impl; [exact H7|]. intros u sn (nm & rg & Hp & Hin). exists nm, rg. auto.
Qed.

Lemma CreateNetworkIpRange_asks block s tr o s' project a r :
  rangeBlock block → runs (CreateNetworkIpRange n block s) tr (o, s') →
  Ev (Gcp (InsertGlobalAddress project a)) r ∈ tr → rangeAsked block project a tr.
Proof.
  intros Hb Hr He. unfold CreateNetworkIpRange in Hr.
  skip_reads Hr He name H1. apply runs_onErr_Val, ipRangeName_Val in H1 as (infra & Hi & ->).
  skip_reads Hr He found H2. apply runs_onErr_Val, getAddressRange_Val in H2.
  destruct found as [x|]; [apply runs_mret in Hr as (-> & _); by apply not_elem_of_nil in He|].
  skip_reads Hr He v H3. apply runs_onErr_Val, gcp_getClusterVpc_Val in H3.
  skip_reads Hr He sns H4. apply runs_onErr_Val, getClusterSubnets_Val in H4.
  skip_reads Hr He u H5. apply runs_onErr_Val in H5.
  destruct (validateCidrBlock block sns) as [err|] eqn:Ev; [by apply runs_fail_Val in H5|].
  apply validateCidrBlock_None in Ev as [Hm Hd]; [|done]. clear H5.
  eapply (sat_no_event (only [InsertGlobalAddress (ProjectID n)
    (addressResource v (rangeName infra) block); OperationWait]) eq) in Hr;
    [|exact He|unfold createAddressRange, addressClient_Insert; go_sat].
  apply elem_of_cons in Hr as [[= -> ->]|Hr]; [|by apply list_elem_of_singleton in Hr].
  exists infra, v, sns. split_and!; try done; [ev_in| | |].
  - eapply addressSeen_incl; [exact H2|]. intros x Hx. ev_in.
  - eapply clusterNetworkSeen_incl; [exact H3|]. intros x Hx. ev_in.
  - eapply Forall2_impl; [exact H4|]. intros u' sn (nm & rg & Hp & Hin).
    exists nm, rg. split; [done|]. ev_in.
Qed.

Lemma CreateNetworkIpRange_Val block s tr a s' :
  runs (CreateNetworkIpRange n block s) tr (Val (a, ""), s') →
  ∃ infra x, Ev GetInfrastructure (Ok infra) ∈ tr ∧ a = Some x ∧
             addressSeen n (rangeName infra) (Some x) tr.
Proof.
  intros Hr. unfold CreateNetworkIpRange in Hr.
  apply runs_bind_Val in Hr as (t1 & name & s1 & t2 & -> & H1 & Hr).
  apply runs_onErr_Val, ipRangeName_Val in H1 as (infra & Hi & ->).
  apply runs_bind_Val in Hr as (t3 & found & s2 & t4 & -> & H2 & Hr).
  apply runs_onErr_Val, getAddressRange_Val in H2. destruct found as [x|].
  - apply runs_mret_Val in Hr as (-> & [= <-] & _). exists infra, x. split_and!; [ev_in|done|].
    cbn in *. ev_in.
  - exfalso. do 4 (apply runs_bind_Val in Hr as (? & ? & ? & ? & _ & _ & Hr)).
    by apply runs_mret_Val in Hr as (_ & [=] & _).
Qed.

(** A service connection is asked for when there is none and the address range is
    reserved. *)
Definition serviceAsked (parent network : string) (ranges : list string) (tr : list event) : Prop :=
  ∃ infra v a,
    Ev GetInfrastructure (Ok infra) ∈ tr ∧ clusterNetworkSeen (ProjectID n) v tr ∧
    connectionsSeen n v None tr ∧ addressSeen n (rangeName infra) (Some a) tr ∧
    Address_Status a = Some "RESERVED" ∧ parent = servicesParent ∧
    network = networkPath (ProjectID n) (StringValue (Network_Name v)) ∧
    ranges = [rangeName infra].
(** What [CreateNetworkService] answers without a message. *)
Definition serviceReady (tr : list event) : Prop :=
  ∃ v, clusterNetworkSeen (ProjectID n) v tr ∧
    ((∃ c, connectionsSeen n v (Some c) tr) ∨
     connectionsSeen n v None tr ∧
     ∃ infra a, addressSeen n (rangeName infra) (Some a) tr ∧
                StringValue (Address_Status a) ∉ ["RESERVING"; "RESERVED"]).

Lemma serviceAsked_incl parent network ranges t tr :
  serviceAsked parent network ranges t → t ⊆ tr → serviceAsked parent network ranges tr.
Proof.
  intros (infra & v & a & H1 & H2 & H3 & H4 & H5) Ht. exists infra, v, a.
  split_and!; try apply H5; [by apply Ht|by eapply clusterNetworkSeen_incl|
    by eapply connectionsSeen_incl|by eapply addressSeen_incl].
Qed.
Lemma serviceReady_incl t tr : serviceReady t → t ⊆ tr → serviceReady tr.
Proof.
  intros (v & Hv & Hc) Ht. exists v. split; [by eapply clusterNetworkSeen_incl|].
  destruct Hc as [(c & Hc)|(Hc & infra & a & Ha & Hs)].
  - left. exists c. by eapply connectionsSeen_incl.
  - right. split; [by eapply connectionsSeen_incl|]. exists infra, a.
    split; [by eapply addressSeen_incl|done].
Qed.

Lemma CreateNetworkService_asks s tr o s' parent network ranges r :
  runs (CreateNetworkService n s) tr (o, s') →
  Ev (Gcp (ConnectionsCreate parent network ranges)) r ∈ tr →
  serviceAsked parent network ranges tr.
Proof.
  intros Hr He. unfold CreateNetworkService in Hr.
  skip_reads Hr He v H1. apply runs_onErr_Val, gcp_getClusterVpc_Val in H1.
  skip_reads Hr He c H2. apply runs_onErr_Val, getServiceConnection_Val in H2.
  destruct c as [c|]; [apply runs_mret in Hr as (-> & _); by apply not_elem_of_nil in He|].
  unfold createMissingService in Hr.
  skip_reads Hr He name H3. apply runs_onErr_Val, ipRangeName_Val in H3 as (infra & Hi & ->).
  skip_reads Hr He found H4. apply runs_onErr_Val, getAddressRange_Val in H4.
  destruct found as [x|]; [|apply runs_mret in Hr as (-> & _); by apply not_elem_of_nil in He].
  case_bool_decide; [apply runs_mret in Hr as (-> & _); by apply not_elem_of_nil in He|].
  case_bool_decide as Hs; [|apply runs_mret in Hr as (-> & _); by apply not_elem_of_nil in He].
  eapply (sat_no_event (only [ConnectionsCreate servicesParent
    (networkPath (ProjectID n) (StringValue (Network_Name v))) [rangeName infra]]) eq) in Hr;
    [|exact He|unfold createServiceConnection; go_sat].
  apply list_elem_of_singleton in Hr as [= -> -> ->]. exists infra, v, x. split_and!; try done; [ev_in|..].
  - eapply clusterNetworkSeen_incl; [exact H1|]. intros y Hy. ev_in.
  - eapply connectionsSeen_incl; [exact H2|]. intros y Hy. ev_in.
  - cbn in *. ev_in.
  - by destruct (Address_Status x) as [st|]; cbn in Hs; [subst|].
Qed.

Lemma CreateNetworkService_Val s tr c s' :
  runs (CreateNetworkService n s) tr (Val (c, ""), s') → serviceReady tr.
Proof.
  intros Hr. unfold CreateNetworkService in Hr.
  apply runs_bind_Val in Hr as (t1 & v & s1 & t2 & -> & H1 & Hr).
  apply runs_onErr_Val, gcp_getClusterVpc_Val in H1.
  apply runs_bind_Val in Hr as (t3 & x & s2 & t4 & -> & H2 & Hr).
  apply runs_onErr_Val, getServiceConnection_Val in H2. exists v. split.
  { eapply clusterNetworkSeen_incl; [exact H1|]. intros y Hy. ev_in. }
  destruct x as [x|].
  - left. exists x. eapply connectionsSeen_incl; [exact H2|]. intros y Hy. ev_in.
  - right. split; [eapply connectionsSeen_incl; [exact H2|]; intros y Hy; ev_in|].
    unfold createMissingService in Hr.
    apply runs_bind_Val in Hr as (t5 & name & s3 & t6 & -> & H3 & Hr).
    apply runs_onErr_Val, ipRangeName_Val in H3 as (infra & _ & ->).
    apply runs_bind_Val in Hr as (t7 & found & s4 & t8 & -> & H4 & Hr).
    apply runs_onErr_Val, getAddressRange_Val in H4.
    destruct found as [a|]; [|by apply runs_mret_Val in Hr as (_ & [=] & _)].
    case_bool_decide as B1; [by apply runs_mret_Val in Hr as (_ & [=] & _)|].
    case_bool_decide as B2.
    { apply runs_bind_Val in Hr as (? & ? & ? & ? & _ & _ & Hr).
      by apply runs_mret_Val in Hr as (_ & [=] & _). }
    exists infra, a. split; [|set_solver]. cbn in *. ev_in.
Qed.
End Create.

(** ** Removing the components *)

Section Delete.
Context {S : Type} (n : GcpNetwork.NetworkProvider).
Implicit Types (s : S).

(** The network of the cluster had no peering with the services, or it was
    removed. *)
Definition peeringGone (tr : list event) : Prop :=
  ∃ v, clusterNetworkSeen (ProjectID n) v tr ∧
    (getPeeringConnection v = None ∨
     Ev (Gcp (RemovePeering (ProjectID n) (StringValue (Network_Name v))
                defaultServiceConnectionName)) (Ok tt) ∈ tr ∧
     Ev (Gcp OperationWait) (Ok tt) ∈ tr).
(** There was no service connection, or its deletion was done. *)
Definition serviceGone (tr : list event) : Prop :=
  ∃ v, clusterNetworkSeen (ProjectID n) v tr ∧
    (connectionsSeen n v None tr ∨
     ∃ c, connectionsSeen n v (Some c) tr ∧
          Ev (Gcp (ConnectionsDelete serviceConnection (Connection_Network c))) (Ok true) ∈ tr).
(** The address range is not that of the service connection that is there. *)
Definition rangeUnused (tr : list event) (name : string) : Prop :=
  ∃ infra v c a,
    name = rangeName infra ∧ addressSeen n name (Some a) tr ∧
    clusterNetworkSeen (ProjectID n) v tr ∧ connectionsSeen n v c tr ∧
    ∀ x, c = Some x → ∃ range rest, Connection_ReservedPeeringRanges x = range :: rest ∧
                                    range ≠ StringValue (Address_Name a).
(** Neither the address range nor a service connection was found. *)
Definition componentsGone (tr : list event) : Prop :=
  ∃ infra v, addressSeen n (rangeName infra) None tr ∧
             clusterNetworkSeen (ProjectID n) v tr ∧ connectionsSeen n v None tr.

Lemma peeringGone_incl t tr : peeringGone t → t ⊆ tr → peeringGone tr.
Proof.
  intros (v & Hv & Hp) Ht. exists v. split; [by eapply clusterNetworkSeen_incl|].
  destruct Hp as [?|[H1 H2]]; [by left|right]. split; by apply Ht.
Qed.
Lemma serviceGone_incl t tr : serviceGone t → t ⊆ tr → serviceGone tr.
Proof.
  intros (v & Hv & Hp) Ht. exists v. split; [by eapply clusterNetworkSeen_incl|].
  destruct Hp as [?|(c & H1 & H2)]; [left|right; exists c; split; [|by apply Ht]];
    by eapply connectionsSeen_incl.
Qed.
Lemma rangeUnused_incl t tr name : rangeUnused t name → t ⊆ tr → rangeUnused tr name.
Proof.
  intros (infra & v & c & a & H1 & H2 & H3 & H4 & H5) Ht. exists infra, v, c, a.
  split_and!; [done|by eapply addressSeen_incl|by eapply clusterNetworkSeen_incl|
    by eapply connectionsSeen_incl|done].
Qed.
Lemma componentsGone_incl t tr : componentsGone t → t ⊆ tr → componentsGone tr.
Proof.
  intros (infra & v & H1 & H2 & H3) Ht. exists infra, v.
  split_and!; [by eapply addressSeen_incl|by eapply clusterNetworkSeen_incl|
    by eapply connectionsSeen_incl].
Qed.

Lemma DeleteNetworkPeering_Val s tr s' :
  runs (DeleteNetworkPeering n s) tr (Val tt, s') → peeringGone tr.
Proof.
  intros Hr. unfold DeleteNetworkPeering in Hr.
  apply runs_bind_Val in Hr as (t1 & v & s1 & t2 & -> & H1 & Hr).
  apply runs_onErr_Val, gcp_getClusterVpc_Val in H1. exists v. split.
  { eapply clusterNetworkSeen_incl; [exact H1|]. intros y Hy. ev_in. }
  destruct (getPeeringConnection v) as [x|]; [right|by left].
  apply runs_onErr_Val in Hr. unfold deletePeeringConnection, networksClient_RemovePeering in Hr.
  apply runs_bind_Val in Hr as (t3 & [] & s3 & t4 & -> & H2 & Hr). inv_call H2.
  destruct H2 as (r & -> & -> & H2). inv_call Hr. destruct Hr as (r' & -> & _ & Hr).
  destruct r as [[]|]; [|done]. destruct r' as [[]|]; [|done]. split; ev_in.
Qed.

Lemma DeleteNetworkService_Val s tr s' :
  runs (DeleteNetworkService n s) tr (Val tt, s') → serviceGone tr.
Proof.
  intros Hr. unfold DeleteNetworkService in Hr.
  apply runs_bind_Val in Hr as (t1 & v & s1 & t2 & -> & H1 & Hr).
  apply runs_onErr_Val, gcp_getClusterVpc_Val in H1.
  apply runs_bind_Val in Hr as (t3 & c & s3 & t4 & -> & H2 & Hr).
  apply getServiceConnection_Val in H2. exists v. split.
  { eapply clusterNetworkSeen_incl; [exact H1|]. intros y Hy. ev_in. }
  assert (connectionsSeen n v c (t1 ++ t3 ++ t4)) as Hc.
  { eapply connectionsSeen_incl; [exact H2|]. intros y Hy. ev_in. }
  destruct c as [c|]; [right; exists c|by left]. split; [done|].
  unfold deleteServiceConnection in Hr. run_val Hr. subst. ev_in.
Qed.

Lemma DeleteNetworkIpRange_deletes s t1 t2 o s' project name r :
  runs (DeleteNetworkIpRange n s) (t1 ++ Ev (Gcp (DeleteGlobalAddress project name)) r :: t2)
    (o, s') →
  project = ProjectID n ∧ rangeUnused t1 name.
Proof.
  intros Hr. unfold DeleteNetworkIpRange in Hr.
  assert (¬ reads (Gcp (DeleteGlobalAddress project name)) = true) as Hn by done.
  before (λ c : call, reads c = true) Hr Hn rn H1.
  apply runs_onErr_Val, ipRangeName_Val in H1 as (infra & Hi & ->).
  before (λ c : call, reads c = true) Hr Hn found H2.
  apply runs_onErr_Val, getAddressRange_Val in H2.
  destruct found as [a|]; [|by apply runs_mret in Hr as ([_ [=]]%app_eq_nil & _)].
  before (λ c : call, reads c = true) Hr Hn v H3.
  apply runs_onErr_Val, gcp_getClusterVpc_Val in H3.
  before (λ c : call, reads c = true) Hr Hn c H4. apply getServiceConnection_Val in H4.
  before (λ c : call, reads c = true) Hr Hn used H5.
  destruct used; [by apply runs_fail in Hr as ([_ [=]]%app_eq_nil & _)|].
  eapply (sat_no_event (only [DeleteGlobalAddress (ProjectID n) (rangeName infra); OperationWait])
    eq) in Hr; [|apply elem_of_app; right; apply list_elem_of_here|unfold deleteAddressRange, addressClient_Delete; go_sat].
  apply elem_of_cons in Hr as [[= -> ->]|Hr]; [|by apply list_elem_of_singleton in Hr].
  split; [done|]. exists infra, v, c, a. split_and!; [done|cbn in *; ev_in|..].
  - eapply clusterNetworkSeen_incl; [exact H3|]. intros y Hy. ev_in.
  - eapply connectionsSeen_incl; [exact H4|]. intros y Hy. ev_in.
  - intros x ->. unfold index in H5. run_val H5. apply bool_decide_eq_false in H0.
    destruct (Connection_ReservedPeeringRanges x) as [|range rest]; [done|].
    injection E as ->. subst. eauto.
Qed.

Lemma ComponentsExist_Val s tr s' :
  runs (ComponentsExist n s) tr (Val false, s') → componentsGone tr.
Proof.
  intros Hr. unfold ComponentsExist in Hr.
  apply runs_bind_Val in Hr as (t1 & v & s1 & t2 & -> & H1 & Hr).
  apply runs_onErr_Val, gcp_getClusterVpc_Val in H1.
  apply runs_bind_Val in Hr as (t3 & name & s3 & t4 & -> & H2 & Hr).
  apply runs_onErr_Val, ipRangeName_Val in H2 as (infra & _ & ->).
  apply runs_bind_Val in Hr as (t5 & a & s5 & t6 & -> & H3 & Hr).
  apply runs_onErr_Val, getAddressRange_Val in H3.
  destruct a as [a|]; [by apply runs_mret_Val in Hr as (_ & ? & _)|].
  apply runs_bind_Val in Hr as (t7 & c & s7 & t8 & -> & H4 & Hr).
  apply getServiceConnection_Val in H4. apply runs_mret_Val in Hr as (-> & Hc & _).
  apply bool_decide_eq_false in Hc. destruct c as [c|]; [by destruct Hc|].
  exists infra, v. split_and!.
  - eapply addressSeen_incl; [exact H3|]. intros y Hy. ev_in.
  - eapply clusterNetworkSeen_incl; [exact H1|]. intros y Hy. ev_in.
  - eapply connectionsSeen_incl; [exact H4|]. intros y Hy. ev_in.
Qed.
End Delete.
