(* ===== verification/GcpSqlProps.v ===== *)
(** * Cloud SQL messages: properties

    What a message sends, field by field: the message made of a strategy sends what the
    strategy says, and an update sends the fields that differ. *)
From S2P Require Import Prelude Effects GoNet GoStrings Json GcpApi Api Resources.
From S2P Require Import GcpSql GcpRedis GcpPostgres.
From stdpp Require Import pretty.
Local Open Scope go_scope.

(** ** The fields a message sends

    A field with its path: one that is false, zero or empty is only sent when it is
    forced. *)
Abbreviation field := (string * json)%type.
Definition sendString (path s : string) : list field :=
  if bool_decide (s = "") then [] else [(path, JStr s)].
Definition sendInt (path : string) (z : Z) : list field :=
  if bool_decide (z = 0)%Z then [] else [(path, JNum (itoa z))].
Definition sendForcedInt (forced : list string) (name path : string) (z : Z) : list field :=
  if bool_decide (z = 0)%Z && negb (bool_decide (name ∈ forced)) then []
  else [(path, JNum (itoa z))].
Definition sendBool (forced : list string) (name path : string) (b : bool) : list field :=
  if b || bool_decide (name ∈ forced) then [(path, JBool b)] else [].
Definition sendFlag (path : string) (p : option bool) : list field :=
  match p with Some b => [(path, JBool b)] | None => [] end.
Definition sendIntPtr (path : string) (p : option Z) : list field :=
  match p with Some z => [(path, JNum (itoa z))] | None => [] end.
Definition sendJson (path : string) (v : option json) : list field :=
  match v with None | Some (JArr []) => [] | Some v => [(path, v)] end.
Definition sendLabels (path : string) (m : option (gmap string string)) : list field :=
  match m with
  | Some m => if bool_decide (m = ∅) then []
              else [(path, JObj (map (λ p, (p.1, JStr p.2)) (map_to_list m)))]
  | None => []
  end.
Definition sendNames (path : string) (l : option (list string)) : list field :=
  sendJson path ((λ l, JArr (map JStr l)) <$> l).
Definition mappingJson (m : option IpMapping) : json :=
  match m with
  | None => JNull
  | Some m => JObj (sendString "ipAddress" (IPM_IpAddress m) ++
                    sendString "timeToRetire" (IPM_TimeToRetire m) ++
                    sendString "type" (IPM_Type m))
  end.
Definition sendMappings (path : string) (l : option (list (option IpMapping))) : list field :=
  sendJson path ((λ l, JArr (map mappingJson l)) <$> l).
(** The fields of a message that may be absent. *)
Definition within {A} (f : A → list field) (p : option A) : list field :=
  match p with Some a => f a | None => [] end.

Definition sendRetention (r : BackupRetentionSettings) : list field :=
  sendString "settings.backupConfiguration.backupRetentionSettings.retentionUnit"
    (BRS_RetentionUnit r) ++
  sendInt "settings.backupConfiguration.backupRetentionSettings.retainedBackups"
    (BRS_RetainedBackups r).
Definition wireBackup (b : SqlBackupConfiguration) : list field :=
  let F := SBC_ForceSendFields b in
  sendBool F "BinaryLogEnabled" "settings.backupConfiguration.binaryLogEnabled" (SBC_BinaryLogEnabled b) ++
  sendBool F "Enabled" "settings.backupConfiguration.enabled" (SBC_Enabled b) ++
  sendString "settings.backupConfiguration.kind" (SBC_Kind b) ++
  sendString "settings.backupConfiguration.location" (SBC_Location b) ++
  sendBool F "PointInTimeRecoveryEnabled"
    "settings.backupConfiguration.pointInTimeRecoveryEnabled" (SBC_PointInTimeRecoveryEnabled b) ++
  sendBool F "ReplicationLogArchivingEnabled"
    "settings.backupConfiguration.replicationLogArchivingEnabled"
    (SBC_ReplicationLogArchivingEnabled b) ++
  sendString "settings.backupConfiguration.startTime" (SBC_StartTime b) ++
  sendInt "settings.backupConfiguration.transactionLogRetentionDays"
    (SBC_TransactionLogRetentionDays b) ++
  within sendRetention (SBC_BackupRetentionSettings b).
Definition wireIpConfiguration (i : SqlIpConfiguration) : list field :=
  let F := SIC_ForceSendFields i in
  sendString "settings.ipConfiguration.allocatedIpRange" (SIC_AllocatedIpRange i) ++
  sendJson "settings.ipConfiguration.authorizedNetworks" (SIC_AuthorizedNetworks i) ++
  sendBool F "Ipv4Enabled" "settings.ipConfiguration.ipv4Enabled" (SIC_Ipv4Enabled i) ++
  sendString "settings.ipConfiguration.privateNetwork" (SIC_PrivateNetwork i) ++
  sendBool F "RequireSsl" "settings.ipConfiguration.requireSsl" (SIC_RequireSsl i).
Definition wireWindow (w : SqlMaintenanceWindow) : list field :=
  sendInt "settings.maintenanceWindow.day" (SMW_Day w) ++
  sendForcedInt (SMW_ForceSendFields w) "Hour" "settings.maintenanceWindow.hour" (SMW_Hour w) ++
  sendString "settings.maintenanceWindow.kind" (SMW_Kind w) ++
  sendString "settings.maintenanceWindow.updateTrack" (SMW_UpdateTrack w).
Definition wireSettings (s : SqlSettings) : list field :=
  let F := SSet_ForceSendFields s in
  sendBool F "DeletionProtectionEnabled" "settings.deletionProtectionEnabled"
    (SSet_DeletionProtectionEnabled s) ++
  sendFlag "settings.storageAutoResize" (SSet_StorageAutoResize s) ++
  sendString "settings.tier" (SSet_Tier s) ++
  sendString "settings.availabilityType" (SSet_AvailabilityType s) ++
  sendInt "settings.storageAutoResizeLimit" (SSet_StorageAutoResizeLimit s) ++
  sendInt "settings.dataDiskSizeGb" (SSet_DataDiskSizeGb s) ++
  sendLabels "settings.userLabels" (SSet_UserLabels s) ++
  within wireBackup (SSet_BackupConfiguration s) ++
  within wireIpConfiguration (SSet_IpConfiguration s) ++
  within wireWindow (SSet_MaintenanceWindow s) ++
  sendString "settings.activationPolicy" (SSet_ActivationPolicy s) ++
  sendString "settings.collation" (SSet_Collation s) ++
  sendString "settings.connectorEnforcement" (SSet_ConnectorEnforcement s) ++
  sendBool F "CrashSafeReplicationEnabled" "settings.crashSafeReplicationEnabled"
    (SSet_CrashSafeReplicationEnabled s) ++
  sendString "settings.dataDiskType" (SSet_DataDiskType s) ++
  sendJson "settings.databaseFlags" (SSet_DatabaseFlags s) ++
  sendBool F "DatabaseReplicationEnabled" "settings.databaseReplicationEnabled"
    (SSet_DatabaseReplicationEnabled s) ++
  sendJson "settings.denyMaintenancePeriods" (SSet_DenyMaintenancePeriods s) ++
  sendJson "settings.insightsConfig" (SSet_InsightsConfig s) ++
  sendString "settings.kind" (SSet_Kind s) ++
  sendJson "settings.locationPreference" (SSet_LocationPreference s) ++
  sendJson "settings.passwordValidationPolicy" (SSet_PasswordValidationPolicy s) ++
  sendString "settings.pricingPlan" (SSet_PricingPlan s) ++
  sendString "settings.replicationType" (SSet_ReplicationType s) ++
  sendInt "settings.settingsVersion" (SSet_SettingsVersion s).
Definition wireReplica (r : SqlFailoverReplica) : list field :=
  sendBool (SFR_ForceSendFields r) "Available" "failoverReplica.available" (SFR_Available r) ++
  sendString "failoverReplica.name" (SFR_Name r).
(** Everything a request with the message sends. *)
Definition wire (i : SqlInstance) : list field :=
  within wireSettings (SI_Settings i) ++
  sendString "databaseVersion" (SI_DatabaseVersion i) ++
  sendString "connectionName" (SI_ConnectionName i) ++
  sendJson "diskEncryptionConfiguration" (SI_DiskEncryptionConfiguration i) ++
  within wireReplica (SI_FailoverReplica i) ++
  sendString "gceZone" (SI_GceZone i) ++
  sendString "instanceType" (SI_InstanceType i) ++
  sendMappings "ipAddresses" (SI_IpAddresses i) ++
  sendString "kind" (SI_Kind i) ++
  sendString "maintenanceVersion" (SI_MaintenanceVersion i) ++
  sendString "masterInstanceName" (SI_MasterInstanceName i) ++
  sendInt "maxDiskSize" (SI_MaxDiskSize i) ++
  sendString "name" (SI_Name i) ++
  sendString "project" (SI_Project i) ++
  sendString "region" (SI_Region i) ++
  sendNames "replicaNames" (SI_ReplicaNames i) ++
  sendString "rootPassword" (SI_RootPassword i) ++
  sendString "secondaryGceZone" (SI_SecondaryGceZone i) ++
  sendString "selfLink" (SI_SelfLink i) ++
  sendJson "serverCaCert" (SI_ServerCaCert i) ++
  sendString "serviceAccountEmailAddress" (SI_ServiceAccountEmailAddress i) ++
  sendString "state" (SI_State i).

(** ** What a strategy says *)

Definition statedReplica (r : DatabaseInstanceFailoverReplica) : list field :=
  sendFlag "failoverReplica.available" (FR_Available r) ++
  sendString "failoverReplica.name" (FR_Name r).
Definition statedBackup (b : BackupConfiguration) : list field :=
  sendFlag "settings.backupConfiguration.binaryLogEnabled" (BC_BinaryLogEnabled b) ++
  sendFlag "settings.backupConfiguration.enabled" (BC_Enabled b) ++
  sendString "settings.backupConfiguration.kind" (BC_Kind b) ++
  sendString "settings.backupConfiguration.location" (BC_Location b) ++
  sendFlag "settings.backupConfiguration.pointInTimeRecoveryEnabled"
    (BC_PointInTimeRecoveryEnabled b) ++
  sendFlag "settings.backupConfiguration.replicationLogArchivingEnabled"
    (BC_ReplicationLogArchivingEnabled b) ++
  sendString "settings.backupConfiguration.startTime" (BC_StartTime b) ++
  sendInt "settings.backupConfiguration.transactionLogRetentionDays"
    (BC_TransactionLogRetentionDays b) ++
  within sendRetention (BC_BackupRetentionSettings b).
Definition statedIpConfiguration (i : IpConfiguration) : list field :=
  sendString "settings.ipConfiguration.allocatedIpRange" (IC_AllocatedIpRange i) ++
  sendJson "settings.ipConfiguration.authorizedNetworks" (IC_AuthorizedNetworks i) ++
  sendFlag "settings.ipConfiguration.ipv4Enabled" (IC_Ipv4Enabled i) ++
  sendString "settings.ipConfiguration.privateNetwork" (IC_PrivateNetwork i) ++
  sendFlag "settings.ipConfiguration.requireSsl" (IC_RequireSsl i).
Definition statedWindow (w : MaintenanceWindow) : list field :=
  sendIntPtr "settings.maintenanceWindow.day" (MW_Day w) ++
  sendIntPtr "settings.maintenanceWindow.hour" (MW_Hour w) ++
  sendString "settings.maintenanceWindow.kind" (MW_Kind w) ++
  sendString "settings.maintenanceWindow.updateTrack" (MW_UpdateTrack w).
Definition statedSettings (s : Settings) : list field :=
  sendFlag "settings.deletionProtectionEnabled" (ST_DeletionProtectionEnabled s) ++
  sendFlag "settings.storageAutoResize" (ST_StorageAutoResize s) ++
  sendString "settings.tier" (ST_Tier s) ++
  sendString "settings.availabilityType" (ST_AvailabilityType s) ++
  sendInt "settings.storageAutoResizeLimit" (ST_StorageAutoResizeLimit s) ++
  sendInt "settings.dataDiskSizeGb" (ST_DataDiskSizeGb s) ++
  sendLabels "settings.userLabels" (ST_UserLabels s) ++
  within statedBackup (ST_BackupConfiguration s) ++
  within statedIpConfiguration (ST_IpConfiguration s) ++
  within statedWindow (ST_MaintenanceWindow s) ++
  sendString "settings.activationPolicy" (ST_ActivationPolicy s) ++
  sendString "settings.collation" (ST_Collation s) ++
  sendString "settings.connectorEnforcement" (ST_ConnectorEnforcement s) ++
  sendFlag "settings.crashSafeReplicationEnabled" (ST_CrashSafeReplicationEnabled s) ++
  sendString "settings.dataDiskType" (ST_DataDiskType s) ++
  sendJson "settings.databaseFlags" (ST_DatabaseFlags s) ++
  sendFlag "settings.databaseReplicationEnabled" (ST_DatabaseReplicationEnabled s) ++
  sendJson "settings.denyMaintenancePeriods" (ST_DenyMaintenancePeriods s) ++
  sendJson "settings.insightsConfig" (ST_InsightsConfig s) ++
  sendString "settings.kind" (ST_Kind s) ++
  sendJson "settings.locationPreference" (ST_LocationPreference s) ++
  sendJson "settings.passwordValidationPolicy" (ST_PasswordValidationPolicy s) ++
  sendString "settings.pricingPlan" (ST_PricingPlan s) ++
  sendString "settings.replicationType" (ST_ReplicationType s) ++
  sendInt "settings.settingsVersion" (ST_SettingsVersion s).
(** Every field that is given, flags that are false included. *)
Definition stated (d : DatabaseInstance) : list field :=
  within statedSettings (DBI_Settings d) ++
  sendString "databaseVersion" (DBI_DatabaseVersion d) ++
  sendString "connectionName" (DBI_ConnectionName d) ++
  sendJson "diskEncryptionConfiguration" (DBI_DiskEncryptionConfiguration d) ++
  within statedReplica (DBI_FailoverReplica d) ++
  sendString "gceZone" (DBI_GceZone d) ++
  sendString "instanceType" (DBI_InstanceType d) ++
  sendMappings "ipAddresses" (DBI_IpAddresses d) ++
  sendString "kind" (DBI_Kind d) ++
  sendString "maintenanceVersion" (DBI_MaintenanceVersion d) ++
  sendString "masterInstanceName" (DBI_MasterInstanceName d) ++
  sendInt "maxDiskSize" (DBI_MaxDiskSize d) ++
  sendString "name" (DBI_Name d) ++
  sendString "project" (DBI_Project d) ++
  sendString "region" (DBI_Region d) ++
  sendNames "replicaNames" (DBI_ReplicaNames d) ++
  sendString "rootPassword" (DBI_RootPassword d) ++
  sendString "secondaryGceZone" (DBI_SecondaryGceZone d) ++
  sendString "selfLink" (DBI_SelfLink d) ++
  sendJson "serverCaCert" (DBI_ServerCaCert d).

(** A flag is sent as it is given, once its name is forced when it is false. *)
Lemma forced_elem name n p : name ∈ forced n p ↔ name = n ∧ p = Some false.
Proof.
  destruct p as [[]|]; cbn; rewrite ?elem_of_cons; split; try set_solver.
Qed.
Lemma send_flag F name path p :
  (name ∈ F ↔ p = Some false) → sendBool F name path (flag p) = sendFlag path p.
Proof.
  intros HF. unfold sendBool. destruct p as [[]|]; cbn; [done| |].
  - by rewrite bool_decide_true by (by apply HF).
  - rewrite bool_decide_false; [done|]. intros ?%HF. done.
Qed.
Ltac forced_names :=
  rewrite ?elem_of_app, ?forced_elem; split;
  [intros Hn; destruct_or?; repeat match goal with
     | H : _ ∧ _ |- _ => destruct H end; try congruence
  |intros ->; tauto].

Lemma wire_mapReplica r : wireReplica (mapFailoverReplica r) = statedReplica r.
Proof.
  unfold wireReplica, statedReplica. cbn [mapFailoverReplica SFR_ForceSendFields SFR_Available SFR_Name].
  by rewrite send_flag by forced_names.
Qed.
Lemma wire_mapBackup b : wireBackup (mapBackupConfiguration b) = statedBackup b.
Proof.
  unfold wireBackup, statedBackup. cbn -[sendBool sendFlag sendString sendInt within app].
  by rewrite !send_flag by forced_names.
Qed.
Lemma wire_mapIpConfiguration i : wireIpConfiguration (mapIpConfiguration i) = statedIpConfiguration i.
Proof.
  unfold wireIpConfiguration, statedIpConfiguration. cbn -[sendBool sendFlag sendString sendJson app].
  by rewrite !send_flag by forced_names.
Qed.

(** The parts of a window that are passed on. *)
Definition windowPassed (w : MaintenanceWindow) : Prop := MW_Kind w = "" ∧ MW_Day w ≠ Some 0%Z.
Lemma wire_mapWindow w : windowPassed w → wireWindow (mapMaintenanceWindow w) = statedWindow w.
Proof.
  intros [Hk Hd]. unfold wireWindow, statedWindow. cbn -[sendInt sendString sendForcedInt app].
  rewrite Hk. f_equal; [|f_equal].
  - unfold sendInt. destruct (MW_Day w) as [z|]; [|done]. cbn. by rewrite bool_decide_false by congruence.
  - unfold sendForcedInt. destruct (MW_Hour w) as [z|]; cbn.
    + destruct (decide (z = 0%Z)) as [->|Hz]; [done|]. by rewrite (bool_decide_false (z = 0%Z)).
    + done.
Qed.
Lemma wire_mapSettings s :
  (∀ w, ST_MaintenanceWindow s = Some w → windowPassed w) →
  wireSettings (mapSettings s) = statedSettings s.
Proof.
  intros Hw. unfold wireSettings, statedSettings.
  cbn -[sendBool sendFlag sendString sendInt sendJson sendLabels within app].
  rewrite !send_flag by forced_names.
  assert (within wireBackup (mapBackupConfiguration <$> ST_BackupConfiguration s) =
          within statedBackup (ST_BackupConfiguration s)) as ->.
  { destruct (ST_BackupConfiguration s); [apply wire_mapBackup|done]. }
  assert (within wireIpConfiguration (mapIpConfiguration <$> ST_IpConfiguration s) =
          within statedIpConfiguration (ST_IpConfiguration s)) as ->.
  { destruct (ST_IpConfiguration s); [apply wire_mapIpConfiguration|done]. }
  assert (within wireWindow (mapMaintenanceWindow <$> ST_MaintenanceWindow s) =
          within statedWindow (ST_MaintenanceWindow s)) as ->.
  { destruct (ST_MaintenanceWindow s); [by apply wire_mapWindow, Hw|done]. }
  done.
Qed.

(** C21: the message made of a description sends exactly the fields the description
    gives, a flag that is false included, when it has no secondary zone, and its
    maintenance window has no kind and is not on the day 0. *)
Theorem MapToGcpDatabaseInstance_sends d :
  DBI_SecondaryGceZone d = "" →
  (∀ s w, DBI_Settings d = Some s → ST_MaintenanceWindow s = Some w → windowPassed w) →
  wire (MapToGcpDatabaseInstance d) = stated d.
Proof.
  intros Hz Hw. unfold wire, stated.
  cbn -[sendBool sendFlag sendString sendInt sendJson sendNames sendMappings within app].
  rewrite Hz. rewrite bool_decide_false by (by intros []).
  assert (within wireSettings (mapSettings <$> DBI_Settings d) =
          within statedSettings (DBI_Settings d)) as ->.
  { destruct (DBI_Settings d) as [s|]; [|done]. apply wire_mapSettings. intros w. by apply Hw. }
  assert (within wireReplica (mapFailoverReplica <$> DBI_FailoverReplica d) =
          within statedReplica (DBI_FailoverReplica d)) as ->.
  { destruct (DBI_FailoverReplica d); [apply wire_mapReplica|done]. }
  change (sendString "serviceAccountEmailAddress" "") with (@nil field).
  change (sendString "state" "") with (@nil field). by rewrite !app_nil_r.
Qed.

(** the secondary zone of a description is sent as the zone of the instance, and
    no secondary zone is sent: a zone that the description gives is lost. *)
Theorem MapToGcpDatabaseInstance_secondary d :
  DBI_SecondaryGceZone d ≠ "" →
  SI_GceZone (MapToGcpDatabaseInstance d) = DBI_SecondaryGceZone d ∧
  SI_SecondaryGceZone (MapToGcpDatabaseInstance d) = "" ∧
  ∀ zone, wire (MapToGcpDatabaseInstance d) =
          wire (MapToGcpDatabaseInstance {|
            DBI_ConnectionName := DBI_ConnectionName d; DBI_DatabaseVersion := DBI_DatabaseVersion d;
            DBI_DiskEncryptionConfiguration := DBI_DiskEncryptionConfiguration d;
            DBI_FailoverReplica := DBI_FailoverReplica d; DBI_GceZone := zone;
            DBI_InstanceType := DBI_InstanceType d; DBI_IpAddresses := DBI_IpAddresses d;
            DBI_Kind := DBI_Kind d; DBI_MaintenanceVersion := DBI_MaintenanceVersion d;
            DBI_MasterInstanceName := DBI_MasterInstanceName d; DBI_MaxDiskSize := DBI_MaxDiskSize d;
            DBI_Name := DBI_Name d; DBI_Project := DBI_Project d; DBI_Region := DBI_Region d;
            DBI_ReplicaNames := DBI_ReplicaNames d; DBI_RootPassword := DBI_RootPassword d;
            DBI_SecondaryGceZone := DBI_SecondaryGceZone d; DBI_SelfLink := DBI_SelfLink d;
            DBI_ServerCaCert := DBI_ServerCaCert d; DBI_Settings := DBI_Settings d |}).
Proof.
  intros Hz. unfold MapToGcpDatabaseInstance. cbn [SI_GceZone SI_SecondaryGceZone].
  rewrite bool_decide_true by done. split_and!; [done|done|]. intros zone.
  cbn [DBI_SecondaryGceZone]. by rewrite bool_decide_true by done.
Qed.

(** ** Updates

    The fields that an update compares: the path, the value that is wanted, if any, and
    the value that was found. *)
Abbreviation compared_field := (string * option json * json)%type.
Definition number (z : Z) : json := JNum (itoa z).
Definition labelsJson (m : option (gmap string string)) : json :=
  match m with
  | Some m => JObj (map (λ p, (p.1, JStr p.2)) (map_to_list m))
  | None => JNull
  end.
Definition comparedRetention (c f : BackupRetentionSettings) : list compared_field :=
  [("settings.backupConfiguration.backupRetentionSettings.retentionUnit",
    Some (JStr (BRS_RetentionUnit c)), JStr (BRS_RetentionUnit f));
   ("settings.backupConfiguration.backupRetentionSettings.retainedBackups",
    Some (number (BRS_RetainedBackups c)), number (BRS_RetainedBackups f))].
Definition within2 {A B} (g : A → B → list compared_field) (a : option A) (b : option B)
  : list compared_field :=
  match a, b with Some a, Some b => g a b | _, _ => [] end.
Definition comparedBackup (c : BackupConfiguration) (f : SqlBackupConfiguration)
  : list compared_field :=
  [("settings.backupConfiguration.enabled", JBool <$> BC_Enabled c, JBool (SBC_Enabled f));
   ("settings.backupConfiguration.pointInTimeRecoveryEnabled",
    JBool <$> BC_PointInTimeRecoveryEnabled c, JBool (SBC_PointInTimeRecoveryEnabled f))] ++
  within2 comparedRetention (BC_BackupRetentionSettings c) (SBC_BackupRetentionSettings f).
Definition comparedIp (c : IpConfiguration) (f : SqlIpConfiguration) : list compared_field :=
  [("settings.ipConfiguration.ipv4Enabled", JBool <$> IC_Ipv4Enabled c, JBool (SIC_Ipv4Enabled f))].
Definition comparedWindow (c : MaintenanceWindow) (f : SqlMaintenanceWindow)
  : list compared_field :=
  [("settings.maintenanceWindow.day", number <$> MW_Day c, number (SMW_Day f));
   ("settings.maintenanceWindow.hour", number <$> MW_Hour c, number (SMW_Hour f))].
Definition comparedSettings (c : Settings) (f : SqlSettings) : list compared_field :=
  [("settings.deletionProtectionEnabled", JBool <$> ST_DeletionProtectionEnabled c,
    JBool (SSet_DeletionProtectionEnabled f));
   ("settings.storageAutoResize", JBool <$> ST_StorageAutoResize c,
    JBool (flag (SSet_StorageAutoResize f)));
   ("settings.tier", Some (JStr (ST_Tier c)), JStr (SSet_Tier f));
   ("settings.availabilityType", Some (JStr (ST_AvailabilityType c)),
    JStr (SSet_AvailabilityType f));
   ("settings.storageAutoResizeLimit", Some (number (ST_StorageAutoResizeLimit c)),
    number (SSet_StorageAutoResizeLimit f));
   ("settings.dataDiskSizeGb", Some (number (ST_DataDiskSizeGb c)), number (SSet_DataDiskSizeGb f));
   ("settings.userLabels", Some (labelsJson (ST_UserLabels c)), labelsJson (SSet_UserLabels f))] ++
  within2 comparedBackup (ST_BackupConfiguration c) (SSet_BackupConfiguration f) ++
  within2 comparedIp (ST_IpConfiguration c) (SSet_IpConfiguration f) ++
  within2 comparedWindow (ST_MaintenanceWindow c) (SSet_MaintenanceWindow f).
Definition compared (c : Settings) (f : SqlSettings) (cfg : DatabaseInstance) (found : SqlInstance)
  : list compared_field :=
  comparedSettings c f ++
  [("databaseVersion", Some (JStr (DBI_DatabaseVersion cfg)), JStr (SI_DatabaseVersion found))].

(** The fields that are wanted and differ. *)
Definition changed (x : compared_field) : option field :=
  match x with
  | (path, Some v, cur) => if bool_decide (v = cur) then None else Some (path, v)
  | _ => None
  end.
Definition changes (l : list compared_field) : list field := omap changed l.
Lemma changes_app l1 l2 : changes (l1 ++ l2) = changes l1 ++ changes l2.
Proof. apply omap_app. Qed.
Lemma changes_cons x l : changes (x :: l) = changes [x] ++ changes l.
Proof. apply (omap_app _ [x]). Qed.

Lemma number_inj a b : number a = number b ↔ a = b.
Proof.
  unfold number, itoa. split; [|by intros ->]. intros [= H]. by apply (inj pretty) in H.
Qed.
Lemma labelsJson_inj a b : labelsJson a = labelsJson b ↔ a = b.
Proof.
  split; [|by intros ->]. destruct a as [a|], b as [b|]; cbn; [|done|done|done]. intros [= H].
  f_equal. apply map_to_list_inj. revert H. generalize (map_to_list a), (map_to_list b).
  intros l l' H. replace l' with l; [done|]. revert l' H.
  induction l as [|[k v] l IH]; intros [|[k' v'] l']; cbn; intros [=]; [done|].
  subst. f_equal. by apply IH.
Qed.
(** A part of an update: what it sends, and whether it changes anything. *)
Definition part (sent : list field) (changes : list field) (b : bool) : Prop :=
  sent = changes ∧ b = negb (bool_decide (changes = [])).
Lemma part_app s1 c1 b1 s2 c2 b2 :
  part s1 c1 b1 → part s2 c2 b2 → part (s1 ++ s2) (c1 ++ c2) (b1 || b2).
Proof. intros [-> ->] [-> ->]. split; [done|]. by destruct c1, c2. Qed.
Lemma part_flag F name path c f :
  (name ∈ F ↔ differs c f = true) →
  part (sendBool F name path (set (differs c f) (flag c) false))
    (changes [(path, JBool <$> c, JBool f)]) (differs c f).
Proof.
  intros HF. unfold part, sendBool, set, differs, changes in *. destruct c as [b|]; cbn in *.
  - destruct (decide (b = f)) as [->|Hb].
    + rewrite (bool_decide_false (f ≠ f)), (bool_decide_true (JBool f = JBool f)) in * by tauto.
      rewrite bool_decide_false; [done|]. intros ?%HF. done.
    + rewrite (bool_decide_true (b ≠ f)), (bool_decide_false (JBool b = JBool f)) in * by congruence.
      rewrite (bool_decide_true (name ∈ F)) by tauto. rewrite orb_true_r. done.
  - rewrite bool_decide_false; [done|]. intros ?%HF. done.
Qed.
Lemma part_string path c f :
  c ≠ "" → part (sendString path (set (bool_decide (c ≠ f)) c ""))
             (changes [(path, Some (JStr c), JStr f)]) (bool_decide (c ≠ f)).
Proof.
  intros Hc. unfold part, sendString, set, changes. cbn. destruct (decide (c = f)) as [->|Hf].
  - by rewrite (bool_decide_false (f ≠ f)), (bool_decide_true (JStr f = JStr f)) by tauto.
  - rewrite (bool_decide_true (c ≠ f)), (bool_decide_false (JStr c = JStr f)) by congruence.
    by rewrite bool_decide_false.
Qed.
Lemma part_int path c f :
  c ≠ 0%Z → part (sendInt path (set (bool_decide (c ≠ f)) c 0%Z))
              (changes [(path, Some (number c), number f)]) (bool_decide (c ≠ f)).
Proof.
  intros Hc. unfold part, sendInt, set, changes. cbn. destruct (decide (c = f)) as [->|Hf].
  - by rewrite (bool_decide_false (f ≠ f)), (bool_decide_true (number f = number f)) by tauto.
  - rewrite (bool_decide_true (c ≠ f)) by done. rewrite (bool_decide_false (number c = number f))
      by (by rewrite number_inj). by rewrite bool_decide_false.
Qed.
Lemma part_labels path c f :
  c ≠ Some ∅ → c ≠ None →
  part (sendLabels path (set (bool_decide (c ≠ f)) c None))
    (changes [(path, Some (labelsJson c), labelsJson f)]) (bool_decide (c ≠ f)).
Proof.
  intros Hc Hn. unfold part, set, changes. cbn. destruct (decide (c = f)) as [->|Hf].
  - by rewrite (bool_decide_false (f ≠ f)), (bool_decide_true (labelsJson f = _)) by tauto.
  - rewrite (bool_decide_true (c ≠ f)) by done. rewrite (bool_decide_false (labelsJson c = _))
      by (by rewrite labelsJson_inj). destruct c as [c|]; [|done]. cbn.
    by rewrite bool_decide_false by congruence.
Qed.

(** A flag compared through a pointer is sent through one. *)
Lemma part_resize c f :
  part (sendFlag "settings.storageAutoResize" (set (differs c f) c None))
    (changes [("settings.storageAutoResize", JBool <$> c, JBool f)]) (differs c f).
Proof.
  unfold part, set, differs, changes. destruct c as [b|]; cbn; [|done].
  destruct (decide (b = f)) as [->|Hb].
  - by rewrite (bool_decide_false (f ≠ f)), (bool_decide_true (JBool f = JBool f)) by tauto.
  - by rewrite (bool_decide_true (b ≠ f)), (bool_decide_false (JBool b = JBool f)) by congruence.
Qed.
Lemma part_day c f :
  c ≠ Some 0%Z →
  part (sendInt "settings.maintenanceWindow.day" (set (differs c f) (default 0%Z c) 0%Z))
    (changes [("settings.maintenanceWindow.day", number <$> c, number f)]) (differs c f).
Proof.
  intros Hc. unfold differs. destruct c as [z|]; cbn [default fmap option_fmap option_map].
  - apply part_int. congruence.
  - by unfold part, set, changes.
Qed.
Lemma part_hour F c f :
  ("Hour" ∈ F ↔ differs c f = true) →
  part (sendForcedInt F "Hour" "settings.maintenanceWindow.hour"
          (set (differs c f) (default 0%Z c) 0%Z))
    (changes [("settings.maintenanceWindow.hour", number <$> c, number f)]) (differs c f).
Proof.
  intros HF. unfold part, sendForcedInt, set, differs, changes in *.
  destruct c as [z|]; cbn in *.
  - destruct (decide (z = f)) as [->|Hz].
    + rewrite (bool_decide_false (f ≠ f)) in * by tauto.
      rewrite (bool_decide_true (number f = number f)) by done.
      rewrite (bool_decide_false ("Hour" ∈ F)); [done|]. intros ?%HF. done.
    + rewrite (bool_decide_true (z ≠ f)) in * by done.
      rewrite (bool_decide_false (number z = number f)) by (by rewrite number_inj).
      rewrite (bool_decide_true ("Hour" ∈ F)) by tauto. by rewrite andb_false_r.
  - rewrite (bool_decide_false ("Hour" ∈ F)); [done|]. intros ?%HF. done.
Qed.
Lemma part_nil : part [] [] false.
Proof. done. Qed.
Lemma part_nothing (sent : list field) (c : list field) b : part sent c b → part sent (c ++ []) (b || false).
Proof. rewrite app_nil_r, orb_false_r. done. Qed.

Lemma part_retention c f :
  BRS_RetentionUnit c ≠ "" → BRS_RetainedBackups c ≠ 0%Z →
  part (sendRetention (updateRetention c f).1) (changes (comparedRetention c f))
    (updateRetention c f).2.
Proof.
  intros Hu Hn. unfold comparedRetention. rewrite changes_cons.
  apply part_app; [by apply part_string|by apply part_int].
Qed.
Definition sendableBackup (c : BackupConfiguration) : Prop :=
  ∀ r, BC_BackupRetentionSettings c = Some r → BRS_RetentionUnit r ≠ "" ∧ BRS_RetainedBackups r ≠ 0%Z.
(** Fields that an update leaves alone. *)
Lemma send_off F name path : name ∉ F → sendBool F name path false = [].
Proof. intros HF. unfold sendBool. by rewrite bool_decide_false. Qed.
Lemma sendString_nil path : sendString path "" = [].
Proof. done. Qed.
Lemma sendInt_nil path : sendInt path 0 = [].
Proof. done. Qed.
Lemma sendJson_nil path : sendJson path None = [].
Proof. done. Qed.
Ltac forced_by :=
  repeat match goal with |- context [if differs ?a ?b then _ else _] =>
    destruct (differs a b) end; cbn; set_solver.
Ltac only_changed :=
  rewrite ?send_off by forced_by;
  rewrite ?sendString_nil, ?sendInt_nil, ?sendJson_nil, ?app_nil_l, ?app_nil_r;
  rewrite <- ?orb_assoc.
Lemma part_backup c f :
  sendableBackup c →
  part (wireBackup (updateBackup c f).1) (changes (comparedBackup c f)) (updateBackup c f).2.
Proof.
  intros Hc. unfold comparedBackup. rewrite changes_app, changes_cons, <- app_assoc.
  unfold wireBackup, updateBackup. cbv zeta.
  cbn -[sendBool sendString sendInt set within app changes comparedRetention].
  only_changed. apply part_app; [|apply part_app].
  - apply part_flag. forced_by.
  - apply part_flag. forced_by.
  - destruct (BC_BackupRetentionSettings c) as [r|] eqn:Er; [|apply part_nil].
    destruct (SBC_BackupRetentionSettings f) as [fr|]; [|apply part_nil].
    apply part_retention; by apply Hc.
Qed.
Lemma part_ip c f :
  part (wireIpConfiguration (updateIpConfiguration c f).1) (changes (comparedIp c f))
    (updateIpConfiguration c f).2.
Proof.
  unfold comparedIp, wireIpConfiguration, updateIpConfiguration. cbv zeta.
  cbn -[sendBool sendString sendJson set app changes]. only_changed.
  apply part_flag. forced_by.
Qed.
Lemma part_window c f :
  MW_Day c ≠ Some 0%Z →
  part (wireWindow (updateMaintenanceWindow c f).1) (changes (comparedWindow c f))
    (updateMaintenanceWindow c f).2.
Proof.
  intros Hd. unfold comparedWindow. rewrite changes_cons.
  unfold wireWindow, updateMaintenanceWindow. cbv zeta.
  cbn -[sendInt sendForcedInt sendString set app changes]. only_changed.
  apply part_app; [by apply part_day|]. apply part_hour. forced_by.
Qed.
Lemma part_both {A B C} (u : A → B → C * bool) (w : C → list field) g a b :
  (∀ x y, a = Some x → b = Some y → part (w (u x y).1) (changes (g x y)) (u x y).2) →
  part (within w (fst <$> both u a b)) (changes (within2 g a b)) (default false (snd <$> both u a b)).
Proof. intros Hp. destruct a as [x|], b as [y|]; [by apply Hp|apply part_nil..]. Qed.

(** A configuration of which every compared field can be sent. *)
Definition sendable (c : Settings) : Prop :=
  ST_Tier c ≠ "" ∧ ST_AvailabilityType c ≠ "" ∧ ST_StorageAutoResizeLimit c ≠ 0%Z ∧
  ST_DataDiskSizeGb c ≠ 0%Z ∧ ST_UserLabels c ≠ Some ∅ ∧ ST_UserLabels c ≠ None ∧
  (∀ b, ST_BackupConfiguration c = Some b → sendableBackup b) ∧
  (∀ w, ST_MaintenanceWindow c = Some w → MW_Day w ≠ Some 0%Z).
Lemma part_cons s1 x b1 s2 l c2 b2 :
  part s1 (changes [x]) b1 → part s2 (changes l ++ c2) b2 →
  part (s1 ++ s2) (changes (x :: l) ++ c2) (b1 || b2).
Proof. rewrite (changes_cons x l), <- app_assoc. apply part_app. Qed.
Lemma part_settings c f :
  sendable c →
  part (wireSettings (updateSettings c f).1) (changes (comparedSettings c f))
    (updateSettings c f).2.
Proof.
  intros (H1 & H2 & H3 & H4 & H5 & H6 & H7 & H8). unfold comparedSettings.
  rewrite !changes_app.
  unfold wireSettings, updateSettings. cbv zeta.
  cbn -[sendBool sendFlag sendString sendInt sendJson sendLabels set both within within2 app changes
        differs updateBackup updateIpConfiguration updateMaintenanceWindow labelsJson].
  only_changed.
  apply part_cons; [apply part_flag; forced_by|]. apply part_cons; [apply part_resize|].
  do 2 (apply part_cons; [by apply part_string|]).
  do 2 (apply part_cons; [by apply part_int|]).
  apply part_cons; [by apply part_labels|].
  change (changes []) with (@nil field). rewrite app_nil_l. repeat apply part_app.
  - apply part_both. intros x y Hx _. by apply part_backup, H7.
  - apply part_both. intros x y _ _. apply part_ip.
  - apply part_both. intros x y Hx _. by apply part_window, H8.
Qed.

(** The update of a configuration whose fields can be sent. *)
Lemma build_sends c f cfg found :
  DBI_Settings cfg = Some c → SI_Settings found = Some f → sendable c → DBI_DatabaseVersion cfg ≠ "" →
  updateDereferences (Some c) (Some f) = false →
  match buildCloudSQLUpdateStrategy (E := error) cfg found with
  | Val None => changes (compared c f cfg found) = []
  | Val (Some m) => wire m = changes (compared c f cfg found) ∧ wire m ≠ []
  | _ => False
  end.
Proof.
  intros Hc Hf Hs Hv Hd. unfold buildCloudSQLUpdateStrategy. rewrite Hc, Hf, Hd.
  pose proof (part_settings c f Hs) as Hp. destruct (updateSettings c f) as [settings b].
  cbn [fst snd] in Hp. cbv zeta.
  pose proof (part_app _ _ _ _ _ _ Hp
    (part_string "databaseVersion" _ (SI_DatabaseVersion found) Hv)) as [H1 H2].
  unfold compared. rewrite changes_app.
  destruct (b || _).
  - split.
    + rewrite <- H1. cbn -[sendString wireSettings]. only_changed. done.
    + intros Hw. symmetry in H2. rewrite negb_true_iff, bool_decide_eq_false in H2. apply H2.
      rewrite <- H1. rewrite <- Hw. cbn -[sendString wireSettings]. only_changed. done.
  - symmetry in H2. by rewrite negb_false_iff, bool_decide_eq_true in H2.
Qed.

Lemma completeSettings_sendable tags a s :
  tags ≠ ∅ → (∀ w, ST_MaintenanceWindow s = Some w → MW_Day w ≠ Some 0%Z) →
  sendable (completeSettings tags a s).
Proof.
  intros Ht Hw.
  assert (∀ x d, d ≠ "" → orString x d ≠ "") as Hs.
  { intros x d Hd. unfold orString. by case_bool_decide. }
  assert (∀ x d, d ≠ 0%Z → orZero x d ≠ 0%Z) as Hz.
  { intros x d Hd. unfold orZero. by case_bool_decide. }
  unfold sendable. cbn. split_and!; try (by apply Hs); try (by apply Hz); try done.
  - intros [= Hu]. apply map_positive_l in Hu. done.
  - intros b [= <-] r [= <-]. split; [by apply Hs|by apply Hz].
Qed.

(** The settings that are found have the parts that are read through pointers. *)
Definition readable (s : Settings) (f : SqlSettings) : Prop :=
  SSet_BackupConfiguration f ≠ None ∧
  (ST_StorageAutoResize s ≠ None → SSet_StorageAutoResize f ≠ None).
Lemma readable_dereferences tags a s f :
  readable s f → updateDereferences (Some (completeSettings tags a s)) (Some f) = false.
Proof.
  intros [H1 H2]. cbn. destruct (SSet_BackupConfiguration f); [|done]. cbn.
  destruct (ST_StorageAutoResize s); [|done]. destruct (SSet_StorageAutoResize f); [done|].
  by destruct H2.
Qed.
(** A field that has the value that is wanted of it. *)
Definition settled (x : compared_field) : compared_field :=
  (x.1, match x.1.2 with Some v => v | None => x.2 end).
Lemma changes_settled l : changes (map settled l) = [].
Proof.
  induction l as [|[[path [v|]] cur] l IH]; [done|..]; cbn in *.
  - by rewrite bool_decide_true.
  - exact IH.
Qed.

