(* ===== verification/GcpRedisProps.v ===== *)
(** * Memorystore: properties

    When the network and an instance are created, what an update asks for, in which
    order things are deleted, and what the controller writes. *)
From S2P Require Import Prelude Effects GoNet NetFacts GoStrings GoUrl Json GcpApi Api Resources.
From S2P Require Import Metrics AwsConfig AwsPostgres AwsRedis Controllers Footprints.
From S2P Require Import AwsPostgresProps ControllerProps ControllerAws.
From S2P Require Import GcpConfig GcpNetwork GcpRedis GcpNetworkProps.
Local Open Scope go_scope.

(** ** Which calls the parts make *)

(** Everything but the changes made in Google Cloud and to the resource. *)
Definition offCloud (c : call) : Prop :=
  match (c : api_call) with
  | Gcp g => gcp_reads g = true
  | UpdateCR _ | CreateCR _ | StatusUpdateCR _ => False
  | _ => True
  end.
Lemma offCloud_reads : reads_ok offCloud.
Proof. intros c. by destruct c. Qed.
#[export] Hint Resolve offCloud_reads : sat.
#[export] Hint Extern 1 (offCloud _) => exact I : sat.
Lemma credentialCall_offCloud c : credentialCall c → offCloud c.
Proof. by destruct c. Qed.
Lemma metricCall_offCloud c : metricCall c → offCloud c.
Proof. by destruct c; intros []. Qed.
(** Everything but the changes made in Google Cloud. *)
Definition cloudQuiet (c : call) : Prop :=
  match (c : api_call) with Gcp g => gcp_reads g = true | _ => True end.
Lemma cloudQuiet_reads : reads_ok cloudQuiet.
Proof. intros c. by destruct c. Qed.
#[export] Hint Resolve cloudQuiet_reads : sat.
#[export] Hint Extern 1 (cloudQuiet _) => exact I : sat.
Lemma offCloud_quiet c : offCloud c → cloudQuiet c.
Proof. by destruct c. Qed.
Lemma quiet_except f c :
  (∀ g, gcp_reads g = true → f g = false) → cloudQuiet c → except f c.
Proof. intros Hf. destruct c; try done. apply Hf. Qed.

Section Parts.
Context {S : Type} `{GcpTypes}.

Lemma cc_ReconcileGcpCredentials m ns :
  sat credentialCall eq (ReconcileProviderCredentials (S := S) m ns).
Proof.
  unfold ReconcileProviderCredentials, ReconcileCredentials, reconcileCredentialRequest,
    reconcileGCPCredentials. go_sat.
  - apply cc_applyCredentialRequest.
  - apply readonly_sat; [apply _|apply credentialCall_reads|apply ro_awaitCredentialRequest].
Qed.
Lemma oc_ReconcileProviderCredentials m ns :
  sat offCloud eq (ReconcileProviderCredentials (S := S) m ns).
Proof. eapply sat_weaken; [apply cc_ReconcileGcpCredentials|apply credentialCall_offCloud]. Qed.
Lemma oc_exposeRedisInstanceMetrics {E} r i :
  sat offCloud eq (exposeRedisInstanceMetrics (S := S) (E := E) r i).
Proof.
  eapply sat_weaken; [|apply metricCall_offCloud].
  unfold exposeRedisInstanceMetrics, GetClusterID, GetClusterInfrastructure. go_sat.
Qed.
Lemma oc_setRedisDeletionTimestampMetric {E} r :
  sat offCloud eq (setRedisDeletionTimestampMetric (S := S) (E := E) r).
Proof.
  eapply sat_weaken; [|apply metricCall_offCloud].
  unfold setRedisDeletionTimestampMetric, GetClusterID, GetClusterInfrastructure. go_sat.
Qed.
Lemma ro_buildCreateInstanceRequest r cfg a :
  readonly (buildCreateInstanceRequest (S := S) r cfg a).
Proof.
  unfold buildCreateInstanceRequest, buildDefaultRedisTags, BuildInfraNameFromObject,
    GetClusterID, GetClusterInfrastructure. go_sat.
Qed.
Lemma ro_getInstance msg name : readonly (getInstance (S := S) msg name).
Proof. unfold getInstance. go_sat. Qed.
End Parts.
#[export] Hint Resolve oc_ReconcileProviderCredentials oc_exposeRedisInstanceMetrics
  oc_setRedisDeletionTimestampMetric ro_buildCreateInstanceRequest ro_getInstance : sat.

(** ** Creating *)

Section Create.
Context `{GcpTypes} (p : RedisProvider) (n : GcpNetwork.NetworkProvider).
Implicit Types (cfg : StrategyConfig) (i : RedisInstance).

Lemma ex_annotate f id :
  sat (except f) anyCR (annotateFound id) ∧ sat (except f) anyCR (annotateCreated id).
Proof. split; [unfold annotateFound|unfold annotateCreated]; go_sat. Qed.
Lemma ex_annotateFound f id : sat (except f) anyCR (annotateFound id).
Proof. apply ex_annotate. Qed.
Lemma ex_annotateCreated f id : sat (except f) anyCR (annotateCreated id).
Proof. apply ex_annotate. Qed.
Hint Resolve ex_annotateFound ex_annotateCreated : sat.

(** Not a call that is made on an instance. *)
Definition instanceCall (g : gcp_call) : bool :=
  match g with
  | CreateRedisInstance _ | UpdateRedisInstance _ _ | UpgradeRedisInstance _ _
  | DeleteRedisInstance _ => true
  | _ => false
  end.
(** Only instances are changed once the network is there. *)
Lemma ex_ensureInstance f cfg a :
  (∀ g, gcp_reads g = true → f g = false) → (∀ g, instanceCall g = true → f g = false) →
  sat (except f) anyCR (ensureInstance cfg a).
Proof.
  intros Hr Hi. assert (reads_ok (except f)) by by apply except_reads.
  assert (∀ g, instanceCall g = true → except f (Gcp g)) as He by exact Hi.
  unfold ensureInstance, reconcileInstance, reconcileReadyInstance. go_sat;
    try (by apply He). 
  eapply sat_weaken; [apply sat_eq; [apply _|apply oc_exposeRedisInstanceMetrics]|].
  intros c Hc. by apply quiet_except, offCloud_quiet.
Qed.

(** C24: while a Redis is created, an address range is asked for only when there is
    none of its name: a block of at least a /22 that shares no address with any of
    the subnetworks of the cluster's network, all of which were read; and a service
    connection only when the network has none and the address range is reserved. *)
Theorem createRedisInstance_network cfg o0 tr o s' :
  runs (createRedisInstance p n cfg o0) tr (o, s') →
  (∀ project a r, Ev (Gcp (InsertGlobalAddress project a)) r ∈ tr →
     ∃ block, rangeAsked n block project a tr) ∧
  (∀ parent network ranges r, Ev (Gcp (ConnectionsCreate parent network ranges)) r ∈ tr →
     serviceAsked n parent network ranges tr).
Proof.
  intros Hr0. split.
  - intros project a r He. pose proof Hr0 as Hr. unfold createRedisInstance in Hr.
    apply runs_bind_get in Hr.
    skip_reads Hr He blk H1. apply runs_onErr_Val, gcp_network_config_block in H1.
    eapply (runs_bind_first (except isInsert) anyCR) in Hr as (t' & o1 & s1 & Hsub & Hr & He');
      [|exact He| |done].
    + exists blk. eapply rangeAsked_incl; [by eapply CreateNetworkIpRange_asks|].
      intros x Hx. apply elem_of_app. right. by apply Hsub.
    + intros [a' msg]. case_bool_decide; [apply sat_mret, _|].
      apply sat_bind; [apply _|unfold CreateNetworkService, createMissingService,
        createServiceConnection; go_sat|].
      intros [c msg']. case_bool_decide; [apply sat_mret, _|].
      apply ex_ensureInstance; by intros [].
  - intros parent network ranges r He. pose proof Hr0 as Hr. unfold createRedisInstance in Hr.
    apply runs_bind_get in Hr. skip_reads Hr He blk H1. clear H1.
    eapply (runs_bind_split (except isConnect) eq) in Hr
      as (t1 & [a' msg] & s1 & t2 & -> & _ & <- & Hr & He1); [|exact He| |done].
    2: { unfold CreateNetworkIpRange, createAddressRange, addressClient_Insert. go_sat. }
    case_bool_decide; [apply runs_mret in Hr as (-> & _); by apply not_elem_of_nil in He1|].
    eapply (runs_bind_first (except isConnect) anyCR) in Hr as (t' & o1 & s1 & Hsub & Hr & He');
      [|exact He1| |done].
    + eapply serviceAsked_incl; [by eapply CreateNetworkService_asks|].
      intros x Hx. apply Hsub in Hx. ev_in.
    + intros [c msg']. case_bool_decide; [apply sat_mret, _|].
      apply ex_ensureInstance; by intros [].
Qed.

(** The instance of a request is that of the strategy, completed: it is attached
    to the network of the address range and labelled with the default tags. *)
Definition configured (r : CR) cfg (a : option Address) (req : CreateRedisInstanceRequest) i : Prop :=
  ∃ raw given tags network size,
    Strategy_CreateStrategy cfg = Some raw ∧ decodeCreateRedisInstanceRequest raw = Ok given ∧
    splitSecond "v1/" (StringValue (a ≫= Address_Network)) = Some network ∧
    specSize (Spec_Size (CR_Spec r)) = Ok size ∧ CRI_Instance req = Some i ∧
    let def := defaultInstance (redisInstanceName (Strategy_ProjectID cfg) (Strategy_Region cfg)
                 (CRI_InstanceId req)) network (StringValue (a ≫= Address_Name)) size tags in
    i = match CRI_Instance given with None => def | Some g => completeInstance tags def g end.

Lemma buildCreateInstanceRequest_Val {S} r cfg a (s : S) tr req s' :
  runs (buildCreateInstanceRequest r cfg a s) tr (Val req, s') → ∃ i, configured r cfg a req i.
Proof.
  intros Hr. unfold buildCreateInstanceRequest in Hr.
  apply runs_bind_Val in Hr as (t1 & given & s1 & t2 & -> & H1 & Hr).
  apply runs_onErr_Val, runs_liftR_Val in H1 as (_ & H1 & _).
  destruct (Strategy_CreateStrategy cfg) as [raw|] eqn:Er; [|done].
  apply runs_bind_Val in Hr as (t3 & id & s3 & t4 & -> & _ & Hr).
  apply runs_bind_Val in Hr as (t5 & tags & s5 & t6 & -> & _ & Hr).
  apply runs_bind_Val in Hr as (t7 & network & s7 & t8 & -> & H2 & Hr).
  apply runs_lift_Val in H2 as (_ & H2 & _).
  destruct (splitSecond _ _) as [nw|] eqn:En; [|done]. injection H2 as <-.
  apply runs_bind_Val in Hr as (t9 & size & s9 & t10 & -> & H3 & Hr).
  apply runs_onErr_Val, runs_liftR_Val in H3 as (_ & H3 & _).
  apply runs_mret_Val in Hr as (_ & <- & _).
  eexists. exists raw, given, tags, nw, size. split_and!; done.
Qed.

Lemma getInstance_Val {S} msg name (s : S) tr found s' :
  runs (getInstance msg name s) tr (Val found, s') →
  match found with
  | Some i => Ev (Gcp (GetRedisInstance name)) (Ok i) ∈ tr
  | None => ∃ e, Ev (Gcp (GetRedisInstance name)) (Er e) ∈ tr ∧ IsNotFoundError e = true
  end.
Proof.
  intros Hr. unfold getInstance in Hr. inv_call Hr. destruct Hr as (x & t & -> & Hr).
  destruct x as [x|e]; [apply runs_mret_Val in Hr as (_ & <- & _); ev_in|].
  destruct (IsNotFoundError e) eqn:Ee; [|by apply runs_fail_Val in Hr].
  apply runs_mret_Val in Hr as (_ & <- & _). exists e. split; [ev_in|done].
Qed.

(** What is known when the request for an instance is built. *)
Lemma createRedisInstance_ready cfg o0 tr o s' e :
  runs (createRedisInstance p n cfg o0) tr (o, s') → e ∈ tr →
  ¬ except instanceCall (ev_call e) →
  ∃ infra a t1 t2, t1 ⊆ tr ∧ t2 ⊆ tr ∧ addressSeen n (rangeName infra) (Some a) t1 ∧
    serviceReady n t1 ∧ runs (ensureInstance cfg (Some a) o0) t2 (o, s') ∧ e ∈ t2.
Proof.
  intros Hr He Hx. unfold createRedisInstance in Hr. apply runs_bind_get in Hr.
  eapply (runs_bind_split (except instanceCall) eq) in Hr
    as (t0 & blk & s0 & t1 & -> & _ & <- & Hr & He1); [|exact He| |exact Hx].
  2: go_sat.
  eapply (runs_bind_skip (except instanceCall) eq) in Hr
    as (t2 & [a msg] & s1 & t3 & -> & H1 & <- & Hr & He2); [|exact He1| |exact Hx].
  2: { unfold CreateNetworkIpRange, createAddressRange, addressClient_Insert. go_sat. }
  case_bool_decide as Hm; [apply runs_mret in Hr as (-> & _); by apply not_elem_of_nil in He2|].
  subst msg.
  apply CreateNetworkIpRange_Val in H1 as (infra & x & _ & -> & H1).
  eapply (runs_bind_skip (except instanceCall) eq) in Hr
    as (t4 & [c msg] & s1 & t5 & -> & H2 & <- & Hr & He3); [|exact He2| |exact Hx].
  2: { unfold CreateNetworkService, createMissingService, createServiceConnection. go_sat. }
  case_bool_decide as Hm; [apply runs_mret in Hr as (-> & _); by apply not_elem_of_nil in He3|].
  subst msg. apply CreateNetworkService_Val in H2.
  exists infra, x, (t2 ++ t4), t5. split_and!; try done.
  - intros y Hy. apply elem_of_app in Hy as [Hy|Hy]; ev_in.
  - intros y Hy. ev_in.
  - eapply addressSeen_incl; [exact H1|]. intros y Hy. ev_in.
  - eapply serviceReady_incl; [exact H2|]. intros y Hy. ev_in.
Qed.

(** an instance is asked for only when it was not found, its address range
    exists and the service connection is there or, at least, was not being made;
    and what is asked for is the instance of the strategy, completed. *)
Theorem createRedisInstance_creates cfg o0 tr o s' req r :
  runs (createRedisInstance p n cfg o0) tr (o, s') →
  Ev (Gcp (CreateRedisInstance req)) r ∈ tr →
  ∃ infra a i e, addressSeen n (rangeName infra) (Some a) tr ∧ serviceReady n tr ∧
    configured o0 cfg (Some a) req i ∧
    Ev (Gcp (GetRedisInstance (RI_Name i))) (Er e) ∈ tr ∧ IsNotFoundError e = true.
Proof.
  intros Hr He.
  eapply createRedisInstance_ready in Hr as (infra & a & t1 & t2 & Ht1 & Ht2 & Ha & Hs & Hr & He2);
    [|exact He|done].
  unfold ensureInstance in Hr. apply runs_bind_get in Hr.
  skip_reads Hr He2 rq H1. apply runs_onErr_Val, buildCreateInstanceRequest_Val in H1 as (i & Hi).
  skip_reads Hr He2 i' H2. apply runs_deref_Val in H2 as (-> & H2 & _).
  assert (i' = i) as ->.
  { destruct Hi as (? & ? & ? & ? & ? & _ & _ & _ & _ & Hi & _). congruence. }
  skip_reads Hr He2 found H3. apply getInstance_Val in H3.
  eapply (runs_defer_skip offCloud eq) in Hr as (t3 & o1 & s1 & Hsub & Hr & He3);
    [|exact He2|go_sat|by intros [=]].
  destruct found as [found|].
  { exfalso. refine (_ (sat_no_event (except (λ g, match g with CreateRedisInstance _ => true
      | _ => false end)) anyCR _ _ _ _ _ _ Hr He3 _)); [done|].
    unfold reconcileInstance, reconcileReadyInstance. go_sat. }
  unfold reconcileInstance in Hr.
  eapply (runs_bind_first (except instanceCall) anyCR) in Hr as (t4 & o2 & s2 & _ & Hr & He4);
    [|exact He3|intros; go_sat|done].
  eapply (sat_no_event (only [CreateRedisInstance rq]) eq) in Hr; [|exact He4|go_sat].
  apply list_elem_of_singleton in Hr as [= ->].
  destruct H3 as (e & H3 & Hnf). exists infra, a, i, e. split_and!; [| |done| |done].
  - by eapply addressSeen_incl.
  - by eapply serviceReady_incl.
  - apply Ht2. ev_in.
Qed.
End Create.

(** ** The size of an instance *)

Definition int32 (z : Z) : Prop := (- 2 ^ 31 ≤ z < 2 ^ 31)%Z.
Lemma wrap32_spec z : int32 (wrap32 z) ∧ (∃ k, wrap32 z = z + k * 2 ^ 32)%Z ∧ (wrap32 z = z ↔ int32 z).
Proof.
  unfold wrap32, int32. pose proof (Z.mod_pos_bound (z + 2 ^ 31) (2 ^ 32) ltac:(lia)) as B.
  pose proof (Z.div_mod (z + 2 ^ 31) (2 ^ 32) ltac:(lia)) as D.
  split; [lia|]. split; [exists (- ((z + 2 ^ 31) / 2 ^ 32))%Z; lia|]. split; [lia|].
  intros Hz. rewrite Z.mod_small; lia.
Qed.

Section Size.
Context `{GcpTypes}.
End Size.

(** ** Updates *)

Section Update.
Context `{GcpTypes}.
Implicit Types (i config found : RedisInstance).

(** The fields of [found] that a mask names, replaced by those of [i]. *)
Definition applyUpdate i (mask : list string) found : RedisInstance := {|
  RI_Name := RI_Name found;
  RI_Labels := if bool_decide ("labels" ∈ mask) then RI_Labels i else RI_Labels found;
  RI_Tier := RI_Tier found; RI_ReadReplicasMode := RI_ReadReplicasMode found;
  RI_MemorySizeGb := if bool_decide ("memory_size_gb" ∈ mask)
                     then RI_MemorySizeGb i else RI_MemorySizeGb found;
  RI_AuthorizedNetwork := RI_AuthorizedNetwork found; RI_ConnectMode := RI_ConnectMode found;
  RI_ReservedIpRange := RI_ReservedIpRange found; RI_RedisVersion := RI_RedisVersion found;
  RI_RedisConfigs := if bool_decide ("redis_configs" ∈ mask)
                     then RI_RedisConfigs i else RI_RedisConfigs found;
  RI_MaintenancePolicy := if bool_decide ("maintenance_policy" ∈ mask)
                          then RI_MaintenancePolicy i else RI_MaintenancePolicy found;
  RI_State := RI_State found; RI_Host := RI_Host found; RI_Port := RI_Port found;
  RI_Other := RI_Other found |}.

Lemma buildUpdate_settled {E} config found :
  RI_MemorySizeGb found = RI_MemorySizeGb config → RI_Labels found = RI_Labels config →
  RI_RedisConfigs found = RI_RedisConfigs config →
  RI_MaintenancePolicy found = None → RI_MaintenancePolicy config = None →
  buildUpdateInstanceRequest (E := E) config found = Val None.
Proof.
  intros H1 H2 H3 H4 H5. unfold buildUpdateInstanceRequest.
  rewrite H1, H2, H3, H4, H5. by rewrite !bool_decide_false by (intros Hn; by apply Hn).
Qed.

(** an update names the instance that was found and exactly the fields in
    which it differs from the configuration, and it converges: once it is applied,
    nothing is left to update.  Nothing is asked for when nothing differs. *)
Theorem redis_update_converges config found :
  RI_MaintenancePolicy config = None →
  match buildUpdateInstanceRequest (E := error) config found with
  | Val None => RI_MemorySizeGb found = RI_MemorySizeGb config ∧ RI_Labels found = RI_Labels config ∧
                RI_RedisConfigs found = RI_RedisConfigs config ∧ RI_MaintenancePolicy found = None
  | Val (Some (i, mask)) =>
      RI_Name i = RI_Name found ∧
      ("memory_size_gb" ∈ mask ↔ RI_MemorySizeGb found ≠ RI_MemorySizeGb config) ∧
      ("labels" ∈ mask ↔ RI_Labels found ≠ RI_Labels config) ∧
      ("redis_configs" ∈ mask ↔ RI_RedisConfigs found ≠ RI_RedisConfigs config) ∧
      ("maintenance_policy" ∈ mask ↔ RI_MaintenancePolicy found ≠ None) ∧
      buildUpdateInstanceRequest (E := error) config (applyUpdate i mask found) = Val None
  | _ => False
  end.
Proof.
  intros Hp. unfold buildUpdateInstanceRequest at 1. rewrite Hp.
  assert (isMaintenancePolicyOutdated (E := error) (RI_MaintenancePolicy found) None =
          Val (bool_decide (is_Some (RI_MaintenancePolicy found)), None)) as ->.
  { by destruct (RI_MaintenancePolicy found). }
  cbn [mbind outcome_bind].
  set (size := bool_decide (RI_MemorySizeGb found ≠ _)).
  set (labels := bool_decide (RI_Labels found ≠ _)).
  set (configs := bool_decide (RI_RedisConfigs found ≠ _)).
  set (policy := bool_decide (is_Some _)).
  set (mask := (if size then _ else _) ++ _).
  assert ("memory_size_gb" ∈ mask ↔ size = true) as M1
    by (unfold mask; destruct size, labels, configs, policy; cbn; set_solver).
  assert ("labels" ∈ mask ↔ labels = true) as M2
    by (unfold mask; destruct size, labels, configs, policy; cbn; set_solver).
  assert ("redis_configs" ∈ mask ↔ configs = true) as M3
    by (unfold mask; destruct size, labels, configs, policy; cbn; set_solver).
  assert ("maintenance_policy" ∈ mask ↔ policy = true) as M4
    by (unfold mask; destruct size, labels, configs, policy; cbn; set_solver).
  clearbody mask.
  assert (policy = true ↔ RI_MaintenancePolicy found ≠ None) as Hpol.
  { unfold policy. rewrite bool_decide_eq_true. destruct (RI_MaintenancePolicy found); split; try done; intros _; by eexists. }
  unfold size, labels, configs in *. rewrite ?bool_decide_eq_true in M1, M2, M3.
  rewrite Hpol in M4.
  assert (∀ field, field ∉ @nil string) as Hnil by (intros ?; apply not_elem_of_nil).
  destruct mask as [|field mask'] eqn:Em.
  - split_and!.
    + apply dec_stable. intros Hd. by apply M1, Hnil in Hd.
    + apply dec_stable. intros Hd. by apply M2, Hnil in Hd.
    + apply dec_stable. intros Hd. by apply M3, Hnil in Hd.
    + destruct (RI_MaintenancePolicy found); [|done]. exfalso. by eapply Hnil, M4.
  - rewrite <- Em in *. clear Em Hnil. split_and!; try done. apply buildUpdate_settled; cbn; try done.
    + rewrite (bool_decide_ext _ _ M1). by case_bool_decide.
    + rewrite (bool_decide_ext _ _ M2). by case_bool_decide.
    + rewrite (bool_decide_ext _ _ M3). by case_bool_decide.
    + destruct (RI_MaintenancePolicy found) as [q|] eqn:Eq.
      * rewrite bool_decide_true by (by apply M4). by destruct policy.
      * rewrite bool_decide_false; [done|]. intros Hin. by apply M4 in Hin.
Qed.
End Update.

(** ** Deleting *)

Section Delete.
Context `{GcpTypes} (n : GcpNetwork.NetworkProvider).
Implicit Types (cfg : StrategyConfig).

Lemma ex_deleteParts f :
  (∀ g, gcp_reads g = true → f g = false) → f OperationWait = false →
  ((∀ a b c, f (RemovePeering a b c) = false) →
     sat (except f) eq (DeleteNetworkPeering (S := CR) n)) ∧
  ((∀ a b, f (ConnectionsDelete a b) = false) →
     sat (except f) eq (DeleteNetworkService (S := CR) n)) ∧
  ((∀ a b, f (DeleteGlobalAddress a b) = false) →
     sat (except f) eq (DeleteNetworkIpRange (S := CR) n)).
Proof.
  intros Hr Hw. assert (reads_ok (except f)) by by apply except_reads.
  assert (except f (Gcp OperationWait)) by exact Hw.
  split_and!; intros Hf.
  - assert (∀ a b c, except f (Gcp (RemovePeering a b c))) by exact Hf.
    unfold DeleteNetworkPeering, deletePeeringConnection, networksClient_RemovePeering. go_sat.
  - assert (∀ a b, except f (Gcp (ConnectionsDelete a b))) by exact Hf.
    unfold DeleteNetworkService, deleteServiceConnection. go_sat.
  - assert (∀ a b, except f (Gcp (DeleteGlobalAddress a b))) by exact Hf.
    unfold DeleteNetworkIpRange, deleteAddressRange, addressClient_Delete. go_sat.
Qed.

Definition componentCall (g : gcp_call) : bool :=
  isRemovePeering g || isDisconnect g || isDeleteAddress g.

(** The instance was not found before a call on the network components, nor before
    the resource is written. *)
Lemma deleteRedisInstance_before cfg last o0 o s' t1 e t2 :
  runs (deleteRedisInstance n cfg last o0) (t1 ++ e :: t2) (o, s') →
  ¬ except componentCall (ev_call e) ∨ ¬ offCloud (ev_call e) ∧ cloudQuiet (ev_call e) →
  ∃ name err t0 t, t1 = t0 ++ t ∧ buildDeleteInstanceRequest o0 cfg = Ok name ∧
    Ev (Gcp (GetRedisInstance name)) (Er err) ∈ t0 ∧ IsNotFoundError err = true ∧
    runs ((remaining ← (if last then deleteLastComponents n else mret None);
           match remaining with
           | Some msg => mret msg
           | None =>
               _ ← dropFinalizer ("failed to update instance " +:+ Meta_Name (CR_Meta o0) +:+
                                  " as part of finalizer reconcile");
               mret ("successfully deleted gcp redis instance " +:+ name)
           end) o0) (t ++ e :: t2) (o, s').
Proof.
  intros Hr He. assert (¬ reads (ev_call e) = true) as Hx.
  { intros Hread. destruct He as [He|[He _]]; apply He; [|by apply offCloud_reads].
    revert Hread. apply except_reads. by intros []. }
  unfold deleteRedisInstance in Hr. apply runs_bind_get in Hr.
  before (λ c : call, reads c = true) Hr Hx name Hn.
  apply runs_onErr_Val, runs_liftR_Val in Hn as (-> & Hn & _). cbn [app] in *.
  before (λ c : call, reads c = true) Hr Hx found Hf.
  apply getInstance_Val in Hf. destruct found as [found|].
  2: { destruct Hf as (err & Hf & Hnf). eexists name, err, _, _.
       split_and!; [reflexivity|done|exact Hf|done|exact Hr]. }
  exfalso.
  assert (∀ l : list event, e ∈ l ++ e :: t2) as Hin.
  { intros l. apply elem_of_app. right. apply list_elem_of_here. }
  destruct He as [He|[He1 He2]].
  - apply He. refine (sat_no_event (except componentCall) anyCR _ _ _ _ _ _ Hr (Hin _) _).
    go_sat. eapply sat_weaken; [apply sat_eq; [apply _|apply oc_exposeRedisInstanceMetrics]|].
    intros c Hc. apply quiet_except, offCloud_quiet; [|done]. by intros [].
  - set (P := λ c : call, offCloud c ∨ ¬ cloudQuiet c).
    assert (P (ev_call e)) as [|]; [|done..].
    refine (sat_no_event P anyCR _ _ _ _ _ _ Hr (Hin _) _). unfold P. go_sat.
    + eapply sat_weaken; [apply sat_eq; [apply _|apply oc_exposeRedisInstanceMetrics]|]. by left.
    + right. by intros [=].
Qed.

(** The peering, or the service connection, is gone before what follows. *)
Lemma deletePeering_before {A} (f : gcp_call → bool) (k : () → M CR (string * error) A) msg
    o0 t1 g r t2 o s' :
  runs ((DeleteNetworkPeering n onError (wrapBoth msg) ≫= k) o0) (t1 ++ Ev (Gcp g) r :: t2) (o, s') →
  (∀ g, gcp_reads g = true → f g = false) → f OperationWait = false →
  (∀ a b c, f (RemovePeering a b c) = false) → f g = true →
  ∃ ta t, t1 = ta ++ t ∧ peeringGone n ta ∧ runs (k tt o0) (t ++ Ev (Gcp g) r :: t2) (o, s').
Proof.
  intros Hr Hf Hw Hp Hg. assert (¬ except f (ev_call (Ev (Gcp g) r))) as Hx by (cbn; congruence).
  pose proof (proj1 (ex_deleteParts f Hf Hw) Hp) as Hsat.
  before (except f) Hr Hx u Hu. destruct u. apply runs_onErr_Val, DeleteNetworkPeering_Val in Hu.
  by eexists _, _.
Qed.
Lemma deleteService_before {A} (f : gcp_call → bool) (k : () → M CR (string * error) A) msg
    o0 t1 g r t2 o s' :
  runs ((DeleteNetworkService n onError (wrapBoth msg) ≫= k) o0) (t1 ++ Ev (Gcp g) r :: t2) (o, s') →
  (∀ g, gcp_reads g = true → f g = false) → f OperationWait = false →
  (∀ a b, f (ConnectionsDelete a b) = false) → f g = true →
  ∃ ta t, t1 = ta ++ t ∧ serviceGone n ta ∧ runs (k tt o0) (t ++ Ev (Gcp g) r :: t2) (o, s').
Proof.
  intros Hr Hf Hw Hp Hg. assert (¬ except f (ev_call (Ev (Gcp g) r))) as Hx by (cbn; congruence).
  pose proof (proj1 (proj2 (ex_deleteParts f Hf Hw)) Hp) as Hsat.
  before (except f) Hr Hx u Hu. destruct u. apply runs_onErr_Val, DeleteNetworkService_Val in Hu.
  by eexists _, _.
Qed.

(** C34: the network components are only removed for the last resource, when its
    instance was not found, and in order: the service connection is deleted after
    the peering is gone, and the address range after both, when it is not that of
    a service connection any more. *)
Theorem deleteRedisInstance_ordered cfg last o0 tr o s' t1 g r t2 :
  runs (deleteRedisInstance n cfg last o0) tr (o, s') → tr = t1 ++ Ev (Gcp g) r :: t2 →
  (componentCall g = true →
     last = true ∧ ∃ name err, buildDeleteInstanceRequest o0 cfg = Ok name ∧
       Ev (Gcp (GetRedisInstance name)) (Er err) ∈ t1 ∧ IsNotFoundError err = true) ∧
  (isDisconnect g = true → peeringGone n t1) ∧
  (∀ project name, g = DeleteGlobalAddress project name →
     peeringGone n t1 ∧ serviceGone n t1 ∧ project = ProjectID n ∧ rangeUnused n t1 name).
Proof.
  intros Hr ->.
  assert (componentCall g = true → last = true ∧ ∃ name err t0 t, t1 = t0 ++ t ∧
    buildDeleteInstanceRequest o0 cfg = Ok name ∧
    Ev (Gcp (GetRedisInstance name)) (Er err) ∈ t0 ∧ IsNotFoundError err = true ∧
    ∃ o1 s1 t3, runs (deleteLastComponents n o0) (t ++ Ev (Gcp g) r :: t3) (o1, s1)) as G.
  { intros Hg. assert (¬ except componentCall (Gcp g)) as Hx by (cbn; congruence).
    eapply deleteRedisInstance_before in Hr
      as (name & err & t0 & t & -> & Hn & He & Hnf & Hr); [|by left].
    destruct last.
    - split; [done|]. exists name, err, t0, t. split_and!; try done.
      eapply (runs_bind_before_first (except componentCall) anyCR) in Hr
        as (o1 & s1 & t3 & _ & Hr); [eauto| |exact Hx].
      intros [msg|]; unfold dropFinalizer; go_sat.
    - exfalso. apply Hx. rewrite runs_bind_mret in Hr. cbv beta iota in Hr.
      refine (sat_no_event (except componentCall) anyCR _ _ _ _ _ (Ev (Gcp g) r) Hr _ _).
      + apply elem_of_app. right. apply list_elem_of_here.
      + unfold dropFinalizer. go_sat. }
  split_and!.
  - intros (-> & name & err & t0 & t & -> & H1 & H2 & H3 & _)%G. split; [done|].
    exists name, err. split_and!; [done|ev_in|done].
  - intros Hg. destruct G as (_ & _ & _ & t0 & t & -> & _ & _ & _ & o1 & s1 & t3 & Hd);
      [unfold componentCall; rewrite Hg; by rewrite orb_true_r|].
    destruct g; try done. unfold deleteLastComponents in Hd.
    apply (deletePeering_before isDisconnect) in Hd as (t4 & t5 & -> & Hp & _); [|by intros []|done..].
    eapply peeringGone_incl; [exact Hp|]. intros y Hy. ev_in.
  - intros project name ->.
    destruct G as (_ & _ & _ & t0 & t & -> & _ & _ & _ & o1 & s1 & t3 & Hd); [done|].
    unfold deleteLastComponents in Hd.
    apply (deletePeering_before isDeleteAddress) in Hd as (t4 & t5 & -> & Hp & Hd); [|by intros []|done..].
    apply (deleteService_before isDeleteAddress) in Hd as (t6 & t7 & -> & Hs & Hd); [|by intros []|done..].
    eapply (runs_bind_before_first (except isDeleteAddress) anyCR) in Hd
      as (o2 & s2 & t8 & _ & Hd); [|intros; go_sat|by intros [=]].
    apply runs_onErr in Hd as (o3 & Hd & _).
    apply DeleteNetworkIpRange_deletes in Hd as [-> Hu]. split_and!; [| |done|].
    + eapply peeringGone_incl; [exact Hp|]. intros y Hy. ev_in.
    + eapply serviceGone_incl; [exact Hs|]. intros y Hy. ev_in.
    + eapply rangeUnused_incl; [exact Hu|]. intros y Hy. ev_in.
Qed.

(** the resource is written by a deletion only to remove its finalizer, after its
    instance was not found and, for the last resource, after the peering and the
    service connection were gone and neither the address range nor a service
    connection was found. *)
Theorem deleteRedisInstance_finalizer cfg last o0 tr o s' x ans :
  runs (deleteRedisInstance n cfg last o0) tr (o, s') → Ev (UpdateCR x) ans ∈ tr →
  (∃ name err, buildDeleteInstanceRequest o0 cfg = Ok name ∧
     Ev (Gcp (GetRedisInstance name)) (Er err) ∈ tr ∧ IsNotFoundError err = true) ∧
  (∃ om, RemoveFinalizer (CR_Meta o0) DefaultFinalizer = Some om ∧ x = setMeta o0 om) ∧
  (last = true → peeringGone n tr ∧ serviceGone n tr ∧ componentsGone n tr).
Proof.
  intros Hr (t1 & t2 & ->)%list_elem_of_split.
  eapply deleteRedisInstance_before in Hr as (name & err & t0 & t & -> & Hn & He & Hnf & Hr).
  2: { right. split; [exact id|exact I]. }
  split; [exists name, err; split_and!; [done|ev_in|done]|].
  eapply (runs_bind_before keepsCR eq) in Hr as (t3 & remaining & s1 & t4 & -> & Hl & <- & Hr).
  2: { destruct last; [|go_sat]. unfold deleteLastComponents, DeleteNetworkPeering,
         DeleteNetworkService, DeleteNetworkIpRange, deletePeeringConnection, deleteAddressRange,
         networksClient_RemovePeering, addressClient_Delete, deleteServiceConnection. go_sat. }
  2: exact id.
  destruct remaining as [msg|]; [by apply runs_mret in Hr as ([_ [=]]%app_eq_nil & _)|].
  split.
  - eapply (runs_bind_before_first keepsCR eq) in Hr as (o1 & s1 & t5 & _ & Hr);
      [|intros; go_sat|exact id].
    destruct (dropFinalizer_updates _ _ _ _ _ (UpdateCR x) ans Hr) as (om & Hom & [= ->]);
      [|by exists om].
    apply elem_of_app. right. apply list_elem_of_here.
  - intros ->. unfold deleteLastComponents in Hl.
    apply runs_bind_Val in Hl as (u1 & [] & s1 & u2 & -> & H1 & Hl).
    apply runs_onErr_Val, DeleteNetworkPeering_Val in H1.
    apply runs_bind_Val in Hl as (u3 & [] & s2 & u4 & -> & H2 & Hl).
    apply runs_onErr_Val, DeleteNetworkService_Val in H2.
    apply runs_bind_Val in Hl as (u5 & [] & s3 & u6 & -> & _ & Hl).
    apply runs_bind_Val in Hl as (u7 & exist & s4 & u8 & -> & H4 & Hl).
    apply runs_mret_Val in Hl as (-> & Hex & _). destruct exist; [done|].
    apply runs_onErr_Val, ComponentsExist_Val in H4.
    split_and!; [eapply peeringGone_incl; [exact H1|]|eapply serviceGone_incl; [exact H2|]|
      eapply componentsGone_incl; [exact H4|]]; intros y Hy; ev_in.
Qed.

(** A part that leaves the state alone ends the run, or the rest follows. *)
Lemma same_or_rest {S E A B} (P : call → Prop) (m : M S E A) (f : A → M S E B) s tr o s' :
  runs (mbind f m s) tr (o, s') → sat P eq m →
  s' = s ∨ ∃ t1 a t2, tr = t1 ++ t2 ∧ runs (f a s) t2 (o, s').
Proof.
  intros [(t1 & a & s1 & t2 & -> & H1 & H2)|[(e & H1 & _)|(w & H1 & _)]]%runs_bind Hm.
  - destruct (Hm _ _ _ _ H1) as [_ <-]. right. by exists t1, a, t2.
  - left. by destruct (Hm _ _ _ _ H1) as [_ <-].
  - left. by destruct (Hm _ _ _ _ H1) as [_ <-].
Qed.

End Delete.

(** ** The controller *)

Section Controller.
Context `{GcpTypes}.

Lemma noStatus_offCloud {E A} (m : M CR E A) : sat offCloud eq m → sat noStatus anyCR m.
Proof.
  intros Hm. apply sat_eq; [apply _|]. eapply sat_weaken; [exact Hm|]. intros c. by destruct c.
Qed.
#[local] Hint Extern 5 (sat noStatus anyCR _) =>
  apply noStatus_offCloud; solve [eauto with sat] : sat.

#[export] Instance gcpRedis_frame p : StatusFrame (gcpRedis p).
Proof.
  split; cbn.
  - unfold CreateRedis, CreateFinalizer, createRedisInstance, CreateNetworkIpRange,
      createAddressRange, addressClient_Insert, CreateNetworkService, createMissingService,
      createServiceConnection, ensureInstance, reconcileInstance, reconcileReadyInstance,
      annotateFound, annotateCreated. go_sat.
  - unfold DeleteRedis, IsLastResource, deleteRedisInstance, deleteLastComponents,
      DeleteNetworkPeering, DeleteNetworkService, DeleteNetworkIpRange, deletePeeringConnection,
      deleteAddressRange, networksClient_RemovePeering, addressClient_Delete,
      deleteServiceConnection, dropFinalizer. go_sat.
  - intros o. unfold Redis_GetReconcileTime, GetForcedReconcileTimeOrDefault. go_sat.
  - intros o s tr e s' Hr. unfold Redis_GetReconcileTime in Hr.
    case_bool_decide; [by apply runs_mret in Hr as (_ & ? & _)|].
    by apply forcedTime_total in Hr.
Qed.

(** The address range and the service connection were there and an instance was
    found ready, which has the details. *)
Definition memorystoreReady (d : RedisDeploymentDetails) (tr : list event) : Prop :=
  ∃ n infra a name i,
    addressSeen n (rangeName infra) (Some a) tr ∧ serviceReady n tr ∧
    Ev (Gcp (GetRedisInstance name)) (Ok i) ∈ tr ∧ RI_State i = Instance_READY ∧
    d = {| RDD_URI := RI_Host i; RDD_Port := RI_Port i |}.

Lemma reconcileReadyInstance_Val config found o0 tr d msg s' :
  runs (reconcileReadyInstance config found o0) tr (Val (d, msg), s') →
  d = Some {| RDD_URI := RI_Host found; RDD_Port := RI_Port found |}.
Proof.
  intros Hr. unfold reconcileReadyInstance in Hr.
  do 3 (apply runs_bind_Val in Hr as (? & ? & ? & ? & -> & _ & Hr)).
  by apply runs_mret_Val in Hr as (_ & [= <- <-] & _).
Qed.

Lemma createRedisInstance_Some p n cfg o0 tr d msg s' :
  runs (createRedisInstance p n cfg o0) tr (Val (Some d, msg), s') → memorystoreReady d tr.
Proof.
  intros Hr. unfold createRedisInstance in Hr. apply runs_bind_get in Hr.
  apply runs_bind_Val in Hr as (t1 & blk & s1 & t2 & -> & _ & Hr).
  apply runs_bind_Val in Hr as (t3 & [a m] & s3 & t4 & -> & Ha & Hr).
  case_bool_decide; [by apply runs_mret_Val in Hr as (_ & [=] & _)|]. subst m.
  apply CreateNetworkIpRange_Val in Ha as (infra & x & _ & -> & Ha).
  apply runs_bind_Val in Hr as (t5 & [c m] & s5 & t6 & -> & Hs & Hr).
  case_bool_decide; [by apply runs_mret_Val in Hr as (_ & [=] & _)|]. subst m.
  apply CreateNetworkService_Val in Hs.
  unfold ensureInstance in Hr. apply runs_bind_get in Hr.
  apply runs_bind_Val in Hr as (t7 & req & s7 & t8 & -> & _ & Hr).
  apply runs_bind_Val in Hr as (t9 & i & s9 & t10 & -> & _ & Hr).
  apply runs_bind_Val in Hr as (t11 & found & s11 & t12 & -> & Hf & Hr).
  apply getInstance_Val in Hf.
  apply runs_defer in Hr as (t13 & oa & sa & t14 & ob & -> & Hr & _ & Ho).
  assert (oa = Val (Some d, msg)) as ->.
  { destruct ob; try done. }
  destruct found as [found|].
  2: { unfold reconcileInstance in Hr.
       do 2 (apply runs_bind_Val in Hr as (? & ? & ? & ? & -> & _ & Hr)).
       by apply runs_mret_Val in Hr as (_ & [=] & _). }
  unfold reconcileInstance in Hr.
  apply runs_bind_Val in Hr as (? & ? & ? & ? & -> & _ & Hr). apply runs_bind_get in Hr.
  apply runs_bind_Val in Hr as (? & ? & ? & ? & -> & _ & Hr).
  case_bool_decide as Hst; [by apply runs_mret_Val in Hr as (_ & [=] & _)|].
  apply reconcileReadyInstance_Val in Hr as [= ->].
  exists n, infra, x, (RI_Name i), found. split_and!; [| |ev_in|done|done].
  - eapply addressSeen_incl; [exact Ha|]. intros y Hy. ev_in.
  - eapply serviceReady_incl; [exact Hs|]. intros y Hy. ev_in.
Qed.

Context (ps : list ResourceProvider) (frames : ∀ q, q ∈ ps → StatusFrame q).

(** a Redis that is written as complete by the Memorystore provider names the
    secret of its specification, which holds the host and the port of an instance
    that was found ready, after the address range and the service connection. *)
Theorem GcpRedisController_complete p watchNs name ns o0 tr out o' x ans :
  (∀ q, q ∈ ps → RP_GetName q = redisProviderName → q = gcpRedis p) →
  runs (Redis_Reconcile ps watchNs name ns o0) tr (out, o') →
  Ev (StatusUpdateCR x) ans ∈ tr → Status_Phase (CR_Status x) = PhaseComplete →
  Status_Provider (CR_Status x) = redisProviderName →
  ∃ d t, Status_SecretRef (CR_Status x) = Spec_SecretRef (CR_Spec x) ∧
    resultSecret x (RedisData d) tr ∧ t ⊆ tr ∧ memorystoreReady d t.
Proof.
  intros Hone Hr He Hx Hp. unfold Redis_Reconcile in Hr.
  eapply (Reconcile_complete_by (RedisReconciler ps) frames (gcpRedis p)) in Hr
    as (o & st & t & data & msg & o1 & Ht & Hc & Hsec & ?); [|done..].
  subst x.
  cbn in Hc. apply runs_bind_Val in Hc as (t1 & [d m] & s & t2 & -> & Hc & Hr).
  apply runs_mret_Val in Hr as (-> & Hd & ->). rewrite app_nil_r in Ht.
  destruct d as [d|]; [|done]. injection Hd as <- <-. exists d, t1.
  split_and!; [done|done|done|].
  unfold CreateRedis in Hc. apply runs_bind_get in Hc.
  do 2 (apply runs_bind_Val in Hc as (? & ? & ? & ? & -> & _ & Hc)). apply runs_bind_get in Hc.
  do 3 (apply runs_bind_Val in Hc as (? & ? & ? & ? & -> & _ & Hc)).
  apply createRedisInstance_Some in Hc as (n & infra & a & nm & i & H1 & H2 & H3 & H4).
  exists n, infra, a, nm, i. split_and!; [| |ev_in|apply H4..].
  - eapply addressSeen_incl; [exact H1|]. intros y Hy. ev_in.
  - eapply serviceReady_incl; [exact H2|]. intros y Hy. ev_in.
Qed.
End Controller.
