(* ===== verification/GcpPostgresProps.v ===== *)
(** * Cloud SQL: properties

    When an instance is created, deleted and complete, and which snapshots its schedule
    asks for and removes. *)
From S2P Require Import Prelude Effects GoNet GoStrings GoSort Json GcpApi Api Resources Metrics.
From S2P Require Import AwsConfig AwsPostgres Controllers Snapshots Footprints.
From S2P Require Import AwsPostgresProps ControllerProps ControllerAws.
From S2P Require Import GcpConfig GcpSql GcpSnapshots GcpNetwork GcpRedis GcpPostgres.
From S2P Require Import GcpNetworkProps GcpRedisProps.
Local Open Scope go_scope.

(** ** Which calls the parts make *)

Section Parts.
Context {S : Type}.

Lemma oc_exposePostgresInstanceMetrics {E} pg i :
  sat offCloud eq (exposePostgresInstanceMetrics (S := S) (E := E) pg i).
Proof.
  eapply sat_weaken; [|apply metricCall_offCloud].
  unfold exposePostgresInstanceMetrics, GetClusterID, GetClusterInfrastructure. go_sat.
Qed.
Lemma oc_setPostgresDeletionTimestampMetric {E} pg :
  sat offCloud eq (GcpPostgres.setPostgresDeletionTimestampMetric (S := S) (E := E) pg).
Proof.
  eapply sat_weaken; [|apply metricCall_offCloud].
  unfold GcpPostgres.setPostgresDeletionTimestampMetric, BuildInfraNameFromObject, GetClusterID,
    GetClusterInfrastructure. go_sat.
Qed.
Lemma ro_buildCloudSQLCreateStrategy pg cfg sec a :
  readonly (buildCloudSQLCreateStrategy (S := S) pg cfg sec a).
Proof.
  unfold buildCloudSQLCreateStrategy, buildDefaultPostgresTags, BuildInfraNameFromObject,
    GetClusterID, GetClusterInfrastructure. go_sat.
Qed.
Lemma ro_buildCloudSQLDeleteStrategy `{GcpTypes} pg cfg :
  readonly (buildCloudSQLDeleteStrategy (S := S) pg cfg).
Proof.
  unfold buildCloudSQLDeleteStrategy, BuildInfraNameFromObject, GetClusterID,
    GetClusterInfrastructure. go_sat.
Qed.
Lemma ro_buildDefaultCloudSQLSecret pg : readonly (buildDefaultCloudSQLSecret (S := S) pg).
Proof. unfold buildDefaultCloudSQLSecret. go_sat. Qed.
Lemma ro_getSqlInstance project name : readonly (getSqlInstance (S := S) project name).
Proof. unfold getSqlInstance. go_sat. Qed.
Lemma ro_getAllSnapshotsForInstance name ns :
  readonly (getAllSnapshotsForInstance (S := S) name ns).
Proof. unfold getAllSnapshotsForInstance. go_sat. Qed.
#[local] Hint Resolve ro_getAllSnapshotsForInstance : sat.
Lemma ro_getLatestPostgresSnapshot `{GoSort} name ns :
  readonly (getLatestPostgresSnapshot (S := S) name ns).
Proof. unfold getLatestPostgresSnapshot. go_sat. Qed.
Lemma ro_parseDuration `{GcpTypes} d : readonly (parseDuration (S := S) d).
Proof. unfold parseDuration. go_sat. Qed.
End Parts.
#[export] Hint Resolve oc_exposePostgresInstanceMetrics oc_setPostgresDeletionTimestampMetric
  ro_buildCloudSQLCreateStrategy ro_buildCloudSQLDeleteStrategy ro_buildDefaultCloudSQLSecret
  ro_getSqlInstance ro_getAllSnapshotsForInstance ro_getLatestPostgresSnapshot
  ro_parseDuration : sat.

Lemma getSqlInstance_Val {S} project name (s : S) tr found s' :
  runs (getSqlInstance project name s) tr (Val found, s') →
  match found with
  | Some i => Ev (Gcp (GetSqlInstance project name)) (Ok i) ∈ tr
  | None => ∃ e, Ev (Gcp (GetSqlInstance project name)) (Er e) ∈ tr ∧ IsNotFoundError e = true
  end.
Proof.
  intros Hr. unfold getSqlInstance in Hr. inv_call Hr. destruct Hr as (x & t & -> & Hr).
  destruct x as [x|e]; [apply runs_mret_Val in Hr as (_ & <- & _); ev_in|].
  destruct (IsNotFoundError e) eqn:Ee; [|by apply runs_fail_Val in Hr].
  apply runs_mret_Val in Hr as (_ & <- & _). exists e. split; [ev_in|done].
Qed.

(** Nothing follows a failure. *)
Lemma runs_bind_fail {S E A B} (e : E) (f : A → M S E B) (s : S) tr o s' :
  runs (mbind f (fail e) s) tr (o, s') → tr = [].
Proof.
  intros [(? & ? & ? & ? & _ & Hf & _)|[(? & Hf & _)|(? & Hf & _)]]%runs_bind;
    apply runs_fail in Hf as (? & ? & ?); done.
Qed.

(** ** Creating *)

(** The secret of the instance: it was there, or it has been created. *)
Definition sqlSecret (pg : CR) (sec : Secret) (tr : list event) : Prop :=
  Ev (GetSecret (Meta_Name (CR_Meta pg) +:+ defaultCredSecSuffix)
        (Meta_Namespace (CR_Meta pg))) (Ok sec) ∈ tr ∨
  ∃ password, Ev (CreateSecret {|
    Secret_Name := Meta_Name (CR_Meta pg) +:+ defaultCredSecSuffix;
    Secret_Namespace := Meta_Namespace (CR_Meta pg); Secret_Owners := []; Secret_Data := None;
    Secret_StringData := {[ defaultPostgresUserKey := defaultGCPPostgresUser;
                            defaultPostgresPasswordKey := password ]};
    Secret_Type := "Opaque" |}) (Ok sec) ∈ tr.
Lemma sqlSecret_incl pg sec t tr : sqlSecret pg sec t → t ⊆ tr → sqlSecret pg sec tr.
Proof. intros [H|(w & H)] Ht; [left; by apply Ht|right; exists w; by apply Ht]. Qed.

(** The instance of a strategy, completed: it has the root password of the secret and
    the private network of the address range, unless the strategy gives its own. *)
Definition sqlConfigured (cfg : StrategyConfig) (sec : Secret) (a : option Address)
    (config : DatabaseInstance) : Prop :=
  ∃ given id tags,
    unmarshalCreateInstanceRequest (Strategy_CreateStrategy cfg) = Val given ∧
    (DBI_Name given ≠ "" → id = DBI_Name given) ∧
    config = completeDatabaseInstance id (Strategy_Region cfg)
      (secretData sec defaultPostgresPasswordKey)
      (completeSettings tags a (default emptySettings (DBI_Settings given))) given.

Lemma buildCloudSQLCreateStrategy_Val {S} pg cfg sec a (s : S) tr config s' :
  runs (buildCloudSQLCreateStrategy pg cfg sec a s) tr (Val config, s') →
  sqlConfigured cfg sec a config.
Proof.
  intros Hr. unfold buildCloudSQLCreateStrategy in Hr.
  apply runs_bind_Val in Hr as (t1 & given & s1 & t2 & -> & H1 & Hr).
  apply runs_onErr_Val, runs_lift_Val in H1 as (_ & H1 & _).
  apply runs_bind_Val in Hr as (t3 & id & s3 & t4 & -> & H2 & Hr).
  apply runs_bind_Val in Hr as (t5 & tags & s5 & t6 & -> & _ & Hr).
  apply runs_mret_Val in Hr as (_ & <- & _). exists given, id, tags. split_and!; [done| |done].
  intros Hn. rewrite bool_decide_false in H2 by done. by apply runs_mret_Val in H2 as (_ & -> & _).
Qed.

Lemma sqlSecret_stored {S} pg (s : S) tr sec s' t1 sec0 s1 t2 :
  runs (buildDefaultCloudSQLSecret pg s) t1 (Val sec0, s1) →
  runs (CreateOrUpdateSecret sec0 mret s1) t2 (Val sec, s') → t2 ⊆ tr → sqlSecret pg sec tr.
Proof.
  intros H1 H2 Ht. unfold buildDefaultCloudSQLSecret in H1.
  apply runs_bind_Val in H1 as (? & w & ? & ? & -> & _ & H1).
  apply runs_mret_Val in H1 as (_ & <- & _).
  apply CreateOrUpdateSecret_Val in H2 as [H2|H2]; [left; by apply Ht|right; exists w; by apply Ht].
Qed.

Section Create.
Context `{GoSort} `{GcpTypes} (p : PostgresProvider) (n : GcpNetwork.NetworkProvider).
Implicit Types (cfg : StrategyConfig).

(** Not a call that is made on an instance. *)
Definition sqlCall (g : gcp_call) : bool :=
  match g with
  | InsertSqlInstance _ _ | PatchSqlInstance _ _ _ | DeleteSqlInstance _ _ => true
  | _ => false
  end.
Lemma ex_updateAnnotated f msg id : sat (except f) anyCR (updateAnnotated msg id).
Proof. unfold updateAnnotated. go_sat. Qed.
Hint Resolve ex_updateAnnotated : sat.
Lemma ex_scheduleSnapshots f msg :
  (∀ g, gcp_reads g = true → f g = false) → sat (except f) eq (scheduleSnapshots msg).
Proof.
  intros Hr. assert (reads_ok (except f)) by by apply except_reads.
  unfold scheduleSnapshots, reconcileCloudSqlInstanceSnapshots, deleteExpired, createSnapshot. go_sat.
Qed.

(** What is known when the instance is about to be made. *)
Definition sqlNetworkReady (a : option Address) (tr : list event) : Prop :=
  ∃ infra x, a = Some x ∧ addressSeen n (rangeName infra) (Some x) tr ∧ serviceReady n tr.
Lemma sqlNetworkReady_incl a t tr : sqlNetworkReady a t → t ⊆ tr → sqlNetworkReady a tr.
Proof.
  intros (infra & x & -> & H1 & H2) Ht. exists infra, x.
  split_and!; [done|by eapply addressSeen_incl|by eapply serviceReady_incl].
Qed.
Lemma ensureNetwork_Val tier s tr a s' :
  runs (ensureNetwork p n tier s) tr (Val (a, ""), s') → sqlNetworkReady a tr.
Proof.
  intros Hr. unfold ensureNetwork in Hr.
  apply runs_bind_Val in Hr as (t1 & blk & s1 & t2 & -> & _ & Hr).
  apply runs_bind_Val in Hr as (t3 & [x msg] & s3 & t4 & -> & H1 & Hr).
  case_bool_decide as Hm; [apply runs_mret_Val in Hr as (_ & [= _ ->] & _); by destruct Hm|].
  subst msg. apply CreateNetworkIpRange_Val in H1 as (infra & y & _ & -> & H1).
  apply runs_bind_Val in Hr as (t5 & [c msg] & s5 & t6 & -> & H2 & Hr).
  apply runs_mret_Val in Hr as (_ & [= <- ->] & _). apply CreateNetworkService_Val in H2.
  exists infra, y. split_and!; [done|..].
  - eapply addressSeen_incl; [exact H1|]. intros z Hz. ev_in.
  - eapply serviceReady_incl; [exact H2|]. intros z Hz. ev_in.
Qed.
Lemma ex_ensureNetwork f tier :
  (∀ g, gcp_reads g = true → f g = false) → f OperationWait = false →
  (∀ a b, f (InsertGlobalAddress a b) = false) → (∀ a b c, f (ConnectionsCreate a b c) = false) →
  sat (except f) eq (ensureNetwork p n tier).
Proof.
  intros Hr Hw Hi Hc. assert (reads_ok (except f)) by by apply except_reads.
  assert (except f (Gcp OperationWait)) by exact Hw.
  assert (∀ a b, except f (Gcp (InsertGlobalAddress a b))) by exact Hi.
  assert (∀ a b c, except f (Gcp (ConnectionsCreate a b c))) by exact Hc.
  unfold ensureNetwork, CreateNetworkIpRange, createAddressRange, addressClient_Insert,
    CreateNetworkService, createMissingService, createServiceConnection. go_sat.
Qed.

Lemma ex_CreateOrUpdateSecret f sec :
  (∀ g, gcp_reads g = true → f g = false) →
  sat (except f) eq (CreateOrUpdateSecret (S := CR) sec mret).
Proof.
  intros Hr. assert (reads_ok (except f)) by by apply except_reads.
  unfold CreateOrUpdateSecret. go_sat.
Qed.

(** What an answer to a request for an instance says. *)
Definition sqlSeen (project name : string) (found : option SqlInstance) (tr : list event) : Prop :=
  match found with
  | Some i => Ev (Gcp (GetSqlInstance project name)) (Ok i) ∈ tr
  | None => ∃ e, Ev (Gcp (GetSqlInstance project name)) (Er e) ∈ tr ∧ IsNotFoundError e = true
  end.
Lemma sqlSeen_incl project name found t tr :
  sqlSeen project name found t → t ⊆ tr → sqlSeen project name found tr.
Proof.
  intros Hs Ht. destruct found; [by apply Ht|]. destruct Hs as (e & He & Hn).
  exists e. split; [by apply Ht|done].
Qed.

(** What is known when the request for an instance has been answered. *)
Lemma reconcileCloudSQLInstance_before cfg a o0 tr o s' e :
  runs (reconcileCloudSQLInstance cfg a o0) tr (o, s') → e ∈ tr → ¬ except sqlCall (ev_call e) →
  ∃ sec config found t o1 s1, t ⊆ tr ∧ sqlSecret o0 sec tr ∧ sqlConfigured cfg sec a config ∧
    sqlSeen (Strategy_ProjectID cfg) (DBI_Name config) found tr ∧
    runs (reconcileSqlInstance (Strategy_ProjectID cfg) config sec found o0) t (o1, s1) ∧ e ∈ t.
Proof.
  intros Hr He Hx. unfold reconcileCloudSQLInstance in Hr. apply runs_bind_get in Hr.
  assert (∀ g, gcp_reads g = true → sqlCall g = false) as Hg by by intros [].
  assert (reads_ok (except sqlCall)) as Hok by by apply except_reads.
  pose proof (λ sec, ex_CreateOrUpdateSecret sqlCall sec Hg) as Hsec.
  skip_calls_not (except sqlCall) Hr He Hx sec0 H1. apply runs_onErr_Val in H1.
  skip_calls_not (except sqlCall) Hr He Hx sec H2. apply runs_onErr_Val in H2.
  pose proof (λ tr, sqlSecret_stored _ _ tr _ _ _ _ _ _ H1 H2) as Hst. clear H1 H2.
  skip_calls_not (except sqlCall) Hr He Hx config H3.
  apply runs_onErr_Val, buildCloudSQLCreateStrategy_Val in H3.
  skip_calls_not (except sqlCall) Hr He Hx found H4. apply getSqlInstance_Val in H4.
  eapply (runs_defer_skip (except sqlCall) eq) in Hr as (t3 & o1 & s1 & Hsub & Hr & He3);
    [|exact He| |exact Hx].
  2: { go_sat. eapply sat_weaken; [apply oc_exposePostgresInstanceMetrics|].
       intros c Hc. by apply quiet_except, offCloud_quiet. }
  exists sec, config, found, t3, o1, s1. split_and!; try done.
  - intros y Hy. apply Hsub in Hy. ev_in.
  - apply Hst. intros y Hy. ev_in.
  - eapply sqlSeen_incl; [exact H4|]. intros y Hy. ev_in.
Qed.

(** an instance is asked for only when it was not found under its name in the
    project of the strategy, the address range of the network exists and the service
    connection was there or, at least, was not being made; it is the instance of the
    strategy, completed, with the root password of the secret of the resource, which
    has been stored. *)
Theorem reconcileWithNetwork_creates cfg o0 tr o s' project inst r :
  runs (reconcileWithNetwork p n cfg o0) tr (o, s') →
  Ev (Gcp (InsertSqlInstance project inst)) r ∈ tr →
  ∃ a sec config, sqlNetworkReady a tr ∧ sqlSecret o0 sec tr ∧ sqlConfigured cfg sec a config ∧
    project = Strategy_ProjectID cfg ∧ inst = MapToGcpDatabaseInstance config ∧
    sqlSeen project (DBI_Name config) None tr.
Proof.
  intros Hr He. unfold reconcileWithNetwork in Hr. apply runs_bind_get in Hr.
  assert (∀ g, gcp_reads g = true → sqlCall g = false) as Hg by by intros [].
  pose proof (ex_ensureNetwork sqlCall (Spec_Tier (CR_Spec o0)) Hg eq_refl
    (λ _ _, eq_refl) (λ _ _ _, eq_refl)) as Hnet.
  eapply (runs_bind_skip (except sqlCall) eq) in Hr
    as (t1 & [a msg] & s1 & t2 & -> & H1 & <- & Hr & He2); [|exact He|exact Hnet|done].
  case_bool_decide as Hm; [apply runs_mret in Hr as (-> & _); by apply not_elem_of_nil in He2|].
  subst msg. apply ensureNetwork_Val in H1.
  eapply (runs_bind_first (except sqlCall) anyCR) in Hr as (t3 & o3 & s3 & Hsub & Hr & He3);
    [|exact He2| |done].
  2: { intros [[d|] msg]; [|apply sat_mret, _]. apply sat_bind; [apply _| |intros; apply sat_mret, _].
       apply sat_eq; [apply _|]. by apply ex_scheduleSnapshots. }
  eapply reconcileCloudSQLInstance_before in Hr
    as (sec & config & found & t4 & o4 & s4 & Ht & Hsec & Hc & Hf & Hr & He4); [|exact He3|done].
  destruct found as [found|].
  { exfalso. refine (_ (sat_no_event (except (λ g, match g with InsertSqlInstance _ _ => true
      | _ => false end)) anyCR _ _ _ _ _ _ Hr He4 _)); [done|].
    unfold reconcileSqlInstance, reconcileCreatedInstance, unlessConflict. go_sat. }
  unfold reconcileSqlInstance in Hr.
  eapply (runs_bind_first (except sqlCall) anyCR) in Hr as (t5 & o5 & s5 & _ & Hr & He5);
    [|exact He4|intros; go_sat|done].
  eapply (sat_no_event (only [InsertSqlInstance (Strategy_ProjectID cfg)
    (MapToGcpDatabaseInstance config)]) eq) in Hr; [|exact He5|go_sat].
  apply list_elem_of_singleton in Hr as [= -> ->].
  exists a, sec, config. split_and!; [| |done..|].
  - eapply sqlNetworkReady_incl; [exact H1|]. intros y Hy. ev_in.
  - eapply sqlSecret_incl; [exact Hsec|]. intros y Hy. apply Hsub in Hy. ev_in.
  - eapply sqlSeen_incl; [exact Hf|]. intros y Hy. apply Hsub in Hy. ev_in.
Qed.
End Create.

(** ** Deleting *)

Section Delete.
Context `{GcpTypes} (n : GcpNetwork.NetworkProvider).
Implicit Types (cfg : StrategyConfig).

(** Nothing to delete: the instance was not found, or what was found has no name. *)
Definition sqlGone (project name : string) (tr : list event) : Prop :=
  sqlSeen project name None tr ∨
  ∃ i, sqlSeen project name (Some i) tr ∧ SI_Name i = "".
Lemma sqlGone_incl project name t tr : sqlGone project name t → t ⊆ tr → sqlGone project name tr.
Proof.
  intros [Hs|(i & Hs & Hn)] Ht; [left|right; exists i; split; [|done]]; by eapply sqlSeen_incl.
Qed.

(** The credential secret is gone. *)
Definition secretGone (pg : CR) (tr : list event) : Prop :=
  ∃ r, Ev (DeleteSecret (Meta_Name (CR_Meta pg) +:+ defaultCredSecSuffix)
             (Meta_Namespace (CR_Meta pg))) r ∈ tr ∧
       match r with Ok _ => True | Er e => IsNotFound e = true end.

Lemma deleteCloudSQLInstance_split cfg last o0 tr o s' e :
  runs (deleteCloudSQLInstance n cfg last o0) tr (o, s') → e ∈ tr → reads (ev_call e) = false →
  ∃ name t1 t2, tr = t1 ++ t2 ∧ e ∈ t2 ∧
    ((∃ found, sqlSeen (Strategy_ProjectID cfg) name (Some found) t1 ∧ SI_Name found ≠ "" ∧
       runs (deleteFoundSqlInstance (Strategy_ProjectID cfg) name found o0) t2 (o, s')) ∨
     sqlGone (Strategy_ProjectID cfg) name t1 ∧
     runs (deleteAbsentSqlInstance n name last o0) t2 (o, s')).
Proof.
  intros Hr He Hx. assert (¬ reads (ev_call e) = true) as Hn by congruence.
  unfold deleteCloudSQLInstance in Hr. apply runs_bind_get in Hr.
  skip_calls_not (λ c : call, reads c = true) Hr He Hn name Hs1. clear Hs1.
  skip_calls_not (λ c : call, reads c = true) Hr He Hn found Hs2. apply getSqlInstance_Val in Hs2.
  exists name. eexists (_ ++ _), _. rewrite app_assoc. split; [reflexivity|]. split; [exact He|].
  assert (∀ x t t', sqlSeen (Strategy_ProjectID cfg) name x t' →
    sqlSeen (Strategy_ProjectID cfg) name x (t ++ t')) as Hin.
  { intros x ta tb Hs. eapply sqlSeen_incl; [exact Hs|]. intros y Hy. ev_in. }
  destruct found as [found|]; [case_bool_decide as Hf|].
  - left. exists found. split_and!; [by apply Hin|done|exact Hr].
  - right. split; [right; exists found; split; [by apply Hin|done]|exact Hr].
  - right. split; [left; by apply Hin|exact Hr].
Qed.

(** C19: an instance is only deleted after it was found under the name to delete, not
    already being deleted and with its deletion protection off; and while it is there
    the resource is not written. *)
Theorem deleteCloudSQLInstance_unprotected cfg last o0 tr o s' project name r :
  runs (deleteCloudSQLInstance n cfg last o0) tr (o, s') →
  Ev (Gcp (DeleteSqlInstance project name)) r ∈ tr →
  (∃ id found settings, sqlSeen project id (Some found) tr ∧ SI_Name found = name ∧ name ≠ "" ∧
     SI_State found ≠ "PENDING_DELETE" ∧ SI_Settings found = Some settings ∧
     SSet_DeletionProtectionEnabled settings = false ∧ project = Strategy_ProjectID cfg) ∧
  s' = o0.
Proof.
  intros Hr He.
  eapply deleteCloudSQLInstance_split in Hr
    as (key & t1 & t2 & -> & He2 & [(found & Hf & Hn & Hr)|[_ Hr]]); [| |exact He|done].
  2: { exfalso. refine (_ (sat_no_event (except (λ g, match g with DeleteSqlInstance _ _ => true
         | _ => false end)) anyCR _ _ _ _ _ _ Hr He2 _)); [done|].
       unfold deleteAbsentSqlInstance, deleteLastSqlComponents, DeleteNetworkPeering,
         DeleteNetworkService, DeleteNetworkIpRange, deletePeeringConnection, deleteAddressRange,
         networksClient_RemovePeering, addressClient_Delete, deleteServiceConnection,
         dropFinalizer. go_sat. }
  assert (s' = o0) as ->.
  { assert (sat (λ _, True) eq (deleteFoundSqlInstance (Strategy_ProjectID cfg) key found)) as Hk.
    { unfold deleteFoundSqlInstance, unlessConflict. go_sat.
      eapply sat_weaken; [apply oc_exposePostgresInstanceMetrics|done]. }
    by destruct (Hk _ _ _ _ Hr) as [_ <-]. }
  split; [|done]. unfold deleteFoundSqlInstance in Hr. apply runs_bind_get in Hr.
  eapply (runs_bind_skip offCloud eq) in Hr
    as (t3 & u & s3 & t4 & -> & _ & <- & Hr & He4); 
    [|exact He2|apply oc_exposePostgresInstanceMetrics|by intros [=]].
  case_bool_decide as Hst; [apply runs_mret in Hr as (-> & _); by apply not_elem_of_nil in He4|].
  skip_reads Hr He4 settings Hs. apply runs_deref_Val in Hs as (-> & Hs & _).
  destruct (SSet_DeletionProtectionEnabled settings) eqn:Ep.
  { exfalso. refine (_ (sat_no_event (except (λ g, match g with DeleteSqlInstance _ _ => true
      | _ => false end)) eq _ _ _ _ _ _ Hr He4 _)); [done|]. unfold unlessConflict. go_sat. }
  eapply (sat_no_event (only [DeleteSqlInstance (Strategy_ProjectID cfg) (SI_Name found)]) eq) in Hr;
    [|exact He4|unfold unlessConflict; go_sat].
  apply list_elem_of_singleton in Hr as [= -> ->]. exists key, found, settings.
  split_and!; try done. eapply sqlSeen_incl; [exact Hf|]. intros y Hy. ev_in.
Qed.

Lemma deleteLastSqlComponents_None o0 tr s' :
  runs (deleteLastSqlComponents n o0) tr (Val None, s') →
  peeringGone n tr ∧ serviceGone n tr ∧ componentsGone n tr.
Proof.
  intros Hl. unfold deleteLastSqlComponents in Hl.
  apply runs_bind_Val in Hl as (u1 & [] & s1 & u2 & -> & H1 & Hl).
  apply runs_onErr_Val, DeleteNetworkPeering_Val in H1.
  apply runs_bind_Val in Hl as (u3 & [] & s2 & u4 & -> & H2 & Hl).
  apply runs_onErr_Val, DeleteNetworkService_Val in H2.
  apply runs_bind_Val in Hl as (u5 & [] & s3 & u6 & -> & _ & Hl).
  apply runs_bind_Val in Hl as (u7 & exist & s4 & u8 & -> & H4 & Hl).
  apply runs_mret_Val in Hl as (-> & Hex & _). destruct exist; [done|].
  apply runs_onErr_Val, ComponentsExist_Val in H4.
  split_and!; [eapply peeringGone_incl; [exact H1|]|eapply serviceGone_incl; [exact H2|]|
    eapply componentsGone_incl; [exact H4|]]; intros y Hy; ev_in.
Qed.

(** a deletion writes the resource only to remove its finalizer, after the instance
    was gone, its credential secret was deleted or not found and, for the last resource,
    the peering and the service connection were gone and neither the address range nor a
    service connection was found. *)
Theorem deleteCloudSQLInstance_finalizer cfg last o0 tr o s' x ans :
  runs (deleteCloudSQLInstance n cfg last o0) tr (o, s') → Ev (UpdateCR x) ans ∈ tr →
  (∃ name, sqlGone (Strategy_ProjectID cfg) name tr) ∧ secretGone o0 tr ∧
  (∃ om, RemoveFinalizer (CR_Meta o0) DefaultFinalizer = Some om ∧ x = setMeta o0 om) ∧
  (last = true → peeringGone n tr ∧ serviceGone n tr ∧ componentsGone n tr).
Proof.
  intros Hr He.
  eapply deleteCloudSQLInstance_split in Hr
    as (name & t1 & t2 & -> & He2 & [(found & Hf & Hn & Hr)|[Hg Hr]]); [| |exact He|done].
  { exfalso. refine (_ (sat_no_event keepsCR anyCR _ _ _ _ _ _ Hr He2 _)); [done|].
    unfold deleteFoundSqlInstance, unlessConflict. go_sat.
    apply sat_eq; [apply _|]. eapply sat_weaken; [apply oc_exposePostgresInstanceMetrics|].
    by intros []. }
  unfold deleteAbsentSqlInstance in Hr. apply runs_bind_get in Hr.
  inv_call Hr. destruct Hr as (r & t3 & -> & Hr).
  assert (secretGone o0 (t1 ++ Ev (DeleteSecret (Meta_Name (CR_Meta o0) +:+ defaultCredSecSuffix)
            (Meta_Namespace (CR_Meta o0))) r :: t3) ∧ ∃ t4, t4 ⊆ t3 ∧ Ev (UpdateCR x) ans ∈ t4 ∧
    runs ((remaining ← (if last then deleteLastSqlComponents n else mret None);
           match remaining with
           | Some msg => mret msg
           | None => _ ← dropFinalizer "failed to update instance as part of finalizer reconcile";
                     mret ("successfully deleted gcp postgres instance " +:+ name)
           end) o0) t4 (o, s')) as (Hsec & t4 & Hsub & He4 & Hrest).
  { apply elem_of_cons in He2 as [|He2]; [done|]. destruct r as [u|err].
    - split; [exists (Ok u); split; [ev_in|done]|]. rewrite runs_bind_mret in Hr. by exists t3.
    - destruct (IsNotFound err) eqn:En.
      + split; [exists (Er err); split; [ev_in|done]|]. rewrite runs_bind_mret in Hr. by exists t3.
      + apply runs_bind_fail in Hr as ->. by apply not_elem_of_nil in He2. }
  clear Hr He2.
  eapply (runs_bind_skip keepsCR eq) in Hrest
    as (t5 & remaining & s5 & t6 & -> & Hl & <- & Hrest & He5); [|exact He4| |exact id].
  2: { destruct last; [|go_sat]. unfold deleteLastSqlComponents, DeleteNetworkPeering,
         DeleteNetworkService, DeleteNetworkIpRange, deletePeeringConnection, deleteAddressRange,
         networksClient_RemovePeering, addressClient_Delete, deleteServiceConnection. go_sat. }
  destruct remaining as [msg|]; [by apply runs_mret in Hrest as (-> & _); apply not_elem_of_nil in He5|].
  split_and!; [exists name; eapply sqlGone_incl; [exact Hg|intros y Hy; ev_in]|exact Hsec|..].
  - eapply (runs_bind_first keepsCR eq) in Hrest as (t7 & o1 & s1 & _ & Hrest & He6);
      [|exact He5|intros; go_sat|exact id].
    destruct (dropFinalizer_updates _ _ _ _ _ (UpdateCR x) ans Hrest He6) as (om & Hom & [= ->]).
    by exists om.
  - intros ->. apply deleteLastSqlComponents_None in Hl as (H1 & H2 & H3).
    assert (t5 ⊆ t1 ++ Ev (DeleteSecret (Meta_Name (CR_Meta o0) +:+ defaultCredSecSuffix)
      (Meta_Namespace (CR_Meta o0))) r :: t3) as Hs5.
    { intros y Hy. assert (y ∈ t3) by (apply Hsub; ev_in). ev_in. }
    split_and!; [by eapply peeringGone_incl|by eapply serviceGone_incl|by eapply componentsGone_incl].
Qed.
End Delete.

(** ** The controller *)

Section Controller.
Context `{GoSort} `{GcpTypes}.

#[local] Hint Extern 5 (sat noStatus anyCR _) =>
  apply noStatus_offCloud; solve [eauto with sat] : sat.

#[export] Instance gcpPostgres_frame p : StatusFrame (gcpPostgres p).
Proof.
  split; cbn.
  - unfold GcpPostgres.ReconcilePostgres, CreateFinalizer, postgresCredentials, newSqlClient,
      reconcileWithNetwork, ensureNetwork, CreateNetworkIpRange, createAddressRange,
      addressClient_Insert, CreateNetworkService, createMissingService, createServiceConnection,
      reconcileCloudSQLInstance, CreateOrUpdateSecret, reconcileSqlInstance, updateAnnotated,
      reconcileCreatedInstance, unlessConflict, scheduleSnapshots,
      reconcileCloudSqlInstanceSnapshots, deleteExpired, createSnapshot. go_sat.
  - unfold GcpPostgres.DeletePostgres, IsLastResource, postgresCredentials, newSqlClient,
      deleteCloudSQLInstance, deleteFoundSqlInstance, unlessConflict, deleteAbsentSqlInstance,
      deleteLastSqlComponents, DeleteNetworkPeering, DeleteNetworkService, DeleteNetworkIpRange,
      deletePeeringConnection, deleteAddressRange, networksClient_RemovePeering,
      addressClient_Delete, deleteServiceConnection, dropFinalizer. go_sat.
  - intros o. unfold GcpPostgres.Postgres_GetReconcileTime, GetForcedReconcileTimeOrDefault. go_sat.
  - intros o s tr e s' Hr. unfold GcpPostgres.Postgres_GetReconcileTime in Hr.
    case_bool_decide; [by apply runs_mret in Hr as (_ & ? & _)|].
    by apply forcedTime_total in Hr.
Qed.

(** The private address of an instance: no mapping is missing, and it is the last of the
    type, if there is one. *)
Lemma privateHost_Val {E} l h0 h :
  privateHost (E := E) l h0 = Val h →
  ∃ ms, l = Some <$> ms ∧
    h = default h0 (last (IPM_IpAddress <$> filter (λ m, IPM_Type m = "PRIVATE") ms)).
Proof.
  revert h0. induction l as [|[m|] l IH]; intros h0 Hl; [|cbn in Hl|done].
  - injection Hl as <-. by exists [].
  - apply IH in Hl as (ms & -> & ->). exists (m :: ms). split; [done|].
    rewrite filter_cons. case_bool_decide; case_decide; try done. rewrite fmap_cons, last_cons.
    by destruct (last _).
Qed.

(** The address range and the service connection were there, the instance was found and
    is not being created any more; the user and the password are those of the secret,
    the host is the private address. *)
Definition cloudSqlReady (d : PostgresDeploymentDetails) (tr : list event) : Prop :=
  ∃ n a project name i pg sec ms,
    sqlNetworkReady n a tr ∧ Ev (Gcp (GetSqlInstance project name)) (Ok i) ∈ tr ∧
    SI_State i ≠ "PENDING_CREATE" ∧ sqlSecret pg sec tr ∧
    default [] (SI_IpAddresses i) = Some <$> ms ∧
    d = {| PDD_Username := secretData sec defaultPostgresUserKey;
           PDD_Password := secretData sec defaultPostgresPasswordKey;
           PDD_Host := default ""
             (last (IPM_IpAddress <$> filter (λ m, IPM_Type m = "PRIVATE") ms));
           PDD_Database := "postgres"; PDD_Port := 5432 |}.
Lemma cloudSqlReady_incl d t tr : cloudSqlReady d t → t ⊆ tr → cloudSqlReady d tr.
Proof.
  intros (n & a & project & name & i & pg & sec & ms & H1 & H2 & H3 & H4 & H5 & H6) Ht.
  exists n, a, project, name, i, pg, sec, ms.
  split_and!; [by eapply sqlNetworkReady_incl|by apply Ht|done|by eapply sqlSecret_incl|done..].
Qed.

Lemma reconcileSqlInstance_Some project config sec found o0 tr d msg s' :
  runs (reconcileSqlInstance project config sec found o0) tr (Val (Some d, msg), s') →
  ∃ i ms, found = Some i ∧ SI_State i ≠ "PENDING_CREATE" ∧
    default [] (SI_IpAddresses i) = Some <$> ms ∧
    d = {| PDD_Username := secretData sec defaultPostgresUserKey;
           PDD_Password := secretData sec defaultPostgresPasswordKey;
           PDD_Host := default ""
             (last (IPM_IpAddress <$> filter (λ m, IPM_Type m = "PRIVATE") ms));
           PDD_Database := "postgres"; PDD_Port := 5432 |}.
Proof.
  intros Hr. destruct found as [i|]; unfold reconcileSqlInstance in Hr.
  2: { do 3 (apply runs_bind_Val in Hr as (? & ? & ? & ? & -> & _ & Hr)).
       by apply runs_mret_Val in Hr as (_ & [=] & _). }
  apply runs_bind_get in Hr. apply runs_bind_Val in Hr as (? & ? & ? & ? & -> & _ & Hr).
  apply runs_bind_get in Hr. apply runs_bind_Val in Hr as (? & ? & ? & ? & -> & _ & Hr).
  case_bool_decide as Hst; [by apply runs_mret_Val in Hr as (_ & [=] & _)|].
  unfold reconcileCreatedInstance in Hr.
  do 2 (apply runs_bind_Val in Hr as (? & ? & ? & ? & -> & _ & Hr)).
  apply runs_bind_Val in Hr as (? & host & ? & ? & -> & Hh & Hr).
  apply runs_lift_Val in Hh as (_ & Hh & _). apply privateHost_Val in Hh as (ms & Hms & ->).
  apply runs_mret_Val in Hr as (_ & [= <- <-] & _). by exists i, ms.
Qed.

Lemma reconcileCloudSQLInstance_Some cfg a o0 t tr d msg s' n :
  runs (reconcileCloudSQLInstance cfg a o0) t (Val (Some d, msg), s') → t ⊆ tr →
  sqlNetworkReady n a tr → cloudSqlReady d tr.
Proof.
  intros Hr Ht Hn. unfold reconcileCloudSQLInstance in Hr. apply runs_bind_get in Hr.
  apply runs_bind_Val in Hr as (t1 & sec0 & s1 & t2 & -> & H1 & Hr). apply runs_onErr_Val in H1.
  apply runs_bind_Val in Hr as (t3 & sec & s3 & t4 & -> & H2 & Hr). apply runs_onErr_Val in H2.
  apply runs_bind_Val in Hr as (t5 & config & s5 & t6 & -> & _ & Hr).
  apply runs_bind_Val in Hr as (t7 & found & s7 & t8 & -> & H4 & Hr). apply getSqlInstance_Val in H4.
  apply runs_defer in Hr as (t9 & oa & sa & t10 & ob & -> & Hr & _ & Ho).
  assert (oa = Val (Some d, msg)) as -> by by destruct ob.
  apply reconcileSqlInstance_Some in Hr as (i & ms & -> & Hst & Hms & Hd).
  exists n, a, (Strategy_ProjectID cfg), (DBI_Name config), i, o0, sec, ms.
  split_and!; [done|apply Ht; ev_in|done| |done..].
  eapply sqlSecret_stored; [exact H1|exact H2|]. intros y Hy. apply Ht. ev_in.
Qed.

Lemma GcpReconcilePostgres_Some p o0 tr d msg s' :
  runs (GcpPostgres.ReconcilePostgres p o0) tr (Val (Some d, msg), s') → cloudSqlReady d tr.
Proof.
  intros Hr. unfold GcpPostgres.ReconcilePostgres in Hr.
  apply runs_bind_Val in Hr as (? & ? & ? & ? & -> & _ & Hr). apply runs_bind_get in Hr.
  do 3 (apply runs_bind_Val in Hr as (? & ? & ? & ? & -> & _ & Hr)).
  apply runs_bind_Val in Hr as (? & n & ? & ? & -> & _ & Hr).
  unfold reconcileWithNetwork in Hr. apply runs_bind_get in Hr.
  apply runs_bind_Val in Hr as (t1 & [a m] & ? & ? & -> & Hn & Hr).
  case_bool_decide as Hm; [by apply runs_mret_Val in Hr as (_ & [=] & _)|]. subst m.
  apply ensureNetwork_Val in Hn.
  apply runs_bind_Val in Hr as (t3 & [i m] & ? & t4 & -> & Hi & Hr).
  destruct i as [i|]; [|by apply runs_mret_Val in Hr as (_ & [=] & _)].
  apply runs_bind_Val in Hr as (? & m' & ? & ? & -> & _ & Hr).
  apply runs_mret_Val in Hr as (-> & [= -> _] & _).
  eapply reconcileCloudSQLInstance_Some; [exact Hi| |].
  - intros y Hy. ev_in.
  - eapply sqlNetworkReady_incl; [exact Hn|]. intros y Hy. ev_in.
Qed.

Context (ps : list ResourceProvider) (frames : ∀ q, q ∈ ps → StatusFrame q).

(** C14: a Postgres that is written as complete by the Cloud SQL provider names the secret
    of its specification, which holds the user and the password of the credential secret
    and the private address of an instance that was found, not as one being created,
    after the address range and the service connection. *)
Theorem GcpPostgresController_complete p watchNs name ns o0 tr out o' x ans :
  (∀ q, q ∈ ps → RP_GetName q = postgresProviderName → q = gcpPostgres p) →
  runs (Postgres_Reconcile ps watchNs name ns o0) tr (out, o') →
  Ev (StatusUpdateCR x) ans ∈ tr → Status_Phase (CR_Status x) = PhaseComplete →
  Status_Provider (CR_Status x) = postgresProviderName →
  ∃ d t, Status_SecretRef (CR_Status x) = Spec_SecretRef (CR_Spec x) ∧
    resultSecret x (PostgresData d) tr ∧ t ⊆ tr ∧ cloudSqlReady d t.
Proof.
  intros Hone Hr He Hx Hp. unfold Postgres_Reconcile in Hr.
  eapply (Reconcile_complete_by (PostgresReconciler ps) frames (gcpPostgres p)) in Hr
    as (o & st & t & data & msg & o1 & Ht & Hc & Hsec & ?); [|done..].
  subst x.
  cbn in Hc. apply runs_bind_Val in Hc as (t1 & [d m] & s & t2 & -> & Hc & Hr).
  apply runs_mret_Val in Hr as (-> & Hd & ->). rewrite app_nil_r in Ht.
  destruct d as [d|]; [|done]. injection Hd as <- <-. exists d, t1.
  split_and!; [done|done|done|]. by eapply GcpReconcilePostgres_Some.
Qed.
End Controller.
