(* ===== verification/OpenShiftProps.v ===== *)
(** * Properties of the OpenShift providers

    What the deployments, services, claims and secrets in the cluster are, that
    nothing is written once they are, what a complete resource tells, and what
    the deletions leave behind. *)
From S2P Require Import Prelude Effects GoNet GoStrings Json WorkloadApi Api Resources Metrics.
From S2P Require Import AwsConfig AwsPostgres AwsRedis Controllers OpenShift Footprints.
From S2P Require Import AwsPostgresProps AwsRedisProps ControllerProps ControllerAws.
Local Open Scope go_scope.

(** ** What the providers may call *)

(** Calls on workloads and secrets, besides reads. *)
Definition deployCall (c : call) : Prop :=
  match (c : api_call) with
  | Workload _ | CreateSecret _ | UpdateSecret _
  | CreateConfigMap _ _ _ | UpdateConfigMap _ _ _ => True
  | _ => reads c = true
  end.
Lemma deployCall_reads : reads_ok deployCall.
Proof. intros c. by destruct c. Qed.
#[export] Hint Resolve deployCall_reads : sat.
Lemma deployCall_noStatus c : deployCall c → noStatus c.
Proof. by destruct c. Qed.

Section Footprints.
Context {S : Type}.
Lemma ro_openshift_ReadStorageStrategy m rt tier :
  readonly (openshift_ReadStorageStrategy (S := S) m rt tier).
Proof. unfold openshift_ReadStorageStrategy. go_sat. Qed.
#[local] Hint Resolve ro_openshift_ReadStorageStrategy : sat.
Lemma ro_getPostgresConfig `{K8sTypes} p ps : readonly (getPostgresConfig (S := S) p ps).
Proof. unfold getPostgresConfig. go_sat. Qed.
Lemma ro_getRedisConfig `{K8sTypes} p r : readonly (getRedisConfig (S := S) p r).
Proof. unfold getRedisConfig. go_sat. Qed.

Lemma ro_getDeploymentPod {E} d : readonly (getDeploymentPod (S := S) (E := E) d).
Proof. unfold getDeploymentPod. go_sat. Qed.

Lemma sat_CreateOrUpdate {A} `{EqDecision A} (P : call → Prop) (get : M S error A) create update
    (obj : A) mutate :
  sat P eq get → (∀ a, sat P eq (create a)) → (∀ a, sat P eq (update a)) →
  sat P eq (CreateOrUpdate get create update obj mutate).
Proof. intros Hg Hc Hu. unfold CreateOrUpdate. go_sat. Qed.

Section Apply.
Context (P : call → Prop) (deploy_P : ∀ c : workload_call, P (Workload c)).
Lemma sat_applyDeployment d spec : sat P eq (applyDeployment (S := S) d spec).
Proof. apply sat_onErr, sat_CreateOrUpdate; go_sat. Qed.
Lemma sat_applyService s spec : sat P eq (applyService (S := S) s spec).
Proof. apply sat_onErr, sat_CreateOrUpdate; go_sat. Qed.
Lemma sat_applyPVC c spec : sat P eq (applyPVC (S := S) c spec).
Proof. apply sat_onErr, sat_CreateOrUpdate; go_sat. Qed.
Lemma sat_ReconcileDatabaseUserRoles d u : sat P eq (ReconcileDatabaseUserRoles (S := S) d u).
Proof. unfold ReconcileDatabaseUserRoles, ExecIntoPod, getDeploymentPod. go_sat. Qed.
End Apply.
Lemma dc_applySecret s cfg : sat deployCall eq (applySecret (S := S) s cfg).
Proof. apply sat_onErr, sat_CreateOrUpdate; go_sat. Qed.
Lemma dc_CreateConfigMap ns cm cfg : sat deployCall eq (Redis_CreateConfigMap (S := S) ns cm cfg).
Proof. apply sat_onErr, sat_CreateOrUpdate; go_sat. Qed.
Lemma dc_ReconcileDatabaseUserRoles d u :
  sat deployCall eq (ReconcileDatabaseUserRoles (S := S) d u).
Proof. by apply sat_ReconcileDatabaseUserRoles. Qed.
End Footprints.
#[export] Hint Resolve ro_getDeploymentPod ro_getPostgresConfig ro_getRedisConfig dc_applySecret dc_CreateConfigMap
  dc_ReconcileDatabaseUserRoles : sat.
#[export] Hint Extern 2 (sat _ _ (applyDeployment _ _)) => apply sat_applyDeployment; done : sat.
#[export] Hint Extern 2 (sat _ _ (applyService _ _)) => apply sat_applyService; done : sat.
#[export] Hint Extern 2 (sat _ _ (applyPVC _ _)) => apply sat_applyPVC; done : sat.

(** ** The interface of the controllers *)

Section Frames.
Context `{K8sTypes} (p : ConfigMapConfigManager).

Lemma noStatus_deploy {E A} (m : M CR E A) : sat deployCall eq m → sat noStatus anyCR m.
Proof. intros Hm. apply sat_eq; [apply _|]. by eapply sat_weaken, deployCall_noStatus. Qed.
#[local] Hint Extern 5 (sat noStatus anyCR _) =>
  apply noStatus_deploy; solve [eauto with sat] : sat.
#[local] Hint Resolve ns_CreateFinalizer ro_forcedTime : sat.

Lemma ns_openshift_ReconcilePostgres : sat noStatus anyCR (openshift_ReconcilePostgres p).
Proof.
  unfold openshift_ReconcilePostgres, Postgres_CreatePVC, Postgres_CreateSecret,
    Postgres_CreateDeployment, Postgres_CreateService. go_sat.
Qed.
Lemma ns_openshift_CreateRedis : sat noStatus anyCR (openshift_CreateRedis p).
Proof.
  unfold openshift_CreateRedis, Redis_CreatePVC, Redis_CreateDeployment, Redis_CreateService.
  go_sat.
Qed.
Lemma ns_deletions :
  sat noStatus anyCR openshift_DeletePostgres ∧ sat noStatus anyCR openshift_DeleteRedis.
Proof.
  unfold openshift_DeletePostgres, openshift_DeleteRedis, deleteIgnoringNotFound, finishDelete.
  split; go_sat.
Qed.
Lemma ns_openshift_CreateStorage : sat noStatus anyCR openshift_CreateStorage.
Proof. unfold openshift_CreateStorage. go_sat. Qed.

Lemma openshift_time o :
  sat noStatus eq (openshift_GetReconcileTime (S := CR) (E := error) o) ∧
  ∀ s tr e s', ¬ runs (openshift_GetReconcileTime (E := error) o s) tr (Err e, s' : CR).
Proof.
  unfold openshift_GetReconcileTime. split; [by go_sat|]. intros s tr e s' Hr.
  case_bool_decide; [by apply runs_mret in Hr as (_ & ? & _)|by apply forcedTime_total in Hr].
Qed.

#[export] Instance openshiftPostgres_frame : StatusFrame (openshiftPostgres p).
Proof.
  split; cbn; [|apply ns_deletions|intros o; apply (openshift_time o)..].
  pose proof ns_openshift_ReconcilePostgres. go_sat.
Qed.
#[export] Instance openshiftRedis_frame : StatusFrame (openshiftRedis p).
Proof.
  split; cbn; [|apply ns_deletions|intros o; apply (openshift_time o)..].
  pose proof ns_openshift_CreateRedis. go_sat.
Qed.
#[export] Instance openshiftBlobStorage_frame : StatusFrame openshiftBlobStorage.
Proof.
  split; cbn; [apply ns_openshift_CreateStorage|unfold openshift_DeleteStorage; go_sat|intros; go_sat|].
  intros o s tr e s' Hr. by apply runs_mret in Hr as (_ & ? & _).
Qed.
End Frames.

(** ** What is created and updated *)

(** The deployment [d] is there with the specification [s]: it was created, updated
    or already so. *)
Definition deploymentEnsured (d : Deployment) (s : DeploymentSpec) (tr : list event) : Prop :=
  (∃ w, Ev (Workload (CreateDeployment (setDeploymentSpec s d))) (Ok w) ∈ tr) ∨
  ∃ e, Ev (Workload (GetDeployment (Depl_Name d) (Depl_Namespace d))) (Ok e) ∈ tr ∧
    (Depl_Spec e = s ∨ ∃ w, Ev (Workload (UpdateDeployment (setDeploymentSpec s e))) (Ok w) ∈ tr).
Definition serviceSpecFor (s : Service) (spec : option ServiceSpec) (e : Service) : ServiceSpec :=
  match spec with
  | None => setClusterIP (SS_ClusterIP (Svc_Spec e)) (Svc_Spec s)
  | Some spec => spec
  end.
Definition serviceEnsured (s : Service) (spec : option ServiceSpec) (tr : list event) : Prop :=
  (∃ w, Ev (Workload (CreateService (setServiceSpec (serviceSpecFor s spec s) s))) (Ok w) ∈ tr) ∨
  ∃ e, Ev (Workload (GetService (Svc_Name s) (Svc_Namespace s))) (Ok e) ∈ tr ∧
    (Svc_Spec e = serviceSpecFor s spec e ∨
     ∃ w, Ev (Workload (UpdateService (setServiceSpec (serviceSpecFor s spec e) e))) (Ok w) ∈ tr).
Lemma deploymentEnsured_incl d s t t' :
  deploymentEnsured d s t → t ⊆ t' → deploymentEnsured d s t'.
Proof.
  intros [(w & ?)|(e & ? & [?|(w & ?)])] Hs; [left; exists w; auto|right; exists e..].
  - split; [by apply Hs|by left].
  - split; [by apply Hs|right; exists w; by apply Hs].
Qed.
Lemma serviceEnsured_incl s spec t t' :
  serviceEnsured s spec t → t ⊆ t' → serviceEnsured s spec t'.
Proof.
  intros [(w & ?)|(e & ? & [?|(w & ?)])] Hs; [left; exists w; auto|right; exists e..].
  - split; [by apply Hs|by left].
  - split; [by apply Hs|right; exists w; by apply Hs].
Qed.

Lemma applyDeployment_Val {S} d spec (s : S) tr s' :
  runs (applyDeployment d spec s) tr (Val tt, s') →
  deploymentEnsured d (default (Depl_Spec d) spec) tr.
Proof.
  intros Hr%runs_onErr_Val. unfold immutableDeployment in Hr.
  apply CreateOrUpdate_Val in Hr as (t1 & s1 & t2 & new & -> &
    [(e & w & H1 & _ & [= <-] & H2)|(e & H1 & [= <-] & [(Hn & _)|(_ & w & H2)])]).
  - run_val H2. left. eexists. ev_in.
  - run_val H1. right. exists e. split; [ev_in|]. left. by rewrite <- Hn at 1.
  - run_val H1. run_val H2. right. exists e. split; [ev_in|]. right. eexists. ev_in.
Qed.
Lemma applyService_Val {S} svc spec (s : S) tr s' :
  runs (applyService svc spec s) tr (Val tt, s') → serviceEnsured svc spec tr.
Proof.
  intros Hr%runs_onErr_Val. unfold immutableService in Hr.
  apply CreateOrUpdate_Val in Hr as (t1 & s1 & t2 & new & -> &
    [(e & w & H1 & _ & [= <-] & H2)|(e & H1 & [= <-] & [(Hn & _)|(_ & w & H2)])]).
  - run_val H2. left. eexists. ev_in.
  - run_val H1. right. exists e. split; [ev_in|]. left. by rewrite <- Hn at 1.
  - run_val H1. run_val H2. right. exists e. split; [ev_in|]. right. eexists. ev_in.
Qed.

(** *** Postgres *)

Section Postgres.
Context `{K8sTypes} (p : ConfigMapConfigManager).

(** What the details of a Postgres are made of: the deployment and the service were
    put in place as the strategy says, the deployment was then seen available, its
    user was made a superuser, and the credentials are those of the secret of the
    resource. *)
Definition pgDeployed (ps : CR) (d : PostgresDeploymentDetails) (tr : list event) : Prop :=
  ∃ cfg raw t dpl sec pod,
    t ⊆ tr ∧ runs (getPostgresConfig (S := CR) p ps ps) t (Val (cfg, raw), ps) ∧
    deploymentEnsured (buildDefaultPostgresDeployment ps)
      (default (Depl_Spec (buildDefaultPostgresDeployment ps)) (PostgresDeploymentSpec cfg)) tr ∧
    serviceEnsured (buildDefaultPostgresService ps) (PostgresServiceSpec cfg) tr ∧
    Ev (Workload (GetDeployment (nameOf ps) (namespaceOf ps))) (Ok dpl) ∈ tr ∧
    available dpl = true ∧
    Ev (GetSecret (credentialsSecOf ps) (namespaceOf ps)) (Ok sec) ∈ tr ∧
    Ev (Workload (PodExec pod (Depl_Namespace dpl)
         ["/bin/bash"; "-c"; superuserCommand (PDD_Username d)])) None ∈ tr ∧
    PDD_Username d = secretData sec "user" ∧ PDD_Password d = secretData sec "password" ∧
    PDD_Database d = secretData sec "database" ∧ PDD_Host d = clusterHost ps ∧
    PDD_Port d = defaultPostgresPort.

Lemma ReconcileDatabaseUserRoles_Val {S} dpl u (s : S) tr s' x :
  runs (ReconcileDatabaseUserRoles dpl u s) tr (Val x, s') →
  ∃ pod, Ev (Workload (PodExec pod (Depl_Namespace dpl) ["/bin/bash"; "-c"; superuserCommand u]))
           None ∈ tr.
Proof.
  intros Hr%runs_onErr_Val. unfold ExecIntoPod in Hr. val_call deployCall Hr pod H1.
  inv_call Hr. destruct Hr as (r & t3 & -> & Hr). destruct r as [[? ?]|]; [by run_val Hr|].
  exists pod. ev_in.
Qed.

Lemma openshift_ReconcilePostgres_Some o tr d msg o' :
  runs (openshift_ReconcilePostgres p o) tr (Val (Some d, msg), o') → pgDeployed o' d tr.
Proof.
  intros Hr. unfold openshift_ReconcilePostgres in Hr.
  apply runs_bind_Val in Hr as (t1 & u1 & ps & t2 & -> & _ & Hr). apply runs_bind_get in Hr.
  cbv zeta in Hr. val_call deployCall Hr cfg H1. destruct cfg as [cfg raw].
  unfold Postgres_CreatePVC, Postgres_CreateSecret, Postgres_CreateDeployment,
    Postgres_CreateService in Hr.
  val_call deployCall Hr u2 H2. val_call deployCall Hr password H3.
  val_call deployCall Hr u4 H4. val_call deployCall Hr u5 H5. val_call deployCall Hr u6 H6.
  val_call deployCall Hr dpl H7. val_call deployCall Hr sec H8. run_val H7. run_val H8.
  destruct (available dpl) eqn:Ea; [|by run_val Hr]. cbn [negb] in Hr. cbv iota zeta in Hr.
  val_call deployCall Hr u9 H9. apply runs_mret_Val in Hr as (-> & [= <- _] & ->).
  apply runs_onErr_Val in H1, H5, H6, H9. destruct u5, u6.
  apply applyDeployment_Val in H5. apply applyService_Val in H6.
  apply ReconcileDatabaseUserRoles_Val in H9 as [pod H9].
  exists cfg, raw. eexists. exists dpl, sec, pod. split_and!; [|exact H1|..]; try done.
  - intros y Hy. ev_in.
  - eapply deploymentEnsured_incl; [exact H5|]. intros y Hy. ev_in.
  - eapply serviceEnsured_incl; [exact H6|]. intros y Hy. ev_in.
  - ev_in.
  - ev_in.
  - ev_in.
Qed.
End Postgres.

(** *** Redis *)

Section Redis.
Context `{K8sTypes} (p : ConfigMapConfigManager).

Definition redisDeployed (r : CR) (d : RedisDeploymentDetails) (tr : list event) : Prop :=
  ∃ cfg raw t dpl,
    t ⊆ tr ∧ runs (getRedisConfig (S := CR) p r r) t (Val (cfg, raw), r) ∧
    deploymentEnsured (buildDefaultRedisDeployment r)
      (default (Depl_Spec (buildDefaultRedisDeployment r)) (RedisDeploymentSpec cfg)) tr ∧
    serviceEnsured (buildDefaultRedisService r) (RedisServiceSpec cfg) tr ∧
    Ev (Workload (GetDeployment (nameOf r) (namespaceOf r))) (Ok dpl) ∈ tr ∧
    available dpl = true ∧ d = {| RDD_URI := clusterHost r; RDD_Port := redisPort |}.

Lemma openshift_CreateRedis_Some o tr d msg o' :
  runs (openshift_CreateRedis p o) tr (Val (Some d, msg), o') → redisDeployed o' d tr.
Proof.
  intros Hr. unfold openshift_CreateRedis in Hr.
  apply runs_bind_Val in Hr as (t1 & u1 & r & t2 & -> & _ & Hr). apply runs_bind_get in Hr.
  val_call deployCall Hr cfg H1. destruct cfg as [cfg raw].
  unfold Redis_CreatePVC, Redis_CreateDeployment, Redis_CreateService in Hr.
  val_call deployCall Hr u2 H2. val_call deployCall Hr u3 H3.
  val_call deployCall Hr u5 H5. val_call deployCall Hr u6 H6.
  val_call deployCall Hr dpl H7. run_val H7.
  destruct (available dpl) eqn:Ea; [|by run_val Hr].
  apply runs_mret_Val in Hr as (-> & [= <- _] & ->).
  apply runs_onErr_Val in H1, H5, H6. destruct u5, u6.
  apply applyDeployment_Val in H5. apply applyService_Val in H6.
  exists cfg, raw. eexists. exists dpl. split_and!; [|exact H1|..]; try done.
  - intros y Hy. ev_in.
  - eapply deploymentEnsured_incl; [exact H5|]. intros y Hy. ev_in.
  - eapply serviceEnsured_incl; [exact H6|]. intros y Hy. ev_in.
  - ev_in.
Qed.
End Redis.

(** *** Blob storage *)

(** The data of a blob storage: what a secret holds, and placeholders for the keys
    that it does not have. *)
Definition storageData (d : gmap string string) (tr : list event) : Prop :=
  dom placeholders ⊆ dom d ∧ ∃ name ns,
    (∃ e, Ev (GetSecret name ns) (Er e) ∈ tr ∧ IsNotFound e = true ∧ d = placeholders) ∨
    (∃ sec, Ev (GetSecret name ns) (Ok sec) ∈ tr ∧
       ∀ k v, default ∅ (Secret_Data sec) !! k = Some v → d !! k = Some v).
Lemma openshift_CreateStorage_Val o tr r msg o' :
  runs (openshift_CreateStorage o) tr (Val (r, msg), o') → ∃ d, r = Some d ∧ storageData d tr.
Proof.
  intros Hr. unfold openshift_CreateStorage in Hr. apply runs_bind_get in Hr.
  destruct (Spec_SecretRef (CR_Spec o)) as [ref|]; [|by run_val Hr]. cbn [deref] in Hr.
  rewrite runs_bind_mret in Hr. cbv zeta in Hr. apply runs_bind_put in Hr.
  inv_call Hr. destruct Hr as (a & t & -> & Hr). destruct a as [sec|e].
  - apply runs_mret_Val in Hr as (-> & [= <- _] & _). eexists. split; [done|]. split.
    + rewrite dom_union_L. set_solver.
    + eexists _, _. right. exists sec. split; [ev_in|]. intros k v Hk. by apply lookup_union_Some_l.
  - destruct (IsNotFound e) eqn:En; [|by run_val Hr].
    apply runs_mret_Val in Hr as (-> & [= <- _] & _). eexists. split; [done|]. split; [done|].
    eexists _, _. left. exists e. split; [ev_in|done].
Qed.

(** ** The controllers *)

Section Controllers.
Context `{K8sTypes} (ps : list ResourceProvider) (frames : ∀ q, q ∈ ps → StatusFrame q).

(** a Postgres that is written as complete with the name of the OpenShift provider
    points to the secret of its specification; that secret holds the credentials
    of the resource in the cluster and the host of its service, its deployment and
    service are in place as the strategy says, the deployment was seen available, and
    its user is a superuser of the database. *)
Theorem OpenShiftPostgresController_complete p watchNs name ns o0 tr out o' x ans :
  (∀ q, q ∈ ps → RP_GetName q = openshift_postgresProviderName → q = openshiftPostgres p) →
  runs (Postgres_Reconcile ps watchNs name ns o0) tr (out, o') →
  Ev (StatusUpdateCR x) ans ∈ tr → Status_Phase (CR_Status x) = PhaseComplete →
  Status_Provider (CR_Status x) = openshift_postgresProviderName →
  ∃ o d t, nameOf x = nameOf o ∧ namespaceOf x = namespaceOf o ∧
    Status_SecretRef (CR_Status x) = Spec_SecretRef (CR_Spec x) ∧
    resultSecret x (PostgresData d) tr ∧ t ⊆ tr ∧ pgDeployed p o d t.
Proof.
  intros Hone Hr He Hx Hp. unfold Postgres_Reconcile in Hr.
  eapply (Reconcile_complete_by (PostgresReconciler ps) frames (openshiftPostgres p)) in Hr
    as (o & st & t & data & msg & o1 & Ht & Hc & Hsec & ?); [|done..].
  subst x.
  cbn in Hc. apply runs_bind_Val in Hc as (t1 & [d m] & s & t2 & -> & Hc & Hr).
  apply runs_mret_Val in Hr as (-> & Hd & ->). rewrite app_nil_r in Ht.
  destruct d as [d|]; [|done]. injection Hd as <- <-.
  apply openshift_ReconcilePostgres_Some in Hc. by exists s, d, t1.
Qed.

(** the same of a Redis, whose secret holds the host and the port of its service. *)
Theorem OpenShiftRedisController_complete p watchNs name ns o0 tr out o' x ans :
  (∀ q, q ∈ ps → RP_GetName q = openshift_redisProviderName → q = openshiftRedis p) →
  runs (Redis_Reconcile ps watchNs name ns o0) tr (out, o') →
  Ev (StatusUpdateCR x) ans ∈ tr → Status_Phase (CR_Status x) = PhaseComplete →
  Status_Provider (CR_Status x) = openshift_redisProviderName →
  ∃ o d t, nameOf x = nameOf o ∧ namespaceOf x = namespaceOf o ∧
    Status_SecretRef (CR_Status x) = Spec_SecretRef (CR_Spec x) ∧
    resultSecret x (RedisData d) tr ∧ t ⊆ tr ∧ redisDeployed p o d t.
Proof.
  intros Hone Hr He Hx Hp. unfold Redis_Reconcile in Hr.
  eapply (Reconcile_complete_by (RedisReconciler ps) frames (openshiftRedis p)) in Hr
    as (o & st & t & data & msg & o1 & Ht & Hc & Hsec & ?); [|done..].
  subst x.
  cbn in Hc. apply runs_bind_Val in Hc as (t1 & [d m] & s & t2 & -> & Hc & Hr).
  apply runs_mret_Val in Hr as (-> & Hd & ->). rewrite app_nil_r in Ht.
  destruct d as [d|]; [|done]. injection Hd as <- <-.
  apply openshift_CreateRedis_Some in Hc. by exists s, d, t1.
Qed.

(** what a user put into the secret of a blob storage is kept: a blob storage that
    is written as complete by the OpenShift provider has a secret with every key and
    value of the secret that was found, or with placeholders when there was none. *)
Theorem OpenShiftBlobStorageController_keeps watchNs name ns o0 tr out o' x ans :
  (∀ q, q ∈ ps → RP_GetName q = "openshift-blobstorage" → q = openshiftBlobStorage) →
  runs (BlobStorage_Reconcile ps watchNs name ns o0) tr (out, o') →
  Ev (StatusUpdateCR x) ans ∈ tr → Status_Phase (CR_Status x) = PhaseComplete →
  Status_Provider (CR_Status x) = "openshift-blobstorage" →
  ∃ d t, resultSecret x d tr ∧ t ⊆ tr ∧ storageData d t.
Proof.
  intros Hone Hr He Hx Hp. unfold BlobStorage_Reconcile in Hr.
  eapply (Reconcile_complete_by (BlobStorageReconciler ps) frames openshiftBlobStorage) in Hr
    as (o & st & t & data & msg & o1 & Ht & Hc & Hsec & ?); [|done..].
  subst x.
  cbn in Hc. apply openshift_CreateStorage_Val in Hc as (d & [= ->] & Hd). by exists d, t.
Qed.
End Controllers.

(** ** Deletion *)

Definition goneAnswer (r : result unit) : Prop :=
  r = Ok tt ∨ ∃ e, r = Er e ∧ IsNotFound e = true.

Lemma deleteIgnoringNotFound_Val {S} (c : call) (inj : resp c → result unit) (s : S) tr u s' :
  runs (deleteIgnoringNotFound (ok (invokeAs c inj)) s) tr (Val u, s') →
  ∃ r, tr = [Ev c r] ∧ s' = s ∧ goneAnswer (inj r).
Proof.
  intros Hr. unfold deleteIgnoringNotFound in Hr.
  apply runs_bind_Val in Hr as (t1 & r & s1 & t2 & -> & H1 & Hr). apply runs_try_Val in H1.
  destruct r as [[]|e]; [|destruct (IsNotFound e) eqn:En; [|by run_val Hr]];
    apply runs_mret_Val in Hr as (-> & _ & ->); rewrite app_nil_r;
    apply runs_ok_call in H1 as (r & -> & -> & Hx); exists r;
    (split; [done|]; split; [done|]); destruct (inj r) as [[]|e']; try done.
  - by left.
  - injection Hx as ->. right. by exists e'.
Qed.

Lemma finishDelete_updates what o tr out o' x r :
  runs (finishDelete what o) tr (out, o') → Ev (UpdateCR x) r ∈ tr →
  ∃ om, RemoveFinalizer (CR_Meta o) openshift_DefaultFinalizer = Some om ∧ x = setMeta o om.
Proof.
  intros Hr He. unfold finishDelete in Hr. apply runs_bind_get in Hr.
  destruct (RemoveFinalizer _ _) as [om|].
  2: { apply runs_lift in Hr as (-> & _). by apply not_elem_of_nil in He. }
  exists om. split; [done|]. apply runs_bind_put in Hr. inv_call Hr.
  destruct Hr as (a & t & -> & Hr). apply elem_of_cons in He as [He|He].
  - by injection (f_equal ev_call He).
  - destruct Hr as [(e & _ & -> & _)|(b & _ & Hr)]; [by apply not_elem_of_nil in He|].
    rewrite runs_bind_put in Hr. apply runs_mret in Hr as (-> & _). by apply not_elem_of_nil in He.
Qed.

Lemma sat_deleteIgnoringNotFound {S} (P : call → Prop) (R : S → S → Prop) `{!PreOrder R}
    (del : M S error unit) : sat P R del → sat P R (deleteIgnoringNotFound del).
Proof. intros Hd. unfold deleteIgnoringNotFound. go_sat. Qed.
#[local] Hint Extern 2 (sat _ _ (deleteIgnoringNotFound _)) =>
  apply sat_deleteIgnoringNotFound; [apply _|go_sat] : sat.

(** [gone_step Hr He Hn a Ha]: past a deletion, whose answer [a] let the code go on. *)
Ltac gone_step Hr He Hn a Ha :=
  let u := fresh "u" in let H1 := fresh "H" in
  skip_calls_not keepsCR Hr He Hn u H1; apply runs_onErr_Val in H1;
  lazymatch type of H1 with
  | runs (deleteIgnoringNotFound (ok (@invoke _ _ _ ?c)) _) _ _ =>
      apply (deleteIgnoringNotFound_Val c (λ r, r)) in H1 as (a & -> & _ & Ha)
  end.

Definition gonePostgres (ps : CR) (tr : list event) : Prop :=
  ∃ a b c d, Ev (Workload (DeleteService (nameOf ps) (namespaceOf ps))) a ∈ tr ∧
    Ev (Workload (DeletePVC (nameOf ps) (namespaceOf ps))) b ∈ tr ∧
    Ev (DeleteSecret defaultCredentialsSec (namespaceOf ps)) c ∈ tr ∧
    Ev (Workload (DeleteDeployment (nameOf ps) (namespaceOf ps))) d ∈ tr ∧
    goneAnswer a ∧ goneAnswer b ∧ goneAnswer c ∧ goneAnswer d.
Definition goneRedis (r : CR) (tr : list event) : Prop :=
  ∃ a b c d, Ev (Workload (DeleteService (nameOf r) (namespaceOf r))) a ∈ tr ∧
    Ev (Workload (DeletePVC (nameOf r) (namespaceOf r))) b ∈ tr ∧
    Ev (Workload (DeleteConfigMap redisConfigMapName (namespaceOf r))) c ∈ tr ∧
    Ev (Workload (DeleteDeployment (nameOf r) (namespaceOf r))) d ∈ tr ∧
    goneAnswer a ∧ goneAnswer b ∧ goneAnswer c ∧ goneAnswer d.


(** ** Credentials *)

(** Everything but writing a secret. *)
Definition keepsSecrets (c : call) : Prop :=
  match (c : api_call) with CreateSecret _ | UpdateSecret _ => False | _ => True end.
Lemma keepsSecrets_reads : reads_ok keepsSecrets.
Proof. intros c. by destruct c. Qed.
#[local] Hint Resolve keepsSecrets_reads : sat.
Lemma ks_CreateFinalizer f : sat keepsSecrets anyCR (CreateFinalizer f).
Proof. unfold CreateFinalizer. go_sat. Qed.
#[local] Hint Extern 2 (sat keepsSecrets _ (ReconcileDatabaseUserRoles _ _)) =>
  by apply sat_ReconcileDatabaseUserRoles : sat.

Section Secret.
Context `{K8sTypes} (p : ConfigMapConfigManager).

(** A run that writes a secret does it in [Postgres_CreateSecret]. *)
Lemma openshift_ReconcilePostgres_secret o tr out o' e :
  runs (openshift_ReconcilePostgres p o) tr (out, o') → e ∈ tr → ¬ keepsSecrets (ev_call e) →
  ∃ ps password cfg t out', t ⊆ tr ∧ e ∈ t ∧
    runs (applySecret (buildDefaultPostgresSecret ps password) cfg ps) t (out', ps).
Proof.
  intros Hr He Hn. unfold openshift_ReconcilePostgres in Hr.
  eapply (runs_bind_skip keepsSecrets anyCR) in Hr as (t1 & u1 & ps & t2 & -> & _ & _ & Hr & Hin);
    [|exact He|apply sat_onErr, ks_CreateFinalizer|exact Hn].
  apply runs_bind_get in Hr. cbv zeta in Hr. skip_calls_not keepsSecrets Hr Hin Hn cfg H1.
  destruct cfg as [cfg raw].
  unfold Postgres_CreatePVC, Postgres_CreateSecret, Postgres_CreateDeployment,
    Postgres_CreateService in Hr.
  skip_calls_not keepsSecrets Hr Hin Hn u2 H2. skip_calls_not keepsSecrets Hr Hin Hn password H3.
  eapply (runs_bind_first keepsSecrets eq) in Hr as (t' & o1 & s1 & Hs & Hr & Hin');
    [|exact Hin|intros; go_sat|exact Hn].
  apply runs_onErr in Hr as (o2 & Hr & ->).
  assert (sat deployCall eq (applySecret (S := CR) (buildDefaultPostgresSecret ps password)
    (PostgresSecretData cfg))) as F by apply dc_applySecret.
  destruct (F _ _ _ _ Hr) as [_ <-].
  exists ps, password, (PostgresSecretData cfg), t', o2. split_and!; [|done..].
  intros y Hy%Hs. ev_in.
Qed.

Lemma credentialsSecOf_default ps : credentialsSecOf ps ≠ defaultCredentialsSec.
Proof.
  unfold credentialsSecOf. intros E%(f_equal String.length). revert E.
  rewrite !length_app_string. cbn. lia.
Qed.

(** What [applySecret] writes. *)
Lemma applySecret_writes {S} sec cfg (s : S) tr out s' e :
  runs (applySecret sec cfg s) tr (out, s') → e ∈ tr → ¬ keepsSecrets (ev_call e) →
  (∃ new a, e = Ev (CreateSecret new) a ∧ mutateCredentials sec cfg sec = Val new) ∨
  (∃ old new a, e = Ev (UpdateSecret new) a ∧ mutateCredentials sec cfg old = Val new ∧
     Ev (GetSecret (Secret_Name sec) (Secret_Namespace sec)) (Ok old) ∈ tr).
Proof.
  intros (o1 & Hr & _)%runs_onErr He Hn. unfold immutableSecret, CreateOrUpdate in Hr.
  inv_call Hr. destruct Hr as (r & t & -> & Hr).
  apply elem_of_cons in He as [->|He]; [by destruct Hn|]. destruct r as [old|err].
  - skip_calls_not keepsSecrets Hr He Hn new H1. apply runs_lift_Val in H1 as (-> & Hm & _).
    destruct (bool_decide (new = old)).
    { apply runs_mret in Hr as (-> & _). by apply not_elem_of_nil in He. }
    eapply (runs_bind_first keepsSecrets eq) in Hr as (t' & o2 & s2 & Hs & Hr & Hin);
      [|exact He|intros; go_sat|exact Hn].
    inv_call Hr. destruct Hr as (a & -> & _). apply list_elem_of_singleton in Hin as ->.
    right. exists old, new, a. split_and!; [done|done|ev_in].
  - destruct (IsNotFound err).
    2: { apply runs_fail in Hr as (-> & _). by apply not_elem_of_nil in He. }
    skip_calls_not keepsSecrets Hr He Hn new H1. apply runs_lift_Val in H1 as (-> & Hm & _).
    eapply (runs_bind_first keepsSecrets eq) in Hr as (t' & o2 & s2 & Hs & Hr & Hin);
      [|exact He|intros; go_sat|exact Hn].
    inv_call Hr. destruct Hr as (a & -> & _). apply list_elem_of_singleton in Hin as ->.
    left. by exists new, a.
Qed.
End Secret.

(** What [mutateCredentials] keeps: a password and a user that are there. *)
Definition credentialKept (old new : Secret) : Prop :=
  ∀ k, k = "password" ∨ k = "user" → secretData old k ≠ "" → secretData new k = secretData old k.
Lemma mutateCredentials_Val s cfg e new :
  mutateCredentials s cfg e = Val new →
  Secret_Name new = Secret_Name e ∧ Secret_Namespace new = Secret_Namespace e ∧
  credentialKept e new ∧
  (cfg = None → secretData new "database" = secretData s "database" ∧
     ∀ k, k = "password" ∨ k = "user" → secretData e k = "" → secretData new k = secretData s k).
Proof.
  unfold mutateCredentials. destruct cfg as [m|]; [by intros [= <-]|].
  destruct (bool_decide (secretData e "password" = "")) eqn:E1;
    destruct (bool_decide (secretData e "user" = "")) eqn:E2;
    (apply bool_decide_eq_true in E1 || apply bool_decide_eq_false in E1);
    (apply bool_decide_eq_true in E2 || apply bool_decide_eq_false in E2);
    destruct (Secret_Data e) as [d|] eqn:Ed; try done; intros [= <-];
    (assert (∀ k, secretData e k = default "" (d !! k)) as Hk
       by (intros k; unfold secretData; by rewrite Ed));
    (split; [done|]; split; [done|]; split; [|intros _; split]);
    try (intros k [-> | ->] Hne); unfold secretData at 1; cbn [setSecretData Secret_Data default];
    rewrite ?Hk; simplify_map_eq; try done.
Qed.

Section Credentials.
Context `{K8sTypes} (p : ConfigMapConfigManager).


(** deleting a database leaves its credentials in the cluster: the secret that the
    deletion asks to delete is never one that a creation makes. *)
Theorem openshift_credentials_left o1 t1 out1 o1' o2 t2 out2 o2' sec r name ns a :
  runs (openshift_ReconcilePostgres p o1) t1 (out1, o1') → Ev (CreateSecret sec) r ∈ t1 →
  runs (openshift_DeletePostgres o2) t2 (out2, o2') → Ev (DeleteSecret name ns) a ∈ t2 →
  Secret_Name sec ≠ name.
Proof.
  intros H1 He1 H2 He2.
  eapply openshift_ReconcilePostgres_secret in H1 as (ps & pw & cfg & t & o3 & Hs & Hin & Hr);
    [|exact He1|by intros []].
  apply (applySecret_writes _ _ _ _ _ _ _ Hr) in Hin as
    [(new & r' & Heq & Hm)|(old & new & r' & Heq & _)]; [| |by intros []].
  2: { by apply (f_equal ev_call) in Heq. }
  injection (f_equal ev_call Heq) as ->. apply mutateCredentials_Val in Hm as (-> & _).
  assert (sat (λ c : call, match (c : api_call) with
    DeleteSecret n _ => n = defaultCredentialsSec | _ => True end) anyCR
    openshift_DeletePostgres) as F.
  { unfold openshift_DeletePostgres, finishDelete. go_sat. }
  eapply sat_no_event in F; [|exact H2|exact He2]. cbn in F. subst name. apply credentialsSecOf_default.
Qed.
End Credentials.

(** ** Claims *)

(** Everything but writing a claim. *)
Definition keepsClaims (c : call) : Prop :=
  match (c : api_call) with Workload (CreatePVC _) | Workload (UpdatePVC _) => False | _ => True end.
Lemma keepsClaims_reads : reads_ok keepsClaims.
Proof. intros c. destruct c; try done. by destruct c. Qed.
#[local] Hint Resolve keepsClaims_reads : sat.
Lemma kc_CreateFinalizer f : sat keepsClaims anyCR (CreateFinalizer f).
Proof. unfold CreateFinalizer. go_sat. Qed.

Section Claims.
Context {S : Type}.
Lemma kc_applyDeployment d spec : sat keepsClaims eq (applyDeployment (S := S) d spec).
Proof. apply sat_onErr, sat_CreateOrUpdate; go_sat. Qed.
Lemma kc_applyService s spec : sat keepsClaims eq (applyService (S := S) s spec).
Proof. apply sat_onErr, sat_CreateOrUpdate; go_sat. Qed.
Lemma kc_applySecret s cfg : sat keepsClaims eq (applySecret (S := S) s cfg).
Proof. apply sat_onErr, sat_CreateOrUpdate; go_sat. Qed.
Lemma kc_CreateConfigMap ns cm cfg : sat keepsClaims eq (Redis_CreateConfigMap (S := S) ns cm cfg).
Proof. apply sat_onErr, sat_CreateOrUpdate; go_sat. Qed.
Lemma kc_Roles d u : sat keepsClaims eq (ReconcileDatabaseUserRoles (S := S) d u).
Proof. unfold ReconcileDatabaseUserRoles, ExecIntoPod. go_sat. Qed.
End Claims.
#[local] Hint Resolve kc_applyDeployment kc_applyService kc_applySecret kc_CreateConfigMap kc_Roles : sat.

(** How a claim is written: created as the default one, whatever the strategy says;
    once it is bound only the requests of the strategy are updated. *)
Definition claimWrite (e : event) (tr : list event) : Prop :=
  ∃ ps, (∃ a, e = Ev (Workload (CreatePVC (defaultPVC ps))) a) ∨
    ∃ spec old a, Ev (Workload (GetPVC (nameOf ps) (namespaceOf ps))) (Ok old) ∈ tr ∧
      ToLower (PVC_Phase old) = "bound" ∧
      e = Ev (Workload (UpdatePVC
            (setRequests (PVCS_Requests (default (PVC_Spec (defaultPVC ps)) spec)) old))) a.
Lemma applyPVC_writes {S} ps spec (s : S) tr out s' e :
  runs (applyPVC (defaultPVC ps) spec s) tr (out, s') → e ∈ tr → ¬ keepsClaims (ev_call e) →
  claimWrite e tr.
Proof.
  intros (o1 & Hr & _)%runs_onErr He Hn. exists ps. unfold immutablePVC, CreateOrUpdate in Hr.
  inv_call Hr. destruct Hr as (r & t & -> & Hr).
  apply elem_of_cons in He as [->|He]; [by destruct Hn|]. destruct r as [old|err].
  - right. skip_calls_not keepsClaims Hr He Hn new H1. apply runs_lift_Val in H1 as (-> & Hm & _).
    destruct (bool_decide (ToLower (PVC_Phase old) ≠ "bound")) eqn:Eb.
    { injection Hm as <-. rewrite bool_decide_true in Hr by done.
      apply runs_mret in Hr as (-> & _). by apply not_elem_of_nil in He. }
    apply bool_decide_eq_false, dec_stable in Eb. injection Hm as <-.
    destruct (bool_decide (_ = old)).
    { apply runs_mret in Hr as (-> & _). by apply not_elem_of_nil in He. }
    eapply (runs_bind_first keepsClaims eq) in Hr as (t' & o2 & s2 & Hs & Hr & Hin);
      [|exact He|intros; go_sat|exact Hn].
    inv_call Hr. destruct Hr as (a & -> & _). apply list_elem_of_singleton in Hin as ->.
    exists spec, old, a. split_and!; [ev_in|exact Eb|done].
  - left. destruct (IsNotFound err).
    2: { apply runs_fail in Hr as (-> & _). by apply not_elem_of_nil in He. }
    skip_calls_not keepsClaims Hr He Hn new H1. apply runs_lift_Val in H1 as (-> & Hm & _).
    rewrite bool_decide_true in Hm by done. injection Hm as <-.
    eapply (runs_bind_first keepsClaims eq) in Hr as (t' & o2 & s2 & Hs & Hr & Hin);
      [|exact He|intros; go_sat|exact Hn].
    inv_call Hr. destruct Hr as (a & -> & _). apply list_elem_of_singleton in Hin as ->.
    by exists a.
Qed.
Lemma claimWrite_incl e t t' : claimWrite e t → t ⊆ t' → claimWrite e t'.
Proof.
  intros (ps & [?|(spec & old & a & ? & ? & ?)]) Hs; exists ps; [by left|right].
  exists spec, old, a. auto.
Qed.

(** the claim of a database is created with the default size and access mode even
    when the strategy has a specification for it; only the requests of a claim that is
    bound follow the strategy. *)
Theorem openshift_claims `{K8sTypes} p o tr o' e :
  e ∈ tr → ¬ keepsClaims (ev_call e) →
  (∀ out, runs (openshift_ReconcilePostgres p o) tr (out, o') → claimWrite e tr) ∧
  (∀ out, runs (openshift_CreateRedis p o) tr (out, o') → claimWrite e tr).
Proof.
  intros He Hn. split; intros out Hr; unfold openshift_ReconcilePostgres, openshift_CreateRedis,
    Postgres_CreatePVC, Postgres_CreateSecret, Postgres_CreateDeployment, Postgres_CreateService,
    Redis_CreatePVC, Redis_CreateDeployment, Redis_CreateService in Hr;
  (eapply (runs_bind_skip keepsClaims anyCR) in Hr as (t1 & u1 & ps & t2 & -> & _ & _ & Hr & Hin);
    [|exact He|apply sat_onErr, kc_CreateFinalizer|exact Hn]);
  apply runs_bind_get in Hr; cbv zeta in Hr;
  skip_calls_not keepsClaims Hr Hin Hn cfg H1; destruct cfg as [cfg raw];
  (eapply (runs_bind_first keepsClaims eq) in Hr as (t' & o1 & s1 & Hs & Hr & Hin');
    [|exact Hin|intros; go_sat|exact Hn]);
  apply runs_onErr in Hr as (o2 & Hr & _);
  (eapply claimWrite_incl; [by eapply applyPVC_writes|]); intros y Hy%Hs; ev_in.
Qed.

(** ** Settling *)

(** Running [m] again, when the API answers the read that comes first with the
    object that [m] has written, makes no further call. *)
Definition settles {A} (m : M CR error unit) (answers : event → A → Prop) (write : call → option A)
  : Prop :=
  ∀ s1 t1 o1 s1' e w, runs (m s1) t1 (o1, s1') → e ∈ t1 → write (ev_call e) = Some w →
  ∀ s2 e2 t2 o2 s2', runs (m s2) (e2 :: t2) (o2, s2') → answers e2 w → t2 = [] ∧ o2 = Val tt.

Section Settle.
Context {A : Type} `{EqDecision A} (c : call) (inj : resp c → result A) (create update : A → call)
  (injc : ∀ a, resp (create a) → result A) (inju : ∀ a, resp (update a) → result A) (obj : A)
  (mutate : A → outcome error A) (g : error → error)
  (answers : event → A → Prop) (write : call → option A).
Context (idem : ∀ a b, mutate a = Val b → mutate b = Val b)
  (write_c : write c = None) (write_create : ∀ a b, write (create a) = Some b → b = a)
  (write_update : ∀ a b, write (update a) = Some b → b = a)
  (answers_c : ∀ r a, answers (Ev c r) a → inj r = Ok a).

Lemma write_end (up : A → call) (inj' : ∀ a, resp (up a) → result A) a z t e w (s : CR) o s' :
  (∀ a b, write (up a) = Some b → b = a) → e ∈ t → write (ev_call e) = Some w →
  mutate z = Val a → runs ((_ ← ok (invokeAs (up a) (inj' a)); mret tt) s) t (o, s') →
  mutate w = Val w.
Proof.
  intros Hwr Hin Hw Hz Hr.
  eapply (runs_bind_first (λ _, False) eq) in Hr as (t3 & o3 & s3 & _ & Hr & Hin');
    [|exact Hin|intros; go_sat|exact id].
  apply runs_ok_call in Hr as (r & -> & _). apply list_elem_of_singleton in Hin' as ->.
  apply Hwr in Hw as ->. by eapply idem.
Qed.
Lemma bind_lift_in {B} (x : outcome error A) (f : A → M CR error B) s t o s' e :
  runs (mbind f (lift x) s) t (o, s') → e ∈ t → ∃ a, x = Val a ∧ runs (f a s) t (o, s').
Proof.
  destruct x as [a|e'|w']; intros Hr He; [by exists a|..]; destruct Hr as [-> _];
    by apply not_elem_of_nil in He.
Qed.

Lemma CreateOrUpdate_settles :
  settles (onErr g (CreateOrUpdate (ok (invokeAs c inj)) (λ a, ok (invokeAs (create a) (injc a)))
            (λ a, ok (invokeAs (update a) (inju a))) obj mutate)) answers write.
Proof.
  intros s1 t1 o1 s1' e w (o & Hr & _)%runs_onErr He Hw s2 e2 t2 o2 s2'
    (o' & Hr2 & ->)%runs_onErr Ha.
  assert (mutate w = Val w) as Hm.
  { unfold CreateOrUpdate in Hr. apply runs_bind_try_call in Hr as (r & t & -> & Hr).
    apply elem_of_cons in He as [->|He]; [cbn in Hw; congruence|]. destruct (inj r) as [x|err].
    - eapply bind_lift_in in Hr as (b & Hb & Hr); [|exact He]. destruct (bool_decide (b = x)).
      + apply runs_mret in Hr as (-> & _). by apply not_elem_of_nil in He.
      + by eapply (write_end update).
    - destruct (IsNotFound err).
      + eapply bind_lift_in in Hr as (b & Hb & Hr); [|exact He]. by eapply (write_end create).
      + apply runs_fail in Hr as (-> & _). by apply not_elem_of_nil in He. }
  unfold CreateOrUpdate in Hr2. apply runs_bind_try_call in Hr2 as (r & t & [= -> ->] & Hr2).
  rewrite (answers_c _ _ Ha), Hm in Hr2.
  change (lift (Val w)) with (mret w : M CR error A) in Hr2.
  rewrite runs_bind_mret, bool_decide_true in Hr2 by done.
  apply runs_mret in Hr2 as (-> & -> & _). done.
Qed.
End Settle.

(** The data that a run without data of its own leaves. *)
Definition fill (k v : string) (d : gmap string string) : gmap string string :=
  if bool_decide (default "" (d !! k) = "") then <[k := v]> d else d.
Definition filled (s : Secret) (d : gmap string string) : gmap string string :=
  <["database" := secretData s "database"]>
    (fill "user" (secretData s "user") (fill "password" (secretData s "password") d)).
Lemma fill_ne k v d k' : k ≠ k' → fill k v d !! k' = d !! k'.
Proof. intros Hk. unfold fill. case_bool_decide; [by rewrite lookup_insert_ne|done]. Qed.
Lemma fill_stable k v d d' :
  d' !! k = fill k v d !! k → fill k v d' = d'.
Proof.
  intros Hk. unfold fill at 1. case_bool_decide as E; [|done]. apply insert_id.
  rewrite Hk in *. revert E. unfold fill. case_bool_decide; [by rewrite lookup_insert_eq|done].
Qed.
Lemma filled_idem s d : filled s (filled s d) = filled s d.
Proof.
  unfold filled at 1. set (x := filled s d).
  assert (fill "password" (secretData s "password") x = x) as ->.
  { apply (fill_stable _ _ d). subst x. unfold filled.
    by rewrite lookup_insert_ne, fill_ne by done. }
  assert (fill "user" (secretData s "user") x = x) as ->.
  { apply (fill_stable _ _ (fill "password" (secretData s "password") d)). subst x. unfold filled.
    by rewrite lookup_insert_ne by done. }
  apply insert_id. subst x. unfold filled. by rewrite lookup_insert_eq.
Qed.
Lemma mutateCredentials_None s e d :
  Secret_Data e = Some d → mutateCredentials s None e = Val (setSecretData (Some (filled s d)) e).
Proof.
  intros Ed. unfold mutateCredentials, filled, fill.
  assert (∀ k, secretData e k = default "" (d !! k)) as Hk by (intros k; unfold secretData; by rewrite Ed).
  rewrite Ed, !Hk. destruct (bool_decide (default "" (d !! "password") = "")).
  - cbn. rewrite lookup_insert_ne by done. by destruct (bool_decide _).
  - cbn. by destruct (bool_decide _).
Qed.
Lemma mutateCredentials_idem s cfg e new :
  mutateCredentials s cfg e = Val new → mutateCredentials s cfg new = Val new.
Proof.
  destruct cfg as [m|]; [by intros [= <-]|]. destruct (Secret_Data e) as [d|] eqn:Ed.
  - rewrite (mutateCredentials_None _ _ d) by done. intros [= <-].
    rewrite (mutateCredentials_None _ _ (filled s d)), filled_idem by done. done.
  - unfold mutateCredentials. rewrite Ed. by destruct (bool_decide _), (bool_decide _).
Qed.

(** The reads and writes of each kind. *)
Definition deploymentRead (e : event) (w : Deployment) : Prop :=
  let 'Ev c r := e in
  match (c : api_call) as c' return @resp api c' → Prop with
  | Workload (GetDeployment _ _) => λ r, r = Ok w | _ => λ _, False
  end r.
Definition deploymentWrite (c : call) : option Deployment :=
  match (c : api_call) with
  | Workload (CreateDeployment w) | Workload (UpdateDeployment w) => Some w | _ => None
  end.
Definition serviceRead (e : event) (w : Service) : Prop :=
  let 'Ev c r := e in
  match (c : api_call) as c' return @resp api c' → Prop with
  | Workload (GetService _ _) => λ r, r = Ok w | _ => λ _, False
  end r.
Definition serviceWrite (c : call) : option Service :=
  match (c : api_call) with
  | Workload (CreateService w) | Workload (UpdateService w) => Some w | _ => None
  end.
Definition claimRead (e : event) (w : PersistentVolumeClaim) : Prop :=
  let 'Ev c r := e in
  match (c : api_call) as c' return @resp api c' → Prop with
  | Workload (GetPVC _ _) => λ r, r = Ok w | _ => λ _, False
  end r.
Definition claimWritten (c : call) : option PersistentVolumeClaim :=
  match (c : api_call) with
  | Workload (CreatePVC w) | Workload (UpdatePVC w) => Some w | _ => None
  end.
Definition secretRead (e : event) (w : Secret) : Prop :=
  let 'Ev c r := e in
  match (c : api_call) as c' return @resp api c' → Prop with
  | GetSecret _ _ => λ r, r = Ok w | _ => λ _, False
  end r.
Definition secretWrite (c : call) : option Secret :=
  match (c : api_call) with CreateSecret w | UpdateSecret w => Some w | _ => None end.

(** what the providers put into the cluster settles: when the API answers the
    deployment, the service, the claim or the secret that was written, the next
    reconcile reads it and writes nothing. *)
Theorem openshift_settles d s c sec dspec sspec cspec cfg :
  settles (applyDeployment d dspec) deploymentRead deploymentWrite ∧
  settles (applyService s sspec) serviceRead serviceWrite ∧
  settles (applyPVC c cspec) claimRead claimWritten ∧
  settles (applySecret sec cfg) secretRead secretWrite.
Proof.
  split_and!.
  - apply (CreateOrUpdate_settles (Workload (GetDeployment (Depl_Name d) (Depl_Namespace d)))
      (λ r, r) (λ d, Workload (CreateDeployment d)) (λ d, Workload (UpdateDeployment d))
      (λ _ r, r) (λ _ r, r)); try done; try (by intros ? ? [=]). by intros a b [= <-].
  - apply (CreateOrUpdate_settles (Workload (GetService (Svc_Name s) (Svc_Namespace s)))
      (λ r, r) (λ d, Workload (CreateService d)) (λ d, Workload (UpdateService d))
      (λ _ r, r) (λ _ r, r)); try done; try (by intros ? ? [=]).
    intros a b [= <-]. by destruct sspec.
  - apply (CreateOrUpdate_settles (Workload (GetPVC (PVC_Name c) (PVC_Namespace c)))
      (λ r, r) (λ d, Workload (CreatePVC d)) (λ d, Workload (UpdatePVC d))
      (λ _ r, r) (λ _ r, r)); try done; try (by intros ? ? [=]).
    intros a b. destruct (bool_decide (ToLower (PVC_Phase a) ≠ "bound")) eqn:Eb; intros [= <-].
    + by rewrite Eb.
    + cbn [setRequests PVC_Phase]. by rewrite Eb.
  - apply (CreateOrUpdate_settles (GetSecret (Secret_Name sec) (Secret_Namespace sec))
      (λ r, r) (λ d, CreateSecret d) (λ d, UpdateSecret d)
      (λ _ r, r) (λ _ r, r)); try done; try (by intros ? ? [=]).
    apply mutateCredentials_idem.
Qed.
