(* ===== verification/CloudMetricsProps.v ===== *)
(** * Properties of the cloud metrics

    Which gauges a reconcile sets, that every resource is scraped whatever happens to
    the others, and which values of CloudWatch end up in the gauges. *)
From S2P Require Import Prelude Effects GoFloat GoStrings Json Api Resources Metrics.
From S2P Require Import ClusterVpc AwsConfig AwsPostgres AwsRedis Controllers CloudMetrics Footprints.
Local Open Scope go_scope.

(** ** Setting the gauges *)

Definition gaugeLabels (m : GenericCloudMetric) : list string :=
  map (λ l, default "" (GCM_Labels m !! l)) genericMetricLabelNames.
(** The call that exposes a metric, when one of the gauges has its name. *)
Definition exposes (names : list string) (m : option GenericCloudMetric) : list event :=
  match m with
  | Some m => if bool_decide (GCM_Name m ∈ names)
              then [Ev (SetGauge (GCM_Name m) (gaugeLabels m) (GCM_Value m)) tt] else []
  | None => []
  end.
Notation gaugeNames := (map Gauge_Name).

Section Gauges.
Context {S E : Type}.

Lemma forM_Val {A} (l : list A) (body : A → M S E unit) (s s' : S) tr u :
  runs (forM l body s) tr (Val u, s') →
  match l with
  | [] => tr = [] ∧ s' = s
  | x :: rest => ∃ t1 s1 t2, tr = t1 ++ t2 ∧ runs (body x s) t1 (Val tt, s1) ∧
                             runs (forM rest body s1) t2 (Val tt, s')
  end.
Proof.
  destruct u, l as [|x rest]; simpl; [by intros (-> & _ & ->)%runs_mret_Val|].
  intros (t1 & [] & s1 & t2 & -> & H1 & H2)%runs_bind_Val. eauto 6.
Qed.

Lemma setGauges_one (gauges : list CroGaugeMetric) m (s s' : S) tr u :
  NoDup (gaugeNames gauges) →
  runs (forM gauges (λ g,
      m ← deref m;
      if bool_decide (GCM_Name m = Gauge_Name g)
      then invoke (SetGauge (Gauge_Name g)
             (map (λ l, default "" (GCM_Labels m !! l)) genericMetricLabelNames) (GCM_Value m))
      else mret tt) s) tr (Val u : outcome E unit, s') →
  s' = s ∧ tr = exposes (gaugeNames gauges) m ∧ (gauges ≠ [] → is_Some m).
Proof.
  intros Hnd. revert s tr u. induction gauges as [|g gauges IH]; intros s tr u Hr;
    apply forM_Val in Hr.
  - destruct Hr as [-> ->]. by destruct m.
  - destruct Hr as (t1 & s1 & t2 & -> & H1 & H2). rewrite map_cons in Hnd. apply NoDup_cons in Hnd as [Hg Hnd].
    destruct m as [m|]; [|by run_val H1]. cbn [deref] in H1. rewrite runs_bind_mret in H1.
    apply (IH Hnd) in H2 as (-> & -> & _).
    assert (s1 = s ∧ t1 = if bool_decide (GCM_Name m = Gauge_Name g)
      then [Ev (SetGauge (GCM_Name m) (gaugeLabels m) (GCM_Value m)) tt] else []) as [-> ->].
    { case_bool_decide as En.
      - rewrite <- En in H1. apply (@runs_invoke_Val api S E (SetGauge _ _ _)) in H1 as [-> ->].
        done.
      - by apply runs_mret_Val in H1 as (-> & _ & ->). }
    split; [done|]. split; [|done]. unfold exposes. rewrite map_cons.
    case_bool_decide as En.
    + rewrite bool_decide_false by (by rewrite En). rewrite bool_decide_true by (rewrite En; set_solver).
      done.
    + rewrite (bool_decide_ext (GCM_Name m ∈ Gauge_Name g :: gaugeNames gauges)
        (GCM_Name m ∈ gaugeNames gauges)) by set_solver. done.
Qed.

Lemma setGaugeMetrics_Val gauges scraped (s s' : S) tr u :
  NoDup (gaugeNames gauges) →
  runs (setGaugeMetrics gauges scraped s) tr (Val u : outcome E unit, s') →
  s' = s ∧ tr = concat (map (exposes (gaugeNames gauges)) scraped).
Proof.
  intros Hnd. revert s tr u. induction scraped as [|m scraped IH]; intros s tr u Hr;
    unfold setGaugeMetrics in Hr; apply forM_Val in Hr.
  - by destruct Hr as [-> ->].
  - destruct Hr as (t1 & s1 & t2 & -> & H1 & H2). apply (setGauges_one _ _ _ _ _ _ Hnd) in H1 as (-> & -> & _).
    by apply IH in H2 as [-> ->].
Qed.
End Gauges.

(** ** Scraping every resource *)

Section Scrape.
Context {S : Type} {E : Type} (gauges : list CroGaugeMetric).

(** The provider [p] was asked for the metrics of [cr]; what it answered is in [out]. *)
Definition scraped (cr : CR) (p : MetricsProvider S) (out : ScrapeMetricsData) (tr : list event)
  : Prop :=
  ∃ t s1 r s2, t ⊆ tr ∧
    runs (MP_Scrape p cr (metricTypesOf gauges (Status_Strategy (CR_Status cr))) s1) t (r, s2) ∧
    ∀ ms, r = Val ms → ms ⊆ out.
Lemma scraped_incl cr p out out' t t' :
  scraped cr p out t → out ⊆ out' → t ⊆ t' → scraped cr p out' t'.
Proof.
  intros (t1 & s1 & r & s2 & Ht & Hr & Hms) Ho Hs. exists t1, s1, r, s2.
  split; [set_solver|]. split; [done|]. intros ms Hm. by etrans; [apply Hms|].
Qed.

Lemma scrapeOne_Val cr p acc (s s' : S) tr out :
  runs (scrapeOne (E := E) gauges cr acc p s) tr (Val out, s') →
  acc ⊆ out ∧ (MP_SupportsStrategy p (Status_Strategy (CR_Status cr)) = true → scraped cr p out tr).
Proof.
  unfold scrapeOne. intros Hr. destruct (MP_SupportsStrategy _ _); cbn [negb] in Hr.
  2: { by apply runs_mret_Val in Hr as (_ & -> & _). }
  apply runs_bind in Hr as [(t1 & r & s1 & t2 & -> & H1 & Hr)|[(? & _ & ?)|(? & _ & ?)]]; [|done..].
  apply runs_try_Val in H1. destruct r as [ms|e];
    apply runs_mret_Val in Hr as (-> & <- & ->); rewrite app_nil_r;
    (split; [set_solver|]); intros _; eexists t1, s, _, _; (split; [done|]; split; [exact H1|]).
  - intros ? [= ->]. set_solver.
  - by intros ms ?.
Qed.
Lemma foldM_Val {A B} (P : A → B → list event → Prop) (R : B → B → Prop) `{!PreOrder R}
    (body : B → A → M S E B) (l : list A) b (s s' : S) tr out :
  (∀ x b b' t t', P x b t → R b b' → t ⊆ t' → P x b' t') →
  (∀ b x s t b' s', runs (body b x s) t (Val b', s') → R b b' ∧ P x b' t) →
  runs (foldM body b l s) tr (Val out, s') → R b out ∧ ∀ x, x ∈ l → P x out tr.
Proof.
  intros Hmono Hbody. revert b s tr. induction l as [|x l IH]; intros b s tr Hr; simpl in Hr.
  - apply runs_mret_Val in Hr as (-> & -> & ->). split; [done|]. by intros x ?%not_elem_of_nil.
  - apply runs_bind_Val in Hr as (t1 & b1 & s1 & t2 & -> & H1 & Hr).
    apply Hbody in H1 as [HR HP]. apply IH in Hr as [HR2 Hall]. split; [by etrans|].
    intros y [->|Hy]%elem_of_cons.
    + eapply Hmono; [exact HP|exact HR2|]. intros e He. ev_in.
    + eapply Hmono; [by apply Hall|done|]. intros e He. ev_in.
Qed.

Lemma scrapeAll_Val ps acc crs (s s' : S) tr out :
  runs (scrapeAll (E := E) gauges ps acc crs s) tr (Val out, s') →
  acc ⊆ out ∧ ∀ cr p, cr ∈ crs → p ∈ ps →
    MP_SupportsStrategy p (Status_Strategy (CR_Status cr)) = true → scraped cr p out tr.
Proof.
  intros Hr. unfold scrapeAll in Hr.
  eapply (foldM_Val (λ cr out t, ∀ p, p ∈ ps →
    MP_SupportsStrategy p (Status_Strategy (CR_Status cr)) = true → scraped cr p out t) (⊆)) in Hr
    as [Hs Hall].
  - split; [done|]. intros cr p Hcr Hp. by apply Hall.
  - intros cr b b' t t' Hp Hb Ht p Hin Hsup. eapply scraped_incl; [by apply Hp|done|done].
  - intros b cr s0 t b' s0' H.
    eapply (foldM_Val (λ p out t,
      MP_SupportsStrategy p (Status_Strategy (CR_Status cr)) = true → scraped cr p out t) (⊆)) in H
      as [H1 H2]; [by split; [|intros; apply H2]| |].
    + intros p c c' u u' Hp Hb Ht Hsup. eapply scraped_incl; [by apply Hp|done|done].
    + intros c p s1 u c' s1' H1. by apply scrapeOne_Val in H1.
Qed.
End Scrape.

(** ** The reconcile *)

Definition redisNames : list string := gaugeNames redisGaugeMetrics.
Definition postgresNames : list string := gaugeNames postgresGaugeMetrics.
Lemma redisNames_NoDup : NoDup redisNames.
Proof. apply (bool_decide_unpack _). vm_compute. exact I. Qed.
Lemma postgresNames_NoDup : NoDup postgresNames.
Proof. apply (bool_decide_unpack _). vm_compute. exact I. Qed.
Lemma names_disjoint x : x ∈ redisNames → x ∉ postgresNames.
Proof.
  assert (Forall (λ x, x ∉ postgresNames) redisNames) as H by decide_closed.
  rewrite Forall_forall in H. apply H.
Qed.

(** The gauge of a name and label values after a run: what was set last. *)
Definition gaugeSet (name : string) (labels : list string) (e : event) : option float64 :=
  match (ev_call e : api_call) with
  | SetGauge n l v => if bool_decide (n = name ∧ l = labels) then Some v else None
  | _ => None
  end.
Definition gauge (tr : list event) (name : string) (labels : list string) : option float64 :=
  last (omap (gaugeSet name labels) tr).
(** The last scraped value of a name and label values. *)
Definition metricValue (name : string) (labels : list string) (m : option GenericCloudMetric)
  : option float64 :=
  m ← m; if bool_decide (GCM_Name m = name ∧ gaugeLabels m = labels) then Some (GCM_Value m) else None.
Definition lastValue (ms : ScrapeMetricsData) (name : string) (labels : list string)
  : option float64 := last (omap (metricValue name labels) ms).

Lemma omap_exposes names ms name labels : name ∈ names →
  omap (gaugeSet name labels) (concat (map (exposes names) ms)) = omap (metricValue name labels) ms.
Proof.
  intros Hn. induction ms as [|m ms IH]; [done|]. cbn [map concat]. rewrite omap_app, IH.
  destruct m as [m|]; [|done]. cbn. case_bool_decide as Em.
  - cbn. case_bool_decide; done.
  - cbn. rewrite bool_decide_false; [done|]. intros [Hx _]. by rewrite Hx in Em.
Qed.
Lemma omap_exposes_other names ms name labels : name ∉ names →
  omap (gaugeSet name labels) (concat (map (exposes names) ms)) = [].
Proof.
  intros Hn. induction ms as [|m ms IH]; [done|]. cbn [map concat]. rewrite omap_app, IH, app_nil_r.
  destruct m as [m|]; [|done]. cbn. case_bool_decide as Em; [|done].
  cbn. rewrite bool_decide_false; [done|]. by intros [<- _].
Qed.

Definition noGauge (c : call) : Prop :=
  match (c : api_call) with SetGauge _ _ _ => False | _ => True end.
Lemma noGauge_reads : reads_ok noGauge.
Proof. intros c. by destruct c. Qed.
#[export] Hint Resolve noGauge_reads : sat.
#[export] Hint Extern 1 (noGauge _) => exact I : sat.
Lemma omap_noGauge tr name labels :
  Forall (λ e, noGauge (ev_call e)) tr → omap (gaugeSet name labels) tr = [].
Proof.
  induction 1 as [|e tr He _ IH]; [done|]. cbn. rewrite IH. unfold gaugeSet.
  by destruct (ev_call e).
Qed.

(** The list of the Redis resources failed. *)
Definition redisListError (ev : event) : option error :=
  let 'Ev c r := ev in
  match (c : api_call) as c' return @resp api c' → option error with
  | ListCR Redis => λ r, match r with Er e => Some e | Ok _ => None end
  | _ => λ _, None
  end r.

Section Reconcile.
Context {S : Type} (rps pps : list (MetricsProvider S)).

(** What a successful reconcile did. *)
Lemma CloudMetrics_Reconcile_Val s tr res s' :
  runs (CloudMetrics_Reconcile rps pps s) tr (Val res, s') →
  ∃ crs pcrs out1 out2 s1 s2 t1 t2 a t3,
    tr = Ev (ListCR Redis) (Ok crs) :: t1 ++ concat (map (exposes redisNames) out1) ++
         Ev (ListCR Postgres) a :: t2 ++ concat (map (exposes postgresNames) out2) ++ t3 ∧
    pcrs = match a with Ok l => l | Er _ => [] end ∧
    runs (scrapeAll (E := error) redisGaugeMetrics rps [] crs s) t1 (Val out1, s1) ∧
    runs (scrapeAll (E := error) postgresGaugeMetrics pps out1 pcrs s1) t2 (Val out2, s2) ∧
    (∃ v, t3 = [Ev (LookupEnv EnvMetricsReconcileTimeout) v] ∧
       res = {| Requeue := false; RequeueAfter :=
         default MetricsWatchDuration (v ≫= ParseInt64) |}).
Proof.
  intros Hr. unfold CloudMetrics_Reconcile in Hr.
  apply runs_bind_Val in Hr as (t0 & crs & s0 & t & -> & H0 & Hr). run_val H0.
  apply runs_bind_Val in Hr as (t1 & out1 & s1 & t2 & -> & H1 & Hr).
  apply runs_bind_Val in Hr as (t3 & u & s2 & t4 & -> & H2 & Hr).
  apply (setGaugeMetrics_Val _ _ _ _ _ _ redisNames_NoDup) in H2 as [-> ->].
  inv_call Hr. destruct Hr as (a & t & -> & Hr). cbv zeta in Hr.
  apply runs_bind_Val in Hr as (t5 & out2 & s3 & t6 & -> & H3 & Hr).
  apply runs_bind_Val in Hr as (t7 & u' & s4 & t8 & -> & H4 & Hr).
  apply (setGaugeMetrics_Val _ _ _ _ _ _ postgresNames_NoDup) in H4 as [-> ->].
  unfold GetMetricReconcileTimeOrDefault in Hr.
  apply runs_bind_Val in Hr as (t9 & d & s5 & t10 & -> & H5 & Hr).
  apply runs_mret_Val in Hr as (-> & <- & ->). inv_call H5. destruct H5 as (v & t11 & -> & H5).
  exists crs, (match a with Ok l => l | Er _ => [] end), out1, out2, s1, s3, t1, t5, a,
    [@Ev api (LookupEnv EnvMetricsReconcileTimeout) v].
  split_and!.
  - rewrite app_nil_r. destruct v as [v|]; [destruct (ParseInt64 v)|];
      apply runs_mret_Val in H5 as (-> & _ & _); done.
  - done.
  - done.
  - by destruct a.
  - exists v. split; [done|]. f_equal.
    destruct v as [v|]; [cbn; destruct (ParseInt64 v)|];
      by apply runs_mret_Val in H5 as (_ & <- & _).
Qed.


(** the value of every gauge after a reconcile is the one that was scraped last for
    its name and labels, and a gauge for which nothing was scraped is not touched, when
    the providers leave the gauges alone. *)
Theorem CloudMetrics_gauges s tr res s' :
  (∀ p cr ts, p ∈ rps ++ pps → sat noGauge (λ _ _, True) (MP_Scrape p cr ts)) →
  runs (CloudMetrics_Reconcile rps pps s) tr (Val res, s') →
  ∃ out1 out2, out1 ⊆ out2 ∧
    (∀ name labels, name ∈ redisNames → gauge tr name labels = lastValue out1 name labels) ∧
    (∀ name labels, name ∈ postgresNames → gauge tr name labels = lastValue out2 name labels).
Proof.
  intros Hframe Hr. apply CloudMetrics_Reconcile_Val in Hr
    as (crs & pcrs & out1 & out2 & s1 & s2 & t1 & t2 & a & t3 & -> & Hp & H1 & H2 & v & -> & ->).
  assert (PreOrder (λ _ _ : S, True)) as HR by by split.
  assert (∀ gauges ps acc crs s0 t o s0', (∀ p, p ∈ ps → p ∈ rps ++ pps) →
    runs (scrapeAll (E := error) gauges ps acc crs s0) t (o, s0') →
    ∀ name labels, omap (gaugeSet name labels) t = []) as Hno.
  { intros gauges ps acc l s0 t o s0' Hps Hr name labels. apply omap_noGauge.
    assert (sat noGauge (λ _ _, True) (scrapeAll (E := error) gauges ps acc l)) as Hs
      by (unfold scrapeAll, scrapeOne; go_sat; auto).
    by apply Hs in Hr as [? _]. }
  assert (∀ p, p ∈ rps → p ∈ rps ++ pps) as Hl by (intros; apply elem_of_app; auto).
  assert (∀ p, p ∈ pps → p ∈ rps ++ pps) as Hr' by (intros; apply elem_of_app; auto).
  pose proof (Hno _ _ _ _ _ _ _ _ Hl H1) as N1. pose proof (Hno _ _ _ _ _ _ _ _ Hr' H2) as N2.
  apply scrapeAll_Val in H2 as [Hsub _].
  exists out1, out2. split; [done|].
  split; intros name labels Hn; unfold gauge, lastValue; f_equal; cbn;
    rewrite ?omap_app; cbn; rewrite ?omap_app, N1, N2; cbn.
  - rewrite omap_exposes by done.
    rewrite omap_exposes_other by (intros ?; by apply (names_disjoint name)).
    by rewrite !app_nil_r.
  - rewrite (omap_exposes_other redisNames) by (intros ?; by apply (names_disjoint name)).
    rewrite omap_exposes by done. by rewrite app_nil_r.
Qed.

(** a failed list of the Redis resources, the first call of a reconcile, ends it with
    that error: nothing is scraped and no gauge is set, those of Postgres included. *)
Theorem CloudMetrics_redis_list_error s ev tr out s' e :
  runs (CloudMetrics_Reconcile rps pps s) (ev :: tr) (out, s') →
  redisListError ev = Some e → tr = [] ∧ out = Err e ∧ s' = s.
Proof.
  intros Hr He. unfold CloudMetrics_Reconcile in Hr.
  apply runs_bind in Hr as [(t1 & l & s1 & t2 & Ht & H1 & _)|[(e' & H1 & ->)|(w & H1 & ->)]];
    inv_call H1.
  - destruct H1 as (a & -> & _ & Ha). injection Ht as -> ->. cbn in He. by destruct a.
  - destruct H1 as (a & [= -> ->] & -> & Ha). cbn in He. destruct a as [a|a]; [done|].
    injection He as ->. by injection Ha as ->.
  - destruct H1 as (a & _ & _ & Ha). by destruct a.
Qed.
End Reconcile.

(** ** CloudWatch *)

Section CloudWatch.
Context {S : Type} {E : Type}.

(** The metrics of a result that is complete, in its order; those of the results. *)
Definition resultMetrics (labels : gmap string string) (r : MetricDataResult) : ScrapeMetricsData :=
  if bool_decide (MDR_StatusCode r = Some StatusCodeComplete)
  then omap (λ v, n ← MDR_Id r; v ← v;
              Some (Some {| GCM_Name := n; GCM_Labels := labels; GCM_Value := v |})) (MDR_Values r)
  else [].

Lemma collectValues_Val labels id vs acc (s s' : S) tr out :
  runs (foldM (λ acc value,
        name ← deref id; value ← deref value;
        mret (acc ++ [Some {| GCM_Name := name; GCM_Labels := labels; GCM_Value := value |}]))
        acc vs s) tr (Val out : outcome E _, s') →
  tr = [] ∧ out = acc ++ omap (λ v, n ← id; v ← v;
    Some (Some {| GCM_Name := n; GCM_Labels := labels; GCM_Value := v |})) vs.
Proof.
  revert acc s tr. induction vs as [|v vs IH]; intros acc s tr Hr; simpl in Hr.
  - apply runs_mret_Val in Hr as (-> & -> & _). by rewrite app_nil_r.
  - apply runs_bind_Val in Hr as (t1 & acc' & s1 & t2 & -> & H1 & Hr). apply IH in Hr as [-> ->].
    run_val H1. subst. cbn. by rewrite <- app_assoc.
Qed.
Lemma collectMetrics_Val labels results acc (s s' : S) tr out :
  runs (collectMetrics labels acc results s) tr (Val out : outcome E _, s') →
  tr = [] ∧ out = acc ++ concat (map (resultMetrics labels) results).
Proof.
  revert acc s tr. induction results as [|r results IH]; intros acc s tr Hr;
    unfold collectMetrics in Hr; simpl in Hr.
  - apply runs_mret_Val in Hr as (-> & -> & _). by rewrite app_nil_r.
  - apply runs_bind_Val in Hr as (t1 & acc' & s1 & t2 & -> & H1 & Hr). apply IH in Hr as [-> ->].
    destruct (MDR_StatusCode r) as [c|] eqn:Ec; [|by run_val H1]. cbn [deref] in H1.
    rewrite runs_bind_mret in H1. cbn. unfold resultMetrics at 2. rewrite Ec.
    case_bool_decide as Hc.
    + apply runs_mret_Val in H1 as (-> & <- & _). rewrite bool_decide_false by congruence. done.
    + subst c. rewrite bool_decide_true by done.
      apply collectValues_Val in H1 as [-> ->]. by rewrite app_assoc.
Qed.

(** A query per metric, under its name. *)
Lemma buildMetricDataQuery_Val namespace dimension id ts (s s' : S) tr qs :
  runs (buildMetricDataQuery namespace dimension id ts s) tr (Val qs : outcome E _, s') →
  s' = s ∧ map MDQ_Id qs = map MT_PrometheusMetricName ts ∧
  Forall (λ q, MDQ_Namespace q = namespace ∧ MDQ_Dimension q = (dimension, id)) qs.
Proof.
  assert (∀ acc s tr qs, runs (foldM (λ queries t,
      d ← GetMetricReconcileTimeOrDefault MetricsWatchDuration;
      mret (queries ++ [{| MDQ_Id := MT_PrometheusMetricName t;
                           MDQ_MetricName := MT_ProviderMetricName t;
                           MDQ_Namespace := namespace; MDQ_Dimension := (dimension, id);
                           MDQ_Stat := MT_Statistic t;
                           MDQ_Period := int64_of_float (Duration_Seconds d) |}])) acc ts s) tr
      (Val qs : outcome E _, s') →
    s' = s ∧ ∃ new, qs = acc ++ new ∧ map MDQ_Id new = map MT_PrometheusMetricName ts ∧
      Forall (λ q, MDQ_Namespace q = namespace ∧ MDQ_Dimension q = (dimension, id)) new) as L.
  { induction ts as [|t ts IH]; intros acc s0 tr0 qs0 Hr; cbn [foldM] in Hr.
    - apply runs_mret_Val in Hr as (_ & <- & ->). split; [done|]. exists []. by rewrite app_nil_r.
    - apply runs_bind_Val in Hr as (t1 & acc' & s1 & t2 & -> & H1 & Hr).
      apply IH in Hr as [-> (new & -> & Hn & Hf)].
      assert (sat (λ _, True) eq (GetMetricReconcileTimeOrDefault (S := S) (E := E) MetricsWatchDuration)) as F
        by (unfold GetMetricReconcileTimeOrDefault; go_sat).
      apply runs_bind_Val in H1 as (t3 & d & s3 & t4 & -> & H3 & H1).
      apply F in H3 as [_ <-]. apply runs_mret_Val in H1 as (_ & <- & ->). split; [done|].
      rewrite <- app_assoc. eexists. split; [done|]. split; [cbn; by rewrite Hn|].
      constructor; [done|exact Hf]. }
  intros Hr. apply L in Hr as [-> (new & -> & Hn & Hf)]. done.
Qed.

Lemma lastValue_snoc labels (r : MetricDataResult) n vs v :
  MDR_StatusCode r = Some StatusCodeComplete → MDR_Id r = Some n →
  MDR_Values r = vs ++ [Some v] →
  ∀ ls, ls = map (λ l, default "" (labels !! l)) genericMetricLabelNames →
  lastValue (resultMetrics labels r) n ls = Some v.
Proof.
  intros Hst Hid Hvs ls Hls. unfold lastValue, resultMetrics.
  rewrite bool_decide_true, Hvs, omap_app, Hid by done. cbn [omap list_omap]. cbn.
  rewrite omap_app. cbn. rewrite bool_decide_true by done. by rewrite last_snoc.
Qed.
End CloudWatch.

Lemma genericLabels om cluster instance provider :
  map (λ l, default "" (BuildGenericMetricLabels om cluster instance provider !! l))
    genericMetricLabelNames =
  [cluster; Meta_Name om; Meta_Namespace om; instance; labelOf om "productName"; provider].
Proof. unfold BuildGenericMetricLabels. cbn. by simplify_map_eq. Qed.

Section Rds.
Context {S : Type} `{ThirdParty} (p : PostgresProvider).

Lemma scrapeRDS_Val cr ts (s s' : S) tr out :
  runs (scrapeRDSCloudWatchMetricData cr ts s) tr (Val out, s') →
  ∃ name cluster qs start stop results,
    Ev (GetMetricData qs start stop) (Ok (Some results)) ∈ tr ∧
    map MDQ_Id qs = map MT_PrometheusMetricName ts ∧
    Forall (λ q, MDQ_Namespace q = "AWS/RDS" ∧ MDQ_Dimension q = (cloudWatchRDSDBDimension, name)) qs ∧
    out = concat (map (resultMetrics
      (BuildGenericMetricLabels (CR_Meta cr) cluster name postgresProviderName)) results).
Proof.
  intros Hr. unfold scrapeRDSCloudWatchMetricData in Hr.
  apply runs_bind_Val in Hr as (t1 & name & s1 & t2 & -> & _ & Hr).
  apply runs_bind_Val in Hr as (t3 & qs & s2 & t4 & -> & H2 & Hr).
  apply buildMetricDataQuery_Val in H2 as (-> & Hids & Hq).
  apply runs_bind_Val in Hr as (t5 & results & s3 & t6 & -> & H3 & Hr).
  apply runs_onErr_Val in H3. unfold getMetricData in H3.
  apply runs_bind_Val in H3 as (t7 & now & s4 & t8 & -> & _ & H3).
  apply runs_bind_Val in H3 as (t9 & d & s5 & t10 & -> & _ & H3).
  apply runs_bind_Val in H3 as (t11 & now' & s6 & t12 & -> & _ & H3). run_val H3.
  apply runs_bind_Val in Hr as (t13 & cluster & s7 & t14 & -> & _ & Hr).
  destruct results as [[|r results]|]; [by run_val Hr| |by run_val Hr].
  apply collectMetrics_Val in Hr as [-> ->].
  exists name, cluster, qs. eexists _, _, (r :: results). split_and!; [ev_in|done..].
Qed.

End Rds.

(** ** The AWS providers leave the gauges alone *)

Lemma credentialCall_noGauge c : credentialCall c → noGauge c.
Proof. by destruct c. Qed.

Section Frames.
Context {S : Type} `{ThirdParty}.

Lemma ng_credentials m ns : sat noGauge eq (ReconcileProviderCredentials (S := S) m ns).
Proof. eapply sat_weaken; [apply cc_ReconcileProviderCredentials|apply credentialCall_noGauge]. Qed.
#[local] Hint Resolve ng_credentials : sat.
Lemma ng_collect {E} labels acc results :
  sat noGauge eq (collectMetrics (S := S) (E := E) labels acc results).
Proof. unfold collectMetrics. go_sat. Qed.
Lemma ng_queries {E} namespace dimension id ts :
  sat noGauge eq (buildMetricDataQuery (S := S) (E := E) namespace dimension id ts).
Proof. unfold buildMetricDataQuery, GetMetricReconcileTimeOrDefault. go_sat. Qed.
Lemma ng_data qs : sat noGauge eq (getMetricData (S := S) qs).
Proof. unfold getMetricData, GetMetricReconcileTimeOrDefault. go_sat. Qed.
#[local] Hint Resolve ng_collect ng_queries ng_data : sat.

Lemma aws_noGauge p q cr ts :
  sat noGauge eq (ScrapePostgresMetrics (S := S) p cr ts) ∧
  sat noGauge eq (ScrapeRedisMetrics (S := S) q cr ts).
Proof.
  split.
  - unfold ScrapePostgresMetrics, scrapeRDSCloudWatchMetricData, buildRDSMetricDataQuery. go_sat.
  - unfold ScrapeRedisMetrics, scrapeRedisCloudWatchMetricData, scrapeNode, buildRedisMetricDataQuery.
    go_sat.
Qed.
End Frames.
