(* ===== verification/SnapshotProps.v ===== *)
(** * Properties of the snapshots

    When a snapshot is created, when its resource is complete, and when its
    finalizer goes. *)
From S2P Require Import Prelude Effects GoNet GoStrings Json Api Resources Metrics.
From S2P Require Import Subnets ClusterVpc NetworkProvider NetworkProps AwsConfig AwsPostgres.
From S2P Require Import AwsRedis Controllers Snapshots Footprints ControllerProps.
Local Open Scope go_scope.

(** ** The calls of the parts *)

Definition anySnapshot : SnapshotCR → SnapshotCR → Prop := λ _ _, True.
#[export] Instance anySnapshot_preorder : PreOrder anySnapshot.
Proof. done. Qed.

(** Everything but creating and deleting a snapshot in the cloud. *)
Definition noSnapshot (c : call) : Prop :=
  match (c : api_call) with
  | CreateDBSnapshot _ _ _ | DeleteDBSnapshot _ | CreateSnapshot _ _ _ | DeleteSnapshot _ => False
  | _ => True
  end.
Lemma noSnapshot_reads : reads_ok noSnapshot.
Proof. intros c. by destruct c. Qed.
#[local] Hint Resolve noSnapshot_reads : sat.
#[local] Hint Extern 1 (noSnapshot _) => exact I : sat.
Lemma credentialCall_noSnapshot c : credentialCall c → noSnapshot c.
Proof. by destruct c. Qed.

(** Neither writing the resource nor creating or deleting a snapshot. *)
Definition quiet (c : call) : Prop :=
  noSnapshot c ∧
  match (c : api_call) with UpdateSnapshotCR _ | StatusUpdateSnapshotCR _ => False | _ => True end.
Lemma quiet_reads : reads_ok quiet.
Proof. intros c. by destruct c. Qed.
#[local] Hint Resolve quiet_reads : sat.
Lemma credentialCall_quiet c : credentialCall c → quiet c.
Proof. by destruct c. Qed.

Section Parts.
Context `{ThirdParty} (p : SnapshotProvider) {S : Type}.
Lemma cc_createSessionForResource ns rt tier :
  sat credentialCall eq (createSessionForResource p (S := S) ns rt tier).
Proof. unfold createSessionForResource. go_sat. Qed.
Lemma quiet_createSessionForResource ns rt tier :
  sat quiet eq (createSessionForResource p (S := S) ns rt tier).
Proof. eapply sat_weaken; [apply cc_createSessionForResource|apply credentialCall_quiet]. Qed.
Lemma ro_findPostgresSnapshot name : readonly (findPostgresSnapshot (S := S) name).
Proof. unfold findPostgresSnapshot. go_sat. Qed.
Lemma ro_findRedisSnapshot name : readonly (findRedisSnapshot (S := S) name).
Proof. unfold findRedisSnapshot. go_sat. Qed.
End Parts.
#[local] Hint Resolve ro_findPostgresSnapshot ro_findRedisSnapshot : sat.

Lemma ns_createSessionForResource `{ThirdParty} p ns rt tier :
  sat noSnapshot anySnapshot (createSessionForResource p ns rt tier).
Proof.
  apply sat_eq; [apply _|]. eapply sat_weaken; [apply cc_createSessionForResource|].
  apply credentialCall_noSnapshot.
Qed.
Lemma ns_CreateSnapshotFinalizer df : sat noSnapshot anySnapshot (CreateSnapshotFinalizer df).
Proof. unfold CreateSnapshotFinalizer. go_sat. Qed.
Lemma ns_recordSnapshotName : sat noSnapshot anySnapshot recordSnapshotName.
Proof. unfold recordSnapshotName. go_sat. Qed.
#[local] Hint Resolve ns_createSessionForResource ns_CreateSnapshotFinalizer
  ns_recordSnapshotName : sat.

(** ** Names *)

(** The name of the snapshot of a resource is fixed by the cluster and by when the
    resource was created. *)
Definition snapshotNameOf (infra : Infrastructure) (om : ObjectMeta) : string :=
  ShortenString (Infra_InfrastructureName infra +:+ "-" +:+ Meta_Namespace om +:+ "-"
                 +:+ Meta_Name om +:+ "-" +:+ itoa (Meta_CreationTimestamp om))
    defaultAwsIdentifierLength.

(** The status of [o] has the name [name] on record. *)
Definition recorded (o : SnapshotCR) (name : string) (tr : list event) : Prop :=
  ∃ infra o', Ev GetInfrastructure (Ok infra) ∈ tr ∧
    name = snapshotNameOf infra (Snapshot_Meta o) ∧
    Ev (StatusUpdateSnapshotCR (setSnapshotID name o)) (Ok o') ∈ tr.
Lemma recorded_incl o name t t' : recorded o name t → t ⊆ t' → recorded o name t'.
Proof. intros (infra & o' & ? & ? & ?) Hs. exists infra, o'. auto. Qed.

Lemma recordSnapshotName_Val o tr name o' :
  runs (recordSnapshotName o) tr (Val name, o') → recorded o name tr.
Proof.
  intros Hr. unfold recordSnapshotName in Hr. apply runs_bind_get in Hr.
  val_call (λ c : call, reads c = true) Hr n H1.
  unfold BuildTimestampedInfraNameFromObjectCreation, GetClusterID, GetClusterInfrastructure in H1.
  run_val H1. apply runs_bind_modify, runs_bind_get in Hr. run_val Hr.
  subst. eexists _, _. split_and!; [ev_in|reflexivity|ev_in].
Qed.

(** ** Looking a snapshot up *)

(** AWS answered that there is no snapshot of that name. *)
Definition absentDB (name : string) (tr : list event) : Prop :=
  (∃ l, Ev (DescribeDBSnapshots None (Some name)) (Ok l) ∈ tr ∧
     ∀ x, x ∈ l → Snap_DBSnapshotIdentifier x ≠ Some name) ∨
  (∃ e, Ev (DescribeDBSnapshots None (Some name)) (Er e) ∈ tr ∧
     aws_code e = Some "DBSnapshotNotFound").
Definition absentCache (name : string) (tr : list event) : Prop :=
  (∃ l, Ev (DescribeSnapshots None (Some name)) (Ok l) ∈ tr ∧
     ∀ x, x ∈ l → CS_SnapshotName x ≠ Some name) ∨
  (∃ e, Ev (DescribeSnapshots None (Some name)) (Er e) ∈ tr ∧
     aws_code e = Some "SnapshotNotFound").

Lemma findPostgresSnapshot_Val {S} name (s : S) tr found s' :
  runs (findPostgresSnapshot name s) tr (Val found, s') →
  match found with
  | None => absentDB name tr
  | Some x => Snap_DBSnapshotIdentifier x = Some name ∧
      ∃ l, Ev (DescribeDBSnapshots None (Some name)) (Ok l) ∈ tr ∧ x ∈ l
  end.
Proof.
  intros Hr. unfold findPostgresSnapshot in Hr. inv_call Hr. destruct Hr as (r & t & -> & Hr).
  destruct r as [l|e].
  - apply runs_lift_Val in Hr as (-> & Hf & _). destruct found as [x|].
    + apply findPtr_Some in Hf as [Hx Hn]. split; [done|]. exists l. split; [ev_in|done].
    + left. exists l. split; [ev_in|]. intros x Hx. by eapply findPtr_None.
  - case_bool_decide; [|by apply runs_fail_Val in Hr].
    apply runs_mret_Val in Hr as (-> & <- & _). right. exists e. split; [ev_in|done].
Qed.
Lemma findRedisSnapshot_Val {S} name (s : S) tr found s' :
  runs (findRedisSnapshot name s) tr (Val found, s') →
  match found with
  | None => absentCache name tr
  | Some x => CS_SnapshotName x = Some name ∧
      ∃ l, Ev (DescribeSnapshots None (Some name)) (Ok l) ∈ tr ∧ x ∈ l
  end.
Proof.
  intros Hr. unfold findRedisSnapshot in Hr. inv_call Hr. destruct Hr as (r & t & -> & Hr).
  destruct r as [l|e].
  - apply runs_lift_Val in Hr as (-> & Hf & _). destruct found as [x|].
    + apply findPtr_Some in Hf as [Hx Hn]. split; [done|]. exists l. split; [ev_in|done].
    + left. exists l. split; [ev_in|]. intros x Hx. by eapply findPtr_None.
  - case_bool_decide; [|by apply runs_fail_Val in Hr].
    apply runs_mret_Val in Hr as (-> & <- & _). right. exists e. split; [ev_in|done].
Qed.

Lemma runs_index_Val {S E A} (l : list A) i (s s' : S) tr a :
  runs (index (E := E) l i s) tr (Val a, s') → tr = [] ∧ l !! i = Some a ∧ s' = s.
Proof.
  unfold index. destruct (l !! i); intros Hr; [|by apply runs_panic_Val in Hr].
  by apply runs_mret_Val in Hr as (-> & -> & ->).
Qed.
Lemma primaryNode_Val {E} members name : primaryNode (E := E) members = Val name →
  (∃ n, n ∈ members ∧ NGM_CurrentRole n = Some "primary" ∧ NGM_CacheClusterId n = Some name) ∨
  (∀ n, n ∈ members → NGM_CurrentRole n ≠ Some "primary") ∧ name = "".
Proof.
  induction members as [|i rest IH]; cbn [primaryNode].
  { intros [= <-]. right. split; [|done]. by intros n ?%not_elem_of_nil. }
  destruct (NGM_CurrentRole i) as [role|] eqn:Er; [|done]. case_bool_decide as Hp.
  - subst role. unfold load. destruct (NGM_CacheClusterId i) as [c|] eqn:Ec; [|done].
    intros [= ->]. left. exists i. split; [by apply elem_of_cons; left|done].
  - intros [(n & Hn & ?)|[Hall ->]]%IH.
    + left. exists n. split; [by apply elem_of_cons; right|done].
    + right. split; [|done]. intros n [->|Hn]%elem_of_cons; [congruence|by apply Hall].
Qed.

(** ** Creating a snapshot *)

Section Create.
Context `{ThirdParty} (p : SnapshotProvider).

(** The session and the finalizer come first; then the name is put on record. *)
Lemma snapshotCreate_split (body : M SnapshotCR (string * error) (option string * string))
    ns rt tier msg o tr out o' c r :
  runs ((snapshot ← get;
    _ ← CreateSnapshotFinalizer DefaultFinalizer onError (msg snapshot);
    _ ← createSessionForResource p ns rt tier onError (wrapBoth "failed to create AWS session");
    body) o) tr (out, o') →
  Ev c r ∈ tr → ¬ noSnapshot c →
  ∃ t1 o1 t2, tr = t1 ++ t2 ∧ runs (body o1) t2 (out, o') ∧ Ev c r ∈ t2 ∧
    (is_Some (Meta_DeletionTimestamp (Snapshot_Meta o)) ∨
     Ev (UpdateSnapshotCR (setSnapshotMeta o (addFinalizer (Snapshot_Meta o) DefaultFinalizer)))
        (Ok o1) ∈ t1).
Proof.
  intros Hr He Hn. apply runs_bind_get in Hr.
  eapply (runs_bind_skip noSnapshot anySnapshot) in Hr as (t1 & u & o1 & t2 & -> & H1 & _ & Hr & Hin);
    [|exact He|go_sat|exact Hn].
  eapply (runs_bind_skip quiet eq) in Hr as (t3 & u' & o2 & t4 & -> & _ & <- & Hr & Hin');
    [|exact Hin|apply sat_onErr, quiet_createSessionForResource|intros X; by apply Hn, X].
  exists (t1 ++ t3), o1, t4. rewrite <- app_assoc. split_and!; try done.
  apply runs_onErr_Val in H1. unfold CreateSnapshotFinalizer in H1. apply runs_bind_get in H1.
  destruct (Meta_DeletionTimestamp (Snapshot_Meta o)) as [d|]; [left; by eexists|right].
  apply runs_bind_put in H1. run_val H1. ev_in.
Qed.


Lemma CreateRedisSnapshot_calls redis o tr out o' cluster snap tags r :
  runs (CreateRedisSnapshot p redis o) tr (out, o') →
  Ev (CreateSnapshot cluster snap tags) r ∈ tr →
  ∃ o1 name, snap = Some name ∧ recorded o1 name tr ∧ absentCache name tr ∧
    (∃ id g gs err ng ngs, Ev (DescribeReplicationGroup (Some id)) (Some (g :: gs), err) ∈ tr ∧
       RG_Status g = Some "available" ∧ RG_NodeGroups g = Some (ng :: ngs) ∧
       ((∃ n, n ∈ NG_NodeGroupMembers ng ∧ NGM_CurrentRole n = Some "primary" ∧
              NGM_CacheClusterId n = cluster) ∨
        (∀ n, n ∈ NG_NodeGroupMembers ng → NGM_CurrentRole n ≠ Some "primary") ∧
        cluster = Some "")).
Proof.
  intros Hr He. unfold CreateRedisSnapshot in Hr.
  eapply snapshotCreate_split in Hr as (t1 & o1 & t2 & -> & Hr & Hin & Hfin); [|exact He|exact id].
  clear He. unfold createRedisSnapshot in Hr.
  eapply (runs_bind_skip noSnapshot anySnapshot) in Hr as (t3 & name & o2 & t4 & -> & H1 & _ & Hr & He);
    [|exact Hin|go_sat|exact id]. clear Hin. apply recordSnapshotName_Val in H1.
  skip_reads Hr He gid H2. skip_reads Hr He found H3.
  apply runs_onErr_Val, findRedisSnapshot_Val in H3.
  inv_call Hr. destruct Hr as ([[groups|] err] & t9 & -> & Hr); cbv beta iota in Hr.
  2: { apply runs_fail in Hr as (-> & _). by apply list_elem_of_singleton, (f_equal ev_call) in He. }
  apply elem_of_cons in He as [He|He]; [by apply (f_equal ev_call) in He|].
  skip_reads Hr He g H4. apply runs_index_Val in H4 as (_ & Hg & _).
  skip_reads Hr He st H5. apply runs_deref_Val in H5 as (-> & Hst & _).
  case_bool_decide as Ha.
  { destruct err; [apply runs_fail in Hr as (-> & _)|apply runs_mret in Hr as (-> & _)];
      by apply not_elem_of_nil in He. }
  subst st.
  skip_reads Hr He ng H6. apply runs_index_Val in H6 as (_ & Hng & _).
  skip_reads Hr He cname H7. apply runs_lift_Val in H7 as (_ & Hp & _).
  apply primaryNode_Val in Hp.
  destruct found as [x|].
  { exfalso. refine (sat_no_event noSnapshot anySnapshot _ _ _ _ _ _ Hr He _). go_sat. }
  skip_reads Hr He dtags H8. inv_call Hr. destruct Hr as (a & t10 & -> & Hr).
  assert (cluster = Some cname ∧ snap = Some name) as [-> ->].
  { apply elem_of_cons in He as [He|He].
    - apply (f_equal ev_call) in He. by injection He.
    - exfalso. destruct Hr as [(e & _ & -> & _)|(b & _ & Hr)]; [by apply not_elem_of_nil in He|].
      apply runs_mret in Hr as (-> & _). by apply not_elem_of_nil in He. }
  exists o1, name. split_and!; try done.
  - eapply recorded_incl; [exact H1|]. intros y Hy. ev_in.
  - destruct H3 as [(l & ? & ?)|(e & ? & ?)]; [left; exists l|right; exists e]; (split; [ev_in|done]).
  - destruct groups as [|g' gs]; [done|]. injection Hg as ->.
    destruct (RG_NodeGroups g) as [[|ng' ngs]|] eqn:Egs; [done| |done]. injection Hng as ->.
    exists gid, g, gs, err, ng, ngs. split_and!; [ev_in|done|done|].
    destruct Hp as [(n & ? & ? & ?)|[? ->]]; [left; by exists n|by right].
Qed.

(** a snapshot of an ElastiCache cluster is created only after its name was put on
    record in the status, AWS answered that it has none of that name, and the
    replication group of the Redis resource is listed as available; it is taken of
    the first node that is listed as primary, or of a node without a name. *)
Theorem CreateRedisSnapshot_creates redis o tr out o' cluster snap tags r :
  runs (CreateRedisSnapshot p redis o) tr (out, o') →
  Ev (CreateSnapshot cluster snap tags) r ∈ tr →
  ∃ o1 name, snap = Some name ∧ recorded o1 name tr ∧ absentCache name tr ∧
    (∃ id g gs err ng ngs, Ev (DescribeReplicationGroup (Some id)) (Some (g :: gs), err) ∈ tr ∧
       RG_Status g = Some "available" ∧ RG_NodeGroups g = Some (ng :: ngs) ∧
       ((∃ n, n ∈ NG_NodeGroupMembers ng ∧ NGM_CurrentRole n = Some "primary" ∧
              NGM_CacheClusterId n = cluster) ∨
        (∀ n, n ∈ NG_NodeGroupMembers ng → NGM_CurrentRole n ≠ Some "primary") ∧
        cluster = Some "")).
Proof. apply CreateRedisSnapshot_calls. Qed.
Lemma CreateRedisSnapshot_absent redis o tr out o' cluster snap tags r :
  runs (CreateRedisSnapshot p redis o) tr (out, o') →
  Ev (CreateSnapshot cluster snap tags) r ∈ tr → ∃ name, absentCache name tr.
Proof.
  intros Hr He. eapply CreateRedisSnapshot_calls in Hr as (o1 & name & _ & _ & Ha & _); [|exact He].
  by exists name.
Qed.
End Create.

(** ** The answer of a provider *)

(** The snapshot was found as available under the recorded name. *)
Definition availableDB (name : string) (tr : list event) : Prop :=
  ∃ o n l s, recorded o n tr ∧ Ev (DescribeDBSnapshots None (Some n)) (Ok l) ∈ tr ∧ s ∈ l ∧
    Snap_DBSnapshotIdentifier s = Some n ∧ Snap_Status s = Some "available" ∧ name = n.
Definition availableCache (name : string) (tr : list event) : Prop :=
  ∃ o n l s, recorded o n tr ∧ Ev (DescribeSnapshots None (Some n)) (Ok l) ∈ tr ∧ s ∈ l ∧
    CS_SnapshotName s = Some n ∧ CS_SnapshotStatus s = Some "available" ∧ name = n.

(** What the controllers rely on: an answered snapshot is available, there is
    always a message, and the time to the next reconcile is only looked up. *)
Class SnapshotSpec (q : SnapshotResourceProvider) (available : string → list event → Prop) : Prop := {
  spec_available : ∀ cr o tr name msg o',
    runs (SRP_Create q cr o) tr (Val (Some name, msg), o') → available name tr;
  spec_create_message : ∀ cr o tr a msg o',
    runs (SRP_Create q cr o) tr (Val (a, msg), o') → msg ≠ "";
  spec_delete_message : ∀ cr o tr msg o',
    runs (SRP_Delete q cr o) tr (Val msg, o') → msg ≠ "";
  spec_time : ∀ o, readonly (SRP_GetReconcileTime q o);
  spec_incl : ∀ name t t', available name t → t ⊆ t' → available name t'
}.

Lemma ro_Snapshot_GetReconcileTime {S E} o :
  readonly (Snapshot_GetReconcileTime (S := S) (E := E) o).
Proof. unfold Snapshot_GetReconcileTime, GetForcedReconcileTimeOrDefault. go_sat. Qed.

Section Answer.
Context `{ThirdParty} (p : SnapshotProvider).

Lemma dropSnapshotFinalizer_Val o tr msg o' :
  runs (dropSnapshotFinalizer o) tr (Val msg, o') →
  msg = "snapshot deleted" ∧ ∃ om, RemoveFinalizer (Snapshot_Meta o) DefaultFinalizer = Some om ∧
    Ev (UpdateSnapshotCR (setSnapshotMeta o om)) (Ok o') ∈ tr.
Proof.
  intros Hr. unfold dropSnapshotFinalizer in Hr. apply runs_bind_get in Hr.
  destruct (RemoveFinalizer _ _) as [om|]; [|by apply runs_lift_Val in Hr as (_ & ? & _)].
  run_val Hr. split; [done|]. exists om. split; [done|ev_in].
Qed.

(** In every run the one update is the one that removes the finalizer. *)
Lemma dropSnapshotFinalizer_updates o tr out o' x r :
  runs (dropSnapshotFinalizer o) tr (out, o') → Ev (UpdateSnapshotCR x) r ∈ tr →
  ∃ om, RemoveFinalizer (Snapshot_Meta o) DefaultFinalizer = Some om ∧ x = setSnapshotMeta o om.
Proof.
  intros Hr He. unfold dropSnapshotFinalizer in Hr. apply runs_bind_get in Hr.
  destruct (RemoveFinalizer _ _) as [om|].
  2: { apply runs_lift in Hr as (-> & _). by apply not_elem_of_nil in He. }
  exists om. split; [done|]. apply runs_bind_put in Hr. inv_call Hr.
  destruct Hr as (a & t & -> & [(e & _ & -> & _)|(b & _ & [-> _])]);
    by apply list_elem_of_singleton, (f_equal ev_call) in He; injection He.
Qed.

#[export] Instance awsPostgresSnapshots_spec :
  SnapshotSpec (awsPostgresSnapshots p) availableDB.
Proof.
  split; cbn.
  - intros cr o tr name msg o' Hr. unfold CreatePostgresSnapshot, createPostgresSnapshot in Hr.
    apply runs_bind_get in Hr.
    apply runs_bind_Val in Hr as (t1 & u1 & o1 & t2 & -> & _ & Hr).
    apply runs_bind_Val in Hr as (t3 & u2 & o2 & t4 & -> & _ & Hr).
    apply runs_bind_Val in Hr as (t5 & n & o3 & t6 & -> & H1 & Hr).
    apply recordSnapshotName_Val in H1.
    val_call (λ c : call, reads c = true) Hr iname H2.
    val_call (λ c : call, reads c = true) Hr found H3.
    apply runs_onErr_Val, findPostgresSnapshot_Val in H3.
    destruct found as [s|]; [|run_val Hr; simplify_eq].
    destruct H3 as [Hn (l & Hl & Hs)]. run_val Hr; simplify_eq.
    match goal with H : bool_decide _ = true |- _ => apply bool_decide_eq_true in H end. subst.
    exists o2, n, l, s. split_and!; try done; [|ev_in].
    eapply recorded_incl; [exact H1|]. intros y Hy. ev_in.
  - intros cr o tr a msg o' Hr. unfold CreatePostgresSnapshot, createPostgresSnapshot in Hr.
    run_val Hr; simplify_eq; done.
  - intros cr o tr msg o' Hr. unfold DeletePostgresSnapshot, deletePostgresSnapshot in Hr.
    run_val Hr; simplify_eq; try done.
    match goal with H : runs (dropSnapshotFinalizer _) _ _ |- _ =>
      by apply dropSnapshotFinalizer_Val in H as [-> _] end.
  - intros o. apply ro_Snapshot_GetReconcileTime.
  - intros name t t' (o & n & l & s & Hrec & Hl & ?) Hs. exists o, n, l, s.
    split; [by eapply recorded_incl|]. split; [by apply Hs|done].
Qed.

#[export] Instance awsRedisSnapshots_spec : SnapshotSpec (awsRedisSnapshots p) availableCache.
Proof.
  split; cbn.
  - intros cr o tr name msg o' Hr. unfold CreateRedisSnapshot, createRedisSnapshot in Hr.
    apply runs_bind_get in Hr.
    apply runs_bind_Val in Hr as (t1 & u1 & o1 & t2 & -> & _ & Hr).
    apply runs_bind_Val in Hr as (t3 & u2 & o2 & t4 & -> & _ & Hr).
    apply runs_bind_Val in Hr as (t5 & n & o3 & t6 & -> & H1 & Hr).
    apply recordSnapshotName_Val in H1.
    val_call (λ c : call, reads c = true) Hr iname H2.
    val_call (λ c : call, reads c = true) Hr found H3.
    apply runs_onErr_Val, findRedisSnapshot_Val in H3.
    destruct found as [s|]; [|run_val Hr; simplify_eq].
    destruct H3 as [Hn (l & Hl & Hs)]. run_val Hr; simplify_eq.
    match goal with H : bool_decide (_ = _) = true |- _ => apply bool_decide_eq_true in H end. subst.
    exists o2, n, l, s. split_and!; try done; [|ev_in].
    eapply recorded_incl; [exact H1|]. intros y Hy. ev_in.
  - intros cr o tr a msg o' Hr. unfold CreateRedisSnapshot, createRedisSnapshot in Hr.
    run_val Hr; simplify_eq; done.
  - intros cr o tr msg o' Hr. unfold DeleteRedisSnapshot, deleteRedisSnapshot in Hr.
    run_val Hr; simplify_eq; try done.
    match goal with H : runs (dropSnapshotFinalizer _) _ _ |- _ =>
      by apply dropSnapshotFinalizer_Val in H as [-> _] end.
  - intros o. apply ro_Snapshot_GetReconcileTime.
  - intros name t t' (o & n & l & s & Hrec & Hl & ?) Hs. exists o, n, l, s.
    split; [by eapply recorded_incl|]. split; [by apply Hs|done].
Qed.
End Answer.

(** ** The controllers *)

(** The status writes of a run, in order. *)
Definition snapshotWrites (tr : list event) : list SnapshotCR :=
  omap (λ e, match (ev_call e : api_call) with StatusUpdateSnapshotCR o => Some o | _ => None end) tr.
Lemma snapshotWrites_app t1 t2 : snapshotWrites (t1 ++ t2) = snapshotWrites t1 ++ snapshotWrites t2.
Proof. apply omap_app. Qed.
(** Calls that do not write the status. *)
Definition noWrite (c : call) : Prop :=
  match (c : api_call) with StatusUpdateSnapshotCR _ => False | _ => True end.
Lemma noWrite_reads : reads_ok noWrite.
Proof. intros c. by destruct c. Qed.
#[local] Hint Resolve noWrite_reads : sat.
#[local] Hint Extern 1 (noWrite _) => exact I : sat.
Lemma snapshotWrites_sat {S E A} (R : S → S → Prop) (m : M S E A) s tr o s' :
  runs (m s) tr (o, s') → sat noWrite R m → snapshotWrites tr = [].
Proof.
  intros Hr Hm. apply Hm in Hr as [Hr _]. induction Hr as [|e tr He _ IH]; [done|].
  cbn. unfold snapshotWrites in IH. rewrite IH. by destruct (ev_call e).
Qed.

Lemma UpdateSnapshotPhase_runs phase msg o tr u o' :
  runs (UpdateSnapshotPhase phase msg o) tr (Val u, o') →
  msg ≠ "" → snapshotWrites tr = [setSnapshotPhase phase msg o].
Proof.
  intros Hr Hm. unfold UpdateSnapshotPhase in Hr. rewrite bool_decide_false in Hr by done.
  apply runs_bind_modify, runs_bind_get in Hr. inv_call Hr.
  destruct Hr as (a & t & -> & [(e & _ & _ & ? & _)|(b & _ & Hr)]); [done|].
  by destruct Hr as [-> _].
Qed.

Section Controllers.
Context (q : SnapshotResourceProvider) (available : string → list event → Prop)
  `{!SnapshotSpec q available}.

Lemma requeueSnapshot_Val o tr res o' :
  runs (requeueSnapshot q o) tr (Val res, o') → snapshotWrites tr = [].
Proof.
  intros Hr. eapply (snapshotWrites_sat anySnapshot); [exact Hr|]. unfold requeueSnapshot.
  apply sat_bind; [apply _|go_sat|intros i]. apply sat_bind; [apply _| |intros; go_sat].
  apply sat_eq; [apply _|]. eapply sat_weaken; [apply spec_time|]. apply noWrite_reads.
Qed.

(** What the last write says: the object is complete only with a snapshot. *)
Definition lastWrite (tr : list event) : Prop :=
  ∃ w x, snapshotWrites tr = w ++ [x] ∧
    (SS_Phase (Snapshot_Status x) = PhaseComplete → ∃ name, available name tr).

Lemma lastWrite_after t1 t2 : lastWrite t2 → lastWrite (t1 ++ t2).
Proof.
  intros (w & x & Hw & Hx). exists (snapshotWrites t1 ++ w), x.
  rewrite snapshotWrites_app, Hw, app_assoc. split; [done|].
  intros Hp. destruct (Hx Hp) as [name Hn]. exists name.
  eapply spec_incl; [exact Hn|]. intros y Hy. ev_in.
Qed.
Lemma lastWrite_cons e t : lastWrite t → lastWrite (e :: t).
Proof. apply (lastWrite_after [e]). Qed.
Lemma lastWrite_before t1 t2 : snapshotWrites t2 = [] → lastWrite t1 → lastWrite (t1 ++ t2).
Proof.
  intros H2 (w & x & Hw & Hx). exists w, x. rewrite snapshotWrites_app, Hw, H2, app_nil_r.
  split; [done|]. intros Hp. destruct (Hx Hp) as [name Hn]. exists name.
  eapply spec_incl; [exact Hn|]. intros y Hy. ev_in.
Qed.

Lemma reconcileSnapshotDelete_lastWrite cr err o tr res o' :
  runs (reconcileSnapshotDelete q cr err o) tr (Val res, o') → lastWrite tr.
Proof.
  intros Hr. unfold reconcileSnapshotDelete in Hr.
  apply runs_bind_Val in Hr as (t1 & r & o1 & t2 & -> & H1 & Hr). apply runs_try_Val in H1.
  destruct r as [msg|[msg e]]; [|by run_val Hr].
  apply runs_bind_Val in Hr as (t3 & u & o3 & t4 & -> & H3 & Hr).
  apply lastWrite_after, lastWrite_before; [by eapply requeueSnapshot_Val|].
  apply UpdateSnapshotPhase_runs in H3; [|by eapply spec_delete_message].
  exists [], (setSnapshotPhase PhaseDeleteInProgress msg o1). by split; [rewrite H3|].
Qed.

Lemma reconcileSnapshotCreate_lastWrite cr assign o tr res o' :
  runs (reconcileSnapshotCreate q cr assign o) tr (Val res, o') → lastWrite tr.
Proof.
  intros Hr. unfold reconcileSnapshotCreate in Hr.
  apply runs_bind_Val in Hr as (t1 & r & o1 & t2 & -> & H1 & Hr). apply runs_try_Val in H1.
  destruct r as [[[name|] msg]|[msg e]]; [| |by run_val Hr].
  - apply runs_bind_modify in Hr.
    apply runs_bind_Val in Hr as (t3 & u & o3 & t4 & -> & H3 & Hr). rewrite app_assoc.
    apply lastWrite_before; [by eapply requeueSnapshot_Val|].
    apply UpdateSnapshotPhase_runs in H3; [|by eapply spec_create_message].
    exists (snapshotWrites t1), (setSnapshotPhase PhaseComplete msg (assign msg o1)).
    rewrite snapshotWrites_app, H3. split; [done|]. intros _. exists name.
    eapply spec_incl; [by eapply spec_available|]. intros y Hy. ev_in.
  - apply runs_bind_Val in Hr as (t3 & u & o3 & t4 & -> & H3 & Hr).
    apply lastWrite_after, lastWrite_before; [by eapply requeueSnapshot_Val|].
    apply UpdateSnapshotPhase_runs in H3; [|by eapply spec_create_message].
    exists [], (setSnapshotPhase PhaseInProgress msg o1). by split; [rewrite H3|].
Qed.
End Controllers.

Lemma metrics_noWrite {E} name labels (o : SnapshotCR) :
  sat noWrite eq (exposeSnapshotMetrics (S := SnapshotCR) (E := E) name labels o).
Proof. unfold exposeSnapshotMetrics. go_sat. Qed.

Lemma reconcileFetched_last k metrics body name ns available o tr res o' :
  (∀ i, sat noWrite eq (metrics i)) →
  (∀ s t r s', runs (body s) t (Val r, s') → snapshotWrites t = [] ∨ lastWrite available t) →
  (∀ name t t', available name t → t ⊆ t' → available name t') →
  runs (reconcileFetched k metrics body name ns o) tr (Val res, o') →
  ∀ x, last (snapshotWrites tr) = Some x → SS_Phase (Snapshot_Status x) = PhaseComplete →
  ∃ name, available name tr.
Proof.
  intros Hm Hb Hincl Hr x Hlast Hx. unfold reconcileFetched in Hr. inv_call Hr.
  destruct Hr as (r & t & -> & Hr). destruct r as [i|e].
  2: { destruct (IsNotFound e); [|by apply runs_fail_Val in Hr].
       by apply runs_mret_Val in Hr as (-> & _). }
  apply runs_bind_put in Hr.
  apply runs_defer in Hr as (t1 & o1 & s1 & t2 & o2 & -> & H1 & H2 & Ho).
  assert (o1 = Val res) as -> by (by destruct o2). clear Ho.
  assert (snapshotWrites t2 = []) as W2.
  { eapply (snapshotWrites_sat eq); [exact H2|]. apply sat_bind; [apply _|go_sat|intros; apply Hm]. }
  change (last (snapshotWrites (t1 ++ t2)) = Some x) in Hlast.
  rewrite snapshotWrites_app, W2, app_nil_r in Hlast.
  destruct (Hb _ _ _ _ H1) as [W|(w & y & W & Hy)]; rewrite W in Hlast; [done|].
  rewrite last_snoc in Hlast. injection Hlast as ->. destruct (Hy Hx) as [n Hn].
  exists n. eapply Hincl; [exact Hn|]. intros z Hz. ev_in.
Qed.

Section Reconcile.
Context `{ThirdParty} (p : SnapshotProvider).


(** the same for a Redis snapshot; one that is complete already is left alone. *)
Theorem RedisSnapshot_complete name ns o tr res o' x :
  runs (RedisSnapshot_Reconcile (awsRedisSnapshots p) name ns o) tr (Val res, o') →
  last (snapshotWrites tr) = Some x → SS_Phase (Snapshot_Status x) = PhaseComplete →
  ∃ snap, availableCache snap tr.
Proof.
  intros Hr. eapply (reconcileFetched_last _ _ _ _ _ availableCache); [| | |exact Hr].
  - intros i. apply metrics_noWrite.
  - clear Hr. intros s t r s' Hr. unfold reconcileRedisSnapshot in Hr.
    apply runs_bind_get in Hr. inv_call Hr. destruct Hr as (a & t1 & -> & Hr).
    destruct a as [cr|e]; [|by run_val Hr].
    destruct (negb _); [by run_val Hr|].
    destruct (Meta_DeletionTimestamp _).
    { right. apply (lastWrite_cons (awsRedisSnapshots p) availableCache).
      eapply (reconcileSnapshotDelete_lastWrite (awsRedisSnapshots p) availableCache); exact Hr. }
    case_bool_decide.
    + left. exact (requeueSnapshot_Val (awsRedisSnapshots p) availableCache _ _ _ _ Hr).
    + right. apply (lastWrite_cons (awsRedisSnapshots p) availableCache).
      eapply (reconcileSnapshotCreate_lastWrite (awsRedisSnapshots p) availableCache); exact Hr.
  - apply (spec_incl (q := awsRedisSnapshots p)).
Qed.

(** ** Deleting a snapshot *)

Lemma DeletePostgresSnapshot_updates postgres o tr out o' x r :
  runs (DeletePostgresSnapshot p postgres o) tr (out, o') → Ev (UpdateSnapshotCR x) r ∈ tr →
  absentDB (SS_SnapshotID (Snapshot_Status o)) tr ∧
  ∃ om, RemoveFinalizer (Snapshot_Meta o) DefaultFinalizer = Some om ∧ x = setSnapshotMeta o om.
Proof.
  intros Hr He. unfold DeletePostgresSnapshot, deletePostgresSnapshot in Hr.
  eapply (runs_bind_skip quiet eq) in Hr as (t1 & u & o1 & t2 & -> & _ & <- & Hr & Hin);
    [|exact He|apply sat_onErr, quiet_createSessionForResource|intros X; apply X].
  clear He. apply runs_bind_get in Hr. skip_reads Hr Hin found H3.
  apply runs_onErr_Val, findPostgresSnapshot_Val in H3. destruct found as [s|].
  { exfalso. refine (sat_no_event (λ c : call, match (c : api_call) with
      UpdateSnapshotCR _ => False | _ => True end) anySnapshot _ _ _ _ _ _ Hr Hin _). go_sat. }
  split; [|by eapply dropSnapshotFinalizer_updates].
  destruct H3 as [(l & ? & ?)|(e & ? & ?)]; [left; exists l|right; exists e]; (split; [ev_in|done]).
Qed.
Lemma DeleteRedisSnapshot_updates redis o tr out o' x r :
  runs (DeleteRedisSnapshot p redis o) tr (out, o') → Ev (UpdateSnapshotCR x) r ∈ tr →
  absentCache (SS_SnapshotID (Snapshot_Status o)) tr ∧
  ∃ om, RemoveFinalizer (Snapshot_Meta o) DefaultFinalizer = Some om ∧ x = setSnapshotMeta o om.
Proof.
  intros Hr He. unfold DeleteRedisSnapshot, deleteRedisSnapshot in Hr.
  eapply (runs_bind_skip quiet eq) in Hr as (t1 & u & o1 & t2 & -> & _ & <- & Hr & Hin);
    [|exact He|apply sat_onErr, quiet_createSessionForResource|intros X; apply X].
  clear He. apply runs_bind_get in Hr. skip_reads Hr Hin found H3.
  apply runs_onErr_Val, findRedisSnapshot_Val in H3. destruct found as [s|].
  { exfalso. refine (sat_no_event (λ c : call, match (c : api_call) with
      UpdateSnapshotCR _ => False | _ => True end) anySnapshot _ _ _ _ _ _ Hr Hin _). go_sat. }
  split; [|by eapply dropSnapshotFinalizer_updates].
  destruct H3 as [(l & ? & ?)|(e & ? & ?)]; [left; exists l|right; exists e]; (split; [ev_in|done]).
Qed.

(** the finalizer of a snapshot is removed, which is the only change a deletion
    makes to the resource, only when AWS answered that there is no snapshot of the
    name on record. *)
Theorem snapshot_finalizer cr o tr out o' x r :
  Ev (UpdateSnapshotCR x) r ∈ tr →
  (runs (DeletePostgresSnapshot p cr o) tr (out, o') →
   absentDB (SS_SnapshotID (Snapshot_Status o)) tr ∧
   ∃ om, RemoveFinalizer (Snapshot_Meta o) DefaultFinalizer = Some om ∧ x = setSnapshotMeta o om) ∧
  (runs (DeleteRedisSnapshot p cr o) tr (out, o') →
   absentCache (SS_SnapshotID (Snapshot_Status o)) tr ∧
   ∃ om, RemoveFinalizer (Snapshot_Meta o) DefaultFinalizer = Some om ∧ x = setSnapshotMeta o om).
Proof.
  intros He. split; intros Hr;
    [by eapply DeletePostgresSnapshot_updates|by eapply DeleteRedisSnapshot_updates].
Qed.

(** ** What goes wrong *)

(** Everything but reading a resource. *)
Definition noGetCR (c : call) : Prop :=
  match (c : api_call) with GetCR _ _ _ => False | _ => True end.

(** a snapshot whose strategy no provider supports is never marked as failed:
    [UpdatePhase] cannot read the status of a snapshot, so nothing is written and
    the reconcile does not succeed. *)
Theorem PostgresSnapshot_unsupported ps watchNs ns o tr out o' cr :
  runs (reconcilePostgresSnapshot ps watchNs ns o) tr (out, o') →
  Ev (GetCR Postgres (Snapshot_ResourceName o) (Meta_Namespace (Snapshot_Meta o))) (Ok cr) ∈ tr →
  SS_Strategy (Snapshot_Status o) ≠ "" →
  (∀ q, q ∈ ps → SRP_SupportsStrategy q (SS_Strategy (Snapshot_Status o)) = false) →
  snapshotWrites tr = [] ∧ ∀ res, out ≠ Val res.
Proof.
  intros Hr He Hs Hps. unfold reconcilePostgresSnapshot in Hr. apply runs_bind_get in Hr.
  inv_call Hr. destruct Hr as (a & t & -> & Hr). destruct a as [cr'|e].
  2: { exfalso. apply elem_of_cons in He as [He|He].
       - by apply (f_equal (λ e : event, match e with Ev c r =>
           match c as c' return @resp api c' → option (result CR) with
           | GetCR _ _ _ => Some | _ => λ _, None end r end)) in He.
       - refine (sat_no_event noGetCR anySnapshot _ _ _ _ _ _ Hr He _).
         unfold UpdateSnapshotPhase. go_sat. }
  assert (∀ tr' m, runs ((m : M SnapshotCR error ctrl_Result) o) tr' (out, o') →
    sat noWrite eq m → (∀ s t v s', ¬ runs (m s) t (Val v, s')) →
    snapshotWrites tr' = [] ∧ ∀ res, out ≠ Val res) as G.
  { intros tr' m Hm Hsat Hno. split; [by eapply snapshotWrites_sat|].
    intros res ->. by eapply Hno. }
  change (snapshotWrites t = [] ∧ ∀ res, out ≠ Val res).
  eapply G; [exact Hr| |].
  - apply sat_bind; [apply _|eapply sat_weaken; [apply sat_try, ro_GetStrategyMapping|apply noWrite_reads]|].
    intros m. unfold UpdatePhaseOfSnapshot. destruct m as [dsm|e]; [|go_sat]. cbv zeta.
    rewrite bool_decide_true by done. destruct (List.find _ _) as [q|] eqn:Eq; [|go_sat].
    apply find_Some_In in Eq as [Hq Hq']. by rewrite Hps in Hq'.
  - intros s t' v s' Hv. apply runs_bind_Val in Hv as (t1 & m & s1 & t2 & -> & _ & Hv).
    cbv zeta in Hv. rewrite bool_decide_true in Hv by done. destruct m as [dsm|e]; [|by run_val Hv].
    destruct (List.find _ _) as [q|] eqn:Eq; [|by run_val Hv].
    apply find_Some_In in Eq as [Hq Hq']. by rewrite Hps in Hq'.
Qed.

(** ElastiCache answers every look-up of a snapshot with the code for a snapshot that
    does not exist. *)
Definition answersFault (tr : list event) : Prop :=
  ∀ name a, Ev (DescribeSnapshots None name) a ∈ tr →
    ∃ e, a = Er e ∧ aws_code e = Some "SnapshotNotFoundFault".
Lemma absentCache_fault name t tr : absentCache name t → t ⊆ tr → answersFault tr → False.
Proof.
  intros [(l & Hl & _)|(e & He & Hc)] Hs Hf.
  - by apply Hs, Hf in Hl as (e & ? & _).
  - apply Hs, Hf in He as (e' & [= ->] & ?). congruence.
Qed.
Lemma findRedisSnapshot_fault {S} name (s : S) t found s' tr :
  runs (findRedisSnapshot name s) t (Val found, s') → t ⊆ tr → answersFault tr → False.
Proof.
  intros Hr%findRedisSnapshot_Val Hs Hf. destruct found as [x|].
  - destruct Hr as (_ & l & Hl & _). by apply Hs, Hf in Hl as (e & ? & _).
  - by eapply absentCache_fault.
Qed.

(** ElastiCache answers a look-up of a snapshot that does not exist with the code
    SnapshotNotFoundFault, which is not the code the provider compares with: while
    it does so, no snapshot is created, no deletion removes the finalizer, and
    neither succeeds. *)
Theorem RedisSnapshot_not_found redis o :
  (∀ tr out o', runs (CreateRedisSnapshot p redis o) tr (out, o') → answersFault tr →
     (∀ a, out ≠ Val a) ∧ ∀ c s ts r, Ev (CreateSnapshot c s ts) r ∉ tr) ∧
  (∀ tr out o', runs (DeleteRedisSnapshot p redis o) tr (out, o') → answersFault tr →
     (∀ a, out ≠ Val a) ∧ ∀ x r, Ev (UpdateSnapshotCR x) r ∉ tr).
Proof.
  split; intros tr out o' Hr Hf; split.
  - intros a ->. unfold CreateRedisSnapshot, createRedisSnapshot in Hr. apply runs_bind_get in Hr.
    apply runs_bind_Val in Hr as (t1 & u1 & o1 & t2 & -> & _ & Hr).
    apply runs_bind_Val in Hr as (t3 & u2 & o2 & t4 & -> & _ & Hr).
    apply runs_bind_Val in Hr as (t5 & n & o3 & t6 & -> & _ & Hr).
    apply runs_bind_Val in Hr as (t7 & gid & o4 & t8 & -> & _ & Hr).
    apply runs_bind_Val in Hr as (t9 & found & o5 & t10 & -> & H1 & _).
    apply runs_onErr_Val in H1. eapply findRedisSnapshot_fault; [exact H1| |exact Hf].
    intros y Hy. ev_in.
  - intros c s ts r He. eapply CreateRedisSnapshot_absent in Hr as [name Hn]; [|exact He].
    by eapply absentCache_fault.
  - intros a ->. unfold DeleteRedisSnapshot, deleteRedisSnapshot in Hr.
    apply runs_bind_Val in Hr as (t1 & u1 & o1 & t2 & -> & _ & Hr). apply runs_bind_get in Hr.
    apply runs_bind_Val in Hr as (t9 & found & o5 & t10 & -> & H1 & _).
    apply runs_onErr_Val in H1. eapply findRedisSnapshot_fault; [exact H1| |exact Hf].
    intros y Hy. ev_in.
  - intros x r He. eapply DeleteRedisSnapshot_updates in Hr as [Hn _]; [|exact He].
    by eapply absentCache_fault.
Qed.
End Reconcile.
