(* ===== verification/GcpSnapshotProps.v ===== *)
(** * Snapshots of Cloud SQL: properties

    Which snapshots the schedule of an instance asks for and removes, when a database is
    exported and a snapshot complete, and when its finalizer goes. *)
From S2P Require Import Prelude Effects GoStrings GoSort Json GcpApi Api Resources.
From S2P Require Import AwsConfig Snapshots Footprints ControllerProps SnapshotProps.
From S2P Require Import GcpConfig GcpSnapshots GcpPostgres.
From S2P Require Import GcpNetworkProps GcpRedisProps GcpPostgresProps.
From stdpp Require Import sorting.
Local Open Scope go_scope.

(** ** The newest snapshot *)

Lemma find_sorted {A} (key : A → Z) (q : A → bool) l x :
  StronglySorted (λ x y, (key y <= key x)%Z) l → List.find q l = Some x →
  x ∈ l ∧ q x = true ∧ ∀ y, y ∈ l → q y = true → (key y <= key x)%Z.
Proof.
  induction 1 as [|z l _ IH Hz]; cbn; [done|]. destruct (q z) eqn:Eq.
  - intros [= ->]. split_and!; [apply list_elem_of_here|done|].
    intros y [->|Hy]%elem_of_cons _; [done|]. rewrite Forall_forall in Hz. by apply Hz.
  - intros (Hx & Hq & Hm)%IH. split_and!; [by apply list_elem_of_further|done|].
    intros y [->|Hy]%elem_of_cons Hy'; [congruence|]. by apply Hm.
Qed.

(** An event of a loop is one of an iteration. *)
Lemma runs_forM_event {S E A} (l : list A) (body : A → M S E unit) (s : S) tr o s' e :
  runs (forM l body s) tr (o, s') → e ∈ tr →
  ∃ x t s1 o1 s2, x ∈ l ∧ t ⊆ tr ∧ runs (body x s1) t (o1, s2) ∧ e ∈ t.
Proof.
  revert s tr. induction l as [|y l IH]; intros s tr Hr He; cbn [forM] in Hr.
  { apply runs_mret in Hr as (-> & _). by apply not_elem_of_nil in He. }
  assert (∀ t o1 s1, t ⊆ tr → runs (body y s) t (o1, s1) → e ∈ t →
    ∃ x t s1 o1 s2, x ∈ y :: l ∧ t ⊆ tr ∧ runs (body x s1) t (o1, s2) ∧ e ∈ t) as Hhead.
  { intros t o1 s1 Ht H1 Hin. exists y, t, s, o1, s1. split_and!; try done. apply list_elem_of_here. }
  apply runs_bind in Hr as [(t1 & u & s1 & t2 & -> & H1 & Hr)|[(w & H1 & _)|(w & H1 & _)]];
    [|by eapply Hhead..].
  apply elem_of_app in He as [He|He].
  - eapply Hhead; [|exact H1|exact He]. intros z Hz. ev_in.
  - destruct (IH _ _ Hr He) as (x & t & s3 & o1 & s4 & Hx & Ht & H2 & Hin).
    exists x, t, s3, o1, s4. split_and!; [by apply list_elem_of_further| |done..].
    intros z Hz. apply Ht in Hz. ev_in.
Qed.

(** The snapshots of a resource, as the list of a namespace has them. *)
Definition snapshotsOf (name : string) (l : list SnapshotCR) : list SnapshotCR :=
  filter (λ s, Snapshot_ResourceName s = name) l.
Definition snapshotsSeen (name ns : string) (snaps : list SnapshotCR) (tr : list event) : Prop :=
  ∃ l, Ev (ListSnapshotCR Postgres ns) (Ok l) ∈ tr ∧ snaps = snapshotsOf name l.
Lemma snapshotsSeen_incl name ns snaps t tr :
  snapshotsSeen name ns snaps t → t ⊆ tr → snapshotsSeen name ns snaps tr.
Proof. intros (l & Hl & Hs) Ht. exists l. split; [by apply Ht|done]. Qed.

(** The newest complete snapshot of those. *)
Definition newestComplete (latest : SnapshotCR) (snaps : list SnapshotCR) : Prop :=
  latest ∈ snaps ∧ isComplete latest = true ∧
  ∀ y, y ∈ snaps → isComplete y = true → (createdAt y <= createdAt latest)%Z.

Section Lists.
Context {S : Type}.
Lemma getAllSnapshots_Val name ns (s : S) tr snaps s' :
  runs (getAllSnapshotsForInstance name ns s) tr (Val snaps, s') → snapshotsSeen name ns snaps tr.
Proof.
  intros Hr. unfold getAllSnapshotsForInstance in Hr.
  apply runs_bind_Val in Hr as (t1 & l & s1 & t2 & -> & H1 & Hr).
  inv_call H1. destruct H1 as (r & -> & _ & Ho). destruct r as [l'|]; [|done].
  injection Ho as <-.
  apply runs_mret_Val in Hr as (_ & <- & _). exists l. split; [ev_in|].
  unfold snapshotsOf. induction l as [|x l IH]; [done|]. rewrite filter_cons. cbn.
  case_bool_decide; case_decide; try done. by f_equal.
Qed.
Context `{GoSort}.
Lemma getLatest_Val name ns (s : S) tr latest s' :
  runs (getLatestPostgresSnapshot name ns s) tr (Val latest, s') →
  ∃ snaps, snapshotsSeen name ns snaps tr ∧
    match latest with
    | Some x => newestComplete x snaps
    | None => ∀ y, y ∈ snaps → isComplete y = false
    end.
Proof.
  intros Hr. unfold getLatestPostgresSnapshot in Hr.
  apply runs_bind_Val in Hr as (t1 & snaps & s1 & t2 & -> & H1 & Hr).
  apply getAllSnapshots_Val in H1. apply runs_mret_Val in Hr as (_ & <- & _).
  exists snaps. split; [eapply snapshotsSeen_incl; [exact H1|intros y Hy; ev_in]|].
  pose proof (sortSlice_perm _ (after createdAt) snaps) as Hp.
  destruct (List.find _ _) as [x|] eqn:Ef.
  - apply find_sorted with (key := createdAt) in Ef as (Hx & Hq & Hm); [|apply sortSlice_after].
    split_and!; [by rewrite <- Hp|done|]. intros y Hy. rewrite <- Hp in Hy. by apply Hm.
  - intros y Hy. rewrite <- Hp in Hy. apply list_elem_of_In in Hy.
    exact (List.find_none _ _ Ef y Hy).
Qed.
End Lists.

(** ** The schedule of an instance *)

Section Schedule.
Context `{GoSort} `{GcpTypes} {S : Type}.

Lemma parseDuration_Val d (s : S) tr z s' :
  runs (parseDuration d s) tr (Val z, s') → ParseDuration d = Ok z.
Proof.
  intros Hr. unfold parseDuration in Hr. by apply runs_onErr_Val, runs_liftR_Val in Hr as (_ & ? & _).
Qed.

Lemma deleteExpired_deletes retention latest snaps (s : S) tr o s' x r :
  runs (deleteExpired retention latest snaps s) tr (o, s') → Ev (DeleteSnapshotCR x) r ∈ tr →
  x ∈ snaps ∧ snapshotName x ≠ snapshotName latest ∧
  ∃ now, Ev TimeNow now ∈ tr ∧ (createdPlus x retention < now)%Z.
Proof.
  intros Hr He. unfold deleteExpired in Hr.
  destruct (runs_forM_event _ _ _ _ _ _ _ Hr He) as (y & t & s1 & o1 & s2 & Hy & Ht & H1 & He1).
  case_bool_decide as Hn; [apply runs_mret in H1 as (-> & _); by apply not_elem_of_nil in He1|].
  apply runs_bind_invoke in H1 as (now & t3 & -> & H1). apply elem_of_cons in He1 as [|He1]; [done|].
  destruct (Z.ltb_spec (createdPlus y retention) now);
    [|by apply runs_mret in H1 as (-> & _); apply not_elem_of_nil in He1].
  inv_call H1. destruct H1 as (a & -> & _). apply list_elem_of_singleton in He1 as [= ->].
  split_and!; [done..|]. exists now. split; [apply Ht; ev_in|done].
Qed.

Lemma ex_deleteExpired (P : call → Prop) retention latest snaps :
  P TimeNow → (∀ x, P (DeleteSnapshotCR x)) →
  sat P eq (deleteExpired (S := S) retention latest snaps).
Proof. intros. unfold deleteExpired. go_sat. Qed.

Definition noDelete (c : call) : Prop :=
  match (c : api_call) with DeleteSnapshotCR _ => False | _ => True end.
Lemma noDelete_reads : reads_ok noDelete.
Proof. intros c. by destruct c. Qed.
Definition noCreate (c : call) : Prop :=
  match (c : api_call) with CreateSnapshotCR _ _ _ _ => False | _ => True end.
Lemma noCreate_reads : reads_ok noCreate.
Proof. intros c. by destruct c. Qed.
#[local] Hint Resolve noDelete_reads noCreate_reads : sat.
#[local] Hint Extern 1 (noDelete _) => exact I : sat.
#[local] Hint Extern 1 (noCreate _) => exact I : sat.
Lemma nc_deleteExpired retention latest snaps :
  sat noCreate eq (deleteExpired (S := S) retention latest snaps).
Proof. by apply ex_deleteExpired. Qed.
#[local] Hint Resolve nc_deleteExpired : sat.

Lemma createSnapshot_asks (f : error → string * error) pg (s : S) tr o s' name ns resource r :
  runs ((createSnapshot pg onError f) s) tr (o, s') →
  Ev (CreateSnapshotCR Postgres name ns resource) r ∈ tr →
  resource = Meta_Name (CR_Meta pg) ∧ ns = Meta_Namespace (CR_Meta pg) ∧
  name = Meta_Name (CR_Meta pg).
Proof.
  intros Hr He. unfold createSnapshot in Hr. inv_call Hr. destruct Hr as (a & -> & _).
  by apply list_elem_of_singleton in He as [= -> -> ->].
Qed.
(** The first of a slice sorted by the time of creation is the last that was created. *)
Lemma sorted_first snaps x y :
  sortSlice (after createdAt) snaps !! 0 = Some x → y ∈ snaps → (createdAt y <= createdAt x)%Z.
Proof.
  intros Hx Hy. rewrite <- (sortSlice_perm _ (after createdAt) snaps) in Hy.
  pose proof (sortSlice_after createdAt snaps) as Hs.
  destruct (sortSlice _ _) as [|z l]; [done|]. injection Hx as ->.
  apply elem_of_cons in Hy as [->|Hy]; [done|]. inversion Hs as [|? ? _ Hall]; subst.
  rewrite Forall_forall in Hall. by apply Hall.
Qed.

(** C13: the schedule deletes a snapshot of the instance only when its retention is over,
    and never the newest complete one, nor one of its name; it asks for a snapshot only
    when the instance has none, or when the last of them, complete or not, is older than
    the frequency. *)
Theorem snapshot_schedule pg (s : S) tr o s' :
  runs (reconcileCloudSqlInstanceSnapshots pg s) tr (o, s') →
  let seen := snapshotsSeen (Meta_Name (CR_Meta pg)) (Meta_Namespace (CR_Meta pg)) in
  (∀ x r, Ev (DeleteSnapshotCR x) r ∈ tr →
     ∃ retention now snaps snaps' latest,
       ParseDuration (Spec_SnapshotRetention (CR_Spec pg)) = Ok retention ∧
       seen snaps tr ∧ x ∈ snaps ∧ Ev TimeNow now ∈ tr ∧ (createdPlus x retention < now)%Z ∧
       seen snaps' tr ∧ newestComplete latest snaps' ∧ snapshotName x ≠ snapshotName latest) ∧
  (∀ name ns resource r, Ev (CreateSnapshotCR Postgres name ns resource) r ∈ tr →
     resource = Meta_Name (CR_Meta pg) ∧ ns = Meta_Namespace (CR_Meta pg) ∧
     ∃ snaps, seen snaps tr ∧
       (snaps = [] ∨ ∃ frequency now,
          ParseDuration (Spec_SnapshotFrequency (CR_Spec pg)) = Ok frequency ∧
          Ev TimeNow now ∈ tr ∧ ∀ y, y ∈ snaps → (createdPlus y frequency < now)%Z)).
Proof.
  intros Hr seen. subst seen. split.
  - intros x r He. unfold reconcileCloudSqlInstanceSnapshots in Hr.
    skip_reads Hr He retention H1. apply parseDuration_Val in H1.
    skip_reads Hr He snaps H2. apply runs_onErr_Val, getAllSnapshots_Val in H2.
    destruct snaps as [|s0 snaps].
    { exfalso. refine (_ (sat_no_event noDelete eq _ _ _ _ _ _ Hr He _)); [done|].
      unfold createSnapshot. go_sat. }
    skip_reads Hr He latest H3. apply runs_onErr_Val, getLatest_Val in H3 as (snaps' & H3 & Hl).
    destruct latest as [latest|];
      [|apply runs_mret in Hr as (-> & _); by apply not_elem_of_nil in He].
    eapply (runs_bind_first noDelete eq) in Hr as (t4 & o1 & s1 & Ht & Hr & He1);
      [|exact He| |exact id].
    2: { intros []. unfold createSnapshot. go_sat. }
    apply deleteExpired_deletes with (1 := Hr) in He1 as (Hx & Hn & now & Hnow & Hlt).
    exists retention, now, (s0 :: snaps), snaps', latest. split_and!; try done.
    + eapply snapshotsSeen_incl; [exact H2|]. intros y Hy. ev_in.
    + apply Ht in Hnow. ev_in.
    + eapply snapshotsSeen_incl; [exact H3|]. intros y Hy. ev_in.
  - intros name ns resource r He. unfold reconcileCloudSqlInstanceSnapshots in Hr.
    skip_reads Hr He retention H1. clear H1.
    skip_reads Hr He snaps H2. apply runs_onErr_Val, getAllSnapshots_Val in H2.
    destruct snaps as [|s0 snaps].
    { eapply (runs_bind_first noCreate eq) in Hr as (t4 & o1 & s1 & _ & Hr & He1);
        [|exact He|intros; go_sat|exact id].
      apply createSnapshot_asks with (2 := He1) in Hr as (-> & -> & _).
      split_and!; [done..|]. exists []. split; [|by left].
      eapply snapshotsSeen_incl; [exact H2|]. intros y Hy. ev_in. }
    skip_reads Hr He latest H3. clear H3.
    destruct latest as [latest|];
      [|apply runs_mret in Hr as (-> & _); by apply not_elem_of_nil in He].
    skip_calls_not noCreate Hr He (λ h : noCreate (CreateSnapshotCR Postgres name ns resource), h) u H4.
    clear H4. skip_reads Hr He frequency H5. apply parseDuration_Val in H5.
    skip_reads Hr He newest H6. apply runs_index_Val in H6 as (-> & H6 & _).
    inv_call Hr. destruct Hr as (now & t7 & -> & Hr).
    apply elem_of_cons in He as [|He]; [done|].
    destruct (Z.ltb_spec (createdPlus newest frequency) now) as [Hlt|].
    2: { rewrite runs_bind_mret in Hr. apply runs_mret in Hr as (-> & _).
         by apply not_elem_of_nil in He. }
    eapply (runs_bind_first noCreate eq) in Hr as (t8 & o1 & s1 & _ & Hr & He1);
      [|exact He|intros; go_sat|exact id].
    apply createSnapshot_asks with (2 := He1) in Hr as (-> & -> & _).
    split_and!; [done..|]. exists (s0 :: snaps). split.
    { eapply snapshotsSeen_incl; [exact H2|]. intros y Hy. ev_in. }
    right. exists frequency, now. split_and!; [done|ev_in|]. intros y Hy.
    assert (createdAt y <= createdAt newest)%Z; [|unfold createdPlus in *; unfold second in *; lia].
    by eapply sorted_first.
Qed.
End Schedule.

(** ** Exporting *)

Lemma Policy_Add_HasRole p member role : Policy_HasRole (Policy_Add p member role) member role = true.
Proof.
  induction p as [|[r ms] p IH]; unfold Policy_HasRole in *; cbn.
  - rewrite bool_decide_true by done. by rewrite bool_decide_true by set_solver.
  - case_bool_decide as Hr; cbn.
    + rewrite bool_decide_true by done. cbn. rewrite bool_decide_true; [done|].
      case_bool_decide; set_solver.
    + by rewrite (bool_decide_false (r = role)) by done.
Qed.

Definition isExport (g : gcp_call) : bool :=
  match g with ExportSqlInstance _ _ _ _ _ => true | _ => false end.
(** The identity may use the bucket: its policy says so, or it has been set to. *)
Definition bucketGranted (bucket identity role : string) (tr : list event) : Prop :=
  ∃ policy, Policy_HasRole policy identity role = true ∧
    (Ev (Gcp (GetBucketPolicy bucket)) (Ok policy) ∈ tr ∨
     Ev (Gcp (SetPolicy bucket policy)) (Ok tt) ∈ tr).
Lemma bucketGranted_incl bucket identity role t tr :
  bucketGranted bucket identity role t → t ⊆ tr → bucketGranted bucket identity role tr.
Proof.
  intros (pol & Hp & [He|He]) Ht; exists pol; (split; [done|]); [left|right]; by apply Ht.
Qed.

Section Buckets.
Context {S : Type}.
Lemma ensurePolicy_Val (f g : error → string * error) bucket identity role (s s1 s2 : S) has t1 t2 u :
  runs ((HasBucketPolicy bucket identity role onError f) s) t1 (Val has, s1) →
  runs ((if has : bool then mret tt else SetBucketPolicy bucket identity role onError g) s1) t2
    (Val u, s2) →
  bucketGranted bucket identity role (t1 ++ t2).
Proof.
  intros H1%runs_onErr_Val Hr. unfold HasBucketPolicy in H1.
  apply runs_bind_Val in H1 as (t3 & policy & s3 & t4 & -> & H3 & H4).
  inv_call H3. destruct H3 as (r & -> & _ & Ho). destruct r as [policy'|]; [|done].
  injection Ho as <-. apply runs_mret_Val in H4 as (-> & <- & _).
  destruct (Policy_HasRole policy identity role) eqn:Ep.
  - exists policy. split; [done|left; ev_in].
  - apply runs_onErr_Val in Hr. unfold SetBucketPolicy in Hr.
    apply runs_bind_Val in Hr as (t5 & pol & s5 & t6 & -> & _ & Hr).
    inv_call Hr. destruct Hr as (r & -> & _ & Ho). destruct r as [[]|]; [|done].
    exists (Policy_Add pol identity role). split; [apply Policy_Add_HasRole|right; ev_in].
Qed.
Lemma ifExists_None {A} sentinel msg (m : M S error A) (s : S) tr s' :
  runs (ifExists sentinel msg m s) tr (Val None, s') →
  ∃ e, runs (m s) tr (Err e, s') ∧ isSentinel sentinel e = true.
Proof.
  intros Hr. unfold ifExists in Hr. apply runs_bind_Val in Hr as (t1 & r & s1 & t2 & -> & H1 & Hr).
  apply runs_try_Val in H1. destruct r as [a|e]; [by apply runs_mret_Val in Hr as (_ & [=] & _)|].
  destruct (isSentinel sentinel e) eqn:Ee; [|by apply runs_fail_Val in Hr].
  apply runs_mret_Val in Hr as (-> & _ & ->). exists e. by rewrite app_nil_r.
Qed.
Lemma ifExists_Some {A} sentinel msg (m : M S error A) (s : S) tr a s' :
  runs (ifExists sentinel msg m s) tr (Val (Some a), s') → runs (m s) tr (Val a, s').
Proof.
  intros Hr. unfold ifExists in Hr. apply runs_bind_Val in Hr as (t1 & r & s1 & t2 & -> & H1 & Hr).
  apply runs_try_Val in H1. destruct r as [b|e]; 
    [|by destruct (isSentinel sentinel e);
      [apply runs_mret_Val in Hr as (_ & [=] & _)|apply runs_fail_Val in Hr]].
  apply runs_mret_Val in Hr as (-> & [= <-] & ->). by rewrite app_nil_r.
Qed.
End Buckets.

Section Provider.
Context `{GoSort} `{GcpTypes} (p : PostgresSnapshotProvider) (pg : CR).

Definition instanceOf : string := annotations_Get (CR_Meta pg) ResourceIdentifierAnnotation.

Lemma ex_reads : reads_ok (except isExport).
Proof. apply except_reads. by intros []. Qed.
#[local] Hint Resolve ex_reads : sat.

(** An export is asked for when the instance is complete and its service account may
    use the bucket. *)
Lemma createPostgresSnapshot_exports config o0 tr o o' project name dbs type uri r :
  runs (createPostgresSnapshot pg config o0) tr (o, o') →
  Ev (Gcp (ExportSqlInstance project name dbs type uri)) r ∈ tr →
  Status_Phase (CR_Status pg) = PhaseComplete ∧ project = Strategy_ProjectID config ∧
  name = instanceOf ∧ dbs = ["postgres"] ∧
  uri = "gs://" +:+ instanceOf +:+ "/" +:+ SS_SnapshotID (Snapshot_Status o0) ∧
  ∃ i, Ev (Gcp (GetSqlInstance project name)) (Ok i) ∈ tr ∧
    bucketGranted name ("serviceAccount:" +:+ SI_ServiceAccountEmailAddress i) bucketPolicy tr.
Proof.
  intros Hr He.
  assert (¬ except isExport (Gcp (ExportSqlInstance project name dbs type uri))) as Hx by done.
  unfold createPostgresSnapshot in Hr.
  case_bool_decide as Hph; [apply runs_fail in Hr as (-> & _); by apply not_elem_of_nil in He|].
  unfold GcpSnapshots.unlessConflict, ifExists in Hr.
  skip_calls_not (except isExport) Hr He Hx attrs H1. clear H1.
  skip_calls_not (except isExport) Hr He Hx u1 H2. clear H2.
  skip_calls_not (except isExport) Hr He Hx i H3. apply runs_onErr_Val in H3.
  inv_call H3. destruct H3 as (ri & -> & _ & Ho). destruct ri as [i'|]; [|done]. injection Ho as <-.
  eapply (runs_bind_skip (except isExport) eq) in Hr
    as (t4 & has & s4 & t5 & -> & H4 & <- & Hr & He5); [|exact He| |exact Hx].
  2: { unfold HasBucketPolicy. go_sat. }
  eapply (runs_bind_skip (except isExport) eq) in Hr
    as (t6 & u2 & s6 & t7 & -> & H5 & <- & Hr & He7); [|exact He5| |exact Hx].
  2: { unfold SetBucketPolicy. go_sat. }
  pose proof (ensurePolicy_Val _ _ _ _ _ _ _ _ _ _ _ _ H4 H5) as Hg.
  apply runs_bind_get in Hr.
  eapply (runs_bind_first (except isExport) eq) in Hr as (t8 & o1 & s8 & _ & Hr & He8);
    [|exact He7|intros; go_sat|exact Hx].
  eapply (sat_no_event (only [ExportSqlInstance (Strategy_ProjectID config) instanceOf ["postgres"]
    "SQL" ("gs://" +:+ instanceOf +:+ "/" +:+ SS_SnapshotID (Snapshot_Status o0))]) eq) in Hr;
    [|exact He8|go_sat].
  apply list_elem_of_singleton in Hr as [= -> -> -> -> ->]. split_and!; try done.
  exists i. split; [ev_in|]. eapply bucketGranted_incl; [exact Hg|]. intros y Hy. 
  apply elem_of_app in Hy as [Hy|Hy]; ev_in.
Qed.

(** The object of a snapshot was looked up and is not there. *)
Definition objectAbsent (name : string) (tr : list event) : Prop :=
  ∃ e, Ev (Gcp (GetObjectAttrs instanceOf name)) (Er e) ∈ tr ∧
       isSentinel ErrObjectNotExist e = true.

Lemma ex_recordID f o :
  sat (except f) anySnapshot (ok (invoke (StatusUpdateSnapshotCR o)) : M SnapshotCR error SnapshotCR).
Proof. go_sat. Qed.

(** C18: a database is exported only when the postgres resource is complete and names its
    instance, when the object of the snapshot, named after its resource, was looked up
    and is not there, and when the service account of the instance has been granted the
    bucket, which is that of the instance.  The export has the identifier that the
    status of the resource was answered to have. *)
Theorem GcpPostgresSnapshot_exports o0 tr o o' project name dbs type uri r :
  runs (CreatePostgresSnapshot p pg o0) tr (o, o') →
  Ev (Gcp (ExportSqlInstance project name dbs type uri)) r ∈ tr →
  Status_Phase (CR_Status pg) = PhaseComplete ∧ name = instanceOf ∧ name ≠ "" ∧
  dbs = ["postgres"] ∧
  (∃ snap snap', Ev (StatusUpdateSnapshotCR (setSnapshotID (snapshotName snap) snap)) (Ok snap') ∈ tr ∧
     objectAbsent (snapshotName snap) tr ∧
     uri = "gs://" +:+ instanceOf +:+ "/" +:+ SS_SnapshotID (Snapshot_Status snap')) ∧
  ∃ i, Ev (Gcp (GetSqlInstance project name)) (Ok i) ∈ tr ∧
    bucketGranted name ("serviceAccount:" +:+ SI_ServiceAccountEmailAddress i) bucketPolicy tr.
Proof.
  intros Hr He.
  assert (¬ except isExport (Gcp (ExportSqlInstance project name dbs type uri))) as Hx by done.
  unfold CreatePostgresSnapshot in Hr.
  eapply (runs_bind_skip (except isExport) anySnapshot) in Hr
    as (t1 & u1 & s1 & t2 & -> & _ & _ & Hr & He1); [|exact He| |exact Hx].
  2: { unfold CreateSnapshotFinalizer. go_sat. }
  skip_calls_not (except isExport) Hr He1 Hx cfg H1. clear H1.
  assert (sat (except isExport) eq (snapshotCredentials p pg)) as Hc.
  { unfold snapshotCredentials. apply sat_onErr. eapply sat_weaken; [apply oc_ReconcileProviderCredentials|].
    intros c Hc. apply quiet_except, offCloud_quiet; [|done]. by intros []. }
  eapply (runs_bind_skip (except isExport) eq) in Hr
    as (t5 & creds & s5 & t6 & -> & _ & <- & Hr & He6); [|exact He1|exact Hc|exact Hx].
  skip_calls_not (except isExport) Hr He6 Hx u2 H1. clear H1.
  skip_calls_not (except isExport) Hr He6 Hx u3 H1. clear H1.
  unfold reconcilePostgresSnapshot in Hr.
  case_bool_decide as Hin; [apply runs_fail in Hr as (-> & _); by apply not_elem_of_nil in He6|].
  apply runs_bind_get in Hr. apply runs_bind_put in Hr.
  inv_call Hr. destruct Hr as (ru & t9 & -> & [(e & -> & -> & _)|(snap' & -> & Hr)]).
  { by apply list_elem_of_singleton in He6. }
  apply elem_of_cons in He6 as [|He9]; [done|]. apply runs_bind_put in Hr.
  eapply (runs_bind_skip (except isExport) eq) in Hr
    as (t10 & found & s10 & t11 & -> & H2 & <- & Hr & He11); [|exact He9| |exact Hx].
  2: { unfold ifExists. go_sat. }
  destruct found as [d|].
  { exfalso. refine (_ (sat_no_event (except isExport) anySnapshot _ _ _ _ _ _ Hr He11 _)); [done|].
    unfold reconcileLifecycle, HasBucketLifecycle, SetBucketLifecycle, reconcileSkipDelete,
      unmarkOthers. go_sat. }
  apply ifExists_None in H2 as (e & H2 & Hs). inv_call H2. destruct H2 as (ro & -> & _ & Ho).
  destruct ro as [|e']; [done|]. injection Ho as <-.
  eapply (runs_bind_first (except isExport) eq) in Hr as (t12 & o1 & s12 & Hsub & Hr & He12);
    [|exact He11|intros; go_sat|exact Hx].
  apply createPostgresSnapshot_exports with (2 := He12) in Hr
    as (Hph & -> & -> & -> & -> & i & Hi & Hg).
  split_and!; try done.
  - exists s1, snap'. split_and!; [ev_in|exists e; split; [unfold instanceOf; ev_in|done]|done].
  - exists i. split; [apply Hsub in Hi; ev_in|]. eapply bucketGranted_incl; [exact Hg|].
    intros y Hy. apply Hsub in Hy. ev_in.
Qed.

(** ** Deleting *)

(** Everything but the deletion of an object or of a bucket, and writing the resource. *)
Definition noRemoval (c : call) : Prop :=
  match (c : api_call) with
  | Gcp (DeleteObject _ _) | Gcp (DeleteGcsBucket _) | UpdateSnapshotCR _ => False
  | _ => True
  end.
Lemma noRemoval_reads : reads_ok noRemoval.
Proof.
  intros c Hc. destruct c; try done. match goal with g : gcp_call |- _ => by destruct g end.
Qed.
#[local] Hint Resolve noRemoval_reads : sat.
Lemma credentialCall_noRemoval c : credentialCall c → noRemoval c.
Proof.
  intros Hc. destruct c; try done. match goal with g : gcp_call |- _ => by destruct g end.
Qed.

(** The object of the snapshot has been deleted, and was not listed afterwards. *)
Definition objectDeleted (name : string) (tr : list event) : Prop :=
  Ev (Gcp (DeleteObject instanceOf name)) (Ok tt) ∈ tr ∧
  ∃ objects, Ev (Gcp (ListObjects instanceOf)) (Ok objects) ∈ tr ∧ name ∉ objects.

Definition keepsObjects (c : call) : Prop :=
  match (c : api_call) with Gcp (DeleteObject _ _) | Gcp (DeleteGcsBucket _) => False | _ => True end.
Definition noUpdate (c : call) : Prop :=
  match (c : api_call) with UpdateSnapshotCR _ => False | _ => True end.
Lemma noUpdate_reads : reads_ok noUpdate.
Proof. intros c. by destruct c. Qed.
#[local] Hint Resolve noUpdate_reads : sat.

Lemma removeObject_runs snap s tr o s' :
  runs (removeObject pg snap s) tr (o, s') →
  (∀ bucket name r, Ev (Gcp (DeleteObject bucket name)) r ∈ tr →
     Snapshot_SkipDelete snap = false ∧ bucket = instanceOf ∧ name = snapshotName snap) ∧
  (∀ bucket r, Ev (Gcp (DeleteGcsBucket bucket)) r ∈ tr →
     bucket = instanceOf ∧ Ev (Gcp (ListObjects instanceOf)) (Ok []) ∈ tr) ∧
  (o = Val false → Snapshot_SkipDelete snap = true ∨ objectDeleted (snapshotName snap) tr).
Proof.
  intros Hr. unfold removeObject in Hr. destruct (Snapshot_SkipDelete snap).
  { apply runs_mret in Hr as (-> & _ & _).
    split_and!; [intros ? ? ? He|intros ? ? He|by left]; by apply not_elem_of_nil in He. }
  inv_call Hr. destruct Hr as (rd & t1 & -> & Hr).
  destruct Hr as [(e & -> & -> & -> & _)|([] & -> & Hr)].
  { split_and!; [|intros ? ? He; by apply list_elem_of_singleton in He|done].
    intros ? ? ? He. by apply list_elem_of_singleton in He as [= -> -> _]. }
  inv_call Hr. destruct Hr as (rl & t2 & -> & Hr).
  destruct Hr as [(e & -> & -> & -> & _)|(l & -> & Hr)].
  { split_and!; [| |done].
    - intros ? ? ? [[= -> -> _]|He]%elem_of_cons; [done|]. by apply list_elem_of_singleton in He.
    - intros ? ? [|He]%elem_of_cons; [done|]. by apply list_elem_of_singleton in He. }
  case_bool_decide as Hn.
  { apply runs_mret in Hr as (-> & -> & _). split_and!; [| |done].
    - intros ? ? ? [[= -> -> _]|He]%elem_of_cons; [done|]. by apply list_elem_of_singleton in He.
    - intros ? ? [|He]%elem_of_cons; [done|]. by apply list_elem_of_singleton in He. }
  assert (t2 = [] ∨ ∃ r, t2 = [Ev (Gcp (DeleteGcsBucket instanceOf)) r] ∧ l = []) as Ht.
  { case_bool_decide as Hl.
    - inv_call Hr. destruct Hr as (rb & t3 & -> & Hr). right. exists rb. split; [|done].
      destruct Hr as [(e & _ & -> & _)|(u & _ & Hr)]; [done|].
      by apply runs_mret in Hr as (-> & _).
    - rewrite runs_bind_mret in Hr. apply runs_mret in Hr as (-> & _). by left. }
  split_and!.
  - intros ? ? ? [[= -> -> _]|[|He]%elem_of_cons]%elem_of_cons; [done..|].
    destruct Ht as [->|(rb & -> & _)]; [by apply not_elem_of_nil in He|].
    by apply list_elem_of_singleton in He.
  - intros ? ? [|[|He]%elem_of_cons]%elem_of_cons; [done..|].
    destruct Ht as [->|(rb & -> & ->)]; [by apply not_elem_of_nil in He|].
    apply list_elem_of_singleton in He as [= -> _]. split; [done|]. ev_in.
  - intros _. right. split; [ev_in|]. exists l. split; [ev_in|done].
Qed.

(** C20: an object is only deleted when the snapshot is not marked to be kept, and it is
    its own; the bucket of the instance only when it was listed empty.  The resource is
    written only to remove its finalizer, and unless it is marked, only after a deletion
    of the object in this very run that did not fail: when the object is already gone
    the deletion does not end. *)
Theorem GcpPostgresSnapshot_deletion o0 tr o o' :
  runs (DeletePostgresSnapshot p pg o0) tr (o, o') →
  (∀ bucket name r, Ev (Gcp (DeleteObject bucket name)) r ∈ tr →
     Snapshot_SkipDelete o0 = false ∧ bucket = instanceOf ∧ name = snapshotName o0) ∧
  (∀ bucket r, Ev (Gcp (DeleteGcsBucket bucket)) r ∈ tr →
     bucket = instanceOf ∧ Ev (Gcp (ListObjects instanceOf)) (Ok []) ∈ tr) ∧
  (∀ x r, Ev (UpdateSnapshotCR x) r ∈ tr →
     (∃ om, RemoveFinalizer (Snapshot_Meta o0) DefaultFinalizer = Some om ∧
            x = setSnapshotMeta o0 om) ∧
     (Snapshot_SkipDelete o0 = true ∨ objectDeleted (snapshotName o0) tr)).
Proof.
  intros Hr.
  assert (∀ e, e ∈ tr → ¬ noRemoval (ev_call e) → ∃ t1 t2, tr = t1 ++ t2 ∧ e ∈ t2 ∧
    runs (deletePostgresSnapshot pg o0) t2 (o, o')) as Hskip.
  { intros e He Hx. unfold DeletePostgresSnapshot in Hr.
    assert (sat noRemoval eq (snapshotCredentials p pg)) as Hc.
    { unfold snapshotCredentials. apply sat_onErr.
      eapply sat_weaken; [apply cc_ReconcileGcpCredentials|apply credentialCall_noRemoval]. }
    eapply (runs_bind_skip noRemoval eq) in Hr
      as (t1 & creds & s1 & t2 & -> & _ & <- & Hr & He2); [|exact He|exact Hc|exact Hx].
    eapply (runs_bind_skip noRemoval eq) in Hr
      as (t3 & u & s3 & t4 & -> & _ & <- & Hr & He4); [|exact He2|go_sat|exact Hx].
    exists (t1 ++ t3), t4. by rewrite <- app_assoc. }
  split_and!.
  - intros bucket name r He. destruct (Hskip _ He id) as (t1 & t2 & -> & He2 & Hr2).
    unfold deletePostgresSnapshot in Hr2. apply runs_bind_get in Hr2.
    eapply (runs_bind_first keepsObjects anySnapshot) in Hr2 as (t3 & o1 & s1 & _ & Hr2 & He3);
      [|exact He2|intros []; go_sat|exact id].
    by apply removeObject_runs in Hr2 as (Hd & _); apply Hd in He3.
  - intros bucket r He. destruct (Hskip _ He id) as (t1 & t2 & -> & He2 & Hr2).
    unfold deletePostgresSnapshot in Hr2. apply runs_bind_get in Hr2.
    eapply (runs_bind_first keepsObjects anySnapshot) in Hr2 as (t3 & o1 & s1 & Hsub & Hr2 & He3);
      [|exact He2|intros []; go_sat|exact id].
    apply removeObject_runs in Hr2 as (_ & Hd & _). apply Hd in He3 as [-> He3].
    split; [done|]. apply Hsub in He3. ev_in.
  - intros x r He. destruct (Hskip _ He id) as (t1 & t2 & -> & He2 & Hr2).
    unfold deletePostgresSnapshot in Hr2. apply runs_bind_get in Hr2.
    eapply (runs_bind_skip noUpdate eq) in Hr2 as (t3 & b & s1 & t4 & -> & H1 & <- & Hr2 & He4);
      [|exact He2|unfold removeObject; go_sat|exact id].
    apply removeObject_runs in H1 as (_ & _ & H1).
    destruct b; [by apply runs_mret in Hr2 as (-> & _); apply not_elem_of_nil in He4|].
    destruct (RemoveFinalizer _ _) as [om|] eqn:Eom;
      [|by apply runs_lift in Hr2 as (-> & _); apply not_elem_of_nil in He4].
    apply runs_bind_put in Hr2. inv_call Hr2. destruct Hr2 as (ru & t5 & -> & Hr2).
    apply elem_of_cons in He4 as [[= -> _]|He4].
    2: { destruct Hr2 as [(e & _ & -> & _)|(u & _ & Hr2)]; [by apply not_elem_of_nil in He4|].
         apply runs_bind_put, runs_mret in Hr2 as (-> & _). by apply not_elem_of_nil in He4. }
    split; [by exists om|]. destruct (H1 eq_refl) as [Hs|[Hd (l & Hl & Hn)]]; [by left|right].
    split; [ev_in|]. exists l. split; [ev_in|done].
Qed.
End Provider.
