(* ===== verification/GcpMetricsProps.v ===== *)
(** * Metrics on Google Cloud: properties

    The collector of the goroutines as a state machine: it never blocks for ever, what
    it returns has been answered, and what it may lose.  The intervals of the computed
    metrics. *)
From S2P Require Import Prelude Effects GoFloat GoStrings GoUrl Json GcpApi Api Resources Metrics.
From S2P Require Import AwsConfig CloudMetrics GcpConfig GcpMetrics.
From stdpp Require Import relations.
Local Open Scope go_scope.

(** What a function that may fail ends with. *)
Definition outcomeOf {A} (r : result A) : outcome error A :=
  match r with Ok a => Val a | Er e => Err e end.

(** ** The state machine *)

Section Machine.
Context (answers : CloudProviderMetricType → result GenericCloudMetric → Prop).
Implicit Types (c : collector).

(** The workers that have not sent their metric. *)
Definition busy (ws : list worker) : nat := length (List.filter (λ w, negb (isDone w)) ws).
(** There is room for every metric that is still to be sent. *)
Definition roomy c : Prop := length (C_metricChan c) + busy (C_workers c) <= length (C_workers c).

Lemma newCollector_roomy metrics : roomy (newCollector metrics).
Proof.
  unfold roomy, newCollector, busy. cbn. induction metrics as [|m metrics IH]; cbn; [lia|].
  by apply le_n_S.
Qed.
Lemma sum_list_insert (f : worker → nat) ws i w w' :
  ws !! i = Some w →
  sum_list (map f (<[i := w']> ws)) + f w = sum_list (map f ws) + f w'.
Proof.
  revert i. induction ws as [|x ws IH]; intros [|i] Hi; try done.
  - injection Hi as ->. cbn. lia.
  - specialize (IH i Hi). simpl. lia.
Qed.
Lemma busy_sum ws : busy ws = sum_list (map (λ w, if isDone w then 0 else 1) ws).
Proof. unfold busy. induction ws as [|w ws IH]; [done|]. cbn. by destruct w; cbn; rewrite IH. Qed.
Lemma busy_insert ws i w w' :
  ws !! i = Some w →
  busy (<[i := w']> ws) + (if isDone w then 0 else 1) = busy ws + (if isDone w' then 0 else 1).
Proof. intros Hi. rewrite !busy_sum. by apply (sum_list_insert (λ w, if isDone w then 0 else 1)). Qed.

Lemma step_roomy c c' : step answers c c' → roomy c → roomy c'.
Proof.
  unfold roomy. intros Hs Hr. destruct Hs as [i m r Hi|i e Hi|i v Hi| |acc v q Hl Hq|acc e q Hl Hq|acc Hl];
    simpl; rewrite ?length_insert, ?length_app; simpl; try done.
  - pose proof (busy_insert _ _ _ (match r with Ok v => Answered (Some v) | Er e => Failed e end) Hi) as Hb.
    destruct r; simpl in *; lia.
  - pose proof (busy_insert _ _ _ (Answered None) Hi). simpl in *; lia.
  - pose proof (busy_insert _ _ _ Done Hi). simpl in *; lia.
  - rewrite Hq in Hr. simpl in Hr. lia.
Qed.

(** Every step leaves less to do. *)
Lemma step_decreases c c' : step answers c c' → stepsLeft c' < stepsLeft c.
Proof.
  unfold stepsLeft. intros Hs. destruct Hs as [i m r Hi|i e Hi He|i v Hi|_ Hd|acc v q Hl Hq|acc e q Hl Hq|acc Hl];
    simpl; rewrite ?length_app; simpl.
  - pose proof (sum_list_insert workLeft _ _ _ (match r with Ok v => Answered (Some v) | Er e => Failed e end) Hi) as Hb.
    destruct r; simpl in *; lia.
  - pose proof (sum_list_insert workLeft _ _ _ (Answered None) Hi). rewrite He in *. simpl in *; lia.
  - pose proof (sum_list_insert workLeft _ _ _ Done Hi). simpl in *; lia.
  - rewrite Hd. lia.
  - rewrite Hl, Hq. simpl. lia.
  - rewrite Hl, Hq. simpl. lia.
  - rewrite Hl. lia.
Qed.

Lemma possible_work c i w :
  C_workers c !! i = Some w → canWork c w = true → possible c ≠ [].
Proof.
  intros Hi Hw Hp. unfold possible in Hp. apply app_eq_nil in Hp as [Hp _].
  assert (Work i ∈ @nil move) as Hin; [|by apply not_elem_of_nil in Hin].
  rewrite <- Hp. apply list_elem_of_omap. exists i. split.
  - apply elem_of_seq. apply lookup_lt_Some in Hi. lia.
  - rewrite Hi. cbn. by rewrite Hw.
Qed.
(** While the loop collects, some step is possible: there is no deadlock. *)
Lemma step_possible c : roomy c → possible c ≠ [].
Proof.
  intros Hr. destruct (forallb isDone (C_workers c)) eqn:Ed.
  - unfold possible. rewrite Ed. destruct (C_doneChan c); cbn; intros Hp;
      apply app_eq_nil in Hp as [_ Hp]; discriminate Hp.
  - assert (∃ i w, C_workers c !! i = Some w ∧ isDone w = false) as (i & w & Hi & Hw).
    { clear Hr. induction (C_workers c) as [|w ws IH]; [done|]. cbn in Ed.
      destruct (isDone w) eqn:Ew; [|by exists 0, w].
      destruct (IH Ed) as (i & w' & Hi & Hw'). by exists (S i), w'. }
    destruct w as [m|e|v|]; [| | |done].
    + by apply (possible_work _ _ _ Hi).
    + destruct (C_errChan c) as [|e' q] eqn:Ee.
      * apply (possible_work _ _ _ Hi). cbn. by rewrite Ee.
      * unfold possible. rewrite Ee. intros Hp. repeat apply app_eq_nil in Hp as [_ Hp]. done.
    + apply (possible_work _ _ _ Hi). cbn. apply bool_decide_eq_true.
      unfold roomy in Hr. pose proof (busy_insert _ _ _ Done Hi) as Hb. cbn in Hb. lia.
Qed.

Lemma elem_of_if {A} (b : bool) (x : A) l : x ∈ (if b then l else []) ↔ b = true ∧ x ∈ l.
Proof. destruct b; [by intuition|]. rewrite elem_of_nil. by intuition. Qed.
Lemma elem_of_if_not {A} (b : bool) (x : A) l : x ∈ (if b then [] else l) ↔ b = false ∧ x ∈ l.
Proof. destruct b; [|by intuition]. rewrite elem_of_nil. by intuition. Qed.
Lemma elem_of_possible c mv :
  mv ∈ possible c ↔
  match mv with
  | Work i => ∃ w, C_workers c !! i = Some w ∧ canWork c w = true
  | Close => forallb isDone (C_workers c) = true ∧ C_doneChan c = false
  | TakeDone => C_doneChan c = true
  | TakeMetric => C_metricChan c ≠ []
  | TakeError => C_errChan c ≠ []
  end.
Proof.
  unfold possible. rewrite !elem_of_app, list_elem_of_omap.
  rewrite (elem_of_if (forallb _ _ && _)), (elem_of_if (C_doneChan c)), !elem_of_if_not.
  rewrite !list_elem_of_singleton, !bool_decide_eq_false, andb_true_iff, negb_true_iff.
  destruct mv as [i| | | |].
  2-5: split; [intros [(j & _ & Hj)|Hj]; [|by intuition]|by intuition];
    destruct (C_workers c !! j) as [w|]; [|done]; cbn in Hj; by destruct (canWork c w).
  split.
  - intros [(j & _ & Hj)|Hj]; [|naive_solver].
    destruct (C_workers c !! j) as [w|] eqn:Ew; [|done]. cbn in Hj.
    destruct (canWork c w) eqn:Ec; [|done]. injection Hj as ->. eauto.
  - intros (w & Hw & Hc). left. exists i. split.
    + apply elem_of_seq. apply lookup_lt_Some in Hw. lia.
    + rewrite Hw. cbn. by rewrite Hc.
Qed.

(** A worker that cannot go on is done, or has an error that nobody will read. *)
Lemma work_step c i w :
  (∀ m, ∃ r, answers m r) → C_workers c !! i = Some w → canWork c w = true →
  ∃ c', step answers c c'.
Proof.
  intros Hex Hi Hw. destruct w as [m|e|v|]; [| | |done].
  - destruct (Hex m) as (r & Ha). eexists. by apply (step_query _ _ i m r).
  - eexists. apply (step_sendError _ _ i e); [done|]. by apply bool_decide_eq_true in Hw.
  - eexists. apply (step_sendMetric _ _ i v); [done|]. by apply bool_decide_eq_true in Hw.
Qed.
Lemma possible_step c :
  (∀ m, ∃ r, answers m r) → roomy c → ∀ acc, C_loop c = Collecting acc → ∃ c', step answers c c'.
Proof.
  intros Hex Hr acc Hl. destruct (possible c) as [|mv mvs] eqn:Ep; [by apply step_possible in Ep|].
  assert (mv ∈ possible c) as Hmv by (rewrite Ep; by constructor).
  apply elem_of_possible in Hmv. destruct mv as [i| | | |].
  - destruct Hmv as (w & Hi & Hw). by apply (work_step c i w).
  - destruct Hmv. eexists. by apply step_close.
  - eexists. by apply (step_takeDone _ _ acc).
  - destruct (C_metricChan c) as [|v q] eqn:Eq; [done|]. eexists. by apply (step_takeMetric _ _ acc v q).
  - destruct (C_errChan c) as [|e q] eqn:Eq; [done|]. eexists. by apply (step_takeError _ _ acc e q).
Qed.
Lemma workers_rest c :
  (∀ m, ∃ r, answers m r) → roomy c →
  (∃ c', step answers c c') ∨
  ∀ i w, C_workers c !! i = Some w → w = Done ∨ ∃ e, w = Failed e ∧ C_errChan c ≠ [].
Proof.
  intros Hex Hr. destruct (decide (Exists (λ w, canWork c w = true) (C_workers c))) as [Hx|Hx].
  - left. apply Exists_exists in Hx as (w & (i & Hi)%list_elem_of_lookup & Hw).
    by apply (work_step _ i w).
  - right. intros i w Hi. apply not_Exists_Forall in Hx; [|apply _].
    pose proof (Forall_lookup_1 _ _ _ _ Hx Hi) as Hw. cbn in Hw.
    destruct w as [m|e|v|]; [done| | |by left]; cbn in Hw; rewrite bool_decide_eq_true in Hw.
    + right. by exists e.
    + exfalso. apply Hw. unfold roomy in Hr. pose proof (busy_insert _ _ _ Done Hi) as Hb.
      simpl in Hb. lia.
Qed.
Lemma nsteps_bound n c c' :
  nsteps (step answers) n c c' → roomy c → n + stepsLeft c' <= stepsLeft c ∧ roomy c'.
Proof.
  induction 1 as [c|n c c1 c' Hs _ IH]; intros Hr; [done|].
  destruct (IH (step_roomy _ _ Hs Hr)) as [Hn Hr']. apply step_decreases in Hs. split; [lia|done].
Qed.

(** Once the loop has returned, it has. *)
Lemma step_returned c c' r :
  step answers c c' → C_loop c = Returned r → C_loop c' = Returned r.
Proof. intros Hs Hl. by destruct Hs; cbn; try congruence. Qed.
Lemma steps_returned c c' r :
  rtc (step answers) c c' → C_loop c = Returned r → C_loop c' = Returned r.
Proof. induction 1; [done|]. eauto using step_returned. Qed.

(** *** What the machine may return *)

Definition sends (m : CloudProviderMetricType) (v : option GenericCloudMetric) : Prop :=
  match v with Some g => answers m (Ok g) | None => ∃ e, answers m (Er e) end.
Definition failures (vs : ScrapeMetricsData) : nat :=
  length (List.filter (λ v, if v is Some _ then false else true) vs).
(** With what each worker sends, at most one of them failing: the first of these, in
    any order.  With an error: that of some worker. *)
Definition mayReturn (metrics : list CloudProviderMetricType) (r : result ScrapeMetricsData) : Prop :=
  match r with
  | Ok ms => ∃ vs rest, Forall2 sends metrics vs ∧ failures vs <= 1 ∧ ms ++ rest ≡ₚ vs
  | Er e => ∃ m, m ∈ metrics ∧ answers m (Er e)
  end.

(** A worker with the metric it was started for and, when it is done, what it sent. *)
Definition entry : Type := CloudProviderMetricType * worker * option GenericCloudMetric.
Definition fits '((m, w, v) : entry) : Prop :=
  match w with
  | Waiting m' => m' = m
  | Failed e => answers m (Er e)
  | Answered v' => sends m v'
  | Done => sends m v
  end.
Definition sentBy '((m, w, v) : entry) : option (option GenericCloudMetric) :=
  if isDone w then Some v else None.
Definition toldError '((m, w, v) : entry) : bool :=
  match w, v with Answered None, _ | Done, None => true | _, _ => false end.
Definition ledger (metrics : list CloudProviderMetricType) c : Prop :=
  match C_loop c with
  | Returned r => mayReturn metrics r
  | Collecting acc => ∃ gl : list entry,
      map (λ x, x.1.1) gl = metrics ∧ map (λ x, x.1.2) gl = C_workers c ∧ Forall fits gl ∧
      omap sentBy gl ≡ₚ acc ++ C_metricChan c ∧
      length (List.filter toldError gl) = length (C_errChan c) ∧ length (C_errChan c) <= 1 ∧
      Forall (λ e, mayReturn metrics (Er e)) (C_errChan c) ∧
      (C_doneChan c = true → forallb isDone (C_workers c) = true)
  end.

Lemma insert_middle {A} (l1 l2 : list A) x y : <[length l1 := y]> (l1 ++ x :: l2) = l1 ++ y :: l2.
Proof. by rewrite insert_app_r_alt, Nat.sub_diag. Qed.
Lemma split_worker (gl : list entry) ws i w :
  map (λ x, x.1.2) gl = ws → ws !! i = Some w →
  ∃ l1 m v l2, gl = l1 ++ (m, w, v) :: l2 ∧
    ∀ w' v', map (λ x : entry, x.1.2) (l1 ++ (m, w', v') :: l2) = <[i := w']> ws.
Proof.
  intros <- Hi. apply list_lookup_fmap_Some in Hi as ([[m w''] v] & -> & Hx).
  apply list_elem_of_split_length in Hx as (l1 & l2 & -> & ->).
  exists l1, m, v, l2. split; [done|]. intros w' v'. rewrite !map_app. cbn.
  replace (length l1) with (length (map (λ x : entry, x.1.2) l1)) by apply length_map.
  by rewrite insert_middle.
Qed.

Lemma Forall_middle {A} (P : A → Prop) l1 x y l2 :
  Forall P (l1 ++ x :: l2) → P y → Forall P (l1 ++ y :: l2).
Proof. rewrite !Forall_app, !Forall_cons. by intuition. Qed.
Lemma forallb_lookup {A} (f : A → bool) l i x :
  forallb f l = true → l !! i = Some x → f x = true.
Proof.
  intros Hl%Is_true_eq_left Hi. apply forallb_True in Hl.
  by apply Is_true_eq_true, (Forall_lookup_1 _ _ _ _ Hl Hi).
Qed.
Lemma ledger_new metrics : ledger metrics (newCollector metrics).
Proof.
  exists (map (λ m, (m, Waiting m, None)) metrics). cbn. rewrite !map_map. cbn.
  split_and!; try done; [by apply map_id|apply Forall_map; by apply Forall_true| | |lia].
  all: by induction metrics.
Qed.
Lemma ledger_all_done (gl : list entry) :
  forallb isDone (map (λ x, x.1.2) gl) = true → Forall fits gl →
  Forall2 sends (map (λ x, x.1.1) gl) (omap sentBy gl) ∧
  failures (omap sentBy gl) = length (List.filter toldError gl).
Proof.
  unfold failures. induction gl as [|[[m w] v] gl IH]; intros Hd Hf; [by split; [constructor|]|].
  apply Forall_cons in Hf as [Hx Hf]. cbn in Hd. apply andb_true_iff in Hd as [Hw Hd].
  destruct w; try discriminate Hw. destruct (IH Hd Hf) as [H1 H2]. cbn in Hx |- *.
  split; [by constructor|]. destruct v; cbn; by rewrite H2.
Qed.
Lemma ledger_step metrics c c' : step answers c c' → ledger metrics c → ledger metrics c'.
Proof.
  unfold ledger. intros Hs Hi.
  destruct Hs as [i m r Hw Ha|i e Hw He|i v Hw Hq|Hd Hc|acc v q Hl Hq|acc e q Hl Hq|acc Hl Hd]; cbn;
    try rewrite Hl in Hi; try (destruct (C_loop c) as [acc|r']; [|done]);
    destruct Hi as (gl & Hm & Hws & Hf & Hp & Hn & Hle & Hes & Hdone).
  1-3: destruct (split_worker _ _ _ _ Hws Hw) as (l1 & m' & v' & l2 & -> & Hset);
    assert (C_doneChan c = true → False) as Hopen by
      (intros Hd%Hdone; by specialize (forallb_lookup _ _ _ _ Hd Hw)).
  - pose proof Hf as [_ [Hm' _]%Forall_cons]%Forall_app. cbn in Hm'. subst m'.
    exists (l1 ++ (m, match r with Ok v => Answered (Some v) | Er e => Failed e end, v') :: l2).
    rewrite Hset. rewrite !map_app in *. rewrite !omap_app in *. rewrite !List.filter_app in *.
    split_and!; try done; try (by intros ?%Hopen).
    + apply (Forall_middle _ _ _ _ _ Hf). by destruct r.
    + by destruct r.
    + by destruct r.
  - pose proof Hf as [_ [Hfe _]%Forall_cons]%Forall_app. cbn in Hfe.
    exists (l1 ++ (m', Answered None, v') :: l2).
    rewrite Hset. rewrite !map_app in *. rewrite !omap_app in *. rewrite !List.filter_app in *.
    assert (m' ∈ metrics) as Hin by (rewrite <- Hm; set_solver).
    rewrite He in *. cbn in *. rewrite length_app in *. cbn in *.
    split_and!; try done; try (by intros ?%Hopen); [|lia|by constructor; [eauto|]].
    apply (Forall_middle _ _ _ _ _ Hf). by exists e.
  - pose proof Hf as [_ [Hfv _]%Forall_cons]%Forall_app. cbn in Hfv.
    exists (l1 ++ (m', Done, v) :: l2).
    rewrite Hset. rewrite !map_app in *. rewrite !omap_app in *. rewrite !List.filter_app in *.
    split_and!; try done; try (by intros ?%Hopen).
    + by apply (Forall_middle _ _ _ _ _ Hf).
    + cbn. rewrite app_assoc, <- Hp. cbn. solve_Permutation.
    + rewrite <- Hn. destruct v; cbn; by rewrite ?length_app.
  - exists gl. by split_and!.
  - exists gl. rewrite Hq in Hp. split_and!; try done. by rewrite <- app_assoc.
  - rewrite Hq in Hes. by apply Forall_cons in Hes as [He _].
  - rewrite <- Hws in Hdone. destruct (ledger_all_done gl (Hdone Hd) Hf) as [H1 H2].
    exists (omap sentBy gl), (C_metricChan c). split_and!; [by rewrite <- Hm|lia|done].
Qed.
Lemma steps_mayReturn metrics c r :
  rtc (step answers) (newCollector metrics) c → C_loop c = Returned r → mayReturn metrics r.
Proof.
  intros Hs Hl. assert (ledger metrics c) as Hi; [|by unfold ledger in Hi; rewrite Hl in Hi].
  revert Hs. apply (rtc_ind_r (λ c, ledger metrics c)); [apply ledger_new|].
  intros c1 c2 _ Hs. by apply ledger_step.
Qed.

(** A schedule for each of these: all the answers, then what is sent in the order asked
    for, then as many of them as are taken before the channel that ends the loop. *)
Local Notation state ws q es d l :=
  {| C_workers := ws; C_metricChan := q; C_errChan := es; C_doneChan := d; C_loop := l |}.
Lemma answer_steps metrics vs pre es l :
  Forall2 sends metrics vs → length es + failures vs <= 1 →
  ∃ es', rtc (step answers)
    (state (map Answered pre ++ map Waiting metrics) [] es false l)
    (state (map Answered (pre ++ vs)) [] es' false l).
Proof.
  unfold failures. intros Hvs. revert pre es.
  induction Hvs as [|m v metrics vs Hv _ IH]; intros pre es Hle.
  { exists es. cbn. by rewrite !app_nil_r. }
  assert (∀ x, (map Answered pre ++ Waiting m :: x) !! length pre = Some (Waiting m)) as Hi.
  { intros x. replace (length pre) with (length (map Answered pre)) by apply length_map.
    by apply list_lookup_middle. }
  assert (∀ x y w, <[length pre := w]> (map Answered pre ++ x :: y) = map Answered pre ++ w :: y) as Hset.
  { intros x y w. replace (length pre) with (length (map Answered pre)) by apply length_map.
    apply insert_middle. }
  destruct v as [g|].
  - destruct (IH (pre ++ [Some g]) es Hle) as (es' & Hs). exists es'.
    eapply rtc_l; [by apply (step_query _ _ (length pre) m (Ok g)); [apply Hi|]|].
    unfold setWorker. cbn. rewrite Hset. rewrite map_app, <- !app_assoc in Hs. exact Hs.
  - destruct Hv as (e & He). cbn in Hle. assert (es = []) as -> by (destruct es; [done|cbn in Hle; lia]).
    destruct (IH (pre ++ [None]) [e]) as (es' & Hs); [cbn; lia|]. exists es'.
    eapply rtc_l; [by apply (step_query _ _ (length pre) m (Er e)); [apply Hi|]|].
    unfold setWorker. cbn. rewrite Hset.
    eapply rtc_l.
    { apply (step_sendError _ _ (length pre) e); [|done]. cbn.
      replace (length pre) with (length (map Answered pre)) by apply length_map.
      by apply list_lookup_middle. }
    unfold setWorker, setErrChan. cbn. rewrite Hset. rewrite map_app, <- !app_assoc in Hs. exact Hs.
Qed.

Definition pending (w : worker) : option (option GenericCloudMetric) :=
  if w is Answered v then Some v else None.
Lemma send_steps vs ws q es l :
  omap pending ws ≡ₚ vs → Forall (λ w, isDone w = true ∨ is_Some (pending w)) ws →
  length q + length vs <= length ws →
  ∃ ws', forallb isDone ws' = true ∧
    rtc (step answers) (state ws q es false l) (state ws' (q ++ vs) es false l).
Proof.
  revert ws q. induction vs as [|v vs IH]; intros ws q Hp Hf Hq.
  - exists ws. rewrite app_nil_r. split; [|done].
    apply Permutation_nil_r in Hp. clear Hq. induction Hf as [|w ws [Hw|[v Hw]] _ IH]; [done|..].
    + cbn. rewrite Hw. apply IH. by destruct w.
    + cbn in Hp. by rewrite Hw in Hp.
  - assert (v ∈ omap pending ws) as Hv by (rewrite Hp; by constructor).
    apply list_elem_of_omap in Hv as (w & Hw & Hpw). destruct w as [| |v'|]; try discriminate Hpw.
    injection Hpw as ->. apply list_elem_of_split in Hw as (l1 & l2 & ->).
    destruct (IH (l1 ++ Done :: l2) (q ++ [v])) as (ws' & Hd & Hs).
    + rewrite omap_app in *. cbn in *. apply (Permutation_cons_inv (a := v)). rewrite <- Hp.
      solve_Permutation.
    + apply (Forall_middle _ _ _ _ _ Hf). by left.
    + rewrite !length_app in *. cbn in *. lia.
    + exists ws'. split; [done|]. rewrite <- app_assoc in Hs.
      eapply rtc_l; [|exact Hs].
      pose proof (step_sendMetric answers (state (l1 ++ Answered v :: l2) q es false l) (length l1) v) as Hx.
      unfold setWorker, setMetricChan in Hx. cbn in Hx. rewrite insert_middle in Hx. apply Hx.
      * by apply list_lookup_middle.
      * cbn in Hq. lia.
Qed.
Lemma take_steps ms ws rest es d acc :
  rtc (step answers) (state ws (ms ++ rest) es d (Collecting acc))
                     (state ws rest es d (Collecting (acc ++ ms))).
Proof.
  revert acc. induction ms as [|v ms IH]; intros acc; [by rewrite app_nil_r|].
  eapply rtc_l; [by apply (step_takeMetric _ _ acc v (ms ++ rest))|].
  unfold setMetricChan, setLoop. cbn.
  replace (acc ++ v :: ms) with ((acc ++ [v]) ++ ms) by by rewrite <- app_assoc. apply IH.
Qed.

Lemma mayReturn_steps metrics r :
  mayReturn metrics r →
  ∃ c, rtc (step answers) (newCollector metrics) c ∧ C_loop c = Returned r.
Proof.
  destruct r as [ms|e]; cbn [mayReturn].
  - intros (vs & rest & Hvs & Hn & Hp).
    destruct (answer_steps metrics vs [] [] (Collecting []) Hvs ltac:(cbn; lia)) as (es & Hs1).
    destruct (send_steps (ms ++ rest) (map Answered vs) [] es (Collecting [])) as (ws' & Hd & Hs2).
    + rewrite Hp. clear. induction vs; [done|]. cbn. by constructor.
    + apply Forall_map, Forall_true. intros v. right. by eexists.
    + rewrite length_map, Hp. cbn. lia.
    + eexists. split; [|].
      * etrans; [exact Hs1|]. etrans; [exact Hs2|].
        eapply rtc_l; [by apply step_close|]. unfold closeDone. cbn.
        etrans; [apply (take_steps ms)|]. apply rtc_once. by apply (step_takeDone _ _ ms).
      * done.
  - intros (m & Hm & He). apply list_elem_of_lookup in Hm as (i & Hi).
    assert (map Waiting metrics !! i = Some (Waiting m)) as Hw by (by apply list_lookup_fmap_Some_2).
    assert (i < length (map Waiting metrics)) as Hlt by (by apply lookup_lt_Some in Hw).
    eexists. split; [|].
    + eapply rtc_l; [by apply (step_query _ _ i m (Er e))|].
      eapply rtc_l; [by apply (step_sendError _ _ i e); [cbn; rewrite list_lookup_insert_eq|]|].
      apply rtc_once. by apply (step_takeError _ _ [] e []).
    + done.
Qed.

(** *** The program that takes the steps *)

Context {S : Type} (query : CloudProviderMetricType → M S error GenericCloudMetric).
Hypothesis Hquery : ∀ m s o s',
  (∃ tr, runs (query m s) tr (o, s')) ↔ s' = s ∧ ∃ r, answers m r ∧ o = outcomeOf r.

Lemma try_query {E} m s (o : outcome E _) s' :
  (∃ tr, runs (try (query m) s) tr (o, s')) ↔
  s' = s ∧ ∃ r, answers m r ∧ o = Val (match r with Ok v => inl v | Er e => inr e end).
Proof.
  split.
  - intros (tr & (o' & Hr & ->)%runs_try).
    destruct (proj1 (Hquery m s o' s')) as (-> & r & Ha & ->); [by exists tr|].
    split; [done|]. exists r. by destruct r.
  - intros (-> & r & Ha & ->).
    destruct (proj2 (Hquery m s (outcomeOf r) s)) as (tr & Hr); [eauto|].
    exists tr. apply runs_try. exists (outcomeOf r). by destruct r.
Qed.

Lemma perform_step acc c mv s tr (o : outcome error collector) s' :
  C_loop c = Collecting acc → mv ∈ possible c →
  runs (perform query acc c mv s) tr (o, s') → s' = s ∧ ∃ c', o = Val c' ∧ step answers c c'.
Proof.
  intros Hl Hmv%elem_of_possible Hr. destruct mv as [i| | | |]; cbn in Hr.
  - destruct Hmv as (w & Hi & Hw). rewrite Hi in Hr. destruct w as [m|e|v|]; [| | |done].
    + apply runs_bind in Hr as [(t1 & a & s1 & t2 & -> & H1 & Hr)|[(e & H1 & ->)|(e & H1 & ->)]];
        destruct (proj1 (try_query _ _ _ _) (ex_intro (λ tr, runs _ tr _) _ H1))
          as (-> & r & Ha & Ho); try discriminate Ho.
      injection Ho as ->. apply runs_mret in Hr as (_ & -> & ->). split; [done|].
      eexists. split; [done|]. destruct r; by eapply (step_query _ _ i _ _ Hi Ha).
    + apply runs_mret in Hr as (_ & -> & ->). split; [done|]. eexists. split; [done|].
      apply step_sendError; [done|]. by apply bool_decide_eq_true in Hw.
    + apply runs_mret in Hr as (_ & -> & ->). split; [done|]. eexists. split; [done|].
      apply step_sendMetric; [done|]. by apply bool_decide_eq_true in Hw.
  - apply runs_mret in Hr as (_ & -> & ->). split; [done|]. eexists. split; [done|].
    destruct Hmv. by apply step_close.
  - apply runs_mret in Hr as (_ & -> & ->). split; [done|]. eexists. split; [done|].
    by apply step_takeDone.
  - destruct (C_metricChan c) as [|v q] eqn:Eq; [done|].
    apply runs_mret in Hr as (_ & -> & ->). split; [done|]. eexists. split; [done|].
    by apply step_takeMetric.
  - destruct (C_errChan c) as [|e q] eqn:Eq; [done|].
    apply runs_mret in Hr as (_ & -> & ->). split; [done|]. eexists. split; [done|].
    by apply (step_takeError _ _ acc).
Qed.

Lemma step_perform acc c c' s :
  C_loop c = Collecting acc → step answers c c' →
  ∃ mv tr, mv ∈ possible c ∧ runs ((perform query acc c mv : M S error _) s) tr (Val c', s).
Proof.
  intros Hl Hs.
  destruct Hs as [i m r Hi Ha|i e Hi He|i v Hi Hq|Hd Hc|acc' v q Hl' Hq|acc' e q Hl' Hq|acc' Hl' Hd];
    try (rewrite Hl in Hl'; injection Hl' as <-).
  - destruct (proj2 (try_query (E := error) m s
      (Val (match r with Ok v => inl v | Er e => inr e end)) s)) as (tr & Hr); [by eauto|].
    exists (Work i), tr. split; [apply elem_of_possible; by exists (Waiting m)|].
    cbn. rewrite Hi. rewrite <- (app_nil_r tr). apply runs_bind. left.
    eexists _, _, _, _. split; [done|]. split; [exact Hr|]. by destruct r.
  - exists (Work i), []. split; [|by cbn; rewrite Hi].
    apply elem_of_possible. exists (Failed e). split; [done|]. cbn. by rewrite He.
  - exists (Work i), []. split; [|by cbn; rewrite Hi].
    apply elem_of_possible. exists (Answered v). split; [done|]. by apply bool_decide_eq_true.
  - exists Close, []. by rewrite elem_of_possible.
  - exists TakeMetric, []. rewrite elem_of_possible. cbn. by rewrite Hq.
  - exists TakeError, []. rewrite elem_of_possible. cbn. by rewrite Hq.
  - exists TakeDone, []. by rewrite elem_of_possible.
Qed.

(** The program returns what the machine returns, and always returns. *)
Lemma collect_steps fuel c s tr (o : outcome error _) s' :
  roomy c → stepsLeft c <= fuel →
  runs (collect query fuel c s) tr (o, s') →
  s' = s ∧ ∃ c' r, rtc (step answers) c c' ∧ C_loop c' = Returned r ∧ o = outcomeOf r.
Proof.
  revert c tr. induction fuel as [|fuel IH]; intros c tr Hroom Hf Hr; cbn [collect] in Hr;
    destruct (C_loop c) as [acc|r] eqn:El.
  - exfalso. unfold stepsLeft in Hf. rewrite El in Hf. lia.
  - destruct r; apply runs_lift in Hr as (_ & -> & ->); eauto 6 using rtc_refl.
  - inv_call Hr. destruct Hr as (k & t & -> & Hr).
    destruct (possible c !! (k mod length (possible c))) as [mv|] eqn:Emv.
    + apply list_elem_of_lookup_2 in Emv.
      apply runs_bind in Hr as [(t1 & c1 & s1 & t2 & -> & H1 & Hr)|[(e & H1 & ->)|(e & H1 & ->)]];
        destruct (perform_step _ _ _ _ _ _ _ El Emv H1) as (-> & c' & Ho & Hs); try discriminate Ho.
      injection Ho as ->. pose proof (step_decreases _ _ Hs).
      destruct (IH c' t2 (step_roomy _ _ Hs Hroom) ltac:(lia) Hr) as (-> & c2 & r & Hc2 & Hl2 & ->).
      split; [done|]. exists c2, r. split; [by eapply rtc_l|done].
    + exfalso. apply lookup_ge_None in Emv. pose proof (step_possible c Hroom) as Hp.
      assert (length (possible c) ≠ 0) as Hn by (by destruct (possible c)).
      pose proof (Nat.mod_upper_bound k _ Hn). lia.
  - destruct r; apply runs_lift in Hr as (_ & -> & ->); eauto 6 using rtc_refl.
Qed.

Lemma steps_collect fuel c c' r s :
  rtc (step answers) c c' → C_loop c' = Returned r → stepsLeft c <= fuel →
  ∃ tr, runs ((collect query fuel c : M S error _) s) tr (outcomeOf r, s).
Proof.
  intros Hs Hl. revert fuel. induction Hs as [c|c c1 c' Hs Hss IH]; intros fuel Hf.
  - exists []. destruct fuel; cbn; rewrite Hl; by destruct r.
  - destruct (C_loop c) as [acc|r0] eqn:El.
    + destruct fuel as [|fuel]; [unfold stepsLeft in Hf; rewrite El in Hf; lia|].
      destruct (step_perform _ _ _ s El Hs) as (mv & t1 & Hmv & H1).
      pose proof (step_decreases _ _ Hs). destruct (IH Hl fuel ltac:(lia)) as (t2 & H2).
      apply list_elem_of_lookup in Hmv as (k & Hk).
      exists (@Ev api (Schedule (length (possible c))) k :: t1 ++ t2).
      cbn [collect]. rewrite El. exists k, (t1 ++ t2). split; [done|].
      cbn -[possible]. rewrite Nat.mod_small by (by apply lookup_lt_Some in Hk). rewrite Hk.
      apply runs_bind. left. eauto 8.
    + pose proof (steps_returned _ _ _ (rtc_l _ _ _ _ Hs Hss) El) as Hr.
      rewrite Hl in Hr. injection Hr as ->. exists [].
      destruct fuel; cbn; rewrite El; by destruct r0.
Qed.
End Machine.

(** ** getMetrics *)

Section GetMetrics.
Context `{GcpTypes} {S : Type}.
Implicit Types (s : S) (opts : getMetricsOpts).

(** What Cloud Monitoring may answer to a worker: the average of some points under the
    name and the labels asked for, or an error. *)
Definition answered opts (m : CloudProviderMetricType) (r : result GenericCloudMetric) : Prop :=
  match r with
  | Ok v => ∃ points, v = {| GCM_Name := MT_PrometheusMetricName m;
                             GCM_Labels := O_defaultLabels opts;
                             GCM_Value := calculatePointsAverage points |}
  | Er e => ∃ e', e = WrapErr e' "error listing time series"
  end.

(** The request for a metric, and what becomes of the answer. *)
Definition metricRequest opts (m : CloudProviderMetricType) (reducer : Aggregation_Reducer)
    (interval : Z * Z) : ListTimeSeriesRequest :=
  {| TSR_Name := O_projectID opts; TSR_Filter := O_filter opts (MT_ProviderMetricName m);
     TSR_PerSeriesAligner := Aggregation_Aligner_value (MT_Statistic m);
     TSR_AlignmentPeriod := MetricsWatchDuration; TSR_CrossSeriesReducer := reducer;
     TSR_StartTime := interval.1; TSR_EndTime := interval.2 |}.
Definition metricOf opts (m : CloudProviderMetricType) (a : list TimeSeries * option error)
  : result GenericCloudMetric :=
  match a with
  | (_, Some e) => Er (WrapErr e "error listing time series")
  | ([], None) => Er (WrapErr (GoErr "could not find any time series") "error listing time series")
  | (points :: _, None) => Ok {| GCM_Name := MT_PrometheusMetricName m;
                                 GCM_Labels := O_defaultLabels opts;
                                 GCM_Value := calculatePointsAverage points |}
  end.
Lemma getMetricData_run opts m reducer interval s tr o s' :
  runs (getMetricData opts m reducer interval s) tr (o, s') ↔
  s' = s ∧ ∃ a, tr = [@Ev api (Gcp (ListTimeSeries (metricRequest opts m reducer interval))) a] ∧
                o = outcomeOf (metricOf opts m a).
Proof.
  unfold getMetricData, listTimeSeries. split.
  - intros (a & t & -> & Hr). destruct a as [[|points l] [e|]]; destruct Hr as [-> [= -> ->]]; eauto.
  - intros (-> & a & -> & ->). exists a, []. split; [done|]. by destruct a as [[|points l] [e|]].
Qed.
Lemma metricOf_answered opts m a : answered opts m (metricOf opts m a).
Proof. destruct a as [[|points l] [e|]]; cbn; eauto. Qed.
Lemma answered_metricOf opts m r : answered opts m r → ∃ a, metricOf opts m a = r.
Proof.
  destruct r as [v|e]; intros (x & ->); [by exists ([x], None)|by exists ([], Some x)].
Qed.

Lemma GetMetricReconcileTimeOrDefault_run {E} d s tr (o : outcome E Z) s' :
  runs (GetMetricReconcileTimeOrDefault d s) tr (o, s') ↔
  s' = s ∧ ∃ v, tr = [@Ev api (LookupEnv EnvMetricsReconcileTimeout) v] ∧
    o = Val (default d (v ≫= ParseInt64)).
Proof.
  unfold GetMetricReconcileTimeOrDefault. split.
  - intros (v & t & -> & Hr). destruct v as [v|]; [cbn in Hr; destruct (ParseInt64 v) as [z|] eqn:Ez|];
      destruct Hr as [-> [= -> ->]]; split; try done; eexists; (split; [done|]); cbn; by rewrite ?Ez.
  - intros (-> & v & -> & ->). exists v, []. split; [done|]. destruct v as [v|]; [|done].
    cbn. by destruct (ParseInt64 v).
Qed.
Lemma lastInterval_run {E} s tr (o : outcome E (Z * Z)) s' :
  runs (lastInterval s) tr (o, s') → s' = s ∧ ∃ i, o = Val i.
Proof.
  unfold lastInterval. intros Hr. inv_call Hr. destruct Hr as (now & t & -> & Hr).
  apply runs_bind in Hr as [(t1 & d & s1 & t2 & -> & H1 & Hr)|[(e & H1 & ->)|(e & H1 & ->)]];
    apply GetMetricReconcileTimeOrDefault_run in H1 as (-> & v & -> & Ho); try discriminate Ho.
  destruct Hr as (now' & t' & -> & -> & [= -> ->]). eauto.
Qed.
Lemma lastInterval_runs {E} s : ∃ tr i, runs ((lastInterval : M S E _) s) tr (Val i, s).
Proof.
  exists [@Ev api TimeNow 0%Z; @Ev api (LookupEnv EnvMetricsReconcileTimeout) None;
          @Ev api TimeNow 0%Z]. eexists.
  repeat (eexists _, _; split; [reflexivity|]). by split.
Qed.
Lemma queryMetric_run opts m s o s' :
  (∃ tr, runs (queryMetric opts m s) tr (o, s')) ↔
  s' = s ∧ ∃ r, answered opts m r ∧ o = outcomeOf r.
Proof.
  unfold queryMetric. split.
  - intros (tr & Hr).
    apply runs_bind in Hr as [(t1 & i & s1 & t2 & -> & H1 & Hr)|[(e & H1 & ->)|(e & H1 & ->)]];
      apply lastInterval_run in H1 as (-> & i' & Ho); try discriminate Ho.
    apply getMetricData_run in Hr as (-> & a & -> & ->). eauto using metricOf_answered.
  - intros (-> & r & Ha & ->). apply answered_metricOf in Ha as (a & <-).
    destruct (lastInterval_runs (E := error) s) as (t1 & i & H1).
    eexists. apply runs_bind. left. eexists _, _, _, _. split; [done|]. split; [exact H1|].
    apply getMetricData_run. eauto.
Qed.

Lemma stepsLeft_new metrics : stepsLeft (newCollector metrics) = 6 * length metrics + 2.
Proof.
  unfold stepsLeft, newCollector. cbn [C_workers C_metricChan C_errChan C_doneChan C_loop length].
  rewrite map_map. simpl.
  assert (sum_list (map (λ _ : CloudProviderMetricType, 6) metrics) = 6 * length metrics) as ->; [|lia].
  induction metrics as [|m metrics IH]; [done|]. simpl in *. lia.
Qed.

(** C23: *)
Theorem collector_halts opts n c :
  nsteps (step (answered opts)) n (newCollector (O_metricsToQuery opts)) c →
  n <= 6 * length (O_metricsToQuery opts) + 2 ∧
  ((∃ c', step (answered opts) c c') ∨
   (∃ r, C_loop c = Returned r) ∧
   ∀ i w, C_workers c !! i = Some w → w = Done ∨ ∃ e, w = Failed e ∧ C_errChan c ≠ []).
Proof.
  intros Hn. apply nsteps_bound in Hn as [Hn Hr]; [|apply newCollector_roomy].
  rewrite stepsLeft_new in Hn. split; [lia|].
  assert (∀ m, ∃ r, answered opts m r) as Hex
    by (intros m; eexists; apply (metricOf_answered opts m ([], None))).
  destruct (C_loop c) as [acc|r] eqn:El.
  { left. by apply (possible_step _ c Hex Hr acc). }
  destruct (workers_rest _ c Hex Hr) as [Hs|Hw]; [by left|]. right. split; [by eexists|done].
Qed.

Lemma getMetrics_run opts s s' tr o :
  runs (getMetrics opts s) tr (o, s') →
  s' = s ∧ ∃ r, mayReturn (answered opts) (O_metricsToQuery opts) r ∧ o = outcomeOf r.
Proof.
  intros Hr.
  destruct (collect_steps (answered opts) _ (queryMetric_run opts) _ _ _ _ _ _
              (newCollector_roomy _) (le_n _) Hr) as (-> & c & r & Hs & Hl & ->).
  split; [done|]. exists r. split; [|done]. by apply (steps_mayReturn _ _ _ _ Hs).
Qed.

(** C22: *)
Theorem getMetrics_results opts s s' o :
  (∃ tr, runs (getMetrics opts s) tr (o, s')) ↔
  s' = s ∧ ∃ r, mayReturn (answered opts) (O_metricsToQuery opts) r ∧ o = outcomeOf r.
Proof.
  split.
  - intros (tr & Hr). by apply (getMetrics_run _ _ _ tr).
  - intros (-> & r & Hm & ->). apply mayReturn_steps in Hm as (c & Hs & Hl).
    by apply (steps_collect _ _ (queryMetric_run opts) _ _ _ _ _ Hs Hl).
Qed.

(** ** The metrics that are computed *)

Definition cpuPercentage (current previous : float64) : float64 :=
  let p := fdiv (fsub current previous) (float_of_Z sampleDuration) in
  roundFloat (if flt p fzero then fzero else p) 2.
(** What the trace shows of the environment variable and of the answers. *)
Definition looked (v : option string) : event := @Ev api (LookupEnv EnvMetricsReconcileTimeout) v.
Definition listed opts m reducer interval a : event :=
  @Ev api (Gcp (ListTimeSeries (metricRequest opts m reducer interval))) a.

(** *)
Theorem calculateCpuUtilization_intervals m opts s tr o s' :
  runs (calculateCpuUtilization m opts s) tr (o, s') →
  ∃ now v v' a, let d := default MetricsWatchDuration (v ≫= ParseInt64) in
    let d' := default (MetricsWatchDuration * 2)%Z (v' ≫= ParseInt64) in
    let asked := [@Ev api TimeNow now; looked v; looked v';
                  listed opts m REDUCE_SUM (now - d, now)%Z a] in
    match metricOf opts m a with
    | Er e => tr = asked ∧ o = Err e
    | Ok current => ∃ a',
        tr = asked ++ [listed opts m REDUCE_SUM (now - d', now - d)%Z a'] ∧
        (v = v' → is_Some (v ≫= ParseInt64) → (now - d' = now - d)%Z) ∧
        o = match metricOf opts m a' with
            | Er e => Err e
            | Ok previous =>
                Val {| GCM_Name := MT_PrometheusMetricName m; GCM_Labels := O_defaultLabels opts;
                       GCM_Value := cpuPercentage (GCM_Value current) (GCM_Value previous) |}
            end
    end.
Proof.
  unfold calculateCpuUtilization. intros Hr. inv_call Hr. destruct Hr as (now & t & -> & Hr).
  exists now.
  apply runs_bind in Hr as [(t1 & d & s1 & t2 & -> & H1 & Hr)|[(e & H1 & ->)|(e & H1 & ->)]];
    apply GetMetricReconcileTimeOrDefault_run in H1 as (-> & v & -> & Ho); try discriminate Ho.
  injection Ho as ->. exists v.
  apply runs_bind in Hr as [(t1 & d & s1 & t3 & -> & H1 & Hr)|[(e & H1 & ->)|(e & H1 & ->)]];
    apply GetMetricReconcileTimeOrDefault_run in H1 as (-> & v' & -> & Ho); try discriminate Ho.
  injection Ho as ->. exists v'.
  apply runs_bind in Hr as [(t1 & d & s1 & t4 & -> & H1 & Hr)|[(e & H1 & ->)|(e & H1 & ->)]];
    apply getMetricData_run in H1 as (-> & a & -> & Ho); exists a; destruct (metricOf opts m a);
    try discriminate Ho; [|by injection Ho as ->].
  injection Ho as ->.
  apply runs_bind in Hr as [(t1 & d & s1 & t5 & -> & H1 & Hr)|[(e & H1 & ->)|(e & H1 & ->)]];
    apply getMetricData_run in H1 as (-> & a' & -> & Ho); exists a'; destruct (metricOf opts m a');
    try discriminate Ho; injection Ho as ->.
  - apply runs_mret in Hr as (-> & -> & ->). split_and!; try done. intros <- [x ->]. done.
  - split_and!; try done. intros <- [x ->]. done.
Qed.

(** ** The whole scrape *)

Definition named opts (m : CloudProviderMetricType) (g : GenericCloudMetric) : Prop :=
  GCM_Name g = MT_PrometheusMetricName m ∧ GCM_Labels g = O_defaultLabels opts.
Lemma calculateAvailableMemory_Val m opts s tr g s' :
  runs (calculateAvailableMemory m opts s) tr (Val g, s') → named opts m g.
Proof.
  intros Hr. unfold calculateAvailableMemory in Hr.
  apply runs_bind_Val in Hr as (t1 & [maxMemory usedMemory] & s1 & t2 & -> & _ & Hr).
  apply runs_bind_Val in Hr as (t3 & i & s2 & t4 & -> & _ & Hr).
  apply runs_bind_Val in Hr as (t5 & g1 & s3 & t6 & -> & _ & Hr).
  apply runs_bind_Val in Hr as (t7 & g2 & s4 & t8 & -> & _ & Hr).
  by apply runs_mret_Val in Hr as (-> & <- & ->).
Qed.
Lemma calculateCpuUtilization_Val m opts s tr g s' :
  runs (calculateCpuUtilization m opts s) tr (Val g, s') → named opts m g.
Proof.
  intros Hr. unfold calculateCpuUtilization in Hr.
  apply runs_bind_Val in Hr as (t1 & now & s1 & t2 & -> & _ & Hr).
  apply runs_bind_Val in Hr as (t3 & d & s2 & t4 & -> & _ & Hr).
  apply runs_bind_Val in Hr as (t5 & d' & s3 & t6 & -> & _ & Hr).
  apply runs_bind_Val in Hr as (t7 & g1 & s4 & t8 & -> & _ & Hr).
  apply runs_bind_Val in Hr as (t9 & g2 & s5 & t10 & -> & _ & Hr).
  by apply runs_mret_Val in Hr as (-> & <- & ->).
Qed.

(** The types that are computed; the others are queried. *)
Definition computed (cpu : bool) (m : CloudProviderMetricType) : bool :=
  IsCompoundMetric (MT_PrometheusMetricName m) ||
  cpu && IsComputedCpuMetric (MT_PrometheusMetricName m).
Lemma computeMetrics_Val what cpu opts types s tr all queries s' :
  runs (computeMetrics what cpu opts types s) tr (Val (all, queries), s') →
  ∃ gs, all = map Some gs ∧ Forall2 (named opts) (List.filter (computed cpu) types) gs ∧
        queries = List.filter (λ m, negb (computed cpu m)) types.
Proof.
  unfold computeMetrics. intros Hr.
  lazymatch type of Hr with runs (foldM ?f _ _ _) _ _ => set (body := f) in Hr end.
  assert (∀ types s tr acc rest, runs (foldM body (acc, rest) types s) tr (Val (all, queries), s') →
    ∃ gs, all = acc ++ map Some gs ∧ Forall2 (named opts) (List.filter (computed cpu) types) gs ∧
    queries = rest ++ List.filter (λ m, negb (computed cpu m)) types) as Hgen;
    [|by apply Hgen in Hr].
  clear. intros types. induction types as [|m types IH]; intros s tr acc rest Hr;
    cbn [foldM List.filter] in *.
  - apply runs_mret_Val in Hr as (_ & [= <- <-] & _). exists []. by rewrite !app_nil_r.
  - apply runs_bind_Val in Hr as (t1 & [acc' rest'] & s1 & t2 & -> & H1 & Hr).
    apply IH in Hr as (gs & -> & Hgs & ->). unfold body in H1.
    change (computed cpu m) with (IsCompoundMetric (MT_PrometheusMetricName m) ||
      cpu && IsComputedCpuMetric (MT_PrometheusMetricName m)).
    destruct (IsCompoundMetric (MT_PrometheusMetricName m)); cbn [orb negb];
      [|destruct (cpu && IsComputedCpuMetric (MT_PrometheusMetricName m)); cbn [negb]].
    1-2: apply runs_bind_Val in H1 as (t3 & g & s2 & t4 & -> & H1 & H2);
      apply runs_mret_Val in H2 as (_ & [= <- <-] & _); apply runs_onErr_Val in H1;
      exists (g :: gs); rewrite <- app_assoc; split_and!; try done; constructor; try done;
      by apply calculateAvailableMemory_Val in H1 || apply calculateCpuUtilization_Val in H1.
    apply runs_mret_Val in H1 as (_ & [= <- <-] & _). exists gs. by rewrite <- !app_assoc.
Qed.

(** *)
Theorem scrapeMetrics_Val manager config what provider cpu filterOf cr types s tr ms s' :
  runs (scrapeMetrics manager config what provider cpu filterOf cr types s) tr (Val ms, s') →
  ∃ opts clusterID instanceID gs rest,
    O_defaultLabels opts = BuildGenericMetricLabels (CR_Meta cr) clusterID instanceID provider ∧
    ms = map Some gs ++ rest ∧
    Forall2 (named opts) (List.filter (computed cpu) types) gs ∧
    mayReturn (answered opts) (List.filter (λ m, negb (computed cpu m)) types) (Ok rest).
Proof.
  unfold scrapeMetrics. intros Hr.
  apply runs_bind_Val in Hr as (t1 & strategy & s1 & t2 & -> & _ & Hr).
  apply runs_bind_Val in Hr as (t3 & creds & s2 & t4 & -> & _ & Hr).
  apply runs_bind_Val in Hr as (t5 & u & s3 & t6 & -> & _ & Hr).
  apply runs_bind_Val in Hr as (t7 & clusterID & s4 & t8 & -> & _ & Hr).
  apply runs_bind_Val in Hr as (t9 & instanceID & s5 & t10 & -> & _ & Hr).
  apply runs_bind_Val in Hr as (t11 & [all queries] & s6 & t12 & -> & Hc & Hr).
  apply runs_bind_Val in Hr as (t13 & rest & s7 & t14 & -> & Hg & Hr).
  apply runs_mret_Val in Hr as (_ & <- & _). apply runs_onErr_Val in Hg.
  apply computeMetrics_Val in Hc as (gs & -> & Hgs & ->).
  apply getMetrics_run in Hg as (_ & r & Hm & Ho). destruct r; [|done]. injection Ho as ->.
  eexists _, clusterID, instanceID, gs, _. split; [|split; [done|split; [exact Hgs|exact Hm]]].
  done.
Qed.
End GetMetrics.
