(* ===== verification/AwsConfigProps.v ===== *)
(** * Properties of the AWS configuration and credentials

    The strategies the operator falls back to, the credentials a provider goes on
    with, the region and the kind of its sessions, and the block of the standalone
    network. *)
From S2P Require Import Prelude Effects GoNet Json Api Resources.
From S2P Require Import NetFacts Subnets NetworkProvider NetworkProps AwsConfig Footprints.
Local Open Scope go_scope.

(** ** Credentials *)

(** The credentials of a session: keys, or a role with its token, never both. *)
Definition usable (m : CredentialManager) (c : Credentials) : Prop :=
  match m with
  | CredentialMinterCredentialManager _ =>
      Creds_AccessKeyID c ≠ "" ∧ Creds_SecretAccessKey c ≠ "" ∧ Creds_RoleArn c = ""
  | STSCredentialManager _ =>
      Creds_AccessKeyID c = "" ∧ Creds_SecretAccessKey c = "" ∧ Creds_RoleArn c ≠ "" ∧
      Creds_TokenFilePath c = defaultTokenPath
  end.

Section Config.
Context {S : Type} `{ThirdParty}.
Implicit Types (s : S).

Lemma reconcileAWSCredentials_Val cr s tr keys s' :
  runs (reconcileAWSCredentials cr s) tr (Val keys, s') →
  keys.1 ≠ "" ∧ keys.2 ≠ "" ∧
  ∃ sec, Ev (GetSecret (CReq_SecretRef cr).1 (CReq_SecretRef cr).2) (Ok sec) ∈ tr ∧
         keys = (secretData sec defaultCredentialsKeyIDName,
                 secretData sec defaultCredentialsSecretKeyName).
Proof.
  intros Hr. unfold reconcileAWSCredentials in Hr. run_val Hr.
  apply bool_decide_eq_false in E, E0. subst. split_and!; [done|done|].
  eexists. split; [ev_in|done].
Qed.

(** The request was seen provisioned. *)
Lemma awaitCredentialRequest_Val cr s tr req s' :
  runs (awaitCredentialRequest cr s) tr (Val req, s') →
  CReq_Provisioned req = true ∧ ∃ n1 n2, Ev (GetCredentialsRequest n1 n2) (Ok req) ∈ tr.
Proof.
  intros (tp & sp & Hs & Hp)%poll_Val.
  assert (CReq_Provisioned req = true ∧
    Ev (GetCredentialsRequest (CReq_Name cr) (CReq_Namespace cr)) (Ok req) ∈ tp) as [Hprov Hget].
  { inv_call Hp. destruct Hp as (r & t & -> & Hp). destruct r as [x|e].
    - apply runs_mret_Val in Hp as (-> & Hx & _). destruct (CReq_Provisioned x) eqn:Ex; [|done].
      injection Hx as <-. split; [done|ev_in].
    - destruct (IsNotFound e); [by apply runs_mret_Val in Hp as (_ & ? & _)|].
      by apply runs_fail_Val in Hp. }
  split; [done|]. eexists _, _. by apply Hs.
Qed.

Lemma reconcileCredentials_Val name ns entries s tr c s' :
  runs (reconcileCredentials name ns entries s) tr (Val c, s') →
  usable (CredentialMinterCredentialManager name) c ∧
  ∃ req sec, CReq_Provisioned req = true ∧
    Ev (GetSecret (CReq_SecretRef req).1 (CReq_SecretRef req).2) (Ok sec) ∈ tr ∧
    Creds_AccessKeyID c = secretData sec defaultCredentialsKeyIDName ∧
    Creds_SecretAccessKey c = secretData sec defaultCredentialsSecretKeyName ∧
    ∃ n1 n2, Ev (GetCredentialsRequest n1 n2) (Ok req) ∈ tr.
Proof.
  intros Hr. unfold reconcileCredentials in Hr.
  apply runs_bind_Val in Hr as (t1 & cr0 & s1 & t2 & -> & _ & Hr).
  apply runs_bind_Val in Hr as (t3 & req & s2 & t4 & -> & Hp & Hr).
  apply runs_onErr_Val, awaitCredentialRequest_Val in Hp as (Hprov & n1 & n2 & Hget).
  apply runs_bind_Val in Hr as (t5 & st & s3 & t6 & -> & _ & Hr).
  apply runs_bind_Val in Hr as (t7 & keys & s4 & t8 & -> & Hk & Hr).
  apply runs_onErr_Val, reconcileAWSCredentials_Val in Hk as (K1 & K2 & sec & Hsec & ->).
  apply runs_mret_Val in Hr as (-> & <- & _).
  split; [done|]. exists req, sec. split_and!; try done; [ev_in|].
  eexists _, _. ev_in.
Qed.

(** C35: the credentials a provider goes on with are keys, both of them not
    empty and read from the secret of a request that was seen provisioned, or a
    role, not empty and read from the secret of the operator's namespace; which of
    the two depends on the credential manager only. *)
Theorem ReconcileProviderCredentials_usable m ns s tr c s' :
  runs (ReconcileProviderCredentials m ns s) tr (Val c, s') →
  usable m c ∧
  match m with
  | CredentialMinterCredentialManager _ =>
      ∃ req sec n1 n2, Ev (GetCredentialsRequest n1 n2) (Ok req) ∈ tr ∧
        CReq_Provisioned req = true ∧
        Ev (GetSecret (CReq_SecretRef req).1 (CReq_SecretRef req).2) (Ok sec) ∈ tr ∧
        Creds_AccessKeyID c = secretData sec defaultCredentialsKeyIDName ∧
        Creds_SecretAccessKey c = secretData sec defaultCredentialsSecretKeyName
  | STSCredentialManager operatorNs =>
      ∃ sec, Ev (GetSecret defaultSTSCredentialSecretName operatorNs) (Ok sec) ∈ tr ∧
        Creds_RoleArn c = secretData sec defaultRoleARNKeyName
  end.
Proof.
  intros Hr. unfold ReconcileProviderCredentials in Hr. destruct m as [name|ons].
  - apply reconcileCredentials_Val in Hr as (Hu & req & sec & ? & ? & ? & ? & n1 & n2 & ?).
    split; [exact Hu|]. exists req, sec, n1, n2. done.
  - unfold STS_ReconcileProviderCredentials, getSTSCredentialsSecret in Hr. run_val Hr. apply bool_decide_eq_false in E. subst.
    split; [done|]. eexists. split; [ev_in|done].
Qed.

(** ** Sessions *)

Lemma getDefaultRegion_Val s tr region s' :
  runs (getDefaultRegion s) tr (Val region, s') → region ≠ "".
Proof.
  intros Hr. unfold getDefaultRegion in Hr.
  apply runs_bind_Val in Hr as (t1 & r & s1 & t2 & -> & _ & Hr).
  case_bool_decide as E; [by apply runs_fail_Val in Hr|].
  by apply runs_mret_Val in Hr as (_ & <- & _).
Qed.
Lemma GetRegionFromStrategyOrDefault_Val strategy s tr region s' :
  runs (GetRegionFromStrategyOrDefault strategy s) tr (Val region, s') →
  region ≠ "" ∧ (Strategy_Region strategy ≠ "" → region = Strategy_Region strategy).
Proof.
  intros Hr. unfold GetRegionFromStrategyOrDefault in Hr.
  apply runs_bind_Val in Hr as (t1 & d & s1 & t2 & -> & Hd & Hr).
  apply runs_onErr_Val, getDefaultRegion_Val in Hd.
  apply runs_mret_Val in Hr as (_ & <- & _). by case_bool_decide.
Qed.

Definition noSession (c : call) : Prop :=
  match (c : api_call) with NewSession _ _ => False | _ => True end.
Lemma noSession_region strategy :
  sat noSession eq (GetRegionFromStrategyOrDefault (S := S) strategy).
Proof.
  unfold GetRegionFromStrategyOrDefault, getDefaultRegion, GetAWSRegion, GetClusterInfrastructure.
  go_sat.
Qed.
Lemma mustSession_Val region c s tr u s' :
  runs (mustSession region c s) tr (Val u, s') → tr = [Ev (NewSession (Some region) c) (Ok tt)].
Proof.
  intros Hr. unfold mustSession in Hr.
  apply runs_bind_Val in Hr as (t1 & r & s1 & t2 & -> & Hs & Hr).
  apply (@runs_invoke_Val api S error (NewSession (Some region) c)) in Hs as [-> ->].
  destruct r as [[]|e]; [by apply runs_mret_Val in Hr as (-> & _)|by apply runs_panic_Val in Hr].
Qed.

(** The session a provider's credentials ask for. *)
Definition sessionOf (local : bool) (c : Credentials) : session_credentials :=
  if bool_decide (Creds_RoleArn c = "")
  then StaticCredentials (Creds_AccessKeyID c) (Creds_SecretAccessKey c)
  else if local then AssumeRole (Creds_RoleArn c)
  else WebIdentityRole (Creds_RoleArn c) "Red-Hat-cloud-resources-operator"
         (Creds_TokenFilePath c).

(** a session is created in a region that is never empty, the one of
    the strategy when it has one, with the keys of the credentials or by assuming
    their role; no other session is left when the function returns. *)
Theorem CreateSessionFromStrategy_session c strategy s tr u s' :
  runs (CreateSessionFromStrategy c strategy s) tr (Val u, s') →
  ∃ region local t1, tr = t1 ++ [Ev (NewSession (Some region) (sessionOf local c)) (Ok tt)] ∧
    region ≠ "" ∧ (Strategy_Region strategy ≠ "" → region = Strategy_Region strategy) ∧
    (∀ reg cr ans, Ev (NewSession reg cr) ans ∈ t1 → reg = Some region ∧ cr = DefaultChain).
Proof.
  intros Hr. unfold CreateSessionFromStrategy in Hr.
  apply runs_bind_Val in Hr as (t1 & region & s1 & t2 & -> & Hreg & Hr).
  apply runs_onErr_Val in Hreg.
  pose proof (proj1 (noSession_region strategy _ _ _ _ Hreg)) as Hno. rewrite Forall_forall in Hno.
  apply GetRegionFromStrategyOrDefault_Val in Hreg as [Hne Hst].
  unfold sessionOf. case_bool_decide as Harn.
  { apply mustSession_Val in Hr as ->. exists region, false, t1. split_and!; try done.
    intros reg cr ans Hin. by apply Hno in Hin. }
  apply runs_bind_Val in Hr as (t3 & local & s3 & t4 & -> & Hl & Hr).
  unfold IsRunModeLocal in Hl. run_val Hl. subst local.
  apply runs_bind_Val in Hr as (t5 & u' & s5 & t6 & -> & Hs & Hr).
  apply mustSession_Val in Hs as ->.
  assert (t6 = [Ev (NewSession (Some region) (if match a with StatNotExist => true | _ => false end
    then AssumeRole (Creds_RoleArn c) else WebIdentityRole (Creds_RoleArn c)
      "Red-Hat-cloud-resources-operator" (Creds_TokenFilePath c))) (Ok tt)]) as ->.
  { by destruct (match a with StatNotExist => true | _ => false end); apply mustSession_Val in Hr. }
  eexists region, _, (t1 ++ [_] ++ [_]).
  split_and!; [by rewrite <- !app_assoc|done|done|].
  intros reg cr ans [Hin|Hin]%elem_of_app; [by apply Hno in Hin|].
  apply elem_of_app in Hin as [Hin|Hin].
  - by apply list_elem_of_singleton, (f_equal ev_call) in Hin.
  - apply list_elem_of_singleton, (f_equal ev_call) in Hin. by injection Hin as -> ->.
Qed.

(** ** Strategies *)

Definition defaultStrategy : StrategyConfig :=
  {| Strategy_Region := ""; Strategy_CreateStrategy := Some (JObj []);
     Strategy_DeleteStrategy := Some (JObj []); Strategy_ServiceUpdates := None |}.

Lemma default_strategies rt tier :
  rt ∈ ["blobstorage"; "redis"; "postgres"; "_network"] → tier ∈ ["development"; "production"] →
  let raw := default "" (BuildDefaultConfigMap !! rt) in
  raw ≠ "" ∧ ∃ m, unmarshalMapping raw = Ok m ∧ lookupTier tier m = Some defaultStrategy.
Proof.
  intros Hrt Ht. apply list_elem_of_In in Hrt, Ht. cbn in Hrt, Ht.
  destruct Hrt as [<-|[<-|[<-|[<-|[]]]]]; destruct Ht as [<-|[<-|[]]];
    (split; [vm_compute; discriminate|]; eexists; split; vm_compute; reflexivity).
Qed.

(** The strategy of a tier in a config map. *)
Definition strategyIn (cm : gmap string string) (rt tier : string) : option StrategyConfig :=
  let raw := default "" (cm !! rt) in
  if bool_decide (raw = "") then None
  else match unmarshalMapping raw with Ok m => lookupTier tier m | Er _ => None end.

Lemma tierStrategy_runs cm rt tier s tr o s' :
  runs (tierStrategy cm rt tier s) tr (o, s') →
  tr = [] ∧ s' = s ∧ match strategyIn cm rt tier with
                     | Some st => o = Val st | None => ∃ e, o = Err e end.
Proof.
  unfold tierStrategy, strategyIn. case_bool_decide; [intros (-> & -> & ->)%runs_fail; eauto|].
  destruct (unmarshalMapping _) as [l|er]; [|by intros [-> [= -> ->]]; eauto].
  intros Hr. assert (runs ((match lookupTier tier l with
    | Some s => mret s
    | None => fail (GoErr ("no strategy found for deployment type " +:+ rt +:+
                           " and deployment tier " +:+ tier))
    end : M S error StrategyConfig) s) tr (o, s')) as Hx by exact Hr.
  destruct (lookupTier tier l);
    [apply runs_mret in Hx as (-> & -> & ->)|apply runs_fail in Hx as (-> & -> & ->)]; eauto.
Qed.
Lemma GetConfigMapOrDefault_runs name ns def s tr o s' :
  runs (GetConfigMapOrDefault name ns def s) tr (o, s') →
  ∃ r, tr = [Ev (GetConfigMap name ns) r] ∧ s' = s ∧
    o = match r with
        | Ok cm => Val cm
        | Er e => if IsNotFound e then Val def
                  else Err (WrapErr e "failed to get config map, not returning default")
        end.
Proof.
  intros Hr. unfold GetConfigMapOrDefault in Hr. inv_call Hr. destruct Hr as (r & t & -> & Hr).
  exists r. destruct r as [cm|e]; [by apply runs_mret in Hr as (-> & -> & ->)|].
  by destruct (IsNotFound e); [apply runs_mret in Hr as (-> & -> & ->)|
                               apply runs_fail in Hr as (-> & -> & ->)].
Qed.

Lemma ReadStorageStrategy_runs m rt tier s tr o s' :
  runs (ReadStorageStrategy m rt tier s) tr (o, s') →
  ∃ r, tr = [Ev (GetConfigMap (CM_configMapName m) (CM_configMapNamespace m)) r] ∧ s' = s ∧
    match (match r with
           | Ok cm => strategyIn cm rt tier
           | Er e => if IsNotFound e then strategyIn BuildDefaultConfigMap rt tier else None
           end) with
    | Some st => o = Val st
    | None => ∃ e, o = Err e
    end.
Proof.
  intros Hr. unfold ReadStorageStrategy in Hr. apply runs_onErr in Hr as (o1 & Hr & ->).
  unfold getTierStrategyForProvider in Hr.
  apply runs_bind in Hr as [(t1 & cm & s1 & t2 & -> & H1 & H2)|[(e & H1 & ->)|(w & H1 & ->)]];
    apply runs_onErr in H1 as (o2 & H1 & Eo); apply GetConfigMapOrDefault_runs in H1
      as (r & -> & -> & ->); exists r.
  - apply tierStrategy_runs in H2 as (-> & -> & Ho). split_and!; [done|done|].
    destruct r as [cm'|e]; [|destruct (IsNotFound e); [|done]]; injection Eo as ->;
      (destruct (strategyIn _ _ _); [by rewrite Ho|destruct Ho as [? ->]; eauto]).
  - split_and!; [done|done|]. destruct r as [cm'|er]; [done|]. destruct (IsNotFound er); [done|eauto].
  - destruct r as [cm'|er]; [done|]. by destruct (IsNotFound er).
Qed.

(** The answer of the call of an event, if it reads a config map. *)
Definition configMapAnswer (e : event) : option (result (gmap string string)) :=
  let 'Ev c r := e in
  match c as c' return @resp api c' → option (result (gmap string string)) with
  | GetConfigMap _ _ => Some
  | _ => λ _, None
  end r.

(** a strategy is read with one call: it is the one that the config
    map, or the default config map when there is none, has for the resource type
    and tier, and an error in any other case; without a config map every resource
    type and tier the operator supports has the empty strategy. *)
Theorem ReadStorageStrategy_reads m rt tier s tr o s' :
  runs (ReadStorageStrategy m rt tier s) tr (o, s') →
  ∃ r, tr = [Ev (GetConfigMap (CM_configMapName m) (CM_configMapNamespace m)) r] ∧ s' = s ∧
    (match (match r with
            | Ok cm => strategyIn cm rt tier
            | Er e => if IsNotFound e then strategyIn BuildDefaultConfigMap rt tier else None
            end) with
     | Some st => o = Val st
     | None => ∃ e, o = Err e
     end) ∧
    (rt ∈ ["blobstorage"; "redis"; "postgres"; "_network"] →
     tier ∈ ["development"; "production"] →
     ∀ e, Ev (GetConfigMap (CM_configMapName m) (CM_configMapNamespace m)) (Er e) ∈ tr →
          IsNotFound e = true → o = Val defaultStrategy).
Proof.
  intros Hr. destruct (ReadStorageStrategy_runs _ _ _ _ _ _ _ Hr) as (r & -> & -> & Ho).
  exists r. split_and!; [done|done|exact Ho|]. intros Hrt Ht e He%list_elem_of_singleton Hnf.
  apply (f_equal configMapAnswer) in He. injection He as <-. rewrite Hnf in Ho.
  destruct (default_strategies rt tier Hrt Ht) as (Hraw & mp & Hm & Hl).
  unfold strategyIn in Ho. rewrite bool_decide_false, Hm, Hl in Ho by done. exact Ho.
Qed.

(** ** The block of the standalone network *)

(** The block that a strategy names, empty when it names none. *)
Definition namedBlock (st : StrategyConfig) : option string :=
  match unmarshalStruct CreateVpcInputFields (Strategy_CreateStrategy st) with
  | Ok members => Some (StringValue
      (asString (fieldValue (map fst CreateVpcInputFields) members "CidrBlock")))
  | Er _ => None
  end.

(** the block handed to [CreateNetwork] is well formed; it is the network
    of the block that the strategy of the tier names, or, when it names none, one
    of the default candidates that shares no address with the cluster VPC, nor
    with the last pod and service networks of the network configuration. *)
Theorem ReconcileNetworkProviderConfig_block m tier s tr n s' :
  runs (ReconcileNetworkProviderConfig m tier s) tr (Val n, s') →
  wf_net n ∧
  ∃ r st block, Ev (GetConfigMap (CM_configMapName m) (CM_configMapNamespace m)) r ∈ tr ∧
    (match r with
     | Ok cm => strategyIn cm "_network" tier
     | Er e => if IsNotFound e then strategyIn BuildDefaultConfigMap "_network" tier else None
     end) = Some st ∧ namedBlock st = Some block ∧
    (block ≠ "" → ∃ ip, ParseCIDR block = Ok (ip, n)) ∧
    (block = "" →
       n ∈ defaultCandidates ∧
       ∃ id vpc ip clusterNet conf pod svc,
         Ev (DescribeVpcs [Some id]) (Ok [vpc]) ∈ tr ∧
         ParseCIDR (StringValue (Vpc_CidrBlock vpc)) = Ok (ip, clusterNet) ∧
         Ev GetNetworkConf (Ok conf) ∈ tr ∧
         getPodCIDR conf = Val pod ∧ getServiceCIDR conf = Val svc ∧
         ∀ a, Contains n a = true →
           Contains clusterNet a = false ∧
           (∀ x, pod = Some x → Contains x a = false) ∧
           (∀ x, svc = Some x → Contains x a = false)).
Proof.
  intros Hr. unfold ReconcileNetworkProviderConfig in Hr.
  apply runs_bind_Val in Hr as (t1 & st & s1 & t2 & -> & H1 & Hr).
  apply runs_onErr_Val in H1.
  destruct (ReadStorageStrategy_runs _ _ _ _ _ _ _ H1) as (r & -> & -> & Ho). clear H1.
  apply runs_bind_Val in Hr as (t3 & members & s3 & t4 & -> & H2 & Hr).
  apply runs_onErr_Val, runs_liftR_Val in H2 as (-> & Hm & ->).
  assert (match r with
          | Ok cm => strategyIn cm "_network" tier
          | Er e => if IsNotFound e then strategyIn BuildDefaultConfigMap "_network" tier else None
          end = Some st) as Hst.
  { destruct (match r with Ok _ => _ | Er _ => _ end); [by injection Ho as ->|by destruct Ho]. }
  cbv zeta in Hr. set (block := StringValue _) in Hr.
  assert (namedBlock st = Some block) as Hb by (unfold namedBlock; by rewrite Hm).
  case_bool_decide as E.
  - apply runs_onErr_Val, getNonOverlappingDefaultCIDR_disjoint in Hr as [Hc Hd].
    split; [by apply defaultCandidates_wf|]. exists r, st, block.
    split_and!; [ev_in|exact Hst|exact Hb|done|]. intros _. split; [exact Hc|].
    destruct Hd as (id & vpc & ip & cn & conf & pod & svc & ? & ? & ? & ? & ? & ?).
    exists id, vpc, ip, cn, conf, pod, svc. split_and!; try done; ev_in.
  - run_val Hr. destruct a as [ip n']. cbn in H1. subst n'.
    split; [by eapply ParseCIDR_wf|]. exists r, st, block.
    split_and!; [ev_in|exact Hst|exact Hb|eauto|done].
Qed.
End Config.
