(* ===== verification/StrategyProps.v ===== *)
(** * Properties of the strategy client

    The windows that are built, which of them may meet, and what the providers read
    from the config map once it has been reconciled. *)
From S2P Require Import Prelude Effects GoNet GoStrings Json JsonPrint Api Resources AwsConfig.
From S2P Require Import AwsPostgres AwsRedis Strategies AwsConfigProps.
From stdpp Require Import pretty.
From Stdlib Require Import Ascii Sorted.
Local Open Scope Z_scope.
Local Open Scope go_scope.

(** ** Reading windows *)

(** The minute of the day of [hh:mm], and what follows. *)
Definition readClock (s : string) : option (Z * string) :=
  match s with
  | String a (String b (String ":" (String c (String d rest)))) =>
      h ← digit_val a; i ← digit_val b; m ← digit_val c; n ← digit_val d;
      Some ((10 * h + i) * 60 + 10 * m + n, rest)
  | _ => None
  end.
Definition dayNames : list string := ["sun"; "mon"; "tue"; "wed"; "thu"; "fri"; "sat"].
(** The minute of the week of [ddd:hh:mm]. *)
Definition readDayClock (s : string) : option (Z * string) :=
  d ← list_find (λ n, n = take3 s) dayNames;
  match String.substring 3 (String.length s) s with
  | String ":" s' => '(m, rest) ← readClock s'; Some (Z.of_nat d.1 * 1440 + m, rest)
  | _ => None
  end.
(** Start and end of a daily and of a weekly window. *)
Definition readWindow (read : string → option (Z * string)) (s : string) : option (Z * Z) :=
  '(from, rest) ← read s;
  match rest with
  | String "-" rest' => match read rest' with
                        | Some (to, EmptyString) => Some (from, to) | _ => None end
  | _ => None
  end.

(** Times of a day, days of a week. *)
Definition validTimes (bh bm d mh mm : Z) : Prop :=
  0 ≤ bh < 24 ∧ 0 ≤ bm < 60 ∧ 0 ≤ d ≤ 6 ∧ 0 ≤ mh < 24 ∧ 0 ≤ mm < 60.

(** All minutes of a day. *)
Lemma minutes_forallb (f : nat → bool) h m :
  forallb f (seq 0 1440) = true → 0 ≤ h < 24 → 0 ≤ m < 60 → f (Z.to_nat (h * 60 + m)) = true.
Proof.
  rewrite forallb_forall. intros Hf Hh Hm. apply Hf. rewrite in_seq. lia.
Qed.
Definition minuteTime (n : nat) : Z := clockTime (Z.of_nat n / 60) (Z.of_nat n mod 60).
Lemma minuteTime_clock h m :
  0 ≤ h < 24 → 0 ≤ m < 60 → minuteTime (Z.to_nat (h * 60 + m)) = clockTime h m.
Proof.
  intros Hh Hm. unfold minuteTime. rewrite Z2Nat.id by lia.
  rewrite Z.div_add_l by lia. rewrite (Z.div_small m 60) by lia.
  rewrite (Z.add_comm (h * 60) m), Z.mod_add, Z.mod_small by lia. by rewrite Z.add_0_r.
Qed.

Lemma awsBackupString_read h m day : 0 ≤ h < 24 → 0 ≤ m < 60 →
  readWindow readClock (awsBackupString {| Time := clockTime h m; Day := day |}) =
  Some (h * 60 + m, (h * 60 + m + 60) mod 1440).
Proof.
  intros Hh Hm. set (f := λ n, bool_decide
    (readWindow readClock (awsBackupString {| Time := minuteTime n; Day := 0 |}) =
     Some (Z.of_nat n, (Z.of_nat n + 60) mod 1440))).
  assert (forallb f (seq 0 1440) = true) as Hf by (vm_compute; reflexivity).
  pose proof (minutes_forallb f h m Hf Hh Hm) as Hx.
  unfold f in Hx. clear Hf f. apply bool_decide_eq_true in Hx.
  rewrite minuteTime_clock, Z2Nat.id in Hx by lia. exact Hx.
Qed.
Lemma awsMaintenanceString_read d h m : 0 ≤ d ≤ 6 → 0 ≤ h < 24 → 0 ≤ m < 60 →
  readWindow readDayClock (awsMaintenanceString {| Time := clockTime h m; Day := d |}) =
  Some (d * 1440 + (h * 60 + m), (d * 1440 + (h * 60 + m) + 60) mod 10080).
Proof.
  intros Hd Hh Hm. set (f := λ dd n, bool_decide
    (readWindow readDayClock (awsMaintenanceString {| Time := minuteTime n; Day := dd |}) =
     Some (dd * 1440 + Z.of_nat n, (dd * 1440 + Z.of_nat n + 60) mod 10080))).
  assert (forallb (f d) (seq 0 1440) = true) as Hf.
  { assert (d = 0 ∨ d = 1 ∨ d = 2 ∨ d = 3 ∨ d = 4 ∨ d = 5 ∨ d = 6) as Hc by lia.
    destruct Hc as [->|[->|[->|[->|[->|[->| ->]]]]]]; vm_compute; reflexivity. }
  pose proof (minutes_forallb (f d) h m Hf Hh Hm) as Hx.
  unfold f in Hx. clear Hf f. apply bool_decide_eq_true in Hx.
  rewrite minuteTime_clock, Z2Nat.id in Hx by lia. exact Hx.
Qed.

(** the windows that are built are those of an hour from the start times: read back
    as AWS reads them, the backup window begins at its time of the day and the
    maintenance window at its time of the week, and both end an hour later, past
    midnight and past the end of the week if need be. *)
Theorem buildAWSWindows_hours bh bm d mh mm backup maintenance :
  validTimes bh bm d mh mm →
  buildAWSWindows (NewStrategyTimeConfig bh bm d mh mm) = Ok (backup, maintenance) →
  let b := bh * 60 + bm in let m := d * 1440 + (mh * 60 + mm) in
  readWindow readClock backup = Some (b, (b + 60) mod 1440) ∧
  readWindow readDayClock maintenance = Some (m, (m + 60) mod 10080).
Proof.
  intros (Hbh & Hbm & Hd & Hmh & Hmm). unfold buildAWSWindows.
  destruct (timeBlockOverlaps _ _ _ _); [done|]. intros [= <- <-]. cbv zeta. cbn [BackupStartTime MaintenanceStartTime NewStrategyTimeConfig].
  split; [by apply awsBackupString_read|by apply awsMaintenanceString_read].
Qed.

(** The minutes of the day of a window that begins at minute [s]. *)
Definition inWindow (s x : Z) : Prop := (x - s) mod 1440 ≤ 60.

(** C37: windows are accepted exactly when their start times of the day are more than an
    hour apart; two accepted windows have a minute of the day in common exactly
    when one starts at least 23 hours after the other, since what lies past
    midnight is not compared. *)
Theorem buildAWSWindows_overlap bh bm d mh mm :
  validTimes bh bm d mh mm →
  let b := bh * 60 + bm in let m := mh * 60 + mm in
  ((∃ w, buildAWSWindows (NewStrategyTimeConfig bh bm d mh mm) = Ok w) ↔ 60 < Z.abs (b - m)) ∧
  ((∃ w, buildAWSWindows (NewStrategyTimeConfig bh bm d mh mm) = Ok w) →
   (∃ x, inWindow b x ∧ inWindow m x) ↔ 1380 ≤ Z.abs (b - m)).
Proof.
  intros (Hbh & Hbm & Hd & Hmh & Hmm) b m.
  assert ((∃ w, buildAWSWindows (NewStrategyTimeConfig bh bm d mh mm) = Ok w) ↔ 60 < Z.abs (b - m)) as G.
  { unfold buildAWSWindows, timeBlockOverlaps, NewStrategyTimeConfig, clockTime.
    cbn [BackupStartTime MaintenanceStartTime Time].
    destruct (_ <=? _) eqn:E1; destruct (_ <=? _) eqn:E2 in |- *; cbn [andb].
    all: rewrite ?Z.leb_le, ?Z.leb_gt in *; subst b m; split; [intros [w Hw]|intros Hx].
    all: try done; try (eexists; reflexivity); lia. }
  split; [exact G|]. intros Hok%G. unfold inWindow. split.
  - intros (x & H1 & H2).
    pose proof (Z.mod_pos_bound (x - b) 1440 ltac:(lia)).
    pose proof (Z.mod_pos_bound (x - m) 1440 ltac:(lia)).
    pose proof (Z.div_mod (x - b) 1440 ltac:(lia)). pose proof (Z.div_mod (x - m) 1440 ltac:(lia)).
    subst b m. lia.
  - intros Hfar. exists (Z.min b m). subst b m.
    destruct (Z.le_ge_cases (bh * 60 + bm) (mh * 60 + mm)) as [Hle|Hge].
    + rewrite Z.min_l, Z.sub_diag by lia. split; [done|].
      rewrite <- (Z.mod_add _ 1) by lia. rewrite Z.mod_small by lia. lia.
    + rewrite Z.min_r by lia. rewrite (Z.sub_diag (mh * 60 + mm)). split; [|done].
      rewrite <- (Z.mod_add _ 1) by lia. rewrite Z.mod_small by lia. lia.
Qed.

(** ** Structs that are printed and read again *)

(** Integers are printed as literals. *)
Lemma digits_pretty_go x s : digits s = (s, EmptyString) →
  digits (pretty_N_go x s) = (pretty_N_go x s, EmptyString).
Proof.
  revert s. induction (N.lt_wf_0 x) as [x _ IH]; intros s Hs.
  destruct (decide (x = 0)%N) as [->|Hx]; [by rewrite pretty_N_go_0|].
  rewrite pretty_N_go_step by lia. apply IH; [apply N.div_lt; lia|].
  cbn [digits]. unfold is_digit. rewrite digit_val_char by (apply N.mod_lt; lia). by rewrite Hs.
Qed.
Lemma pretty_go_nonzero x s : (0 < x)%N →
  ∃ c s', pretty_N_go x s = String c s' ∧ c ≠ "0"%char.
Proof.
  revert s. induction (N.lt_wf_0 x) as [x _ IH]; intros s Hx.
  rewrite pretty_N_go_step by lia. destruct (decide (x / 10 = 0)%N) as [Hz|Hz].
  - rewrite Hz, pretty_N_go_0. eexists _, _. split; [done|].
    assert (x < 10)%N as Hlt by (by apply N.div_small_iff in Hz).
    rewrite N.mod_small by done.
    assert (x = 1 ∨ x = 2 ∨ x = 3 ∨ x = 4 ∨ x = 5 ∨ x = 6 ∨ x = 7 ∨ x = 8 ∨ x = 9)%N as Hc by lia.
    by destruct_or! Hc; subst x.
  - apply IH; [apply N.div_lt; lia|lia].
Qed.
Lemma parseUnsigned_pretty (p : positive) :
  parseUnsigned (pretty (Npos p)) = Some (pretty (Npos p), EmptyString).
Proof.
  unfold pretty, pretty_N. rewrite decide_False by done.
  destruct (pretty_go_nonzero (Npos p) EmptyString ltac:(lia)) as (c & s & E & Hc).
  pose proof (digits_pretty_go (Npos p) EmptyString eq_refl) as Hd. rewrite E in Hd |- *.
  unfold parseUnsigned. rewrite lexInt_other by done. unfold digits1. rewrite Hd.
  cbn [mbind option_bind lexFrac lexExp]. by rewrite append_nil_r.
Qed.
Lemma printable_itoa z : printable (JNum (itoa z)) = true.
Proof.
  assert (parseNumber (itoa z) = Some (itoa z, EmptyString)) as E.
  { unfold itoa. destruct z as [|p|p]; [reflexivity| |].
    - change (pretty (Zpos p)) with (pretty (Npos p)). rewrite parseNumber_sign.
      pose proof (parseUnsigned_pretty p) as E.
      destruct (parseUnsigned_first _ _ _ E) as (c & s & l & Hs & _ & Hc). rewrite Hs in E |- *.
      destruct (Ascii.eqb_spec c "-") as [->|]; done.
    - change (pretty (Zneg p)) with (String "-" (pretty (Npos p))). rewrite parseNumber_sign.
      change ("-" =? "-")%char with true. cbv iota. by rewrite parseUnsigned_pretty. }
  cbn. rewrite E. by rewrite bool_decide_true.
Qed.
Lemma ParseInt64_range l z : ParseInt64 l = Some z → - 2 ^ 63 ≤ z < 2 ^ 63.
Proof.
  unfold ParseInt64.
  match goal with |- (let '(_, _) := ?x in _) = _ → _ => destruct x as [neg body] end.
  destruct body as [|c body]; [done|]. destruct (parseDigits _ _) as [n|]; [|done].
  cbn [mbind option_bind]. cbv zeta.
  match goal with |- (if ?b then _ else _) = _ → _ => destruct b eqn:E; [|done] end.
  intros [= <-]. apply andb_true_iff in E as [E1%Z.leb_le E2%Z.ltb_lt]. done.
Qed.

Lemma elem_of_fst {A B} (l : list (A * B)) p : p ∈ l → p.1 ∈ map fst l.
Proof. intros Hp%list_elem_of_In. apply list_elem_of_In, in_map, Hp. Qed.

(** *** Kinds *)

Lemma jkind_induction (P : jkind → Prop) :
  P KBool → P KInt64 → P KString → (∀ e, P e → P (KSlice e)) →
  (∀ e, P e → P (KMap e)) → (∀ fs, Forall (λ f, P f.2) fs → P (KStruct fs)) → ∀ k, P k.
Proof.
  intros Hb Hi Hs Hl Hm Ht. fix IH 1.
  intros [| | |e|e|fs]; [exact Hb|exact Hi|exact Hs|apply Hl, IH|apply Hm, IH|].
  apply Ht. induction fs as [|[f k] fs IHl]; constructor; [apply IH|exact IHl].
Qed.

(** The kinds of struct fields, no name twice; the structs of AWS have no maps. *)
Fixpoint wfKind (k : jkind) : bool :=
  match k with
  | KSlice e => wfKind e
  | KMap _ => false
  | KStruct fs => bool_decide (NoDup (map fst fs)) && forallb (λ f, wfKind f.2) fs
  | _ => true
  end.

Lemma fieldOf_self fields f : f ∈ fields → fieldOf fields f = Some f.
Proof.
  intros Hf. unfold fieldOf. destruct (List.find _ fields) as [g|] eqn:E.
  - apply find_some in E as [_ E]. by apply bool_decide_eq_true in E as ->.
  - apply list_elem_of_In in Hf. pose proof (find_none _ _ E f Hf) as Hn. cbv beta in Hn.
    by rewrite bool_decide_true in Hn.
Qed.
(** A nil pointer is printed as null and read as nil. *)
Definition nonNull (v : json) : option json := match v with JNull => None | v => Some v end.
Lemma fieldValue_nonNull fields ms f v : fieldValue fields ms f = Some v → nonNull v = Some v.
Proof.
  unfold fieldValue. destruct (last _) as [[k []]|]; by intros [= <-].
Qed.

(** The fields of a struct in full. *)
Definition tabulated (spec : list (string * jkind)) (l : list (string * json)) : Prop :=
  map fst l = map fst spec.
Lemma structFields_tabulated spec ms : tabulated spec (structFields spec ms).
Proof. unfold tabulated, structFields. by rewrite map_map. Qed.
Lemma setField_tabulated spec f v l : tabulated spec l → tabulated spec (setField f v l).
Proof.
  unfold tabulated, setField. intros <-. rewrite map_map. apply map_ext.
  intros [g w]. cbn. by case_bool_decide as E; cbn in *.
Qed.
Lemma setWindow_tabulated spec f v l : tabulated spec l → tabulated spec (setWindow f v l).
Proof. unfold setWindow. intros H. case_bool_decide; [done|by apply setField_tabulated]. Qed.

Lemma filter_key fields (l : list (string * json)) f :
  map fst l ⊆ fields →
  List.filter (λ m, bool_decide (fieldOf fields m.1 = Some f)) l =
  List.filter (λ m, bool_decide (m.1 = f)) l.
Proof.
  intros Hl. apply filter_ext_in. intros [g w] Hin. cbn.
  assert (g ∈ fields) as Hg.
  { apply Hl. apply list_elem_of_In in Hin. exact (elem_of_fst _ _ Hin). }
  rewrite fieldOf_self by done. apply bool_decide_ext. by split; [intros [= ->]|intros ->].
Qed.
Lemma filter_none {A} (f : A → bool) l : (∀ x, x ∈ l → f x = false) → List.filter f l = [].
Proof.
  induction l as [|x l IH]; [done|]. intros Hf. cbn. rewrite (Hf x) by (by apply elem_of_cons; left).
  apply IH. intros y Hy. apply Hf. by apply elem_of_cons; right.
Qed.
Lemma filter_key_one (l : list (string * json)) f v :
  NoDup (map fst l) → (f, v) ∈ l → List.filter (λ m, bool_decide (m.1 = f)) l = [(f, v)].
Proof.
  induction l as [|[g w] l IH]; intros Hnd Hin; [by apply not_elem_of_nil in Hin|].
  cbn in Hnd. apply NoDup_cons in Hnd as [Hg Hnd]. cbn. apply elem_of_cons in Hin as [[= <- <-]|Hin].
  - rewrite bool_decide_true by done. f_equal. apply filter_none.
    intros [h x] Hx. cbn. apply bool_decide_eq_false. intros ->. apply Hg.
    exact (elem_of_fst _ _ Hx).
  - rewrite bool_decide_false; [by apply IH|]. intros ->. apply Hg.
    exact (elem_of_fst _ _ Hin).
Qed.
Lemma getField_key (l : list (string * json)) f v :
  NoDup (map fst l) → (f, v) ∈ l → getField l f = Some v.
Proof.
  induction l as [|[g w] l IH]; intros Hnd Hin; [by apply not_elem_of_nil in Hin|].
  cbn in Hnd. apply NoDup_cons in Hnd as [Hg Hnd]. unfold getField. cbn.
  apply elem_of_cons in Hin as [[= <- <-]|Hin]; [by rewrite bool_decide_true|].
  rewrite bool_decide_false; [by apply IH|]. intros ->. apply Hg.
  exact (elem_of_fst _ _ Hin).
Qed.

(** Reading a field back from a struct in full. *)
Lemma fieldValue_tabulated spec l f v :
  NoDup (map fst spec) → tabulated spec l → (f, v) ∈ l →
  fieldValue (map fst spec) l f = nonNull v.
Proof.
  intros Hnd Ht Hin. unfold fieldValue. rewrite filter_key by (rewrite Ht; done).
  rewrite (filter_key_one l f v); [|by rewrite Ht|done]. by destruct v.
Qed.

(** *** Values of a kind *)

Definition fieldKind (spec : list (string * jkind)) (f : string) (v : json) : bool :=
  (fix typeOf (fs : list (string * jkind)) : bool :=
     match fs with
     | [] => true
     | (g, kg) :: fs' => if bool_decide (g = f) then hasKind kg v else typeOf fs'
     end) spec.
Lemma fieldKind_In spec f k v : NoDup (map fst spec) → (f, k) ∈ spec → fieldKind spec f v = hasKind k v.
Proof.
  induction spec as [|[g kg] spec IH]; intros Hnd Hin; [by apply not_elem_of_nil in Hin|].
  cbn in Hnd. apply NoDup_cons in Hnd as [Hg Hnd]. unfold fieldKind.
  apply elem_of_cons in Hin as [[= <- <-]|Hin]; [by rewrite bool_decide_true|].
  rewrite bool_decide_false; [by apply IH|]. intros ->. apply Hg.
  exact (elem_of_fst _ _ Hin).
Qed.
Lemma hasKind_struct spec members :
  hasKind (KStruct spec) (JObj members) =
  forallb (λ m, match fieldOf (map fst spec) m.1 with
                | Some f => fieldKind spec f m.2 | None => true end) members.
Proof. reflexivity. Qed.
Lemma hasKind_null k : hasKind k JNull = true.
Proof. by destruct k. Qed.

(** The value of a field of a well-typed object has the kind of the field. *)
Lemma fieldValue_hasKind spec members f k v :
  NoDup (map fst spec) → (f, k) ∈ spec → hasKind (KStruct spec) (JObj members) = true →
  fieldValue (map fst spec) members f = Some v → hasKind k v = true.
Proof.
  intros Hnd Hin Hk Hv. rewrite hasKind_struct, forallb_forall in Hk. unfold fieldValue in Hv.
  destruct (last _) as [[g w]|] eqn:El; [|done].
  apply last_Some_elem_of in El. apply list_elem_of_In, filter_In in El as [El Hf].
  apply bool_decide_eq_true in Hf. specialize (Hk _ El). cbn in Hk, Hf. rewrite Hf in Hk.
  rewrite (fieldKind_In _ _ k) in Hk by done. 
  destruct w; try discriminate Hv; injection Hv as <-; exact Hk.
Qed.

Lemma elem_of_structFields spec ms f k : (f, k) ∈ spec →
  (f, marshalAs k (default JNull (fieldValue (map fst spec) ms f))) ∈ structFields spec ms.
Proof.
  intros Hin. unfold structFields. apply list_elem_of_In.
  apply list_elem_of_In, (in_map (λ f, (f.1, marshalAs f.2 (default JNull
    (fieldValue (map fst spec) ms f.1))))) in Hin. exact Hin.
Qed.
Lemma structFields_elem spec ms g w : (g, w) ∈ structFields spec ms →
  ∃ k, (g, k) ∈ spec ∧ w = marshalAs k (default JNull (fieldValue (map fst spec) ms g)).
Proof.
  unfold structFields. intros Hin%list_elem_of_In. apply in_map_iff in Hin as ([f k] & [= <- <-] & Hin).
  exists k. split; [by apply list_elem_of_In|done].
Qed.

(** A struct in full whose fields have their kinds is well typed. *)
Lemma hasKind_tabulated spec l :
  NoDup (map fst spec) → tabulated spec l →
  (∀ f k v, (f, k) ∈ spec → (f, v) ∈ l → hasKind k v = true) →
  hasKind (KStruct spec) (JObj l) = true.
Proof.
  intros Hnd Ht Hk. rewrite hasKind_struct. apply forallb_forall. intros [g w] Hin. cbn.
  assert (g ∈ map fst spec) as Hg.
  { rewrite <- Ht. apply list_elem_of_In, (in_map fst _ _ Hin). }
  rewrite fieldOf_self by done. apply list_elem_of_In, in_map_iff in Hg as ([f k] & <- & Hin').
  rewrite (fieldKind_In _ _ k); [|done|by apply list_elem_of_In].
  apply (Hk f); by apply list_elem_of_In.
Qed.

Lemma default_hasKind spec members f k :
  NoDup (map fst spec) → (f, k) ∈ spec → hasKind (KStruct spec) (JObj members) = true →
  hasKind k (default JNull (fieldValue (map fst spec) members f)) = true.
Proof.
  intros Hnd Hin Hk. destruct (fieldValue _ _ _) as [v|] eqn:E; [|apply hasKind_null].
  by eapply fieldValue_hasKind.
Qed.

Lemma value_unique {A} (l : list (string * A)) f v w :
  NoDup (map fst l) → (f, v) ∈ l → (f, w) ∈ l → w = v.
Proof.
  intros Hnd Hin Hin'. apply list_elem_of_lookup in Hin as [i Hi], Hin' as [j Hj].
  assert (i = j) as ->; [|congruence].
  apply (NoDup_lookup (map fst l) i j f Hnd); rewrite list_lookup_fmap; [by rewrite Hi|by rewrite Hj].
Qed.
(** Printing keeps the kind of a value. *)
Lemma hasKind_marshalAs k : wfKind k = true → ∀ v, hasKind k v = true → hasKind k (marshalAs k v) = true.
Proof.
  induction k as [| | |e IH|e _|fs IH] using jkind_induction; intros Hw v Hv;
    [exact Hv| |exact Hv| |done|].
  - destruct v; try exact Hv. cbn in Hv. cbn [marshalAs].
    destruct (ParseInt64 literal) as [z|] eqn:E; [|done]. cbn.
    by rewrite ParseInt64_itoa by by eapply ParseInt64_range.
  - destruct v; try exact Hv. cbn in Hv |- *. rewrite forallb_forall in Hv |- *.
    intros x Hx. apply in_map_iff in Hx as (y & <- & Hy). by apply IH, Hv.
  - destruct v as [| | | | |members]; try exact Hv. apply andb_true_iff in Hw as [Hnd Hw].
    apply bool_decide_eq_true in Hnd. rewrite forallb_forall in Hw. rewrite Forall_forall in IH.
    change (marshalAs (KStruct fs) (JObj members)) with (JObj (structFields fs members)).
    apply hasKind_tabulated; [done|apply structFields_tabulated|].
    intros f k v Hin Hv'. apply structFields_elem in Hv' as (k' & Hin' & ->).
    rewrite (value_unique fs f k k') by done.
    apply (IH (f, k)); [done| |by apply default_hasKind].
    apply (Hw (f, k)), list_elem_of_In, Hin.
Qed.

Lemma marshalAs_nonNull k v :
  hasKind k v = true → nonNull v = Some v → nonNull (marshalAs k v) = Some (marshalAs k v).
Proof.
  destruct k, v; try done. cbn. intros Hv _. by destruct (ParseInt64 literal).
Qed.
Lemma default_nonNull v : default JNull (nonNull v) = v.
Proof. by destruct v. Qed.

Lemma printable_fieldValue fields members f v :
  forallb (λ m, printable m.2) members = true → fieldValue fields members f = Some v →
  printable v = true.
Proof.
  rewrite forallb_forall. intros Hp. unfold fieldValue.
  destruct (last _) as [[g w]|] eqn:El; [|done]. intros Hv.
  apply last_Some_elem_of, list_elem_of_In, filter_In in El as [El _].
  specialize (Hp _ El). cbn in Hp. destruct w; try discriminate Hv; injection Hv as <-; exact Hp.
Qed.
Lemma printable_default fields members f :
  forallb (λ m, printable m.2) members = true →
  printable (default JNull (fieldValue fields members f)) = true.
Proof.
  intros Hp. destruct (fieldValue _ _ _) eqn:E; [|done]. by eapply printable_fieldValue.
Qed.
Lemma sortedMap_subset {A} (l : list (string * A)) x : x ∈ sortedMap l → x ∈ l.
Proof.
  assert (∀ k (v : A) acc, x ∈ insertKey k v (withoutKey k acc) → x = (k, v) ∨ x ∈ acc) as Hin.
  { intros k v acc. unfold withoutKey.
    assert (∀ m, x ∈ insertKey k v m → x = (k, v) ∨ x ∈ m) as Hm.
    { induction m as [|p m IH]; cbn [insertKey].
      - intros ->%list_elem_of_singleton. by left.
      - destruct (String.ltb k p.1); rewrite !elem_of_cons; [tauto|]. intros [->|Hx]; [tauto|].
        destruct (IH Hx); tauto. }
    intros [->|Hx]%Hm; [by left|right].
    apply list_elem_of_In, filter_In in Hx as [Hx _]. by apply list_elem_of_In. }
  unfold sortedMap. assert (∀ acc, x ∈ foldl (λ acc p, insertKey p.1 p.2 (withoutKey p.1 acc)) acc l →
    x ∈ acc ∨ x ∈ l) as Hf.
  { induction l as [|p l IH]; intros acc; cbn [foldl]; [by left|]. intros [Hx|Hx]%IH.
    - apply Hin in Hx as [->|Hx]; [right; destruct p; by left|by left].
    - right. by right. }
  intros [Hx|Hx]%Hf; [by apply not_elem_of_nil in Hx|done].
Qed.
Lemma printable_marshalAs k v : printable v = true → printable (marshalAs k v) = true.
Proof.
  revert v. induction k as [| | |e IH|e IH|fs IH] using jkind_induction; intros v Hv;
    [exact Hv| |exact Hv| | |].
  - destruct v; try exact Hv. cbn [marshalAs]. destruct (ParseInt64 _); [apply printable_itoa|done].
  - destruct v; try exact Hv. cbn in Hv |- *. rewrite forallb_forall in Hv |- *.
    intros x Hx. apply in_map_iff in Hx as (y & <- & Hy). by apply IH, Hv.
  - destruct v; try exact Hv. cbn in Hv |- *. rewrite forallb_forall in Hv |- *.
    intros x Hx%list_elem_of_In%sortedMap_subset%list_elem_of_In.
    apply in_map_iff in Hx as (y & <- & Hy). by apply IH, Hv.
  - destruct v as [| | | | |members]; try exact Hv. cbn in Hv |- *.
    apply forallb_forall. intros x Hx. apply in_map_iff in Hx as ([f k] & <- & Hy). cbn.
    rewrite Forall_forall in IH. apply (IH (f, k)); [by apply list_elem_of_In|by apply printable_default].
Qed.

(** A struct in full of printed values is printed as it is. *)
Lemma structFields_fix spec l :
  NoDup (map fst spec) → tabulated spec l →
  (∀ f k w, (f, k) ∈ spec → (f, w) ∈ l → marshalAs k w = w) → structFields spec l = l.
Proof.
  intros Hnd Ht Hfix. apply list_eq. intros i. unfold structFields. rewrite list_lookup_fmap.
  pose proof (f_equal (lookup i) Ht) as Hi. rewrite !list_lookup_fmap in Hi.
  destruct (spec !! i) as [[f k]|] eqn:Es, (l !! i) as [[g w]|] eqn:El; try discriminate Hi; [|done].
  injection Hi as ->. cbn. apply list_elem_of_lookup_2 in Es, El.
  rewrite (fieldValue_tabulated spec l f w), default_nonNull by done. by erewrite Hfix.
Qed.
Lemma marshalAs_idempotent k :
  wfKind k = true → ∀ v, hasKind k v = true → marshalAs k (marshalAs k v) = marshalAs k v.
Proof.
  induction k as [| | |e IH|e _|fs IH] using jkind_induction; intros Hw v Hv;
    [done| |done| |done|].
  - destruct v; try done. cbn in Hv. cbn [marshalAs].
    destruct (ParseInt64 literal) as [z|] eqn:E; [|done].
    by rewrite ParseInt64_itoa by by eapply ParseInt64_range.
  - destruct v; try done. cbn in Hv |- *. f_equal. rewrite map_map. apply map_ext_in.
    rewrite forallb_forall in Hv. intros x Hx. by apply IH, Hv.
  - destruct v as [| | | | |members]; try done. apply andb_true_iff in Hw as [Hnd Hw].
    apply bool_decide_eq_true in Hnd. rewrite forallb_forall in Hw. rewrite Forall_forall in IH.
    change (marshalAs (KStruct fs) (JObj members)) with (JObj (structFields fs members)).
    change (marshalAs (KStruct fs) (JObj (structFields fs members)))
      with (JObj (structFields fs (structFields fs members))).
    f_equal. apply structFields_fix; [done|apply structFields_tabulated|].
    intros f k w Hin Hw'. apply structFields_elem in Hw' as (k' & Hin' & ->).
    rewrite (value_unique fs f k k') by done.
    apply (IH (f, k)); [done|apply (Hw (f, k)), list_elem_of_In, Hin|by apply default_hasKind].
Qed.

(** *** Setting the windows *)

Lemma setField_elem f v l g w :
  (g, w) ∈ setField f v l → (g = f ∧ w = v) ∨ (g ≠ f ∧ (g, w) ∈ l).
Proof.
  unfold setField. intros Hin%list_elem_of_In. apply in_map_iff in Hin as ([h x] & E & Hin).
  cbn in E. case_bool_decide as Eh; injection E as <- <-; [by left|right].
  split; [done|by apply list_elem_of_In].
Qed.
Lemma setField_has f v l : f ∈ map fst l → (f, v) ∈ setField f v l.
Proof.
  intros Hin%list_elem_of_In. apply in_map_iff in Hin as ([g w] & <- & Hin).
  apply list_elem_of_In. unfold setField. apply in_map_iff. exists (g, w). split; [|exact Hin].
  cbn. by rewrite bool_decide_true.
Qed.
Lemma setField_other f v l g w : g ≠ f → (g, w) ∈ l → (g, w) ∈ setField f v l.
Proof.
  intros Hg Hin%list_elem_of_In. apply list_elem_of_In. unfold setField. apply in_map_iff.
  exists (g, w). split; [|exact Hin]. cbn. by rewrite bool_decide_false.
Qed.
Lemma setField_same f v l : NoDup (map fst l) → (f, v) ∈ l → setField f v l = l.
Proof.
  intros Hnd Hin. unfold setField. rewrite <- (map_id l) at 2. apply map_ext_in.
  intros [g w] Hg%list_elem_of_In. cbn. case_bool_decide as E; [|done]. subst g.
  by rewrite (value_unique l f v w).
Qed.
Lemma setWindow_setField spec f v l : NoDup (map fst spec) → tabulated spec l → f ∈ map fst spec →
  setWindow f v l = setField f (JStr v) l.
Proof.
  intros Hnd Ht Hf. unfold setWindow. case_bool_decide as E; [|done].
  rewrite <- Ht in Hf, Hnd. apply list_elem_of_In, in_map_iff in Hf as ([g w] & <- & Hin).
  apply list_elem_of_In in Hin. cbn [fst] in *. rewrite (getField_key l g w) in E by done.
  symmetry. apply setField_same; [done|]. destruct w; try discriminate E. by injection E as ->.
Qed.

Section Windows.
Context (spec : list (string * jkind)) (Hwf : wfKind (KStruct spec) = true)
  (bf mf : string) (Hbf : (bf, KString) ∈ spec) (Hmf : (mf, KString) ∈ spec) (Hne : bf ≠ mf)
  (members : list (string * json)) (Hk : hasKind (KStruct spec) (JObj members) = true)
  (b m : string).
Local Notation names := (map fst spec).
Definition windowed : list (string * json) :=
  setWindow mf m (setWindow bf b (structFields spec members)).

Lemma wf_NoDup : NoDup (map fst spec).
Proof. apply andb_true_iff in Hwf as [H _]. by apply bool_decide_eq_true in H. Qed.
Lemma windowed_tabulated : tabulated spec windowed.
Proof. apply setWindow_tabulated, setWindow_tabulated, structFields_tabulated. Qed.
Lemma windowed_eq : windowed = setField mf (JStr m) (setField bf (JStr b) (structFields spec members)).
Proof.
  unfold windowed. pose proof wf_NoDup.
  rewrite (setWindow_setField spec bf), (setWindow_setField spec mf); try done.
  - apply setField_tabulated, structFields_tabulated.
  - exact (elem_of_fst _ _ Hmf).
  - apply structFields_tabulated.
  - exact (elem_of_fst _ _ Hbf).
Qed.
(** A field is a window or as it was decoded. *)
Lemma windowed_elem f w : (f, w) ∈ windowed →
  (f = mf ∧ w = JStr m) ∨ (f = bf ∧ w = JStr b) ∨
  (f ≠ mf ∧ f ≠ bf ∧ ∃ k, (f, k) ∈ spec ∧
    w = marshalAs k (default JNull (fieldValue names members f))).
Proof.
  rewrite windowed_eq. intros [?|[Hm [?|[Hb He]]%setField_elem]]%setField_elem; [by left|by right;left|].
  right; right. split_and!; [done|done|]. by apply structFields_elem.
Qed.
Lemma windowed_fixed f k w : (f, k) ∈ spec → (f, w) ∈ windowed →
  hasKind k w = true ∧ marshalAs k w = w.
Proof.
  pose proof wf_NoDup as Hnd.
  intros Hin [[-> ->]|[[-> ->]|(_ & _ & k' & Hin' & ->)]]%windowed_elem.
  - by rewrite (value_unique spec mf KString k).
  - by rewrite (value_unique spec bf KString k).
  - rewrite (value_unique spec f k k') by done.
    assert (wfKind k = true) as Hwk.
    { apply andb_true_iff in Hwf as [_ Hf]. rewrite forallb_forall in Hf.
      apply (Hf (f, k)), list_elem_of_In, Hin. }
    assert (hasKind k (default JNull (fieldValue names members f)) = true) as Hv
      by (by apply default_hasKind).
    split; [by apply hasKind_marshalAs|by apply marshalAs_idempotent].
Qed.

(** Printed and decoded again, the struct is the same. *)
Lemma windowed_unmarshal : unmarshalStruct spec (Some (JObj windowed)) = Ok windowed.
Proof.
  unfold unmarshalStruct. rewrite hasKind_tabulated; [done|apply wf_NoDup|apply windowed_tabulated|].
  intros f k v Hin Hv. by eapply windowed_fixed.
Qed.
Lemma windowed_again : setWindow mf m (setWindow bf b (structFields spec windowed)) = windowed.
Proof.
  pose proof wf_NoDup as Hnd.
  rewrite (structFields_fix spec windowed Hnd windowed_tabulated).
  2: { intros f k w Hin Hw. by eapply windowed_fixed. }
  assert ((bf, JStr b) ∈ windowed ∧ (mf, JStr m) ∈ windowed) as [Hb Hm].
  { rewrite windowed_eq. split.
    - apply setField_other; [done|]. apply setField_has. rewrite structFields_tabulated.
      exact (elem_of_fst _ _ Hbf).
    - apply setField_has. rewrite (setField_tabulated spec); [exact (elem_of_fst _ _ Hmf)|].
      apply structFields_tabulated. }
  assert (NoDup (map fst windowed)) as Hnd' by (by rewrite windowed_tabulated).
  rewrite (setWindow_setField spec bf), (setField_same bf) by
    first [done|apply windowed_tabulated|exact (elem_of_fst _ _ Hbf)].
  rewrite (setWindow_setField spec mf), (setField_same mf) by
    first [done|apply windowed_tabulated|exact (elem_of_fst _ _ Hmf)]. done.
Qed.
Lemma windowed_printable :
  forallb (λ m, printable m.2) members = true → printable (JObj windowed) = true.
Proof.
  intros Hp. cbn. apply forallb_forall. intros [f w] Hin. cbn. apply list_elem_of_In in Hin.
  apply windowed_elem in Hin as [[_ ->]|[[_ ->]|(_ & _ & k & _ & ->)]]; [done|done|].
  by apply printable_marshalAs, printable_default.
Qed.

(** What a provider reads: the windows, and every other field as it was. *)
Lemma windowed_backup : fieldValue names windowed bf = Some (JStr b).
Proof.
  rewrite (fieldValue_tabulated spec windowed bf (JStr b)); [done|apply wf_NoDup|apply windowed_tabulated|].
  rewrite windowed_eq. apply setField_other; [done|]. apply setField_has.
  rewrite structFields_tabulated. exact (elem_of_fst _ _ Hbf).
Qed.
Lemma windowed_maintenance : fieldValue names windowed mf = Some (JStr m).
Proof.
  rewrite (fieldValue_tabulated spec windowed mf (JStr m)); [done|apply wf_NoDup|apply windowed_tabulated|].
  rewrite windowed_eq. apply setField_has. rewrite (setField_tabulated spec);
    [exact (elem_of_fst _ _ Hmf)|apply structFields_tabulated].
Qed.
Lemma windowed_other f k : (f, k) ∈ spec → f ≠ bf → f ≠ mf →
  fieldValue names windowed f = marshalAs k <$> fieldValue names members f.
Proof.
  intros Hin Hb Hm. pose proof wf_NoDup as Hnd.
  rewrite (fieldValue_tabulated spec windowed f
    (marshalAs k (default JNull (fieldValue names members f)))); [|done|apply windowed_tabulated|].
  - destruct (fieldValue names members f) as [v|] eqn:E; cbn; [|by destruct k].
    apply marshalAs_nonNull; [by eapply fieldValue_hasKind|by eapply fieldValue_nonNull].
  - rewrite windowed_eq. apply setField_other; [done|]. apply setField_other; [done|].
    by apply elem_of_structFields.
Qed.
End Windows.

(** ** The mapping of tiers, printed and read again *)

Definition keyed {A} (t : string) (l : list (string * A)) : list (string * A) :=
  List.filter (λ p, bool_decide (p.1 = t)) l.

Section Keys.
Context {A : Type}.
Implicit Types (l : list (string * A)).

Lemma keyed_cons t p l :
  keyed t (p :: l) = if bool_decide (p.1 = t) then p :: keyed t l else keyed t l.
Proof. done. Qed.
Lemma withoutKey_cons k p l :
  withoutKey k (p :: l) = if bool_decide (p.1 = k) then withoutKey k l else p :: withoutKey k l.
Proof. unfold withoutKey. cbn. by case_bool_decide. Qed.
Lemma keyed_withoutKey t k l : keyed t (withoutKey k l) = if bool_decide (k = t) then [] else keyed t l.
Proof.
  induction l as [|[g w] l IH]; [by case_bool_decide|]. rewrite withoutKey_cons, !keyed_cons. cbn [fst].
  destruct (decide (g = k)) as [->|Hg].
  - rewrite (bool_decide_true (k = k)), IH by done. by case_bool_decide.
  - rewrite (bool_decide_false (g = k)), keyed_cons, IH by done. cbn [fst].
    repeat case_bool_decide; congruence.
Qed.
Lemma keyed_insertKey t k v l : keyed k l = [] →
  keyed t (insertKey k v l) = if bool_decide (k = t) then [(k, v)] else keyed t l.
Proof.
  induction l as [|[g w] l IH]; intros Hk; [done|]. rewrite keyed_cons in Hk. cbn [fst] in Hk.
  cbn [insertKey fst]. case_bool_decide as Hg; [done|].
  destruct (String.ltb k g); rewrite !keyed_cons; cbn [fst].
  - case_bool_decide as Ht; [|done]. subst t. by rewrite bool_decide_false, Hk.
  - rewrite IH by done. repeat case_bool_decide; congruence.
Qed.
Lemma sortedMap_snoc l p :
  sortedMap (l ++ [p]) = insertKey p.1 p.2 (withoutKey p.1 (sortedMap l)).
Proof. unfold sortedMap. by rewrite foldl_app. Qed.
(** The last entry of a key is kept, and only that. *)
Lemma last_keyed_sortedMap t l : last (keyed t (sortedMap l)) = last (keyed t l).
Proof.
  induction l as [|[k v] l IH] using rev_ind; [done|]. rewrite sortedMap_snoc.
  rewrite keyed_insertKey by (by rewrite keyed_withoutKey, bool_decide_true).
  rewrite keyed_withoutKey. unfold keyed at 2. rewrite List.filter_app. cbn.
  case_bool_decide; [by rewrite last_snoc|]. by rewrite app_nil_r.
Qed.
Lemma insertKey_elem k v l p : p ∈ insertKey k v l → p = (k, v) ∨ p ∈ l.
Proof.
  induction l as [|q l IH]; cbn; [intros ->%list_elem_of_singleton; by left|].
  destruct (String.ltb k q.1); rewrite !elem_of_cons; naive_solver.
Qed.
Lemma insertKey_has k v l p : p = (k, v) ∨ p ∈ l → p ∈ insertKey k v l.
Proof.
  induction l as [|q l IH]; cbn.
  - intros [->|[]%not_elem_of_nil]. by apply list_elem_of_singleton.
  - destruct (String.ltb k q.1); rewrite !elem_of_cons; naive_solver.
Qed.
Lemma withoutKey_elem k l p : p ∈ withoutKey k l → p ∈ l.
Proof. rewrite !list_elem_of_In. by intros [? _]%filter_In. Qed.
Lemma sortedMap_elem l p : p ∈ sortedMap l → p ∈ l.
Proof.
  induction l as [|q l IH] using rev_ind; [done|]. rewrite sortedMap_snoc.
  intros [->|Hp%withoutKey_elem%IH]%insertKey_elem; rewrite elem_of_app.
  - right. destruct q. by apply list_elem_of_singleton.
  - by left.
Qed.
Lemma sortedMap_last l p : p ∈ sortedMap (l ++ [p]).
Proof. rewrite sortedMap_snoc. apply insertKey_has. left. by destruct p. Qed.

(** *** The order of the keys *)

Lemma ltb_asym a b : String.ltb a b = true → String.ltb b a = false.
Proof. unfold String.ltb. rewrite (String.compare_antisym b a). by destruct (String.compare a b). Qed.
Lemma ltb_irrefl a : String.ltb a a = false.
Proof. destruct (String.ltb a a) eqn:E; [|done]. by rewrite (ltb_asym a a E) in E. Qed.
Lemma ltb_total a b : a ≠ b → String.ltb a b = false → String.ltb b a = true.
Proof.
  unfold String.ltb. rewrite (String.compare_antisym b a).
  destruct (String.compare a b) eqn:E; try done. by apply String.compare_eq_iff in E.
Qed.
Lemma ltb_cons c a d b : String.ltb (String c a) (String d b) =
  (N_of_ascii c <? N_of_ascii d)%N || ((c =? d)%char && String.ltb a b).
Proof.
  unfold String.ltb. cbn. unfold Ascii.compare.
  destruct (N.compare_spec (N_of_ascii c) (N_of_ascii d)) as [E|E|E].
  - rewrite E, N.ltb_irrefl. cbn. apply (f_equal ascii_of_N) in E.
    rewrite !ascii_N_embedding in E. subst d. by rewrite Ascii.eqb_refl.
  - by rewrite (proj2 (N.ltb_lt _ _) E).
  - rewrite (proj2 (N.ltb_ge _ _)) by lia. cbn.
    destruct (Ascii.eqb_spec c d) as [->|]; [lia|done].
Qed.
Lemma ltb_trans a b c : String.ltb a b = true → String.ltb b c = true → String.ltb a c = true.
Proof.
  revert b c. induction a as [|x a IH]; intros [|y b] [|z c]; try done.
  rewrite !ltb_cons, !orb_true_iff, !andb_true_iff, !N.ltb_lt, !Ascii.eqb_eq.
  intros [H1|[-> H1]] [H2|[-> H2]]; [left; lia|by left|by left|right; split; [done|by eapply IH]].
Qed.

Definition sortedKeys : list (string * A) → Prop :=
  StronglySorted (λ p q, String.ltb p.1 q.1 = true).
Lemma withoutKey_sorted k l : sortedKeys l → sortedKeys (withoutKey k l).
Proof.
  induction 1 as [|p l Hl IH Hp]; [constructor|]. rewrite withoutKey_cons. case_bool_decide; [done|].
  constructor; [done|]. rewrite Forall_forall in Hp |- *. intros q Hq. by apply Hp, (withoutKey_elem k).
Qed.
Lemma insertKey_sorted k v l : k ∉ map fst l → sortedKeys l → sortedKeys (insertKey k v l).
Proof.
  induction l as [|q l IH]; intros Hk Hs; cbn; [repeat constructor|].
  apply StronglySorted_inv in Hs as [Hs Hq]. rewrite Forall_forall in Hq.
  cbn in Hk. apply not_elem_of_cons in Hk as [Hkq Hk].
  destruct (String.ltb k q.1) eqn:E.
  - constructor; [by constructor; [|rewrite Forall_forall]|]. apply Forall_cons. split; [done|].
    apply Forall_forall. intros p Hp. eapply ltb_trans; [exact E|by apply Hq].
  - constructor; [by apply IH|]. apply Forall_forall. intros p [->|Hp]%insertKey_elem; [|by apply Hq].
    by apply ltb_total.
Qed.
Lemma withoutKey_not_in k l : k ∉ map fst (withoutKey k l).
Proof.
  intros Hin%list_elem_of_In. apply in_map_iff in Hin as (p & Hp & Hin).
  apply filter_In in Hin as [_ Hin]. by rewrite bool_decide_true in Hin.
Qed.
Lemma sortedMap_sorted l : sortedKeys (sortedMap l).
Proof.
  induction l as [|p l IH] using rev_ind; [constructor|]. rewrite sortedMap_snoc.
  apply insertKey_sorted; [apply withoutKey_not_in|by apply withoutKey_sorted].
Qed.
Lemma withoutKey_absent k l : k ∉ map fst l → withoutKey k l = l.
Proof.
  induction l as [|q l IH]; intros Hk; [done|]. cbn in Hk. apply not_elem_of_cons in Hk as [Hkq Hk].
  rewrite withoutKey_cons, bool_decide_false by congruence. by rewrite IH.
Qed.
Lemma sorted_above k v l : Forall (λ q, String.ltb k q.1 = true) l → k ∉ map fst l ∧ insertKey k v l = (k, v) :: l.
Proof.
  intros Hl. split.
  - intros Hin%list_elem_of_In. apply in_map_iff in Hin as (p & <- & Hin).
    rewrite Forall_forall in Hl. specialize (Hl p ltac:(by apply list_elem_of_In)).
    by rewrite ltb_irrefl in Hl.
  - destruct l as [|q l]; [done|]. apply Forall_cons in Hl as [Hq _]. cbn. by rewrite Hq.
Qed.
(** Setting a key to the value it has changes nothing. *)
Lemma insertKey_again k v l : sortedKeys l → (k, v) ∈ l → insertKey k v (withoutKey k l) = l.
Proof.
  induction 1 as [|p l Hl IH Hp]; intros Hin; [by apply not_elem_of_nil in Hin|].
  rewrite withoutKey_cons. destruct (decide (p.1 = k)) as [E|E].
  - subst k. rewrite (bool_decide_true (p.1 = p.1)) by done.
    destruct (sorted_above p.1 v l Hp) as [Hno Hins]. rewrite withoutKey_absent by done.
    rewrite Hins. f_equal. apply elem_of_cons in Hin as [<-|Hin]; [done|].
    by destruct (Hno (elem_of_fst _ _ Hin)).
  - rewrite bool_decide_false by done. apply elem_of_cons in Hin as [<-|Hin]; [done|]. cbn.
    rewrite Forall_forall in Hp. pose proof (Hp _ Hin) as Hlt. cbn in Hlt.
    rewrite (ltb_asym _ _ Hlt). by rewrite IH.
Qed.
Lemma insertKey_end k v l : Forall (λ q, String.ltb q.1 k = true) l → insertKey k v l = l ++ [(k, v)].
Proof.
  induction 1 as [|q l Hq _ IH]; [done|]. cbn. by rewrite (ltb_asym _ _ Hq), IH.
Qed.
Lemma sortedKeys_snoc l p : sortedKeys (l ++ [p]) →
  sortedKeys l ∧ Forall (λ q, String.ltb q.1 p.1 = true) l.
Proof.
  induction l as [|q l IH]; intros Hs; [split; constructor|].
  cbn in Hs. apply StronglySorted_inv in Hs as [Hs Hq].
  apply Forall_app in Hq as [Hql Hqp]. apply IH in Hs as [Hs Hp].
  split; [by constructor|]. constructor; [|done]. by apply Forall_cons in Hqp as [? _].
Qed.
Lemma sortedMap_id l : sortedKeys l → sortedMap l = l.
Proof.
  induction l as [|[k v] l IH] using rev_ind; [done|]. intros [Hs Hp]%sortedKeys_snoc.
  rewrite sortedMap_snoc, IH by done. cbn. rewrite withoutKey_absent.
  - by apply insertKey_end.
  - intros Hin%list_elem_of_In. apply in_map_iff in Hin as (q & <- & Hin).
    rewrite Forall_forall in Hp. specialize (Hp q ltac:(by apply list_elem_of_In)).
    by rewrite ltb_irrefl in Hp.
Qed.
Lemma sortedMap_again l p : sortedKeys l → p ∈ l → sortedMap (l ++ [p]) = l.
Proof.
  intros Hs Hp. rewrite sortedMap_snoc, sortedMap_id by done. destruct p. by apply insertKey_again.
Qed.
End Keys.

(** *** Strategies *)

(** A strategy that was printed and read again: its raw messages are not nil. *)
Definition reread (s : StrategyConfig) : StrategyConfig :=
  {| Strategy_Region := Strategy_Region s;
     Strategy_CreateStrategy := Some (default JNull (Strategy_CreateStrategy s));
     Strategy_DeleteStrategy := Some (default JNull (Strategy_DeleteStrategy s));
     Strategy_ServiceUpdates := Some (default JNull (Strategy_ServiceUpdates s)) |}.
Definition rereadMap (l : list (string * option StrategyConfig)) :=
  map (λ p, (p.1, reread <$> p.2)) l.

Definition printableRaw (v : option json) : Prop := printable (default JNull v) = true.
Definition printableStrategy (s : option StrategyConfig) : Prop :=
  match s with
  | None => True
  | Some s => printableRaw (Strategy_CreateStrategy s) ∧ printableRaw (Strategy_DeleteStrategy s) ∧
              printableRaw (Strategy_ServiceUpdates s)
  end.

Lemma decode_marshalStrategy s : decodeStrategyConfig (marshalStrategy s) = Some (reread <$> s).
Proof. destruct s as [s|]; reflexivity. Qed.
Lemma marshalStrategy_reread s : marshalStrategy (reread <$> s) = marshalStrategy s.
Proof. by destruct s. Qed.
Lemma printable_marshalStrategy s : printableStrategy s → printable (marshalStrategy s) = true.
Proof.
  destruct s as [s|]; [|done]. intros (H1 & H2 & H3). unfold printableRaw in *. cbn.
  by rewrite H1, H2, H3.
Qed.

Lemma decodeMapping_marshal (l : list (string * option StrategyConfig)) :
  decodeMapping (map (λ p, (p.1, marshalStrategy p.2)) l) = Some (rereadMap l).
Proof.
  induction l as [|[k s] l IH]; [done|]. cbn [map decodeMappingOf fst snd].
  rewrite decode_marshalStrategy. cbn [mbind option_bind]. by rewrite IH.
Qed.
Lemma unmarshal_marshalMapping l :
  (∀ p, p ∈ l → printableStrategy p.2) →
  unmarshalMapping (marshalMapping l) = Ok (rereadMap (sortedMap l)).
Proof.
  intros Hp. unfold unmarshalMappingOf, marshalMapping. rewrite parse_marshal.
  - by rewrite decodeMapping_marshal.
  - cbn. apply forallb_forall. intros x Hx. apply in_map_iff in Hx as (p & <- & Hin). cbn.
    apply printable_marshalStrategy, Hp, sortedMap_elem. by apply list_elem_of_In.
Qed.

(** What is decoded can be printed. *)
Lemma rawField_printable members f :
  forallb (λ m, printable m.2) members = true → printableRaw (rawField members f).
Proof.
  intros Hp. unfold printableRaw, rawFieldOf. rewrite forallb_forall in Hp.
  destruct (last _) as [[g w]|] eqn:El; [|done]. cbn.
  apply last_Some_elem_of, list_elem_of_In, filter_In in El as [El _]. apply (Hp _ El).
Qed.
Lemma decodeMapping_printable members l :
  forallb (λ m, printable m.2) members = true → decodeMapping members = Some l →
  ∀ p, p ∈ l → printableStrategy p.2.
Proof.
  revert l. induction members as [|[k v] members IH]; intros l Hp; cbn [decodeMappingOf].
  { intros [= <-] p []%not_elem_of_nil. }
  apply andb_true_iff in Hp as [Hv Hp].
  destruct (decodeStrategyConfig v) as [s|] eqn:Es; [|done]. cbn [mbind option_bind].
  destruct (decodeMapping members) as [r|] eqn:Er; [|done]. cbn [mbind option_bind].
  intros [= <-] p [->|Hin]%elem_of_cons; [|by eapply IH]. cbn.
  destruct v as [| | | | |ms]; try discriminate Es; [by injection Es as <-|].
  cbn in Es. destruct (plainString strategyFields ms "region"); [|done]. cbn in Es. injection Es as <-.
  cbn in Hv. split_and!; cbn; by apply rawField_printable.
Qed.
Lemma unmarshalMapping_printable config l :
  unmarshalMapping config = Ok l → ∀ p, p ∈ l → printableStrategy p.2.
Proof.
  unfold unmarshalMappingOf. destruct (parse config) as [v|e] eqn:Ep; [|done].
  apply parse_printable in Ep. destruct v; try done.
  - intros [= <-] p []%not_elem_of_nil.
  - destruct (decodeMapping members) as [l'|] eqn:Ed; [|done]. intros [= <-].
    by eapply decodeMapping_printable.
Qed.

Lemma lookupTier_last {A} t (l : list (string * option A)) : lookupTier t l =
  match last (keyed t l) with Some p => p.2 | None => None end.
Proof. unfold lookupTier, keyed. by destruct (last _) as [[k s]|]. Qed.
Lemma lookupTier_sortedMap {A} t (l : list (string * option A)) : lookupTier t (sortedMap l) = lookupTier t l.
Proof. by rewrite !lookupTier_last, last_keyed_sortedMap. Qed.
Lemma last_map {A B} (f : A → B) l : last (map f l) = option_map f (last l).
Proof. exact (fmap_last f l). Qed.
Lemma lookupTier_rereadMap t l : lookupTier t (rereadMap l) = reread <$> lookupTier t l.
Proof.
  rewrite !lookupTier_last. assert (keyed t (rereadMap l) = rereadMap (keyed t l)) as ->.
  { induction l as [|p l IH]; [done|]. cbn [rereadMap map]. rewrite !keyed_cons. cbn [fst].
    case_bool_decide; [|exact IH]. cbn [rereadMap map]. f_equal. exact IH. }
  unfold rereadMap. rewrite last_map. by destruct (last (keyed t l)).
Qed.
Lemma lookupTier_snoc {A} t k s (l : list (string * option A)) :
  lookupTier t (l ++ [(k, s)]) = if bool_decide (k = t) then s else lookupTier t l.
Proof.
  rewrite !lookupTier_last. unfold keyed. rewrite List.filter_app. cbn.
  case_bool_decide; [by rewrite last_snoc|by rewrite app_nil_r].
Qed.
Lemma rereadMap_sorted l : sortedKeys l → sortedKeys (rereadMap l).
Proof.
  induction 1 as [|p l _ IH Hp]; cbn; constructor; [done|].
  rewrite Forall_forall in Hp |- *. intros q Hq%list_elem_of_In.
  apply in_map_iff in Hq as (x & <- & Hx).
  apply (Hp x). by apply list_elem_of_In.
Qed.
(** ** Reconciling a strategy *)

Section Reconcile.
Context (spec : list (string * jkind)) (Hwf : wfKind (KStruct spec) = true)
  (bf mf : string) (Hbf : (bf, KString) ∈ spec) (Hmf : (mf, KString) ∈ spec) (Hne : bf ≠ mf)
  (kind cluster tier b m : string).
Local Notation reconcile := (reconcileStrategy spec bf mf kind cluster tier).

(** What is read of the text [after] that replaced [before]. *)
Definition windowsRead (before after : string) : Prop :=
  ∃ mapping s members,
    unmarshalMapping before = Ok mapping ∧ lookupTier tier mapping = Some s ∧
    unmarshalStruct spec (Strategy_CreateStrategy s) = Ok members ∧
    ∃ mapping' fields, unmarshalMapping after = Ok mapping' ∧
      lookupTier tier mapping' = Some (reread (setCreateStrategy (JObj fields) s)) ∧
      unmarshalStruct spec (Some (JObj fields)) = Ok fields ∧
      fieldValue (map fst spec) fields bf = Some (JStr b) ∧
      fieldValue (map fst spec) fields mf = Some (JStr m) ∧
      (∀ f k, (f, k) ∈ spec → f ≠ bf → f ≠ mf →
         fieldValue (map fst spec) fields f = marshalAs k <$> fieldValue (map fst spec) members f) ∧
      (∀ t, t ≠ tier → lookupTier t mapping' = reread <$> lookupTier t mapping).

Lemma unmarshalStruct_members raw members :
  unmarshalStruct spec raw = Ok members → hasKind (KStruct spec) (JObj members) = true.
Proof.
  unfold unmarshalStruct. destruct raw as [v|]; [|done].
  destruct (hasKind _ v) eqn:Ev; [|done]. intros [= <-]. by destruct v.
Qed.
Lemma unmarshalStruct_printable raw members :
  unmarshalStruct spec raw = Ok members → printableRaw raw →
  forallb (λ m, printable m.2) members = true.
Proof.
  unfold unmarshalStruct, printableRaw. destruct raw as [v|]; [|done].
  destruct (hasKind _ v); [|done]. intros [= <-]. by destruct v.
Qed.

Lemma lookupTier_elem {A} t (l : list (string * option A)) s : lookupTier t l = Some s → (t, Some s) ∈ l.
Proof.
  rewrite lookupTier_last. destruct (last _) as [[k s']|] eqn:El; [|done]. cbn. intros ->.
  apply last_Some_elem_of in El. apply list_elem_of_In, filter_In in El as [Hin Hk].
  apply bool_decide_eq_true in Hk. cbn in Hk. subst k. by apply list_elem_of_In.
Qed.

(** The text that replaces a strategy, taken apart. *)
Lemma reconcileStrategy_Val before after :
  reconcile before b m = Val after →
  ∃ mapping s members, unmarshalMapping before = Ok mapping ∧ lookupTier tier mapping = Some s ∧
    unmarshalStruct spec (Strategy_CreateStrategy s) = Ok members ∧
    let fields := windowed spec bf mf members b m in
    let updated := mapping ++ [(tier, Some (setCreateStrategy (JObj fields) s))] in
    after = marshalMapping updated ∧ unmarshalMapping after = Ok (rereadMap (sortedMap updated)).
Proof.
  unfold reconcileStrategy. destruct (unmarshalMapping before) as [mapping|e] eqn:Em; [|done].
  destruct (lookupTier tier mapping) as [s|] eqn:Es; [|done].
  destruct (unmarshalStruct spec _) as [members|e] eqn:Eu; [|done]. intros [= <-].
  fold (windowed spec bf mf members b m).
  exists mapping, s, members. split_and!; try done. cbv zeta.
  rewrite unmarshal_marshalMapping; [done|]. pose proof (unmarshalMapping_printable _ _ Em) as Hp.
  intros p [Hin|Hin]%elem_of_app; [by apply Hp|]. apply list_elem_of_singleton in Hin as ->.
  destruct (Hp _ (lookupTier_elem _ _ _ Es)) as (H1 & H2 & H3). cbn. split_and!; [|done|done].
  unfold printableRaw. cbn [default]. apply windowed_printable; try done.
  by eapply unmarshalStruct_printable.
Qed.

Lemma reconcileStrategy_read before after :
  reconcile before b m = Val after → windowsRead before after.
Proof.
  intros (mapping & s & members & Em & Es & Eu & _ & Ea)%reconcileStrategy_Val.
  pose proof (unmarshalStruct_members _ _ Eu) as Hk.
  exists mapping, s, members. split_and!; try done.
  eexists _, (windowed spec bf mf members b m). split; [exact Ea|].
  split_and!.
  - rewrite lookupTier_rereadMap, lookupTier_sortedMap, lookupTier_snoc, bool_decide_true by done. done.
  - by apply windowed_unmarshal.
  - by apply windowed_backup.
  - by apply windowed_maintenance.
  - intros. by apply windowed_other.
  - intros t Ht. by rewrite lookupTier_rereadMap, lookupTier_sortedMap, lookupTier_snoc, bool_decide_false by done.
Qed.

(** The second time nothing changes. *)
Lemma reconcileStrategy_again before after :
  reconcile before b m = Val after → reconcile after b m = Val after.
Proof.
  intros (mapping & s & members & Em & Es & Eu & Et & Ea)%reconcileStrategy_Val.
  pose proof (unmarshalStruct_members _ _ Eu) as Hk.
  set (fields := windowed spec bf mf members b m) in *.
  set (s' := setCreateStrategy (JObj fields) s) in *.
  set (updated := mapping ++ [(tier, Some s')]) in *.
  unfold reconcileStrategy. rewrite Ea.
  assert (lookupTier tier (rereadMap (sortedMap updated)) = Some (reread s')) as ->.
  { unfold updated. by rewrite lookupTier_rereadMap, lookupTier_sortedMap, lookupTier_snoc,
      bool_decide_true. }
  change (Strategy_CreateStrategy (reread s')) with (Some (JObj fields)).
  unfold fields. rewrite windowed_unmarshal, windowed_again by done. fold fields.
  change (setCreateStrategy (JObj fields) (reread s')) with (reread s').
  rewrite Et. f_equal. unfold marshalMapping at 1.
  rewrite sortedMap_again.
  - change (marshalMapping updated) with (marshal (JObj (map (λ p, (p.1, marshalStrategy p.2)) (sortedMap updated)))).
    unfold rereadMap. rewrite map_map. do 2 f_equal. apply map_ext. intros p. cbn.
    by rewrite marshalStrategy_reread.
  - apply rereadMap_sorted, sortedMap_sorted.
  - apply list_elem_of_In. unfold rereadMap. apply in_map_iff. exists (tier, Some s'). split; [done|].
    apply list_elem_of_In, sortedMap_last.
Qed.
End Reconcile.

(** ** The config map *)

(** A kind of strategy the client reconciles: its key, the fields of its create
    strategy, those of its two windows. *)
Record windowKind := {
  WK_key : string; WK_spec : list (string * jkind);
  WK_backup : string; WK_maintenance : string;
  WK_kind : string; WK_cluster : string
}.
Definition postgresWindows : windowKind :=
  {| WK_key := PostgresStratKey; WK_spec := CreateDBInstanceInputFields;
     WK_backup := "PreferredBackupWindow"; WK_maintenance := "PreferredMaintenanceWindow";
     WK_kind := "postgres"; WK_cluster := "rds" |}.
Definition redisWindows : windowKind :=
  {| WK_key := RedisStratKey; WK_spec := CreateReplicationGroupInputFields;
     WK_backup := "SnapshotWindow"; WK_maintenance := "PreferredMaintenanceWindow";
     WK_kind := "redis"; WK_cluster := "redis" |}.

(** What the client relies on of a kind. *)
Class WindowKind (w : windowKind) := {
  WK_wf : wfKind (KStruct (WK_spec w)) = true;
  WK_backup_in : (WK_backup w, KString) ∈ WK_spec w;
  WK_maintenance_in : (WK_maintenance w, KString) ∈ WK_spec w;
  WK_distinct : WK_backup w ≠ WK_maintenance w
}.
#[export] Instance WindowKind_postgres : WindowKind postgresWindows.
Proof. split; [vm_compute; reflexivity|apply list_elem_of_In; cbn; tauto..|done]. Qed.
#[export] Instance WindowKind_redis : WindowKind redisWindows.
Proof. split; [vm_compute; reflexivity|apply list_elem_of_In; cbn; tauto..|done]. Qed.
Notation reconcileOf w :=
  (reconcileStrategy (WK_spec w) (WK_backup w) (WK_maintenance w) (WK_kind w) (WK_cluster w)).

Lemma ensureKey_has key value data : is_Some (ensureKey key value data !! key).
Proof. unfold ensureKey. destruct (data !! key) eqn:E; [by rewrite E|by rewrite lookup_insert_eq]. Qed.
Lemma ensureKey_keeps k key value data : is_Some (data !! k) → ensureKey key value data !! k = data !! k.
Proof.
  intros [v Hv]. unfold ensureKey. destruct (data !! key) eqn:E; [done|].
  apply lookup_insert_ne. congruence.
Qed.
Lemma withDefaults_has data :
  is_Some (withDefaults data !! PostgresStratKey) ∧ is_Some (withDefaults data !! RedisStratKey).
Proof.
  unfold withDefaults. split; [|apply ensureKey_has].
  rewrite ensureKey_keeps by apply ensureKey_has. apply ensureKey_has.
Qed.
Lemma withDefaults_id data : is_Some (data !! PostgresStratKey) → is_Some (data !! RedisStratKey) →
  withDefaults data = data.
Proof.
  intros [v Hv] [w Hw]. unfold withDefaults. rewrite bool_decide_false by (intros ->; done).
  unfold ensureKey. by rewrite Hv, Hw.
Qed.

Lemma mutateStrategies_Val tier b m data data' :
  mutateStrategies tier b m data = Val data' →
  ∃ pg rd,
    reconcileOf postgresWindows tier (default "" (withDefaults data !! PostgresStratKey)) b m = Val pg ∧
    reconcileOf redisWindows tier (default "" (withDefaults data !! RedisStratKey)) b m = Val rd ∧
    data' = <[RedisStratKey := rd]> (<[PostgresStratKey := pg]> (withDefaults data)).
Proof.
  unfold mutateStrategies. cbv zeta.
  destruct (reconcilePostgresStrategy _ _ _ _) as [pg| |] eqn:Ep; [|done..].
  destruct (reconcileRedisStrategy _ _ _ _) as [rd| |] eqn:Er; [|done..].
  intros [= <-]. by exists pg, rd.
Qed.
Lemma mutated_pg pg rd (data : gmap string string) :
  <[RedisStratKey := rd]> (<[PostgresStratKey := pg]> data) !! PostgresStratKey = Some pg.
Proof. by rewrite lookup_insert_ne, lookup_insert_eq. Qed.
Lemma mutated_rd pg rd (data : gmap string string) :
  <[RedisStratKey := rd]> (<[PostgresStratKey := pg]> data) !! RedisStratKey = Some rd.
Proof. by rewrite lookup_insert_eq. Qed.

(** Mutating the result again changes nothing. *)
Lemma mutateStrategies_again tier b m data data' :
  mutateStrategies tier b m data = Val data' → mutateStrategies tier b m data' = Val data'.
Proof.
  intros (pg & rd & Hp & Hr & ->)%mutateStrategies_Val.
  pose proof WindowKind_postgres as [??? ?]. pose proof WindowKind_redis as [????].
  apply reconcileStrategy_again in Hp, Hr; try done.
  unfold mutateStrategies. cbv zeta. rewrite withDefaults_id, mutated_pg, mutated_rd
    by (rewrite ?mutated_pg, ?mutated_rd; done).
  cbn [from_option id]. assert (reconcilePostgresStrategy tier pg b m = Val pg) as -> by exact Hp.
  assert (reconcileRedisStrategy tier rd b m = Val rd) as -> by exact Hr.
  f_equal. rewrite (insert_id _ PostgresStratKey) by apply mutated_pg.
  apply insert_id, mutated_rd.
Qed.

(** The strategies of a kind and of the other tiers before and after. *)
Definition strategyKept (w : windowKind) (tier b m : string) (old new : gmap string string) : Prop :=
  ∃ s members fields,
    strategyIn old (WK_key w) tier = Some s ∧
    unmarshalStruct (WK_spec w) (Strategy_CreateStrategy s) = Ok members ∧
    strategyIn new (WK_key w) tier = Some (reread (setCreateStrategy (JObj fields) s)) ∧
    unmarshalStruct (WK_spec w) (Some (JObj fields)) = Ok fields ∧
    let v := fieldValue (map fst (WK_spec w)) in
    v fields (WK_backup w) = Some (JStr b) ∧ v fields (WK_maintenance w) = Some (JStr m) ∧
    (∀ f k, (f, k) ∈ WK_spec w → f ≠ WK_backup w → f ≠ WK_maintenance w →
       v fields f = marshalAs k <$> v members f) ∧
    (∀ t, t ≠ tier → strategyIn new (WK_key w) t = reread <$> strategyIn old (WK_key w) t).

Lemma strategyIn_Ok data key t raw (mapping : list (string * option StrategyConfig)) :
  data !! key = Some raw → unmarshalMapping raw = Ok mapping →
  strategyIn data key t = lookupTier t mapping.
Proof.
  intros Hk Hm. unfold strategyIn. rewrite Hk. cbn [from_option id]. rewrite bool_decide_false, Hm; [done|].
  by intros ->.
Qed.
Lemma reconcileStrategy_kept (w : windowKind) `{!WindowKind w} tier b m (old new : gmap string string)
    after :
  is_Some (old !! WK_key w) →
  reconcileOf w tier (default "" (old !! WK_key w)) b m = Val after →
  new !! WK_key w = Some after → strategyKept w tier b m old new.
Proof.
  destruct WindowKind0 as [????]. intros [raw Hold] Hr Hnew. rewrite Hold in Hr. cbn [from_option id] in Hr.
  apply reconcileStrategy_read in Hr; try done.
  destruct Hr as (mapping & s & members & Em & Es & Eu & mapping' & fields & Em' & Es' & Eu' &
    Hb & Hm & Ho & Ht).
  exists s, members, fields. split_and!; try done.
  - by erewrite strategyIn_Ok.
  - by erewrite strategyIn_Ok.
  - cbv zeta. split_and!; try done. intros t Hne. erewrite !strategyIn_Ok by done. by apply Ht.
Qed.

Lemma mutateStrategies_kept tier b m data data' :
  mutateStrategies tier b m data = Val data' →
  strategyKept postgresWindows tier b m (withDefaults data) data' ∧
  strategyKept redisWindows tier b m (withDefaults data) data'.
Proof.
  intros (pg & rd & Hp & Hr & ->)%mutateStrategies_Val. destruct (withDefaults_has data) as [? ?].
  split.
  - eapply reconcileStrategy_kept; [apply _|done|exact Hp|apply mutated_pg].
  - eapply reconcileStrategy_kept; [apply _|done|exact Hr|apply mutated_rd].
Qed.

(** the config map that is stored is read back as what it was, but for the windows:
    for postgres and for redis, the create strategy of the tier has the new windows
    and every other field with the value it had, the rest of the strategy and the
    strategies of the other tiers are those of before, and no other key changes. *)
Theorem mutateStrategies_reads tier b m data data' :
  mutateStrategies tier b m data = Val data' →
  strategyKept postgresWindows tier b m (withDefaults data) data' ∧
  strategyKept redisWindows tier b m (withDefaults data) data' ∧
  ∀ key, key ≠ PostgresStratKey → key ≠ RedisStratKey → data' !! key = withDefaults data !! key.
Proof.
  intros Hm. destruct (mutateStrategies_kept _ _ _ _ _ Hm). split_and!; [done|done|].
  apply mutateStrategies_Val in Hm as (pg & rd & _ & _ & ->).
  intros key Hk1 Hk2. by rewrite !lookup_insert_ne.
Qed.

(** ** Runs *)

Section Runs.
Context {S : Type}.
Implicit Types (s : S).

(** The data of the config map after the calls of [tr]: what was found, or what was
    written. *)
Definition storedIn (ns : string) (tr : list event) (data : gmap string string) : Prop :=
  tr = [Ev (GetConfigMap DefaultConfigMapName ns) (Ok data)] ∨
  (∃ e written, IsNotFound e = true ∧
     tr = [Ev (GetConfigMap DefaultConfigMapName ns) (Er e);
           Ev (CreateConfigMap DefaultConfigMapName ns data) (Ok written)]) ∨
  (∃ old written, old ≠ data ∧
     tr = [Ev (GetConfigMap DefaultConfigMapName ns) (Ok old);
           Ev (UpdateConfigMap DefaultConfigMapName ns data) (Ok written)]).

Lemma CreateOrUpdateConfigMap_Val ns init mutate s tr s' :
  runs (CreateOrUpdateConfigMap DefaultConfigMapName ns init mutate s) tr (Val tt, s') →
  ∃ old data, mutate old = Val data ∧ storedIn ns tr data.
Proof.
  intros Hr. apply CreateOrUpdate_Val in Hr
    as (t1 & s1 & t2 & data & -> & [(e & w & H1 & He & Hm & H2)|(old & H1 & Hm & H2)]).
  - apply runs_ok_call in H1 as (r & -> & -> & Hx).
    destruct r as [|e']; [done|]. injection Hx as <-.
    apply runs_ok_Val, (@runs_invoke_Val api S error (CreateConfigMap _ _ _)) in H2 as [-> ->].
    exists init, data. split; [done|]. right; left. by exists e, w.
  - apply runs_ok_Val, (@runs_invoke_Val api S error (GetConfigMap _ _)) in H1 as [-> ->].
    exists old, data. split; [done|]. destruct H2 as [(-> & -> & _)|(Hne & w & H2)]; [by left|].
    apply runs_ok_Val, (@runs_invoke_Val api S error (UpdateConfigMap _ _ _)) in H2 as [-> ->].
    right; right. by exists old, w.
Qed.
Lemma ReconcileStrategyMap_Val p tc s tr s' :
  runs (ReconcileStrategyMap p tc s) tr (Val tt, s') →
  ∃ b m old data, buildAWSWindows tc = Ok (b, m) ∧
    mutateStrategies (StrategyProvider_Tier p) b m old = Val data ∧
    storedIn (StrategyProvider_Namespace p) tr data.
Proof.
  intros Hr. unfold ReconcileStrategyMap in Hr.
  apply runs_bind_Val in Hr as (t1 & [b m] & s1 & t2 & -> & H1 & Hr).
  apply runs_onErr_Val, runs_liftR_Val in H1 as (-> & Hw & ->).
  apply runs_onErr_Val, CreateOrUpdateConfigMap_Val in Hr as (old & data & Hd & Hs).
  by exists b, m, old, data.
Qed.

(** The create strategy of a kind and tier has the windows. *)
Definition hasWindows (w : windowKind) (tier b m : string) (data : gmap string string) : Prop :=
  ∃ st fields, strategyIn data (WK_key w) tier = Some st ∧
    unmarshalStruct (WK_spec w) (Strategy_CreateStrategy st) = Ok fields ∧
    fieldValue (map fst (WK_spec w)) fields (WK_backup w) = Some (JStr b) ∧
    fieldValue (map fst (WK_spec w)) fields (WK_maintenance w) = Some (JStr m).
Lemma strategyKept_windows w tier b m old new :
  strategyKept w tier b m old new → hasWindows w tier b m new.
Proof.
  intros (st & members & fields & _ & _ & Hs & Hu & Hb & Hm & _). by eexists _, fields.
Qed.
Lemma mutateStrategies_windows tier b m data data' :
  mutateStrategies tier b m data = Val data' →
  hasWindows postgresWindows tier b m data' ∧ hasWindows redisWindows tier b m data'.
Proof.
  intros [Hp Hr]%mutateStrategies_kept. split; by eapply strategyKept_windows.
Qed.

(** A strategy that is read from the stored data. *)
Lemma ReadStorageStrategy_stored cm rt tier s tr st s' data :
  runs (ReadStorageStrategy cm rt tier s) tr (Val st, s') →
  (∀ r, Ev (GetConfigMap (CM_configMapName cm) (CM_configMapNamespace cm)) r ∈ tr → r = Ok data) →
  strategyIn data rt tier = Some st.
Proof.
  intros Hr Hd. destruct (ReadStorageStrategy_runs _ _ _ _ _ _ _ Hr) as (r & -> & _ & Ho).
  rewrite (Hd r) in Ho by (by apply list_elem_of_singleton).
  destruct (strategyIn data rt tier); [by injection Ho as ->|by destruct Ho].
Qed.

Lemma getRDSConfig_windows pp r s tr cfg del upd st s' data b m :
  runs (getRDSConfig pp r s) tr (Val (cfg, del, upd, st), s') →
  (∀ a, Ev (GetConfigMap (CM_configMapName (P_ConfigManager pp))
              (CM_configMapNamespace (P_ConfigManager pp))) a ∈ tr → a = Ok data) →
  hasWindows postgresWindows (Spec_Tier (CR_Spec r)) b m data →
  CI_PreferredBackupWindow cfg = Some b ∧ CI_PreferredMaintenanceWindow cfg = Some m.
Proof.
  intros Hr Hd (st0 & fields & Hs & Hu & Hb & Hm). unfold getRDSConfig in Hr.
  apply runs_bind_Val in Hr as (t1 & st1 & s1 & t2 & -> & H1 & Hr).
  apply runs_onErr_Val, (ReadStorageStrategy_stored _ _ _ _ _ _ _ data) in H1.
  2: { intros a Ha. apply Hd, elem_of_app. by left. }
  change (WK_key postgresWindows) with "postgres" in Hs. rewrite Hs in H1. injection H1 as <-.
  apply runs_bind_Val in Hr as (t3 & region & s3 & t4 & -> & _ & Hr).
  apply runs_bind_Val in Hr as (t5 & create & s5 & t6 & -> & H2 & Hr).
  apply runs_onErr_Val, runs_liftR_Val in H2 as (-> & Hc & ->).
  assert (create = fields) as ->.
  { assert (unmarshalStruct CreateDBInstanceInputFields (Strategy_CreateStrategy st0) = Ok create)
      as Hx by (rewrite <- Hc; by destruct (bool_decide (Strategy_Region st0 = ""))). 
    pose proof (eq_trans (eq_sym Hu) Hx) as Hy. by injection Hy as ->. }
  apply runs_bind_Val in Hr as (t7 & dl & s7 & t8 & -> & _ & Hr).
  apply runs_bind_Val in Hr as (t9 & up & s9 & t10 & -> & _ & Hr).
  apply runs_mret_Val in Hr as (_ & [= <- _ _ _] & _).
  cbn [decodeCreateDBInstanceInput CI_PreferredBackupWindow CI_PreferredMaintenanceWindow].
  cbn [WK_spec WK_backup WK_maintenance postgresWindows] in Hb, Hm.
  by rewrite Hb, Hm.
Qed.
Lemma getElasticacheConfig_windows pp r s tr cfg del upd st s' data b m :
  runs (getElasticacheConfig pp r s) tr (Val (cfg, del, upd, st), s') →
  (∀ a, Ev (GetConfigMap (CM_configMapName (R_ConfigManager pp))
              (CM_configMapNamespace (R_ConfigManager pp))) a ∈ tr → a = Ok data) →
  hasWindows redisWindows (Spec_Tier (CR_Spec r)) b m data →
  CR_SnapshotWindow cfg = Some b ∧ CR_PreferredMaintenanceWindow cfg = Some m.
Proof.
  intros Hr Hd (st0 & fields & Hs & Hu & Hb & Hm). unfold getElasticacheConfig in Hr.
  apply runs_bind_Val in Hr as (t1 & st1 & s1 & t2 & -> & H1 & Hr).
  apply runs_onErr_Val, (ReadStorageStrategy_stored _ _ _ _ _ _ _ data) in H1.
  2: { intros a Ha. apply Hd, elem_of_app. by left. }
  change (WK_key redisWindows) with "redis" in Hs. rewrite Hs in H1. injection H1 as <-.
  apply runs_bind_Val in Hr as (t3 & region & s3 & t4 & -> & _ & Hr).
  apply runs_bind_Val in Hr as (t5 & create & s5 & t6 & -> & H2 & Hr).
  apply runs_onErr_Val, runs_liftR_Val in H2 as (-> & Hc & ->).
  assert (create = fields) as ->.
  { assert (unmarshalStruct CreateReplicationGroupInputFields (Strategy_CreateStrategy st0) = Ok create)
      as Hx by (rewrite <- Hc; by destruct (bool_decide (Strategy_Region st0 = ""))).
    pose proof (eq_trans (eq_sym Hu) Hx) as Hy. by injection Hy as ->. }
  apply runs_bind_Val in Hr as (t7 & dl & s7 & t8 & -> & _ & Hr).
  apply runs_bind_Val in Hr as (t9 & up & s9 & t10 & -> & _ & Hr).
  apply runs_mret_Val in Hr as (_ & [= <- _ _ _] & _).
  cbn [WK_spec WK_backup WK_maintenance redisWindows] in Hb, Hm.
  destruct (bool_decide (Spec_Size (CR_Spec r) ≠ ""));
    cbn [setNodeType decodeCreateReplicationGroupInput CR_SnapshotWindow
         CR_PreferredMaintenanceWindow]; by rewrite Hb, Hm.
Qed.

(** C27: after the reconciliation of the strategies the AWS providers go on with the
    windows that were built: whatever a postgres or redis provider reads for the tier
    from the data that was found or written, its create configuration has the
    backup (snapshot) window and the maintenance window of the start times. *)
Theorem ReconcileStrategyMap_windows p tc s tr s' :
  runs (ReconcileStrategyMap p tc s) tr (Val tt, s') →
  ∃ b m data, buildAWSWindows tc = Ok (b, m) ∧ storedIn (StrategyProvider_Namespace p) tr data ∧
    (∀ pp r s1 tr1 cfg del upd st s1',
       Spec_Tier (CR_Spec r) = StrategyProvider_Tier p →
       runs (getRDSConfig pp r s1) tr1 (Val (cfg, del, upd, st), s1' : S) →
       (∀ a, Ev (GetConfigMap (CM_configMapName (P_ConfigManager pp))
                  (CM_configMapNamespace (P_ConfigManager pp))) a ∈ tr1 → a = Ok data) →
       CI_PreferredBackupWindow cfg = Some b ∧ CI_PreferredMaintenanceWindow cfg = Some m) ∧
    (∀ pp r s1 tr1 cfg del upd st s1',
       Spec_Tier (CR_Spec r) = StrategyProvider_Tier p →
       runs (getElasticacheConfig pp r s1) tr1 (Val (cfg, del, upd, st), s1' : S) →
       (∀ a, Ev (GetConfigMap (CM_configMapName (R_ConfigManager pp))
                  (CM_configMapNamespace (R_ConfigManager pp))) a ∈ tr1 → a = Ok data) →
       CR_SnapshotWindow cfg = Some b ∧ CR_PreferredMaintenanceWindow cfg = Some m).
Proof.
  intros Hr0. apply ReconcileStrategyMap_Val in Hr0 as (b & m & old & data & Hw & Hd & Hs).
  apply mutateStrategies_windows in Hd as [Hp Hr].
  exists b, m, data. split_and!; [done|done|..].
  - intros pp r s1 tr1 cfg del upd st s1' Ht Hrun Ha. rewrite <- Ht in Hp.
    exact (getRDSConfig_windows pp r s1 tr1 cfg del upd st s1' data b m Hrun Ha Hp).
  - intros pp r s1 tr1 cfg del upd st s1' Ht Hrun Ha. rewrite <- Ht in Hr.
    exact (getElasticacheConfig_windows pp r s1 tr1 cfg del upd st s1' data b m Hrun Ha Hr).
Qed.

(** C29: the reconciliation settles: run again on the data it left, with the same start
    times, it reads the config map, succeeds and writes nothing. *)
Theorem ReconcileStrategyMap_settles p tc s tr s' :
  runs (ReconcileStrategyMap p tc s) tr (Val tt, s') →
  ∃ data, storedIn (StrategyProvider_Namespace p) tr data ∧
    ∀ s2 tr2 o s2', runs (ReconcileStrategyMap p tc s2) tr2 (o, s2' : S) →
      (∀ r, Ev (GetConfigMap DefaultConfigMapName (StrategyProvider_Namespace p)) r ∈ tr2 →
         r = Ok data) →
      tr2 = [Ev (GetConfigMap DefaultConfigMapName (StrategyProvider_Namespace p)) (Ok data)] ∧
      o = Val tt.
Proof.
  intros Hr0. apply ReconcileStrategyMap_Val in Hr0 as (b & m & old & data & Hw & Hd & Hs).
  apply mutateStrategies_again in Hd. exists data. split; [done|].
  intros s2 tr2 o s2' Hr Hget. unfold ReconcileStrategyMap in Hr. rewrite Hw in Hr.
  assert (runs ((CreateOrUpdateConfigMap DefaultConfigMapName (StrategyProvider_Namespace p) ∅
    (mutateStrategies (StrategyProvider_Tier p) b m)
    onError (λ err, GoErr ("failed to update aws strategy config map : " +:+ Error err))) s2)
    tr2 (o, s2')) as Hx by exact Hr. clear Hr.
  apply runs_onErr in Hx as (o1 & Hr & ->).
  unfold CreateOrUpdateConfigMap, CreateOrUpdate in Hr.
  inv_call Hr. destruct Hr as (r & t & -> & Hr).
  rewrite (Hget r) in Hr |- * by (by apply list_elem_of_here). rewrite Hd in Hr.
  assert (runs ((if bool_decide (data = data) then mret tt
    else _ ← ok (invoke (UpdateConfigMap DefaultConfigMapName (StrategyProvider_Namespace p) data));
         mret tt : M S error unit) s2) t (o1, s2')) as Hx by exact Hr.
  rewrite bool_decide_true in Hx by done. by apply runs_mret in Hx as (-> & -> & _).
Qed.
End Runs.
