(* ===== verification/GcpStrategyProps.v ===== *)
(** * Properties of the strategy client on Google Cloud

    Requests that are written as JSON and read again, the windows of the strategies, and
    what is read from the config map once it has been reconciled. *)
From S2P Require Import Prelude Effects GoNet GoStrings Json JsonPrint GcpApi Api Resources.
From S2P Require Import AwsConfig Strategies StrategyProps GcpConfig GcpSql GcpPostgres GcpStrategies.
From Stdlib Require Import Ascii Sorted.
Local Open Scope go_scope.

(** ** Structs with fields left out *)

(** What is left of a list that is written unless it is empty. *)
Definition nonEmpty {A} (l : option (list A)) : option (list A) :=
  match l with Some [] => None | l => l end.

Section Table.
Context (F : list (string * jkind)) (table : list (string * option json)).
Context (Hnd : NoDup (map fst F)) (Htab : map fst table = map fst F).
Local Notation names := (map fst F).
Local Notation ms := (present table).

Lemma present_elem f v : (f, v) ∈ ms ↔ (f, Some v) ∈ table.
Proof.
  unfold present. rewrite list_elem_of_omap. split.
  - intros ([g [w|]] & Hin & Hx); [|done]. by injection Hx as <- <-.
  - intros Hin. by exists (f, Some v).
Qed.
Lemma present_keys t : map fst (present t) `sublist_of` map fst t.
Proof.
  induction t as [|[f [v|]] t IH]; cbn; [constructor|by apply sublist_skip|by apply sublist_cons].
Qed.
Lemma present_NoDup : NoDup (map fst ms).
Proof. eapply sublist_NoDup; [|apply present_keys]; by rewrite Htab. Qed.

(** Each field is read as it was written. *)
Lemma present_filter f ov :
  (f, ov) ∈ table →
  List.filter (λ m, bool_decide (fieldOf names m.1 = Some f)) ms =
  match ov with Some v => [(f, v)] | None => [] end.
Proof.
  intros Hin. rewrite filter_key.
  2: { intros x Hx. rewrite <- Htab. eapply elem_of_sublist; [exact Hx|apply present_keys]. }
  destruct ov as [v|].
  - apply filter_key_one; [apply present_NoDup|by apply present_elem].
  - apply filter_none. intros [g v] Hg%present_elem. cbn. apply bool_decide_eq_false. intros ->.
    assert (NoDup (map fst table)) as Hnt by by rewrite Htab.
    pose proof (value_unique _ _ _ _ Hnt Hin Hg). done.
Qed.
Lemma fieldValue_present f ov :
  (f, ov) ∈ table → fieldValue names ms f = match ov with Some v => nonNull v | None => None end.
Proof. intros Hin. unfold fieldValue. rewrite (present_filter _ _ Hin). by destruct ov as [[]|]. Qed.
Lemma membersOf_present f ov :
  (f, ov) ∈ table → membersOf F ms f = match ov with Some v => [v] | None => [] end.
Proof. intros Hin. unfold membersOf. rewrite (present_filter _ _ Hin). by destruct ov. Qed.

Lemma stringField_present f s : (f, stringMember s) ∈ table → stringField F ms f = s.
Proof.
  intros Hin. unfold stringField, plainString. rewrite (present_filter _ _ Hin).
  unfold stringMember. by case_bool_decide as E; subst.
Qed.
Lemma intField_present f z :
  (f, intMember z) ∈ table → (- 2 ^ 63 ≤ z < 2 ^ 63)%Z → intField F ms f = z.
Proof.
  intros Hin Hz. unfold intField. rewrite (membersOf_present _ _ Hin).
  unfold intMember. case_bool_decide as E; [by subst|]. cbn. by rewrite ParseInt64_itoa.
Qed.
Lemma boolField_present f p : (f, boolPtrMember p) ∈ table → boolField F ms f = p.
Proof. intros Hin. unfold boolField. rewrite (fieldValue_present _ _ Hin). by destruct p. Qed.
Lemma intPtrField_present f p :
  (f, intPtrMember p) ∈ table → (∀ z, p = Some z → - 2 ^ 63 ≤ z < 2 ^ 63)%Z → intPtrField F ms f = p.
Proof.
  intros Hin Hz. unfold intPtrField. rewrite (fieldValue_present _ _ Hin).
  destruct p as [z|]; [|done]. cbn. by rewrite ParseInt64_itoa by by apply Hz.
Qed.
Lemma objectField_present f p : (f, objectMember p) ∈ table → objectField F ms f = p.
Proof.
  intros Hin. unfold objectField, objectFieldFrom. rewrite (membersOf_present _ _ Hin).
  by destruct p.
Qed.
Lemma jsonField_present f ov :
  (f, ov) ∈ table → (∀ v, ov = Some v → nonNull v = Some v) → jsonField F ms f = ov.
Proof.
  intros Hin Hn. unfold jsonField. rewrite (fieldValue_present _ _ Hin).
  destruct ov as [v|]; [by apply Hn|done].
Qed.
Lemma listField_present f l :
  (f, listMember l) ∈ table → listField F ms f = nonEmpty l.
Proof.
  intros Hin. unfold listField. rewrite (fieldValue_present _ _ Hin). by destruct l as [[]|].
Qed.

(** It is well typed when what is there is. *)
Lemma present_hasKind :
  (∀ f k v, (f, k) ∈ F → (f, Some v) ∈ table → hasKind k v = true) →
  hasKind (KStruct F) (JObj ms) = true.
Proof.
  intros Hk. rewrite hasKind_struct. apply forallb_forall. intros [g w] Hin. cbn.
  apply list_elem_of_In, present_elem in Hin.
  assert (g ∈ names) as Hg by (rewrite <- Htab; exact (elem_of_fst _ _ Hin)).
  rewrite fieldOf_self by done. apply list_elem_of_In, in_map_iff in Hg as ([f k] & <- & Hin').
  apply list_elem_of_In in Hin'. rewrite (fieldKind_In _ _ k) by done. by apply (Hk f).
Qed.
Lemma present_printable :
  (∀ f v, (f, Some v) ∈ table → printable v = true) → printable (JObj ms) = true.
Proof.
  intros Hp. cbn. apply forallb_forall. intros [f v] Hin%list_elem_of_In%present_elem. by apply (Hp f).
Qed.
End Table.

(** ** Maps and lists *)

Definition nonEmptyMap (m : option (gmap string string)) : option (gmap string string) :=
  match m with Some m' => if bool_decide (m' = ∅) then None else m | None => None end.

Lemma foldl_insert_lookup (l : list (string * string)) k :
  foldl (λ m p, <[p.1 := p.2]> m) (∅ : gmap string string) l !! k = snd <$> last (keyed k l).
Proof.
  induction l as [|[k' v] l IH] using rev_ind; [apply lookup_empty|].
  rewrite foldl_app. cbn. unfold keyed in *. rewrite List.filter_app. cbn.
  case_bool_decide as E; [subst; by rewrite lookup_insert_eq, last_snoc|].
  by rewrite lookup_insert_ne, app_nil_r.
Qed.
Lemma last_keyed_map (m : gmap string string) k : snd <$> last (keyed k (map_to_list m)) = m !! k.
Proof.
  destruct (last (keyed k (map_to_list m))) as [[k' v]|] eqn:El.
  - apply last_Some_elem_of in El. apply list_elem_of_In, filter_In in El as [Hin Hk].
    apply bool_decide_eq_true in Hk. cbn in Hk. subst k'.
    apply list_elem_of_In, elem_of_map_to_list in Hin. by rewrite Hin.
  - apply last_None in El. destruct (m !! k) as [v|] eqn:Em; [|done]. exfalso.
    apply elem_of_map_to_list, list_elem_of_In in Em.
    assert (In (k, v) (keyed k (map_to_list m))) as Hin
      by (apply filter_In; split; [done|by apply bool_decide_eq_true]).
    by rewrite El in Hin.
Qed.
Lemma stringMap_sorted (m : gmap string string) :
  stringMap (map (λ p, (p.1, JStr p.2)) (sortedMap (map_to_list m))) = m.
Proof.
  apply map_eq. intros k. rewrite <- (last_keyed_map m k), <- last_keyed_sortedMap, <- foldl_insert_lookup.
  unfold stringMap. f_equal. generalize (∅ : gmap string string).
  induction (sortedMap (map_to_list m)) as [|p l IH]; intros m'; [done|]. cbn. apply IH.
Qed.
Lemma mapMember_object m : mapMember m =
  objectMember ((λ m', map (λ p, (p.1, JStr p.2)) (sortedMap (map_to_list m'))) <$> nonEmptyMap m).
Proof.
  unfold mapMember, nonEmptyMap. destruct m as [m|]; [|done]. cbn. case_bool_decide as E.
  - subst m. by rewrite map_to_list_empty.
  - destruct (map_to_list m) as [|p l] eqn:El; [by apply map_to_list_empty_iff in El|]. cbn. by rewrite El.
Qed.
Lemma stringMap_nonEmpty m :
  stringMap <$> ((λ m', map (λ p, (p.1, JStr p.2)) (sortedMap (map_to_list m'))) <$> nonEmptyMap m) =
  nonEmptyMap m.
Proof. destruct (nonEmptyMap m); [|done]. cbn. by rewrite stringMap_sorted. Qed.

(** ** What is read of what was written *)

(** Messages of third parties: written again they are messages of the same type, and an
    address is read as it was written. *)
Class MessageLaws `{MessageCodec} := {
  remarshal_object ms : ∃ ms', remarshal (JObj ms) = JObj ms';
  remarshal_kind fs v : hasKind (KStruct fs) v = true → hasKind (KStruct fs) (remarshal v) = true;
  remarshal_printable v : printable v = true → printable (remarshal v) = true;
  marshalIpMapping_read a : decodeIpMapping (marshalIpMapping a) = Some a;
  marshalIpMapping_kind a :
    hasKind (KStruct (strings ["ipAddress"; "timeToRetire"; "type"])) (marshalIpMapping a) = true;
  marshalIpMapping_printable a : printable (marshalIpMapping a) = true
}.

Definition int64 (z : Z) : Prop := (- 2 ^ 63 ≤ z < 2 ^ 63)%Z.
Ltac in_table := repeat first [apply list_elem_of_here | apply list_elem_of_further].
Ltac distinct := apply (bool_decide_unpack _); vm_compute; reflexivity.
(** Replaces the fields read from a table by what was put there. *)
Ltac read_field :=
  match goal with
  | |- context [stringField ?F (present ?t) ?f] =>
      rewrite (stringField_present F t ltac:(distinct) eq_refl f _ ltac:(in_table))
  | |- context [boolField ?F (present ?t) ?f] =>
      rewrite (boolField_present F t ltac:(distinct) eq_refl f _ ltac:(in_table))
  | |- context [objectField ?F (present ?t) ?f] =>
      rewrite (objectField_present F t ltac:(distinct) eq_refl f _ ltac:(in_table))
  | |- context [listField ?F (present ?t) ?f] =>
      rewrite (listField_present F t ltac:(distinct) eq_refl f _ ltac:(in_table))
  | |- context [intField ?F (present ?t) ?f] =>
      rewrite (intField_present F t ltac:(distinct) eq_refl f _ ltac:(in_table)) by done
  | |- context [intPtrField ?F (present ?t) ?f] =>
      rewrite (intPtrField_present F t ltac:(distinct) eq_refl f _ ltac:(in_table)) by done
  end.

(** *** Members that are well typed *)

Definition typed (k : jkind) (ov : option json) : Prop :=
  ∀ v, ov = Some v → nonNull v = Some v ∧ hasKind k v = true ∧ printable v = true.
(** A message or a list of messages. *)
Definition messageKind (k : jkind) : bool :=
  match k with KStruct _ | KSlice (KStruct _) => true | _ => false end.
Lemma typed_string s : typed KString (stringMember s).
Proof. unfold stringMember. intros v. case_bool_decide; [done|]. by intros [= <-]. Qed.
Lemma typed_num z : int64 z → hasKind KInt64 (JNum (itoa z)) = true.
Proof. intros Hz. cbn. by rewrite ParseInt64_itoa. Qed.
Lemma typed_int z : int64 z → typed KInt64 (intMember z).
Proof.
  unfold intMember. intros Hz v. case_bool_decide; [done|]. intros [= <-].
  split_and!; [done|by apply typed_num|apply printable_itoa].
Qed.
Lemma typed_intPtr p : (∀ z, p = Some z → int64 z) → typed KInt64 (intPtrMember p).
Proof.
  destruct p as [z|]; [|done]. intros Hz v [= <-].
  split_and!; [done|by apply typed_num, Hz|apply printable_itoa].
Qed.
Lemma typed_bool p : typed KBool (boolPtrMember p).
Proof. destruct p; [|done]. by intros v [= <-]. Qed.
Definition typedObject (F : list (string * jkind)) (ms : list (string * json)) : Prop :=
  hasKind (KStruct F) (JObj ms) = true ∧ printable (JObj ms) = true.
Lemma typed_object {A} F (enc : A → list (string * json)) p :
  (∀ x, p = Some x → typedObject F (enc x)) → typed (KStruct F) (objectMember (enc <$> p)).
Proof. destruct p as [x|]; [|done]. intros Hx v [= <-]. by destruct (Hx x eq_refl). Qed.
Lemma typed_map m : typed (KMap KString) (mapMember m).
Proof.
  rewrite mapMember_object. destruct (nonEmptyMap m) as [m'|]; [|done]. intros v [= <-].
  split; [done|]. cbn. split; apply forallb_forall; intros x (p & <- & _)%in_map_iff; done.
Qed.
Lemma typed_list {A} k (f : A → json) l :
  (∀ x, hasKind k (f x) = true ∧ printable (f x) = true) →
  typed (KSlice k) (listMember (map f <$> l)).
Proof.
  intros Hf. destruct l as [[|x l]|]; [done| |done]. intros v [= <-]. split; [done|].
  split; apply (forallb_forall _ (map f (x :: l))); intros y (z & <- & _)%in_map_iff; apply Hf.
Qed.

Section Encoded.
Context `{MessageLaws}.

Lemma typed_message k ov : messageKind k = true → typed k ov → typed k (messageMember ov).
Proof.
  intros Hk Ht. destruct ov as [v|]; [|done]. destruct (Ht v eq_refl) as (Hn & Hv & Hp). clear Ht.
  destruct v as [|b|l|s|l|ms]; try (by destruct k as [| | |e|e|fs]; try discriminate Hk; try destruct e).
  - destruct k as [| | |[| | |e|e|fs]|e|fs]; try discriminate Hk; try discriminate Hv.
    destruct l as [|w l]; [done|]. intros v [= <-]. split; [done|].
    change (forallb (hasKind (KStruct fs)) (w :: l) = true) in Hv.
    change (forallb printable (w :: l) = true) in Hp. rewrite forallb_forall in Hv, Hp.
    split; apply (forallb_forall _ (map messageElement (w :: l))); intros y (z & <- & Hz)%in_map_iff.
    + specialize (Hv z Hz). destruct z; try done; by apply (remarshal_kind fs).
    + specialize (Hp z Hz). destruct z; try done; by apply remarshal_printable.
  - destruct k as [| | |e|e|fs]; try discriminate Hk; try discriminate Hv.
    intros v [= <-]. split_and!; [|by apply remarshal_kind|by apply remarshal_printable].
    by destruct (remarshal_object ms) as (ms' & ->).
Qed.

(** A table with the fields of a type, each well typed. *)
Definition row (p : string * jkind) (q : string * option json) : Prop :=
  p.1 = q.1 ∧ typed p.2 q.2.
Lemma rows_typed F table : NoDup (map fst F) → Forall2 row F table → typedObject F (present table).
Proof.
  intros Hnd Hr.
  assert (map fst table = map fst F) as Ht.
  { clear Hnd. induction Hr as [|p q F table [Hp _] _ IH]; [done|]. cbn. by rewrite Hp, IH. }
  assert (∀ f k v, (f, k) ∈ F → (f, Some v) ∈ table → hasKind k v = true ∧ printable v = true) as Hv.
  { clear Ht. intros f k v Hf Hg. induction Hr as [|[f1 k1] [f2 o] F table [Hp Hq] Hr IH].
    { by apply not_elem_of_nil in Hf. }
    cbn in Hp, Hq, Hnd. subst f2. apply NoDup_cons in Hnd as [Hno Hnd].
    assert (map fst table = map fst F) as Ht.
    { clear -Hr. induction Hr as [|p q F table [Hp _] _ IH]; [done|]. cbn. by rewrite Hp, IH. }
    apply elem_of_cons in Hf as [Hf|Hf], Hg as [Hg|Hg]; try injection Hf as -> ->;
      try injection Hg; intros; subst.
    - by destruct (Hq v eq_refl).
    - destruct Hno. rewrite <- Ht. exact (elem_of_fst _ _ Hg).
    - destruct Hno. exact (elem_of_fst _ _ Hf).
    - by apply IH. }
  split.
  - apply present_hasKind; [done|done|]. intros f k v Hf Hg. by apply (Hv f).
  - apply present_printable. intros f v Hg.
    assert (f ∈ map fst F) as Hf by (rewrite <- Ht; exact (elem_of_fst _ _ Hg)).
    apply list_elem_of_In, in_map_iff in Hf as ([f' k] & <- & Hf).
    apply list_elem_of_In in Hf. by apply (Hv f' k).
Qed.
End Encoded.

(** ** The types of gcpiface

    What is read of a message that was written: third-party messages are those written
    again, an empty slice or map is nil. *)
Definition fieldKindOf (F : list (string * jkind)) (f : string) : jkind :=
  match List.find (λ p, bool_decide (p.1 = f)) F with Some p => p.2 | None => KBool end.
Section Types.
Context `{MessageLaws}.

Definition normalIp (i : IpConfiguration) : IpConfiguration :=
  {| IC_AllocatedIpRange := IC_AllocatedIpRange i;
     IC_AuthorizedNetworks := messageMember (IC_AuthorizedNetworks i);
     IC_Ipv4Enabled := IC_Ipv4Enabled i; IC_PrivateNetwork := IC_PrivateNetwork i;
     IC_RequireSsl := IC_RequireSsl i |}.
Definition normalSettings (s : Settings) : Settings :=
  {| ST_ActivationPolicy := ST_ActivationPolicy s;
     ST_AvailabilityType := ST_AvailabilityType s;
     ST_BackupConfiguration := ST_BackupConfiguration s; ST_Collation := ST_Collation s;
     ST_ConnectorEnforcement := ST_ConnectorEnforcement s;
     ST_CrashSafeReplicationEnabled := ST_CrashSafeReplicationEnabled s;
     ST_DataDiskSizeGb := ST_DataDiskSizeGb s; ST_DataDiskType := ST_DataDiskType s;
     ST_DatabaseFlags := messageMember (ST_DatabaseFlags s);
     ST_DatabaseReplicationEnabled := ST_DatabaseReplicationEnabled s;
     ST_DeletionProtectionEnabled := ST_DeletionProtectionEnabled s;
     ST_DenyMaintenancePeriods := messageMember (ST_DenyMaintenancePeriods s);
     ST_InsightsConfig := messageMember (ST_InsightsConfig s);
     ST_IpConfiguration := normalIp <$> ST_IpConfiguration s; ST_Kind := ST_Kind s;
     ST_LocationPreference := messageMember (ST_LocationPreference s);
     ST_MaintenanceWindow := ST_MaintenanceWindow s;
     ST_PasswordValidationPolicy := messageMember (ST_PasswordValidationPolicy s);
     ST_PricingPlan := ST_PricingPlan s; ST_ReplicationType := ST_ReplicationType s;
     ST_SettingsVersion := ST_SettingsVersion s;
     ST_StorageAutoResize := ST_StorageAutoResize s;
     ST_StorageAutoResizeLimit := ST_StorageAutoResizeLimit s; ST_Tier := ST_Tier s;
     ST_UserLabels := nonEmptyMap (ST_UserLabels s) |}.
Definition normalInstance (d : DatabaseInstance) : DatabaseInstance :=
  {| DBI_ConnectionName := DBI_ConnectionName d; DBI_DatabaseVersion := DBI_DatabaseVersion d;
     DBI_DiskEncryptionConfiguration := messageMember (DBI_DiskEncryptionConfiguration d);
     DBI_FailoverReplica := DBI_FailoverReplica d; DBI_GceZone := DBI_GceZone d;
     DBI_InstanceType := DBI_InstanceType d;
     DBI_IpAddresses := nonEmpty (DBI_IpAddresses d); DBI_Kind := DBI_Kind d;
     DBI_MaintenanceVersion := DBI_MaintenanceVersion d;
     DBI_MasterInstanceName := DBI_MasterInstanceName d;
     DBI_MaxDiskSize := DBI_MaxDiskSize d; DBI_Name := DBI_Name d;
     DBI_Project := DBI_Project d; DBI_Region := DBI_Region d;
     DBI_ReplicaNames := nonEmpty (DBI_ReplicaNames d);
     DBI_RootPassword := DBI_RootPassword d;
     DBI_SecondaryGceZone := DBI_SecondaryGceZone d; DBI_SelfLink := DBI_SelfLink d;
     DBI_ServerCaCert := messageMember (DBI_ServerCaCert d);
     DBI_Settings := normalSettings <$> DBI_Settings d |}.

(** Values that decoding yields: integers of 64 bits, third-party messages of their type. *)
Definition okRetention (b : BackupRetentionSettings) : Prop := int64 (BRS_RetainedBackups b).
Definition okBackup (b : BackupConfiguration) : Prop :=
  int64 (BC_TransactionLogRetentionDays b) ∧ ∀ r, BC_BackupRetentionSettings b = Some r → okRetention r.
Definition okIp (i : IpConfiguration) : Prop :=
  typed (fieldKindOf IpConfigurationFields "authorizedNetworks") (IC_AuthorizedNetworks i).
Definition okWindow (w : MaintenanceWindow) : Prop :=
  (∀ z, MW_Day w = Some z → int64 z) ∧ ∀ z, MW_Hour w = Some z → int64 z.
Definition okSettings (s : Settings) : Prop :=
  int64 (ST_DataDiskSizeGb s) ∧
  typed (fieldKindOf SettingsFields "databaseFlags") (ST_DatabaseFlags s) ∧
  typed (fieldKindOf SettingsFields "denyMaintenancePeriods") (ST_DenyMaintenancePeriods s) ∧
  typed (fieldKindOf SettingsFields "insightsConfig") (ST_InsightsConfig s) ∧
  typed (fieldKindOf SettingsFields "locationPreference") (ST_LocationPreference s) ∧
  typed (fieldKindOf SettingsFields "passwordValidationPolicy") (ST_PasswordValidationPolicy s) ∧
  int64 (ST_SettingsVersion s) ∧
  int64 (ST_StorageAutoResizeLimit s) ∧
  (∀ b, ST_BackupConfiguration s = Some b → okBackup b) ∧
  (∀ i, ST_IpConfiguration s = Some i → okIp i) ∧
  (∀ w, ST_MaintenanceWindow s = Some w → okWindow w).
Definition okInstance (d : DatabaseInstance) : Prop :=
  typed (fieldKindOf DatabaseInstanceFields "diskEncryptionConfiguration") (DBI_DiskEncryptionConfiguration d) ∧
  int64 (DBI_MaxDiskSize d) ∧
  typed (fieldKindOf DatabaseInstanceFields "serverCaCert") (DBI_ServerCaCert d) ∧
  (∀ s, DBI_Settings d = Some s → okSettings s).

(** *** What is written is well typed *)

Ltac member :=
  lazymatch goal with
  | |- typed _ (stringMember _) => apply typed_string
  | |- typed _ (boolPtrMember _) => apply typed_bool
  | |- typed _ (intMember _) => apply typed_int; assumption
  | |- typed _ (intPtrMember _) => apply typed_intPtr; assumption
  | |- typed _ (mapMember _) => apply typed_map
  | |- typed _ (messageMember _) => apply typed_message; [reflexivity|assumption]
  | |- typed _ (objectMember _) => apply typed_object; eauto
  | |- typed _ (listMember _) => apply typed_list
  end.
Ltac rows := apply rows_typed; [distinct|];
  repeat (apply Forall2_cons; split; [split; [reflexivity|cbn [snd]; member]|]); try apply Forall2_nil_2.

Lemma encodeRetention_typed b : okRetention b → typedObject BackupRetentionFields (encodeBackupRetention b).
Proof. intros Hb. unfold encodeBackupRetention. unfold okRetention in Hb. rows. Qed.
Lemma encodeFailover_typed r : typedObject FailoverReplicaFields (encodeFailoverReplica r).
Proof. unfold encodeFailoverReplica. rows. Qed.
Lemma encodeBackup_typed b : okBackup b → typedObject BackupConfigurationFields (encodeBackupConfiguration b).
Proof. intros [Hb Hr]. unfold encodeBackupConfiguration. rows. eauto using encodeRetention_typed. Qed.
Lemma encodeIp_typed i : okIp i → typedObject IpConfigurationFields (encodeIpConfiguration i).
Proof. intros Hi. unfold okIp in Hi. unfold encodeIpConfiguration. rows. Qed.
Lemma encodeWindow_typed w : okWindow w → typedObject MaintenanceWindowFields (encodeMaintenanceWindow w).
Proof. intros [Hd Hh]. unfold encodeMaintenanceWindow. rows. Qed.
Lemma encodeSettings_typed s : okSettings s → typedObject SettingsFields (encodeSettings s).
Proof.
  intros (? & ? & ? & ? & ? & ? & ? & ? & Hb & Hi & Hw). unfold encodeSettings. rows;
    eauto using encodeBackup_typed, encodeIp_typed, encodeWindow_typed.
Qed.
Lemma encodeInstance_typed d : okInstance d → typedObject DatabaseInstanceFields (encodeDatabaseInstance d).
Proof.
  intros (? & ? & ? & Hs). unfold encodeDatabaseInstance. rows;
    eauto using encodeFailover_typed, encodeSettings_typed.
  intros [a|]; [|done]. split; [apply marshalIpMapping_kind|apply marshalIpMapping_printable].
Qed.

(** *** It is read as it was written *)

(** A message that is read as what it was written as. *)
Ltac read_message :=
  match goal with
  | |- context [jsonField ?F (present ?t) ?f] =>
      rewrite (jsonField_present F t ltac:(distinct) eq_refl f _ ltac:(in_table))
        by (intros ? Hread; eapply typed_message in Hread; [apply Hread| |eassumption]; reflexivity)
  end.

Lemma decode_encodeRetention b :
  okRetention b → decodeBackupRetention (encodeBackupRetention b) = b.
Proof.
  intros Hb. unfold decodeBackupRetention, encodeBackupRetention. cbv zeta. repeat read_field.
  by destruct b.
Qed.
Lemma decode_encodeFailover r : decodeFailoverReplica (encodeFailoverReplica r) = r.
Proof. unfold decodeFailoverReplica, encodeFailoverReplica. cbv zeta. repeat read_field. by destruct r. Qed.
Lemma decode_fmap {A} (dec : list (string * json) → A) enc norm (p : option A) :
  (∀ x, p = Some x → dec (enc x) = norm x) → dec <$> (enc <$> p) = norm <$> p.
Proof. destruct p as [x|]; [|done]. intros Hx. cbn. by rewrite Hx. Qed.
Lemma decode_encodeBackup b :
  okBackup b → decodeBackupConfiguration (encodeBackupConfiguration b) = b.
Proof.
  intros [Hb Hr]. unfold decodeBackupConfiguration, encodeBackupConfiguration. cbv zeta.
  repeat read_field. rewrite (decode_fmap _ _ id) by eauto using decode_encodeRetention.
  rewrite option_fmap_id. by destruct b.
Qed.
Lemma decode_encodeIp i : okIp i → decodeIpConfiguration (encodeIpConfiguration i) = normalIp i.
Proof.
  intros Hi. unfold okIp in Hi. unfold decodeIpConfiguration, encodeIpConfiguration. cbv zeta. repeat read_field.
  repeat read_message. done.
Qed.
Lemma decode_encodeWindow w :
  okWindow w → decodeMaintenanceWindow (encodeMaintenanceWindow w) = w.
Proof.
  intros [Hd Hh]. unfold decodeMaintenanceWindow, encodeMaintenanceWindow. cbv zeta.
  repeat read_field. by destruct w.
Qed.
Lemma decode_encodeSettings s : okSettings s → decodeSettings (encodeSettings s) = normalSettings s.
Proof.
  intros (? & ? & ? & ? & ? & ? & ? & ? & Hb & Hi & Hw).
  unfold decodeSettings, encodeSettings. cbv zeta. rewrite mapMember_object.
  repeat read_field. repeat read_message.
  rewrite (decode_fmap decodeBackupConfiguration _ id) by eauto using decode_encodeBackup.
  rewrite (decode_fmap decodeIpConfiguration _ normalIp) by eauto using decode_encodeIp.
  rewrite (decode_fmap decodeMaintenanceWindow _ id) by eauto using decode_encodeWindow.
  rewrite !option_fmap_id, stringMap_nonEmpty. done.
Qed.
Lemma read_list {A} (dec : json → A) enc (l : option (list A)) :
  (∀ x, dec (enc x) = x) →
  map dec <$> nonEmpty (map enc <$> l) = nonEmpty l.
Proof.
  intros Hx. destruct l as [[|x l]|]; [done| |done]. cbn. rewrite Hx, map_map. do 2 f_equal.
  induction l as [|y l IH]; [done|]. cbn. by rewrite Hx, IH.
Qed.
Lemma decode_encodeInstance d :
  okInstance d → decodeDatabaseInstance (encodeDatabaseInstance d) = normalInstance d.
Proof.
  intros (? & ? & ? & Hs). unfold decodeDatabaseInstance, encodeDatabaseInstance. cbv zeta.
  repeat read_field. repeat read_message.
  rewrite (decode_fmap decodeFailoverReplica _ id) by eauto using decode_encodeFailover.
  rewrite (decode_fmap decodeSettings _ normalSettings) by eauto using decode_encodeSettings.
  rewrite option_fmap_id, !read_list; [done|done|].
  intros [a|]; [apply marshalIpMapping_read|done].
Qed.
End Types.

(** *** What is decoded is of this kind *)

Lemma asInt64_range v z : asInt64 v = Some z → int64 z.
Proof. destruct v as [[]|]; try done. cbn. by apply ParseInt64_range. Qed.
Lemma intField_int64 F ms f : int64 (intField F ms f).
Proof.
  unfold intField. destruct (last _) as [z|] eqn:El; [|done]. cbn.
  apply last_Some_elem_of, list_elem_of_omap in El as (v & _ & Hv). by eapply asInt64_range.
Qed.
Section Decoded.
Context (F : list (string * jkind)) (ms : list (string * json)).
Context (Hnd : NoDup (map fst F)) (Hms : typedObject F ms).
Lemma jsonField_typed f k : (f, k) ∈ F → typed k (jsonField F ms f).
Proof.
  intros Hf v Hv. destruct Hms as [Hk Hp]. split_and!.
  - by eapply fieldValue_nonNull.
  - by eapply fieldValue_hasKind.
  - by eapply printable_fieldValue.
Qed.
Lemma membersOf_typed f k v : (f, k) ∈ F → v ∈ membersOf F ms f → hasKind k v = true ∧ printable v = true.
Proof.
  intros Hf Hv. destruct Hms as [Hk Hp]. unfold membersOf in Hv.
  apply list_elem_of_In, in_map_iff in Hv as ([g w] & <- & [Hin Hg]%filter_In).
  apply bool_decide_eq_true in Hg. cbn in Hg. rewrite hasKind_struct, forallb_forall in Hk.
  change (forallb (λ m, printable m.2) ms = true) in Hp. rewrite forallb_forall in Hp.
  specialize (Hk _ Hin). cbn in Hk. rewrite Hg in Hk. rewrite (fieldKind_In _ _ k) in Hk by done.
  split; [done|]. apply (Hp _ Hin).
Qed.
Lemma objectField_typed f G ms' :
  (f, KStruct G) ∈ F → objectField F ms f = Some ms' → typedObject G ms'.
Proof.
  intros Hf. unfold objectField, objectFieldFrom.
  assert (∀ v, v ∈ membersOf F ms f → hasKind (KStruct G) v = true ∧ printable v = true) as Hv
    by (intros v; by apply membersOf_typed).
  assert (∀ init, (∀ x, init = Some x → typedObject G x) →
    fold_left mergeObject (membersOf F ms f) init = Some ms' → typedObject G ms') as Hgen;
    [|by apply Hgen].
  revert Hv. generalize (membersOf F ms f) as l. clear. intros l.
  induction l as [|v l IH]; intros Hv init Hi; cbn [fold_left]; [by apply Hi|].
  apply IH; [intros w Hw; apply Hv; by constructor 2|].
  destruct (Hv v ltac:(by constructor)) as [Hk Hp].
  destruct v as [|b|n|s|a|vs]; cbn [mergeObject]; try done. intros x [= <-].
  assert (typedObject G (default [] init)) as [H1 H2] by (destruct init; [by apply Hi|done]).
  unfold typedObject in *. rewrite hasKind_struct in *. cbn [printable] in *.
  by rewrite !forallb_app, H1, H2, Hk, Hp.
Qed.
End Decoded.

Ltac fields := first [apply intField_int64 | eapply jsonField_typed; [distinct|done|in_table]].
Lemma decodeOption {A} (P : A → Prop) (dec : list (string * json) → A) p :
  (∀ ms, p = Some ms → P (dec ms)) → ∀ x, dec <$> p = Some x → P x.
Proof. destruct p as [ms|]; [|done]. intros Hp x [= <-]. by apply Hp. Qed.
Lemma decodeBackup_ok ms : okBackup (decodeBackupConfiguration ms).
Proof.
  split; [fields|]. apply (decodeOption okRetention). intros ms' _. unfold okRetention. fields.
Qed.
Lemma decodeWindow_ok ms : okWindow (decodeMaintenanceWindow ms).
Proof. split; intros z Hz; exact (asInt64_range _ _ Hz). Qed.
Lemma decodeIp_ok ms : typedObject IpConfigurationFields ms → okIp (decodeIpConfiguration ms).
Proof. intros Hms. unfold okIp. fields. Qed.
Lemma decodeSettings_ok ms : typedObject SettingsFields ms → okSettings (decodeSettings ms).
Proof.
  intros Hms. unfold okSettings. split_and!; try fields.
  - apply (decodeOption okBackup). intros ms' _. apply decodeBackup_ok.
  - apply (decodeOption okIp). intros ms' Hm. apply decodeIp_ok.
    eapply (objectField_typed SettingsFields); [distinct|exact Hms| |exact Hm]. in_table.
  - apply (decodeOption okWindow). intros ms' _. apply decodeWindow_ok.
Qed.
Lemma decodeInstance_ok ms : typedObject DatabaseInstanceFields ms → okInstance (decodeDatabaseInstance ms).
Proof.
  intros Hms. unfold okInstance. split_and!; try fields.
  apply (decodeOption okSettings). intros ms' Hm. apply decodeSettings_ok.
  eapply (objectField_typed DatabaseInstanceFields); [distinct|exact Hms| |exact Hm]. in_table.
Qed.

(** ** The windows of a request *)

Lemma int64_small z : (0 ≤ z < 24)%Z → int64 z.
Proof. unfold int64. lia. Qed.
Lemma Time_Hour_small t : (0 ≤ Time_Hour t < 24)%Z.
Proof.
  unfold Time_Hour. pose proof (Z.mod_pos_bound t 86400 ltac:(lia)).
  split; [apply Z.div_pos; lia|apply Z.div_lt_upper_bound; lia].
Qed.
Lemma gcpDay_int64 tc : int64 (Day (MaintenanceStartTime tc)) → int64 (gcpDay tc).
Proof. intros Hd. unfold gcpDay. by case_bool_decide. Qed.
Lemma emptyInstance_ok : okInstance emptyInstance.
Proof. by apply decodeInstance_ok. Qed.
Lemma emptySettings_ok : okSettings emptySettings.
Proof. by apply decodeSettings_ok. Qed.
Lemma reconcileWindow_ok day hour w :
  int64 day → int64 hour → (∀ w', w = Some w' → okWindow w') →
  ∀ w', reconcileWindow day hour w = Some w' → okWindow w'.
Proof.
  intros Hd Hh Hw w'. assert (okWindow (newMaintenanceWindow day hour)) as Hnew.
  { split; by intros z [= <-]. }
  unfold reconcileWindow. destruct w as [w|]; [destruct (_ || _)|]; intros [= <-]; try done.
  by apply Hw.
Qed.
Lemma reconcileBackup_ok start b :
  (∀ b', b = Some b' → okBackup b') → ∀ b', reconcileBackup start b = Some b' → okBackup b'.
Proof.
  intros Hb b'. unfold reconcileBackup.
  destruct b as [b|]; [case_bool_decide|]; intros [= <-]; try (by split); by apply Hb.
Qed.
Lemma postgresWindows_ok tc instance :
  int64 (Day (MaintenanceStartTime tc)) → (∀ d, instance = Some d → okInstance d) →
  okInstance (postgresWindows tc instance).
Proof.
  intros Hd Hi. unfold postgresWindows.
  assert (okInstance (default emptyInstance instance)) as (Hde & Hm & Hc & Hs)
    by (destruct instance; [by apply Hi|apply emptyInstance_ok]).
  set (d := default emptyInstance instance) in *.
  assert (okSettings (default emptySettings (DBI_Settings d))) as Hok
    by (destruct (DBI_Settings d); [by apply Hs|apply emptySettings_ok]).
  split_and!; [done|done|done|]. intros s [= <-].
  destruct Hok as (? & ? & ? & ? & ? & ? & ? & ? & Hb & Hip & Hw). split_and!; try done.
  - by apply reconcileBackup_ok.
  - apply reconcileWindow_ok; [by apply gcpDay_int64|apply int64_small, Time_Hour_small|done].
Qed.

(** The window and the start of the backups that a request has. *)
Definition hasTimes (tc : StrategyTimeConfig) (d : DatabaseInstance) : Prop :=
  ∃ s w b, DBI_Settings d = Some s ∧ ST_MaintenanceWindow s = Some w ∧
    MW_Day w = Some (gcpDay tc) ∧ MW_Hour w = Some (Time_Hour (Time (MaintenanceStartTime tc))) ∧
    ST_BackupConfiguration s = Some b ∧ BC_StartTime b = backupStart tc.
Lemma reconcileWindow_times day hour w :
  (0 ≤ day)%Z → (0 ≤ hour)%Z → ∃ w', reconcileWindow day hour w = Some w' ∧
    MW_Day w' = Some day ∧ MW_Hour w' = Some hour.
Proof.
  intros Hd0 Hh0. unfold reconcileWindow. destruct w as [w|]; [|by eexists].
  destruct (bool_decide_reflect (default (-1)%Z (MW_Day w) ≠ day)) as [?|Hd]; [by eexists|].
  destruct (bool_decide_reflect (default (-1)%Z (MW_Hour w) ≠ hour)) as [?|Hh]; [by eexists|].
  apply dec_stable in Hd, Hh. exists w. split; [done|].
  destruct (MW_Day w), (MW_Hour w); cbn in *; subst; split; try done; lia.
Qed.
Lemma reconcileBackup_start start b : ∃ b', reconcileBackup start b = Some b' ∧ BC_StartTime b' = start.
Proof.
  unfold reconcileBackup. destruct b as [b|]; [|by eexists].
  destruct (bool_decide_reflect (BC_StartTime b ≠ start)) as [?|Hb]; [by eexists|].
  apply dec_stable in Hb. by exists b.
Qed.
Definition weekday (tc : StrategyTimeConfig) : Prop := (0 ≤ Day (MaintenanceStartTime tc) ≤ 6)%Z.
Lemma gcpDay_weekday tc : weekday tc → (1 ≤ gcpDay tc ≤ 7)%Z.
Proof.
  unfold weekday, gcpDay, Sunday. intros Hd.
  destruct (bool_decide_reflect (Day (MaintenanceStartTime tc) ≠ 0%Z)); lia.
Qed.

Section Read.
Context `{MessageLaws}.
Lemma postgresWindows_times tc instance :
  weekday tc → hasTimes tc (normalInstance (postgresWindows tc instance)).
Proof.
  intros Hd. pose proof (gcpDay_weekday tc Hd) as Hg.
  pose proof (Time_Hour_small (Time (MaintenanceStartTime tc))) as Hh.
  unfold hasTimes, postgresWindows. cbn -[Time_Hour reconcileWindow reconcileBackup].
  match goal with |- context [reconcileWindow ?d ?h ?w] =>
    destruct (reconcileWindow_times d h w ltac:(lia) ltac:(lia)) as (w' & Ew & Hwd & Hwh) end.
  match goal with |- context [reconcileBackup ?s ?b] =>
    destruct (reconcileBackup_start s b) as (b' & Eb & Hb) end.
  eexists _, w', b'. split; [reflexivity|]. by cbn -[Time_Hour reconcileWindow reconcileBackup].
Qed.

(** What the provider reads of an updated strategy. *)
Lemma updatePostgres_read tc raw raw' :
  weekday tc → printableRaw raw → updatePostgres tc raw = Val raw' →
  ∃ members members', unmarshalStruct CreateInstanceRequestFields raw = Ok members ∧
    unmarshalStruct CreateInstanceRequestFields (Some raw') = Ok members' ∧
    printable raw' = true ∧
    decodeCreateInstanceRequest None members' =
      Some (normalInstance (postgresWindows tc (decodeCreateInstanceRequest None members))).
Proof.
  intros Hd Hp. unfold updatePostgres.
  destruct (unmarshalStruct CreateInstanceRequestFields raw) as [members|] eqn:Eu; [|done].
  intros [= <-]. exists members.
  assert (typedObject CreateInstanceRequestFields members) as Hm.
  { split; [by eapply unmarshalStruct_members|].
    exact (unmarshalStruct_printable CreateInstanceRequestFields raw members Eu Hp). }
  set (d := postgresWindows tc (decodeCreateInstanceRequest None members)).
  assert (okInstance d) as Hok.
  { apply postgresWindows_ok; [unfold weekday, int64 in *; lia|].
    apply (decodeOption okInstance). intros ms Hms. apply decodeInstance_ok.
    eapply (objectField_typed CreateInstanceRequestFields members ltac:(distinct) Hm "instance");
      [|exact Hms]. in_table. }
  set (table := [("instance", objectMember (encodeDatabaseInstance <$> Some d))]).
  assert (typedObject CreateInstanceRequestFields (present table)) as [Hk Hpr].
  { apply rows_typed; [distinct|]. apply Forall2_cons; split; [|by apply Forall2_nil_2].
    split; [done|]. apply typed_object. intros x [= <-]. by apply encodeInstance_typed. }
  exists (present table). split; [done|]. split.
  - unfold unmarshalStruct, encodeCreateInstanceRequest. fold table. by rewrite Hk.
  - split; [exact Hpr|]. unfold decodeCreateInstanceRequest.
    change (objectFieldFrom CreateInstanceRequestFields (present table) None "instance")
      with (objectField CreateInstanceRequestFields (present table) "instance").
    rewrite (objectField_present CreateInstanceRequestFields table ltac:(distinct) eq_refl
      "instance" (Some (encodeDatabaseInstance d))) by in_table.
    cbn [fmap option_fmap option_map]. by rewrite decode_encodeInstance.
Qed.
End Read.

(** ** The mapping of tiers, printed and read again *)

Local Notation unmarshalStrategies := (unmarshalMappingOf decodeStrategyConfig).
Definition reread (s : StrategyConfig) : StrategyConfig :=
  {| Strategy_Region := Strategy_Region s; Strategy_ProjectID := Strategy_ProjectID s;
     Strategy_CreateStrategy := Some (default JNull (Strategy_CreateStrategy s));
     Strategy_DeleteStrategy := Some (default JNull (Strategy_DeleteStrategy s)) |}.
Definition rereadMap (l : list (string * option StrategyConfig)) :=
  map (λ p, (p.1, reread <$> p.2)) l.
Definition printableStrategy (s : option StrategyConfig) : Prop :=
  match s with
  | None => True
  | Some s => printableRaw (Strategy_CreateStrategy s) ∧ printableRaw (Strategy_DeleteStrategy s)
  end.
Lemma unmarshal_marshalStrategies l :
  (∀ p, p ∈ l → printableStrategy p.2) →
  unmarshalStrategies (marshalMapping l) = Ok (rereadMap (sortedMap l)).
Proof.
  intros Hp. unfold unmarshalMappingOf, marshalMapping. rewrite parse_marshal.
  - assert (∀ l', decodeMappingOf decodeStrategyConfig (map (λ p, (p.1, marshalStrategy p.2)) l') =
      Some (rereadMap l')) as ->; [|done].
    induction l' as [|[k [s|]] l' IH]; [done|..]; cbn; by rewrite IH.
  - cbn. apply forallb_forall. intros x ([k s] & <- & Hin)%in_map_iff. cbn.
    apply list_elem_of_In, sortedMap_elem, Hp in Hin. destruct s as [s|]; [|done].
    destruct Hin as [H1 H2]. unfold printableRaw in *. cbn. by rewrite H1, H2.
Qed.
Lemma rawFieldOf_printable fields members f :
  forallb (λ m, printable m.2) members = true → printableRaw (rawFieldOf fields members f).
Proof.
  intros Hp. unfold printableRaw, rawFieldOf. rewrite forallb_forall in Hp.
  destruct (last _) as [[g w]|] eqn:El; [|done]. cbn.
  apply last_Some_elem_of, list_elem_of_In, filter_In in El as [El _]. apply (Hp _ El).
Qed.
Lemma unmarshalStrategies_printable config l :
  unmarshalStrategies config = Ok l → ∀ p, p ∈ l → printableStrategy p.2.
Proof.
  unfold unmarshalMappingOf. destruct (parse config) as [v|e] eqn:Ep; [|done].
  apply parse_printable in Ep. destruct v as [| | | | |ms]; try done.
  { intros [= <-] p []%not_elem_of_nil. }
  destruct (decodeMappingOf _ ms) as [l'|] eqn:Ed; [|done]. intros [= <-].
  change (forallb (λ m, printable m.2) ms = true) in Ep. revert l' Ep Ed.
  induction ms as [|[k v] ms IH]; intros l' Hp Hd; cbn in Hd.
  { injection Hd as <-. intros p []%not_elem_of_nil. }
  cbn in Hp. apply andb_true_iff in Hp as [Hv Hp].
  destruct (decodeStrategyConfig v) as [s|] eqn:Es; [|done]. cbn in Hd.
  destruct (decodeMappingOf _ ms) as [r|] eqn:Er; [|done]. injection Hd as <-.
  intros p [->|Hin]%elem_of_cons; [|by eapply IH]. cbn.
  destruct v as [| | | | |vs]; try discriminate Es; [by injection Es as <-|]. cbn in Es, Hv.
  destruct (plainString _ vs "region"); [|done]. destruct (plainString _ vs "projectID"); [|done].
  injection Es as <-. split; by apply rawFieldOf_printable.
Qed.
Lemma lookupTier_reread t l : lookupTier t (rereadMap l) = reread <$> lookupTier t l.
Proof.
  rewrite !lookupTier_last. assert (keyed t (rereadMap l) = rereadMap (keyed t l)) as ->.
  { induction l as [|p l IH]; [done|]. cbn [rereadMap map]. rewrite !keyed_cons. cbn [fst].
    case_bool_decide; [|exact IH]. cbn [rereadMap map]. f_equal. exact IH. }
  unfold rereadMap. rewrite last_map. by destruct (last (keyed t l)).
Qed.

(** What is read of the text that replaced a strategy. *)
Lemma reconcileStrategy_reread kind tier config update out :
  (∀ raw raw', printableRaw raw → update raw = Val raw' → printable raw' = true) →
  reconcileStrategy kind tier config update = Val out →
  ∃ mapping s raw mapping', unmarshalStrategies config = Ok mapping ∧
    lookupTier tier mapping = Some s ∧ printableRaw (Strategy_CreateStrategy s) ∧
    update (Strategy_CreateStrategy s) = Val raw ∧
    unmarshalStrategies out = Ok mapping' ∧
    lookupTier tier mapping' = Some (reread (setCreateStrategy raw s)) ∧
    ∀ t, t ≠ tier → lookupTier t mapping' = reread <$> lookupTier t mapping.
Proof.
  intros Hu. unfold reconcileStrategy.
  destruct (unmarshalStrategies config) as [mapping|e] eqn:Em; [|done].
  destruct (lookupTier tier mapping) as [s|] eqn:Es; [|done]. cbn.
  destruct (update (Strategy_CreateStrategy s)) as [raw|e|w] eqn:Er; [|done..]. intros [= <-].
  pose proof (unmarshalStrategies_printable _ _ Em) as Hp.
  destruct (Hp _ (lookupTier_elem _ _ _ Es)) as [H1 H2].
  exists mapping, s, raw. eexists. split_and!; [done|done|done|done|..].
  - apply unmarshal_marshalStrategies. intros p [Hin|Hin]%elem_of_app; [by apply Hp|].
    apply list_elem_of_singleton in Hin as ->. cbn.
    split; [exact (Hu _ _ H1 Er)|exact H2].
  - by rewrite lookupTier_reread, lookupTier_sortedMap, lookupTier_snoc, bool_decide_true.
  - intros t Ht.
    by rewrite lookupTier_reread, lookupTier_sortedMap, lookupTier_snoc, bool_decide_false by congruence.
Qed.

Section Strategies.
Context `{MessageLaws}.

End Strategies.
