(* ===== verification/BlobStorageProps.v ===== *)
(** * Properties of the S3 provider

    When a bucket is created and deleted, what a resource with connection details
    can rely on, and when its finalizer goes. *)
From S2P Require Import Prelude Effects GoNet GoStrings Json Api Resources Metrics.
From S2P Require Import Subnets ClusterVpc NetworkProvider NetworkProps AwsConfig AwsPostgres.
From S2P Require Import AwsRedis Controllers BlobStorage Footprints AwsPostgresProps AwsConfigProps.
From S2P Require Import ControllerProps ControllerAws.
Local Open Scope go_scope.

(** ** Which calls the parts make *)

(** Everything but the calls on buckets and on the custom resource. *)
Definition offBucket (c : call) : Prop :=
  match (c : api_call) with
  | CreateBucket _ | DeleteBucket _ | BatchDelete _ | PutPublicAccessBlock _ _ _ _ _
  | PutBucketEncryption _ _ | PutBucketTagging _ _ | UpdateCR _ => False
  | _ => True
  end.
Lemma offBucket_reads : reads_ok offBucket.
Proof. intros c. by destruct c. Qed.
#[local] Hint Resolve offBucket_reads : sat.
#[local] Hint Extern 1 (offBucket _) => exact I : sat.
Lemma credentialCall_offBucket c : credentialCall c → offBucket c.
Proof. by destruct c. Qed.
Lemma metricCall_offBucket c : metricCall c → offBucket c.
Proof. by destruct c; intros []. Qed.

Section Parts.
Context `{ThirdParty} (p : BlobStorageProvider) {S : Type}.
Lemma ro_getS3BucketConfig bs : readonly (getS3BucketConfig (S := S) p bs).
Proof. unfold getS3BucketConfig. go_sat. Qed.
#[local] Hint Resolve ro_getS3BucketConfig : sat.
Lemma ro_buildS3BucketConfig bs : readonly (buildS3BucketConfig (S := S) p bs).
Proof. unfold buildS3BucketConfig. go_sat. Qed.
Lemma ro_getS3buckets : readonly (getS3buckets (S := S)).
Proof. unfold getS3buckets. apply sat_onErr, ro_poll. go_sat. Qed.
Lemma ro_getDefaultS3Tags cr : readonly (getDefaultS3Tags (S := S) cr).
Proof. unfold getDefaultS3Tags. go_sat. Qed.
Lemma ro_getBucketSize cfg : readonly (getBucketSize (S := S) cfg).
Proof. unfold getBucketSize. go_sat. Qed.
Lemma mc_exposeBlobStorageMetrics {E} cr :
  sat metricCall eq (exposeBlobStorageMetrics (S := S) (E := E) cr).
Proof. unfold exposeBlobStorageMetrics. go_sat. Qed.
Lemma ob_exposeBlobStorageMetrics {E} cr :
  sat offBucket eq (exposeBlobStorageMetrics (S := S) (E := E) cr).
Proof. eapply sat_weaken; [apply mc_exposeBlobStorageMetrics|apply metricCall_offBucket]. Qed.
Lemma ob_ReconcileProviderCredentials m ns :
  sat offBucket eq (ReconcileProviderCredentials (S := S) m ns).
Proof. eapply sat_weaken; [apply cc_ReconcileProviderCredentials|apply credentialCall_offBucket]. Qed.
Lemma cc_ReconcileBucketOwnerCredentials m n ns b :
  sat credentialCall eq (ReconcileBucketOwnerCredentials (S := S) m n ns b).
Proof.
  unfold ReconcileBucketOwnerCredentials. destruct m; [|go_sat].
  apply sat_bind; [apply _|apply cc_reconcileCredentials|intros; go_sat].
Qed.
Lemma ob_ReconcileBucketOwnerCredentials m n ns b :
  sat offBucket eq (ReconcileBucketOwnerCredentials (S := S) m n ns b).
Proof. eapply sat_weaken; [apply cc_ReconcileBucketOwnerCredentials|apply credentialCall_offBucket]. Qed.
End Parts.
#[export] Hint Resolve ro_buildS3BucketConfig ro_getS3buckets ro_getDefaultS3Tags
  ro_getBucketSize mc_exposeBlobStorageMetrics ob_exposeBlobStorageMetrics
  ob_ReconcileProviderCredentials cc_ReconcileBucketOwnerCredentials
  ob_ReconcileBucketOwnerCredentials : sat.

(** ** The configuration *)

Section Config.
Context {S : Type} (p : BlobStorageProvider).
Implicit Types (s : S).

(** The completed configuration names a bucket and says whether its deletion is
    forced; its region is never empty. *)
Lemma buildS3BucketConfig_Val bs s tr create delete st s' :
  runs (buildS3BucketConfig p bs s) tr (Val (create, delete, st), s') →
  is_Some (CB_Bucket create) ∧ is_Some (ForceBucketDeletion delete) ∧ Strategy_Region st ≠ "".
Proof.
  intros Hr. unfold buildS3BucketConfig in Hr.
  apply runs_bind_Val in Hr as (t1 & [[c d] st'] & s1 & t2 & -> & H1 & Hr).
  apply runs_onErr_Val in H1. unfold getS3BucketConfig in H1.
  apply runs_bind_Val in H1 as (t3 & st0 & s2 & t4 & -> & _ & H1).
  apply runs_bind_Val in H1 as (t5 & region & s3 & t6 & -> & Hreg & H1).
  apply runs_onErr_Val, GetRegionFromStrategyOrDefault_Val in Hreg as [Hreg _].
  apply runs_bind_Val in H1 as (t7 & cm & s4 & t8 & -> & _ & H1).
  apply runs_bind_Val in H1 as (t9 & dm & s5 & t10 & -> & _ & H1).
  apply runs_mret_Val in H1 as (_ & Est & _). apply (f_equal snd) in Est. cbn [snd] in Est.
  apply runs_bind_Val in Hr as (t11 & name & s6 & t12 & -> & _ & Hr).
  apply runs_mret_Val in Hr as (_ & [= <- <- <-] & _).
  split_and!.
  - destruct c as [[b|] other]; by eexists.
  - destruct d as [[b|]]; by eexists.
  - subst st'. by case_bool_decide.
Qed.

Lemma getS3buckets_Val s tr buckets s' :
  runs (getS3buckets s) tr (Val buckets, s') → Ev ListBuckets (Ok buckets) ∈ tr.
Proof.
  intros Hr. unfold getS3buckets in Hr.
  apply runs_onErr_Val, poll_Val in Hr as (t & s1 & Hs & Hr). apply Hs. clear Hs.
  inv_call Hr. destruct Hr as (r & t' & -> & Hr). destruct r as [l|e].
  - apply runs_mret_Val in Hr as (-> & [= ->] & _). ev_in.
  - by apply runs_mret_Val in Hr as (_ & ? & _).
Qed.

(** ** The settings of a bucket *)

(** All public access is blocked and the content is encrypted. *)
Definition secured (bucket : string) (tr : list event) : Prop :=
  Ev (PutPublicAccessBlock (Some bucket) (Some true) (Some true) (Some true) (Some true)) (Ok tt)
    ∈ tr ∧
  Ev (PutBucketEncryption (Some bucket) (Some "AES256")) (Ok tt) ∈ tr.
Lemma secured_incl bucket t t' : secured bucket t → t ⊆ t' → secured bucket t'.
Proof. intros [H1 H2] Hs. split; by apply Hs. Qed.

Lemma reconcileS3BucketSettings_Val bucket s tr u s' :
  runs (reconcileS3BucketSettings bucket s) tr (Val u, s') → secured bucket tr.
Proof.
  intros Hr. unfold reconcileS3BucketSettings in Hr. run_val Hr.
  repeat match goal with x : unit |- _ => destruct x end. split; ev_in.
Qed.
End Config.

(** ** Creating a bucket *)

Section Create.
Context `{ThirdParty} (p : BlobStorageProvider).
Implicit Types (o : CR).

(** The configuration that [o] completes to. *)
Definition configured (o : CR) (create : CreateBucketInput) (delete : S3DeleteStrat) : Prop :=
  ∃ st t, runs (buildS3BucketConfig p o o) t (Val (create, delete, st), o).

(** The name of the bucket is put on record in an annotation. *)
Definition bucketRecorded (o : CR) (bucket : string) : CR :=
  setMeta o (annotations_Add (CR_Meta o) ResourceIdentifierAnnotation bucket).

Lemma addBucketAnnotation_Val bucket o tr u o' :
  runs (addBucketAnnotation bucket o) tr (Val u, o') →
  Ev (UpdateCR (bucketRecorded o bucket)) (Ok o') ∈ tr.
Proof.
  intros Hr. unfold addBucketAnnotation in Hr. apply runs_bind_get, runs_bind_put in Hr.
  run_val Hr. ev_in.
Qed.

Lemma findPtr_name {E} bucket (buckets : list (option string)) found :
  findPtr (E := E) id bucket buckets = Val (Some found) →
  found = Some bucket ∧ Some bucket ∈ buckets.
Proof. intros [Hin He]%findPtr_Some. unfold id in He. by subst found. Qed.

Lemma createBucket_Val cfg bucket o tr msg o' :
  runs (createBucket cfg bucket o) tr (Val msg, o') →
  secured bucket tr ∧ Ev (CreateBucket cfg) (Ok tt) ∈ tr ∧
  Ev (UpdateCR (bucketRecorded o bucket)) (Ok o') ∈ tr.
Proof.
  intros Hr. unfold createBucket in Hr. apply runs_bind_get in Hr.
  destruct (annotations_Has _ _); [by apply runs_fail_Val in Hr|]. inv_call Hr.
  destruct Hr as (r & t & -> & [(e & _ & _ & ? & _)|([] & Hok & Hr)]); [done|]. subst r.
  apply runs_bind_Val in Hr as (t1 & u & o1 & t2 & -> & H1 & Hr).
  apply addBucketAnnotation_Val in H1.
  apply runs_bind_Val in Hr as (t3 & u' & o2 & t4 & -> & H2 & Hr).
  assert (sat (λ _, True) eq (reconcileS3BucketSettings (S := CR) bucket)) as F
    by (unfold reconcileS3BucketSettings; go_sat).
  apply runs_onErr_Val in H2. destruct (F _ _ _ _ H2) as [_ <-].
  apply reconcileS3BucketSettings_Val in H2. apply runs_mret_Val in Hr as (-> & _ & ->).
  split_and!; [|ev_in|ev_in]. eapply secured_incl; [exact H2|]. intros y Hy. ev_in.
Qed.

(** The bucket was listed, or it was created and put on record. *)
Definition bucketThere (o : CR) (bucket : string) (tr : list event) : Prop :=
  (∃ buckets, Ev ListBuckets (Ok buckets) ∈ tr ∧ Some bucket ∈ buckets) ∨
  (∃ cfg after, CB_Bucket cfg = Some bucket ∧ Ev (CreateBucket cfg) (Ok tt) ∈ tr ∧
     Ev (UpdateCR (bucketRecorded o bucket)) (Ok after) ∈ tr).
Lemma bucketThere_incl o bucket t t' : bucketThere o bucket t → t ⊆ t' → bucketThere o bucket t'.
Proof.
  intros [(bs & ? & ?)|(cfg & a & ? & ? & ?)] Hs; [left; exists bs|right; exists cfg, a]; auto.
Qed.

Lemma reconcileBucketCreate_Val cfg o tr msg o' :
  runs (reconcileBucketCreate cfg o) tr (Val msg, o') →
  ∃ bucket, CB_Bucket cfg = Some bucket ∧ secured bucket tr ∧ bucketThere o bucket tr.
Proof.
  intros Hr. unfold reconcileBucketCreate in Hr.
  val_call (λ c : call, reads c = true) Hr buckets H1. apply runs_onErr_Val, getS3buckets_Val in H1.
  val_call (λ c : call, reads c = true) Hr bucket H2. apply runs_deref_Val in H2 as (-> & Hb & _).
  val_call (λ c : call, reads c = true) Hr found H3. apply runs_lift_Val in H3 as (-> & Hf & _).
  apply runs_defer_Val in Hr as (t' & o1 & Ht & Hr). exists bucket. split; [exact Hb|].
  destruct found as [name|].
  - apply findPtr_name in Hf as [-> Hin]. cbn [StringValue] in Hr.
    apply runs_bind_Val in Hr as (t3 & u & o3 & t4 & -> & H2 & Hr).
    apply runs_onErr_Val, reconcileS3BucketSettings_Val in H2. split.
    + eapply secured_incl; [exact H2|]. intros y Hy.
      apply elem_of_app; right. cbn. apply Ht. ev_in.
    + left. exists buckets. split; [ev_in|exact Hin].
  - apply createBucket_Val in Hr as (Hs & Hc & Hu). split.
    + eapply secured_incl; [exact Hs|]. intros y Hy. apply elem_of_app; right. by apply Ht.
    + right. exists cfg, o1. split_and!; [exact Hb|apply elem_of_app; right; by apply Ht..].
Qed.

(** The keys for the end user: those of a provisioned request, or none. *)
Definition endUserKeys (d : BlobStorageDeploymentDetails) (tr : list event) : Prop :=
  match B_CredentialManager p with
  | CredentialMinterCredentialManager _ =>
      CredentialKeyID d ≠ "" ∧ CredentialSecretKey d ≠ "" ∧
      ∃ req sec n1 n2, Ev (GetCredentialsRequest n1 n2) (Ok req) ∈ tr ∧
        CReq_Provisioned req = true ∧
        Ev (GetSecret (CReq_SecretRef req).1 (CReq_SecretRef req).2) (Ok sec) ∈ tr ∧
        CredentialKeyID d = secretData sec defaultCredentialsKeyIDName ∧
        CredentialSecretKey d = secretData sec defaultCredentialsSecretKeyName
  | STSCredentialManager _ => CredentialKeyID d = "" ∧ CredentialSecretKey d = ""
  end.

Lemma TagBlobStorage_Val {S} bucket bs (s : S) tr msg s' :
  runs (TagBlobStorage bucket bs s) tr (Val msg, s') →
  ∃ tags, Ev (PutBucketTagging (Some bucket) tags) (Ok tt) ∈ tr.
Proof.
  intros Hr. unfold TagBlobStorage in Hr. run_val Hr.
  repeat match goal with x : unit |- _ => destruct x end. eexists. ev_in.
Qed.

(** What the answered connection details rely on. *)
Definition deployedBucket (d : BlobStorageDeploymentDetails) (tr : list event) : Prop :=
  secured (BucketName d) tr ∧
  (∃ before, bucketThere before (BucketName d) tr) ∧
  (∃ tags, Ev (PutBucketTagging (Some (BucketName d)) tags) (Ok tt) ∈ tr) ∧
  BucketRegion d ≠ "" ∧ endUserKeys d tr.

Lemma CreateStorage_Val o tr d msg o' :
  runs (CreateStorage p o) tr (Val (d, msg), o') → ∃ d', d = Some d' ∧ deployedBucket d' tr.
Proof.
  intros Hr. unfold CreateStorage in Hr.
  apply runs_bind_Val in Hr as (t1 & u & o1 & t2 & -> & _ & Hr). apply runs_bind_get in Hr.
  val_call (λ c : call, reads c = true) Hr cfg H1. destruct cfg as [[create delete] st].
  apply runs_onErr_Val, buildS3BucketConfig_Val in H1 as (_ & _ & Hreg).
  val_call credentialCall Hr creds H2. val_call (λ c : call, reads c = true) Hr u3 H3.
  val_call (λ c : call, reads c = true) Hr bucket H4. apply runs_deref_Val in H4 as (-> & Hb & _).
  apply runs_bind_Val in Hr as (t15 & m & o2 & t16 & -> & H5 & Hr).
  apply runs_onErr_Val, reconcileBucketCreate_Val in H5 as (b & Hb' & Hsec & Hthere).
  rewrite Hb in Hb'. injection Hb' as <-. apply runs_bind_get in Hr. cbv zeta in Hr.
  val_call credentialCall Hr euc H6. apply runs_onErr_Val in H6.
  apply runs_bind_Val in Hr as (t17 & bsi & o3 & t18 & -> & H7 & Hr).
  apply runs_bind_Val in Hr as (t19 & tagged & o4 & t20 & -> & H8 & Hr).
  apply runs_onErr_Val, TagBlobStorage_Val in H8 as [tags H8].
  apply runs_mret_Val in Hr as (_ & [= <- <-] & _). exists bsi. split; [done|].
  unfold deployedBucket. assert (BucketName bsi = bucket ∧ BucketRegion bsi = Strategy_Region st ∧
          endUserKeys bsi t3) as (-> & -> & Hk).
  { unfold endUserKeys, ReconcileBucketOwnerCredentials in *.
    destruct (B_CredentialManager p) as [n|n].
    - apply runs_bind_Val in H6 as (t12 & c & s5 & t13 & -> & H6 & Hm).
      apply runs_mret_Val in Hm as (-> & <- & _). rewrite app_nil_r.
      apply reconcileCredentials_Val in H6
        as ((K1 & K2 & _) & req & sec & Hprov & Hg & E1 & E2 & n1 & n2 & Hreq).
      apply runs_bind_mret in H7. apply runs_mret_Val in H7 as (_ & <- & _).
      cbn. split_and!; try done. exists req, sec, n1, n2. done.
    - apply runs_mret_Val in H7 as (_ & <- & _). done. }
  split_and!; [| | |exact Hreg|].
  - eapply secured_incl; [exact Hsec|]. intros y Hy. ev_in.
  - exists o1. eapply bucketThere_incl; [exact Hthere|]. intros y Hy. ev_in.
  - exists tags. ev_in.
  - unfold endUserKeys in *. destruct (B_CredentialManager p); [|exact Hk].
    destruct Hk as (K1 & K2 & req & sec & n1 & n2 & ? & ? & ? & ? & ?).
    split; [exact K1|]. split; [exact K2|].
    exists req, sec, n1, n2. split_and!; [ev_in|done|ev_in|done|done].
Qed.

(** C25: a resource gets connection details only for a bucket that was listed or
    created in this run, whose public access is blocked, whose content is encrypted
    and which is tagged; the region is never empty; the keys are those of a
    provisioned credentials request, both not empty, or with STS both empty. *)
Theorem CreateStorage_secured o tr d msg o' :
  runs (CreateStorage p o) tr (Val (d, msg), o') → ∃ d', d = Some d' ∧ deployedBucket d' tr.
Proof. apply CreateStorage_Val. Qed.

(** *** When a bucket is created *)

Definition notCreating (c : call) : Prop :=
  match (c : api_call) with CreateBucket _ => False | _ => True end.
Lemma offBucket_notCreating c : offBucket c → notCreating c.
Proof. by destruct c. Qed.
Lemma notCreating_reads : reads_ok notCreating.
Proof. intros c. by destruct c. Qed.
#[local] Hint Resolve notCreating_reads : sat.
#[local] Hint Extern 1 (notCreating _) => exact I : sat.

Lemma addBucketAnnotation_updates {A} bucket o (f : unit → M CR _ A) tr out o' :
  runs (mbind f (addBucketAnnotation bucket) o) tr (out, o') →
  ∃ ans t, tr = Ev (UpdateCR (bucketRecorded o bucket)) ans :: t.
Proof.
  intros Hr. unfold addBucketAnnotation in Hr.
  apply runs_bind in Hr as [(t1 & u & o1 & t2 & -> & H1 & _)|[(e & H1 & _)|(w & H1 & _)]];
    apply runs_bind_get, runs_bind_put in H1; inv_call H1;
    destruct H1 as (a & t & -> & _); eauto.
Qed.

(** The answer to the creation of a bucket. *)
Definition bucketAnswer (e : event) : option (result unit) :=
  let 'Ev c r := e in
  match c as c' return @resp api c' → option (result unit) with
  | CreateBucket _ | DeleteBucket _ => Some
  | _ => λ _, None
  end r.

Lemma reconcileBucketCreate_creates cfg o tr out o' cfg' r :
  runs (reconcileBucketCreate cfg o) tr (out, o') → Ev (CreateBucket cfg') r ∈ tr →
  cfg' = cfg ∧ annotations_Has (CR_Meta o) ResourceIdentifierAnnotation = false ∧
  ∃ bucket buckets, CB_Bucket cfg = Some bucket ∧ Ev ListBuckets (Ok buckets) ∈ tr ∧
    Some bucket ∉ buckets ∧
    (r = Ok tt → ∃ ans, Ev (UpdateCR (bucketRecorded o bucket)) ans ∈ tr).
Proof.
  intros Hr He. unfold reconcileBucketCreate in Hr.
  assert (¬ offBucket (CreateBucket cfg')) as Hn by (intros []).
  skip_calls_not offBucket Hr He Hn buckets H1. apply runs_onErr_Val, getS3buckets_Val in H1.
  skip_calls_not offBucket Hr He Hn bucket H2. apply runs_deref_Val in H2 as (-> & Hb & _).
  skip_calls_not offBucket Hr He Hn found H3. apply runs_lift_Val in H3 as (-> & Hf & _).
  eapply (runs_defer_skip offBucket eq) in Hr as (t' & o1 & s1 & Hsub & Hr & Hin);
    [|exact He|go_sat|exact Hn]. clear He.
  destruct found as [name|].
  { exfalso. refine (sat_no_event notCreating anyCR _ _ _ _ _ _ Hr Hin _).
    unfold reconcileS3BucketSettings. go_sat. }
  unfold createBucket in Hr. apply runs_bind_get in Hr.
  destruct (annotations_Has _ _) eqn:Ea.
  { apply runs_fail in Hr as (-> & _). by apply not_elem_of_nil in Hin. }
  inv_call Hr. destruct Hr as (a & t3 & -> & Hr).
  assert (sat notCreating anyCR (_ ← addBucketAnnotation bucket;
    _ ← reconcileS3BucketSettings bucket
      onError (wrapBoth ("failed to set s3 bucket settings on bucket creation " +:+ bucket));
    mret "successfully reconciled")) as F.
  { unfold addBucketAnnotation, reconcileS3BucketSettings. go_sat. }
  assert (Ev (CreateBucket cfg') r = Ev (CreateBucket cfg) a) as Heq.
  { apply elem_of_cons in Hin as [Hin|Hin]; [exact Hin|exfalso].
    destruct Hr as [(e & _ & -> & _)|(b & _ & Hr)]; [by apply not_elem_of_nil in Hin|].
    exact (sat_no_event _ _ _ _ _ _ _ _ Hr Hin F). }
  assert (cfg' = cfg) as -> by (apply (f_equal ev_call) in Heq; by injection Heq).
  split; [done|]. split; [done|]. exists bucket, buckets.
  split; [exact Hb|]. split; [ev_in|]. split; [by intros X%(findPtr_None _ _ _ _ Hf)|].
  intros ->. pose proof (f_equal bucketAnswer Heq) as [= <-].
  destruct Hr as [(e & ? & _)|(b & _ & Hr)]; [done|].
  apply addBucketAnnotation_updates in Hr as (ans & t4 & ->). exists ans.
  apply elem_of_app; right. apply elem_of_app; right. apply Hsub. ev_in.
Qed.

(** a bucket is created only when it is the configured one, it is not among the
    listed buckets, the resource carries no annotation of an earlier bucket, and the
    finalizer was stored (unless the resource is being deleted); once S3 accepts it
    its name is put on record. *)
Theorem CreateStorage_creates o tr out o' cfg r :
  runs (CreateStorage p o) tr (out, o') → Ev (CreateBucket cfg) r ∈ tr →
  ∃ o1 delete bucket buckets, configured o1 cfg delete ∧ CB_Bucket cfg = Some bucket ∧
    annotations_Has (CR_Meta o1) ResourceIdentifierAnnotation = false ∧
    Ev ListBuckets (Ok buckets) ∈ tr ∧ Some bucket ∉ buckets ∧
    (is_Some (Meta_DeletionTimestamp (CR_Meta o)) ∧ o1 = o ∨
     Ev (UpdateCR (setMeta o (addFinalizer (CR_Meta o) DefaultFinalizer))) (Ok o1) ∈ tr) ∧
    (r = Ok tt → ∃ ans, Ev (UpdateCR (bucketRecorded o1 bucket)) ans ∈ tr).
Proof.
  intros Hr He. unfold CreateStorage in Hr.
  assert (¬ offBucket (CreateBucket cfg)) as Hn by (intros []).
  eapply (runs_bind_skip notCreating anyCR) in Hr as (t1 & u & o1 & t2 & -> & H1 & _ & Hr & Hin);
    [|exact He|unfold CreateFinalizer; go_sat|exact id].
  clear He. apply runs_onErr_Val, CreateFinalizer_Val in H1. apply runs_bind_get in Hr.
  skip_calls_not offBucket Hr Hin Hn cfgs H2. destruct cfgs as [[create delete] st].
  apply runs_onErr_Val in H2.
  skip_calls_not offBucket Hr Hin Hn creds H3. clear H3.
  skip_calls_not offBucket Hr Hin Hn u3 H3. clear H3.
  skip_calls_not offBucket Hr Hin Hn bucket H4. apply runs_deref_Val in H4 as (-> & Hb & _).
  eapply (runs_bind_first notCreating anyCR) in Hr as (t7 & out1 & s1 & Hsub & Hr & Hin');
    [|exact Hin|intros a; unfold TagBlobStorage; go_sat|exact id].
  2: { apply sat_eq; [apply _|]. eapply sat_weaken; [apply ob_ReconcileBucketOwnerCredentials|].
       apply offBucket_notCreating. }
  apply runs_onErr in Hr as (out2 & Hr & _).
  destruct (reconcileBucketCreate_creates _ _ _ _ _ _ _ Hr Hin')
    as (-> & Ha & bucket' & buckets & Hb' & Hl & Hnot & Hann).
  exists o1, delete, bucket', buckets.
  assert (∀ y, y ∈ t7 → y ∈ t1 ++ t ++ t2 ++ t0 ++ [] ++ t5) as Hin7.
  { intros y Hy%Hsub. ev_in. }
  split_and!; [by eexists _, _|exact Hb'|exact Ha|by apply Hin7|exact Hnot| |].
  - destruct H1 as [[? ->]|[_ ?]]; [by left|right; ev_in].
  - intros Hok. destruct (Hann Hok) as [ans ?]. exists ans. by apply Hin7.
Qed.
End Create.

(** ** Deleting a bucket *)

Section Delete.
Context `{ThirdParty} (p : BlobStorageProvider).
Implicit Types (o : CR).

(** The bucket [bucket] has no object, or its objects were deleted. *)
Definition emptied (bucket : string) (tr : list event) : Prop :=
  Ev (ListObjectsV2 (Some bucket)) (Ok []) ∈ tr ∨ Ev (BatchDelete (Some bucket)) (Ok tt) ∈ tr.
(** It was seen with an object. *)
Definition seenWithObjects (bucket : string) (tr : list event) : Prop :=
  ∃ x l, Ev (ListObjectsV2 (Some bucket)) (Ok (x :: l)) ∈ tr.
(** S3 deleted it, or it was gone. *)
Definition bucketDeleted (bucket : string) (tr : list event) : Prop :=
  Ev (DeleteBucket (Some bucket)) (Ok tt) ∈ tr ∨
  ∃ e, Ev (DeleteBucket (Some bucket)) (Er e) ∈ tr ∧ aws_code e = Some "NoSuchBucket".
(** It was not listed. *)
Definition absentBucket (bucket : string) (tr : list event) : Prop :=
  ∃ buckets, Ev ListBuckets (Ok buckets) ∈ tr ∧ Some bucket ∉ buckets.

Lemma getBucketSize_Val cfg bucket {S} (s : S) tr n s' :
  CB_Bucket cfg = Some bucket → runs (getBucketSize cfg s) tr (Val n, s') →
  ∃ contents, Ev (ListObjectsV2 (Some bucket)) (Ok contents) ∈ tr ∧ n = length contents.
Proof.
  intros Hb Hr. unfold getBucketSize in Hr. rewrite Hb in Hr. run_val Hr. simplify_eq.
  eexists. split; [ev_in|done].
Qed.

Section Content.
Context (cfg : CreateBucketInput) (bucket : string) (Hb : CB_Bucket cfg = Some bucket).

Lemma emptyBucket_Val {S} (s : S) tr u s' :
  runs (emptyBucket cfg s) tr (Val u, s') → emptied bucket tr.
Proof.
  intros Hr. unfold emptyBucket in Hr.
  apply runs_bind_Val in Hr as (t1 & n & s1 & t2 & -> & H1 & Hr).
  apply (getBucketSize_Val _ _ _ _ _ _ Hb) in H1 as (contents & Hl & ->).
  case_bool_decide as Hz.
  - left. apply nil_length_inv in Hz as ->. ev_in.
  - rewrite Hb in Hr. run_val Hr. simplify_eq. right. repeat match goal with x : unit |- _ => destruct x end. ev_in.
Qed.
Lemma emptyBucket_deletes {S} (s : S) tr out s' b r :
  runs (emptyBucket cfg s) tr (out, s') → Ev (BatchDelete b) r ∈ tr →
  b = Some bucket ∧ seenWithObjects bucket tr.
Proof.
  intros Hr He. unfold emptyBucket in Hr. skip_reads Hr He n H1.
  apply (getBucketSize_Val _ _ _ _ _ _ Hb) in H1 as (contents & Hl & ->).
  case_bool_decide as Hz; [apply runs_mret in Hr as (-> & _); by apply not_elem_of_nil in He|].
  rewrite Hb in Hr. cbn [deref] in Hr. rewrite runs_bind_mret in Hr. inv_call Hr.
  destruct Hr as (a & -> & _). split.
  - apply list_elem_of_singleton, (f_equal ev_call) in He. by injection He.
  - destruct contents as [|x l]; [done|]. exists x, l. ev_in.
Qed.
Lemma deleteBucket_Val {S} (s : S) tr u s' :
  runs (deleteBucket cfg s) tr (Val u, s') → bucketDeleted bucket tr.
Proof.
  intros Hr. unfold deleteBucket in Hr. rewrite Hb in Hr. inv_call Hr.
  destruct Hr as (r & t & -> & Hr). destruct r as [[]|e]; [left; ev_in|].
  right. exists e. split; [ev_in|]. case_bool_decide; [done|by apply runs_fail_Val in Hr].
Qed.

(** *** The calls that delete *)

(** Neither deleting a bucket or its objects nor writing the resource. *)
Definition keepsBucket (c : call) : Prop :=
  match (c : api_call) with DeleteBucket _ | BatchDelete _ => False | _ => True end.
Lemma keepsBucket_reads : reads_ok keepsBucket.
Proof. intros c. by destruct c. Qed.
#[local] Hint Resolve keepsBucket_reads : sat.
#[local] Hint Extern 1 (keepsBucket _) => exact I : sat.
Lemma offBucket_keeps c : offBucket c → keepsBucket c.
Proof. by destruct c. Qed.
Lemma kb_exposeBlobStorageMetrics {S E} cr :
  sat keepsBucket eq (exposeBlobStorageMetrics (S := S) (E := E) cr).
Proof. eapply sat_weaken; [apply ob_exposeBlobStorageMetrics|apply offBucket_keeps]. Qed.
Lemma kb_removeCredsAndFinalizer b : sat keepsBucket anyCR (removeCredsAndFinalizer b).
Proof.
  unfold removeCredsAndFinalizer. go_sat. apply sat_eq; [apply _|apply kb_exposeBlobStorageMetrics].
Qed.
#[local] Hint Resolve kb_removeCredsAndFinalizer : sat.

(** Deleting the bucket was forced, or it was listed without an object. *)
Definition mayDelete (delete : S3DeleteStrat) (tr : list event) : Prop :=
  ForceBucketDeletion delete = Some true ∨ Ev (ListObjectsV2 (Some bucket)) (Ok []) ∈ tr.

Lemma emptyBucket_keeps : sat (λ c : call, match (c : api_call) with
    DeleteBucket _ => False | _ => True end) eq (emptyBucket (S := CR) cfg).
Proof. unfold emptyBucket, getBucketSize. go_sat. Qed.
Lemma deleteBucket_calls o tr out o' c r :
  runs (deleteBucket cfg o) tr (out, o') → Ev c r ∈ tr → c = DeleteBucket (Some bucket).
Proof.
  intros Hr He. unfold deleteBucket in Hr. rewrite Hb in Hr. inv_call Hr.
  destruct Hr as (a & t & -> & Hr).
  assert (t = []) as ->.
  { destruct a as [|e]; [by apply runs_mret in Hr as (-> & _)|].
    case_bool_decide; [by apply runs_mret in Hr as (-> & _)|by apply runs_fail in Hr as (-> & _)]. }
  by apply list_elem_of_singleton, (f_equal ev_call) in He.
Qed.

Lemma reconcileBucketContent_deletes delete o tr out o' c r :
  runs (reconcileBucketContent cfg delete bucket o) tr (out, o') → Ev c r ∈ tr →
  ¬ keepsBucket c →
  mayDelete delete tr ∧
  (c = BatchDelete (Some bucket) ∧ seenWithObjects bucket tr ∨
   c = DeleteBucket (Some bucket) ∧ emptied bucket tr).
Proof.
  intros Hr He Hk. unfold reconcileBucketContent in Hr.
  skip_calls_not keepsBucket Hr He Hk n H1.
  apply runs_onErr_Val, (getBucketSize_Val _ _ _ _ _ _ Hb) in H1 as (contents & Hl & ->).
  skip_calls_not keepsBucket Hr He Hk force H2. apply runs_deref_Val in H2 as (-> & Hf & _).
  destruct (force || _) eqn:Ec; [|apply runs_mret in Hr as (-> & _); by apply not_elem_of_nil in He].
  split.
  { apply orb_true_iff in Ec as [->|Hz]; [by left|right].
    apply bool_decide_eq_true, nil_length_inv in Hz as ->. ev_in. }
  eapply (runs_bind_or (λ _, True)) in Hr as [(t3 & o1 & Hs & Hr & Hin)|(t3 & u & t4 & -> & H1 & Hr & Hin)];
    [| |exact He|unfold emptyBucket, getBucketSize; go_sat].
  - left. apply runs_onErr in Hr as (o2 & Hr & _). destruct c; try (by destruct Hk).
    + by destruct (sat_no_event _ _ _ _ _ _ _ _ Hr Hin emptyBucket_keeps).
    + destruct (emptyBucket_deletes _ _ _ _ _ _ Hr Hin) as [-> (x & l & Hx)].
      split; [done|]. exists x, l. apply Hs in Hx. ev_in.
  - right. apply runs_onErr_Val, emptyBucket_Val in H1. apply runs_onErr in Hr as (o2 & Hr & _).
    split; [by eapply deleteBucket_calls|]. destruct H1; [left|right]; ev_in.
Qed.
End Content.

(** *** The calls of a deletion *)

(** A call on buckets or the custom resource is made once the configuration, the
    credentials and the session are there. *)
Lemma DeleteStorage_split o tr out o' c r :
  runs (DeleteStorage p o) tr (out, o') → Ev c r ∈ tr → ¬ offBucket c →
  ∃ create delete t, configured p o create delete ∧ t ⊆ tr ∧
    runs (reconcileBucketDelete create delete o) t (out, o') ∧ Ev c r ∈ t.
Proof.
  intros Hr He Hn. unfold DeleteStorage in Hr. apply runs_bind_get in Hr.
  skip_calls_not offBucket Hr He Hn cfgs H1. destruct cfgs as [[create delete] st].
  apply runs_onErr_Val in H1.
  skip_calls_not offBucket Hr He Hn creds H2. clear H2.
  skip_calls_not offBucket Hr He Hn u H2. clear H2.
  exists create, delete. eexists. split; [by eexists _, _|]. split; [|split; [exact Hr|exact He]].
  intros y Hy. ev_in.
Qed.

(** a bucket is deleted, or emptied, only when it is the configured one and its
    deletion is forced or it was listed without an object; it is deleted only
    after it was seen empty or its objects were deleted, and its objects are deleted
    only when some were seen. *)
Theorem DeleteStorage_deletes o tr out o' c r :
  runs (DeleteStorage p o) tr (out, o') → Ev c r ∈ tr → ¬ keepsBucket c →
  ∃ create delete bucket, configured p o create delete ∧ CB_Bucket create = Some bucket ∧
    mayDelete bucket delete tr ∧
    (c = BatchDelete (Some bucket) ∧ seenWithObjects bucket tr ∨
     c = DeleteBucket (Some bucket) ∧ emptied bucket tr).
Proof.
  intros Hr He Hk. assert (¬ offBucket c) as Hn by (intros ?; by apply Hk, offBucket_keeps).
  destruct (DeleteStorage_split _ _ _ _ _ _ Hr He Hn) as (create & delete & t & Hcfg & Hs & Hd & Hin).
  clear Hr He. unfold reconcileBucketDelete in Hd.
  skip_calls_not offBucket Hd Hin Hn buckets H1. clear H1.
  skip_calls_not offBucket Hd Hin Hn bucket H2. apply runs_deref_Val in H2 as (-> & Hb & _).
  cbv zeta in Hd. skip_calls_not offBucket Hd Hin Hn found H3. clear H3.
  eapply (runs_bind_skip keepsBucket anyCR) in Hd as (t3 & u & o1 & t4 & -> & _ & _ & Hd & Hin');
    [|exact Hin|destruct found; go_sat; apply kb_removeCredsAndFinalizer|exact Hk].
  eapply (runs_bind_first keepsBucket anyCR) in Hd as (t5 & o5 & s5 & Hs5 & Hd & Hin5);
    [|exact Hin'|intros; go_sat; apply kb_removeCredsAndFinalizer|exact Hk].
  destruct (reconcileBucketContent_deletes _ _ Hb _ _ _ _ _ _ _ Hd Hin5 Hk) as [Hmay Hcase].
  assert (∀ y, y ∈ t5 → y ∈ tr) as Hall by (intros y Hy%Hs5; apply Hs; ev_in).
  exists create, delete, bucket. split; [exact Hcfg|]. split; [exact Hb|]. split.
  - destruct Hmay; [by left|right; by apply Hall].
  - destruct Hcase as [[-> (x & l & ?)]|[-> [?|?]]]; [left|right|right]; split; try done.
    + exists x, l. by apply Hall.
    + left. by apply Hall.
    + right. by apply Hall.
Qed.

(** *** The finalizer *)

(** The request for the keys of the end user is deleted or gone. *)
Definition keysGone (bucket : string) (o : CR) (tr : list event) : Prop :=
  ∃ a, Ev (DeleteCredentialsRequest (buildEndUserCredentialsNameFromBucket bucket)
             (Meta_Namespace (CR_Meta o))) a ∈ tr ∧
    match a with Ok _ => True | Er e => IsNotFound e = true end.

Lemma keepsCR_exposeBlobStorageMetrics {E} cr :
  sat keepsCR eq (exposeBlobStorageMetrics (S := CR) (E := E) cr).
Proof.
  eapply sat_weaken; [apply ob_exposeBlobStorageMetrics|]. intros c. by destruct c.
Qed.
Lemma reconcileBucketContent_keepsCR cfg delete bucket :
  sat keepsCR eq (reconcileBucketContent cfg delete bucket).
Proof. unfold reconcileBucketContent, emptyBucket, deleteBucket, getBucketSize. go_sat. Qed.

Lemma removeCredsAndFinalizer_updates bucket o tr out o' x r :
  runs (removeCredsAndFinalizer bucket o) tr (out, o') → Ev (UpdateCR x) r ∈ tr →
  keysGone bucket o tr ∧
  ∃ om, RemoveFinalizer (CR_Meta o) DefaultFinalizer = Some om ∧ x = setMeta o om.
Proof.
  intros Hr He. unfold removeCredsAndFinalizer in Hr. apply runs_bind_get in Hr.
  cbv zeta in Hr. inv_call Hr. destruct Hr as (a & t & -> & Hr).
  apply elem_of_cons in He as [He|He]; [by apply (f_equal ev_call) in He|].
  assert (¬ keepsCR (UpdateCR x)) as Hn by (intros []).
  skip_calls_not keepsCR Hr He Hn u H1.
  assert (keysGone bucket o (Ev (DeleteCredentialsRequest
    (buildEndUserCredentialsNameFromBucket bucket) (Meta_Namespace (CR_Meta o))) a :: t0 ++ t1))
    as Hgone.
  { exists a. split; [ev_in|]. destruct a as [|e]; [done|].
    destruct (IsNotFound e); [done|by apply runs_fail_Val in H1]. }
  split; [exact Hgone|].
  destruct (RemoveFinalizer _ _) as [om|].
  2: { apply runs_lift in Hr as (-> & _). by apply not_elem_of_nil in He. }
  exists om. split; [done|]. apply runs_bind_put in Hr. inv_call Hr.
  destruct Hr as (b & t2 & -> & Hr).
  apply elem_of_cons in He as [He|He]; [apply (f_equal ev_call) in He; by injection He|].
  destruct Hr as [(e & _ & -> & _)|(after & _ & Hr)]; [by apply not_elem_of_nil in He|].
  rewrite runs_bind_put in Hr. exfalso.
  exact (Hn (sat_no_event _ _ _ _ _ _ _ _ Hr He (keepsCR_exposeBlobStorageMetrics _))).
Qed.
Lemma removeCredsAndFinalizer_Val bucket o tr u o' :
  runs (removeCredsAndFinalizer bucket o) tr (Val u, o') →
  ∃ om, RemoveFinalizer (CR_Meta o) DefaultFinalizer = Some om ∧
    Ev (UpdateCR (setMeta o om)) (Ok o') ∈ tr.
Proof.
  intros Hr. unfold removeCredsAndFinalizer in Hr. apply runs_bind_get in Hr.
  cbv zeta in Hr. inv_call Hr. destruct Hr as (a & t & -> & Hr).
  val_call keepsCR Hr u1 H1. destruct (RemoveFinalizer _ _) as [om|].
  2: { by apply runs_lift_Val in Hr as (_ & ? & _). }
  exists om. split; [done|]. apply runs_bind_put in Hr. inv_call Hr.
  destruct Hr as (b & t2 & -> & [(e & _ & _ & ? & _)|(after & -> & Hr)]); [done|].
  rewrite runs_bind_put in Hr. apply mc_exposeBlobStorageMetrics in Hr as [_ <-]. ev_in.
Qed.

Lemma reconcileBucketContent_Val cfg delete bucket o tr u o' :
  CB_Bucket cfg = Some bucket →
  runs (reconcileBucketContent cfg delete bucket o) tr (Val u, o') →
  bucketDeleted bucket tr ∨
  ForceBucketDeletion delete = Some false ∧ seenWithObjects bucket tr.
Proof.
  intros Hb Hr. unfold reconcileBucketContent in Hr.
  val_call (λ c : call, reads c = true) Hr n H1.
  apply runs_onErr_Val, (getBucketSize_Val _ _ _ _ _ _ Hb) in H1 as (contents & Hl & ->).
  val_call (λ c : call, reads c = true) Hr force H2. apply runs_deref_Val in H2 as (-> & Hf & _).
  destruct (force || _) eqn:Ec.
  - left. apply runs_bind_Val in Hr as (t3 & u' & o1 & t4 & -> & _ & Hr).
    apply runs_onErr_Val, (deleteBucket_Val _ _ Hb) in Hr.
    destruct Hr as [?|(e & ? & ?)]; [left|right; exists e; split; [|done]]; ev_in.
  - right. apply orb_false_iff in Ec as [-> Hz]. split; [exact Hf|].
    destruct contents as [|x l]; [done|]. exists x, l. ev_in.
Qed.

(** What a run that writes the resource made sure of. *)
Definition finalizerDropped (bucket : string) (before x : CR) (tr : list event) : Prop :=
  keysGone bucket before tr ∧
  ∃ om, RemoveFinalizer (CR_Meta before) DefaultFinalizer = Some om ∧ x = setMeta before om.
Lemma removeAll_updates {E} (f : error → E) bucket o t out o' x r tr :
  runs ((removeCredsAndFinalizer bucket onError f) o) t (out, o') → Ev (UpdateCR x) r ∈ t →
  t ⊆ tr → finalizerDropped bucket o x tr.
Proof.
  intros (o2 & Hr & _)%runs_onErr Hx Hs.
  destruct (removeCredsAndFinalizer_updates _ _ _ _ _ _ _ Hr Hx) as [(a & Ha & Hok) Hom].
  split; [|exact Hom]. exists a. split; [by apply Hs|exact Hok].
Qed.

(** The bucket is gone, or it is kept. *)
Definition bucketSettled (bucket : string) (delete : S3DeleteStrat) (tr : list event) : Prop :=
  absentBucket bucket tr ∨ bucketDeleted bucket tr ∨
  ForceBucketDeletion delete = Some false ∧ seenWithObjects bucket tr.
Lemma bucketSettled_incl bucket delete t t' :
  bucketSettled bucket delete t → t ⊆ t' → bucketSettled bucket delete t'.
Proof.
  intros [(bs & ? & ?)|[[?|(e & ? & ?)]|[? (y & l & ?)]]] Hs.
  - left. exists bs. auto.
  - right; left; left. auto.
  - right; left; right. exists e. auto.
  - right; right. split; [done|]. exists y, l. auto.
Qed.

Lemma contentThenRemove_updates {E} (f : error → string * error) (m : E) create delete bucket o tr out o' x r :
  CB_Bucket create = Some bucket →
  runs ((_ ← reconcileBucketContent create delete bucket;
         _ ← removeCredsAndFinalizer bucket onError f; mret m) o) tr (out, o') →
  Ev (UpdateCR x) r ∈ tr → finalizerDropped bucket o x tr ∧ bucketSettled bucket delete tr.
Proof.
  intros Hb Hr He. assert (¬ keepsCR (UpdateCR x)) as Hk by (intros []).
  eapply (runs_bind_skip keepsCR eq) in Hr as (t3 & u & o1 & t4 & -> & Hc & <- & Hr & Hin);
    [|exact He|apply reconcileBucketContent_keepsCR|exact Hk].
  apply (reconcileBucketContent_Val _ _ _ _ _ _ _ Hb) in Hc.
  eapply (runs_bind_first keepsCR eq) in Hr as (t5 & o5 & s5 & Hs5 & Hr & Hin5);
    [|exact Hin|intros; go_sat|exact Hk].
  split.
  - eapply removeAll_updates; [exact Hr|exact Hin5|]. intros y Hy%Hs5. ev_in.
  - apply (bucketSettled_incl _ _ t3); [by right|]. intros y Hy. ev_in.
Qed.

Lemma finalizerDropped_incl bucket before x t t' :
  finalizerDropped bucket before x t → t ⊆ t' → finalizerDropped bucket before x t'.
Proof. intros [(a & ? & ?) ?] Hs. split; [|done]. exists a. auto. Qed.

Lemma reconcileBucketDelete_updates create delete o tr out o' x r :
  runs (reconcileBucketDelete create delete o) tr (out, o') → Ev (UpdateCR x) r ∈ tr →
  ∃ bucket before, CB_Bucket create = Some bucket ∧
    (before = o ∨ ∃ y, Ev (UpdateCR y) (Ok before) ∈ tr) ∧
    finalizerDropped bucket before x tr ∧ bucketSettled bucket delete tr.
Proof.
  intros Hr He. unfold reconcileBucketDelete in Hr.
  assert (¬ offBucket (UpdateCR x)) as Hn by (intros []).
  skip_calls_not offBucket Hr He Hn buckets H1. apply runs_onErr_Val, getS3buckets_Val in H1.
  skip_calls_not offBucket Hr He Hn bucket H2. apply runs_deref_Val in H2 as (-> & Hb & _).
  cbv zeta in Hr. skip_calls_not offBucket Hr He Hn found H3.
  apply runs_lift_Val in H3 as (-> & Hf & _). exists bucket. destruct found as [name|].
  { rewrite runs_bind_mret in Hr. exists o.
    destruct (contentThenRemove_updates _ _ _ _ _ _ _ _ _ _ _ Hb Hr He) as [Hd Hset].
    split_and!; [exact Hb|by left| |].
    - eapply finalizerDropped_incl; [exact Hd|]. intros y Hy. ev_in.
    - eapply bucketSettled_incl; [exact Hset|]. intros y Hy. ev_in. }
  match goal with |- ∃ _, _ ∧ _ ∧ _ ∧ bucketSettled _ _ ?l => assert (bucketSettled bucket delete l) as Hset end.
  { left. exists buckets. split; [ev_in|]. intros X. by eapply findPtr_None. }
  apply runs_bind in Hr as [(t3 & u & o1 & t4 & -> & H3 & Hr)|[(e & Hr & _)|(w & Hr & _)]].
  - apply elem_of_app in He as [He|He]; [exists o|exists o1]; (split; [exact Hb|]).
    + split; [by left|]. split; [|exact Hset].
      eapply removeAll_updates; [exact H3|exact He|]. intros y Hy. ev_in.
    + destruct (contentThenRemove_updates _ _ _ _ _ _ _ _ _ _ _ Hb Hr He) as [Hd _].
      apply runs_onErr_Val, removeCredsAndFinalizer_Val in H3 as (om & _ & H3).
      split; [right; eexists; ev_in|]. split; [|exact Hset].
      eapply finalizerDropped_incl; [exact Hd|]. intros y Hy. ev_in.
  - exists o. split; [exact Hb|]. split; [by left|]. split; [|exact Hset].
    eapply removeAll_updates; [exact Hr|exact He|]. intros y Hy. ev_in.
  - exists o. split; [exact Hb|]. split; [by left|]. split; [|exact Hset].
    eapply removeAll_updates; [exact Hr|exact He|]. intros y Hy. ev_in.
Qed.

(** writing the resource only removes its finalizer, and only after the request
    for the keys is deleted or gone and the bucket was not listed, was deleted, or is
    kept because it has objects and its deletion is not forced. *)
Theorem DeleteStorage_finalizer o tr out o' x r :
  runs (DeleteStorage p o) tr (out, o') → Ev (UpdateCR x) r ∈ tr →
  ∃ create delete bucket before, configured p o create delete ∧
    CB_Bucket create = Some bucket ∧
    (before = o ∨ ∃ y, Ev (UpdateCR y) (Ok before) ∈ tr) ∧
    finalizerDropped bucket before x tr ∧ bucketSettled bucket delete tr.
Proof.
  intros Hr He. assert (¬ offBucket (UpdateCR x)) as Hn by (intros []).
  destruct (DeleteStorage_split _ _ _ _ _ _ Hr He Hn) as (create & delete & t & Hcfg & Hs & Hd & Hin).
  destruct (reconcileBucketDelete_updates _ _ _ _ _ _ _ _ Hd Hin)
    as (bucket & before & Hb & Hbef & Hfin & Hset).
  exists create, delete, bucket, before. split_and!; [exact Hcfg|exact Hb| | |].
  - destruct Hbef as [?|[y ?]]; [by left|right; exists y; by apply Hs].
  - by eapply finalizerDropped_incl.
  - by eapply bucketSettled_incl.
Qed.

(** *** A bucket that is gone *)

(** Everything but listing objects. *)
Definition noObjects (c : call) : Prop :=
  match (c : api_call) with ListObjectsV2 _ => False | _ => True end.
Lemma noObjects_poll {S A} n (m : M S error (option A)) :
  sat noObjects eq m → sat noObjects eq (poll n m).
Proof. intros Hm. induction n as [|n IH]; simpl; go_sat. Qed.
Lemma noObjects_getS3buckets {S} : sat noObjects eq (getS3buckets (S := S)).
Proof. unfold getS3buckets. apply sat_onErr, noObjects_poll. go_sat. Qed.

(** the objects of a bucket are listed even when the bucket is gone and the finalizer
    was removed already: while S3 answers that with an error, as it does for a
    bucket that does not exist, the deletion never succeeds. *)
Theorem reconcileBucketDelete_gone create delete o tr out o' :
  runs (reconcileBucketDelete create delete o) tr (out, o') →
  (∀ b a, Ev (ListObjectsV2 b) a ∈ tr → ∃ e, a = Er e) →
  (∀ msg, out ≠ Val msg) ∧
  (∀ bucket b a, CB_Bucket create = Some bucket →
     (∀ buckets, Ev ListBuckets (Ok buckets) ∈ tr → Some bucket ∉ buckets) →
     Ev (ListObjectsV2 b) a ∈ tr → ∃ x after, Ev (UpdateCR x) (Ok after) ∈ tr).
Proof.
  intros Hr Hfail. unfold reconcileBucketDelete in Hr. split.
  - intros msg ->. val_call (λ c : call, reads c = true) Hr buckets H1.
    val_call (λ c : call, reads c = true) Hr bucket H2. apply runs_deref_Val in H2 as (-> & Hb & _).
    cbv zeta in Hr. val_call (λ c : call, reads c = true) Hr found H3.
    apply runs_bind_Val in Hr as (t4 & u & o1 & t5 & -> & _ & Hr).
    apply runs_bind_Val in Hr as (t6 & u' & o2 & t7 & -> & Hc & _).
    unfold reconcileBucketContent in Hc. val_call (λ c : call, reads c = true) Hc n H4.
    apply runs_onErr_Val, (getBucketSize_Val _ _ _ _ _ _ Hb) in H4 as (contents & Hl & _).
    destruct (Hfail (Some bucket) (Ok contents)) as [e ?]; [ev_in|done].
  - intros bucket b a Hb Habs He. assert (¬ noObjects (ListObjectsV2 b)) as Hn by (intros []).
    eapply (runs_bind_skip noObjects eq) in Hr as (t1 & buckets & o1 & t2 & -> & H1 & <- & Hr & Hin);
      [|exact He|apply sat_onErr, noObjects_getS3buckets|exact Hn].
    apply runs_onErr_Val, getS3buckets_Val in H1. rewrite Hb in Hr. cbn [deref] in Hr. rewrite runs_bind_mret in Hr.
    cbv zeta in Hr.
    eapply (runs_bind_skip noObjects eq) in Hr as (t3 & found & o1 & t4 & -> & H3 & <- & Hr & Hin');
      [|exact Hin|go_sat|exact Hn].
    apply runs_lift_Val in H3 as (-> & Hf & _). destruct found as [name|].
    { exfalso. apply findPtr_name in Hf as [_ Hf]. eapply Habs; [ev_in|exact Hf]. }
    eapply (runs_bind_skip noObjects anyCR) in Hr as (t5 & u & o1 & t6 & -> & H3 & _ & _ & _);
      [|exact Hin'| |exact Hn].
    + apply runs_onErr_Val, removeCredsAndFinalizer_Val in H3 as (om & _ & H3).
      eexists _, _. ev_in.
    + unfold removeCredsAndFinalizer, exposeBlobStorageMetrics, BuildInfraNameFromObject,
        GetClusterID, GetClusterInfrastructure. go_sat.
Qed.
End Delete.

(** ** The provider and its controller *)

#[local] Hint Extern 5 (sat noStatus anyCR _) =>
  first [ apply noStatus_metric; solve [eauto with sat]
        | apply noStatus_credential; solve [eauto with sat] ] : sat.

Section Provider.
Context `{ThirdParty} (p : BlobStorageProvider).

Lemma ns_reconcileS3BucketSettings b : sat noStatus anyCR (reconcileS3BucketSettings b).
Proof. unfold reconcileS3BucketSettings. go_sat. Qed.
#[local] Hint Resolve ns_reconcileS3BucketSettings ns_CreateFinalizer : sat.
Lemma ns_CreateStorage : sat noStatus anyCR (CreateStorage p).
Proof.
  unfold CreateStorage, reconcileBucketCreate, createBucket, addBucketAnnotation, TagBlobStorage.
  go_sat.
Qed.
Lemma ns_removeCredsAndFinalizer b : sat noStatus anyCR (removeCredsAndFinalizer b).
Proof. unfold removeCredsAndFinalizer. go_sat. Qed.
#[local] Hint Resolve ns_removeCredsAndFinalizer : sat.
Lemma ns_DeleteStorage : sat noStatus anyCR (DeleteStorage p).
Proof.
  unfold DeleteStorage, reconcileBucketDelete, reconcileBucketContent, emptyBucket, deleteBucket.
  go_sat.
Qed.
#[local] Hint Resolve ns_CreateStorage ns_DeleteStorage ro_forcedTime : sat.

#[export] Instance awsBlobStorage_frame : StatusFrame (awsBlobStorage p).
Proof.
  split; cbn; [go_sat|go_sat| |]; intros o; unfold BlobStorage_GetReconcileTime.
  - by go_sat.
  - intros s tr e s' Hr. case_bool_decide; [by apply runs_mret in Hr as (_ & ? & _)|].
    by apply forcedTime_total in Hr.
Qed.
End Provider.

Section Controller.
Context `{ThirdParty} (ps : list ResourceProvider) (frames : ∀ q, q ∈ ps → StatusFrame q).

(** with the S3 provider among providers of other names, an object that is
    written as complete with the name of the S3 provider points to the secret of
    its specification, which holds the details of a bucket whose public access is
    blocked, whose content is encrypted and which is tagged. *)
Theorem BlobStorageController_complete p watchNs name ns o0 tr out o' x ans :
  (∀ q, q ∈ ps → RP_GetName q = blobstorageProviderName → q = awsBlobStorage p) →
  runs (BlobStorage_Reconcile ps watchNs name ns o0) tr (out, o') →
  Ev (StatusUpdateCR x) ans ∈ tr → Status_Phase (CR_Status x) = PhaseComplete →
  Status_Provider (CR_Status x) = blobstorageProviderName →
  ∃ d t, Status_SecretRef (CR_Status x) = Spec_SecretRef (CR_Spec x) ∧
    resultSecret x (BlobStorageData d) tr ∧ t ⊆ tr ∧ deployedBucket p d t.
Proof.
  intros Hone Hr He Hx Hp.
  unfold BlobStorage_Reconcile in Hr.
  eapply (Reconcile_complete_by (BlobStorageReconciler ps) frames (awsBlobStorage p)) in Hr
    as (o & st & t & data & msg & o1 & Ht & Hc & Hsec & ?); [|done..].
  subst x.
  cbn in Hc. apply runs_bind_Val in Hc as (t1 & [d m] & s & t2 & -> & Hc & Hr).
  apply runs_mret_Val in Hr as (-> & Hd & ->). rewrite app_nil_r in Ht.
  apply CreateStorage_Val in Hc as (d' & -> & Hdep). injection Hd as <- <-.
  exists d', t1. split_and!; done.
Qed.
End Controller.
