(* ===== verification/Sim.v ===== *)
(** * A simulated environment

    A small stateful model of the cloud account and the cluster, used only to
    exhibit concrete runs: the witnesses of the theorems, which themselves hold
    in every environment.  A field [w_fail] lists the names of calls that answer
    an AWS error with a given code. *)
From S2P Require Import Prelude Effects WorkloadApi GcpApi Api.
From Stdlib Require Import Ascii.

(** The workloads of the cluster, whose deployments become ready at once or not; the
    project on Google Cloud. *)
Record cloud := {
  cl_deployments : list Deployment;
  cl_pods : list string;
  cl_networks : list Network;
  cl_subnetwork : string;
  cl_addresses : list Address;
  cl_connections : list Connection;
  cl_redis : list RedisInstance;
  cl_sql : list SqlInstance;
  cl_buckets : list (string * list LifecycleRule);
  cl_objects : list string
}.
Definition noCloud : cloud :=
  {| cl_deployments := []; cl_pods := []; cl_networks := []; cl_subnetwork := "";
     cl_addresses := []; cl_connections := []; cl_redis := [];
     cl_sql := []; cl_buckets := []; cl_objects := [] |}.

(** Buckets, objects of the buckets, snapshots and the resources for them. *)
Record storage := {
  st_buckets : list string;
  st_objects : list string;
  st_dbSnapshots : list DBSnapshot;
  st_cacheSnapshots : list CacheSnapshot;
  st_snapshotCRs : list SnapshotCR;
  st_cloud : cloud
}.
Definition noStorage : storage :=
  {| st_buckets := []; st_objects := []; st_dbSnapshots := []; st_cacheSnapshots := [];
     st_snapshotCRs := []; st_cloud := noCloud |}.

Record world := {
  w_infra : result Infrastructure;
  w_netconf : result NetworkConf;
  w_vpcs : list Vpc;
  w_subnets : list Subnet;
  w_azs : list AvailabilityZone;
  w_offerings : list (option string);
  w_routeTables : list RouteTable;
  w_securityGroups : list SecurityGroup;
  w_peerings : list VpcPeeringConnection;
  w_dbSubnetGroups : list DBSubnetGroup;
  w_cacheSubnetGroups : list CacheSubnetGroup;
  w_crs : list CR;
  w_configMaps : list (string * gmap string string);
  w_dbInstances : list DBInstance;
  w_replicationGroups : list ReplicationGroup;
  w_cacheClusters : list CacheCluster;
  w_secrets : list Secret;
  w_env : list (string * string);
  w_fail : list (string * string);
  w_storage : storage
}.
Definition w_buckets (w : world) := st_buckets (w_storage w).
Definition w_objects (w : world) := st_objects (w_storage w).
Definition w_dbSnapshots (w : world) := st_dbSnapshots (w_storage w).
Definition w_cacheSnapshots (w : world) := st_cacheSnapshots (w_storage w).
Definition w_snapshotCRs (w : world) := st_snapshotCRs (w_storage w).

(** The error a call is made to answer. *)
Definition failing (w : world) (name : string) : option error :=
  match List.find (λ p, bool_decide (p.1 = name)) (w_fail w) with
  | Some p => Some (AwsErr p.2 ("simulated " +:+ name))
  | None => None
  end.
Definition answer {A} (w : world) (name : string) (a : A) : result A :=
  match failing w name with Some e => Er e | None => Ok a end.

Definition with_vpcs (f : list Vpc → list Vpc) (w : world) : world :=
  {| w_infra := w_infra w; w_netconf := w_netconf w; w_vpcs := f (w_vpcs w); w_subnets :=
     w_subnets w; w_azs := w_azs w; w_offerings := w_offerings w; w_routeTables :=
     w_routeTables w; w_securityGroups := w_securityGroups w; w_peerings := w_peerings w;
     w_dbSubnetGroups := w_dbSubnetGroups w; w_cacheSubnetGroups := w_cacheSubnetGroups w;
     w_crs := w_crs w; w_configMaps := w_configMaps w; w_dbInstances := w_dbInstances w;
     w_replicationGroups := w_replicationGroups w; w_cacheClusters := w_cacheClusters w;
     w_secrets := w_secrets w; w_env := w_env w; w_fail := w_fail w;
     w_storage := w_storage w |}.
Definition with_subnets (f : list Subnet → list Subnet) (w : world) : world :=
  {| w_infra := w_infra w; w_netconf := w_netconf w; w_vpcs := w_vpcs w; w_subnets := f
     (w_subnets w); w_azs := w_azs w; w_offerings := w_offerings w; w_routeTables :=
     w_routeTables w; w_securityGroups := w_securityGroups w; w_peerings := w_peerings w;
     w_dbSubnetGroups := w_dbSubnetGroups w; w_cacheSubnetGroups := w_cacheSubnetGroups w;
     w_crs := w_crs w; w_configMaps := w_configMaps w; w_dbInstances := w_dbInstances w;
     w_replicationGroups := w_replicationGroups w; w_cacheClusters := w_cacheClusters w;
     w_secrets := w_secrets w; w_env := w_env w; w_fail := w_fail w;
     w_storage := w_storage w |}.
Definition with_crs (f : list CR → list CR) (w : world) : world :=
  {| w_infra := w_infra w; w_netconf := w_netconf w; w_vpcs := w_vpcs w; w_subnets :=
     w_subnets w; w_azs := w_azs w; w_offerings := w_offerings w; w_routeTables :=
     w_routeTables w; w_securityGroups := w_securityGroups w; w_peerings := w_peerings w;
     w_dbSubnetGroups := w_dbSubnetGroups w; w_cacheSubnetGroups := w_cacheSubnetGroups w;
     w_crs := f (w_crs w); w_configMaps := w_configMaps w; w_dbInstances := w_dbInstances w;
     w_replicationGroups := w_replicationGroups w; w_cacheClusters := w_cacheClusters w;
     w_secrets := w_secrets w; w_env := w_env w; w_fail := w_fail w;
     w_storage := w_storage w |}.
Definition with_dbInstances (f : list DBInstance → list DBInstance) (w : world) : world :=
  {| w_infra := w_infra w; w_netconf := w_netconf w; w_vpcs := w_vpcs w; w_subnets :=
     w_subnets w; w_azs := w_azs w; w_offerings := w_offerings w; w_routeTables :=
     w_routeTables w; w_securityGroups := w_securityGroups w; w_peerings := w_peerings w;
     w_dbSubnetGroups := w_dbSubnetGroups w; w_cacheSubnetGroups := w_cacheSubnetGroups w;
     w_crs := w_crs w; w_configMaps := w_configMaps w; w_dbInstances := f (w_dbInstances w);
     w_replicationGroups := w_replicationGroups w; w_cacheClusters := w_cacheClusters w;
     w_secrets := w_secrets w; w_env := w_env w; w_fail := w_fail w;
     w_storage := w_storage w |}.
Definition with_replicationGroups (f : list ReplicationGroup → list ReplicationGroup) (w : world) : world :=
  {| w_infra := w_infra w; w_netconf := w_netconf w; w_vpcs := w_vpcs w; w_subnets :=
     w_subnets w; w_azs := w_azs w; w_offerings := w_offerings w; w_routeTables :=
     w_routeTables w; w_securityGroups := w_securityGroups w; w_peerings := w_peerings w;
     w_dbSubnetGroups := w_dbSubnetGroups w; w_cacheSubnetGroups := w_cacheSubnetGroups w;
     w_crs := w_crs w; w_configMaps := w_configMaps w; w_dbInstances := w_dbInstances w;
     w_replicationGroups := f (w_replicationGroups w); w_cacheClusters := w_cacheClusters w;
     w_secrets := w_secrets w; w_env := w_env w; w_fail := w_fail w;
     w_storage := w_storage w |}.
Definition with_cacheClusters (f : list CacheCluster → list CacheCluster) (w : world) : world :=
  {| w_infra := w_infra w; w_netconf := w_netconf w; w_vpcs := w_vpcs w; w_subnets :=
     w_subnets w; w_azs := w_azs w; w_offerings := w_offerings w; w_routeTables :=
     w_routeTables w; w_securityGroups := w_securityGroups w; w_peerings := w_peerings w;
     w_dbSubnetGroups := w_dbSubnetGroups w; w_cacheSubnetGroups := w_cacheSubnetGroups w;
     w_crs := w_crs w; w_configMaps := w_configMaps w; w_dbInstances := w_dbInstances w;
     w_replicationGroups := w_replicationGroups w; w_cacheClusters := f (w_cacheClusters w);
     w_secrets := w_secrets w; w_env := w_env w; w_fail := w_fail w;
     w_storage := w_storage w |}.
Definition with_secrets (f : list Secret → list Secret) (w : world) : world :=
  {| w_infra := w_infra w; w_netconf := w_netconf w; w_vpcs := w_vpcs w; w_subnets :=
     w_subnets w; w_azs := w_azs w; w_offerings := w_offerings w; w_routeTables :=
     w_routeTables w; w_securityGroups := w_securityGroups w; w_peerings := w_peerings w;
     w_dbSubnetGroups := w_dbSubnetGroups w; w_cacheSubnetGroups := w_cacheSubnetGroups w;
     w_crs := w_crs w; w_configMaps := w_configMaps w; w_dbInstances := w_dbInstances w;
     w_replicationGroups := w_replicationGroups w; w_cacheClusters := w_cacheClusters w;
     w_secrets := f (w_secrets w); w_env := w_env w; w_fail := w_fail w;
     w_storage := w_storage w |}.
Definition with_configMaps (f : list (string * gmap string string) → list (string * gmap string string)) (w : world) : world :=
  {| w_infra := w_infra w; w_netconf := w_netconf w; w_vpcs := w_vpcs w; w_subnets :=
     w_subnets w; w_azs := w_azs w; w_offerings := w_offerings w; w_routeTables :=
     w_routeTables w; w_securityGroups := w_securityGroups w; w_peerings := w_peerings w;
     w_dbSubnetGroups := w_dbSubnetGroups w; w_cacheSubnetGroups := w_cacheSubnetGroups w;
     w_crs := w_crs w; w_configMaps := f (w_configMaps w); w_dbInstances := w_dbInstances w;
     w_replicationGroups := w_replicationGroups w; w_cacheClusters := w_cacheClusters w;
     w_secrets := w_secrets w; w_env := w_env w; w_fail := w_fail w;
     w_storage := w_storage w |}.
Definition with_env (f : list (string * string) → list (string * string)) (w : world) : world :=
  {| w_infra := w_infra w; w_netconf := w_netconf w; w_vpcs := w_vpcs w; w_subnets :=
     w_subnets w; w_azs := w_azs w; w_offerings := w_offerings w; w_routeTables :=
     w_routeTables w; w_securityGroups := w_securityGroups w; w_peerings := w_peerings w;
     w_dbSubnetGroups := w_dbSubnetGroups w; w_cacheSubnetGroups := w_cacheSubnetGroups w;
     w_crs := w_crs w; w_configMaps := w_configMaps w; w_dbInstances := w_dbInstances w;
     w_replicationGroups := w_replicationGroups w; w_cacheClusters := w_cacheClusters w;
     w_secrets := w_secrets w; w_env := f (w_env w); w_fail := w_fail w;
     w_storage := w_storage w |}.
Definition with_fail (f : list (string * string) → list (string * string)) (w : world) : world :=
  {| w_infra := w_infra w; w_netconf := w_netconf w; w_vpcs := w_vpcs w; w_subnets :=
     w_subnets w; w_azs := w_azs w; w_offerings := w_offerings w; w_routeTables :=
     w_routeTables w; w_securityGroups := w_securityGroups w; w_peerings := w_peerings w;
     w_dbSubnetGroups := w_dbSubnetGroups w; w_cacheSubnetGroups := w_cacheSubnetGroups w;
     w_crs := w_crs w; w_configMaps := w_configMaps w; w_dbInstances := w_dbInstances w;
     w_replicationGroups := w_replicationGroups w; w_cacheClusters := w_cacheClusters w;
     w_secrets := w_secrets w; w_env := w_env w; w_fail := f (w_fail w);
     w_storage := w_storage w |}.
Definition with_storage (x : storage) (w : world) : world :=
  {| w_infra := w_infra w; w_netconf := w_netconf w; w_vpcs := w_vpcs w; w_subnets :=
     w_subnets w; w_azs := w_azs w; w_offerings := w_offerings w; w_routeTables :=
     w_routeTables w; w_securityGroups := w_securityGroups w; w_peerings := w_peerings w;
     w_dbSubnetGroups := w_dbSubnetGroups w; w_cacheSubnetGroups := w_cacheSubnetGroups w;
     w_crs := w_crs w; w_configMaps := w_configMaps w; w_dbInstances := w_dbInstances w;
     w_replicationGroups := w_replicationGroups w; w_cacheClusters := w_cacheClusters w;
     w_secrets := w_secrets w; w_env := w_env w; w_fail := w_fail w; w_storage := x |}.

Definition tagsOf (ts : list TagSpecification) : list AwsTag :=
  concat (map TagSpecification_Tags ts).

Definition notFoundK8s {A} : result A := Er (K8sErr NotFound "not found").
Definition notFoundGoogle {A} : result A := Er (GoogleErr 404 "not found").
Definition found {A} (f : A → bool) (l : list A) (no : result A) : result A :=
  match List.find f l with Some x => Ok x | None => no end.
(** Workloads: deployments are those of the world, other objects are never there. *)
Definition sim_workload (c : workload_call) (w : world) : workload_resp c * world :=
  (match c as c0 return workload_resp c0 with
   | GetDeployment name _ =>
       found (λ d, bool_decide (Depl_Name d = name)) (cl_deployments (st_cloud (w_storage w)))
         notFoundK8s
   | CreateDeployment d => answer w "CreateDeployment" d
   | UpdateDeployment d => answer w "UpdateDeployment" d
   | DeleteDeployment _ _ => answer w "DeleteDeployment" tt
   | GetService _ _ => notFoundK8s
   | CreateService s => answer w "CreateService" s
   | UpdateService s => answer w "UpdateService" s
   | DeleteService _ _ => answer w "DeleteService" tt
   | GetPVC _ _ => notFoundK8s
   | CreatePVC o => answer w "CreatePVC" o
   | UpdatePVC o => answer w "UpdatePVC" o
   | DeletePVC _ _ => answer w "DeletePVC" tt
   | DeleteConfigMap _ _ => answer w "DeleteConfigMap" tt
   | ListPods _ _ => cl_pods (st_cloud (w_storage w))
   | PodExec _ _ _ => match failing w "PodExec" with
                      | Some e => Some ("stderr", e) | None => None end
   end, w).
Definition sim_gcp (c : gcp_call) (w : world) : gcp_resp c * world :=
  let cl := st_cloud (w_storage w) in
  (match c as c0 return gcp_resp c0 with
   | NewClient _ _ => answer w "NewClient" tt
   | ListNetworks _ _ => (cl_networks cl, failing w "ListNetworks")
   | RemovePeering _ _ _ => answer w "RemovePeering" tt
   | InsertGlobalAddress _ _ => answer w "InsertGlobalAddress" tt
   | DeleteGlobalAddress _ _ => answer w "DeleteGlobalAddress" tt
   | OperationWait => answer w "OperationWait" tt
   | GetGlobalAddress name _ =>
       found (λ a, bool_decide (Address_Name a = Some name)) (cl_addresses cl) notFoundGoogle
   | GetSubnetwork _ _ _ =>
       answer w "GetSubnetwork" {| Subnetwork_IpCidrRange := Some (cl_subnetwork cl) |}
   | ConnectionsList _ _ => answer w "ConnectionsList" (cl_connections cl)
   | ConnectionsCreate _ _ _ => answer w "ConnectionsCreate" tt
   | ConnectionsDelete _ _ => answer w "ConnectionsDelete" true
   | GetRedisInstance name =>
       found (λ i, bool_decide (RI_Name i = name)) (cl_redis cl) notFoundGoogle
   | CreateRedisInstance _ => answer w "CreateRedisInstance" tt
   | UpdateRedisInstance _ _ => answer w "UpdateRedisInstance" tt
   | UpgradeRedisInstance _ _ => answer w "UpgradeRedisInstance" tt
   | DeleteRedisInstance _ => answer w "DeleteRedisInstance" tt
   | GetSqlInstance _ name =>
       found (λ i, bool_decide (SI_Name i = name)) (cl_sql cl) notFoundGoogle
   | InsertSqlInstance _ _ => answer w "InsertSqlInstance" tt
   | PatchSqlInstance _ _ _ => answer w "PatchSqlInstance" tt
   | DeleteSqlInstance _ _ => answer w "DeleteSqlInstance" tt
   | ExportSqlInstance _ _ _ _ _ => answer w "ExportSqlInstance" tt
   | GetBucketAttrs name =>
       match List.find (λ b, bool_decide (b.1 = name)) (cl_buckets cl) with
       | Some b => Ok b.2
       | None => Er (GoErr "storage: bucket doesn't exist")
       end
   | CreateGcsBucket _ _ _ => answer w "CreateGcsBucket" tt
   | DeleteGcsBucket _ => answer w "DeleteGcsBucket" tt
   | GetBucketPolicy _ => answer w "GetBucketPolicy" []
   | SetPolicy _ _ => answer w "SetPolicy" tt
   | UpdateBucketLifecycle _ _ => answer w "UpdateBucketLifecycle" tt
   | ListObjects _ => answer w "ListObjects" (cl_objects cl)
   | GetObjectAttrs _ name =>
       if bool_decide (name ∈ cl_objects cl) then Ok name
       else Er (GoErr "storage: object doesn't exist")
   | DeleteObject _ _ => answer w "DeleteObject" tt
   | ListTimeSeries _ =>
       match failing w "ListTimeSeries" with
       | Some e => ([], Some e)
       | None => ([[S754_finite false 1 0; S754_finite false 3 0]], None)
       end
   end, w).

Definition sim (c : api_call) (w : world) : api_resp c * world :=
  match c with
  | DescribeVpcs ids =>
      (answer w "DescribeVpcs"
         (List.filter (λ v, bool_decide (ids = []) || bool_decide (Vpc_VpcId v ∈ ids)) (w_vpcs w)),
       w)
  | CreateVpc cidr ts =>
      let v := {| Vpc_VpcId := Some "vpc-new"; Vpc_CidrBlock := cidr;
                  Vpc_State := Some "pending"; Vpc_Tags := tagsOf ts |} in
      match failing w "CreateVpc" with
      | Some e => (Er e, w)
      | None => (Ok v, with_vpcs (λ l, l ++ [v]) w)
      end
  | WaitUntilVpcExists _ => (answer w "WaitUntilVpcExists" tt, w)
  | DeleteVpc id =>
      match failing w "DeleteVpc" with
      | Some e => (Er e, w)
      | None => (Ok tt, with_vpcs (List.filter (λ v, negb (bool_decide (Vpc_VpcId v = id)))) w)
      end
  | DescribeSubnets => (answer w "DescribeSubnets" (w_subnets w), w)
  | CreateSubnet az cidr vpc ts =>
      let v := {| Subnet_SubnetId := Some "subnet-new"; Subnet_VpcId := vpc;
                  Subnet_CidrBlock := cidr; Subnet_AvailabilityZone := az;
                  Subnet_Tags := tagsOf ts |} in
      match failing w "CreateSubnet" with
      | Some e => (Er e, w)
      | None => (Ok v, with_subnets (λ l, l ++ [v]) w)
      end
  | DeleteSubnet id =>
      match failing w "DeleteSubnet" with
      | Some e => (Er e, w)
      | None =>
          (Ok tt, with_subnets (List.filter (λ v, negb (bool_decide (Subnet_SubnetId v = id)))) w)
      end
  | DescribeAvailabilityZones => (answer w "DescribeAvailabilityZones" (w_azs w), w)
  | DescribeInstanceTypeOfferings _ _ =>
      (answer w "DescribeInstanceTypeOfferings" (w_offerings w), w)
  | DescribeRouteTables _ => (answer w "DescribeRouteTables" (w_routeTables w), w)
  | DescribeSecurityGroups _ => (answer w "DescribeSecurityGroups" (w_securityGroups w), w)
  | CreateSecurityGroup _ name _ _ => (answer w "CreateSecurityGroup" (Some "sg-new"), w)
  | DescribeVpcPeeringConnections _ _ =>
      (answer w "DescribeVpcPeeringConnections" (w_peerings w), w)
  | CreateVpcPeeringConnection _ _ _ =>
      (answer w "CreateVpcPeeringConnection"
         {| Peering_Id := Some "pcx-new";
            Peering_Status := Some {| PS_Code := Some "pending-acceptance"; PS_Message := None |};
            Peering_Tags := [] |}, w)
  | DescribeDBSubnetGroups => (answer w "DescribeDBSubnetGroups" (w_dbSubnetGroups w), w)
  | ListTagsForResource _ => (answer w "ListTagsForResource" [], w)
  | DescribeCacheSubnetGroups => (answer w "DescribeCacheSubnetGroups" (w_cacheSubnetGroups w), w)
  | DescribeDBInstances => (answer w "DescribeDBInstances" (w_dbInstances w), w)
  | CreateDBInstance _ => (answer w "CreateDBInstance" tt, w)
  | DeleteDBInstance _ => (answer w "DeleteDBInstance" tt, w)
  | ModifyDBInstance _ => (answer w "ModifyDBInstance" tt, w)
  | DescribeDBSnapshots _ name =>
      (answer w "DescribeDBSnapshots"
         (List.filter (λ x, bool_decide (name = None) ||
                            bool_decide (Snap_DBSnapshotIdentifier x = name))
            (w_dbSnapshots w)), w)
  | DescribePendingMaintenanceActions _ => (answer w "DescribePendingMaintenanceActions" [], w)
  | ApplyPendingMaintenanceAction _ _ _ => (answer w "ApplyPendingMaintenanceAction" tt, w)
  | DescribeInstanceTypes _ => (answer w "DescribeInstanceTypes" [Some 2048%Z], w)
  | DescribeReplicationGroups =>
      (answer w "DescribeReplicationGroups" (w_replicationGroups w), w)
  | CreateReplicationGroup _ => (answer w "CreateReplicationGroup" tt, w)
  | DeleteReplicationGroup _ => (answer w "DeleteReplicationGroup" tt, w)
  | ModifyReplicationGroup _ => (answer w "ModifyReplicationGroup" tt, w)
  | DescribeCacheClusters _ => (answer w "DescribeCacheClusters" (w_cacheClusters w), w)
  | DescribeUpdateActions _ _ => (answer w "DescribeUpdateActions" [], w)
  | BatchApplyUpdateAction _ _ => (answer w "BatchApplyUpdateAction" [], w)
  | DescribeSnapshots _ name =>
      (answer w "DescribeSnapshots"
         (List.filter (λ x, bool_decide (name = None) || bool_decide (CS_SnapshotName x = name))
            (w_cacheSnapshots w)), w)
  | DescribeReplicationGroup id =>
      ((Some (List.filter (λ g, bool_decide (RG_ReplicationGroupId g = id))
                (w_replicationGroups w)), None), w)
  | CreateDBSnapshot _ _ _ => (answer w "CreateDBSnapshot" tt, w)
  | DeleteDBSnapshot _ => (answer w "DeleteDBSnapshot" tt, w)
  | CreateSnapshot _ _ _ => (answer w "CreateSnapshot" tt, w)
  | DeleteSnapshot _ => (answer w "DeleteSnapshot" tt, w)
  | ListBuckets => (answer w "ListBuckets" (map Some (w_buckets w)), w)
  | CreateBucket _ => (answer w "CreateBucket" tt, w)
  | DeleteBucket _ => (answer w "DeleteBucket" tt, w)
  | ListObjectsV2 b =>
      (match b with
       | Some name => if bool_decide (name ∈ w_buckets w)
                      then answer w "ListObjectsV2" (map Some (w_objects w))
                      else Er (AwsErr "NoSuchBucket" "the bucket does not exist")
       | None => Er (AwsErr "InvalidBucketName" "")
       end, w)
  | BatchDelete _ => (answer w "BatchDelete" tt, w)
  | PutPublicAccessBlock _ _ _ _ _ => (answer w "PutPublicAccessBlock" tt, w)
  | PutBucketEncryption _ _ => (answer w "PutBucketEncryption" tt, w)
  | PutBucketTagging _ _ => (answer w "PutBucketTagging" tt, w)
  | CreateCR o => (answer w "CreateCR" o, w)
  | Workload c => sim_workload c w
  | Gcp c => sim_gcp c w
  | GetMetricData qs _ _ =>
      (answer w "GetMetricData"
         (Some (map (λ q, {| MDR_Id := Some (MDQ_Id q); MDR_StatusCode := Some "Complete";
                             MDR_Values := [Some (S754_finite false 1 0)] |}) qs)), w)
  | CreateConfigMap _ _ d => (answer w "CreateConfigMap" d, w)
  | UpdateConfigMap _ _ d => (answer w "UpdateConfigMap" d, w)
  | DeleteCredentialsRequest _ _ => (answer w "DeleteCredentialsRequest" tt, w)
  | GetSnapshotCR k name ns =>
      (match List.find (λ o, bool_decide (Snapshot_kind o = k) &&
                             bool_decide (Meta_Name (Snapshot_Meta o) = name))
                       (w_snapshotCRs w) with
       | Some o => Ok o
       | None => Er (K8sErr NotFound "not found")
       end, w)
  | ListSnapshotCR k ns =>
      (answer w "ListSnapshotCR"
         (List.filter (λ o, bool_decide (Snapshot_kind o = k) &&
                            bool_decide (Meta_Namespace (Snapshot_Meta o) = ns)) (w_snapshotCRs w)), w)
  | CreateSnapshotCR _ _ _ _ => (answer w "CreateSnapshotCR" tt, w)
  | DeleteSnapshotCR _ => (answer w "DeleteSnapshotCR" tt, w)
  | UpdateSnapshotCR o => (answer w "UpdateSnapshotCR" o, w)
  | StatusUpdateSnapshotCR o => (answer w "StatusUpdateSnapshotCR" o, w)
  | EC_AddTagsToResource _ _ => (answer w "EC_AddTagsToResource" tt, w)
  | NewSession _ _ => (answer w "NewSession" tt, w)
  | GetCallerIdentity => (answer w "GetCallerIdentity" (Some "123456789012"), w)
  | GetSecret name ns =>
      (match List.find (λ o, bool_decide (Secret_Name o = name) &&
                             bool_decide (Secret_Namespace o = ns)) (w_secrets w) with
       | Some o => answer w "GetSecret" o
       | None => Er (K8sErr NotFound "secret not found")
       end, w)
  | CreateSecret o => (answer w "CreateSecret" o, with_secrets (λ l, l ++ [o]) w)
  | UpdateSecret o => (answer w "UpdateSecret" o, w)
  | DeleteSecret _ _ => (answer w "DeleteSecret" tt, w)
  | GetCredentialsRequest name ns =>
      (answer w "GetCredentialsRequest"
         {| CReq_Name := name; CReq_Namespace := ns; CReq_ProviderSpec := "";
            CReq_SecretRef := (name, ns); CReq_Provisioned := true;
            CReq_ProviderStatus := "" |}, w)
  | CreateCredentialsRequest o => (answer w "CreateCredentialsRequest" o, w)
  | UpdateCredentialsRequest o => (answer w "UpdateCredentialsRequest" o, w)
  | GetInfrastructure => (w_infra w, w)
  | GetNetworkConf => (w_netconf w, w)
  | GetConfigMap name _ =>
      (match List.find (λ p, bool_decide (p.1 = name)) (w_configMaps w) with
       | Some p => Ok p.2
       | None => Er (K8sErr NotFound "not found")
       end, w)
  | GetCR k name ns =>
      (match List.find (λ o, bool_decide (CR_kind o = k) && bool_decide (Meta_Name (CR_Meta o) = name))
                       (w_crs w) with
       | Some o => Ok o
       | None => Er (K8sErr NotFound "not found")
       end, w)
  | UpdateCR o => (answer w "UpdateCR" o, w)
  | StatusUpdateCR o => (answer w "StatusUpdateCR" o, w)
  | ListCR k => (answer w "ListCR" (List.filter (λ o, bool_decide (CR_kind o = k)) (w_crs w)), w)
  | LookupEnv name => (snd <$> List.find (λ p, bool_decide (p.1 = name)) (w_env w), w)
  | UnixNow => (1700000000%Z, w)
  | TimeNow => (1700000000000000000%Z, w)
  | PollTick => (false, w)
  | Schedule n => (match failing w "Schedule" with Some _ => pred n | None => 0 end, w)
  | StatFile _ => (StatNotExist, w)
  | ReadFile _ => (ReadNotExist, w)
  | NewRandomUUID => (Ok "11111111-2222-4333-8444-555555555555", w)
  | TCPConnection _ _ => (true, w)
  | SetMetric _ _ _ => (tt, w)
  | SetMetricCurrentTime _ _ => (tt, w)
  | ResetMetric _ => (tt, w)
  | SetGauge _ _ _ => (tt, w)
  | CreateTags _ _ => (answer w "CreateTags" tt, w)
  | CreateRoute _ _ _ => (answer w "CreateRoute" tt, w)
  | DeleteRoute _ _ => (answer w "DeleteRoute" tt, w)
  | DeleteSecurityGroup _ => (answer w "DeleteSecurityGroup" tt, w)
  | AuthorizeSecurityGroupIngress _ _ => (answer w "AuthorizeSecurityGroupIngress" tt, w)
  | AcceptVpcPeeringConnection _ => (answer w "AcceptVpcPeeringConnection" tt, w)
  | DeleteVpcPeeringConnection _ => (answer w "DeleteVpcPeeringConnection" tt, w)
  | CreateDBSubnetGroup _ _ _ _ => (answer w "CreateDBSubnetGroup" tt, w)
  | ModifyDBSubnetGroup _ _ _ => (answer w "ModifyDBSubnetGroup" tt, w)
  | DeleteDBSubnetGroup _ => (answer w "DeleteDBSubnetGroup" tt, w)
  | RemoveTagsFromResource _ _ => (answer w "RemoveTagsFromResource" tt, w)
  | RDS_AddTagsToResource _ _ => (answer w "RDS_AddTagsToResource" tt, w)
  | CreateCacheSubnetGroup _ _ _ _ => (answer w "CreateCacheSubnetGroup" tt, w)
  | ModifyCacheSubnetGroup _ _ _ => (answer w "ModifyCacheSubnetGroup" tt, w)
  | DeleteCacheSubnetGroup _ => (answer w "DeleteCacheSubnetGroup" tt, w)
  end.

(** The trace and the outcome of a program in a world. *)
Definition sim_run {S E A} (m : M S E A) (s : S) (w : world) : list event * (outcome E A * S) :=
  (exec (sim : ∀ c : call, world → resp c * world) (m s) w).1.
Lemma sim_runs {S E A} (m : M S E A) (s : S) w :
  runs (m s) (sim_run m s w).1 ((sim_run m s w).2.1, (sim_run m s w).2.2).
Proof.
  pose proof (exec_runs (sim : ∀ c : call, world → resp c * world) (m s) w) as H.
  unfold sim_run. by destruct (exec _ _ w) as [[tr [o s']] w'].
Qed.

Lemma sim_returns {S E A} (m : M S E A) (s : S) w o s' :
  (sim_run m s w).2 = (o, s') → runs (m s) (sim_run m s w).1 (o, s').
Proof. intros H. pose proof (sim_runs m s w) as R. by rewrite H in R. Qed.

(** ** A cluster on AWS *)

Definition tag (k v : string) : AwsTag := {| AwsTag_Key := Some k; AwsTag_Value := Some v |}.
Definition subnet (id vpc cidr az : string) (tags : list AwsTag) : Subnet :=
  {| Subnet_SubnetId := Some id; Subnet_VpcId := Some vpc; Subnet_CidrBlock := Some cidr;
     Subnet_AvailabilityZone := Some az; Subnet_Tags := tags |}.
Definition clusterVpcObj : Vpc :=
  {| Vpc_VpcId := Some "vpc-cluster"; Vpc_CidrBlock := Some "10.0.0.0/16";
     Vpc_State := Some "available"; Vpc_Tags := [] |}.
Definition standaloneVpcObj : Vpc :=
  {| Vpc_VpcId := Some "vpc-cro"; Vpc_CidrBlock := Some "10.1.0.0/26";
     Vpc_State := Some "available"; Vpc_Tags := [tag "integreatly.org/clusterID" "ocp"] |}.
Definition routeTable (id vpc : string) (tags : list AwsTag) : RouteTable :=
  {| RouteTable_RouteTableId := Some id; RouteTable_VpcId := Some vpc;
     RouteTable_Routes := []; RouteTable_Tags := tags |}.
Definition securityGroup (id name vpc : string) : SecurityGroup :=
  {| SG_GroupId := Some id; SG_GroupName := Some name; SG_VpcId := Some vpc;
     SG_Tags := []; SG_IpPermissions := [] |}.

(** The cluster before the operator created anything. *)
Definition freshWorld : world := {|
  w_infra := Ok {| Infra_InfrastructureName := "ocp";
                   Infra_PlatformStatus := Some {| Platform_Type := "AWS";
                     Platform_AWS := Some {| AWSPlatform_Region := "eu-west-1";
                                             AWSPlatform_ResourceTags := [] |};
                     Platform_GCP := None |} |};
  w_netconf := Ok {| NetworkConf_ClusterNetwork := ["10.128.0.0/14"];
                     NetworkConf_ServiceNetwork := ["172.30.0.0/16"] |};
  w_vpcs := [clusterVpcObj];
  w_subnets := [subnet "subnet-1" "vpc-cluster" "10.0.0.0/20" "eu-west-1a"
                  [tag "kubernetes.io/cluster/ocp" "owned"]];
  w_azs := [{| AZ_ZoneName := Some "eu-west-1b"; AZ_State := Some "available" |};
            {| AZ_ZoneName := Some "eu-west-1a"; AZ_State := Some "available" |}];
  w_offerings := [Some "eu-west-1a"; Some "eu-west-1b"];
  w_routeTables := [routeTable "rtb-1" "vpc-cluster" []];
  w_securityGroups := []; w_peerings := []; w_dbSubnetGroups := [];
  w_cacheSubnetGroups := []; w_crs := []; w_configMaps := [];
  w_dbInstances := []; w_replicationGroups := []; w_cacheClusters := []; w_secrets := [];
  w_env := []; w_fail := []; w_storage := noStorage |}.

(** The same with some calls failing. *)
Definition failingWorld (w : world) (fs : list (string * string)) : world :=
  with_fail (λ _, fs) w.

(** The cluster with its standalone network. *)
Definition networkWorld : world := {|
  w_infra := w_infra freshWorld; w_netconf := w_netconf freshWorld;
  w_vpcs := [clusterVpcObj; standaloneVpcObj];
  w_subnets := w_subnets freshWorld ++
    [subnet "subnet-2" "vpc-cro" "10.1.0.0/27" "eu-west-1a" [];
     subnet "subnet-3" "vpc-cro" "10.1.0.32/27" "eu-west-1b" []];
  w_azs := w_azs freshWorld; w_offerings := w_offerings freshWorld;
  w_routeTables := [routeTable "rtb-1" "vpc-cluster" [];
                    routeTable "rtb-2" "vpc-cro" [tag "integreatly.org/clusterID" "ocp"]];
  w_securityGroups := [securityGroup "sg-1" "ocpsecuritygroup" "vpc-cro"];
  w_peerings := [{| Peering_Id := Some "pcx-1";
                    Peering_Status := Some {| PS_Code := Some "active"; PS_Message := None |};
                    Peering_Tags := [] |}];
  w_dbSubnetGroups := [{| DBSG_Name := Some "ocpsubnetgroup"; DBSG_Arn := Some "arn";
                          DBSG_Description := None; DBSG_VpcId := Some "vpc-cro";
                          DBSG_Subnets := [] |}];
  w_cacheSubnetGroups := [{| CSG_Name := Some "ocpsubnetgroup"; CSG_Description := None;
                             CSG_Subnets := [] |}];
  w_crs := []; w_configMaps := [];
  w_dbInstances := []; w_replicationGroups := []; w_cacheClusters := []; w_secrets := [];
  w_env := []; w_fail := []; w_storage := noStorage |}.

(** Versions as lists of numbers, compared lexicographically; no credentials. *)
Fixpoint versionNumbers (s : string) (n : Z) : option (list Z) :=
  match s with
  | EmptyString => Some [n]
  | String c s' => if (c =? ".")%char then cons n <$> versionNumbers s' 0
                   else match GoNet.digit_val c with
                        | Some d => versionNumbers s' (10 * n + d)
                        | None => None
                        end
  end.
Fixpoint versionBefore (v w : list Z) : bool :=
  match v, w with
  | [], _ :: _ => true
  | a :: v', b :: w' => (a <? b)%Z || ((a =? b)%Z && versionBefore v' w')
  | _, [] => false
  end.
#[global] Instance noThirdParty : ThirdParty := {|
  prettifyAZs := λ _, "";
  Version := list Z;
  NewVersion := λ s, match versionNumbers s 0 with
                     | Some v => Ok v | None => Er (GoErr ("Malformed version: " +:+ s)) end;
  LessThan := versionBefore;
  EncodeProviderSpec := λ _, Ok "";
  DecodeProviderStatus := λ _, Ok ("user", "policy") |}.

(** Membership of an event at a given position of a concrete trace. *)
Ltac event_at i := apply (list_elem_of_lookup_2 _ i); vm_compute; reflexivity.
(** The outcome of a concrete run. *)
Ltac concrete_run := apply sim_returns; vm_compute; reflexivity.
