(* ===== verification/NetworkRuns.v ===== *)
(** * Concrete runs of the network provider

    The theorems of [NetworkProps] applied to runs in the simulated environment
    of [Sim]: their hypotheses are met by actual runs of the methods. *)
From S2P Require Import Prelude Effects Api GoNet NetFacts Resources.
From S2P Require Import Subnets ClusterVpc NetworkProvider Sim NetworkProps.
Local Open Scope go_scope.
Definition block26 : IPNet := net4 167837696 26.

Lemma CreateNetwork_creates_disjoint_witness :
  (16 ≤ (Mask_Size (IPNet_Mask block26)).1 ≤ 26)%Z.
Proof.
  pose proof (sim_runs (S := unit) (CreateNetwork false block26) tt freshWorld) as R.
  eapply CreateNetwork_creates_disjoint in R; [exact (proj1 (proj2 R))|by apply wf_net4|].
  event_at 9%nat.
Defined.

(** The VPC is created but its existence is not confirmed in time. *)
Definition lateWorld : world := failingWorld freshWorld [("WaitUntilVpcExists", "RequestCanceled")].

Lemma CreateNetwork_deletes_own_witness :
  (sim_run (S := unit) (CreateNetwork false block26) tt lateWorld).2.1 =
  Val {| Network_Vpc := None; Network_Subnets := [] |}.
Proof.
  pose proof (sim_runs (S := unit) (CreateNetwork false block26) tt lateWorld) as R.
  eapply CreateNetwork_deletes_own in R as (b & ts & vpc & e & _ & _ & _ & R); [exact R|].
  event_at 11%nat.
Defined.

Lemma DeleteNetwork_order_witness :
  ∃ t1, (sim_run (S := unit) DeleteNetwork tt networkWorld).1 =
        t1 ++ [Ev (DeleteVpc (Some "vpc-cro")) (Ok tt)].
Proof.
  pose proof (sim_runs (S := unit) DeleteNetwork tt networkWorld) as R.
  eapply DeleteNetwork_order in R as (t1 & R & _); [exists t1; exact R|].
  event_at 11%nat.
Defined.

Definition standaloneNetwork : Network :=
  {| Network_Vpc := Some standaloneVpcObj; Network_Subnets := [] |}.

Lemma CreateNetworkConnection_routes_witness :
  ∃ ps peering, livePeering (E := error) ps = Val (Some peering).
Proof.
  assert (R : runs (CreateNetworkConnection false standaloneNetwork tt)
    (sim_run (S := unit) (CreateNetworkConnection false standaloneNetwork) tt networkWorld).1
    (Val {| NC_StandaloneSecurityGroup :=
              securityGroup "sg-1" "ocpsecuritygroup" "vpc-cro" |}, tt))
    by concrete_run.
  apply CreateNetworkConnection_routes in R
    as (vpc & fs & ps & peering & all & id & cv & _ & _ & Hl & _).
  exists ps, peering. exact Hl.
Defined.

Lemma DeleteNetworkConnection_needs_peering_witness :
  (sim_run (S := unit) (DeleteNetworkConnection {| NP_PeeringConnection := None |}) tt
     networkWorld).2.1 ≠ Val tt.
Proof.
  exact (DeleteNetworkConnection_needs_peering tt _ _ _ tt
    (sim_runs (S := unit) (DeleteNetworkConnection {| NP_PeeringConnection := None |}) tt
       networkWorld)).
Defined.

Lemma CreateNetworkPeering_once_witness :
  ∃ p, Peering_Id p = Some "pcx-new" ∧
       peeringCode (E := error) p = Val StatePendingAcceptance.
Proof.
  destruct (CreateNetworkPeering_once true
    {| Network_Vpc := Some standaloneVpcObj; Network_Subnets := [] |} tt _ _ _
    (sim_runs (S := unit) (CreateNetworkPeering true
       {| Network_Vpc := Some standaloneVpcObj; Network_Subnets := [] |}) tt freshWorld))
    as [_ H].
  eapply H. event_at 11%nat.
Defined.

Lemma IsEnabled_iff_witness :
  ∃ (subs : list Subnet) vid env infra, true = true ↔ ¬ ∃ sub, sub ∈ subs ∧
    Subnet_VpcId sub = vid ∧
    taggedWith (default DefaultTagKeyPrefix env +:+ "clusterID")
               (Infra_InfrastructureName infra) sub = true.
Proof.
  assert (R : runs (IsEnabled tt) (sim_run (S := unit) IsEnabled tt networkWorld).1 (Val true, tt))
    by concrete_run.
  apply IsEnabled_iff in R as (id & vpc & subs & infra & env & _ & _ & _ & _ & H).
  exists subs, (Vpc_VpcId vpc), env, infra. exact H.
Defined.

Lemma getNonOverlappingDefaultCIDR_disjoint_witness : block26 ∈ defaultCandidates.
Proof.
  assert (R : runs (getNonOverlappingDefaultCIDR tt)
    (sim_run (S := unit) getNonOverlappingDefaultCIDR tt freshWorld).1 (Val block26, tt))
    by concrete_run.
  exact (proj1 (getNonOverlappingDefaultCIDR_disjoint _ _ _ _ R)).
Defined.

(** The standalone VPC exists without its subnets. *)
Definition bareWorld : world := with_subnets (λ _, w_subnets freshWorld) networkWorld.
Lemma reconcileStandaloneVPCSubnets_creates_halves_witness :
  ∃ n1 n2, halveVpcCidr standaloneVpcObj = Val [n1; n2] ∧
    (Some "10.1.0.0/27" = Some (IPNet_String n1) ∨ Some "10.1.0.0/27" = Some (IPNet_String n2)).
Proof.
  pose proof (sim_runs (S := unit) (reconcileStandaloneVPCSubnets true standaloneVpcObj) tt
                bareWorld) as R.
  epose proof (λ az v ts r, reconcileStandaloneVPCSubnets_creates_halves true standaloneVpcObj tt _ _ _
    az (Some "10.1.0.0/27") v ts r R) as H.
  edestruct H as (_ & H1 & _).
  { event_at 6%nat. }
  exact H1.
Defined.
