(* ===== verification/AwsRuns.v ===== *)
(** * Concrete runs of the RDS provider and of the AWS configuration

    The theorems of [AwsPostgresProps] and [AwsConfigProps] applied to runs in the
    simulated environment of [Sim]. *)
From S2P Require Import Prelude Effects Api GoNet NetFacts Resources.
From S2P Require Import Subnets ClusterVpc NetworkProvider NetworkProps AwsConfig AwsPostgres.
From S2P Require Import AwsPostgresProps AwsConfigProps Sim.
Local Open Scope go_scope.

(** A Postgres resource of the tier [production]. *)
Definition pgMeta : ObjectMeta :=
  {| Meta_Name := "pg"; Meta_Namespace := "app"; Meta_Labels := ∅; Meta_Annotations := ∅;
     Meta_Finalizers := [DefaultFinalizer]; Meta_CreationTimestamp := 1600000000;
     Meta_DeletionTimestamp := None; Meta_UID := "uid-1" |}.
Definition pgCR : CR :=
  {| CR_kind := Postgres; CR_Meta := pgMeta;
     CR_Spec := {| Spec_Type := "workshop"; Spec_Tier := "production"; Spec_SkipCreate := false;
                   Spec_ApplyImmediately := false; Spec_MaintenanceWindow := true;
                   Spec_SecretRef := None; Spec_Size := "";
                   Spec_SnapshotFrequency := ""; Spec_SnapshotRetention := "" |};
     CR_Status := {| Status_Strategy := ""; Status_Provider := ""; Status_Version := "";
                     Status_SecretRef := None; Status_Phase := ""; Status_Message := "" |} |}.
Definition pgName : string := ShortenString "ocp-app-pg" defaultAwsIdentifierLength.

(** An instance as AWS reports it, configured with the defaults. *)
Definition pgInstance (status class : string) (protected : bool) : DBInstance :=
  {| DB_DBInstanceIdentifier := Some pgName; DB_DBInstanceArn := Some "arn:rds:pg";
     DB_DBInstanceStatus := Some status; DB_DBInstanceClass := Some class;
     DB_DBName := Some defaultAwsPostgresDatabase; DB_MasterUsername := Some defaultAwsPostgresUser;
     DB_Endpoint := Some {| Endpoint_Address := Some "pg.rds.amazonaws.com";
                            Endpoint_Port := Some defaultAwsPostgresPort |};
     DB_EngineVersion := Some defaultAwsEngineVersion; DB_CACertificateIdentifier := Some newCert;
     DB_DeletionProtection := Some protected;
     DB_BackupRetentionPeriod := Some defaultAwsBackupRetentionPeriod;
     DB_PubliclyAccessible := Some defaultAwsPubliclyAccessible;
     DB_AllocatedStorage := Some defaultAwsAllocatedStorage;
     DB_MaxAllocatedStorage := Some defaultAwsMaxAllocatedStorage;
     DB_MultiAZ := Some defaultAwsMultiAZ; DB_AutoMinorVersionUpgrade := Some false;
     DB_PreferredBackupWindow := Some "01:00-02:00";
     DB_PreferredMaintenanceWindow := Some "sun:03:00-sun:04:00";
     DB_PendingModifiedValues := None |}.
Definition pgSecret : Secret :=
  {| Secret_Name := "pg" +:+ defaultCredSecSuffix; Secret_Namespace := "app"; Secret_Owners := [];
     Secret_Data := Some {[ defaultPostgresPasswordKey := "hunter2" ]};
     Secret_StringData := ∅; Secret_Type := "Opaque" |}.
Definition stsSecret : Secret :=
  {| Secret_Name := defaultSTSCredentialSecretName; Secret_Namespace := "cro"; Secret_Owners := [];
     Secret_Data := Some {[ defaultRoleARNKeyName := "arn:aws:iam::role" ]};
     Secret_StringData := ∅; Secret_Type := "Opaque" |}.
Definition sts : PostgresProvider :=
  {| P_CredentialManager := STSCredentialManager "cro";
     P_ConfigManager := {| CM_configMapName := "cm"; CM_configMapNamespace := "cro" |} |}.

Definition pgWorld (instances : list DBInstance) : world :=
  with_dbInstances (λ _, instances)
    (with_secrets (λ _, [pgSecret; stsSecret])
      (with_env (λ _, [("WATCH_NAMESPACE", "cro")]) (with_crs (λ _, [pgCR]) networkWorld))).
Definition emptyConfig : CreateDBInstanceInput := decodeCreateDBInstanceInput [].
Definition emptyDelete : DeleteDBInstanceInput := decodeDeleteDBInstanceInput [].

(** The completed default configuration. *)
Definition defaultConfig : CreateDBInstanceInput :=
  match (sim_run (buildRDSCreateStrategy pgCR emptyConfig "hunter2") pgCR (pgWorld [])).2.1 with
  | Val cfg => cfg
  | _ => emptyConfig
  end.
Lemma default_complete : complete defaultConfig.
Proof. repeat split; vm_compute; by eexists. Qed.
Lemma pgInstance_reported status class protected : reported (pgInstance status class protected).
Proof. repeat split; try by eexists. intros ep [= <-]. by eexists. Qed.

(** ** The configuration of an instance *)

Lemma buildRDSUpdateStrategy_conforms_witness :
  conforms defaultConfig (pgInstance "available" "db.t3.small" true) ∧
  ¬ conforms defaultConfig (pgInstance "available" "db.t3.large" true).
Proof.
  split.
  - apply (proj1 (buildRDSUpdateStrategy_conforms defaultConfig
      (pgInstance "available" "db.t3.small" true) pgCR default_complete
      (pgInstance_reported _ _ _) eq_refl)). vm_compute. reflexivity.
  - intros H. apply (proj2 (buildRDSUpdateStrategy_conforms defaultConfig
      (pgInstance "available" "db.t3.large" true) pgCR default_complete
      (pgInstance_reported _ _ _) eq_refl)) in H. vm_compute in H. discriminate H.
Defined.

Lemma versionBefore_irreflexive v : versionBefore v v = false.
Proof. induction v as [|a v IH]; [done|]. simpl. by rewrite Z.ltb_irrefl, Z.eqb_refl, IH. Qed.

Lemma buildRDSUpdateStrategy_converges_witness :
  ∃ mi, buildRDSUpdateStrategy defaultConfig (pgInstance "available" "db.t3.large" true) pgCR
        = Val (Some mi) ∧
    buildRDSUpdateStrategy defaultConfig
      (applyModification mi (pgInstance "available" "db.t3.large" true)) pgCR = Val None.
Proof.
  eexists. split; [vm_compute; reflexivity|].
  apply buildRDSUpdateStrategy_converges;
    [intros s v _; apply versionBefore_irreflexive|apply default_complete
    |apply pgInstance_reported|vm_compute; reflexivity].
Defined.

(** The storage differs too, but only the change of the class is pending. *)
Definition pendingInstance : DBInstance :=
  {| DB_DBInstanceIdentifier := Some pgName; DB_DBInstanceArn := Some "arn:rds:pg";
     DB_DBInstanceStatus := Some "available"; DB_DBInstanceClass := Some "db.t3.large";
     DB_DBName := Some "postgres"; DB_MasterUsername := Some "postgres";
     DB_Endpoint := None; DB_EngineVersion := Some "13.13";
     DB_CACertificateIdentifier := Some newCert; DB_DeletionProtection := Some false;
     DB_BackupRetentionPeriod := Some 1%Z; DB_PubliclyAccessible := Some true;
     DB_AllocatedStorage := Some 20%Z; DB_MaxAllocatedStorage := Some 10%Z;
     DB_MultiAZ := Some false; DB_AutoMinorVersionUpgrade := Some false;
     DB_PreferredBackupWindow := Some "01:00-02:00";
     DB_PreferredMaintenanceWindow := Some "sun:03:00-sun:04:00";
     DB_PendingModifiedValues := Some {| PM_Port := None; PM_BackupRetentionPeriod := None;
       PM_DBInstanceClass := Some "db.t3.small"; PM_EngineVersion := None; PM_MultiAZ := None |} |}.
Lemma pendingInstance_reported : reported pendingInstance.
Proof. unfold reported. split_and!; done || by eexists. Qed.
Lemma buildRDSUpdateStrategy_masked_witness :
  ¬ ∃ mi, buildRDSUpdateStrategy defaultConfig pendingInstance pgCR = Val (Some mi).
Proof.
  intros [mi H]. revert H. apply (buildRDSUpdateStrategy_masked defaultConfig pendingInstance pgCR
    {| PM_Port := None; PM_BackupRetentionPeriod := None;
       PM_DBInstanceClass := Some "db.t3.small"; PM_EngineVersion := None; PM_MultiAZ := None |}
    "db.t3.small");
    [apply default_complete|apply pendingInstance_reported|reflexivity..|discriminate|reflexivity].
Defined.

Lemma buildRDSCreateStrategy_completes_witness :
  CI_DBInstanceIdentifier defaultConfig = Some pgName ∧ CI_Engine defaultConfig = Some "postgres".
Proof.
  assert (R : runs (buildRDSCreateStrategy pgCR emptyConfig "hunter2" pgCR)
    (sim_run (buildRDSCreateStrategy pgCR emptyConfig "hunter2") pgCR (pgWorld [])).1
    (Val defaultConfig, pgCR)) by concrete_run.
  apply buildRDSCreateStrategy_completes in R as (_ & _ & _ & _ & He & _).
  split; [vm_compute; reflexivity|exact He].
Defined.

(** ** Reconciling and deleting an instance *)

Lemma reconcileRDSInstance_creates_witness :
  annotations_Has pgMeta ResourceIdentifierAnnotation = false.
Proof.
  pose proof (sim_runs (reconcileRDSInstance sts emptyConfig true true) pgCR (pgWorld [])) as R.
  eapply reconcileRDSInstance_creates in R as (_ & H & _); [exact H|]. event_at 9%nat.
Defined.

Lemma reconcileRDSInstance_modifies_witness :
  ∃ (pi : list DBInstance) i, i ∈ pi ∧ DB_DBInstanceStatus i = Some "available".
Proof.
  pose proof (sim_runs (reconcileRDSInstance sts emptyConfig true true) pgCR
    (pgWorld [pgInstance "available" "db.t3.large" true])) as R.
  eapply reconcileRDSInstance_modifies in R as (_ & pi & i & cfg & _ & Hi & _ & _ & Hst & _);
    [by exists pi, i|]. event_at 6%nat.
Defined.

Lemma ReconcilePostgres_creates_witness :
  ∃ cr1 t1, reconcilePrepared pgCR cr1 t1.
Proof.
  pose proof (sim_runs (ReconcilePostgres sts) pgCR (pgWorld [])) as R.
  eapply ReconcilePostgres_creates in R as (cr1 & t1 & t2 & _ & _ & _ & H); [by exists cr1, t1|].
  event_at 90%nat.
Defined.


Lemma deleteRDSInstance_deletes_witness :
  ∃ i, DB_DBInstanceStatus i = Some "available" ∧ DB_DeletionProtection i = Some false.
Proof.
  pose proof (sim_runs (deleteRDSInstance true emptyConfig emptyDelete true true) pgCR
    (pgWorld [pgInstance "available" "db.t3.small" false])) as R.
  eapply deleteRDSInstance_deletes in R as ((pi & i & _ & _ & _ & Hst & Hp) & _);
    [by exists i|]. event_at 16%nat.
Defined.

Lemma deleteRDSInstance_finalizer_witness :
  ∃ tr, networkGone tr.
Proof.
  pose proof (sim_runs (deleteRDSInstance true emptyConfig emptyDelete true true) pgCR
    (pgWorld [])) as R.
  eapply deleteRDSInstance_finalizer in R as (_ & _ & H & _).
  - eexists. exact (H eq_refl).
  - event_at 39%nat.
Defined.

Lemma DeletePostgres_deletes_vpc_witness :
  ∃ postgres redis : list CR, (length postgres + length redis = 1)%nat.
Proof.
  pose proof (sim_runs (DeletePostgres sts) pgCR (pgWorld [])) as R.
  eapply DeletePostgres_deletes_vpc in R as ((ps & rs & _ & _ & H) & _); [by exists ps, rs|].
  event_at 55%nat.
Defined.

(** ** Configuration *)

Definition roleCredentials : Credentials :=
  {| Creds_Username := ""; Creds_PolicyName := ""; Creds_AccessKeyID := "";
     Creds_SecretAccessKey := ""; Creds_RoleArn := "arn:aws:iam::role";
     Creds_TokenFilePath := defaultTokenPath |}.

Lemma ReconcileProviderCredentials_usable_witness :
  usable (STSCredentialManager "cro") roleCredentials.
Proof.
  assert (R : runs (ReconcileProviderCredentials (STSCredentialManager "cro") "app" tt)
    (sim_run (S := unit) (ReconcileProviderCredentials (STSCredentialManager "cro") "app") tt
       (pgWorld [])).1 (Val roleCredentials, tt)) by concrete_run.
  exact (proj1 (ReconcileProviderCredentials_usable _ _ _ _ _ _ R)).
Defined.

Lemma CreateSessionFromStrategy_session_witness : ∃ region : string, region ≠ "".
Proof.
  assert (R : runs (CreateSessionFromStrategy roleCredentials defaultStrategy tt)
    (sim_run (S := unit) (CreateSessionFromStrategy roleCredentials defaultStrategy) tt
       (pgWorld [])).1 (Val tt, tt)) by concrete_run.
  apply CreateSessionFromStrategy_session in R as (region & local & t1 & _ & H & _).
  exists region. exact H.
Defined.

Lemma ReadStorageStrategy_reads_witness :
  ∃ o, (sim_run (S := unit) (ReadStorageStrategy (P_ConfigManager sts) "redis" "production") tt
          (pgWorld [])).2.1 = o ∧ o = Val defaultStrategy.
Proof.
  eexists. split; [reflexivity|].
  destruct (ReadStorageStrategy_reads _ _ _ _ _ _ _
    (sim_runs (S := unit) (ReadStorageStrategy (P_ConfigManager sts) "redis" "production") tt
       (pgWorld []))) as (r & Htr & _ & _ & H).
  apply (H ltac:(set_solver) ltac:(set_solver) (K8sErr NotFound "not found")); [|reflexivity].
  event_at 0%nat.
Defined.

Lemma ReconcileNetworkProviderConfig_block_witness : wf_net (net4 167837696 26).
Proof.
  assert (R : runs (ReconcileNetworkProviderConfig (P_ConfigManager sts) "production" tt)
    (sim_run (S := unit) (ReconcileNetworkProviderConfig (P_ConfigManager sts) "production") tt
       (pgWorld [])).1 (Val (net4 167837696 26), tt)) by concrete_run.
  exact (proj1 (ReconcileNetworkProviderConfig_block _ _ _ _ _ _ R)).
Defined.
