(* ===== verification/AwsRedisRuns.v ===== *)
(** * Concrete runs of the ElastiCache provider

    The theorems of [AwsRedisProps] applied to runs in the simulated environment
    of [Sim]. *)
From S2P Require Import Prelude Effects Api GoNet NetFacts Resources.
From S2P Require Import Subnets ClusterVpc NetworkProvider NetworkProps AwsConfig AwsPostgres AwsRedis.
From S2P Require Import AwsPostgresProps AwsRedisProps Sim AwsRuns.
Local Open Scope go_scope.

(** A Redis resource of the tier [production]. *)
Definition cacheMeta : ObjectMeta :=
  {| Meta_Name := "cache"; Meta_Namespace := "app"; Meta_Labels := ∅; Meta_Annotations := ∅;
     Meta_Finalizers := [DefaultFinalizer]; Meta_CreationTimestamp := 1600000000;
     Meta_DeletionTimestamp := None; Meta_UID := "uid-2" |}.
Definition cacheCR : CR :=
  {| CR_kind := Redis; CR_Meta := cacheMeta; CR_Spec := CR_Spec pgCR; CR_Status := CR_Status pgCR |}.
Definition cacheName : string := ShortenString "ocp-app-cache" defaultAwsIdentifierLength.

(** A group of one node and its cache cluster, as AWS reports them. *)
Definition cacheGroup (status nodeType : string) : ReplicationGroup :=
  {| RG_ReplicationGroupId := Some cacheName; RG_Status := Some status;
     RG_CacheNodeType := Some nodeType; RG_SnapshotRetentionLimit := Some defaultSnapshotRetention;
     RG_NodeGroups := Some [{| NG_NodeGroupId := Some "0001"; NG_Status := Some "available";
       NG_PrimaryEndpoint := Some {| Endpoint_Address := Some "cache.amazonaws.com";
                                     Endpoint_Port := Some 6379%Z |};
       NG_NodeGroupMembers := [{| NGM_CacheClusterId := Some "cache-001";
         NGM_PreferredAvailabilityZone := Some "eu-west-1a"; NGM_CurrentRole := None |}] |}];
     RG_MemberClusters := [Some "cache-001"] |}.
Definition cacheCluster : CacheCluster :=
  {| CC_CacheClusterId := Some "cache-001"; CC_ReplicationGroupId := Some cacheName;
     CC_CacheClusterStatus := Some "available"; CC_EngineVersion := Some "7.1";
     CC_PreferredAvailabilityZone := Some "eu-west-1a";
     CC_PreferredMaintenanceWindow := Some "sun:03:00-sun:04:00";
     CC_SnapshotWindow := Some "01:00-02:00" |}.
Definition cacheWorld (groups : list ReplicationGroup) : world :=
  with_replicationGroups (λ _, groups)
    (with_cacheClusters (λ _, [cacheCluster])
      (with_secrets (λ _, [stsSecret])
        (with_env (λ _, [("WATCH_NAMESPACE", "cro")]) (with_crs (λ _, [cacheCR]) networkWorld)))).
Definition stsRedis : RedisProvider :=
  {| R_CredentialManager := P_CredentialManager sts; R_ConfigManager := P_ConfigManager sts |}.
Definition emptyGroup : CreateReplicationGroupInput := decodeCreateReplicationGroupInput [].
Definition emptyGroupDelete : DeleteReplicationGroupInput := decodeDeleteReplicationGroupInput [].

(** The completed default configuration. *)
Definition defaultGroup : CreateReplicationGroupInput :=
  match (sim_run (buildElasticacheCreateStrategy cacheCR emptyGroup) cacheCR (cacheWorld [])).2.1 with
  | Val cfg => cfg
  | _ => emptyGroup
  end.

Lemma buildElasticacheUpdateStrategy_spec_witness :
  ¬ groupConforms defaultGroup (cacheGroup "available" "cache.t3.small") [cacheCluster]
      (sim_run (S := unit) (buildElasticacheUpdateStrategy defaultGroup
         (cacheGroup "available" "cache.t3.small") [cacheCluster] cacheCR) tt (cacheWorld [])).1.
Proof.
  assert (R : runs (buildElasticacheUpdateStrategy defaultGroup
      (cacheGroup "available" "cache.t3.small") [cacheCluster] cacheCR tt)
    (sim_run (S := unit) (buildElasticacheUpdateStrategy defaultGroup
       (cacheGroup "available" "cache.t3.small") [cacheCluster] cacheCR) tt (cacheWorld [])).1
    (Val (Some {| MR_ReplicationGroupId := Some cacheName;
                  MR_CacheNodeType := Some "cache.t3.micro"; MR_ApplyImmediately := Some false;
                  MR_SnapshotRetentionLimit := None; MR_EngineVersion := None;
                  MR_PreferredMaintenanceWindow := None; MR_SnapshotWindow := None |}), tt))
    by concrete_run.
  eapply buildElasticacheUpdateStrategy_spec in R as [_ R].
  apply (R _ eq_refl).
Defined.

Lemma createElasticacheCluster_creates_witness :
  annotations_Has cacheMeta ResourceIdentifierAnnotation = false.
Proof.
  pose proof (sim_runs (createElasticacheCluster stsRedis emptyGroup [] true true) cacheCR
    (cacheWorld [])) as R.
  eapply createElasticacheCluster_creates in R as (_ & H & _); [exact H|]. event_at 8%nat.
Defined.

Lemma createElasticacheCluster_modifies_witness :
  ∃ (rgs : list ReplicationGroup) g, g ∈ rgs ∧ RG_Status g = Some "available".
Proof.
  pose proof (sim_runs (createElasticacheCluster stsRedis emptyGroup [] true true) cacheCR
    (cacheWorld [cacheGroup "available" "cache.t3.small"])) as R.
  eapply (createElasticacheCluster_modifies stsRedis emptyGroup [] true true cacheCR _ _ _
            (ModifyReplicationGroup _)) in R
    as (cfg & rgs & g & _ & _ & _ & Hg & _ & Hst & _); [by exists rgs, g| |exact I].
  event_at 7%nat.
Defined.


Lemma deleteElasticacheCluster_deletes_witness :
  ∃ g, RG_Status g = Some "available" ∧ RG_ReplicationGroupId g = Some cacheName.
Proof.
  pose proof (sim_runs (deleteElasticacheCluster true defaultGroup emptyGroupDelete true true)
    cacheCR (cacheWorld [cacheGroup "available" "cache.t3.micro"])) as R.
  eapply deleteElasticacheCluster_deletes in R
    as ((rgs & g & id & _ & _ & Hid & Hst & Hx & _) & _);
    [exists g; split; [exact Hst|rewrite Hid; apply Hx; vm_compute; reflexivity]|].
  event_at 13%nat.
Defined.

Lemma deleteElasticacheCluster_finalizer_witness :
  ∃ tr, networkGone tr.
Proof.
  pose proof (sim_runs (deleteElasticacheCluster true emptyGroup emptyGroupDelete true true)
    cacheCR (cacheWorld [])) as R.
  eapply deleteElasticacheCluster_finalizer in R as (_ & H & _).
  - eexists. exact (H eq_refl).
  - event_at 38%nat.
Defined.

(** The delete strategy names a group, the create strategy does not. *)
Definition namedDelete : DeleteReplicationGroupInput :=
  {| DR_FinalSnapshotIdentifier := None; DR_ReplicationGroupId := Some "my-group";
     DR_RetainPrimaryCluster := None |}.
