(* ===== verification/ControllerRuns.v ===== *)
(** * Concrete runs of the controllers

    The theorems of [ControllerProps] and [ControllerAws] applied to runs in the
    simulated environment of [Sim]. *)
From S2P Require Import Prelude Effects Api GoNet NetFacts Resources.
From S2P Require Import Subnets ClusterVpc NetworkProvider NetworkProps AwsConfig AwsPostgres AwsRedis.
From S2P Require Import Controllers AwsPostgresProps ControllerProps ControllerAws Sim AwsRuns.
Local Open Scope go_scope.

(** The Postgres resource of [AwsRuns] with a secret to write. *)
Definition deployedCR : CR :=
  {| CR_kind := Postgres; CR_Meta := pgMeta;
     CR_Spec := {| Spec_Type := "aws"; Spec_Tier := "production"; Spec_SkipCreate := false;
                   Spec_ApplyImmediately := false; Spec_MaintenanceWindow := true;
                   Spec_SecretRef := Some {| SecretRef_Name := "pg-secret";
                                             SecretRef_Namespace := "" |};
                   Spec_Size := ""; Spec_SnapshotFrequency := ""; Spec_SnapshotRetention := "" |};
     CR_Status := CR_Status pgCR |}.
Definition deployedWorld : world :=
  with_crs (λ _, [deployedCR]) (pgWorld [pgInstance "available" "db.t3.small" true]).
Definition controller : Reconciler := PostgresReconciler [awsPostgres sts].
Lemma controller_frames q : q ∈ R_providerList controller → StatusFrame q.
Proof. intros ->%list_elem_of_singleton. apply _. Qed.
Definition completeRun := sim_run (Reconcile controller "cro" "pg" "app") pgCR deployedWorld.

(** The object of the run once it is complete. *)
Definition completeCR : CR := completeRun.2.2.

Lemma Reconcile_refines_witness :
  ∃ q o, handled controller "aws" q o completeRun.1 [completeCR].
Proof.
  assert (R : runs (Reconcile controller "cro" "pg" "app" pgCR) completeRun.1
    (Val {| Requeue := true; RequeueAfter := 30000000000 |}, completeCR)) by concrete_run.
  assert (W : statusWrites completeRun.1 = [completeCR]) by (vm_compute; reflexivity).
  eapply Reconcile_refines in R as [(e & _ & _ & Hn)|(o & dsm & t & q & Ho & _ & _ & Hq & Hh & _)];
    [discriminate Hn| |apply controller_frames].
  rewrite W in Hh. exists q, (setStrategy (strategyOf controller dsm o) (RP_GetName q) o).
  apply find_Some_In in Hq as [Hq Hs]. apply list_elem_of_singleton in Hq as ->.
  apply bool_decide_eq_true in Hs. rewrite Hs in Hh |- *. exact Hh.
Defined.

Lemma Reconcile_complete_witness :
  ∃ o data, resultSecret o data completeRun.1.
Proof.
  assert (R : runs (Reconcile controller "cro" "pg" "app" pgCR) completeRun.1
    (Val {| Requeue := true; RequeueAfter := 30000000000 |}, completeCR)) by concrete_run.
  eapply (Reconcile_complete _ controller_frames _ _ _ _ _ _ _ completeCR (Ok completeCR)) in R
    as (o & dsm & q & _ & _ & (_ & _ & t & data & msg & o1 & _ & _ & Hsec & _));
    [by exists o1, data|done|event_at 111%nat|vm_compute; reflexivity].
Defined.

Lemma PostgresController_complete_witness :
  ∃ pdd, resultSecret completeCR (PostgresData pdd) completeRun.1 ∧ PDD_Password pdd ≠ "".
Proof.
  assert (R : runs (Reconcile controller "cro" "pg" "app" pgCR) completeRun.1
    (Val {| Requeue := true; RequeueAfter := 30000000000 |}, completeCR)) by concrete_run.
  eapply (PostgresController_complete _ controller_frames sts _ _ _ _ _ _ _ completeCR (Ok completeCR)) in R
    as (pdd & pi & i & ep & _ & Hsec & _ & _ & _ & _ & _ & _ & _ & _ & Hp & _);
    [by exists pdd| |event_at 111%nat|vm_compute; reflexivity|vm_compute; reflexivity].
  intros q ->%list_elem_of_singleton _. reflexivity.
Defined.

Lemma Data_roundtrip_witness :
  readPostgresDetails (PostgresData {| PDD_Username := "postgres"; PDD_Password := "hunter2";
    PDD_Host := "pg.rds.amazonaws.com"; PDD_Database := "postgres"; PDD_Port := 5432 |}) =
  Some {| PDD_Username := "postgres"; PDD_Password := "hunter2";
    PDD_Host := "pg.rds.amazonaws.com"; PDD_Database := "postgres"; PDD_Port := 5432 |}.
Proof.
  refine (proj1 (Data_roundtrip _ {| RDD_URI := "cache.amazonaws.com"; RDD_Port := 6379 |} _ _));
    unfold int64; cbn; lia.
Defined.
