(* ===== verification/SnapshotRuns.v ===== *)
(** * Concrete runs of the snapshot controllers and providers

    The theorems of [SnapshotProps] applied to runs in the simulated environment
    of [Sim]. *)
From S2P Require Import Prelude Effects Api GoNet NetFacts Resources.
From S2P Require Import Subnets ClusterVpc NetworkProvider NetworkProps AwsConfig AwsPostgres AwsRedis.
From S2P Require Import Controllers Snapshots AwsPostgresProps ControllerProps SnapshotProps.
From S2P Require Import Sim AwsRuns AwsRedisRuns ControllerRuns.
Local Open Scope go_scope.

Definition snapMeta : ObjectMeta :=
  {| Meta_Name := "snap"; Meta_Namespace := "app"; Meta_Labels := ∅; Meta_Annotations := ∅;
     Meta_Finalizers := [DefaultFinalizer]; Meta_CreationTimestamp := 1600000000;
     Meta_DeletionTimestamp := None; Meta_UID := "uid-3" |}.
Definition snapCR (k : kind) (resource id strategy : string) : SnapshotCR :=
  {| Snapshot_kind := k; Snapshot_Meta := snapMeta; Snapshot_ResourceName := resource;
     Snapshot_SkipDelete := false;
     Snapshot_Status := {| SS_SnapshotID := id; SS_Phase := ""; SS_Message := "";
                           SS_Strategy := strategy |} |}.
Definition pgSnap : SnapshotCR := snapCR Postgres "pg" "" "".
Definition cacheSnap : SnapshotCR := snapCR Redis "cache" "" "".
Definition snapshots : SnapshotProvider :=
  {| SP_CredentialManager := P_CredentialManager sts; SP_ConfigManager := P_ConfigManager sts |}.
Definition snapName : string :=
  match w_infra networkWorld with Ok infra => snapshotNameOf infra snapMeta | Er _ => "" end.

Definition snapWorld (dbs : list DBSnapshot) : world :=
  with_crs (λ _, [deployedCR]) (with_storage {| st_buckets := []; st_objects := [];
    st_dbSnapshots := dbs; st_cacheSnapshots := []; st_snapshotCRs := [pgSnap]; st_cloud := noCloud |} (pgWorld [])).
Definition availableSnapshot : DBSnapshot :=
  {| Snap_DBSnapshotIdentifier := Some snapName; Snap_DBSnapshotArn := None;
     Snap_Status := Some "available" |}.


(** A group whose only node is its primary. *)
Definition primaryGroup : ReplicationGroup :=
  {| RG_ReplicationGroupId := Some cacheName; RG_Status := Some "available";
     RG_CacheNodeType := None; RG_SnapshotRetentionLimit := None;
     RG_NodeGroups := Some [{| NG_NodeGroupId := None; NG_Status := None;
       NG_PrimaryEndpoint := None;
       NG_NodeGroupMembers := [{| NGM_CacheClusterId := Some "cache-001";
         NGM_PreferredAvailabilityZone := None; NGM_CurrentRole := Some "primary" |}] |}];
     RG_MemberClusters := [Some "cache-001"] |}.
Lemma CreateRedisSnapshot_creates_witness :
  ∃ o name, recorded o name
    (sim_run (CreateRedisSnapshot snapshots cacheCR) cacheSnap (cacheWorld [primaryGroup])).1.
Proof.
  pose proof (sim_runs (CreateRedisSnapshot snapshots cacheCR) cacheSnap
    (cacheWorld [primaryGroup])) as R.
  eapply CreateRedisSnapshot_creates in R as (o1 & name & _ & Hrec & _); [by exists o1, name|].
  event_at 15%nat.
Defined.


Lemma snapshot_finalizer_witness : ∃ tr, absentDB snapName tr.
Proof.
  pose proof (sim_runs (DeletePostgresSnapshot snapshots deployedCR)
    (snapCR Postgres "pg" snapName "aws") (snapWorld [])) as R.
  eexists. refine (proj1 (proj1 (snapshot_finalizer snapshots deployedCR
    (snapCR Postgres "pg" snapName "aws") _ _ _ _ _ _) R)). event_at 7%nat.
Defined.

Lemma PostgresSnapshot_unsupported_witness :
  snapshotWrites (sim_run (reconcilePostgresSnapshot [awsPostgresSnapshots snapshots] "cro" "app")
    (snapCR Postgres "pg" "" "other") (snapWorld [])).1 = [].
Proof.
  refine (proj1 (PostgresSnapshot_unsupported _ _ _ _ _ _ _ _
    (sim_runs (reconcilePostgresSnapshot [awsPostgresSnapshots snapshots] "cro" "app")
       (snapCR Postgres "pg" "" "other") (snapWorld [])) _ _ _)).
  - event_at 0%nat.
  - discriminate.
  - intros q ->%list_elem_of_singleton. reflexivity.
Defined.

(** [answersFault] of a concrete trace, decided. *)
Definition faultEvent (e : event) : bool :=
  let 'Ev c r := e in
  match c as c' return @resp api c' → bool with
  | DescribeSnapshots _ _ => λ r, match r with
      | Er e => bool_decide (aws_code e = Some "SnapshotNotFoundFault") | Ok _ => false end
  | _ => λ _, true
  end r.
Lemma answersFault_forallb tr : forallb faultEvent tr = true → answersFault tr.
Proof.
  rewrite forallb_forall. intros H name a Ha%list_elem_of_In%H. cbn in Ha.
  destruct a as [l|e]; [done|]. exists e. split; [done|]. by apply bool_decide_eq_true in Ha.
Qed.

Lemma RedisSnapshot_not_found_witness :
  ∀ a, (sim_run (DeleteRedisSnapshot snapshots cacheCR) (snapCR Redis "cache" snapName "")
          (failingWorld (cacheWorld []) [("DescribeSnapshots", "SnapshotNotFoundFault")])).2.1
       ≠ Val a.
Proof.
  pose proof (sim_runs (DeleteRedisSnapshot snapshots cacheCR) (snapCR Redis "cache" snapName "")
    (failingWorld (cacheWorld []) [("DescribeSnapshots", "SnapshotNotFoundFault")])) as R.
  refine (proj1 (proj2 (RedisSnapshot_not_found snapshots cacheCR _) _ _ _ R _)).
  apply answersFault_forallb. vm_compute. reflexivity.
Defined.
