(* ===== verification/BlobStorageRuns.v ===== *)
(** * Concrete runs of the S3 provider

    The theorems of [BlobStorageProps] applied to runs in the simulated environment
    of [Sim]. *)
From S2P Require Import Prelude Effects Api GoNet NetFacts Resources.
From S2P Require Import Subnets ClusterVpc NetworkProvider NetworkProps AwsConfig AwsPostgres.
From S2P Require Import Controllers BlobStorage AwsPostgresProps ControllerProps BlobStorageProps.
From S2P Require Import Sim AwsRuns.
Local Open Scope go_scope.

Definition storeMeta : ObjectMeta :=
  {| Meta_Name := "store"; Meta_Namespace := "app"; Meta_Labels := ∅; Meta_Annotations := ∅;
     Meta_Finalizers := [DefaultFinalizer]; Meta_CreationTimestamp := 1600000000;
     Meta_DeletionTimestamp := None; Meta_UID := "uid-4" |}.
Definition storeCR : CR :=
  {| CR_kind := BlobStorage; CR_Meta := storeMeta;
     CR_Spec := {| Spec_Type := "aws"; Spec_Tier := "production"; Spec_SkipCreate := false;
                   Spec_ApplyImmediately := false; Spec_MaintenanceWindow := false;
                   Spec_SecretRef := Some {| SecretRef_Name := "store-secret";
                                             SecretRef_Namespace := "" |};
                   Spec_Size := ""; Spec_SnapshotFrequency := ""; Spec_SnapshotRetention := "" |};
     CR_Status := CR_Status pgCR |}.
Definition bucketName : string := ShortenString "ocp-app-store" defaultAwsBucketNameLength.

(** Keys of credentials requests. *)
Definition keysSecret (name ns : string) : Secret :=
  {| Secret_Name := name; Secret_Namespace := ns; Secret_Owners := [];
     Secret_Data := Some {[ defaultCredentialsKeyIDName := "AKIA";
                            defaultCredentialsSecretKeyName := "s3cr3t" ]};
     Secret_StringData := ∅; Secret_Type := "Opaque" |}.
Definition minter : BlobStorageProvider :=
  {| B_CredentialManager := CredentialMinterCredentialManager "aws-creds";
     B_ConfigManager := P_ConfigManager sts |}.
Definition storeWorld (buckets objects : list string) : world :=
  with_crs (λ _, [storeCR])
    (with_secrets (λ _, [keysSecret "aws-creds" "app";
                         keysSecret (buildEndUserCredentialsNameFromBucket bucketName) "app"])
      (with_storage {| st_buckets := buckets; st_objects := objects; st_dbSnapshots := [];
                       st_cacheSnapshots := []; st_snapshotCRs := []; st_cloud := noCloud |} (pgWorld []))).

Lemma CreateStorage_secured_witness :
  ∃ d, deployedBucket minter d (sim_run (CreateStorage minter) storeCR (storeWorld [] [])).1.
Proof.
  pose (out := sim_run (CreateStorage minter) storeCR (storeWorld [] [])).
  assert (R : runs (CreateStorage minter storeCR) out.1
    (Val (Some {| BucketName := bucketName; BucketRegion := "eu-west-1";
                  CredentialKeyID := "AKIA"; CredentialSecretKey := "s3cr3t" |},
          "successfully created and tagged"), out.2.2)) by concrete_run.
  apply CreateStorage_secured in R as (d & _ & Hd). exists d. exact Hd.
Defined.

Lemma CreateStorage_creates_witness :
  ∃ o cfg delete, configured minter o cfg delete ∧ CB_Bucket cfg = Some bucketName.
Proof.
  pose proof (sim_runs (CreateStorage minter) storeCR (storeWorld [] [])) as R.
  eapply CreateStorage_creates in R as (o1 & delete & b & bs & Hc & _);
    [|event_at 10%nat].
  eexists o1, _, delete. split; [exact Hc|vm_compute; reflexivity].
Defined.

Lemma DeleteStorage_deletes_witness :
  ∃ delete, mayDelete bucketName delete
    (sim_run (DeleteStorage minter) storeCR (storeWorld [bucketName] [])).1.
Proof.
  pose proof (sim_runs (DeleteStorage minter) storeCR (storeWorld [bucketName] [])) as R.
  eapply (DeleteStorage_deletes minter _ _ _ _ (DeleteBucket (Some bucketName)) (Ok tt)) in R
    as (create & delete & bucket & _ & _ & Hmay & [[? _]|[[= <-] _]]);
    [done| |event_at 11%nat|exact id].
  exists delete. exact Hmay.
Defined.

Lemma DeleteStorage_finalizer_witness :
  ∃ bucket delete, bucketSettled bucket delete
    (sim_run (DeleteStorage minter) storeCR (storeWorld [bucketName] [])).1.
Proof.
  pose proof (sim_runs (DeleteStorage minter) storeCR (storeWorld [bucketName] [])) as R.
  eapply DeleteStorage_finalizer in R as (create & delete & bucket & before & _ & _ & _ & _ & Hset);
    [by exists bucket, delete|event_at 13%nat].
Defined.

(** A configuration that names the bucket. *)
Definition storeConfig : CreateBucketInput := {| CB_Bucket := Some bucketName; CB_Other := [] |}.
Definition keepContent : S3DeleteStrat := {| ForceBucketDeletion := Some false |}.
Definition listFails (e : event) : bool :=
  let 'Ev c r := e in
  match c as c' return @resp api c' → bool with
  | ListObjectsV2 _ => λ r, match r with Er _ => true | Ok _ => false end
  | _ => λ _, true
  end r.
Lemma listFails_all tr : forallb listFails tr = true →
  ∀ b a, Ev (ListObjectsV2 b) a ∈ tr → ∃ e, a = Er e.
Proof.
  rewrite forallb_forall. intros H b a Ha%list_elem_of_In%H. destruct a as [l|e]; [done|by exists e].
Qed.

Lemma reconcileBucketDelete_gone_witness :
  ∀ msg, (sim_run (reconcileBucketDelete storeConfig keepContent) storeCR (storeWorld [] [])).2.1
         ≠ Val msg.
Proof.
  refine (proj1 (reconcileBucketDelete_gone _ _ _ _ _ _
    (sim_runs (reconcileBucketDelete storeConfig keepContent) storeCR (storeWorld [] [])) _)).
  apply listFails_all. vm_compute. reflexivity.
Defined.

Definition storeRun :=
  sim_run (BlobStorage_Reconcile [awsBlobStorage minter] "cro" "store" "app") storeCR
    (storeWorld [] []).
Lemma BlobStorageController_complete_witness :
  ∃ d t, resultSecret storeRun.2.2 (BlobStorageData d) storeRun.1 ∧ deployedBucket minter d t.
Proof.
  assert (R : runs (BlobStorage_Reconcile [awsBlobStorage minter] "cro" "store" "app" storeCR)
    storeRun.1 (Val {| Requeue := true; RequeueAfter := 30000000000 |}, storeRun.2.2))
    by concrete_run.
  eapply (BlobStorageController_complete [awsBlobStorage minter] _ minter _ _ _ _ _ _ _
    storeRun.2.2 (Ok storeRun.2.2)) in R as (d & t & _ & Hsec & _ & Hd);
    [by exists d, t| |event_at 32%nat|vm_compute; reflexivity|vm_compute; reflexivity].
  intros q ->%list_elem_of_singleton _. reflexivity.
  Unshelve. intros q ->%list_elem_of_singleton. apply _.
Defined.
