(* ===== verification/StrategyRuns.v ===== *)
(** * Concrete runs of the strategy client

    The theorems of [StrategyProps] applied to start times and to runs in the
    simulated environment of [Sim]. *)
From S2P Require Import Prelude Effects GoNet GoStrings Json JsonPrint Api Resources AwsConfig.
From S2P Require Import AwsPostgres AwsRedis Strategies AwsConfigProps StrategyProps.
From S2P Require Import Sim.
Local Open Scope Z_scope.
Local Open Scope go_scope.

(** Backups at 01:05, maintenance on Saturdays at 23:30. *)
Definition nightly : StrategyTimeConfig := NewStrategyTimeConfig 1 5 6 23 30.
Definition nightBackup : string := "01:05-02:05".
Definition nightMaintenance : string := "sat:23:30-sun:00:30".
Definition strategyClient : StrategyProvider :=
  {| StrategyProvider_Tier := "production"; StrategyProvider_Namespace := "cro" |}.
Definition noConfigMap : world := with_configMaps (λ _, []) networkWorld.

Lemma buildAWSWindows_hours_witness :
  readWindow readDayClock nightMaintenance = Some (10050, 30).
Proof.
  refine (proj2 (buildAWSWindows_hours 1 5 6 23 30 nightBackup nightMaintenance _ _)).
  - repeat split; lia.
  - vm_compute. reflexivity.
Defined.

(** The two windows that meet after midnight. *)
Lemma buildAWSWindows_overlap_witness :
  ∃ x, inWindow (0 * 60 + 10) x ∧ inWindow (23 * 60 + 50) x.
Proof.
  destruct (buildAWSWindows_overlap 0 10 0 23 50) as [H1 H2]; [repeat split; lia|].
  cbv zeta in H1, H2. apply H2; [apply H1; lia|lia].
Defined.

Lemma mutateStrategies_reads_witness :
  ∃ data, strategyKept postgresWindows "production" nightBackup nightMaintenance
    BuildDefaultConfigMap data.
Proof.
  assert (∃ data, mutateStrategies "production" nightBackup nightMaintenance ∅ = Val data)
    as [data Hd] by (eexists; vm_compute; reflexivity).
  exists data. exact (proj1 (mutateStrategies_reads _ _ _ _ _ Hd)).
Defined.

Lemma client_run : runs (ReconcileStrategyMap strategyClient nightly ())
  (sim_run (ReconcileStrategyMap strategyClient nightly) () noConfigMap).1 (Val tt, ()).
Proof. concrete_run. Qed.

Lemma ReconcileStrategyMap_windows_witness :
  ∃ b m data, buildAWSWindows nightly = Ok (b, m) ∧
    storedIn "cro" (sim_run (ReconcileStrategyMap strategyClient nightly) () noConfigMap).1 data.
Proof.
  destruct (ReconcileStrategyMap_windows _ _ _ _ _ client_run) as (b & m & data & Hw & Hs & _).
  by exists b, m, data.
Defined.

Lemma ReconcileStrategyMap_settles_witness :
  ∃ data, storedIn "cro"
    (sim_run (ReconcileStrategyMap strategyClient nightly) () noConfigMap).1 data.
Proof.
  destruct (ReconcileStrategyMap_settles _ _ _ _ _ client_run) as (data & Hs & _).
  by exists data.
Defined.
