(* ===== verification/OpenShiftRuns.v ===== *)
(** * Concrete runs of the OpenShift providers

    The theorems of [OpenShiftProps] applied to runs in the simulated environment of
    [Sim]. *)
From S2P Require Import Prelude Effects Json WorkloadApi Api Resources AwsConfig AwsPostgres.
From S2P Require Import AwsRedis Controllers OpenShift AwsPostgresProps ControllerProps OpenShiftProps.
From S2P Require Import Sim AwsRuns.
Local Open Scope go_scope.

(** Decoders that know no field. *)
#[local] Instance noSpecs : K8sTypes := {|
  decodeDeploymentSpec := λ _, Er (GoErr "unknown field");
  decodeServiceSpec := λ _, Er (GoErr "unknown field");
  decodePersistentVolumeClaimSpec := λ _, Ok (PVC_Spec (defaultPVC pgCR))
|}.
Definition strategies : ConfigMapConfigManager := openshift_NewConfigMapConfigManager "cro" "" "".

Definition workloadMeta (name : string) : ObjectMeta :=
  {| Meta_Name := name; Meta_Namespace := "app"; Meta_Labels := ∅; Meta_Annotations := ∅;
     Meta_Finalizers := [openshift_DefaultFinalizer]; Meta_CreationTimestamp := 1600000000;
     Meta_DeletionTimestamp := None; Meta_UID := "uid-7" |}.
Definition workloadCR (k : kind) (name : string) : CR :=
  {| CR_kind := k; CR_Meta := workloadMeta name;
     CR_Spec := {| Spec_Type := "openshift"; Spec_Tier := "production"; Spec_SkipCreate := false;
                   Spec_ApplyImmediately := false; Spec_MaintenanceWindow := false;
                   Spec_SecretRef := Some {| SecretRef_Name := name +:+ "-secret";
                                             SecretRef_Namespace := "" |};
                   Spec_Size := ""; Spec_SnapshotFrequency := ""; Spec_SnapshotRetention := "" |};
     CR_Status := CR_Status pgCR |}.
Definition db : CR := workloadCR Postgres "db".
Definition cache : CR := workloadCR Redis "cache".
Definition files : CR := workloadCR BlobStorage "files".

(** Deployments that are available, with one pod. *)
Definition ready (d : Deployment) : Deployment :=
  {| Depl_Name := Depl_Name d; Depl_Namespace := Depl_Namespace d; Depl_Spec := Depl_Spec d;
     Depl_Conditions := [("Progressing", "True"); ("Available", "True")] |}.
Definition dbSecret : Secret := buildDefaultPostgresSecret db "s3cr3t".
Definition cluster (secrets : list Secret) : world :=
  with_crs (λ _, [db; cache; files])
    (with_secrets (λ _, secrets)
      (with_storage {| st_buckets := []; st_objects := []; st_dbSnapshots := [];
            st_cacheSnapshots := []; st_snapshotCRs := [];
            st_cloud := {| cl_deployments := [ready (buildDefaultPostgresDeployment db);
                                              ready (buildDefaultRedisDeployment cache)];
                           cl_pods := ["db-1"]; cl_networks := []; cl_subnetwork := "";
                           cl_addresses := []; cl_connections := []; cl_redis := [];
                           cl_sql := []; cl_buckets := []; cl_objects := [] |} |}
          (pgWorld []))).
(** What a user wrote. *)
Definition keysOf (o : CR) : Secret :=
  {| Secret_Name := nameOf o +:+ "-secret"; Secret_Namespace := namespaceOf o; Secret_Owners := [];
     Secret_Data := Some {[ "bucketName" := "mine" ]}; Secret_StringData := ∅;
     Secret_Type := "Opaque" |}.
Definition dbRun := sim_run (Postgres_Reconcile [openshiftPostgres strategies] "cro" "db" "app")
  db (cluster [dbSecret]).
Definition cacheRun := sim_run (Redis_Reconcile [openshiftRedis strategies] "cro" "cache" "app")
  cache (cluster []).
Definition filesRun := sim_run (BlobStorage_Reconcile [openshiftBlobStorage] "cro" "files" "app")
  files (cluster [keysOf files]).

Definition dbDelete := sim_run openshift_DeletePostgres db (cluster []).
Definition dbCreate := sim_run (openshift_ReconcilePostgres strategies) db (cluster []).
(** A secret without a password yet. *)
Definition dbSecretHalf : Secret :=
  setSecretData (Some {[ "user" := "alice" ]}) dbSecret.
Definition dbUpdate := sim_run (openshift_ReconcilePostgres strategies) db (cluster [dbSecretHalf]).

Lemma single_frame q p : StatusFrame p → q ∈ [p] → StatusFrame q.
Proof. by intros ? ->%list_elem_of_singleton. Qed.

Lemma OpenShiftPostgresController_complete_witness :
  ∃ d t, resultSecret dbRun.2.2 (PostgresData d) dbRun.1 ∧ t ⊆ dbRun.1 ∧
    ∃ o, pgDeployed strategies o d t.
Proof.
  assert (R : runs (Postgres_Reconcile [openshiftPostgres strategies] "cro" "db" "app" db)
    dbRun.1 (Val {| Requeue := true; RequeueAfter := 30000000000 |}, dbRun.2.2)) by concrete_run.
  eapply (OpenShiftPostgresController_complete [openshiftPostgres strategies] _ strategies _ _ _ _ _ _ _
    dbRun.2.2 (Ok dbRun.2.2)) in R as (o & d & t & _ & _ & _ & Hsec & Ht & Hd);
    [by exists d, t; eauto| |event_at 17%nat|vm_compute; reflexivity|vm_compute; reflexivity].
  intros q ->%list_elem_of_singleton _. reflexivity.
  Unshelve. intros q. by apply single_frame, _.
Defined.

Lemma OpenShiftRedisController_complete_witness :
  ∃ d t, resultSecret cacheRun.2.2 (RedisData d) cacheRun.1 ∧ t ⊆ cacheRun.1 ∧
    ∃ o, redisDeployed strategies o d t.
Proof.
  assert (R : runs (Redis_Reconcile [openshiftRedis strategies] "cro" "cache" "app" cache)
    cacheRun.1 (Val {| Requeue := true; RequeueAfter := 30000000000 |}, cacheRun.2.2))
    by concrete_run.
  eapply (OpenShiftRedisController_complete [openshiftRedis strategies] _ strategies _ _ _ _ _ _ _
    cacheRun.2.2 (Ok cacheRun.2.2)) in R as (o & d & t & _ & _ & _ & Hsec & Ht & Hd);
    [by exists d, t; eauto| |event_at 14%nat|vm_compute; reflexivity|vm_compute; reflexivity].
  intros q ->%list_elem_of_singleton _. reflexivity.
  Unshelve. intros q. by apply single_frame, _.
Defined.

Lemma OpenShiftBlobStorageController_keeps_witness :
  ∃ d t, resultSecret filesRun.2.2 d filesRun.1 ∧ storageData d t.
Proof.
  assert (R : runs (BlobStorage_Reconcile [openshiftBlobStorage] "cro" "files" "app" files)
    filesRun.1 (Val {| Requeue := true; RequeueAfter := 10000000000 |}, filesRun.2.2))
    by concrete_run.
  eapply (OpenShiftBlobStorageController_keeps [openshiftBlobStorage] _ _ _ _ _ _ _ _
    filesRun.2.2 (Ok filesRun.2.2)) in R as (d & t & Hsec & _ & Hd);
    [by exists d, t| |event_at 5%nat|vm_compute; reflexivity|vm_compute; reflexivity].
  intros q ->%list_elem_of_singleton _. reflexivity.
  Unshelve. intros q. by apply single_frame, _.
Defined.


Definition updatedSecret : Secret :=
  setSecretData (Some (filled (buildDefaultPostgresSecret db "11111111222243338444555555555555")
    {[ "user" := "alice" ]})) dbSecret.

Lemma openshift_credentials_left_witness : ∃ sec, Secret_Name sec ≠ defaultCredentialsSec.
Proof.
  pose proof (sim_runs (openshift_ReconcilePostgres strategies) db (cluster [])) as R1.
  pose proof (sim_runs openshift_DeletePostgres db (cluster [])) as R2.
  eexists. eapply (openshift_credentials_left _ _ _ _ _ _ _ _ _
    (buildDefaultPostgresSecret db "11111111222243338444555555555555") (Ok _) _ _ (Ok tt) R1);
    [event_at 6%nat|exact R2|event_at 2%nat].
Defined.

Lemma openshift_claims_witness :
  claimWrite (Ev (Workload (CreatePVC (defaultPVC db))) (Ok (defaultPVC db))) dbCreate.1.
Proof.
  pose proof (sim_runs (openshift_ReconcilePostgres strategies) db (cluster [])) as R.
  refine (proj1 (openshift_claims strategies _ _ _ _ _ _) _ R); [event_at 3%nat|by intros []].
Defined.
