(* ===== verification/CloudMetricsRuns.v ===== *)
(** * Concrete runs of the cloud metrics

    The theorems of [CloudMetricsProps] applied to runs in the simulated environment of
    [Sim]. *)
From S2P Require Import Prelude Effects GoFloat Json Api Resources Metrics AwsConfig AwsPostgres.
From S2P Require Import AwsRedis Controllers CloudMetrics CloudMetricsProps Sim AwsRuns.
Local Open Scope go_scope.

(** A Postgres that was reconciled with AWS. *)
Definition meteredCR : CR :=
  {| CR_kind := Postgres; CR_Meta := pgMeta; CR_Spec := CR_Spec pgCR;
     CR_Status := {| Status_Strategy := "aws"; Status_Provider := "aws-rds"; Status_Version := "";
                     Status_SecretRef := None; Status_Phase := "complete"; Status_Message := "" |} |}.
Definition metered : world := with_crs (λ _, [meteredCR]) (pgWorld []).
Definition meters : list (MetricsProvider unit) := [awsPostgresMetrics sts].
Definition meterRedis : RedisProvider :=
  {| R_CredentialManager := P_CredentialManager sts; R_ConfigManager := P_ConfigManager sts |}.
Definition metricsRun := sim_run (CloudMetrics_Reconcile (S := unit) [] meters) tt metered.


Definition cpuLabels : list string := ["ocp"; "pg"; "app"; "ocpapppg"; ""; "aws-rds"].
Lemma CloudMetrics_gauges_witness : ∃ out,
  gauge metricsRun.1 PostgresCPUUtilizationAverageMetricName cpuLabels =
    lastValue out PostgresCPUUtilizationAverageMetricName cpuLabels ∧
  gauge metricsRun.1 PostgresCPUUtilizationAverageMetricName cpuLabels = Some (S754_finite false 1 0).
Proof.
  assert (R : runs (CloudMetrics_Reconcile (S := unit) [] meters tt) metricsRun.1
    (Val {| Requeue := false; RequeueAfter := 300000000000 |}, tt)) by concrete_run.
  apply CloudMetrics_gauges in R as (out1 & out2 & _ & _ & Hg).
  - exists out2. split; [|vm_compute; reflexivity]. apply Hg. decide_closed.
  - intros p cr ts ->%list_elem_of_singleton.
    apply sat_eq; [by split|]. exact (proj1 (aws_noGauge sts meterRedis cr ts)).
Defined.

Definition unlistable : world := with_fail (λ _, [("ListCR", "Throttling")]) metered.
Definition unlistableRun := sim_run (CloudMetrics_Reconcile (S := unit) [] meters) tt unlistable.
Lemma CloudMetrics_redis_list_error_witness :
  unlistableRun.2.1 = Err (AwsErr "Throttling" "simulated ListCR").
Proof.
  assert (T : unlistableRun.1 =
    [@Ev api (ListCR Redis) (Er (AwsErr "Throttling" "simulated ListCR"))])
    by (vm_compute; reflexivity).
  pose proof (sim_runs (CloudMetrics_Reconcile (S := unit) [] meters) tt unlistable) as R.
  fold unlistableRun in R. rewrite T in R.
  exact (proj1 (proj2 (CloudMetrics_redis_list_error [] meters tt _ [] _ _ _ R eq_refl))).
Defined.

