(* ===== verification/ClientRuns.v ===== *)
(** * Concrete runs of the client

    The theorems of [ClientUtil] applied to runs in the simulated environment of [Sim]. *)
From S2P Require Import Prelude Effects Api Resources AwsPostgres Sim AwsRuns ClientUtil.
Local Open Scope go_scope.

Definition askRedis := client_ReconcileRedis (S := unit) "3scale" "workshop" "production" "cache" "app"
  "cache-secret" "app" "cache.t3.micro" true false None.
(** A Redis that was made without the label of a product. *)
Definition unlabelled : CR :=
  {| CR_kind := Redis;
     CR_Meta := CR_Meta (requested Redis "cache" "app" ∅);
     CR_Spec := CR_Spec pgCR; CR_Status := CR_Status pgCR |}.
Definition askedRun := sim_run askRedis tt (with_crs (λ _, [unlabelled]) (pgWorld [])).
Definition askedRedis : CR :=
  setSpec (λ s,
       {| Spec_Type := "workshop"; Spec_Tier := "production"; Spec_SkipCreate := Spec_SkipCreate s;
          Spec_ApplyImmediately := true; Spec_MaintenanceWindow := false;
          Spec_SecretRef := Some (secretRefTo "cache-secret" "app"); Spec_Size := "cache.t3.micro";
          Spec_SnapshotFrequency := Spec_SnapshotFrequency s;
          Spec_SnapshotRetention := Spec_SnapshotRetention s |}) unlabelled.

Lemma client_requests_met_witness : ∃ w, asked "workshop" "production" "cache-secret" "app" w.
Proof.
  assert (R : runs (askRedis tt) askedRun.1 (Val askedRedis, tt)) by concrete_run.
  destruct (client_requests_met "3scale" "workshop" "production" "cache" "app" "cache-secret" "app"
    tt tt askedRun.1 askedRedis) as (_ & _ & H).
  apply H in R as (w & (Hw & _) & _). by exists w.
Defined.

Lemma client_labels_witness : ∃ old, CR_Meta askedRedis = CR_Meta old.
Proof.
  pose proof (sim_runs askRedis tt (with_crs (λ _, [unlabelled]) (pgWorld []))) as R.
  destruct (client_labels "3scale" "workshop" "production" "cache" "app" "cache-secret" "app"
    tt askedRun.2.2 askedRun.1 askedRun.2.1 askedRedis (Ok askedRedis)) as (_ & H & _);
    [event_at 1%nat|].
  apply H in R as (k & n & m & old & _ & Hm). by exists old.
Defined.
