(* ===== verification/GcpRuns.v ===== *)
(** * Concrete runs on Google Cloud

    The theorems of [GcpNetworkProps] and [GcpRedisProps] applied to runs in the
    simulated environment of [Sim]. *)
From S2P Require Import Prelude Effects GoNet NetFacts GoStrings GoUrl Json GcpApi Api Resources.
From S2P Require Import Metrics AwsConfig AwsPostgres AwsRedis Controllers.
From S2P Require Import GcpConfig GcpNetwork GcpRedis GcpNetworkProps GcpRedisProps.
From S2P Require Import AwsPostgresProps ControllerProps ControllerAws Sim.
Local Open Scope go_scope.

(** Requests of the strategy that say nothing. *)
#[local] Instance plainGcp : GcpTypes := {|
  decodeCreateRedisInstanceRequest := λ _,
    Ok {| CRI_Parent := ""; CRI_InstanceId := ""; CRI_Instance := None |};
  windowsDeepEqual := λ _ _, true;
  EncodeGCPProviderSpec := λ _, Ok "";
  DecodeGCPProviderStatus := λ _, Ok "cro@proj";
  decodeSqlInstance := λ _, Er (GoErr "no instance");
  ParseDuration := λ s, if bool_decide (s = "") then Er (GoErr "time: invalid duration")
                        else Ok (24 * 3600000000000)%Z;
  Aggregation_Aligner_value := λ _, 0%Z |}.

(** ** A cluster on Google Cloud *)

Definition subnetUrl (name : string) : string :=
  subnetPrefix +:+ ("proj" +:+ "/regions/" +:+ "us-east1" +:+ "/subnetworks/" +:+ name).
Definition gcpNetwork : Network := {|
  Network_Name := Some "ocp-network";
  Network_SelfLink := Some "https://www.googleapis.com/compute/v1/projects/proj/global/networks/ocp-network";
  Network_Subnetworks := [subnetUrl "ocp-master"; subnetUrl "ocp-worker"];
  Network_Peerings := [{| GPeering_Name := Some defaultServiceConnectionName |}] |}.
Definition gcpAddress (status : string) : Address := {|
  Address_Name := Some "ocpiprange"; Address_Address := Some "10.1.0.0";
  Address_PrefixLength := Some 22%Z; Address_Status := Some status;
  Address_Network := Network_SelfLink gcpNetwork; Address_AddressType := Some "INTERNAL";
  Address_IpVersion := Some "IPV4"; Address_Purpose := Some "VPC_PEERING" |}.
Definition gcpConnection (range : string) : Connection :=
  {| Connection_Network := "projects/proj/global/networks/ocp-network";
     Connection_ReservedPeeringRanges := [range];
     Connection_Service := servicesParent |}.

Definition gcpWorld (addresses : list Address) (connections : list Connection)
    (redis : list RedisInstance) (crs : list CR) : world := {|
  w_infra := Ok {| Infra_InfrastructureName := "ocp";
                   Infra_PlatformStatus := Some {| Platform_Type := "GCP"; Platform_AWS := None;
                     Platform_GCP := Some {| GCPPlatform_ProjectID := "proj";
                                             GCPPlatform_Region := "us-east1" |} |} |};
  w_netconf := w_netconf freshWorld; w_vpcs := []; w_subnets := []; w_azs := [];
  w_offerings := []; w_routeTables := []; w_securityGroups := []; w_peerings := [];
  w_dbSubnetGroups := []; w_cacheSubnetGroups := []; w_crs := crs; w_configMaps := [];
  w_dbInstances := []; w_replicationGroups := []; w_cacheClusters := [];
  w_secrets := [{| Secret_Name := defaultProviderCredentialName; Secret_Namespace := "app";
                   Secret_Owners := []; Secret_StringData := ∅; Secret_Type := "Opaque";
                   Secret_Data := Some {[ defaultCredentialsServiceAccount := "{}" ]} |}];
  w_env := []; w_fail := [];
  w_storage := {| st_buckets := []; st_objects := []; st_dbSnapshots := [];
    st_cacheSnapshots := []; st_snapshotCRs := [];
    st_cloud := {| cl_deployments := []; cl_pods := []; cl_networks := [gcpNetwork];
                   cl_subnetwork := "10.0.0.0/17"; cl_addresses := addresses;
                   cl_connections := connections; cl_redis := redis;
                   cl_sql := []; cl_buckets := []; cl_objects := [] |} |} |}.

Definition gcpMeta (annotations : gmap string string) : ObjectMeta :=
  {| Meta_Name := "cache"; Meta_Namespace := "app"; Meta_Labels := ∅;
     Meta_Annotations := annotations; Meta_Finalizers := [DefaultFinalizer];
     Meta_CreationTimestamp := 1600000000; Meta_DeletionTimestamp := None; Meta_UID := "uid-9" |}.
Definition gcpCR (annotations : gmap string string) : CR :=
  {| CR_kind := Redis; CR_Meta := gcpMeta annotations;
     CR_Spec := {| Spec_Type := "gcp"; Spec_Tier := "production"; Spec_SkipCreate := false;
                   Spec_ApplyImmediately := false; Spec_MaintenanceWindow := false;
                   Spec_SecretRef := Some {| SecretRef_Name := "cache-secret";
                                             SecretRef_Namespace := "" |};
                   Spec_Size := ""; Spec_SnapshotFrequency := ""; Spec_SnapshotRetention := "" |};
     CR_Status := {| Status_Strategy := ""; Status_Provider := ""; Status_Version := "";
                     Status_SecretRef := None; Status_Phase := ""; Status_Message := "" |} |}.
Definition fresh : CR := gcpCR ∅.
Definition known : CR := gcpCR {[ ResourceIdentifierAnnotation := "ocpappcache" ]}.

Definition provider : RedisProvider := NewGCPRedisProvider "cro".
Definition proj : GcpNetwork.NetworkProvider := {| ProjectID := "proj" |}.
Definition strategy : StrategyConfig :=
  {| Strategy_Region := "us-east1"; Strategy_ProjectID := "proj";
     Strategy_CreateStrategy := Some (JObj []); Strategy_DeleteStrategy := Some (JObj []) |}.
Definition ourInstance (state : Z) : RedisInstance :=
  let d := defaultInstance "projects/proj/locations/us-east1/instances/ocpappcache"
             "projects/proj/global/networks/ocp-network" "ocpiprange" 1 ∅ in
  {| RI_Name := RI_Name d; RI_Labels := RI_Labels d; RI_Tier := RI_Tier d;
     RI_ReadReplicasMode := RI_ReadReplicasMode d; RI_MemorySizeGb := 1;
     RI_AuthorizedNetwork := RI_AuthorizedNetwork d; RI_ConnectMode := RI_ConnectMode d;
     RI_ReservedIpRange := RI_ReservedIpRange d; RI_RedisVersion := redisVersion;
     RI_RedisConfigs := None; RI_MaintenancePolicy := None; RI_State := state;
     RI_Host := "10.1.0.4"; RI_Port := 6379; RI_Other := [] |}.

(** ** Runs *)

Definition creating (w : world) := sim_run (createRedisInstance provider proj strategy) fresh w.
Definition rangeRun := creating (gcpWorld [] [] [] [fresh]).
Definition serviceRun := creating (gcpWorld [gcpAddress "RESERVED"] [] [] [fresh]).
Definition createRun := creating (gcpWorld [gcpAddress "IN_USE"] [gcpConnection "ocpiprange"] []
                                    [fresh]).
Definition deleting (w : world) := sim_run (deleteRedisInstance proj strategy true) known w.
Definition orderedRun := deleting (gcpWorld [gcpAddress "RESERVED"] [gcpConnection "other"] []
                                     [known]).
Definition lastRun := deleting (gcpWorld [] [] [] [known]).
Definition readyRun := sim_run (Redis_Reconcile [gcpRedis provider] "cro" "cache" "app") fresh
  (gcpWorld [gcpAddress "IN_USE"] [gcpConnection "ocpiprange"] [ourInstance 2] [fresh]).

(** ** URLs and requests *)

Lemma parseSubnetUrl_reads_witness :
  parseSubnetUrl "https://www.googleapis.com/compute/v1/projects/proj/regions/us-east1/subnetworks/a" =
  Val ("a", "us-east1").
Proof.
  apply (parseSubnetUrl_reads "proj" "us-east1" "a"); try reflexivity; try discriminate; decide_closed.
Defined.
Lemma parseSubnetUrl_panics_witness :
  parseSubnetUrl "https://www.googleapis.com/compute/v1/projects/proj/regions" = out_of_range.
Proof. apply (parseSubnetUrl_panics "proj"); [reflexivity|decide_closed]. Defined.

(** A size of 2^32 + 1 gives an instance of 1 GB. *)
Definition hugeCR : CR :=
  {| CR_kind := Redis; CR_Meta := gcpMeta ∅;
     CR_Spec := {| Spec_Type := "gcp"; Spec_Tier := "production"; Spec_SkipCreate := false;
                   Spec_ApplyImmediately := false; Spec_MaintenanceWindow := false;
                   Spec_SecretRef := None; Spec_Size := "4294967297";
                   Spec_SnapshotFrequency := ""; Spec_SnapshotRetention := "" |};
     CR_Status := CR_Status fresh |}.
(** An instance with other labels. *)
Definition relabelled : RedisInstance :=
  applyUpdate {| RI_Name := ""; RI_Labels := Some {[ "a" := "b" ]}; RI_Tier := 0;
    RI_ReadReplicasMode := 0; RI_MemorySizeGb := 0; RI_AuthorizedNetwork := "";
    RI_ConnectMode := 0; RI_ReservedIpRange := ""; RI_RedisVersion := ""; RI_RedisConfigs := None;
    RI_MaintenancePolicy := None; RI_State := 0; RI_Host := ""; RI_Port := 0; RI_Other := [] |}
    ["labels"] (ourInstance 2).
Lemma redis_update_converges_witness :
  ∃ i, buildUpdateInstanceRequest (E := error) (ourInstance 2) relabelled = Val (Some (i, ["labels"])) ∧
    buildUpdateInstanceRequest (E := error) (ourInstance 2) (applyUpdate i ["labels"] relabelled) =
      Val None.
Proof.
  assert (∃ i, buildUpdateInstanceRequest (E := error) (ourInstance 2) relabelled =
               Val (Some (i, ["labels"]))) as (i & Hi) by (eexists; vm_compute; reflexivity).
  pose proof (redis_update_converges (ourInstance 2) relabelled eq_refl) as H.
  rewrite Hi in H. exists i. split; [exact Hi|apply H].
Defined.

(** ** Creating and deleting *)

Lemma createRedisInstance_network_witness :
  (∃ block a, rangeAsked proj block "proj" a rangeRun.1) ∧
  serviceAsked proj servicesParent "projects/proj/global/networks/ocp-network" ["ocpiprange"]
    serviceRun.1.
Proof.
  split.
  - pose proof (sim_runs (createRedisInstance provider proj strategy) fresh (gcpWorld [] [] [] [fresh])) as R.
    apply createRedisInstance_network in R as [R _].
    destruct (R "proj" (addressResource gcpNetwork "ocpiprange"
      {| IPNet_IP := []; IPNet_Mask := [255; 255; 252; 0]%Z |}) (Ok tt)) as (blk & Hb);
      [event_at 9%nat|by eexists blk, _].
  - pose proof (sim_runs (createRedisInstance provider proj strategy) fresh
      (gcpWorld [gcpAddress "RESERVED"] [] [] [fresh])) as R.
    apply createRedisInstance_network in R as [_ R]. apply (R _ _ _ (Ok tt)). event_at 10%nat.
Defined.

Lemma createRedisInstance_creates_witness : serviceReady proj createRun.1.
Proof.
  pose proof (sim_runs (createRedisInstance provider proj strategy) fresh
    (gcpWorld [gcpAddress "IN_USE"] [gcpConnection "ocpiprange"] [] [fresh])) as R.
  eapply (createRedisInstance_creates _ _ _ _ _ _ _ _ (Ok tt)) in R
    as (infra & a & i & e & _ & H & _); [exact H|]. event_at 13%nat.
Defined.

Lemma deleteRedisInstance_ordered_witness :
  peeringGone proj (take 14 orderedRun.1) ∧ serviceGone proj (take 14 orderedRun.1) ∧
  rangeUnused proj (take 14 orderedRun.1) "ocpiprange".
Proof.
  pose proof (sim_runs (deleteRedisInstance proj strategy true) known
    (gcpWorld [gcpAddress "RESERVED"] [gcpConnection "other"] [] [known])) as R.
  eapply (deleteRedisInstance_ordered proj strategy true known _ _ _ (take 14 orderedRun.1)
    (DeleteGlobalAddress "proj" "ocpiprange") (Ok tt) (drop 15 orderedRun.1)) in R
    as (_ & _ & H); [|vm_compute; reflexivity].
  destruct (H _ _ eq_refl) as (H1 & H2 & _ & H3). split; [exact H1|split; [exact H2|exact H3]].
Defined.

Lemma deleteRedisInstance_finalizer_witness :
  peeringGone proj lastRun.1 ∧ serviceGone proj lastRun.1 ∧ componentsGone proj lastRun.1.
Proof.
  pose proof (sim_runs (deleteRedisInstance proj strategy true) known (gcpWorld [] [] [] [known])) as R.
  assert (∃ x, Ev (UpdateCR x) (Ok x) ∈ lastRun.1) as (x & Hx) by (eexists; event_at 15%nat).
  destruct (deleteRedisInstance_finalizer _ _ _ _ _ _ _ _ _ R Hx) as (_ & _ & H). by apply H.
Defined.


Lemma gcp_single_frame q p : StatusFrame p → q ∈ [p] → StatusFrame q.
Proof. by intros ? ->%list_elem_of_singleton. Qed.
Lemma GcpRedisController_complete_witness :
  ∃ x d t, resultSecret x (RedisData d) readyRun.1 ∧ t ⊆ readyRun.1 ∧ memorystoreReady d t.
Proof.
  pose proof (sim_runs (Redis_Reconcile [gcpRedis provider] "cro" "cache" "app") fresh
    (gcpWorld [gcpAddress "IN_USE"] [gcpConnection "ocpiprange"] [ourInstance 2] [fresh])) as R.
  assert (∃ x, Ev (StatusUpdateCR x) (Ok x) ∈ readyRun.1 ∧ Status_Phase (CR_Status x) = PhaseComplete ∧
    Status_Provider (CR_Status x) = redisProviderName) as (x & Hx & Hp & Hn).
  { eexists. split; [event_at 41%nat|]. split; vm_compute; reflexivity. }
  eapply (GcpRedisController_complete [gcpRedis provider] _ provider) in R as (d & t & _ & H);
    [by exists x, d, t| |exact Hx|exact Hp|exact Hn].
  intros q ->%list_elem_of_singleton _. reflexivity.
  Unshelve. intros q. by apply gcp_single_frame, _.
Defined.
