(* ===== verification/GcpPostgresRuns.v ===== *)
(** * Concrete runs of Cloud SQL

    The theorems of [GcpSqlProps], [GcpPostgresProps] and [GcpSnapshotProps] applied to
    descriptions of instances and to runs in the simulated environment of [Sim]. *)
From S2P Require Import Prelude Effects GoSort GoStrings Json GcpApi Api Resources Metrics AwsConfig.
From S2P Require Import AwsPostgres Controllers Snapshots ControllerProps GcpConfig GcpSql.
From S2P Require Import GcpSnapshots GcpNetwork GcpPostgres GcpNetworkProps GcpSqlProps.
From S2P Require Import GcpPostgresProps GcpSnapshotProps Sim GcpRuns.
Local Open Scope go_scope.

(** Durations count days; the delete strategy names no instance. *)
#[local] Instance sqlGcp : GcpTypes := {|
  decodeCreateRedisInstanceRequest := λ _, Er (GoErr "no instance");
  windowsDeepEqual := λ _ _, true;
  EncodeGCPProviderSpec := λ _, Ok "";
  DecodeGCPProviderStatus := λ _, Ok "cro@proj";
  decodeSqlInstance := λ _, Ok disableProtection;
  ParseDuration := λ s, if bool_decide (s = "") then Er (GoErr "time: invalid duration")
                        else Ok (24 * 3600000000000)%Z;
  Aggregation_Aligner_value := λ _, 0%Z |}.
#[local] Existing Instance mergeSort.

(** ** The cluster, with what Cloud SQL and Cloud Storage keep *)

Definition sqlWorld (addresses : list Address) (connections : list Connection)
    (sql : list SqlInstance) (snapshots : list SnapshotCR) (objects : list string)
    (crs : list CR) : world :=
  with_storage {| st_buckets := []; st_objects := []; st_dbSnapshots := [];
    st_cacheSnapshots := []; st_snapshotCRs := snapshots;
    st_cloud := {| cl_deployments := []; cl_pods := []; cl_networks := [gcpNetwork];
                   cl_subnetwork := "10.0.0.0/17"; cl_addresses := addresses;
                   cl_connections := connections; cl_redis := []; cl_sql := sql;
                   cl_buckets := []; cl_objects := objects |} |}
    (gcpWorld addresses connections [] crs).

Definition sqlMeta (annotations : gmap string string) : ObjectMeta :=
  {| Meta_Name := "db"; Meta_Namespace := "app"; Meta_Labels := ∅;
     Meta_Annotations := annotations; Meta_Finalizers := [DefaultFinalizer];
     Meta_CreationTimestamp := 1600000000; Meta_DeletionTimestamp := None; Meta_UID := "uid-9" |}.
Definition sqlCR (annotations : gmap string string) (phase frequency : string) : CR :=
  {| CR_kind := Postgres; CR_Meta := sqlMeta annotations;
     CR_Spec := {| Spec_Type := "gcp"; Spec_Tier := "production"; Spec_SkipCreate := false;
                   Spec_ApplyImmediately := false; Spec_MaintenanceWindow := false;
                   Spec_SecretRef := Some {| SecretRef_Name := "db-secret";
                                             SecretRef_Namespace := "" |};
                   Spec_Size := ""; Spec_SnapshotFrequency := frequency;
                   Spec_SnapshotRetention := frequency |};
     CR_Status := {| Status_Strategy := ""; Status_Provider := ""; Status_Version := "";
                     Status_SecretRef := None; Status_Phase := phase; Status_Message := "" |} |}.
Definition freshDb : CR := sqlCR ∅ "" "".
Definition knownDb : CR :=
  sqlCR {[ ResourceIdentifierAnnotation := "ocpappdb" ]} PhaseComplete "24h".
Definition dbProvider : PostgresProvider := NewGCPPostgresProvider "cro".

(** The instance of the default strategy, as it is asked for or as it is there. *)
Definition described : DatabaseInstance :=
  decodeDatabaseInstance [].
Definition theInstance (name state : string) (protected : bool) : SqlInstance :=
  let asked := MapToGcpDatabaseInstance (completeDatabaseInstance name "us-east1" "secret"
                 (completeSettings {[ "a" := "b" ]} (Some (gcpAddress "IN_USE")) emptySettings)
                 described) in
  {| SI_ConnectionName := SI_ConnectionName asked; SI_DatabaseVersion := SI_DatabaseVersion asked;
     SI_DiskEncryptionConfiguration := None; SI_FailoverReplica := None; SI_GceZone := "";
     SI_InstanceType := ""; SI_IpAddresses :=
       Some [Some {| IPM_IpAddress := "34.0.0.1"; IPM_TimeToRetire := ""; IPM_Type := "PRIMARY" |};
             Some {| IPM_IpAddress := "10.1.0.3"; IPM_TimeToRetire := ""; IPM_Type := "PRIVATE" |}];
     SI_Kind := ""; SI_MaintenanceVersion := "";
     SI_MasterInstanceName := ""; SI_MaxDiskSize := 0; SI_Name := name; SI_Project := "proj";
     SI_Region := "us-east1"; SI_ReplicaNames := None; SI_RootPassword := ""; SI_SecondaryGceZone := "";
     SI_SelfLink := ""; SI_ServerCaCert := None; SI_ServiceAccountEmailAddress := "sql@proj";
     SI_Settings := if protected then SI_Settings asked else SI_Settings disableProtection;
     SI_State := state |}.

(** ** Runs *)

Definition sqlCreating (w : world) := sim_run (reconcileWithNetwork dbProvider proj strategy) freshDb w.
Definition insertWorld : world :=
  sqlWorld [gcpAddress "IN_USE"] [gcpConnection "ocpiprange"] [] [] [] [freshDb].
Definition insertRun := sqlCreating insertWorld.
Definition dropWorld (sql : list SqlInstance) : world := sqlWorld [] [] sql [] [] [freshDb].
Definition dropping (sql : list SqlInstance) :=
  sim_run (deleteCloudSQLInstance proj strategy true) freshDb (dropWorld sql).
Definition completeWorld : world :=
  sqlWorld [gcpAddress "IN_USE"] [gcpConnection "ocpiprange"]
    [theInstance "ocpappdb" "RUNNABLE" true] [] [] [freshDb].
Definition completeRun := sim_run (Postgres_Reconcile [gcpPostgres dbProvider] "cro" "db" "app")
  freshDb completeWorld.

(** Snapshots of the instance, by the hours since their creation. *)
Definition snapshotCR (name phase : string) (skip : bool) (hours : Z) : SnapshotCR :=
  {| Snapshot_kind := Postgres;
     Snapshot_Meta := {| Meta_Name := name; Meta_Namespace := "app"; Meta_Labels := ∅;
       Meta_Annotations := ∅; Meta_Finalizers := [DefaultFinalizer];
       Meta_CreationTimestamp := 1700000000 - 3600 * hours; Meta_DeletionTimestamp := None;
       Meta_UID := "uid-s" |};
     Snapshot_ResourceName := "db"; Snapshot_SkipDelete := skip;
     Snapshot_Status := {| SS_SnapshotID := ""; SS_Phase := phase; SS_Message := "";
                           SS_Strategy := "" |} |}.
Definition oldSnapshots : list SnapshotCR :=
  [snapshotCR "db-1" PhaseComplete false 60; snapshotCR "db-2" PhaseComplete true 30].
Definition scheduleWorld : world := sqlWorld [] [] [] oldSnapshots [] [].
Definition scheduleRun := sim_run (reconcileCloudSqlInstanceSnapshots knownDb) tt scheduleWorld.
Definition snapProvider : PostgresSnapshotProvider := NewGCPPostgresSnapshotProvider "cro".
Definition exportWorld (objects : list string) : world :=
  sqlWorld [] [] [theInstance "ocpappdb" "RUNNABLE" true] [] objects [knownDb].
Definition newSnapshot : SnapshotCR := snapshotCR "db-3" "" false 0.
Definition exportRun := sim_run (CreatePostgresSnapshot snapProvider knownDb) newSnapshot (exportWorld []).
Definition removeRun := sim_run (DeletePostgresSnapshot snapProvider knownDb) newSnapshot (exportWorld []).

(** ** The message of the API *)

Definition zoned : DatabaseInstance :=
  decodeDatabaseInstance [("gceZone", JStr "us-east1-b"); ("secondaryGceZone", JStr "us-east1-c")].
Lemma MapToGcpDatabaseInstance_sends_witness :
  wire (MapToGcpDatabaseInstance (completeDatabaseInstance "db" "us-east1" "secret"
          (completeSettings ∅ None emptySettings) described)) =
  stated (completeDatabaseInstance "db" "us-east1" "secret"
            (completeSettings ∅ None emptySettings) described).
Proof. apply MapToGcpDatabaseInstance_sends; [reflexivity|]. intros s w [= <-] Hw. discriminate Hw. Defined.
Lemma MapToGcpDatabaseInstance_secondary_witness :
  SI_GceZone (MapToGcpDatabaseInstance zoned) = "us-east1-c" ∧
  SI_SecondaryGceZone (MapToGcpDatabaseInstance zoned) = "".
Proof.
  assert (DBI_SecondaryGceZone zoned ≠ "") as Hz by decide_closed.
  destruct (MapToGcpDatabaseInstance_secondary zoned Hz) as (H1 & H2 & _).
  split; [exact H1|exact H2].
Defined.

(** The labels of the found instance differ. *)
Definition wanted : DatabaseInstance :=
  completeDatabaseInstance "ocpappdb" "us-east1" "secret"
    (completeSettings {[ "c" := "d" ]} (Some (gcpAddress "IN_USE")) emptySettings) described.

(** ** Creating and deleting *)

Lemma reconcileWithNetwork_creates_witness :
  ∃ a name, sqlNetworkReady proj a insertRun.1 ∧ sqlSeen "proj" name None insertRun.1.
Proof.
  pose proof (sim_runs (reconcileWithNetwork dbProvider proj strategy) freshDb insertWorld) as R.
  assert (∃ inst, Ev (Gcp (InsertSqlInstance "proj" inst)) (Ok tt) ∈ insertRun.1) as (inst & Hi)
    by (eexists; event_at 16%nat).
  destruct (reconcileWithNetwork_creates _ _ _ _ _ _ _ _ _ _ R Hi)
    as (a & sec & config & H & _ & _ & _ & _ & Hs).
  exists a, (DBI_Name config). split; [exact H|exact Hs].
Defined.

Lemma deleteCloudSQLInstance_unprotected_witness :
  ∃ id found, sqlSeen "proj" id (Some found)
    (dropping [theInstance "ocpappdb" "RUNNABLE" false]).1 ∧ SI_Name found = "ocpappdb".
Proof.
  pose proof (sim_runs (deleteCloudSQLInstance proj strategy true) freshDb
    (dropWorld [theInstance "ocpappdb" "RUNNABLE" false])) as R.
  eapply (deleteCloudSQLInstance_unprotected _ _ _ _ _ _ _ "proj" "ocpappdb" (Ok tt)) in R
    as [(id & found & settings & H1 & H2 & _) _]; [|event_at 12%nat].
  exists id, found. split; [exact H1|exact H2].
Defined.

Lemma deleteCloudSQLInstance_finalizer_witness :
  peeringGone proj (dropping []).1 ∧ serviceGone proj (dropping []).1 ∧ secretGone freshDb (dropping []).1.
Proof.
  pose proof (sim_runs (deleteCloudSQLInstance proj strategy true) freshDb (dropWorld [])) as R.
  assert (∃ x, Ev (UpdateCR x) (Ok x) ∈ (dropping []).1) as (x & Hx) by (eexists; event_at 17%nat).
  destruct (deleteCloudSQLInstance_finalizer _ _ _ _ _ _ _ _ _ R Hx) as (_ & H1 & _ & H2).
  destruct (H2 eq_refl) as (H3 & H4 & _). split_and!; assumption.
Defined.

Lemma GcpPostgresController_complete_witness :
  ∃ x d t, resultSecret x (PostgresData d) completeRun.1 ∧ t ⊆ completeRun.1 ∧ cloudSqlReady d t.
Proof.
  pose proof (sim_runs (Postgres_Reconcile [gcpPostgres dbProvider] "cro" "db" "app") freshDb
    completeWorld) as R.
  assert (∃ x, Ev (StatusUpdateCR x) (Ok x) ∈ completeRun.1 ∧
    Status_Phase (CR_Status x) = PhaseComplete ∧
    Status_Provider (CR_Status x) = postgresProviderName) as (x & Hx & Hp & Hn).
  { eexists. split; [event_at 44%nat|]. split; vm_compute; reflexivity. }
  eapply (GcpPostgresController_complete [gcpPostgres dbProvider] _ dbProvider) in R
    as (d & t & _ & H); [by exists x, d, t| |exact Hx|exact Hp|exact Hn].
  intros q ->%list_elem_of_singleton _. reflexivity.
  Unshelve. intros q. by apply gcp_single_frame, _.
Defined.

(** ** Snapshots *)

Lemma snapshot_schedule_witness :
  ∃ snaps latest, snapshotsSeen "db" "app" snaps scheduleRun.1 ∧ newestComplete latest snaps ∧
    "db-1" ≠ snapshotName latest.
Proof.
  pose proof (sim_runs (reconcileCloudSqlInstanceSnapshots knownDb) tt scheduleWorld) as R.
  apply snapshot_schedule in R as [R _].
  destruct (R (snapshotCR "db-1" PhaseComplete false 60) (Ok tt))
    as (ret & now & snaps & snaps' & latest & _ & _ & _ & _ & _ & H1 & H2 & H3); [event_at 3%nat|].
  exists snaps', latest. split_and!; [exact H1|exact H2|exact H3].
Defined.

Lemma GcpPostgresSnapshot_exports_witness :
  ∃ i, Ev (Gcp (GetSqlInstance "proj" "ocpappdb")) (Ok i) ∈ exportRun.1 ∧
    bucketGranted "ocpappdb" ("serviceAccount:" +:+ SI_ServiceAccountEmailAddress i) bucketPolicy
      exportRun.1.
Proof.
  pose proof (sim_runs (CreatePostgresSnapshot snapProvider knownDb) newSnapshot (exportWorld [])) as R.
  eapply (GcpPostgresSnapshot_exports _ _ _ _ _ _ "proj" "ocpappdb" ["postgres"] "SQL"
    "gs://ocpappdb/db-3" (Ok tt)) in R as (_ & _ & _ & _ & _ & H); [exact H|event_at 17%nat].
Defined.

Lemma GcpPostgresSnapshot_deletion_witness :
  objectDeleted knownDb "db-3" removeRun.1.
Proof.
  pose proof (sim_runs (DeletePostgresSnapshot snapProvider knownDb) newSnapshot (exportWorld [])) as R.
  apply GcpPostgresSnapshot_deletion in R as (_ & _ & R).
  assert (∃ x, Ev (UpdateSnapshotCR x) (Ok x) ∈ removeRun.1) as (x & Hx) by (eexists; event_at 7%nat).
  destruct (R x _ Hx) as [_ [H|H]]; [discriminate H|exact H].
Defined.
