(* ===== verification/GcpMetricsRuns.v ===== *)
(** * Concrete runs of the metrics on Google Cloud

    The theorems of [GcpMetricsProps] applied to schedules of the collector and to runs
    in the simulated environment of [Sim], with a scheduler that takes the first or the
    last step that is possible. *)
From S2P Require Import Prelude Effects GoFloat GoStrings Json GcpApi Api Resources Metrics.
From S2P Require Import AwsConfig CloudMetrics GcpConfig GcpMetrics GcpMetricsProps Sim GcpRuns.
From stdpp Require Import relations.
Local Open Scope go_scope.

#[local] Existing Instance plainGcp.
Definition metricsProvider : MetricsProviderConfig := NewGCPMetricsProvider "cro".
Definition redisTypes : list CloudProviderMetricType := metricTypesOf redisGaugeMetrics "gcp".
Definition usage : CloudProviderMetricType := {|
  MT_PrometheusMetricName := "cro_redis_memory_usage_percentage_average";
  MT_ProviderMetricName := "redis.googleapis.com/stats/memory/usage_ratio";
  MT_Statistic := "ALIGN_MEAN" |}.
Definition usageOpts (n : nat) : getMetricsOpts := {|
  O_metricsToQuery := replicate n usage; O_filter := redisFilter "projects/proj";
  O_projectID := "projects/proj"; O_defaultLabels := ∅ |}.

(** Three queries fail: one error is returned, one fills the channel, and the third
    goroutine stays. *)
Definition quota : error := WrapErr (AwsErr "ResourceExhausted" "quota") "error listing time series".
Definition leaked : collector := {|
  C_workers := [Done; Done; Failed quota]; C_metricChan := [None; None]; C_errChan := [quota];
  C_doneChan := false; C_loop := Returned (Er quota) |}.
Lemma collector_halts_witness :
  nsteps (step (answered (usageOpts 3))) 8 (newCollector (replicate 3 usage)) leaked ∧ 8 <= 20 ∧
  ((∃ c', step (answered (usageOpts 3)) leaked c') ∨
   (∃ r, C_loop leaked = Returned r) ∧
   ∀ i w, C_workers leaked !! i = Some w → w = Done ∨ ∃ e, w = Failed e ∧ C_errChan leaked ≠ []).
Proof.
  assert (R : nsteps (step (answered (usageOpts 3))) 8 (newCollector (replicate 3 usage)) leaked).
  { assert (answered (usageOpts 3) usage (Er quota)) as A by (eexists; reflexivity).
    eapply nsteps_l; [apply (step_query _ _ 0 usage (Er quota)); [reflexivity|exact A]|].
    eapply nsteps_l; [apply (step_query _ _ 1 usage (Er quota)); [reflexivity|exact A]|].
    eapply nsteps_l; [apply (step_query _ _ 2 usage (Er quota)); [reflexivity|exact A]|].
    eapply nsteps_l; [apply (step_sendError _ _ 0 quota); reflexivity|].
    eapply nsteps_l; [apply (step_takeError _ _ [] quota []); reflexivity|].
    eapply nsteps_l; [apply (step_sendError _ _ 1 quota); reflexivity|].
    eapply nsteps_l; [apply (step_sendMetric _ _ 0 None); [reflexivity|vm_compute; lia]|].
    eapply nsteps_l; [apply (step_sendMetric _ _ 1 None); [reflexivity|vm_compute; lia]|].
    apply nsteps_O. }
  split; [exact R|]. exact (collector_halts (usageOpts 3) 8 leaked R).
Defined.

(** With the interval set in the environment. *)
Definition intervalWorld : world := {|
  w_infra := w_infra (gcpWorld [] [] [] []); w_netconf := w_netconf freshWorld; w_vpcs := [];
  w_subnets := []; w_azs := []; w_offerings := []; w_routeTables := []; w_securityGroups := [];
  w_peerings := []; w_dbSubnetGroups := []; w_cacheSubnetGroups := []; w_crs := [];
  w_configMaps := []; w_dbInstances := []; w_replicationGroups := []; w_cacheClusters := [];
  w_secrets := []; w_env := [(EnvMetricsReconcileTimeout, "60000000000")]; w_fail := [];
  w_storage := w_storage (gcpWorld [] [] [] []) |}.
Definition cpuRun :=
  sim_run (calculateCpuUtilization (S := unit) usage (usageOpts 0)) tt intervalWorld.
Definition cpuMetric : GenericCloudMetric :=
  {| GCM_Name := MT_PrometheusMetricName usage; GCM_Labels := ∅; GCM_Value := fzero |}.
(** What the environment answered. *)
Definition envOf : list event → list (option string) :=
  omap (λ e, let 'Ev c r := e in
    match c return resp c → option (option string) with LookupEnv _ => λ v, Some v | _ => λ _, None end r).
Lemma calculateCpuUtilization_intervals_witness :
  cpuRun.2.1 = Val cpuMetric ∧
  ∃ now d d' a a', (now - d' = now - d)%Z ∧
    cpuRun.1 = [@Ev api TimeNow now; looked (Some "60000000000"); looked (Some "60000000000");
                listed (usageOpts 0) usage REDUCE_SUM (now - d, now)%Z a;
                listed (usageOpts 0) usage REDUCE_SUM (now - d', now - d)%Z a'].
Proof.
  split; [vm_compute; reflexivity|].
  assert (R : runs (calculateCpuUtilization (S := unit) usage (usageOpts 0) tt) cpuRun.1
    (Val cpuMetric, tt)) by concrete_run.
  apply calculateCpuUtilization_intervals in R as (now & v & v' & a & R).
  destruct (metricOf (usageOpts 0) usage a) as [g|e]; [|by destruct R].
  destruct R as (a' & Ht & Hd & _).
  assert (v = Some "60000000000" ∧ v' = Some "60000000000") as [-> ->].
  { assert (envOf cpuRun.1 = [Some "60000000000"; Some "60000000000"]) as He
      by (vm_compute; reflexivity).
    rewrite Ht in He. by injection He as -> ->. }
  eexists now, _, _, a, a'. split; [|exact Ht]. apply Hd; [reflexivity|by eexists].
Defined.

(** A scrape of four metrics.  When the loop prefers the channel that ends it, the metric
    that was asked for is lost. *)
Definition lossy : world := gcpWorld [] [] [] [].
Definition patient : world := with_fail (λ _, [("Schedule", "last")]) lossy.
Definition lossyRun := sim_run (ScrapeRedisMetrics (S := unit) metricsProvider known redisTypes) tt lossy.
Definition patientRun :=
  sim_run (ScrapeRedisMetrics (S := unit) metricsProvider known redisTypes) tt patient.
Definition namesOf (o : outcome error ScrapeMetricsData) : list string :=
  match o with Val ms => omap (λ m, GCM_Name <$> m)%stdpp ms | _ => [] end.
Lemma scrapeMetrics_Val_witness :
  namesOf patientRun.2.1 = namesOf lossyRun.2.1 ++ [MT_PrometheusMetricName usage] ∧
  ∃ ms opts gs rest, lossyRun.2.1 = Val ms ∧ ms = map Some gs ++ rest ∧ length gs = 3 ∧
    mayReturn (answered opts) [usage] (Ok rest).
Proof.
  split; [vm_compute; reflexivity|].
  destruct (lossyRun.2.1) as [ms|e|w] eqn:Eo; [|vm_compute in Eo; discriminate Eo..].
  assert (R : runs (ScrapeRedisMetrics (S := unit) metricsProvider known redisTypes tt) lossyRun.1
    (Val ms, tt)).
  { rewrite <- Eo. replace (lossyRun.2.1, tt) with lossyRun.2 by by destruct lossyRun as [? [? []]].
    exact (sim_runs _ tt lossy). }
  unfold ScrapeRedisMetrics in R.
  apply scrapeMetrics_Val in R as (opts & clusterID & instanceID & gs & rest & _ & Hms & Hgs & Hm).
  exists ms, opts, gs, rest. split_and!; [done|done| |].
  - apply Forall2_length in Hgs. rewrite <- Hgs. vm_compute. reflexivity.
  - replace [usage] with (List.filter (λ m, negb (computed true m)) redisTypes)
      by (vm_compute; reflexivity).
    exact Hm.
Defined.
