(* ===== verification/GcpStrategyRuns.v ===== *)
(** * Concrete strategies on Google Cloud

    The theorem of [GcpStrategyProps] applied to the text of a strategy, with messages
    that are written as they were read. *)
From S2P Require Import Prelude Effects GoNet GoStrings Json JsonPrint GcpApi Api Resources.
From S2P Require Import AwsConfig Strategies StrategyProps GcpConfig GcpSql GcpPostgres GcpStrategies.
From S2P Require Import GcpStrategyProps.
Local Open Scope go_scope.

#[local] Instance plainCodec : MessageCodec := {|
  remarshal := λ v, v;
  marshalIpMapping := λ a, JObj (present [("ipAddress", stringMember (IPM_IpAddress a));
                                          ("timeToRetire", stringMember (IPM_TimeToRetire a));
                                          ("type", stringMember (IPM_Type a))]);
  marshalCreateRedisInstanceRequest := λ r, JObj [("parent", JStr (CRI_Parent r))] |}.
#[local] Instance plainLaws : MessageLaws.
Proof.
  assert (∀ a, typedObject (strings ["ipAddress"; "timeToRetire"; "type"])
    (present [("ipAddress", stringMember (IPM_IpAddress a));
              ("timeToRetire", stringMember (IPM_TimeToRetire a));
              ("type", stringMember (IPM_Type a))])) as Ht.
  { intros a. apply rows_typed; [distinct|].
    repeat (apply Forall2_cons; split; [split; [reflexivity|apply typed_string]|]).
    by apply Forall2_nil_2. }
  split.
  - intros ms. by eexists.
  - done.
  - done.
  - intros a. cbn [decodeIpMapping marshalIpMapping plainCodec]. cbv zeta. repeat read_field.
    by destruct a.
  - intros a. apply Ht.
  - intros a. apply Ht.
Qed.

(** A strategy with backups at another time and a label: the window and the start of the
    backups are set, the other fields of the configuration of the backups are lost. *)
Definition sqlStrategies : string := quoted
  "{`production`: {`region`: ``, `projectID`: `proj`, `createStrategy`: {`instance`: {`name`: `db`, `settings`: {`tier`: `db-custom-2`, `userLabels`: {`a`: `b`}, `backupConfiguration`: {`enabled`: true, `startTime`: `04:00`}}}}, `deleteStrategy`: {}}}".
Definition times : StrategyTimeConfig := NewStrategyTimeConfig 1 5 0 23 30.
Definition sqlOut : string := quoted
  "{`production`:{`region`:``,`projectID`:`proj`,`createStrategy`:{`instance`:{`name`:`db`,`settings`:{`backupConfiguration`:{`startTime`:`01:05`},`maintenanceWindow`:{`day`:7,`hour`:23},`tier`:`db-custom-2`,`userLabels`:{`a`:`b`}}}},`deleteStrategy`:{}}}".
Example reconcilePostgresStrategy_text :
  reconcilePostgresStrategy "production" sqlStrategies times = Val sqlOut.
Proof. vm_compute. reflexivity. Qed.

(** A policy of Memorystore with no window has no first one. *)
Example redisWindows_empty :
  redisWindows times {| CRI_Parent := ""; CRI_InstanceId := "";
    CRI_Instance := Some (setRedisPolicy
      (Some {| MP_WeeklyMaintenanceWindow := Some []; MP_Other := [] |}) emptyRedisInstance) |} =
  out_of_range.
Proof. reflexivity. Qed.
